(* ===== verification/_CoqProject ===== *)
-Q . S2P
Prelude.v
Errors.v
Session.v
Schema.v
Tables.v
Rows.v
Regex.v
Logging.v
AuditLog.v
Users.v
Memberships.v
Organisations.v
MembershipServices.v
Outbox.v
Invites.v
OutboxWorker.v
Platform.v
Commands.v
PrivacyGovernance.v
SubjectExports.v
ExportArtifacts.v
DataSubjectRequests.v
ExportArtifactServices.v
ExportWorker.v
PrivacyMaintenance.v
ExecutionHealth.v
Erasures.v
PrivacyInventory.v
ErasurePreviews.v
Requests.v
RateLimitPolicies.v
RateLimits.v
RateLimitIngress.v
Settings.v
Responses.v
Coroutines.v
Authentication.v
Storage.v
FileTree.v
LocalStorage.v
S3Storage.v
InviteDelivery.v
Api.v
RequestBodies.v
ExportArtifactsApi.v
Application.v
Fixtures.v
RateLimitFixtures.v
RateLimitPolicyProofs.v
RateLimitProofs.v
RateLimitIngressProofs.v
SettingsProofs.v
ResponsesProofs.v
LoggingProofs.v
AuthenticationProofs.v
LocalStorageProofs.v
S3StorageProofs.v
AuditProofs.v
UserProofs.v
MembershipProofs.v
OrganisationProofs.v
InviteProofs.v
QuotaProofs.v
OutboxProofs.v
InviteDeliveryProofs.v
RequestBodiesProofs.v
PlatformProofs.v
CommandsProofs.v
RequestProofs.v
DataSubjectRequestProofs.v
SubjectExportProofs.v
ExportArtifactProofs.v
ExportWorkerProofs.v
ExecutionHealthProofs.v
ErasureProofs.v
ErasurePreviewProofs.v
InvariantProofs.v
ErasureInvariantProofs.v
StepProofs.v
ApplicationProofs.v
