(* ===== verification/Prelude.v ===== *)
(** * A verified model of a multi-tenant FastAPI service

    The program is the backend under [src/backend/app]: users provisioned from an
    identity provider, organisations with memberships and one owner each,
    invites delivered through a transactional outbox, platform staff who
    administer users and organisations, data-subject requests with the export
    and the erasure of a subject's data, and an audit log. This library models
    its services down to the SQL statements they issue and proves what they
    promise, on every branch and over every sequence of requests and background
    jobs; and, beside them, the parts that guard a deployment: the settings and their
    checks, the validation of tokens, the rate limiter, the storage of archives, the mail
    that carries an invite, the bodies and the errors at the edge, the health check and
    the log.

    ** How the program is modelled

    - A coroutine that uses the session is a function on a world: the committed
      database, at most one open transaction with its working copy, and the
      number of draws from outside ([Session.v]). It returns or raises, and its
      effects up to the exception stay. [begin], [begin_nested], [join_or_begin]
      and [close_session] follow SQLAlchemy's documented behaviour with
      [autoflush=False]; a failed flush deactivates the transaction.
    - The clock, [uuid4], [secrets.token_urlsafe], the broker, the delivery of an event,
      HMAC, SHA-256, Fernet, the [ipaddress] module, pydantic's payload validation, the
      storage back end of the export services and the writer of ZIP files are parameters:
      the classes [Env], [Network], [IpNetworks], [Crypto], [Delivery], [StorageAdapter] and
      [ArchiveFiles]. No hypothesis is made about them except where a theorem
      states it. A handler sees its rate limiter as a callback that raises or passes.
    - So are the libraries behind the other components: what the settings call
      ([SettingsLibraries]), PyJWT and the field types of the claims ([Jwt], [ClaimTypes]; the
      laws [JwtLaws] state what a signature check promises), base64, JSON and the HMAC of a
      download address ([TokenCodec]), the answers of an S3 service ([S3]), addresses and
      the mail server ([EmailTypes], [MailServer]), encryption ([Fernet]), texts of UUIDs
      ([UuidType]) and structlog's own processors ([StructLog]).
    - The validator of tokens is shared by the requests of a process: [Coroutines.v] gives
      coroutines with a lock, and its theorems hold for every interleaving of them; a metered
      question also counts how often a coroutine went to the identity provider, so that the
      spacing of forced refreshes bounds requests and not only writes. The local
      storage runs on a POSIX tree ([FileTree.v]) where a crash may cut any operation short;
      the S3 storage runs on commands whose response may be lost and between which other
      writers act.
    - The rate limiter is a coroutine of its own, a function on the state of Redis, of the
      limiter's storage and of the metrics ([RateLimits.v]). The Redis commands and the
      [limits] package are the classes [Redis], [RateLimitItems] and [Limiter], with what
      their documentation says of them as the laws [RedisLaws] and [RateLimitItemLaws].
      Every command takes a turn: what other clients did before it, and whether it fails,
      having run or not. A script is one command, so it is atomic; its fallback is several.
      Numbers in the script are exact, as Lua's doubles are up to 2^53, which the theorems
      ask of the limits.
    - Rows are records and tables are finite maps by primary key ([Schema.v]).
      [Tables.v] gives every table its check constraints, foreign keys and
      partial unique indexes, and the statements [select], [insert_row],
      [update_row] (which touches [updated_at] and writes nothing when no column
      changes), [update_where] and [delete_where], which raise [IntegrityError]
      exactly when a constraint is violated. [wf] says that a database obeys all
      of them.
    - [async with session.begin()] commits the working copy or nothing, so
      transactions run one after another: row locks ([FOR UPDATE]) have no effect
      in the model, which stands for serialisable execution.
    - Text is ASCII. Instants are microseconds since the epoch, identifiers
      natural numbers; [Uuid.str] is the canonical text of an identifier. Row
      keys are not bounded to 128 bits except where a theorem says so.

    ** Files

    - [Prelude.v] (this file): text, pages, batches, identifiers' text.
    - [Errors.v]: [core/errors/exceptions.py], the errors of the erasure and
      governance modules, and the database's exceptions.
    - [Session.v]: the monad and its logic. [wp m Q E d] is about a body run inside a
      transaction, [commits m Q E d] about a call with none open: it returns with
      a committed database in [Q] or raises an exception in [E] with [d] still
      committed; [runs] is its form for several transactions in a row, where the
      exception leaves what was committed before it. [keeps] and [preserves] are
      the invariant forms, [raises] and [throws] bound the exceptions; they are
      proved by the tactics [keeps_solve], [preserves_step] and [raises_step] and
      the hint databases [keeps] and [raises].
    - [Schema.v], [Tables.v]: every [models] module: fourteen tables.
    - [Rows.v]: invariants row by row: [under], and [rows_follow], by which every row
      satisfies a property and every earlier row is still there, evolved.
    - [Regex.v]: regular expressions by derivatives, for the patterns of the code.
    - [Logging.v]: [core/logging/processors.py] and the chain of [factory.py].
    - [AuditLog.v]: [audit/]: recording, minimisation, metadata validation, retention.
    - [Users.v]: [users/] and [access_control/guards.py].
    - [Memberships.v], [Organisations.v], [MembershipServices.v]: [memberships/] and
      [organisations/], with access and onboarding.
    - [Invites.v], [Outbox.v], [OutboxWorker.v]: [invites/], [outbox/].
    - [Platform.v]: [core/platform/], [platform/repositories] and [platform/services].
    - [Commands.v]: [commands/create_platform_admin.py] and [make_platform_admin.py].
    - [PrivacyGovernance.v]: purposes, authorizations, consents, accepted notices.
    - [DataSubjectRequests.v]: [privacy/services/data_subject_requests.py] and its
      repository.
    - [SubjectExports.v]: [privacy/exporters/]: the twelve providers of a subject's
      data with their keyset pages, the document built from them and the stream of
      its text.
    - [ExportArtifacts.v], [ExportArtifactServices.v], [ExportWorker.v]: an export's
      row, its lifecycle, its service, which writes the stream into an archive, and
      [commands/privacy_export_worker.py].
    - [PrivacyMaintenance.v]: [privacy/maintenance.py], the retention pass.
    - [ExecutionHealth.v]: [privacy/services/dsr_execution_health.py], its repository, its
      metrics and its command.
    - [Erasures.v]: [privacy/erasures/]: a provider per table, the orchestrator and the
      execution by a member of staff.
    - [PrivacyInventory.v]: the declared inventories: provider keys, tables, columns.
    - [ErasurePreviews.v]: what is read before an erasure: the plan, the preview, the
      coverage map, the registry of providers, the impact on the database.
    - [Requests.v]: client addresses, proxies and rate-limit buckets
      ([core/rate_limit/identifiers.py], [audit/context.py]).
    - [RateLimitPolicies.v]: [core/rate_limit/policies.py] and [registry.py], with the
      overrides of [core/config/settings.py].
    - [RateLimits.v]: [core/rate_limit/grouped_atomic.py] with its Lua script,
      [dependencies.py], [business.py], [core/observability/rate_limit_metrics.py],
      [invites/api/rate_limits.py] and [privacy/rate_limits.py].
    - [RateLimitIngress.v]: [core/rate_limit/middleware.py] and [lifecycle.py].
    - [Settings.v]: [core/config/settings.py]: each group with its validators and the checks
      of a whole configuration for its environment.
    - [Responses.v]: [core/middleware/request_context.py], [core/errors/problem.py] and
      [handlers.py].
    - [Coroutines.v], [Authentication.v]: coroutines that share a state and a lock;
      [core/auth.py], [auth_jwt.py], [auth_claims.py] and [auth_metadata.py].
    - [Storage.v], [FileTree.v], [LocalStorage.v], [S3Storage.v]: the protocol by which an
      archive is reserved, published and deleted ([privacy/storage/base.py]), and
      [local.py] and [s3.py], which refine it.
    - [InviteDelivery.v]: [invites/services/delivery.py], the dialogue with the mail server,
      and [outbox/services/payload_crypto.py]; the worker as it is configured.
    - [RequestBodies.v]: the schemas of bodies and payloads with their validators, and
      [audit/reasons.py].
    - [Api.v], [ExportArtifactsApi.v]: the handlers under [api], each over a session of
      its own.
    - [Application.v]: the requests and jobs as a transition system on databases.
    - [Fixtures.v], [RateLimitFixtures.v]: the concrete world of the witnesses.
    - One proof file per component; [QuotaProofs.v] joins rate limiting with the services
      and handlers it protects. [InvariantProofs.v], [ErasureInvariantProofs.v] and
      [StepProofs.v] carry the invariants through every operation, execution,
      request and job; [ApplicationProofs.v] draws the conclusions.

    Each operation has the name of the method it translates; a method
    [f]/[_f] pair is the transaction and its body. Loops over a finite list are
    structural recursions, so no fuel is needed there. The retries of the storage back ends
    are bounded in the code, by [_PUBLISH_RETRY_LIMIT] and the attempts of a conditional
    write, and are recursions on that bound. Three loops need fuel. The
    scan of metadata with an explicit stack is given the size of the document;
    [metadata_validation_decided] proves that enough. The loop of the export worker
    is given one more than its backlog; [run_worker_ends] proves that enough. The pages of
    an export are given one more than the rows of their table;
    [export_subject_data_complete] holds for them, so that is enough.

    ** What the theorems show

    - Whole application ([steps_keep_consistent], [never_without_administrator],
      [purge_spares_live_archives], [audit_trail_append_only]): along any sequence of
      the modelled requests and jobs every committed database is well formed,
      organisations with members have exactly one active owner, decided
      data-subject requests were decidable, settled invite events hold no address
      or token, and the audit log only grows and only loses personal data. The platform keeps
      an active administrator who can log in along all steps but the erasure of the last one,
      which the code does not refuse ([erasure_locks_out], a defect): it leaves a record
      without a login. The lists of objects that the retention pass deletes hold only those
      of cancelled, failed and expired artifacts, and no later step makes them live.
    - Settings ([accepted_settings_secure], [deployed_policies_fail_closed]): a configuration
      is accepted exactly when it obeys the rules of its environment, and a deployment it
      accepts has no sensitive policy that fails open. Encryption, HTTPS and processors are
      required under the conditions those theorems state.
    - Authentication ([principal_authenticated], [forced_refreshes_spaced],
      [key_rotation_followed], [deployed_startup_checked]): only a token signed by a published
      key with the claims asked for yields a principal, under any interleaving; forced
      refreshes, and the requests they make, keep their distance; a rotated key is found by a
      request that runs alone; start-up checks the metadata.
    - Storage ([local_adapter_keeps_protocol], [published_archive_served],
      [storage_keys_confined], [download_address_round_trip], [s3_changes_follow_protocol],
      [s3_answers_were_true], [markers_share_revision]): both back ends refine the protocol
      whatever crashes, responses lost or other writers do, keys stay below their root, an
      address is good until it expires; and a defect of the reservation markers: they are all
      empty, hence share a revision, and an owner that lost its reservation can still publish
      under the marker of the next.
    - Mail ([invites_travel_protected], [processed_invites_were_mailed],
      [accept_link_round_trip], [outbox_key_configured]): what protects an invite on its way,
      and that the worker only marks an event processed when the server took the mail.
    - Edges ([required_reason_is_code], [optional_reason_is_code],
      [schema_agrees_with_service], [accepted_requests_coherent],
      [schema_reads_own_payloads], [request_ids_safe], [errors_reported],
      [log_entries_discreet], [plain_entries_kept], [masked_names_alike],
      [sensitive_key_spec]): what bodies are accepted, what clients are told of an error,
      and that a line of the log withholds secrets and addresses and nothing else.
    - Operations ([health_check_true], [admin_command_grants]): the health check counts the
      rows it says and is degraded exactly when some job or artifact has failed or is stuck; the command makes the administrator or changes nothing.
    - Erasures ([erasure_leaves_no_trace], [erasure_blocked],
      [failed_erasure_changes_nothing_else]): what an execution removes, what stops
      one, and that a failed one is undone.
    - Previews ([impact_preview_bounds_erasure], [inventories_agree]): a preview names the
      providers that will run and bounds the rows each changes; the declared
      inventories agree with each other.
    - Subject exports ([export_withholds], [export_subject_data_complete],
      [stream_is_document], [export_columns_declared]): every selected row once and in
      order, the stream is the text of the document, secrets and other people do not
      show, and only declared columns are exported, but for two.
    - Rate limiting ([grouped_consume_spec], [admissions_bounded],
      [fallback_agrees_with_script], [closed_checks_admit_only_counted],
      [invite_quotas_all_or_nothing], [outsiders_spend_no_quota],
      [effective_registry_spec], [ingress_admits_only_signed]): the script counts a group
      of quotas in full or not at all and bounds what a window admits, its fallback agrees
      with it when undisturbed, no failure of Redis opens a policy that fails closed,
      strangers cannot spend a tenant's quotas, the registry holds what the settings say,
      and the ingress lets through only what the edge signed and the limiter counted.
      [preflight_outcomes_unrecorded] and [oversized_timestamp_escapes] are defects.
    - Exports ([run_worker_ends], [process_artifact_settles], [claim_never_steals],
      [stale_lease_fenced]): the worker terminates, settles each artifact it takes,
      takes none that is leased, and cannot write after it lost its lease.
    - Outbox ([process_outbox_event_settles], [invite_token_round_trip],
      [claim_is_exclusive], [apply_result_fenced], [dispatcher_round_strands_nothing],
      [mark_failed_attempt_spec]): claims are exclusive, results are fenced by the
      claim token, attempts are bounded with exponential back-off, processing
      always settles an event, a dispatcher round strands none.
    - Invites ([accept_invite_once], [create_invite_spec], [resend_invite_rotates],
      [expired_invite_stays_pending], [anonymise_completed_invites_spec]): who may
      invite whom, single acceptance, rotation, anonymisation, and a defect: expiry
      is rolled back.
    - Memberships, organisations, users ([change_membership_role_spec],
      [remove_membership_spec], [transfer_membership_spec],
      [create_organisation_for_current_user_spec], [soft_delete_spec],
      [get_or_create_current_user_spec]): functional refinements with the exact
      conditions of success and failure.
    - Platform administration ([resolve_platform_actor_decided],
      [update_platform_staff_role_spec]): who gets through, and that the last
      administrator cannot be removed.
    - Data-subject requests ([submit_request_idempotent], [transition_status_spec],
      [fulfil_platform_data_subject_request_spec], [ambiguous_payload_replayed],
      [unprovisioned_submission_fails], [accepted_key_holds_no_email]): the status
      machine, idempotent submission, fulfilment, safe keys, and two defects.
    - Audit and addresses ([metadata_validation_decided],
      [record_event_stores_minimised], [anonymise_expired_events_effect],
      [client_address_not_spoofable]): metadata validation, minimised storage,
      retention, addresses that a client cannot forge. [anonymised_batch_blocks] and
      [retention_starves] are a defect: a full batch of anonymised events is selected again by
      every run, and newer events keep their personal data.

    Refinement theorems have one shape: [commits operation (fun r d' => ...) (fun e => ...) d],
    where the first postcondition is the specification's precondition together
    with its effect, the second lists the reasons of failure.

    ** What is not modelled

    Response models, which copy columns; which policy each route declares; the ZIP writer
    behind its interface; how the JSON encoder cuts a text into chunks; the rendering of log
    lines; the export of metrics, HTTP metrics and their middleware; the clients of Vault and
    Redis; health endpoints and wiring. These keep no state of the application, or only call
    a library. Column widths ([String(n)]), failures of a commit itself and stale reads of the
    identity map are left out. The storage back ends meet the interface of the export services
    by their types only; authentication, bodies and responses have theorems of their own and
    are not composed with the steps of [Application.v], where the principal and the parsed
    body are inputs. The heartbeat of the export worker is a job of its own
    ([RenewExportLease]), so renewals interleave with whole transactions. *)
From stdpp Require Export base tactics decidable numbers list fin_maps gmap strings sorting pretty.
From Stdlib Require Export Ascii String.
From Stdlib Require Export Lia.

(** [length] is that of lists; the length of a text is [String.length]. *)
Abbreviation length := List.length (only parsing).

#[export] Set Default Goal Selector "!".
Open Scope Z_scope.

(** Identifiers are 128-bit UUIDs, kept as natural numbers; instants are
    microseconds since the Unix epoch. *)
Abbreviation UUID := N (only parsing).
Abbreviation datetime := Z (only parsing).

(** [timedelta(seconds=..)], [timedelta(hours=..)], [timedelta(days=..)] in
    microseconds. *)
Definition seconds (n : Z) : Z := n * 1000000.
Definition hours (n : Z) : Z := seconds (3600 * n).
Definition days (n : Z) : Z := hours (24 * n).

(** ** Text

    Program text is modelled over ASCII: every string is a sequence of
    characters below 128, where Python's and the database's notions of
    lower case and of white space agree. *)
Module Text.

Local Open Scope nat_scope.

(** [str.isspace] on ASCII: tab to carriage return, the four separators, space. *)
Definition is_space (c : ascii) : bool :=
  let n := nat_of_ascii c in
  ((9 <=? n) && (n <=? 13)) || ((28 <=? n) && (n <=? 32)).

Definition is_upper (c : ascii) : bool :=
  let n := nat_of_ascii c in (65 <=? n) && (n <=? 90).

Definition lower_char (c : ascii) : ascii :=
  if is_upper c then ascii_of_nat (nat_of_ascii c + 32) else c.

(** [str.lower] *)
Fixpoint lower (s : string) : string :=
  match s with
  | EmptyString => EmptyString
  | String c r => String (lower_char c) (lower r)
  end.

Fixpoint lstrip (s : string) : string :=
  match s with
  | EmptyString => EmptyString
  | String c r => if is_space c then lstrip r else s
  end.

Definition is_empty (s : string) : bool :=
  match s with EmptyString => true | String _ _ => false end.

Fixpoint rstrip (s : string) : string :=
  match s with
  | EmptyString => EmptyString
  | String c r =>
      let r' := rstrip r in
      if is_space c && is_empty r' then EmptyString else String c r'
  end.

(** [str.strip] *)
Definition strip (s : string) : string := rstrip (lstrip s).

Fixpoint forallb_chars (p : ascii -> bool) (s : string) : bool :=
  match s with
  | EmptyString => true
  | String c r => p c && forallb_chars p r
  end.

(** [needle in s] *)
Fixpoint contains (needle s : string) : bool :=
  String.prefix needle s ||
  match s with
  | EmptyString => false
  | String _ r => contains needle r
  end.

(** [s.startswith(p)] and [s.endswith(p)] *)
Definition starts_with (p s : string) : bool := String.prefix p s.

Fixpoint ends_with (p s : string) : bool :=
  String.eqb p s ||
  match s with
  | EmptyString => false
  | String _ r => ends_with p r
  end.

(** [s.replace(a, b)] for single characters *)
Fixpoint replace_char (a b : ascii) (s : string) : string :=
  match s with
  | EmptyString => EmptyString
  | String c r => String (if Ascii.eqb c a then b else c) (replace_char a b r)
  end.

(** [s.split()]: the maximal runs of non-space characters *)
Fixpoint split_words_from (word s : string) : list string :=
  match s with
  | EmptyString => if is_empty word then [] else [word]
  | String c r =>
      if is_space c
      then if is_empty word then split_words_from "" r
           else word :: split_words_from "" r
      else split_words_from (word ++ String c EmptyString)%string r
  end.

Definition split_words (s : string) : list string := split_words_from "" s.

(** [sep.join(l)] *)
Definition join (sep : string) (l : list string) : string := String.concat sep l.

(** [s[:n]] *)
Fixpoint truncate (n : nat) (s : string) : string :=
  match n, s with
  | O, _ | _, EmptyString => EmptyString
  | S m, String c r => String c (truncate m r)
  end.

(** [x ILIKE pattern]: [%] matches any text, [_] any character, a backslash
    takes the next character literally, and case is ignored. *)
Fixpoint like (pattern s : string) : bool :=
  match pattern with
  | EmptyString => is_empty s
  | String p rest =>
      if Ascii.eqb p "%" then
        (fix any (s : string) : bool :=
           like rest s || match s with EmptyString => false | String _ r => any r end) s
      else if Ascii.eqb p "092" then
        match rest, s with
        | String q rest', String c r => Ascii.eqb q c && like rest' r
        | _, _ => false
        end
      else match s with
           | EmptyString => false
           | String c r => (Ascii.eqb p "_" || Ascii.eqb p c) && like rest r
           end
  end.

Definition ilike (pattern s : string) : bool := like (lower pattern) (lower s).

(** A column that may be NULL does not match. *)
Definition ilike_opt (pattern : string) (s : option string) : bool :=
  match s with None => false | Some s => ilike pattern s end.

Lemma lower_char_idem c : lower_char (lower_char c) = lower_char c.
Proof. destruct c as [[] [] [] [] [] [] [] []]; reflexivity. Qed.

Lemma lower_idem s : lower (lower s) = lower s.
Proof. induction s as [|c r IH]; simpl; [done|]. by rewrite lower_char_idem, IH. Qed.

Lemma lower_char_space c : is_space (lower_char c) = is_space c.
Proof. destruct c as [[] [] [] [] [] [] [] []]; reflexivity. Qed.

Lemma lower_empty s : is_empty (lower s) = is_empty s.
Proof. by destruct s. Qed.

Lemma lstrip_lower s : lstrip (lower s) = lower (lstrip s).
Proof.
  induction s as [|c r IH]; simpl; [done|].
  rewrite lower_char_space. by destruct (is_space c).
Qed.

Lemma rstrip_lower s : rstrip (lower s) = lower (rstrip s).
Proof.
  induction s as [|c r IH]; simpl; [done|].
  rewrite lower_char_space, IH, lower_empty.
  by destruct (is_space c && is_empty (rstrip r)).
Qed.

Lemma strip_lower s : strip (lower s) = lower (strip s).
Proof. unfold strip. by rewrite lstrip_lower, rstrip_lower. Qed.

Lemma rstrip_idem s : rstrip (rstrip s) = rstrip s.
Proof.
  induction s as [|c r IH]; simpl; [done|].
  destruct (is_space c && is_empty (rstrip r)) eqn:E; simpl; [done|].
  by rewrite IH, E.
Qed.

Lemma lstrip_head_fixed s :
  lstrip s = s -> lstrip (rstrip s) = rstrip s.
Proof.
  destruct s as [|c r]; simpl; [done|].
  destruct (is_space c) eqn:Ec; intros H.
  - exfalso. assert (Hl : String.length (lstrip r) <= String.length r).
    { clear. induction r as [|d r IH]; simpl; [lia|].
      destruct (is_space d); simpl; lia. }
    rewrite H in Hl. simpl in Hl. lia.
  - simpl. by rewrite Ec.
Qed.

Lemma lstrip_idem s : lstrip (lstrip s) = lstrip s.
Proof.
  induction s as [|c r IH]; simpl; [done|].
  destruct (is_space c) eqn:E; [done|]. simpl. by rewrite E.
Qed.

Lemma strip_idem s : strip (strip s) = strip s.
Proof.
  unfold strip. rewrite lstrip_head_fixed by apply lstrip_idem.
  apply rstrip_idem.
Qed.

Lemma append_assoc (a b c : string) : ((a ++ b) ++ c)%string = (a ++ b ++ c)%string.
Proof. unfold String.append. induction a as [|x a IH]; simpl; [done|]. by rewrite IH. Qed.

Lemma append_nil_r (a : string) : (a ++ "")%string = a.
Proof. unfold String.append. induction a as [|x a IH]; simpl; [done|]. by rewrite IH. Qed.

Lemma length_append (a b : string) : String.length (a ++ b) = String.length a + String.length b.
Proof. unfold String.append. induction a as [|x a IH]; simpl; [done|]. by rewrite IH. Qed.

Lemma prefix_append (p s : string) : String.prefix p (p ++ s) = true.
Proof.
  unfold String.append. induction p as [|c p IH]; simpl; [by destruct s|]. by destruct (ascii_dec c c).
Qed.

Lemma forallb_chars_append p (a b : string) :
  forallb_chars p (a ++ b) = forallb_chars p a && forallb_chars p b.
Proof. unfold String.append. induction a as [|x a IH]; simpl; [done|]. by rewrite IH, andb_assoc. Qed.

End Text.

(** ** Ordered pages: [order_by(created_at.desc(), id.desc()).offset(o).limit(l)] *)
Definition newest_first {R} (created_at : R -> Z) (id : R -> N) (r r' : R) : Prop :=
  created_at r' < created_at r \/ (created_at r = created_at r' /\ (id r' <= id r)%N).

#[export] Instance newest_first_dec {R} (created_at : R -> Z) (id : R -> N) r r' :
  Decision (newest_first created_at id r r').
Proof. unfold newest_first. apply _. Defined.

Definition page {R} (limit offset : nat) (l : list R) : list R := take limit (drop offset l).

Lemma page_length {R} limit offset (l : list R) : (length (page limit offset l) <= limit)%nat.
Proof. unfold page. rewrite length_take. lia. Qed.

(** ** Composite orders: [order_by] of several columns, as a list of numbers *)
Fixpoint lex_le (x y : list Z) : bool :=
  match x, y with
  | [], _ => true
  | _ :: _, [] => false
  | a :: x, b :: y => (a <? b) || ((a =? b) && lex_le x y)
  end.

Definition ordered_by {R} (key : R -> list Z) (r r' : R) : Prop := lex_le (key r) (key r') = true.

#[export] Instance ordered_by_dec {R} (key : R -> list Z) r r' : Decision (ordered_by key r r').
Proof. unfold ordered_by. apply _. Defined.

(** [column.asc().nulls_last()] *)
Definition nulls_last (x : option Z) : list Z :=
  match x with Some n => [0; n] | None => [1; 0] end.

(** ** Batches: [order_by(..).limit(n)] over the rows of a query *)
Section Batch.
Context {A : Type} (R : relation A) `{forall x y, Decision (R x y)} (n : nat) (l : list A).

Lemma batch_length : (length (take n (merge_sort R l)) <= n)%nat.
Proof. rewrite length_take. lia. Qed.

Lemma batch_subset x : x ∈ take n (merge_sort R l) -> x ∈ l.
Proof.
  intros Hx. rewrite <- (merge_sort_Permutation R l). by apply (subseteq_take n).
Qed.

(** A batch that is not full is everything. *)
Lemma batch_all x :
  (length (take n (merge_sort R l)) < n)%nat -> x ∈ l -> x ∈ take n (merge_sort R l).
Proof.
  rewrite length_take. intros Hlen Hx. rewrite take_ge by lia.
  by rewrite merge_sort_Permutation.
Qed.

Lemma batch_NoDup : NoDup l -> NoDup (take n (merge_sort R l)).
Proof.
  intros HN. rewrite <- (merge_sort_Permutation R l), <- (take_drop n) in HN.
  by apply NoDup_app in HN as [? _].
Qed.
End Batch.

(** ** The canonical text of a UUID: 8-4-4-4-12 lower-case hexadecimal digits *)
Module Uuid.

Local Open Scope N_scope.

Definition hex_digit (n : N) : ascii :=
  ascii_of_N (if n <? 10 then 48 + n else 87 + n).

(** The low [w] hexadecimal digits of [n], put in front of [acc]. *)
Fixpoint hex (w : nat) (n : N) (acc : string) : string :=
  match w with
  | O => acc
  | S w' => hex w' (n / 16) (String (hex_digit (n mod 16)) acc)
  end.

(** [str(uuid)] *)
Definition str (u : UUID) : string :=
  hex 8 (u / 16 ^ 24) (String "-" (
  hex 4 (u / 16 ^ 20) (String "-" (
  hex 4 (u / 16 ^ 16) (String "-" (
  hex 4 (u / 16 ^ 12) (String "-" (
  hex 12 u ""))))))))%string.

Lemma hex_digit_inj a b :
  a < 16 -> b < 16 -> hex_digit a = hex_digit b -> a = b.
Proof.
  unfold hex_digit. intros Ha Hb H%(f_equal N_of_ascii).
  rewrite !N_ascii_embedding in H;
    destruct (N.ltb_spec a 10), (N.ltb_spec b 10); lia.
Qed.

Lemma hex_inj w : forall n m a b,
  hex w n a = hex w m b -> n mod 16 ^ N.of_nat w = m mod 16 ^ N.of_nat w /\ a = b.
Proof.
  induction w as [|w IH]; intros n m a b H; simpl in H.
  - simpl. by rewrite !N.mod_1_r.
  - apply IH in H as [Hq Hs]. injection Hs as Hd ->.
    apply hex_digit_inj in Hd; [|apply N.mod_lt; lia..].
    split; [|done].
    rewrite Nat2N.inj_succ, N.pow_succ_r'.
    rewrite !N.Div0.mod_mul_r. by rewrite Hq, Hd.
Qed.

Lemma string_tail_inj a b s t : String a s = String b t -> s = t.
Proof. by injection 1. Qed.

Lemma digits_split k a b :
  k <> 0 -> a mod k = b mod k -> a / k = b / k -> a = b.
Proof. intros Hk H1 H2. rewrite (N.div_mod a k), (N.div_mod b k) by done. congruence. Qed.

Lemma length_hex w : forall n acc, String.length (hex w n acc) = (w + String.length acc)%nat.
Proof. induction w as [|w IH]; intros n acc; simpl; [done|]. rewrite IH. simpl. lia. Qed.

Lemma hex_app w n a s : (hex w n a ++ s)%string = hex w n (a ++ s)%string.
Proof. revert n a. induction w as [|w IH]; intros n a; simpl; [done|]. apply IH. Qed.

Lemma string_app c a s : (String c a ++ s)%string = String c (a ++ s)%string.
Proof. done. Qed.

(** The text of a UUID has a fixed length: texts that begin with it name it. *)
Lemma str_app_inj u v s t :
  u < 16 ^ 32 -> v < 16 ^ 32 -> (str u ++ s)%string = (str v ++ t)%string -> u = v.
Proof.
  unfold str. intros Hu Hv H. repeat (rewrite hex_app in H || rewrite string_app in H).
  repeat match goal with
  | H : hex _ _ _ = hex _ _ _ |- _ => apply hex_inj in H as [? H]
  | H : String _ _ = String _ _ |- _ => apply string_tail_inj in H
  end.
  clear H. cbn [N.of_nat Pos.of_succ_nat Pos.succ] in *.
  replace (16 ^ 24) with (16 ^ 12 * 16 ^ 4 * 16 ^ 4 * 16 ^ 4) in * by reflexivity.
  replace (16 ^ 20) with (16 ^ 12 * 16 ^ 4 * 16 ^ 4) in * by reflexivity.
  replace (16 ^ 16) with (16 ^ 12 * 16 ^ 4) in * by reflexivity.
  rewrite <- !N.Div0.div_div in *.
  apply (digits_split (16 ^ 12)); [lia|assumption|].
  do 3 (apply (digits_split (16 ^ 4)); [lia|assumption|]).
  rewrite <- (N.mod_small (u / _ / _ / _ / _) (16 ^ 8)), <- (N.mod_small (v / _ / _ / _ / _) (16 ^ 8)); [assumption|..];
    rewrite !N.Div0.div_div; apply N.Div0.div_lt_upper_bound; done.
Qed.

(** *** Reading the text back *)

Definition digit_value (c : ascii) : option N :=
  let n := N_of_ascii c in
  if (48 <=? n) && (n <? 58) then Some (n - 48)
  else if (97 <=? n) && (n <? 103) then Some (n - 87) else None.

(** Its hexadecimal digits, whatever stands between them. *)
Fixpoint digits (s : string) (acc : N) : N :=
  match s with
  | EmptyString => acc
  | String c s => digits s (match digit_value c with Some d => acc * 16 + d | None => acc end)
  end.

Definition of_str (s : string) : UUID := digits s 0.

Lemma digit_value_hex d : d < 16 -> digit_value (hex_digit d) = Some d.
Proof.
  intros Hd. unfold digit_value, hex_digit.
  assert (Hin : In d (map N.of_nat (seq 0 16))).
  { apply in_map_iff. exists (N.to_nat d). split; [lia|]. apply in_seq. lia. }
  simpl in Hin. repeat (destruct Hin as [<-|Hin]; [reflexivity|]). done.
Qed.

Lemma digits_hex w n s acc : digits (hex w n s) acc = digits s (acc * 16 ^ N.of_nat w + n mod 16 ^ N.of_nat w).
Proof.
  revert n s acc. induction w as [|w IH]; intros n s acc; simpl hex.
  - by rewrite N.mod_1_r, N.mul_1_r, N.add_0_r.
  - rewrite IH. simpl digits. rewrite digit_value_hex by (apply N.mod_lt; lia).
    f_equal. rewrite Nat2N.inj_succ, N.pow_succ_r', N.Div0.mod_mul_r. lia.
Qed.

Lemma digits_dash s acc : digits (String "-" s) acc = digits s acc.
Proof. done. Qed.

(** A 128-bit identifier is read back from its text. *)
Lemma of_str_str u : u < 16 ^ 32 -> of_str (str u) = u.
Proof.
  intros Hu. unfold of_str, str. rewrite !digits_hex, !digits_dash, !digits_hex.
  rewrite ?digits_dash, ?digits_hex, ?digits_dash, ?digits_hex, ?digits_dash, ?digits_hex, ?digits_dash, ?digits_hex.
  simpl digits. cbn [N.of_nat Pos.of_succ_nat Pos.succ].
  replace (16 ^ 24) with (16 ^ 12 * 16 ^ 4 * 16 ^ 4 * 16 ^ 4) in * by reflexivity.
  replace (16 ^ 20) with (16 ^ 12 * 16 ^ 4 * 16 ^ 4) in * by reflexivity.
  replace (16 ^ 16) with (16 ^ 12 * 16 ^ 4) in * by reflexivity.
  rewrite <- !N.Div0.div_div. rewrite (N.mod_small (u / _ / _ / _ / _) (16 ^ 8)).
  2:{ rewrite !N.Div0.div_div. by apply N.Div0.div_lt_upper_bound. }
  assert (Hd : forall a k, k <> 0 -> a / k * k + a mod k = a).
  { intros a k Hk. rewrite (N.div_mod a k) at 3 by done. lia. }
  rewrite N.mul_0_l, N.add_0_l, !Hd by done. done.
Qed.

(** Two UUIDs with the same text are equal. *)
Lemma str_inj u v : u < 16 ^ 32 -> v < 16 ^ 32 -> str u = str v -> u = v.
Proof. intros Hu Hv H. apply (str_app_inj u v "" ""); [done..|]. by rewrite H. Qed.

End Uuid.
