(* ===== verification/Errors.v ===== *)
(** Application errors: the exception classes of
    [core/errors/exceptions.py] with their HTTP status and error code, and
    the other exceptions the modelled code lets escape. *)
From S2P Require Import Prelude.

(** [core/errors/codes.py] *)
Inductive ErrorCode :=
  | BAD_REQUEST | UNAUTHORIZED | FORBIDDEN | NOT_FOUND | METHOD_NOT_ALLOWED
  | CONFLICT | VALIDATION_ERROR | RATE_LIMITED | RATE_LIMITER_UNAVAILABLE
  | INTERNAL_ERROR.

(** The subclasses of [AppError]. *)
Inductive AppErrorClass :=
  | BadRequest | Unauthorized | Forbidden | NotFound | Conflict
  | TooManyRequests | RateLimiterUnavailable.

#[export] Instance AppErrorClass_eq_dec : EqDecision AppErrorClass.
Proof. solve_decision. Defined.

(** The class attribute [status_code] *)
Definition status_code (c : AppErrorClass) : Z :=
  match c with
  | BadRequest => 400 | Unauthorized => 401 | Forbidden => 403
  | NotFound => 404 | Conflict => 409 | TooManyRequests => 429
  | RateLimiterUnavailable => 503
  end.

(** The class attribute [error_code] *)
Definition error_code (c : AppErrorClass) : ErrorCode :=
  match c with
  | BadRequest => BAD_REQUEST | Unauthorized => UNAUTHORIZED
  | Forbidden => FORBIDDEN | NotFound => NOT_FOUND | Conflict => CONFLICT
  | TooManyRequests => RATE_LIMITED
  | RateLimiterUnavailable => RATE_LIMITER_UNAVAILABLE
  end.

(** The exceptions of [privacy/erasures/] and [privacy/exporters/], each a [ValueError]
    with a [reason_code]. *)
Inductive ErasureErrorClass :=
  | AuditErasureError | InviteErasureError | OutboxErasureError | UserProfileErasureError
  | RemainingInventoryErasureError | ErasureOrchestrationError | ErasureExecutionError
  | ErasureImpactPreviewError | SubjectDataExportError.

#[export] Instance ErasureErrorClass_eq_dec : EqDecision ErasureErrorClass.
Proof. solve_decision. Defined.

(** The subclasses of [PrivacyGovernanceError] in [privacy/services/governance.py]. *)
Inductive GovernanceErrorClass := | PrivacyConfigurationError | PrivacyProcessingDenied.

#[export] Instance GovernanceErrorClass_eq_dec : EqDecision GovernanceErrorClass.
Proof. solve_decision. Defined.

(** What a handler can raise. [AppError] carries its class, its detail and
    the [extra] members of the problem document; the others are the exceptions of
    the privacy package, of Python and of SQLAlchemy that reach the modelled code. *)
Inductive exn :=
  | AppError (c : AppErrorClass) (detail : string) (extra : list (string * string))
  | ErasureError (c : ErasureErrorClass) (reason_code : string)
  | GovernanceError (c : GovernanceErrorClass) (msg : string)
  | ValueError (msg : string)
  | IntegrityError
  | StaleDataError
  | MultipleResultsFound
  | PendingRollbackError
  | InvalidRequestError
  | OtherError (type_name : string).

#[export] Instance exn_eq_dec : EqDecision exn.
Proof. solve_decision. Defined.

Definition BadRequestError (detail : string) : exn := AppError BadRequest detail [].
Definition ForbiddenError (detail : string) : exn := AppError Forbidden detail [].
Definition NotFoundError (detail : string) : exn := AppError NotFound detail [].
Definition ConflictError (detail : string) : exn := AppError Conflict detail [].

Definition is_integrity_error (e : exn) : bool :=
  match e with IntegrityError => true | _ => false end.
