(* ===== verification/Session.v ===== *)
(** The database session: a state and error monad over a committed database
    and at most one open transaction, after SQLAlchemy's [AsyncSession] as
    [core/db/session.py] configures it ([autoflush=False]), and the program
    logic the components' theorems are proved with. *)
From S2P Require Import Prelude Errors.

(** The sources of values the program draws from outside, each indexed by the
    number of draws made so far: the clock ([datetime.now(UTC)]), [uuid4()] and
    [secrets.token_urlsafe(32)]. *)
Class Env := {
  clock : nat -> datetime;
  uuid4 : nat -> UUID;
  token_urlsafe : nat -> string;
}.

Inductive result (A : Type) :=
  | Ok (a : A)
  | Err (e : exn).
Arguments Ok {A} a.
Arguments Err {A} e.

Section Session.
Context {Db : Type}.

(** The session's transaction: none yet, one with its working copy of the
    database, or one a failed flush has deactivated (only a rollback leaves
    that state). *)
Inductive Tx :=
  | NoTx
  | Active (working : Db)
  | Inactive.

Record World := mkWorld {
  committed : Db;
  tx : Tx;
  ticks : nat;
}.

(** A coroutine that uses the session: it returns or raises, and leaves the
    world changed either way. *)
Definition M (A : Type) : Type := World -> result A * World.

#[export] Instance M_ret : MRet M := fun A a w => (Ok a, w).
#[export] Instance M_bind : MBind M := fun A B f m w =>
  match m w with
  | (Ok a, w') => f a w'
  | (Err e, w') => (Err e, w')
  end.

(** [raise e] *)
Definition raise {A} (e : exn) : M A := fun w => (Err e, w).

(** [if b: raise e] *)
Definition raise_if (b : bool) (e : exn) : M unit :=
  if b then raise e else mret tt.

(** [try: m / except IntegrityError: h] *)
Definition except_integrity {A} (m : M A) (h : M A) : M A := fun w =>
  match m w with
  | (Err e, w') => if is_integrity_error e then h w' else (Err e, w')
  | r => r
  end.

(** [if x is None: raise e] *)
Definition or_raise {A} (x : option A) (e : exn) : M A :=
  match x with Some a => mret a | None => raise e end.

(** ** Statements

    The first statement of a session begins a transaction (autobegin). *)
Definition get_db : M Db := fun w =>
  match tx w with
  | NoTx => (Ok (committed w), mkWorld (committed w) (Active (committed w)) (ticks w))
  | Active d => (Ok d, w)
  | Inactive => (Err PendingRollbackError, w)
  end.

Definition put_db (d : Db) : M unit := fun w =>
  (Ok tt, mkWorld (committed w) (Active d) (ticks w)).

(** A flush that fails deactivates the transaction. *)
Definition fail_flush {A} (e : exn) : M A := fun w =>
  (Err e, mkWorld (committed w) Inactive (ticks w)).

Definition draw {A} (f : nat -> A) : M A := fun w =>
  (Ok (f (ticks w)), mkWorld (committed w) (tx w) (S (ticks w))).

(** A call of a service outside the database (Redis, mail): it cannot see the
    session, and it returns or raises. *)
Definition await_external {A} (f : nat -> result A) : M A := fun w =>
  (f (ticks w), mkWorld (committed w) (tx w) (S (ticks w))).

Definition now `{Env} : M datetime := draw clock.
(** [reference or datetime.now(UTC)] *)
Definition now_or `{Env} (reference : option datetime) : M datetime :=
  match reference with Some n => mret n | None => now end.
Definition new_uuid `{Env} : M UUID := draw uuid4.
Definition new_token `{Env} : M string := draw token_urlsafe.

(** ** Transactions *)

(** [session.in_transaction()] *)
Definition in_transaction : M bool := fun w =>
  (Ok (match tx w with NoTx => false | _ => true end), w).

(** [async with session.begin(): body]: commits when [body] returns, rolls
    back and re-raises when it raises. *)
Definition begin {A} (body : M A) : M A := fun w =>
  match tx w with
  | NoTx =>
      match body (mkWorld (committed w) (Active (committed w)) (ticks w)) with
      | (Ok a, mkWorld c (Active d) t) => (Ok a, mkWorld d NoTx t)
      | (Ok a, mkWorld c NoTx t) => (Ok a, mkWorld c NoTx t)
      | (Ok a, mkWorld c Inactive t) => (Err PendingRollbackError, mkWorld c NoTx t)
      | (Err e, mkWorld c _ t) => (Err e, mkWorld c NoTx t)
      end
  | _ => (Err InvalidRequestError, w)
  end.

(** The services' [if self.session.in_transaction(): return await f() ...
    async with self.session.begin(): return await f()]. *)
Definition join_or_begin {A} (body : M A) : M A :=
  b ← in_transaction; if (b : bool) then body else begin body.

(** ** Control

    [for x in l: body(x)], the results collected *)
Fixpoint for_each {A B} (l : list A) (body : A -> M B) : M (list B) :=
  match l with
  | [] => mret []
  | x :: l => y ← body x; ys ← for_each l body; mret (y :: ys)
  end.

(** [try: m / except Exception as exc: h(exc)] *)
Definition try_except {A} (m : M A) (h : exn -> M A) : M A := fun w =>
  match m w with
  | (Err e, w') => h e w'
  | r => r
  end.

(** [try: m / finally: f]: what [f] raises replaces the outcome of [m]. *)
Definition try_finally {A} (m : M A) (f : M unit) : M A := fun w =>
  let '(r, w') := m w in
  match f w' with
  | (Ok _, w'') => (r, w'')
  | (Err e, w'') => (Err e, w'')
  end.

(** [async with session.begin_nested(): body]: a savepoint. *)
Definition begin_nested {A} (body : M A) : M A :=
  d ← get_db;
  fun w =>
    match body w with
    | (Ok a, w') => (Ok a, w')
    | (Err e, w') => (Err e, mkWorld (committed w') (Active d) (ticks w'))
    end.

(** Leaving [async with session_factory() as session] rolls back what is not
    committed. *)
Definition close_session (w : World) : World := mkWorld (committed w) NoTx (ticks w).

(** [async with session_factory() as session: handler], which is also the scope of
    [get_db_session]. *)
Definition with_session {A} (handler : M A) : M A := fun w =>
  let '(r, w') := handler w in (r, close_session w').

(** ** Program logic

    [wp m Q E d]: run inside a transaction whose working copy is [d], [m]
    leaves the committed database alone, and either returns a value and a
    working copy satisfying [Q], or raises an exception satisfying [E]. *)
Definition wp {A} (m : M A) (Q : A -> Db -> Prop) (E : exn -> Prop) (d : Db) : Prop :=
  forall c t,
    match m (mkWorld c (Active d) t) with
    | (Ok a, w') => committed w' = c /\ exists d', tx w' = Active d' /\ Q a d'
    | (Err e, w') => committed w' = c /\ E e
    end.

(** [commits m Q E d]: called with no transaction open and [d] committed, [m]
    either returns with a committed database satisfying [Q], or raises
    with [d] still committed; no transaction is left open. *)
Definition commits {A} (m : M A) (Q : A -> Db -> Prop) (E : exn -> Prop) (d : Db) : Prop :=
  forall t,
    match m (mkWorld d NoTx t) with
    | (Ok a, w') => tx w' = NoTx /\ Q a (committed w')
    | (Err e, w') => tx w' = NoTx /\ committed w' = d /\ E e
    end.

(** Postconditions for exceptions: any, none. *)
Definition any_exn (_ : exn) : Prop := True.

Section Rules.
Context {A B : Type}.
Implicit Types (d : Db) (E : exn -> Prop).

Lemma wp_ret (a : A) (Q : A -> Db -> Prop) E d : Q a d -> wp (mret a) Q E d.
Proof. intros HQ c t. simpl. eauto. Qed.

Lemma wp_raise (e : exn) (Q : A -> Db -> Prop) E d : E e -> wp (raise e) Q E d.
Proof. intros HE c t. by simpl. Qed.

Lemma wp_fail_flush (e : exn) (Q : A -> Db -> Prop) E d : E e -> wp (fail_flush e) Q E d.
Proof. intros HE c t. by simpl. Qed.

Lemma wp_bind (m : M A) (f : A -> M B) Q E d :
  wp m (fun a d' => wp (f a) Q E d') E d -> wp (m ≫= f) Q E d.
Proof.
  intros Hm c t. specialize (Hm c t).
  change (m ≫= f) with (fun w => match m w with (Ok a, w') => f a w' | (Err e, w') => (Err e, w') end).
  cbv beta. destruct (m _) as [[a|e] [c' tx' t']]; simpl in *; [|done].
  destruct Hm as (-> & d' & -> & Hf). apply Hf.
Qed.

Lemma wp_mono (m : M A) (Q Q' : A -> Db -> Prop) (E E' : exn -> Prop) d :
  wp m Q E d ->
  (forall a d', Q a d' -> Q' a d') -> (forall e, E e -> E' e) ->
  wp m Q' E' d.
Proof.
  intros Hm HQ HE c t. specialize (Hm c t).
  destruct (m _) as [[a|e] w']; [destruct Hm as (? & d' & ? & ?) | destruct Hm]; eauto.
Qed.

(** A body is deterministic: its two postconditions hold together. *)
Lemma wp_and (m : M A) (Q Q' : A -> Db -> Prop) (E E' : exn -> Prop) d :
  wp m Q E d -> wp m Q' E' d -> wp m (fun a d' => Q a d' /\ Q' a d') (fun e => E e /\ E' e) d.
Proof.
  intros Hm Hm' c t. specialize (Hm c t). specialize (Hm' c t).
  destruct (m _) as [[a|e] w']; [|naive_solver].
  destruct Hm as (Hc & d' & Hd & HQ), Hm' as (_ & d'' & Hd' & HQ').
  split; [done|]. exists d'. split; [done|]. split; [done|]. congruence.
Qed.

Lemma wp_get_db (Q : Db -> Db -> Prop) E d : Q d d -> wp get_db Q E d.
Proof. intros HQ c t. simpl. eauto. Qed.

Lemma wp_put_db d' (Q : unit -> Db -> Prop) E d : Q tt d' -> wp (put_db d') Q E d.
Proof. intros HQ c t. simpl. eauto. Qed.

Lemma wp_draw (f : nat -> A) (Q : A -> Db -> Prop) E d :
  (forall i, Q (f i) d) -> wp (draw f) Q E d.
Proof. intros HQ c t. simpl. eauto. Qed.

Lemma wp_await_external (f : nat -> result A) (Q : A -> Db -> Prop) E d :
  (forall i a, f i = Ok a -> Q a d) -> (forall i e, f i = Err e -> E e) ->
  wp (await_external f) Q E d.
Proof. intros HQ HE c t. unfold await_external. destruct (f _) eqn:Ef; simpl; eauto. Qed.

Lemma wp_raise_if b e (Q : unit -> Db -> Prop) E d :
  (b = true -> E e) -> (b = false -> Q tt d) -> wp (raise_if b e) Q E d.
Proof. destruct b; intros H1 H2 c t; simpl; eauto. Qed.

Lemma wp_or_raise (x : option A) e (Q : A -> Db -> Prop) E d :
  (x = None -> E e) -> (forall a, x = Some a -> Q a d) -> wp (or_raise x e) Q E d.
Proof. destruct x; intros H1 H2 c t; simpl; eauto. Qed.

Lemma wp_in_transaction (Q : bool -> Db -> Prop) E d :
  Q true d -> wp in_transaction Q E d.
Proof. intros HQ c t. simpl. eauto. Qed.

(** Inside a transaction, [join_or_begin] only runs its body. *)
Lemma wp_join_or_begin (m : M A) Q E d :
  wp m Q E d -> wp (join_or_begin m) Q E d.
Proof. intros Hm c t. apply Hm. Qed.

(** A handler that only translates the exception. *)
Lemma wp_except_raise (m : M A) e (Q : A -> Db -> Prop) E d :
  wp m Q (fun e' => if is_integrity_error e' then E e else E e') d ->
  wp (except_integrity m (raise e)) Q E d.
Proof.
  intros Hm c t. specialize (Hm c t). unfold except_integrity.
  destruct (m _) as [[a|e'] w']; [done|].
  destruct (is_integrity_error e'); naive_solver.
Qed.

(** A handler that calls an outside service and raises again. *)
Lemma wp_except_external {C} (m : M A) (f : nat -> result C) (Q : A -> Db -> Prop) E d :
  wp m Q E d -> (forall i e, f i = Err e -> E e) ->
  wp (try_except m (fun e => await_external f ≫= fun _ => raise e)) Q E d.
Proof.
  intros Hm HE c t. specialize (Hm c t). unfold try_except.
  destruct (m _) as [[a|e] w']; [done|].
  change (await_external f ≫= ?k) with (fun w => match await_external f w with (Ok a, w') => k a w' | (Err e, w') => (Err e, w') end).
  cbv beta. unfold await_external. destruct Hm as [Hc He].
  destruct (f _) eqn:Hf; simpl; eauto.
Qed.

(** A handler of a savepoint resumes from the savepoint's working copy. *)
Lemma wp_except_nested (m h : M A) (Q : A -> Db -> Prop) (E E' : exn -> Prop) d :
  wp m Q E' d ->
  (forall e, is_integrity_error e = false -> E' e -> E e) ->
  (E' IntegrityError -> wp h Q E d) ->
  wp (except_integrity (begin_nested m) h) Q E d.
Proof.
  intros Hm HE Hh c t. specialize (Hm c t).
  unfold except_integrity, begin_nested.
  change (get_db ≫= ?f) with (fun w => match get_db w with (Ok a, w') => f a w' | (Err e, w') => (Err e, w') end).
  simpl. destruct (m _) as [[a|e] [c' tx' t']]; simpl in *; [naive_solver|].
  destruct Hm as [-> He]. destruct (is_integrity_error e) eqn:Hi.
  - destruct e; try discriminate. by apply Hh.
  - split; [done|]. by apply HE.
Qed.

(** A handler that raises another exception in its place. *)
Lemma wp_translated (m : M A) (h : exn -> exn) (Q : A -> Db -> Prop) (E : exn -> Prop) d :
  wp m Q (fun e => E (h e)) d -> wp (try_except m (fun e => raise (h e))) Q E d.
Proof.
  intros Hm c t. specialize (Hm c t). unfold try_except. by destruct (m _) as [[a|e] w'].
Qed.

(** A savepoint whose failure, whatever it is, is turned into a value: the working copy
    is then that of the savepoint. *)
Lemma wp_try_nested (m : M A) (f : A -> B) (h : exn -> B) (Q : B -> Db -> Prop) (E E' : exn -> Prop) d :
  wp m (fun a d' => Q (f a) d') E' d -> (forall e, E' e -> Q (h e) d) ->
  wp (try_except (r ← begin_nested m; mret (f r)) (fun e => mret (h e))) Q E d.
Proof.
  intros Hm Hh c t. specialize (Hm c t). unfold try_except, begin_nested.
  change (get_db ≫= ?f) with (fun w => match get_db w with (Ok a, w') => f a w' | (Err e, w') => (Err e, w') end).
  change (?x ≫= ?f) with (fun w => match x w with (Ok a, w') => f a w' | (Err e, w') => (Err e, w') end).
  simpl. destruct (m _) as [[a|e] [c' tx' t']]; simpl in *; [done|].
  destruct Hm as [-> He]. split; [done|]. eauto.
Qed.

(** A service's transaction: from the working-copy judgement to the committed one. *)
Lemma commits_begin (m : M A) Q E d : wp m Q E d -> commits (begin m) Q E d.
Proof.
  intros Hm t. specialize (Hm d t). unfold begin. simpl.
  destruct (m _) as [[a|e] [c' tx' t']]; simpl in *; [|naive_solver].
  destruct Hm as (-> & d' & -> & HQ). done.
Qed.

Lemma commits_join_or_begin (m : M A) Q E d :
  wp m Q E d -> commits (join_or_begin m) Q E d.
Proof. intros Hm t. by apply commits_begin. Qed.

Lemma commits_mono (m : M A) (Q Q' : A -> Db -> Prop) (E E' : exn -> Prop) d :
  commits m Q E d ->
  (forall a d', Q a d' -> Q' a d') -> (forall e, E e -> E' e) ->
  commits m Q' E' d.
Proof.
  intros Hm HQ HE t. specialize (Hm t).
  destruct (m _) as [[a|e] w']; naive_solver.
Qed.

Lemma commits_raise e (Q : A -> Db -> Prop) E d : E e -> commits (raise e) Q E d.
Proof. intros HE t. by simpl. Qed.

(** A guard that fails before any transaction is opened. *)
Lemma commits_guard b e (m : M A) Q E d :
  (b = true -> E e) -> (b = false -> commits m Q E d) ->
  commits (raise_if b e ;; m) Q E d.
Proof. destruct b; intros H1 H2; [by apply commits_raise; auto | by apply H2]. Qed.

(** Steps that cannot fail, one after the other. *)
Lemma commits_bind (m : M A) (f : A -> M B) Q Q' d :
  commits m Q (fun _ => False) d ->
  (forall a d', Q a d' -> commits (f a) Q' (fun _ => False) d') ->
  commits (m ≫= f) Q' (fun _ => False) d.
Proof.
  intros Hm Hf t. specialize (Hm t).
  change (m ≫= f) with (fun w => match m w with (Ok a, w') => f a w' | (Err e, w') => (Err e, w') end).
  cbv beta. destruct (m _) as [[a|e] [c x t']]; [|by destruct Hm as (_ & _ & [])].
  destruct Hm as [Hx HQ]. simpl in Hx, HQ. subst x. specialize (Hf a c HQ t').
  destruct (f a _) as [[b|e] w']; [done|by destruct Hf as (_ & _ & [])].
Qed.

Lemma commits_ret (a : A) (Q : A -> Db -> Prop) E d : Q a d -> commits (mret a) Q E d.
Proof. intros HQ t. done. Qed.

(** An outside call in front: its failure is one more way to fail. *)
Lemma commits_await_bind (f : nat -> result A) (k : A -> M B) Q E d :
  (forall i a, f i = Ok a -> commits (k a) Q E d) -> (forall i e, f i = Err e -> E e) ->
  commits (await_external f ≫= k) Q E d.
Proof.
  intros Hk HE t.
  change (await_external f ≫= k) with (fun w => match await_external f w with (Ok a, w') => k a w' | (Err e, w') => (Err e, w') end).
  cbv beta. unfold await_external. simpl. destruct (f t) eqn:Hf; [|by eauto]. by eapply Hk.
Qed.

Lemma commits_draw (f : nat -> A) (Q : A -> Db -> Prop) E d :
  (forall i, Q (f i) d) -> commits (draw f) Q E d.
Proof. intros HQ t. by split. Qed.

Lemma commits_await_external (f : nat -> result A) (Q : A -> Db -> Prop) E d :
  (forall i a, f i = Ok a -> Q a d) -> (forall i e, f i = Err e -> E e) ->
  commits (await_external f) Q E d.
Proof. intros HQ HE t. unfold await_external. destruct (f _) eqn:Ef; simpl; eauto. Qed.

(** Post-processing what a transaction returns. *)
Lemma commits_bind_ret (m : M A) (f : A -> B) (Q : B -> Db -> Prop) E d :
  commits m (fun a d' => Q (f a) d') E d -> commits (a ← m; mret (f a)) Q E d.
Proof.
  intros Hm t. specialize (Hm t).
  change (m ≫= ?f) with (fun w => match m w with (Ok a, w') => f a w' | (Err e, w') => (Err e, w') end).
  cbv beta. by destruct (m _) as [[a|e] w'].
Qed.

End Rules.

(** ** Invariants of the working copy *)

(** [keeps I m]: [m] never takes the working copy out of [I] when it returns. *)
Definition keeps {A} (I : Db -> Prop) (m : M A) : Prop :=
  forall d, I d -> wp m (fun _ => I) any_exn d.

Section Keeps.
Context {A B : Type} (I : Db -> Prop).

(** Invariants of unrelated parts are kept together. *)
Lemma keeps_and (J : Db -> Prop) (m : M A) :
  keeps I m -> keeps J m -> keeps (fun d => I d /\ J d) m.
Proof.
  intros HI HJ d [Hi Hj]. eapply wp_mono; [apply wp_and; [by apply HI|by apply HJ]|done..].
Qed.

Lemma keeps_ret (a : A) : keeps I (mret a).
Proof. intros d Hd. by apply wp_ret. Qed.

Lemma keeps_raise e : keeps I (raise (A := A) e).
Proof. intros d Hd. by apply wp_raise. Qed.

Lemma keeps_bind (m : M A) (f : A -> M B) :
  keeps I m -> (forall a, keeps I (f a)) -> keeps I (m ≫= f).
Proof.
  intros Hm Hf d Hd. apply wp_bind. eapply wp_mono; [by apply Hm| |done].
  intros a d' Hd'. by apply Hf.
Qed.

Lemma keeps_get_db : keeps I get_db.
Proof. intros d Hd. by apply wp_get_db. Qed.

Lemma keeps_draw (f : nat -> A) : keeps I (draw f).
Proof. intros d Hd. by apply wp_draw. Qed.

Lemma keeps_await_external (f : nat -> result A) : keeps I (await_external f).
Proof. intros d Hd. by apply wp_await_external. Qed.

Lemma keeps_raise_if b e : keeps I (raise_if b e).
Proof. intros d Hd. by apply wp_raise_if. Qed.

Lemma keeps_or_raise (x : option A) e : keeps I (or_raise x e).
Proof. intros d Hd. by apply wp_or_raise. Qed.

Lemma keeps_join_or_begin (m : M A) : keeps I m -> keeps I (join_or_begin m).
Proof. intros Hm d Hd. apply wp_join_or_begin. auto. Qed.

Lemma keeps_except_raise (m : M A) e : keeps I m -> keeps I (except_integrity m (raise e)).
Proof.
  intros Hm d Hd. apply wp_except_raise. eapply wp_mono; [by apply Hm|done|].
  intros e'. by destruct (is_integrity_error e').
Qed.

Lemma keeps_translated (m : M A) (h : exn -> exn) :
  keeps I m -> keeps I (try_except m (fun e => raise (h e))).
Proof. intros Hm d Hd. apply wp_translated. eapply wp_mono; [by apply Hm|done|done]. Qed.

Lemma keeps_except_external {C} (m : M A) (f : nat -> result C) :
  keeps I m -> keeps I (try_except m (fun e => await_external f ≫= fun _ => raise e)).
Proof. intros Hm d Hd. apply wp_except_external; [by apply Hm|done]. Qed.

Lemma keeps_except_nested (m h : M A) :
  keeps I m -> keeps I h -> keeps I (except_integrity (begin_nested m) h).
Proof.
  intros Hm Hh d Hd. apply wp_except_nested with any_exn; [by apply Hm|done|].
  intros _. by apply Hh.
Qed.

Lemma keeps_for_each (l : list A) (body : A -> M B) :
  (forall x, keeps I (body x)) -> keeps I (for_each l body).
Proof.
  intros Hb. induction l as [|x l IH]; intros d Hd; simpl; [by apply wp_ret|].
  apply wp_bind. eapply wp_mono; [by apply Hb| |done]. intros y d1 Hd1.
  apply wp_bind. eapply wp_mono; [by apply IH| |done]. intros ys d2 Hd2. by apply wp_ret.
Qed.

(** Inside a transaction [begin] is refused. *)
Lemma keeps_begin (m : M A) : keeps I (begin m).
Proof. intros d Hd c t. by simpl. Qed.

End Keeps.

(** ** Invariants of the committed database

    [preserves I m]: called with no transaction open, [m] leaves none open and
    keeps [I] true of what is committed, whether it returns or raises. *)
Definition preserves {A} (I : Db -> Prop) (m : M A) : Prop :=
  forall d t, I d ->
    let w' := (m (mkWorld d NoTx t)).2 in tx w' = NoTx /\ I (committed w').

Section Preserves.
Context {A B : Type} (I : Db -> Prop).

Lemma preserves_ret (a : A) : preserves I (mret a).
Proof. by intros d t Hd. Qed.

Lemma preserves_raise e : preserves I (raise (A := A) e).
Proof. by intros d t Hd. Qed.

Lemma preserves_draw (f : nat -> A) : preserves I (draw f).
Proof. by intros d t Hd. Qed.

Lemma preserves_await_external (f : nat -> result A) : preserves I (await_external f).
Proof. by intros d t Hd. Qed.

Lemma preserves_raise_if b e : preserves I (raise_if b e).
Proof. by destruct b. Qed.

Lemma preserves_bind (m : M A) (f : A -> M B) :
  preserves I m -> (forall a, preserves I (f a)) -> preserves I (m ≫= f).
Proof.
  intros Hm Hf d t Hd. specialize (Hm d t Hd).
  change (m ≫= f) with (fun w => match m w with (Ok a, w') => f a w' | (Err e, w') => (Err e, w') end).
  cbv beta. destruct (m _) as [[a|e] [c x t']]; simpl in *; [|done].
  destruct Hm as [-> Hc]. by apply Hf.
Qed.

(** A transaction commits what its body keeps, or nothing. *)
Lemma preserves_begin (m : M A) : keeps I m -> preserves I (begin m).
Proof.
  intros Hm d t Hd. specialize (Hm d Hd d t). unfold begin. simpl.
  destruct (m _) as [[a|e] [c x t']]; simpl in *; [|by destruct Hm as [-> _]].
  destruct Hm as (-> & d' & -> & HI). done.
Qed.

Lemma preserves_try_except (m : M A) h :
  preserves I m -> (forall e, preserves I (h e)) -> preserves I (try_except m h).
Proof.
  intros Hm Hh d t Hd. specialize (Hm d t Hd). unfold try_except.
  destruct (m _) as [[a|e] [c x t']]; [done|]. simpl in Hm. destruct Hm as [-> Hc]. by apply Hh.
Qed.

Lemma preserves_try_finally (m : M A) f :
  preserves I m -> preserves I f -> preserves I (try_finally m f).
Proof.
  intros Hm Hf d t Hd. specialize (Hm d t Hd). unfold try_finally.
  destruct (m _) as [r [c x t']]. simpl in Hm. destruct Hm as [-> Hc].
  specialize (Hf c t' Hc). by destruct (f _) as [[a|e] w'].
Qed.

Lemma preserves_or_raise (x : option A) e : preserves I (or_raise x e).
Proof. by destruct x. Qed.

Lemma preserves_join_or_begin (m : M A) : keeps I m -> preserves I (join_or_begin m).
Proof. intros Hm d t Hd. by apply preserves_begin. Qed.

End Preserves.

(** A loop, by an invariant on what is left of the list and what was collected. *)
Lemma wp_for_each {A B} (J : list A -> list B -> Db -> Prop) (l : list A) (body : A -> M B)
    (Q : list B -> Db -> Prop) E (d : Db) :
  (forall x l ys d, J (x :: l) ys d -> wp (body x) (fun y d' => J l (ys ++ [y]) d') E d) ->
  J l [] d -> (forall ys d', J [] ys d' -> Q ys d') -> wp (for_each l body) Q E d.
Proof.
  intros Hb. assert (Hgen : forall l ys d, J l ys d ->
    wp (for_each l body) (fun zs d' => J [] (ys ++ zs) d') E d).
  { clear l d. intros l. induction l as [|x l IH]; intros ys d HJ; simpl.
    - apply wp_ret. by rewrite app_nil_r.
    - apply wp_bind. eapply wp_mono; [by apply (Hb x l ys)| |done]. intros y d1 HJ1.
      apply wp_bind. eapply wp_mono; [by apply (IH (ys ++ [y]))| |done]. intros zs d2 HJ2.
      apply wp_ret. simpl in HJ2. rewrite <- app_assoc in HJ2. exact HJ2. }
  intros HJ HQ. eapply wp_mono; [by apply (Hgen l [])|by intros zs d' ?; apply HQ|done].
Qed.

(** ** Calls that run several transactions

    [runs m Q d]: called with no transaction open and [d] committed, [m] leaves none
    open, and what it returns or raises and what is then committed satisfy [Q]. *)
Definition runs {A} (m : M A) (Q : result A -> Db -> Prop) (d : Db) : Prop :=
  forall t, let w' := m (mkWorld d NoTx t) in tx w'.2 = NoTx /\ Q w'.1 (committed w'.2).

Section Runs.
Context {A B : Type}.
Implicit Types (d : Db).

Lemma runs_mono (m : M A) (Q Q' : result A -> Db -> Prop) d :
  runs m Q d -> (forall r d', Q r d' -> Q' r d') -> runs m Q' d.
Proof. intros Hm HQ t. destruct (Hm t). split; auto. Qed.

Lemma runs_ret (a : A) (Q : result A -> Db -> Prop) d : Q (Ok a) d -> runs (mret a) Q d.
Proof. intros HQ t. split; [done|apply HQ]. Qed.

Lemma runs_raise e (Q : result A -> Db -> Prop) d : Q (Err e) d -> runs (raise e) Q d.
Proof. intros HQ t. split; [done|apply HQ]. Qed.

Lemma runs_bind (m : M A) (f : A -> M B) (Q : result B -> Db -> Prop) d :
  runs m (fun r d' => match r with Ok a => runs (f a) Q d' | Err e => Q (Err e) d' end) d ->
  runs (m ≫= f) Q d.
Proof.
  intros Hm t. specialize (Hm t).
  change (m ≫= f) with (fun w => match m w with (Ok a, w') => f a w' | (Err e, w') => (Err e, w') end).
  cbv beta. destruct (m _) as [[a|e] [c x t']]; simpl in *; [|done].
  destruct Hm as [-> Hf]. by apply Hf.
Qed.

Lemma runs_await_external (f : nat -> result A) (Q : result A -> Db -> Prop) d :
  (forall i, Q (f i) d) -> runs (await_external f) Q d.
Proof. intros HQ t. split; [done|apply HQ]. Qed.

Lemma runs_raise_if b e (Q : result unit -> Db -> Prop) d :
  (b = true -> Q (Err e) d) -> (b = false -> Q (Ok tt) d) -> runs (raise_if b e) Q d.
Proof. intros H1 H2 t. destruct b; (split; [done|]); [by apply H1|by apply H2]. Qed.

Lemma runs_or_raise (x : option A) e (Q : result A -> Db -> Prop) d :
  (x = None -> Q (Err e) d) -> (forall a, x = Some a -> Q (Ok a) d) -> runs (or_raise x e) Q d.
Proof. intros H1 H2 t. destruct x as [a|]; (split; [done|]); [by apply (H2 a)|by apply H1]. Qed.

(** A transaction commits its working copy or leaves [d]. *)
Lemma runs_begin (m : M A) (Q : result A -> Db -> Prop) d :
  wp m (fun a => Q (Ok a)) (fun e => Q (Err e) d) d -> runs (begin m) Q d.
Proof.
  intros Hm t. specialize (Hm d t). unfold begin. simpl.
  destruct (m _) as [[a|e] [c x t']]; simpl in *; [|by destruct Hm as [-> ?]].
  destruct Hm as (-> & d' & -> & HQ). done.
Qed.

Lemma runs_try_except (m : M A) h (Q : result A -> Db -> Prop) d :
  runs m (fun r d' => match r with Ok a => Q (Ok a) d' | Err e => runs (h e) Q d' end) d ->
  runs (try_except m h) Q d.
Proof.
  intros Hm t. specialize (Hm t). unfold try_except.
  destruct (m _) as [[a|e] [c x t']]; simpl in *; [done|]. destruct Hm as [-> Hh]. by apply Hh.
Qed.

Lemma runs_try_finally (m : M A) f (Q : result A -> Db -> Prop) d :
  runs m (fun r d' => runs f (fun r' d'' => Q (match r' with Ok _ => r | Err e => Err e end) d'') d') d ->
  runs (try_finally m f) Q d.
Proof.
  intros Hm t. specialize (Hm t). unfold try_finally.
  destruct (m _) as [r [c x t']]; simpl in *. destruct Hm as [-> Hf]. specialize (Hf t').
  by destruct (f _) as [[u|e] w'].
Qed.

(** A commit of one transaction. *)
Lemma runs_commits (m : M A) (Q : A -> Db -> Prop) E d :
  commits m Q E d ->
  runs m (fun r d' => match r with Ok a => Q a d' | Err e => d' = d /\ E e end) d.
Proof.
  intros Hm t. specialize (Hm t). destruct (m _) as [[a|e] w']; simpl; naive_solver.
Qed.

(** A call is deterministic: its two postconditions hold together. *)
Lemma runs_and (m : M A) (Q Q' : result A -> Db -> Prop) d :
  runs m Q d -> runs m Q' d -> runs m (fun r d' => Q r d' /\ Q' r d') d.
Proof. intros Hm Hm' t. destruct (Hm t), (Hm' t). done. Qed.

Lemma runs_preserves (I : Db -> Prop) (m : M A) d :
  preserves I m -> I d -> runs m (fun _ d' => I d') d.
Proof. intros Hm Hd t. by apply Hm. Qed.

End Runs.

(** A loop, by an invariant on what is left of the list and what was collected. *)
Lemma runs_for_each {A B} (J : list A -> list B -> Db -> Prop) (X : exn -> Prop) (l : list A)
    (body : A -> M B) (Q : result (list B) -> Db -> Prop) d :
  (forall x l ys d, J (x :: l) ys d ->
     runs (body x) (fun r d' => match r with Ok y => J l (ys ++ [y]) d' | Err e => X e end) d) ->
  J l [] d -> (forall ys d', J [] ys d' -> Q (Ok ys) d') -> (forall e d', X e -> Q (Err e) d') ->
  runs (for_each l body) Q d.
Proof.
  intros Hb. assert (Hgen : forall l ys d, J l ys d -> runs (for_each l body)
    (fun r d' => match r with Ok zs => J [] (ys ++ zs) d' | Err e => X e end) d).
  { clear l d. intros l. induction l as [|x l IH]; intros ys d HJ; simpl.
    - apply runs_ret. by rewrite app_nil_r.
    - apply runs_bind. eapply runs_mono; [by apply (Hb x l ys)|]. intros [y|e] d1; [|done]. intros HJ1.
      apply runs_bind. eapply runs_mono; [by apply (IH (ys ++ [y]))|]. intros [zs|e] d2; [|done].
      intros HJ2. apply runs_ret. rewrite <- app_assoc in HJ2. exact HJ2. }
  intros HJ HQ HX. eapply runs_mono; [by apply (Hgen l [])|]. intros [zs|e] d'; [by apply HQ|by apply HX].
Qed.

Lemma preserves_for_each {A B} (I : Db -> Prop) (l : list A) (body : A -> M B) :
  (forall x, preserves I (body x)) -> preserves I (for_each l body).
Proof.
  intros Hb. induction l as [|x l IH]; simpl; [apply preserves_ret|].
  apply preserves_bind; [done|]. intros y. apply preserves_bind; [done|]. intros ys. apply preserves_ret.
Qed.

(** ** The exceptions a body may raise *)
Definition raises {A} (E : exn -> Prop) (m : M A) : Prop :=
  forall d, wp m (fun _ _ => True) E d.

Section Raises.
Context {A B : Type} (E : exn -> Prop).

Lemma raises_ret (a : A) : raises E (mret a).
Proof. intros d. by apply wp_ret. Qed.

Lemma raises_raise e : E e -> raises E (raise (A := A) e).
Proof. intros He d. by apply wp_raise. Qed.

Lemma raises_bind (m : M A) (f : A -> M B) :
  raises E m -> (forall a, raises E (f a)) -> raises E (m ≫= f).
Proof. intros Hm Hf d. apply wp_bind. eapply wp_mono; [apply Hm| |done]. intros a d' _. apply Hf. Qed.

Lemma raises_get_db : raises E get_db.
Proof. intros d. by apply wp_get_db. Qed.

Lemma raises_draw (f : nat -> A) : raises E (draw f).
Proof. intros d. by apply wp_draw. Qed.

Lemma raises_await_external (f : nat -> result A) :
  (forall i e, f i = Err e -> E e) -> raises E (await_external f).
Proof. intros Hf d. by apply wp_await_external. Qed.

Lemma raises_raise_if b e : E e -> raises E (raise_if b e).
Proof. intros He d. by apply wp_raise_if. Qed.

Lemma raises_or_raise (x : option A) e : E e -> raises E (or_raise x e).
Proof. intros He d. by apply wp_or_raise. Qed.

Lemma raises_for_each (l : list A) (body : A -> M B) :
  (forall x, raises E (body x)) -> raises E (for_each l body).
Proof.
  intros Hb. induction l as [|x l IH]; simpl; [intros d; by apply wp_ret|].
  intros d. apply wp_bind. eapply wp_mono; [apply Hb| |done]. intros y d1 _.
  apply wp_bind. eapply wp_mono; [apply IH| |done]. intros ys d2 _. by apply wp_ret.
Qed.

Lemma raises_except_external {C} (m : M A) (f : nat -> result C) :
  raises E m -> (forall i e, f i = Err e -> E e) ->
  raises E (try_except m (fun e => await_external f ≫= fun _ => raise e)).
Proof. intros Hm Hf d. by apply wp_except_external. Qed.

End Raises.

(** With an invariant: both judgements hold of the same run. *)
Lemma keeps_raises {A} (I : Db -> Prop) E (m : M A) d :
  keeps I m -> raises E m -> I d -> wp m (fun _ => I) E d.
Proof.
  intros Hk Hr Hd. eapply wp_mono; [apply wp_and; [by apply Hk|apply Hr]|by intros a d' [? _]|].
  by intros e [_ ?].
Qed.

(** ** The exceptions a call may raise, between transactions *)
Definition throws {A} (E : exn -> Prop) (m : M A) : Prop :=
  forall d, runs m (fun r _ => match r with Ok _ => True | Err e => E e end) d.

Section Throws.
Context {A B : Type} (E : exn -> Prop).

Lemma throws_ret (a : A) : throws E (mret a).
Proof. intros d. by apply runs_ret. Qed.

Lemma throws_raise e : E e -> throws E (raise (A := A) e).
Proof. intros He d. by apply runs_raise. Qed.

Lemma throws_bind (m : M A) (f : A -> M B) :
  throws E m -> (forall a, throws E (f a)) -> throws E (m ≫= f).
Proof.
  intros Hm Hf d. apply runs_bind. eapply runs_mono; [apply Hm|]. intros [a|e] d'; [intros _; apply Hf|done].
Qed.

Lemma throws_await_external (f : nat -> result A) :
  (forall i e, f i = Err e -> E e) -> throws E (await_external f).
Proof. intros Hf d. apply runs_await_external. intros i. destruct (f i) eqn:Hi; [done|by eapply Hf]. Qed.

Lemma throws_draw (f : nat -> A) : throws E (draw f).
Proof. intros d t. by split. Qed.

Lemma throws_raise_if b e : E e -> throws E (raise_if b e).
Proof. intros He d. by apply runs_raise_if. Qed.

Lemma throws_or_raise (x : option A) e : E e -> throws E (or_raise x e).
Proof. intros He d. by apply runs_or_raise. Qed.

Lemma throws_begin (m : M A) : raises E m -> throws E (begin m).
Proof. intros Hm d. apply runs_begin. eapply wp_mono; [apply Hm|done|done]. Qed.

Lemma throws_try_except (m : M A) h :
  (forall e, throws E (h e)) -> throws any_exn m -> throws E (try_except m h).
Proof.
  intros Hh Hm d. apply runs_try_except. eapply runs_mono; [apply Hm|].
  intros [a|e] d'; [done|intros _; apply Hh].
Qed.

(** A handler that may raise again. *)
Lemma throws_try_reraise (E' : exn -> Prop) (m : M A) h :
  throws E' m -> (forall e, E' e -> throws E (h e)) -> throws E (try_except m h).
Proof.
  intros Hm Hh d. apply runs_try_except. eapply runs_mono; [apply Hm|].
  intros [a|e] d'; [done|intros He; by apply Hh].
Qed.

Lemma throws_try_finally (m : M A) f : throws E m -> throws E f -> throws E (try_finally m f).
Proof.
  intros Hm Hf d. apply runs_try_finally. eapply runs_mono; [apply Hm|]. intros r d1 Hr.
  eapply runs_mono; [apply Hf|]. by intros [u|e] d2 He.
Qed.

(** A call followed by another, when the first keeps [I]. *)
Lemma runs_seq (I : Db -> Prop) (m : M A) (f : A -> M B) (Q : result B -> Db -> Prop) d :
  preserves I m -> throws E m -> I d ->
  (forall e d', I d' -> E e -> Q (Err e) d') -> (forall a d', I d' -> runs (f a) Q d') ->
  runs (m ≫= f) Q d.
Proof.
  intros Hp Ht Hd HE HQ. apply runs_bind.
  eapply runs_mono; [apply runs_and; [by apply (runs_preserves I)|apply Ht]|].
  intros [a|e] d' [Hd' He]; [by apply HQ|by apply HE].
Qed.

End Throws.

End Session.

Arguments M : clear implicits.
Arguments World : clear implicits.
Arguments Tx : clear implicits.
Arguments mkWorld {Db} committed tx ticks.

(** One step of a proof of [wp] or [keeps]: the rule of the statement in front.
    Statements with rules of their own in later files extend it. *)
Ltac wp_step_extra := fail.

Ltac wp_step :=
  lazymatch goal with
  | |- wp (mret _) _ _ _ => apply wp_ret
  | |- wp (_ ≫= _) _ _ _ => apply wp_bind
  | |- wp (raise _) _ _ _ => apply wp_raise
  | |- wp get_db _ _ _ => apply wp_get_db
  | |- wp (put_db _) _ _ _ => apply wp_put_db
  | |- wp (draw _) _ _ _ => apply wp_draw; intros ?
  | |- wp now _ _ _ => apply wp_draw; intros ?
  | |- wp new_uuid _ _ _ => apply wp_draw; intros ?
  | |- wp new_token _ _ _ => apply wp_draw; intros ?
  | |- wp (raise_if _ _) _ _ _ => apply wp_raise_if; intros ?
  | |- wp (or_raise _ _) _ _ _ => apply wp_or_raise
  | |- wp (join_or_begin _) _ _ _ => apply wp_join_or_begin
  | |- wp (await_external _) _ _ _ => apply wp_await_external
  | |- _ => wp_step_extra
  end.

Create HintDb keeps.
#[export] Hint Resolve keeps_begin : keeps.

(** The first name of an application. *)
Ltac head_of m := lazymatch m with ?f _ => head_of f | _ => m end.

(** Proves [keeps I m] by following the structure of [m]: the hints of the database
    [keeps] prove the statements and the operations that have a lemma, other
    operations are unfolded. *)
Ltac keeps_step :=
  lazymatch goal with
  | |- keeps _ (mret _) => apply keeps_ret
  | |- keeps _ (_ ≫= _) => apply keeps_bind; [|intros ?]
  | |- keeps _ (raise _) => apply keeps_raise
  | |- keeps _ get_db => apply keeps_get_db
  | |- keeps _ (draw _) => apply keeps_draw
  | |- keeps _ (await_external _) => apply keeps_await_external
  | |- keeps _ (raise_if _ _) => apply keeps_raise_if
  | |- keeps _ (or_raise _ _) => apply keeps_or_raise
  | |- keeps _ (join_or_begin _) => apply keeps_join_or_begin
  | |- keeps _ (for_each _ _) => apply keeps_for_each; intros ?
  | |- keeps _ (try_except _ (fun _ => await_external _ ≫= _)) => apply keeps_except_external
  | |- keeps _ (try_except _ (fun _ => raise _)) => apply keeps_translated
  | |- keeps _ (except_integrity _ (raise _)) => apply keeps_except_raise
  | |- keeps _ (except_integrity (begin_nested _) _) => apply keeps_except_nested
  | |- keeps _ (match ?x with _ => _ end) => destruct x
  | |- keeps _ (let _ := _ in _) => cbv zeta
  | |- keeps _ ?m => first [ solve [eauto 3 with keeps] | let h := head_of m in unfold h ]
  end.

Ltac keeps_solve := intros; repeat keeps_step.

Ltac preserves_step :=
  lazymatch goal with
  | |- preserves _ (mret _) => apply preserves_ret
  | |- preserves _ (_ ≫= _) => apply preserves_bind; [|intros ?]
  | |- preserves _ (raise _) => apply preserves_raise
  | |- preserves _ (draw _) => apply preserves_draw
  | |- preserves _ (await_external _) => apply preserves_await_external
  | |- preserves _ (raise_if _ _) => apply preserves_raise_if
  | |- preserves _ (begin _) => apply preserves_begin
  | |- preserves _ (try_except _ _) => apply preserves_try_except; [|intros ?]
  | |- preserves _ (try_finally _ _) => apply preserves_try_finally
  | |- preserves _ (or_raise _ _) => apply preserves_or_raise
  | |- preserves _ (for_each _ _) => apply preserves_for_each; intros ?
  | |- preserves _ (join_or_begin _) => apply preserves_join_or_begin
  | |- preserves _ (match ?x with _ => _ end) => destruct x
  | |- preserves _ ?m => let h := head_of m in unfold h
  end.

Create HintDb raises.

(** Proves [raises E m] by following the structure of [m]. *)
Ltac raises_step :=
  lazymatch goal with
  | |- raises _ (mret _) => apply raises_ret
  | |- raises _ (_ ≫= _) => apply raises_bind; [|intros ?]
  | |- raises _ (raise _) => apply raises_raise
  | |- raises _ get_db => apply raises_get_db
  | |- raises _ (draw _) => apply raises_draw
  | |- raises _ (await_external _) => apply raises_await_external
  | |- raises _ (raise_if _ _) => apply raises_raise_if
  | |- raises _ (or_raise _ _) => apply raises_or_raise
  | |- raises _ (for_each _ _) => apply raises_for_each; intros ?
  | |- raises _ (try_except _ (fun _ => await_external _ ≫= _)) => apply raises_except_external
  | |- raises _ (match ?x with _ => _ end) => destruct x
  | |- raises _ (let _ := _ in _) => cbv zeta
  | |- raises _ ?m => first [ solve [eauto 3 with raises] | let h := head_of m in unfold h ]
  end.

Ltac raises_solve := intros; repeat raises_step; try done.

(** Proves [throws E m] by following the structure of [m]. *)
Ltac throws_step :=
  lazymatch goal with
  | |- throws _ (mret _) => apply throws_ret
  | |- throws _ (_ ≫= _) => apply throws_bind; [|intros ?]
  | |- throws _ (raise _) => apply throws_raise
  | |- throws _ (draw _) => apply throws_draw
  | |- throws _ (await_external _) => apply throws_await_external
  | |- throws _ (raise_if _ _) => apply throws_raise_if
  | |- throws _ (or_raise _ _) => apply throws_or_raise
  | |- throws _ (begin _) => apply throws_begin
  | |- throws _ (try_finally _ _) => apply throws_try_finally
  | |- throws _ (match ?x with _ => _ end) => destruct x
  | |- throws _ (let _ := _ in _) => cbv zeta
  | |- throws _ ?m => let h := head_of m in unfold h
  end.
