(* ===== verification/Schema.v ===== *)
(** The data model: the enumerations and ORM rows of the [models] packages, and
    the database they make up. A row is a record with the columns of its
    model; a table is a finite map from primary keys to rows. *)
From S2P Require Import Prelude.

(** ** JSON values of the JSON columns; objects keep their key order *)
#[local] Set Warnings "-register-all".

Inductive json :=
  | JNull
  | JBool (b : bool)
  | JInt (n : Z)
  | JStr (s : string)
  | JArr (l : list json)
  | JObj (fields : list (string * json)).

#[export] Instance json_eq_dec : EqDecision json.
Proof.
  unfold EqDecision. fix IH 1. intros [|b|n|s|l|f] y; destruct y as [|b'|n'|s'|l'|f'];
    try (right; discriminate); [by left|..].
  - destruct (decide (b = b')); [left|right]; congruence.
  - destruct (decide (n = n')); [left|right]; congruence.
  - destruct (decide (s = s')); [left|right]; congruence.
  - assert (Hl : Decision (l = l')).
    { revert l'. induction l as [|x l IHl]; intros [|x' l']; try (by left + by right).
      destruct (IH x x'), (IHl l'); [left|right..]; congruence. }
    destruct Hl; [left|right]; congruence.
  - assert (Hf : Decision (f = f')).
    { revert f'. induction f as [|[k x] f IHf]; intros [|[k' x'] f']; try (by left + by right).
      destruct (decide (k = k')), (IH x x'), (IHf f'); [left|right..]; congruence. }
    destruct Hf; [left|right]; congruence.
Defined.

(** ** Enumerations ([StrEnum] classes) *)

(** [users/models/user.py], [UserStatus] *)
Module UserStatus.

Inductive t := | ACTIVE | SUSPENDED.

#[global] Instance t_eq_dec : EqDecision t.
Proof. solve_decision. Defined.

(** [.value] *)
Definition value (x : t) : string :=
  match x with
  | ACTIVE => "active"
  | SUSPENDED => "suspended"
  end.

End UserStatus.

(** [organisations/models/organisation.py], [OrganisationStatus] *)
Module OrganisationStatus.

Inductive t := | ACTIVE | SUSPENDED.

#[global] Instance t_eq_dec : EqDecision t.
Proof. solve_decision. Defined.

(** [.value] *)
Definition value (x : t) : string :=
  match x with
  | ACTIVE => "active"
  | SUSPENDED => "suspended"
  end.

End OrganisationStatus.

(** [memberships/models/membership.py], [MembershipRole] *)
Module MembershipRole.

Inductive t := | OWNER | ADMIN | MEMBER.

#[global] Instance t_eq_dec : EqDecision t.
Proof. solve_decision. Defined.

(** [.value] *)
Definition value (x : t) : string :=
  match x with
  | OWNER => "owner"
  | ADMIN => "admin"
  | MEMBER => "member"
  end.

End MembershipRole.

(** [invites/models/invite.py], [InviteStatus] *)
Module InviteStatus.

Inductive t := | PENDING | ACCEPTED | EXPIRED | REVOKED.

#[global] Instance t_eq_dec : EqDecision t.
Proof. solve_decision. Defined.

(** [.value] *)
Definition value (x : t) : string :=
  match x with
  | PENDING => "pending"
  | ACCEPTED => "accepted"
  | EXPIRED => "expired"
  | REVOKED => "revoked"
  end.

End InviteStatus.

(** [outbox/models/outbox_event.py], [OutboxStatus] *)
Module OutboxStatus.

Inductive t := | PENDING | PROCESSING | PROCESSED | FAILED.

#[global] Instance t_eq_dec : EqDecision t.
Proof. solve_decision. Defined.

(** [.value] *)
Definition value (x : t) : string :=
  match x with
  | PENDING => "pending"
  | PROCESSING => "processing"
  | PROCESSED => "processed"
  | FAILED => "failed"
  end.

End OutboxStatus.

(** [outbox/models/outbox_event.py], [OutboxEventType] *)
Module OutboxEventType.

Inductive t := | INVITE_CREATED | INVITE_RESEND.

#[global] Instance t_eq_dec : EqDecision t.
Proof. solve_decision. Defined.

(** [.value] *)
Definition value (x : t) : string :=
  match x with
  | INVITE_CREATED => "invite.created"
  | INVITE_RESEND => "invite.resent"
  end.

End OutboxEventType.

(** [audit/models/audit_event.py], [AuditCategory] *)
Module AuditCategory.

Inductive t := | TENANT | PLATFORM | SECURITY | COMPLIANCE.

#[global] Instance t_eq_dec : EqDecision t.
Proof. solve_decision. Defined.

(** [.value] *)
Definition value (x : t) : string :=
  match x with
  | TENANT => "tenant"
  | PLATFORM => "platform"
  | SECURITY => "security"
  | COMPLIANCE => "compliance"
  end.

End AuditCategory.

(** [audit/models/audit_event.py], [AuditAction] *)
Module AuditAction.

Inductive t := | ORGANISATION_UPDATED | ORGANISATION_DELETED |
  MEMBERSHIP_ROLE_CHANGED | MEMBERSHIP_REMOVED | INVITE_CREATED |
  INVITE_REVOKED | INVITE_RESENT | USER_SUSPENDED | USER_RESTORED |
  ORGANISATION_SUSPENDED | ORGANISATION_RESTORED | PLATFORM_STAFF_CREATED |
  PLATFORM_STAFF_SUSPENDED | PLATFORM_STAFF_RESTORED |
  PLATFORM_STAFF_ROLE_CHANGED | CONSENT_GRANTED | CONSENT_WITHDRAWN |
  PRIVACY_NOTICE_ACCEPTED | DATA_SUBJECT_REQUEST_SUBMITTED |
  DATA_SUBJECT_REQUEST_UNDER_REVIEW | DATA_SUBJECT_REQUEST_APPROVED |
  DATA_SUBJECT_REQUEST_REJECTED | DATA_SUBJECT_REQUEST_CANCELLED |
  DATA_SUBJECT_REQUEST_FULFILLED | DATA_SUBJECT_REQUEST_ERASURE_EXECUTED |
  DATA_SUBJECT_REQUEST_REPRESENTATIVE_VERIFIED |
  DATA_SUBJECT_REQUEST_REPRESENTATIVE_REJECTED | EXPORT_ARTIFACT_REQUESTED |
  EXPORT_ARTIFACT_GENERATED | EXPORT_ARTIFACT_FAILED |
  EXPORT_ARTIFACT_DOWNLOAD_URL_CREATED | EXPORT_ARTIFACT_DELIVERY_CONFIRMED |
  EXPORT_ARTIFACT_EXPIRED.

#[global] Instance t_eq_dec : EqDecision t.
Proof. solve_decision. Defined.

(** [.value] *)
Definition value (x : t) : string :=
  match x with
  | ORGANISATION_UPDATED => "organisation_updated"
  | ORGANISATION_DELETED => "organisation_deleted"
  | MEMBERSHIP_ROLE_CHANGED => "membership_role_changed"
  | MEMBERSHIP_REMOVED => "membership_removed"
  | INVITE_CREATED => "invite_created"
  | INVITE_REVOKED => "invite_revoked"
  | INVITE_RESENT => "invite_resent"
  | USER_SUSPENDED => "user_suspended"
  | USER_RESTORED => "user_restored"
  | ORGANISATION_SUSPENDED => "organisation_suspended"
  | ORGANISATION_RESTORED => "organisation_restored"
  | PLATFORM_STAFF_CREATED => "platform_staff_created"
  | PLATFORM_STAFF_SUSPENDED => "platform_staff_suspended"
  | PLATFORM_STAFF_RESTORED => "platform_staff_restored"
  | PLATFORM_STAFF_ROLE_CHANGED => "platform_staff_role_changed"
  | CONSENT_GRANTED => "consent_granted"
  | CONSENT_WITHDRAWN => "consent_withdrawn"
  | PRIVACY_NOTICE_ACCEPTED => "privacy_notice_accepted"
  | DATA_SUBJECT_REQUEST_SUBMITTED => "data_subject_request_submitted"
  | DATA_SUBJECT_REQUEST_UNDER_REVIEW => "data_subject_request_under_review"
  | DATA_SUBJECT_REQUEST_APPROVED => "data_subject_request_approved"
  | DATA_SUBJECT_REQUEST_REJECTED => "data_subject_request_rejected"
  | DATA_SUBJECT_REQUEST_CANCELLED => "data_subject_request_cancelled"
  | DATA_SUBJECT_REQUEST_FULFILLED => "data_subject_request_fulfilled"
  | DATA_SUBJECT_REQUEST_ERASURE_EXECUTED => "data_subject_request_erasure_executed"
  | DATA_SUBJECT_REQUEST_REPRESENTATIVE_VERIFIED => "data_subject_request_representative_verified"
  | DATA_SUBJECT_REQUEST_REPRESENTATIVE_REJECTED => "data_subject_request_representative_rejected"
  | EXPORT_ARTIFACT_REQUESTED => "export_artifact_requested"
  | EXPORT_ARTIFACT_GENERATED => "export_artifact_generated"
  | EXPORT_ARTIFACT_FAILED => "export_artifact_failed"
  | EXPORT_ARTIFACT_DOWNLOAD_URL_CREATED => "export_artifact_download_url_created"
  | EXPORT_ARTIFACT_DELIVERY_CONFIRMED => "export_artifact_delivery_confirmed"
  | EXPORT_ARTIFACT_EXPIRED => "export_artifact_expired"
  end.

End AuditAction.

(** [audit/models/audit_event.py], [AuditTargetType] *)
Module AuditTargetType.

Inductive t := | ORGANISATION | MEMBERSHIP | INVITE | USER | PLATFORM_STAFF |
  PRIVACY_CONSENT | PRIVACY_NOTICE | DATA_SUBJECT_REQUEST | EXPORT_ARTIFACT.

#[global] Instance t_eq_dec : EqDecision t.
Proof. solve_decision. Defined.

(** [.value] *)
Definition value (x : t) : string :=
  match x with
  | ORGANISATION => "organisation"
  | MEMBERSHIP => "membership"
  | INVITE => "invite"
  | USER => "user"
  | PLATFORM_STAFF => "platform_staff"
  | PRIVACY_CONSENT => "privacy_consent"
  | PRIVACY_NOTICE => "privacy_notice"
  | DATA_SUBJECT_REQUEST => "data_subject_request"
  | EXPORT_ARTIFACT => "export_artifact"
  end.

End AuditTargetType.

(** [platform/models/platform_staff.py], [PlatformStaffRole] *)
Module PlatformStaffRole.

Inductive t := | PLATFORM_ADMIN | SUPPORT_AGENT | COMPLIANCE_OFFICER.

#[global] Instance t_eq_dec : EqDecision t.
Proof. solve_decision. Defined.

(** [.value] *)
Definition value (x : t) : string :=
  match x with
  | PLATFORM_ADMIN => "platform_admin"
  | SUPPORT_AGENT => "support_agent"
  | COMPLIANCE_OFFICER => "compliance_officer"
  end.

(** [PlatformStaffRole(s)]: [None] where Python raises [ValueError] *)
Definition of_value (s : string) : option t :=
  if String.eqb s "platform_admin" then Some PLATFORM_ADMIN else
  if String.eqb s "support_agent" then Some SUPPORT_AGENT else
  if String.eqb s "compliance_officer" then Some COMPLIANCE_OFFICER else
  None.

Lemma role_of_value x : of_value (value x) = Some x.
Proof. by destruct x. Qed.

End PlatformStaffRole.

(** [platform/models/platform_staff.py], [PlatformStaffStatus] *)
Module PlatformStaffStatus.

Inductive t := | ACTIVE | SUSPENDED.

#[global] Instance t_eq_dec : EqDecision t.
Proof. solve_decision. Defined.

(** [.value] *)
Definition value (x : t) : string :=
  match x with
  | ACTIVE => "active"
  | SUSPENDED => "suspended"
  end.

End PlatformStaffStatus.

(** [privacy/models/data_subject_request.py], [DataSubjectRequestType] *)
Module DataSubjectRequestType.

Inductive t := | ACCESS | EXPORT | ERASE | RECTIFY | RESTRICT | OBJECT |
  PORTABILITY.

#[global] Instance t_eq_dec : EqDecision t.
Proof. solve_decision. Defined.

(** [.value] *)
Definition value (x : t) : string :=
  match x with
  | ACCESS => "access"
  | EXPORT => "export"
  | ERASE => "erase"
  | RECTIFY => "rectify"
  | RESTRICT => "restrict"
  | OBJECT => "object"
  | PORTABILITY => "portability"
  end.

(** [DataSubjectRequestType(s)]: [None] where Python raises [ValueError] *)
Definition of_value (s : string) : option t :=
  if String.eqb s "access" then Some ACCESS else
  if String.eqb s "export" then Some EXPORT else
  if String.eqb s "erase" then Some ERASE else
  if String.eqb s "rectify" then Some RECTIFY else
  if String.eqb s "restrict" then Some RESTRICT else
  if String.eqb s "object" then Some OBJECT else
  if String.eqb s "portability" then Some PORTABILITY else
  None.

Lemma type_of_value x : of_value (value x) = Some x.
Proof. by destruct x. Qed.

End DataSubjectRequestType.

(** [privacy/models/data_subject_request.py], [DataSubjectRequestStatus] *)
Module DataSubjectRequestStatus.

Inductive t := | SUBMITTED | UNDER_REVIEW | APPROVED | REJECTED | FULFILLED |
  CANCELLED.

#[global] Instance t_eq_dec : EqDecision t.
Proof. solve_decision. Defined.

(** [.value] *)
Definition value (x : t) : string :=
  match x with
  | SUBMITTED => "submitted"
  | UNDER_REVIEW => "under_review"
  | APPROVED => "approved"
  | REJECTED => "rejected"
  | FULFILLED => "fulfilled"
  | CANCELLED => "cancelled"
  end.

End DataSubjectRequestStatus.

(** [privacy/models/data_subject_request.py], [DataSubjectRequestExecutionStatus] *)
Module DataSubjectRequestExecutionStatus.

Inductive t := | NOT_STARTED | QUEUED | PROCESSING | READY | FAILED |
  PARTIALLY_FULFILLED | DELIVERED.

#[global] Instance t_eq_dec : EqDecision t.
Proof. solve_decision. Defined.

(** [.value] *)
Definition value (x : t) : string :=
  match x with
  | NOT_STARTED => "not_started"
  | QUEUED => "queued"
  | PROCESSING => "processing"
  | READY => "ready"
  | FAILED => "failed"
  | PARTIALLY_FULFILLED => "partially_fulfilled"
  | DELIVERED => "delivered"
  end.

End DataSubjectRequestExecutionStatus.

(** [privacy/models/data_subject_request.py], [DataSubjectRequestRequesterRole] *)
Module DataSubjectRequestRequesterRole.

Inductive t := | SELF | AUTHORISED_REPRESENTATIVE.

#[global] Instance t_eq_dec : EqDecision t.
Proof. solve_decision. Defined.

(** [.value] *)
Definition value (x : t) : string :=
  match x with
  | SELF => "self"
  | AUTHORISED_REPRESENTATIVE => "authorised_representative"
  end.

(** [DataSubjectRequestRequesterRole(s)]: [None] where Python raises [ValueError] *)
Definition of_value (s : string) : option t :=
  if String.eqb s "self" then Some SELF else
  if String.eqb s "authorised_representative" then Some AUTHORISED_REPRESENTATIVE else
  None.

Lemma requester_role_of_value x : of_value (value x) = Some x.
Proof. by destruct x. Qed.

End DataSubjectRequestRequesterRole.

(** [privacy/models/data_subject_request.py], [DataSubjectRequestRepresentativeStatus] *)
Module DataSubjectRequestRepresentativeStatus.

Inductive t := | NOT_REQUIRED | PENDING_VERIFICATION | VERIFIED | REJECTED.

#[global] Instance t_eq_dec : EqDecision t.
Proof. solve_decision. Defined.

(** [.value] *)
Definition value (x : t) : string :=
  match x with
  | NOT_REQUIRED => "not_required"
  | PENDING_VERIFICATION => "pending_verification"
  | VERIFIED => "verified"
  | REJECTED => "rejected"
  end.

End DataSubjectRequestRepresentativeStatus.

(** [privacy/models/export_artifact.py], [ExportArtifactStatus] *)
Module ExportArtifactStatus.

Inductive t := | QUEUED | PROCESSING | READY | FAILED | EXPIRED | CANCELLED.

#[global] Instance t_eq_dec : EqDecision t.
Proof. solve_decision. Defined.

(** [.value] *)
Definition value (x : t) : string :=
  match x with
  | QUEUED => "queued"
  | PROCESSING => "processing"
  | READY => "ready"
  | FAILED => "failed"
  | EXPIRED => "expired"
  | CANCELLED => "cancelled"
  end.

End ExportArtifactStatus.

(** [privacy/models/export_artifact.py], [ExportArtifactFormat] *)
Module ExportArtifactFormat.

Inductive t := | JSON_ZIP.

#[global] Instance t_eq_dec : EqDecision t.
Proof. solve_decision. Defined.

(** [.value] *)
Definition value (x : t) : string :=
  match x with
  | JSON_ZIP => "json_zip"
  end.

End ExportArtifactFormat.

(** [privacy/models/export_artifact.py], [ExportArtifactStorageBackend] *)
Module ExportArtifactStorageBackend.

Inductive t := | LOCAL | S3_COMPATIBLE.

#[global] Instance t_eq_dec : EqDecision t.
Proof. solve_decision. Defined.

(** [.value] *)
Definition value (x : t) : string :=
  match x with
  | LOCAL => "local"
  | S3_COMPATIBLE => "s3_compatible"
  end.

End ExportArtifactStorageBackend.

(** [privacy/models/privacy_governance.py], [LawfulBasis] *)
Module LawfulBasis.

Inductive t := | CONSENT | CONTRACT | LEGAL_OBLIGATION | VITAL_INTERESTS |
  PUBLIC_TASK | LEGITIMATE_INTERESTS | RECOGNISED_LEGITIMATE_INTERESTS.

#[global] Instance t_eq_dec : EqDecision t.
Proof. solve_decision. Defined.

(** [.value] *)
Definition value (x : t) : string :=
  match x with
  | CONSENT => "consent"
  | CONTRACT => "contract"
  | LEGAL_OBLIGATION => "legal_obligation"
  | VITAL_INTERESTS => "vital_interests"
  | PUBLIC_TASK => "public_task"
  | LEGITIMATE_INTERESTS => "legitimate_interests"
  | RECOGNISED_LEGITIMATE_INTERESTS => "recognised_legitimate_interests"
  end.

(** [LawfulBasis(s)]: [None] where Python raises [ValueError] *)
Definition of_value (s : string) : option t :=
  if String.eqb s "consent" then Some CONSENT else
  if String.eqb s "contract" then Some CONTRACT else
  if String.eqb s "legal_obligation" then Some LEGAL_OBLIGATION else
  if String.eqb s "vital_interests" then Some VITAL_INTERESTS else
  if String.eqb s "public_task" then Some PUBLIC_TASK else
  if String.eqb s "legitimate_interests" then Some LEGITIMATE_INTERESTS else
  if String.eqb s "recognised_legitimate_interests" then Some RECOGNISED_LEGITIMATE_INTERESTS else
  None.

Lemma lawful_basis_of_value x : of_value (value x) = Some x.
Proof. by destruct x. Qed.

End LawfulBasis.

(** [privacy/models/privacy_governance.py], [SpecialCategoryCondition] *)
Module SpecialCategoryCondition.

Inductive t := | EXPLICIT_CONSENT |
  EMPLOYMENT_SOCIAL_SECURITY_SOCIAL_PROTECTION | VITAL_INTERESTS |
  NONPROFIT_BODY | MANIFESTLY_PUBLIC | LEGAL_CLAIMS |
  SUBSTANTIAL_PUBLIC_INTEREST | REGULATED_SERVICE_PROVISION |
  PUBLIC_INTEREST_SAFEGUARDING | ARCHIVING_RESEARCH_STATISTICS.

#[global] Instance t_eq_dec : EqDecision t.
Proof. solve_decision. Defined.

(** [.value] *)
Definition value (x : t) : string :=
  match x with
  | EXPLICIT_CONSENT => "explicit_consent"
  | EMPLOYMENT_SOCIAL_SECURITY_SOCIAL_PROTECTION => "employment_social_security_social_protection"
  | VITAL_INTERESTS => "vital_interests"
  | NONPROFIT_BODY => "nonprofit_body"
  | MANIFESTLY_PUBLIC => "manifestly_public"
  | LEGAL_CLAIMS => "legal_claims"
  | SUBSTANTIAL_PUBLIC_INTEREST => "substantial_public_interest"
  | REGULATED_SERVICE_PROVISION => "regulated_service_provision"
  | PUBLIC_INTEREST_SAFEGUARDING => "public_interest_safeguarding"
  | ARCHIVING_RESEARCH_STATISTICS => "archiving_research_statistics"
  end.

(** [SpecialCategoryCondition(s)]: [None] where Python raises [ValueError] *)
Definition of_value (s : string) : option t :=
  if String.eqb s "explicit_consent" then Some EXPLICIT_CONSENT else
  if String.eqb s "employment_social_security_social_protection" then Some EMPLOYMENT_SOCIAL_SECURITY_SOCIAL_PROTECTION else
  if String.eqb s "vital_interests" then Some VITAL_INTERESTS else
  if String.eqb s "nonprofit_body" then Some NONPROFIT_BODY else
  if String.eqb s "manifestly_public" then Some MANIFESTLY_PUBLIC else
  if String.eqb s "legal_claims" then Some LEGAL_CLAIMS else
  if String.eqb s "substantial_public_interest" then Some SUBSTANTIAL_PUBLIC_INTEREST else
  if String.eqb s "regulated_service_provision" then Some REGULATED_SERVICE_PROVISION else
  if String.eqb s "public_interest_safeguarding" then Some PUBLIC_INTEREST_SAFEGUARDING else
  if String.eqb s "archiving_research_statistics" then Some ARCHIVING_RESEARCH_STATISTICS else
  None.

Lemma special_condition_of_value x : of_value (value x) = Some x.
Proof. by destruct x. Qed.

End SpecialCategoryCondition.

(** [privacy/models/privacy_governance.py], [ProcessingPurposeFamily] *)
Module ProcessingPurposeFamily.

Inductive t := | ACCOUNT | INVITE | AUDIT | MARKETING | PRODUCT_ANALYTICS |
  REGULATED_SERVICE_DELIVERY | LEGAL_COMPLIANCE.

#[global] Instance t_eq_dec : EqDecision t.
Proof. solve_decision. Defined.

(** [.value] *)
Definition value (x : t) : string :=
  match x with
  | ACCOUNT => "account"
  | INVITE => "invite"
  | AUDIT => "audit"
  | MARKETING => "marketing"
  | PRODUCT_ANALYTICS => "product_analytics"
  | REGULATED_SERVICE_DELIVERY => "regulated_service_delivery"
  | LEGAL_COMPLIANCE => "legal_compliance"
  end.

(** [ProcessingPurposeFamily(s)]: [None] where Python raises [ValueError] *)
Definition of_value (s : string) : option t :=
  if String.eqb s "account" then Some ACCOUNT else
  if String.eqb s "invite" then Some INVITE else
  if String.eqb s "audit" then Some AUDIT else
  if String.eqb s "marketing" then Some MARKETING else
  if String.eqb s "product_analytics" then Some PRODUCT_ANALYTICS else
  if String.eqb s "regulated_service_delivery" then Some REGULATED_SERVICE_DELIVERY else
  if String.eqb s "legal_compliance" then Some LEGAL_COMPLIANCE else
  None.

Lemma purpose_family_of_value x : of_value (value x) = Some x.
Proof. by destruct x. Qed.

End ProcessingPurposeFamily.

(** ** Rows *)

(** [users/models/user.py], [User] *)
Module User.

Record t := mk {
  id : UUID;
  external_auth_id : string;
  email : option string;
  email_verified : bool;
  first_name : option string;
  last_name : option string;
  onboarding_completed : bool;
  status : UserStatus.t;
  suspended_at : option datetime;
  suspended_reason : option string;
  created_at : datetime;
  updated_at : datetime;
}.

#[global] Instance t_eq_dec : EqDecision t.
Proof. solve_decision. Defined.

Definition set_external_auth_id (x : string) (r : t) : t := mk (id r) x (email
  r) (email_verified r) (first_name r) (last_name r) (onboarding_completed r)
  (status r) (suspended_at r) (suspended_reason r) (created_at r) (updated_at
  r).

Definition set_email (x : option string) (r : t) : t := mk (id r)
  (external_auth_id r) x (email_verified r) (first_name r) (last_name r)
  (onboarding_completed r) (status r) (suspended_at r) (suspended_reason r)
  (created_at r) (updated_at r).

Definition set_email_verified (x : bool) (r : t) : t := mk (id r)
  (external_auth_id r) (email r) x (first_name r) (last_name r)
  (onboarding_completed r) (status r) (suspended_at r) (suspended_reason r)
  (created_at r) (updated_at r).

Definition set_first_name (x : option string) (r : t) : t := mk (id r)
  (external_auth_id r) (email r) (email_verified r) x (last_name r)
  (onboarding_completed r) (status r) (suspended_at r) (suspended_reason r)
  (created_at r) (updated_at r).

Definition set_last_name (x : option string) (r : t) : t := mk (id r)
  (external_auth_id r) (email r) (email_verified r) (first_name r) x
  (onboarding_completed r) (status r) (suspended_at r) (suspended_reason r)
  (created_at r) (updated_at r).

Definition set_onboarding_completed (x : bool) (r : t) : t := mk (id r)
  (external_auth_id r) (email r) (email_verified r) (first_name r) (last_name
  r) x (status r) (suspended_at r) (suspended_reason r) (created_at r)
  (updated_at r).

Definition set_status (x : UserStatus.t) (r : t) : t := mk (id r)
  (external_auth_id r) (email r) (email_verified r) (first_name r) (last_name
  r) (onboarding_completed r) x (suspended_at r) (suspended_reason r)
  (created_at r) (updated_at r).

Definition set_suspended_at (x : option datetime) (r : t) : t := mk (id r)
  (external_auth_id r) (email r) (email_verified r) (first_name r) (last_name
  r) (onboarding_completed r) (status r) x (suspended_reason r) (created_at r)
  (updated_at r).

Definition set_suspended_reason (x : option string) (r : t) : t := mk (id r)
  (external_auth_id r) (email r) (email_verified r) (first_name r) (last_name
  r) (onboarding_completed r) (status r) (suspended_at r) x (created_at r)
  (updated_at r).

Definition set_updated_at (x : datetime) (r : t) : t := mk (id r)
  (external_auth_id r) (email r) (email_verified r) (first_name r) (last_name
  r) (onboarding_completed r) (status r) (suspended_at r) (suspended_reason r)
  (created_at r) x.

End User.

(** [organisations/models/organisation.py], [Organisation] *)
Module Organisation.

Record t := mk {
  id : UUID;
  name : string;
  slug : string;
  deleted_at : option datetime;
  status : OrganisationStatus.t;
  suspended_at : option datetime;
  suspended_reason : option string;
  created_at : datetime;
  updated_at : datetime;
}.

#[global] Instance t_eq_dec : EqDecision t.
Proof. solve_decision. Defined.

Definition set_name (x : string) (r : t) : t := mk (id r) x (slug r)
  (deleted_at r) (status r) (suspended_at r) (suspended_reason r) (created_at
  r) (updated_at r).

Definition set_slug (x : string) (r : t) : t := mk (id r) (name r) x
  (deleted_at r) (status r) (suspended_at r) (suspended_reason r) (created_at
  r) (updated_at r).

Definition set_deleted_at (x : option datetime) (r : t) : t := mk (id r) (name
  r) (slug r) x (status r) (suspended_at r) (suspended_reason r) (created_at
  r) (updated_at r).

Definition set_status (x : OrganisationStatus.t) (r : t) : t := mk (id r)
  (name r) (slug r) (deleted_at r) x (suspended_at r) (suspended_reason r)
  (created_at r) (updated_at r).

Definition set_suspended_at (x : option datetime) (r : t) : t := mk (id r)
  (name r) (slug r) (deleted_at r) (status r) x (suspended_reason r)
  (created_at r) (updated_at r).

Definition set_suspended_reason (x : option string) (r : t) : t := mk (id r)
  (name r) (slug r) (deleted_at r) (status r) (suspended_at r) x (created_at
  r) (updated_at r).

Definition set_updated_at (x : datetime) (r : t) : t := mk (id r) (name r)
  (slug r) (deleted_at r) (status r) (suspended_at r) (suspended_reason r)
  (created_at r) x.

End Organisation.

(** [memberships/models/membership.py], [Membership] *)
Module Membership.

Record t := mk {
  id : UUID;
  user_id : UUID;
  organisation_id : UUID;
  role : MembershipRole.t;
  is_active : bool;
  created_at : datetime;
  updated_at : datetime;
}.

#[global] Instance t_eq_dec : EqDecision t.
Proof. solve_decision. Defined.

Definition set_role (x : MembershipRole.t) (r : t) : t := mk (id r) (user_id
  r) (organisation_id r) x (is_active r) (created_at r) (updated_at r).

Definition set_is_active (x : bool) (r : t) : t := mk (id r) (user_id r)
  (organisation_id r) (role r) x (created_at r) (updated_at r).

Definition set_updated_at (x : datetime) (r : t) : t := mk (id r) (user_id r)
  (organisation_id r) (role r) (is_active r) (created_at r) x.

End Membership.

(** [invites/models/invite.py], [Invite] *)
Module Invite.

Record t := mk {
  id : UUID;
  email : string;
  organisation_id : UUID;
  role : MembershipRole.t;
  status : InviteStatus.t;
  token_hash : string;
  expires_at : option datetime;
  revoked_at : option datetime;
  revoked_by_user_id : option UUID;
  created_at : datetime;
  updated_at : datetime;
}.

#[global] Instance t_eq_dec : EqDecision t.
Proof. solve_decision. Defined.

Definition set_email (x : string) (r : t) : t := mk (id r) x (organisation_id
  r) (role r) (status r) (token_hash r) (expires_at r) (revoked_at r)
  (revoked_by_user_id r) (created_at r) (updated_at r).

Definition set_status (x : InviteStatus.t) (r : t) : t := mk (id r) (email r)
  (organisation_id r) (role r) x (token_hash r) (expires_at r) (revoked_at r)
  (revoked_by_user_id r) (created_at r) (updated_at r).

Definition set_token_hash (x : string) (r : t) : t := mk (id r) (email r)
  (organisation_id r) (role r) (status r) x (expires_at r) (revoked_at r)
  (revoked_by_user_id r) (created_at r) (updated_at r).

Definition set_expires_at (x : option datetime) (r : t) : t := mk (id r)
  (email r) (organisation_id r) (role r) (status r) (token_hash r) x
  (revoked_at r) (revoked_by_user_id r) (created_at r) (updated_at r).

Definition set_revoked_at (x : option datetime) (r : t) : t := mk (id r)
  (email r) (organisation_id r) (role r) (status r) (token_hash r) (expires_at
  r) x (revoked_by_user_id r) (created_at r) (updated_at r).

Definition set_revoked_by_user_id (x : option UUID) (r : t) : t := mk (id r)
  (email r) (organisation_id r) (role r) (status r) (token_hash r) (expires_at
  r) (revoked_at r) x (created_at r) (updated_at r).

Definition set_updated_at (x : datetime) (r : t) : t := mk (id r) (email r)
  (organisation_id r) (role r) (status r) (token_hash r) (expires_at r)
  (revoked_at r) (revoked_by_user_id r) (created_at r) x.

End Invite.

(** [audit/models/audit_event.py], [AuditEvent] *)
Module AuditEvent.

Record t := mk {
  id : UUID;
  actor_user_id : option UUID;
  category : string;
  action : string;
  target_type : string;
  target_id : option UUID;
  reason : option string;
  metadata_json : option json;
  ip_address : option string;
  user_agent : option string;
  legal_hold_until : option datetime;
  created_at : datetime;
}.

#[global] Instance t_eq_dec : EqDecision t.
Proof. solve_decision. Defined.

Definition set_actor_user_id (x : option UUID) (r : t) : t := mk (id r) x
  (category r) (action r) (target_type r) (target_id r) (reason r)
  (metadata_json r) (ip_address r) (user_agent r) (legal_hold_until r)
  (created_at r).

Definition set_target_id (x : option UUID) (r : t) : t := mk (id r)
  (actor_user_id r) (category r) (action r) (target_type r) x (reason r)
  (metadata_json r) (ip_address r) (user_agent r) (legal_hold_until r)
  (created_at r).

Definition set_reason (x : option string) (r : t) : t := mk (id r)
  (actor_user_id r) (category r) (action r) (target_type r) (target_id r) x
  (metadata_json r) (ip_address r) (user_agent r) (legal_hold_until r)
  (created_at r).

Definition set_metadata_json (x : option json) (r : t) : t := mk (id r)
  (actor_user_id r) (category r) (action r) (target_type r) (target_id r)
  (reason r) x (ip_address r) (user_agent r) (legal_hold_until r) (created_at
  r).

Definition set_ip_address (x : option string) (r : t) : t := mk (id r)
  (actor_user_id r) (category r) (action r) (target_type r) (target_id r)
  (reason r) (metadata_json r) x (user_agent r) (legal_hold_until r)
  (created_at r).

Definition set_user_agent (x : option string) (r : t) : t := mk (id r)
  (actor_user_id r) (category r) (action r) (target_type r) (target_id r)
  (reason r) (metadata_json r) (ip_address r) x (legal_hold_until r)
  (created_at r).

End AuditEvent.

(** [outbox/models/outbox_event.py], [OutboxEvent] *)
Module OutboxEvent.

Record t := mk {
  id : UUID;
  event_type : string;
  aggregate_type : option string;
  aggregate_id : option UUID;
  payload_json : json;
  status : OutboxStatus.t;
  attempts : Z;
  max_attempts : Z;
  next_attempt_at : option datetime;
  locked_at : option datetime;
  processed_at : option datetime;
  last_error : option string;
  created_at : datetime;
  updated_at : datetime;
}.

#[global] Instance t_eq_dec : EqDecision t.
Proof. solve_decision. Defined.

Definition set_payload_json (x : json) (r : t) : t := mk (id r) (event_type r)
  (aggregate_type r) (aggregate_id r) x (status r) (attempts r) (max_attempts
  r) (next_attempt_at r) (locked_at r) (processed_at r) (last_error r)
  (created_at r) (updated_at r).

Definition set_status (x : OutboxStatus.t) (r : t) : t := mk (id r)
  (event_type r) (aggregate_type r) (aggregate_id r) (payload_json r) x
  (attempts r) (max_attempts r) (next_attempt_at r) (locked_at r)
  (processed_at r) (last_error r) (created_at r) (updated_at r).

Definition set_attempts (x : Z) (r : t) : t := mk (id r) (event_type r)
  (aggregate_type r) (aggregate_id r) (payload_json r) (status r) x
  (max_attempts r) (next_attempt_at r) (locked_at r) (processed_at r)
  (last_error r) (created_at r) (updated_at r).

Definition set_next_attempt_at (x : option datetime) (r : t) : t := mk (id r)
  (event_type r) (aggregate_type r) (aggregate_id r) (payload_json r) (status
  r) (attempts r) (max_attempts r) x (locked_at r) (processed_at r)
  (last_error r) (created_at r) (updated_at r).

Definition set_locked_at (x : option datetime) (r : t) : t := mk (id r)
  (event_type r) (aggregate_type r) (aggregate_id r) (payload_json r) (status
  r) (attempts r) (max_attempts r) (next_attempt_at r) x (processed_at r)
  (last_error r) (created_at r) (updated_at r).

Definition set_processed_at (x : option datetime) (r : t) : t := mk (id r)
  (event_type r) (aggregate_type r) (aggregate_id r) (payload_json r) (status
  r) (attempts r) (max_attempts r) (next_attempt_at r) (locked_at r) x
  (last_error r) (created_at r) (updated_at r).

Definition set_last_error (x : option string) (r : t) : t := mk (id r)
  (event_type r) (aggregate_type r) (aggregate_id r) (payload_json r) (status
  r) (attempts r) (max_attempts r) (next_attempt_at r) (locked_at r)
  (processed_at r) x (created_at r) (updated_at r).

Definition set_updated_at (x : datetime) (r : t) : t := mk (id r) (event_type
  r) (aggregate_type r) (aggregate_id r) (payload_json r) (status r) (attempts
  r) (max_attempts r) (next_attempt_at r) (locked_at r) (processed_at r)
  (last_error r) (created_at r) x.

End OutboxEvent.

(** [outbox/models/outbox_event.py], [OutboxDeliveryClaim] *)
Module OutboxDeliveryClaim.

Record t := mk {
  event_id : UUID;
  claim_token : string;
  claimed_at : datetime;
}.

#[global] Instance t_eq_dec : EqDecision t.
Proof. solve_decision. Defined.

End OutboxDeliveryClaim.

(** [platform/models/platform_staff.py], [PlatformStaff] *)
Module PlatformStaff.

Record t := mk {
  id : UUID;
  user_id : UUID;
  role : string;
  status : string;
  created_by_user_id : option UUID;
  suspended_at : option datetime;
  suspended_reason : option string;
  created_at : datetime;
  updated_at : datetime;
}.

#[global] Instance t_eq_dec : EqDecision t.
Proof. solve_decision. Defined.

Definition set_role (x : string) (r : t) : t := mk (id r) (user_id r) x
  (status r) (created_by_user_id r) (suspended_at r) (suspended_reason r)
  (created_at r) (updated_at r).

Definition set_status (x : string) (r : t) : t := mk (id r) (user_id r) (role
  r) x (created_by_user_id r) (suspended_at r) (suspended_reason r)
  (created_at r) (updated_at r).

Definition set_created_by_user_id (x : option UUID) (r : t) : t := mk (id r)
  (user_id r) (role r) (status r) x (suspended_at r) (suspended_reason r)
  (created_at r) (updated_at r).

Definition set_suspended_at (x : option datetime) (r : t) : t := mk (id r)
  (user_id r) (role r) (status r) (created_by_user_id r) x (suspended_reason
  r) (created_at r) (updated_at r).

Definition set_suspended_reason (x : option string) (r : t) : t := mk (id r)
  (user_id r) (role r) (status r) (created_by_user_id r) (suspended_at r) x
  (created_at r) (updated_at r).

Definition set_updated_at (x : datetime) (r : t) : t := mk (id r) (user_id r)
  (role r) (status r) (created_by_user_id r) (suspended_at r)
  (suspended_reason r) (created_at r) x.

End PlatformStaff.

(** [privacy/models/data_subject_request.py], [DataSubjectRequest] *)
Module DataSubjectRequest.

Record t := mk {
  id : UUID;
  request_type : DataSubjectRequestType.t;
  status : DataSubjectRequestStatus.t;
  execution_status : DataSubjectRequestExecutionStatus.t;
  requester_role : DataSubjectRequestRequesterRole.t;
  representative_status : DataSubjectRequestRepresentativeStatus.t;
  representative_relationship : option string;
  representative_authority_note : option string;
  representative_verified_at : option datetime;
  representative_verified_by_user_id : option UUID;
  representative_rejection_reason_code : option string;
  requester_user_id : option UUID;
  subject_user_id : option UUID;
  reviewer_user_id : option UUID;
  submitted_at : datetime;
  acknowledged_at : option datetime;
  reviewed_at : option datetime;
  decided_at : option datetime;
  fulfilled_at : option datetime;
  cancelled_at : option datetime;
  execution_started_at : option datetime;
  execution_completed_at : option datetime;
  execution_failed_at : option datetime;
  execution_failure_reason_code : option string;
  execution_failure_detail : option string;
  decision_reason_code : option string;
  rejection_reason_code : option string;
  requester_note : option string;
  internal_note : option string;
  due_at : datetime;
  extended_until : option datetime;
  extension_reason_code : option string;
  idempotency_key_hash : option string;
  idempotency_fingerprint : option string;
  idempotency_key_expires_at : option datetime;
  export_artifact_id : option UUID;
  erasure_job_id : option UUID;
  created_at : datetime;
  updated_at : datetime;
}.

#[global] Instance t_eq_dec : EqDecision t.
Proof. solve_decision. Defined.

Definition set_status (x : DataSubjectRequestStatus.t) (r : t) : t := mk (id
  r) (request_type r) x (execution_status r) (requester_role r)
  (representative_status r) (representative_relationship r)
  (representative_authority_note r) (representative_verified_at r)
  (representative_verified_by_user_id r) (representative_rejection_reason_code
  r) (requester_user_id r) (subject_user_id r) (reviewer_user_id r)
  (submitted_at r) (acknowledged_at r) (reviewed_at r) (decided_at r)
  (fulfilled_at r) (cancelled_at r) (execution_started_at r)
  (execution_completed_at r) (execution_failed_at r)
  (execution_failure_reason_code r) (execution_failure_detail r)
  (decision_reason_code r) (rejection_reason_code r) (requester_note r)
  (internal_note r) (due_at r) (extended_until r) (extension_reason_code r)
  (idempotency_key_hash r) (idempotency_fingerprint r)
  (idempotency_key_expires_at r) (export_artifact_id r) (erasure_job_id r)
  (created_at r) (updated_at r).

Definition set_representative_status (x :
  DataSubjectRequestRepresentativeStatus.t) (r : t) : t := mk (id r)
  (request_type r) (status r) (execution_status r) (requester_role r) x
  (representative_relationship r) (representative_authority_note r)
  (representative_verified_at r) (representative_verified_by_user_id r)
  (representative_rejection_reason_code r) (requester_user_id r)
  (subject_user_id r) (reviewer_user_id r) (submitted_at r) (acknowledged_at
  r) (reviewed_at r) (decided_at r) (fulfilled_at r) (cancelled_at r)
  (execution_started_at r) (execution_completed_at r) (execution_failed_at r)
  (execution_failure_reason_code r) (execution_failure_detail r)
  (decision_reason_code r) (rejection_reason_code r) (requester_note r)
  (internal_note r) (due_at r) (extended_until r) (extension_reason_code r)
  (idempotency_key_hash r) (idempotency_fingerprint r)
  (idempotency_key_expires_at r) (export_artifact_id r) (erasure_job_id r)
  (created_at r) (updated_at r).

Definition set_representative_relationship (x : option string) (r : t) : t :=
  mk (id r) (request_type r) (status r) (execution_status r) (requester_role
  r) (representative_status r) x (representative_authority_note r)
  (representative_verified_at r) (representative_verified_by_user_id r)
  (representative_rejection_reason_code r) (requester_user_id r)
  (subject_user_id r) (reviewer_user_id r) (submitted_at r) (acknowledged_at
  r) (reviewed_at r) (decided_at r) (fulfilled_at r) (cancelled_at r)
  (execution_started_at r) (execution_completed_at r) (execution_failed_at r)
  (execution_failure_reason_code r) (execution_failure_detail r)
  (decision_reason_code r) (rejection_reason_code r) (requester_note r)
  (internal_note r) (due_at r) (extended_until r) (extension_reason_code r)
  (idempotency_key_hash r) (idempotency_fingerprint r)
  (idempotency_key_expires_at r) (export_artifact_id r) (erasure_job_id r)
  (created_at r) (updated_at r).

Definition set_representative_authority_note (x : option string) (r : t) : t
  := mk (id r) (request_type r) (status r) (execution_status r)
  (requester_role r) (representative_status r) (representative_relationship r)
  x (representative_verified_at r) (representative_verified_by_user_id r)
  (representative_rejection_reason_code r) (requester_user_id r)
  (subject_user_id r) (reviewer_user_id r) (submitted_at r) (acknowledged_at
  r) (reviewed_at r) (decided_at r) (fulfilled_at r) (cancelled_at r)
  (execution_started_at r) (execution_completed_at r) (execution_failed_at r)
  (execution_failure_reason_code r) (execution_failure_detail r)
  (decision_reason_code r) (rejection_reason_code r) (requester_note r)
  (internal_note r) (due_at r) (extended_until r) (extension_reason_code r)
  (idempotency_key_hash r) (idempotency_fingerprint r)
  (idempotency_key_expires_at r) (export_artifact_id r) (erasure_job_id r)
  (created_at r) (updated_at r).

Definition set_requester_user_id (x : option UUID) (r : t) : t := mk (id r)
  (request_type r) (status r) (execution_status r) (requester_role r)
  (representative_status r) (representative_relationship r)
  (representative_authority_note r) (representative_verified_at r)
  (representative_verified_by_user_id r) (representative_rejection_reason_code
  r) x (subject_user_id r) (reviewer_user_id r) (submitted_at r)
  (acknowledged_at r) (reviewed_at r) (decided_at r) (fulfilled_at r)
  (cancelled_at r) (execution_started_at r) (execution_completed_at r)
  (execution_failed_at r) (execution_failure_reason_code r)
  (execution_failure_detail r) (decision_reason_code r) (rejection_reason_code
  r) (requester_note r) (internal_note r) (due_at r) (extended_until r)
  (extension_reason_code r) (idempotency_key_hash r) (idempotency_fingerprint
  r) (idempotency_key_expires_at r) (export_artifact_id r) (erasure_job_id r)
  (created_at r) (updated_at r).

Definition set_subject_user_id (x : option UUID) (r : t) : t := mk (id r)
  (request_type r) (status r) (execution_status r) (requester_role r)
  (representative_status r) (representative_relationship r)
  (representative_authority_note r) (representative_verified_at r)
  (representative_verified_by_user_id r) (representative_rejection_reason_code
  r) (requester_user_id r) x (reviewer_user_id r) (submitted_at r)
  (acknowledged_at r) (reviewed_at r) (decided_at r) (fulfilled_at r)
  (cancelled_at r) (execution_started_at r) (execution_completed_at r)
  (execution_failed_at r) (execution_failure_reason_code r)
  (execution_failure_detail r) (decision_reason_code r) (rejection_reason_code
  r) (requester_note r) (internal_note r) (due_at r) (extended_until r)
  (extension_reason_code r) (idempotency_key_hash r) (idempotency_fingerprint
  r) (idempotency_key_expires_at r) (export_artifact_id r) (erasure_job_id r)
  (created_at r) (updated_at r).

Definition set_requester_note (x : option string) (r : t) : t := mk (id r)
  (request_type r) (status r) (execution_status r) (requester_role r)
  (representative_status r) (representative_relationship r)
  (representative_authority_note r) (representative_verified_at r)
  (representative_verified_by_user_id r) (representative_rejection_reason_code
  r) (requester_user_id r) (subject_user_id r) (reviewer_user_id r)
  (submitted_at r) (acknowledged_at r) (reviewed_at r) (decided_at r)
  (fulfilled_at r) (cancelled_at r) (execution_started_at r)
  (execution_completed_at r) (execution_failed_at r)
  (execution_failure_reason_code r) (execution_failure_detail r)
  (decision_reason_code r) (rejection_reason_code r) x (internal_note r)
  (due_at r) (extended_until r) (extension_reason_code r)
  (idempotency_key_hash r) (idempotency_fingerprint r)
  (idempotency_key_expires_at r) (export_artifact_id r) (erasure_job_id r)
  (created_at r) (updated_at r).

Definition set_internal_note (x : option string) (r : t) : t := mk (id r)
  (request_type r) (status r) (execution_status r) (requester_role r)
  (representative_status r) (representative_relationship r)
  (representative_authority_note r) (representative_verified_at r)
  (representative_verified_by_user_id r) (representative_rejection_reason_code
  r) (requester_user_id r) (subject_user_id r) (reviewer_user_id r)
  (submitted_at r) (acknowledged_at r) (reviewed_at r) (decided_at r)
  (fulfilled_at r) (cancelled_at r) (execution_started_at r)
  (execution_completed_at r) (execution_failed_at r)
  (execution_failure_reason_code r) (execution_failure_detail r)
  (decision_reason_code r) (rejection_reason_code r) (requester_note r) x
  (due_at r) (extended_until r) (extension_reason_code r)
  (idempotency_key_hash r) (idempotency_fingerprint r)
  (idempotency_key_expires_at r) (export_artifact_id r) (erasure_job_id r)
  (created_at r) (updated_at r).

Definition set_export_artifact_id (x : option UUID) (r : t) : t := mk (id r)
  (request_type r) (status r) (execution_status r) (requester_role r)
  (representative_status r) (representative_relationship r)
  (representative_authority_note r) (representative_verified_at r)
  (representative_verified_by_user_id r) (representative_rejection_reason_code
  r) (requester_user_id r) (subject_user_id r) (reviewer_user_id r)
  (submitted_at r) (acknowledged_at r) (reviewed_at r) (decided_at r)
  (fulfilled_at r) (cancelled_at r) (execution_started_at r)
  (execution_completed_at r) (execution_failed_at r)
  (execution_failure_reason_code r) (execution_failure_detail r)
  (decision_reason_code r) (rejection_reason_code r) (requester_note r)
  (internal_note r) (due_at r) (extended_until r) (extension_reason_code r)
  (idempotency_key_hash r) (idempotency_fingerprint r)
  (idempotency_key_expires_at r) x (erasure_job_id r) (created_at r)
  (updated_at r).

Definition set_erasure_job_id (x : option UUID) (r : t) : t := mk (id r)
  (request_type r) (status r) (execution_status r) (requester_role r)
  (representative_status r) (representative_relationship r)
  (representative_authority_note r) (representative_verified_at r)
  (representative_verified_by_user_id r) (representative_rejection_reason_code
  r) (requester_user_id r) (subject_user_id r) (reviewer_user_id r)
  (submitted_at r) (acknowledged_at r) (reviewed_at r) (decided_at r)
  (fulfilled_at r) (cancelled_at r) (execution_started_at r)
  (execution_completed_at r) (execution_failed_at r)
  (execution_failure_reason_code r) (execution_failure_detail r)
  (decision_reason_code r) (rejection_reason_code r) (requester_note r)
  (internal_note r) (due_at r) (extended_until r) (extension_reason_code r)
  (idempotency_key_hash r) (idempotency_fingerprint r)
  (idempotency_key_expires_at r) (export_artifact_id r) x (created_at r)
  (updated_at r).

Definition set_representative_verified_at (x : option datetime) (r : t) : t :=
  mk (id r) (request_type r) (status r) (execution_status r) (requester_role
  r) (representative_status r) (representative_relationship r)
  (representative_authority_note r) x (representative_verified_by_user_id r)
  (representative_rejection_reason_code r) (requester_user_id r)
  (subject_user_id r) (reviewer_user_id r) (submitted_at r) (acknowledged_at
  r) (reviewed_at r) (decided_at r) (fulfilled_at r) (cancelled_at r)
  (execution_started_at r) (execution_completed_at r) (execution_failed_at r)
  (execution_failure_reason_code r) (execution_failure_detail r)
  (decision_reason_code r) (rejection_reason_code r) (requester_note r)
  (internal_note r) (due_at r) (extended_until r) (extension_reason_code r)
  (idempotency_key_hash r) (idempotency_fingerprint r)
  (idempotency_key_expires_at r) (export_artifact_id r) (erasure_job_id r)
  (created_at r) (updated_at r).

Definition set_representative_verified_by_user_id (x : option UUID) (r : t) :
  t := mk (id r) (request_type r) (status r) (execution_status r)
  (requester_role r) (representative_status r) (representative_relationship r)
  (representative_authority_note r) (representative_verified_at r) x
  (representative_rejection_reason_code r) (requester_user_id r)
  (subject_user_id r) (reviewer_user_id r) (submitted_at r) (acknowledged_at
  r) (reviewed_at r) (decided_at r) (fulfilled_at r) (cancelled_at r)
  (execution_started_at r) (execution_completed_at r) (execution_failed_at r)
  (execution_failure_reason_code r) (execution_failure_detail r)
  (decision_reason_code r) (rejection_reason_code r) (requester_note r)
  (internal_note r) (due_at r) (extended_until r) (extension_reason_code r)
  (idempotency_key_hash r) (idempotency_fingerprint r)
  (idempotency_key_expires_at r) (export_artifact_id r) (erasure_job_id r)
  (created_at r) (updated_at r).

Definition set_representative_rejection_reason_code (x : option string) (r :
  t) : t := mk (id r) (request_type r) (status r) (execution_status r)
  (requester_role r) (representative_status r) (representative_relationship r)
  (representative_authority_note r) (representative_verified_at r)
  (representative_verified_by_user_id r) x (requester_user_id r)
  (subject_user_id r) (reviewer_user_id r) (submitted_at r) (acknowledged_at
  r) (reviewed_at r) (decided_at r) (fulfilled_at r) (cancelled_at r)
  (execution_started_at r) (execution_completed_at r) (execution_failed_at r)
  (execution_failure_reason_code r) (execution_failure_detail r)
  (decision_reason_code r) (rejection_reason_code r) (requester_note r)
  (internal_note r) (due_at r) (extended_until r) (extension_reason_code r)
  (idempotency_key_hash r) (idempotency_fingerprint r)
  (idempotency_key_expires_at r) (export_artifact_id r) (erasure_job_id r)
  (created_at r) (updated_at r).

Definition set_reviewer_user_id (x : option UUID) (r : t) : t := mk (id r)
  (request_type r) (status r) (execution_status r) (requester_role r)
  (representative_status r) (representative_relationship r)
  (representative_authority_note r) (representative_verified_at r)
  (representative_verified_by_user_id r) (representative_rejection_reason_code
  r) (requester_user_id r) (subject_user_id r) x (submitted_at r)
  (acknowledged_at r) (reviewed_at r) (decided_at r) (fulfilled_at r)
  (cancelled_at r) (execution_started_at r) (execution_completed_at r)
  (execution_failed_at r) (execution_failure_reason_code r)
  (execution_failure_detail r) (decision_reason_code r) (rejection_reason_code
  r) (requester_note r) (internal_note r) (due_at r) (extended_until r)
  (extension_reason_code r) (idempotency_key_hash r) (idempotency_fingerprint
  r) (idempotency_key_expires_at r) (export_artifact_id r) (erasure_job_id r)
  (created_at r) (updated_at r).

Definition set_reviewed_at (x : option datetime) (r : t) : t := mk (id r)
  (request_type r) (status r) (execution_status r) (requester_role r)
  (representative_status r) (representative_relationship r)
  (representative_authority_note r) (representative_verified_at r)
  (representative_verified_by_user_id r) (representative_rejection_reason_code
  r) (requester_user_id r) (subject_user_id r) (reviewer_user_id r)
  (submitted_at r) (acknowledged_at r) x (decided_at r) (fulfilled_at r)
  (cancelled_at r) (execution_started_at r) (execution_completed_at r)
  (execution_failed_at r) (execution_failure_reason_code r)
  (execution_failure_detail r) (decision_reason_code r) (rejection_reason_code
  r) (requester_note r) (internal_note r) (due_at r) (extended_until r)
  (extension_reason_code r) (idempotency_key_hash r) (idempotency_fingerprint
  r) (idempotency_key_expires_at r) (export_artifact_id r) (erasure_job_id r)
  (created_at r) (updated_at r).

Definition set_decided_at (x : option datetime) (r : t) : t := mk (id r)
  (request_type r) (status r) (execution_status r) (requester_role r)
  (representative_status r) (representative_relationship r)
  (representative_authority_note r) (representative_verified_at r)
  (representative_verified_by_user_id r) (representative_rejection_reason_code
  r) (requester_user_id r) (subject_user_id r) (reviewer_user_id r)
  (submitted_at r) (acknowledged_at r) (reviewed_at r) x (fulfilled_at r)
  (cancelled_at r) (execution_started_at r) (execution_completed_at r)
  (execution_failed_at r) (execution_failure_reason_code r)
  (execution_failure_detail r) (decision_reason_code r) (rejection_reason_code
  r) (requester_note r) (internal_note r) (due_at r) (extended_until r)
  (extension_reason_code r) (idempotency_key_hash r) (idempotency_fingerprint
  r) (idempotency_key_expires_at r) (export_artifact_id r) (erasure_job_id r)
  (created_at r) (updated_at r).

Definition set_fulfilled_at (x : option datetime) (r : t) : t := mk (id r)
  (request_type r) (status r) (execution_status r) (requester_role r)
  (representative_status r) (representative_relationship r)
  (representative_authority_note r) (representative_verified_at r)
  (representative_verified_by_user_id r) (representative_rejection_reason_code
  r) (requester_user_id r) (subject_user_id r) (reviewer_user_id r)
  (submitted_at r) (acknowledged_at r) (reviewed_at r) (decided_at r) x
  (cancelled_at r) (execution_started_at r) (execution_completed_at r)
  (execution_failed_at r) (execution_failure_reason_code r)
  (execution_failure_detail r) (decision_reason_code r) (rejection_reason_code
  r) (requester_note r) (internal_note r) (due_at r) (extended_until r)
  (extension_reason_code r) (idempotency_key_hash r) (idempotency_fingerprint
  r) (idempotency_key_expires_at r) (export_artifact_id r) (erasure_job_id r)
  (created_at r) (updated_at r).

Definition set_cancelled_at (x : option datetime) (r : t) : t := mk (id r)
  (request_type r) (status r) (execution_status r) (requester_role r)
  (representative_status r) (representative_relationship r)
  (representative_authority_note r) (representative_verified_at r)
  (representative_verified_by_user_id r) (representative_rejection_reason_code
  r) (requester_user_id r) (subject_user_id r) (reviewer_user_id r)
  (submitted_at r) (acknowledged_at r) (reviewed_at r) (decided_at r)
  (fulfilled_at r) x (execution_started_at r) (execution_completed_at r)
  (execution_failed_at r) (execution_failure_reason_code r)
  (execution_failure_detail r) (decision_reason_code r) (rejection_reason_code
  r) (requester_note r) (internal_note r) (due_at r) (extended_until r)
  (extension_reason_code r) (idempotency_key_hash r) (idempotency_fingerprint
  r) (idempotency_key_expires_at r) (export_artifact_id r) (erasure_job_id r)
  (created_at r) (updated_at r).

Definition set_decision_reason_code (x : option string) (r : t) : t := mk (id
  r) (request_type r) (status r) (execution_status r) (requester_role r)
  (representative_status r) (representative_relationship r)
  (representative_authority_note r) (representative_verified_at r)
  (representative_verified_by_user_id r) (representative_rejection_reason_code
  r) (requester_user_id r) (subject_user_id r) (reviewer_user_id r)
  (submitted_at r) (acknowledged_at r) (reviewed_at r) (decided_at r)
  (fulfilled_at r) (cancelled_at r) (execution_started_at r)
  (execution_completed_at r) (execution_failed_at r)
  (execution_failure_reason_code r) (execution_failure_detail r) x
  (rejection_reason_code r) (requester_note r) (internal_note r) (due_at r)
  (extended_until r) (extension_reason_code r) (idempotency_key_hash r)
  (idempotency_fingerprint r) (idempotency_key_expires_at r)
  (export_artifact_id r) (erasure_job_id r) (created_at r) (updated_at r).

Definition set_rejection_reason_code (x : option string) (r : t) : t := mk (id
  r) (request_type r) (status r) (execution_status r) (requester_role r)
  (representative_status r) (representative_relationship r)
  (representative_authority_note r) (representative_verified_at r)
  (representative_verified_by_user_id r) (representative_rejection_reason_code
  r) (requester_user_id r) (subject_user_id r) (reviewer_user_id r)
  (submitted_at r) (acknowledged_at r) (reviewed_at r) (decided_at r)
  (fulfilled_at r) (cancelled_at r) (execution_started_at r)
  (execution_completed_at r) (execution_failed_at r)
  (execution_failure_reason_code r) (execution_failure_detail r)
  (decision_reason_code r) x (requester_note r) (internal_note r) (due_at r)
  (extended_until r) (extension_reason_code r) (idempotency_key_hash r)
  (idempotency_fingerprint r) (idempotency_key_expires_at r)
  (export_artifact_id r) (erasure_job_id r) (created_at r) (updated_at r).

Definition set_execution_status (x : DataSubjectRequestExecutionStatus.t) (r :
  t) : t := mk (id r) (request_type r) (status r) x (requester_role r)
  (representative_status r) (representative_relationship r)
  (representative_authority_note r) (representative_verified_at r)
  (representative_verified_by_user_id r) (representative_rejection_reason_code
  r) (requester_user_id r) (subject_user_id r) (reviewer_user_id r)
  (submitted_at r) (acknowledged_at r) (reviewed_at r) (decided_at r)
  (fulfilled_at r) (cancelled_at r) (execution_started_at r)
  (execution_completed_at r) (execution_failed_at r)
  (execution_failure_reason_code r) (execution_failure_detail r)
  (decision_reason_code r) (rejection_reason_code r) (requester_note r)
  (internal_note r) (due_at r) (extended_until r) (extension_reason_code r)
  (idempotency_key_hash r) (idempotency_fingerprint r)
  (idempotency_key_expires_at r) (export_artifact_id r) (erasure_job_id r)
  (created_at r) (updated_at r).

Definition set_execution_started_at (x : option datetime) (r : t) : t := mk
  (id r) (request_type r) (status r) (execution_status r) (requester_role r)
  (representative_status r) (representative_relationship r)
  (representative_authority_note r) (representative_verified_at r)
  (representative_verified_by_user_id r) (representative_rejection_reason_code
  r) (requester_user_id r) (subject_user_id r) (reviewer_user_id r)
  (submitted_at r) (acknowledged_at r) (reviewed_at r) (decided_at r)
  (fulfilled_at r) (cancelled_at r) x (execution_completed_at r)
  (execution_failed_at r) (execution_failure_reason_code r)
  (execution_failure_detail r) (decision_reason_code r) (rejection_reason_code
  r) (requester_note r) (internal_note r) (due_at r) (extended_until r)
  (extension_reason_code r) (idempotency_key_hash r) (idempotency_fingerprint
  r) (idempotency_key_expires_at r) (export_artifact_id r) (erasure_job_id r)
  (created_at r) (updated_at r).

Definition set_execution_completed_at (x : option datetime) (r : t) : t := mk
  (id r) (request_type r) (status r) (execution_status r) (requester_role r)
  (representative_status r) (representative_relationship r)
  (representative_authority_note r) (representative_verified_at r)
  (representative_verified_by_user_id r) (representative_rejection_reason_code
  r) (requester_user_id r) (subject_user_id r) (reviewer_user_id r)
  (submitted_at r) (acknowledged_at r) (reviewed_at r) (decided_at r)
  (fulfilled_at r) (cancelled_at r) (execution_started_at r) x
  (execution_failed_at r) (execution_failure_reason_code r)
  (execution_failure_detail r) (decision_reason_code r) (rejection_reason_code
  r) (requester_note r) (internal_note r) (due_at r) (extended_until r)
  (extension_reason_code r) (idempotency_key_hash r) (idempotency_fingerprint
  r) (idempotency_key_expires_at r) (export_artifact_id r) (erasure_job_id r)
  (created_at r) (updated_at r).

Definition set_execution_failed_at (x : option datetime) (r : t) : t := mk (id
  r) (request_type r) (status r) (execution_status r) (requester_role r)
  (representative_status r) (representative_relationship r)
  (representative_authority_note r) (representative_verified_at r)
  (representative_verified_by_user_id r) (representative_rejection_reason_code
  r) (requester_user_id r) (subject_user_id r) (reviewer_user_id r)
  (submitted_at r) (acknowledged_at r) (reviewed_at r) (decided_at r)
  (fulfilled_at r) (cancelled_at r) (execution_started_at r)
  (execution_completed_at r) x (execution_failure_reason_code r)
  (execution_failure_detail r) (decision_reason_code r) (rejection_reason_code
  r) (requester_note r) (internal_note r) (due_at r) (extended_until r)
  (extension_reason_code r) (idempotency_key_hash r) (idempotency_fingerprint
  r) (idempotency_key_expires_at r) (export_artifact_id r) (erasure_job_id r)
  (created_at r) (updated_at r).

Definition set_execution_failure_reason_code (x : option string) (r : t) : t
  := mk (id r) (request_type r) (status r) (execution_status r)
  (requester_role r) (representative_status r) (representative_relationship r)
  (representative_authority_note r) (representative_verified_at r)
  (representative_verified_by_user_id r) (representative_rejection_reason_code
  r) (requester_user_id r) (subject_user_id r) (reviewer_user_id r)
  (submitted_at r) (acknowledged_at r) (reviewed_at r) (decided_at r)
  (fulfilled_at r) (cancelled_at r) (execution_started_at r)
  (execution_completed_at r) (execution_failed_at r) x
  (execution_failure_detail r) (decision_reason_code r) (rejection_reason_code
  r) (requester_note r) (internal_note r) (due_at r) (extended_until r)
  (extension_reason_code r) (idempotency_key_hash r) (idempotency_fingerprint
  r) (idempotency_key_expires_at r) (export_artifact_id r) (erasure_job_id r)
  (created_at r) (updated_at r).

Definition set_execution_failure_detail (x : option string) (r : t) : t := mk
  (id r) (request_type r) (status r) (execution_status r) (requester_role r)
  (representative_status r) (representative_relationship r)
  (representative_authority_note r) (representative_verified_at r)
  (representative_verified_by_user_id r) (representative_rejection_reason_code
  r) (requester_user_id r) (subject_user_id r) (reviewer_user_id r)
  (submitted_at r) (acknowledged_at r) (reviewed_at r) (decided_at r)
  (fulfilled_at r) (cancelled_at r) (execution_started_at r)
  (execution_completed_at r) (execution_failed_at r)
  (execution_failure_reason_code r) x (decision_reason_code r)
  (rejection_reason_code r) (requester_note r) (internal_note r) (due_at r)
  (extended_until r) (extension_reason_code r) (idempotency_key_hash r)
  (idempotency_fingerprint r) (idempotency_key_expires_at r)
  (export_artifact_id r) (erasure_job_id r) (created_at r) (updated_at r).

Definition set_idempotency_key_hash (x : option string) (r : t) : t := mk (id
  r) (request_type r) (status r) (execution_status r) (requester_role r)
  (representative_status r) (representative_relationship r)
  (representative_authority_note r) (representative_verified_at r)
  (representative_verified_by_user_id r) (representative_rejection_reason_code
  r) (requester_user_id r) (subject_user_id r) (reviewer_user_id r)
  (submitted_at r) (acknowledged_at r) (reviewed_at r) (decided_at r)
  (fulfilled_at r) (cancelled_at r) (execution_started_at r)
  (execution_completed_at r) (execution_failed_at r)
  (execution_failure_reason_code r) (execution_failure_detail r)
  (decision_reason_code r) (rejection_reason_code r) (requester_note r)
  (internal_note r) (due_at r) (extended_until r) (extension_reason_code r) x
  (idempotency_fingerprint r) (idempotency_key_expires_at r)
  (export_artifact_id r) (erasure_job_id r) (created_at r) (updated_at r).

Definition set_idempotency_fingerprint (x : option string) (r : t) : t := mk
  (id r) (request_type r) (status r) (execution_status r) (requester_role r)
  (representative_status r) (representative_relationship r)
  (representative_authority_note r) (representative_verified_at r)
  (representative_verified_by_user_id r) (representative_rejection_reason_code
  r) (requester_user_id r) (subject_user_id r) (reviewer_user_id r)
  (submitted_at r) (acknowledged_at r) (reviewed_at r) (decided_at r)
  (fulfilled_at r) (cancelled_at r) (execution_started_at r)
  (execution_completed_at r) (execution_failed_at r)
  (execution_failure_reason_code r) (execution_failure_detail r)
  (decision_reason_code r) (rejection_reason_code r) (requester_note r)
  (internal_note r) (due_at r) (extended_until r) (extension_reason_code r)
  (idempotency_key_hash r) x (idempotency_key_expires_at r)
  (export_artifact_id r) (erasure_job_id r) (created_at r) (updated_at r).

Definition set_idempotency_key_expires_at (x : option datetime) (r : t) : t :=
  mk (id r) (request_type r) (status r) (execution_status r) (requester_role
  r) (representative_status r) (representative_relationship r)
  (representative_authority_note r) (representative_verified_at r)
  (representative_verified_by_user_id r) (representative_rejection_reason_code
  r) (requester_user_id r) (subject_user_id r) (reviewer_user_id r)
  (submitted_at r) (acknowledged_at r) (reviewed_at r) (decided_at r)
  (fulfilled_at r) (cancelled_at r) (execution_started_at r)
  (execution_completed_at r) (execution_failed_at r)
  (execution_failure_reason_code r) (execution_failure_detail r)
  (decision_reason_code r) (rejection_reason_code r) (requester_note r)
  (internal_note r) (due_at r) (extended_until r) (extension_reason_code r)
  (idempotency_key_hash r) (idempotency_fingerprint r) x (export_artifact_id
  r) (erasure_job_id r) (created_at r) (updated_at r).

Definition set_updated_at (x : datetime) (r : t) : t := mk (id r)
  (request_type r) (status r) (execution_status r) (requester_role r)
  (representative_status r) (representative_relationship r)
  (representative_authority_note r) (representative_verified_at r)
  (representative_verified_by_user_id r) (representative_rejection_reason_code
  r) (requester_user_id r) (subject_user_id r) (reviewer_user_id r)
  (submitted_at r) (acknowledged_at r) (reviewed_at r) (decided_at r)
  (fulfilled_at r) (cancelled_at r) (execution_started_at r)
  (execution_completed_at r) (execution_failed_at r)
  (execution_failure_reason_code r) (execution_failure_detail r)
  (decision_reason_code r) (rejection_reason_code r) (requester_note r)
  (internal_note r) (due_at r) (extended_until r) (extension_reason_code r)
  (idempotency_key_hash r) (idempotency_fingerprint r)
  (idempotency_key_expires_at r) (export_artifact_id r) (erasure_job_id r)
  (created_at r) x.

End DataSubjectRequest.

(** [privacy/models/export_artifact.py], [ExportArtifact] *)
Module ExportArtifact.

Record t := mk {
  id : UUID;
  data_subject_request_id : UUID;
  subject_user_id : option UUID;
  requester_user_id : option UUID;
  status : ExportArtifactStatus.t;
  format : ExportArtifactFormat.t;
  storage_backend : ExportArtifactStorageBackend.t;
  storage_key : option string;
  filename : option string;
  content_type : option string;
  size_bytes : option Z;
  checksum_sha256 : option string;
  schema_version : string;
  requested_by_user_id : option UUID;
  generated_by_user_id : option UUID;
  failure_reason_code : option string;
  failure_detail : option string;
  queued_at : datetime;
  started_at : option datetime;
  processing_token : option string;
  processing_lease_expires_at : option datetime;
  completed_at : option datetime;
  failed_at : option datetime;
  expires_at : datetime;
  download_url_issued_at : option datetime;
  download_url_issue_count : Z;
  downloaded_at : option datetime;
  download_count : Z;
  created_at : datetime;
  updated_at : datetime;
}.

#[global] Instance t_eq_dec : EqDecision t.
Proof. solve_decision. Defined.

Definition set_subject_user_id (x : option UUID) (r : t) : t := mk (id r)
  (data_subject_request_id r) x (requester_user_id r) (status r) (format r)
  (storage_backend r) (storage_key r) (filename r) (content_type r)
  (size_bytes r) (checksum_sha256 r) (schema_version r) (requested_by_user_id
  r) (generated_by_user_id r) (failure_reason_code r) (failure_detail r)
  (queued_at r) (started_at r) (processing_token r)
  (processing_lease_expires_at r) (completed_at r) (failed_at r) (expires_at
  r) (download_url_issued_at r) (download_url_issue_count r) (downloaded_at r)
  (download_count r) (created_at r) (updated_at r).

Definition set_requester_user_id (x : option UUID) (r : t) : t := mk (id r)
  (data_subject_request_id r) (subject_user_id r) x (status r) (format r)
  (storage_backend r) (storage_key r) (filename r) (content_type r)
  (size_bytes r) (checksum_sha256 r) (schema_version r) (requested_by_user_id
  r) (generated_by_user_id r) (failure_reason_code r) (failure_detail r)
  (queued_at r) (started_at r) (processing_token r)
  (processing_lease_expires_at r) (completed_at r) (failed_at r) (expires_at
  r) (download_url_issued_at r) (download_url_issue_count r) (downloaded_at r)
  (download_count r) (created_at r) (updated_at r).

Definition set_requested_by_user_id (x : option UUID) (r : t) : t := mk (id r)
  (data_subject_request_id r) (subject_user_id r) (requester_user_id r)
  (status r) (format r) (storage_backend r) (storage_key r) (filename r)
  (content_type r) (size_bytes r) (checksum_sha256 r) (schema_version r) x
  (generated_by_user_id r) (failure_reason_code r) (failure_detail r)
  (queued_at r) (started_at r) (processing_token r)
  (processing_lease_expires_at r) (completed_at r) (failed_at r) (expires_at
  r) (download_url_issued_at r) (download_url_issue_count r) (downloaded_at r)
  (download_count r) (created_at r) (updated_at r).

Definition set_status (x : ExportArtifactStatus.t) (r : t) : t := mk (id r)
  (data_subject_request_id r) (subject_user_id r) (requester_user_id r) x
  (format r) (storage_backend r) (storage_key r) (filename r) (content_type r)
  (size_bytes r) (checksum_sha256 r) (schema_version r) (requested_by_user_id
  r) (generated_by_user_id r) (failure_reason_code r) (failure_detail r)
  (queued_at r) (started_at r) (processing_token r)
  (processing_lease_expires_at r) (completed_at r) (failed_at r) (expires_at
  r) (download_url_issued_at r) (download_url_issue_count r) (downloaded_at r)
  (download_count r) (created_at r) (updated_at r).

Definition set_storage_key (x : option string) (r : t) : t := mk (id r)
  (data_subject_request_id r) (subject_user_id r) (requester_user_id r)
  (status r) (format r) (storage_backend r) x (filename r) (content_type r)
  (size_bytes r) (checksum_sha256 r) (schema_version r) (requested_by_user_id
  r) (generated_by_user_id r) (failure_reason_code r) (failure_detail r)
  (queued_at r) (started_at r) (processing_token r)
  (processing_lease_expires_at r) (completed_at r) (failed_at r) (expires_at
  r) (download_url_issued_at r) (download_url_issue_count r) (downloaded_at r)
  (download_count r) (created_at r) (updated_at r).

Definition set_filename (x : option string) (r : t) : t := mk (id r)
  (data_subject_request_id r) (subject_user_id r) (requester_user_id r)
  (status r) (format r) (storage_backend r) (storage_key r) x (content_type r)
  (size_bytes r) (checksum_sha256 r) (schema_version r) (requested_by_user_id
  r) (generated_by_user_id r) (failure_reason_code r) (failure_detail r)
  (queued_at r) (started_at r) (processing_token r)
  (processing_lease_expires_at r) (completed_at r) (failed_at r) (expires_at
  r) (download_url_issued_at r) (download_url_issue_count r) (downloaded_at r)
  (download_count r) (created_at r) (updated_at r).

Definition set_content_type (x : option string) (r : t) : t := mk (id r)
  (data_subject_request_id r) (subject_user_id r) (requester_user_id r)
  (status r) (format r) (storage_backend r) (storage_key r) (filename r) x
  (size_bytes r) (checksum_sha256 r) (schema_version r) (requested_by_user_id
  r) (generated_by_user_id r) (failure_reason_code r) (failure_detail r)
  (queued_at r) (started_at r) (processing_token r)
  (processing_lease_expires_at r) (completed_at r) (failed_at r) (expires_at
  r) (download_url_issued_at r) (download_url_issue_count r) (downloaded_at r)
  (download_count r) (created_at r) (updated_at r).

Definition set_size_bytes (x : option Z) (r : t) : t := mk (id r)
  (data_subject_request_id r) (subject_user_id r) (requester_user_id r)
  (status r) (format r) (storage_backend r) (storage_key r) (filename r)
  (content_type r) x (checksum_sha256 r) (schema_version r)
  (requested_by_user_id r) (generated_by_user_id r) (failure_reason_code r)
  (failure_detail r) (queued_at r) (started_at r) (processing_token r)
  (processing_lease_expires_at r) (completed_at r) (failed_at r) (expires_at
  r) (download_url_issued_at r) (download_url_issue_count r) (downloaded_at r)
  (download_count r) (created_at r) (updated_at r).

Definition set_checksum_sha256 (x : option string) (r : t) : t := mk (id r)
  (data_subject_request_id r) (subject_user_id r) (requester_user_id r)
  (status r) (format r) (storage_backend r) (storage_key r) (filename r)
  (content_type r) (size_bytes r) x (schema_version r) (requested_by_user_id
  r) (generated_by_user_id r) (failure_reason_code r) (failure_detail r)
  (queued_at r) (started_at r) (processing_token r)
  (processing_lease_expires_at r) (completed_at r) (failed_at r) (expires_at
  r) (download_url_issued_at r) (download_url_issue_count r) (downloaded_at r)
  (download_count r) (created_at r) (updated_at r).

Definition set_generated_by_user_id (x : option UUID) (r : t) : t := mk (id r)
  (data_subject_request_id r) (subject_user_id r) (requester_user_id r)
  (status r) (format r) (storage_backend r) (storage_key r) (filename r)
  (content_type r) (size_bytes r) (checksum_sha256 r) (schema_version r)
  (requested_by_user_id r) x (failure_reason_code r) (failure_detail r)
  (queued_at r) (started_at r) (processing_token r)
  (processing_lease_expires_at r) (completed_at r) (failed_at r) (expires_at
  r) (download_url_issued_at r) (download_url_issue_count r) (downloaded_at r)
  (download_count r) (created_at r) (updated_at r).

Definition set_failure_reason_code (x : option string) (r : t) : t := mk (id
  r) (data_subject_request_id r) (subject_user_id r) (requester_user_id r)
  (status r) (format r) (storage_backend r) (storage_key r) (filename r)
  (content_type r) (size_bytes r) (checksum_sha256 r) (schema_version r)
  (requested_by_user_id r) (generated_by_user_id r) x (failure_detail r)
  (queued_at r) (started_at r) (processing_token r)
  (processing_lease_expires_at r) (completed_at r) (failed_at r) (expires_at
  r) (download_url_issued_at r) (download_url_issue_count r) (downloaded_at r)
  (download_count r) (created_at r) (updated_at r).

Definition set_failure_detail (x : option string) (r : t) : t := mk (id r)
  (data_subject_request_id r) (subject_user_id r) (requester_user_id r)
  (status r) (format r) (storage_backend r) (storage_key r) (filename r)
  (content_type r) (size_bytes r) (checksum_sha256 r) (schema_version r)
  (requested_by_user_id r) (generated_by_user_id r) (failure_reason_code r) x
  (queued_at r) (started_at r) (processing_token r)
  (processing_lease_expires_at r) (completed_at r) (failed_at r) (expires_at
  r) (download_url_issued_at r) (download_url_issue_count r) (downloaded_at r)
  (download_count r) (created_at r) (updated_at r).

Definition set_started_at (x : option datetime) (r : t) : t := mk (id r)
  (data_subject_request_id r) (subject_user_id r) (requester_user_id r)
  (status r) (format r) (storage_backend r) (storage_key r) (filename r)
  (content_type r) (size_bytes r) (checksum_sha256 r) (schema_version r)
  (requested_by_user_id r) (generated_by_user_id r) (failure_reason_code r)
  (failure_detail r) (queued_at r) x (processing_token r)
  (processing_lease_expires_at r) (completed_at r) (failed_at r) (expires_at
  r) (download_url_issued_at r) (download_url_issue_count r) (downloaded_at r)
  (download_count r) (created_at r) (updated_at r).

Definition set_processing_token (x : option string) (r : t) : t := mk (id r)
  (data_subject_request_id r) (subject_user_id r) (requester_user_id r)
  (status r) (format r) (storage_backend r) (storage_key r) (filename r)
  (content_type r) (size_bytes r) (checksum_sha256 r) (schema_version r)
  (requested_by_user_id r) (generated_by_user_id r) (failure_reason_code r)
  (failure_detail r) (queued_at r) (started_at r) x
  (processing_lease_expires_at r) (completed_at r) (failed_at r) (expires_at
  r) (download_url_issued_at r) (download_url_issue_count r) (downloaded_at r)
  (download_count r) (created_at r) (updated_at r).

Definition set_processing_lease_expires_at (x : option datetime) (r : t) : t
  := mk (id r) (data_subject_request_id r) (subject_user_id r)
  (requester_user_id r) (status r) (format r) (storage_backend r) (storage_key
  r) (filename r) (content_type r) (size_bytes r) (checksum_sha256 r)
  (schema_version r) (requested_by_user_id r) (generated_by_user_id r)
  (failure_reason_code r) (failure_detail r) (queued_at r) (started_at r)
  (processing_token r) x (completed_at r) (failed_at r) (expires_at r)
  (download_url_issued_at r) (download_url_issue_count r) (downloaded_at r)
  (download_count r) (created_at r) (updated_at r).

Definition set_completed_at (x : option datetime) (r : t) : t := mk (id r)
  (data_subject_request_id r) (subject_user_id r) (requester_user_id r)
  (status r) (format r) (storage_backend r) (storage_key r) (filename r)
  (content_type r) (size_bytes r) (checksum_sha256 r) (schema_version r)
  (requested_by_user_id r) (generated_by_user_id r) (failure_reason_code r)
  (failure_detail r) (queued_at r) (started_at r) (processing_token r)
  (processing_lease_expires_at r) x (failed_at r) (expires_at r)
  (download_url_issued_at r) (download_url_issue_count r) (downloaded_at r)
  (download_count r) (created_at r) (updated_at r).

Definition set_failed_at (x : option datetime) (r : t) : t := mk (id r)
  (data_subject_request_id r) (subject_user_id r) (requester_user_id r)
  (status r) (format r) (storage_backend r) (storage_key r) (filename r)
  (content_type r) (size_bytes r) (checksum_sha256 r) (schema_version r)
  (requested_by_user_id r) (generated_by_user_id r) (failure_reason_code r)
  (failure_detail r) (queued_at r) (started_at r) (processing_token r)
  (processing_lease_expires_at r) (completed_at r) x (expires_at r)
  (download_url_issued_at r) (download_url_issue_count r) (downloaded_at r)
  (download_count r) (created_at r) (updated_at r).

Definition set_download_url_issued_at (x : option datetime) (r : t) : t := mk
  (id r) (data_subject_request_id r) (subject_user_id r) (requester_user_id r)
  (status r) (format r) (storage_backend r) (storage_key r) (filename r)
  (content_type r) (size_bytes r) (checksum_sha256 r) (schema_version r)
  (requested_by_user_id r) (generated_by_user_id r) (failure_reason_code r)
  (failure_detail r) (queued_at r) (started_at r) (processing_token r)
  (processing_lease_expires_at r) (completed_at r) (failed_at r) (expires_at
  r) x (download_url_issue_count r) (downloaded_at r) (download_count r)
  (created_at r) (updated_at r).

Definition set_download_url_issue_count (x : Z) (r : t) : t := mk (id r)
  (data_subject_request_id r) (subject_user_id r) (requester_user_id r)
  (status r) (format r) (storage_backend r) (storage_key r) (filename r)
  (content_type r) (size_bytes r) (checksum_sha256 r) (schema_version r)
  (requested_by_user_id r) (generated_by_user_id r) (failure_reason_code r)
  (failure_detail r) (queued_at r) (started_at r) (processing_token r)
  (processing_lease_expires_at r) (completed_at r) (failed_at r) (expires_at
  r) (download_url_issued_at r) x (downloaded_at r) (download_count r)
  (created_at r) (updated_at r).

Definition set_downloaded_at (x : option datetime) (r : t) : t := mk (id r)
  (data_subject_request_id r) (subject_user_id r) (requester_user_id r)
  (status r) (format r) (storage_backend r) (storage_key r) (filename r)
  (content_type r) (size_bytes r) (checksum_sha256 r) (schema_version r)
  (requested_by_user_id r) (generated_by_user_id r) (failure_reason_code r)
  (failure_detail r) (queued_at r) (started_at r) (processing_token r)
  (processing_lease_expires_at r) (completed_at r) (failed_at r) (expires_at
  r) (download_url_issued_at r) (download_url_issue_count r) x (download_count
  r) (created_at r) (updated_at r).

Definition set_download_count (x : Z) (r : t) : t := mk (id r)
  (data_subject_request_id r) (subject_user_id r) (requester_user_id r)
  (status r) (format r) (storage_backend r) (storage_key r) (filename r)
  (content_type r) (size_bytes r) (checksum_sha256 r) (schema_version r)
  (requested_by_user_id r) (generated_by_user_id r) (failure_reason_code r)
  (failure_detail r) (queued_at r) (started_at r) (processing_token r)
  (processing_lease_expires_at r) (completed_at r) (failed_at r) (expires_at
  r) (download_url_issued_at r) (download_url_issue_count r) (downloaded_at r)
  x (created_at r) (updated_at r).

Definition set_updated_at (x : datetime) (r : t) : t := mk (id r)
  (data_subject_request_id r) (subject_user_id r) (requester_user_id r)
  (status r) (format r) (storage_backend r) (storage_key r) (filename r)
  (content_type r) (size_bytes r) (checksum_sha256 r) (schema_version r)
  (requested_by_user_id r) (generated_by_user_id r) (failure_reason_code r)
  (failure_detail r) (queued_at r) (started_at r) (processing_token r)
  (processing_lease_expires_at r) (completed_at r) (failed_at r) (expires_at
  r) (download_url_issued_at r) (download_url_issue_count r) (downloaded_at r)
  (download_count r) (created_at r) x.

End ExportArtifact.

(** [privacy/models/privacy_governance.py], [ProcessingPurpose] *)
Module ProcessingPurpose.

Record t := mk {
  id : UUID;
  code : string;
  title : string;
  description : option string;
  family : string;
  default_lawful_basis : string;
  is_special_category : bool;
  default_special_category_condition : option string;
  requires_active_consent : bool;
  active : bool;
  created_at : datetime;
  updated_at : datetime;
}.

#[global] Instance t_eq_dec : EqDecision t.
Proof. solve_decision. Defined.

Definition set_updated_at (x : datetime) (r : t) : t := mk (id r) (code r)
  (title r) (description r) (family r) (default_lawful_basis r)
  (is_special_category r) (default_special_category_condition r)
  (requires_active_consent r) (active r) (created_at r) x.

End ProcessingPurpose.

(** [privacy/models/privacy_governance.py], [DataProcessingAuthorization] *)
Module DataProcessingAuthorization.

Record t := mk {
  id : UUID;
  subject_user_id : UUID;
  purpose_id : UUID;
  lawful_basis : string;
  special_category_condition : option string;
  active : bool;
  valid_from : datetime;
  valid_until : option datetime;
  revoked_at : option datetime;
  source : option string;
  created_at : datetime;
  updated_at : datetime;
}.

#[global] Instance t_eq_dec : EqDecision t.
Proof. solve_decision. Defined.

Definition set_active (x : bool) (r : t) : t := mk (id r) (subject_user_id r)
  (purpose_id r) (lawful_basis r) (special_category_condition r) x (valid_from
  r) (valid_until r) (revoked_at r) (source r) (created_at r) (updated_at r).

Definition set_revoked_at (x : option datetime) (r : t) : t := mk (id r)
  (subject_user_id r) (purpose_id r) (lawful_basis r)
  (special_category_condition r) (active r) (valid_from r) (valid_until r) x
  (source r) (created_at r) (updated_at r).

Definition set_source (x : option string) (r : t) : t := mk (id r)
  (subject_user_id r) (purpose_id r) (lawful_basis r)
  (special_category_condition r) (active r) (valid_from r) (valid_until r)
  (revoked_at r) x (created_at r) (updated_at r).

Definition set_updated_at (x : datetime) (r : t) : t := mk (id r)
  (subject_user_id r) (purpose_id r) (lawful_basis r)
  (special_category_condition r) (active r) (valid_from r) (valid_until r)
  (revoked_at r) (source r) (created_at r) x.

End DataProcessingAuthorization.

(** [privacy/models/privacy_governance.py], [ConsentRecord] *)
Module ConsentRecord.

Record t := mk {
  id : UUID;
  subject_user_id : UUID;
  purpose_id : UUID;
  authorization_id : option UUID;
  privacy_notice_version : string;
  granted_at : datetime;
  withdrawn_at : option datetime;
  withdrawal_reason_code : option string;
  created_at : datetime;
  updated_at : datetime;
}.

#[global] Instance t_eq_dec : EqDecision t.
Proof. solve_decision. Defined.

Definition set_withdrawn_at (x : option datetime) (r : t) : t := mk (id r)
  (subject_user_id r) (purpose_id r) (authorization_id r)
  (privacy_notice_version r) (granted_at r) x (withdrawal_reason_code r)
  (created_at r) (updated_at r).

Definition set_withdrawal_reason_code (x : option string) (r : t) : t := mk
  (id r) (subject_user_id r) (purpose_id r) (authorization_id r)
  (privacy_notice_version r) (granted_at r) (withdrawn_at r) x (created_at r)
  (updated_at r).

Definition set_updated_at (x : datetime) (r : t) : t := mk (id r)
  (subject_user_id r) (purpose_id r) (authorization_id r)
  (privacy_notice_version r) (granted_at r) (withdrawn_at r)
  (withdrawal_reason_code r) (created_at r) x.

End ConsentRecord.

(** [privacy/models/privacy_governance.py], [PrivacyNoticeAcceptance] *)
Module PrivacyNoticeAcceptance.

Record t := mk {
  id : UUID;
  subject_user_id : UUID;
  notice_version : string;
  accepted_at : datetime;
  source : option string;
  created_at : datetime;
  updated_at : datetime;
}.

#[global] Instance t_eq_dec : EqDecision t.
Proof. solve_decision. Defined.

Definition set_source (x : option string) (r : t) : t := mk (id r)
  (subject_user_id r) (notice_version r) (accepted_at r) x (created_at r)
  (updated_at r).

Definition set_updated_at (x : datetime) (r : t) : t := mk (id r)
  (subject_user_id r) (notice_version r) (accepted_at r) (source r)
  (created_at r) x.

End PrivacyNoticeAcceptance.

(** ** The database *)
Record Db := mkDb {
  users : gmap UUID User.t;
  organisations : gmap UUID Organisation.t;
  memberships : gmap UUID Membership.t;
  invites : gmap UUID Invite.t;
  audit_events : gmap UUID AuditEvent.t;
  outbox_events : gmap UUID OutboxEvent.t;
  outbox_delivery_claims : gmap UUID OutboxDeliveryClaim.t;
  platform_staff : gmap UUID PlatformStaff.t;
  data_subject_requests : gmap UUID DataSubjectRequest.t;
  export_artifacts : gmap UUID ExportArtifact.t;
  processing_purposes : gmap UUID ProcessingPurpose.t;
  data_processing_authorizations : gmap UUID DataProcessingAuthorization.t;
  consent_records : gmap UUID ConsentRecord.t;
  privacy_notice_acceptances : gmap UUID PrivacyNoticeAcceptance.t;
}.

Definition set_users (x : gmap UUID User.t) (d : Db) : Db := mkDb x
  (organisations d) (memberships d) (invites d) (audit_events d)
  (outbox_events d) (outbox_delivery_claims d) (platform_staff d)
  (data_subject_requests d) (export_artifacts d) (processing_purposes d)
  (data_processing_authorizations d) (consent_records d)
  (privacy_notice_acceptances d).

Definition set_organisations (x : gmap UUID Organisation.t) (d : Db) : Db :=
  mkDb (users d) x (memberships d) (invites d) (audit_events d) (outbox_events
  d) (outbox_delivery_claims d) (platform_staff d) (data_subject_requests d)
  (export_artifacts d) (processing_purposes d) (data_processing_authorizations
  d) (consent_records d) (privacy_notice_acceptances d).

Definition set_memberships (x : gmap UUID Membership.t) (d : Db) : Db := mkDb
  (users d) (organisations d) x (invites d) (audit_events d) (outbox_events d)
  (outbox_delivery_claims d) (platform_staff d) (data_subject_requests d)
  (export_artifacts d) (processing_purposes d) (data_processing_authorizations
  d) (consent_records d) (privacy_notice_acceptances d).

Definition set_invites (x : gmap UUID Invite.t) (d : Db) : Db := mkDb (users
  d) (organisations d) (memberships d) x (audit_events d) (outbox_events d)
  (outbox_delivery_claims d) (platform_staff d) (data_subject_requests d)
  (export_artifacts d) (processing_purposes d) (data_processing_authorizations
  d) (consent_records d) (privacy_notice_acceptances d).

Definition set_audit_events (x : gmap UUID AuditEvent.t) (d : Db) : Db := mkDb
  (users d) (organisations d) (memberships d) (invites d) x (outbox_events d)
  (outbox_delivery_claims d) (platform_staff d) (data_subject_requests d)
  (export_artifacts d) (processing_purposes d) (data_processing_authorizations
  d) (consent_records d) (privacy_notice_acceptances d).

Definition set_outbox_events (x : gmap UUID OutboxEvent.t) (d : Db) : Db :=
  mkDb (users d) (organisations d) (memberships d) (invites d) (audit_events
  d) x (outbox_delivery_claims d) (platform_staff d) (data_subject_requests d)
  (export_artifacts d) (processing_purposes d) (data_processing_authorizations
  d) (consent_records d) (privacy_notice_acceptances d).

Definition set_outbox_delivery_claims (x : gmap UUID OutboxDeliveryClaim.t) (d
  : Db) : Db := mkDb (users d) (organisations d) (memberships d) (invites d)
  (audit_events d) (outbox_events d) x (platform_staff d)
  (data_subject_requests d) (export_artifacts d) (processing_purposes d)
  (data_processing_authorizations d) (consent_records d)
  (privacy_notice_acceptances d).

Definition set_platform_staff (x : gmap UUID PlatformStaff.t) (d : Db) : Db :=
  mkDb (users d) (organisations d) (memberships d) (invites d) (audit_events
  d) (outbox_events d) (outbox_delivery_claims d) x (data_subject_requests d)
  (export_artifacts d) (processing_purposes d) (data_processing_authorizations
  d) (consent_records d) (privacy_notice_acceptances d).

Definition set_data_subject_requests (x : gmap UUID DataSubjectRequest.t) (d :
  Db) : Db := mkDb (users d) (organisations d) (memberships d) (invites d)
  (audit_events d) (outbox_events d) (outbox_delivery_claims d)
  (platform_staff d) x (export_artifacts d) (processing_purposes d)
  (data_processing_authorizations d) (consent_records d)
  (privacy_notice_acceptances d).

Definition set_export_artifacts (x : gmap UUID ExportArtifact.t) (d : Db) : Db
  := mkDb (users d) (organisations d) (memberships d) (invites d)
  (audit_events d) (outbox_events d) (outbox_delivery_claims d)
  (platform_staff d) (data_subject_requests d) x (processing_purposes d)
  (data_processing_authorizations d) (consent_records d)
  (privacy_notice_acceptances d).

Definition set_processing_purposes (x : gmap UUID ProcessingPurpose.t) (d :
  Db) : Db := mkDb (users d) (organisations d) (memberships d) (invites d)
  (audit_events d) (outbox_events d) (outbox_delivery_claims d)
  (platform_staff d) (data_subject_requests d) (export_artifacts d) x
  (data_processing_authorizations d) (consent_records d)
  (privacy_notice_acceptances d).

Definition set_data_processing_authorizations (x : gmap UUID
  DataProcessingAuthorization.t) (d : Db) : Db := mkDb (users d)
  (organisations d) (memberships d) (invites d) (audit_events d)
  (outbox_events d) (outbox_delivery_claims d) (platform_staff d)
  (data_subject_requests d) (export_artifacts d) (processing_purposes d) x
  (consent_records d) (privacy_notice_acceptances d).

Definition set_consent_records (x : gmap UUID ConsentRecord.t) (d : Db) : Db
  := mkDb (users d) (organisations d) (memberships d) (invites d)
  (audit_events d) (outbox_events d) (outbox_delivery_claims d)
  (platform_staff d) (data_subject_requests d) (export_artifacts d)
  (processing_purposes d) (data_processing_authorizations d) x
  (privacy_notice_acceptances d).

Definition set_privacy_notice_acceptances (x : gmap UUID
  PrivacyNoticeAcceptance.t) (d : Db) : Db := mkDb (users d) (organisations d)
  (memberships d) (invites d) (audit_events d) (outbox_events d)
  (outbox_delivery_claims d) (platform_staff d) (data_subject_requests d)
  (export_artifacts d) (processing_purposes d) (data_processing_authorizations
  d) (consent_records d) x.

(** A database with no row. *)
Definition empty_db : Db := mkDb ∅ ∅ ∅ ∅ ∅ ∅ ∅ ∅ ∅ ∅ ∅ ∅ ∅ ∅.
