(* ===== verification/Tables.v ===== *)
(** Tables and statements: what [select], [add]/[flush], attribute writes
    followed by [flush], [update(..).where(..).returning(..)] and [delete]
    do to a table, with the constraints the models declare. *)
From S2P Require Import Prelude Errors Session Schema.

(** What the statements need of a table: where it lives in the database, its
    primary key, its check and foreign-key constraints, its unique indexes
    ([clash r r'] when the two rows may not coexist) and the column default
    [onupdate=utcnow]. *)
Class Table (R : Type) := {
  rows : Db -> gmap UUID R;
  set_rows : gmap UUID R -> Db -> Db;
  pk : R -> UUID;
  checks : Db -> R -> bool;
  clash : R -> R -> bool;
  touch : datetime -> R -> R;
}.

Definition has_row {R} (t : gmap UUID R) (k : UUID) : bool := bool_decide (is_Some (t !! k)).

Definition has_row_opt {R} (t : gmap UUID R) (k : option UUID) : bool :=
  match k with None => true | Some k => has_row t k end.

Definition is_None {A} (o : option A) : bool :=
  match o with None => true | Some _ => false end.

#[export] Instance users_table : Table User.t := {|
  rows := users; set_rows := set_users; pk := User.id;
  checks _ _ := true;
  clash r r' := String.eqb (User.external_auth_id r) (User.external_auth_id r');
  touch := User.set_updated_at;
|}.

#[export] Instance organisations_table : Table Organisation.t := {|
  rows := organisations; set_rows := set_organisations; pk := Organisation.id;
  checks _ _ := true;
  clash r r' :=
    String.eqb (Organisation.slug r) (Organisation.slug r')
    && is_None (Organisation.deleted_at r) && is_None (Organisation.deleted_at r');
  touch := Organisation.set_updated_at;
|}.

Definition is_active_owner (m : Membership.t) : bool :=
  bool_decide (Membership.role m = MembershipRole.OWNER) && Membership.is_active m.

#[export] Instance memberships_table : Table Membership.t := {|
  rows := memberships; set_rows := set_memberships; pk := Membership.id;
  checks d m :=
    has_row (users d) (Membership.user_id m)
    && has_row (organisations d) (Membership.organisation_id m);
  clash m m' :=
    (bool_decide (Membership.user_id m = Membership.user_id m')
     && Membership.is_active m && Membership.is_active m')
    || (bool_decide (Membership.organisation_id m = Membership.organisation_id m')
        && is_active_owner m && is_active_owner m');
  touch := Membership.set_updated_at;
|}.

Definition is_pending (i : Invite.t) : bool :=
  bool_decide (Invite.status i = InviteStatus.PENDING).

#[export] Instance invites_table : Table Invite.t := {|
  rows := invites; set_rows := set_invites; pk := Invite.id;
  checks d i :=
    has_row (organisations d) (Invite.organisation_id i)
    && has_row_opt (users d) (Invite.revoked_by_user_id i);
  clash i i' :=
    String.eqb (Invite.token_hash i) (Invite.token_hash i')
    || (bool_decide (Invite.organisation_id i = Invite.organisation_id i')
        && String.eqb (Text.lower (Invite.email i)) (Text.lower (Invite.email i'))
        && is_pending i && is_pending i');
  touch := Invite.set_updated_at;
|}.

#[export] Instance audit_events_table : Table AuditEvent.t := {|
  rows := audit_events; set_rows := set_audit_events; pk := AuditEvent.id;
  checks d e :=
    has_row_opt (users d) (AuditEvent.actor_user_id e)
    && bool_decide (AuditEvent.category e ∈ ["tenant"; "platform"; "security"; "compliance"]);
  clash _ _ := false;
  touch _ e := e;
|}.

#[export] Instance outbox_events_table : Table OutboxEvent.t := {|
  rows := outbox_events; set_rows := set_outbox_events; pk := OutboxEvent.id;
  checks _ _ := true;
  clash _ _ := false;
  touch := OutboxEvent.set_updated_at;
|}.

#[export] Instance outbox_delivery_claims_table : Table OutboxDeliveryClaim.t := {|
  rows := outbox_delivery_claims; set_rows := set_outbox_delivery_claims;
  pk := OutboxDeliveryClaim.event_id;
  checks d c := has_row (outbox_events d) (OutboxDeliveryClaim.event_id c);
  clash _ _ := false;
  touch _ c := c;
|}.

#[export] Instance platform_staff_table : Table PlatformStaff.t := {|
  rows := platform_staff; set_rows := set_platform_staff; pk := PlatformStaff.id;
  checks d s :=
    has_row (users d) (PlatformStaff.user_id s)
    && has_row_opt (users d) (PlatformStaff.created_by_user_id s)
    && bool_decide (PlatformStaff.role s ∈ ["platform_admin"; "support_agent"; "compliance_officer"])
    && bool_decide (PlatformStaff.status s ∈ ["active"; "suspended"]);
  clash s s' := bool_decide (PlatformStaff.user_id s = PlatformStaff.user_id s');
  touch := PlatformStaff.set_updated_at;
|}.

#[export] Instance data_subject_requests_table : Table DataSubjectRequest.t := {|
  rows := data_subject_requests; set_rows := set_data_subject_requests;
  pk := DataSubjectRequest.id;
  checks d r :=
    has_row_opt (users d) (DataSubjectRequest.representative_verified_by_user_id r)
    && has_row_opt (users d) (DataSubjectRequest.requester_user_id r)
    && has_row_opt (users d) (DataSubjectRequest.subject_user_id r)
    && has_row_opt (users d) (DataSubjectRequest.reviewer_user_id r);
  clash _ _ := false;
  touch := DataSubjectRequest.set_updated_at;
|}.

#[export] Instance export_artifacts_table : Table ExportArtifact.t := {|
  rows := export_artifacts; set_rows := set_export_artifacts; pk := ExportArtifact.id;
  checks d a :=
    has_row (data_subject_requests d) (ExportArtifact.data_subject_request_id a)
    && has_row_opt (users d) (ExportArtifact.subject_user_id a)
    && has_row_opt (users d) (ExportArtifact.requester_user_id a)
    && has_row_opt (users d) (ExportArtifact.requested_by_user_id a)
    && has_row_opt (users d) (ExportArtifact.generated_by_user_id a);
  clash _ _ := false;
  touch := ExportArtifact.set_updated_at;
|}.

(** [column IN (values of the enumeration)] *)
Definition lawful_basis_valid (s : string) : bool := negb (is_None (LawfulBasis.of_value s)).

Definition special_condition_valid (s : option string) : bool :=
  match s with
  | None => true
  | Some s => negb (is_None (SpecialCategoryCondition.of_value s))
  end.

#[export] Instance processing_purposes_table : Table ProcessingPurpose.t := {|
  rows := processing_purposes; set_rows := set_processing_purposes; pk := ProcessingPurpose.id;
  checks _ p :=
    lawful_basis_valid (ProcessingPurpose.default_lawful_basis p)
    && negb (is_None (ProcessingPurposeFamily.of_value (ProcessingPurpose.family p)))
    && special_condition_valid (ProcessingPurpose.default_special_category_condition p)
    && (negb (ProcessingPurpose.is_special_category p)
        || negb (is_None (ProcessingPurpose.default_special_category_condition p)));
  clash p p' := String.eqb (ProcessingPurpose.code p) (ProcessingPurpose.code p');
  touch := ProcessingPurpose.set_updated_at;
|}.

#[export] Instance data_processing_authorizations_table : Table DataProcessingAuthorization.t := {|
  rows := data_processing_authorizations; set_rows := set_data_processing_authorizations;
  pk := DataProcessingAuthorization.id;
  checks d a :=
    has_row (users d) (DataProcessingAuthorization.subject_user_id a)
    && has_row (processing_purposes d) (DataProcessingAuthorization.purpose_id a)
    && lawful_basis_valid (DataProcessingAuthorization.lawful_basis a)
    && special_condition_valid (DataProcessingAuthorization.special_category_condition a);
  clash _ _ := false;
  touch := DataProcessingAuthorization.set_updated_at;
|}.

#[export] Instance consent_records_table : Table ConsentRecord.t := {|
  rows := consent_records; set_rows := set_consent_records; pk := ConsentRecord.id;
  checks d c :=
    has_row (users d) (ConsentRecord.subject_user_id c)
    && has_row (processing_purposes d) (ConsentRecord.purpose_id c)
    && has_row_opt (data_processing_authorizations d) (ConsentRecord.authorization_id c);
  clash _ _ := false;
  touch := ConsentRecord.set_updated_at;
|}.

#[export] Instance privacy_notice_acceptances_table : Table PrivacyNoticeAcceptance.t := {|
  rows := privacy_notice_acceptances; set_rows := set_privacy_notice_acceptances;
  pk := PrivacyNoticeAcceptance.id;
  checks d a := has_row (users d) (PrivacyNoticeAcceptance.subject_user_id a);
  clash a a' :=
    bool_decide (PrivacyNoticeAcceptance.subject_user_id a
                 = PrivacyNoticeAcceptance.subject_user_id a')
    && String.eqb (PrivacyNoticeAcceptance.notice_version a)
         (PrivacyNoticeAcceptance.notice_version a');
  touch := PrivacyNoticeAcceptance.set_updated_at;
|}.

(** ** Conditions on texts and columns *)

(** [func.trim(x)]: SQL removes blanks only. *)
Definition is_blank (c : ascii) : bool := Ascii.eqb c " ".

Fixpoint sql_ltrim (s : string) : string :=
  match s with
  | EmptyString => EmptyString
  | String c r => if is_blank c then sql_ltrim r else s
  end.

Fixpoint sql_rtrim (s : string) : string :=
  match s with
  | EmptyString => EmptyString
  | String c r =>
      let r' := sql_rtrim r in
      if is_blank c && Text.is_empty r' then EmptyString else String c r'
  end.

(** [func.lower(func.trim(x)) == email] *)
Definition sql_email_is (email x : string) : bool :=
  String.eqb (Text.lower (sql_rtrim (sql_ltrim x))) email.

(** [column == user_id], where the column may be NULL *)
Definition is_user (u : UUID) (x : option UUID) : bool := bool_decide (x = Some u).

(** [payload_json["email"].as_string()]; a member that is not a string is the text of
    no address. *)
Definition payload_email (payload : json) : option string :=
  match payload with
  | JObj fields =>
      match List.find (fun kv => String.eqb kv.1 "email") fields with
      | Some (_, JStr s) => Some s
      | _ => None
      end
  | _ => None
  end.

(** The order of Python's texts. *)
Definition string_le (s s' : string) : Prop := String.leb s s' = true.

#[global] Instance string_le_dec s s' : Decision (string_le s s').
Proof. unfold string_le. apply _. Defined.

(** ** Statements *)
Section Statements.
Context {R : Type} `{Table R} `{EqDecision R}.

(** The rows of a query, in the order the database happens to return them. *)
Definition rows_where (d : Db) (P : R -> bool) : list R :=
  List.filter P (map_to_list (rows d)).*2.

(** [select(R).where(P)] *)
Definition select (P : R -> bool) : M Db (list R) :=
  d ← get_db; mret (rows_where d P).

(** [result.scalar_one_or_none()] *)
Definition scalar_one_or_none (l : list R) : M Db (option R) :=
  match l with
  | [] => mret None
  | [r] => mret (Some r)
  | _ => raise MultipleResultsFound
  end.

Definition select_one_or_none (P : R -> bool) : M Db (option R) :=
  l ← select P; scalar_one_or_none l.

(** [select(R).where(P).limit(1)], then [scalar_one_or_none] *)
Definition select_first (P : R -> bool) : M Db (option R) :=
  l ← select P; scalar_one_or_none (take 1 l).

Definition conflict_free (d : Db) (r : R) : Prop :=
  map_Forall (fun k r' => k = pk r \/ clash r r' = false) (rows d).

#[global] Instance conflict_free_dec d r : Decision (conflict_free d r).
Proof. unfold conflict_free. apply map_Forall_dec. intros. apply _. Defined.

(** Whether the constraints accept [r] as the row of its primary key. *)
Definition valid_row (d : Db) (r : R) : bool :=
  checks d r && bool_decide (conflict_free d r).

Definition put_row (r : R) (d : Db) : Db := set_rows (<[pk r := r]> (rows d)) d.

(** The write of one row by a flush. *)
Definition store (r : R) : M Db R :=
  d ← get_db;
  if valid_row d r then put_db (put_row r d) ;; mret r else fail_flush IntegrityError.

(** [session.add(r); await session.flush()] *)
Definition insert_row (r : R) : M Db R :=
  d ← get_db;
  if has_row (rows d) (pk r) then fail_flush IntegrityError else store r.

(** Attribute writes [f] on the object of row [k], then [flush]: an UPDATE is
    sent only when a column changes, and it sets [updated_at]. *)
Definition update_row `{Env} (k : UUID) (f : R -> R) : M Db R :=
  d ← get_db;
  match rows d !! k with
  | None => fail_flush StaleDataError
  | Some r => if decide (f r = r) then mret r else (n ← now; store (touch n (f r)))
  end.

(** The same when the code assigns [updated_at] itself. *)
Definition update_row_explicit (k : UUID) (f : R -> R) : M Db R :=
  d ← get_db;
  match rows d !! k with
  | None => fail_flush StaleDataError
  | Some r => store (f r)
  end.

Definition map_rows (P : R -> bool) (f : R -> R) (d : Db) : Db :=
  set_rows ((fun r => if P r then f r else r) <$> rows d) d.

(** [update(R).where(P).values(f).returning(R)] *)
Definition update_where `{Env} (P : R -> bool) (f : R -> R) : M Db (list R) :=
  n ← now;
  d ← get_db;
  let g r := touch n (f r) in
  let d' := map_rows P g d in
  let changed := g <$> rows_where d P in
  if forallb (valid_row d') changed then put_db d' ;; mret changed
  else fail_flush IntegrityError.

(** [session.refresh(object)] of the row [k] *)
Definition refresh (k : UUID) : M Db R :=
  d ← get_db; or_raise (rows d !! k) InvalidRequestError.

(** [delete(R).where(P)] *)
Definition delete_where (P : R -> bool) : M Db unit :=
  d ← get_db;
  put_db (set_rows (filter (fun kr => P kr.2 = false) (rows d)) d).

End Statements.

(** ** Well-formed databases

    Every row sits under its primary key, satisfies its checks, and no two rows
    of a table violate a unique index. *)
Definition table_wf (R : Type) `{Table R} (d : Db) : Prop :=
  (forall k r, rows d !! k = Some r -> pk r = k /\ checks d r = true) /\
  (forall k k' r r', rows d !! k = Some r -> rows d !! k' = Some r' -> k <> k' ->
     clash r r' = false).

Definition wf (d : Db) : Prop :=
  table_wf User.t d /\ table_wf Organisation.t d /\ table_wf Membership.t d /\
  table_wf Invite.t d /\ table_wf AuditEvent.t d /\ table_wf OutboxEvent.t d /\
  table_wf OutboxDeliveryClaim.t d /\ table_wf PlatformStaff.t d /\
  table_wf DataSubjectRequest.t d /\ table_wf ExportArtifact.t d /\
  table_wf ProcessingPurpose.t d /\ table_wf DataProcessingAuthorization.t d /\
  table_wf ConsentRecord.t d /\ table_wf PrivacyNoticeAcceptance.t d.

(** The laws a table's instance satisfies. [wf_set] is the interface between a
    table and the rest of the database: replacing the rows of one table keeps
    the database well formed when no primary key is lost. *)
Class TableLaws (R : Type) `{Table R} : Prop := {
  rows_set t d : rows (set_rows t d) = t;
  set_rows_id d : set_rows (rows d) d = d;
  set_rows_twice t t' d : set_rows t (set_rows t' d) = set_rows t d;
  clash_sym r r' : clash r r' = clash r' r;
  pk_touch n r : pk (touch n r) = pk r;
  checks_set t d r : checks (set_rows t d) r = checks d r;
  wf_table d : wf d -> table_wf R d;
  wf_set t d :
    wf d -> dom (rows d) ⊆ dom t -> table_wf R (set_rows t d) -> wf (set_rows t d);
}.

Lemma has_row_mono {R} (t t' : gmap UUID R) k :
  dom t ⊆ dom t' -> has_row t k = true -> has_row t' k = true.
Proof.
  unfold has_row. rewrite !bool_decide_eq_true, <- !elem_of_dom. set_solver.
Qed.

Lemma has_row_opt_mono {R} (t t' : gmap UUID R) k :
  dom t ⊆ dom t' -> has_row_opt t k = true -> has_row_opt t' k = true.
Proof. destruct k; simpl; [apply has_row_mono | done]. Qed.

Lemma has_row_lookup {R} (t : gmap UUID R) k r : t !! k = Some r -> has_row t k = true.
Proof. intros Hk. apply bool_decide_eq_true. eauto. Qed.

Lemma has_row_false {R} (t : gmap UUID R) k : has_row t k = false <-> t !! k = None.
Proof. unfold has_row. rewrite bool_decide_eq_false. symmetry. apply eq_None_not_Some. Qed.

Lemma has_row_true {R} (t : gmap UUID R) k : has_row t k = true <-> is_Some (t !! k).
Proof. apply bool_decide_eq_true. Qed.

(** Splits boolean conjunctions of checks and moves each along an inclusion of
    primary keys. *)
Ltac split_checks :=
  repeat match goal with
  | H : (_ && _)%bool = true |- _ => apply andb_prop in H as [? ?]
  | |- (_ && _)%bool = true => apply andb_true_intro; split
  end.

Ltac solve_wf_set :=
  intros t d (?&?&?&?&?&?&?&?&?&?&?&?&?&?) Hdom Ht;
  unfold wf; repeat match goal with |- _ /\ _ => split end; try exact Ht;
  match goal with
  | Hwf : table_wf ?R d |- table_wf ?R _ =>
      destruct Hwf as [Hc Hu]; split; [|exact Hu];
      intros k r Hr; destruct (Hc k r Hr) as [-> Hk]; split; [done|];
      simpl in Hk, Hdom |- *; split_checks; auto;
      first [ eapply has_row_mono; eassumption | eapply has_row_opt_mono; eassumption | done ]
  end.

Ltac solve_table_laws :=
  split;
  [ done
  | by intros []
  | done
  | intros r r'; simpl; try done
  | done
  | done
  | by intros d (?&?&?&?&?&?&?&?&?&?&?&?&?&?)
  | solve_wf_set ].

Lemma bool_decide_eq_sym {A} `{EqDecision A} (x y : A) :
  bool_decide (x = y) = bool_decide (y = x).
Proof. by apply bool_decide_ext. Qed.

#[export] Instance users_laws : TableLaws User.t.
Proof. solve_table_laws. apply String.eqb_sym. Qed.

#[export] Instance organisations_laws : TableLaws Organisation.t.
Proof.
  solve_table_laws. rewrite String.eqb_sym. rewrite <- !andb_assoc. f_equal. apply andb_comm.
Qed.

#[export] Instance memberships_laws : TableLaws Membership.t.
Proof.
  solve_table_laws. rewrite (bool_decide_eq_sym (Membership.user_id r)),
    (bool_decide_eq_sym (Membership.organisation_id r)).
  rewrite <- !andb_assoc. f_equal; f_equal; apply andb_comm.
Qed.

#[export] Instance invites_laws : TableLaws Invite.t.
Proof.
  solve_table_laws. rewrite String.eqb_sym, (bool_decide_eq_sym (Invite.organisation_id r)),
    (String.eqb_sym (Text.lower (Invite.email r))).
  rewrite <- !andb_assoc. f_equal; do 2 f_equal; apply andb_comm.
Qed.

#[export] Instance audit_events_laws : TableLaws AuditEvent.t.
Proof. solve_table_laws. Qed.

#[export] Instance outbox_events_laws : TableLaws OutboxEvent.t.
Proof. solve_table_laws. Qed.

#[export] Instance outbox_delivery_claims_laws : TableLaws OutboxDeliveryClaim.t.
Proof. solve_table_laws. Qed.

#[export] Instance platform_staff_laws : TableLaws PlatformStaff.t.
Proof. solve_table_laws. apply bool_decide_eq_sym. Qed.

#[export] Instance data_subject_requests_laws : TableLaws DataSubjectRequest.t.
Proof. solve_table_laws. Qed.

#[export] Instance export_artifacts_laws : TableLaws ExportArtifact.t.
Proof. solve_table_laws. Qed.

#[export] Instance processing_purposes_laws : TableLaws ProcessingPurpose.t.
Proof. solve_table_laws. apply String.eqb_sym. Qed.

#[export] Instance data_processing_authorizations_laws : TableLaws DataProcessingAuthorization.t.
Proof. solve_table_laws. Qed.

#[export] Instance consent_records_laws : TableLaws ConsentRecord.t.
Proof. solve_table_laws. Qed.

#[export] Instance privacy_notice_acceptances_laws : TableLaws PrivacyNoticeAcceptance.t.
Proof.
  solve_table_laws. rewrite String.eqb_sym, (bool_decide_eq_sym (PrivacyNoticeAcceptance.subject_user_id r)).
  done.
Qed.

(** ** Rules of the statements *)
Section StatementRules.
Context {R : Type} `{TableLaws R} `{EqDecision R}.
Implicit Types (d : Db) (E : exn -> Prop) (P : R -> bool).

Lemma elem_of_rows_where d P r :
  r ∈ rows_where d P <-> P r = true /\ exists k, rows d !! k = Some r.
Proof.
  unfold rows_where. rewrite list_elem_of_In, filter_In, <- list_elem_of_In, list_elem_of_fmap.
  split.
  - intros [([k r'] & -> & Hr%elem_of_map_to_list) HP]. eauto.
  - intros [HP [k Hk%elem_of_map_to_list]]. split; [exists (k, r)|]; done.
Qed.

Lemma wf_pk d k r : wf d -> rows d !! k = Some r -> pk r = k.
Proof. intros Hwf Hr. by destruct (proj1 (wf_table d Hwf) k r Hr). Qed.

Lemma wf_checks d k r : wf d -> rows d !! k = Some r -> checks d r = true.
Proof. intros Hwf Hr. by destruct (proj1 (wf_table d Hwf) k r Hr). Qed.

(** Unique indexes: clashing rows are the same row. *)
Lemma wf_unique d k k' r r' :
  wf d -> rows d !! k = Some r -> rows d !! k' = Some r' -> clash r r' = true ->
  k = k' /\ r = r'.
Proof.
  intros Hwf Hr Hr' Hc. destruct (wf_table d Hwf) as [_ Hu].
  destruct (decide (k = k')) as [->|Hk]; [naive_solver|].
  by rewrite (Hu k k' r r') in Hc.
Qed.

Lemma elem_of_rows_where_wf d P r :
  wf d -> r ∈ rows_where d P <-> rows d !! pk r = Some r /\ P r = true.
Proof.
  intros Hwf. rewrite elem_of_rows_where. split; [|naive_solver].
  intros [HP [k Hk]]. by rewrite (wf_pk d k r).
Qed.

Lemma rows_where_nil d P :
  rows_where d P = [] -> forall k r, rows d !! k = Some r -> P r = false.
Proof.
  intros Hn k r Hr. destruct (P r) eqn:HP; [|done].
  assert (Hin : r ∈ rows_where d P) by (apply elem_of_rows_where; eauto).
  rewrite Hn in Hin. by apply not_elem_of_nil in Hin.
Qed.

Lemma NoDup_rows_where d P : wf d -> NoDup (rows_where d P).
Proof.
  intros Hwf. unfold rows_where.
  assert (HN : NoDup (map_to_list (rows d)).*2).
  { apply NoDup_fmap_2_strong; [|apply NoDup_map_to_list].
    intros [k r] [k' r'] Hk%elem_of_map_to_list Hk'%elem_of_map_to_list; simpl; intros ->.
    f_equal. by rewrite <- (wf_pk d k r'), <- (wf_pk d k' r'). }
  induction HN as [|r l Hr HN IH]; simpl; [constructor|].
  destruct (P r); [|done]. constructor; [|done].
  rewrite list_elem_of_In, filter_In, <- list_elem_of_In. naive_solver.
Qed.

(** A predicate that a unique index or the primary key makes single-valued. *)
Definition single_valued d P : Prop :=
  forall r r', rows d !! pk r = Some r -> rows d !! pk r' = Some r' ->
    P r = true -> P r' = true -> pk r = pk r'.

Lemma single_valued_rows_where d P :
  wf d -> single_valued d P ->
  rows_where d P = [] \/ exists r, rows_where d P = [r].
Proof.
  intros Hwf Hs. pose proof (NoDup_rows_where d P Hwf) as HN.
  destruct (rows_where d P) as [|r [|r' l]] eqn:El; [by left|by eauto|exfalso].
  assert (Hr : r ∈ rows_where d P) by (rewrite El; set_solver).
  assert (Hr' : r' ∈ rows_where d P) by (rewrite El; set_solver).
  apply elem_of_rows_where_wf in Hr as [Hr HP]; [|done].
  apply elem_of_rows_where_wf in Hr' as [Hr' HP']; [|done].
  assert (r = r').
  { pose proof (Hs r r' Hr Hr' HP HP') as Hpk. rewrite Hpk in Hr. congruence. }
  subst. inversion HN. set_solver.
Qed.

Lemma wp_select P (Q : list R -> Db -> Prop) E d :
  Q (rows_where d P) d -> wp (select P) Q E d.
Proof. intros HQ. apply wp_bind, wp_get_db. by apply wp_ret. Qed.

Lemma wp_select_first P (Q : option R -> Db -> Prop) E d :
  wf d ->
  (forall r, rows d !! pk r = Some r -> P r = true -> Q (Some r) d) ->
  ((forall k r, rows d !! k = Some r -> P r = false) -> Q None d) ->
  wp (select_first P) Q E d.
Proof.
  intros Hwf HS HN. apply wp_bind, wp_select.
  destruct (rows_where d P) as [|r l] eqn:El; simpl; apply wp_ret.
  - apply HN, rows_where_nil. done.
  - assert (Hr : r ∈ rows_where d P) by (rewrite El; set_solver).
    apply elem_of_rows_where_wf in Hr as [Hr HP]; auto.
Qed.

Lemma wp_select_one_or_none P (Q : option R -> Db -> Prop) E d :
  wf d -> single_valued d P ->
  (forall r, rows d !! pk r = Some r -> P r = true -> Q (Some r) d) ->
  ((forall k r, rows d !! k = Some r -> P r = false) -> Q None d) ->
  wp (select_one_or_none P) Q E d.
Proof.
  intros Hwf Hs HS HN. apply wp_bind, wp_select.
  destruct (single_valued_rows_where d P Hwf Hs) as [El|[r El]]; rewrite El; apply wp_ret.
  - apply HN, rows_where_nil. done.
  - assert (Hr : r ∈ rows_where d P) by (rewrite El; set_solver).
    apply elem_of_rows_where_wf in Hr as [Hr HP]; auto.
Qed.

(** A query by primary key reads the table's map. *)
Lemma wp_select_pk k P (Q : option R -> Db -> Prop) E d :
  wf d -> (forall r, P r = bool_decide (pk r = k)) ->
  (forall r, rows d !! k = Some r -> pk r = k -> Q (Some r) d) ->
  (rows d !! k = None -> Q None d) ->
  wp (select_one_or_none P) Q E d.
Proof.
  intros Hwf HP HS HN. apply wp_select_one_or_none; [done| |..].
  - intros r r' _ _. rewrite !HP, !bool_decide_eq_true. congruence.
  - intros r Hr. rewrite HP, bool_decide_eq_true. intros <-. auto.
  - intros Hno. apply HN. destruct (rows d !! k) as [r|] eqn:Hk; [|done].
    specialize (Hno k r Hk). rewrite HP, bool_decide_eq_false in Hno.
    by destruct Hno; apply wf_pk with d.
Qed.

Lemma wp_refresh_row k (Q : R -> Db -> Prop) E d :
  (rows d !! k = None -> E InvalidRequestError) ->
  (forall r, rows d !! k = Some r -> Q r d) -> wp (refresh k) Q E d.
Proof. intros HE HQ. apply wp_bind, wp_get_db, wp_or_raise; auto. Qed.

Lemma wp_store (r : R) (Q : R -> Db -> Prop) E d :
  (valid_row d r = false -> E IntegrityError) ->
  (valid_row d r = true -> Q r (put_row r d)) ->
  wp (store r) Q E d.
Proof.
  intros HE HQ. apply wp_bind, wp_get_db.
  destruct (valid_row d r); [|by apply wp_fail_flush; auto].
  apply wp_bind, wp_put_db, wp_ret. auto.
Qed.

Lemma wp_insert_row (r : R) (Q : R -> Db -> Prop) E d :
  (is_Some (rows d !! pk r) \/ valid_row d r = false -> E IntegrityError) ->
  (rows d !! pk r = None -> valid_row d r = true -> Q r (put_row r d)) ->
  wp (insert_row r) Q E d.
Proof.
  intros HE HQ. apply wp_bind, wp_get_db.
  destruct (has_row _ _) eqn:Hh.
  - apply wp_fail_flush, HE. left. by apply has_row_true.
  - apply has_row_false in Hh. apply wp_store; auto.
Qed.

Lemma wp_update_row `{Env} k (f : R -> R) (Q : R -> Db -> Prop) E d :
  (rows d !! k = None -> E StaleDataError) ->
  (forall r n, rows d !! k = Some r -> valid_row d (touch n (f r)) = false ->
     E IntegrityError) ->
  (forall r, rows d !! k = Some r -> f r = r -> Q r d) ->
  (forall r n, rows d !! k = Some r -> f r <> r ->
     valid_row d (touch n (f r)) = true ->
     Q (touch n (f r)) (put_row (touch n (f r)) d)) ->
  wp (update_row k f) Q E d.
Proof.
  intros HS HE Hsame Hnew. apply wp_bind, wp_get_db.
  destruct (rows d !! k) as [r|]; [|by apply wp_fail_flush; auto].
  destruct (decide (f r = r)); [by apply wp_ret; auto|].
  apply wp_bind, wp_draw. intros i. apply wp_store; eauto.
Qed.

(** The update of a row that is there and changes. *)
Lemma wp_update_present `{Env} k (f : R -> R) r (Q : R -> Db -> Prop) E d :
  rows d !! k = Some r -> f r <> r ->
  (forall n, valid_row d (touch n (f r)) = false -> E IntegrityError) ->
  (forall n, valid_row d (touch n (f r)) = true ->
     Q (touch n (f r)) (put_row (touch n (f r)) d)) ->
  wp (update_row k f) Q E d.
Proof.
  intros Hr Hf HE HQ. apply wp_update_row; rewrite Hr.
  - done.
  - intros r' n [= <-]. eauto.
  - intros r' [= <-]. done.
  - intros r' n [= <-]. eauto.
Qed.

Lemma wp_update_row_explicit k (f : R -> R) (Q : R -> Db -> Prop) E d :
  (rows d !! k = None -> E StaleDataError) ->
  (forall r, rows d !! k = Some r -> valid_row d (f r) = false -> E IntegrityError) ->
  (forall r, rows d !! k = Some r -> valid_row d (f r) = true -> Q (f r) (put_row (f r) d)) ->
  wp (update_row_explicit k f) Q E d.
Proof.
  intros HS HE Hnew. apply wp_bind, wp_get_db.
  destruct (rows d !! k) as [r|]; [|by apply wp_fail_flush; auto].
  apply wp_store; eauto.
Qed.

Lemma wp_update_where `{Env} P (f : R -> R) (Q : list R -> Db -> Prop) E d :
  (forall n, let g r := touch n (f r) in
     forallb (valid_row (map_rows P g d)) (g <$> rows_where d P) = false ->
     E IntegrityError) ->
  (forall n, let g r := touch n (f r) in
     forallb (valid_row (map_rows P g d)) (g <$> rows_where d P) = true ->
     Q (g <$> rows_where d P) (map_rows P g d)) ->
  wp (update_where P f) Q E d.
Proof.
  intros HE HQ. apply wp_bind, wp_draw. intros i. apply wp_bind, wp_get_db.
  cbv zeta. match goal with |- context [forallb ?p ?l] => destruct (forallb p l) eqn:Hf end;
    [|by apply wp_fail_flush, (HE (clock i))].
  apply wp_bind, wp_put_db, wp_ret. by apply HQ.
Qed.

(** Changing the one row that satisfies [P] is writing it. *)
Lemma map_rows_one d P (g : R -> R) r :
  wf d -> rows d !! pk r = Some r -> P r = true -> pk (g r) = pk r ->
  (forall k r', rows d !! k = Some r' -> P r' = true -> k = pk r) ->
  map_rows P g d = put_row (g r) d.
Proof.
  intros Hwf Hr HP Hg Hone. unfold map_rows, put_row. f_equal. apply map_eq. intros k.
  rewrite lookup_fmap, Hg. destruct (decide (k = pk r)) as [->|Hk].
  - rewrite lookup_insert_eq, Hr. simpl. by rewrite HP.
  - rewrite lookup_insert_ne by done. destruct (rows d !! k) as [r'|] eqn:Hr'; [|done]. simpl.
    destruct (P r') eqn:HP'; [|done]. by destruct Hk; apply (Hone k r').
Qed.

Lemma map_rows_none d P (g : R -> R) :
  (forall k r, rows d !! k = Some r -> P r = false) -> map_rows P g d = d.
Proof.
  intros Hno. transitivity (set_rows (rows d) d); [|apply set_rows_id].
  unfold map_rows. f_equal. apply map_eq. intros k.
  rewrite lookup_fmap. destruct (rows d !! k) as [r|] eqn:Hr; [|done]. simpl.
  by rewrite (Hno k r Hr).
Qed.

(** An update that selects no row. *)
Lemma wp_update_where_none `{Env} P (f : R -> R) (Q : list R -> Db -> Prop) E d :
  (forall k r, rows d !! k = Some r -> P r = false) -> Q [] d -> wp (update_where P f) Q E d.
Proof.
  intros Hno HQ. assert (Hn : rows_where d P = []).
  { destruct (rows_where d P) as [|r l] eqn:El; [done|].
    assert (Hr : r ∈ rows_where d P) by (rewrite El; by constructor).
    apply elem_of_rows_where in Hr as [HP [k Hk]]. by rewrite (Hno k r Hk) in HP. }
  apply wp_update_where; intros n g; rewrite Hn, map_rows_none by done; [done|]. by intros _.
Qed.

Lemma valid_row_put d r : valid_row (put_row r d) r = valid_row d r.
Proof.
  unfold valid_row, put_row. rewrite checks_set. f_equal. apply bool_decide_ext.
  unfold conflict_free. rewrite rows_set. split; intros Hf k r' Hr'.
  - destruct (decide (k = pk r)) as [->|Hk]; [by left|].
    apply (Hf k r'). by rewrite lookup_insert_ne.
  - apply lookup_insert_Some in Hr' as [[<- <-]|[Hk Hr']]; [by left|]. by apply (Hf k r').
Qed.

(** An [UPDATE .. RETURNING] that can hit one row only, read by [scalar_one_or_none]. *)
Lemma wp_update_one `{Env} P (f : R -> R) (Q : option R -> Db -> Prop) E d :
  wf d -> single_valued d P -> (forall r, pk (f r) = pk r) ->
  (forall r n, rows d !! pk r = Some r -> P r = true -> valid_row d (touch n (f r)) = false ->
     E IntegrityError) ->
  (forall r n, rows d !! pk r = Some r -> P r = true -> valid_row d (touch n (f r)) = true ->
     Q (Some (touch n (f r))) (put_row (touch n (f r)) d)) ->
  ((forall k r, rows d !! k = Some r -> P r = false) -> Q None d) ->
  wp (l ← update_where P f; scalar_one_or_none l) Q E d.
Proof.
  intros Hwf Hs Hf HE HS HN. apply wp_bind.
  destruct (single_valued_rows_where d P Hwf Hs) as [El|[r El]].
  - pose proof (rows_where_nil d P El) as Hno.
    apply wp_update_where; intros n g; rewrite El; [done|]. intros _.
    apply wp_ret. rewrite map_rows_none by done. by apply HN.
  - assert (Hr : r ∈ rows_where d P) by (rewrite El; by constructor).
    apply (elem_of_rows_where_wf d P r Hwf) in Hr as [Hr HP].
    assert (Hone : forall k r', rows d !! k = Some r' -> P r' = true -> k = pk r).
    { intros k r' Hr' HP'. pose proof (wf_pk d k r' Hwf Hr') as <-. by apply (Hs r' r). }
    assert (Hmap : forall n, map_rows P (fun r => touch n (f r)) d = put_row (touch n (f r)) d)
      by (intros n; apply (map_rows_one d P (fun r => touch n (f r)));
          [done..|by rewrite pk_touch, Hf|done]).
    apply wp_update_where; intros n g; unfold g; rewrite El, Hmap; simpl;
      rewrite andb_true_r, valid_row_put; [by apply HE|].
    intros Hv. apply wp_ret. by apply HS.
Qed.

Lemma wp_delete_where P (Q : unit -> Db -> Prop) E d :
  Q tt (set_rows (filter (fun kr => P kr.2 = false) (rows d)) d) ->
  wp (delete_where P) Q E d.
Proof. intros HQ. by apply wp_bind, wp_get_db, wp_put_db. Qed.

(** *** Well-formedness is kept *)

Lemma valid_row_spec d r :
  valid_row d r = true <->
  checks d r = true /\ forall k r', rows d !! k = Some r' -> k <> pk r -> clash r r' = false.
Proof.
  unfold valid_row, conflict_free. rewrite andb_true_iff, bool_decide_eq_true.
  split; (intros [Hc Hf]; split; [done|]).
  - intros k r' Hr' Hk. by destruct (Hf k r' Hr').
  - intros k r' Hr'. destruct (decide (k = pk r)); [by left|right; eauto].
Qed.

Lemma wf_put_row d r : wf d -> valid_row d r = true -> wf (put_row r d).
Proof.
  intros Hwf [Hc Hf]%valid_row_spec. apply wf_set; [done|set_solver|].
  destruct (wf_table d Hwf) as [Hrows Hu].
  split; intros *; rewrite !rows_set; [rewrite checks_set|];
    rewrite ?lookup_insert; repeat case_decide; intros; simplify_eq; eauto.
  rewrite clash_sym. eauto.
Qed.

Lemma wf_map_rows d P (g : R -> R) :
  wf d -> (forall r, pk (g r) = pk r) ->
  forallb (valid_row (map_rows P g d)) (g <$> rows_where d P) = true ->
  wf (map_rows P g d).
Proof.
  intros Hwf Hg Hall.
  assert (Hnew : forall k r, rows d !! k = Some r -> P r = true ->
    valid_row (map_rows P g d) (g r) = true).
  { intros k r Hr HP. rewrite forallb_forall in Hall. apply Hall, list_elem_of_In.
    apply list_elem_of_fmap_2, elem_of_rows_where. eauto. }
  destruct (wf_table d Hwf) as [Hrows Hu].
  apply wf_set; [done|by rewrite dom_fmap|].
  split; intros *; rewrite !rows_set, ?checks_set, !lookup_fmap, ?fmap_Some.
  - intros (r0 & Hr & ->). destruct (Hrows k r0 Hr) as [Hk Hc].
    destruct (P r0) eqn:HP; [|done]. rewrite Hg.
    apply Hnew in Hr as [Hc' _]%valid_row_spec; [|done]. unfold map_rows in Hc'.
    by rewrite checks_set in Hc'.
  - intros (r1 & Hr1 & ->) (r2 & Hr2 & ->) Hk.
    assert (Hpk : forall r, pk (if P r then g r else r) = pk r) by (intros r0; by destruct (P r0)).
    assert (Hl : forall k r, rows d !! k = Some r ->
      rows (map_rows P g d) !! k = Some (if P r then g r else r)).
    { intros k0 r0 Hr0. unfold map_rows. by rewrite rows_set, lookup_fmap, Hr0. }
    pose proof (wf_pk d k r1 Hwf Hr1). pose proof (wf_pk d k' r2 Hwf Hr2).
    destruct (P r1) eqn:HP1; [|destruct (P r2) eqn:HP2; [|by eauto]].
    + apply (Hnew k) in HP1 as [_ Hf]%valid_row_spec; [|done].
      apply (Hf k'); [by apply Hl|rewrite Hg; congruence].
    + apply (Hnew k') in HP2 as [_ Hf]%valid_row_spec; [|done]. rewrite clash_sym.
      apply (Hf k); [by rewrite (Hl k r1 Hr1), HP1|rewrite Hg; congruence].
Qed.

(** *** Every statement keeps the database well formed *)

Lemma keeps_select I P : keeps I (select P).
Proof. intros d Hd. by apply wp_select. Qed.

Lemma keeps_scalar I (l : list R) : keeps I (scalar_one_or_none l).
Proof. intros d Hd. destruct l as [|? [|??]]; [by apply wp_ret..|by apply wp_raise]. Qed.

Lemma keeps_select_one_or_none I P : keeps I (select_one_or_none P).
Proof. apply keeps_bind; [apply keeps_select|intros; apply keeps_scalar]. Qed.

Lemma keeps_select_first I P : keeps I (select_first P).
Proof. apply keeps_bind; [apply keeps_select|intros; apply keeps_scalar]. Qed.

Lemma keeps_refresh I k : keeps I (refresh k).
Proof. intros d Hd. by apply wp_refresh_row. Qed.

Lemma keeps_wf_store (r : R) : keeps wf (store r).
Proof. intros d Hd. apply wp_store; [done|]. by apply wf_put_row. Qed.

Lemma keeps_wf_insert_row (r : R) : keeps wf (insert_row r).
Proof. intros d Hd. apply wp_insert_row; [done|]. intros _. by apply wf_put_row. Qed.

Lemma keeps_wf_update_row `{Env} k (f : R -> R) : keeps wf (update_row k f).
Proof. intros d Hd. apply wp_update_row; [done..|]. intros r n _ _. by apply wf_put_row. Qed.

Lemma keeps_wf_update_row_explicit k (f : R -> R) : keeps wf (update_row_explicit k f).
Proof. intros d Hd. apply wp_update_row_explicit; [done..|]. intros r _. by apply wf_put_row. Qed.

Lemma keeps_wf_update_where `{Env} P (f : R -> R) :
  (forall r, pk (f r) = pk r) -> keeps wf (update_where P f).
Proof.
  intros Hf d Hd. apply wp_update_where; [done|]. intros n g Hall.
  apply wf_map_rows; [done| |done]. intros r. unfold g. by rewrite pk_touch.
Qed.

End StatementRules.

(** Claims are the one table the modelled code deletes from; no table refers to it. *)
Lemma wf_fewer_claims d t :
  wf d -> t ⊆ outbox_delivery_claims d -> wf (set_outbox_delivery_claims t d).
Proof.
  intros (?&?&?&?&?&?&[Hc Hu]&?&?&?&?&?&?&?) Ht.
  unfold wf; repeat match goal with |- _ /\ _ => split end; try done.
  split; simpl.
  - intros k r Hr. apply Hc. by apply (lookup_weaken t).
  - intros k k' r r' _ _ _. done.
Qed.

Lemma keeps_wf_delete_claims (P : OutboxDeliveryClaim.t -> bool) : keeps wf (delete_where P).
Proof. intros d Hwf. apply wp_delete_where, wf_fewer_claims; [done|]. apply map_filter_subseteq. Qed.

(** *** The exceptions of a statement *)

Definition database_error (e : exn) : Prop :=
  e = IntegrityError \/ e = StaleDataError \/ e = MultipleResultsFound \/ e = InvalidRequestError.

Section StatementExceptions.
Context {R : Type} `{TableLaws R} `{EqDecision R} `{Env} (E : exn -> Prop).
Hypothesis HE : forall e, database_error e -> E e.

Lemma raises_select P : raises E (select P).
Proof. intros d. by apply wp_select. Qed.

Lemma raises_scalar (l : list R) : raises E (scalar_one_or_none l).
Proof.
  intros d. destruct l as [|? [|??]]; [by apply wp_ret..|apply wp_raise, HE].
  by right; right; left.
Qed.

Lemma raises_select_one_or_none P : raises E (select_one_or_none P).
Proof. apply raises_bind; [apply raises_select|intros; apply raises_scalar]. Qed.

Lemma raises_select_first P : raises E (select_first P).
Proof. apply raises_bind; [apply raises_select|intros; apply raises_scalar]. Qed.

Lemma raises_refresh k : raises E (refresh k).
Proof. intros d. apply wp_refresh_row; [intros _; apply HE; by repeat right|done]. Qed.

Lemma raises_insert_row (r : R) : raises E (insert_row r).
Proof. intros d. apply wp_insert_row; [intros _; apply HE; by left|done]. Qed.

Lemma raises_update_row k (f : R -> R) : raises E (update_row k f).
Proof.
  intros d. apply wp_update_row; [intros _; apply HE; by right; left|intros; apply HE; by left|done..].
Qed.

Lemma raises_update_where P (f : R -> R) : raises E (update_where P f).
Proof. intros d. apply wp_update_where; [intros; apply HE; by left|done]. Qed.

End StatementExceptions.

#[export] Hint Resolve raises_select raises_scalar raises_select_one_or_none raises_select_first
  raises_refresh raises_insert_row raises_update_row raises_update_where : raises.
#[export] Hint Extern 1 (TableLaws _) => typeclasses eauto : raises.
#[export] Hint Extern 1 (EqDecision _) => typeclasses eauto : raises.

#[export] Hint Extern 1 (TableLaws _) => typeclasses eauto : keeps.
#[export] Hint Extern 1 (EqDecision _) => typeclasses eauto : keeps.
#[export] Hint Resolve keeps_select keeps_refresh keeps_scalar keeps_select_one_or_none keeps_select_first
  keeps_wf_store keeps_wf_insert_row keeps_wf_update_row keeps_wf_update_row_explicit
  keeps_wf_update_where keeps_wf_delete_claims : keeps.

(** ** What the statements leave alone

    [Frame R f]: writing the rows of [R] does not change the part [f] of the
    database. *)
Class Frame {X : Type} (R : Type) `{Table R} (f : Db -> X) : Prop :=
  frame t d : f (set_rows t d) = f d.

#[export] Hint Extern 0 (Frame _ _) => (intros ??; reflexivity) : typeclass_instances keeps.

Section Frames.
Context {X R : Type} `{TableLaws R} `{EqDecision R} (f : Db -> X) `{!Frame R f} (x : X).

Lemma keeps_frame_store (r : R) : keeps (fun d => f d = x) (store r).
Proof. intros d Hd. apply wp_store; [done|]. intros _. unfold put_row. by rewrite frame. Qed.

Lemma keeps_frame_insert_row (r : R) : keeps (fun d => f d = x) (insert_row r).
Proof. intros d Hd. apply wp_insert_row; [done|]. intros _ _. unfold put_row. by rewrite frame. Qed.

Lemma keeps_frame_update_row `{Env} k (g : R -> R) : keeps (fun d => f d = x) (update_row k g).
Proof.
  intros d Hd. apply wp_update_row; [done..|]. intros r n _ _ _. unfold put_row. by rewrite frame.
Qed.

Lemma keeps_frame_update_row_explicit k (g : R -> R) :
  keeps (fun d => f d = x) (update_row_explicit k g).
Proof.
  intros d Hd. apply wp_update_row_explicit; [done..|]. intros r _ _. unfold put_row.
  by rewrite frame.
Qed.

Lemma keeps_frame_update_where `{Env} P (g : R -> R) : keeps (fun d => f d = x) (update_where P g).
Proof.
  intros d Hd. apply wp_update_where; [done|]. intros n h _. unfold map_rows. by rewrite frame.
Qed.

Lemma keeps_frame_delete_where (P : R -> bool) : keeps (fun d => f d = x) (delete_where P).
Proof. intros d Hd. apply wp_delete_where. by rewrite frame. Qed.

End Frames.

#[export] Hint Resolve keeps_frame_store keeps_frame_insert_row keeps_frame_update_row
  keeps_frame_update_row_explicit keeps_frame_update_where keeps_frame_delete_where : keeps.

(** An invariant of the part [f] is kept by whatever leaves [f] alone. *)
Lemma keeps_by_frame {X A} (f : Db -> X) (I : Db -> Prop) (m : M Db A) :
  (forall d d', f d' = f d -> I d -> I d') ->
  (forall x, keeps (fun d => f d = x) m) -> keeps I m.
Proof.
  intros HI Hm d Hd. eapply wp_mono; [by apply (Hm (f d))| |done].
  intros a d' Hf. by apply (HI d).
Qed.

(** ** Checking a concrete database *)
Definition table_ok (R : Type) `{Table R} (d : Db) : bool :=
  forallb (fun kr =>
    bool_decide (pk kr.2 = kr.1) && checks d kr.2
    && forallb (fun kr' => bool_decide (kr.1 = kr'.1) || negb (clash kr.2 kr'.2))
         (map_to_list (rows d)))
    (map_to_list (rows d)).

Definition wf_ok (d : Db) : bool :=
  table_ok User.t d && table_ok Organisation.t d && table_ok Membership.t d
  && table_ok Invite.t d && table_ok AuditEvent.t d && table_ok OutboxEvent.t d
  && table_ok OutboxDeliveryClaim.t d && table_ok PlatformStaff.t d
  && table_ok DataSubjectRequest.t d && table_ok ExportArtifact.t d
  && table_ok ProcessingPurpose.t d && table_ok DataProcessingAuthorization.t d
  && table_ok ConsentRecord.t d && table_ok PrivacyNoticeAcceptance.t d.

Lemma table_ok_sound R `{Table R} d : table_ok R d = true -> table_wf R d.
Proof.
  unfold table_ok. rewrite forallb_forall. intros Hall.
  assert (Hin : forall k r, rows d !! k = Some r -> In (k, r) (map_to_list (rows d))).
  { intros k r Hr. by apply list_elem_of_In, elem_of_map_to_list. }
  split.
  - intros k r Hr. specialize (Hall _ (Hin k r Hr)). simpl in Hall.
    split_checks. split; [|done]. by eapply bool_decide_eq_true_1.
  - intros k k' r r' Hr Hr' Hk. specialize (Hall _ (Hin k r Hr)). simpl in Hall.
    apply andb_prop in Hall as [_ Hall]. rewrite forallb_forall in Hall.
    specialize (Hall _ (Hin k' r' Hr')). simpl in Hall.
    rewrite bool_decide_false in Hall by done. by apply negb_true_iff in Hall.
Qed.

(** A database the checker accepts is well formed. *)
Lemma wf_ok_sound d : wf_ok d = true -> wf d.
Proof.
  unfold wf_ok. intros Hok. split_checks. unfold wf.
  repeat match goal with |- _ /\ _ => split end; by apply table_ok_sound.
Qed.

(** ** Trimming in SQL and in the program *)

Lemma blank_space c : is_blank c = true -> Text.is_space c = true.
Proof. unfold is_blank. by intros ->%Ascii.eqb_eq. Qed.

Lemma lstrip_sql s : Text.lstrip (sql_ltrim s) = Text.lstrip s.
Proof.
  induction s as [|c r IH]; simpl; [done|]. destruct (is_blank c) eqn:Hb; [|done].
  by rewrite (blank_space c Hb).
Qed.

Lemma empty_string s : Text.is_empty s = true -> s = EmptyString.
Proof. by destruct s. Qed.

Lemma rstrip_sql s : Text.rstrip (sql_rtrim s) = Text.rstrip s.
Proof.
  induction s as [|c r IH]; simpl; [done|]. destruct (is_blank c && _) eqn:Hb; simpl.
  - apply andb_prop in Hb as [Hb He%empty_string]. rewrite He in IH. rewrite <- IH. simpl.
    by rewrite (blank_space c Hb).
  - by rewrite IH.
Qed.

Lemma lstrip_rtrim s : Text.rstrip (Text.lstrip (sql_rtrim s)) = Text.rstrip (Text.lstrip s).
Proof.
  induction s as [|c r IH]; simpl; [done|]. destruct (is_blank c && _) eqn:Hb; simpl.
  - apply andb_prop in Hb as [Hb He%empty_string]. rewrite (blank_space c Hb). by rewrite <- IH, He.
  - destruct (Text.is_space c) eqn:Hs; [done|]. simpl. by rewrite rstrip_sql.
Qed.

Lemma strip_sql s : Text.strip (sql_rtrim (sql_ltrim s)) = Text.strip s.
Proof. unfold Text.strip. by rewrite lstrip_rtrim, lstrip_sql. Qed.
