(* ===== verification/Rows.v ===== *)
(** Invariants of a well-formed database, and invariants of one table: what is true
    of each of its rows, and how a row may evolve. *)
From S2P Require Import Prelude Errors Session Schema Tables.

(** ** Invariants of a well-formed database *)

Definition under (I : Db -> Prop) (d : Db) : Prop := wf d /\ I d.

(** [I] only depends on the part [f] of the database. *)
Class On {X : Type} (f : Db -> X) (I : Db -> Prop) : Prop := on d d' : f d' = f d -> I d -> I d'.

(** A statement that writes another table keeps [I]. *)
Lemma keeps_under {X A} (f : Db -> X) (I : Db -> Prop) `{!On f I} (m : M Db A) :
  keeps wf m -> (forall x, keeps (fun d => f d = x) m) -> keeps (under I) m.
Proof. intros Hwf Hf. apply keeps_and; [done|]. eapply keeps_by_frame; [exact on|exact Hf]. Qed.

#[export] Hint Extern 2 (keeps (under _) _) =>
  (eapply keeps_under; [typeclasses eauto|solve [eauto 3 with keeps]|intros ?; solve [eauto 3 with keeps]]) : keeps.

(** An operation keeps [I] when its specification says so. *)
Lemma keeps_spec {A} (I : Db -> Prop) (m : M Db A) (Q : Db -> A -> Db -> Prop) E :
  keeps wf m -> (forall d, under I d -> wp m (Q d) (E d) d) ->
  (forall d a d', under I d -> Q d a d' -> I d') -> keeps (under I) m.
Proof.
  intros Hwf Hm HQ d Hd. eapply wp_mono; [apply wp_and; [by apply Hwf, Hd|by apply Hm]|..].
  - intros a d' [? ?]. split; [done|]. by eapply HQ.
  - done.
Qed.

(** ** Row by row *)
Section Rows.
Context {R : Type} `{TableLaws R} `{EqDecision R} `{Env}.
Variables (P : R -> Prop) (T : R -> R -> Prop).
Context `{!PreOrder T}.
Implicit Types (d : Db) (r : R).

(** Every row satisfies [P], and the rows of [t0] are still there, related to what
    they were by [T]. *)
Definition rows_follow (t0 : gmap UUID R) (d : Db) : Prop :=
  (forall k r, rows d !! k = Some r -> P r) /\
  (forall k r0, t0 !! k = Some r0 -> exists r, rows d !! k = Some r /\ T r0 r).

#[export] Instance rows_follow_on t0 : On rows (rows_follow t0).
Proof. unfold On, rows_follow. by intros d d' ->. Qed.

Lemma rows_follow_refl d : (forall k r, rows d !! k = Some r -> P r) -> rows_follow (rows d) d.
Proof. intros HP. split; [done|]. intros k r Hr. by exists r. Qed.

Lemma rows_follow_put t0 d r' :
  P r' -> (forall r, rows d !! pk r' = Some r -> T r r') ->
  rows_follow t0 d -> rows_follow t0 (put_row r' d).
Proof.
  intros HP HT [Hd Ht]. unfold put_row. split; intros k r; rewrite rows_set.
  - rewrite lookup_insert_Some. intros [[_ <-]|[_ Hr]]; [done|by eapply Hd].
  - intros (r1 & Hr1 & HT1)%Ht. destruct (decide (k = pk r')) as [->|Hk].
    + exists r'. rewrite lookup_insert_eq. split; [done|]. etrans; [exact HT1|by apply HT].
    + exists r1. by rewrite lookup_insert_ne.
Qed.

(** A change of a row that a statement may make. *)
Definition allowed (f : R -> R) r : Prop := forall n, P (touch n (f r)) /\ T r (touch n (f r)).

Lemma rows_follow_map t0 d (sel : R -> bool) f n :
  (forall r, P r -> sel r = true -> allowed f r) ->
  rows_follow t0 d -> rows_follow t0 (map_rows sel (fun r => touch n (f r)) d).
Proof.
  intros Hf [Hd Ht]. unfold map_rows. split; intros k r; rewrite rows_set, lookup_fmap.
  - intros (r1 & Hr1 & ->)%fmap_Some. specialize (Hd k r1 Hr1).
    destruct (sel r1) eqn:Hs; [by apply Hf|done].
  - intros (r1 & Hr1 & HT1)%Ht. rewrite Hr1. simpl. eexists. split; [done|].
    destruct (sel r1) eqn:Hs; [|done]. etrans; [exact HT1|]. by apply Hf; [eapply Hd|].
Qed.

Lemma keeps_follow_insert t0 r : P r -> keeps (under (rows_follow t0)) (insert_row r).
Proof.
  intros HP d [Hwf Hd]. apply wp_insert_row; [done|]. intros Hno Hv.
  split; [by apply wf_put_row|]. apply rows_follow_put; [done| |done]. intros r'. by rewrite Hno.
Qed.

(** An update of a row the caller may know something about. *)
Lemma wp_follow_update t0 k f (Q : R -> Db -> Prop) d :
  (forall r, pk (f r) = pk r) -> under (rows_follow t0) d ->
  (forall r, rows d !! k = Some r -> P r -> allowed f r) ->
  (forall r r' d', rows d !! k = Some r -> rows d' !! k = Some r' ->
     (r' = r \/ exists n, r' = touch n (f r)) ->
     (forall k', k' <> k -> rows d' !! k' = rows d !! k') ->
     under (rows_follow t0) d' -> Q r' d') ->
  wp (update_row k f) Q any_exn d.
Proof.
  intros Hpk [Hwf Hd] Hf HQ. apply wp_update_row; [done..| |].
  - intros r Hr _. apply (HQ r); [done..|by left|done|done].
  - intros r n Hr _ Hv. assert (Hk : pk (touch n (f r)) = k).
    { rewrite pk_touch, Hpk. by apply (wf_pk d k r). }
    apply (HQ r); [done| |by right; exists n| |split; [by apply wf_put_row|]].
    + unfold put_row. by rewrite rows_set, Hk, lookup_insert_eq.
    + intros k' Hk'. unfold put_row. by rewrite rows_set, Hk, lookup_insert_ne.
    + destruct (Hf r Hr (proj1 Hd k r Hr) n) as [HP HT]. apply rows_follow_put; [done| |done].
      intros r1. rewrite Hk, Hr. by intros [= <-].
Qed.

Lemma keeps_follow_update t0 k f :
  (forall r, pk (f r) = pk r) -> (forall r, P r -> allowed f r) ->
  keeps (under (rows_follow t0)) (update_row k f).
Proof. intros Hpk Hf d Hd. apply wp_follow_update with t0; eauto. Qed.

(** *** A row found by a query and written in the same transaction *)

Lemma keeps_find {B} t0 sel (k : option R -> M Db B) :
  (forall r d, under (rows_follow t0) d -> rows d !! pk r = Some r -> sel r = true ->
     wp (k (Some r)) (fun _ => under (rows_follow t0)) any_exn d) ->
  keeps (under (rows_follow t0)) (k None) ->
  keeps (under (rows_follow t0)) (select_one_or_none sel ≫= k).
Proof.
  intros HS HN d Hd. apply wp_bind. apply wp_bind, wp_select.
  destruct (rows_where d sel) as [|r [|r' l]] eqn:El; simpl; [apply wp_ret; by apply HN|apply wp_ret|by apply wp_raise].
  assert (Hr : r ∈ rows_where d sel) by (rewrite El; by constructor).
  apply elem_of_rows_where_wf in Hr as [Hr Hs]; [|by destruct Hd]. by apply HS.
Qed.

(** The row that was found is rewritten; what follows keeps the invariant. *)
Lemma wp_rewritten {B} t0 k r f (rest : R -> M Db B) d :
  (forall r, pk (f r) = pk r) -> under (rows_follow t0) d -> rows d !! k = Some r ->
  (P r -> allowed f r) -> (forall r', keeps (under (rows_follow t0)) (rest r')) ->
  wp (update_row k f) (fun r' => wp (rest r') (fun _ => under (rows_follow t0)) any_exn) any_exn d.
Proof.
  intros Hpk Hd Hr Hf Hrest. apply wp_follow_update with t0; [done..| |].
  - intros r1 Hr1. rewrite Hr in Hr1. by injection Hr1 as <-.
  - intros r1 r' d' _ _ _ _ Hd'. by apply Hrest.
Qed.

(** The rows of [l] are distinct and in [d] as they were read. *)
Definition as_read (l : list R) d : Prop :=
  NoDup (pk <$> l) /\ Forall (fun r => rows d !! pk r = Some r) l.

Lemma as_read_tail r l d : as_read (r :: l) d -> as_read l d.
Proof. intros [HN Hl]. by inversion HN; inversion Hl. Qed.

Lemma as_read_batch n (R' : R -> R -> Prop) `{!forall x y, Decision (R' x y)} sel d :
  wf d -> as_read (take n (merge_sort R' (rows_where d sel))) d
          /\ Forall (fun r => sel r = true) (take n (merge_sort R' (rows_where d sel))).
Proof.
  intros Hwf. assert (Hin : forall r, r ∈ take n (merge_sort R' (rows_where d sel)) ->
    rows d !! pk r = Some r /\ sel r = true).
  { intros r Hr%batch_subset. by apply elem_of_rows_where_wf in Hr. }
  split; [split|]; [|apply Forall_forall; intros r Hr; by apply Hin..].
  apply NoDup_fmap_2_strong.
  - intros x y Hx%Hin Hy%Hin Hk. destruct Hx as [Hx _], Hy as [Hy _]. rewrite Hk in Hx. congruence.
  - apply batch_NoDup. by apply NoDup_rows_where.
Qed.

(** Writing one of them leaves the others as read. *)
Lemma as_read_write r l d d' :
  as_read (r :: l) d -> (forall k', k' <> pk r -> rows d' !! k' = rows d !! k') -> as_read l d'.
Proof.
  intros [HN Hl] Hother. rewrite fmap_cons in HN. apply NoDup_cons in HN as [Hr HN].
  split; [done|]. apply Forall_cons in Hl as [_ Hl]. rewrite Forall_forall in Hl |- *.
  intros x Hx. rewrite Hother; [by apply Hl|]. intros Hk. apply Hr. rewrite <- Hk.
  by apply list_elem_of_fmap_2.
Qed.

(** A batch of rows found and rewritten one by one; after each write, [rest] leaves
    the table alone. *)
Lemma keeps_follow_each {B} t0 n (R' : R -> R -> Prop) `{!forall x y, Decision (R' x y)} sel
    (body : R -> M Db B) :
  (forall r d (Q : B -> Db -> Prop), under (rows_follow t0) d -> rows d !! pk r = Some r ->
     sel r = true ->
     (forall b d', under (rows_follow t0) d' ->
        (forall k', k' <> pk r -> rows d' !! k' = rows d !! k') -> Q b d') ->
     wp (body r) Q any_exn d) ->
  forall d, under (rows_follow t0) d ->
  wp (for_each (take n (merge_sort R' (rows_where d sel))) body)
    (fun _ => under (rows_follow t0)) any_exn d.
Proof.
  intros Hb d Hd.
  apply (wp_for_each (fun l _ d => under (rows_follow t0) d /\ as_read l d /\
    Forall (fun r => sel r = true) l)); [|split; [done|by apply as_read_batch, Hd]|by intros ys d' [? _]].
  intros r l _ d1 (Hd1 & Hl & Hsel). inversion Hsel as [|?? Hr Hsel']; subst.
  apply Hb; [done| |done|].
  - destruct Hl as [_ Hl]. by inversion Hl.
  - intros b d2 Hd2 Hother. split; [done|]. split; [|done]. by eapply as_read_write.
Qed.

(** *** Batches whose rows are returned as written *)

(** A row and what an update made of it. *)
Definition written (f : R -> R) r r' : Prop := r' = f r \/ exists n, r' = touch n (f r).

Lemma wp_update_read r f d (Q : R -> Db -> Prop) :
  (forall r, pk (f r) = pk r) -> wf d -> rows d !! pk r = Some r ->
  (forall r' d', pk r' = pk r -> written f r r' -> wf d' -> rows d' = <[pk r := r']> (rows d) -> Q r' d') ->
  wp (update_row (pk r) f) Q any_exn d.
Proof.
  intros Hf Hwf Hr HQ. apply wp_update_row; [done..| |].
  - intros r1 Hr1 Hid. rewrite Hr in Hr1. injection Hr1 as <-.
    apply HQ; [done|by left|done|]. by rewrite insert_id.
  - intros r1 n Hr1 _ Hv. rewrite Hr in Hr1. injection Hr1 as <-.
    assert (Hk : pk (touch n (f r)) = pk r) by (by rewrite pk_touch, Hf).
    apply HQ; [done|by right; exists n|by apply wf_put_row|]. unfold put_row. by rewrite rows_set, Hk.
Qed.

Lemma wp_write_each (C : R -> R -> Prop) (body : R -> M Db R) l :
  (forall r d (Q : R -> Db -> Prop), wf d -> rows d !! pk r = Some r ->
     (forall r' d', pk r' = pk r -> C r r' -> wf d' -> rows d' = <[pk r := r']> (rows d) -> Q r' d') ->
     wp (body r) Q any_exn d) ->
  forall d (Q : list R -> Db -> Prop), wf d -> as_read l d ->
  (forall l' d', wf d' -> as_read l' d' -> pk <$> l' = pk <$> l -> Forall2 C l l' ->
     (forall k, k ∉ pk <$> l -> rows d' !! k = rows d !! k) -> Q l' d') ->
  wp (for_each l body) Q any_exn d.
Proof.
  intros Hb. induction l as [|r l IH]; intros d Q Hwf Hl HQ; simpl.
  { apply wp_ret, HQ; done. }
  pose proof Hl as [Hnd Hall]. rewrite fmap_cons in Hnd. apply NoDup_cons in Hnd as [Hnew _].
  apply Forall_cons in Hall as [Hr _]. apply wp_bind, Hb; [done..|].
  intros r' d1 Hk HC Hwf1 Hrows1. apply wp_bind. apply IH; [done| |].
  { eapply as_read_write; [done|]. intros k' Hk'. rewrite Hrows1. by apply lookup_insert_ne. }
  intros l' d2 Hwf2 [Hnd2 Hl2] Hks HCs Hother. apply wp_ret, HQ; [done| | |by constructor|].
  - split; [rewrite fmap_cons, Hk, Hks; by rewrite <- fmap_cons; apply Hl|]. apply Forall_cons. split; [|done].
    rewrite Hk, Hother, Hrows1 by done. apply lookup_insert_eq.
  - by rewrite !fmap_cons, Hk, Hks.
  - intros k. rewrite fmap_cons, not_elem_of_cons. intros [Hk1 Hk2].
    rewrite Hother, Hrows1 by done. by rewrite lookup_insert_ne.
Qed.

(** At most [n] of the rows that [sel] selects were changed by [C]; [l'] lists them as
    they are stored now. *)
Record batch_written (n : nat) (sel : R -> bool) (C : R -> R -> Prop) d (l' : list R) d' : Prop := {
  batch_wf : wf d';
  batch_read : as_read l' d';
  batch_size : (length l' <= n)%nat;
  batch_rows : forall r', r' ∈ l' ->
    exists r, rows d !! pk r' = Some r /\ sel r = true /\ C r r';
  batch_other : forall k, k ∉ pk <$> l' -> rows d' !! k = rows d !! k;
  batch_rest : (length l' < n)%nat -> forall k r, rows d !! k = Some r -> sel r = true -> k ∈ pk <$> l';
}.

Lemma wp_write_batch (C : R -> R -> Prop) (body : R -> M Db R) n (R' : R -> R -> Prop)
    `{!forall x y, Decision (R' x y)} sel d (Q : list R -> Db -> Prop) :
  (forall r d (Q : R -> Db -> Prop), wf d -> rows d !! pk r = Some r ->
     (forall r' d', pk r' = pk r -> C r r' -> wf d' -> rows d' = <[pk r := r']> (rows d) -> Q r' d') ->
     wp (body r) Q any_exn d) ->
  wf d -> (forall l' d', batch_written n sel C d l' d' -> Q l' d') ->
  wp (for_each (take n (merge_sort R' (rows_where d sel))) body) Q any_exn d.
Proof.
  intros Hb Hwf HQ. destruct (as_read_batch n R' sel d Hwf) as [Hl Hsel].
  pose proof (batch_all R' n (rows_where d sel)) as Hall. revert Hl Hsel Hall.
  set (l := take _ _). intros Hl Hsel Hall.
  apply (wp_write_each C body l Hb); [done..|]. intros l' d' Hwf' Hl' Hk HC Hother.
  pose proof (Forall2_length _ _ _ HC) as Hlen. apply HQ. split; [done|done|..].
  - rewrite <- Hlen. unfold l. rewrite length_take. lia.
  - intros r' Hr'. destruct (proj1 (list_elem_of_lookup l' r') Hr') as [i Hi].
    destruct (Forall2_lookup_r _ _ _ _ _ HC Hi) as (r & Hri & HCr). exists r.
    assert (Hr : r ∈ l) by (apply list_elem_of_lookup; eauto).
    assert (pk r' = pk r) as ->.
    { assert (Hx : (pk <$> l') !! i = (pk <$> l) !! i) by by rewrite Hk.
      rewrite !list_lookup_fmap, Hi, Hri in Hx. by injection Hx. }
    destruct Hl as [_ Hl]. rewrite Forall_forall in Hl, Hsel. auto.
  - intros k. rewrite Hk. apply Hother.
  - intros Hlt k r Hr Hs. rewrite Hk, <- (wf_pk d k r) by done. apply list_elem_of_fmap_2, Hall.
    + by rewrite Hlen.
    + apply elem_of_rows_where. eauto.
Qed.

Lemma keeps_follow_update_where t0 sel f :
  (forall r, pk (f r) = pk r) -> (forall r, P r -> sel r = true -> allowed f r) ->
  keeps (under (rows_follow t0)) (update_where sel f).
Proof.
  intros Hpk Hf d [Hwf Hd]. apply wp_update_where; [done|]. intros n g Hall.
  split; [|by apply rows_follow_map].
  apply wf_map_rows; [done| |done]. intros r. unfold g. by rewrite pk_touch.
Qed.

End Rows.

#[export] Hint Resolve keeps_follow_insert : keeps.
