(* ===== verification/Regex.v ===== *)
(** The fragment of Python's [re] the code uses: character classes, sequence,
    alternatives and repetition, matched by derivatives. [search] only asks
    whether some substring matches, so greedy and lazy repetition agree. *)
From S2P Require Import Prelude.

Module Regex.

Inductive re :=
  | Nothing
  | Empty
  | Chr (p : ascii -> bool)
  | Cat (a b : re)
  | Alt (a b : re)
  | Star (a : re).

(** The texts an expression matches. *)
Inductive lang : re -> string -> Prop :=
  | lang_empty : lang Empty ""
  | lang_chr p c : p c = true -> lang (Chr p) (String c "")
  | lang_cat a b s t : lang a s -> lang b t -> lang (Cat a b) (s ++ t)
  | lang_alt_l a b s : lang a s -> lang (Alt a b) s
  | lang_alt_r a b s : lang b s -> lang (Alt a b) s
  | lang_star_nil a : lang (Star a) ""
  | lang_star_cons a s t : lang a s -> lang (Star a) t -> lang (Star a) (s ++ t).

Fixpoint nullable (r : re) : bool :=
  match r with
  | Nothing | Chr _ => false
  | Empty | Star _ => true
  | Cat a b => nullable a && nullable b
  | Alt a b => nullable a || nullable b
  end.

Fixpoint deriv (c : ascii) (r : re) : re :=
  match r with
  | Nothing | Empty => Nothing
  | Chr p => if p c then Empty else Nothing
  | Cat a b =>
      if nullable a then Alt (Cat (deriv c a) b) (deriv c b) else Cat (deriv c a) b
  | Alt a b => Alt (deriv c a) (deriv c b)
  | Star a => Cat (deriv c a) (Star a)
  end.

(** [pattern.match(s)]: a prefix of [s] matches. *)
Fixpoint match_prefix (r : re) (s : string) : bool :=
  nullable r ||
  match s with
  | EmptyString => false
  | String c s => match_prefix (deriv c r) s
  end.

(** [pattern.search(s)]: a substring of [s] matches. *)
Fixpoint search (r : re) (s : string) : bool :=
  match_prefix r s ||
  match s with
  | EmptyString => false
  | String _ s => search r s
  end.

(** [a+], [a{n,}] and the literal text [s] *)
Definition plus (a : re) : re := Cat a (Star a).

Fixpoint at_least (n : nat) (a : re) : re :=
  match n with
  | O => Star a
  | S n => Cat a (at_least n a)
  end.

Fixpoint literal (s : string) : re :=
  match s with
  | EmptyString => Empty
  | String c s => Cat (Chr (Ascii.eqb c)) (literal s)
  end.

(** A class that is the characters of a text. *)
Definition one_of (s : string) (c : ascii) : bool :=
  existsb (Ascii.eqb c) (list_ascii_of_string s).

Definition in_range (lo hi c : ascii) : bool :=
  (nat_of_ascii lo <=? nat_of_ascii c)%nat && (nat_of_ascii c <=? nat_of_ascii hi)%nat.

Lemma nullable_spec r : nullable r = true <-> lang r "".
Proof.
  induction r as [| | |a IHa b IHb|a IHa b IHb|a IHa]; simpl.
  - by split; inversion 1.
  - by split; [constructor|].
  - by split; inversion 1.
  - rewrite andb_true_iff, IHa, IHb. split.
    + intros [Ha Hb]. apply (lang_cat a b "" ""); done.
    + inversion 1 as [| |? ? [] [] H1 H2| | | |]; simplify_eq/=. done.
  - rewrite orb_true_iff, IHa, IHb. split.
    + intros []; by constructor.
    + inversion 1; auto.
  - by split; [constructor|].
Qed.

Lemma lang_deriv_1 c r : forall s, lang (deriv c r) s -> lang r (String c s).
Proof.
  induction r as [| |p|a IHa b IHb|a IHa b IHb|a IHa]; simpl; intros s.
  - by inversion 1.
  - by inversion 1.
  - destruct (p c) eqn:Hp; inversion 1. by constructor.
  - assert (Hcat : lang (Cat (deriv c a) b) s -> lang (Cat a b) (String c s)).
    { inversion 1 as [| |? ? u v Hu Hv| | | |]. subst.
      apply (lang_cat a b (String c u) v); auto. }
    destruct (nullable a) eqn:Hn; [|done].
    inversion 1; subst; [by auto|].
    apply (lang_cat a b "" (String c s)); [by apply nullable_spec|auto].
  - inversion 1; subst; [apply lang_alt_l|apply lang_alt_r]; auto.
  - inversion 1 as [| |? ? u v Hu Hv| | | |]. subst.
    apply (lang_star_cons a (String c u) v); auto.
Qed.

Lemma lang_deriv_2 c r : forall s, lang r (String c s) -> lang (deriv c r) s.
Proof.
  intros s Hl. remember (String c s) as cs eqn:Ecs. revert s Ecs.
  induction Hl as [|p d Hp|a b u v Hu IHu Hv IHv|a b u Hu IHu|a b u Hu IHu|a|a u v Hu IHu Hv IHv];
    intros s Ecs; simpl.
  - done.
  - injection Ecs as -> <-. rewrite Hp. constructor.
  - destruct u as [|d u]; simpl in Ecs.
    + apply nullable_spec in Hu as ->. apply lang_alt_r. auto.
    + injection Ecs as -> <-.
      assert (lang (Cat (deriv c a) b) (u ++ v)) by (constructor; auto).
      destruct (nullable a); [by apply lang_alt_l|done].
  - apply lang_alt_l. auto.
  - apply lang_alt_r. auto.
  - done.
  - destruct u as [|d u]; simpl in Ecs; [by apply IHv|].
    injection Ecs as -> <-. constructor; auto.
Qed.

Lemma match_prefix_spec s : forall r,
  match_prefix r s = true <-> exists u v, s = (u ++ v)%string /\ lang r u.
Proof.
  induction s as [|c s IH]; intros r; simpl; rewrite orb_true_iff, nullable_spec.
  - split; [intros [H|]; [by exists ""%string, ""%string|done]|].
    intros ([] & [] & ? & ?); simplify_eq/=. auto.
  - rewrite IH. split.
    + intros [H|(u & v & -> & H)]; [by exists ""%string, (String c s)|].
      exists (String c u), v. split; [done|by apply lang_deriv_1].
    + intros ([|d u] & v & E & H); simpl in E; [by left|].
      injection E as -> ->. right. exists u, v. split; [done|by apply lang_deriv_2].
Qed.

(** The matcher decides whether a substring is in the language. *)
Lemma search_spec s r :
  search r s = true <-> exists p u v, s = (p ++ u ++ v)%string /\ lang r u.
Proof.
  induction s as [|c s IH]; cbn [search]; rewrite orb_true_iff, match_prefix_spec.
  - split; [intros [(u & v & E & H)|]; [by exists ""%string, u, v|done]|].
    intros ([] & u & v & E & H); [|done]. left. by exists u, v.
  - rewrite IH. split.
    + intros [(u & v & E & H)|(p & u & v & -> & H)]; [by exists ""%string, u, v|].
      by exists (String c p), u, v.
    + intros ([|d p] & u & v & E & H); simpl in E; [left; by exists u, v|].
      injection E as -> ->. right. by exists p, u, v.
Qed.

(** *** Literals and texts of one character class *)

Lemma lang_literal s : lang (literal s) s.
Proof.
  induction s as [|c s IH]; simpl; [by constructor|].
  apply (lang_cat _ _ (String c "") s); [|done]. constructor. apply Ascii.eqb_refl.
Qed.

Lemma lang_star_chr p s : Text.forallb_chars p s = true -> lang (Star (Chr p)) s.
Proof.
  induction s as [|c s IH]; simpl; [by constructor|]. intros [Hc Hs]%andb_prop.
  apply (lang_star_cons _ (String c "") s); [by constructor|by apply IH].
Qed.

Lemma lang_plus_chr p s : Text.forallb_chars p s = true -> s <> ""%string -> lang (plus (Chr p)) s.
Proof.
  destruct s as [|c s]; [done|]. intros [Hc Hs]%andb_prop _.
  apply (lang_cat _ _ (String c "") s); [by constructor|by apply lang_star_chr].
Qed.

Lemma lang_at_least n p : forall s,
  Text.forallb_chars p s = true -> (n <= String.length s)%nat -> lang (at_least n (Chr p)) s.
Proof.
  induction n as [|n IH]; intros [|c s] Hs Hn; simpl in Hn; try lia.
  - by apply lang_star_chr.
  - by apply lang_star_chr.
  - apply andb_prop in Hs as [Hc Hs].
    apply (lang_cat _ _ (String c "") s); [by constructor|apply IH; [done|lia]].
Qed.

End Regex.
