(* ===== verification/Logging.v ===== *)
(** The log: the chain every entry goes through before it is rendered
    ([core/logging/processors.py], [factory.py]), from the fields the service adds to the
    redaction of secrets and addresses. *)
From S2P Require Import Prelude Regex.

(** ** Entries

    A value is a text, a list, a tuple, a mapping or another object, which the chain hands
    on as it is; a key is a text or another object. A mapping is the list of its items, in
    order. *)
Module Log.

Inductive key :=
  | KText (s : string)
  | KOther (n : N).

Inductive value :=
  | VNone
  | VText (s : string)
  | VList (l : list value)
  | VTuple (l : list value)
  | VMapping (m : list (key * value))
  | VOther (n : N).

Definition event_dict : Type := list (key * value).

#[export] Instance key_eq : EqDecision key.
Proof. solve_decision. Defined.

(** [k in d] and [d.setdefault(k, v)] *)
Definition has (k : string) (d : event_dict) : bool := existsb (fun kv => bool_decide (kv.1 = KText k)) d.

Definition setdefault (k : string) (v : value) (d : event_dict) : event_dict :=
  if has k d then d else d ++ [(KText k, v)].

(** Induction through the lists inside a value. *)
Section Induction.
Context (P : value -> Prop).
Context (HNone : P VNone) (HText : forall s, P (VText s)) (HOther : forall n, P (VOther n)).
Context (HList : forall l, Forall P l -> P (VList l)) (HTuple : forall l, Forall P l -> P (VTuple l)).
Context (HMapping : forall m, Forall (fun kv => P kv.2) m -> P (VMapping m)).

Fixpoint value_ind' (v : value) : P v :=
  let all := fix all (l : list value) : Forall P l :=
    match l with [] => Forall_nil_2 _ | v :: l => Forall_cons_2 _ _ _ (value_ind' v) (all l) end in
  match v with
  | VNone => HNone
  | VText s => HText s
  | VList l => HList l (all l)
  | VTuple l => HTuple l (all l)
  | VMapping m => HMapping m ((fix items (m : event_dict) : Forall (fun kv => P kv.2) m :=
      match m with [] => Forall_nil_2 _ | kv :: m => Forall_cons_2 _ _ _ (value_ind' kv.2) (items m) end) m)
  | VOther n => HOther n
  end.
End Induction.

End Log.

Module Processors.

Import Regex Log.
Local Open Scope string_scope.

Definition is_lower (c : ascii) : bool := in_range "a" "z" c.
Definition is_digit (c : ascii) : bool := in_range "0" "9" c.

(** [\w] *)
Definition is_word (c : ascii) : bool := is_lower c || Text.is_upper c || is_digit c || Ascii.eqb c "_".

(** ** Patterns at a word boundary: [\b] holds between two characters of which one is a
    word character; the text is searched from left to right with what precedes. *)
Definition head_is_word (s : string) : bool := match s with EmptyString => false | String c _ => is_word c end.

Definition boundary (previous : bool) (s : string) : bool := xorb previous (head_is_word s).

(** A prefix in the language that ends at a boundary. *)
Fixpoint match_to_boundary (r : re) (previous : bool) (s : string) : bool :=
  (nullable r && boundary previous s)
  || match s with EmptyString => false | String c s => match_to_boundary (deriv c r) (is_word c) s end.

(** A position at a boundary where [matches] holds. *)
Fixpoint search_at_boundary (matches : bool -> string -> bool) (previous : bool) (s : string) : bool :=
  (boundary previous s && matches previous s)
  || match s with EmptyString => false | String c s => search_at_boundary matches (is_word c) s end.

(** A letter in either case. *)
Definition either_case (c d : ascii) : bool := Ascii.eqb c (Text.lower_char d).

Fixpoint literal_ignoring_case (s : string) : re :=
  match s with EmptyString => Empty | String c s => Cat (Chr (either_case c)) (literal_ignoring_case s) end.

Definition auth_header : re :=
  Cat (Alt (literal_ignoring_case "bearer") (literal_ignoring_case "basic")) (plus (Chr Text.is_space)).

Definition _AUTH_HEADER_VALUE_RE (s : string) : bool :=
  search_at_boundary (fun _ => match_prefix auth_header) false s.

Definition jwt_char (c : ascii) : bool := is_lower c || Text.is_upper c || is_digit c || one_of "_-" c.

Definition jwt_compact : re :=
  let segment := at_least 8 (Chr jwt_char) in
  let dot := Chr (Ascii.eqb ".") in
  Cat segment (Cat dot (Cat segment (Cat dot segment))).

Definition _JWT_COMPACT_RE (s : string) : bool := search_at_boundary (match_to_boundary jwt_compact) false s.

(** ** Keys *)

Definition _REDACTED := "[REDACTED]".

Definition _SENSITIVE_KEYS : list string :=
  ["password"; "token"; "access_token"; "refresh_token"; "id_token"; "authorization"; "cookie";
   "set_cookie"; "secret"; "api_key"; "apikey"; "client_secret"; "private_key"; "raw_token";
   "token_hash"; "encrypted_raw_token"; "session"; "csrf"].

Definition _SENSITIVE_KEY_MARKERS : list string :=
  ["token"; "password"; "secret"; "authorization"; "cookie"; "api_key"; "apikey"; "client_secret";
   "private_key"; "access_token"; "refresh_token"; "id_token"; "raw_token"; "token_hash";
   "encrypted_raw_token"; "set_cookie"; "session"; "csrf"].

(** [_CAMEL_CASE_BOUNDARY_RE.sub("_", key)], after a character that may end a word *)
Fixpoint camel_case_boundaries (word_end : bool) (s : string) : string :=
  match s with
  | EmptyString => ""
  | String c s =>
      let rest := String c (camel_case_boundaries (is_lower c || is_digit c) s) in
      if word_end && Text.is_upper c then String "_" rest else rest
  end.

(** [_KEY_SEPARATOR_RE.sub("_", s)]: a run of other characters becomes one underscore. *)
Fixpoint key_separators (within : bool) (s : string) : string :=
  match s with
  | EmptyString => ""
  | String c s =>
      if is_lower c || is_digit c then String c (key_separators false s)
      else if within then key_separators true s
      else String "_" (key_separators true s)
  end.

(** [s.strip("_")] and [s.replace("_", "")] *)
Fixpoint lstrip_underscores (s : string) : string :=
  match s with
  | EmptyString => ""
  | String c r => if Ascii.eqb c "_" then lstrip_underscores r else s
  end.

Fixpoint rstrip_underscores (s : string) : string :=
  match s with
  | EmptyString => ""
  | String c r =>
      let r := rstrip_underscores r in
      if Ascii.eqb c "_" && Text.is_empty r then "" else String c r
  end.

Fixpoint without_underscores (s : string) : string :=
  match s with
  | EmptyString => ""
  | String c r => if Ascii.eqb c "_" then without_underscores r else String c (without_underscores r)
  end.

Definition _normalize_log_key (key : string) : string :=
  let separated := camel_case_boundaries false key in
  rstrip_underscores (lstrip_underscores (key_separators false (Text.lower separated))).

Definition _is_sensitive_key (k : key) : bool :=
  match k with
  | KOther _ => false
  | KText key =>
      let normalized_key := _normalize_log_key key in
      if existsb (String.eqb normalized_key) _SENSITIVE_KEYS then true else
      let compact_key := without_underscores normalized_key in
      existsb (fun marker => Text.contains marker normalized_key
                 || Text.contains (without_underscores marker) compact_key) _SENSITIVE_KEY_MARKERS
  end.

(** ** Texts *)

Definition _is_sensitive_string_value (value : string) : bool :=
  _AUTH_HEADER_VALUE_RE value || _JWT_COMPACT_RE value.

(** [[^@\s]], the character class of [_EMAIL_RE] *)
Definition address_char (c : ascii) : bool := negb (Ascii.eqb c "@") && negb (Text.is_space c).

(** The longest prefix of such characters, and what follows it. *)
Fixpoint span (s : string) : string * string :=
  match s with
  | EmptyString => ("", "")
  | String c r => if address_char c then let (a, b) := span r in (String c a, b) else ("", s)
  end.

(** [[^@\s]+\.[^@\s]+] matches a whole run of such characters: a dot that is neither the
    first nor the last of them. *)
Fixpoint dot_inside (s : string) : bool :=
  match s with
  | EmptyString => false
  | String c r => (Ascii.eqb c "." && negb (Text.is_empty r)) || dot_inside r
  end.

Definition is_domain (s : string) : bool :=
  match s with EmptyString => false | String _ r => dot_inside r end.

(** [_EMAIL_RE.match] at a position: the name ends at an [@] and so takes the whole run; the
    greedy domain takes the whole run after it. Name and domain. *)
Definition match_email (s : string) : option (string * string) :=
  let (name, rest) := span s in
  match rest with
  | String "@" rest =>
      let (domain, _) := span rest in
      if negb (Text.is_empty name) && is_domain domain then Some (name, domain) else None
  | _ => None
  end.

Fixpoint stars (name : string) : string :=
  match name with EmptyString => "" | String _ r => String "*" (stars r) end.

Fixpoint last_char (first : ascii) (s : string) : ascii :=
  match s with EmptyString => first | String c r => last_char c r end.

Definition _mask_name (name : string) : string :=
  match name with
  | String first (String _ (String _ _) as rest) =>
      String first ("***" ++ String (last_char first rest) "")
  | _ => stars name
  end.

Definition _mask_email_match (name domain : string) : string := _mask_name name ++ "@" ++ domain.

(** [_EMAIL_RE.sub(_mask_email_match, value)], with the characters of the last match that
    are still to be passed over *)
Fixpoint sub_email (skip : nat) (s : string) : string :=
  match s with
  | EmptyString => ""
  | String c r =>
      match skip with
      | S skip => sub_email skip r
      | O =>
          match match_email s with
          | Some (name, domain) =>
              _mask_email_match name domain ++ sub_email (String.length name + String.length domain) r
          | None => String c (sub_email 0 r)
          end
      end
  end.

Definition _mask_email (value : string) : string := sub_email 0 value.

(** [_sanitize_value], and [_sanitize_mapping] for the mappings inside *)
Fixpoint _sanitize_value (v : value) : value :=
  match v with
  | VMapping m =>
      VMapping ((fix items (m : event_dict) : event_dict :=
        match m with
        | [] => []
        | (k, v) :: m =>
            (k, if _is_sensitive_key k then VText _REDACTED else _sanitize_value v) :: items m
        end) m)
  | VList l => VList (_sanitize_value <$> l)
  | VTuple l => VTuple (_sanitize_value <$> l)
  | VText s =>
      if _is_sensitive_string_value s then VText _REDACTED
      else if Text.contains "@" s then VText (_mask_email s)
      else VText s
  | VNone | VOther _ => v
  end.

Definition _sanitize_mapping (data : event_dict) : event_dict :=
  (fun kv => (kv.1, if _is_sensitive_key kv.1 then VText _REDACTED else _sanitize_value kv.2)) <$> data.

Definition redact_sensitive_fields (d : event_dict) : event_dict := _sanitize_mapping d.

(** ** The other steps of the chain *)

(** [request_id] is the context variable, empty outside of a request. *)
Definition add_request_id (request_id : string) (d : event_dict) : event_dict :=
  if negb (Text.is_empty request_id) && negb (has "request_id" d)
  then (d ++ [(KText "request_id", VText request_id)])%list else d.

Definition add_service_context (service_name environment version : string) (d : event_dict) : event_dict :=
  setdefault "version" (VText version)
    (setdefault "environment" (VText environment) (setdefault "service" (VText service_name) d)).

Definition ensure_category (default_category : string) (d : event_dict) : event_dict :=
  setdefault "category" (VText default_category) d.

Definition drop_none_values (d : event_dict) : event_dict :=
  List.filter (fun kv => match kv.2 with VNone => false | _ => true end) d.

End Processors.

(** ** [configure_logging]: the chain that structlog runs on an entry of its own and, as
    [foreign_pre_chain], on one of the standard library. What structlog's own processors do
    to an entry is theirs. *)
Class StructLog := {
  merge_contextvars : Log.event_dict -> Log.event_dict;
  add_log_level : Log.event_dict -> Log.event_dict;
  add_logger_name : Log.event_dict -> Log.event_dict;
  timestamper : Log.event_dict -> Log.event_dict;
}.

Module LogFactory.

Import Log Processors.

Definition shared_processors `{StructLog} (service_name environment version request_id : string)
    : list (event_dict -> event_dict) :=
  [merge_contextvars; add_log_level; add_logger_name; timestamper;
   add_service_context service_name environment version;
   add_request_id request_id;
   ensure_category "application";
   redact_sensitive_fields;
   drop_none_values].

Definition processed `{StructLog} (service_name environment version request_id : string)
    (d : event_dict) : event_dict :=
  foldl (fun d process => process d) d (shared_processors service_name environment version request_id).

End LogFactory.
