(* ===== verification/AuditLog.v ===== *)
(** Audit events: [audit/minimisation.py], [audit/services/audit_events.py],
    [audit/repositories/audit_events.py] and [audit/context.py]'s context. *)
From S2P Require Import Prelude Errors Session Schema Tables.

(** The address parsing of [ipaddress] and the keyed digest of [hmac], which
    the code calls and does not define. *)
Inductive IPAddress := IPv4Address (n : N) | IPv6Address (n : N).

Class Network := {
  ip_address : string -> option IPAddress;
  compressed : IPAddress -> string;
  hmac_sha256_hexdigest : string -> string -> string;
}.

(** [audit/context.py], [AuditContext] *)
Module AuditContext.
Record t := mk {
  actor_user_id : option UUID;
  ip_address : option string;
  user_agent : option string;
  network_identifier_secret : option string;
}.
End AuditContext.

(** ** [audit/minimisation.py] *)
Module Minimisation.
Section Minimisation.
Context `{Network}.

Definition _AUDIT_IP_HMAC_PREFIX : string := "hmac:v1".

Definition _parse_ip (value : option string) : option IPAddress :=
  ip_address (Text.strip (default ""%string value)).

Definition _secret_value (secret : option string) : option string :=
  match secret with
  | None => None
  | Some s => let v := Text.strip s in if Text.is_empty v then None else Some v
  end.

(** [ip_network(f"{parsed}/{prefix}", strict=False).network_address] *)
Definition network_address (a : IPAddress) : IPAddress :=
  match a with
  | IPv4Address n => IPv4Address (N.land n (N.shiftl (N.ones 24) 8))
  | IPv6Address n => IPv6Address (N.land n (N.shiftl (N.ones 64) 64))
  end.

Definition minimise_ip_address (value secret : option string) : option string :=
  match _parse_ip value with
  | None => None
  | Some parsed =>
      match _secret_value secret with
      | Some key =>
          Some (_AUDIT_IP_HMAC_PREFIX ++ ":" ++
                Text.truncate 32 (hmac_sha256_hexdigest key (compressed parsed)))%string
      | None =>
          Some (compressed (network_address parsed) ++
                match parsed with IPv4Address _ => "/24" | IPv6Address _ => "/64" end)%string
      end
  end.

Definition normalise_user_agent (value : option string) : option string :=
  match value with
  | None => None
  | Some v =>
      let normalised := Text.join " " (Text.split_words (Text.strip v)) in
      if Text.is_empty normalised then None else
      let lowered := Text.lower normalised in
      let has s := Text.contains s lowered in
      Some (
        if has "pytest" then "client:test"
        else if has "curl/" then "client:curl"
        else if has "python-requests" || has "httpx" || has "aiohttp" then "client:http-library"
        else if has "googlebot" || has "bingbot" || has "bot" then "client:bot"
        else if has "edg/" then "browser:edge"
        else if has "firefox/" then "browser:firefox"
        else if has "chrome/" || has "chromium/" then "browser:chrome"
        else if has "safari/" then "browser:safari"
        else if has "java/" then "client:java"
        else "client:other")%string
  end.

(** Every value [normalise_user_agent] can store. *)
Definition user_agent_families : list string :=
  ["client:test"; "client:curl"; "client:http-library"; "client:bot"; "browser:edge";
   "browser:firefox"; "browser:chrome"; "browser:safari"; "client:java"; "client:other"]%string.

Lemma normalise_user_agent_families v f :
  normalise_user_agent v = Some f -> f ∈ user_agent_families.
Proof.
  destruct v as [v|]; simpl; [|done].
  destruct (Text.is_empty _); [done|]. intros [= <-].
  repeat case_match; unfold user_agent_families; set_solver.
Qed.

(** Without a secret the stored value depends on the network only. *)
Lemma network_address_coarse a :
  network_address (network_address a) = network_address a.
Proof. destruct a; simpl; by rewrite <- N.land_assoc, N.land_diag. Qed.

End Minimisation.
End Minimisation.

(** ** Metadata validation ([AuditEventService._validate_metadata_json]) *)
Module Metadata.

Definition _FORBIDDEN_KEYS : list string :=
  ["token"; "raw_token"; "invite_token"; "token_hash"; "authorization"; "password";
   "secret"; "api_key"; "headers"; "cookie"; "set_cookie"]%string.

Definition forbidden_markers : list string :=
  ["token"; "password"; "secret"; "authorization"; "cookie"]%string.

(** One key's test, inside the loop over [current.items()]. *)
Definition forbidden_key (key : string) : bool :=
  let normalized_key := Text.replace_char "-" "_" (Text.lower key) in
  existsb (String.eqb normalized_key) _FORBIDDEN_KEYS
  || existsb (fun marker => Text.contains marker normalized_key) forbidden_markers.

(** The [while stack] loop; the head of the list is the top of the stack.
    [Some true] where Python raises, [None] when the fuel runs out. *)
Fixpoint scan_loop (fuel : nat) (stack : list json) : option bool :=
  match fuel with
  | O => None
  | S fuel =>
      match stack with
      | [] => Some false
      | JObj fields :: stack =>
          if existsb (fun kv => forbidden_key kv.1) fields then Some true
          else scan_loop fuel (rev (map snd fields) ++ stack)
      | JArr l :: stack => scan_loop fuel (rev l ++ stack)
      | _ :: stack => scan_loop fuel stack
      end
  end.

(** Number of values in a JSON document. *)
Fixpoint json_size (j : json) : nat :=
  match j with
  | JArr l => S (list_sum (map json_size l))
  | JObj fields => S (list_sum (map (fun kv => json_size kv.2) fields))
  | _ => 1
  end.

Definition _validate_no_forbidden_metadata_keys (j : json) : option bool :=
  scan_loop (S (json_size j)) [j].

(** What the loop decides: some object, at any depth, has a forbidden key. *)
Fixpoint has_forbidden_key (j : json) : bool :=
  match j with
  | JArr l => existsb has_forbidden_key l
  | JObj fields => existsb (fun kv => forbidden_key kv.1) fields
                   || existsb (fun kv => has_forbidden_key kv.2) fields
  | _ => false
  end.

Fixpoint _calculate_json_depth (j : json) : nat :=
  match j with
  | JObj fields => S (list_max (map (fun kv => _calculate_json_depth kv.2) fields))
  | JArr l => S (list_max (map _calculate_json_depth l))
  | _ => 0
  end.

(** [json.dumps(value, ensure_ascii=False)] *)
Definition quote : string := String (ascii_of_nat 34) "".
Definition backslash : ascii := ascii_of_nat 92.

Definition escape_char (c : ascii) : string :=
  let n := nat_of_ascii c in
  let esc s := String backslash s in
  if (n =? 34)%nat then esc quote
  else if (n =? 92)%nat then esc (String backslash "")
  else if (n =? 10)%nat then esc "n" else if (n =? 13)%nat then esc "r"
  else if (n =? 9)%nat then esc "t" else if (n =? 12)%nat then esc "f"
  else if (n =? 8)%nat then esc "b"
  else if (n <? 32)%nat then esc (String "u" (Uuid.hex 4 (N_of_ascii c) ""))
  else String c "".

Fixpoint escape (s : string) : string :=
  match s with
  | EmptyString => EmptyString
  | String c r => (escape_char c ++ escape r)%string
  end.

Definition dumps_string (s : string) : string := (quote ++ escape s ++ quote)%string.

Fixpoint dumps (j : json) : string :=
  match j with
  | JNull => "null"
  | JBool b => if b then "true" else "false"
  | JInt n => pretty n
  | JStr s => dumps_string s
  | JArr l => ("[" ++ Text.join ", " (map dumps l) ++ "]")%string
  | JObj fields =>
      ("{" ++ Text.join ", " (map (fun kv => dumps_string kv.1 ++ ": " ++ dumps kv.2) fields)
       ++ "}")%string
  end.

Definition _validate_metadata_json (metadata_json : option json) : M Db (option json) :=
  match metadata_json with
  | None => mret None
  | Some j =>
      raise_if (negb (bool_decide (_validate_no_forbidden_metadata_keys j = Some false)))
        (ValueError "Audit metadata contains forbidden keys") ;;
      raise_if (3 <? _calculate_json_depth j)%nat
        (ValueError "Audit metadata exceeds max nesting depth") ;;
      raise_if (8192 <? Z.of_nat (String.length (dumps j)))
        (ValueError "Audit metadata exceeds max size") ;;
      mret (Some j)
  end.

Lemma list_sum_rev_app l l' : list_sum (rev l ++ l') = (list_sum l + list_sum l')%nat.
Proof.
  rewrite list_sum_app. f_equal. induction l as [|a l IH]; simpl; [done|].
  rewrite list_sum_app, IH. simpl. lia.
Qed.

Lemma existsb_rev_app {A} (p : A -> bool) l l' :
  existsb p (rev l ++ l') = existsb p l || existsb p l'.
Proof.
  rewrite existsb_app. f_equal. induction l as [|a l IH]; simpl; [done|].
  rewrite existsb_app, IH. simpl. rewrite orb_false_r. apply orb_comm.
Qed.

Lemma existsb_map {A B} (p : B -> bool) (f : A -> B) l :
  existsb p (map f l) = existsb (fun a => p (f a)) l.
Proof. induction l as [|a l IH]; simpl; congruence. Qed.

(** With one unit of fuel per value the loop finishes, and decides whether
    some value on its stack has a forbidden key. *)
Lemma scan_loop_correct fuel : forall stack,
  (list_sum (map json_size stack) < fuel)%nat ->
  scan_loop fuel stack = Some (existsb has_forbidden_key stack).
Proof.
  induction fuel as [|fuel IH]; intros stack Hf; [lia|].
  destruct stack as [|[|b|n|s|l|fs] stack]; simpl in *; try (rewrite IH; [done|lia]); [done|..].
  - rewrite IH, existsb_rev_app; [done|].
    rewrite map_app, map_rev, list_sum_rev_app. lia.
  - destruct (existsb (fun kv => forbidden_key kv.1) fs) eqn:E; [done|].
    rewrite IH, existsb_rev_app, existsb_map; [done|].
    rewrite map_app, map_rev, list_sum_rev_app, map_map. lia.
Qed.

End Metadata.

(** ** [audit/repositories/audit_events.py] *)
Module AuditEventRepository.
Section Repository.
Context `{Env}.

(** The filters of [list_events]; an absent one does not restrict. *)
Definition opt_eqb {A} `{EqDecision A} (filter : option A) (x : A) : bool :=
  match filter with None => true | Some y => bool_decide (x = y) end.

Definition list_events (limit offset : nat)
    (category action target_type : option string) (target_id : option UUID)
    : M Db (list AuditEvent.t * nat) :=
  let matching e :=
    opt_eqb category (AuditEvent.category e) && opt_eqb action (AuditEvent.action e)
    && opt_eqb target_type (AuditEvent.target_type e)
    && opt_eqb (option_map Some target_id) (AuditEvent.target_id e) in
  rows ← select matching;
  total ← select matching;
  mret (take limit (drop offset rows), length total).

Definition create (actor_user_id : option UUID) (category : AuditCategory.t)
    (action : AuditAction.t) (target_type : AuditTargetType.t) (target_id : option UUID)
    (reason : option string) (metadata_json : option json)
    (ip_address user_agent : option string) (legal_hold_until : option datetime)
    : M Db AuditEvent.t :=
  id ← new_uuid;
  created_at ← now;
  insert_row (AuditEvent.mk id actor_user_id (AuditCategory.value category)
    (AuditAction.value action) (AuditTargetType.value target_type) target_id reason
    metadata_json ip_address user_agent legal_hold_until created_at).

(** [metadata_json IS NOT NULL]. The column is of SQLAlchemy's [JSON] type with
    [none_as_null=False], which writes the value [None] as the document [null]; every
    insertion and every update of the program gives the column a value, so it is never NULL.
    [None] in the model is that document, and is what a row is read with. *)
Definition metadata_json_is_not_null (e : AuditEvent.t) : bool := true.

(** [eligibility_predicates] of [anonymise_events_older_than] *)
Definition eligible (category : AuditCategory.t) (created_before at_time : datetime)
    (e : AuditEvent.t) : bool :=
  String.eqb (AuditEvent.category e) (AuditCategory.value category)
  && (AuditEvent.created_at e <? created_before)
  && match AuditEvent.legal_hold_until e with None => true | Some h => h <=? at_time end
  && (negb (is_None (AuditEvent.actor_user_id e)) || negb (is_None (AuditEvent.reason e))
      || metadata_json_is_not_null e
      || negb (is_None (AuditEvent.ip_address e))
      || negb (is_None (AuditEvent.user_agent e))).

(** [order_by(created_at.asc(), id.asc())] *)
Definition oldest_first (e e' : AuditEvent.t) : Prop :=
  AuditEvent.created_at e < AuditEvent.created_at e'
  \/ (AuditEvent.created_at e = AuditEvent.created_at e'
      /\ (AuditEvent.id e <= AuditEvent.id e')%N).

#[global] Instance oldest_first_dec e e' : Decision (oldest_first e e').
Proof. unfold oldest_first. apply _. Defined.

(** [.values(actor_user_id=None, reason=None, metadata_json=None, ip_address=None,
    user_agent=None)] *)
Definition anonymised (e : AuditEvent.t) : AuditEvent.t :=
  AuditEvent.mk (AuditEvent.id e) None (AuditEvent.category e) (AuditEvent.action e)
    (AuditEvent.target_type e) (AuditEvent.target_id e) None None None None
    (AuditEvent.legal_hold_until e) (AuditEvent.created_at e).

Definition anonymise_events_older_than (category : AuditCategory.t)
    (created_before at_time : datetime) (batch_size : nat) : M Db nat :=
  candidates ← select (eligible category created_before at_time);
  let event_ids :=
    AuditEvent.id <$> take batch_size (merge_sort oldest_first candidates) in
  match event_ids with
  | [] => mret 0%nat
  | _ =>
      changed ← update_where
        (fun e => bool_decide (AuditEvent.id e ∈ event_ids)
                  && eligible category created_before at_time e)
        anonymised;
      mret (length changed)
  end.

End Repository.
End AuditEventRepository.

(** ** [audit/services/audit_events.py] *)
Module AuditEventService.
Section Service.
Context `{Env} `{Network}.

Definition list_events := AuditEventRepository.list_events.

Definition record_event (audit_context : AuditContext.t) (category : AuditCategory.t)
    (action : AuditAction.t) (target_type : AuditTargetType.t) (target_id : option UUID)
    (reason : option string) (metadata_json : option json)
    (legal_hold_until : option datetime) : M Db AuditEvent.t :=
  validated_metadata ← Metadata._validate_metadata_json metadata_json;
  let ip_address := Minimisation.minimise_ip_address
    (AuditContext.ip_address audit_context)
    (AuditContext.network_identifier_secret audit_context) in
  let user_agent := Minimisation.normalise_user_agent (AuditContext.user_agent audit_context) in
  AuditEventRepository.create (AuditContext.actor_user_id audit_context) category action
    target_type target_id reason validated_metadata ip_address user_agent legal_hold_until.

(** The fields of [AuditSettings] the retention run reads. *)
Record AuditSettings := mkAuditSettings {
  retention_days : Z;
  security_retention_days : Z;
  compliance_retention_days : Z;
  anonymisation_batch_size : nat;
}.

Definition retention_windows (settings : AuditSettings) : list (AuditCategory.t * Z) :=
  [(AuditCategory.TENANT, retention_days settings);
   (AuditCategory.PLATFORM, retention_days settings);
   (AuditCategory.SECURITY, security_retention_days settings);
   (AuditCategory.COMPLIANCE, compliance_retention_days settings)].

Fixpoint anonymise_windows (settings : AuditSettings) (reference_now : datetime)
    (windows : list (AuditCategory.t * Z)) (anonymised_count : nat) : M Db nat :=
  match windows with
  | [] => mret anonymised_count
  | (category, n) :: windows =>
      count ← AuditEventRepository.anonymise_events_older_than category
        (reference_now - days n) reference_now (anonymisation_batch_size settings);
      anonymise_windows settings reference_now windows (anonymised_count + count)
  end.

Definition anonymise_expired_events (settings : AuditSettings) (now_arg : option datetime)
    : M Db nat :=
  reference_now ← match now_arg with Some n => mret n | None => now end;
  anonymise_windows settings reference_now (retention_windows settings) 0.

End Service.
End AuditEventService.
