(* ===== verification/Users.v ===== *)
(** Users: [users/repositories/users.py], [users/services/users.py], the
    access guards of [access_control/guards.py] and the authenticated identity
    of [core/auth_claims.py]. *)
From S2P Require Import Prelude Errors Session Schema Tables.

(** [core/auth_claims.py], [AuthenticatedPrincipal] *)
Module AuthenticatedPrincipal.
Record t := mk {
  external_auth_id : string;
  email : option string;
  email_verified : bool;
  first_name : option string;
  last_name : option string;
}.
End AuthenticatedPrincipal.
Abbreviation identity_t := AuthenticatedPrincipal.t.

(** ** [access_control/guards.py] *)
Module Guards.

Definition ensure_user_active (user : User.t) : M Db unit :=
  raise_if (bool_decide (User.status user = UserStatus.SUSPENDED))
    (ForbiddenError "User is suspended").

Definition ensure_organisation_active (organisation : Organisation.t) : M Db unit :=
  raise_if (bool_decide (Organisation.status organisation = OrganisationStatus.SUSPENDED))
    (ForbiddenError "Organisation is suspended").

Definition ensure_email_verified (identity : identity_t) : M Db unit :=
  raise_if (negb (AuthenticatedPrincipal.email_verified identity))
    (ForbiddenError "Email verification is required").

End Guards.

(** ** [users/repositories/users.py] *)
Module UserRepository.
Section Repository.
Context `{Env}.

Definition get_by_external_auth_id (external_auth_id : string) : M Db (option User.t) :=
  select_one_or_none (fun u => String.eqb (User.external_auth_id u) external_auth_id).

Definition get_by_id (user_id : UUID) : M Db (option User.t) :=
  select_one_or_none (fun u => bool_decide (User.id u = user_id)).

Definition exists_by_id (user_id : UUID) : M Db bool :=
  u ← select_one_or_none (fun u => bool_decide (User.id u = user_id));
  mret (negb (is_None u)).

Definition get_by_email (email : string) : M Db (option User.t) :=
  select_one_or_none (fun u => bool_decide (User.email u = Some email)).

(** The status filter and a truthy search text of the two listings. *)
Definition listing_matches (fields : User.t -> list (option string))
    (status : option UserStatus.t) (q : option string) (u : User.t) : bool :=
  match status with None => true | Some s => bool_decide (User.status u = s) end
  && match q with
     | None | Some EmptyString => true
     | Some q => existsb (Text.ilike_opt ("%" ++ q ++ "%")) (fields u)
     end.

Definition list_paginated (limit offset : nat) (status : option UserStatus.t)
    (q : option string) : M Db (list User.t * nat) :=
  let matching := listing_matches (fun u => [User.email u; User.first_name u; User.last_name u])
    status q in
  rows ← select matching;
  total ← select matching;
  mret (page limit offset (merge_sort (newest_first User.created_at User.id) rows),
        length total).

Definition list_limited_paginated (limit offset : nat) (status : option UserStatus.t)
    (q : option string) : M Db (list User.t * nat) :=
  let matching := listing_matches (fun u => [User.first_name u; User.last_name u]) status q in
  rows ← select matching;
  total ← select matching;
  mret (page limit offset (merge_sort (newest_first User.created_at User.id) rows),
        length total).

Definition create (external_auth_id : string) (email : option string) (email_verified : bool)
    (first_name last_name : option string) : M Db User.t :=
  id ← new_uuid;
  created_at ← now;
  updated_at ← now;
  insert_row (User.mk id external_auth_id email email_verified first_name last_name false
    UserStatus.ACTIVE None None created_at updated_at).

Definition update_profile_fields (user : User.t) (email : option string)
    (email_verified : bool) (first_name last_name : option string) : M Db User.t :=
  update_row (User.id user) (fun u =>
    User.set_last_name last_name (User.set_first_name first_name
      (User.set_email_verified email_verified (User.set_email email u)))).

Definition update_onboarding_completed (user : User.t) (onboarding_completed : bool)
    : M Db User.t :=
  update_row (User.id user) (User.set_onboarding_completed onboarding_completed).

Definition set_status (user : User.t) (status : UserStatus.t)
    (suspended_at : option datetime) (suspended_reason : option string) : M Db User.t :=
  update_row (User.id user) (fun u =>
    User.set_suspended_reason suspended_reason (User.set_suspended_at suspended_at
      (User.set_status status u))).

End Repository.
End UserRepository.

(** ** [users/services/users.py] *)
Module UserService.
Section Service.
Context `{Env}.

Definition _create_current_user_projection (identity : identity_t) : M Db User.t :=
  UserRepository.create (AuthenticatedPrincipal.external_auth_id identity)
    (AuthenticatedPrincipal.email identity) (AuthenticatedPrincipal.email_verified identity)
    (AuthenticatedPrincipal.first_name identity) (AuthenticatedPrincipal.last_name identity).

Definition _refresh_current_user_profile (user : User.t) (identity : identity_t) : M Db User.t :=
  let needs_update :=
    negb (bool_decide (User.email user = AuthenticatedPrincipal.email identity))
    || negb (Bool.eqb (User.email_verified user) (AuthenticatedPrincipal.email_verified identity))
    || negb (bool_decide (User.first_name user = AuthenticatedPrincipal.first_name identity))
    || negb (bool_decide (User.last_name user = AuthenticatedPrincipal.last_name identity)) in
  if negb needs_update then mret user else
  except_integrity
    (UserRepository.update_profile_fields user (AuthenticatedPrincipal.email identity)
       (AuthenticatedPrincipal.email_verified identity)
       (AuthenticatedPrincipal.first_name identity) (AuthenticatedPrincipal.last_name identity))
    (raise (ConflictError "User profile conflicts with existing data")).

Definition get_or_create_current_user (identity : identity_t) : M Db User.t :=
  user ← UserRepository.get_by_external_auth_id
    (AuthenticatedPrincipal.external_auth_id identity);
  match user with
  | None =>
      except_integrity
        (begin_nested (_create_current_user_projection identity))
        (existing ← UserRepository.get_by_external_auth_id
           (AuthenticatedPrincipal.external_auth_id identity);
         match existing with
         | Some existing => mret existing
         | None => raise (ConflictError "Unable to provision local user projection")
         end)
  | Some user => _refresh_current_user_profile user identity
  end.

Definition provision_current_user (identity : identity_t) : M Db User.t :=
  join_or_begin (get_or_create_current_user identity).

Definition get_current_user_by_external_auth_id (identity : identity_t)
    : M Db (option User.t) :=
  UserRepository.get_by_external_auth_id (AuthenticatedPrincipal.external_auth_id identity).

Definition mark_onboarding_completed (user : User.t) : M Db User.t :=
  if User.onboarding_completed user then mret user
  else UserRepository.update_onboarding_completed user true.

Definition _get_me_in_transaction (identity : identity_t) : M Db User.t :=
  existing ← UserRepository.get_by_external_auth_id
    (AuthenticatedPrincipal.external_auth_id identity);
  match existing with
  | Some existing =>
      Guards.ensure_user_active existing ;;
      _refresh_current_user_profile existing identity
  | None =>
      except_integrity
        (begin_nested (_create_current_user_projection identity))
        (existing ← UserRepository.get_by_external_auth_id
           (AuthenticatedPrincipal.external_auth_id identity);
         match existing with
         | Some existing =>
             Guards.ensure_user_active existing ;;
             _refresh_current_user_profile existing identity
         | None => raise (ConflictError "Unable to provision local user projection")
         end)
  end.

Definition get_me (identity : identity_t) : M Db User.t :=
  join_or_begin (_get_me_in_transaction identity).

Definition get_user_by_id (user_id : UUID) : M Db User.t :=
  user ← UserRepository.get_by_id user_id;
  or_raise user (NotFoundError "User not found").

Definition ensure_user_is_active (user : User.t) : M Db unit :=
  Guards.ensure_user_active user.

End Service.
End UserService.
