(* ===== verification/Memberships.v ===== *)
(** The memberships table's repository ([memberships/repositories/memberships.py])
    and the ownership of an organisation. *)
From S2P Require Import Prelude Errors Session Schema Tables.

(** ** [memberships/repositories/memberships.py] *)
Module MembershipRepository.
Section Repository.
Context `{Env}.

Definition of_organisation (organisation_id : UUID) (m : Membership.t) : bool :=
  bool_decide (Membership.organisation_id m = organisation_id) && Membership.is_active m.

Definition create_membership (user_id organisation_id : UUID) (role : MembershipRole.t)
    : M Db Membership.t :=
  id ← new_uuid;
  created_at ← now;
  updated_at ← now;
  insert_row (Membership.mk id user_id organisation_id role true created_at updated_at).

Definition list_memberships_for_organisation (organisation_id : UUID)
    : M Db (list Membership.t) :=
  select (of_organisation organisation_id).

(** The join on [users] keeps each membership with its user's names. *)
Definition list_directory_members_for_organisation (organisation_id : UUID)
    : M Db (list (option string * option string * MembershipRole.t)) :=
  d ← get_db;
  mret (omap (fun m =>
    u ← users d !! Membership.user_id m;
    Some (User.first_name u, User.last_name u, Membership.role m))
    (rows_where d (of_organisation organisation_id))).

Definition get_membership_for_user (user_id : UUID) : M Db (option Membership.t) :=
  select_first (fun m => bool_decide (Membership.user_id m = user_id) && Membership.is_active m).

Definition has_membership (user_id organisation_id : UUID) : M Db bool :=
  m ← select_first (fun m =>
    bool_decide (Membership.user_id m = user_id) && of_organisation organisation_id m);
  mret (negb (is_None m)).

Definition get_membership (user_id organisation_id : UUID) : M Db (option Membership.t) :=
  select_first (fun m =>
    bool_decide (Membership.user_id m = user_id) && of_organisation organisation_id m).

Definition get_membership_by_id (membership_id organisation_id : UUID)
    : M Db (option Membership.t) :=
  select_first (fun m =>
    bool_decide (Membership.id m = membership_id) && of_organisation organisation_id m).

Definition has_any_membership_for_user (user_id : UUID) : M Db bool :=
  m ← get_membership_for_user user_id; mret (negb (is_None m)).

Definition update_role (membership : Membership.t) (role : MembershipRole.t)
    : M Db Membership.t :=
  update_row (Membership.id membership) (Membership.set_role role).

Definition deactivate_membership (membership : Membership.t) : M Db Membership.t :=
  update_row (Membership.id membership) (Membership.set_is_active false).

(** The active owners of an organisation, and their number. *)
Definition active_owner_of (organisation_id : UUID) (m : Membership.t) : bool :=
  bool_decide (Membership.organisation_id m = organisation_id) && is_active_owner m.

Definition count_active_owners (organisation_id : UUID) : M Db nat :=
  l ← select (active_owner_of organisation_id); mret (length l).

Definition list_active_memberships_for_organisation_for_update (organisation_id : UUID)
    : M Db (list Membership.t) :=
  select (of_organisation organisation_id).

Definition lock_active_memberships (organisation_id : UUID) : M Db (list Membership.t) :=
  list_active_memberships_for_organisation_for_update organisation_id.

Definition deactivate_organisation_memberships (organisation_id : UUID) : M Db unit :=
  update_where (of_organisation organisation_id) (Membership.set_is_active false) ;;
  mret tt.

End Repository.
End MembershipRepository.
