(* ===== verification/Organisations.v ===== *)
(** Organisations: [organisations/repositories/organisations.py] and
    [organisations/services/organisations.py]. *)
From S2P Require Import Prelude Errors Session Schema Tables AuditLog Users Memberships.

(** [core/rate_limit/business.py]'s [BusinessRateLimiter]: a callback that
    consults Redis and is not given the session. *)
Abbreviation BusinessRateLimiter := (nat -> result unit).

(** The static methods the services share. *)
Module ServiceGuards.

Definition _ensure_audit_actor_matches (actor_user_id : UUID)
    (audit_context : AuditContext.t) : M Db unit :=
  raise_if (negb (bool_decide (AuditContext.actor_user_id audit_context = Some actor_user_id)))
    (ValueError "Audit actor does not match action actor").

Definition _run_business_rate_limiter (business_rate_limiter : option BusinessRateLimiter)
    : M Db unit :=
  match business_rate_limiter with
  | None => mret tt
  | Some run => await_external run
  end.

End ServiceGuards.

(** ** [organisations/repositories/organisations.py] *)
Module OrganisationRepository.
Section Repository.
Context `{Env}.

Definition create (name slug : string) : M Db Organisation.t :=
  id ← new_uuid;
  created_at ← now;
  updated_at ← now;
  insert_row (Organisation.mk id name slug None OrganisationStatus.ACTIVE None None
    created_at updated_at).

Definition get_by_slug (slug : string) : M Db (option Organisation.t) :=
  select_one_or_none (fun o =>
    String.eqb (Organisation.slug o) slug && is_None (Organisation.deleted_at o)).

Definition get_by_id (organisation_id : UUID) (include_deleted : bool)
    : M Db (option Organisation.t) :=
  select_one_or_none (fun o =>
    bool_decide (Organisation.id o = organisation_id)
    && (include_deleted || is_None (Organisation.deleted_at o))).

Definition listing_matches (include_deleted : bool) (status : option OrganisationStatus.t)
    (q : option string) (o : Organisation.t) : bool :=
  (include_deleted || is_None (Organisation.deleted_at o))
  && match status with None => true | Some s => bool_decide (Organisation.status o = s) end
  && match q with
     | None | Some EmptyString => true
     | Some q => Text.ilike ("%" ++ q ++ "%") (Organisation.name o)
                 || Text.ilike ("%" ++ q ++ "%") (Organisation.slug o)
     end.

Definition list_paginated (limit offset : nat) (include_deleted : bool)
    (status : option OrganisationStatus.t) (q : option string)
    : M Db (list Organisation.t * nat) :=
  rows ← select (listing_matches include_deleted status q);
  total ← select (listing_matches include_deleted status q);
  mret (page limit offset
          (merge_sort (newest_first Organisation.created_at Organisation.id) rows),
        length total).

Definition list_limited_paginated (limit offset : nat)
    (status : option OrganisationStatus.t) (q : option string)
    : M Db (list Organisation.t * nat) :=
  rows ← select (listing_matches false status q);
  total ← select (listing_matches false status q);
  mret (page limit offset
          (merge_sort (newest_first Organisation.created_at Organisation.id) rows),
        length total).

(** [if x is not None: organisation.x = x] *)
Definition assign_opt {A R} (set : A -> R -> R) (x : option A) (r : R) : R :=
  match x with None => r | Some x => set x r end.

Definition update_details (organisation : Organisation.t) (name slug : option string)
    : M Db Organisation.t :=
  update_row (Organisation.id organisation) (fun o =>
    assign_opt Organisation.set_slug slug (assign_opt Organisation.set_name name o)).

Definition set_status (organisation : Organisation.t) (status : OrganisationStatus.t)
    (suspended_at : option datetime) (suspended_reason : option string)
    : M Db Organisation.t :=
  update_row (Organisation.id organisation) (fun o =>
    Organisation.set_suspended_reason suspended_reason
      (Organisation.set_suspended_at suspended_at (Organisation.set_status status o))).

Definition soft_delete (organisation : Organisation.t) : M Db Organisation.t :=
  n ← now;
  update_row (Organisation.id organisation) (Organisation.set_deleted_at (Some n)).

End Repository.
End OrganisationRepository.

(** ** [organisations/services/organisations.py] *)
Module OrganisationService.
Import ServiceGuards.
Section Service.
Context `{Env} `{Network}.

Definition normalize_name (raw_name : string) : M Db string :=
  let normalized := Text.strip raw_name in
  raise_if (Text.is_empty normalized) (BadRequestError "Organisation name cannot be blank") ;;
  mret normalized.

(** [_SLUG_PATTERN.fullmatch]: one or more of [a-z], [0-9] and the hyphen *)
Definition slug_char (c : ascii) : bool :=
  let n := nat_of_ascii c in
  ((97 <=? n)%nat && (n <=? 122)%nat) || ((48 <=? n)%nat && (n <=? 57)%nat) || Ascii.eqb c "-".

Definition _SLUG_PATTERN (s : string) : bool :=
  negb (Text.is_empty s) && Text.forallb_chars slug_char s.

Definition normalize_slug (raw_slug : string) : M Db string :=
  let normalized := Text.lower (Text.strip raw_slug) in
  raise_if (Text.is_empty normalized) (BadRequestError "Organisation slug cannot be blank") ;;
  raise_if (negb (_SLUG_PATTERN normalized))
    (BadRequestError "Organisation slug may contain only lowercase letters, digits, and hyphens") ;;
  mret normalized.

Definition _create_organisation (name slug : string) : M Db Organisation.t :=
  normalized_name ← normalize_name name;
  normalized_slug ← normalize_slug slug;
  existing ← OrganisationRepository.get_by_slug normalized_slug;
  raise_if (negb (is_None existing)) (ConflictError "Organisation slug already exists") ;;
  except_integrity
    (OrganisationRepository.create normalized_name normalized_slug)
    (raise (ConflictError "Organisation slug already exists")).

Definition create_organisation (name slug : string) : M Db Organisation.t :=
  join_or_begin (_create_organisation name slug).

Definition get_organisation (organisation_id : UUID) : M Db Organisation.t :=
  organisation ← OrganisationRepository.get_by_id organisation_id false;
  or_raise organisation (NotFoundError "Organisation not found").

(** [self.normalize(x) if x is not None else None] *)
Definition normalize_opt (normalize : string -> M Db string) (x : option string)
    : M Db (option string) :=
  match x with
  | None => mret None
  | Some x => y ← normalize x; mret (Some y)
  end.

(** [normalized is not None and normalized != previous] *)
Definition changed (normalized : option string) (previous : string) : bool :=
  match normalized with None => false | Some x => negb (String.eqb x previous) end.

Definition _update_organisation_details (organisation_id actor_user_id : UUID)
    (audit_context : AuditContext.t) (name slug : option string)
    (business_rate_limiter : option BusinessRateLimiter) : M Db Organisation.t :=
  organisation ← get_organisation organisation_id;
  actor_user ← UserService.get_user_by_id actor_user_id;
  UserService.ensure_user_is_active actor_user ;;
  Guards.ensure_organisation_active organisation ;;
  membership ← MembershipRepository.get_membership actor_user_id organisation_id;
  raise_if
    match membership with
    | None => true
    | Some m => negb (bool_decide (Membership.role m ∈ [MembershipRole.OWNER; MembershipRole.ADMIN]))
    end
    (ForbiddenError "You are not allowed to update organisation details") ;;
  normalized_name ← normalize_opt normalize_name name;
  normalized_slug ← normalize_opt normalize_slug slug;
  let previous_slug := Organisation.slug organisation in
  let previous_name := Organisation.name organisation in
  let name_changed := changed normalized_name previous_name in
  let slug_changed := changed normalized_slug previous_slug in
  if negb name_changed && negb slug_changed then mret organisation else
  _run_business_rate_limiter business_rate_limiter ;;
  updated ← except_integrity
    (OrganisationRepository.update_details organisation normalized_name normalized_slug)
    (raise (ConflictError "Organisation slug already exists"));
  let changed_fields :=
    (if name_changed then [JStr "name"] else []) ++ (if slug_changed then [JStr "slug"] else []) in
  let metadata :=
    [("changed_fields", JArr changed_fields)]
    ++ (if slug_changed
        then [("old_slug", JStr previous_slug); ("new_slug", JStr (Organisation.slug updated))]
        else []) in
  AuditEventService.record_event audit_context AuditCategory.TENANT
    AuditAction.ORGANISATION_UPDATED AuditTargetType.ORGANISATION
    (Some (Organisation.id updated)) None (Some (JObj metadata)) None ;;
  mret updated.

Definition update_organisation_details (organisation_id actor_user_id : UUID)
    (audit_context : AuditContext.t) (name slug : option string)
    (business_rate_limiter : option BusinessRateLimiter) : M Db Organisation.t :=
  _ensure_audit_actor_matches actor_user_id audit_context ;;
  join_or_begin (_update_organisation_details organisation_id actor_user_id audit_context
    name slug business_rate_limiter).

Definition _soft_delete (organisation_id actor_user_id : UUID)
    (audit_context : AuditContext.t) (reason : option string)
    (business_rate_limiter : option BusinessRateLimiter) : M Db Organisation.t :=
  organisation ← get_organisation organisation_id;
  actor_user ← UserService.get_user_by_id actor_user_id;
  UserService.ensure_user_is_active actor_user ;;
  Guards.ensure_organisation_active organisation ;;
  membership ← MembershipRepository.get_membership actor_user_id organisation_id;
  raise_if
    match membership with
    | None => true
    | Some m => negb (bool_decide (Membership.role m = MembershipRole.OWNER))
    end
    (ForbiddenError "Only owner can delete organisation") ;;
  owner_count ← MembershipRepository.count_active_owners organisation_id;
  raise_if (owner_count <? 1)%nat
    (ConflictError "Organisation must always have at least one owner") ;;
  _run_business_rate_limiter business_rate_limiter ;;
  let previous_slug := Organisation.slug organisation in
  MembershipRepository.deactivate_organisation_memberships organisation_id ;;
  deleted ← OrganisationRepository.soft_delete organisation;
  AuditEventService.record_event audit_context AuditCategory.TENANT
    AuditAction.ORGANISATION_DELETED AuditTargetType.ORGANISATION
    (Some (Organisation.id deleted)) reason
    (Some (JObj [("slug", JStr previous_slug); ("soft_delete", JBool true)])) None ;;
  mret deleted.

Definition soft_delete (organisation_id actor_user_id : UUID)
    (audit_context : AuditContext.t) (reason : option string)
    (business_rate_limiter : option BusinessRateLimiter) : M Db Organisation.t :=
  _ensure_audit_actor_matches actor_user_id audit_context ;;
  join_or_begin (_soft_delete organisation_id actor_user_id audit_context reason
    business_rate_limiter).

End Service.
End OrganisationService.
