(* ===== verification/MembershipServices.v ===== *)
(** [memberships/services/memberships.py], [organisations/services/access.py] and
    [organisations/services/onboarding.py]: who may join, leave and change an
    organisation. *)
From S2P Require Import Prelude Errors Session Schema Tables AuditLog Users Memberships.
From S2P Require Import Organisations.

(** ** [memberships/services/memberships.py] *)
Module MembershipService.
Import ServiceGuards.
Section Service.
Context `{Env} `{Network}.

Record OrganisationDirectoryMember := mkDirectoryMember {
  display_name : string;
  tenant_role : MembershipRole.t;
}.

Definition _OWNER_INVARIANT_ERROR : string := "Organisation must have exactly one active owner".

Definition _ensure_exactly_one_active_owner (organisation_id : UUID) : M Db unit :=
  owner_count ← MembershipRepository.count_active_owners organisation_id;
  raise_if (negb (owner_count =? 1)%nat) (ConflictError _OWNER_INVARIANT_ERROR).

Definition _create_membership (user_id organisation_id : UUID) (role : MembershipRole.t)
    : M Db Membership.t :=
  existing_membership ← MembershipRepository.get_membership_for_user user_id;
  raise_if (negb (is_None existing_membership))
    (ConflictError "User already belongs to an organisation") ;;
  except_integrity
    (membership ← MembershipRepository.create_membership user_id organisation_id role;
     _ensure_exactly_one_active_owner organisation_id ;;
     mret membership)
    (raise (if decide (role = MembershipRole.OWNER)
            then ConflictError "Organisation already has an active owner"
            else ConflictError "User already belongs to an organisation")).

Definition create_membership (user_id organisation_id : UUID) (role : MembershipRole.t)
    : M Db Membership.t :=
  join_or_begin (_create_membership user_id organisation_id role).

Definition get_membership_for_organisation (membership_id organisation_id : UUID)
    : M Db Membership.t :=
  membership ← MembershipRepository.get_membership_by_id membership_id organisation_id;
  or_raise membership (NotFoundError "Membership not found").

(** The opening of every tenant operation: the actor exists and is active, the
    organisation is live and active, the actor is an active member of it. *)
Definition actor_membership_or (denied : exn) (organisation_id actor_user_id : UUID)
    : M Db Membership.t :=
  actor_user ← UserService.get_user_by_id actor_user_id;
  UserService.ensure_user_is_active actor_user ;;
  organisation ← OrganisationService.get_organisation organisation_id;
  Guards.ensure_organisation_active organisation ;;
  actor_membership ← MembershipRepository.get_membership actor_user_id organisation_id;
  or_raise actor_membership denied.

Definition not_a_member : exn := ForbiddenError "You are not a member of this organisation".

Definition _change_membership_role (organisation_id actor_user_id : UUID)
    (audit_context : AuditContext.t) (membership_id : UUID) (role : MembershipRole.t)
    (business_rate_limiter : option BusinessRateLimiter) : M Db Membership.t :=
  actor_membership ← actor_membership_or not_a_member organisation_id actor_user_id;
  target_membership ← get_membership_for_organisation membership_id organisation_id;
  raise_if (bool_decide (role = MembershipRole.OWNER))
    (ForbiddenError "Tenant API cannot assign owner role") ;;
  raise_if (bool_decide (Membership.role target_membership = MembershipRole.OWNER))
    (ForbiddenError "Owner role cannot be modified") ;;
  raise_if (negb (bool_decide (Membership.role actor_membership = MembershipRole.OWNER)))
    (ForbiddenError "Only owner can change membership roles") ;;
  raise_if (bool_decide (Membership.role target_membership = role))
    (ConflictError "Membership already has this role") ;;
  _run_business_rate_limiter business_rate_limiter ;;
  let old_role := Membership.role target_membership in
  updated ← MembershipRepository.update_role target_membership role;
  AuditEventService.record_event audit_context AuditCategory.TENANT
    AuditAction.MEMBERSHIP_ROLE_CHANGED AuditTargetType.MEMBERSHIP
    (Some (Membership.id updated)) None
    (Some (JObj [("organisation_id", JStr (Uuid.str organisation_id));
                 ("old_role", JStr (MembershipRole.value old_role));
                 ("new_role", JStr (MembershipRole.value (Membership.role updated)))])) None ;;
  mret updated.

Definition change_membership_role (organisation_id actor_user_id : UUID)
    (audit_context : AuditContext.t) (membership_id : UUID) (role : MembershipRole.t)
    (business_rate_limiter : option BusinessRateLimiter) : M Db Membership.t :=
  _ensure_audit_actor_matches actor_user_id audit_context ;;
  join_or_begin (_change_membership_role organisation_id actor_user_id audit_context
    membership_id role business_rate_limiter).

Definition _remove_membership (organisation_id actor_user_id : UUID)
    (audit_context : AuditContext.t) (membership_id : UUID) (reason : option string)
    (business_rate_limiter : option BusinessRateLimiter) : M Db Membership.t :=
  actor_membership ← actor_membership_or not_a_member organisation_id actor_user_id;
  target_membership ← get_membership_for_organisation membership_id organisation_id;
  raise_if (bool_decide (Membership.role target_membership = MembershipRole.OWNER))
    (ForbiddenError "Owner membership cannot be removed") ;;
  match Membership.role actor_membership with
  | MembershipRole.OWNER => mret tt
  | MembershipRole.ADMIN =>
      raise_if (negb (bool_decide (Membership.role target_membership = MembershipRole.MEMBER)))
        (ForbiddenError "Admin can remove only members")
  | MembershipRole.MEMBER =>
      raise (ForbiddenError "You are not allowed to remove memberships")
  end ;;
  _run_business_rate_limiter business_rate_limiter ;;
  removed ← MembershipRepository.deactivate_membership target_membership;
  AuditEventService.record_event audit_context AuditCategory.TENANT
    AuditAction.MEMBERSHIP_REMOVED AuditTargetType.MEMBERSHIP
    (Some (Membership.id removed)) reason
    (Some (JObj [("organisation_id", JStr (Uuid.str organisation_id));
                 ("removed_user_id", JStr (Uuid.str (Membership.user_id removed)));
                 ("previous_role", JStr (MembershipRole.value (Membership.role removed)))])) None ;;
  mret removed.

Definition remove_membership (organisation_id actor_user_id : UUID)
    (audit_context : AuditContext.t) (membership_id : UUID) (reason : option string)
    (business_rate_limiter : option BusinessRateLimiter) : M Db Membership.t :=
  _ensure_audit_actor_matches actor_user_id audit_context ;;
  join_or_begin (_remove_membership organisation_id actor_user_id audit_context
    membership_id reason business_rate_limiter).

Definition _transfer_membership (user_id organisation_id : UUID) (role : MembershipRole.t)
    : M Db Membership.t :=
  existing ← MembershipRepository.get_membership_for_user user_id;
  match existing with
  | None => mret tt
  | Some existing =>
      raise_if (bool_decide (Membership.role existing = MembershipRole.OWNER)
                && negb (bool_decide (Membership.organisation_id existing = organisation_id)))
        (ConflictError
           "Cross-organisation owner transfer is unsupported without atomic owner replacement") ;;
      MembershipRepository.deactivate_membership existing ;;
      _ensure_exactly_one_active_owner (Membership.organisation_id existing)
  end ;;
  except_integrity
    (membership ← MembershipRepository.create_membership user_id organisation_id role;
     _ensure_exactly_one_active_owner organisation_id ;;
     mret membership)
    (raise (if decide (role = MembershipRole.OWNER)
            then ConflictError "Organisation already has an active owner"
            else IntegrityError)).

Definition transfer_membership (user_id organisation_id : UUID) (role : MembershipRole.t)
    : M Db Membership.t :=
  join_or_begin (_transfer_membership user_id organisation_id role).

(** [by_id.get(k)] over [{m.id: m for m in memberships}]: the last one wins. *)
Definition by_id (memberships : list Membership.t) (k : UUID) : option Membership.t :=
  last (List.filter (fun m => bool_decide (Membership.id m = k)) memberships).

Definition _replace_owner_membership
    (organisation_id source_owner_membership_id replacement_membership_id : UUID)
    : M Db Membership.t :=
  memberships ← MembershipRepository.lock_active_memberships organisation_id;
  match by_id memberships source_owner_membership_id,
        by_id memberships replacement_membership_id with
  | Some source, Some replacement =>
      raise_if (negb (bool_decide (Membership.role source = MembershipRole.OWNER)))
        (ConflictError "Source membership is not owner") ;;
      raise_if (bool_decide (Membership.role replacement = MembershipRole.OWNER))
        (ConflictError "Replacement membership is already owner") ;;
      MembershipRepository.update_role source MembershipRole.ADMIN ;;
      replacement ← MembershipRepository.update_role replacement MembershipRole.OWNER;
      _ensure_exactly_one_active_owner organisation_id ;;
      mret replacement
  | _, _ => raise (NotFoundError "Membership not found")
  end.

Definition replace_owner_membership
    (organisation_id source_owner_membership_id replacement_membership_id : UUID)
    : M Db Membership.t :=
  raise_if (bool_decide (source_owner_membership_id = replacement_membership_id))
    (ConflictError "Source and replacement owner must be different") ;;
  join_or_begin (_replace_owner_membership organisation_id source_owner_membership_id
    replacement_membership_id).

(** [f"{first} {last}".strip() or "Organisation member"] *)
Definition directory_display_name (first_name last_name : option string) : string :=
  let full := Text.strip (Text.strip (default ""%string first_name) ++ " "
                          ++ Text.strip (default ""%string last_name)) in
  if Text.is_empty full then "Organisation member" else full.

Definition list_directory_members_for_user (organisation_id actor_user_id : UUID)
    : M Db (list OrganisationDirectoryMember) :=
  actor_membership_or not_a_member organisation_id actor_user_id ;;
  items ← MembershipRepository.list_directory_members_for_organisation organisation_id;
  mret (map (fun '(first_name, last_name, role) =>
    mkDirectoryMember (directory_display_name first_name last_name) role) items).

Definition is_manager (m : Membership.t) : bool :=
  bool_decide (Membership.role m ∈ [MembershipRole.OWNER; MembershipRole.ADMIN]).

Definition list_memberships_for_management (organisation_id actor_user_id : UUID)
    : M Db (list Membership.t) :=
  let denied := ForbiddenError "You are not allowed to view organisation memberships" in
  actor_membership ← actor_membership_or denied organisation_id actor_user_id;
  raise_if (negb (is_manager actor_membership)) denied ;;
  MembershipRepository.list_memberships_for_organisation organisation_id.

Definition get_membership_for_user (user_id : UUID) : M Db (option Membership.t) :=
  MembershipRepository.get_membership_for_user user_id.

Definition ensure_user_has_organisation_access (user_id organisation_id : UUID) : M Db unit :=
  has_membership ← MembershipRepository.has_membership user_id organisation_id;
  raise_if (negb has_membership) not_a_member.

Definition ensure_user_can_list_organisation_memberships (user_id organisation_id : UUID)
    : M Db unit :=
  membership ← MembershipRepository.get_membership user_id organisation_id;
  raise_if match membership with None => true | Some m => negb (is_manager m) end
    (ForbiddenError "You are not allowed to view organisation memberships").

Definition ensure_user_can_create_organisation (user_id : UUID) : M Db unit :=
  membership ← MembershipRepository.get_membership_for_user user_id;
  raise_if (negb (is_None membership)) (ConflictError "You already belong to an organisation").

Definition ensure_owner_invariant_before_deactivation (membership : Membership.t) : M Db unit :=
  if negb (bool_decide (Membership.role membership = MembershipRole.OWNER)) then mret tt else
  owner_count ← MembershipRepository.count_active_owners (Membership.organisation_id membership);
  raise_if (owner_count <=? 1)%nat
    (ConflictError "Organisation must always have at least one owner").

Definition _deactivate_membership (membership : Membership.t) : M Db Membership.t :=
  ensure_owner_invariant_before_deactivation membership ;;
  MembershipRepository.deactivate_membership membership.

Definition deactivate_membership (membership : Membership.t) : M Db Membership.t :=
  join_or_begin (_deactivate_membership membership).

End Service.
End MembershipService.

(** ** [organisations/services/access.py] *)
Module OrganisationAccessService.
Section Service.
Context `{Env}.

Definition get_organisation_for_member (identity : identity_t) (organisation_id : UUID)
    : M Db Organisation.t :=
  user ← UserService.provision_current_user identity;
  UserService.ensure_user_is_active user ;;
  organisation ← OrganisationService.get_organisation organisation_id;
  Guards.ensure_organisation_active organisation ;;
  MembershipService.ensure_user_has_organisation_access (User.id user) organisation_id ;;
  mret organisation.

End Service.
End OrganisationAccessService.

(** ** [organisations/services/onboarding.py] *)
Module OnboardingService.
Section Service.
Context `{Env}.

Definition create_organisation_for_current_user (identity : identity_t)
    (organisation_name organisation_slug : string)
    : M Db (User.t * Organisation.t * Membership.t) :=
  begin (
    user ← UserService.get_or_create_current_user identity;
    UserService.ensure_user_is_active user ;;
    Guards.ensure_email_verified identity ;;
    MembershipService.ensure_user_can_create_organisation (User.id user) ;;
    organisation ← OrganisationService.create_organisation organisation_name organisation_slug;
    membership ← MembershipService.create_membership (User.id user)
      (Organisation.id organisation) MembershipRole.OWNER;
    user ← UserService.mark_onboarding_completed user;
    mret (user, organisation, membership)).

End Service.
End OnboardingService.
