(* ===== verification/Outbox.v ===== *)
(** The transactional outbox: [outbox/repositories/outbox_events.py],
    [outbox/services/outbox.py] and [outbox/dispatcher.py]. *)
From S2P Require Import Prelude Errors Session Schema Tables.

(** ** [outbox/repositories/outbox_events.py] *)
Module OutboxEventRepository.
Section Repository.
Context `{Env}.

Definition _INVITE_OUTBOX_EVENT_TYPES : list string :=
  [OutboxEventType.value OutboxEventType.INVITE_CREATED;
   OutboxEventType.value OutboxEventType.INVITE_RESEND].

Definition _SENSITIVE_INVITE_PAYLOAD_KEYS : list string := ["email"; "encrypted_raw_token"]%string.

(** [d[k] = v] *)
Fixpoint dict_set (k : string) (v : json) (fields : list (string * json)) : list (string * json) :=
  match fields with
  | [] => [(k, v)]
  | (k', v') :: rest =>
      if String.eqb k k' then (k, v) :: rest else (k', v') :: dict_set k v rest
  end.

Definition is_sensitive_key (k : string) : bool :=
  existsb (String.eqb k) _SENSITIVE_INVITE_PAYLOAD_KEYS.

Definition scrubbed_payload (payload : json) : json :=
  match payload with
  | JObj fields =>
      JObj (dict_set "sensitive_payload_scrubbed" (JBool true)
        (List.filter (fun kv => negb (is_sensitive_key kv.1)) fields))
  | _ => payload
  end.

Definition is_invite_event (event : OutboxEvent.t) : bool :=
  existsb (String.eqb (OutboxEvent.event_type event)) _INVITE_OUTBOX_EVENT_TYPES.

Definition _scrub_sensitive_delivery_payload (event : OutboxEvent.t) : OutboxEvent.t :=
  if is_invite_event event
  then OutboxEvent.set_payload_json (scrubbed_payload (OutboxEvent.payload_json event)) event
  else event.

Definition create_event (event : OutboxEvent.t) : M Db OutboxEvent.t := insert_row event.

Definition get_by_id (event_id : UUID) : M Db (option OutboxEvent.t) :=
  select_first (fun e => bool_decide (OutboxEvent.id e = event_id)).

(** [status == PENDING and (next_attempt_at is None or next_attempt_at <= now)] *)
Definition is_due (at_time : datetime) (e : OutboxEvent.t) : bool :=
  bool_decide (OutboxEvent.status e = OutboxStatus.PENDING)
  && match OutboxEvent.next_attempt_at e with None => true | Some n => n <=? at_time end.

Definition oldest_first (e e' : OutboxEvent.t) : Prop :=
  OutboxEvent.created_at e <= OutboxEvent.created_at e'.

#[global] Instance oldest_first_dec e e' : Decision (oldest_first e e').
Proof. unfold oldest_first. apply _. Defined.

Definition list_pending_due_events (limit : nat) : M Db (list OutboxEvent.t) :=
  at_time ← now;
  due ← select (is_due at_time);
  mret (take limit (merge_sort oldest_first due)).

Definition _clear_delivery_claim (event_id : UUID) : M Db unit :=
  delete_where (fun c => bool_decide (OutboxDeliveryClaim.event_id c = event_id)).

Definition claim_due_events (limit : nat) : M Db (list OutboxEvent.t) :=
  at_time ← now;
  due ← select (is_due at_time);
  for_each (take limit (merge_sort oldest_first due)) (fun event =>
    _clear_delivery_claim (OutboxEvent.id event) ;;
    update_row_explicit (OutboxEvent.id event) (fun e =>
      OutboxEvent.set_updated_at at_time (OutboxEvent.set_locked_at (Some at_time)
        (OutboxEvent.set_status OutboxStatus.PROCESSING e)))).

Definition claim_processing_event_for_delivery (event_id : UUID) (claim_token : string)
    : M Db (option OutboxEvent.t) :=
  at_time ← now;
  event ← select_first (fun e => bool_decide (OutboxEvent.id e = event_id));
  match event with
  | None => mret None
  | Some event =>
      if negb (bool_decide (OutboxEvent.status event = OutboxStatus.PROCESSING))
      then mret None else
      existing_claim ← select_first
        (fun c => bool_decide (OutboxDeliveryClaim.event_id c = event_id));
      if negb (is_None existing_claim) then mret None else
      insert_row (OutboxDeliveryClaim.mk event_id claim_token at_time) ;;
      event ← update_row_explicit event_id (fun e =>
        OutboxEvent.set_updated_at at_time (OutboxEvent.set_locked_at (Some at_time) e));
      mret (Some event)
  end.

(** The join of the event with its delivery claim. *)
Definition get_delivery_claimed_event (event_id : UUID) (claim_token : string)
    : M Db (option OutboxEvent.t) :=
  d ← get_db;
  select_first (fun e =>
    bool_decide (OutboxEvent.id e = event_id)
    && bool_decide (OutboxEvent.status e = OutboxStatus.PROCESSING)
    && match outbox_delivery_claims d !! OutboxEvent.id e with
       | None => false
       | Some c => String.eqb (OutboxDeliveryClaim.claim_token c) claim_token
       end).

Definition mark_processing (event : OutboxEvent.t) : M Db unit :=
  if bool_decide (OutboxEvent.status event = OutboxStatus.PROCESSED) then mret tt else
  _clear_delivery_claim (OutboxEvent.id event) ;;
  at_time ← now;
  update_row (OutboxEvent.id event) (fun e =>
    OutboxEvent.set_locked_at (Some at_time) (OutboxEvent.set_status OutboxStatus.PROCESSING e)) ;;
  mret tt.

Definition processed (at_time : datetime) (e : OutboxEvent.t) : OutboxEvent.t :=
  _scrub_sensitive_delivery_payload
    (OutboxEvent.set_updated_at at_time (OutboxEvent.set_last_error None
      (OutboxEvent.set_locked_at None (OutboxEvent.set_processed_at (Some at_time)
        (OutboxEvent.set_status OutboxStatus.PROCESSED e))))).

Definition mark_processed (event : OutboxEvent.t) : M Db unit :=
  at_time ← now;
  _clear_delivery_claim (OutboxEvent.id event) ;;
  update_row_explicit (OutboxEvent.id event) (processed at_time) ;;
  mret tt.

(** The attribute writes of [mark_failed_attempt]. *)
Definition failed_attempt (at_time : datetime) (error : string) (e : OutboxEvent.t)
    : OutboxEvent.t :=
  let attempts := OutboxEvent.attempts e + 1 in
  let e := OutboxEvent.set_last_error (Some (Text.truncate 500 error))
    (OutboxEvent.set_locked_at None (OutboxEvent.set_attempts attempts e)) in
  OutboxEvent.set_updated_at at_time
    (if OutboxEvent.max_attempts e <=? attempts then
       _scrub_sensitive_delivery_payload
         (OutboxEvent.set_next_attempt_at None (OutboxEvent.set_status OutboxStatus.FAILED e))
     else
       OutboxEvent.set_next_attempt_at (Some (at_time + seconds (2 ^ attempts)))
         (OutboxEvent.set_status OutboxStatus.PENDING e)).

Definition mark_failed_attempt (event : OutboxEvent.t) (error : string) : M Db unit :=
  at_time ← now;
  _clear_delivery_claim (OutboxEvent.id event) ;;
  update_row_explicit (OutboxEvent.id event) (failed_attempt at_time error) ;;
  mret tt.

Definition release_processing_event_for_retry (event : OutboxEvent.t) (error : string)
    : M Db unit :=
  if negb (bool_decide (OutboxEvent.status event = OutboxStatus.PROCESSING)) then mret tt
  else mark_failed_attempt event error.

(** [status == PROCESSING and locked_at is not None and locked_at < stale_before] *)
Definition is_stale (stale_before : datetime) (e : OutboxEvent.t) : bool :=
  bool_decide (OutboxEvent.status e = OutboxStatus.PROCESSING)
  && match OutboxEvent.locked_at e with None => false | Some l => l <? stale_before end.

Definition locked_first (e e' : OutboxEvent.t) : Prop :=
  default 0 (OutboxEvent.locked_at e) <= default 0 (OutboxEvent.locked_at e').

#[global] Instance locked_first_dec e e' : Decision (locked_first e e').
Proof. unfold locked_first. apply _. Defined.

Definition recover_stale_processing_events (stale_timeout_seconds : Z) (limit : nat)
    : M Db (list OutboxEvent.t) :=
  at_time ← now;
  stale ← select (is_stale (at_time - seconds stale_timeout_seconds));
  let stale_events := take limit (merge_sort locked_first stale) in
  for_each stale_events (fun event =>
    mark_failed_attempt event "stale_processing_recovered") ;;
  mret stale_events.

End Repository.
End OutboxEventRepository.

(** ** [outbox/services/outbox.py] *)
Module OutboxService.
Section Service.
Context `{Env}.

Definition publish_event (event_type aggregate_type : string) (aggregate_id : UUID)
    (payload_json : json) : M Db OutboxEvent.t :=
  id ← new_uuid;
  created_at ← now;
  updated_at ← now;
  OutboxEventRepository.create_event
    (OutboxEvent.mk id event_type (Some aggregate_type) (Some aggregate_id) payload_json
       OutboxStatus.PENDING 0 10 None None None None created_at updated_at).

End Service.
End OutboxService.

(** ** [outbox/dispatcher.py] *)
Module Dispatcher.
Section Dispatcher.
Context `{Env}.

(** [process_outbox_event.send(event_id)]: the broker accepts the message or raises. *)
Context (send : nat -> UUID -> result unit).

(** [type(exc).__name__] *)
Definition type_name (e : exn) : string :=
  match e with
  | AppError BadRequest _ _ => "BadRequestError"
  | AppError Unauthorized _ _ => "UnauthorizedError"
  | AppError Forbidden _ _ => "ForbiddenError"
  | AppError NotFound _ _ => "NotFoundError"
  | AppError Conflict _ _ => "ConflictError"
  | AppError TooManyRequests _ _ => "TooManyRequestsError"
  | AppError RateLimiterUnavailable _ _ => "RateLimiterUnavailableError"
  | ErasureError AuditErasureError _ => "AuditErasureError"
  | ErasureError InviteErasureError _ => "InviteErasureError"
  | ErasureError OutboxErasureError _ => "OutboxErasureError"
  | ErasureError UserProfileErasureError _ => "UserProfileErasureError"
  | ErasureError RemainingInventoryErasureError _ => "RemainingInventoryErasureError"
  | ErasureError ErasureOrchestrationError _ => "ErasureOrchestrationError"
  | ErasureError ErasureExecutionError _ => "ErasureExecutionError"
  | ErasureError ErasureImpactPreviewError _ => "ErasureImpactPreviewError"
  | ErasureError SubjectDataExportError _ => "SubjectDataExportError"
  | GovernanceError PrivacyConfigurationError _ => "PrivacyConfigurationError"
  | GovernanceError PrivacyProcessingDenied _ => "PrivacyProcessingDenied"
  | ValueError _ => "ValueError"
  | IntegrityError => "IntegrityError"
  | StaleDataError => "StaleDataError"
  | MultipleResultsFound => "MultipleResultsFound"
  | PendingRollbackError => "PendingRollbackError"
  | InvalidRequestError => "InvalidRequestError"
  | OtherError n => n
  end.

Definition recover_stale_processing_events (stale_timeout_seconds : Z)
    (recovery_batch_size : nat) : M Db nat :=
  recovered ← begin (OutboxEventRepository.recover_stale_processing_events
    stale_timeout_seconds recovery_batch_size);
  mret (length recovered).

(** One event of the enqueue loop: whether it was handed to the broker. *)
Definition enqueue_or_release (event : OutboxEvent.t) : M Db bool :=
  try_except
    (await_external (fun n => send n (OutboxEvent.id event)) ;; mret true)
    (fun exc =>
       begin (
         persisted_event ← OutboxEventRepository.get_by_id (OutboxEvent.id event);
         match persisted_event with
         | None => mret tt
         | Some e => OutboxEventRepository.release_processing_event_for_retry e
                       ("enqueue_failed:" ++ type_name exc)
         end) ;;
       mret false).

Definition claim_and_enqueue_due_outbox_events (limit : nat) : M Db nat :=
  claimed_events ← begin (OutboxEventRepository.claim_due_events limit);
  enqueued ← for_each claimed_events enqueue_or_release;
  mret (length (List.filter (fun b => b) enqueued)).

(** One iteration of [run_dispatcher_loop]. *)
Definition dispatcher_tick (stale_timeout_seconds : Z) (recovery_batch_size batch_size : nat)
    : M Db (nat * nat) :=
  recovered_count ← recover_stale_processing_events stale_timeout_seconds recovery_batch_size;
  enqueued_count ← claim_and_enqueue_due_outbox_events batch_size;
  mret (recovered_count, enqueued_count).

End Dispatcher.
End Dispatcher.
