(* ===== verification/Invites.v ===== *)
(** Invites: [invites/anonymisation.py], [invites/repositories/invites.py] and
    [invites/services/invites.py]. *)
From S2P Require Import Prelude Errors Session Schema Tables AuditLog Users Memberships.
From S2P Require Import Organisations MembershipServices Outbox.

(** [hashlib.sha256] and the [cryptography] package's Fernet, which encrypts with
    a fresh nonce at each call. *)
Class Crypto := {
  sha256_hexdigest : string -> string;
  fernet_encrypt : nat -> string -> string;
  fernet_decrypt : string -> option string;
}.

(** ** [invites/anonymisation.py] *)
Module InviteAnonymisation.

Definition SCRUBBED_INVITE_EMAIL_DOMAIN : string := "anonymous.invalid".
Definition SCRUBBED_INVITE_TOKEN_PREFIX : string := "scrubbed-invite".

Definition scrubbed_invite_email (invite_id : UUID) : string :=
  "deleted-invite-" ++ Uuid.str invite_id ++ "@" ++ SCRUBBED_INVITE_EMAIL_DOMAIN.

Definition scrubbed_invite_token_hash (invite_id : UUID) : string :=
  SCRUBBED_INVITE_TOKEN_PREFIX ++ ":" ++ Uuid.str invite_id.

Definition is_scrubbed_invite (invite : Invite.t) : bool :=
  Text.ends_with ("@" ++ SCRUBBED_INVITE_EMAIL_DOMAIN) (Invite.email invite)
  && Text.starts_with (SCRUBBED_INVITE_TOKEN_PREFIX ++ ":") (Invite.token_hash invite).

End InviteAnonymisation.

(** ** [invites/repositories/invites.py] *)
Module InviteRepository.
Import InviteAnonymisation.
Section Repository.
Context `{Env}.

Definition create_invite (email : string) (organisation_id : UUID) (role : MembershipRole.t)
    (token_hash : string) (expires_at : option datetime) : M Db Invite.t :=
  id ← new_uuid;
  created_at ← now;
  updated_at ← now;
  insert_row (Invite.mk id email organisation_id role InviteStatus.PENDING token_hash
    expires_at None None created_at updated_at).

Definition get_by_token_hash (token_hash : string) : M Db (option Invite.t) :=
  select_first (fun i => String.eqb (Invite.token_hash i) token_hash).

Definition get_pending_invite_by_email (organisation_id : UUID) (email : string)
    : M Db (option Invite.t) :=
  select_first (fun i =>
    bool_decide (Invite.organisation_id i = organisation_id)
    && String.eqb (Text.lower (Invite.email i)) (Text.lower email)
    && is_pending i).

Definition by_id_and_organisation (invite_id organisation_id : UUID) (i : Invite.t) : bool :=
  bool_decide (Invite.id i = invite_id)
  && bool_decide (Invite.organisation_id i = organisation_id).

Definition get_invite_for_organisation (invite_id organisation_id : UUID)
    : M Db (option Invite.t) :=
  select_first (by_id_and_organisation invite_id organisation_id).

Definition get_invite_for_organisation_for_update (invite_id organisation_id : UUID)
    : M Db (option Invite.t) :=
  select_first (by_id_and_organisation invite_id organisation_id).

Definition mark_revoked (invite : Invite.t) (revoked_by_user_id : UUID) : M Db Invite.t :=
  n ← now;
  update_row (Invite.id invite) (fun i =>
    Invite.set_revoked_by_user_id (Some revoked_by_user_id)
      (Invite.set_revoked_at (Some n) (Invite.set_status InviteStatus.REVOKED i))).

Definition mark_status (invite : Invite.t) (status : InviteStatus.t) : M Db Invite.t :=
  update_row (Invite.id invite) (Invite.set_status status).

(** [expires_at is None or expires_at > now] and [expires_at <= now] *)
Definition unexpired_at (at_time : datetime) (i : Invite.t) : bool :=
  match Invite.expires_at i with None => true | Some e => at_time <? e end.

Definition expired_at (at_time : datetime) (i : Invite.t) : bool :=
  match Invite.expires_at i with None => false | Some e => e <=? at_time end.

(** [result.scalar_one_or_none()] of an [UPDATE .. RETURNING] *)
Definition update_one (P : Invite.t -> bool) (f : Invite.t -> Invite.t) : M Db (option Invite.t) :=
  l ← update_where P f; scalar_one_or_none l.

Definition acceptable (token_hash : string) (at_time : datetime) (i : Invite.t) : bool :=
  String.eqb (Invite.token_hash i) token_hash && is_pending i && unexpired_at at_time i.

Definition accept_pending_invite_by_token_hash (token_hash : string) (at_time : datetime)
    : M Db (option Invite.t) :=
  update_one (acceptable token_hash at_time) (Invite.set_status InviteStatus.ACCEPTED).

Definition mark_pending_invite_expired_by_token_hash (token_hash : string)
    (at_time : datetime) : M Db (option Invite.t) :=
  update_one
    (fun i => String.eqb (Invite.token_hash i) token_hash && is_pending i
              && expired_at at_time i)
    (Invite.set_status InviteStatus.EXPIRED).

Definition revoke_pending_invite (invite_id organisation_id actor_user_id : UUID)
    (at_time : datetime) : M Db (option Invite.t) :=
  update_one (fun i => by_id_and_organisation invite_id organisation_id i && is_pending i)
    (fun i => Invite.set_revoked_by_user_id (Some actor_user_id)
      (Invite.set_revoked_at (Some at_time) (Invite.set_status InviteStatus.REVOKED i))).

Definition rotate_pending_invite_token (invite_id organisation_id : UUID)
    (new_token_hash : string) (new_expires_at at_time : datetime) : M Db (option Invite.t) :=
  update_one
    (fun i => by_id_and_organisation invite_id organisation_id i && is_pending i
              && unexpired_at at_time i)
    (fun i => Invite.set_expires_at (Some new_expires_at)
      (Invite.set_token_hash new_token_hash i)).

Definition mark_pending_invite_expired_by_id (invite_id organisation_id : UUID)
    (at_time : datetime) : M Db (option Invite.t) :=
  update_one
    (fun i => by_id_and_organisation invite_id organisation_id i && is_pending i
              && expired_at at_time i)
    (Invite.set_status InviteStatus.EXPIRED).

(** The candidates of [anonymise_completed_invites_older_than], oldest first. *)
Definition completed_before (accepted_before expired_before revoked_before : datetime)
    (i : Invite.t) : bool :=
  match Invite.status i with
  | InviteStatus.ACCEPTED => Invite.updated_at i <? accepted_before
  | InviteStatus.EXPIRED => Invite.updated_at i <? expired_before
  | InviteStatus.REVOKED => Invite.updated_at i <? revoked_before
  | InviteStatus.PENDING => false
  end && negb (is_scrubbed_invite i).

Definition least_recently_updated (i i' : Invite.t) : Prop :=
  Invite.updated_at i < Invite.updated_at i'
  \/ (Invite.updated_at i = Invite.updated_at i' /\ (Invite.id i <= Invite.id i')%N).

#[global] Instance least_recently_updated_dec i i' : Decision (least_recently_updated i i').
Proof. unfold least_recently_updated. apply _. Defined.

Definition scrub_invite (i : Invite.t) : Invite.t :=
  Invite.set_token_hash (scrubbed_invite_token_hash (Invite.id i))
    (Invite.set_email (scrubbed_invite_email (Invite.id i)) i).

Fixpoint scrub_rows (rows : list Invite.t) (anonymised_count : nat) : M Db nat :=
  match rows with
  | [] => mret anonymised_count
  | invite :: rows =>
      if is_scrubbed_invite invite then scrub_rows rows anonymised_count else
      update_row (Invite.id invite) scrub_invite ;;
      scrub_rows rows (S anonymised_count)
  end.

Definition anonymise_completed_invites_older_than
    (accepted_before expired_before revoked_before : datetime) (batch_size : nat) : M Db nat :=
  candidates ← select (completed_before accepted_before expired_before revoked_before);
  scrub_rows (take batch_size (merge_sort least_recently_updated candidates)) 0.

End Repository.
End InviteRepository.

(** ** [invites/services/invites.py] *)
Module InviteService.
Import ServiceGuards.
Section Service.
Context `{Env} `{Network} `{Crypto}.

Definition _INVALID_INVITE_DETAIL : string := "Invalid or expired invite".

Definition _raise_invalid_invite_token {A} : M Db A :=
  raise (BadRequestError _INVALID_INVITE_DETAIL).

Definition DEFAULT_INVITE_TTL : Z := days 7.

Definition _token_hash (token : string) : string := sha256_hexdigest token.

(** [self.payload_crypto.encrypt_token(token)] *)
Definition encrypt_token (raw_token : string) : M Db string :=
  draw (fun n => fernet_encrypt n raw_token).

Definition _get_actor_membership (organisation_id actor_user_id : UUID) : M Db Membership.t :=
  actor_user ← UserService.get_user_by_id actor_user_id;
  UserService.ensure_user_is_active actor_user ;;
  organisation ← OrganisationService.get_organisation organisation_id;
  Guards.ensure_organisation_active organisation ;;
  actor_membership ← MembershipRepository.get_membership actor_user_id organisation_id;
  or_raise actor_membership (ForbiddenError "You are not allowed to invite users").

(** The payload of the two invite events. *)
Definition delivery_payload (invite : Invite.t) (organisation_id : UUID)
    (encrypted_raw_token purpose : string) : json :=
  JObj [("invite_id", JStr (Uuid.str (Invite.id invite)));
        ("organisation_id", JStr (Uuid.str organisation_id));
        ("email", JStr (Invite.email invite));
        ("encrypted_raw_token", JStr encrypted_raw_token);
        ("purpose", JStr purpose);
        ("role", JStr (MembershipRole.value (Invite.role invite)))].

(** The body of [create_invite]'s transaction; it also returns the raw token,
    which Python leaves in a local variable. *)
Definition _create_invite (organisation_id actor_user_id : UUID) (role : MembershipRole.t)
    (email : string) (audit_context : AuditContext.t)
    (business_rate_limiter : option BusinessRateLimiter) : M Db (Invite.t * string) :=
  raise_if (bool_decide (role = MembershipRole.OWNER))
    (ForbiddenError "Owner role cannot be assigned via invite") ;;
  actor_membership ← _get_actor_membership organisation_id actor_user_id;
  raise_if (negb (bool_decide
      (Membership.role actor_membership ∈ [MembershipRole.OWNER; MembershipRole.ADMIN])))
    (ForbiddenError "You are not allowed to invite users") ;;
  raise_if (bool_decide (Membership.role actor_membership = MembershipRole.ADMIN)
            && bool_decide (role = MembershipRole.ADMIN))
    (ForbiddenError "Admin cannot assign admin role") ;;
  let normalized_email := Text.lower (Text.strip email) in
  pending ← InviteRepository.get_pending_invite_by_email organisation_id normalized_email;
  raise_if (negb (is_None pending))
    (ConflictError "Pending invite already exists for this email") ;;
  _run_business_rate_limiter business_rate_limiter ;;
  token ← new_token;
  n ← now;
  let expires_at := n + DEFAULT_INVITE_TTL in
  invite ← except_integrity
    (InviteRepository.create_invite normalized_email organisation_id role
       (_token_hash token) (Some expires_at))
    (raise (ConflictError "Pending invite already exists for this email"));
  AuditEventService.record_event audit_context AuditCategory.TENANT
    AuditAction.INVITE_CREATED AuditTargetType.INVITE (Some (Invite.id invite)) None
    (Some (JObj [("organisation_id", JStr (Uuid.str organisation_id));
                 ("invite_role", JStr (MembershipRole.value (Invite.role invite)))])) None ;;
  encrypted ← encrypt_token token;
  OutboxService.publish_event (OutboxEventType.value OutboxEventType.INVITE_CREATED) "invite"
    (Invite.id invite) (delivery_payload invite organisation_id encrypted "created") ;;
  mret (invite, token).

Definition create_invite (organisation_id actor_user_id : UUID) (role : MembershipRole.t)
    (email : string) (audit_context : AuditContext.t)
    (business_rate_limiter : option BusinessRateLimiter) : M Db Invite.t :=
  _ensure_audit_actor_matches actor_user_id audit_context ;;
  r ← begin (_create_invite organisation_id actor_user_id role email audit_context
    business_rate_limiter);
  mret r.1.

Definition _accept_invite (token_hash : string) (identity : identity_t) : M Db Membership.t :=
  at_time ← now;
  invite ← InviteRepository.accept_pending_invite_by_token_hash token_hash at_time;
  match invite with
  | None =>
      InviteRepository.mark_pending_invite_expired_by_token_hash token_hash at_time ;;
      _raise_invalid_invite_token
  | Some invite =>
      raise_if
        match AuthenticatedPrincipal.email identity with
        | None => true
        | Some e => negb (String.eqb (Text.lower (Invite.email invite)) (Text.lower e))
        end
        (ForbiddenError "Invite email does not match authenticated user") ;;
      Guards.ensure_email_verified identity ;;
      user ← UserService.get_or_create_current_user identity;
      UserService.ensure_user_is_active user ;;
      organisation ← OrganisationService.get_organisation (Invite.organisation_id invite);
      Guards.ensure_organisation_active organisation ;;
      MembershipService.create_membership (User.id user) (Invite.organisation_id invite)
        (Invite.role invite)
  end.

(** [async with (session.begin() if not session.in_transaction() else _NoopContext())]
    is [join_or_begin]. *)
Definition accept_invite (token : string) (identity : identity_t) : M Db Membership.t :=
  let token_hash := _token_hash token in
  join_or_begin (_accept_invite token_hash identity).

Definition _revoke_invite (organisation_id invite_id actor_user_id : UUID)
    (audit_context : AuditContext.t) (reason : option string) : M Db unit :=
  actor ← _get_actor_membership organisation_id actor_user_id;
  invite ← InviteRepository.get_invite_for_organisation invite_id organisation_id;
  invite ← or_raise invite (NotFoundError "Invite not found");
  raise_if (negb (bool_decide (Invite.status invite = InviteStatus.PENDING)))
    (ConflictError "Only pending invite can be revoked") ;;
  raise_if (bool_decide (Membership.role actor = MembershipRole.MEMBER))
    (ForbiddenError "You are not allowed to revoke invites") ;;
  raise_if (bool_decide (Membership.role actor = MembershipRole.ADMIN)
            && bool_decide (Invite.role invite = MembershipRole.ADMIN))
    (ForbiddenError "Admin can revoke member invites only") ;;
  let previous_status := Invite.status invite in
  at_time ← now;
  updated ← InviteRepository.revoke_pending_invite (Invite.id invite) organisation_id
    actor_user_id at_time;
  raise_if (is_None updated) (ConflictError "Only pending invite can be revoked") ;;
  AuditEventService.record_event audit_context AuditCategory.TENANT
    AuditAction.INVITE_REVOKED AuditTargetType.INVITE (Some (Invite.id invite)) reason
    (Some (JObj [("organisation_id", JStr (Uuid.str organisation_id));
                 ("invite_role", JStr (MembershipRole.value (Invite.role invite)));
                 ("invite_status_before", JStr (InviteStatus.value previous_status))])) None ;;
  mret tt.

Definition revoke_invite (organisation_id invite_id actor_user_id : UUID)
    (audit_context : AuditContext.t) (reason : option string) : M Db unit :=
  _ensure_audit_actor_matches actor_user_id audit_context ;;
  join_or_begin (_revoke_invite organisation_id invite_id actor_user_id audit_context reason).

Definition _mark_pending_invite_expired_by_id (invite : Invite.t) (organisation_id : UUID)
    (at_time : datetime) : M Db (option Invite.t) :=
  InviteRepository.mark_pending_invite_expired_by_id (Invite.id invite) organisation_id at_time.

(** Instants are UTC, so [_normalize_utc] is the identity. *)
Definition _is_expired_at (expires_at : option datetime) (at_time : datetime) : bool :=
  match expires_at with None => false | Some e => e <=? at_time end.

(** The three places of [resend_invite] that expire the invite and refuse. *)
Definition refuse_expired (invite : Invite.t) (organisation_id : UUID) (at_time : datetime)
    {A} : M Db A :=
  expired ← _mark_pending_invite_expired_by_id invite organisation_id at_time;
  raise (if is_None expired then ConflictError "Only pending invite can be resent"
         else ConflictError "Invite has expired").

Definition _resend_invite (organisation_id invite_id actor_user_id : UUID)
    (audit_context : AuditContext.t) (business_rate_limiter : option BusinessRateLimiter)
    : M Db (Invite.t * string) :=
  actor ← _get_actor_membership organisation_id actor_user_id;
  invite ← InviteRepository.get_invite_for_organisation invite_id organisation_id;
  invite ← or_raise invite (NotFoundError "Invite not found");
  raise_if (negb (bool_decide (Invite.status invite = InviteStatus.PENDING)))
    (ConflictError "Only pending invite can be resent") ;;
  raise_if (bool_decide (Membership.role actor = MembershipRole.MEMBER))
    (ForbiddenError "You are not allowed to resend invites") ;;
  raise_if (bool_decide (Membership.role actor = MembershipRole.ADMIN)
            && bool_decide (Invite.role invite = MembershipRole.ADMIN))
    (ForbiddenError "Admin can resend member invites only") ;;
  n ← now;
  (if _is_expired_at (Invite.expires_at invite) n
   then refuse_expired invite organisation_id n else mret tt) ;;
  _run_business_rate_limiter business_rate_limiter ;;
  n ← now;
  (if _is_expired_at (Invite.expires_at invite) n
   then refuse_expired invite organisation_id n else mret tt) ;;
  token ← new_token;
  let token_hash := _token_hash token in
  let expires_at := n + DEFAULT_INVITE_TTL in
  rotated ← InviteRepository.rotate_pending_invite_token (Invite.id invite) organisation_id
    token_hash expires_at n;
  match rotated with
  | None => retry_now ← now; refuse_expired invite organisation_id retry_now
  | Some rotated =>
      AuditEventService.record_event audit_context AuditCategory.TENANT
        AuditAction.INVITE_RESENT AuditTargetType.INVITE (Some (Invite.id rotated)) None
        (Some (JObj [("organisation_id", JStr (Uuid.str organisation_id));
                     ("invite_role", JStr (MembershipRole.value (Invite.role rotated)))])) None ;;
      encrypted ← encrypt_token token;
      OutboxService.publish_event (OutboxEventType.value OutboxEventType.INVITE_RESEND) "invite"
        (Invite.id rotated) (delivery_payload rotated organisation_id encrypted "resent") ;;
      mret (rotated, token)
  end.

Definition resend_invite (organisation_id invite_id actor_user_id : UUID)
    (audit_context : AuditContext.t) (business_rate_limiter : option BusinessRateLimiter)
    : M Db Invite.t :=
  _ensure_audit_actor_matches actor_user_id audit_context ;;
  r ← begin (_resend_invite organisation_id invite_id actor_user_id audit_context
    business_rate_limiter);
  mret r.1.

(** [get_settings().invite_retention] *)
Record InviteRetentionSettings := mkInviteRetentionSettings {
  accepted_days : Z;
  expired_days : Z;
  revoked_days : Z;
  batch_size : nat;
}.

Definition anonymise_completed_invites (settings : InviteRetentionSettings)
    (now_arg : option datetime) : M Db nat :=
  decision_time ← match now_arg with Some n => mret n | None => now end;
  join_or_begin (InviteRepository.anonymise_completed_invites_older_than
    (decision_time - days (accepted_days settings))
    (decision_time - days (expired_days settings))
    (decision_time - days (revoked_days settings))
    (batch_size settings)).

End Service.
End InviteService.
