(* ===== verification/OutboxWorker.v ===== *)
(** Delivery of invite events: [outbox/schemas/payloads.py] and
    [outbox/workers.py]. *)
From S2P Require Import Prelude Errors Session Schema Tables Outbox Invites.

(** [outbox/schemas/payloads.py], [InviteOutboxPayload] *)
Module InviteOutboxPayload.
Record t := mk {
  invite_id : UUID;
  organisation_id : option UUID;
  email : option string;
  encrypted_raw_token : string;
  purpose : option string;
  role : option MembershipRole.t;
}.
End InviteOutboxPayload.

(** What the worker uses and does not define: pydantic's validation of the
    payload's field types, the setting that enables delivery, and the delivery
    of a token by the configured sink. [Crypto] stands for [OutboxPayloadCrypto] with the
    key that is configured: [from_settings], which raises [ValueError] without one, is
    modelled in [InviteDelivery.v], and accepted settings that enable delivery have a key
    ([outbox_key_configured]). *)
Class Delivery := {
  validate_fields : json -> option InviteOutboxPayload.t;
  invite_delivery_enabled : bool;
  deliver : nat -> Invite.t -> string -> result unit;
}.

Module OutboxWorker.
Section Worker.
Context `{Env} `{Crypto} `{Delivery}.

(** [None] where Python raises a validation error. *)
Definition parse_invite_outbox_payload (payload : json) : option InviteOutboxPayload.t :=
  p ← validate_fields payload;
  if Text.is_empty (Text.strip (InviteOutboxPayload.encrypted_raw_token p)) then None else Some p.

(** The action and context [_get_claimed_event_context] returns; every action but
    [Skip] carries the delivery claim token, [Retry] the reason. *)
Inductive Action :=
  | Skip
  | MarkProcessed (delivery_claim_token : string)
  | Retry (delivery_claim_token reason : string)
  | Deliver (delivery_claim_token raw_token : string) (invite : Invite.t).

Definition _claimed_event_context (event_id : UUID) (delivery_claim_token : string)
    : M Db Action :=
  event ← OutboxEventRepository.claim_processing_event_for_delivery event_id
    delivery_claim_token;
  match event with
  | None => mret Skip
  | Some event =>
      if bool_decide (OutboxEvent.status event ∈ [OutboxStatus.PROCESSED; OutboxStatus.FAILED])
      then mret Skip else
      if negb (OutboxEventRepository.is_invite_event event)
      then mret (MarkProcessed delivery_claim_token) else
      match parse_invite_outbox_payload (OutboxEvent.payload_json event) with
      | None => mret (Retry delivery_claim_token "malformed_outbox_payload")
      | Some payload =>
          invite ← select_one_or_none (fun i =>
            bool_decide (Invite.id i = InviteOutboxPayload.invite_id payload));
          match invite with
          | None => mret (Retry delivery_claim_token "invite_not_found")
          | Some invite =>
              if negb (bool_decide (Invite.status invite = InviteStatus.PENDING))
              then mret (MarkProcessed delivery_claim_token) else
              n ← now;
              expired_invite ← InviteRepository.mark_pending_invite_expired_by_id
                (Invite.id invite) (Invite.organisation_id invite) n;
              if negb (is_None expired_invite)
              then mret (MarkProcessed delivery_claim_token) else
              if negb invite_delivery_enabled
              then mret (MarkProcessed delivery_claim_token) else
              match fernet_decrypt (InviteOutboxPayload.encrypted_raw_token payload) with
              | None => mret (Retry delivery_claim_token "outbox_payload_decryption_failed")
              | Some raw_token =>
                  let token_hash := sha256_hexdigest raw_token in
                  if negb (String.eqb token_hash (Invite.token_hash invite))
                  then mret (Retry delivery_claim_token "token_hash_mismatch")
                  else mret (Deliver delivery_claim_token raw_token invite)
              end
          end
      end
  end.

Definition _get_claimed_event_context (event_id : UUID) : M Db Action :=
  delivery_claim_token ← new_token;
  begin (_claimed_event_context event_id delivery_claim_token).

(** [success=True] is [None]; [success=False, error=e] is [Some e]. *)
Definition _apply_result (event_id : UUID) (delivery_claim_token : string)
    (error : option string) : M Db unit :=
  begin (
    event ← OutboxEventRepository.get_delivery_claimed_event event_id delivery_claim_token;
    match event, error with
    | None, _ => mret tt
    | Some event, None => OutboxEventRepository.mark_processed event
    | Some event, Some error => OutboxEventRepository.mark_failed_attempt event error
    end).

Definition _process_outbox_event (event_id : UUID) : M Db unit :=
  action ← _get_claimed_event_context event_id;
  match action with
  | Skip => mret tt
  | MarkProcessed claim_token => _apply_result event_id claim_token None
  | Retry claim_token reason => _apply_result event_id claim_token (Some reason)
  | Deliver claim_token raw_token invite =>
      delivered ← try_except
        (await_external (fun n => deliver n invite raw_token) ;; mret None)
        (fun exc => mret (Some ("delivery_failed:" ++ Dispatcher.type_name exc)%string));
      _apply_result event_id claim_token delivered
  end.

End Worker.
End OutboxWorker.
