(* ===== verification/Platform.v ===== *)
(** The platform side: permissions and actor resolution ([core/platform]), staff,
    user and organisation administration ([platform/repositories],
    [platform/services]). *)
From S2P Require Import Prelude Errors Session Schema Tables AuditLog Users Memberships.
From S2P Require Import Organisations MembershipServices.

(** ** [core/platform/permissions.py] *)
Module PlatformPermission.

Inductive t :=
  | USERS_READ | USERS_READ_LIMITED | USERS_SUSPEND | USERS_RESTORE | USERS_CORRECT_PROFILE
  | ORGANISATIONS_READ | ORGANISATIONS_READ_LIMITED | ORGANISATIONS_SUSPEND
  | ORGANISATIONS_RESTORE | ORGANISATIONS_CORRECT_PROFILE
  | ORGANISATIONS_EMERGENCY_OWNER_CORRECTION | PLATFORM_STAFF_MANAGE
  | AUDIT_READ | AUDIT_READ_LIMITED | PRIVACY_REQUESTS_READ | PRIVACY_REQUESTS_REVIEW
  | PRIVACY_REQUESTS_EXECUTE_ERASURE | PRIVACY_EXPORT_ARTIFACTS_READ
  | PRIVACY_EXPORT_ARTIFACTS_MANAGE.

#[global] Instance t_eq_dec : EqDecision t.
Proof. solve_decision. Defined.

Definition ALL_PERMISSIONS : list t :=
  [USERS_READ; USERS_READ_LIMITED; USERS_SUSPEND; USERS_RESTORE; USERS_CORRECT_PROFILE;
   ORGANISATIONS_READ; ORGANISATIONS_READ_LIMITED; ORGANISATIONS_SUSPEND;
   ORGANISATIONS_RESTORE; ORGANISATIONS_CORRECT_PROFILE;
   ORGANISATIONS_EMERGENCY_OWNER_CORRECTION; PLATFORM_STAFF_MANAGE; AUDIT_READ;
   AUDIT_READ_LIMITED; PRIVACY_REQUESTS_READ; PRIVACY_REQUESTS_REVIEW;
   PRIVACY_REQUESTS_EXECUTE_ERASURE; PRIVACY_EXPORT_ARTIFACTS_READ;
   PRIVACY_EXPORT_ARTIFACTS_MANAGE].

Definition ROLE_PERMISSIONS (role : PlatformStaffRole.t) : list t :=
  match role with
  | PlatformStaffRole.PLATFORM_ADMIN => ALL_PERMISSIONS
  | PlatformStaffRole.SUPPORT_AGENT =>
      [USERS_READ_LIMITED; ORGANISATIONS_READ_LIMITED; AUDIT_READ_LIMITED]
  | PlatformStaffRole.COMPLIANCE_OFFICER =>
      [USERS_READ_LIMITED; ORGANISATIONS_READ_LIMITED; AUDIT_READ; AUDIT_READ_LIMITED;
       PRIVACY_REQUESTS_READ; PRIVACY_REQUESTS_REVIEW; PRIVACY_REQUESTS_EXECUTE_ERASURE;
       PRIVACY_EXPORT_ARTIFACTS_READ; PRIVACY_EXPORT_ARTIFACTS_MANAGE]
  end.

End PlatformPermission.

(** [core/platform/actors.py] *)
Module PlatformActor.
Record t := mk {
  user : User.t;
  staff : PlatformStaff.t;
  permissions : list PlatformPermission.t;
}.
End PlatformActor.

(** ** [platform/repositories/platform_staff.py] *)
Module PlatformStaffRepository.
Section Repository.
Context `{Env}.

Definition get_by_user_id (user_id : UUID) : M Db (option PlatformStaff.t) :=
  select_one_or_none (fun s => bool_decide (PlatformStaff.user_id s = user_id)).

Definition get_by_id (staff_id : UUID) : M Db (option PlatformStaff.t) :=
  select_one_or_none (fun s => bool_decide (PlatformStaff.id s = staff_id)).

Definition listing_matches (status : option PlatformStaffStatus.t)
    (role : option PlatformStaffRole.t) (s : PlatformStaff.t) : bool :=
  match status with
  | None => true
  | Some x => String.eqb (PlatformStaff.status s) (PlatformStaffStatus.value x)
  end
  && match role with
     | None => true
     | Some x => String.eqb (PlatformStaff.role s) (PlatformStaffRole.value x)
     end.

Definition list_staff (limit offset : nat) (status : option PlatformStaffStatus.t)
    (role : option PlatformStaffRole.t) : M Db (list PlatformStaff.t * nat) :=
  result ← select (listing_matches status role);
  total ← select (listing_matches status role);
  mret (page limit offset
          (merge_sort (newest_first PlatformStaff.created_at PlatformStaff.id) result),
        length total).

Definition create_staff (user_id : UUID) (role : string) (created_by_user_id : option UUID)
    : M Db PlatformStaff.t :=
  id ← new_uuid;
  created_at ← now;
  updated_at ← now;
  insert_row (PlatformStaff.mk id user_id role
    (PlatformStaffStatus.value PlatformStaffStatus.ACTIVE) created_by_user_id None None
    created_at updated_at).

Definition update_role (staff : PlatformStaff.t) (role : PlatformStaffRole.t)
    : M Db PlatformStaff.t :=
  update_row (PlatformStaff.id staff) (PlatformStaff.set_role (PlatformStaffRole.value role)).

Definition promote_to_active_platform_admin (staff : PlatformStaff.t) : M Db PlatformStaff.t :=
  update_row (PlatformStaff.id staff) (fun s =>
    PlatformStaff.set_suspended_reason None (PlatformStaff.set_suspended_at None
      (PlatformStaff.set_status (PlatformStaffStatus.value PlatformStaffStatus.ACTIVE)
        (PlatformStaff.set_role (PlatformStaffRole.value PlatformStaffRole.PLATFORM_ADMIN) s)))).

Definition suspend (staff : PlatformStaff.t) (reason : string) : M Db PlatformStaff.t :=
  n ← now;
  update_row (PlatformStaff.id staff) (fun s =>
    PlatformStaff.set_suspended_reason (Some reason) (PlatformStaff.set_suspended_at (Some n)
      (PlatformStaff.set_status (PlatformStaffStatus.value PlatformStaffStatus.SUSPENDED) s))).

Definition restore (staff : PlatformStaff.t) : M Db PlatformStaff.t :=
  update_row (PlatformStaff.id staff) (fun s =>
    PlatformStaff.set_suspended_reason None (PlatformStaff.set_suspended_at None
      (PlatformStaff.set_status (PlatformStaffStatus.value PlatformStaffStatus.ACTIVE) s))).

Definition is_active_platform_admin (s : PlatformStaff.t) : bool :=
  String.eqb (PlatformStaff.role s) (PlatformStaffRole.value PlatformStaffRole.PLATFORM_ADMIN)
  && String.eqb (PlatformStaff.status s) (PlatformStaffStatus.value PlatformStaffStatus.ACTIVE).

Definition by_id_order (s s' : PlatformStaff.t) : Prop :=
  (PlatformStaff.id s <= PlatformStaff.id s')%N.

#[global] Instance by_id_order_dec s s' : Decision (by_id_order s s').
Proof. unfold by_id_order. apply _. Defined.

Definition lock_active_platform_admins : M Db (list PlatformStaff.t) :=
  l ← select is_active_platform_admin; mret (merge_sort by_id_order l).

Definition count_active_platform_admins : M Db nat :=
  l ← select is_active_platform_admin; mret (length l).

End Repository.
End PlatformStaffRepository.

(** ** [core/platform/write_context.py] *)
Module WriteContext.
Section WriteContext.
Context `{Env}.

Definition denied : exn := ForbiddenError "Platform access denied".

Definition resolve_active_platform_actor (identity : identity_t) : M Db PlatformActor.t :=
  user ← UserService.get_current_user_by_external_auth_id identity;
  user ← or_raise user denied;
  raise_if (negb (bool_decide (User.status user = UserStatus.ACTIVE))) denied ;;
  staff ← PlatformStaffRepository.get_by_user_id (User.id user);
  staff ← or_raise staff denied;
  raise_if (negb (String.eqb (PlatformStaff.status staff)
                    (PlatformStaffStatus.value PlatformStaffStatus.ACTIVE))) denied ;;
  role ← or_raise (PlatformStaffRole.of_value (PlatformStaff.role staff)) denied;
  mret (PlatformActor.mk user staff (PlatformPermission.ROLE_PERMISSIONS role)).

Definition resolve_platform_actor (identity : identity_t)
    (required_permission : PlatformPermission.t) : M Db PlatformActor.t :=
  actor ← resolve_active_platform_actor identity;
  raise_if (negb (bool_decide (required_permission ∈ PlatformActor.permissions actor))) denied ;;
  mret actor.

(** A handler that depends on [require_platform_write_context(permission)] runs
    inside the dependency's transaction. *)
Definition with_platform_write_context {A} (identity : identity_t)
    (permission : PlatformPermission.t) (handler : PlatformActor.t -> M Db A) : M Db A :=
  begin (actor ← resolve_platform_actor identity permission; handler actor).

(** The rate-limited variant checks its policy before it opens the transaction. *)
Definition with_rate_limited_platform_write_context {A} (check_rate_limit : nat -> result unit)
    (identity : identity_t) (permission : PlatformPermission.t)
    (handler : PlatformActor.t -> M Db A) : M Db A :=
  await_external check_rate_limit ;;
  begin (actor ← resolve_platform_actor identity permission; handler actor).

End WriteContext.
End WriteContext.

(** ** [platform/services/platform_staff.py] *)
Module PlatformStaffService.
Section Service.
Context `{Env} `{Network}.

Definition list_staff := PlatformStaffRepository.list_staff.

Definition get_staff (staff_id : UUID) : M Db PlatformStaff.t :=
  staff ← PlatformStaffRepository.get_by_id staff_id;
  or_raise staff (NotFoundError "Platform staff not found").

Definition record_staff_event (audit_context : AuditContext.t) (action : AuditAction.t)
    (staff : PlatformStaff.t) (reason : string) (metadata : list (string * json))
    : M Db AuditEvent.t :=
  AuditEventService.record_event audit_context AuditCategory.PLATFORM action
    AuditTargetType.PLATFORM_STAFF (Some (PlatformStaff.id staff)) (Some reason)
    (Some (JObj metadata)) None.

Definition create_staff (actor : PlatformActor.t) (user_id : UUID)
    (role : PlatformStaffRole.t) (reason : string) (audit_context : AuditContext.t)
    : M Db PlatformStaff.t :=
  user ← UserRepository.get_by_id user_id;
  user ← or_raise user (NotFoundError "User not found");
  raise_if (negb (bool_decide (User.status user = UserStatus.ACTIVE)))
    (ConflictError "User is not active") ;;
  existing ← PlatformStaffRepository.get_by_user_id user_id;
  raise_if (negb (is_None existing)) (ConflictError "Platform staff already exists") ;;
  staff ← PlatformStaffRepository.create_staff user_id (PlatformStaffRole.value role)
    (Some (User.id (PlatformActor.user actor)));
  record_staff_event audit_context AuditAction.PLATFORM_STAFF_CREATED staff reason
    [("user_id", JStr (Uuid.str user_id)); ("role", JStr (PlatformStaffRole.value role))] ;;
  mret staff.

(** [any(a.id != staff.id for a in await lock_active_platform_admins())], else refuse *)
Definition ensure_another_active_admin (staff : PlatformStaff.t) (refusal : string) : M Db unit :=
  active_admins ← PlatformStaffRepository.lock_active_platform_admins;
  let has_another_active_admin := existsb (fun a =>
    negb (bool_decide (PlatformStaff.id a = PlatformStaff.id staff))) active_admins in
  raise_if (negb has_another_active_admin) (ConflictError refusal).

Definition has_role (staff : PlatformStaff.t) (role : PlatformStaffRole.t) : bool :=
  String.eqb (PlatformStaff.role staff) (PlatformStaffRole.value role).

Definition has_status (staff : PlatformStaff.t) (status : PlatformStaffStatus.t) : bool :=
  String.eqb (PlatformStaff.status staff) (PlatformStaffStatus.value status).

Definition change_role (staff_id : UUID) (actor : PlatformActor.t)
    (role : PlatformStaffRole.t) (reason : string) (audit_context : AuditContext.t)
    : M Db PlatformStaff.t :=
  staff ← get_staff staff_id;
  raise_if (negb (has_status staff PlatformStaffStatus.ACTIVE))
    (ConflictError "Platform staff is not active") ;;
  raise_if (has_role staff role) (ConflictError "Role is already set") ;;
  let demotes := has_role staff PlatformStaffRole.PLATFORM_ADMIN
    && negb (bool_decide (role = PlatformStaffRole.PLATFORM_ADMIN)) in
  raise_if (bool_decide (PlatformStaff.user_id staff = User.id (PlatformActor.user actor))
            && demotes)
    (ConflictError "Cannot demote own platform admin role") ;;
  (if demotes
   then ensure_another_active_admin staff "Cannot demote last active platform admin"
   else mret tt) ;;
  let old_role := PlatformStaff.role staff in
  staff ← PlatformStaffRepository.update_role staff role;
  record_staff_event audit_context AuditAction.PLATFORM_STAFF_ROLE_CHANGED staff reason
    [("old_role", JStr old_role); ("new_role", JStr (PlatformStaffRole.value role));
     ("target_user_id", JStr (Uuid.str (PlatformStaff.user_id staff)))] ;;
  mret staff.

Definition target_metadata (staff : PlatformStaff.t) : list (string * json) :=
  [("target_user_id", JStr (Uuid.str (PlatformStaff.user_id staff)));
   ("role", JStr (PlatformStaff.role staff))]%string.

Definition suspend_staff (staff_id : UUID) (actor : PlatformActor.t) (reason : string)
    (audit_context : AuditContext.t) : M Db PlatformStaff.t :=
  staff ← get_staff staff_id;
  raise_if (bool_decide (PlatformStaff.user_id staff = User.id (PlatformActor.user actor)))
    (ConflictError "Cannot suspend own platform staff record") ;;
  if has_status staff PlatformStaffStatus.SUSPENDED then mret staff else
  raise_if (negb (has_status staff PlatformStaffStatus.ACTIVE))
    (ConflictError "Platform staff is not active") ;;
  (if has_role staff PlatformStaffRole.PLATFORM_ADMIN
   then ensure_another_active_admin staff "Cannot suspend last active platform admin"
   else mret tt) ;;
  staff ← PlatformStaffRepository.suspend staff reason;
  record_staff_event audit_context AuditAction.PLATFORM_STAFF_SUSPENDED staff reason
    (target_metadata staff) ;;
  mret staff.

Definition restore_staff (staff_id : UUID) (reason : string) (audit_context : AuditContext.t)
    : M Db PlatformStaff.t :=
  staff ← get_staff staff_id;
  if has_status staff PlatformStaffStatus.ACTIVE then mret staff else
  raise_if (negb (has_status staff PlatformStaffStatus.SUSPENDED))
    (ConflictError "Platform staff is not suspended") ;;
  staff ← PlatformStaffRepository.restore staff;
  record_staff_event audit_context AuditAction.PLATFORM_STAFF_RESTORED staff reason
    (target_metadata staff) ;;
  mret staff.

End Service.
End PlatformStaffService.

(** [q.strip() if q is not None else None], then [None] for the empty text *)
Definition normalise_query (q : option string) : option string :=
  match q with
  | None => None
  | Some q => let normalised_q := Text.strip q in
              if Text.is_empty normalised_q then None else Some normalised_q
  end.

(** ** [platform/services/platform_users.py] *)
Module PlatformUsersService.
Section Service.
Context `{Env} `{Network}.

Definition list_users (limit offset : nat) (status : option UserStatus.t) (q : option string) :=
  UserRepository.list_paginated limit offset status (normalise_query q).

Definition list_limited_users (limit offset : nat) (status : option UserStatus.t)
    (q : option string) :=
  UserRepository.list_limited_paginated limit offset status (normalise_query q).

Definition get_user (user_id : UUID) : M Db User.t :=
  user ← UserRepository.get_by_id user_id; or_raise user (NotFoundError "User not found").

Definition _suspend_user (user_id : UUID) (actor : PlatformActor.t) (reason : string)
    (audit_context : AuditContext.t) : M Db User.t :=
  raise_if (bool_decide (User.id (PlatformActor.user actor) = user_id))
    (ConflictError "Platform actor cannot suspend own account") ;;
  user ← get_user user_id;
  if bool_decide (User.status user = UserStatus.SUSPENDED) then mret user else
  n ← now;
  user ← UserRepository.set_status user UserStatus.SUSPENDED (Some n) (Some reason);
  AuditEventService.record_event audit_context AuditCategory.PLATFORM
    AuditAction.USER_SUSPENDED AuditTargetType.USER (Some (User.id user)) (Some reason)
    None None ;;
  mret user.

Definition suspend_user := _suspend_user.

Definition _restore_user (user_id : UUID) (actor : PlatformActor.t) (reason : string)
    (audit_context : AuditContext.t) : M Db User.t :=
  user ← get_user user_id;
  if bool_decide (User.status user = UserStatus.ACTIVE) then mret user else
  user ← UserRepository.set_status user UserStatus.ACTIVE None None;
  AuditEventService.record_event audit_context AuditCategory.PLATFORM
    AuditAction.USER_RESTORED AuditTargetType.USER (Some (User.id user)) (Some reason)
    None None ;;
  mret user.

Definition restore_user := _restore_user.

End Service.
End PlatformUsersService.

(** ** [platform/services/platform_organisations.py] *)
Module PlatformOrganisationsService.
Section Service.
Context `{Env} `{Network}.

Definition list_organisations (limit offset : nat) (status : option OrganisationStatus.t)
    (q : option string) :=
  OrganisationRepository.list_paginated limit offset true status (normalise_query q).

Definition list_limited_organisations (limit offset : nat)
    (status : option OrganisationStatus.t) (q : option string) :=
  OrganisationRepository.list_limited_paginated limit offset status (normalise_query q).

Definition get_organisation (organisation_id : UUID) : M Db Organisation.t :=
  org ← OrganisationRepository.get_by_id organisation_id true;
  or_raise org (NotFoundError "Organisation not found").

Definition record_organisation_event (audit_context : AuditContext.t) (action : AuditAction.t)
    (org : Organisation.t) (reason : string) (metadata : option json) : M Db AuditEvent.t :=
  AuditEventService.record_event audit_context AuditCategory.PLATFORM action
    AuditTargetType.ORGANISATION (Some (Organisation.id org)) (Some reason) metadata None.

Definition _suspend_organisation (organisation_id : UUID) (actor : PlatformActor.t)
    (reason : string) (audit_context : AuditContext.t) : M Db Organisation.t :=
  org ← get_organisation organisation_id;
  if bool_decide (Organisation.status org = OrganisationStatus.SUSPENDED) then mret org else
  n ← now;
  org ← OrganisationRepository.set_status org OrganisationStatus.SUSPENDED (Some n) (Some reason);
  record_organisation_event audit_context AuditAction.ORGANISATION_SUSPENDED org reason None ;;
  mret org.

Definition suspend_organisation := _suspend_organisation.

Definition _restore_organisation (organisation_id : UUID) (actor : PlatformActor.t)
    (reason : string) (audit_context : AuditContext.t) : M Db Organisation.t :=
  org ← get_organisation organisation_id;
  if bool_decide (Organisation.status org = OrganisationStatus.ACTIVE) then mret org else
  org ← OrganisationRepository.set_status org OrganisationStatus.ACTIVE None None;
  record_organisation_event audit_context AuditAction.ORGANISATION_RESTORED org reason None ;;
  mret org.

Definition restore_organisation := _restore_organisation.

(** [x if x is not None and x != current else None] *)
Definition if_changed (normalized : option string) (current : string) : option string :=
  if OrganisationService.changed normalized current then normalized else None.

(** The [old_x]/[new_x] members of one corrected field. *)
Definition change_metadata (old_key new_key old : string) (update : option string)
    : list (string * json) :=
  match update with
  | None => []
  | Some new => [(old_key, JStr old); (new_key, JStr new)]
  end.

Definition _correct_organisation_profile (organisation_id : UUID) (actor : PlatformActor.t)
    (name slug : option string) (reason : string) (audit_context : AuditContext.t)
    : M Db Organisation.t :=
  org ← get_organisation organisation_id;
  normalized_name ← OrganisationService.normalize_opt OrganisationService.normalize_name name;
  normalized_slug ← OrganisationService.normalize_opt OrganisationService.normalize_slug slug;
  let update_name := if_changed normalized_name (Organisation.name org) in
  let update_slug := if_changed normalized_slug (Organisation.slug org) in
  let changed_fields :=
    (if is_None update_name then [] else [JStr "name"])
    ++ (if is_None update_slug then [] else [JStr "slug"]) in
  let metadata_json :=
    [("correction_type", JStr "platform_profile_correction");
     ("changed_fields", JArr changed_fields)]
    ++ change_metadata "old_name" "new_name" (Organisation.name org) update_name
    ++ change_metadata "old_slug" "new_slug" (Organisation.slug org) update_slug in
  raise_if (match changed_fields with [] => true | _ => false end)
    (ConflictError "No profile changes") ;;
  org ← except_integrity
    (OrganisationRepository.update_details org update_name update_slug)
    (raise (ConflictError "Organisation slug already exists"));
  record_organisation_event audit_context AuditAction.ORGANISATION_UPDATED org reason
    (Some (JObj metadata_json)) ;;
  mret org.

Definition correct_organisation_profile := _correct_organisation_profile.

Definition emergency_replace_organisation_owner
    (organisation_id source_owner_membership_id replacement_membership_id : UUID)
    (actor : PlatformActor.t) (reason : string) (audit_context : AuditContext.t)
    : M Db Membership.t :=
  replacement ← MembershipService.replace_owner_membership organisation_id
    source_owner_membership_id replacement_membership_id;
  AuditEventService.record_event audit_context AuditCategory.PLATFORM
    AuditAction.MEMBERSHIP_ROLE_CHANGED AuditTargetType.MEMBERSHIP
    (Some (Membership.id replacement)) (Some reason)
    (Some (JObj [("organisation_id", JStr (Uuid.str organisation_id));
                 ("correction_type", JStr "emergency_owner_replacement");
                 ("source_owner_membership_id", JStr (Uuid.str source_owner_membership_id));
                 ("replacement_membership_id", JStr (Uuid.str replacement_membership_id))]))
    None ;;
  mret replacement.

End Service.
End PlatformOrganisationsService.
