(* ===== verification/Commands.v ===== *)
(** The commands of the operators: [commands/make_platform_admin.py], which grants the first
    platform administrator, and its old name ([commands/create_platform_admin.py]). *)
From S2P Require Import Prelude Errors Session Schema Tables AuditLog Users Platform.

Module MakePlatformAdmin.

Module MakePlatformAdminStatus.
Inductive t := GRANTED | ALREADY_ACTIVE.
End MakePlatformAdminStatus.

Module MakePlatformAdminResult.
Record t := mk { email : string; status : MakePlatformAdminStatus.t }.
End MakePlatformAdminResult.

Section Command.
Context `{Env} `{Network}.

(** [AuditContext(actor_user_id=None)] *)
Definition no_actor : AuditContext.t := AuditContext.mk None None None None.

Definition is_active_admin (staff : PlatformStaff.t) : bool :=
  String.eqb (PlatformStaff.role staff) (PlatformStaffRole.value PlatformStaffRole.PLATFORM_ADMIN)
  && String.eqb (PlatformStaff.status staff) (PlatformStaffStatus.value PlatformStaffStatus.ACTIVE).

(** The event of a grant, and the answer. *)
Definition record_grant (email : string) (action : AuditAction.t) (metadata : option json)
    (staff : PlatformStaff.t) : M Db MakePlatformAdminResult.t :=
  AuditEventService.record_event no_actor AuditCategory.PLATFORM action
    AuditTargetType.PLATFORM_STAFF (Some (PlatformStaff.id staff))
    (Some "bootstrap platform admin"%string) metadata None ;;
  mret (MakePlatformAdminResult.mk email MakePlatformAdminStatus.GRANTED).

(** The body of the transaction. *)
Definition grant (email : string) (force : bool) : M Db MakePlatformAdminResult.t :=
  user ← UserRepository.get_by_email email;
  user ← or_raise user (NotFoundError ("User with email " ++ email ++ " not found"));
  raise_if (negb (bool_decide (User.status user = UserStatus.ACTIVE)))
    (ConflictError "User is not active") ;;
  existing ← PlatformStaffRepository.get_by_user_id (User.id user);
  match existing with
  | Some existing =>
      if is_active_admin existing
      then mret (MakePlatformAdminResult.mk email MakePlatformAdminStatus.ALREADY_ACTIVE) else
      raise_if (negb force)
        (ConflictError ("Platform staff record exists; use --force to promote "
                        ++ "the existing record to platform_admin")) ;;
      staff ← PlatformStaffRepository.promote_to_active_platform_admin existing;
      record_grant email AuditAction.PLATFORM_STAFF_ROLE_CHANGED
        (Some (JObj [("old_role", JStr (PlatformStaff.role existing));
                     ("new_role", JStr (PlatformStaffRole.value PlatformStaffRole.PLATFORM_ADMIN))]%string))
        staff
  | None =>
      staff ← PlatformStaffRepository.create_staff (User.id user)
        (PlatformStaffRole.value PlatformStaffRole.PLATFORM_ADMIN) None;
      record_grant email AuditAction.PLATFORM_STAFF_CREATED None staff
  end.

Definition make_platform_admin (email : string) (force : bool) : M Db MakePlatformAdminResult.t :=
  begin (grant email force).

(** [create_platform_admin_by_email] *)
Definition create_platform_admin_by_email (email : string) : M Db unit :=
  make_platform_admin email false ;; mret tt.

(** [sqlalchemy.exc.SQLAlchemyError] and [RuntimeError] *)
Definition is_reported (e : exn) : bool :=
  match e with
  | IntegrityError | StaleDataError | MultipleResultsFound | PendingRollbackError
  | InvalidRequestError => true
  | OtherError name => String.eqb name "RuntimeError"
  | _ => false
  end.

(** The exit code and, but for the text of a database error, the line that is printed. Other
    exceptions leave the command. *)
Definition _amain (email : string) (force : bool) : M Db (Z * option string) :=
  try_except
    (result ← make_platform_admin email force;
     mret (0, Some (match MakePlatformAdminResult.status result with
                    | MakePlatformAdminStatus.ALREADY_ACTIVE =>
                        "User " ++ MakePlatformAdminResult.email result ++ " is already an active platform admin"
                    | MakePlatformAdminStatus.GRANTED =>
                        "Platform admin granted to " ++ MakePlatformAdminResult.email result
                    end)%string))
    (fun exc =>
       match exc with
       | AppError _ detail _ => mret (1, Some detail)
       | _ => if is_reported exc then mret (2, None) else raise exc
       end).
End Command.
End MakePlatformAdmin.
