(* ===== verification/PrivacyGovernance.v ===== *)
(** Privacy governance: [privacy/repositories/privacy_governance.py] and
    [privacy/services/governance.py]. Processing purposes, the authorizations to
    process a subject's data for them, consents and accepted notices. No handler
    of the application calls the service; it is modelled as a library. *)
From S2P Require Import Prelude Errors Session Schema Tables AuditLog.

(** ** [privacy/repositories/privacy_governance.py] *)
Module PrivacyGovernanceRepository.
Section Repository.
Context `{Env}.

Definition create_processing_purpose (code title : string) (description : option string)
    (family default_lawful_basis : string) (is_special_category : bool)
    (default_special_category_condition : option string) (requires_active_consent active : bool)
    : M Db ProcessingPurpose.t :=
  id ← new_uuid;
  created_at ← now;
  updated_at ← now;
  purpose ← insert_row (ProcessingPurpose.mk id code title description family
    default_lawful_basis is_special_category default_special_category_condition
    requires_active_consent active created_at updated_at);
  refresh (ProcessingPurpose.id purpose).

Definition get_processing_purpose_by_code (code : string) : M Db (option ProcessingPurpose.t) :=
  select_one_or_none (fun p => String.eqb (ProcessingPurpose.code p) code).

Definition create_authorization (subject_user_id purpose_id : UUID) (lawful_basis : string)
    (special_category_condition : option string) (valid_from : datetime)
    (valid_until : option datetime) (source : option string)
    : M Db DataProcessingAuthorization.t :=
  id ← new_uuid;
  created_at ← now;
  updated_at ← now;
  authorization ← insert_row (DataProcessingAuthorization.mk id subject_user_id purpose_id
    lawful_basis special_category_condition true valid_from valid_until None source
    created_at updated_at);
  refresh (DataProcessingAuthorization.id authorization).

(** [order_by(valid_from.desc())] *)
Definition valid_from_last (a a' : DataProcessingAuthorization.t) : Prop :=
  DataProcessingAuthorization.valid_from a' <= DataProcessingAuthorization.valid_from a.

#[global] Instance valid_from_last_dec a a' : Decision (valid_from_last a a').
Proof. unfold valid_from_last. apply _. Defined.

(** The authorization's own conditions in [list_active_authorizations]. *)
Definition in_force (at_time : datetime) (a : DataProcessingAuthorization.t) : bool :=
  DataProcessingAuthorization.active a
  && is_None (DataProcessingAuthorization.revoked_at a)
  && (DataProcessingAuthorization.valid_from a <=? at_time)
  && match DataProcessingAuthorization.valid_until a with
     | None => true
     | Some u => at_time <? u
     end.

(** The joined purpose: [ProcessingPurpose.code == purpose_code], active. *)
Definition for_active_purpose (d : Db) (purpose_code : string)
    (a : DataProcessingAuthorization.t) : bool :=
  match processing_purposes d !! DataProcessingAuthorization.purpose_id a with
  | None => false
  | Some p => String.eqb (ProcessingPurpose.code p) purpose_code && ProcessingPurpose.active p
  end.

Definition list_active_authorizations (subject_user_id : UUID) (purpose_code : string)
    (at_time : datetime) : M Db (list DataProcessingAuthorization.t) :=
  d ← get_db;
  rows ← select (fun a =>
    bool_decide (DataProcessingAuthorization.subject_user_id a = subject_user_id)
    && for_active_purpose d purpose_code a && in_force at_time a);
  mret (merge_sort valid_from_last rows).

Definition create_consent_record (subject_user_id purpose_id : UUID)
    (authorization_id : option UUID) (privacy_notice_version : string) (granted_at : datetime)
    : M Db ConsentRecord.t :=
  id ← new_uuid;
  created_at ← now;
  updated_at ← now;
  record ← insert_row (ConsentRecord.mk id subject_user_id purpose_id authorization_id
    privacy_notice_version granted_at None None created_at updated_at);
  refresh (ConsentRecord.id record).

Definition active_consent (subject_user_id purpose_id : UUID) (c : ConsentRecord.t) : bool :=
  bool_decide (ConsentRecord.subject_user_id c = subject_user_id)
  && bool_decide (ConsentRecord.purpose_id c = purpose_id)
  && is_None (ConsentRecord.withdrawn_at c).

(** [order_by(granted_at.desc())] *)
Definition granted_last (c c' : ConsentRecord.t) : Prop :=
  ConsentRecord.granted_at c' <= ConsentRecord.granted_at c.

#[global] Instance granted_last_dec c c' : Decision (granted_last c c').
Proof. unfold granted_last. apply _. Defined.

Definition get_active_consent (subject_user_id purpose_id : UUID)
    : M Db (option ConsentRecord.t) :=
  rows ← select (active_consent subject_user_id purpose_id);
  scalar_one_or_none (take 1 (merge_sort granted_last rows)).

Definition consent_authorization (subject_user_id purpose_id : UUID)
    (a : DataProcessingAuthorization.t) : bool :=
  bool_decide (DataProcessingAuthorization.subject_user_id a = subject_user_id)
  && bool_decide (DataProcessingAuthorization.purpose_id a = purpose_id)
  && String.eqb (DataProcessingAuthorization.lawful_basis a) "consent"
  && DataProcessingAuthorization.active a
  && is_None (DataProcessingAuthorization.revoked_at a).

(** The two row counts; the last [flush] finds nothing to write. *)
Definition withdraw_active_consents (subject_user_id purpose_id : UUID) (withdrawn_at : datetime)
    (withdrawal_reason_code : option string) : M Db (nat * nat) :=
  consents ← update_where (active_consent subject_user_id purpose_id)
    (fun c => ConsentRecord.set_withdrawal_reason_code withdrawal_reason_code
                (ConsentRecord.set_withdrawn_at (Some withdrawn_at) c));
  authorizations ← update_where (consent_authorization subject_user_id purpose_id)
    (fun a => DataProcessingAuthorization.set_revoked_at (Some withdrawn_at)
                (DataProcessingAuthorization.set_active false a));
  mret (length consents, length authorizations).

Definition accepted_notice (subject_user_id : UUID) (notice_version : string)
    (a : PrivacyNoticeAcceptance.t) : bool :=
  bool_decide (PrivacyNoticeAcceptance.subject_user_id a = subject_user_id)
  && String.eqb (PrivacyNoticeAcceptance.notice_version a) notice_version.

Definition get_privacy_notice_acceptance (subject_user_id : UUID) (notice_version : string)
    : M Db (option PrivacyNoticeAcceptance.t) :=
  select_first (accepted_notice subject_user_id notice_version).

Definition insert_acceptance (subject_user_id : UUID) (notice_version : string)
    (accepted_at : datetime) (source : option string) : M Db PrivacyNoticeAcceptance.t :=
  id ← new_uuid;
  created_at ← now;
  updated_at ← now;
  insert_row (PrivacyNoticeAcceptance.mk id subject_user_id notice_version accepted_at source
    created_at updated_at).

Definition get_or_create_privacy_notice_acceptance (subject_user_id : UUID)
    (notice_version : string) (accepted_at : datetime) (source : option string)
    : M Db (PrivacyNoticeAcceptance.t * bool) :=
  existing ← get_privacy_notice_acceptance subject_user_id notice_version;
  match existing with
  | Some existing => mret (existing, false)
  | None =>
      created ← except_integrity (A := PrivacyNoticeAcceptance.t * bool)
        (acceptance ← begin_nested
           (insert_acceptance subject_user_id notice_version accepted_at source);
         mret (acceptance, true))
        (existing ← get_privacy_notice_acceptance subject_user_id notice_version;
         match existing with
         | None => raise IntegrityError
         | Some existing => mret (existing, false)
         end);
      if (created.2 : bool)
      then acceptance ← refresh (PrivacyNoticeAcceptance.id created.1); mret (acceptance, true)
      else mret created
  end.

Definition create_privacy_notice_acceptance (subject_user_id : UUID) (notice_version : string)
    (accepted_at : datetime) (source : option string) : M Db PrivacyNoticeAcceptance.t :=
  acceptance ← insert_acceptance subject_user_id notice_version accepted_at source;
  refresh (PrivacyNoticeAcceptance.id acceptance).

End Repository.
End PrivacyGovernanceRepository.

(** ** [privacy/services/governance.py] *)
Module PrivacyGovernanceService.
Section Service.
Context `{Env} `{Network}.

Definition misconfigured (msg : string) : exn := GovernanceError PrivacyConfigurationError msg.

Definition _GENERIC_CONSENT_FAMILIES : list string :=
  [ProcessingPurposeFamily.value ProcessingPurposeFamily.MARKETING;
   ProcessingPurposeFamily.value ProcessingPurposeFamily.PRODUCT_ANALYTICS].

Definition _REGULATED_SERVICE_FAMILIES : list string :=
  [ProcessingPurposeFamily.value ProcessingPurposeFamily.REGULATED_SERVICE_DELIVERY].

Definition normalised_code (code : string) : string :=
  Text.replace_char " " "_" (Text.lower (Text.strip code)).

Definition _normalise_code (code : string) : M Db string :=
  let value := normalised_code code in
  raise_if (Text.is_empty value) (misconfigured "Processing purpose code is required") ;;
  mret value.

Definition register_processing_purpose (code title : string)
    (family : ProcessingPurposeFamily.t) (default_lawful_basis : LawfulBasis.t)
    (description : option string) (is_special_category : bool)
    (default_special_category_condition : option SpecialCategoryCondition.t)
    (requires_active_consent : option bool) : M Db ProcessingPurpose.t :=
  purpose_code ← _normalise_code code;
  existing ← PrivacyGovernanceRepository.get_processing_purpose_by_code purpose_code;
  raise_if (negb (is_None existing)) (misconfigured "Processing purpose already exists") ;;
  raise_if (is_special_category && is_None default_special_category_condition)
    (misconfigured "Special-category purposes require an Article 9 condition") ;;
  let by_consent := bool_decide (default_lawful_basis = LawfulBasis.CONSENT) in
  let consent_required := default by_consent requires_active_consent in
  raise_if (consent_required && negb by_consent)
    (misconfigured "Only consent-based purposes can require active consent") ;;
  PrivacyGovernanceRepository.create_processing_purpose purpose_code title description
    (ProcessingPurposeFamily.value family) (LawfulBasis.value default_lawful_basis)
    is_special_category
    (option_map SpecialCategoryCondition.value default_special_category_condition)
    consent_required true.

Definition _get_active_purpose (purpose_code : string) : M Db ProcessingPurpose.t :=
  code ← _normalise_code purpose_code;
  purpose ← PrivacyGovernanceRepository.get_processing_purpose_by_code code;
  match purpose with
  | Some purpose =>
      if ProcessingPurpose.active purpose then mret purpose
      else raise (misconfigured "Processing purpose is not configured")
  | None => raise (misconfigured "Processing purpose is not configured")
  end.

Definition _resolve_special_category_condition (purpose : ProcessingPurpose.t)
    (special_category_condition : option SpecialCategoryCondition.t)
    : M Db (option SpecialCategoryCondition.t) :=
  match special_category_condition with
  | Some c => mret (Some c)
  | None =>
      match ProcessingPurpose.default_special_category_condition purpose with
      | Some s =>
          c ← or_raise (SpecialCategoryCondition.of_value s)
            (ValueError "not a valid SpecialCategoryCondition");
          mret (Some c)
      | None =>
          raise_if (ProcessingPurpose.is_special_category purpose)
            (misconfigured "Special-category processing requires an Article 9 condition") ;;
          mret None
      end
  end.

Definition _assert_not_generic_consent_for_regulated_purpose
    (target_purpose : ProcessingPurpose.t) (consent_source_purpose_code : option string)
    : M Db unit :=
  if negb (bool_decide (ProcessingPurpose.family target_purpose ∈ _REGULATED_SERVICE_FAMILIES))
  then mret tt else
  match consent_source_purpose_code with
  | None => mret tt
  | Some source_code =>
      code ← _normalise_code source_code;
      source_purpose ← PrivacyGovernanceRepository.get_processing_purpose_by_code code;
      source_purpose ← or_raise source_purpose
        (misconfigured "Consent source purpose is not configured");
      raise_if (bool_decide (ProcessingPurpose.family source_purpose ∈ _GENERIC_CONSENT_FAMILIES))
        (misconfigured "Regulated-service processing cannot rely on generic marketing or product analytics consent")
  end.

Definition create_processing_authorization (subject_user_id : UUID) (purpose_code : string)
    (lawful_basis : option LawfulBasis.t)
    (special_category_condition : option SpecialCategoryCondition.t)
    (valid_from_arg valid_until : option datetime) (source : option string)
    (consent_source_purpose_code : option string) : M Db DataProcessingAuthorization.t :=
  purpose ← _get_active_purpose purpose_code;
  effective_lawful_basis ← match lawful_basis with
    | Some b => mret b
    | None => or_raise (LawfulBasis.of_value (ProcessingPurpose.default_lawful_basis purpose))
                (ValueError "not a valid LawfulBasis")
    end;
  effective_special_condition ← _resolve_special_category_condition purpose
    special_category_condition;
  raise_if (ProcessingPurpose.requires_active_consent purpose
            && negb (bool_decide (effective_lawful_basis = LawfulBasis.CONSENT)))
    (misconfigured "This purpose requires consent as its lawful basis") ;;
  _assert_not_generic_consent_for_regulated_purpose purpose consent_source_purpose_code ;;
  valid_from ← now_or valid_from_arg;
  PrivacyGovernanceRepository.create_authorization subject_user_id (ProcessingPurpose.id purpose)
    (LawfulBasis.value effective_lawful_basis)
    (option_map SpecialCategoryCondition.value effective_special_condition)
    valid_from valid_until source.

Definition record_privacy_event (audit_context : AuditContext.t) (action : AuditAction.t)
    (target_type : AuditTargetType.t) (subject_user_id : UUID) (metadata : list (string * json))
    : M Db unit :=
  AuditEventService.record_event audit_context AuditCategory.COMPLIANCE action target_type
    (Some subject_user_id) None (Some (JObj metadata)) None ;;
  mret tt.

Definition grant_consent (subject_user_id : UUID) (purpose_code privacy_notice_version : string)
    (audit_context : AuditContext.t) (granted_at : option datetime)
    (special_category_condition : option SpecialCategoryCondition.t)
    (consent_source_purpose_code : option string) : M Db ConsentRecord.t :=
  reference_now ← now_or granted_at;
  purpose ← _get_active_purpose purpose_code;
  authorization ← create_processing_authorization subject_user_id (ProcessingPurpose.code purpose)
    (Some LawfulBasis.CONSENT) special_category_condition (Some reference_now) None
    (Some "consent_record"%string) consent_source_purpose_code;
  consent ← PrivacyGovernanceRepository.create_consent_record subject_user_id
    (ProcessingPurpose.id purpose) (Some (DataProcessingAuthorization.id authorization))
    privacy_notice_version reference_now;
  record_privacy_event audit_context AuditAction.CONSENT_GRANTED AuditTargetType.PRIVACY_CONSENT
    subject_user_id
    [("purpose_code", JStr (ProcessingPurpose.code purpose));
     ("privacy_notice_version", JStr privacy_notice_version)]%string ;;
  mret consent.

Definition withdraw_consent (subject_user_id : UUID) (purpose_code : string)
    (audit_context : AuditContext.t) (withdrawal_reason_code : option string)
    (withdrawn_at : option datetime) : M Db (nat * nat) :=
  reference_now ← now_or withdrawn_at;
  purpose ← _get_active_purpose purpose_code;
  result ← PrivacyGovernanceRepository.withdraw_active_consents subject_user_id
    (ProcessingPurpose.id purpose) reference_now withdrawal_reason_code;
  (if ((0 <? result.1) || (0 <? result.2))%nat
   then record_privacy_event audit_context AuditAction.CONSENT_WITHDRAWN
          AuditTargetType.PRIVACY_CONSENT subject_user_id
          [("purpose_code", JStr (ProcessingPurpose.code purpose));
           ("withdrawal_reason_code",
            match withdrawal_reason_code with None => JNull | Some c => JStr c end)]%string
   else mret tt) ;;
  mret result.

Definition accept_privacy_notice (subject_user_id : UUID) (notice_version : string)
    (audit_context : AuditContext.t) (accepted_at : option datetime) (source : option string)
    : M Db PrivacyNoticeAcceptance.t :=
  reference_now ← now_or accepted_at;
  r ← PrivacyGovernanceRepository.get_or_create_privacy_notice_acceptance subject_user_id
    notice_version reference_now source;
  let '(acceptance, created) := r in
  (if (created : bool)
   then record_privacy_event audit_context AuditAction.PRIVACY_NOTICE_ACCEPTED
          AuditTargetType.PRIVACY_NOTICE subject_user_id
          [("notice_version", JStr notice_version)]%string
   else mret tt) ;;
  mret acceptance.

(** The loop of [assert_processing_allowed]. *)
Fixpoint first_permitted (subject_user_id purpose_id : UUID)
    (authorizations : list DataProcessingAuthorization.t)
    : M Db (option DataProcessingAuthorization.t) :=
  match authorizations with
  | [] => mret None
  | authorization :: authorizations =>
      if String.eqb (DataProcessingAuthorization.lawful_basis authorization)
           (LawfulBasis.value LawfulBasis.CONSENT)
      then active_consent ←
             PrivacyGovernanceRepository.get_active_consent subject_user_id purpose_id;
           match active_consent with
           | Some _ => mret (Some authorization)
           | None => first_permitted subject_user_id purpose_id authorizations
           end
      else mret (Some authorization)
  end.

Definition assert_processing_allowed (subject_user_id : UUID) (purpose_code : string)
    (now_arg : option datetime) : M Db DataProcessingAuthorization.t :=
  reference_now ← now_or now_arg;
  purpose ← _get_active_purpose purpose_code;
  authorizations ← PrivacyGovernanceRepository.list_active_authorizations subject_user_id
    (ProcessingPurpose.code purpose) reference_now;
  permitted ← first_permitted subject_user_id (ProcessingPurpose.id purpose) authorizations;
  or_raise permitted
    (GovernanceError PrivacyProcessingDenied
       ("Processing is not allowed for purpose '" ++ ProcessingPurpose.code purpose ++ "'")%string).

End Service.
End PrivacyGovernanceService.
