(* ===== verification/SubjectExports.v ===== *)
(** What a subject is given of the data about them: the export providers, the exporter
    and its stream ([privacy/exporters/subject_data.py], [subject_data_stream.py],
    [minimal.py], [base.py], the records of [privacy/providers/base.py]). *)
From S2P Require Import Prelude Errors Session Schema Tables AuditLog Users Invites Outbox.

(** ** [datetime.isoformat] of an aware datetime in UTC, for the years 1 to 9999 *)
Module IsoFormat.

Fixpoint zeros (n : nat) : string :=
  match n with O => EmptyString | S n => String "0" (zeros n) end.

(** [f"{n:0{w}d}"] for [0 <= n] *)
Definition padded (w : nat) (n : Z) : string :=
  let s := pretty n in (zeros (w - String.length s) ++ s)%string.

(** The proleptic Gregorian date of a day, counted from 1970-01-01. *)
Definition civil (day : Z) : Z * Z * Z :=
  let z := day + 719468 in
  let era := z / 146097 in
  let doe := z mod 146097 in
  let yoe := (doe - doe / 1460 + doe / 36524 - doe / 146096) / 365 in
  let doy := doe - (365 * yoe + yoe / 4 - yoe / 100) in
  let mp := (5 * doy + 2) / 153 in
  let d := doy - (153 * mp + 2) / 5 + 1 in
  let m := if mp <? 10 then mp + 3 else mp - 9 in
  (yoe + era * 400 + (if m <=? 2 then 1 else 0), m, d).

Definition isoformat (t : datetime) : string :=
  let '(y, m, d) := civil (t / days 1) in
  let r := t mod days 1 in
  let s := r / 1000000 in
  let us := r mod 1000000 in
  (padded 4 y ++ "-" ++ padded 2 m ++ "-" ++ padded 2 d ++ "T"
   ++ padded 2 (s / 3600) ++ ":" ++ padded 2 (s / 60 mod 60) ++ ":" ++ padded 2 (s mod 60)
   ++ (if (us =? 0)%Z then "" else "." ++ padded 6 us) ++ "+00:00")%string.

End IsoFormat.

(** ** [json.JSONEncoder(ensure_ascii=False, separators=(',', ':'))] *)
Module JsonText.

Fixpoint encode (j : json) : string :=
  match j with
  | JNull => "null"
  | JBool b => if b then "true" else "false"
  | JInt n => pretty n
  | JStr s => Metadata.dumps_string s
  | JArr l => ("[" ++ Text.join "," (map encode l) ++ "]")%string
  | JObj fields =>
      ("{" ++ Text.join "," (map (fun kv => Metadata.dumps_string kv.1 ++ ":" ++ encode kv.2) fields)
       ++ "}")%string
  end.

End JsonText.

(** ** [privacy/exporters/base.py] *)
Module ExportContext.
Record t := mk {
  artifact_id : UUID;
  data_subject_request_id : UUID;
  subject_user_id : option UUID;
  requester_user_id : option UUID;
  request_type : DataSubjectRequestType.t;
  request_status : DataSubjectRequestStatus.t;
  generated_at : datetime;
  schema_version : string;
}.
End ExportContext.

(** ** [privacy/providers/base.py] *)
Module ProviderBase.

Module PrivacyExportRecordKind.
Inductive t := DATA | REFERENCE | METADATA | REDACTION_NOTICE.

Definition value (x : t) : string :=
  match x with
  | DATA => "data"
  | REFERENCE => "reference"
  | METADATA => "metadata"
  | REDACTION_NOTICE => "redaction_notice"
  end.
End PrivacyExportRecordKind.

Record PrivacyProviderContext := mkContext {
  data_subject_request_id : UUID;
  subject_user_id : UUID;
  requester_user_id : option UUID;
  schema_version : string;
}.

(** The payload is kept in the order of its keys. *)
Record PrivacyExportRecord := mkRecord {
  provider_key : string;
  table_name : string;
  record_kind : PrivacyExportRecordKind.t;
  payload : list (string * json);
  redacted_fields : list string;
}.

End ProviderBase.
Import ProviderBase.


(** ** [privacy/exporters/subject_data.py] *)
Module SubjectData.

Definition _EXPORT_PROVIDER_BATCH_SIZE : nat := 500.

Definition SubjectDataExportError (reason_code : string) : exn :=
  ErasureError SubjectDataExportError reason_code.

(** What the providers put in a payload. *)
Inductive py_value :=
| PNone
| PUuid (u : UUID)
| PDatetime (t : datetime)
| PJson (j : json).

(** A value that is JSON already is copied as it is. *)
Definition _json_value (v : py_value) : json :=
  match v with
  | PNone => JNull
  | PUuid u => JStr (Uuid.str u)
  | PDatetime t => JStr (IsoFormat.isoformat t)
  | PJson j => j
  end.

Definition optional {A} (f : A -> py_value) (x : option A) : py_value := from_option f PNone x.
Definition PText (s : string) : py_value := PJson (JStr s).
Definition PBool (b : bool) : py_value := PJson (JBool b).
Definition PInt (n : Z) : py_value := PJson (JInt n).

Definition fields_of (payload : list (string * py_value)) : list (string * json) :=
  (fun kv => (kv.1, _json_value kv.2)) <$> payload.

(** [_BaseSubjectExportProvider._record] *)
Definition _record (provider_key table_name : string) (kind : PrivacyExportRecordKind.t)
    (payload : list (string * py_value)) (redacted_fields : list string) : PrivacyExportRecord :=
  mkRecord provider_key table_name kind (fields_of payload) redacted_fields.

(** The payload and the redacted fields after the call. *)
Definition _include_or_minimise_actor_field (field_name : string) (actor_user_id : option UUID)
    (subject_user_id : UUID) (presence_field : string)
    (pr : list (string * py_value) * list string) : list (string * py_value) * list string :=
  let '(payload, redacted_fields) := pr in
  match actor_user_id with
  | None => (payload, redacted_fields)
  | Some actor =>
      if bool_decide (actor = subject_user_id)
      then (payload ++ [(field_name, PUuid actor)], redacted_fields)
      else (payload ++ [(presence_field, PBool true)], redacted_fields ++ [field_name])
  end.

(** *** Pages in the order of a key *)
Section Keyset.
Context {X : Type}.
Variables (sort_value : X -> Z) (id : X -> UUID).

Definition keyset (x : X) : list Z := [sort_value x; Z.of_N (id x)].

Definition _after_keyset (last_key : Z * UUID) (x : X) : bool :=
  (last_key.1 <? sort_value x)
  || ((sort_value x =? last_key.1) && (last_key.2 <? id x)%N).

Definition after_last (last_key : option (Z * UUID)) (x : X) : bool :=
  match last_key with None => true | Some k => _after_keyset k x end.

(** The rows of [_keyset_page_statement], given those the statement selects. *)
Definition _keyset_page (last_key : option (Z * UUID)) (batch_size : nat) (rows : list X) : list X :=
  take batch_size (merge_sort (ordered_by keyset) (List.filter (after_last last_key) rows)).

(** The loop of [_iter_model_keyset] and [_iter_row_keyset]; [fetch] executes the
    statement of a page. [None]: [fuel] pages were not enough. *)
Fixpoint keyset_pages (fetch : option (Z * UUID) -> nat -> M Db (list X)) (fuel : nat)
    (last_key : option (Z * UUID)) (batch_size : nat) : M Db (option (list X)) :=
  match fuel with
  | O => mret None
  | S fuel =>
      rows ← fetch last_key batch_size;
      match last rows with
      | None => mret (Some [])
      | Some last_row =>
          rest ← keyset_pages fetch fuel (Some (sort_value last_row, id last_row)) batch_size;
          mret (option_map (app rows) rest)
      end
  end.

End Keyset.

(** [batch_size or _EXPORT_PROVIDER_BATCH_SIZE] *)
Definition effective_batch_size (batch_size : option nat) : nat :=
  match batch_size with
  | None | Some O => _EXPORT_PROVIDER_BATCH_SIZE
  | Some n => n
  end.

Definition OutOfPages : exn := OtherError "OutOfPages".

(** One page more than there are rows is enough. *)
Definition all_pages {X} (sort_value : X -> Z) (id : X -> UUID)
    (fetch : option (Z * UUID) -> nat -> M Db (list X)) (table_size : nat)
    (batch_size : option nat) : M Db (list X) :=
  pages ← keyset_pages sort_value id fetch (S table_size) None (effective_batch_size batch_size);
  or_raise pages OutOfPages.

(** A statement that selects rows of one model. *)
Definition _iter_model_keyset {R} `{Table R} (P : R -> bool) (sort_value : R -> Z)
    (batch_size : option nat) : M Db (list R) :=
  d ← get_db;
  all_pages sort_value pk
    (fun last_key batch_size =>
       rows ← select (fun r => P r && after_last sort_value pk last_key r);
       mret (take batch_size (merge_sort (ordered_by (keyset sort_value pk)) rows)))
    (size (rows d)) batch_size.

(** The rows of a model joined with the purposes they name. *)
Definition with_purposes {R} (purpose_id : R -> UUID) (rows : list R) (d : Db)
    : list (R * ProcessingPurpose.t) :=
  rows ≫= fun r => pair r <$>
    rows_where d (fun p => bool_decide (ProcessingPurpose.id p = purpose_id r)).

(** A statement that selects rows of a model and their purposes. *)
Definition _iter_row_keyset {R} `{Table R} (P : R -> bool) (purpose_id : R -> UUID)
    (sort_value : R -> Z) (batch_size : option nat) : M Db (list (R * ProcessingPurpose.t)) :=
  d ← get_db;
  let sort_value := fun row => sort_value row.1 in
  let id := fun row => pk row.1 in
  all_pages sort_value id
    (fun last_key batch_size =>
       d ← get_db;
       mret (_keyset_page sort_value id last_key batch_size
               (with_purposes purpose_id (rows_where d P) d)))
    (size (rows d)) batch_size.

Definition _get_subject_user (subject_user_id : UUID) : M Db (option User.t) :=
  select_one_or_none (fun u => bool_decide (User.id u = subject_user_id)).

Definition subject_email_of (user : option User.t) : option string :=
  match user ≫= User.email with
  | None => None
  | Some e => if Text.is_empty e then None else Some (Text.lower (Text.strip e))
  end.

Definition _get_subject_email (subject_user_id : UUID) : M Db (option string) :=
  user ← _get_subject_user subject_user_id;
  mret (subject_email_of user).

Module UserProfileExportProvider.

Definition provider_key : string := "users.profile".
Definition table_name : string := "users".

Definition user_record (user : User.t) : PrivacyExportRecord :=
  _record provider_key table_name PrivacyExportRecordKind.DATA
    [("id"%string, PUuid (User.id user));
     ("external_auth_id"%string, PText (User.external_auth_id user));
     ("email"%string, optional PText (User.email user));
     ("email_verified"%string, PBool (User.email_verified user));
     ("first_name"%string, optional PText (User.first_name user));
     ("last_name"%string, optional PText (User.last_name user));
     ("onboarding_completed"%string, PBool (User.onboarding_completed user));
     ("status"%string, PText (UserStatus.value (User.status user)));
     ("suspended_at"%string, optional PDatetime (User.suspended_at user));
     ("created_at"%string, PDatetime (User.created_at user));
     ("updated_at"%string, PDatetime (User.updated_at user))]
    ["suspended_reason"%string].

Definition iter_export_records (context : PrivacyProviderContext) : M Db (list PrivacyExportRecord) :=
  user ← _get_subject_user (subject_user_id context);
  user ← or_raise user (SubjectDataExportError "subject_user_not_found");
  mret [user_record user].

End UserProfileExportProvider.

Module MembershipsBySubjectExportProvider.

Definition provider_key : string := "memberships.by_subject".
Definition table_name : string := "memberships".

Definition selected (u : UUID) (m : Membership.t) : bool :=
  bool_decide (Membership.user_id m = u).

Definition membership_record (row : Membership.t) : PrivacyExportRecord :=
  _record provider_key table_name PrivacyExportRecordKind.DATA
    [("id"%string, PUuid (Membership.id row)); ("user_id"%string, PUuid (Membership.user_id row));
     ("organisation_id"%string, PUuid (Membership.organisation_id row));
     ("role"%string, PText (MembershipRole.value (Membership.role row)));
     ("is_active"%string, PBool (Membership.is_active row));
     ("created_at"%string, PDatetime (Membership.created_at row));
     ("updated_at"%string, PDatetime (Membership.updated_at row))]
    [].

Definition iter_export_records (context : PrivacyProviderContext) : M Db (list PrivacyExportRecord) :=
  rows ← _iter_model_keyset (selected (subject_user_id context)) Membership.created_at None;
  mret (membership_record <$> rows).

End MembershipsBySubjectExportProvider.

Module OrganisationsBySubjectMembershipExportProvider.

Definition provider_key : string := "organisations.by_subject_membership".
Definition table_name : string := "organisations".

(** [membership_subquery.exists()] *)
Definition selected (u : UUID) (d : Db) (o : Organisation.t) : bool :=
  existsb (fun m => bool_decide (Membership.user_id m = u)
    && bool_decide (Membership.organisation_id m = Organisation.id o)) (rows_where d (fun _ => true)).

Definition organisation_record (row : Organisation.t) : PrivacyExportRecord :=
  _record provider_key table_name PrivacyExportRecordKind.DATA
    [("id"%string, PUuid (Organisation.id row)); ("name"%string, PText (Organisation.name row));
     ("slug"%string, PText (Organisation.slug row));
     ("status"%string, PText (OrganisationStatus.value (Organisation.status row)));
     ("deleted_at"%string, optional PDatetime (Organisation.deleted_at row));
     ("suspended_at"%string, optional PDatetime (Organisation.suspended_at row));
     ("created_at"%string, PDatetime (Organisation.created_at row));
     ("updated_at"%string, PDatetime (Organisation.updated_at row))]
    ["suspended_reason"%string].

Definition iter_export_records (context : PrivacyProviderContext) : M Db (list PrivacyExportRecord) :=
  d ← get_db;
  rows ← _iter_model_keyset (selected (subject_user_id context) d) Organisation.created_at None;
  mret (organisation_record <$> rows).

End OrganisationsBySubjectMembershipExportProvider.

Module InvitesBySubjectExportProvider.

Definition provider_key : string := "invites.by_subject_email_or_revoker".
Definition table_name : string := "invites".

Definition selected (u : UUID) (subject_email : option string) (i : Invite.t) : bool :=
  is_user u (Invite.revoked_by_user_id i)
  || match subject_email with None => false | Some email => sql_email_is email (Invite.email i) end.

Definition _is_revoker_only_record (row : Invite.t) (subject_email : option string) : bool :=
  match Invite.revoked_by_user_id row with
  | None => false
  | Some _ =>
      match subject_email with
      | None => true
      | Some email => negb (String.eqb (Text.lower (Text.strip (Invite.email row))) email)
      end
  end.

Definition _subject_invite_record (row : Invite.t) (context : PrivacyProviderContext)
    : PrivacyExportRecord :=
  let '(payload, redacted_fields) :=
    _include_or_minimise_actor_field "revoked_by_user_id" (Invite.revoked_by_user_id row)
      (subject_user_id context) "has_revoker"
      ([("id"%string, PUuid (Invite.id row)); ("email"%string, PText (Invite.email row));
        ("organisation_id"%string, PUuid (Invite.organisation_id row));
        ("role"%string, PText (MembershipRole.value (Invite.role row)));
        ("status"%string, PText (InviteStatus.value (Invite.status row)));
        ("expires_at"%string, optional PDatetime (Invite.expires_at row));
        ("revoked_at"%string, optional PDatetime (Invite.revoked_at row));
        ("created_at"%string, PDatetime (Invite.created_at row));
        ("updated_at"%string, PDatetime (Invite.updated_at row))],
       ["token_hash"%string]) in
  _record provider_key table_name PrivacyExportRecordKind.DATA payload redacted_fields.

Definition _revoker_reference_record (row : Invite.t) : PrivacyExportRecord :=
  _record provider_key table_name PrivacyExportRecordKind.REFERENCE
    [("id"%string, PUuid (Invite.id row));
     ("revoked_by_user_id"%string, optional PUuid (Invite.revoked_by_user_id row));
     ("status"%string, PText (InviteStatus.value (Invite.status row)));
     ("revoked_at"%string, optional PDatetime (Invite.revoked_at row));
     ("created_at"%string, PDatetime (Invite.created_at row));
     ("updated_at"%string, PDatetime (Invite.updated_at row))]
    ["email"; "organisation_id"; "role"; "expires_at"; "token_hash"]%string.

Definition record_of (context : PrivacyProviderContext) (subject_email : option string)
    (row : Invite.t) : PrivacyExportRecord :=
  if _is_revoker_only_record row subject_email then _revoker_reference_record row
  else _subject_invite_record row context.

Definition iter_export_records (context : PrivacyProviderContext) : M Db (list PrivacyExportRecord) :=
  subject_email ← _get_subject_email (subject_user_id context);
  rows ← _iter_model_keyset (selected (subject_user_id context) subject_email) Invite.created_at None;
  mret (record_of context subject_email <$> rows).

End InvitesBySubjectExportProvider.

Definition _EXPORTED_OUTBOX_KEYS : list string :=
  ["invite_id"; "organisation_id"; "purpose"; "role"]%string.

Definition _REDACTED_OUTBOX_KEYS : list string := ["email"; "encrypted_raw_token"]%string.

(** [sorted(keys)] of a set of keys *)
Definition sorted_keys (keys : list string) : list string := merge_sort string_le (remove_dups keys).

Definition _outbox_payload_reference (payload : json) : list (string * json) * list string :=
  match payload with
  | JObj fields =>
      (List.filter (fun kv => bool_decide (kv.1 ∈ _EXPORTED_OUTBOX_KEYS)) fields,
       (fun key => ("payload_json." ++ key)%string) <$>
         sorted_keys (List.filter (fun key => bool_decide (key ∈ fields.*1)) _REDACTED_OUTBOX_KEYS))
  | _ => ([], [])
  end.

Definition _SAFE_AUDIT_METADATA_KEYS : list string :=
  ["organisation_id"; "invite_role"; "invite_status_before"; "request_type"; "status"; "format"]%string.

Definition _safe_audit_metadata (metadata : option json) : list (string * json) * list string :=
  match metadata with
  | Some (JObj fields) =>
      (List.filter (fun kv => bool_decide (kv.1 ∈ _SAFE_AUDIT_METADATA_KEYS)) fields,
       (fun key => ("metadata_json." ++ key)%string) <$>
         sorted_keys (List.filter (fun key => negb (bool_decide (key ∈ _SAFE_AUDIT_METADATA_KEYS)))
           fields.*1))
  | _ => ([], [])
  end.

Module OutboxSubjectReferencesExportProvider.

Definition provider_key : string := "outbox.subject_references".
Definition table_name : string := "outbox_events".

Definition selected (subject_email : string) (d : Db) (e : OutboxEvent.t) : bool :=
  match OutboxEvent.aggregate_id e with
  | None => false
  | Some k => bool_decide (k ∈ Invite.id <$>
                rows_where d (fun i => sql_email_is subject_email (Invite.email i)))
  end
  || match payload_email (OutboxEvent.payload_json e) with
     | None => false
     | Some x => sql_email_is subject_email x
     end.

Definition outbox_record (row : OutboxEvent.t) : PrivacyExportRecord :=
  let '(payload_reference, redacted_payload_fields) :=
    _outbox_payload_reference (OutboxEvent.payload_json row) in
  _record provider_key table_name PrivacyExportRecordKind.REFERENCE
    [("id"%string, PUuid (OutboxEvent.id row));
     ("event_type"%string, PText (OutboxEvent.event_type row));
     ("aggregate_type"%string, optional PText (OutboxEvent.aggregate_type row));
     ("aggregate_id"%string, optional PUuid (OutboxEvent.aggregate_id row));
     ("status"%string, PText (OutboxStatus.value (OutboxEvent.status row)));
     ("attempts"%string, PInt (OutboxEvent.attempts row));
     ("max_attempts"%string, PInt (OutboxEvent.max_attempts row));
     ("next_attempt_at"%string, optional PDatetime (OutboxEvent.next_attempt_at row));
     ("locked_at"%string, optional PDatetime (OutboxEvent.locked_at row));
     ("processed_at"%string, optional PDatetime (OutboxEvent.processed_at row));
     ("payload_reference"%string, PJson (JObj payload_reference));
     ("created_at"%string, PDatetime (OutboxEvent.created_at row));
     ("updated_at"%string, PDatetime (OutboxEvent.updated_at row))]
    ("last_error"%string :: redacted_payload_fields).

Definition iter_export_records (context : PrivacyProviderContext) : M Db (list PrivacyExportRecord) :=
  subject_email ← _get_subject_email (subject_user_id context);
  match subject_email with
  | None => mret []
  | Some email =>
      d ← get_db;
      rows ← _iter_model_keyset (selected email d) OutboxEvent.created_at None;
      mret (outbox_record <$> rows)
  end.

End OutboxSubjectReferencesExportProvider.

(** *** The events of the audit log that concern the subject *)
Definition targets_one (t : AuditTargetType.t) (ids : list UUID) (e : AuditEvent.t) : bool :=
  String.eqb (AuditEvent.target_type e) (AuditTargetType.value t)
  && match AuditEvent.target_id e with None => false | Some k => bool_decide (k ∈ ids) end.

Definition _subject_audit_target_dsr_conditions (u : UUID) (r : DataSubjectRequest.t) : bool :=
  is_user u (DataSubjectRequest.subject_user_id r)
  || is_user u (DataSubjectRequest.requester_user_id r)
  || is_user u (DataSubjectRequest.representative_verified_by_user_id r).

(** [select(func.lower(func.trim(User.email))).where(User.id == u)] as a scalar: at most
    one row has the key. *)
Definition sql_subject_email (u : UUID) (d : Db) : option string :=
  match rows_where d (fun x => bool_decide (User.id x = u)) with
  | x :: _ => (fun e => Text.lower (sql_rtrim (sql_ltrim e))) <$> User.email x
  | [] => None
  end.

Definition ready_for_subject (u : UUID) (a : ExportArtifact.t) : bool :=
  bool_decide (ExportArtifact.status a = ExportArtifactStatus.READY)
  && (is_user u (ExportArtifact.subject_user_id a) || is_user u (ExportArtifact.requester_user_id a)).

Definition _audit_subject_conditions (u : UUID) (d : Db) (e : AuditEvent.t) : bool :=
  is_user u (AuditEvent.actor_user_id e)
  || (String.eqb (AuditEvent.target_type e) (AuditTargetType.value AuditTargetType.USER)
      && is_user u (AuditEvent.target_id e))
  || (bool_decide (AuditEvent.target_type e ∈
        [AuditTargetType.value AuditTargetType.PRIVACY_CONSENT;
         AuditTargetType.value AuditTargetType.PRIVACY_NOTICE])
      && is_user u (AuditEvent.target_id e))
  || targets_one AuditTargetType.INVITE
       (Invite.id <$> rows_where d (fun i =>
          match sql_subject_email u d with
          | None => false
          | Some email => sql_email_is email (Invite.email i)
          end)) e
  || targets_one AuditTargetType.MEMBERSHIP
       (Membership.id <$> rows_where d (fun m => bool_decide (Membership.user_id m = u))) e
  || targets_one AuditTargetType.DATA_SUBJECT_REQUEST
       (DataSubjectRequest.id <$> rows_where d (_subject_audit_target_dsr_conditions u)) e
  || targets_one AuditTargetType.EXPORT_ARTIFACT
       (ExportArtifact.id <$> rows_where d (ready_for_subject u)) e
  || targets_one AuditTargetType.PLATFORM_STAFF
       (PlatformStaff.id <$> rows_where d (fun s => bool_decide (PlatformStaff.user_id s = u))) e.

Module AuditSubjectEventsExportProvider.

Definition provider_key : string := "audit.subject_actor_or_target_join_events".
Definition table_name : string := "audit_events".

Definition when_some {A} (x : option A) (name : string) : list string :=
  match x with None => [] | Some _ => [name] end.

Definition _audit_record (row : AuditEvent.t) (context : PrivacyProviderContext)
    : PrivacyExportRecord :=
  let '(metadata, redacted_metadata) := _safe_audit_metadata (AuditEvent.metadata_json row) in
  let payload :=
    [("id"%string, PUuid (AuditEvent.id row));
     ("category"%string, PText (AuditEvent.category row));
     ("action"%string, PText (AuditEvent.action row));
     ("target_type"%string, PText (AuditEvent.target_type row));
     ("target_id"%string, optional PUuid (AuditEvent.target_id row));
     ("metadata_json"%string, PJson (JObj metadata));
     ("created_at"%string, PDatetime (AuditEvent.created_at row))] in
  let redacted_fields :=
    when_some (AuditEvent.reason row) "reason"
    ++ when_some (AuditEvent.legal_hold_until row) "legal_hold_until" ++ redacted_metadata in
  if is_user (subject_user_id context) (AuditEvent.actor_user_id row)
  then _record provider_key table_name PrivacyExportRecordKind.DATA
         (payload ++
          [("actor_user_id"%string, optional PUuid (AuditEvent.actor_user_id row));
           ("ip_address"%string, optional PText (AuditEvent.ip_address row));
           ("user_agent"%string, optional PText (AuditEvent.user_agent row))])
         redacted_fields
  else _record provider_key table_name PrivacyExportRecordKind.DATA
         (payload ++ [("has_actor"%string, PBool (negb (is_None (AuditEvent.actor_user_id row))))])
         (redacted_fields ++ ["actor_user_id"; "ip_address"; "user_agent"]%string).

Definition iter_export_records (context : PrivacyProviderContext) : M Db (list PrivacyExportRecord) :=
  d ← get_db;
  rows ← _iter_model_keyset (_audit_subject_conditions (subject_user_id context) d)
    AuditEvent.created_at None;
  mret ((fun row => _audit_record row context) <$> rows).

End AuditSubjectEventsExportProvider.

Module PlatformStaffBySubjectExportProvider.

Definition provider_key : string := "platform_staff.by_subject_or_creator".
Definition table_name : string := "platform_staff".

Definition selected (u : UUID) (s : PlatformStaff.t) : bool :=
  bool_decide (PlatformStaff.user_id s = u) || is_user u (PlatformStaff.created_by_user_id s).

Definition _is_creator_only_record (row : PlatformStaff.t) (context : PrivacyProviderContext) : bool :=
  is_user (subject_user_id context) (PlatformStaff.created_by_user_id row)
  && negb (bool_decide (PlatformStaff.user_id row = subject_user_id context)).

Definition _subject_staff_record (row : PlatformStaff.t) (context : PrivacyProviderContext)
    : PrivacyExportRecord :=
  let '(payload, redacted_fields) :=
    _include_or_minimise_actor_field "created_by_user_id" (PlatformStaff.created_by_user_id row)
      (subject_user_id context) "has_creator"
      ([("id"%string, PUuid (PlatformStaff.id row));
        ("user_id"%string, PUuid (PlatformStaff.user_id row));
        ("role"%string, PText (PlatformStaff.role row));
        ("status"%string, PText (PlatformStaff.status row));
        ("suspended_at"%string, optional PDatetime (PlatformStaff.suspended_at row));
        ("created_at"%string, PDatetime (PlatformStaff.created_at row));
        ("updated_at"%string, PDatetime (PlatformStaff.updated_at row))],
       ["suspended_reason"%string]) in
  _record provider_key table_name PrivacyExportRecordKind.DATA payload redacted_fields.

Definition _creator_reference_record (row : PlatformStaff.t) : PrivacyExportRecord :=
  _record provider_key table_name PrivacyExportRecordKind.REFERENCE
    [("id"%string, PUuid (PlatformStaff.id row));
     ("created_by_user_id"%string, optional PUuid (PlatformStaff.created_by_user_id row));
     ("created_at"%string, PDatetime (PlatformStaff.created_at row));
     ("updated_at"%string, PDatetime (PlatformStaff.updated_at row))]
    ["user_id"; "role"; "status"; "suspended_at"; "suspended_reason"]%string.

Definition record_of (context : PrivacyProviderContext) (row : PlatformStaff.t) : PrivacyExportRecord :=
  if _is_creator_only_record row context then _creator_reference_record row
  else _subject_staff_record row context.

Definition iter_export_records (context : PrivacyProviderContext) : M Db (list PrivacyExportRecord) :=
  rows ← _iter_model_keyset (selected (subject_user_id context)) PlatformStaff.created_at None;
  mret (record_of context <$> rows).

End PlatformStaffBySubjectExportProvider.

Module DsrWorkflowRecordsExportProvider.

Definition provider_key : string := "dsr.workflow_records".
Definition table_name : string := "data_subject_requests".

Definition _subject_workflow_dsr_conditions (u : UUID) (r : DataSubjectRequest.t) : bool :=
  is_user u (DataSubjectRequest.subject_user_id r)
  || is_user u (DataSubjectRequest.requester_user_id r)
  || is_user u (DataSubjectRequest.reviewer_user_id r)
  || is_user u (DataSubjectRequest.representative_verified_by_user_id r).

Definition _is_reference_only_record (row : DataSubjectRequest.t) (context : PrivacyProviderContext)
    : bool :=
  let u := subject_user_id context in
  let is_subject_or_requester :=
    is_user u (DataSubjectRequest.subject_user_id row)
    || is_user u (DataSubjectRequest.requester_user_id row) in
  let is_review_actor :=
    is_user u (DataSubjectRequest.reviewer_user_id row)
    || is_user u (DataSubjectRequest.representative_verified_by_user_id row) in
  is_review_actor && negb is_subject_or_requester.

(** The last two calls, which both kinds of record make. *)
Definition with_reviewers (row : DataSubjectRequest.t) (context : PrivacyProviderContext)
    (pr : list (string * py_value) * list string) : list (string * py_value) * list string :=
  _include_or_minimise_actor_field "representative_verified_by_user_id"
    (DataSubjectRequest.representative_verified_by_user_id row) (subject_user_id context)
    "has_representative_verifier"
    (_include_or_minimise_actor_field "reviewer_user_id" (DataSubjectRequest.reviewer_user_id row)
       (subject_user_id context) "has_reviewer" pr).

Definition _subject_request_record (row : DataSubjectRequest.t) (context : PrivacyProviderContext)
    : PrivacyExportRecord :=
  let '(payload, redacted_fields) :=
    with_reviewers row context
      (_include_or_minimise_actor_field "subject_user_id" (DataSubjectRequest.subject_user_id row)
         (subject_user_id context) "has_subject"
         (_include_or_minimise_actor_field "requester_user_id"
            (DataSubjectRequest.requester_user_id row) (subject_user_id context) "has_requester"
            ([("id"%string, PUuid (DataSubjectRequest.id row));
              ("request_type"%string, PText (DataSubjectRequestType.value (DataSubjectRequest.request_type row)));
              ("status"%string, PText (DataSubjectRequestStatus.value (DataSubjectRequest.status row)));
              ("execution_status"%string, PText (DataSubjectRequestExecutionStatus.value (DataSubjectRequest.execution_status row)));
              ("requester_role"%string, PText (DataSubjectRequestRequesterRole.value (DataSubjectRequest.requester_role row)));
              ("representative_status"%string, PText (DataSubjectRequestRepresentativeStatus.value (DataSubjectRequest.representative_status row)));
              ("representative_relationship"%string, optional PText (DataSubjectRequest.representative_relationship row));
              ("representative_authority_note"%string, optional PText (DataSubjectRequest.representative_authority_note row));
              ("representative_verified_at"%string, optional PDatetime (DataSubjectRequest.representative_verified_at row));
              ("representative_rejection_reason_code"%string, optional PText (DataSubjectRequest.representative_rejection_reason_code row));
              ("submitted_at"%string, PDatetime (DataSubjectRequest.submitted_at row));
              ("acknowledged_at"%string, optional PDatetime (DataSubjectRequest.acknowledged_at row));
              ("reviewed_at"%string, optional PDatetime (DataSubjectRequest.reviewed_at row));
              ("decided_at"%string, optional PDatetime (DataSubjectRequest.decided_at row));
              ("fulfilled_at"%string, optional PDatetime (DataSubjectRequest.fulfilled_at row));
              ("cancelled_at"%string, optional PDatetime (DataSubjectRequest.cancelled_at row));
              ("execution_started_at"%string, optional PDatetime (DataSubjectRequest.execution_started_at row));
              ("execution_completed_at"%string, optional PDatetime (DataSubjectRequest.execution_completed_at row));
              ("execution_failed_at"%string, optional PDatetime (DataSubjectRequest.execution_failed_at row));
              ("execution_failure_reason_code"%string, optional PText (DataSubjectRequest.execution_failure_reason_code row));
              ("decision_reason_code"%string, optional PText (DataSubjectRequest.decision_reason_code row));
              ("rejection_reason_code"%string, optional PText (DataSubjectRequest.rejection_reason_code row));
              ("extension_reason_code"%string, optional PText (DataSubjectRequest.extension_reason_code row));
              ("requester_note"%string, optional PText (DataSubjectRequest.requester_note row));
              ("due_at"%string, PDatetime (DataSubjectRequest.due_at row));
              ("extended_until"%string, optional PDatetime (DataSubjectRequest.extended_until row));
              ("created_at"%string, PDatetime (DataSubjectRequest.created_at row));
              ("updated_at"%string, PDatetime (DataSubjectRequest.updated_at row))],
             ["internal_note"; "idempotency_key_hash"; "idempotency_fingerprint";
              "idempotency_key_expires_at"; "execution_failure_detail"]%string))) in
  _record provider_key table_name PrivacyExportRecordKind.DATA payload redacted_fields.

Definition _reference_record (row : DataSubjectRequest.t) (context : PrivacyProviderContext)
    : PrivacyExportRecord :=
  let '(payload, redacted_fields) :=
    with_reviewers row context
      ([("id"%string, PUuid (DataSubjectRequest.id row));
        ("status"%string, PText (DataSubjectRequestStatus.value (DataSubjectRequest.status row)));
        ("execution_status"%string, PText (DataSubjectRequestExecutionStatus.value (DataSubjectRequest.execution_status row)));
        ("reviewed_at"%string, optional PDatetime (DataSubjectRequest.reviewed_at row));
        ("decided_at"%string, optional PDatetime (DataSubjectRequest.decided_at row));
        ("fulfilled_at"%string, optional PDatetime (DataSubjectRequest.fulfilled_at row));
        ("cancelled_at"%string, optional PDatetime (DataSubjectRequest.cancelled_at row));
        ("created_at"%string, PDatetime (DataSubjectRequest.created_at row));
        ("updated_at"%string, PDatetime (DataSubjectRequest.updated_at row))],
       ["request_type"; "requester_user_id"; "subject_user_id"; "submitted_at"; "acknowledged_at";
        "due_at"; "extended_until"; "decision_reason_code"; "rejection_reason_code";
        "extension_reason_code"; "requester_note"; "requester_role"; "representative_status";
        "representative_relationship"; "representative_authority_note";
        "representative_verified_at"; "representative_rejection_reason_code"; "internal_note";
        "idempotency_key_hash"; "idempotency_fingerprint"; "idempotency_key_expires_at";
        "execution_failure_detail"; "execution_failure_reason_code"]%string) in
  _record provider_key table_name PrivacyExportRecordKind.REFERENCE payload redacted_fields.

Definition record_of (context : PrivacyProviderContext) (row : DataSubjectRequest.t)
    : PrivacyExportRecord :=
  if _is_reference_only_record row context then _reference_record row context
  else _subject_request_record row context.

Definition iter_export_records (context : PrivacyProviderContext) : M Db (list PrivacyExportRecord) :=
  rows ← _iter_model_keyset (_subject_workflow_dsr_conditions (subject_user_id context))
    DataSubjectRequest.created_at None;
  mret (record_of context <$> rows).

End DsrWorkflowRecordsExportProvider.

Module ExportArtifactMetadataExportProvider.

Definition provider_key : string := "export_artifacts.subject_or_actor_metadata".
Definition table_name : string := "export_artifacts".

Definition selected (u : UUID) (a : ExportArtifact.t) : bool :=
  bool_decide (ExportArtifact.status a = ExportArtifactStatus.READY)
  && (is_user u (ExportArtifact.subject_user_id a) || is_user u (ExportArtifact.requester_user_id a)
      || is_user u (ExportArtifact.requested_by_user_id a)
      || is_user u (ExportArtifact.generated_by_user_id a)).

Definition _is_actor_only_record (row : ExportArtifact.t) (context : PrivacyProviderContext) : bool :=
  let u := subject_user_id context in
  negb (is_user u (ExportArtifact.subject_user_id row))
  && negb (is_user u (ExportArtifact.requester_user_id row))
  && (is_user u (ExportArtifact.requested_by_user_id row)
      || is_user u (ExportArtifact.generated_by_user_id row)).

Definition _subject_artifact_record (row : ExportArtifact.t) (context : PrivacyProviderContext)
    : PrivacyExportRecord :=
  let '(payload, redacted_fields) :=
    _include_or_minimise_actor_field "generated_by_user_id" (ExportArtifact.generated_by_user_id row)
      (subject_user_id context) "has_generated_by"
      (_include_or_minimise_actor_field "requested_by_user_id"
         (ExportArtifact.requested_by_user_id row) (subject_user_id context) "has_requested_by"
         ([("id"%string, PUuid (ExportArtifact.id row));
           ("data_subject_request_id"%string, PUuid (ExportArtifact.data_subject_request_id row));
           ("subject_user_id"%string, optional PUuid (ExportArtifact.subject_user_id row));
           ("requester_user_id"%string, optional PUuid (ExportArtifact.requester_user_id row));
           ("status"%string, PText (ExportArtifactStatus.value (ExportArtifact.status row)));
           ("format"%string, PText (ExportArtifactFormat.value (ExportArtifact.format row)));
           ("storage_backend"%string, PText (ExportArtifactStorageBackend.value (ExportArtifact.storage_backend row)));
           ("filename"%string, optional PText (ExportArtifact.filename row));
           ("content_type"%string, optional PText (ExportArtifact.content_type row));
           ("size_bytes"%string, optional PInt (ExportArtifact.size_bytes row));
           ("checksum_sha256"%string, optional PText (ExportArtifact.checksum_sha256 row));
           ("schema_version"%string, PText (ExportArtifact.schema_version row));
           ("failure_reason_code"%string, optional PText (ExportArtifact.failure_reason_code row));
           ("queued_at"%string, PDatetime (ExportArtifact.queued_at row));
           ("started_at"%string, optional PDatetime (ExportArtifact.started_at row));
           ("completed_at"%string, optional PDatetime (ExportArtifact.completed_at row));
           ("failed_at"%string, optional PDatetime (ExportArtifact.failed_at row));
           ("expires_at"%string, PDatetime (ExportArtifact.expires_at row));
           ("download_url_issued_at"%string, optional PDatetime (ExportArtifact.download_url_issued_at row));
           ("download_url_issue_count"%string, PInt (ExportArtifact.download_url_issue_count row));
           ("downloaded_at"%string, optional PDatetime (ExportArtifact.downloaded_at row));
           ("download_count"%string, PInt (ExportArtifact.download_count row));
           ("created_at"%string, PDatetime (ExportArtifact.created_at row));
           ("updated_at"%string, PDatetime (ExportArtifact.updated_at row))],
          ["storage_key"; "processing_token"; "processing_lease_expires_at"; "failure_detail"]%string)) in
  _record provider_key table_name PrivacyExportRecordKind.DATA payload redacted_fields.

(** An actor column, kept when it names the subject. *)
Definition own_or_none (u : UUID) (x : option UUID) : option UUID := if is_user u x then x else None.

Definition _actor_reference_record (row : ExportArtifact.t) (context : PrivacyProviderContext)
    : PrivacyExportRecord :=
  let u := subject_user_id context in
  _record provider_key table_name PrivacyExportRecordKind.REFERENCE
    [("id"%string, PUuid (ExportArtifact.id row));
     ("requested_by_user_id"%string,
      optional PUuid (own_or_none u (ExportArtifact.requested_by_user_id row)));
     ("generated_by_user_id"%string,
      optional PUuid (own_or_none u (ExportArtifact.generated_by_user_id row)));
     ("status"%string, PText (ExportArtifactStatus.value (ExportArtifact.status row)));
     ("format"%string, PText (ExportArtifactFormat.value (ExportArtifact.format row)));
     ("storage_backend"%string, PText (ExportArtifactStorageBackend.value (ExportArtifact.storage_backend row)));
     ("failure_reason_code"%string, optional PText (ExportArtifact.failure_reason_code row));
     ("queued_at"%string, PDatetime (ExportArtifact.queued_at row));
     ("started_at"%string, optional PDatetime (ExportArtifact.started_at row));
     ("completed_at"%string, optional PDatetime (ExportArtifact.completed_at row));
     ("failed_at"%string, optional PDatetime (ExportArtifact.failed_at row));
     ("expires_at"%string, PDatetime (ExportArtifact.expires_at row));
     ("download_url_issued_at"%string, optional PDatetime (ExportArtifact.download_url_issued_at row));
     ("download_url_issue_count"%string, PInt (ExportArtifact.download_url_issue_count row));
     ("downloaded_at"%string, optional PDatetime (ExportArtifact.downloaded_at row));
     ("download_count"%string, PInt (ExportArtifact.download_count row));
     ("created_at"%string, PDatetime (ExportArtifact.created_at row));
     ("updated_at"%string, PDatetime (ExportArtifact.updated_at row))]
    ["data_subject_request_id"; "subject_user_id"; "requester_user_id"; "filename"; "content_type";
     "size_bytes"; "checksum_sha256"; "schema_version"; "storage_key"; "processing_token";
     "processing_lease_expires_at"; "failure_detail"]%string.

Definition record_of (context : PrivacyProviderContext) (row : ExportArtifact.t) : PrivacyExportRecord :=
  if _is_actor_only_record row context then _actor_reference_record row context
  else _subject_artifact_record row context.

Definition iter_export_records (context : PrivacyProviderContext) : M Db (list PrivacyExportRecord) :=
  rows ← _iter_model_keyset (selected (subject_user_id context)) ExportArtifact.created_at None;
  mret (record_of context <$> rows).

End ExportArtifactMetadataExportProvider.

Definition _purpose_payload (purpose : ProcessingPurpose.t) : list (string * py_value) :=
  [("id"%string, PUuid (ProcessingPurpose.id purpose));
   ("code"%string, PText (ProcessingPurpose.code purpose));
   ("title"%string, PText (ProcessingPurpose.title purpose));
   ("family"%string, PText (ProcessingPurpose.family purpose));
   ("default_lawful_basis"%string, PText (ProcessingPurpose.default_lawful_basis purpose));
   ("is_special_category"%string, PBool (ProcessingPurpose.is_special_category purpose));
   ("default_special_category_condition"%string, optional PText (ProcessingPurpose.default_special_category_condition purpose));
   ("requires_active_consent"%string, PBool (ProcessingPurpose.requires_active_consent purpose));
   ("active"%string, PBool (ProcessingPurpose.active purpose))].

Definition purpose_value (purpose : ProcessingPurpose.t) : py_value :=
  PJson (JObj (fields_of (_purpose_payload purpose))).

Module ProcessingAuthorizationsExportProvider.

Definition provider_key : string := "privacy_governance.authorizations".
Definition table_name : string := "data_processing_authorizations".

Definition selected (u : UUID) (a : DataProcessingAuthorization.t) : bool :=
  bool_decide (DataProcessingAuthorization.subject_user_id a = u).

Definition authorization_record (row : DataProcessingAuthorization.t * ProcessingPurpose.t)
    : PrivacyExportRecord :=
  let '(authorization, purpose) := row in
  _record provider_key table_name PrivacyExportRecordKind.DATA
    [("id"%string, PUuid (DataProcessingAuthorization.id authorization));
     ("subject_user_id"%string, PUuid (DataProcessingAuthorization.subject_user_id authorization));
     ("purpose_id"%string, PUuid (DataProcessingAuthorization.purpose_id authorization));
     ("purpose"%string, purpose_value purpose);
     ("lawful_basis"%string, PText (DataProcessingAuthorization.lawful_basis authorization));
     ("special_category_condition"%string, optional PText (DataProcessingAuthorization.special_category_condition authorization));
     ("active"%string, PBool (DataProcessingAuthorization.active authorization));
     ("source"%string, optional PText (DataProcessingAuthorization.source authorization));
     ("valid_from"%string, PDatetime (DataProcessingAuthorization.valid_from authorization));
     ("valid_until"%string, optional PDatetime (DataProcessingAuthorization.valid_until authorization));
     ("revoked_at"%string, optional PDatetime (DataProcessingAuthorization.revoked_at authorization));
     ("created_at"%string, PDatetime (DataProcessingAuthorization.created_at authorization));
     ("updated_at"%string, PDatetime (DataProcessingAuthorization.updated_at authorization))]
    [].

Definition iter_export_records (context : PrivacyProviderContext) : M Db (list PrivacyExportRecord) :=
  rows ← _iter_row_keyset (selected (subject_user_id context)) DataProcessingAuthorization.purpose_id
    DataProcessingAuthorization.created_at None;
  mret (authorization_record <$> rows).

End ProcessingAuthorizationsExportProvider.

Module ConsentRecordsExportProvider.

Definition provider_key : string := "privacy_governance.consent_records".
Definition table_name : string := "consent_records".

Definition selected (u : UUID) (c : ConsentRecord.t) : bool :=
  bool_decide (ConsentRecord.subject_user_id c = u).

Definition consent_record (row : ConsentRecord.t * ProcessingPurpose.t) : PrivacyExportRecord :=
  let '(consent, purpose) := row in
  _record provider_key table_name PrivacyExportRecordKind.DATA
    [("id"%string, PUuid (ConsentRecord.id consent));
     ("subject_user_id"%string, PUuid (ConsentRecord.subject_user_id consent));
     ("purpose_id"%string, PUuid (ConsentRecord.purpose_id consent));
     ("purpose"%string, purpose_value purpose);
     ("authorization_id"%string, optional PUuid (ConsentRecord.authorization_id consent));
     ("privacy_notice_version"%string, PText (ConsentRecord.privacy_notice_version consent));
     ("granted_at"%string, PDatetime (ConsentRecord.granted_at consent));
     ("withdrawn_at"%string, optional PDatetime (ConsentRecord.withdrawn_at consent));
     ("withdrawal_reason_code"%string, optional PText (ConsentRecord.withdrawal_reason_code consent));
     ("created_at"%string, PDatetime (ConsentRecord.created_at consent));
     ("updated_at"%string, PDatetime (ConsentRecord.updated_at consent))]
    [].

Definition iter_export_records (context : PrivacyProviderContext) : M Db (list PrivacyExportRecord) :=
  rows ← _iter_row_keyset (selected (subject_user_id context)) ConsentRecord.purpose_id
    ConsentRecord.created_at None;
  mret (consent_record <$> rows).

End ConsentRecordsExportProvider.

Module PrivacyNoticeAcceptancesExportProvider.

Definition provider_key : string := "privacy_governance.notice_acceptances".
Definition table_name : string := "privacy_notice_acceptances".

Definition selected (u : UUID) (a : PrivacyNoticeAcceptance.t) : bool :=
  bool_decide (PrivacyNoticeAcceptance.subject_user_id a = u).

Definition acceptance_record (row : PrivacyNoticeAcceptance.t) : PrivacyExportRecord :=
  _record provider_key table_name PrivacyExportRecordKind.DATA
    [("id"%string, PUuid (PrivacyNoticeAcceptance.id row));
     ("subject_user_id"%string, PUuid (PrivacyNoticeAcceptance.subject_user_id row));
     ("notice_version"%string, PText (PrivacyNoticeAcceptance.notice_version row));
     ("accepted_at"%string, PDatetime (PrivacyNoticeAcceptance.accepted_at row));
     ("source"%string, optional PText (PrivacyNoticeAcceptance.source row));
     ("created_at"%string, PDatetime (PrivacyNoticeAcceptance.created_at row));
     ("updated_at"%string, PDatetime (PrivacyNoticeAcceptance.updated_at row))]
    [].

Definition iter_export_records (context : PrivacyProviderContext) : M Db (list PrivacyExportRecord) :=
  rows ← _iter_model_keyset (selected (subject_user_id context)) PrivacyNoticeAcceptance.accepted_at
    None;
  mret (acceptance_record <$> rows).

End PrivacyNoticeAcceptancesExportProvider.

(** A provider: its key and its records. *)
Record provider := mkProvider {
  key_of : string;
  iter_export_records : PrivacyProviderContext -> M Db (list PrivacyExportRecord);
}.

Definition _EXPORT_PROVIDER_TYPES : list provider :=
  [mkProvider UserProfileExportProvider.provider_key
     UserProfileExportProvider.iter_export_records;
   mkProvider MembershipsBySubjectExportProvider.provider_key
     MembershipsBySubjectExportProvider.iter_export_records;
   mkProvider OrganisationsBySubjectMembershipExportProvider.provider_key
     OrganisationsBySubjectMembershipExportProvider.iter_export_records;
   mkProvider InvitesBySubjectExportProvider.provider_key
     InvitesBySubjectExportProvider.iter_export_records;
   mkProvider OutboxSubjectReferencesExportProvider.provider_key
     OutboxSubjectReferencesExportProvider.iter_export_records;
   mkProvider AuditSubjectEventsExportProvider.provider_key
     AuditSubjectEventsExportProvider.iter_export_records;
   mkProvider PlatformStaffBySubjectExportProvider.provider_key
     PlatformStaffBySubjectExportProvider.iter_export_records;
   mkProvider DsrWorkflowRecordsExportProvider.provider_key
     DsrWorkflowRecordsExportProvider.iter_export_records;
   mkProvider ExportArtifactMetadataExportProvider.provider_key
     ExportArtifactMetadataExportProvider.iter_export_records;
   mkProvider ProcessingAuthorizationsExportProvider.provider_key
     ProcessingAuthorizationsExportProvider.iter_export_records;
   mkProvider ConsentRecordsExportProvider.provider_key
     ConsentRecordsExportProvider.iter_export_records;
   mkProvider PrivacyNoticeAcceptancesExportProvider.provider_key
     PrivacyNoticeAcceptancesExportProvider.iter_export_records].

Definition _serialise_record (record : PrivacyExportRecord) : json :=
  JObj [("record_kind"%string, JStr (PrivacyExportRecordKind.value (record_kind record)));
        ("table_name"%string, JStr (table_name record));
        ("payload"%string, JObj (payload record));
        ("redacted_fields"%string, JArr (JStr <$> redacted_fields record))].

(** The notices of a record's redacted fields. *)
Definition redaction_notices (record : PrivacyExportRecord) : list json :=
  match redacted_fields record with
  | [] => []
  | _ =>
      [JObj [("provider_key"%string, JStr (ProviderBase.provider_key record));
             ("table_name"%string, JStr (table_name record));
             ("redacted_fields"%string, JArr (JStr <$> redacted_fields record));
             ("reason_code"%string, JStr "non_exportable_or_review_required")]]
  end.

(** [except SubjectDataExportError: raise / except Exception: raise SubjectDataExportError] *)
Definition provider_failure (e : exn) : exn :=
  match e with
  | ErasureError Errors.SubjectDataExportError _ => e
  | _ => SubjectDataExportError "export_provider_failed"
  end.

Definition records_of (p : provider) (context : PrivacyProviderContext)
    : M Db (list PrivacyExportRecord) :=
  try_except (iter_export_records p context) (fun exc => raise (provider_failure exc)).

Definition provider_context (context : ExportContext.t) (u : UUID) : PrivacyProviderContext :=
  mkContext (ExportContext.data_subject_request_id context) u
    (ExportContext.requester_user_id context) (ExportContext.schema_version context).

(** The fields that precede the manifest and the data. *)
Definition header_fields (context : ExportContext.t) (u : UUID) : list (string * json) :=
  [("schema_version"%string, JStr (ExportContext.schema_version context));
   ("generated_at"%string, JStr (IsoFormat.isoformat (ExportContext.generated_at context)));
   ("data_subject_request_id"%string, JStr (Uuid.str (ExportContext.data_subject_request_id context)));
   ("subject_user_id"%string, JStr (Uuid.str u));
   ("requester_user_id"%string,
    from_option (fun r => JStr (Uuid.str r)) JNull (ExportContext.requester_user_id context));
   ("request_type"%string, JStr (DataSubjectRequestType.value (ExportContext.request_type context)));
   ("request_status"%string,
    JStr (DataSubjectRequestStatus.value (ExportContext.request_status context)));
   ("artifact_id"%string, JStr (Uuid.str (ExportContext.artifact_id context)))].

Definition manifest (provider_keys : list string) (record_count : Z) (notices : list json) : json :=
  JObj [("format"%string, JStr "privacy_subject_export");
        ("provider_count"%string, JInt (Z.of_nat (length provider_keys)));
        ("record_count"%string, JInt record_count);
        ("providers"%string, JArr (JStr <$> provider_keys));
        ("redaction_notices"%string, JArr notices)].

(** What the loop over the providers has gathered. *)
Record gathered := mkGathered {
  data : list (string * json);
  notices : list json;
  record_count : Z;
}.

(** The body of the loop. *)
Definition gather_provider (context : PrivacyProviderContext) (p : provider) (g : gathered)
    : M Db gathered :=
  records ← records_of p context;
  mret (mkGathered (data g ++ [(key_of p, JArr (_serialise_record <$> records))])
    (notices g ++ (records ≫= redaction_notices))
    (record_count g + Z.of_nat (length records))).

Fixpoint gather (context : PrivacyProviderContext) (providers : list provider) (g : gathered)
    : M Db gathered :=
  match providers with
  | [] => mret g
  | p :: providers => g ← gather_provider context p g; gather context providers g
  end.

(** [CrossTableSubjectDataExporter.export_subject_data] *)
Definition export_subject_data (context : ExportContext.t) : M Db json :=
  u ← or_raise (ExportContext.subject_user_id context) (SubjectDataExportError "subject_user_missing");
  g ← gather (provider_context context u) _EXPORT_PROVIDER_TYPES (mkGathered [] [] 0);
  mret (JObj (header_fields context u ++
    [("manifest"%string, manifest (data g).*1 (record_count g) (notices g));
     ("data"%string, JObj (data g))])).

End SubjectData.
Import SubjectData.

(** ** [privacy/exporters/subject_data_stream.py] *)
Module SubjectDataStream.

Definition _json_key (value : string) : string := (Metadata.dumps_string value ++ ":")%string.

(** The encoder hands out the text of a value in pieces; only their order matters. *)
Definition _json_chunks (value : json) : list string := [JsonText.encode value].

(** [for index, (key, value) in enumerate(header_fields): ...] *)
Fixpoint header_chunks (index : nat) (fields : list (string * json)) : list string :=
  match fields with
  | [] => []
  | (key, value) :: fields =>
      (if (index =? 0)%nat then [] else [","%string]) ++ [_json_key key] ++ _json_chunks value
      ++ header_chunks (S index) fields
  end.

(** The records of one provider. *)
Fixpoint record_chunks (first_record : bool) (records : list PrivacyExportRecord) : list string :=
  match records with
  | [] => []
  | record :: records =>
      (if first_record then [] else [","%string]) ++ _json_chunks (_serialise_record record)
      ++ record_chunks false records
  end.

Record streamed := mkStreamed {
  chunks : list string;
  provider_keys : list string;
  stream_notices : list json;
  stream_count : Z;
}.

(** The body of the loop over the providers. *)
Definition stream_provider (context : PrivacyProviderContext) (provider_index : nat) (p : provider)
    (s : streamed) : M Db streamed :=
  records ← records_of p context;
  mret (mkStreamed
    (chunks s ++ (if (provider_index =? 0)%nat then [] else [","%string])
     ++ [_json_key (key_of p); "["%string] ++ record_chunks true records ++ ["]"%string])
    (provider_keys s ++ [key_of p])
    (stream_notices s ++ (records ≫= redaction_notices))
    (stream_count s + Z.of_nat (length records))).

Fixpoint stream_providers (context : PrivacyProviderContext) (provider_index : nat)
    (providers : list provider) (s : streamed) : M Db streamed :=
  match providers with
  | [] => mret s
  | p :: providers =>
      s ← stream_provider context provider_index p s;
      stream_providers context (S provider_index) providers s
  end.

(** The chunks in the order in which they are yielded. *)
Definition iter_subject_export_json_chunks (context : ExportContext.t) : M Db (list string) :=
  u ← or_raise (ExportContext.subject_user_id context) (SubjectDataExportError "subject_user_missing");
  let start := ["{"%string] ++ header_chunks 0 (header_fields context u)
    ++ [","%string; _json_key "data"; "{"%string] in
  s ← stream_providers (provider_context context u) 0 _EXPORT_PROVIDER_TYPES (mkStreamed start [] [] 0);
  mret (chunks s ++ ["}"%string; ","%string; _json_key "manifest"]
    ++ _json_chunks (manifest (provider_keys s) (stream_count s) (stream_notices s)) ++ ["}"%string]).

End SubjectDataStream.

(** ** [privacy/exporters/minimal.py] *)
Module MinimalSubjectDataExporter.

Definition export_subject_data (context : ExportContext.t) : json :=
  let text_or_null := from_option (fun u => JStr (Uuid.str u)) JNull in
  JObj
    [("schema_version"%string, JStr (ExportContext.schema_version context));
     ("generated_at"%string, JStr (IsoFormat.isoformat (ExportContext.generated_at context)));
     ("data_subject_request_id"%string, JStr (Uuid.str (ExportContext.data_subject_request_id context)));
     ("subject_user_id"%string, text_or_null (ExportContext.subject_user_id context));
     ("requester_user_id"%string, text_or_null (ExportContext.requester_user_id context));
     ("request_type"%string, JStr (DataSubjectRequestType.value (ExportContext.request_type context)));
     ("request_status"%string,
      JStr (DataSubjectRequestStatus.value (ExportContext.request_status context)));
     ("artifact_id"%string, JStr (Uuid.str (ExportContext.artifact_id context)))].

End MinimalSubjectDataExporter.
