(* ===== verification/ExportArtifacts.v ===== *)
(** Export artifacts: their lifecycle ([privacy/export_artifact_lifecycle.py]) and
    their repository ([privacy/repositories/export_artifacts.py]). *)
From S2P Require Import Prelude Errors Session Schema Tables.

(** ** [privacy/export_artifact_lifecycle.py]

    Each transition writes attributes of an artifact and returns the names of
    those it changed. Where the code draws the time, it is an argument. *)
Module ExportArtifactLifecycle.
Import ExportArtifact.

Definition SUBJECT_ERASURE_CANCELLED_EXPORT_REASON : string := "subject_erasure_requested".

(** The artifact and [changed_fields]. *)
Definition Change : Type := t * list string.

(** [_set_if_changed], for the attribute with this name, reader and writer. *)
Definition _set_if_changed {A} `{EqDecision A} (name : string) (get : t -> A)
    (set : A -> t -> t) (value : A) (c : Change) : Change :=
  if bool_decide (get c.1 = value) then c else (set value c.1, c.2 ++ [name]).

Definition set_status_to (s : ExportArtifactStatus.t) : Change -> Change :=
  _set_if_changed "status" status set_status s.

(** [_clear_fields] of the two lease columns. *)
Definition clear_lease (c : Change) : Change :=
  _set_if_changed "processing_lease_expires_at" processing_lease_expires_at
    set_processing_lease_expires_at None
    (_set_if_changed "processing_token" processing_token set_processing_token None c).

(** [_clear_fields] of [_CONTENT_METADATA_FIELDS]. *)
Definition clear_content_metadata (c : Change) : Change :=
  _set_if_changed "checksum_sha256" checksum_sha256 set_checksum_sha256 None
    (_set_if_changed "size_bytes" size_bytes set_size_bytes None
      (_set_if_changed "content_type" content_type set_content_type None
        (_set_if_changed "filename" filename set_filename None c))).

Definition mark_export_artifact_ready (completed : datetime) (artifact : t) : Change :=
  clear_lease (_set_if_changed "completed_at" completed_at set_completed_at (Some completed)
    (set_status_to ExportArtifactStatus.READY (artifact, []))).

Definition mark_export_artifact_failed (reason_code detail : string) (failed : datetime)
    (artifact : t) : Change :=
  clear_lease (_set_if_changed "failed_at" failed_at set_failed_at (Some failed)
    (_set_if_changed "failure_detail" failure_detail set_failure_detail
       (Some (Text.truncate 255 detail))
      (_set_if_changed "failure_reason_code" failure_reason_code set_failure_reason_code
         (Some reason_code)
        (set_status_to ExportArtifactStatus.FAILED (artifact, []))))).

Definition mark_export_artifact_expired (artifact : t) : Change :=
  clear_lease (set_status_to ExportArtifactStatus.EXPIRED (artifact, [])).

Definition clear_export_artifact_storage_metadata (artifact : t) : Change :=
  clear_content_metadata
    (_set_if_changed "storage_key" storage_key set_storage_key None (artifact, [])).

Definition clear_export_artifact_subject_file_metadata (artifact : t) : Change :=
  clear_lease (_set_if_changed "failure_detail" failure_detail set_failure_detail None
    (clear_content_metadata (artifact, []))).

(** The first occurrence of every name. *)
Fixpoint _unique_in_order (seen values : list string) : list string :=
  match values with
  | [] => []
  | v :: values =>
      if bool_decide (v ∈ seen) then _unique_in_order seen values
      else v :: _unique_in_order (v :: seen) values
  end.

Definition cancel_export_artifact_for_subject_erasure (reason_code : string) (artifact : t)
    : Change :=
  let c := _set_if_changed "failure_reason_code" failure_reason_code set_failure_reason_code
    (Some reason_code) (set_status_to ExportArtifactStatus.CANCELLED (artifact, [])) in
  let c' := clear_export_artifact_subject_file_metadata c.1 in
  (c'.1, _unique_in_order [] (c.2 ++ c'.2)).

End ExportArtifactLifecycle.

(** ** [privacy/repositories/export_artifacts.py] *)
Module ExportArtifactRepository.
Import ExportArtifactLifecycle.
Section Repository.
Context `{Env}.

Definition create (artifact : ExportArtifact.t) : M Db ExportArtifact.t := insert_row artifact.

Definition get_by_id (artifact_id : UUID) : M Db (option ExportArtifact.t) :=
  select_one_or_none (fun a => bool_decide (ExportArtifact.id a = artifact_id)).

Definition created_last (a a' : ExportArtifact.t) : Prop :=
  ExportArtifact.created_at a' <= ExportArtifact.created_at a.

#[global] Instance created_last_dec a a' : Decision (created_last a a').
Proof. unfold created_last. apply _. Defined.

Definition get_by_dsr_id (request_id : UUID) : M Db (list ExportArtifact.t) :=
  rows ← select (fun a => bool_decide (ExportArtifact.data_subject_request_id a = request_id));
  mret (merge_sort created_last rows).

Definition requested_by (requester_user_id : UUID) (a : ExportArtifact.t) : bool :=
  bool_decide (ExportArtifact.requester_user_id a = Some requester_user_id).

Definition list_for_requester (requester_user_id : UUID) (limit offset : nat)
    : M Db (list ExportArtifact.t) :=
  rows ← select (requested_by requester_user_id);
  mret (page limit offset (merge_sort created_last rows)).

Definition list_for_platform (limit offset : nat) : M Db (list ExportArtifact.t) :=
  rows ← select (fun _ => true); mret (page limit offset (merge_sort created_last rows)).

Definition count_for_requester (requester_user_id : UUID) : M Db nat :=
  rows ← select (requested_by requester_user_id); mret (length rows).

Definition count_for_platform : M Db nat :=
  rows ← select (R := ExportArtifact.t) (fun _ => true); mret (length rows).

Definition has_status (s : ExportArtifactStatus.t) (a : ExportArtifact.t) : bool :=
  bool_decide (ExportArtifact.status a = s).

(** [order_by(queued_at.asc()).limit(limit)] *)
Definition queued_first (limit : nat) (l : list ExportArtifact.t) : list ExportArtifact.t :=
  take limit (merge_sort (ordered_by (fun a => [ExportArtifact.queued_at a])) l).

Definition peek_queued_batch (limit : nat) : M Db (list ExportArtifact.t) :=
  rows ← select (has_status ExportArtifactStatus.QUEUED); mret (queued_first limit rows).

(** The attribute writes of a claim. *)
Definition claimed (at_time : datetime) (token : string) (lease_expires_at : datetime)
    (a : ExportArtifact.t) : ExportArtifact.t :=
  ExportArtifact.set_processing_lease_expires_at (Some lease_expires_at)
    (ExportArtifact.set_processing_token (Some token)
      (ExportArtifact.set_started_at (Some at_time)
        (ExportArtifact.set_status ExportArtifactStatus.PROCESSING a))).

Definition claim_queued_batch (limit : nat) (lease_seconds : Z) : M Db (list ExportArtifact.t) :=
  rows ← select (has_status ExportArtifactStatus.QUEUED);
  at_time ← now;
  let lease_expires_at := at_time + seconds lease_seconds in
  for_each (queued_first limit rows) (fun row =>
    token ← new_uuid;
    update_row (ExportArtifact.id row) (claimed at_time (Uuid.str token) lease_expires_at)).

Definition processing_by_token (artifact_id : UUID) (processing_token : string)
    (a : ExportArtifact.t) : bool :=
  bool_decide (ExportArtifact.id a = artifact_id)
  && has_status ExportArtifactStatus.PROCESSING a
  && bool_decide (ExportArtifact.processing_token a = Some processing_token).

Definition get_processing_by_token (artifact_id : UUID) (processing_token : string)
    : M Db (option ExportArtifact.t) :=
  select_one_or_none (processing_by_token artifact_id processing_token).

Definition renew_processing_lease (artifact_id : UUID) (processing_token : string)
    (lease_seconds : Z) : M Db bool :=
  artifact ← get_processing_by_token artifact_id processing_token;
  match artifact with
  | None => mret false
  | Some artifact =>
      n ← now;
      update_row (ExportArtifact.id artifact)
        (ExportArtifact.set_processing_lease_expires_at (Some (n + seconds lease_seconds))) ;;
      mret true
  end.

(** [processing_lease_expires_at IS NOT NULL AND processing_lease_expires_at > now] *)
Definition lease_runs (at_time : datetime) (a : ExportArtifact.t) : bool :=
  match ExportArtifact.processing_lease_expires_at a with None => false | Some e => at_time <? e end.

Definition active_processing (artifact_id : UUID) (processing_token : string) (at_time : datetime)
    (a : ExportArtifact.t) : bool :=
  processing_by_token artifact_id processing_token a && lease_runs at_time a.

(** The filters of [get_active_processing_upload_intent]. *)
Definition active_upload_intent (artifact_id : UUID) (processing_token : string)
    (at_time : datetime) (storage_backend : option ExportArtifactStorageBackend.t)
    (storage_key : option string) (a : ExportArtifact.t) : bool :=
  active_processing artifact_id processing_token at_time a
  && negb (is_None (ExportArtifact.storage_key a))
  && match storage_backend with
     | None => true
     | Some b => bool_decide (ExportArtifact.storage_backend a = b)
     end
  && match storage_key with
     | None => true
     | Some k => bool_decide (ExportArtifact.storage_key a = Some k)
     end.

Definition get_active_processing_upload_intent (artifact_id : UUID) (processing_token : string)
    (at_time : datetime) (storage_backend : option ExportArtifactStorageBackend.t)
    (storage_key : option string) : M Db (option ExportArtifact.t) :=
  select_one_or_none
    (active_upload_intent artifact_id processing_token at_time storage_backend storage_key).

(** The five columns of an upload intent. *)
Definition with_upload_intent (storage_key filename content_type : option string)
    (size_bytes : option Z) (checksum_sha256 : option string) (a : ExportArtifact.t)
    : ExportArtifact.t :=
  ExportArtifact.set_checksum_sha256 checksum_sha256 (ExportArtifact.set_size_bytes size_bytes
    (ExportArtifact.set_content_type content_type (ExportArtifact.set_filename filename
      (ExportArtifact.set_storage_key storage_key a)))).

Definition ensure_processing_upload_intent (artifact_id : UUID) (processing_token : string)
    (candidate_storage_key filename content_type : string) (size_bytes : Z)
    (checksum_sha256 : string) (at_time : datetime) : M Db (option ExportArtifact.t) :=
  update_where (fun a =>
      active_processing artifact_id processing_token at_time a
      && is_None (ExportArtifact.storage_key a))
    (with_upload_intent (Some candidate_storage_key) (Some filename) (Some content_type)
       (Some size_bytes) (Some checksum_sha256)) ;;
  get_active_processing_upload_intent artifact_id processing_token at_time None None.

Definition reset_processing_upload_intent (artifact_id : UUID) (processing_token : string)
    (storage_backend : ExportArtifactStorageBackend.t) (storage_key : string) (at_time : datetime)
    : M Db bool :=
  l ← update_where (active_upload_intent artifact_id processing_token at_time
                      (Some storage_backend) (Some storage_key))
    (with_upload_intent None None None None None);
  mret (bool_decide (length l = 1%nat)).

(** [processing_lease_expires_at IS NOT NULL AND processing_lease_expires_at < now] *)
Definition is_stale (at_time : datetime) (a : ExportArtifact.t) : bool :=
  has_status ExportArtifactStatus.PROCESSING a
  && match ExportArtifact.processing_lease_expires_at a with None => false | Some e => e <? at_time end.

(** The attribute writes of a recovery; the upload intent stays. *)
Definition requeued (a : ExportArtifact.t) : ExportArtifact.t :=
  ExportArtifact.set_processing_lease_expires_at None (ExportArtifact.set_processing_token None
    (ExportArtifact.set_started_at None (ExportArtifact.set_status ExportArtifactStatus.QUEUED a))).

Definition recover_stale_processing (at_time : datetime) (limit : nat)
    : M Db (list ExportArtifact.t) :=
  stale ← select (is_stale at_time);
  for_each (take limit (merge_sort (ordered_by (fun a =>
      nulls_last (ExportArtifact.processing_lease_expires_at a))) stale)) (fun artifact =>
    update_row (ExportArtifact.id artifact) requeued).

Definition expired_ready (at_time : datetime) (a : ExportArtifact.t) : bool :=
  has_status ExportArtifactStatus.READY a && (ExportArtifact.expires_at a <=? at_time).

Definition list_expired_ready (at_time : datetime) (limit : nat) : M Db (list ExportArtifact.t) :=
  rows ← select (expired_ready at_time);
  mret (take limit (merge_sort (ordered_by (fun a => [ExportArtifact.expires_at a])) rows)).

(** The columns that break ties: [created_at.asc(), id.asc()]. *)
Definition oldest (a : ExportArtifact.t) : list Z :=
  [ExportArtifact.created_at a; Z.of_N (ExportArtifact.id a)].

Definition list_cancelled_erasure_purge_retry (limit : nat) : M Db (list ExportArtifact.t) :=
  rows ← select (fun a =>
    has_status ExportArtifactStatus.CANCELLED a
    && bool_decide (ExportArtifact.failure_reason_code a
                    = Some SUBJECT_ERASURE_CANCELLED_EXPORT_REASON)
    && negb (is_None (ExportArtifact.storage_key a)));
  mret (take limit (merge_sort
    (ordered_by (fun a => nulls_last (ExportArtifact.completed_at a) ++ oldest a)) rows)).

Definition list_failed_storage_purge_retry (limit : nat) : M Db (list ExportArtifact.t) :=
  rows ← select (fun a =>
    has_status ExportArtifactStatus.FAILED a && negb (is_None (ExportArtifact.storage_key a)));
  mret (take limit (merge_sort
    (ordered_by (fun a => nulls_last (ExportArtifact.failed_at a) ++ oldest a)) rows)).

Definition get_failed_storage_purge_target (artifact_id : UUID) (storage_key : string)
    : M Db (option ExportArtifact.t) :=
  select_one_or_none (fun a =>
    bool_decide (ExportArtifact.id a = artifact_id)
    && has_status ExportArtifactStatus.FAILED a
    && bool_decide (ExportArtifact.storage_key a = Some storage_key)).

Definition purge_target (artifact_id : UUID) (expected_status : ExportArtifactStatus.t)
    (storage_backend : ExportArtifactStorageBackend.t) (storage_key : string)
    (a : ExportArtifact.t) : bool :=
  bool_decide (ExportArtifact.id a = artifact_id)
  && has_status expected_status a
  && bool_decide (ExportArtifact.storage_backend a = storage_backend)
  && bool_decide (ExportArtifact.storage_key a = Some storage_key).

Definition get_storage_purge_target (artifact_id : UUID)
    (expected_status : ExportArtifactStatus.t) (storage_backend : ExportArtifactStorageBackend.t)
    (storage_key : string) : M Db (option ExportArtifact.t) :=
  select_one_or_none (purge_target artifact_id expected_status storage_backend storage_key).

Definition list_expired_storage_purge_retry (limit : nat) (exclude_ids : list UUID)
    : M Db (list ExportArtifact.t) :=
  rows ← select (fun a =>
    has_status ExportArtifactStatus.EXPIRED a
    && negb (is_None (ExportArtifact.storage_key a))
    && negb (bool_decide (ExportArtifact.id a ∈ exclude_ids)));
  mret (take limit (merge_sort
    (ordered_by (fun a => ExportArtifact.expires_at a :: oldest a)) rows)).

(** [pending] are the attributes the caller assigned since the last flush. *)
Definition mark_ready (artifact : ExportArtifact.t)
    (pending : ExportArtifact.t -> ExportArtifact.t) : M Db ExportArtifact.t :=
  n ← now;
  update_row (ExportArtifact.id artifact) (fun a => (mark_export_artifact_ready n (pending a)).1).

Definition mark_failed (artifact : ExportArtifact.t) (reason_code detail : string)
    : M Db ExportArtifact.t :=
  n ← now;
  update_row (ExportArtifact.id artifact)
    (fun a => (mark_export_artifact_failed reason_code detail n a).1).

Definition mark_expired (artifact : ExportArtifact.t) : M Db ExportArtifact.t :=
  update_row (ExportArtifact.id artifact) (fun a => (mark_export_artifact_expired a).1).

Definition record_download_url_issued (artifact : ExportArtifact.t) : M Db ExportArtifact.t :=
  n ← now;
  update_where (fun a => bool_decide (ExportArtifact.id a = ExportArtifact.id artifact)) (fun a =>
    ExportArtifact.set_download_url_issued_at (Some n)
      (ExportArtifact.set_download_url_issue_count (ExportArtifact.download_url_issue_count a + 1) a)) ;;
  refresh (ExportArtifact.id artifact).

Definition _ELIGIBLE_DELIVERY_DSR_STATUSES : list DataSubjectRequestStatus.t :=
  [DataSubjectRequestStatus.APPROVED; DataSubjectRequestStatus.FULFILLED].

(** The subquery [eligible_dsr] for one artifact. *)
Definition eligible_dsr (d : Db) (a : ExportArtifact.t) : bool :=
  match data_subject_requests d !! ExportArtifact.data_subject_request_id a with
  | None => false
  | Some r =>
      bool_decide (DataSubjectRequest.request_type r = DataSubjectRequestType.EXPORT)
      && bool_decide (DataSubjectRequest.status r ∈ _ELIGIBLE_DELIVERY_DSR_STATUSES)
      && negb (is_None (DataSubjectRequest.subject_user_id r))
      && negb (is_None (DataSubjectRequest.requester_user_id r))
  end.

(** The conditions of the update of [confirm_delivery]. *)
Definition deliverable (d : Db) (artifact_id : UUID) (at_time : datetime) (a : ExportArtifact.t)
    : bool :=
  bool_decide (ExportArtifact.id a = artifact_id)
  && is_None (ExportArtifact.downloaded_at a)
  && (ExportArtifact.download_count a =? 0)
  && has_status ExportArtifactStatus.READY a
  && (at_time <? ExportArtifact.expires_at a)
  && negb (is_None (ExportArtifact.storage_key a))
  && eligible_dsr d a.

Definition delivered (at_time : datetime) (a : ExportArtifact.t) : ExportArtifact.t :=
  ExportArtifact.set_downloaded_at (Some at_time) (ExportArtifact.set_download_count 1 a).

Definition confirm_delivery (artifact : ExportArtifact.t) (delivered_at : option datetime)
    : M Db (ExportArtifact.t * bool) :=
  reference_time ← now_or delivered_at;
  d ← get_db;
  l ← update_where (deliverable d (ExportArtifact.id artifact) reference_time)
    (delivered reference_time);
  artifact ← refresh (ExportArtifact.id artifact);
  mret (artifact, bool_decide (length l = 1%nat)).

Definition increment_download_count (artifact : ExportArtifact.t) : M Db ExportArtifact.t :=
  r ← confirm_delivery artifact None; mret r.1.

(** Attribute writes [f] on the artifact, then [save]. *)
Definition save (artifact : ExportArtifact.t) (f : ExportArtifact.t -> ExportArtifact.t)
    : M Db ExportArtifact.t :=
  update_row (ExportArtifact.id artifact) f.

End Repository.
End ExportArtifactRepository.
