(* ===== verification/DataSubjectRequests.v ===== *)
(** Data-subject requests: [privacy/repositories/data_subject_requests.py] and
    [privacy/services/data_subject_requests.py]. The execution of an approved
    erasure is in [Erasures.v]. *)
From S2P Require Import Prelude Errors Session Schema Tables Regex AuditLog Users Invites.
From S2P Require Import ExportArtifacts.
Import Regex.

(** ** [privacy/repositories/data_subject_requests.py] *)
Module DataSubjectRequestRepository.
Section Repository.
Context `{Env}.

Definition _APPROVAL_REPRESENTATIVE_STATUSES : list DataSubjectRequestRepresentativeStatus.t :=
  [DataSubjectRequestRepresentativeStatus.NOT_REQUIRED;
   DataSubjectRequestRepresentativeStatus.VERIFIED].

Definition create (request : DataSubjectRequest.t) : M Db DataSubjectRequest.t :=
  insert_row request.

Definition get_by_id (request_id : UUID) : M Db (option DataSubjectRequest.t) :=
  select_one_or_none (fun r => bool_decide (DataSubjectRequest.id r = request_id)).

(** Attribute writes [f] on the request, then [save]. *)
Definition save (request : DataSubjectRequest.t) (f : DataSubjectRequest.t -> DataSubjectRequest.t)
    : M Db DataSubjectRequest.t :=
  update_row (DataSubjectRequest.id request) f.

Definition get_by_id_for_requester (request_id requester_user_id : UUID)
    : M Db (option DataSubjectRequest.t) :=
  select_one_or_none (fun r =>
    bool_decide (DataSubjectRequest.id r = request_id)
    && bool_decide (DataSubjectRequest.requester_user_id r = Some requester_user_id)).

Definition get_by_id_for_subject (request_id subject_user_id : UUID)
    : M Db (option DataSubjectRequest.t) :=
  select_one_or_none (fun r =>
    bool_decide (DataSubjectRequest.id r = request_id)
    && bool_decide (DataSubjectRequest.subject_user_id r = Some subject_user_id)).

(** The row lock is the serial order of the model's transactions. *)
Definition lock_requester_for_idempotency (requester_user_id : UUID) : M Db unit :=
  select (R := User.t) (fun u => bool_decide (User.id u = requester_user_id)) ;; mret tt.

Definition same_live_key (requester_user_id : UUID) (idempotency_key_hash : string)
    (at_time : datetime) (r : DataSubjectRequest.t) : bool :=
  bool_decide (DataSubjectRequest.requester_user_id r = Some requester_user_id)
  && bool_decide (DataSubjectRequest.idempotency_key_hash r = Some idempotency_key_hash)
  && match DataSubjectRequest.idempotency_key_expires_at r with
     | None => false
     | Some e => at_time <? e
     end.

(** [order_by(created_at.desc())] *)
Definition created_last (r r' : DataSubjectRequest.t) : Prop :=
  DataSubjectRequest.created_at r' <= DataSubjectRequest.created_at r.

#[global] Instance created_last_dec r r' : Decision (created_last r r').
Proof. unfold created_last. apply _. Defined.

Definition get_non_expired_by_idempotency_key_hash (requester_user_id : UUID)
    (idempotency_key_hash : string) (at_time : datetime) : M Db (option DataSubjectRequest.t) :=
  rows ← select (same_live_key requester_user_id idempotency_key_hash at_time);
  scalar_one_or_none (take 1 (merge_sort created_last rows)).

(** [update(..).where(..).returning(..)], then [scalar_one_or_none()] *)
Definition update_one (P : DataSubjectRequest.t -> bool)
    (values : DataSubjectRequest.t -> DataSubjectRequest.t) : M Db (option DataSubjectRequest.t) :=
  l ← update_where P values; scalar_one_or_none l.

(** The values assign [next_status] among others; it decides the extra condition. *)
Definition transition_status_if_current (request_id : UUID)
    (expected_status next_status : DataSubjectRequestStatus.t)
    (values : DataSubjectRequest.t -> DataSubjectRequest.t) : M Db (option DataSubjectRequest.t) :=
  update_one (fun r =>
      bool_decide (DataSubjectRequest.id r = request_id)
      && bool_decide (DataSubjectRequest.status r = expected_status)
      && (negb (bool_decide (next_status = DataSubjectRequestStatus.APPROVED))
          || bool_decide (DataSubjectRequest.representative_status r
                          ∈ _APPROVAL_REPRESENTATIVE_STATUSES)))
    values.

Definition update_representative_authority_if_current (request_id : UUID)
    (expected_status : DataSubjectRequestStatus.t)
    (expected_representative_status : DataSubjectRequestRepresentativeStatus.t)
    (values : DataSubjectRequest.t -> DataSubjectRequest.t) : M Db (option DataSubjectRequest.t) :=
  update_one (fun r =>
      bool_decide (DataSubjectRequest.id r = request_id)
      && bool_decide (DataSubjectRequest.status r = expected_status)
      && bool_decide (DataSubjectRequest.representative_status r
                      = expected_representative_status))
    values.

(** An optional filter of a listing: [if x is not None: stmt.where(test x)] *)
Definition filter_opt {A} (x : option A) (test : A -> bool) : bool :=
  match x with None => true | Some x => test x end.

Definition requester_filter (requester_user_id : UUID)
    (status request_type : option string) (r : DataSubjectRequest.t) : bool :=
  bool_decide (DataSubjectRequest.requester_user_id r = Some requester_user_id)
  && filter_opt status
       (String.eqb (DataSubjectRequestStatus.value (DataSubjectRequest.status r)))
  && filter_opt request_type
       (String.eqb (DataSubjectRequestType.value (DataSubjectRequest.request_type r))).

Definition list_for_requester (requester_user_id : UUID) (limit offset : nat)
    (status request_type : option string) : M Db (list DataSubjectRequest.t) :=
  rows ← select (requester_filter requester_user_id status request_type);
  mret (page limit offset (merge_sort created_last rows)).

Definition count_for_requester (requester_user_id : UUID) (status request_type : option string)
    : M Db nat :=
  rows ← select (requester_filter requester_user_id status request_type);
  mret (length rows).

Record PlatformFilter := mkPlatformFilter {
  status : option string;
  request_type : option string;
  subject_user_id : option UUID;
  requester_user_id : option UUID;
  due_before : option datetime;
  due_after : option datetime;
  representative_status : option string;
}.

Definition platform_filter (f : PlatformFilter) (r : DataSubjectRequest.t) : bool :=
  filter_opt (status f)
    (String.eqb (DataSubjectRequestStatus.value (DataSubjectRequest.status r)))
  && filter_opt (request_type f)
       (String.eqb (DataSubjectRequestType.value (DataSubjectRequest.request_type r)))
  && filter_opt (subject_user_id f)
       (fun u => bool_decide (DataSubjectRequest.subject_user_id r = Some u))
  && filter_opt (requester_user_id f)
       (fun u => bool_decide (DataSubjectRequest.requester_user_id r = Some u))
  && filter_opt (representative_status f)
       (String.eqb (DataSubjectRequestRepresentativeStatus.value
          (DataSubjectRequest.representative_status r)))
  && filter_opt (due_before f) (fun t => DataSubjectRequest.due_at r <=? t)
  && filter_opt (due_after f) (fun t => t <=? DataSubjectRequest.due_at r).

Definition list_for_platform (limit offset : nat) (f : PlatformFilter)
    : M Db (list DataSubjectRequest.t) :=
  rows ← select (platform_filter f);
  mret (page limit offset (merge_sort created_last rows)).

Definition count_for_platform (f : PlatformFilter) : M Db nat :=
  rows ← select (platform_filter f); mret (length rows).

End Repository.
End DataSubjectRequestRepository.

(** ** The safety of idempotency keys

    The patterns with [re.IGNORECASE] are matched against the lower-case key. *)
Module IdempotencyKey.

Local Open Scope string_scope.

Definition word (c : ascii) : bool := in_range "a" "z" c || in_range "0" "9" c.
Definition spaces : re := Star (Chr Text.is_space).

(** [[A-Z0-9._%+\-]+@[A-Z0-9.\-]+\.[A-Z]{2,}] *)
Definition _EMAIL_LIKE_PATTERN : re :=
  Cat (plus (Chr (fun c => word c || one_of "._%+-" c)))
    (Cat (literal "@")
      (Cat (plus (Chr (fun c => word c || one_of ".-" c)))
        (Cat (literal ".") (at_least 2 (Chr (in_range "a" "z")))))).

(** [^\s*<scheme>\s+[A-Z0-9._\-+/=]+], matched at the start only *)
Definition credential (scheme : string) : re :=
  Cat spaces (Cat (literal scheme)
    (Cat (plus (Chr Text.is_space)) (plus (Chr (fun c => word c || one_of "._-+/=" c))))).

(** [(api[_\-]?key|secret|password|passwd|token)\s*[:=]] *)
Definition assignment : re :=
  Cat (Alt (Cat (literal "api") (Cat (Alt Empty (Chr (one_of "_-"))) (literal "key")))
        (Alt (literal "secret") (Alt (literal "password")
          (Alt (literal "passwd") (literal "token")))))
    (Cat spaces (Chr (one_of ":="))).

(** [eyJ[A-Za-z0-9_\-]+?\.[A-Za-z0-9_\-]+?\.[A-Za-z0-9_\-]+], case-sensitive *)
Definition jwt : re :=
  let part := plus (Chr (fun c => word c || in_range "A" "Z" c || one_of "_-" c)) in
  Cat (literal "eyJ") (Cat part (Cat (literal ".") (Cat part (Cat (literal ".") part)))).

(** [gh[pousr]_[A-Za-z0-9]{20,}] *)
Definition github_token : re :=
  Cat (literal "gh") (Cat (Chr (one_of "pousr")) (Cat (literal "_") (at_least 20 (Chr word)))).

Definition _UNSAFE_IDEMPOTENCY_PATTERNS (candidate : string) : bool :=
  let lowered := Text.lower candidate in
  match_prefix (credential "bearer") lowered
  || match_prefix (credential "basic") lowered
  || search assignment lowered
  || search jwt candidate
  || search github_token lowered.

Definition _validate_idempotency_key_safety (idempotency_key : option string) : M Db unit :=
  match idempotency_key with
  | None => mret tt
  | Some key =>
      let candidate := Text.strip key in
      raise_if (Text.is_empty candidate) (BadRequestError "Idempotency key must not be empty") ;;
      raise_if (512 <? Z.of_nat (String.length candidate))%Z
        (BadRequestError "Idempotency key is too long") ;;
      raise_if (search _EMAIL_LIKE_PATTERN (Text.lower candidate))
        (BadRequestError "Idempotency key must not contain email-like values") ;;
      raise_if (_UNSAFE_IDEMPOTENCY_PATTERNS candidate)
        (BadRequestError "Idempotency key appears to contain credential or token-like content") ;;
      raise_if (Text.contains ":" candidate && Text.contains "=" candidate)
        (BadRequestError "Idempotency key appears to contain sensitive structured data")
  end.

End IdempotencyKey.

(** ** [privacy/services/data_subject_requests.py] *)
Module DataSubjectRequestService.
Import IdempotencyKey.
Section Service.
Context `{Env} `{Network} `{Crypto}.

Definition DEFAULT_DUE_DAYS : Z := 30.
Definition IDEMPOTENCY_KEY_TTL_HOURS : Z := 24.
Definition REQUESTER_NOTE_MAX_LENGTH : Z := 2000.
Definition REPRESENTATIVE_RELATIONSHIP_MAX_LENGTH : Z := 64.
Definition REPRESENTATIVE_AUTHORITY_NOTE_MAX_LENGTH : Z := 2000.

Definition _FULFILMENT_PIPELINE_REQUEST_TYPES : list DataSubjectRequestType.t :=
  [DataSubjectRequestType.EXPORT; DataSubjectRequestType.ERASE].

Definition _APPROVABLE_REQUEST_TYPES := _FULFILMENT_PIPELINE_REQUEST_TYPES.

Definition _REPRESENTATIVE_APPROVAL_STATUSES : list DataSubjectRequestRepresentativeStatus.t :=
  [DataSubjectRequestRepresentativeStatus.NOT_REQUIRED;
   DataSubjectRequestRepresentativeStatus.VERIFIED].

Definition _REPRESENTATIVE_REVIEWABLE_REQUEST_STATUSES : list DataSubjectRequestStatus.t :=
  [DataSubjectRequestStatus.SUBMITTED; DataSubjectRequestStatus.UNDER_REVIEW].

Definition _ALLOWED_TRANSITIONS (s : DataSubjectRequestStatus.t)
    : list DataSubjectRequestStatus.t :=
  match s with
  | DataSubjectRequestStatus.SUBMITTED =>
      [DataSubjectRequestStatus.UNDER_REVIEW; DataSubjectRequestStatus.APPROVED;
       DataSubjectRequestStatus.CANCELLED]
  | DataSubjectRequestStatus.UNDER_REVIEW =>
      [DataSubjectRequestStatus.APPROVED; DataSubjectRequestStatus.REJECTED;
       DataSubjectRequestStatus.CANCELLED]
  | DataSubjectRequestStatus.APPROVED =>
      [DataSubjectRequestStatus.FULFILLED; DataSubjectRequestStatus.CANCELLED]
  | _ => []
  end.

(** *** Intake *)

Definition _normalise_request_type (request_type : string) : M Db DataSubjectRequestType.t :=
  or_raise (DataSubjectRequestType.of_value request_type)
    (BadRequestError
       "Invalid request_type. Supported values: access, export, erase, rectify, restrict, object, portability").

Definition _normalise_requester_role (role : string) : M Db DataSubjectRequestRequesterRole.t :=
  or_raise (DataSubjectRequestRequesterRole.of_value role)
    (BadRequestError "Invalid requester_role. Supported values: self, authorised_representative").

Definition _normalise_idempotency_key (key : option string) : option string :=
  option_map Text.strip key.

Definition _normalise_optional_text (value : option string) : option string :=
  match value with
  | None => None
  | Some v => let normalised := Text.strip v in
              if Text.is_empty normalised then None else Some normalised
  end.

Definition _hash_idempotency_key (key : string) : string := sha256_hexdigest key.

(** The dictionary [_build_representative_intake_values] returns; its three
    verification fields are always [None]. *)
Record IntakeValues := mkIntakeValues {
  subject_user_id : UUID;
  requester_role : DataSubjectRequestRequesterRole.t;
  representative_status : DataSubjectRequestRepresentativeStatus.t;
  representative_relationship : option string;
  representative_authority_note : option string;
}.

Definition too_long (max_length : Z) (s : string) : bool :=
  max_length <? Z.of_nat (String.length s).

Definition _build_representative_intake_values (requester_user_id : UUID)
    (subject_user_id : option UUID) (requester_role : DataSubjectRequestRequesterRole.t)
    (relationship authority_note : option string) : M Db IntakeValues :=
  match requester_role with
  | DataSubjectRequestRequesterRole.SELF =>
      raise_if match subject_user_id with
               | None => false
               | Some s => negb (bool_decide (s = requester_user_id))
               end
        (BadRequestError "subject_user_id is only allowed for representative requests") ;;
      raise_if (negb (is_None relationship))
        (BadRequestError
           "representative_relationship is only allowed for representative requests") ;;
      raise_if (negb (is_None authority_note))
        (BadRequestError
           "representative_authority_note is only allowed for representative requests") ;;
      mret (mkIntakeValues requester_user_id DataSubjectRequestRequesterRole.SELF
        DataSubjectRequestRepresentativeStatus.NOT_REQUIRED None None)
  | DataSubjectRequestRequesterRole.AUTHORISED_REPRESENTATIVE =>
      subject ← or_raise subject_user_id
        (BadRequestError "subject_user_id is required for representative requests");
      raise_if (bool_decide (subject = requester_user_id))
        (BadRequestError "Representative requests must target a different subject user") ;;
      relationship ← or_raise relationship
        (BadRequestError "representative_relationship is required for representative requests");
      authority_note ← or_raise authority_note
        (BadRequestError "representative_authority_note is required for representative requests");
      raise_if (too_long REPRESENTATIVE_RELATIONSHIP_MAX_LENGTH relationship)
        (BadRequestError "Representative relationship exceeds maximum length of 64 characters") ;;
      raise_if (too_long REPRESENTATIVE_AUTHORITY_NOTE_MAX_LENGTH authority_note)
        (BadRequestError
           "Representative authority note exceeds maximum length of 2000 characters") ;;
      mret (mkIntakeValues subject DataSubjectRequestRequesterRole.AUTHORISED_REPRESENTATIVE
        DataSubjectRequestRepresentativeStatus.PENDING_VERIFICATION
        (Some relationship) (Some authority_note))
  end.

Definition _ensure_representative_subject_exists
    (requester_role : DataSubjectRequestRequesterRole.t) (subject_user_id : UUID) : M Db unit :=
  if negb (bool_decide
        (requester_role = DataSubjectRequestRequesterRole.AUTHORISED_REPRESENTATIVE))
  then mret tt else
  found ← UserRepository.exists_by_id subject_user_id;
  raise_if (negb found) (BadRequestError "Representative subject user was not found").

(** [x or ''] *)
Definition or_empty (x : option string) : string := default ""%string x.

Definition fingerprint_source (request_type : DataSubjectRequestType.t)
    (requester_note : option string) (v : IntakeValues) : string :=
  Text.join "|"
    ["request_type=" ++ DataSubjectRequestType.value request_type;
     "requester_note=" ++ or_empty requester_note;
     "subject_user_id=" ++ Uuid.str (subject_user_id v);
     "requester_role=" ++ DataSubjectRequestRequesterRole.value (requester_role v);
     "representative_relationship=" ++ or_empty (representative_relationship v);
     "representative_authority_note=" ++ or_empty (representative_authority_note v)]%string.

Definition _build_fingerprint (request_type : DataSubjectRequestType.t)
    (requester_note : option string) (v : IntakeValues) : string :=
  sha256_hexdigest (fingerprint_source request_type requester_note v).

Definition _build_pre_representative_fingerprint (request_type : DataSubjectRequestType.t)
    (requester_note : option string) : string :=
  sha256_hexdigest ("request_type=" ++ DataSubjectRequestType.value request_type
    ++ "|requester_note=" ++ or_empty requester_note)%string.

Definition _is_legacy_self_service_idempotency_row (existing : DataSubjectRequest.t) : bool :=
  bool_decide (DataSubjectRequest.requester_role existing = DataSubjectRequestRequesterRole.SELF)
  && bool_decide (DataSubjectRequest.subject_user_id existing
                  = DataSubjectRequest.requester_user_id existing)
  && is_None (DataSubjectRequest.representative_relationship existing)
  && is_None (DataSubjectRequest.representative_authority_note existing).

Definition _idempotency_fingerprint_matches (existing : DataSubjectRequest.t)
    (current_fingerprint legacy_self_service_fingerprint : option string) : bool :=
  if bool_decide (DataSubjectRequest.idempotency_fingerprint existing = current_fingerprint)
  then true else
  match legacy_self_service_fingerprint with
  | None => false
  | Some legacy =>
      bool_decide (DataSubjectRequest.idempotency_fingerprint existing = Some legacy)
      && _is_legacy_self_service_idempotency_row existing
  end.

Definition record_compliance_event (request : DataSubjectRequest.t) (action : AuditAction.t)
    (audit_context : AuditContext.t) (metadata : list (string * json)) : M Db unit :=
  AuditEventService.record_event audit_context AuditCategory.COMPLIANCE action
    AuditTargetType.DATA_SUBJECT_REQUEST (Some (DataSubjectRequest.id request)) None
    (Some (JObj metadata)) None ;;
  mret tt.

Definition status_metadata (request : DataSubjectRequest.t) : list (string * json) :=
  [("request_type",
    JStr (DataSubjectRequestType.value (DataSubjectRequest.request_type request)));
   ("status", JStr (DataSubjectRequestStatus.value (DataSubjectRequest.status request)))]%string.

Definition _record_status_event (request : DataSubjectRequest.t) (action : AuditAction.t)
    (audit_context : AuditContext.t) : M Db unit :=
  record_compliance_event request action audit_context (status_metadata request).

Definition _record_representative_authority_event (request : DataSubjectRequest.t)
    (action : AuditAction.t) (audit_context : AuditContext.t) (reason_code : option string)
    : M Db unit :=
  record_compliance_event request action audit_context
    (status_metadata request ++
     [("representative_status", JStr (DataSubjectRequestRepresentativeStatus.value
         (DataSubjectRequest.representative_status request)));
      ("reason_code", match reason_code with None => JNull | Some c => JStr c end)]%string).

(** The row [submit_request] creates; the other columns take their defaults. *)
Definition submitted_row (id : UUID) (requester_user_id : UUID)
    (request_type : DataSubjectRequestType.t) (requester_note : option string)
    (v : IntakeValues) (reference_now : datetime)
    (idempotency_key_hash idempotency_fingerprint : option string)
    (created_at updated_at : datetime) : DataSubjectRequest.t :=
  DataSubjectRequest.mk id request_type DataSubjectRequestStatus.SUBMITTED
    DataSubjectRequestExecutionStatus.NOT_STARTED (requester_role v) (representative_status v)
    (representative_relationship v) (representative_authority_note v) None None None
    (Some requester_user_id) (Some (subject_user_id v)) None reference_now
    None None None None None None None None None None None None requester_note None
    (reference_now + days DEFAULT_DUE_DAYS) None None
    idempotency_key_hash idempotency_fingerprint
    (match idempotency_key_hash with
     | None => None
     | Some _ => Some (reference_now + hours IDEMPOTENCY_KEY_TTL_HOURS)
     end)
    None None created_at updated_at.

(** The replay check: the request an idempotency key already names, if any. *)
Definition find_replay (requester_user_id : UUID) (key_hash : string)
    (fingerprint legacy_fingerprint : option string) (reference_now : datetime)
    : M Db (option DataSubjectRequest.t) :=
  DataSubjectRequestRepository.lock_requester_for_idempotency requester_user_id ;;
  existing ← DataSubjectRequestRepository.get_non_expired_by_idempotency_key_hash
    requester_user_id key_hash reference_now;
  match existing with
  | None => mret None
  | Some existing =>
      if _idempotency_fingerprint_matches existing fingerprint legacy_fingerprint
      then mret (Some existing)
      else raise (ConflictError "Idempotency key is already used for another request payload")
  end.

Definition submit_request (requester_user_id : UUID) (request_type : string)
    (requester_note : option string) (subject_user_id_arg : option UUID) (requester_role_arg : string)
    (relationship_arg authority_note_arg idempotency_key : option string)
    (now_arg : option datetime) (audit_context : AuditContext.t) : M Db DataSubjectRequest.t :=
  reference_now ← now_or now_arg;
  request_type ← _normalise_request_type request_type;
  let key := _normalise_idempotency_key idempotency_key in
  role ← _normalise_requester_role requester_role_arg;
  let relationship := _normalise_optional_text relationship_arg in
  let authority_note := _normalise_optional_text authority_note_arg in
  raise_if match requester_note with
           | None => false
           | Some n => too_long REQUESTER_NOTE_MAX_LENGTH n
           end
    (BadRequestError "Requester note exceeds maximum length of 2000 characters") ;;
  _validate_idempotency_key_safety key ;;
  values ← _build_representative_intake_values requester_user_id subject_user_id_arg role
    relationship authority_note;
  _ensure_representative_subject_exists role (subject_user_id values) ;;
  let key_hash := option_map _hash_idempotency_key key in
  let fingerprint := option_map
    (fun _ => _build_fingerprint request_type requester_note values) key_hash in
  let legacy_fingerprint :=
    match key_hash, requester_role values with
    | Some _, DataSubjectRequestRequesterRole.SELF =>
        Some (_build_pre_representative_fingerprint request_type requester_note)
    | _, _ => None
    end in
  replay ← match key_hash with
           | None => mret None
           | Some h => find_replay requester_user_id h fingerprint legacy_fingerprint reference_now
           end;
  match replay with
  | Some existing => mret existing
  | None =>
      id ← new_uuid;
      created_at ← now;
      updated_at ← now;
      request ← DataSubjectRequestRepository.create
        (submitted_row id requester_user_id request_type requester_note values reference_now
           key_hash fingerprint created_at updated_at);
      _record_status_event request AuditAction.DATA_SUBJECT_REQUEST_SUBMITTED audit_context ;;
      mret request
  end.

(** *** Lifecycle *)

Definition not_found : exn := NotFoundError "Data subject request not found".

Definition get_request (request_id : UUID) : M Db DataSubjectRequest.t :=
  request ← DataSubjectRequestRepository.get_by_id request_id;
  or_raise request not_found.

Definition get_platform_request := get_request.

Definition get_own_request (requester_user_id request_id : UUID) : M Db DataSubjectRequest.t :=
  row ← DataSubjectRequestRepository.get_by_id_for_requester request_id requester_user_id;
  or_raise row not_found.

Definition list_own_requests (requester_user_id : UUID) (limit offset : nat)
    (status request_type : option string) : M Db (list DataSubjectRequest.t * nat) :=
  rows ← DataSubjectRequestRepository.list_for_requester requester_user_id limit offset
    status request_type;
  total ← DataSubjectRequestRepository.count_for_requester requester_user_id status request_type;
  mret (rows, total).

Definition list_platform_requests (limit offset : nat)
    (f : DataSubjectRequestRepository.PlatformFilter) : M Db (list DataSubjectRequest.t * nat) :=
  rows ← DataSubjectRequestRepository.list_for_platform limit offset f;
  total ← DataSubjectRequestRepository.count_for_platform f;
  mret (rows, total).

Definition _ensure_request_type_can_be_approved (request : DataSubjectRequest.t) : M Db unit :=
  raise_if (negb (bool_decide
      (DataSubjectRequest.request_type request ∈ _APPROVABLE_REQUEST_TYPES)))
    (ConflictError
       "Data-subject request type has no execution policy and cannot be approved").

Definition _ensure_representative_authority_allows_approval (request : DataSubjectRequest.t)
    : M Db unit :=
  raise_if (negb (bool_decide
      (DataSubjectRequest.representative_status request ∈ _REPRESENTATIVE_APPROVAL_STATUSES)))
    (ConflictError "Authorised representative authority must be verified before approval").

(** The assignments of [_build_transition_values], applied to a row. *)
Definition _build_transition_values (next_status : DataSubjectRequestStatus.t)
    (reviewer_user_id : option UUID) (reason_code : option string) (reference_now : datetime)
    (r : DataSubjectRequest.t) : DataSubjectRequest.t :=
  let r := DataSubjectRequest.set_reviewer_user_id reviewer_user_id
    (DataSubjectRequest.set_status next_status r) in
  match next_status with
  | DataSubjectRequestStatus.SUBMITTED => r
  | DataSubjectRequestStatus.UNDER_REVIEW =>
      DataSubjectRequest.set_reviewed_at (Some reference_now) r
  | DataSubjectRequestStatus.APPROVED =>
      DataSubjectRequest.set_decision_reason_code reason_code
        (DataSubjectRequest.set_decided_at (Some reference_now) r)
  | DataSubjectRequestStatus.REJECTED =>
      DataSubjectRequest.set_rejection_reason_code reason_code
        (DataSubjectRequest.set_decided_at (Some reference_now) r)
  | DataSubjectRequestStatus.FULFILLED =>
      DataSubjectRequest.set_fulfilled_at (Some reference_now) r
  | DataSubjectRequestStatus.CANCELLED =>
      DataSubjectRequest.set_cancelled_at (Some reference_now) r
  end.

(** [mapping[status]]: [KeyError] for [SUBMITTED]. *)
Definition _action_for_status (status : DataSubjectRequestStatus.t) : M Db AuditAction.t :=
  match status with
  | DataSubjectRequestStatus.UNDER_REVIEW => mret AuditAction.DATA_SUBJECT_REQUEST_UNDER_REVIEW
  | DataSubjectRequestStatus.APPROVED => mret AuditAction.DATA_SUBJECT_REQUEST_APPROVED
  | DataSubjectRequestStatus.REJECTED => mret AuditAction.DATA_SUBJECT_REQUEST_REJECTED
  | DataSubjectRequestStatus.CANCELLED => mret AuditAction.DATA_SUBJECT_REQUEST_CANCELLED
  | DataSubjectRequestStatus.FULFILLED => mret AuditAction.DATA_SUBJECT_REQUEST_FULFILLED
  | DataSubjectRequestStatus.SUBMITTED => raise (OtherError "KeyError")
  end.

Definition use_fulfil_request : exn :=
  ConflictError "Use fulfil_request() to fulfil data-subject requests".

Definition _transition_status (request_id : UUID) (target_status : DataSubjectRequestStatus.t)
    (reviewer_user_id : option UUID) (audit_context : AuditContext.t)
    (reason_code : option string) (now_arg : option datetime) (execution_verified : bool)
    : M Db DataSubjectRequest.t :=
  reference_now ← now_or now_arg;
  request ← get_request request_id;
  let current_status := DataSubjectRequest.status request in
  raise_if (bool_decide (target_status = DataSubjectRequestStatus.FULFILLED)
            && negb execution_verified) use_fulfil_request ;;
  raise_if (negb (bool_decide (target_status ∈ _ALLOWED_TRANSITIONS current_status)))
    (ConflictError ("Invalid transition from '" ++ DataSubjectRequestStatus.value current_status
       ++ "' to '" ++ DataSubjectRequestStatus.value target_status ++ "'")%string) ;;
  (if bool_decide (target_status = DataSubjectRequestStatus.APPROVED)
   then _ensure_request_type_can_be_approved request ;;
        _ensure_representative_authority_allows_approval request
   else mret tt) ;;
  updated ← DataSubjectRequestRepository.transition_status_if_current request_id current_status
    target_status (_build_transition_values target_status reviewer_user_id reason_code reference_now);
  match updated with
  | None =>
      latest ← DataSubjectRequestRepository.get_by_id request_id;
      latest ← or_raise latest not_found;
      raise (ConflictError
        ("Data subject request status changed during transition; current status is '"
         ++ DataSubjectRequestStatus.value (DataSubjectRequest.status latest) ++ "'")%string)
  | Some updated =>
      action ← _action_for_status target_status;
      _record_status_event updated action audit_context ;;
      mret updated
  end.

Definition transition_status (request_id : UUID) (target_status : DataSubjectRequestStatus.t)
    (reviewer_user_id : option UUID) (audit_context : AuditContext.t)
    (reason_code : option string) (now_arg : option datetime) : M Db DataSubjectRequest.t :=
  raise_if (bool_decide (target_status = DataSubjectRequestStatus.FULFILLED)) use_fulfil_request ;;
  _transition_status request_id target_status reviewer_user_id audit_context reason_code now_arg
    false.

Definition cancel_own_request (requester_user_id request_id : UUID)
    (audit_context : AuditContext.t) : M Db DataSubjectRequest.t :=
  request ← get_own_request requester_user_id request_id;
  raise_if (negb (bool_decide (DataSubjectRequest.status request
      ∈ [DataSubjectRequestStatus.SUBMITTED; DataSubjectRequestStatus.UNDER_REVIEW])))
    (ConflictError "Request cannot be cancelled in current state") ;;
  transition_status request_id DataSubjectRequestStatus.CANCELLED (Some requester_user_id)
    audit_context None None.

Definition mark_under_review (request_id reviewer_user_id : UUID)
    (audit_context : AuditContext.t) : M Db DataSubjectRequest.t :=
  transition_status request_id DataSubjectRequestStatus.UNDER_REVIEW (Some reviewer_user_id)
    audit_context None None.

Definition approve_request (request_id reviewer_user_id : UUID) (reason_code : option string)
    (audit_context : AuditContext.t) : M Db DataSubjectRequest.t :=
  transition_status request_id DataSubjectRequestStatus.APPROVED (Some reviewer_user_id)
    audit_context reason_code None.

Definition reject_request (request_id reviewer_user_id : UUID) (reason_code : string)
    (audit_context : AuditContext.t) : M Db DataSubjectRequest.t :=
  transition_status request_id DataSubjectRequestStatus.REJECTED (Some reviewer_user_id)
    audit_context (Some reason_code) None.

Definition cancel_platform_request (request_id reviewer_user_id : UUID)
    (audit_context : AuditContext.t) : M Db DataSubjectRequest.t :=
  transition_status request_id DataSubjectRequestStatus.CANCELLED (Some reviewer_user_id)
    audit_context None None.

(** *** Representative authority *)

Definition _ensure_representative_authority_reviewable (request : DataSubjectRequest.t)
    : M Db unit :=
  raise_if (negb (bool_decide (DataSubjectRequest.requester_role request
      = DataSubjectRequestRequesterRole.AUTHORISED_REPRESENTATIVE)))
    (ConflictError
       "Representative authority review is only valid for authorised-representative requests") ;;
  raise_if (negb (bool_decide (DataSubjectRequest.status request
      ∈ _REPRESENTATIVE_REVIEWABLE_REQUEST_STATUSES)))
    (ConflictError
       "Representative authority cannot be changed after the request has been decided, fulfilled or cancelled").

Definition _update_representative_authority_if_current (request : DataSubjectRequest.t)
    (values : DataSubjectRequest.t -> DataSubjectRequest.t) : M Db DataSubjectRequest.t :=
  updated ← DataSubjectRequestRepository.update_representative_authority_if_current
    (DataSubjectRequest.id request) (DataSubjectRequest.status request)
    (DataSubjectRequest.representative_status request) values;
  match updated with
  | Some updated => mret updated
  | None =>
      latest ← DataSubjectRequestRepository.get_by_id (DataSubjectRequest.id request);
      latest ← or_raise latest not_found;
      raise (
        if bool_decide (DataSubjectRequest.status latest = DataSubjectRequest.status request)
        then ConflictError
          ("Representative authority status changed during review; current representative status is '"
           ++ DataSubjectRequestRepresentativeStatus.value
                (DataSubjectRequest.representative_status latest) ++ "'")%string
        else ConflictError
          ("Data subject request status changed during representative authority review; current status is '"
           ++ DataSubjectRequestStatus.value (DataSubjectRequest.status latest) ++ "'")%string)
  end.

(** The four columns a review of the authority assigns. *)
Definition authority_values (status : DataSubjectRequestRepresentativeStatus.t)
    (verified_at : option datetime) (verified_by : option UUID) (rejection : option string)
    (r : DataSubjectRequest.t) : DataSubjectRequest.t :=
  DataSubjectRequest.set_representative_rejection_reason_code rejection
    (DataSubjectRequest.set_representative_verified_by_user_id verified_by
      (DataSubjectRequest.set_representative_verified_at verified_at
        (DataSubjectRequest.set_representative_status status r))).

Definition verify_representative_authority (request_id reviewer_user_id : UUID)
    (reason_code : option string) (audit_context : AuditContext.t) (now_arg : option datetime)
    : M Db DataSubjectRequest.t :=
  reference_now ← now_or now_arg;
  request ← get_platform_request request_id;
  _ensure_representative_authority_reviewable request ;;
  updated ← _update_representative_authority_if_current request
    (authority_values DataSubjectRequestRepresentativeStatus.VERIFIED (Some reference_now)
       (Some reviewer_user_id) None);
  _record_representative_authority_event updated
    AuditAction.DATA_SUBJECT_REQUEST_REPRESENTATIVE_VERIFIED audit_context reason_code ;;
  mret updated.

Definition reject_representative_authority (request_id reviewer_user_id : UUID)
    (reason_code : string) (audit_context : AuditContext.t) : M Db DataSubjectRequest.t :=
  request ← get_platform_request request_id;
  _ensure_representative_authority_reviewable request ;;
  updated ← _update_representative_authority_if_current request
    (authority_values DataSubjectRequestRepresentativeStatus.REJECTED None None
       (Some reason_code));
  _record_representative_authority_event updated
    AuditAction.DATA_SUBJECT_REQUEST_REPRESENTATIVE_REJECTED audit_context (Some reason_code) ;;
  mret updated.

(** *** Fulfilment *)

Definition _is_ready_export_artifact_usable (artifact : ExportArtifact.t) (at_time : datetime)
    : bool :=
  bool_decide (ExportArtifact.status artifact = ExportArtifactStatus.READY)
  && (at_time <? ExportArtifact.expires_at artifact).

Definition _ensure_export_ready_for_fulfilment (request : DataSubjectRequest.t) : M Db unit :=
  artifacts ← ExportArtifactRepository.get_by_dsr_id (DataSubjectRequest.id request);
  n ← now;
  raise_if (negb (existsb (fun a => _is_ready_export_artifact_usable a n) artifacts))
    (ConflictError
       "Export data-subject requests require a ready, non-expired export artifact before fulfilment").

Definition _ensure_erasure_ready_for_fulfilment (request : DataSubjectRequest.t) : M Db unit :=
  raise_if (negb (bool_decide (DataSubjectRequest.execution_status request
      = DataSubjectRequestExecutionStatus.READY)))
    (ConflictError
       "Erase data-subject requests require successful erasure execution before fulfilment").

Definition _ensure_execution_ready_for_fulfilment (request : DataSubjectRequest.t) : M Db unit :=
  raise_if (negb (bool_decide
      (DataSubjectRequest.request_type request ∈ _FULFILMENT_PIPELINE_REQUEST_TYPES)))
    (ConflictError ("Execution pipeline is not implemented for '"
       ++ DataSubjectRequestType.value (DataSubjectRequest.request_type request)
       ++ "' data-subject requests")%string) ;;
  if bool_decide (DataSubjectRequest.request_type request = DataSubjectRequestType.ERASE)
  then _ensure_erasure_ready_for_fulfilment request
  else _ensure_export_ready_for_fulfilment request.

Definition _fulfilment_reviewer_user_id (request : DataSubjectRequest.t)
    (reviewer_user_id : UUID) : option UUID :=
  if bool_decide (DataSubjectRequest.request_type request = DataSubjectRequestType.ERASE)
  then None else Some reviewer_user_id.

Definition fulfil_request (request_id reviewer_user_id : UUID) (audit_context : AuditContext.t)
    : M Db DataSubjectRequest.t :=
  request ← get_request request_id;
  raise_if (negb (bool_decide
      (DataSubjectRequest.status request = DataSubjectRequestStatus.APPROVED)))
    (ConflictError "Only approved requests can be fulfilled") ;;
  _ensure_execution_ready_for_fulfilment request ;;
  let fulfilment_reviewer_user_id := _fulfilment_reviewer_user_id request reviewer_user_id in
  _transition_status request_id DataSubjectRequestStatus.FULFILLED fulfilment_reviewer_user_id
    audit_context None None true.

End Service.
End DataSubjectRequestService.
