(* ===== verification/ExportArtifactServices.v ===== *)
(** The service of export artifacts: [privacy/services/export_artifacts.py], over the
    storage interface of [privacy/storage/base.py]. *)
From S2P Require Import Prelude Errors Session Schema Tables AuditLog Users Invites.
From S2P Require Import SubjectExports ExportArtifacts DataSubjectRequests.
Import ExportArtifactLifecycle.

(** ** [privacy/storage/base.py]

    The adapters keep files or objects outside the database; the program sees
    them through this interface. *)
Inductive StorageObjectState := MISSING | RESERVED | MATCHING | CONFLICT.

#[export] Instance StorageObjectState_eq_dec : EqDecision StorageObjectState.
Proof. solve_decision. Defined.

Record StoragePublicationReservation := mkReservation {
  reservation_key : string;
  reservation_owner_token : string;
  reservation_revision : string;
}.

(** An operation of the adapter for a backend, at a moment of the run. *)
Class StorageAdapter := {
  reserve_file_publication : ExportArtifactStorageBackend.t -> string -> string ->
    nat -> result StoragePublicationReservation;
  publish_reserved_file : ExportArtifactStorageBackend.t -> StoragePublicationReservation ->
    string -> string -> string -> nat -> result unit;
  cancel_file_publication : ExportArtifactStorageBackend.t -> StoragePublicationReservation ->
    nat -> result unit;
  inspect_file : ExportArtifactStorageBackend.t -> string -> string -> Z ->
    nat -> result StorageObjectState;
  delete_file_if_not_matching : ExportArtifactStorageBackend.t -> string -> string -> Z ->
    nat -> result StorageObjectState;
  delete_object : ExportArtifactStorageBackend.t -> string -> nat -> result unit;
  storage_download_url : ExportArtifactStorageBackend.t -> string -> Z -> nat -> result string;
}.

Definition StorageObjectStateUnknownError : exn := OtherError "StorageObjectStateUnknownError".

(** The temporary archive: a fresh path, a ZIP file written there whose one member
    [export.json] is the given text (its checksum and size), and its removal. *)
Class ArchiveFiles := {
  temporary_archive_path : nat -> result string;
  write_archive : string -> string -> nat -> result (string * Z);
  unlink_file : string -> nat -> result unit;
}.

(** The fields of [PrivacyExportsSettings] the service reads. *)
Record PrivacyExportsSettings := mkPrivacyExportsSettings {
  enabled : bool;
  storage_backend : ExportArtifactStorageBackend.t;
  download_url_ttl_seconds : Z;
  artifact_retention_days : Z;
  max_artifact_size_bytes : Z;
  schema_version : string;
}.

(** [str(exc)]. The text of an exception from outside is not kept. *)
Definition str_exc (e : exn) : string :=
  match e with
  | AppError _ detail _ => detail
  | ErasureError _ reason_code => reason_code
  | GovernanceError _ msg => msg
  | ValueError msg => msg
  | OtherError name => name
  | IntegrityError => "IntegrityError"
  | StaleDataError => "StaleDataError"
  | MultipleResultsFound => "MultipleResultsFound"
  | PendingRollbackError => "PendingRollbackError"
  | InvalidRequestError => "InvalidRequestError"
  end.

(** ** [privacy/services/export_artifacts.py] *)
Module ExportArtifactService.

Definition DEFAULT_PROCESSING_LEASE_SECONDS : Z := 3600.

Definition _DOWNLOAD_ELIGIBLE_DSR_STATUSES : list DataSubjectRequestStatus.t :=
  [DataSubjectRequestStatus.APPROVED; DataSubjectRequestStatus.FULFILLED].

Definition _EXPORT_GENERATION_FAILURE_CODES : list string :=
  ["artifact_too_large"; "dsr_not_found"; "dsr_not_export_eligible"]%string.

Record ProcessingExportLease := mkLease {
  lease_artifact_id : UUID;
  lease_processing_token : string;
}.

Module Prepared.
Record t := mk {
  artifact_id : UUID;
  storage_backend : ExportArtifactStorageBackend.t;
  storage_key : string;
  filename : string;
  content_type : string;
  archive_path : option string;
  size_bytes : Z;
  checksum_sha256 : string;
}.
End Prepared.

Record FailedExportStorageCleanup := mkCleanup {
  cleanup_artifact_id : UUID;
  cleanup_storage_backend : ExportArtifactStorageBackend.t;
  cleanup_storage_key : string;
}.

Record ExportArtifactStoragePurge := mkPurge {
  purge_artifact_id : UUID;
  purge_expected_status : ExportArtifactStatus.t;
  purge_storage_backend : ExportArtifactStorageBackend.t;
  purge_storage_key : string;
}.

Record GeneratedExportDownloadUrl := mkUrl { url : string; expires_in_seconds : Z }.

(** [int(timedelta.total_seconds())] of a difference of instants *)
Definition whole_seconds (delta : Z) : Z := Z.quot delta (seconds 1).

Section Service.
Context `{Env} `{Network} `{StorageAdapter} `{ArchiveFiles}.
Variable settings : PrivacyExportsSettings.

Definition _ensure_exports_enabled : M Db unit :=
  raise_if (negb (enabled settings)) (ConflictError "Privacy export artifacts are disabled").

Definition _has_export_dsr_participant_links (dsr : DataSubjectRequest.t) : bool :=
  negb (is_None (DataSubjectRequest.subject_user_id dsr))
  && negb (is_None (DataSubjectRequest.requester_user_id dsr)).

Definition download_eligible (dsr : option DataSubjectRequest.t) : bool :=
  match dsr with
  | None => false
  | Some dsr =>
      _has_export_dsr_participant_links dsr
      && bool_decide (DataSubjectRequest.request_type dsr = DataSubjectRequestType.EXPORT)
      && bool_decide (DataSubjectRequest.status dsr ∈ _DOWNLOAD_ELIGIBLE_DSR_STATUSES)
  end.

Definition _ensure_download_dsr_is_still_eligible (artifact : ExportArtifact.t) : M Db unit :=
  dsr ← DataSubjectRequestRepository.get_by_id (ExportArtifact.data_subject_request_id artifact);
  raise_if (negb (download_eligible dsr))
    (ConflictError "Export artifact is no longer eligible for download").

(** *** The execution state of a request *)

(** The first artifact with the latest [queued_at]. *)
Fixpoint latest_queued (latest : option ExportArtifact.t) (artifacts : list ExportArtifact.t)
    : option ExportArtifact.t :=
  match artifacts with
  | [] => latest
  | candidate :: artifacts =>
      latest_queued
        match latest with
        | None => Some candidate
        | Some l =>
            if ExportArtifact.queued_at l <? ExportArtifact.queued_at candidate
            then Some candidate else latest
        end artifacts
  end.

Definition _latest_export_artifact_for_dsr (data_subject_request_id : UUID)
    : M Db (option ExportArtifact.t) :=
  artifacts ← ExportArtifactRepository.get_by_dsr_id data_subject_request_id;
  mret (latest_queued None artifacts).

(** [execution_status], [event_at], [failure_reason_code], [failure_detail] *)
Definition ExecutionState : Type :=
  DataSubjectRequestExecutionStatus.t * option datetime * option string * option string.

(** [x or y] on optional instants *)
Definition or_else {A} (x y : option A) : option A :=
  match x with Some _ => x | None => y end.

Definition artifact_expired (expires_at : datetime) : ExecutionState :=
  (DataSubjectRequestExecutionStatus.FAILED, Some expires_at,
   Some "artifact_expired", Some "Export artifact expired before delivery")%string.

(** The decision of [_execution_state_for_dsr] on the latest artifact. *)
Definition execution_state (candidate : ExportArtifact.t) (n : datetime) : ExecutionState :=
  if negb (is_None (ExportArtifact.downloaded_at candidate))
     || (0 <? ExportArtifact.download_count candidate)
  then (DataSubjectRequestExecutionStatus.DELIVERED,
        or_else (ExportArtifact.downloaded_at candidate)
          (or_else (ExportArtifact.completed_at candidate) (Some n)), None, None)
  else match ExportArtifact.status candidate with
  | ExportArtifactStatus.READY =>
      if n <? ExportArtifact.expires_at candidate
      then (DataSubjectRequestExecutionStatus.READY,
            or_else (ExportArtifact.completed_at candidate) (Some n), None, None)
      else artifact_expired (ExportArtifact.expires_at candidate)
  | ExportArtifactStatus.PROCESSING =>
      if ExportArtifactRepository.lease_runs n candidate
      then (DataSubjectRequestExecutionStatus.PROCESSING,
            or_else (ExportArtifact.started_at candidate) (Some n), None, None)
      else (DataSubjectRequestExecutionStatus.QUEUED, Some (ExportArtifact.queued_at candidate),
            None, None)
  | ExportArtifactStatus.QUEUED =>
      (DataSubjectRequestExecutionStatus.QUEUED, Some (ExportArtifact.queued_at candidate),
       None, None)
  | ExportArtifactStatus.EXPIRED => artifact_expired (ExportArtifact.expires_at candidate)
  | ExportArtifactStatus.FAILED =>
      (DataSubjectRequestExecutionStatus.FAILED,
       or_else (ExportArtifact.failed_at candidate)
         (or_else (ExportArtifact.started_at candidate) (Some n)),
       ExportArtifact.failure_reason_code candidate, ExportArtifact.failure_detail candidate)
  | _ => (DataSubjectRequestExecutionStatus.NOT_STARTED, Some n, None, None)
  end.

Definition _execution_state_for_dsr (artifact : ExportArtifact.t) (n : datetime)
    : M Db ExecutionState :=
  latest_artifact ← _latest_export_artifact_for_dsr
    (ExportArtifact.data_subject_request_id artifact);
  mret match latest_artifact with
       | None => (DataSubjectRequestExecutionStatus.NOT_STARTED, Some n, None, None)
       | Some candidate => execution_state candidate n
       end.

(** The execution columns [_sync_export_dsr_execution_state] assigns. *)
Definition with_execution (execution_status : DataSubjectRequestExecutionStatus.t)
    (reference_now : datetime) (failure_reason_code failure_detail : option string)
    (dsr : DataSubjectRequest.t) : DataSubjectRequest.t :=
  let dsr := DataSubjectRequest.set_execution_status execution_status dsr in
  let failure code detail failed dsr :=
    DataSubjectRequest.set_execution_failure_detail detail
      (DataSubjectRequest.set_execution_failure_reason_code code
        (DataSubjectRequest.set_execution_failed_at failed dsr)) in
  let if_unset x := or_else x (Some reference_now) in
  match execution_status with
  | DataSubjectRequestExecutionStatus.QUEUED =>
      failure None None None (DataSubjectRequest.set_execution_completed_at None
        (DataSubjectRequest.set_execution_started_at None dsr))
  | DataSubjectRequestExecutionStatus.PROCESSING =>
      failure None None None (DataSubjectRequest.set_execution_completed_at None
        (DataSubjectRequest.set_execution_started_at
           (if_unset (DataSubjectRequest.execution_started_at dsr)) dsr))
  | DataSubjectRequestExecutionStatus.READY =>
      failure None None None
        (DataSubjectRequest.set_execution_completed_at (Some reference_now) dsr)
  | DataSubjectRequestExecutionStatus.FAILED =>
      failure failure_reason_code failure_detail (Some reference_now)
        (DataSubjectRequest.set_execution_completed_at None dsr)
  | DataSubjectRequestExecutionStatus.DELIVERED =>
      failure None None None (DataSubjectRequest.set_execution_completed_at
        (if_unset (DataSubjectRequest.execution_completed_at dsr)) dsr)
  | _ => dsr
  end.

Definition _sync_export_dsr_execution_state (artifact : ExportArtifact.t) (state : ExecutionState)
    : M Db unit :=
  reference_now ← now_or state.1.1.2;
  latest_artifact ← _latest_export_artifact_for_dsr
    (ExportArtifact.data_subject_request_id artifact);
  superseding ← match latest_artifact with
    | Some latest =>
        if bool_decide (ExportArtifact.id latest = ExportArtifact.id artifact) then mret None
        else s ← _execution_state_for_dsr latest reference_now; mret (Some (latest, s))
    | None => mret None
    end;
  let '(artifact, (execution_status, event_at, failure_reason_code, failure_detail)) :=
    default (artifact, (state.1.1.1, Some reference_now, state.1.2, state.2)) superseding in
  let reference_now := default reference_now event_at in
  dsr ← DataSubjectRequestRepository.get_by_id (ExportArtifact.data_subject_request_id artifact);
  match dsr with
  | None => mret tt
  | Some dsr =>
      if negb (bool_decide (DataSubjectRequest.request_type dsr = DataSubjectRequestType.EXPORT))
      then mret tt else
      DataSubjectRequestRepository.save dsr
        (with_execution execution_status reference_now failure_reason_code failure_detail) ;;
      mret tt
  end.

Definition _record_event (audit_context : AuditContext.t) (action : AuditAction.t)
    (artifact : ExportArtifact.t) : M Db unit :=
  AuditEventService.record_event audit_context AuditCategory.COMPLIANCE action
    AuditTargetType.EXPORT_ARTIFACT (Some (ExportArtifact.id artifact)) None
    (Some (JObj
       [("status", JStr (ExportArtifactStatus.value (ExportArtifact.status artifact)));
        ("format", JStr (ExportArtifactFormat.value (ExportArtifact.format artifact)))]%string))
    None ;;
  mret tt.

(** [AuditContext(actor_user_id=..)] *)
Definition system_context (actor_user_id : option UUID) : AuditContext.t :=
  AuditContext.mk actor_user_id None None None.

(** *** Requests and listings *)

Definition exportable (dsr : DataSubjectRequest.t) : bool :=
  bool_decide (DataSubjectRequest.request_type dsr = DataSubjectRequestType.EXPORT)
  && bool_decide (DataSubjectRequest.status dsr = DataSubjectRequestStatus.APPROVED)
  && _has_export_dsr_participant_links dsr.

(** The row [request_export_artifact] creates; the other columns take their defaults. *)
Definition queued_row (id : UUID) (dsr : DataSubjectRequest.t) (requested_by_user_id : UUID)
    (queued_at created_at updated_at : datetime) : ExportArtifact.t :=
  ExportArtifact.mk id (DataSubjectRequest.id dsr) (DataSubjectRequest.subject_user_id dsr)
    (DataSubjectRequest.requester_user_id dsr) ExportArtifactStatus.QUEUED
    ExportArtifactFormat.JSON_ZIP (storage_backend settings) None None None None None
    (schema_version settings) (Some requested_by_user_id) None None None queued_at None None None
    None None (queued_at + days (artifact_retention_days settings)) None 0 None 0
    created_at updated_at.

Definition request_export_artifact (request_id requested_by_user_id : UUID)
    (audit_context : AuditContext.t) : M Db ExportArtifact.t :=
  _ensure_exports_enabled ;;
  dsr ← DataSubjectRequestRepository.get_by_id request_id;
  dsr ← or_raise dsr (NotFoundError "Data subject request not found");
  raise_if (negb (exportable dsr))
    (ConflictError
       "Export artifact can only be requested for approved export data-subject requests") ;;
  queued_at ← now;
  id ← new_uuid;
  created_at ← now;
  updated_at ← now;
  artifact ← ExportArtifactRepository.create
    (queued_row id dsr requested_by_user_id queued_at created_at updated_at);
  _sync_export_dsr_execution_state artifact
    (DataSubjectRequestExecutionStatus.QUEUED, Some queued_at, None, None) ;;
  _record_event audit_context AuditAction.EXPORT_ARTIFACT_REQUESTED artifact ;;
  mret artifact.

Definition artifact_not_found : exn := NotFoundError "Export artifact not found".

Definition get_own_export_artifact (artifact_id requester_user_id : UUID)
    : M Db ExportArtifact.t :=
  artifact ← ExportArtifactRepository.get_by_id artifact_id;
  artifact ← or_raise artifact artifact_not_found;
  raise_if (negb (bool_decide
      (ExportArtifact.requester_user_id artifact = Some requester_user_id)))
    artifact_not_found ;;
  mret artifact.

Definition list_own_export_artifacts (requester_user_id : UUID) (limit offset : nat)
    : M Db (list ExportArtifact.t * nat) :=
  rows ← ExportArtifactRepository.list_for_requester requester_user_id limit offset;
  total ← ExportArtifactRepository.count_for_requester requester_user_id;
  mret (rows, total).

Definition get_platform_export_artifact (artifact_id : UUID) : M Db ExportArtifact.t :=
  artifact ← ExportArtifactRepository.get_by_id artifact_id;
  or_raise artifact artifact_not_found.

Definition list_platform_export_artifacts (limit offset : nat)
    : M Db (list ExportArtifact.t * nat) :=
  rows ← ExportArtifactRepository.list_for_platform limit offset;
  total ← ExportArtifactRepository.count_for_platform;
  mret (rows, total).

(** *** Delivery *)

Definition not_ready (artifact : ExportArtifact.t) : bool :=
  negb (bool_decide (ExportArtifact.status artifact = ExportArtifactStatus.READY)).

Definition generate_download_url (artifact : ExportArtifact.t) (audit_context : AuditContext.t)
    : M Db GeneratedExportDownloadUrl :=
  _ensure_exports_enabled ;;
  n ← now;
  raise_if (not_ready artifact) (ConflictError "Export artifact is not available for download") ;;
  _ensure_download_dsr_is_still_eligible artifact ;;
  let remaining_seconds := whole_seconds (ExportArtifact.expires_at artifact - n) in
  raise_if (remaining_seconds <=? 0) (ConflictError "Export artifact is expired") ;;
  storage_key ← or_raise (ExportArtifact.storage_key artifact)
    (ConflictError "Export artifact is missing storage key");
  let effective_ttl_seconds := Z.min (download_url_ttl_seconds settings) remaining_seconds in
  url ← await_external (storage_download_url (ExportArtifact.storage_backend artifact)
    storage_key effective_ttl_seconds);
  issued_artifact ← ExportArtifactRepository.record_download_url_issued artifact;
  _record_event audit_context AuditAction.EXPORT_ARTIFACT_DOWNLOAD_URL_CREATED issued_artifact ;;
  mret (mkUrl url effective_ttl_seconds).

Definition confirm_export_delivery (artifact : ExportArtifact.t) (audit_context : AuditContext.t)
    : M Db ExportArtifact.t :=
  _ensure_exports_enabled ;;
  n ← now;
  raise_if (not_ready artifact) (ConflictError "Export artifact is not available for delivery") ;;
  _ensure_download_dsr_is_still_eligible artifact ;;
  raise_if (ExportArtifact.expires_at artifact <=? n)
    (ConflictError "Export artifact delivery cannot be confirmed after expiry") ;;
  raise_if (is_None (ExportArtifact.storage_key artifact))
    (ConflictError "Export artifact is missing storage key") ;;
  r ← ExportArtifactRepository.confirm_delivery artifact (Some n);
  let '(delivered, newly_confirmed) := r in
  if negb newly_confirmed then
    raise_if (is_None (ExportArtifact.downloaded_at delivered)
              && (ExportArtifact.download_count delivered =? 0))
      (ConflictError "Export artifact is no longer available for delivery") ;;
    mret delivered
  else
  _sync_export_dsr_execution_state delivered
    (DataSubjectRequestExecutionStatus.DELIVERED, ExportArtifact.downloaded_at delivered,
     None, None) ;;
  _record_event audit_context AuditAction.EXPORT_ARTIFACT_DELIVERY_CONFIRMED delivered ;;
  mret delivered.

(** *** Leases *)

Definition count_queued_artifacts (limit : nat) : M Db nat :=
  if negb (enabled settings) then mret 0%nat else
  rows ← ExportArtifactRepository.peek_queued_batch limit; mret (length rows).

Definition recover_stale_processing_artifacts (limit : nat) : M Db nat :=
  n ← now;
  recovered ← ExportArtifactRepository.recover_stale_processing n limit;
  for_each recovered (fun artifact =>
    state ← _execution_state_for_dsr artifact n;
    _sync_export_dsr_execution_state artifact state) ;;
  mret (length recovered).

(** [[Lease(row.id, row.processing_token) for row in rows if ...]] *)
Definition leases_of (rows : list ExportArtifact.t) : list ProcessingExportLease :=
  omap (fun row => option_map (mkLease (ExportArtifact.id row))
                     (ExportArtifact.processing_token row)) rows.

Definition claim_queued_artifact_leases (batch_size : nat) : M Db (list ProcessingExportLease) :=
  if negb (enabled settings) then mret [] else
  recover_stale_processing_artifacts batch_size ;;
  rows ← ExportArtifactRepository.claim_queued_batch batch_size DEFAULT_PROCESSING_LEASE_SECONDS;
  for_each rows (fun row =>
    _sync_export_dsr_execution_state row
      (DataSubjectRequestExecutionStatus.PROCESSING, ExportArtifact.started_at row, None, None)) ;;
  mret (leases_of rows).

Definition claim_queued_artifact_ids (batch_size : nat) : M Db (list UUID) :=
  leases ← claim_queued_artifact_leases batch_size; mret (map lease_artifact_id leases).

Definition renew_processing_lease (lease : ProcessingExportLease) : M Db bool :=
  ExportArtifactRepository.renew_processing_lease (lease_artifact_id lease)
    (lease_processing_token lease) DEFAULT_PROCESSING_LEASE_SECONDS.

(** *** Generation *)

Definition _prepared_from_committed_upload_intent (artifact : ExportArtifact.t)
    : M Db Prepared.t :=
  match ExportArtifact.storage_key artifact, ExportArtifact.filename artifact,
        ExportArtifact.content_type artifact, ExportArtifact.size_bytes artifact,
        ExportArtifact.checksum_sha256 artifact with
  | Some storage_key, Some filename, Some content_type, Some size_bytes, Some checksum_sha256 =>
      mret (Prepared.mk (ExportArtifact.id artifact) (ExportArtifact.storage_backend artifact)
        storage_key filename content_type None size_bytes checksum_sha256)
  | _, _, _, _, _ =>
      raise (ConflictError "Export artifact upload intent metadata is incomplete")
  end.

(** [try: m / except Exception: _unlink_file(path); raise] *)
Definition unlinking {A} (path : string) (m : M Db A) : M Db A :=
  try_except m (fun e => await_external (unlink_file path) ;; raise e).

Definition content_type_zip : string := "application/zip".

Definition _write_export_archive_file (archive_path : string) (context : ExportContext.t)
    : M Db (string * Z) :=
  chunks ← SubjectDataStream.iter_subject_export_json_chunks context;
  await_external (write_archive archive_path (String.concat EmptyString chunks)).

(** The archive's facts are those of the committed intent. *)
Definition same_upload (committed : Prepared.t) (storage_key filename content_type : string)
    (size_bytes : Z) (checksum_sha256 : string) : bool :=
  String.eqb (Prepared.storage_key committed) storage_key
  && String.eqb (Prepared.filename committed) filename
  && String.eqb (Prepared.content_type committed) content_type
  && (Prepared.size_bytes committed =? size_bytes)
  && String.eqb (Prepared.checksum_sha256 committed) checksum_sha256.

(** The body of the [try] of [prepare_export_archive]. *)
Definition write_and_commit_intent (artifact : ExportArtifact.t) (dsr : DataSubjectRequest.t)
    (processing_token archive_path filename candidate_storage_key : string) (n : datetime)
    : M Db Prepared.t :=
  r ← _write_export_archive_file archive_path
    (ExportContext.mk (ExportArtifact.id artifact) (DataSubjectRequest.id dsr)
       (DataSubjectRequest.subject_user_id dsr) (DataSubjectRequest.requester_user_id dsr)
       (DataSubjectRequest.request_type dsr) (DataSubjectRequest.status dsr) n
       (ExportArtifact.schema_version artifact));
  let '(checksum_sha256, size_bytes) := r in
  raise_if (max_artifact_size_bytes settings <? size_bytes) (ValueError "artifact_too_large") ;;
  n' ← now;
  intent ← ExportArtifactRepository.ensure_processing_upload_intent (ExportArtifact.id artifact)
    processing_token candidate_storage_key filename content_type_zip size_bytes checksum_sha256 n';
  let inactive := ConflictError "Export artifact processing lease is no longer active" in
  intent ← or_raise intent inactive;
  storage_key ← or_raise (ExportArtifact.storage_key intent) inactive;
  committed ← _prepared_from_committed_upload_intent intent;
  if negb (same_upload committed candidate_storage_key filename content_type_zip size_bytes
             checksum_sha256)
  then await_external (unlink_file archive_path) ;; mret committed
  else mret (Prepared.mk (ExportArtifact.id artifact) (ExportArtifact.storage_backend intent)
    storage_key filename content_type_zip (Some archive_path) size_bytes checksum_sha256).

Definition prepare_export_archive (artifact_id : UUID) (processing_token : string)
    : M Db Prepared.t :=
  _ensure_exports_enabled ;;
  artifact ← ExportArtifactRepository.get_processing_by_token artifact_id processing_token;
  artifact ← or_raise artifact artifact_not_found;
  dsr ← DataSubjectRequestRepository.get_by_id (ExportArtifact.data_subject_request_id artifact);
  dsr ← or_raise dsr (ValueError "dsr_not_found");
  raise_if (negb (exportable dsr)) (ValueError "dsr_not_export_eligible") ;;
  if negb (is_None (ExportArtifact.storage_key artifact))
  then _prepared_from_committed_upload_intent artifact else
  n ← now;
  archive_path ← await_external temporary_archive_path;
  key_id ← new_uuid;
  let filename := ("privacy-export-" ++ Uuid.str (ExportArtifact.id artifact) ++ ".zip")%string in
  let candidate_storage_key :=
    ("exports/" ++ Uuid.str (ExportArtifact.id artifact) ++ "/" ++ Uuid.str key_id ++ ".zip")%string in
  unlinking archive_path
    (write_and_commit_intent artifact dsr processing_token archive_path filename
       candidate_storage_key n).

Definition _prepared_metadata_matches_artifact (prepared : Prepared.t)
    (artifact : ExportArtifact.t) : bool :=
  bool_decide (ExportArtifact.storage_backend artifact = Prepared.storage_backend prepared)
  && bool_decide (ExportArtifact.storage_key artifact = Some (Prepared.storage_key prepared))
  && bool_decide (ExportArtifact.filename artifact = Some (Prepared.filename prepared))
  && bool_decide (ExportArtifact.content_type artifact = Some (Prepared.content_type prepared))
  && bool_decide (ExportArtifact.size_bytes artifact = Some (Prepared.size_bytes prepared))
  && bool_decide (ExportArtifact.checksum_sha256 artifact
                  = Some (Prepared.checksum_sha256 prepared)).

Definition validate_prepared_export_upload (prepared : Prepared.t) (processing_token : string)
    : M Db unit :=
  n ← now;
  artifact ← ExportArtifactRepository.get_active_processing_upload_intent
    (Prepared.artifact_id prepared) processing_token n (Some (Prepared.storage_backend prepared))
    (Some (Prepared.storage_key prepared));
  artifact ← or_raise artifact
    (ConflictError "Export artifact upload intent is no longer active");
  raise_if (negb (_prepared_metadata_matches_artifact prepared artifact))
    (ConflictError "Export artifact upload intent metadata no longer matches").

Definition discard_prepared_export_archive (prepared : Prepared.t) : M Db unit :=
  match Prepared.archive_path prepared with
  | None => mret tt
  | Some path => await_external (unlink_file path)
  end.

Definition inspect_committed_export_archive (prepared : Prepared.t) : M Db StorageObjectState :=
  await_external (inspect_file (Prepared.storage_backend prepared) (Prepared.storage_key prepared)
    (Prepared.checksum_sha256 prepared) (Prepared.size_bytes prepared)).

Definition no_publication : exn :=
  ConflictError "Recovered export archive does not require publication".

Definition reserve_prepared_export_archive (prepared : Prepared.t) (processing_token : string)
    : M Db StoragePublicationReservation :=
  raise_if (is_None (Prepared.archive_path prepared)) no_publication ;;
  await_external (reserve_file_publication (Prepared.storage_backend prepared)
    (Prepared.storage_key prepared) processing_token).

Definition publish_prepared_export_archive (prepared : Prepared.t)
    (reservation : StoragePublicationReservation) : M Db unit :=
  archive_path ← or_raise (Prepared.archive_path prepared) no_publication;
  raise_if (negb (String.eqb (reservation_key reservation) (Prepared.storage_key prepared)))
    (ConflictError "Export archive storage reservation no longer matches") ;;
  await_external (publish_reserved_file (Prepared.storage_backend prepared) reservation
    archive_path (Prepared.content_type prepared) (Prepared.checksum_sha256 prepared)).

Definition cancel_prepared_export_archive_reservation (prepared : Prepared.t)
    (reservation : StoragePublicationReservation) : M Db unit :=
  await_external (cancel_file_publication (Prepared.storage_backend prepared) reservation).

Definition delete_prepared_export_storage_object_if_not_matching (prepared : Prepared.t)
    : M Db StorageObjectState :=
  await_external (delete_file_if_not_matching (Prepared.storage_backend prepared)
    (Prepared.storage_key prepared) (Prepared.checksum_sha256 prepared)
    (Prepared.size_bytes prepared)).

Definition reset_prepared_export_upload_intent (prepared : Prepared.t) (processing_token : string)
    : M Db bool :=
  n ← now;
  ExportArtifactRepository.reset_processing_upload_intent (Prepared.artifact_id prepared)
    processing_token (Prepared.storage_backend prepared) (Prepared.storage_key prepared) n.

(** *** Outcome *)

(** [get_by_id] without a token, [get_processing_by_token] with one *)
Definition find_generated (artifact_id : UUID) (processing_token : option string)
    : M Db (option ExportArtifact.t) :=
  match processing_token with
  | None => ExportArtifactRepository.get_by_id artifact_id
  | Some token => ExportArtifactRepository.get_processing_by_token artifact_id token
  end.

(** The assignments before [mark_ready]. *)
Definition with_generated (prepared : Prepared.t) (generated_by_user_id : option UUID)
    (a : ExportArtifact.t) : ExportArtifact.t :=
  ExportArtifact.set_generated_by_user_id generated_by_user_id
    (ExportArtifact.set_checksum_sha256 (Some (Prepared.checksum_sha256 prepared))
      (ExportArtifact.set_size_bytes (Some (Prepared.size_bytes prepared))
        (ExportArtifact.set_content_type (Some (Prepared.content_type prepared))
          (ExportArtifact.set_filename (Some (Prepared.filename prepared)) a)))).

Definition mark_generated_export_artifact_ready (artifact_id : UUID) (prepared : Prepared.t)
    (generated_by_user_id : option UUID) (processing_token : option string)
    : M Db ExportArtifact.t :=
  artifact ← find_generated artifact_id processing_token;
  artifact ← or_raise artifact
    (ConflictError "Export artifact processing lease is no longer active");
  raise_if (negb (_prepared_metadata_matches_artifact prepared artifact))
    (ConflictError "Export artifact upload intent no longer matches") ;;
  ready ← ExportArtifactRepository.mark_ready artifact
    (with_generated prepared generated_by_user_id);
  _sync_export_dsr_execution_state ready
    (DataSubjectRequestExecutionStatus.READY, ExportArtifact.completed_at ready, None, None) ;;
  _record_event (system_context generated_by_user_id) AuditAction.EXPORT_ARTIFACT_GENERATED
    ready ;;
  mret ready.

Definition failure_code (exc : exn) : string :=
  if bool_decide (str_exc exc ∈ _EXPORT_GENERATION_FAILURE_CODES) then str_exc exc
  else "generation_failed".

Definition mark_export_artifact_failed (artifact_id : UUID) (exc : exn)
    (generated_by_user_id : option UUID) (processing_token : option string)
    : M Db (option ExportArtifact.t) :=
  artifact ← find_generated artifact_id processing_token;
  match artifact with
  | None => mret None
  | Some artifact =>
      let code := failure_code exc in
      failed ← ExportArtifactRepository.mark_failed artifact code "Export generation failed";
      _sync_export_dsr_execution_state failed
        (DataSubjectRequestExecutionStatus.FAILED, ExportArtifact.failed_at failed, Some code,
         ExportArtifact.failure_detail failed) ;;
      _record_event (system_context generated_by_user_id) AuditAction.EXPORT_ARTIFACT_FAILED
        failed ;;
      mret (Some failed)
  end.

Definition failed_storage_cleanup (artifact : ExportArtifact.t)
    : option FailedExportStorageCleanup :=
  if negb (bool_decide (ExportArtifact.status artifact = ExportArtifactStatus.FAILED))
  then None
  else option_map (mkCleanup (ExportArtifact.id artifact) (ExportArtifact.storage_backend artifact))
         (ExportArtifact.storage_key artifact).

Definition delete_failed_export_storage_object (cleanup : FailedExportStorageCleanup)
    : M Db unit :=
  await_external (delete_object (cleanup_storage_backend cleanup) (cleanup_storage_key cleanup)).

Definition clear_failed_export_storage_metadata (cleanup : FailedExportStorageCleanup)
    : M Db bool :=
  artifact ← ExportArtifactRepository.get_failed_storage_purge_target
    (cleanup_artifact_id cleanup) (cleanup_storage_key cleanup);
  match artifact with
  | None => mret false
  | Some artifact =>
      ExportArtifactRepository.save artifact
        (fun a => (clear_export_artifact_storage_metadata a).1) ;;
      mret true
  end.

(** *** Expiry and purging *)

Definition _validate_positive_limit (limit : Z) : M Db unit :=
  raise_if (limit <? 1) (ValueError "Export artifact retention limit must be positive").

Definition _is_non_downloadable_storage_purge_retry (artifact : ExportArtifact.t) : bool :=
  bool_decide (ExportArtifact.status artifact
               ∈ [ExportArtifactStatus.EXPIRED; ExportArtifactStatus.FAILED])
  || bool_decide (ExportArtifact.status artifact = ExportArtifactStatus.CANCELLED)
     && bool_decide (ExportArtifact.failure_reason_code artifact
                     = Some SUBJECT_ERASURE_CANCELLED_EXPORT_REASON).

Definition _storage_purges_for (artifacts : list ExportArtifact.t)
    : list ExportArtifactStoragePurge :=
  omap (fun artifact =>
    match ExportArtifact.storage_key artifact with
    | None => None
    | Some key =>
        if negb (_is_non_downloadable_storage_purge_retry artifact) then None
        else Some (mkPurge (ExportArtifact.id artifact) (ExportArtifact.status artifact)
                     (ExportArtifact.storage_backend artifact) key)
    end) artifacts.

Definition list_cancelled_erasure_storage_purges (limit : Z)
    : M Db (list ExportArtifactStoragePurge) :=
  _validate_positive_limit limit ;;
  artifacts ← ExportArtifactRepository.list_cancelled_erasure_purge_retry (Z.to_nat limit);
  mret (_storage_purges_for artifacts).

Definition list_failed_storage_purges (limit : Z) : M Db (list ExportArtifactStoragePurge) :=
  _validate_positive_limit limit ;;
  artifacts ← ExportArtifactRepository.list_failed_storage_purge_retry (Z.to_nat limit);
  mret (_storage_purges_for artifacts).

Definition list_expired_storage_purges (limit : Z) (exclude_ids : list UUID)
    : M Db (list ExportArtifactStoragePurge) :=
  _validate_positive_limit limit ;;
  artifacts ← ExportArtifactRepository.list_expired_storage_purge_retry (Z.to_nat limit)
    exclude_ids;
  mret (_storage_purges_for artifacts).

Definition delete_export_storage_purge_object (purge : ExportArtifactStoragePurge) : M Db unit :=
  await_external (delete_object (purge_storage_backend purge) (purge_storage_key purge)).

Definition clear_export_storage_purge_metadata (purge : ExportArtifactStoragePurge) : M Db bool :=
  artifact ← ExportArtifactRepository.get_storage_purge_target (purge_artifact_id purge)
    (purge_expected_status purge) (purge_storage_backend purge) (purge_storage_key purge);
  match artifact with
  | None => mret false
  | Some artifact =>
      if negb (_is_non_downloadable_storage_purge_retry artifact) then mret false else
      ExportArtifactRepository.save artifact
        (fun a => (clear_export_artifact_storage_metadata a).1) ;;
      mret true
  end.

(** The early returns once the limit is spent. [uncommitted_expired] is the set of
    identifiers [expire_ready_artifacts] left in the session since the
    transaction began. *)
Definition count_expired_ready_artifacts (now_arg : option datetime) (limit : Z)
    (uncommitted_expired : list UUID) : M Db Z :=
  _validate_positive_limit limit ;;
  now_value ← now_or now_arg;
  cancelled ← ExportArtifactRepository.list_cancelled_erasure_purge_retry (Z.to_nat limit);
  let counted := Z.of_nat (length cancelled) in
  if limit - counted <=? 0 then mret counted else
  failed ← ExportArtifactRepository.list_failed_storage_purge_retry (Z.to_nat (limit - counted));
  let counted := counted + Z.of_nat (length failed) in
  if limit - counted <=? 0 then mret counted else
  ready ← ExportArtifactRepository.list_expired_ready now_value (Z.to_nat (limit - counted));
  let counted := counted + Z.of_nat (length ready) in
  if limit - counted <=? 0 then mret counted else
  expired ← ExportArtifactRepository.list_expired_storage_purge_retry
    (Z.to_nat (limit - counted)) uncommitted_expired;
  mret (counted + Z.of_nat (length expired)).

(** One artifact of [expire_ready_artifacts]. *)
Definition expire_one (now_value : datetime) (artifact : ExportArtifact.t) : M Db UUID :=
  expired_artifact ← ExportArtifactRepository.mark_expired artifact;
  state ← _execution_state_for_dsr expired_artifact now_value;
  _sync_export_dsr_execution_state expired_artifact state ;;
  _record_event (system_context None) AuditAction.EXPORT_ARTIFACT_EXPIRED expired_artifact ;;
  mret (ExportArtifact.id expired_artifact).

Definition expire_ready_artifacts (now_arg : option datetime) (limit : Z) : M Db (list UUID) :=
  _validate_positive_limit limit ;;
  now_value ← now_or now_arg;
  expired_ready ← ExportArtifactRepository.list_expired_ready now_value (Z.to_nat limit);
  for_each expired_ready (expire_one now_value).

Definition mark_expired_artifacts (now_arg : option datetime) (limit : Z) : M Db nat :=
  expired_ids ← expire_ready_artifacts now_arg limit; mret (length expired_ids).

End Service.
End ExportArtifactService.
