(* ===== verification/ExportWorker.v ===== *)
(** The worker that generates export archives: [commands/privacy_export_worker.py].
    Every transaction has a session of its own; the storage is used between
    them. The heartbeat, a task beside the worker, is the transaction
    [_renew_processing_lease]. *)
From S2P Require Import Prelude Errors Session Schema Tables AuditLog.
From S2P Require Import ExportArtifacts DataSubjectRequests ExportArtifactServices.
Import ExportArtifactService.

Module ExportWorker.
Section Worker.
Context `{Env} `{Network} `{StorageAdapter} `{ArchiveFiles}.
Variable settings : PrivacyExportsSettings.

Definition _count_queued_artifacts (batch_size : nat) : M Db nat :=
  begin (count_queued_artifacts settings batch_size).

Definition _claim_queued_artifact_leases (batch_size : nat) : M Db (list ProcessingExportLease) :=
  begin (claim_queued_artifact_leases settings batch_size).

Definition _renew_processing_lease (lease : ProcessingExportLease) : M Db bool :=
  begin (renew_processing_lease lease).

(** A commit that fails after the archive was written is not modelled, so its
    removal on that path is not either. *)
Definition _prepare_export_archive (lease : ProcessingExportLease) : M Db Prepared.t :=
  begin (prepare_export_archive settings (lease_artifact_id lease) (lease_processing_token lease)).

(** The [finally] that withdraws a reservation whose publication did not complete,
    unless its outcome is unknown. *)
Definition cancelling (prepared : Prepared.t) (reservation : StoragePublicationReservation)
    (publication : M Db unit) : M Db unit :=
  try_except publication (fun e =>
    (if bool_decide (e = StorageObjectStateUnknownError) then mret tt
     else cancel_prepared_export_archive_reservation prepared reservation) ;;
    raise e).

Definition _write_export_archive (lease : ProcessingExportLease) (prepared : Prepared.t)
    : M Db unit :=
  try_finally
    (reservation ← reserve_prepared_export_archive prepared (lease_processing_token lease);
     cancelling prepared reservation (
       begin (validate_prepared_export_upload prepared (lease_processing_token lease)) ;;
       publish_prepared_export_archive prepared reservation))
    (discard_prepared_export_archive prepared).

Definition _recover_committed_export_archive (prepared : Prepared.t) : M Db bool :=
  state ← inspect_committed_export_archive prepared; mret (bool_decide (state = MATCHING)).

Definition _reset_committed_export_upload_intent (lease : ProcessingExportLease)
    (prepared : Prepared.t) : M Db bool :=
  begin (validate_prepared_export_upload prepared (lease_processing_token lease)) ;;
  state ← delete_prepared_export_storage_object_if_not_matching prepared;
  if bool_decide (state = MATCHING) then mret false else
  begin (
    reset ← reset_prepared_export_upload_intent prepared (lease_processing_token lease);
    raise_if (negb reset) (OtherError "RuntimeError")) ;;
  mret true.

Definition _mark_export_ready (lease : ProcessingExportLease) (prepared : Prepared.t)
    : M Db unit :=
  begin (mark_generated_export_artifact_ready (Prepared.artifact_id prepared) prepared None
    (Some (lease_processing_token lease))) ;;
  mret tt.

Definition _mark_export_failed (lease : ProcessingExportLease) (exc : exn)
    : M Db (option FailedExportStorageCleanup) :=
  begin (
    failed ← mark_export_artifact_failed (lease_artifact_id lease) exc None
      (Some (lease_processing_token lease));
    mret (match failed with None => None | Some failed => failed_storage_cleanup failed end)).

Definition _delete_failed_export_storage (cleanup : FailedExportStorageCleanup) : M Db unit :=
  delete_failed_export_storage_object cleanup.

Definition _clear_failed_export_storage_metadata (cleanup : FailedExportStorageCleanup)
    : M Db unit :=
  begin (clear_failed_export_storage_metadata cleanup) ;; mret tt.

Definition _cleanup_failed_export_storage (cleanup : FailedExportStorageCleanup) : M Db unit :=
  deleted ← try_except (_delete_failed_export_storage cleanup ;; mret true)
    (fun _ => mret false);
  if negb deleted then mret tt else
  try_except (_clear_failed_export_storage_metadata cleanup) (fun _ => mret tt).

(** The archive to publish: the committed one when the storage holds it, else a new
    one for a new key. *)
Definition obtain_archive (lease : ProcessingExportLease) : M Db Prepared.t :=
  prepared ← _prepare_export_archive lease;
  if negb (is_None (Prepared.archive_path prepared)) then mret prepared else
  recovered ← _recover_committed_export_archive prepared;
  if (recovered : bool) then mret prepared else
  reset ← _reset_committed_export_upload_intent lease prepared;
  if (reset : bool) then _prepare_export_archive lease else mret prepared.

(** The body of the [try] of [_process_artifact]. *)
Definition generate (lease : ProcessingExportLease) : M Db unit :=
  prepared ← obtain_archive lease;
  (if negb (is_None (Prepared.archive_path prepared)) then _write_export_archive lease prepared
   else mret tt) ;;
  _mark_export_ready lease prepared.

Definition _process_artifact (lease : ProcessingExportLease) : M Db unit :=
  try_except (generate lease) (fun exc =>
    if bool_decide (exc = StorageObjectStateUnknownError) then mret tt else
    cleanup ← _mark_export_failed lease exc;
    match cleanup with
    | None => mret tt
    | Some cleanup => _cleanup_failed_export_storage cleanup
    end).

(** One turn of the loop of [run_worker]: the number of artifacts processed. *)
Definition worker_turn (batch_size : nat) (dry_run : bool) : M Db nat :=
  if dry_run then _count_queued_artifacts batch_size else
  leases ← _claim_queued_artifact_leases batch_size;
  for_each leases _process_artifact ;;
  mret (length leases).

(** [run_worker] without a poll interval, which returns the total the code prints:
    the loop ends with the first turn, or when a turn finds nothing queued.
    [None] means that [fuel] turns were not enough. *)
Fixpoint worker_loop (fuel batch_size : nat) (dry_run once : bool) (total_processed : nat)
    : M Db (option nat) :=
  match fuel with
  | O => mret None
  | S fuel =>
      processed_this_iteration ← worker_turn batch_size dry_run;
      let total_processed := (total_processed + processed_this_iteration)%nat in
      if dry_run || once then mret (Some total_processed) else
      if (processed_this_iteration =? 0)%nat then mret (Some total_processed)
      else worker_loop fuel batch_size dry_run once total_processed
  end.

Definition run_worker (fuel : nat) (batch_size : Z) (dry_run once : bool) : M Db (option nat) :=
  raise_if (batch_size <? 1) (ValueError "batch_size must be at least 1") ;;
  worker_loop fuel (Z.to_nat batch_size) dry_run once 0.

End Worker.
End ExportWorker.
