(* ===== verification/PrivacyMaintenance.v ===== *)
(** Privacy retention: [privacy/maintenance.py]. One pass scrubs old invites, outbox
    events, audit events and idempotency keys, expires export archives and
    purges their storage between its transactions. *)
From S2P Require Import Prelude Errors Session Schema Tables AuditLog Outbox Invites.
From S2P Require Import ExportArtifacts DataSubjectRequests ExportArtifactServices.
Import ExportArtifactService.

Module PrivacyMaintenance.
Import InviteAnonymisation.

Definition _OUTBOX_DELIVERY_RETENTION_DAYS : Z := 30.
Definition _PRIVACY_RETENTION_LAST_ERROR : string := "privacy_retention_scrubbed".
Definition _SAFE_OUTBOX_PAYLOAD_KEYS : list string :=
  ["invite_id"; "organisation_id"; "purpose"; "role"]%string.
Definition _SCRUBBED_PAYLOAD_MARKER : string := "sensitive_payload_scrubbed".
Definition _PRIVACY_RETENTION_MARKER : string := "privacy_retention_scrubbed".

Record Summary := mkSummary {
  expired_export_artifacts : Z;
  anonymised_invites : Z;
  scrubbed_outbox_events : Z;
  minimised_audit_events : Z;
  cleaned_dsr_idempotency_keys : Z;
}.

Definition total (s : Summary) : Z :=
  expired_export_artifacts s + anonymised_invites s + scrubbed_outbox_events s
  + minimised_audit_events s + cleaned_dsr_idempotency_keys s.

(** The groups of [Settings] a pass reads. *)
Record Settings := mkSettings {
  privacy_exports : PrivacyExportsSettings;
  invite_retention : InviteService.InviteRetentionSettings;
  audit : AuditEventService.AuditSettings;
}.

Section Maintenance.
Context `{Env} `{Network} `{StorageAdapter} `{ArchiveFiles}.
Variable settings : Settings.

(** *** Invites *)

(** [~email.like('%@<domain>')], [~token_hash.like('<prefix>:%')] and the columns a
    retained row must lose *)
Definition _invite_needs_retention_condition (i : Invite.t) : bool :=
  negb (Text.like ("%@" ++ SCRUBBED_INVITE_EMAIL_DOMAIN) (Invite.email i))
  || negb (Text.like (SCRUBBED_INVITE_TOKEN_PREFIX ++ ":%") (Invite.token_hash i))
  || negb (is_None (Invite.revoked_by_user_id i))
  || negb (is_None (Invite.expires_at i)).

Definition _invite_needs_retention (i : Invite.t) : bool :=
  negb (is_scrubbed_invite i) || negb (is_None (Invite.revoked_by_user_id i))
  || negb (is_None (Invite.expires_at i)).

Definition retained_invite (n : datetime) (i : Invite.t) : bool :=
  match Invite.status i with
  | InviteStatus.ACCEPTED =>
      Invite.updated_at i <=? n - days (InviteService.accepted_days (invite_retention settings))
  | InviteStatus.EXPIRED =>
      default (Invite.updated_at i) (Invite.expires_at i)
        <=? n - days (InviteService.expired_days (invite_retention settings))
  | InviteStatus.REVOKED =>
      default (Invite.updated_at i) (Invite.revoked_at i)
        <=? n - days (InviteService.revoked_days (invite_retention settings))
  | InviteStatus.PENDING => false
  end && _invite_needs_retention_condition i.

Definition _load_retained_invites (n : datetime) (limit : nat) : M Db (list Invite.t) :=
  rows ← select (retained_invite n);
  mret (take limit (merge_sort
    (ordered_by (fun i => [Invite.updated_at i; Z.of_N (Invite.id i)])) rows)).

Definition _apply_invite_retention (i : Invite.t) : Invite.t :=
  Invite.set_revoked_by_user_id None (Invite.set_expires_at None
    (Invite.set_token_hash (scrubbed_invite_token_hash (Invite.id i))
      (Invite.set_email (scrubbed_invite_email (Invite.id i)) i))).

Definition _anonymise_retained_invites (n : datetime) (limit : nat) (dry_run : bool) : M Db Z :=
  invites ← _load_retained_invites n limit;
  let affected := List.filter _invite_needs_retention invites in
  let affected_rows := Z.of_nat (length affected) in
  if dry_run || (affected_rows =? 0) then mret affected_rows else
  for_each affected (fun i => update_row (Invite.id i) _apply_invite_retention) ;;
  mret affected_rows.

(** *** Outbox events *)

(** [payload.get(marker) is True] of a mapping *)
Definition marked (payload : json) : bool :=
  match payload with
  | JObj fields =>
      match List.find (fun kv => String.eqb kv.1 _PRIVACY_RETENTION_MARKER) fields with
      | Some (_, JBool true) => true
      | _ => false
      end
  | _ => false
  end.

Definition failed_with_free_text (e : OutboxEvent.t) : bool :=
  bool_decide (OutboxEvent.status e = OutboxStatus.FAILED)
  && match OutboxEvent.last_error e with
     | None => false
     | Some s => negb (String.eqb s _PRIVACY_RETENTION_LAST_ERROR)
     end.

Definition _outbox_event_needs_retention (e : OutboxEvent.t) : bool :=
  negb (marked (OutboxEvent.payload_json e)) || failed_with_free_text e
  || negb (is_None (OutboxEvent.locked_at e)) || negb (is_None (OutboxEvent.next_attempt_at e)).

Definition retained_outbox_event (n : datetime) (e : OutboxEvent.t) : bool :=
  bool_decide (OutboxEvent.status e ∈ [OutboxStatus.PROCESSED; OutboxStatus.FAILED])
  && (default (OutboxEvent.updated_at e) (OutboxEvent.processed_at e)
        <=? n - days _OUTBOX_DELIVERY_RETENTION_DAYS)
  && _outbox_event_needs_retention e.

Definition _load_retained_outbox_events (n : datetime) (limit : nat) : M Db (list OutboxEvent.t) :=
  rows ← select (retained_outbox_event n);
  mret (take limit (merge_sort
    (ordered_by (fun e => [OutboxEvent.created_at e; Z.of_N (OutboxEvent.id e)])) rows)).

Definition is_safe_key (k : string) : bool := existsb (String.eqb k) _SAFE_OUTBOX_PAYLOAD_KEYS.

Definition _scrubbed_outbox_payload (payload : json) : json :=
  let fields := match payload with JObj fields => fields | _ => [] end in
  JObj (OutboxEventRepository.dict_set _PRIVACY_RETENTION_MARKER (JBool true)
    (OutboxEventRepository.dict_set _SCRUBBED_PAYLOAD_MARKER (JBool true)
      (List.filter (fun kv => is_safe_key kv.1) fields))).

Definition _apply_outbox_retention (e : OutboxEvent.t) : OutboxEvent.t :=
  let e := OutboxEvent.set_next_attempt_at None (OutboxEvent.set_locked_at None
    (OutboxEvent.set_payload_json (_scrubbed_outbox_payload (OutboxEvent.payload_json e)) e)) in
  if bool_decide (OutboxEvent.status e = OutboxStatus.FAILED)
  then OutboxEvent.set_last_error (Some _PRIVACY_RETENTION_LAST_ERROR) e else e.

Definition _scrub_retained_outbox_events (n : datetime) (limit : nat) (dry_run : bool) : M Db Z :=
  events ← _load_retained_outbox_events n limit;
  let affected := List.filter _outbox_event_needs_retention events in
  let affected_rows := Z.of_nat (length affected) in
  if dry_run || (affected_rows =? 0) then mret affected_rows else
  for_each affected (fun e => update_row (OutboxEvent.id e) _apply_outbox_retention) ;;
  mret affected_rows.

(** *** Audit events *)

Definition _audit_retention_age_condition (n : datetime) (e : AuditEvent.t) : bool :=
  let cutoff d := AuditEvent.created_at e <=? n - days d in
  let is_category c := String.eqb (AuditEvent.category e) (AuditCategory.value c) in
  is_category AuditCategory.SECURITY
    && cutoff (AuditEventService.security_retention_days (audit settings))
  || is_category AuditCategory.COMPLIANCE
       && cutoff (AuditEventService.compliance_retention_days (audit settings))
  || negb (is_category AuditCategory.SECURITY || is_category AuditCategory.COMPLIANCE)
       && cutoff (AuditEventService.retention_days (audit settings)).

Definition _audit_legal_hold_released_condition (n : datetime) (e : AuditEvent.t) : bool :=
  match AuditEvent.legal_hold_until e with None => true | Some h => h <=? n end.

Definition _audit_event_needs_retention_condition (e : AuditEvent.t) : bool :=
  negb (is_None (AuditEvent.actor_user_id e)) || negb (is_None (AuditEvent.reason e))
  || AuditEventRepository.metadata_json_is_not_null e || negb (is_None (AuditEvent.ip_address e))
  || negb (is_None (AuditEvent.user_agent e)).

Definition _retained_audit_event_filters (n : datetime) (e : AuditEvent.t) : bool :=
  _audit_retention_age_condition n e && _audit_legal_hold_released_condition n e
  && _audit_event_needs_retention_condition e.

Definition _retained_audit_event_ids (n : datetime) (limit : nat) : M Db (list UUID) :=
  rows ← select (_retained_audit_event_filters n);
  mret (AuditEvent.id <$> take limit (merge_sort
    (ordered_by (fun e => [AuditEvent.created_at e; Z.of_N (AuditEvent.id e)])) rows)).

Definition _minimise_retained_audit_events (n : datetime) (limit : nat) (dry_run : bool)
    : M Db Z :=
  ids ← _retained_audit_event_ids n limit;
  if dry_run || (length ids =? 0)%nat then mret (Z.of_nat (length ids)) else
  changed ← update_where (fun e =>
      bool_decide (AuditEvent.id e ∈ ids) && _retained_audit_event_filters n e)
    AuditEventRepository.anonymised;
  mret (Z.of_nat (length changed)).

(** *** Idempotency keys *)

Definition expired_idempotency (n : datetime) (r : DataSubjectRequest.t) : bool :=
  match DataSubjectRequest.idempotency_key_expires_at r with None => false | Some e => e <=? n end
  && (negb (is_None (DataSubjectRequest.idempotency_key_hash r))
      || negb (is_None (DataSubjectRequest.idempotency_fingerprint r))).

Definition _expired_dsr_idempotency_ids (n : datetime) (limit : nat) : M Db (list UUID) :=
  rows ← select (expired_idempotency n);
  mret (DataSubjectRequest.id <$> take limit (merge_sort
    (ordered_by (fun r => nulls_last (DataSubjectRequest.idempotency_key_expires_at r)
                          ++ [Z.of_N (DataSubjectRequest.id r)])) rows)).

Definition without_idempotency (r : DataSubjectRequest.t) : DataSubjectRequest.t :=
  DataSubjectRequest.set_idempotency_key_expires_at None
    (DataSubjectRequest.set_idempotency_fingerprint None
      (DataSubjectRequest.set_idempotency_key_hash None r)).

Definition _clean_expired_dsr_idempotency_keys (n : datetime) (limit : nat) (dry_run : bool)
    : M Db Z :=
  ids ← _expired_dsr_idempotency_ids n limit;
  if dry_run || (length ids =? 0)%nat then mret (Z.of_nat (length ids)) else
  changed ← update_where (fun r => bool_decide (DataSubjectRequest.id r ∈ ids))
    without_idempotency;
  mret (Z.of_nat (length changed)).

(** *** Export archives *)

Definition expire_ready_export_artifacts (now_arg : option datetime) (limit : Z) (dry_run : bool)
    : M Db Z :=
  reference_now ← now_or now_arg;
  if dry_run then count_expired_ready_artifacts (Some reference_now) limit []
  else n ← mark_expired_artifacts (Some reference_now) limit; mret (Z.of_nat n).

(** [deleted] and [failures] *)
Definition PurgeOutcome : Type := list ExportArtifactStoragePurge * list exn.

Definition delete_one (purge : ExportArtifactStoragePurge) : M Db PurgeOutcome :=
  try_except (delete_export_storage_purge_object purge ;; mret ([purge], []))
    (fun exc => mret ([], [exc])).

Definition _delete_export_storage_purges (purges : list ExportArtifactStoragePurge)
    : M Db PurgeOutcome :=
  outcomes ← for_each purges delete_one;
  mret (List.concat (map fst outcomes), List.concat (map snd outcomes)).

Definition _clear_export_storage_purges (purges : list ExportArtifactStoragePurge) : M Db Z :=
  cleared ← for_each purges clear_export_storage_purge_metadata;
  mret (Z.of_nat (length (List.filter id cleared))).

(** *** The passes *)

Definition _run_non_export_retention (n : datetime) (limit : nat) (dry_run : bool)
    : M Db Summary :=
  invites ← _anonymise_retained_invites n limit dry_run;
  events ← _scrub_retained_outbox_events n limit dry_run;
  audits ← _minimise_retained_audit_events n limit dry_run;
  keys ← _clean_expired_dsr_idempotency_keys n limit dry_run;
  mret (mkSummary 0 invites events audits keys).

Definition check_limit (limit : Z) : M Db unit :=
  raise_if (limit <? 1) (ValueError "Privacy retention batch size must be positive").

Definition with_exports (exports : Z) (s : Summary) : Summary :=
  mkSummary exports (anonymised_invites s) (scrubbed_outbox_events s) (minimised_audit_events s)
    (cleaned_dsr_idempotency_keys s).

Definition run_privacy_retention_maintenance (now_arg : option datetime) (limit : Z)
    (dry_run : bool) : M Db Summary :=
  check_limit limit ;;
  reference_now ← now_or now_arg;
  database_summary ← _run_non_export_retention reference_now (Z.to_nat limit) dry_run;
  exports ← expire_ready_export_artifacts (Some reference_now) limit dry_run;
  mret (with_exports exports database_summary).

(** The four transactions of a pass that is not dry; each takes what the deletions
    before it achieved. *)
Definition retain_and_list_cancelled (n : datetime) (limit : Z)
    : M Db (Summary * list ExportArtifactStoragePurge) :=
  begin (
    summary ← _run_non_export_retention n (Z.to_nat limit) false;
    purges ← list_cancelled_erasure_storage_purges limit;
    mret (summary, purges)).

(** [list(limit=remaining) if remaining > 0 else ()] *)
Definition if_any_left {A} (remaining_limit : Z) (list_purges : Z -> M Db (list A))
    : M Db (list A) :=
  if 0 <? remaining_limit then list_purges remaining_limit else mret [].

Definition clear_and_list_failed (deleted : list ExportArtifactStoragePurge) (limit processed : Z)
    : M Db (Z * list ExportArtifactStoragePurge) :=
  begin (
    cleared ← _clear_export_storage_purges deleted;
    let processed := processed + cleared in
    purges ← if_any_left (limit - processed) list_failed_storage_purges;
    mret (processed, purges)).

Definition clear_and_expire (n : datetime) (deleted : list ExportArtifactStoragePurge)
    (limit processed : Z) : M Db (Z * list ExportArtifactStoragePurge) :=
  begin (
    cleared ← _clear_export_storage_purges deleted;
    let processed := processed + cleared in
    newly_expired_ids ← if_any_left (limit - processed)
      (fun remaining => expire_ready_artifacts (Some n) remaining);
    let processed := processed + Z.of_nat (length newly_expired_ids) in
    purges ← if_any_left (limit - processed)
      (fun remaining => list_expired_storage_purges remaining newly_expired_ids);
    mret (processed, purges)).

Definition clear_last (deleted : list ExportArtifactStoragePurge) (processed : Z) : M Db Z :=
  begin (cleared ← _clear_export_storage_purges deleted; mret (processed + cleared)).

(** [if summary.total == 0 and purge_failures: raise purge_failures[0]] *)
Definition report (summary : Summary) (purge_failures : list exn) : M Db Summary :=
  match purge_failures with
  | exc :: _ => if total summary =? 0 then raise exc else mret summary
  | [] => mret summary
  end.

Definition run_privacy_retention_pass (now_arg : option datetime) (limit : Z) (dry_run : bool)
    : M Db Summary :=
  check_limit limit ;;
  reference_now ← now_or now_arg;
  if dry_run
  then with_session (run_privacy_retention_maintenance (Some reference_now) limit true)
  else
    r ← retain_and_list_cancelled reference_now limit;
    let '(database_summary, cancelled_purges) := r in
    o1 ← _delete_export_storage_purges cancelled_purges;
    r ← clear_and_list_failed o1.1 limit 0;
    let '(export_processed, failed_purges) := r in
    o2 ← _delete_export_storage_purges failed_purges;
    r ← clear_and_expire reference_now o2.1 limit export_processed;
    let '(export_processed, expired_purges) := r in
    o3 ← _delete_export_storage_purges expired_purges;
    export_processed ← clear_last o3.1 export_processed;
    report (with_exports export_processed database_summary) (o1.2 ++ o2.2 ++ o3.2).

End Maintenance.
End PrivacyMaintenance.
