(* ===== verification/ExecutionHealth.v ===== *)
(** The health of data-subject requests in execution: the counts of
    [privacy/repositories/dsr_execution_health.py], the snapshot of
    [privacy/services/dsr_execution_health.py], the metrics it is published in
    ([core/observability/privacy_dsr_metrics.py]) and the command of the operators
    ([commands/privacy_dsr_health.py]). *)
From S2P Require Import Prelude Errors Session Schema Tables Rows SubjectExports ExportArtifacts.


(** [select(key, count()).group_by(key)]: a row for each key there is. *)
Definition group_by {R K} `{EqDecision K} (key : R -> K) (rows : list R) : list (K * Z) :=
  (fun k => (k, Z.of_nat (List.length (List.filter (fun r => bool_decide (key r = k)) rows))))
  <$> remove_dups (key <$> rows).

(** [sum(d.values())] *)
Definition sum_values (m : gmap string Z) : Z := foldr Z.add 0 (snd <$> map_to_list m).

(** [d.get(k, 0)] *)
Definition get_count (k : string) (m : gmap string Z) : Z := default 0 (m !! k).

(** [sorted(d.items())] *)
Definition sorted_items {A} (m : gmap string A) : list (string * A) :=
  merge_sort (fun a b => string_le a.1 b.1) (map_to_list m).

(** ** [privacy/repositories/dsr_execution_health.py] *)
Module DsrExecutionHealthRepository.

Definition _STALE_EXPORT_ARTIFACT_STATUSES : list ExportArtifactStatus.t :=
  [ExportArtifactStatus.QUEUED; ExportArtifactStatus.PROCESSING; ExportArtifactStatus.READY].

Definition export_artifact_statuses : list ExportArtifactStatus.t :=
  [ExportArtifactStatus.QUEUED; ExportArtifactStatus.PROCESSING; ExportArtifactStatus.READY;
   ExportArtifactStatus.FAILED; ExportArtifactStatus.EXPIRED; ExportArtifactStatus.CANCELLED].

(** A dictionary with 0 under each status. *)
Definition zeros (statuses : list string) : gmap string Z :=
  list_to_map ((fun status => (status, 0)) <$> statuses).

Definition _empty_request_counts (request_types execution_statuses : list string)
    : gmap string (gmap string Z) :=
  list_to_map ((fun request_type => (request_type, zeros execution_statuses)) <$> request_types).

Definition _non_cancelled_dsr_predicate (r : DataSubjectRequest.t) : bool :=
  negb (bool_decide (DataSubjectRequest.status r = DataSubjectRequestStatus.CANCELLED)).

(** [counts[str(request_type)][str(execution_status)] = int(count)] for each row; the types
    of the rows are keys of [counts]. *)
Definition with_request_counts (counts : gmap string (gmap string Z))
    (rows : list (string * string * Z)) : gmap string (gmap string Z) :=
  foldl (fun counts row =>
    let '(request_type, execution_status, count) := row in
    alter (insert execution_status count) request_type counts) counts rows.

Definition type_and_status (r : DataSubjectRequest.t) : string * string :=
  (DataSubjectRequestType.value (DataSubjectRequest.request_type r),
   DataSubjectRequestExecutionStatus.value (DataSubjectRequest.execution_status r)).

Definition of_types (request_types : list string) (r : DataSubjectRequest.t) : bool :=
  bool_decide ((type_and_status r).1 ∈ request_types).

Definition count_dsr_requests_by_status (request_types execution_statuses : list string)
    : M Db (gmap string (gmap string Z)) :=
  rows ← select (fun r => of_types request_types r && _non_cancelled_dsr_predicate r);
  mret (with_request_counts (_empty_request_counts request_types execution_statuses)
          (group_by type_and_status rows)).

(** [coalesce(execution_started_at, updated_at, created_at)]; [updated_at] is never null. *)
Definition stale_since (r : DataSubjectRequest.t) : datetime :=
  default (DataSubjectRequest.updated_at r) (DataSubjectRequest.execution_started_at r).

Definition active_export_processing_lease (d : Db) (checked_at : datetime)
    (r : DataSubjectRequest.t) : bool :=
  negb (bool_decide (rows_where (R := ExportArtifact.t) d (fun a =>
    bool_decide (ExportArtifact.data_subject_request_id a = DataSubjectRequest.id r)
    && bool_decide (ExportArtifact.status a = ExportArtifactStatus.PROCESSING)
    && match ExportArtifact.processing_lease_expires_at a with
       | None => false | Some e => checked_at <? e end) = [])).

Definition stale_request (d : Db) (request_types stale_statuses : list string)
    (checked_at stale_cutoff : datetime) (r : DataSubjectRequest.t) : bool :=
  of_types request_types r
  && bool_decide ((type_and_status r).2 ∈ stale_statuses)
  && _non_cancelled_dsr_predicate r
  && (stale_since r <=? stale_cutoff)
  && (negb (bool_decide (DataSubjectRequest.request_type r = DataSubjectRequestType.EXPORT))
      || negb (bool_decide (DataSubjectRequest.execution_status r
                            = DataSubjectRequestExecutionStatus.PROCESSING))
      || negb (active_export_processing_lease d checked_at r)).

Definition count_stale_dsr_requests_by_status (request_types stale_statuses : list string)
    (checked_at stale_cutoff : datetime) : M Db (gmap string (gmap string Z)) :=
  d ← get_db;
  let rows := rows_where d (stale_request d request_types stale_statuses checked_at stale_cutoff) in
  mret (with_request_counts (_empty_request_counts request_types stale_statuses)
          (group_by type_and_status rows)).

(** [counts[str(artifact_status)] = int(count)] for each row *)
Definition with_artifact_counts (counts : gmap string Z) (rows : list (string * Z)) : gmap string Z :=
  foldl (fun counts row => <[row.1 := row.2]> counts) counts rows.

Definition artifact_status (a : ExportArtifact.t) : string :=
  ExportArtifactStatus.value (ExportArtifact.status a).

Definition count_export_artifacts_by_status : M Db (gmap string Z) :=
  rows ← select (R := ExportArtifact.t) (fun _ => true);
  mret (with_artifact_counts (zeros (ExportArtifactStatus.value <$> export_artifact_statuses))
          (group_by artifact_status rows)).

Definition _newer_artifact_for_same_dsr_exists (d : Db) (a : ExportArtifact.t) : bool :=
  negb (bool_decide (rows_where (R := ExportArtifact.t) d (fun newer =>
    bool_decide (ExportArtifact.data_subject_request_id newer
                 = ExportArtifact.data_subject_request_id a)
    && ((ExportArtifact.queued_at a <? ExportArtifact.queued_at newer)
        || ((ExportArtifact.queued_at newer =? ExportArtifact.queued_at a)
            && (ExportArtifact.created_at a <? ExportArtifact.created_at newer)))) = [])).

Definition _non_cancelled_export_dsr_exists (d : Db) (a : ExportArtifact.t) : bool :=
  negb (bool_decide (rows_where (R := DataSubjectRequest.t) d (fun r =>
    bool_decide (DataSubjectRequest.id r = ExportArtifact.data_subject_request_id a)
    && bool_decide (DataSubjectRequest.request_type r = DataSubjectRequestType.EXPORT)
    && _non_cancelled_dsr_predicate r) = [])).

Definition current_failed (d : Db) (a : ExportArtifact.t) : bool :=
  bool_decide (ExportArtifact.status a = ExportArtifactStatus.FAILED)
  && _non_cancelled_export_dsr_exists d a
  && negb (_newer_artifact_for_same_dsr_exists d a).

Definition count_current_failed_export_artifacts : M Db Z :=
  d ← get_db; mret (Z.of_nat (List.length (rows_where d (current_failed d)))).

Definition stale_artifact (d : Db) (checked_at stale_cutoff : datetime) (a : ExportArtifact.t) : bool :=
  _non_cancelled_export_dsr_exists d a
  && match ExportArtifact.status a with
     | ExportArtifactStatus.QUEUED => ExportArtifact.queued_at a <=? stale_cutoff
     | ExportArtifactStatus.PROCESSING =>
         match ExportArtifact.processing_lease_expires_at a, ExportArtifact.started_at a with
         | Some lease, _ => lease <=? checked_at
         | None, Some started_at => started_at <=? stale_cutoff
         | None, None => false
         end
     | ExportArtifactStatus.READY =>
         (ExportArtifact.expires_at a <=? checked_at)
         && is_None (ExportArtifact.downloaded_at a)
         && (ExportArtifact.download_count a =? 0)
         && negb (_newer_artifact_for_same_dsr_exists d a)
     | _ => false
     end.

Definition count_stale_export_artifacts_by_status (checked_at stale_cutoff : datetime)
    : M Db (gmap string Z) :=
  d ← get_db;
  mret (with_artifact_counts (zeros (ExportArtifactStatus.value <$> _STALE_EXPORT_ARTIFACT_STATUSES))
          (group_by artifact_status (rows_where d (stale_artifact d checked_at stale_cutoff)))).

End DsrExecutionHealthRepository.

(** ** [core/observability/privacy_dsr_metrics.py] *)
Module PrivacyDsrMetrics.

Record PrivacyDsrMetricPoint := mkPoint {
  job_kind : string;
  request_type : string;
  execution_status : string;
  signal : string;
  count : Z;
}.

Definition ALLOWED_PRIVACY_DSR_JOB_KINDS : list string := ["dsr_request"; "export_artifact"]%string.
Definition ALLOWED_PRIVACY_DSR_REQUEST_TYPES : list string := ["export"; "erase"]%string.
Definition ALLOWED_PRIVACY_DSR_SIGNALS : list string := ["current"; "failed"; "stale"]%string.
Definition ALLOWED_PRIVACY_DSR_HEALTH_STATUSES : list string := ["ok"; "degraded"]%string.

(** The points of the gauge, and the checks counted by their status. *)
Record metrics := mkMetrics {
  _last_privacy_dsr_job_points : gmap (string * string * string * string) Z;
  privacy_dsr_health_checks_total : gmap string Z;
}.

Definition key_of (p : PrivacyDsrMetricPoint) : string * string * string * string :=
  (job_kind p, request_type p, execution_status p, signal p).

(** The attributes of a point are the four that are allowed. *)
Definition _validate_metric_point (p : PrivacyDsrMetricPoint) : bool :=
  bool_decide (job_kind p ∈ ALLOWED_PRIVACY_DSR_JOB_KINDS)
  && bool_decide (request_type p ∈ ALLOWED_PRIVACY_DSR_REQUEST_TYPES)
  && bool_decide (signal p ∈ ALLOWED_PRIVACY_DSR_SIGNALS)
  && (0 <=? count p).

Definition _validate_health_status (status : string) : bool :=
  bool_decide (status ∈ ALLOWED_PRIVACY_DSR_HEALTH_STATUSES).

(** Points that are refused leave the metrics as they were. *)
Definition record_privacy_dsr_health_snapshot (status : string) (points : list PrivacyDsrMetricPoint)
    (m : metrics) : metrics :=
  if negb (_validate_health_status status && forallb _validate_metric_point points) then m else
  mkMetrics (foldl (fun points p => <[key_of p := count p]> points) ∅ points)
    (<[status := get_count status (privacy_dsr_health_checks_total m) + 1]>
       (privacy_dsr_health_checks_total m)).

End PrivacyDsrMetrics.

(** ** [privacy/services/dsr_execution_health.py] *)
Module DsrExecutionHealth.
Import DsrExecutionHealthRepository PrivacyDsrMetrics.

Definition DEFAULT_DSR_STALE_AFTER : Z := hours 1.
Definition _DSR_JOB_REQUEST_TYPES : list string :=
  [DataSubjectRequestType.value DataSubjectRequestType.EXPORT;
   DataSubjectRequestType.value DataSubjectRequestType.ERASE].
Definition _DSR_EXECUTION_STATUSES : list string :=
  DataSubjectRequestExecutionStatus.value <$>
  [DataSubjectRequestExecutionStatus.NOT_STARTED; DataSubjectRequestExecutionStatus.QUEUED;
   DataSubjectRequestExecutionStatus.PROCESSING; DataSubjectRequestExecutionStatus.READY;
   DataSubjectRequestExecutionStatus.FAILED; DataSubjectRequestExecutionStatus.PARTIALLY_FULFILLED;
   DataSubjectRequestExecutionStatus.DELIVERED].
Definition _STALE_DSR_STATUSES : list string :=
  DataSubjectRequestExecutionStatus.value <$>
  [DataSubjectRequestExecutionStatus.QUEUED; DataSubjectRequestExecutionStatus.PROCESSING].
Definition _FAILED_DSR_STATUSES : list string :=
  DataSubjectRequestExecutionStatus.value <$>
  [DataSubjectRequestExecutionStatus.FAILED; DataSubjectRequestExecutionStatus.PARTIALLY_FULFILLED].
Definition _STALE_EXPORT_ARTIFACT_STATUSES : list string :=
  ExportArtifactStatus.value <$> DsrExecutionHealthRepository._STALE_EXPORT_ARTIFACT_STATUSES.

Module DsrExecutionHealthSnapshot.
Record t := mk {
  checked_at : datetime;
  status : string;
  stale_after_seconds : Z;
  request_counts : gmap string (gmap string Z);
  stale_request_counts : gmap string (gmap string Z);
  failed_request_counts : gmap string Z;
  export_artifact_counts : gmap string Z;
  stale_export_artifact_counts : gmap string Z;
  stale_export_artifacts : Z;
  failed_export_artifacts : Z;
}.

(** [sum(sum(statuses.values()) for statuses in counts.values())] *)
Definition total (counts : gmap string (gmap string Z)) : Z :=
  foldr Z.add 0 (sum_values <$> (snd <$> map_to_list counts)).

Definition total_dsr_jobs (s : t) : Z := total (request_counts s).
Definition total_failed_dsr_jobs (s : t) : Z := sum_values (failed_request_counts s).
Definition total_stale_dsr_jobs (s : t) : Z := total (stale_request_counts s).

Definition is_degraded (s : t) : bool :=
  (0 <? total_failed_dsr_jobs s) || (0 <? total_stale_dsr_jobs s)
  || (0 <? failed_export_artifacts s) || (0 <? stale_export_artifacts s).

Definition _count_dsr_status (s : t) (execution_status : string) : Z :=
  foldr Z.add 0 (get_count execution_status <$> (snd <$> map_to_list (request_counts s))).

Definition as_log_extra (s : t) : list (string * json) :=
  [("category", JStr "application");
   ("status", JStr (status s));
   ("checked_at", JStr (IsoFormat.isoformat (checked_at s)));
   ("stale_after_seconds", JInt (stale_after_seconds s));
   ("total_dsr_jobs", JInt (total_dsr_jobs s));
   ("failed_dsr_jobs", JInt (total_failed_dsr_jobs s));
   ("stale_dsr_jobs", JInt (total_stale_dsr_jobs s));
   ("queued_dsr_jobs", JInt (_count_dsr_status s "queued"));
   ("processing_dsr_jobs", JInt (_count_dsr_status s "processing"));
   ("ready_dsr_jobs", JInt (_count_dsr_status s "ready"));
   ("delivered_dsr_jobs", JInt (_count_dsr_status s "delivered"));
   ("failed_export_artifacts", JInt (failed_export_artifacts s));
   ("stale_export_artifacts", JInt (stale_export_artifacts s))]%string.

(** The points of a dictionary of counts, under a signal. *)
Definition request_points (signal : string) (counts : gmap string (gmap string Z))
    : list PrivacyDsrMetricPoint :=
  List.concat ((fun '(request_type, statuses) =>
    (fun '(execution_status, count) =>
       mkPoint "dsr_request" request_type execution_status signal count) <$> sorted_items statuses)
    <$> sorted_items counts).

Definition failed_points (counts : gmap string (gmap string Z)) : list PrivacyDsrMetricPoint :=
  List.concat ((fun '(request_type, statuses) =>
    (fun execution_status =>
       mkPoint "dsr_request" request_type execution_status "failed"
         (get_count execution_status statuses)) <$> _FAILED_DSR_STATUSES)
    <$> sorted_items counts).

Definition to_metric_points (s : t) : list PrivacyDsrMetricPoint :=
  request_points "current" (request_counts s)
  ++ request_points "stale" (stale_request_counts s)
  ++ failed_points (request_counts s)
  ++ ((fun '(artifact_status, count) =>
         mkPoint "export_artifact" "export" artifact_status "current" count)
      <$> sorted_items (export_artifact_counts s))
  ++ ((fun artifact_status =>
         mkPoint "export_artifact" "export" artifact_status "stale"
           (get_count artifact_status (stale_export_artifact_counts s)))
      <$> _STALE_EXPORT_ARTIFACT_STATUSES)
  ++ [mkPoint "export_artifact" "export" (ExportArtifactStatus.value ExportArtifactStatus.FAILED)
        "failed" (failed_export_artifacts s)].
End DsrExecutionHealthSnapshot.
Import DsrExecutionHealthSnapshot.

Definition _failed_counts_from_request_counts (counts : gmap string (gmap string Z)) : gmap string Z :=
  (fun statuses => foldr Z.add 0 ((fun status => get_count status statuses) <$> _FAILED_DSR_STATUSES))
  <$> counts.

Section Service.
Context `{Env}.

(** [_normalise_utc]: instants are in UTC. *)
Definition _normalise_utc (value : option datetime) : M Db datetime := now_or value.

Definition with_status (status : string) (s : t) : t :=
  mk (checked_at s) status (stale_after_seconds s) (request_counts s) (stale_request_counts s)
    (failed_request_counts s) (export_artifact_counts s) (stale_export_artifact_counts s)
    (stale_export_artifacts s) (failed_export_artifacts s).

(** The snapshot and the metrics; [stale_after] is in microseconds. *)
Definition get_privacy_dsr_execution_health (reference : option datetime) (stale_after : Z)
    (emit_metrics : bool) (m : metrics) : M Db (t * metrics) :=
  raise_if (stale_after <=? 0) (ValueError "DSR execution stale_after must be positive");;
  checked_at ← _normalise_utc reference;
  let stale_cutoff := checked_at - stale_after in
  request_counts ← count_dsr_requests_by_status _DSR_JOB_REQUEST_TYPES _DSR_EXECUTION_STATUSES;
  stale_request_counts ← count_stale_dsr_requests_by_status _DSR_JOB_REQUEST_TYPES
    _STALE_DSR_STATUSES checked_at stale_cutoff;
  let failed_request_counts := _failed_counts_from_request_counts request_counts in
  export_artifact_counts ← count_export_artifacts_by_status;
  failed_export_artifacts ← count_current_failed_export_artifacts;
  stale_export_artifact_counts ← count_stale_export_artifacts_by_status checked_at stale_cutoff;
  let stale_export_artifacts := sum_values stale_export_artifact_counts in
  let snapshot := mk checked_at "degraded" (stale_after / seconds 1) request_counts
    stale_request_counts failed_request_counts export_artifact_counts stale_export_artifact_counts
    stale_export_artifacts failed_export_artifacts in
  let snapshot := if is_degraded snapshot then snapshot else with_status "ok" snapshot in
  mret (snapshot,
        if emit_metrics
        then record_privacy_dsr_health_snapshot (status snapshot) (to_metric_points snapshot) m
        else m).

(** Whether the snapshot is logged as a warning. *)
Definition _log_dsr_execution_health (s : t) : bool := is_degraded s.
End Service.
End DsrExecutionHealth.

(** ** [commands/privacy_dsr_health.py] *)
Module PrivacyDsrHealthCommand.
Import DsrExecutionHealth DsrExecutionHealthSnapshot.

Definition run_once `{Env} (stale_after_seconds : Z) (m : PrivacyDsrMetrics.metrics)
    : M Db (list (string * json) * PrivacyDsrMetrics.metrics) :=
  raise_if (stale_after_seconds <? 1)
    (ValueError "DSR execution stale_after_seconds must be positive");;
  '(snapshot, m) ← with_session (begin
    (get_privacy_dsr_execution_health None (seconds stale_after_seconds) true m));
  mret (as_log_extra snapshot, m).

(** [str] of a value of the summary *)
Definition summary_text (v : json) : string :=
  match v with JStr s => s | JInt n => pretty n | _ => "" end.

Definition _format_summary (summary : list (string * json)) : string :=
  "Privacy DSR execution health " ++
  Text.join " " ((fun field =>
    field ++ "=" ++ match List.find (fun kv => String.eqb kv.1 field) summary with
                    | Some kv => summary_text kv.2 | None => "" end)%string
    <$> ["status"; "total_dsr_jobs"; "failed_dsr_jobs"; "stale_dsr_jobs";
         "failed_export_artifacts"; "stale_export_artifacts"]%string).

End PrivacyDsrHealthCommand.
