(* ===== verification/Erasures.v ===== *)
(** The execution of an approved erasure request: the providers of
    [privacy/erasures/], each of which minimises one table, the orchestrator that
    runs them in one savepoint, the command that authorises and audits it, and
    its use by [privacy/services/data_subject_requests.py]. *)
From S2P Require Import Prelude Errors Session Schema Tables AuditLog Users Invites.
From S2P Require Import Outbox ExportArtifacts DataSubjectRequests ExportArtifactServices.

(** ** What the providers share

    Every provider module has its own copy of these helpers. *)
Module ErasureRows.

(** [_set_if_changed(row, field_name, target_value, changed_fields)]: the row and
    the names collected so far. *)
Definition _set_if_changed {R A} `{EqDecision A} (field_name : string) (get : R -> A)
    (set : A -> R -> R) (target_value : A) (s : R * list string) : R * list string :=
  if decide (get s.1 = target_value) then s else (set target_value s.1, s.2 ++ [field_name]).

(** [if b: body] *)
Definition when {S} (b : bool) (body : S -> S) (s : S) : S := if b then body s else s.

(** The fields of a row, changed one after the other. *)
Fixpoint in_turn {S} (steps : list (S -> S)) (s : S) : S :=
  match steps with [] => s | f :: steps => in_turn steps (f s) end.

Definition _extend_unique (target source : list string) : list string :=
  foldl (fun target item => if bool_decide (item ∈ target) then target else target ++ [item])
    target source.

(** [tuple(sorted(set))] *)
Definition sorted_fields (changes : list (list string)) : list string :=
  merge_sort string_le (remove_dups (List.concat changes)).

Definition affected_rows (changes : list (list string)) : nat :=
  length (List.filter (fun c => negb (bool_decide (c = []))) changes).

(** The loop over the locked rows and the flush after it: the names changed on each
    row; a row none of whose fields changes is not written. *)
Definition rewrite_each {R} `{Table R} `{EqDecision R} `{Env}
    (change : R -> R * list string) (rows : list R) : M Db (list (list string)) :=
  for_each rows (fun row =>
    (if bool_decide ((change row).2 = []) then mret tt
     else update_row (pk row) (fun r => (change r).1) ;; mret tt) ;;
    mret (change row).2).

(** What a provider returns. *)
Record ProviderResult := mkProviderResult {
  provider_key : string;
  table_name : string;
  subject_user_id : UUID;
  status : string;
  affected : nat;
  changed_fields : list string;
  processed_at : datetime;
}.

Definition _normalise_optional_email (value : option string) : option string :=
  match value with
  | None => None
  | Some v => let normalised := Text.lower (Text.strip v) in
              if Text.is_empty normalised then None else Some normalised
  end.

(** The conditions every provider checks on the request. *)
Definition validate (c : ErasureErrorClass) (prefix : string) (request : DataSubjectRequest.t)
    (subject : option UUID) : M Db UUID :=
  raise_if (negb (bool_decide (DataSubjectRequest.request_type request
      = DataSubjectRequestType.ERASE)))
    (ErasureError c (prefix ++ "_requires_erase_request")%string) ;;
  raise_if (negb (bool_decide (DataSubjectRequest.status request
      = DataSubjectRequestStatus.APPROVED)))
    (ErasureError c (prefix ++ "_requires_approved_request")%string) ;;
  or_raise subject (ErasureError c (prefix ++ "_requires_subject_user")%string).

(** The same, then the subject's row. *)
Definition validate_and_get_subject (c : ErasureErrorClass) (prefix : string)
    (request : DataSubjectRequest.t) : M Db User.t :=
  subject_id ← validate c prefix request (DataSubjectRequest.subject_user_id request);
  subject ← select_one_or_none (fun u => bool_decide (User.id u = subject_id));
  or_raise subject (ErasureError c (prefix ++ "_subject_not_found")%string).

End ErasureRows.
Import InviteAnonymisation ErasureRows.

(** ** [privacy/erasures/audit.py] *)
Module AuditErasure.
Section Provider.
Context `{Env}.

Definition _PROVIDER_KEY : string := "audit.minimise_subject_actor_or_target_identifiers".
Definition _TABLE_NAME : string := "audit_events".

Definition _DIRECT_SUBJECT_TARGET_TYPES : list string :=
  [AuditTargetType.value AuditTargetType.USER;
   AuditTargetType.value AuditTargetType.PRIVACY_CONSENT;
   AuditTargetType.value AuditTargetType.PRIVACY_NOTICE].

Record _AuditTargetSnapshot := mkSnapshot {
  subject_user_id : UUID;
  subject_email : option string;
  invite_ids : list UUID;
  membership_ids : list UUID;
  data_subject_request_ids : list UUID;
  export_artifact_ids : list UUID;
  platform_staff_ids : list UUID;
}.

Definition _subject_invite (subject_user_id : UUID) (subject_email : option string)
    (i : Invite.t) : bool :=
  is_user subject_user_id (Invite.revoked_by_user_id i)
  || match subject_email with
     | None => false
     | Some email => sql_email_is email (Invite.email i)
     end.

Definition by_creation (i : Invite.t) : list Z := [Invite.created_at i; Z.of_N (Invite.id i)].

Definition _subject_invite_ids (subject_user_id : UUID) (subject_email : option string)
    : M Db (list UUID) :=
  rows ← select (_subject_invite subject_user_id subject_email);
  mret (Invite.id <$> merge_sort (ordered_by by_creation) rows).

Definition _subject_membership_ids (subject_user_id : UUID) : M Db (list UUID) :=
  rows ← select (fun m => bool_decide (Membership.user_id m = subject_user_id));
  mret (Membership.id <$> rows).

Definition _subject_dsr_conditions (subject_user_id : UUID) (r : DataSubjectRequest.t) : bool :=
  is_user subject_user_id (DataSubjectRequest.subject_user_id r)
  || is_user subject_user_id (DataSubjectRequest.requester_user_id r)
  || is_user subject_user_id (DataSubjectRequest.reviewer_user_id r)
  || is_user subject_user_id (DataSubjectRequest.representative_verified_by_user_id r).

Definition _subject_dsr_ids (subject_user_id : UUID) : M Db (list UUID) :=
  rows ← select (_subject_dsr_conditions subject_user_id);
  mret (DataSubjectRequest.id <$> rows).

Definition subject_artifact (subject_user_id : UUID) (a : ExportArtifact.t) : bool :=
  is_user subject_user_id (ExportArtifact.subject_user_id a)
  || is_user subject_user_id (ExportArtifact.requester_user_id a)
  || is_user subject_user_id (ExportArtifact.requested_by_user_id a)
  || is_user subject_user_id (ExportArtifact.generated_by_user_id a).

Definition _subject_export_artifact_ids (subject_user_id : UUID) : M Db (list UUID) :=
  rows ← select (subject_artifact subject_user_id);
  mret (ExportArtifact.id <$> rows).

Definition subject_staff (subject_user_id : UUID) (s : PlatformStaff.t) : bool :=
  bool_decide (PlatformStaff.user_id s = subject_user_id)
  || is_user subject_user_id (PlatformStaff.created_by_user_id s).

Definition _subject_platform_staff_ids (subject_user_id : UUID) : M Db (list UUID) :=
  rows ← select (subject_staff subject_user_id);
  mret (PlatformStaff.id <$> rows).

Definition _build_target_snapshot (subject : User.t) : M Db _AuditTargetSnapshot :=
  let subject_email := _normalise_optional_email (User.email subject) in
  invite_ids ← _subject_invite_ids (User.id subject) subject_email;
  membership_ids ← _subject_membership_ids (User.id subject);
  data_subject_request_ids ← _subject_dsr_ids (User.id subject);
  export_artifact_ids ← _subject_export_artifact_ids (User.id subject);
  platform_staff_ids ← _subject_platform_staff_ids (User.id subject);
  mret (mkSnapshot (User.id subject) subject_email invite_ids membership_ids
    data_subject_request_ids export_artifact_ids platform_staff_ids).

(** [target_type == t and target_id in ids] *)
Definition targets (t : AuditTargetType.t) (ids : list UUID) (e : AuditEvent.t) : bool :=
  String.eqb (AuditEvent.target_type e) (AuditTargetType.value t)
  && match AuditEvent.target_id e with None => false | Some k => bool_decide (k ∈ ids) end.

Definition _subject_audit_conditions (snapshot : _AuditTargetSnapshot) (e : AuditEvent.t) : bool :=
  is_user (subject_user_id snapshot) (AuditEvent.actor_user_id e)
  || (bool_decide (AuditEvent.target_type e ∈ _DIRECT_SUBJECT_TARGET_TYPES)
      && is_user (subject_user_id snapshot) (AuditEvent.target_id e))
  || targets AuditTargetType.INVITE (invite_ids snapshot) e
  || targets AuditTargetType.MEMBERSHIP (membership_ids snapshot) e
  || targets AuditTargetType.DATA_SUBJECT_REQUEST (data_subject_request_ids snapshot) e
  || targets AuditTargetType.EXPORT_ARTIFACT (export_artifact_ids snapshot) e
  || targets AuditTargetType.PLATFORM_STAFF (platform_staff_ids snapshot) e.

Definition event_order (e : AuditEvent.t) : list Z :=
  [AuditEvent.created_at e; Z.of_N (AuditEvent.id e)].

Definition _lock_subject_audit_events (snapshot : _AuditTargetSnapshot) : M Db (list AuditEvent.t) :=
  rows ← select (_subject_audit_conditions snapshot);
  mret (merge_sort (ordered_by event_order) rows).

Definition legally_held (at_time : datetime) (e : AuditEvent.t) : bool :=
  match AuditEvent.legal_hold_until e with None => false | Some until => at_time <? until end.

Definition _reject_active_legal_hold (audit_events : list AuditEvent.t) (at_time : datetime)
    : M Db unit :=
  raise_if (existsb (legally_held at_time) audit_events)
    (ErasureError AuditErasureError "audit_erasure_legal_hold_active").

Definition _is_subject_target (snapshot : _AuditTargetSnapshot) (e : AuditEvent.t) : bool :=
  match AuditEvent.target_id e with
  | None => false
  | Some target_id =>
      if bool_decide (AuditEvent.target_type e ∈ _DIRECT_SUBJECT_TARGET_TYPES)
      then bool_decide (target_id = subject_user_id snapshot)
      else targets AuditTargetType.INVITE (invite_ids snapshot) e
           || targets AuditTargetType.MEMBERSHIP (membership_ids snapshot) e
           || targets AuditTargetType.DATA_SUBJECT_REQUEST (data_subject_request_ids snapshot) e
           || targets AuditTargetType.EXPORT_ARTIFACT (export_artifact_ids snapshot) e
           || targets AuditTargetType.PLATFORM_STAFF (platform_staff_ids snapshot) e
  end.

Definition _minimise_audit_event (snapshot : _AuditTargetSnapshot) (e : AuditEvent.t)
    : AuditEvent.t * list string :=
  in_turn
    [when (is_user (subject_user_id snapshot) (AuditEvent.actor_user_id e))
       (_set_if_changed "actor_user_id" AuditEvent.actor_user_id AuditEvent.set_actor_user_id None);
     when (_is_subject_target snapshot e)
       (_set_if_changed "target_id" AuditEvent.target_id AuditEvent.set_target_id None);
     _set_if_changed "reason" AuditEvent.reason AuditEvent.set_reason None;
     _set_if_changed "metadata_json" AuditEvent.metadata_json AuditEvent.set_metadata_json None;
     _set_if_changed "ip_address" AuditEvent.ip_address AuditEvent.set_ip_address None;
     _set_if_changed "user_agent" AuditEvent.user_agent AuditEvent.set_user_agent None]
    (e, []).

Definition minimise_audit_events_for_approved_erase_request (request : DataSubjectRequest.t)
    (now_arg : option datetime) : M Db ProviderResult :=
  subject ← validate_and_get_subject AuditErasureError "audit_erasure" request;
  reference_now ← now_or now_arg;
  snapshot ← _build_target_snapshot subject;
  audit_events ← _lock_subject_audit_events snapshot;
  _reject_active_legal_hold audit_events reference_now ;;
  changes ← rewrite_each (_minimise_audit_event snapshot) audit_events;
  mret (mkProviderResult _PROVIDER_KEY _TABLE_NAME (User.id subject)
    (if (0 <? affected_rows changes)%nat then "minimised" else "already_minimised")
    (affected_rows changes) (foldl _extend_unique [] changes) reference_now).

End Provider.
End AuditErasure.

(** ** [privacy/erasures/outbox.py] *)
Module OutboxErasure.
Section Provider.
Context `{Env}.

Definition _PROVIDER_KEY : string := "outbox.purge_or_scrub_payload".
Definition _TABLE_NAME : string := "outbox_events".
Definition _PRIVACY_ERASURE_LAST_ERROR : string := "privacy_erasure_scrubbed".

Definition _SAFE_INVITE_PAYLOAD_KEYS : list string :=
  ["invite_id"; "organisation_id"; "purpose"; "role"]%string.

(** [payload_json["email"].as_string()]; a member that is not a string is the text of
    no address. *)
Definition subject_event (subject_email : option string) (invite_ids : list UUID)
    (e : OutboxEvent.t) : bool :=
  match OutboxEvent.aggregate_id e with None => false | Some k => bool_decide (k ∈ invite_ids) end
  || match subject_email, payload_email (OutboxEvent.payload_json e) with
     | Some email, Some x => sql_email_is email x
     | _, _ => false
     end.

Definition event_order (e : OutboxEvent.t) : list Z :=
  [OutboxEvent.created_at e; Z.of_N (OutboxEvent.id e)].

Definition _lock_subject_outbox_events (subject_email : option string) (invite_ids : list UUID)
    : M Db (list OutboxEvent.t) :=
  rows ← select (subject_event subject_email invite_ids);
  mret (merge_sort (ordered_by event_order) rows).

Definition is_processing (e : OutboxEvent.t) : bool :=
  bool_decide (OutboxEvent.status e = OutboxStatus.PROCESSING).

Definition _raise_if_processing_events (events : list OutboxEvent.t) : M Db unit :=
  raise_if (existsb is_processing events)
    (ErasureError OutboxErasureError "outbox_erasure_processing_rows_in_flight").

Definition is_safe_key (k : string) : bool := existsb (String.eqb k) _SAFE_INVITE_PAYLOAD_KEYS.

Definition _scrubbed_payload (payload : json) : list (string * json) :=
  List.filter (fun kv => is_safe_key kv.1)
    (match payload with JObj fields => fields | _ => [] end)
  ++ [("sensitive_payload_scrubbed", JBool true); ("privacy_erasure_scrubbed", JBool true)]%string.

(** [payload == scrubbed]: equality of dictionaries does not see the order of keys. *)
Definition same_payload (payload : json) (scrubbed : list (string * json)) : bool :=
  match payload with
  | JObj fields =>
      forallb (fun kv => bool_decide (kv ∈ scrubbed)) fields
      && forallb (fun kv => bool_decide (kv ∈ fields)) scrubbed
  | _ => false
  end.

Definition scrub_payload (s : OutboxEvent.t * list string) : OutboxEvent.t * list string :=
  let payload := OutboxEvent.payload_json s.1 in
  if same_payload payload (_scrubbed_payload payload) then s
  else (OutboxEvent.set_payload_json (JObj (_scrubbed_payload payload)) s.1,
        s.2 ++ ["payload_json"%string]).

Definition _scrub_outbox_event (e : OutboxEvent.t) : OutboxEvent.t * list string :=
  let pending := bool_decide (OutboxEvent.status e = OutboxStatus.PENDING) in
  let other_error := match OutboxEvent.last_error e with
                     | None => false
                     | Some err => negb (String.eqb err _PRIVACY_ERASURE_LAST_ERROR)
                     end in
  in_turn
    [scrub_payload;
     when pending
       (in_turn
          [_set_if_changed "status" OutboxEvent.status OutboxEvent.set_status OutboxStatus.FAILED;
           _set_if_changed "locked_at" OutboxEvent.locked_at OutboxEvent.set_locked_at None;
           _set_if_changed "next_attempt_at" OutboxEvent.next_attempt_at
             OutboxEvent.set_next_attempt_at None;
           _set_if_changed "last_error" OutboxEvent.last_error OutboxEvent.set_last_error
             (Some _PRIVACY_ERASURE_LAST_ERROR)]);
     when (negb pending && other_error)
       (_set_if_changed "last_error" OutboxEvent.last_error OutboxEvent.set_last_error None)]
    (e, []).

Definition scrub_outbox_for_approved_erase_request (request : DataSubjectRequest.t)
    (subject_email : option string) (invite_ids : list UUID) (now_arg : option datetime)
    : M Db ProviderResult :=
  subject ← validate_and_get_subject OutboxErasureError "outbox_erasure" request;
  let normalised_email :=
    match _normalise_optional_email subject_email with
    | Some email => Some email
    | None => _normalise_optional_email (User.email subject)
    end in
  reference_now ← now_or now_arg;
  events ← _lock_subject_outbox_events normalised_email invite_ids;
  _raise_if_processing_events events ;;
  changes ← rewrite_each _scrub_outbox_event events;
  mret (mkProviderResult _PROVIDER_KEY _TABLE_NAME (User.id subject)
    (if (0 <? affected_rows changes)%nat then "scrubbed" else "already_scrubbed")
    (affected_rows changes) (foldl _extend_unique [] changes) reference_now).

End Provider.
End OutboxErasure.

(** ** [privacy/erasures/invite.py] *)
Module InviteErasure.
Section Provider.
Context `{Env}.

Definition _PROVIDER_KEY : string := "invites.anonymise_or_purge_subject_references".
Definition _TABLE_NAME : string := "invites".

Definition _lock_subject_invites (subject_user_id : UUID) (subject_email : option string)
    : M Db (list Invite.t) :=
  rows ← select (AuditErasure._subject_invite subject_user_id subject_email);
  mret (merge_sort (ordered_by AuditErasure.by_creation) rows).

Definition _invite_email_matches_subject (invite : Invite.t) (subject_email : option string)
    : bool :=
  match subject_email with
  | None => false
  | Some email => String.eqb (Text.lower (Text.strip (Invite.email invite))) email
  end.

Definition _anonymise_invite (subject_user_id : UUID) (subject_email : option string)
    (at_time : datetime) (i : Invite.t) : Invite.t * list string :=
  let anonymise := _invite_email_matches_subject i subject_email && negb (is_scrubbed_invite i) in
  in_turn
    [when anonymise
       (in_turn
          [_set_if_changed "email" Invite.email Invite.set_email
             (scrubbed_invite_email (Invite.id i));
           _set_if_changed "token_hash" Invite.token_hash Invite.set_token_hash
             (scrubbed_invite_token_hash (Invite.id i));
           _set_if_changed "expires_at" Invite.expires_at Invite.set_expires_at None;
           when (bool_decide (Invite.status i = InviteStatus.PENDING))
             (in_turn
                [_set_if_changed "status" Invite.status Invite.set_status InviteStatus.REVOKED;
                 _set_if_changed "revoked_at" Invite.revoked_at Invite.set_revoked_at
                   (Some at_time)])]);
     when (is_user subject_user_id (Invite.revoked_by_user_id i))
       (_set_if_changed "revoked_by_user_id" Invite.revoked_by_user_id
          Invite.set_revoked_by_user_id None)]
    (i, []).

Definition anonymise_invites_for_approved_erase_request (request : DataSubjectRequest.t)
    (subject_email : option string) (now_arg : option datetime) : M Db ProviderResult :=
  subject ← validate_and_get_subject InviteErasureError "invite_erasure" request;
  let normalised_email :=
    match _normalise_optional_email subject_email with
    | Some email => Some email
    | None => _normalise_optional_email (User.email subject)
    end in
  reference_now ← now_or now_arg;
  invites ← _lock_subject_invites (User.id subject) normalised_email;
  changes ← rewrite_each (_anonymise_invite (User.id subject) normalised_email reference_now) invites;
  mret (mkProviderResult _PROVIDER_KEY _TABLE_NAME (User.id subject)
    (if (0 <? affected_rows changes)%nat then "anonymised" else "already_anonymised")
    (affected_rows changes) (foldl _extend_unique [] changes) reference_now).

End Provider.
End InviteErasure.

(** ** [privacy/erasures/user_profile.py] *)
Module UserProfileErasure.
Section Provider.
Context `{Env}.

Definition _PROVIDER_KEY : string := "users.anonymise_profile".
Definition _TABLE_NAME : string := "users".

Definition _erased_external_auth_id (subject_user_id : UUID) : string :=
  ("erased-user:" ++ Uuid.str subject_user_id)%string.

Definition _anonymise_subject_profile (u : User.t) : User.t * list string :=
  in_turn
    [_set_if_changed "external_auth_id" User.external_auth_id User.set_external_auth_id
       (_erased_external_auth_id (User.id u));
     _set_if_changed "email" User.email User.set_email None;
     _set_if_changed "email_verified" User.email_verified User.set_email_verified false;
     _set_if_changed "first_name" User.first_name User.set_first_name None;
     _set_if_changed "last_name" User.last_name User.set_last_name None;
     _set_if_changed "onboarding_completed" User.onboarding_completed
       User.set_onboarding_completed false;
     _set_if_changed "suspended_reason" User.suspended_reason User.set_suspended_reason None]
    (u, []).

Definition anonymise_user_profile_for_approved_erase_request (request : DataSubjectRequest.t)
    (now_arg : option datetime) : M Db ProviderResult :=
  subject ← validate_and_get_subject UserProfileErasureError "user_profile_erasure" request;
  reference_now ← now_or now_arg;
  changes ← rewrite_each _anonymise_subject_profile [subject];
  mret (mkProviderResult _PROVIDER_KEY _TABLE_NAME (User.id subject)
    (if (0 <? affected_rows changes)%nat then "anonymised" else "already_anonymised")
    (affected_rows changes) (List.concat changes) reference_now).

End Provider.
End UserProfileErasure.

(** ** [privacy/erasures/remaining_inventory.py] *)
Module RemainingInventoryErasure.
Section Provider.
Context `{Env}.

Definition _SUBJECT_ERASURE_CANCELLED_EXPORT_REASON : string := "subject_erasure_requested".

Definition _validate_request (request : DataSubjectRequest.t) (subject_user_id : option UUID)
    : M Db UUID :=
  validate RemainingInventoryErasureError "remaining_erasure" request
    match subject_user_id with
    | Some u => Some u
    | None => DataSubjectRequest.subject_user_id request
    end.

Definition _mutation_status (affected : nat) : string :=
  if (0 <? affected)%nat then "minimised" else "already_minimised".

Definition retained_by_policy : string := "retained_by_policy".
Definition manual_review_policy : string := "manual_review_policy".

(** The result of a provider that rewrote rows. *)
Definition minimised (provider_key table_name : string) (subject : UUID)
    (changes : list (list string)) (processed_at : datetime) : ProviderResult :=
  mkProviderResult provider_key table_name subject (_mutation_status (affected_rows changes))
    (affected_rows changes) (sorted_fields changes) processed_at.

(** *** Memberships and organisations: retained *)

Definition _subject_membership_ids (subject_user_id : UUID) : M Db (list UUID) :=
  rows ← select (fun m => bool_decide (Membership.user_id m = subject_user_id));
  mret (Membership.id <$> rows).

Definition apply_membership_erasure_policy (request : DataSubjectRequest.t)
    (subject_user_id : option UUID) (now_arg : option datetime) : M Db ProviderResult :=
  subject_id ← _validate_request request subject_user_id;
  reference_now ← now_or now_arg;
  _subject_membership_ids subject_id ;;
  mret (mkProviderResult "memberships.minimise_subject_link" "memberships" subject_id
    retained_by_policy 0 [] reference_now).

(** The join with the subject's memberships; one row per membership. *)
Definition _subject_organisation_ids (subject_user_id : UUID) : M Db (list UUID) :=
  rows ← select (fun m => bool_decide (Membership.user_id m = subject_user_id));
  mret (Membership.organisation_id <$> rows).

Definition apply_organisation_erasure_policy (request : DataSubjectRequest.t)
    (subject_user_id : option UUID) (now_arg : option datetime) : M Db ProviderResult :=
  subject_id ← _validate_request request subject_user_id;
  reference_now ← now_or now_arg;
  _subject_organisation_ids subject_id ;;
  mret (mkProviderResult "organisations.review_subject_references" "organisations" subject_id
    manual_review_policy 0 [] reference_now).

(** *** Platform staff *)

Definition staff_order (s : PlatformStaff.t) : list Z :=
  [PlatformStaff.created_at s; Z.of_N (PlatformStaff.id s)].

Definition _lock_platform_staff_rows (subject_user_id : UUID) : M Db (list PlatformStaff.t) :=
  rows ← select (AuditErasure.subject_staff subject_user_id);
  mret (merge_sort (ordered_by staff_order) rows).

Definition _minimise_platform_staff (subject_user_id : UUID) (s : PlatformStaff.t)
    : PlatformStaff.t * list string :=
  let is_subject_staff_record := bool_decide (PlatformStaff.user_id s = subject_user_id) in
  let is_subject_created_record := is_user subject_user_id (PlatformStaff.created_by_user_id s) in
  in_turn
    [when is_subject_created_record
       (_set_if_changed "created_by_user_id" PlatformStaff.created_by_user_id
          PlatformStaff.set_created_by_user_id None);
     when (is_subject_staff_record || is_subject_created_record)
       (_set_if_changed "suspended_reason" PlatformStaff.suspended_reason
          PlatformStaff.set_suspended_reason None)]
    (s, []).

Definition minimise_platform_staff_for_approved_erase_request (request : DataSubjectRequest.t)
    (subject_user_id : option UUID) (now_arg : option datetime) : M Db ProviderResult :=
  subject_id ← _validate_request request subject_user_id;
  reference_now ← now_or now_arg;
  rows ← _lock_platform_staff_rows subject_id;
  changes ← rewrite_each (_minimise_platform_staff subject_id) rows;
  mret (minimised "platform_staff.minimise_subject_or_creator_links" "platform_staff" subject_id
    changes reference_now).

(** *** Export artifacts *)

(** A stored object to delete once the transaction has committed. *)
Record _DeferredExportObjectDeletion := mkDeletion {
  storage_backend : ExportArtifactStorageBackend.t;
  storage_key : string;
}.

Definition artifact_order (a : ExportArtifact.t) : list Z :=
  [ExportArtifact.created_at a; Z.of_N (ExportArtifact.id a)].

Definition _lock_export_artifact_rows (subject_user_id : UUID) : M Db (list ExportArtifact.t) :=
  rows ← select (AuditErasure.subject_artifact subject_user_id);
  mret (merge_sort (ordered_by artifact_order) rows).

Definition _reject_processing_export_artifacts (rows : list ExportArtifact.t) : M Db unit :=
  raise_if (existsb (fun a => bool_decide (ExportArtifact.status a = ExportArtifactStatus.PROCESSING))
              rows)
    (ErasureError RemainingInventoryErasureError "export_artifact_erasure_processing_active").

Definition _is_subject_owned_export_artifact (subject_user_id : UUID) (a : ExportArtifact.t) : bool :=
  is_user subject_user_id (ExportArtifact.subject_user_id a)
  || is_user subject_user_id (ExportArtifact.requester_user_id a).

(** Every value of the column is a known backend, so the validation of the backend
    always passes. *)
Definition _subject_owned_export_object_deletions (rows : list ExportArtifact.t)
    (subject_user_id : UUID) : list _DeferredExportObjectDeletion :=
  omap (fun a =>
    if _is_subject_owned_export_artifact subject_user_id a
    then mkDeletion (ExportArtifact.storage_backend a) <$> ExportArtifact.storage_key a
    else None) rows.

Definition _CANCELLED_EXPORT_ERASURE_STATUSES : list ExportArtifactStatus.t :=
  [ExportArtifactStatus.QUEUED; ExportArtifactStatus.READY].

Definition _minimise_export_artifact (subject_user_id : UUID) (a : ExportArtifact.t)
    : ExportArtifact.t * list string :=
  let owned := _is_subject_owned_export_artifact subject_user_id a in
  let should_mark_retryable := owned
    && (negb (is_None (ExportArtifact.storage_key a))
        || bool_decide (ExportArtifact.status a ∈ _CANCELLED_EXPORT_ERASURE_STATUSES)) in
  in_turn
    [when should_mark_retryable
       (in_turn
          [_set_if_changed "status" ExportArtifact.status ExportArtifact.set_status
             ExportArtifactStatus.CANCELLED;
           _set_if_changed "failure_reason_code" ExportArtifact.failure_reason_code
             ExportArtifact.set_failure_reason_code
             (Some _SUBJECT_ERASURE_CANCELLED_EXPORT_REASON)]);
     when (is_user subject_user_id (ExportArtifact.subject_user_id a))
       (_set_if_changed "subject_user_id" ExportArtifact.subject_user_id
          ExportArtifact.set_subject_user_id None);
     when (is_user subject_user_id (ExportArtifact.requester_user_id a))
       (_set_if_changed "requester_user_id" ExportArtifact.requester_user_id
          ExportArtifact.set_requester_user_id None);
     when (is_user subject_user_id (ExportArtifact.requested_by_user_id a))
       (_set_if_changed "requested_by_user_id" ExportArtifact.requested_by_user_id
          ExportArtifact.set_requested_by_user_id None);
     when (is_user subject_user_id (ExportArtifact.generated_by_user_id a))
       (_set_if_changed "generated_by_user_id" ExportArtifact.generated_by_user_id
          ExportArtifact.set_generated_by_user_id None);
     when owned
       (in_turn
          [_set_if_changed "filename" ExportArtifact.filename ExportArtifact.set_filename None;
           _set_if_changed "content_type" ExportArtifact.content_type
             ExportArtifact.set_content_type None;
           _set_if_changed "size_bytes" ExportArtifact.size_bytes ExportArtifact.set_size_bytes None;
           _set_if_changed "checksum_sha256" ExportArtifact.checksum_sha256
             ExportArtifact.set_checksum_sha256 None;
           _set_if_changed "failure_detail" ExportArtifact.failure_detail
             ExportArtifact.set_failure_detail None;
           _set_if_changed "processing_token" ExportArtifact.processing_token
             ExportArtifact.set_processing_token None;
           _set_if_changed "processing_lease_expires_at" ExportArtifact.processing_lease_expires_at
             ExportArtifact.set_processing_lease_expires_at None])]
    (a, []).

(** The deletions it registers with the session are returned; the caller runs
    them when the transaction has committed ([_delete_deferred_...] below). *)
Definition minimise_export_artifacts_for_approved_erase_request (request : DataSubjectRequest.t)
    (subject_user_id : option UUID) (now_arg : option datetime)
    : M Db (ProviderResult * list _DeferredExportObjectDeletion) :=
  subject_id ← _validate_request request subject_user_id;
  reference_now ← now_or now_arg;
  rows ← _lock_export_artifact_rows subject_id;
  _reject_processing_export_artifacts rows ;;
  let deletions := _subject_owned_export_object_deletions rows subject_id in
  changes ← rewrite_each (_minimise_export_artifact subject_id) rows;
  mret (minimised "export_artifacts.delete_object_minimise_subject_or_actor_metadata"
    "export_artifacts" subject_id changes reference_now, deletions).

(** What the listeners do after the root transaction ended in a commit; after a
    rollback, also of a savepoint, the list is discarded. *)
Definition _delete_deferred_export_artifact_objects_after_root_end `{StorageAdapter}
    (deletions : list _DeferredExportObjectDeletion) : M Db unit :=
  for_each deletions (fun deletion =>
    try_except
      (await_external (delete_object (storage_backend deletion) (storage_key deletion)))
      (fun _ => mret tt)) ;;
  mret tt.

(** *** Privacy governance *)

(** The rows are locked in the order of their creation, ties in any order. *)
Definition oldest_first {R} (created_at : R -> Z) (r : R) : list Z := [created_at r].

Definition _lock_authorization_rows (subject_user_id : UUID)
    : M Db (list DataProcessingAuthorization.t) :=
  rows ← select (fun a =>
    bool_decide (DataProcessingAuthorization.subject_user_id a = subject_user_id));
  mret (merge_sort (ordered_by (oldest_first DataProcessingAuthorization.created_at)) rows).

Definition _lock_consent_rows (subject_user_id : UUID) : M Db (list ConsentRecord.t) :=
  rows ← select (fun c => bool_decide (ConsentRecord.subject_user_id c = subject_user_id));
  mret (merge_sort (ordered_by (oldest_first ConsentRecord.created_at)) rows).

Definition _lock_notice_rows (subject_user_id : UUID) : M Db (list PrivacyNoticeAcceptance.t) :=
  rows ← select (fun a =>
    bool_decide (PrivacyNoticeAcceptance.subject_user_id a = subject_user_id));
  mret (merge_sort (ordered_by (oldest_first PrivacyNoticeAcceptance.created_at)) rows).

(** [_clear_field_on_rows(rows, "source")] *)
Definition clear_authorization_source (a : DataProcessingAuthorization.t)
    : DataProcessingAuthorization.t * list string :=
  _set_if_changed "source" DataProcessingAuthorization.source
    DataProcessingAuthorization.set_source None (a, []).

Definition clear_notice_source (a : PrivacyNoticeAcceptance.t)
    : PrivacyNoticeAcceptance.t * list string :=
  _set_if_changed "source" PrivacyNoticeAcceptance.source
    PrivacyNoticeAcceptance.set_source None (a, []).

Definition minimise_privacy_governance_for_approved_erase_request (request : DataSubjectRequest.t)
    (subject_user_id : option UUID) (now_arg : option datetime) : M Db (list ProviderResult) :=
  subject_id ← _validate_request request subject_user_id;
  reference_now ← now_or now_arg;
  authorizations ← _lock_authorization_rows subject_id;
  _lock_consent_rows subject_id ;;
  notices ← _lock_notice_rows subject_id;
  authorization_changes ← rewrite_each clear_authorization_source authorizations;
  notice_changes ← rewrite_each clear_notice_source notices;
  mret
    [minimised "privacy_governance.minimise_authorizations" "data_processing_authorizations"
       subject_id authorization_changes reference_now;
     mkProviderResult "privacy_governance.minimise_consent_records" "consent_records" subject_id
       retained_by_policy 0 [] reference_now;
     minimised "privacy_governance.minimise_notice_acceptances" "privacy_notice_acceptances"
       subject_id notice_changes reference_now].

(** *** Data-subject requests *)

Definition request_order (r : DataSubjectRequest.t) : list Z :=
  [DataSubjectRequest.created_at r; Z.of_N (DataSubjectRequest.id r)].

Definition _lock_dsr_rows (subject_user_id : UUID) : M Db (list DataSubjectRequest.t) :=
  rows ← select (AuditErasure._subject_dsr_conditions subject_user_id);
  mret (merge_sort (ordered_by request_order) rows).

Definition _minimise_dsr (subject_user_id : UUID) (r : DataSubjectRequest.t)
    : DataSubjectRequest.t * list string :=
  let is_subject_or_requester_row :=
    is_user subject_user_id (DataSubjectRequest.requester_user_id r)
    || is_user subject_user_id (DataSubjectRequest.subject_user_id r) in
  in_turn
    [when (is_user subject_user_id (DataSubjectRequest.requester_user_id r))
       (_set_if_changed "requester_user_id" DataSubjectRequest.requester_user_id
          DataSubjectRequest.set_requester_user_id None);
     when (is_user subject_user_id (DataSubjectRequest.subject_user_id r))
       (_set_if_changed "subject_user_id" DataSubjectRequest.subject_user_id
          DataSubjectRequest.set_subject_user_id None);
     when (is_user subject_user_id (DataSubjectRequest.reviewer_user_id r))
       (_set_if_changed "reviewer_user_id" DataSubjectRequest.reviewer_user_id
          DataSubjectRequest.set_reviewer_user_id None);
     when (is_user subject_user_id (DataSubjectRequest.representative_verified_by_user_id r))
       (_set_if_changed "representative_verified_by_user_id"
          DataSubjectRequest.representative_verified_by_user_id
          DataSubjectRequest.set_representative_verified_by_user_id None);
     when is_subject_or_requester_row
       (in_turn
          [_set_if_changed "requester_note" DataSubjectRequest.requester_note
             DataSubjectRequest.set_requester_note None;
           _set_if_changed "representative_relationship"
             DataSubjectRequest.representative_relationship
             DataSubjectRequest.set_representative_relationship None;
           _set_if_changed "representative_authority_note"
             DataSubjectRequest.representative_authority_note
             DataSubjectRequest.set_representative_authority_note None;
           _set_if_changed "representative_rejection_reason_code"
             DataSubjectRequest.representative_rejection_reason_code
             DataSubjectRequest.set_representative_rejection_reason_code None;
           _set_if_changed "internal_note" DataSubjectRequest.internal_note
             DataSubjectRequest.set_internal_note None;
           _set_if_changed "execution_failure_detail" DataSubjectRequest.execution_failure_detail
             DataSubjectRequest.set_execution_failure_detail None;
           _set_if_changed "idempotency_key_hash" DataSubjectRequest.idempotency_key_hash
             DataSubjectRequest.set_idempotency_key_hash None;
           _set_if_changed "idempotency_fingerprint" DataSubjectRequest.idempotency_fingerprint
             DataSubjectRequest.set_idempotency_fingerprint None;
           _set_if_changed "idempotency_key_expires_at"
             DataSubjectRequest.idempotency_key_expires_at
             DataSubjectRequest.set_idempotency_key_expires_at None;
           _set_if_changed "export_artifact_id" DataSubjectRequest.export_artifact_id
             DataSubjectRequest.set_export_artifact_id None;
           _set_if_changed "erasure_job_id" DataSubjectRequest.erasure_job_id
             DataSubjectRequest.set_erasure_job_id None])]
    (r, []).

Definition minimise_dsr_workflow_for_approved_erase_request (request : DataSubjectRequest.t)
    (subject_user_id : option UUID) (now_arg : option datetime) : M Db ProviderResult :=
  subject_id ← _validate_request request subject_user_id;
  reference_now ← now_or now_arg;
  rows ← _lock_dsr_rows subject_id;
  changes ← rewrite_each (_minimise_dsr subject_id) rows;
  mret (minimised "dsr.minimise_workflow_identifiers" "data_subject_requests" subject_id
    changes reference_now).

End Provider.
End RemainingInventoryErasure.
Import RemainingInventoryErasure.

(** ** [privacy/erasures/orchestrator.py] *)
Module ErasureOrchestrator.

Module ErasureOrchestrationStatus.
Inductive t := COMPLETED | ALREADY_COMPLETED | FAILED.

(** [.value] *)
Definition value (x : t) : string :=
  match x with
  | COMPLETED => "completed" | ALREADY_COMPLETED => "already_completed" | FAILED => "failed"
  end.
End ErasureOrchestrationStatus.

Section Orchestrator.
Context `{Env}.

Definition _GENERIC_FAILURE_REASON_CODE : string := "erasure_orchestration_failed".
Definition _ALREADY_PROCESSING_REASON_CODE : string :=
  "erasure_orchestration_already_processing".

(** What is reported of a provider: its result without the subject. *)
Record ErasureProviderRunResult := mkRun {
  run_provider_key : string;
  run_table_name : string;
  run_decision : string;
  run_affected_rows : nat;
  run_changed_fields : list string;
}.

Definition _provider_result_from_provider (r : ProviderResult) : ErasureProviderRunResult :=
  mkRun (provider_key r) (table_name r) (status r) (affected r) (changed_fields r).

Record ErasureOrchestrationResult := mkResult {
  request_id : UUID;
  result_subject_user_id : option UUID;
  orchestration_status : ErasureOrchestrationStatus.t;
  provider_results : list ErasureProviderRunResult;
  completed_at : datetime;
  failure_reason_code : option string;
}.

Definition provider_keys (r : ErasureOrchestrationResult) : list string :=
  run_provider_key <$> provider_results r.

Definition total_affected_rows (r : ErasureOrchestrationResult) : nat :=
  sum_list (run_affected_rows <$> provider_results r).

Definition did_mutate (r : ErasureOrchestrationResult) : bool :=
  existsb (fun p => (0 <? run_affected_rows p)%nat) (provider_results r).

Definition orchestration_error (reason_code : string) : exn :=
  ErasureError ErasureOrchestrationError reason_code.

Definition _lock_and_validate_request (request_id : UUID) : M Db DataSubjectRequest.t :=
  locked_request ← select_one_or_none
    (fun r => bool_decide (DataSubjectRequest.id r = request_id));
  locked_request ← or_raise locked_request
    (orchestration_error "erasure_orchestration_request_not_found");
  raise_if (negb (bool_decide (DataSubjectRequest.request_type locked_request
      = DataSubjectRequestType.ERASE)))
    (orchestration_error "erasure_orchestration_requires_erase_request") ;;
  let execution_status := DataSubjectRequest.execution_status locked_request in
  if bool_decide (execution_status = DataSubjectRequestExecutionStatus.READY)
  then mret locked_request else
  raise_if (negb (bool_decide (DataSubjectRequest.status locked_request
      = DataSubjectRequestStatus.APPROVED)))
    (orchestration_error "erasure_orchestration_requires_approved_request") ;;
  raise_if (bool_decide (execution_status = DataSubjectRequestExecutionStatus.PROCESSING))
    (orchestration_error _ALREADY_PROCESSING_REASON_CODE) ;;
  raise_if (is_None (DataSubjectRequest.subject_user_id locked_request))
    (orchestration_error "erasure_orchestration_requires_subject_user") ;;
  mret locked_request.

Definition _subject_user_id (request : DataSubjectRequest.t) : M Db UUID :=
  or_raise (DataSubjectRequest.subject_user_id request)
    (orchestration_error "erasure_orchestration_requires_subject_user").

(** The assignments of [_mark_processing], [_mark_ready] and [_mark_failed]. *)
Definition _mark_processing (at_time : datetime) (r : DataSubjectRequest.t) : DataSubjectRequest.t :=
  DataSubjectRequest.set_execution_failure_detail None
    (DataSubjectRequest.set_execution_failure_reason_code None
      (DataSubjectRequest.set_execution_failed_at None
        (DataSubjectRequest.set_execution_completed_at None
          (DataSubjectRequest.set_execution_started_at (Some at_time)
            (DataSubjectRequest.set_execution_status
               DataSubjectRequestExecutionStatus.PROCESSING r))))).

Definition _mark_ready (at_time : datetime) (r : DataSubjectRequest.t) : DataSubjectRequest.t :=
  DataSubjectRequest.set_execution_failure_detail None
    (DataSubjectRequest.set_execution_failure_reason_code None
      (DataSubjectRequest.set_execution_failed_at None
        (DataSubjectRequest.set_execution_completed_at (Some at_time)
          (DataSubjectRequest.set_execution_status DataSubjectRequestExecutionStatus.READY r)))).

Definition _mark_failed (reason_code : string) (at_time : datetime) (r : DataSubjectRequest.t)
    : DataSubjectRequest.t :=
  DataSubjectRequest.set_execution_failure_detail None
    (DataSubjectRequest.set_execution_failure_reason_code (Some (Text.truncate 64 reason_code))
      (DataSubjectRequest.set_execution_failed_at (Some at_time)
        (DataSubjectRequest.set_execution_status DataSubjectRequestExecutionStatus.FAILED r))).

Definition _failed_result (request_id subject_user_id : UUID) (reason_code : string)
    (completed_at : datetime) : ErasureOrchestrationResult :=
  mkResult request_id (Some subject_user_id) ErasureOrchestrationStatus.FAILED [] completed_at
    (Some (Text.truncate 64 reason_code)).

Record _ErasureSnapshot := mkErasureSnapshot {
  snapshot_subject_user_id : UUID;
  snapshot_subject_email : option string;
  snapshot_invite_ids : list UUID;
}.

Definition by_id (i : Invite.t) : list Z := [Z.of_N (Invite.id i)].

Definition _subject_invite_ids (subject_user_id : UUID) (subject_email : option string)
    : M Db (list UUID) :=
  rows ← select (AuditErasure._subject_invite subject_user_id subject_email);
  mret (Invite.id <$> merge_sort (ordered_by by_id) rows).

Definition _lock_subject (subject_user_id : UUID) : M Db User.t :=
  subject ← select_one_or_none (fun u => bool_decide (User.id u = subject_user_id));
  or_raise subject (orchestration_error "erasure_orchestration_subject_not_found").

Definition _build_snapshot (request : DataSubjectRequest.t) : M Db _ErasureSnapshot :=
  subject_user_id ← _subject_user_id request;
  subject ← _lock_subject subject_user_id;
  let subject_email := _normalise_optional_email (User.email subject) in
  invite_ids ← _subject_invite_ids (User.id subject) subject_email;
  mret (mkErasureSnapshot (User.id subject) subject_email invite_ids).

(** The ten providers in their order; the last value is the list of stored objects to
    delete after the commit. *)
Definition _run_core_providers (request : DataSubjectRequest.t) (snapshot : _ErasureSnapshot)
    (subject_user_id : UUID) (at_time : datetime)
    : M Db (list ErasureProviderRunResult * list _DeferredExportObjectDeletion) :=
  let subject := Some subject_user_id in
  let n := Some at_time in
  audit_result ← AuditErasure.minimise_audit_events_for_approved_erase_request request n;
  outbox_result ← OutboxErasure.scrub_outbox_for_approved_erase_request request
    (snapshot_subject_email snapshot) (snapshot_invite_ids snapshot) n;
  invite_result ← InviteErasure.anonymise_invites_for_approved_erase_request request
    (snapshot_subject_email snapshot) n;
  membership_result ← apply_membership_erasure_policy request subject n;
  organisation_result ← apply_organisation_erasure_policy request subject n;
  platform_staff_result ← minimise_platform_staff_for_approved_erase_request request subject n;
  export_artifacts ← minimise_export_artifacts_for_approved_erase_request request subject n;
  privacy_governance_results ←
    minimise_privacy_governance_for_approved_erase_request request subject n;
  user_result ← UserProfileErasure.anonymise_user_profile_for_approved_erase_request request n;
  dsr_result ← minimise_dsr_workflow_for_approved_erase_request request subject n;
  mret (_provider_result_from_provider <$>
      [audit_result; outbox_result; invite_result; membership_result; organisation_result;
       platform_staff_result; export_artifacts.1]
      ++ privacy_governance_results ++ [user_result; dsr_result],
    export_artifacts.2).

(** The reason code of the two [except] clauses: that of a provider's error, or the
    generic one. *)
Definition failure_code (e : exn) : string :=
  match e with
  | ErasureError (ErasureExecutionError | ErasureImpactPreviewError | SubjectDataExportError) _ =>
      _GENERIC_FAILURE_REASON_CODE
  | ErasureError _ reason_code => reason_code
  | _ => _GENERIC_FAILURE_REASON_CODE
  end.

(** What the [try] block around the savepoint leaves behind. *)
Definition run_in_savepoint (request : DataSubjectRequest.t) (subject_user_id : UUID)
    (at_time : datetime)
    : M Db ((list ErasureProviderRunResult * list _DeferredExportObjectDeletion) + exn) :=
  try_except
    (r ← begin_nested
       (snapshot ← _build_snapshot request;
        _run_core_providers request snapshot subject_user_id at_time);
     mret (inl r))
    (fun exc => mret (inr exc)).

Definition execute_core_erasure_for_approved_request (request : DataSubjectRequest.t)
    (now_arg : option datetime)
    : M Db (ErasureOrchestrationResult * list _DeferredExportObjectDeletion) :=
  reference_now ← now_or now_arg;
  locked_request ← _lock_and_validate_request (DataSubjectRequest.id request);
  let id := DataSubjectRequest.id locked_request in
  if bool_decide (DataSubjectRequest.execution_status locked_request
                  = DataSubjectRequestExecutionStatus.READY)
  then mret (mkResult id (DataSubjectRequest.subject_user_id locked_request)
               ErasureOrchestrationStatus.ALREADY_COMPLETED [] reference_now None, [])
  else
    subject_user_id ← _subject_user_id locked_request;
    locked_request ← update_row id (_mark_processing reference_now);
    outcome ← run_in_savepoint locked_request subject_user_id reference_now;
    match outcome with
    | inr exc =>
        let reason_code := failure_code exc in
        update_row id (_mark_failed reason_code reference_now) ;;
        mret (_failed_result id subject_user_id reason_code reference_now, [])
    | inl (provider_results, deletions) =>
        update_row id (_mark_ready reference_now) ;;
        mret (mkResult id (Some subject_user_id)
                ErasureOrchestrationStatus.COMPLETED provider_results reference_now None,
              deletions)
    end.

End Orchestrator.
End ErasureOrchestrator.
Import ErasureOrchestrator.

(** ** [privacy/erasures/execution.py] *)
Module ErasureExecution.
Section Execution.
Context `{Env}.

Definition _ALLOWED_EXECUTOR_ROLES : list string :=
  [PlatformStaffRole.value PlatformStaffRole.PLATFORM_ADMIN;
   PlatformStaffRole.value PlatformStaffRole.COMPLIANCE_OFFICER].

Definition _EXECUTION_AUDIT_REASON : string := "approved_erasure_execution".

Record ErasureExecutionResult := mkExecution {
  execution_request_id : UUID;
  execution_subject_user_id : option UUID;
  executor_user_id : UUID;
  executor_role : string;
  execution_orchestration_status : ErasureOrchestrationStatus.t;
  execution_provider_keys : list string;
  execution_affected_rows : nat;
  execution_completed_at : datetime;
  audit_event_id : UUID;
  execution_failure_reason_code : option string;
}.

Definition execution_error (reason_code : string) : exn :=
  ErasureError ErasureExecutionError reason_code.

Definition _is_active_user_status (value : UserStatus.t) : bool :=
  bool_decide (value = UserStatus.ACTIVE).

(** The join of the staff row with its user. *)
Definition _lock_authorised_executor (executor_user_id : UUID) : M Db PlatformStaff.t :=
  staff ← select_one_or_none (fun s => bool_decide (PlatformStaff.user_id s = executor_user_id));
  user ← select_one_or_none (fun u => bool_decide (User.id u = executor_user_id));
  match staff, user with
  | Some executor, Some user =>
      raise_if (negb (_is_active_user_status (User.status user)))
        (execution_error "erasure_execution_requires_active_user") ;;
      raise_if (negb (String.eqb (PlatformStaff.status executor)
                        (PlatformStaffStatus.value PlatformStaffStatus.ACTIVE)))
        (execution_error "erasure_execution_requires_active_staff") ;;
      raise_if (negb (bool_decide (PlatformStaff.role executor ∈ _ALLOWED_EXECUTOR_ROLES)))
        (execution_error "erasure_execution_requires_privileged_staff") ;;
      mret executor
  | _, _ => raise (execution_error "erasure_execution_requires_platform_staff")
  end.

Definition _lock_request (request_id : UUID) : M Db DataSubjectRequest.t :=
  request ← select_one_or_none (fun r => bool_decide (DataSubjectRequest.id r = request_id));
  or_raise request (execution_error "erasure_execution_request_not_found").

Definition _reject_self_erasure (executor : PlatformStaff.t) (request : DataSubjectRequest.t)
    : M Db unit :=
  raise_if (is_user (PlatformStaff.user_id executor) (DataSubjectRequest.subject_user_id request))
    (execution_error "erasure_execution_requires_non_subject_executor").

Definition _audit_metadata (orchestration : ErasureOrchestrationResult) : json :=
  JObj ([("orchestration_status"%string,
          JStr (ErasureOrchestrationStatus.value (orchestration_status orchestration)));
         ("provider_keys"%string, JArr (JStr <$> provider_keys orchestration));
         ("affected_rows"%string, JInt (Z.of_nat (total_affected_rows orchestration)));
         ("did_mutate"%string, JBool (did_mutate orchestration))]
        ++ match failure_reason_code orchestration with
           | None => []
           | Some c => [("failure_reason_code"%string, JStr c)]
           end).

Definition _audit_execution (event_id : UUID) (orchestration : ErasureOrchestrationResult)
    (executor : PlatformStaff.t) (completed_at : datetime) : AuditEvent.t :=
  AuditEvent.mk event_id (Some (PlatformStaff.user_id executor))
    (AuditCategory.value AuditCategory.COMPLIANCE)
    (AuditAction.value AuditAction.DATA_SUBJECT_REQUEST_ERASURE_EXECUTED)
    (AuditTargetType.value AuditTargetType.DATA_SUBJECT_REQUEST)
    (Some (request_id orchestration)) (Some _EXECUTION_AUDIT_REASON)
    (Some (_audit_metadata orchestration)) None None None completed_at.

Definition _execution_result (orchestration : ErasureOrchestrationResult)
    (executor : PlatformStaff.t) (completed_at : datetime) (audit_event_id : UUID)
    : ErasureExecutionResult :=
  mkExecution (request_id orchestration) (result_subject_user_id orchestration)
    (PlatformStaff.user_id executor) (PlatformStaff.role executor)
    (orchestration_status orchestration) (provider_keys orchestration)
    (total_affected_rows orchestration) completed_at audit_event_id
    (failure_reason_code orchestration).

Definition execute_approved_erasure_request_by_staff (request_id executor_user_id : UUID)
    (now_arg : option datetime)
    : M Db (ErasureExecutionResult * list _DeferredExportObjectDeletion) :=
  reference_now ← now_or now_arg;
  executor ← _lock_authorised_executor executor_user_id;
  request ← _lock_request request_id;
  _reject_self_erasure executor request ;;
  r ← execute_core_erasure_for_approved_request request (Some reference_now);
  let '(orchestration, deletions) := r in
  event_id ← new_uuid;
  audit_event ← insert_row (_audit_execution event_id orchestration executor reference_now);
  mret (_execution_result orchestration executor reference_now (AuditEvent.id audit_event),
        deletions).

End Execution.
End ErasureExecution.
Import ErasureExecution.

(** ** The execution in [privacy/services/data_subject_requests.py] *)
Module ErasureService.
Import DataSubjectRequestService.
Section Service.
Context `{Env} `{Network}.

Definition _ERASURE_EXECUTION_NOT_FOUND_REASON_CODES : list string :=
  ["erasure_execution_request_not_found"; "erasure_orchestration_request_not_found"]%string.

Definition _ERASURE_EXECUTION_FORBIDDEN_REASON_CODES : list string :=
  ["erasure_execution_requires_platform_staff"; "erasure_execution_requires_active_user";
   "erasure_execution_requires_active_staff"; "erasure_execution_requires_privileged_staff";
   "erasure_execution_requires_non_subject_executor"]%string.

Definition _raise_erasure_execution_app_error (reason_code : string) : exn :=
  if bool_decide (reason_code ∈ _ERASURE_EXECUTION_NOT_FOUND_REASON_CODES)
  then NotFoundError "Data subject request not found"
  else if bool_decide (reason_code ∈ _ERASURE_EXECUTION_FORBIDDEN_REASON_CODES)
  then ForbiddenError "Platform access denied"
  else AppError Conflict "Erasure execution is not eligible in the current state"
         [("reason_code", reason_code)]%string.

(** The [except] clause around the execution. *)
Definition as_app_error (exc : exn) : exn :=
  match exc with
  | ErasureError (ErasureExecutionError | ErasureOrchestrationError) reason_code =>
      _raise_erasure_execution_app_error reason_code
  | _ => exc
  end.

Definition _is_ready_approved_erasure_request (request : DataSubjectRequest.t) : bool :=
  bool_decide (DataSubjectRequest.request_type request = DataSubjectRequestType.ERASE)
  && bool_decide (DataSubjectRequest.status request = DataSubjectRequestStatus.APPROVED)
  && bool_decide (DataSubjectRequest.execution_status request
                  = DataSubjectRequestExecutionStatus.READY).

(** The request, and the stored objects to delete once the transaction commits. *)
Definition execute_approved_erasure_request_by_platform_staff
    (request_id executor_user_id : UUID) (audit_context : AuditContext.t)
    (now_arg : option datetime)
    : M Db (DataSubjectRequest.t * list _DeferredExportObjectDeletion) :=
  r ← try_except (execute_approved_erasure_request_by_staff request_id executor_user_id now_arg)
    (fun exc => raise (as_app_error exc));
  request ← get_platform_request request_id;
  if _is_ready_approved_erasure_request request
  then
    updated ← _transition_status (DataSubjectRequest.id request)
      DataSubjectRequestStatus.FULFILLED
      (_fulfilment_reviewer_user_id request executor_user_id) audit_context None None true;
    mret (updated, r.2)
  else mret (request, r.2).

End Service.
End ErasureService.
