(* ===== verification/PrivacyInventory.v ===== *)
(** The inventory of personal data: [privacy/provider_keys.py],
    [privacy/data_inventory.py] and [privacy/column_inventory.py], with the functions
    that look them up. The tables are transcribed entry by entry. *)
From S2P Require Import Prelude Errors.

(** ** [privacy/provider_keys.py] *)
Module ProviderKeys.

Module PrivacyExportProviderKey.
Inductive t : Type :=
| USERS_PROFILE
| MEMBERSHIPS_BY_SUBJECT
| ORGANISATIONS_BY_SUBJECT_MEMBERSHIP
| INVITES_BY_SUBJECT_EMAIL_OR_REVOKER
| OUTBOX_SUBJECT_REFERENCES
| AUDIT_SUBJECT_ACTOR_OR_TARGET_JOIN_EVENTS
| PLATFORM_STAFF_BY_SUBJECT_OR_CREATOR
| DSR_WORKFLOW_RECORDS
| EXPORT_ARTIFACTS_SUBJECT_OR_ACTOR_METADATA
| PRIVACY_GOVERNANCE_AUTHORIZATIONS
| PRIVACY_GOVERNANCE_CONSENT_RECORDS
| PRIVACY_GOVERNANCE_NOTICE_ACCEPTANCES.

#[global] Instance t_eq_dec : EqDecision t.
Proof. solve_decision. Defined.

Definition value (s : t) : string :=
  match s with
  | USERS_PROFILE => "users.profile"
  | MEMBERSHIPS_BY_SUBJECT => "memberships.by_subject"
  | ORGANISATIONS_BY_SUBJECT_MEMBERSHIP => "organisations.by_subject_membership"
  | INVITES_BY_SUBJECT_EMAIL_OR_REVOKER => "invites.by_subject_email_or_revoker"
  | OUTBOX_SUBJECT_REFERENCES => "outbox.subject_references"
  | AUDIT_SUBJECT_ACTOR_OR_TARGET_JOIN_EVENTS => "audit.subject_actor_or_target_join_events"
  | PLATFORM_STAFF_BY_SUBJECT_OR_CREATOR => "platform_staff.by_subject_or_creator"
  | DSR_WORKFLOW_RECORDS => "dsr.workflow_records"
  | EXPORT_ARTIFACTS_SUBJECT_OR_ACTOR_METADATA => "export_artifacts.subject_or_actor_metadata"
  | PRIVACY_GOVERNANCE_AUTHORIZATIONS => "privacy_governance.authorizations"
  | PRIVACY_GOVERNANCE_CONSENT_RECORDS => "privacy_governance.consent_records"
  | PRIVACY_GOVERNANCE_NOTICE_ACCEPTANCES => "privacy_governance.notice_acceptances"
  end.

Definition all : list t :=
  [USERS_PROFILE;
   MEMBERSHIPS_BY_SUBJECT;
   ORGANISATIONS_BY_SUBJECT_MEMBERSHIP;
   INVITES_BY_SUBJECT_EMAIL_OR_REVOKER;
   OUTBOX_SUBJECT_REFERENCES;
   AUDIT_SUBJECT_ACTOR_OR_TARGET_JOIN_EVENTS;
   PLATFORM_STAFF_BY_SUBJECT_OR_CREATOR;
   DSR_WORKFLOW_RECORDS;
   EXPORT_ARTIFACTS_SUBJECT_OR_ACTOR_METADATA;
   PRIVACY_GOVERNANCE_AUTHORIZATIONS;
   PRIVACY_GOVERNANCE_CONSENT_RECORDS;
   PRIVACY_GOVERNANCE_NOTICE_ACCEPTANCES].
End PrivacyExportProviderKey.

Module PrivacyErasureProviderKey.
Inductive t : Type :=
| USERS_ANONYMISE_PROFILE
| MEMBERSHIPS_MINIMISE_SUBJECT_LINK
| ORGANISATIONS_REVIEW_SUBJECT_REFERENCES
| INVITES_ANONYMISE_OR_PURGE_SUBJECT_REFERENCES
| OUTBOX_PURGE_OR_SCRUB_PAYLOAD
| AUDIT_MINIMISE_SUBJECT_ACTOR_OR_TARGET_IDENTIFIERS
| PLATFORM_STAFF_MINIMISE_SUBJECT_OR_CREATOR_LINKS
| DSR_MINIMISE_WORKFLOW_IDENTIFIERS
| EXPORT_ARTIFACTS_DELETE_OBJECT_MINIMISE_METADATA
| PRIVACY_GOVERNANCE_MINIMISE_AUTHORIZATIONS
| PRIVACY_GOVERNANCE_MINIMISE_CONSENT_RECORDS
| PRIVACY_GOVERNANCE_MINIMISE_NOTICE_ACCEPTANCES.

#[global] Instance t_eq_dec : EqDecision t.
Proof. solve_decision. Defined.

Definition value (s : t) : string :=
  match s with
  | USERS_ANONYMISE_PROFILE => "users.anonymise_profile"
  | MEMBERSHIPS_MINIMISE_SUBJECT_LINK => "memberships.minimise_subject_link"
  | ORGANISATIONS_REVIEW_SUBJECT_REFERENCES => "organisations.review_subject_references"
  | INVITES_ANONYMISE_OR_PURGE_SUBJECT_REFERENCES => "invites.anonymise_or_purge_subject_references"
  | OUTBOX_PURGE_OR_SCRUB_PAYLOAD => "outbox.purge_or_scrub_payload"
  | AUDIT_MINIMISE_SUBJECT_ACTOR_OR_TARGET_IDENTIFIERS => "audit.minimise_subject_actor_or_target_identifiers"
  | PLATFORM_STAFF_MINIMISE_SUBJECT_OR_CREATOR_LINKS => "platform_staff.minimise_subject_or_creator_links"
  | DSR_MINIMISE_WORKFLOW_IDENTIFIERS => "dsr.minimise_workflow_identifiers"
  | EXPORT_ARTIFACTS_DELETE_OBJECT_MINIMISE_METADATA => "export_artifacts.delete_object_minimise_subject_or_actor_metadata"
  | PRIVACY_GOVERNANCE_MINIMISE_AUTHORIZATIONS => "privacy_governance.minimise_authorizations"
  | PRIVACY_GOVERNANCE_MINIMISE_CONSENT_RECORDS => "privacy_governance.minimise_consent_records"
  | PRIVACY_GOVERNANCE_MINIMISE_NOTICE_ACCEPTANCES => "privacy_governance.minimise_notice_acceptances"
  end.

Definition all : list t :=
  [USERS_ANONYMISE_PROFILE;
   MEMBERSHIPS_MINIMISE_SUBJECT_LINK;
   ORGANISATIONS_REVIEW_SUBJECT_REFERENCES;
   INVITES_ANONYMISE_OR_PURGE_SUBJECT_REFERENCES;
   OUTBOX_PURGE_OR_SCRUB_PAYLOAD;
   AUDIT_MINIMISE_SUBJECT_ACTOR_OR_TARGET_IDENTIFIERS;
   PLATFORM_STAFF_MINIMISE_SUBJECT_OR_CREATOR_LINKS;
   DSR_MINIMISE_WORKFLOW_IDENTIFIERS;
   EXPORT_ARTIFACTS_DELETE_OBJECT_MINIMISE_METADATA;
   PRIVACY_GOVERNANCE_MINIMISE_AUTHORIZATIONS;
   PRIVACY_GOVERNANCE_MINIMISE_CONSENT_RECORDS;
   PRIVACY_GOVERNANCE_MINIMISE_NOTICE_ACCEPTANCES].
End PrivacyErasureProviderKey.

Definition _EXPORT_PROVIDER_TABLES (provider_key : PrivacyExportProviderKey.t) : string :=
  match provider_key with
  | PrivacyExportProviderKey.USERS_PROFILE => "users"
  | PrivacyExportProviderKey.MEMBERSHIPS_BY_SUBJECT => "memberships"
  | PrivacyExportProviderKey.ORGANISATIONS_BY_SUBJECT_MEMBERSHIP => "organisations"
  | PrivacyExportProviderKey.INVITES_BY_SUBJECT_EMAIL_OR_REVOKER => "invites"
  | PrivacyExportProviderKey.OUTBOX_SUBJECT_REFERENCES => "outbox_events"
  | PrivacyExportProviderKey.AUDIT_SUBJECT_ACTOR_OR_TARGET_JOIN_EVENTS => "audit_events"
  | PrivacyExportProviderKey.PLATFORM_STAFF_BY_SUBJECT_OR_CREATOR => "platform_staff"
  | PrivacyExportProviderKey.DSR_WORKFLOW_RECORDS => "data_subject_requests"
  | PrivacyExportProviderKey.EXPORT_ARTIFACTS_SUBJECT_OR_ACTOR_METADATA => "export_artifacts"
  | PrivacyExportProviderKey.PRIVACY_GOVERNANCE_AUTHORIZATIONS => "data_processing_authorizations"
  | PrivacyExportProviderKey.PRIVACY_GOVERNANCE_CONSENT_RECORDS => "consent_records"
  | PrivacyExportProviderKey.PRIVACY_GOVERNANCE_NOTICE_ACCEPTANCES => "privacy_notice_acceptances"
  end.

Definition _ERASURE_PROVIDER_TABLES (provider_key : PrivacyErasureProviderKey.t) : string :=
  match provider_key with
  | PrivacyErasureProviderKey.USERS_ANONYMISE_PROFILE => "users"
  | PrivacyErasureProviderKey.MEMBERSHIPS_MINIMISE_SUBJECT_LINK => "memberships"
  | PrivacyErasureProviderKey.ORGANISATIONS_REVIEW_SUBJECT_REFERENCES => "organisations"
  | PrivacyErasureProviderKey.INVITES_ANONYMISE_OR_PURGE_SUBJECT_REFERENCES => "invites"
  | PrivacyErasureProviderKey.OUTBOX_PURGE_OR_SCRUB_PAYLOAD => "outbox_events"
  | PrivacyErasureProviderKey.AUDIT_MINIMISE_SUBJECT_ACTOR_OR_TARGET_IDENTIFIERS => "audit_events"
  | PrivacyErasureProviderKey.PLATFORM_STAFF_MINIMISE_SUBJECT_OR_CREATOR_LINKS => "platform_staff"
  | PrivacyErasureProviderKey.DSR_MINIMISE_WORKFLOW_IDENTIFIERS => "data_subject_requests"
  | PrivacyErasureProviderKey.EXPORT_ARTIFACTS_DELETE_OBJECT_MINIMISE_METADATA => "export_artifacts"
  | PrivacyErasureProviderKey.PRIVACY_GOVERNANCE_MINIMISE_AUTHORIZATIONS => "data_processing_authorizations"
  | PrivacyErasureProviderKey.PRIVACY_GOVERNANCE_MINIMISE_CONSENT_RECORDS => "consent_records"
  | PrivacyErasureProviderKey.PRIVACY_GOVERNANCE_MINIMISE_NOTICE_ACCEPTANCES => "privacy_notice_acceptances"
  end.

Definition _ERASURE_ORCHESTRATION_ORDER : list PrivacyErasureProviderKey.t :=
  [PrivacyErasureProviderKey.AUDIT_MINIMISE_SUBJECT_ACTOR_OR_TARGET_IDENTIFIERS;
   PrivacyErasureProviderKey.OUTBOX_PURGE_OR_SCRUB_PAYLOAD;
   PrivacyErasureProviderKey.INVITES_ANONYMISE_OR_PURGE_SUBJECT_REFERENCES;
   PrivacyErasureProviderKey.MEMBERSHIPS_MINIMISE_SUBJECT_LINK;
   PrivacyErasureProviderKey.ORGANISATIONS_REVIEW_SUBJECT_REFERENCES;
   PrivacyErasureProviderKey.PLATFORM_STAFF_MINIMISE_SUBJECT_OR_CREATOR_LINKS;
   PrivacyErasureProviderKey.EXPORT_ARTIFACTS_DELETE_OBJECT_MINIMISE_METADATA;
   PrivacyErasureProviderKey.PRIVACY_GOVERNANCE_MINIMISE_AUTHORIZATIONS;
   PrivacyErasureProviderKey.PRIVACY_GOVERNANCE_MINIMISE_CONSENT_RECORDS;
   PrivacyErasureProviderKey.PRIVACY_GOVERNANCE_MINIMISE_NOTICE_ACCEPTANCES;
   PrivacyErasureProviderKey.USERS_ANONYMISE_PROFILE;
   PrivacyErasureProviderKey.DSR_MINIMISE_WORKFLOW_IDENTIFIERS].

Definition export_provider_order : list string :=
  PrivacyExportProviderKey.value <$> PrivacyExportProviderKey.all.

(** [frozenset]s of strings, without the order. *)
Definition export_provider_keys : gset string := list_to_set export_provider_order.

Definition erasure_provider_keys : gset string :=
  list_to_set (PrivacyErasureProviderKey.value <$> PrivacyErasureProviderKey.all).

Definition erasure_orchestration_provider_order : list string :=
  PrivacyErasureProviderKey.value <$> _ERASURE_ORCHESTRATION_ORDER.

(** [E(value)]: the member with this value, or [ValueError]. *)
Definition export_key_of (s : string) : option PrivacyExportProviderKey.t :=
  List.find (fun k => String.eqb (PrivacyExportProviderKey.value k) s) PrivacyExportProviderKey.all.

Definition erasure_key_of (s : string) : option PrivacyErasureProviderKey.t :=
  List.find (fun k => String.eqb (PrivacyErasureProviderKey.value k) s) PrivacyErasureProviderKey.all.

Definition invalid_key (e s : string) : exn := ValueError ("'" ++ s ++ "' is not a valid " ++ e)%string.

Definition export_provider_table_name (provider_key : string) : exn + string :=
  match export_key_of provider_key with
  | Some k => inr (_EXPORT_PROVIDER_TABLES k)
  | None => inl (invalid_key "PrivacyExportProviderKey" provider_key)
  end.

Definition erasure_provider_table_name (provider_key : string) : exn + string :=
  match erasure_key_of provider_key with
  | Some k => inr (_ERASURE_PROVIDER_TABLES k)
  | None => inl (invalid_key "PrivacyErasureProviderKey" provider_key)
  end.

End ProviderKeys.

(** ** [privacy/data_inventory.py] *)
Module DataInventory.

Module PrivacyDataCategory.
Inductive t : Type :=
| ACCOUNT_PROFILE
| CONTACT
| MEMBERSHIP
| ORGANISATION
| INVITE
| OUTBOX
| AUDIT
| PLATFORM_STAFF
| PRIVACY_GOVERNANCE
| DSR_WORKFLOW
| EXPORT_ARTIFACT.

#[global] Instance t_eq_dec : EqDecision t.
Proof. solve_decision. Defined.

Definition value (s : t) : string :=
  match s with
  | ACCOUNT_PROFILE => "account_profile"
  | CONTACT => "contact"
  | MEMBERSHIP => "membership"
  | ORGANISATION => "organisation"
  | INVITE => "invite"
  | OUTBOX => "outbox"
  | AUDIT => "audit"
  | PLATFORM_STAFF => "platform_staff"
  | PRIVACY_GOVERNANCE => "privacy_governance"
  | DSR_WORKFLOW => "dsr_workflow"
  | EXPORT_ARTIFACT => "export_artifact"
  end.

Definition all : list t :=
  [ACCOUNT_PROFILE;
   CONTACT;
   MEMBERSHIP;
   ORGANISATION;
   INVITE;
   OUTBOX;
   AUDIT;
   PLATFORM_STAFF;
   PRIVACY_GOVERNANCE;
   DSR_WORKFLOW;
   EXPORT_ARTIFACT].
End PrivacyDataCategory.

Module PrivacyFieldClassification.
Inductive t : Type :=
| DIRECT_IDENTIFIER
| INDIRECT_IDENTIFIER
| CONTACT_POINT
| SECRET_OR_TOKEN
| OPERATIONAL_REASON
| NETWORK_IDENTIFIER
| USER_AGENT
| RELATIONSHIP
| LIFECYCLE
| STRUCTURED_METADATA.

#[global] Instance t_eq_dec : EqDecision t.
Proof. solve_decision. Defined.

Definition value (s : t) : string :=
  match s with
  | DIRECT_IDENTIFIER => "direct_identifier"
  | INDIRECT_IDENTIFIER => "indirect_identifier"
  | CONTACT_POINT => "contact_point"
  | SECRET_OR_TOKEN => "secret_or_token"
  | OPERATIONAL_REASON => "operational_reason"
  | NETWORK_IDENTIFIER => "network_identifier"
  | USER_AGENT => "user_agent"
  | RELATIONSHIP => "relationship"
  | LIFECYCLE => "lifecycle"
  | STRUCTURED_METADATA => "structured_metadata"
  end.

Definition all : list t :=
  [DIRECT_IDENTIFIER;
   INDIRECT_IDENTIFIER;
   CONTACT_POINT;
   SECRET_OR_TOKEN;
   OPERATIONAL_REASON;
   NETWORK_IDENTIFIER;
   USER_AGENT;
   RELATIONSHIP;
   LIFECYCLE;
   STRUCTURED_METADATA].
End PrivacyFieldClassification.

Module PrivacyFieldErasureAction.
Inductive t : Type :=
| ANONYMISE
| DELETE
| RETAIN
| RETAIN_MINIMISED
| REMOVE_PAYLOAD_VALUE
| REVIEW_REQUIRED.

#[global] Instance t_eq_dec : EqDecision t.
Proof. solve_decision. Defined.

Definition value (s : t) : string :=
  match s with
  | ANONYMISE => "anonymise"
  | DELETE => "delete"
  | RETAIN => "retain"
  | RETAIN_MINIMISED => "retain_minimised"
  | REMOVE_PAYLOAD_VALUE => "remove_payload_value"
  | REVIEW_REQUIRED => "review_required"
  end.

Definition all : list t :=
  [ANONYMISE;
   DELETE;
   RETAIN;
   RETAIN_MINIMISED;
   REMOVE_PAYLOAD_VALUE;
   REVIEW_REQUIRED].
End PrivacyFieldErasureAction.

Module PrivacyErasureStrategy.
Inductive t : Type :=
| ANONYMISE_SUBJECT
| DELETE_WHEN_ALLOWED
| RETAIN_AND_MINIMISE
| RETAIN_WITH_LEGAL_BASIS
| NOT_APPLICABLE.

#[global] Instance t_eq_dec : EqDecision t.
Proof. solve_decision. Defined.

Definition value (s : t) : string :=
  match s with
  | ANONYMISE_SUBJECT => "anonymise_subject"
  | DELETE_WHEN_ALLOWED => "delete_when_allowed"
  | RETAIN_AND_MINIMISE => "retain_and_minimise"
  | RETAIN_WITH_LEGAL_BASIS => "retain_with_legal_basis"
  | NOT_APPLICABLE => "not_applicable"
  end.

Definition all : list t :=
  [ANONYMISE_SUBJECT;
   DELETE_WHEN_ALLOWED;
   RETAIN_AND_MINIMISE;
   RETAIN_WITH_LEGAL_BASIS;
   NOT_APPLICABLE].
End PrivacyErasureStrategy.

Record PrivacyFieldInventory := field {
  name : string;
  classification : PrivacyFieldClassification.t;
  export : bool;
  erasure_action : PrivacyFieldErasureAction.t;
  field_notes : string;
}.

Record PrivacyTableInventoryEntry := mkEntry {
  table_name : string;
  model_module : string;
  model_name : string;
  subject_locator : string;
  data_categories : list PrivacyDataCategory.t;
  fields : list PrivacyFieldInventory;
  export_provider_key : string;
  erasure_provider_key : option string;
  erasure_strategy : PrivacyErasureStrategy.t;
  retention_policy_key : string;
  entry_notes : string;
}.

Record DsrScopeExclusion := mkExclusion {
  excluded_table : string;
  reason : string;
}.

Definition model_path (e : PrivacyTableInventoryEntry) : string :=
  (model_module e ++ "." ++ model_name e)%string.

Definition users_entry : PrivacyTableInventoryEntry :=
  mkEntry "users" "app.users.models.user" "User"
    "direct: users.id == subject_user_id"
    [PrivacyDataCategory.ACCOUNT_PROFILE; PrivacyDataCategory.CONTACT]
    [field "id" PrivacyFieldClassification.INDIRECT_IDENTIFIER
       true PrivacyFieldErasureAction.RETAIN_MINIMISED
       "Primary key; keep referential integrity, avoid exposing as public ID.";
     field "external_auth_id" PrivacyFieldClassification.DIRECT_IDENTIFIER
       true PrivacyFieldErasureAction.ANONYMISE
       "External IdP linkage; remove or replace during account erasure.";
     field "email" PrivacyFieldClassification.CONTACT_POINT
       true PrivacyFieldErasureAction.ANONYMISE
       "Primary contact identifier.";
     field "first_name" PrivacyFieldClassification.DIRECT_IDENTIFIER
       true PrivacyFieldErasureAction.ANONYMISE
       "Profile direct identifier.";
     field "last_name" PrivacyFieldClassification.DIRECT_IDENTIFIER
       true PrivacyFieldErasureAction.ANONYMISE
       "Profile direct identifier.";
     field "suspended_reason" PrivacyFieldClassification.OPERATIONAL_REASON
       true PrivacyFieldErasureAction.REVIEW_REQUIRED
       "May contain free-text personal data; prefer structured reason codes."]
    "users.profile"
    (Some "users.anonymise_profile"%string)
    PrivacyErasureStrategy.ANONYMISE_SUBJECT "account_profile"
    "Core account identity table.".

Definition memberships_entry : PrivacyTableInventoryEntry :=
  mkEntry "memberships" "app.memberships.models.membership" "Membership"
    "direct: memberships.user_id == subject_user_id"
    [PrivacyDataCategory.MEMBERSHIP]
    [field "user_id" PrivacyFieldClassification.INDIRECT_IDENTIFIER
       true PrivacyFieldErasureAction.RETAIN_MINIMISED
       "Subject link for membership history.";
     field "organisation_id" PrivacyFieldClassification.RELATIONSHIP
       true PrivacyFieldErasureAction.RETAIN_MINIMISED
       "Organisation relationship may be required for tenant integrity.";
     field "role" PrivacyFieldClassification.RELATIONSHIP
       true PrivacyFieldErasureAction.RETAIN_MINIMISED
       "Role assignment can be retained as minimised operational history."]
    "memberships.by_subject"
    (Some "memberships.minimise_subject_link"%string)
    PrivacyErasureStrategy.RETAIN_AND_MINIMISE "membership_history"
    "Exports current and historic subject membership relationships.".

Definition organisations_entry : PrivacyTableInventoryEntry :=
  mkEntry "organisations" "app.organisations.models.organisation" "Organisation"
    "indirect: organisations reached through subject memberships"
    [PrivacyDataCategory.ORGANISATION]
    [field "name" PrivacyFieldClassification.STRUCTURED_METADATA
       true PrivacyFieldErasureAction.RETAIN
       "Tenant data, exported only when related to the subject.";
     field "slug" PrivacyFieldClassification.STRUCTURED_METADATA
       true PrivacyFieldErasureAction.RETAIN
       "Tenant data, not erased by a user DSR without separate tenant policy.";
     field "suspended_reason" PrivacyFieldClassification.OPERATIONAL_REASON
       true PrivacyFieldErasureAction.REVIEW_REQUIRED
       "May contain personal data if staff entered free text."]
    "organisations.by_subject_membership"
    (Some "organisations.review_subject_references"%string)
    PrivacyErasureStrategy.RETAIN_WITH_LEGAL_BASIS "tenant_profile"
    "Organisation records are tenant-owned, not subject-owned.".

Definition invites_entry : PrivacyTableInventoryEntry :=
  mkEntry "invites" "app.invites.models.invite" "Invite"
    ("direct/indirect: invites.email matches subject email or invites.revoked_by_user_id " ++
     "== subject_user_id")%string
    [PrivacyDataCategory.INVITE; PrivacyDataCategory.CONTACT]
    [field "email" PrivacyFieldClassification.CONTACT_POINT
       true PrivacyFieldErasureAction.ANONYMISE
       "Invitee contact identifier.";
     field "organisation_id" PrivacyFieldClassification.RELATIONSHIP
       true PrivacyFieldErasureAction.RETAIN_MINIMISED
       "Tenant relationship explaining which organisation the subject was invited to.";
     field "role" PrivacyFieldClassification.RELATIONSHIP
       true PrivacyFieldErasureAction.RETAIN_MINIMISED
       "Invited role relationship for the pending or historical invite.";
     field "token_hash" PrivacyFieldClassification.SECRET_OR_TOKEN
       false PrivacyFieldErasureAction.DELETE
       "Never export token material; delete when invite retention allows.";
     field "revoked_by_user_id" PrivacyFieldClassification.INDIRECT_IDENTIFIER
       true PrivacyFieldErasureAction.RETAIN_MINIMISED
       ("Revoker-side subject link when the subject revoked another user's invite; " ++
        "preserve integrity but minimise when policy permits")%string]
    "invites.by_subject_email_or_revoker"
    (Some "invites.anonymise_or_purge_subject_references"%string)
    PrivacyErasureStrategy.DELETE_WHEN_ALLOWED "invite_lifecycle"
    "Invite records are subject data when email matches the subject.".

Definition outbox_events_entry : PrivacyTableInventoryEntry :=
  mkEntry "outbox_events" "app.outbox.models.outbox_event" "OutboxEvent"
    "indirect: payload_json or aggregate_id references subject data"
    [PrivacyDataCategory.OUTBOX; PrivacyDataCategory.CONTACT]
    [field "payload_json" PrivacyFieldClassification.STRUCTURED_METADATA
       false PrivacyFieldErasureAction.REMOVE_PAYLOAD_VALUE
       "May contain email and encrypted raw tokens; export references only.";
     field "aggregate_id" PrivacyFieldClassification.INDIRECT_IDENTIFIER
       true PrivacyFieldErasureAction.RETAIN_MINIMISED
       "Aggregate reference can identify invite/user flows.";
     field "last_error" PrivacyFieldClassification.OPERATIONAL_REASON
       false PrivacyFieldErasureAction.REVIEW_REQUIRED
       "Free-text error may contain leaked PII; do not export by default."]
    "outbox.subject_references"
    (Some "outbox.purge_or_scrub_payload"%string)
    PrivacyErasureStrategy.DELETE_WHEN_ALLOWED "outbox_delivery"
    "Outbox payloads should be scrubbed after delivery/retention windows.".

Definition audit_events_entry : PrivacyTableInventoryEntry :=
  mkEntry "audit_events" "app.audit.models.audit_event" "AuditEvent"
    ("direct: audit_events.actor_user_id == subject_user_id; direct target: " ++
     "target_type='user' and target_id == subject_user_id; direct target: target_type in " ++
     "('privacy_consent', 'privacy_notice') and target_id == subject_user_id; target join: " ++
     "target_type='invite' and target_id -> invites.id where invites.email matches subject " ++
     "email or invites.revoked_by_user_id == subject_user_id; target join: " ++
     "target_type='membership' and target_id -> memberships.id where memberships.user_id " ++
     "== subject_user_id; target join: target_type='data_subject_request' and target_id -> " ++
     "data_subject_requests.id where requester_user_id/subject_user_id/reviewer_user_id " ++
     "matches subject_user_id; target join: target_type='export_artifact' and target_id -> " ++
     "export_artifacts.id where " ++
     "subject_user_id/requester_user_id/requested_by_user_id/generated_by_user_id matches " ++
     "subject_user_id; target join: target_type='platform_staff' and target_id -> " ++
     "platform_staff.id where user_id/created_by_user_id matches subject_user_id")%string
    [PrivacyDataCategory.AUDIT]
    [field "actor_user_id" PrivacyFieldClassification.INDIRECT_IDENTIFIER
       true PrivacyFieldErasureAction.RETAIN_MINIMISED
       "Preserve audit integrity; minimise after retention/legal review.";
     field "target_type" PrivacyFieldClassification.STRUCTURED_METADATA
       true PrivacyFieldErasureAction.RETAIN_MINIMISED
       "Target discriminator used with target_id to identify subject-linked audit events.";
     field "target_id" PrivacyFieldClassification.INDIRECT_IDENTIFIER
       true PrivacyFieldErasureAction.RETAIN_MINIMISED
       ("Target-side subject link, for example target_type='user' and target_id == " ++
        "subject_user_id.")%string;
     field "action" PrivacyFieldClassification.STRUCTURED_METADATA
       true PrivacyFieldErasureAction.RETAIN
       "Audit event action explaining what happened.";
     field "created_at" PrivacyFieldClassification.LIFECYCLE
       true PrivacyFieldErasureAction.RETAIN
       "Audit event timestamp explaining when the event occurred.";
     field "reason" PrivacyFieldClassification.OPERATIONAL_REASON
       true PrivacyFieldErasureAction.REVIEW_REQUIRED
       "Free-text reason can contain personal/special-category data.";
     field "metadata_json" PrivacyFieldClassification.STRUCTURED_METADATA
       true PrivacyFieldErasureAction.REVIEW_REQUIRED
       "Export only allowlisted metadata; scrub PII where justified.";
     field "ip_address" PrivacyFieldClassification.NETWORK_IDENTIFIER
       true PrivacyFieldErasureAction.RETAIN_MINIMISED
       "Network identifier; pseudonymise/minimise according to audit policy.";
     field "user_agent" PrivacyFieldClassification.USER_AGENT
       true PrivacyFieldErasureAction.RETAIN_MINIMISED
       "Fingerprinting risk; minimise according to audit policy."]
    "audit.subject_actor_or_target_join_events"
    (Some "audit.minimise_subject_actor_or_target_identifiers"%string)
    PrivacyErasureStrategy.RETAIN_AND_MINIMISE "audit_events"
    "Audit logs require integrity-preserving minimisation, not blind deletion.".

Definition platform_staff_entry : PrivacyTableInventoryEntry :=
  mkEntry "platform_staff" "app.platform.models.platform_staff" "PlatformStaff"
    ("direct: platform_staff.user_id == subject_user_id or " ++
     "platform_staff.created_by_user_id == subject_user_id")%string
    [PrivacyDataCategory.PLATFORM_STAFF]
    [field "user_id" PrivacyFieldClassification.INDIRECT_IDENTIFIER
       true PrivacyFieldErasureAction.RETAIN_MINIMISED
       "Staff identity link.";
     field "created_by_user_id" PrivacyFieldClassification.INDIRECT_IDENTIFIER
       true PrivacyFieldErasureAction.RETAIN_MINIMISED
       "Creator-side subject link when the subject created another platform staff record.";
     field "suspended_reason" PrivacyFieldClassification.OPERATIONAL_REASON
       true PrivacyFieldErasureAction.REVIEW_REQUIRED
       "Free-text reason may contain personal data."]
    "platform_staff.by_subject_or_creator"
    (Some "platform_staff.minimise_subject_or_creator_links"%string)
    PrivacyErasureStrategy.RETAIN_WITH_LEGAL_BASIS "platform_staff_records"
    "Staff records have stronger legal/compliance retention constraints.".

Definition data_subject_requests_entry : PrivacyTableInventoryEntry :=
  mkEntry "data_subject_requests" "app.privacy.models.data_subject_request" "DataSubjectRequest"
    "direct: subject_user_id/requester_user_id/reviewer_user_id"
    [PrivacyDataCategory.DSR_WORKFLOW]
    [field "request_type" PrivacyFieldClassification.LIFECYCLE
       true PrivacyFieldErasureAction.RETAIN
       "DSR type explaining what request was made.";
     field "status" PrivacyFieldClassification.LIFECYCLE
       true PrivacyFieldErasureAction.RETAIN
       "Current DSR lifecycle status.";
     field "execution_status" PrivacyFieldClassification.LIFECYCLE
       true PrivacyFieldErasureAction.RETAIN
       "Current DSR execution state, separate from review status.";
     field "execution_started_at" PrivacyFieldClassification.LIFECYCLE
       true PrivacyFieldErasureAction.RETAIN
       "Timestamp proving when DSR execution started.";
     field "execution_completed_at" PrivacyFieldClassification.LIFECYCLE
       true PrivacyFieldErasureAction.RETAIN
       "Timestamp proving when DSR execution completed.";
     field "execution_failed_at" PrivacyFieldClassification.LIFECYCLE
       true PrivacyFieldErasureAction.RETAIN
       "Timestamp proving when DSR execution failed.";
     field "execution_failure_reason_code" PrivacyFieldClassification.OPERATIONAL_REASON
       true PrivacyFieldErasureAction.RETAIN_MINIMISED
       "Structured execution failure reason for compliance review.";
     field "execution_failure_detail" PrivacyFieldClassification.OPERATIONAL_REASON
       false PrivacyFieldErasureAction.REVIEW_REQUIRED
       "Internal failure detail may contain personal data; do not export.";
     field "requester_user_id" PrivacyFieldClassification.INDIRECT_IDENTIFIER
       true PrivacyFieldErasureAction.RETAIN_MINIMISED
       "Requester link for DSR auditability.";
     field "subject_user_id" PrivacyFieldClassification.INDIRECT_IDENTIFIER
       true PrivacyFieldErasureAction.RETAIN_MINIMISED
       "Subject link for DSR auditability.";
     field "reviewer_user_id" PrivacyFieldClassification.INDIRECT_IDENTIFIER
       true PrivacyFieldErasureAction.RETAIN_MINIMISED
       "Reviewer link for compliance auditability.";
     field "requester_role" PrivacyFieldClassification.RELATIONSHIP
       true PrivacyFieldErasureAction.RETAIN
       "Whether the requester acts for self or as representative.";
     field "representative_status" PrivacyFieldClassification.LIFECYCLE
       true PrivacyFieldErasureAction.RETAIN
       "Representative verification lifecycle state.";
     field "representative_relationship" PrivacyFieldClassification.RELATIONSHIP
       true PrivacyFieldErasureAction.REVIEW_REQUIRED
       "Requester-supplied relationship context for review.";
     field "representative_authority_note" PrivacyFieldClassification.OPERATIONAL_REASON
       true PrivacyFieldErasureAction.REVIEW_REQUIRED
       "Requester-supplied authority details for review.";
     field "representative_verified_at" PrivacyFieldClassification.LIFECYCLE
       true PrivacyFieldErasureAction.RETAIN
       "Representative verification timestamp.";
     field "representative_verified_by_user_id" PrivacyFieldClassification.INDIRECT_IDENTIFIER
       true PrivacyFieldErasureAction.RETAIN_MINIMISED
       "Platform reviewer link for representative verification.";
     field "representative_rejection_reason_code" PrivacyFieldClassification.OPERATIONAL_REASON
       true PrivacyFieldErasureAction.RETAIN_MINIMISED
       "Structured representative authority rejection reason.";
     field "submitted_at" PrivacyFieldClassification.LIFECYCLE
       true PrivacyFieldErasureAction.RETAIN
       "Timestamp proving when the DSR was submitted.";
     field "acknowledged_at" PrivacyFieldClassification.LIFECYCLE
       true PrivacyFieldErasureAction.RETAIN
       "Timestamp proving when the DSR was acknowledged.";
     field "reviewed_at" PrivacyFieldClassification.LIFECYCLE
       true PrivacyFieldErasureAction.RETAIN
       "Timestamp proving when review started or was recorded.";
     field "due_at" PrivacyFieldClassification.LIFECYCLE
       true PrivacyFieldErasureAction.RETAIN
       "Response deadline used to prove compliance timing.";
     field "extended_until" PrivacyFieldClassification.LIFECYCLE
       true PrivacyFieldErasureAction.RETAIN
       "Extended response deadline when a valid extension applies.";
     field "decided_at" PrivacyFieldClassification.LIFECYCLE
       true PrivacyFieldErasureAction.RETAIN
       "Timestamp proving when the DSR decision was made.";
     field "fulfilled_at" PrivacyFieldClassification.LIFECYCLE
       true PrivacyFieldErasureAction.RETAIN
       "Timestamp proving when the DSR was fulfilled.";
     field "cancelled_at" PrivacyFieldClassification.LIFECYCLE
       true PrivacyFieldErasureAction.RETAIN
       "Timestamp proving when the DSR was cancelled.";
     field "decision_reason_code" PrivacyFieldClassification.OPERATIONAL_REASON
       true PrivacyFieldErasureAction.RETAIN_MINIMISED
       "Structured decision reason for compliance export context.";
     field "rejection_reason_code" PrivacyFieldClassification.OPERATIONAL_REASON
       true PrivacyFieldErasureAction.RETAIN_MINIMISED
       "Structured rejection reason for compliance export context.";
     field "extension_reason_code" PrivacyFieldClassification.OPERATIONAL_REASON
       true PrivacyFieldErasureAction.RETAIN_MINIMISED
       "Structured extension reason for compliance export context.";
     field "requester_note" PrivacyFieldClassification.OPERATIONAL_REASON
       true PrivacyFieldErasureAction.REVIEW_REQUIRED
       "May contain free-text personal data if enabled by future API.";
     field "internal_note" PrivacyFieldClassification.OPERATIONAL_REASON
       false PrivacyFieldErasureAction.REVIEW_REQUIRED
       "Internal compliance note; do not export by default.";
     field "idempotency_key_hash" PrivacyFieldClassification.SECRET_OR_TOKEN
       false PrivacyFieldErasureAction.DELETE
       ("Hashed request-derived idempotency credential; never export and remove when " ++
        "idempotency retention permits.")%string;
     field "idempotency_fingerprint" PrivacyFieldClassification.SECRET_OR_TOKEN
       false PrivacyFieldErasureAction.DELETE
       ("Internal request fingerprint used only for idempotency conflict detection; do not " ++
        "export.")%string;
     field "idempotency_key_expires_at" PrivacyFieldClassification.LIFECYCLE
       false PrivacyFieldErasureAction.DELETE
       ("Internal idempotency TTL timestamp; do not export and remove with expired " ++
        "idempotency metadata.")%string]
    "dsr.workflow_records"
    (Some "dsr.minimise_workflow_identifiers"%string)
    PrivacyErasureStrategy.RETAIN_AND_MINIMISE "dsr_compliance_records"
    "DSR records prove compliance and should not be blindly deleted.".

Definition export_artifacts_entry : PrivacyTableInventoryEntry :=
  mkEntry "export_artifacts" "app.privacy.models.export_artifact" "ExportArtifact"
    ("direct: subject_user_id/requester_user_id or actor-side " ++
     "requested_by_user_id/generated_by_user_id")%string
    [PrivacyDataCategory.EXPORT_ARTIFACT]
    [field "subject_user_id" PrivacyFieldClassification.INDIRECT_IDENTIFIER
       true PrivacyFieldErasureAction.RETAIN_MINIMISED
       "Subject link for export artifact metadata.";
     field "requester_user_id" PrivacyFieldClassification.INDIRECT_IDENTIFIER
       true PrivacyFieldErasureAction.RETAIN_MINIMISED
       "Requester link for access checks.";
     field "requested_by_user_id" PrivacyFieldClassification.INDIRECT_IDENTIFIER
       true PrivacyFieldErasureAction.RETAIN_MINIMISED
       "Actor-side subject link when the subject requested another user's export artifact.";
     field "generated_by_user_id" PrivacyFieldClassification.INDIRECT_IDENTIFIER
       true PrivacyFieldErasureAction.RETAIN_MINIMISED
       "Actor-side subject link when the subject generated another user's export artifact.";
     field "processing_token" PrivacyFieldClassification.SECRET_OR_TOKEN
       false PrivacyFieldErasureAction.DELETE
       ("Internal worker lease token; never export and remove when the artifact leaves " ++
        "processing.")%string;
     field "processing_lease_expires_at" PrivacyFieldClassification.LIFECYCLE
       false PrivacyFieldErasureAction.DELETE
       "Internal worker lease timestamp; do not export and clear with processing state.";
     field "storage_key" PrivacyFieldClassification.INDIRECT_IDENTIFIER
       false PrivacyFieldErasureAction.DELETE
       "Storage locator; never expose through API/export payload.";
     field "checksum_sha256" PrivacyFieldClassification.STRUCTURED_METADATA
       true PrivacyFieldErasureAction.RETAIN_MINIMISED
       "Integrity metadata for generated artifact.";
     field "failure_reason_code" PrivacyFieldClassification.OPERATIONAL_REASON
       true PrivacyFieldErasureAction.RETAIN_MINIMISED
       "Structured failure reason for export artifact processing.";
     field "failure_detail" PrivacyFieldClassification.OPERATIONAL_REASON
       false PrivacyFieldErasureAction.REVIEW_REQUIRED
       "Internal failure detail may contain personal data; do not export by default."]
    "export_artifacts.subject_or_actor_metadata"
    (Some "export_artifacts.delete_object_minimise_subject_or_actor_metadata"%string)
    PrivacyErasureStrategy.DELETE_WHEN_ALLOWED "export_artifacts"
    "Artifact binary content must be deleted after retention expiry.".

Definition data_processing_authorizations_entry : PrivacyTableInventoryEntry :=
  mkEntry "data_processing_authorizations" "app.privacy.models.privacy_governance" "DataProcessingAuthorization"
    "direct: data_processing_authorizations.subject_user_id == subject_user_id"
    [PrivacyDataCategory.PRIVACY_GOVERNANCE]
    [field "subject_user_id" PrivacyFieldClassification.INDIRECT_IDENTIFIER
       true PrivacyFieldErasureAction.RETAIN_MINIMISED
       "Subject link for processing authorisation.";
     field "purpose_id" PrivacyFieldClassification.RELATIONSHIP
       true PrivacyFieldErasureAction.RETAIN_MINIMISED
       ("Processing-purpose relationship; provider should resolve static purpose " ++
        "code/title for export context.")%string;
     field "lawful_basis" PrivacyFieldClassification.STRUCTURED_METADATA
       true PrivacyFieldErasureAction.RETAIN
       "Compliance metadata explaining processing basis.";
     field "special_category_condition" PrivacyFieldClassification.STRUCTURED_METADATA
       true PrivacyFieldErasureAction.RETAIN
       ("Article 9/special-category condition explaining the additional basis for " ++
        "sensitive-data processing.")%string;
     field "active" PrivacyFieldClassification.STRUCTURED_METADATA
       true PrivacyFieldErasureAction.RETAIN
       "Current authorization state used with the validity window.";
     field "source" PrivacyFieldClassification.STRUCTURED_METADATA
       true PrivacyFieldErasureAction.REVIEW_REQUIRED
       "Source may identify how the authorisation was obtained.";
     field "valid_from" PrivacyFieldClassification.LIFECYCLE
       true PrivacyFieldErasureAction.RETAIN
       "Start timestamp for the authorisation validity window.";
     field "valid_until" PrivacyFieldClassification.LIFECYCLE
       true PrivacyFieldErasureAction.RETAIN
       "End timestamp for the authorisation validity window.";
     field "revoked_at" PrivacyFieldClassification.LIFECYCLE
       true PrivacyFieldErasureAction.RETAIN
       "Timestamp proving when the authorisation was revoked."]
    "privacy_governance.authorizations"
    (Some "privacy_governance.minimise_authorizations"%string)
    PrivacyErasureStrategy.RETAIN_WITH_LEGAL_BASIS "privacy_governance"
    "Needed to explain lawfulness and purpose limitation.".

Definition consent_records_entry : PrivacyTableInventoryEntry :=
  mkEntry "consent_records" "app.privacy.models.privacy_governance" "ConsentRecord"
    "direct: consent_records.subject_user_id == subject_user_id"
    [PrivacyDataCategory.PRIVACY_GOVERNANCE]
    [field "subject_user_id" PrivacyFieldClassification.INDIRECT_IDENTIFIER
       true PrivacyFieldErasureAction.RETAIN_MINIMISED
       "Subject link for consent proof.";
     field "purpose_id" PrivacyFieldClassification.RELATIONSHIP
       true PrivacyFieldErasureAction.RETAIN_MINIMISED
       ("Processing-purpose relationship; provider should resolve static purpose " ++
        "code/title for export context.")%string;
     field "privacy_notice_version" PrivacyFieldClassification.STRUCTURED_METADATA
       true PrivacyFieldErasureAction.RETAIN
       "Compliance metadata.";
     field "granted_at" PrivacyFieldClassification.LIFECYCLE
       true PrivacyFieldErasureAction.RETAIN
       "Timestamp proving when consent was granted.";
     field "withdrawn_at" PrivacyFieldClassification.LIFECYCLE
       true PrivacyFieldErasureAction.RETAIN
       "Timestamp proving when consent was withdrawn.";
     field "withdrawal_reason_code" PrivacyFieldClassification.OPERATIONAL_REASON
       true PrivacyFieldErasureAction.REVIEW_REQUIRED
       "Structured reason today; keep free-text out of this field."]
    "privacy_governance.consent_records"
    (Some "privacy_governance.minimise_consent_records"%string)
    PrivacyErasureStrategy.RETAIN_WITH_LEGAL_BASIS "privacy_governance"
    "Consent records are compliance evidence.".

Definition privacy_notice_acceptances_entry : PrivacyTableInventoryEntry :=
  mkEntry "privacy_notice_acceptances" "app.privacy.models.privacy_governance" "PrivacyNoticeAcceptance"
    "direct: privacy_notice_acceptances.subject_user_id == subject_user_id"
    [PrivacyDataCategory.PRIVACY_GOVERNANCE]
    [field "subject_user_id" PrivacyFieldClassification.INDIRECT_IDENTIFIER
       true PrivacyFieldErasureAction.RETAIN_MINIMISED
       "Subject link for notice acceptance proof.";
     field "notice_version" PrivacyFieldClassification.STRUCTURED_METADATA
       true PrivacyFieldErasureAction.RETAIN
       "Compliance metadata.";
     field "accepted_at" PrivacyFieldClassification.LIFECYCLE
       true PrivacyFieldErasureAction.RETAIN
       "Timestamp proving when the privacy notice was accepted.";
     field "source" PrivacyFieldClassification.STRUCTURED_METADATA
       true PrivacyFieldErasureAction.REVIEW_REQUIRED
       "May identify the channel where notice was accepted."]
    "privacy_governance.notice_acceptances"
    (Some "privacy_governance.minimise_notice_acceptances"%string)
    PrivacyErasureStrategy.RETAIN_WITH_LEGAL_BASIS "privacy_governance"
    "Notice acceptance records are compliance evidence.".

Definition PRIVACY_DATA_INVENTORY : list PrivacyTableInventoryEntry :=
  [users_entry;
   memberships_entry;
   organisations_entry;
   invites_entry;
   outbox_events_entry;
   audit_events_entry;
   platform_staff_entry;
   data_subject_requests_entry;
   export_artifacts_entry;
   data_processing_authorizations_entry;
   consent_records_entry;
   privacy_notice_acceptances_entry].

Definition DSR_SCOPE_EXCLUDED_TABLES : list DsrScopeExclusion :=
  [mkExclusion "outbox_delivery_claims"
     ("Operational outbox worker ownership table; stores only event_id, an opaque delivery " ++
      "claim token, and claim timestamp. It contains no subject payload or delivery " ++
      "payload.")%string;
   mkExclusion "processing_purposes"
     "Static processing-purpose catalogue; no subject identifier column."].

(** A dictionary built by a comprehension: a later entry replaces an earlier one. *)
Definition by_key {A} (key : A -> string) (l : list A) : gmap string A :=
  foldl (fun m a => <[key a := a]> m) ∅ l.

Definition get_privacy_inventory_by_table : gmap string PrivacyTableInventoryEntry :=
  by_key table_name PRIVACY_DATA_INVENTORY.

Definition get_dsr_scope_exclusions_by_table : gmap string DsrScopeExclusion :=
  by_key excluded_table DSR_SCOPE_EXCLUDED_TABLES.

Definition erasure_key_or_nothing (e : PrivacyTableInventoryEntry) : list string :=
  match erasure_provider_key e with
  | None => []
  | Some k => if Text.is_empty k then [] else [k]
  end.

Definition get_privacy_provider_keys : gset string :=
  list_to_set (PRIVACY_DATA_INVENTORY ≫= fun e => export_provider_key e :: erasure_key_or_nothing e).

End DataInventory.

(** ** [privacy/column_inventory.py] *)
Module ColumnInventory.
Import DataInventory.

Record PrivacyColumnPolicy := _policy {
  policy_table : string;
  column_name : string;
  column_classification : PrivacyFieldClassification.t;
  column_export : bool;
  column_erasure_action : PrivacyFieldErasureAction.t;
  rationale : string;
}.

Definition users_policies : list PrivacyColumnPolicy :=
  [_policy "users" "id" PrivacyFieldClassification.INDIRECT_IDENTIFIER true
     PrivacyFieldErasureAction.RETAIN_MINIMISED
     "Primary key needed for references.";
   _policy "users" "created_at" PrivacyFieldClassification.LIFECYCLE true
     PrivacyFieldErasureAction.RETAIN
     "Account creation timestamp.";
   _policy "users" "updated_at" PrivacyFieldClassification.LIFECYCLE true
     PrivacyFieldErasureAction.RETAIN
     "Account update timestamp.";
   _policy "users" "external_auth_id" PrivacyFieldClassification.DIRECT_IDENTIFIER true
     PrivacyFieldErasureAction.ANONYMISE
     "External IdP identifier.";
   _policy "users" "email" PrivacyFieldClassification.CONTACT_POINT true
     PrivacyFieldErasureAction.ANONYMISE
     "Primary account contact point.";
   _policy "users" "email_verified" PrivacyFieldClassification.STRUCTURED_METADATA true
     PrivacyFieldErasureAction.RETAIN
     "Email verification state.";
   _policy "users" "first_name" PrivacyFieldClassification.DIRECT_IDENTIFIER true
     PrivacyFieldErasureAction.ANONYMISE
     "Profile direct identifier.";
   _policy "users" "last_name" PrivacyFieldClassification.DIRECT_IDENTIFIER true
     PrivacyFieldErasureAction.ANONYMISE
     "Profile direct identifier.";
   _policy "users" "onboarding_completed" PrivacyFieldClassification.STRUCTURED_METADATA true
     PrivacyFieldErasureAction.RETAIN
     "Product state.";
   _policy "users" "status" PrivacyFieldClassification.LIFECYCLE true
     PrivacyFieldErasureAction.RETAIN_MINIMISED
     "Account lifecycle state.";
   _policy "users" "suspended_at" PrivacyFieldClassification.LIFECYCLE true
     PrivacyFieldErasureAction.RETAIN
     "Suspension timestamp.";
   _policy "users" "suspended_reason" PrivacyFieldClassification.OPERATIONAL_REASON true
     PrivacyFieldErasureAction.REVIEW_REQUIRED
     "Operational reason text."].

Definition memberships_policies : list PrivacyColumnPolicy :=
  [_policy "memberships" "id" PrivacyFieldClassification.INDIRECT_IDENTIFIER true
     PrivacyFieldErasureAction.RETAIN_MINIMISED
     "Membership record key.";
   _policy "memberships" "created_at" PrivacyFieldClassification.LIFECYCLE true
     PrivacyFieldErasureAction.RETAIN
     "Membership creation time.";
   _policy "memberships" "updated_at" PrivacyFieldClassification.LIFECYCLE true
     PrivacyFieldErasureAction.RETAIN
     "Membership update time.";
   _policy "memberships" "user_id" PrivacyFieldClassification.INDIRECT_IDENTIFIER true
     PrivacyFieldErasureAction.RETAIN_MINIMISED
     "Subject user link.";
   _policy "memberships" "organisation_id" PrivacyFieldClassification.RELATIONSHIP true
     PrivacyFieldErasureAction.RETAIN_MINIMISED
     "Tenant relationship.";
   _policy "memberships" "role" PrivacyFieldClassification.RELATIONSHIP true
     PrivacyFieldErasureAction.RETAIN_MINIMISED
     "Assigned tenant role.";
   _policy "memberships" "is_active" PrivacyFieldClassification.LIFECYCLE true
     PrivacyFieldErasureAction.RETAIN_MINIMISED
     "Membership lifecycle flag."].

Definition organisations_policies : list PrivacyColumnPolicy :=
  [_policy "organisations" "id" PrivacyFieldClassification.INDIRECT_IDENTIFIER true
     PrivacyFieldErasureAction.RETAIN
     "Tenant record key.";
   _policy "organisations" "created_at" PrivacyFieldClassification.LIFECYCLE true
     PrivacyFieldErasureAction.RETAIN
     "Tenant creation time.";
   _policy "organisations" "updated_at" PrivacyFieldClassification.LIFECYCLE true
     PrivacyFieldErasureAction.RETAIN
     "Tenant update time.";
   _policy "organisations" "name" PrivacyFieldClassification.STRUCTURED_METADATA true
     PrivacyFieldErasureAction.RETAIN
     "Tenant display name.";
   _policy "organisations" "slug" PrivacyFieldClassification.STRUCTURED_METADATA true
     PrivacyFieldErasureAction.RETAIN
     "Tenant slug.";
   _policy "organisations" "deleted_at" PrivacyFieldClassification.LIFECYCLE true
     PrivacyFieldErasureAction.RETAIN
     "Soft-delete timestamp.";
   _policy "organisations" "status" PrivacyFieldClassification.LIFECYCLE true
     PrivacyFieldErasureAction.RETAIN
     "Tenant lifecycle state.";
   _policy "organisations" "suspended_at" PrivacyFieldClassification.LIFECYCLE true
     PrivacyFieldErasureAction.RETAIN
     "Suspension timestamp.";
   _policy "organisations" "suspended_reason" PrivacyFieldClassification.OPERATIONAL_REASON true
     PrivacyFieldErasureAction.REVIEW_REQUIRED
     "Operational reason text."].

Definition invites_policies : list PrivacyColumnPolicy :=
  [_policy "invites" "id" PrivacyFieldClassification.INDIRECT_IDENTIFIER true
     PrivacyFieldErasureAction.RETAIN_MINIMISED
     "Invite record key.";
   _policy "invites" "created_at" PrivacyFieldClassification.LIFECYCLE true
     PrivacyFieldErasureAction.RETAIN
     "Invite creation time.";
   _policy "invites" "updated_at" PrivacyFieldClassification.LIFECYCLE true
     PrivacyFieldErasureAction.RETAIN
     "Invite update time.";
   _policy "invites" "email" PrivacyFieldClassification.CONTACT_POINT true
     PrivacyFieldErasureAction.ANONYMISE
     "Invitee contact point.";
   _policy "invites" "organisation_id" PrivacyFieldClassification.RELATIONSHIP true
     PrivacyFieldErasureAction.RETAIN_MINIMISED
     "Inviting tenant link.";
   _policy "invites" "role" PrivacyFieldClassification.RELATIONSHIP true
     PrivacyFieldErasureAction.RETAIN_MINIMISED
     "Invited tenant role.";
   _policy "invites" "status" PrivacyFieldClassification.LIFECYCLE true
     PrivacyFieldErasureAction.RETAIN_MINIMISED
     "Invite lifecycle state.";
   _policy "invites" "token_hash" PrivacyFieldClassification.SECRET_OR_TOKEN false
     PrivacyFieldErasureAction.DELETE
     "Invite token hash.";
   _policy "invites" "expires_at" PrivacyFieldClassification.LIFECYCLE true
     PrivacyFieldErasureAction.RETAIN
     "Invite expiry time.";
   _policy "invites" "revoked_at" PrivacyFieldClassification.LIFECYCLE true
     PrivacyFieldErasureAction.RETAIN
     "Invite revocation time.";
   _policy "invites" "revoked_by_user_id" PrivacyFieldClassification.INDIRECT_IDENTIFIER true
     PrivacyFieldErasureAction.RETAIN_MINIMISED
     "Revoker user link."].

Definition outbox_events_policies : list PrivacyColumnPolicy :=
  [_policy "outbox_events" "id" PrivacyFieldClassification.INDIRECT_IDENTIFIER true
     PrivacyFieldErasureAction.RETAIN_MINIMISED
     "Outbox record key.";
   _policy "outbox_events" "created_at" PrivacyFieldClassification.LIFECYCLE true
     PrivacyFieldErasureAction.RETAIN
     "Outbox creation time.";
   _policy "outbox_events" "updated_at" PrivacyFieldClassification.LIFECYCLE true
     PrivacyFieldErasureAction.RETAIN
     "Outbox update time.";
   _policy "outbox_events" "event_type" PrivacyFieldClassification.STRUCTURED_METADATA true
     PrivacyFieldErasureAction.RETAIN
     "Event type metadata.";
   _policy "outbox_events" "aggregate_type" PrivacyFieldClassification.STRUCTURED_METADATA true
     PrivacyFieldErasureAction.RETAIN
     "Aggregate type metadata.";
   _policy "outbox_events" "aggregate_id" PrivacyFieldClassification.INDIRECT_IDENTIFIER true
     PrivacyFieldErasureAction.RETAIN_MINIMISED
     "Aggregate identifier.";
   _policy "outbox_events" "payload_json" PrivacyFieldClassification.STRUCTURED_METADATA false
     PrivacyFieldErasureAction.REMOVE_PAYLOAD_VALUE
     "Payload can contain PII.";
   _policy "outbox_events" "status" PrivacyFieldClassification.LIFECYCLE true
     PrivacyFieldErasureAction.RETAIN
     "Delivery lifecycle state.";
   _policy "outbox_events" "attempts" PrivacyFieldClassification.STRUCTURED_METADATA true
     PrivacyFieldErasureAction.RETAIN
     "Delivery attempt count.";
   _policy "outbox_events" "max_attempts" PrivacyFieldClassification.STRUCTURED_METADATA true
     PrivacyFieldErasureAction.RETAIN
     "Delivery retry limit.";
   _policy "outbox_events" "next_attempt_at" PrivacyFieldClassification.LIFECYCLE true
     PrivacyFieldErasureAction.RETAIN
     "Next retry timestamp.";
   _policy "outbox_events" "locked_at" PrivacyFieldClassification.LIFECYCLE false
     PrivacyFieldErasureAction.RETAIN
     "Worker lock timestamp.";
   _policy "outbox_events" "processed_at" PrivacyFieldClassification.LIFECYCLE true
     PrivacyFieldErasureAction.RETAIN
     "Delivery completion time.";
   _policy "outbox_events" "last_error" PrivacyFieldClassification.OPERATIONAL_REASON false
     PrivacyFieldErasureAction.REVIEW_REQUIRED
     "Delivery error text."].

Definition audit_events_policies : list PrivacyColumnPolicy :=
  [_policy "audit_events" "id" PrivacyFieldClassification.INDIRECT_IDENTIFIER true
     PrivacyFieldErasureAction.RETAIN_MINIMISED
     "Audit record key.";
   _policy "audit_events" "actor_user_id" PrivacyFieldClassification.INDIRECT_IDENTIFIER true
     PrivacyFieldErasureAction.RETAIN_MINIMISED
     "Actor user link.";
   _policy "audit_events" "category" PrivacyFieldClassification.STRUCTURED_METADATA true
     PrivacyFieldErasureAction.RETAIN
     "Audit category.";
   _policy "audit_events" "action" PrivacyFieldClassification.STRUCTURED_METADATA true
     PrivacyFieldErasureAction.RETAIN
     "Audit action.";
   _policy "audit_events" "target_type" PrivacyFieldClassification.STRUCTURED_METADATA true
     PrivacyFieldErasureAction.RETAIN_MINIMISED
     "Target discriminator.";
   _policy "audit_events" "target_id" PrivacyFieldClassification.INDIRECT_IDENTIFIER true
     PrivacyFieldErasureAction.RETAIN_MINIMISED
     "Target identifier.";
   _policy "audit_events" "reason" PrivacyFieldClassification.OPERATIONAL_REASON true
     PrivacyFieldErasureAction.REVIEW_REQUIRED
     "Operational reason text.";
   _policy "audit_events" "metadata_json" PrivacyFieldClassification.STRUCTURED_METADATA true
     PrivacyFieldErasureAction.REVIEW_REQUIRED
     "Allowlisted metadata only.";
   _policy "audit_events" "ip_address" PrivacyFieldClassification.NETWORK_IDENTIFIER true
     PrivacyFieldErasureAction.RETAIN_MINIMISED
     "Network identifier.";
   _policy "audit_events" "user_agent" PrivacyFieldClassification.USER_AGENT true
     PrivacyFieldErasureAction.RETAIN_MINIMISED
     "Browser fingerprint risk.";
   _policy "audit_events" "legal_hold_until" PrivacyFieldClassification.LIFECYCLE false
     PrivacyFieldErasureAction.RETAIN
     "Internal legal hold.";
   _policy "audit_events" "created_at" PrivacyFieldClassification.LIFECYCLE true
     PrivacyFieldErasureAction.RETAIN
     "Audit event timestamp."].

Definition platform_staff_policies : list PrivacyColumnPolicy :=
  [_policy "platform_staff" "id" PrivacyFieldClassification.INDIRECT_IDENTIFIER true
     PrivacyFieldErasureAction.RETAIN_MINIMISED
     "Staff record key.";
   _policy "platform_staff" "created_at" PrivacyFieldClassification.LIFECYCLE true
     PrivacyFieldErasureAction.RETAIN
     "Staff grant time.";
   _policy "platform_staff" "updated_at" PrivacyFieldClassification.LIFECYCLE true
     PrivacyFieldErasureAction.RETAIN
     "Staff record update time.";
   _policy "platform_staff" "user_id" PrivacyFieldClassification.INDIRECT_IDENTIFIER true
     PrivacyFieldErasureAction.RETAIN_MINIMISED
     "Staff user link.";
   _policy "platform_staff" "role" PrivacyFieldClassification.RELATIONSHIP true
     PrivacyFieldErasureAction.RETAIN_MINIMISED
     "Platform role.";
   _policy "platform_staff" "status" PrivacyFieldClassification.LIFECYCLE true
     PrivacyFieldErasureAction.RETAIN_MINIMISED
     "Staff lifecycle state.";
   _policy "platform_staff" "created_by_user_id" PrivacyFieldClassification.INDIRECT_IDENTIFIER true
     PrivacyFieldErasureAction.RETAIN_MINIMISED
     "Granting actor link.";
   _policy "platform_staff" "suspended_at" PrivacyFieldClassification.LIFECYCLE true
     PrivacyFieldErasureAction.RETAIN
     "Suspension timestamp.";
   _policy "platform_staff" "suspended_reason" PrivacyFieldClassification.OPERATIONAL_REASON true
     PrivacyFieldErasureAction.REVIEW_REQUIRED
     "Operational reason text."].

Definition data_subject_requests_policies : list PrivacyColumnPolicy :=
  [_policy "data_subject_requests" "id" PrivacyFieldClassification.INDIRECT_IDENTIFIER true
     PrivacyFieldErasureAction.RETAIN_MINIMISED
     "DSR record key.";
   _policy "data_subject_requests" "created_at" PrivacyFieldClassification.LIFECYCLE true
     PrivacyFieldErasureAction.RETAIN
     "DSR creation time.";
   _policy "data_subject_requests" "updated_at" PrivacyFieldClassification.LIFECYCLE true
     PrivacyFieldErasureAction.RETAIN
     "DSR update time.";
   _policy "data_subject_requests" "request_type" PrivacyFieldClassification.LIFECYCLE true
     PrivacyFieldErasureAction.RETAIN
     "DSR type.";
   _policy "data_subject_requests" "status" PrivacyFieldClassification.LIFECYCLE true
     PrivacyFieldErasureAction.RETAIN
     "DSR status.";
   _policy "data_subject_requests" "execution_status" PrivacyFieldClassification.LIFECYCLE true
     PrivacyFieldErasureAction.RETAIN
     "DSR execution state.";
   _policy "data_subject_requests" "execution_started_at" PrivacyFieldClassification.LIFECYCLE true
     PrivacyFieldErasureAction.RETAIN
     "Execution start time.";
   _policy "data_subject_requests" "execution_completed_at" PrivacyFieldClassification.LIFECYCLE true
     PrivacyFieldErasureAction.RETAIN
     "Execution completion time.";
   _policy "data_subject_requests" "execution_failed_at" PrivacyFieldClassification.LIFECYCLE true
     PrivacyFieldErasureAction.RETAIN
     "Execution failure time.";
   _policy "data_subject_requests" "execution_failure_reason_code" PrivacyFieldClassification.OPERATIONAL_REASON true
     PrivacyFieldErasureAction.RETAIN_MINIMISED
     "Structured execution failure reason.";
   _policy "data_subject_requests" "execution_failure_detail" PrivacyFieldClassification.OPERATIONAL_REASON false
     PrivacyFieldErasureAction.REVIEW_REQUIRED
     "Internal execution failure detail.";
   _policy "data_subject_requests" "requester_user_id" PrivacyFieldClassification.INDIRECT_IDENTIFIER true
     PrivacyFieldErasureAction.RETAIN_MINIMISED
     "Requester link.";
   _policy "data_subject_requests" "subject_user_id" PrivacyFieldClassification.INDIRECT_IDENTIFIER true
     PrivacyFieldErasureAction.RETAIN_MINIMISED
     "Subject link.";
   _policy "data_subject_requests" "reviewer_user_id" PrivacyFieldClassification.INDIRECT_IDENTIFIER true
     PrivacyFieldErasureAction.RETAIN_MINIMISED
     "Reviewer link.";
   _policy "data_subject_requests" "requester_role" PrivacyFieldClassification.RELATIONSHIP true
     PrivacyFieldErasureAction.RETAIN
     "Requester role in DSR workflow.";
   _policy "data_subject_requests" "representative_status" PrivacyFieldClassification.LIFECYCLE true
     PrivacyFieldErasureAction.RETAIN
     "Representative authority review state.";
   _policy "data_subject_requests" "representative_relationship" PrivacyFieldClassification.RELATIONSHIP true
     PrivacyFieldErasureAction.REVIEW_REQUIRED
     "Requester-supplied relationship text.";
   _policy "data_subject_requests" "representative_authority_note" PrivacyFieldClassification.OPERATIONAL_REASON true
     PrivacyFieldErasureAction.REVIEW_REQUIRED
     "Requester-supplied authority text.";
   _policy "data_subject_requests" "representative_verified_at" PrivacyFieldClassification.LIFECYCLE true
     PrivacyFieldErasureAction.RETAIN
     "Representative verification timestamp.";
   _policy "data_subject_requests" "representative_verified_by_user_id" PrivacyFieldClassification.INDIRECT_IDENTIFIER true
     PrivacyFieldErasureAction.RETAIN_MINIMISED
     "Representative verification reviewer link.";
   _policy "data_subject_requests" "representative_rejection_reason_code" PrivacyFieldClassification.OPERATIONAL_REASON true
     PrivacyFieldErasureAction.RETAIN_MINIMISED
     "Representative rejection reason.";
   _policy "data_subject_requests" "submitted_at" PrivacyFieldClassification.LIFECYCLE true
     PrivacyFieldErasureAction.RETAIN
     "Submission time.";
   _policy "data_subject_requests" "acknowledged_at" PrivacyFieldClassification.LIFECYCLE true
     PrivacyFieldErasureAction.RETAIN
     "Acknowledgement time.";
   _policy "data_subject_requests" "reviewed_at" PrivacyFieldClassification.LIFECYCLE true
     PrivacyFieldErasureAction.RETAIN
     "Review time.";
   _policy "data_subject_requests" "decided_at" PrivacyFieldClassification.LIFECYCLE true
     PrivacyFieldErasureAction.RETAIN
     "Decision time.";
   _policy "data_subject_requests" "fulfilled_at" PrivacyFieldClassification.LIFECYCLE true
     PrivacyFieldErasureAction.RETAIN
     "Fulfilment time.";
   _policy "data_subject_requests" "cancelled_at" PrivacyFieldClassification.LIFECYCLE true
     PrivacyFieldErasureAction.RETAIN
     "Cancellation time.";
   _policy "data_subject_requests" "decision_reason_code" PrivacyFieldClassification.OPERATIONAL_REASON true
     PrivacyFieldErasureAction.RETAIN_MINIMISED
     "Decision reason.";
   _policy "data_subject_requests" "rejection_reason_code" PrivacyFieldClassification.OPERATIONAL_REASON true
     PrivacyFieldErasureAction.RETAIN_MINIMISED
     "Rejection reason.";
   _policy "data_subject_requests" "requester_note" PrivacyFieldClassification.OPERATIONAL_REASON true
     PrivacyFieldErasureAction.REVIEW_REQUIRED
     "Requester note.";
   _policy "data_subject_requests" "internal_note" PrivacyFieldClassification.OPERATIONAL_REASON false
     PrivacyFieldErasureAction.REVIEW_REQUIRED
     "Internal note.";
   _policy "data_subject_requests" "due_at" PrivacyFieldClassification.LIFECYCLE true
     PrivacyFieldErasureAction.RETAIN
     "Response deadline.";
   _policy "data_subject_requests" "extended_until" PrivacyFieldClassification.LIFECYCLE true
     PrivacyFieldErasureAction.RETAIN
     "Extended deadline.";
   _policy "data_subject_requests" "extension_reason_code" PrivacyFieldClassification.OPERATIONAL_REASON true
     PrivacyFieldErasureAction.RETAIN_MINIMISED
     "Extension reason.";
   _policy "data_subject_requests" "idempotency_key_hash" PrivacyFieldClassification.SECRET_OR_TOKEN false
     PrivacyFieldErasureAction.DELETE
     "Idempotency hash.";
   _policy "data_subject_requests" "idempotency_fingerprint" PrivacyFieldClassification.SECRET_OR_TOKEN false
     PrivacyFieldErasureAction.DELETE
     "Request fingerprint.";
   _policy "data_subject_requests" "idempotency_key_expires_at" PrivacyFieldClassification.LIFECYCLE false
     PrivacyFieldErasureAction.DELETE
     "Idempotency expiry.";
   _policy "data_subject_requests" "export_artifact_id" PrivacyFieldClassification.RELATIONSHIP true
     PrivacyFieldErasureAction.RETAIN_MINIMISED
     "Export artifact link.";
   _policy "data_subject_requests" "erasure_job_id" PrivacyFieldClassification.RELATIONSHIP true
     PrivacyFieldErasureAction.RETAIN_MINIMISED
     "Future erasure job link."].

Definition export_artifacts_policies : list PrivacyColumnPolicy :=
  [_policy "export_artifacts" "id" PrivacyFieldClassification.INDIRECT_IDENTIFIER true
     PrivacyFieldErasureAction.RETAIN_MINIMISED
     "Artifact record key.";
   _policy "export_artifacts" "created_at" PrivacyFieldClassification.LIFECYCLE true
     PrivacyFieldErasureAction.RETAIN
     "Artifact creation time.";
   _policy "export_artifacts" "updated_at" PrivacyFieldClassification.LIFECYCLE true
     PrivacyFieldErasureAction.RETAIN
     "Artifact update time.";
   _policy "export_artifacts" "data_subject_request_id" PrivacyFieldClassification.RELATIONSHIP true
     PrivacyFieldErasureAction.RETAIN_MINIMISED
     "Parent DSR link.";
   _policy "export_artifacts" "subject_user_id" PrivacyFieldClassification.INDIRECT_IDENTIFIER true
     PrivacyFieldErasureAction.RETAIN_MINIMISED
     "Subject link.";
   _policy "export_artifacts" "requester_user_id" PrivacyFieldClassification.INDIRECT_IDENTIFIER true
     PrivacyFieldErasureAction.RETAIN_MINIMISED
     "Requester link.";
   _policy "export_artifacts" "status" PrivacyFieldClassification.LIFECYCLE true
     PrivacyFieldErasureAction.RETAIN
     "Artifact lifecycle state.";
   _policy "export_artifacts" "format" PrivacyFieldClassification.STRUCTURED_METADATA true
     PrivacyFieldErasureAction.RETAIN
     "Artifact format.";
   _policy "export_artifacts" "storage_backend" PrivacyFieldClassification.STRUCTURED_METADATA false
     PrivacyFieldErasureAction.RETAIN
     "Storage backend detail.";
   _policy "export_artifacts" "storage_key" PrivacyFieldClassification.INDIRECT_IDENTIFIER false
     PrivacyFieldErasureAction.DELETE
     "Storage locator.";
   _policy "export_artifacts" "filename" PrivacyFieldClassification.STRUCTURED_METADATA true
     PrivacyFieldErasureAction.RETAIN_MINIMISED
     "Download filename.";
   _policy "export_artifacts" "content_type" PrivacyFieldClassification.STRUCTURED_METADATA true
     PrivacyFieldErasureAction.RETAIN
     "MIME type.";
   _policy "export_artifacts" "size_bytes" PrivacyFieldClassification.STRUCTURED_METADATA true
     PrivacyFieldErasureAction.RETAIN
     "Object size.";
   _policy "export_artifacts" "checksum_sha256" PrivacyFieldClassification.STRUCTURED_METADATA true
     PrivacyFieldErasureAction.RETAIN_MINIMISED
     "Integrity hash.";
   _policy "export_artifacts" "schema_version" PrivacyFieldClassification.STRUCTURED_METADATA true
     PrivacyFieldErasureAction.RETAIN
     "Export schema version.";
   _policy "export_artifacts" "requested_by_user_id" PrivacyFieldClassification.INDIRECT_IDENTIFIER true
     PrivacyFieldErasureAction.RETAIN_MINIMISED
     "Requesting actor link.";
   _policy "export_artifacts" "generated_by_user_id" PrivacyFieldClassification.INDIRECT_IDENTIFIER true
     PrivacyFieldErasureAction.RETAIN_MINIMISED
     "Generating actor link.";
   _policy "export_artifacts" "failure_reason_code" PrivacyFieldClassification.OPERATIONAL_REASON true
     PrivacyFieldErasureAction.RETAIN_MINIMISED
     "Failure reason.";
   _policy "export_artifacts" "failure_detail" PrivacyFieldClassification.OPERATIONAL_REASON false
     PrivacyFieldErasureAction.REVIEW_REQUIRED
     "Internal failure detail.";
   _policy "export_artifacts" "queued_at" PrivacyFieldClassification.LIFECYCLE true
     PrivacyFieldErasureAction.RETAIN
     "Queue timestamp.";
   _policy "export_artifacts" "started_at" PrivacyFieldClassification.LIFECYCLE true
     PrivacyFieldErasureAction.RETAIN
     "Processing start time.";
   _policy "export_artifacts" "processing_token" PrivacyFieldClassification.SECRET_OR_TOKEN false
     PrivacyFieldErasureAction.DELETE
     "Worker lease token.";
   _policy "export_artifacts" "processing_lease_expires_at" PrivacyFieldClassification.LIFECYCLE false
     PrivacyFieldErasureAction.DELETE
     "Lease expiry.";
   _policy "export_artifacts" "completed_at" PrivacyFieldClassification.LIFECYCLE true
     PrivacyFieldErasureAction.RETAIN
     "Processing completion time.";
   _policy "export_artifacts" "failed_at" PrivacyFieldClassification.LIFECYCLE true
     PrivacyFieldErasureAction.RETAIN
     "Processing failure time.";
   _policy "export_artifacts" "expires_at" PrivacyFieldClassification.LIFECYCLE true
     PrivacyFieldErasureAction.RETAIN
     "Artifact expiry time.";
   _policy "export_artifacts" "download_url_issued_at" PrivacyFieldClassification.LIFECYCLE true
     PrivacyFieldErasureAction.RETAIN
     "Last download URL issuance time.";
   _policy "export_artifacts" "download_url_issue_count" PrivacyFieldClassification.STRUCTURED_METADATA true
     PrivacyFieldErasureAction.RETAIN
     "Download URL issuance count.";
   _policy "export_artifacts" "downloaded_at" PrivacyFieldClassification.LIFECYCLE true
     PrivacyFieldErasureAction.RETAIN_MINIMISED
     "Confirmed delivery time.";
   _policy "export_artifacts" "download_count" PrivacyFieldClassification.STRUCTURED_METADATA true
     PrivacyFieldErasureAction.RETAIN_MINIMISED
     "Confirmed delivery count."].

Definition data_processing_authorizations_policies : list PrivacyColumnPolicy :=
  [_policy "data_processing_authorizations" "id" PrivacyFieldClassification.INDIRECT_IDENTIFIER true
     PrivacyFieldErasureAction.RETAIN_MINIMISED
     "Authorization key.";
   _policy "data_processing_authorizations" "created_at" PrivacyFieldClassification.LIFECYCLE true
     PrivacyFieldErasureAction.RETAIN
     "Creation time.";
   _policy "data_processing_authorizations" "updated_at" PrivacyFieldClassification.LIFECYCLE true
     PrivacyFieldErasureAction.RETAIN
     "Update time.";
   _policy "data_processing_authorizations" "subject_user_id" PrivacyFieldClassification.INDIRECT_IDENTIFIER true
     PrivacyFieldErasureAction.RETAIN_MINIMISED
     "Subject link.";
   _policy "data_processing_authorizations" "purpose_id" PrivacyFieldClassification.RELATIONSHIP true
     PrivacyFieldErasureAction.RETAIN_MINIMISED
     "Purpose link.";
   _policy "data_processing_authorizations" "lawful_basis" PrivacyFieldClassification.STRUCTURED_METADATA true
     PrivacyFieldErasureAction.RETAIN
     "Lawful basis.";
   _policy "data_processing_authorizations" "special_category_condition" PrivacyFieldClassification.STRUCTURED_METADATA true
     PrivacyFieldErasureAction.RETAIN
     "Special-category condition.";
   _policy "data_processing_authorizations" "active" PrivacyFieldClassification.STRUCTURED_METADATA true
     PrivacyFieldErasureAction.RETAIN
     "Authorization state.";
   _policy "data_processing_authorizations" "valid_from" PrivacyFieldClassification.LIFECYCLE true
     PrivacyFieldErasureAction.RETAIN
     "Validity start.";
   _policy "data_processing_authorizations" "valid_until" PrivacyFieldClassification.LIFECYCLE true
     PrivacyFieldErasureAction.RETAIN
     "Validity end.";
   _policy "data_processing_authorizations" "revoked_at" PrivacyFieldClassification.LIFECYCLE true
     PrivacyFieldErasureAction.RETAIN
     "Revocation time.";
   _policy "data_processing_authorizations" "source" PrivacyFieldClassification.STRUCTURED_METADATA true
     PrivacyFieldErasureAction.REVIEW_REQUIRED
     "Authorization source."].

Definition consent_records_policies : list PrivacyColumnPolicy :=
  [_policy "consent_records" "id" PrivacyFieldClassification.INDIRECT_IDENTIFIER true
     PrivacyFieldErasureAction.RETAIN_MINIMISED
     "Consent record key.";
   _policy "consent_records" "created_at" PrivacyFieldClassification.LIFECYCLE true
     PrivacyFieldErasureAction.RETAIN
     "Creation time.";
   _policy "consent_records" "updated_at" PrivacyFieldClassification.LIFECYCLE true
     PrivacyFieldErasureAction.RETAIN
     "Update time.";
   _policy "consent_records" "subject_user_id" PrivacyFieldClassification.INDIRECT_IDENTIFIER true
     PrivacyFieldErasureAction.RETAIN_MINIMISED
     "Subject link.";
   _policy "consent_records" "purpose_id" PrivacyFieldClassification.RELATIONSHIP true
     PrivacyFieldErasureAction.RETAIN_MINIMISED
     "Purpose link.";
   _policy "consent_records" "authorization_id" PrivacyFieldClassification.RELATIONSHIP true
     PrivacyFieldErasureAction.RETAIN_MINIMISED
     "Authorization link.";
   _policy "consent_records" "privacy_notice_version" PrivacyFieldClassification.STRUCTURED_METADATA true
     PrivacyFieldErasureAction.RETAIN
     "Notice version.";
   _policy "consent_records" "granted_at" PrivacyFieldClassification.LIFECYCLE true
     PrivacyFieldErasureAction.RETAIN
     "Consent grant time.";
   _policy "consent_records" "withdrawn_at" PrivacyFieldClassification.LIFECYCLE true
     PrivacyFieldErasureAction.RETAIN
     "Withdrawal time.";
   _policy "consent_records" "withdrawal_reason_code" PrivacyFieldClassification.OPERATIONAL_REASON true
     PrivacyFieldErasureAction.REVIEW_REQUIRED
     "Withdrawal reason."].

Definition privacy_notice_acceptances_policies : list PrivacyColumnPolicy :=
  [_policy "privacy_notice_acceptances" "id" PrivacyFieldClassification.INDIRECT_IDENTIFIER true
     PrivacyFieldErasureAction.RETAIN_MINIMISED
     "Acceptance key.";
   _policy "privacy_notice_acceptances" "created_at" PrivacyFieldClassification.LIFECYCLE true
     PrivacyFieldErasureAction.RETAIN
     "Creation time.";
   _policy "privacy_notice_acceptances" "updated_at" PrivacyFieldClassification.LIFECYCLE true
     PrivacyFieldErasureAction.RETAIN
     "Update time.";
   _policy "privacy_notice_acceptances" "subject_user_id" PrivacyFieldClassification.INDIRECT_IDENTIFIER true
     PrivacyFieldErasureAction.RETAIN_MINIMISED
     "Subject link.";
   _policy "privacy_notice_acceptances" "notice_version" PrivacyFieldClassification.STRUCTURED_METADATA true
     PrivacyFieldErasureAction.RETAIN
     "Notice version.";
   _policy "privacy_notice_acceptances" "accepted_at" PrivacyFieldClassification.LIFECYCLE true
     PrivacyFieldErasureAction.RETAIN
     "Acceptance time.";
   _policy "privacy_notice_acceptances" "source" PrivacyFieldClassification.STRUCTURED_METADATA true
     PrivacyFieldErasureAction.REVIEW_REQUIRED
     "Acceptance source."].

Definition PRIVACY_COLUMN_POLICIES : list PrivacyColumnPolicy :=
  users_policies ++
  memberships_policies ++
  organisations_policies ++
  invites_policies ++
  outbox_events_policies ++
  audit_events_policies ++
  platform_staff_policies ++
  data_subject_requests_policies ++
  export_artifacts_policies ++
  data_processing_authorizations_policies ++
  consent_records_policies ++
  privacy_notice_acceptances_policies.

(** One step of the loop: [setdefault], the test for a duplicate, the assignment. *)
Definition group_policy (grouped : exn + gmap string (gmap string PrivacyColumnPolicy))
    (policy : PrivacyColumnPolicy) : exn + gmap string (gmap string PrivacyColumnPolicy) :=
  match grouped with
  | inl e => inl e
  | inr grouped =>
      let table := default ∅ (grouped !! policy_table policy) in
      match table !! column_name policy with
      | Some _ => inl (ValueError ("Duplicate privacy column policy for "
                   ++ policy_table policy ++ "." ++ column_name policy)%string)
      | None => inr (<[policy_table policy := <[column_name policy := policy]> table]> grouped)
      end
  end.

Definition get_privacy_column_policies_by_table
    : exn + gmap string (gmap string PrivacyColumnPolicy) :=
  foldl group_policy (inr ∅) PRIVACY_COLUMN_POLICIES.

(** [None] is the [KeyError] of the two subscripts. *)
Definition get_privacy_column_policy (table_name column_name : string)
    : exn + option PrivacyColumnPolicy :=
  match get_privacy_column_policies_by_table with
  | inl e => inl e
  | inr grouped => inr (grouped !! table_name ≫= fun table => table !! column_name)
  end.

End ColumnInventory.
