(* ===== verification/ErasurePreviews.v ===== *)
(** What is read before an erasure: the plan and the preview computed from the
    inventory, the coverage map, the registry of the providers, and the impact of an
    erasure on the database ([privacy/erasures/plan.py], [preview.py], [coverage.py] and
    [impact.py], [privacy/providers/registry.py]). *)
From S2P Require Import Prelude Errors Session Schema Tables AuditLog Users Invites.
From S2P Require Import Outbox ExportArtifacts DataSubjectRequests ExportArtifactServices Erasures.
From S2P Require Import PrivacyInventory.
Import ProviderKeys DataInventory.

(** ** [privacy/erasures/plan.py] *)
Module ErasurePlan.

Module ErasureExecutionMode.
Inductive t : Type :=
| ANONYMISE
| DELETE_WHEN_ALLOWED
| RETAIN_AND_MINIMISE
| RETAIN_WITH_LEGAL_BASIS
| NOT_APPLICABLE.

#[global] Instance t_eq_dec : EqDecision t.
Proof. solve_decision. Defined.

Definition value (s : t) : string :=
  match s with
  | ANONYMISE => "anonymise"
  | DELETE_WHEN_ALLOWED => "delete_when_allowed"
  | RETAIN_AND_MINIMISE => "retain_and_minimise"
  | RETAIN_WITH_LEGAL_BASIS => "retain_with_legal_basis"
  | NOT_APPLICABLE => "not_applicable"
  end.
End ErasureExecutionMode.

Record ErasureProviderPlanEntry := mkPlan {
  plan_provider_key : string;
  plan_table_name : string;
  strategy : PrivacyErasureStrategy.t;
  plan_mode : ErasureExecutionMode.t;
  plan_retention_policy_key : string;
  plan_manual_review : bool;
}.

Definition _execution_mode_for_strategy (s : PrivacyErasureStrategy.t) : ErasureExecutionMode.t :=
  match s with
  | PrivacyErasureStrategy.ANONYMISE_SUBJECT => ErasureExecutionMode.ANONYMISE
  | PrivacyErasureStrategy.DELETE_WHEN_ALLOWED => ErasureExecutionMode.DELETE_WHEN_ALLOWED
  | PrivacyErasureStrategy.RETAIN_AND_MINIMISE => ErasureExecutionMode.RETAIN_AND_MINIMISE
  | PrivacyErasureStrategy.RETAIN_WITH_LEGAL_BASIS => ErasureExecutionMode.RETAIN_WITH_LEGAL_BASIS
  | PrivacyErasureStrategy.NOT_APPLICABLE => ErasureExecutionMode.NOT_APPLICABLE
  end.

Definition needs_review (f : PrivacyFieldInventory) : bool :=
  bool_decide (erasure_action f = PrivacyFieldErasureAction.REVIEW_REQUIRED).

Definition _requires_manual_review (e : PrivacyTableInventoryEntry) : bool :=
  existsb needs_review (fields e)
  || bool_decide (erasure_strategy e ∈ [PrivacyErasureStrategy.RETAIN_WITH_LEGAL_BASIS;
                                        PrivacyErasureStrategy.NOT_APPLICABLE]).

Definition plan_entry (provider_key : string) (e : PrivacyTableInventoryEntry)
    : ErasureProviderPlanEntry :=
  mkPlan provider_key (table_name e) (erasure_strategy e)
    (_execution_mode_for_strategy (erasure_strategy e)) (retention_policy_key e)
    (_requires_manual_review e).

(** The loop of [build_erasure_provider_plan]. *)
Fixpoint plan_of (seen : list string) (inventory : list PrivacyTableInventoryEntry)
    : exn + list ErasureProviderPlanEntry :=
  match inventory with
  | [] => inr []
  | e :: inventory =>
      match erasure_provider_key e with
      | None => plan_of seen inventory
      | Some key =>
          if bool_decide (key ∈ seen)
          then inl (ValueError ("Duplicate erasure provider key: " ++ key)%string)
          else match plan_of (key :: seen) inventory with
               | inl exc => inl exc
               | inr entries => inr (plan_entry key e :: entries)
               end
      end
  end.

Definition build_erasure_provider_plan : exn + list ErasureProviderPlanEntry :=
  plan_of [] PRIVACY_DATA_INVENTORY.

Definition get_erasure_provider_plan_by_key : exn + gmap string ErasureProviderPlanEntry :=
  match build_erasure_provider_plan with
  | inl exc => inl exc
  | inr entries => inr (by_key plan_provider_key entries)
  end.

End ErasurePlan.
Import ErasurePlan.

(** ** [privacy/erasures/preview.py] *)
Module ErasurePreviews.

Module ErasurePreviewReadiness.
Inductive t : Type :=
| AUTOMATIC
| MANUAL_REVIEW_REQUIRED
| RETAIN_ONLY
| NOT_APPLICABLE.

#[global] Instance t_eq_dec : EqDecision t.
Proof. solve_decision. Defined.

Definition value (s : t) : string :=
  match s with
  | AUTOMATIC => "automatic"
  | MANUAL_REVIEW_REQUIRED => "manual_review_required"
  | RETAIN_ONLY => "retain_only"
  | NOT_APPLICABLE => "not_applicable"
  end.
End ErasurePreviewReadiness.

Record ErasurePreviewEntry := mkPreviewEntry {
  provider_key : string;
  preview_table : string;
  execution_mode : ErasureExecutionMode.t;
  preview_retention_policy_key : string;
  readiness : ErasurePreviewReadiness.t;
  requires_manual_review : bool;
}.

Definition is_mutating (e : ErasurePreviewEntry) : bool :=
  bool_decide (execution_mode e ∈ [ErasureExecutionMode.ANONYMISE;
    ErasureExecutionMode.DELETE_WHEN_ALLOWED; ErasureExecutionMode.RETAIN_AND_MINIMISE]).

Definition can_run_automatically (e : ErasurePreviewEntry) : bool :=
  bool_decide (readiness e = ErasurePreviewReadiness.AUTOMATIC).

Record ErasurePreview := mkPreview {
  preview_request_id : UUID;
  preview_subject_user_id : UUID;
  request_type : DataSubjectRequestType.t;
  entries : list ErasurePreviewEntry;
}.

Definition blocked_by_manual_review (p : ErasurePreview) : bool :=
  existsb requires_manual_review (entries p).

Definition keys_with (r : ErasurePreviewReadiness.t) (p : ErasurePreview) : list string :=
  provider_key <$> List.filter (fun e => bool_decide (readiness e = r)) (entries p).

Definition automatic_provider_keys (p : ErasurePreview) : list string :=
  keys_with ErasurePreviewReadiness.AUTOMATIC p.

Definition manual_review_provider_keys (p : ErasurePreview) : list string :=
  keys_with ErasurePreviewReadiness.MANUAL_REVIEW_REQUIRED p.

Definition retain_only_provider_keys (p : ErasurePreview) : list string :=
  keys_with ErasurePreviewReadiness.RETAIN_ONLY p.

Definition not_applicable_provider_keys (p : ErasurePreview) : list string :=
  keys_with ErasurePreviewReadiness.NOT_APPLICABLE p.

Definition _readiness_for_plan_entry (e : ErasureProviderPlanEntry) : ErasurePreviewReadiness.t :=
  if bool_decide (plan_mode e = ErasureExecutionMode.NOT_APPLICABLE)
  then ErasurePreviewReadiness.NOT_APPLICABLE
  else if bool_decide (plan_mode e = ErasureExecutionMode.RETAIN_WITH_LEGAL_BASIS)
  then ErasurePreviewReadiness.RETAIN_ONLY
  else if plan_manual_review e then ErasurePreviewReadiness.MANUAL_REVIEW_REQUIRED
  else ErasurePreviewReadiness.AUTOMATIC.

Definition _preview_entry (e : ErasureProviderPlanEntry) : ErasurePreviewEntry :=
  mkPreviewEntry (plan_provider_key e) (plan_table_name e) (plan_mode e)
    (plan_retention_policy_key e) (_readiness_for_plan_entry e) (plan_manual_review e).

(** The type arrives as text; a text that is no type is a [ValueError]. *)
Definition build_erasure_preview (request_id subject_user_id : UUID) (request_type : string)
    (plan : option (list ErasureProviderPlanEntry)) : exn + ErasurePreview :=
  match DataSubjectRequestType.of_value request_type with
  | None => inl (ValueError ("'" ++ request_type ++ "' is not a valid DataSubjectRequestType")%string)
  | Some parsed =>
      if negb (bool_decide (parsed = DataSubjectRequestType.ERASE))
      then inl (ValueError "erasure_preview_requires_erase_request")
      else match (match plan with Some p => inr p | None => build_erasure_provider_plan end) with
           | inl exc => inl exc
           | inr plan_entries =>
               inr (mkPreview request_id subject_user_id parsed (_preview_entry <$> plan_entries))
           end
  end.

End ErasurePreviews.
Import ErasurePreviews.

(** ** [privacy/erasures/coverage.py] *)
Module ErasureCoverage.

Module ErasureCoverageDecision.
Inductive t : Type :=
| EXECUTABLE
| RETAIN_BY_POLICY
| MANUAL_REVIEW_POLICY.

#[global] Instance t_eq_dec : EqDecision t.
Proof. solve_decision. Defined.

Definition value (s : t) : string :=
  match s with
  | EXECUTABLE => "executable"
  | RETAIN_BY_POLICY => "retain_by_policy"
  | MANUAL_REVIEW_POLICY => "manual_review_policy"
  end.
End ErasureCoverageDecision.
Import ErasureCoverageDecision.

Record ErasureCoverageEntry := mkCoverage {
  coverage_provider_key : string;
  coverage_table : string;
  decision : ErasureCoverageDecision.t;
  coverage_rationale : string;
}.

(** The table is looked up by the key's value; a key of the enumeration is found. *)
Definition _entry (k : PrivacyErasureProviderKey.t) (d : ErasureCoverageDecision.t)
    (rationale : string) : exn + ErasureCoverageEntry :=
  match erasure_provider_table_name (PrivacyErasureProviderKey.value k) with
  | inl exc => inl exc
  | inr t => inr (mkCoverage (PrivacyErasureProviderKey.value k) t d rationale)
  end.

Definition _ERASURE_COVERAGE_ENTRIES : list (exn + ErasureCoverageEntry) :=
  [_entry PrivacyErasureProviderKey.USERS_ANONYMISE_PROFILE EXECUTABLE
     "Subject profile direct identifiers are anonymised in-place.";
   _entry PrivacyErasureProviderKey.MEMBERSHIPS_MINIMISE_SUBJECT_LINK RETAIN_BY_POLICY
     ("Membership rows preserve tenant integrity; the linked user profile is anonymised " ++
      "while membership history is retained.");
   _entry PrivacyErasureProviderKey.ORGANISATIONS_REVIEW_SUBJECT_REFERENCES MANUAL_REVIEW_POLICY
     ("Organisation records are tenant-owned and are retained; subject-linked " ++
      "operational reason fields remain visible in erasure preview for review.");
   _entry PrivacyErasureProviderKey.INVITES_ANONYMISE_OR_PURGE_SUBJECT_REFERENCES EXECUTABLE
     "Invite contact identifiers and token material are anonymised or purged.";
   _entry PrivacyErasureProviderKey.OUTBOX_PURGE_OR_SCRUB_PAYLOAD EXECUTABLE
     "Subject-linked outbox payload values are scrubbed before profile erasure.";
   _entry PrivacyErasureProviderKey.AUDIT_MINIMISE_SUBJECT_ACTOR_OR_TARGET_IDENTIFIERS EXECUTABLE
     "Audit rows are retained for integrity while subject identifiers are minimised.";
   _entry PrivacyErasureProviderKey.PLATFORM_STAFF_MINIMISE_SUBJECT_OR_CREATOR_LINKS EXECUTABLE
     ("Platform staff records are retained for access-control accountability; creator " ++
      "links and free-text suspension context are minimised when possible.");
   _entry PrivacyErasureProviderKey.DSR_MINIMISE_WORKFLOW_IDENTIFIERS EXECUTABLE
     ("DSR lifecycle evidence is retained. Subject/requester-owned rows minimise user " ++
      "links, workflow relationship links and unsafe notes/idempotency metadata; " ++
      "reviewer-only rows minimise only the reviewer link.");
   _entry PrivacyErasureProviderKey.EXPORT_ARTIFACTS_DELETE_OBJECT_MINIMISE_METADATA EXECUTABLE
     ("Subject-owned export objects are deleted after erasure DB changes commit. " ++
      "Subject-owned artifacts with storage keys are marked as non-downloadable retry " ++
      "candidates until cleanup confirms object deletion. Non-processing actor " ++
      "identifier links are minimised without deleting other subjects' artifacts; " ++
      "processing actor-linked artifacts block erasure until the worker lease completes.");
   _entry PrivacyErasureProviderKey.PRIVACY_GOVERNANCE_MINIMISE_AUTHORIZATIONS EXECUTABLE
     "Lawful-basis evidence is retained; optional collection source context is minimised.";
   _entry PrivacyErasureProviderKey.PRIVACY_GOVERNANCE_MINIMISE_CONSENT_RECORDS RETAIN_BY_POLICY
     "Consent grant/withdrawal evidence is retained under privacy governance policy.";
   _entry PrivacyErasureProviderKey.PRIVACY_GOVERNANCE_MINIMISE_NOTICE_ACCEPTANCES EXECUTABLE
     "Notice acceptance evidence is retained while optional source context is minimised."]%string.

(** [None] when the module does not load. *)
Fixpoint loaded {A} (l : list (exn + A)) : option (list A) :=
  match l with
  | [] => Some []
  | inl _ :: _ => None
  | inr a :: l => option_map (cons a) (loaded l)
  end.

Definition ERASURE_COVERAGE_MAP : gmap string ErasureCoverageEntry :=
  by_key coverage_provider_key (default [] (loaded _ERASURE_COVERAGE_ENTRIES)).

Definition inventory_erasure_provider_keys : gset string :=
  list_to_set (PRIVACY_DATA_INVENTORY ≫= fun e =>
    match erasure_provider_key e with None => [] | Some k => [k] end).

Definition executable_erasure_provider_keys : gset string :=
  dom (filter (fun kv => decision kv.2 = EXECUTABLE) ERASURE_COVERAGE_MAP).

End ErasureCoverage.
Import ErasureCoverage.

(** ** [privacy/providers/registry.py] *)
Module ProviderRegistry.

Record PrivacyProviderRegistryEntry := mkRegistryEntry {
  registry_key : string;
  registry_table : string;
  purpose : string;
  registry_strategy : PrivacyErasureStrategy.t;
  registry_retention : string;
}.

Definition _add_provider_entry (registry : gmap string PrivacyProviderRegistryEntry)
    (provider_key table_name purpose_arg : string) (s : PrivacyErasureStrategy.t)
    (retention : string) : exn + gmap string PrivacyProviderRegistryEntry :=
  match registry !! provider_key with
  | Some existing =>
      inl (ValueError ("Duplicate privacy provider key '" ++ provider_key ++ "': "
        ++ registry_table existing ++ "/" ++ purpose existing ++ " and "
        ++ table_name ++ "/" ++ purpose_arg)%string)
  | None =>
      inr (<[provider_key := mkRegistryEntry provider_key table_name purpose_arg s retention]>
             registry)
  end.

(** The body of the loop. *)
Definition register (registry : exn + gmap string PrivacyProviderRegistryEntry)
    (e : PrivacyTableInventoryEntry) : exn + gmap string PrivacyProviderRegistryEntry :=
  match registry with
  | inl exc => inl exc
  | inr registry =>
      match _add_provider_entry registry (export_provider_key e) (table_name e) "export"
              (erasure_strategy e) (retention_policy_key e), erasure_provider_key e with
      | inl exc, _ => inl exc
      | inr registry, None => inr registry
      | inr registry, Some key =>
          _add_provider_entry registry key (table_name e) "erasure" (erasure_strategy e)
            (retention_policy_key e)
      end
  end.

Definition build_privacy_provider_registry : exn + gmap string PrivacyProviderRegistryEntry :=
  foldl register (inr ∅) PRIVACY_DATA_INVENTORY.

(** [None] is the [KeyError] of a subscript. *)
Definition get_provider_entry (provider_key : string)
    : exn + option PrivacyProviderRegistryEntry :=
  match build_privacy_provider_registry with
  | inl exc => inl exc
  | inr registry => inr (registry !! provider_key)
  end.

Definition get_table_provider_entries (table : string)
    : exn + option (list PrivacyProviderRegistryEntry) :=
  match get_privacy_inventory_by_table !! table with
  | None => inr None
  | Some e =>
      match build_privacy_provider_registry with
      | inl exc => inl exc
      | inr registry =>
          inr (mapM (fun key => registry !! key)
                 (export_provider_key e :: from_option (fun k => [k]) [] (erasure_provider_key e)))
      end
  end.

End ProviderRegistry.

(** ** [privacy/erasures/impact.py] *)
Module ErasureImpact.
Import ErasureRows.

Module ErasureImpactScope.
Inductive t : Type := SCOPED | NOT_SCOPED_YET.

#[global] Instance t_eq_dec : EqDecision t.
Proof. solve_decision. Defined.

Definition value (s : t) : string :=
  match s with SCOPED => "scoped" | NOT_SCOPED_YET => "not_scoped_yet" end.
End ErasureImpactScope.

Definition _SCOPED_PROVIDER_KEYS : gset string := inventory_erasure_provider_keys.

Record ErasureImpactEntry := mkImpactEntry {
  impact_provider_key : string;
  impact_table : string;
  impact_mode : ErasureExecutionMode.t;
  impact_readiness : ErasurePreviewReadiness.t;
  impact_manual_review : bool;
  impact_retention_policy_key : string;
  impact_scope : ErasureImpactScope.t;
  estimated_rows : option nat;
}.

Definition is_scoped (e : ErasureImpactEntry) : bool :=
  bool_decide (impact_scope e = ErasureImpactScope.SCOPED).

Record ErasureImpactPreview := mkImpactPreview {
  impact_request_id : UUID;
  impact_subject_user_id : UUID;
  impact_entries : list ErasureImpactEntry;
}.

Definition scoped_provider_keys (p : ErasureImpactPreview) : list string :=
  impact_provider_key <$> List.filter is_scoped (impact_entries p).

Definition unscoped_provider_keys (p : ErasureImpactPreview) : list string :=
  impact_provider_key <$> List.filter (fun e => negb (is_scoped e)) (impact_entries p).

Definition total_scoped_rows (p : ErasureImpactPreview) : nat :=
  list_sum ((fun e => default 0%nat (estimated_rows e)) <$> impact_entries p).

Definition impact_error (reason_code : string) : exn :=
  ErasureError ErasureImpactPreviewError reason_code.

Definition _validate_request_and_get_subject (request : DataSubjectRequest.t) : M Db User.t :=
  raise_if (negb (bool_decide (DataSubjectRequest.request_type request
      = DataSubjectRequestType.ERASE))) (impact_error "erasure_preview_requires_erase_request") ;;
  raise_if (negb (bool_decide (DataSubjectRequest.status request
      = DataSubjectRequestStatus.APPROVED)))
    (impact_error "erasure_preview_requires_approved_request") ;;
  subject_id ← or_raise (DataSubjectRequest.subject_user_id request)
    (impact_error "erasure_preview_requires_subject_user");
  subject ← select_one_or_none (fun u => bool_decide (User.id u = subject_id));
  or_raise subject (impact_error "erasure_preview_subject_not_found").

(** [select(func.count()).where(...)] *)
Definition count_where {R} `{Table R} (P : R -> bool) : M Db nat :=
  rows ← select P;
  mret (length rows).

Definition _normalised_subject_email (subject : User.t) : option string :=
  match User.email subject with
  | None => None
  | Some e => let normalised := Text.lower (Text.strip e) in
              if Text.is_empty normalised then None else Some normalised
  end.

Definition _subject_invite_conditions (subject : User.t) (subject_email : option string)
    (i : Invite.t) : bool :=
  is_user (User.id subject) (Invite.revoked_by_user_id i)
  || match subject_email with
     | None => false
     | Some email => sql_email_is email (Invite.email i)
     end.

Definition by_id (i : Invite.t) : list Z := [Z.of_N (Invite.id i)].

Definition _subject_invite_ids (subject : User.t) (subject_email : option string)
    : M Db (list UUID) :=
  rows ← select (_subject_invite_conditions subject subject_email);
  mret (Invite.id <$> merge_sort (ordered_by by_id) rows).

Definition outbox_condition (invite_ids : list UUID) (subject_email : option string)
    (e : OutboxEvent.t) : bool :=
  match OutboxEvent.aggregate_id e with None => false | Some k => bool_decide (k ∈ invite_ids) end
  || match subject_email, payload_email (OutboxEvent.payload_json e) with
     | Some email, Some x => sql_email_is email x
     | _, _ => false
     end.

Definition _count_subject_outbox_events (invite_ids : list UUID) (subject_email : option string)
    : M Db nat :=
  if bool_decide (invite_ids = []) && is_None subject_email then mret 0%nat else
  count_where (outbox_condition invite_ids subject_email).

Definition _subject_membership_ids (subject : User.t) : M Db (list UUID) :=
  rows ← select (fun m => bool_decide (Membership.user_id m = User.id subject));
  mret (Membership.id <$> rows).

Definition _subject_dsr_conditions (subject : User.t) (r : DataSubjectRequest.t) : bool :=
  is_user (User.id subject) (DataSubjectRequest.subject_user_id r)
  || is_user (User.id subject) (DataSubjectRequest.requester_user_id r)
  || is_user (User.id subject) (DataSubjectRequest.reviewer_user_id r)
  || is_user (User.id subject) (DataSubjectRequest.representative_verified_by_user_id r).

Definition _subject_dsr_ids (subject : User.t) : M Db (list UUID) :=
  rows ← select (_subject_dsr_conditions subject);
  mret (DataSubjectRequest.id <$> rows).

Definition artifact_condition (subject : User.t) (a : ExportArtifact.t) : bool :=
  is_user (User.id subject) (ExportArtifact.subject_user_id a)
  || is_user (User.id subject) (ExportArtifact.requester_user_id a)
  || is_user (User.id subject) (ExportArtifact.requested_by_user_id a)
  || is_user (User.id subject) (ExportArtifact.generated_by_user_id a).

Definition _subject_export_artifact_ids (subject : User.t) : M Db (list UUID) :=
  rows ← select (artifact_condition subject);
  mret (ExportArtifact.id <$> rows).

Definition staff_condition (subject : User.t) (s : PlatformStaff.t) : bool :=
  bool_decide (PlatformStaff.user_id s = User.id subject)
  || is_user (User.id subject) (PlatformStaff.created_by_user_id s).

Definition _subject_platform_staff_ids (subject : User.t) : M Db (list UUID) :=
  rows ← select (staff_condition subject);
  mret (PlatformStaff.id <$> rows).

(** [(target_type == t) & target_id.in_(ids)], left out when there is no id. *)
Definition _append_audit_target_condition (t : AuditTargetType.t) (ids : list UUID)
    (e : AuditEvent.t) : bool :=
  String.eqb (AuditEvent.target_type e) (AuditTargetType.value t)
  && match AuditEvent.target_id e with None => false | Some k => bool_decide (k ∈ ids) end.

Definition audit_condition (subject : User.t)
    (invite_ids membership_ids dsr_ids export_artifact_ids platform_staff_ids : list UUID)
    (e : AuditEvent.t) : bool :=
  is_user (User.id subject) (AuditEvent.actor_user_id e)
  || (bool_decide (AuditEvent.target_type e ∈
        [AuditTargetType.value AuditTargetType.USER;
         AuditTargetType.value AuditTargetType.PRIVACY_CONSENT;
         AuditTargetType.value AuditTargetType.PRIVACY_NOTICE])
      && is_user (User.id subject) (AuditEvent.target_id e))
  || _append_audit_target_condition AuditTargetType.INVITE invite_ids e
  || _append_audit_target_condition AuditTargetType.MEMBERSHIP membership_ids e
  || _append_audit_target_condition AuditTargetType.DATA_SUBJECT_REQUEST dsr_ids e
  || _append_audit_target_condition AuditTargetType.EXPORT_ARTIFACT export_artifact_ids e
  || _append_audit_target_condition AuditTargetType.PLATFORM_STAFF platform_staff_ids e.

Definition _count_subject_audit_events (subject : User.t) (invite_ids : list UUID) : M Db nat :=
  membership_ids ← _subject_membership_ids subject;
  dsr_ids ← _subject_dsr_ids subject;
  export_artifact_ids ← _subject_export_artifact_ids subject;
  platform_staff_ids ← _subject_platform_staff_ids subject;
  count_where (audit_condition subject invite_ids membership_ids dsr_ids export_artifact_ids
    platform_staff_ids).

Definition _count_subject_memberships (subject : User.t) : M Db nat :=
  count_where (fun m => bool_decide (Membership.user_id m = User.id subject)).

(** The organisations joined with a membership of the subject, each counted once. *)
Definition _count_subject_organisations (subject : User.t) : M Db nat :=
  d ← get_db;
  count_where (fun o => existsb (fun m => bool_decide (Membership.user_id m = User.id subject)
      && bool_decide (Membership.organisation_id m = Organisation.id o))
    (rows_where d (fun _ => true))).

Definition _count_subject_platform_staff (subject : User.t) : M Db nat :=
  count_where (staff_condition subject).

Definition _count_subject_dsr_records (subject : User.t) : M Db nat :=
  count_where (_subject_dsr_conditions subject).

Definition _count_subject_export_artifacts (subject : User.t) : M Db nat :=
  count_where (artifact_condition subject).

Definition _count_subject_authorizations (subject : User.t) : M Db nat :=
  count_where (fun a =>
    bool_decide (DataProcessingAuthorization.subject_user_id a = User.id subject)).

Definition _count_subject_consents (subject : User.t) : M Db nat :=
  count_where (fun c => bool_decide (ConsentRecord.subject_user_id c = User.id subject)).

Definition _count_subject_notice_acceptances (subject : User.t) : M Db nat :=
  count_where (fun a => bool_decide (PrivacyNoticeAcceptance.subject_user_id a = User.id subject)).

Definition _USERS_PROVIDER_KEY : string := "users.anonymise_profile".
Definition _INVITES_PROVIDER_KEY : string := "invites.anonymise_or_purge_subject_references".
Definition _OUTBOX_PROVIDER_KEY : string := "outbox.purge_or_scrub_payload".
Definition _AUDIT_PROVIDER_KEY : string := "audit.minimise_subject_actor_or_target_identifiers".
Definition _MEMBERSHIPS_PROVIDER_KEY : string := "memberships.minimise_subject_link".
Definition _ORGANISATIONS_PROVIDER_KEY : string := "organisations.review_subject_references".
Definition _PLATFORM_STAFF_PROVIDER_KEY : string := "platform_staff.minimise_subject_or_creator_links".
Definition _DSR_PROVIDER_KEY : string := "dsr.minimise_workflow_identifiers".
Definition _EXPORT_ARTIFACTS_PROVIDER_KEY : string :=
  "export_artifacts.delete_object_minimise_subject_or_actor_metadata".
Definition _PRIVACY_AUTHORIZATIONS_PROVIDER_KEY : string := "privacy_governance.minimise_authorizations".
Definition _PRIVACY_CONSENTS_PROVIDER_KEY : string := "privacy_governance.minimise_consent_records".
Definition _PRIVACY_NOTICES_PROVIDER_KEY : string := "privacy_governance.minimise_notice_acceptances".

Definition _count_scoped_rows (subject : User.t) : M Db (gmap string nat) :=
  let subject_email := _normalised_subject_email subject in
  invite_ids ← _subject_invite_ids subject subject_email;
  outbox ← _count_subject_outbox_events invite_ids subject_email;
  audit ← _count_subject_audit_events subject invite_ids;
  memberships ← _count_subject_memberships subject;
  organisations ← _count_subject_organisations subject;
  staff ← _count_subject_platform_staff subject;
  dsr ← _count_subject_dsr_records subject;
  artifacts ← _count_subject_export_artifacts subject;
  authorizations ← _count_subject_authorizations subject;
  consents ← _count_subject_consents subject;
  notices ← _count_subject_notice_acceptances subject;
  mret (list_to_map
    [(_USERS_PROVIDER_KEY, 1%nat); (_INVITES_PROVIDER_KEY, length invite_ids);
     (_OUTBOX_PROVIDER_KEY, outbox); (_AUDIT_PROVIDER_KEY, audit);
     (_MEMBERSHIPS_PROVIDER_KEY, memberships); (_ORGANISATIONS_PROVIDER_KEY, organisations);
     (_PLATFORM_STAFF_PROVIDER_KEY, staff); (_DSR_PROVIDER_KEY, dsr);
     (_EXPORT_ARTIFACTS_PROVIDER_KEY, artifacts);
     (_PRIVACY_AUTHORIZATIONS_PROVIDER_KEY, authorizations);
     (_PRIVACY_CONSENTS_PROVIDER_KEY, consents); (_PRIVACY_NOTICES_PROVIDER_KEY, notices)]).

Definition _impact_entry (row_counts : gmap string nat) (e : ErasurePreviewEntry)
    : ErasureImpactEntry :=
  let is_scoped := bool_decide (ErasurePreviews.provider_key e ∈ _SCOPED_PROVIDER_KEYS) in
  mkImpactEntry (ErasurePreviews.provider_key e) (preview_table e) (execution_mode e) (readiness e)
    (requires_manual_review e) (preview_retention_policy_key e)
    (if is_scoped then ErasureImpactScope.SCOPED else ErasureImpactScope.NOT_SCOPED_YET)
    (if is_scoped then row_counts !! ErasurePreviews.provider_key e else None).

Definition build_erasure_impact_preview (request : DataSubjectRequest.t)
    : M Db ErasureImpactPreview :=
  subject ← _validate_request_and_get_subject request;
  base_preview ← match build_erasure_preview (DataSubjectRequest.id request) (User.id subject)
      (DataSubjectRequestType.value DataSubjectRequestType.ERASE) None with
    | inl exc => raise exc
    | inr p => mret p
    end;
  row_counts ← _count_scoped_rows subject;
  mret (mkImpactPreview (DataSubjectRequest.id request) (User.id subject)
    (_impact_entry row_counts <$> entries base_preview)).

End ErasureImpact.
