(* ===== verification/Requests.v ===== *)
(** What the handlers read off an HTTP request: the client's address as the audit
    trail records it ([audit/context.py]) and as the rate limiter buckets it
    ([core/rate_limit/identifiers.py]). *)
From S2P Require Import Prelude AuditLog Users.

(** The parts of a [starlette] request the code reads: the peer's host and three
    headers. *)
Module Request.
Record t := mk {
  client_host : option string;
  user_agent : option string;
  x_forwarded_for : option string;
  x_real_ip : option string;
}.
End Request.

(** The settings that decide about proxy headers and carry the audit secret. *)
Record RequestSettings := mkRequestSettings {
  trust_proxy_headers : bool;
  trusted_proxy_cidrs : list string;
  audit_network_identifier_secret : option string;
}.

(** [ipaddress.ip_network(.., strict=False)] and [address in network]. *)
Class IpNetworks := {
  ip_network_t : Type;
  ip_network : string -> option ip_network_t;
  in_network : IPAddress -> ip_network_t -> bool;
}.

(** [s.split(",", maxsplit=1)[0]] *)
Fixpoint before_comma (s : string) : string :=
  match s with
  | EmptyString => EmptyString
  | String c r => if Ascii.eqb c "," then EmptyString else String c (before_comma r)
  end.

(** [if header:] *)
Definition present (header : option string) : option string :=
  match header with
  | Some h => if Text.is_empty h then None else Some h
  | None => None
  end.

(** ** [core/rate_limit/identifiers.py] *)
Module Identifiers.

Module RateLimitIdentifier.
Record t := mk { kind : string; bucket_key : string }.
End RateLimitIdentifier.

Module RateLimitBucket.
Record t := mk { kind : string; raw_value : string }.
End RateLimitBucket.

Section Identifiers.
Context `{Network} `{IpNetworks}.

Definition BUCKET_KEY_PREFIX : string := "rlid:v1:hmac-sha256".

Definition _parse_ip (value : option string) : option IPAddress :=
  ip_address (Text.strip (default ""%string value)).

(** The network address of the /64 an IPv6 address is in. *)
Definition network_address_64 (n : N) : N := N.shiftl (N.shiftr n 64) 64.

Definition _normalise_ip (value : option string) : string :=
  match _parse_ip value with
  | None => "0.0.0.0"
  | Some (IPv6Address n) => compressed (IPv6Address (network_address_64 n))
  | Some (IPv4Address n) => compressed (IPv4Address n)
  end.

Definition is_request_from_trusted_proxy (request : Request.t) (cidrs : list string) : bool :=
  match _parse_ip (Request.client_host request) with
  | None => false
  | Some peer =>
      existsb (fun raw_cidr =>
        match ip_network raw_cidr with
        | None => false
        | Some network => in_network peer network
        end) cidrs
  end.

(** The address a forwarding header gives, unless it is not one. *)
Definition forwarded (value : string) : option string :=
  let normalised := _normalise_ip (Some value) in
  if String.eqb normalised "0.0.0.0" then None else Some normalised.

Definition resolve_client_ip (request : Request.t) (trust_proxy_headers : bool)
    (trusted_proxy_cidrs : list string) : string :=
  let peer_ip := _normalise_ip (Request.client_host request) in
  if negb trust_proxy_headers then peer_ip else
  if negb (is_request_from_trusted_proxy request trusted_proxy_cidrs) then peer_ip else
  let first_hop := x ← present (Request.x_forwarded_for request);
                   forwarded (Text.strip (before_comma x)) in
  let real_ip := x ← present (Request.x_real_ip request); forwarded (Text.strip x) in
  match first_hop, real_ip with
  | Some ip, _ => ip
  | None, Some ip => ip
  | None, None => peer_ip
  end.

Definition _build_bucket_key (message secret : string) : string :=
  (BUCKET_KEY_PREFIX ++ ":" ++ hmac_sha256_hexdigest secret message)%string.

Definition build_bucket_identifier (bucket : RateLimitBucket.t) (identifier_secret : string)
    : RateLimitIdentifier.t :=
  RateLimitIdentifier.mk (RateLimitBucket.kind bucket)
    (_build_bucket_key (RateLimitBucket.kind bucket ++ ":" ++ RateLimitBucket.raw_value bucket)
       identifier_secret).

Definition build_identifier (principal : option identity_t) (request : Request.t)
    (trust_proxy_headers : bool) (identifier_secret : string) (trusted_proxy_cidrs : list string)
    : RateLimitIdentifier.t :=
  match principal with
  | Some principal =>
      RateLimitIdentifier.mk "user"
        (_build_bucket_key ("user:" ++ AuthenticatedPrincipal.external_auth_id principal)
           identifier_secret)
  | None =>
      let ip_value := resolve_client_ip request trust_proxy_headers trusted_proxy_cidrs in
      RateLimitIdentifier.mk "ip" (_build_bucket_key ("ip:" ++ ip_value) identifier_secret)
  end.

End Identifiers.
End Identifiers.

(** ** [audit/context.py] *)
Module AuditRequestContext.
Section AuditRequestContext.
Context `{Network} `{IpNetworks}.

Definition _normalise_audit_ip (value : option string) : option string :=
  option_map compressed (ip_address (Text.strip (default ""%string value))).

Definition _forwarded_audit_client_ip (request : Request.t) : option string :=
  let forwarded_ip := x ← present (Request.x_forwarded_for request);
                      _normalise_audit_ip (Some (Text.strip (before_comma x))) in
  match forwarded_ip with
  | Some ip => Some ip
  | None => x ← present (Request.x_real_ip request); _normalise_audit_ip (Some x)
  end.

Definition _audit_client_ip_from_request (settings : RequestSettings) (request : Request.t)
    : option string :=
  match _normalise_audit_ip (Request.client_host request) with
  | None => None
  | Some peer_ip =>
      if negb (trust_proxy_headers settings)
         || negb (Identifiers.is_request_from_trusted_proxy request (trusted_proxy_cidrs settings))
      then Some peer_ip
      else Some (default peer_ip (present (_forwarded_audit_client_ip request)))
  end.

Definition build_audit_context_from_request (settings : RequestSettings)
    (actor_user_id : option UUID) (request : Request.t) : AuditContext.t :=
  AuditContext.mk actor_user_id (_audit_client_ip_from_request settings request)
    (Request.user_agent request) (audit_network_identifier_secret settings).

End AuditRequestContext.
End AuditRequestContext.
