(* ===== verification/RateLimitPolicies.v ===== *)
(** Rate-limit policies: the declared policies ([core/rate_limit/policies.py]) and the
    registry the application resolves them into when it starts
    ([core/rate_limit/registry.py]), from the settings that may override them
    ([RateLimitingSettings] in [core/config/settings.py]). *)
From S2P Require Import Prelude Errors Session Tables.

(** Startup code raises or returns; it touches no session. *)
#[export] Instance result_ret : MRet result := fun A a => Ok a.
#[export] Instance result_bind : MBind result := fun A B f r =>
  match r with Ok a => f a | Err e => Err e end.

(** The [limits] package's rate-limit items: an amount per window, the window a number of
    minutes, hours or days ([RateLimitItemPerMinute(limit, multiples)], ...). *)
Class RateLimitItems := {
  RateLimitItem : Type;
  RateLimitItemPerMinute : Z -> Z -> RateLimitItem;
  RateLimitItemPerHour : Z -> Z -> RateLimitItem;
  RateLimitItemPerDay : Z -> Z -> RateLimitItem;
  amount : RateLimitItem -> Z;
  get_expiry : RateLimitItem -> Z;
}.

(** What the package documents of them. *)
Class RateLimitItemLaws `{RateLimitItems} := {
  amount_per_minute n m : amount (RateLimitItemPerMinute n m) = n;
  amount_per_hour n m : amount (RateLimitItemPerHour n m) = n;
  amount_per_day n m : amount (RateLimitItemPerDay n m) = n;
  expiry_per_minute n m : get_expiry (RateLimitItemPerMinute n m) = 60 * m;
  expiry_per_hour n m : get_expiry (RateLimitItemPerHour n m) = 3600 * m;
  expiry_per_day n m : get_expiry (RateLimitItemPerDay n m) = 86400 * m;
}.

(** [RateLimitSensitivity] *)
Module RateLimitSensitivity.
Inductive t := normal | sensitive | critical.
#[global] Instance t_eq_dec : EqDecision t.
Proof. solve_decision. Defined.
End RateLimitSensitivity.

(** [RateLimitingSettings.mode] *)
Module RateLimitMode.
Inductive t := normal | strict | relaxed | panic.
#[global] Instance t_eq_dec : EqDecision t.
Proof. solve_decision. Defined.
End RateLimitMode.

Module RateLimitPolicySpec.
Record t := mk {
  name : string;
  default_limit : Z;
  default_window_seconds : Z;
  default_fail_open : bool;
  sensitivity : RateLimitSensitivity.t;
}.
End RateLimitPolicySpec.

Module RateLimitPolicy.
Record t `{RateLimitItems} := mk {
  name : string;
  item : RateLimitItem;
  fail_open : bool;
  sensitivity : RateLimitSensitivity.t;
  override_applied : bool;
}.
#[global] Arguments mk {_} name item fail_open sensitivity override_applied.
#[global] Arguments name {_} _.
#[global] Arguments item {_} _.
#[global] Arguments fail_open {_} _.
#[global] Arguments sensitivity {_} _.
#[global] Arguments override_applied {_} _.
End RateLimitPolicy.

(** [core/config/settings.py] *)
Module RateLimitPolicyOverride.
Record t := mk {
  limit : option Z;
  window_seconds : option Z;
  fail_open : option bool;
}.

Definition validate_supported_window (value : option Z) : result (option Z) :=
  match value with
  | Some w =>
      if bool_decide (w ∈ [60; 300; 3600; 86400]) then Ok value
      else Err (ValueError "RATE_LIMITING policy window_seconds must be one of 60, 300, 3600, 86400")
  | None => Ok value
  end.

(** [Field(gt=0)] *)
Definition positive (value : option Z) : bool :=
  match value with Some n => 0 <? n | None => true end.

(** Validating the model: each field's bound, then the window's validator. *)
Definition validate (o : t) : result t :=
  if negb (positive (limit o) && positive (window_seconds o))
  then Err (ValueError "Input should be greater than 0")
  else w ← validate_supported_window (window_seconds o);
       Ok (mk (limit o) w (fail_open o)).
End RateLimitPolicyOverride.

(** ** The declared policies *)
Module Policies.
Import RateLimitSensitivity.
Abbreviation declared := RateLimitPolicySpec.mk.

Definition PRE_AUTH_POLICY := declared "pre_auth" 120 60 true sensitive.
Definition AUTHENTICATED_DEFAULT_POLICY := declared "authenticated_default" 120 60 true normal.
Definition TENANT_READ_POLICY := declared "tenant_read" 120 60 true normal.
Definition TENANT_WRITE_POLICY := declared "tenant_write" 30 60 false sensitive.
Definition TENANT_WRITE_ORGANISATION_POLICY :=
  declared "tenant_write_organisation" 60 60 false sensitive.
Definition ORGANISATION_CREATE_POLICY := declared "organisation_create" 5 3600 false critical.
Definition PLATFORM_READ_POLICY := declared "platform_read" 60 60 false sensitive.
Definition AUDIT_READ_POLICY := declared "audit_read" 30 60 false critical.
Definition INVITE_MUTATION_POLICY := declared "invite_mutation" 30 3600 false sensitive.
Definition INVITE_ACCEPT_POLICY := declared "invite_accept" 5 300 false critical.
Definition INVITE_ACCEPT_TOKEN_POLICY := declared "invite_accept_token" 5 300 false critical.
Definition INVITE_CREATE_POLICY := declared "invite_create" 20 3600 false sensitive.
Definition INVITE_CREATE_ORGANISATION_POLICY :=
  declared "invite_create_organisation" 50 3600 false sensitive.
Definition INVITE_CREATE_ORGANISATION_DAILY_POLICY :=
  declared "invite_create_organisation_daily" 200 86400 false critical.
Definition INVITE_CREATE_TARGET_EMAIL_POLICY :=
  declared "invite_create_target_email" 3 86400 false critical.
Definition INVITE_CREATE_TARGET_DOMAIN_POLICY :=
  declared "invite_create_target_domain" 50 86400 false sensitive.
Definition INVITE_RESEND_INVITE_POLICY := declared "invite_resend_invite" 5 3600 false sensitive.
Definition INVITE_RESEND_ORGANISATION_DAILY_POLICY :=
  declared "invite_resend_organisation_daily" 200 86400 false sensitive.
Definition PLATFORM_WRITE_POLICY := declared "platform_write" 30 60 false critical.
Definition PLATFORM_STAFF_WRITE_POLICY := declared "platform_staff_write" 10 60 false critical.
Definition PRIVACY_DSR_SUBMIT_POLICY := declared "privacy_dsr_submit" 5 86400 false critical.
Definition PRIVACY_EXPORT_DOWNLOAD_URL_POLICY :=
  declared "privacy_export_download_url" 10 300 false critical.
End Policies.

(** The settings the registry reads. *)
Record PolicySettings := mkPolicySettings {
  environment : string;
  mode : RateLimitMode.t;
  policies : gmap string RateLimitPolicyOverride.t;
}.

(** ** The registry *)
Module PolicyRegistry.
Import Policies.

(** The specs by name; a name declared twice raises. *)
Fixpoint build_from (registry : gmap string RateLimitPolicySpec.t)
    (specs : list RateLimitPolicySpec.t) : result (gmap string RateLimitPolicySpec.t) :=
  match specs with
  | [] => Ok registry
  | policy :: rest =>
      match registry !! RateLimitPolicySpec.name policy with
      | Some _ => Err (ValueError
          ("Duplicate rate limit policy name: " ++ RateLimitPolicySpec.name policy)%string)
      | None => build_from (<[RateLimitPolicySpec.name policy := policy]> registry) rest
      end
  end.

Definition build_policy_spec_registry (specs : list RateLimitPolicySpec.t)
    : result (gmap string RateLimitPolicySpec.t) := build_from ∅ specs.

Definition _REGISTERED_POLICY_SPECS : list RateLimitPolicySpec.t :=
  [PRE_AUTH_POLICY; AUTHENTICATED_DEFAULT_POLICY; TENANT_READ_POLICY; TENANT_WRITE_POLICY;
   TENANT_WRITE_ORGANISATION_POLICY; ORGANISATION_CREATE_POLICY; INVITE_ACCEPT_POLICY;
   INVITE_ACCEPT_TOKEN_POLICY; INVITE_CREATE_POLICY; INVITE_CREATE_ORGANISATION_POLICY;
   INVITE_CREATE_ORGANISATION_DAILY_POLICY; INVITE_CREATE_TARGET_EMAIL_POLICY;
   INVITE_CREATE_TARGET_DOMAIN_POLICY; INVITE_MUTATION_POLICY; INVITE_RESEND_INVITE_POLICY;
   INVITE_RESEND_ORGANISATION_DAILY_POLICY; PLATFORM_READ_POLICY; AUDIT_READ_POLICY;
   PLATFORM_WRITE_POLICY; PLATFORM_STAFF_WRITE_POLICY; PRIVACY_DSR_SUBMIT_POLICY;
   PRIVACY_EXPORT_DOWNLOAD_URL_POLICY].

(** Importing the module raises when two policies share a name. *)
Definition _POLICY_SPEC_REGISTRY : result (gmap string RateLimitPolicySpec.t) :=
  build_policy_spec_registry _REGISTERED_POLICY_SPECS.

Definition get_rate_limit_policy (name : string) : result RateLimitPolicySpec.t :=
  registry ← _POLICY_SPEC_REGISTRY;
  match registry !! name with
  | Some spec => Ok spec
  | None => Err (ValueError ("Unknown rate limit policy: " ++ name)%string)
  end.

(** [sorted(set(overrides) - known)] *)
Definition unknown_names (registry : gmap string RateLimitPolicySpec.t)
    (overrides : gmap string RateLimitPolicyOverride.t) : list string :=
  merge_sort string_le
    (List.filter (fun n => is_None (registry !! n)) (fst <$> map_to_list overrides)).

Section Registry.
Context `{RateLimitItems}.

Definition _rate_limit_item_from_window (limit window_seconds : Z) : result RateLimitItem :=
  if Z.eqb window_seconds 60 then Ok (RateLimitItemPerMinute limit 1) else
  if Z.eqb window_seconds 300 then Ok (RateLimitItemPerMinute limit 5) else
  if Z.eqb window_seconds 3600 then Ok (RateLimitItemPerHour limit 1) else
  if Z.eqb window_seconds 86400 then Ok (RateLimitItemPerDay limit 1) else
  Err (ValueError ("Unsupported rate limit window_seconds: " ++ pretty window_seconds ++
    ". Supported values are 60, 300, 3600, and 86400.")%string).

(** [floor(limit * 0.5)] and [floor(limit * 0.25)]: the declared limits are far below
    the integers a float cannot hold. *)
Definition _apply_mode_to_limit (limit : Z) (mode : RateLimitMode.t)
    (sensitivity : RateLimitSensitivity.t) : Z :=
  match mode, sensitivity with
  | RateLimitMode.strict, _ => Z.max 1 (limit / 2)
  | RateLimitMode.relaxed, _ => limit * 2
  | RateLimitMode.panic, RateLimitSensitivity.sensitive => Z.max 1 (limit / 2)
  | RateLimitMode.panic, RateLimitSensitivity.critical => Z.max 1 (limit / 4)
  | _, _ => limit
  end.

(** [mode == "panic" and spec.sensitivity in {"sensitive", "critical"}] *)
Definition panic_closes (mode : RateLimitMode.t) (spec : RateLimitPolicySpec.t) : bool :=
  bool_decide (mode = RateLimitMode.panic)
  && negb (bool_decide (RateLimitPolicySpec.sensitivity spec = RateLimitSensitivity.normal)).

(** [if panic: fail_open = False] *)
Definition close_in_panic (mode : RateLimitMode.t) (spec : RateLimitPolicySpec.t)
    (fail_open : bool) : bool :=
  if panic_closes mode spec then false else fail_open.

Definition _apply_override (spec : RateLimitPolicySpec.t) (mode : RateLimitMode.t)
    (override : option RateLimitPolicyOverride.t) : result RateLimitPolicy.t :=
  let limit := _apply_mode_to_limit (RateLimitPolicySpec.default_limit spec) mode
                 (RateLimitPolicySpec.sensitivity spec) in
  let window_seconds := RateLimitPolicySpec.default_window_seconds spec in
  let fail_open := close_in_panic mode spec (RateLimitPolicySpec.default_fail_open spec) in
  let '(limit, window_seconds, fail_open) :=
    match override with
    | None => (limit, window_seconds, fail_open)
    | Some o => (default limit (RateLimitPolicyOverride.limit o),
                 default window_seconds (RateLimitPolicyOverride.window_seconds o),
                 default fail_open (RateLimitPolicyOverride.fail_open o))
    end in
  item ← _rate_limit_item_from_window limit window_seconds;
  Ok (RateLimitPolicy.mk (RateLimitPolicySpec.name spec) item (close_in_panic mode spec fail_open)
        (RateLimitPolicySpec.sensitivity spec) (negb (is_None override))).

Definition _force_policy_fail_closed (policy : RateLimitPolicy.t) : RateLimitPolicy.t :=
  if negb (RateLimitPolicy.fail_open policy) then policy
  else RateLimitPolicy.mk (RateLimitPolicy.name policy) (RateLimitPolicy.item policy) false
         (RateLimitPolicy.sensitivity policy) (RateLimitPolicy.override_applied policy).

Definition _should_force_fail_closed_in_environment (settings : PolicySettings)
    (spec : RateLimitPolicySpec.t) : bool :=
  bool_decide (environment settings ∈ ["staging"%string; "prod"%string])
  && String.eqb (RateLimitPolicySpec.name spec) (RateLimitPolicySpec.name PRE_AUTH_POLICY).

Definition effective_policy (settings : PolicySettings) (spec : RateLimitPolicySpec.t)
    : result RateLimitPolicy.t :=
  policy ← _apply_override spec (mode settings) (policies settings !! RateLimitPolicySpec.name spec);
  Ok (if _should_force_fail_closed_in_environment settings spec
      then _force_policy_fail_closed policy else policy).

(** The loop of [build_effective_policy_registry] *)
Fixpoint effective_from (settings : PolicySettings) (registry : gmap string RateLimitPolicy.t)
    (specs : list RateLimitPolicySpec.t) : result (gmap string RateLimitPolicy.t) :=
  match specs with
  | [] => Ok registry
  | spec :: rest =>
      policy ← effective_policy settings spec;
      effective_from settings (<[RateLimitPolicySpec.name spec := policy]> registry) rest
  end.

Definition build_effective_policy_registry (settings : PolicySettings)
    : result (gmap string RateLimitPolicy.t) :=
  registry ← _POLICY_SPEC_REGISTRY;
  match unknown_names registry (policies settings) with
  | [] => effective_from settings ∅ _REGISTERED_POLICY_SPECS
  | names => Err (ValueError
      ("Unknown rate limit policy override name(s): " ++ Text.join ", " names)%string)
  end.

End Registry.
End PolicyRegistry.
