(* ===== verification/RateLimits.v ===== *)
(** Rate limiting: the grouped fixed-window counters in Redis
    ([core/rate_limit/grouped_atomic.py]), the checks of one request
    ([core/rate_limit/dependencies.py]) with the metrics they record
    ([core/observability/rate_limit_metrics.py]), and the buckets the business operations
    consult ([core/rate_limit/business.py], [invites/api/rate_limits.py],
    [privacy/rate_limits.py]). *)
From S2P Require Import Prelude Errors Session Schema Tables AuditLog Users Invites Requests.
From S2P Require Import RateLimitPolicies.

(** ** What the code calls

    The Redis commands the script and its fallback use. The keys of the grouped checks
    are counters: nothing but [INCR] writes them, so [GET] reads an integer. *)
Class Redis := {
  redis_t : Type;
  GET : string -> redis_t -> option Z;
  PTTL : string -> redis_t -> Z;
  INCR : string -> redis_t -> Z * redis_t;
  PEXPIRE : string -> Z -> redis_t -> redis_t;
}.

(** What Redis documents of them. A key holds an integer and, unless it never expires, the
    milliseconds it has left; [elapse d] is [d] milliseconds going by. [INCR] creates a
    missing key and keeps the expiry of another, within 64-bit integers; [PEXPIRE] of a
    positive time replaces the expiry of a key that exists. *)
Class RedisLaws `{Redis} := {
  counter_at : string -> redis_t -> option (Z * option Z);
  elapse : Z -> redis_t -> redis_t;
  get_reply k r : GET k r = fst <$> counter_at k r;
  pttl_reply k r :
    PTTL k r = match counter_at k r with
               | None => -2
               | Some (_, None) => -1
               | Some (_, Some t) => t
               end;
  ttl_nonneg k r n t : counter_at k r = Some (n, Some t) -> 0 <= t;
  incr_reply k r :
    default 0 (GET k r) < 2 ^ 63 - 1 -> (INCR k r).1 = default 0 (GET k r) + 1;
  incr_counter k r k' :
    default 0 (GET k r) < 2 ^ 63 - 1 ->
    counter_at k' (INCR k r).2 =
      if decide (k' = k)
      then Some (default 0 (GET k r) + 1, '(_, t) ← counter_at k r; t)
      else counter_at k' r;
  pexpire_counter k ms r k' :
    0 < ms ->
    counter_at k' (PEXPIRE k ms r) =
      if decide (k' = k) then (fun c => (c.1, Some ms)) <$> counter_at k r else counter_at k' r;
  elapse_counter d r k :
    0 <= d ->
    counter_at k (elapse d r) =
      match counter_at k r with
      | Some (n, Some t) => if t <=? d then None else Some (n, Some (t - d))
      | c => c
      end;
}.

(** The strategies of the [limits] package. [test] is absent from some implementations;
    [get_window_stats] gives the time the window resets. *)
Class Limiter `{RateLimitItems} := {
  limiter_t : Type;
  hit : RateLimitItem -> string -> string -> limiter_t -> bool * limiter_t;
  test : option (RateLimitItem -> string -> string -> limiter_t -> bool);
  get_window_stats : RateLimitItem -> string -> string -> limiter_t -> datetime;
}.

(** ** Exceptions *)

(** The classes [dependencies.py] tests exceptions against. *)
Inductive ExceptionClass :=
  | RedisConnectionError | RedisTimeoutError | RedisError | TimeoutError | RuntimeError
  | AttributeError.

#[global] Instance ExceptionClass_eq_dec : EqDecision ExceptionClass.
Proof. solve_decision. Defined.

(** An exception of a library: [exc.__class__.__name__], [str(exc)], and the classes
    above it is an instance of. *)
Module LibraryError.
Record t := mk {
  class_name : string;
  text : string;
  instance_of : list ExceptionClass;
}.
End LibraryError.

(** What a check raises: an application error with its headers, or another exception. *)
Inductive raised :=
  | HttpError (c : AppErrorClass) (detail : string) (headers : list (string * string))
  | OtherException (e : LibraryError.t).

Definition RateLimiterUnavailableError (detail : string) : raised :=
  HttpError RateLimiterUnavailable detail [].
Definition runtime_error (text : string) : raised :=
  OtherException (LibraryError.mk "RuntimeError" text [RuntimeError]).
Definition value_error (text : string) : raised :=
  OtherException (LibraryError.mk "ValueError" text []).
Definition index_error : raised :=
  OtherException (LibraryError.mk "IndexError" "list index out of range" []).

(** [isinstance(exc, classes)] *)
Definition isinstance (exc : raised) (classes : list ExceptionClass) : bool :=
  match exc with
  | HttpError _ _ _ => false
  | OtherException e =>
      existsb (fun c => bool_decide (c ∈ classes)) (LibraryError.instance_of e)
  end.

(** [exc.__class__.__name__] and [str(exc)] *)
Definition error_type (exc : raised) : string :=
  match exc with
  | HttpError RateLimiterUnavailable _ _ => "RateLimiterUnavailableError"
  | HttpError _ _ _ => "AppError"
  | OtherException e => LibraryError.class_name e
  end.
Definition error_text (exc : raised) : string :=
  match exc with HttpError _ detail _ => detail | OtherException e => LibraryError.text e end.

(** ** The state of a check *)

(** [core/observability/rate_limit_metrics.py]: the measurements taken, each with its
    attributes, and the recordings that failed. *)
Module Metrics.
Record t := mk {
  rate_limit_requests_total : list (string * string * string);
  rate_limit_check_duration : list (string * string * string);
  rate_limit_backend_errors_total : list (string * string * string);
  recording_failures_total : list string;
}.
End Metrics.

Section Limiting.
Context {Items : RateLimitItems} {RedisServer : Redis} {Strategy : Limiter}.

(** What happens at one remote command: what the other clients did before it, and whether
    it fails - having run on the server or not. Running out of time is a failure with
    [TimeoutError]. *)
Record Turn := mkTurn {
  other_clients : redis_t -> redis_t;
  other_workers : limiter_t -> limiter_t;
  failure : option (LibraryError.t * bool);
}.

Record Limits := mkLimits {
  redis : redis_t;
  limiter : limiter_t;
  turns : list Turn;
  drawn : nat;
  metrics : Metrics.t;
}.

Inductive outcome (A : Type) :=
  | Returned (a : A)
  | Raised (e : raised).
#[global] Arguments Returned {A} a.
#[global] Arguments Raised {A} e.

(** A coroutine of the rate limiter. *)
Definition RL (A : Type) : Type := Limits -> outcome A * Limits.

#[export] Instance RL_ret : MRet RL := fun A a s => (Returned a, s).
#[export] Instance RL_bind : MBind RL := fun A B f m s =>
  match m s with
  | (Returned a, s') => f a s'
  | (Raised e, s') => (Raised e, s')
  end.

Definition rl_raise {A} (e : raised) : RL A := fun s => (Raised e, s).
Definition of_outcome {A} (o : outcome A) : RL A := fun s => (o, s).

(** [try: m / except classes as exc: h(exc)] *)
Definition rl_except {A} (classes : list ExceptionClass) (m : RL A) (h : raised -> RL A) : RL A :=
  fun s => match m s with
           | (Raised e, s') => if isinstance e classes then h e s' else (Raised e, s')
           | r => r
           end.

(** [try: m / except Exception as exc: h(exc) / else: k] *)
Definition rl_try_else {A B} (m : RL A) (h : raised -> RL B) (k : A -> RL B) : RL B :=
  fun s => match m s with
           | (Raised e, s') => h e s'
           | (Returned a, s') => k a s'
           end.

Definition from_result {A} (r : result A) : RL A :=
  match r with
  | Ok a => mret a
  | Err (ValueError msg) => rl_raise (value_error msg)
  | Err _ => rl_raise (runtime_error "")
  end.

(** [for x in l: body(x)] *)
Fixpoint rl_each {A} (l : list A) (body : A -> RL unit) : RL unit :=
  match l with
  | [] => mret tt
  | x :: rest => body x ;; rl_each rest body
  end.

Definition set_redis (r : redis_t) (s : Limits) : Limits :=
  mkLimits r (limiter s) (turns s) (drawn s) (metrics s).
Definition set_limiter (l : limiter_t) (s : Limits) : Limits :=
  mkLimits (redis s) l (turns s) (drawn s) (metrics s).
Definition set_metrics (m : Metrics.t) (s : Limits) : Limits :=
  mkLimits (redis s) (limiter s) (turns s) (drawn s) m.

(** The turn of the next command, after the other clients' work; with no turn left the
    command runs alone and succeeds. *)
Definition next_turn (s : Limits) : option (LibraryError.t * bool) * Limits :=
  match turns s with
  | [] => (None, s)
  | t :: rest =>
      (failure t, mkLimits (other_clients t (redis s)) (other_workers t (limiter s)) rest
                    (drawn s) (metrics s))
  end.

(** A command sent to Redis, or a call of the limiter. *)
Definition command {A} (run : Limits -> A * Limits) : RL A := fun s =>
  let '(f, s) := next_turn s in
  match f with
  | None => let '(a, s') := run s in (Returned a, s')
  | Some (e, executed) =>
      (Raised (OtherException e), if (executed : bool) then (run s).2 else s)
  end.

Definition redis_command {A} (run : redis_t -> A * redis_t) : RL A :=
  command (fun s => let '(a, r) := run (redis s) in (a, set_redis r s)).

Definition limiter_call {A} (run : limiter_t -> A * limiter_t) : RL A :=
  command (fun s => let '(a, l) := run (limiter s) in (a, set_limiter l s)).

(** [time.time()] *)
Definition time_now `{Env} : RL datetime := fun s =>
  (Returned (clock (drawn s)),
   mkLimits (redis s) (limiter s) (turns s) (S (drawn s)) (metrics s)).

Definition update_metrics (f : Metrics.t -> Metrics.t) : RL unit := fun s =>
  (Returned tt, set_metrics (f (metrics s)) s).

(** ** [core/observability/rate_limit_metrics.py] *)

Definition ALLOWED_RATE_LIMIT_RESULTS : list string :=
  ["allowed"; "blocked"; "backend_error"; "fail_open"; "runtime_unavailable"]%string.

(** [_validate_result] raises a [ValueError] its callers turn into a recording failure. *)
Definition _validate_result (result : string) : bool :=
  bool_decide (result ∈ ALLOWED_RATE_LIMIT_RESULTS).

Definition recording_failure (metric_event : string) (m : Metrics.t) : Metrics.t :=
  Metrics.mk (Metrics.rate_limit_requests_total m) (Metrics.rate_limit_check_duration m)
    (Metrics.rate_limit_backend_errors_total m)
    (metric_event :: Metrics.recording_failures_total m).

Definition record_rate_limit_decision (policy_name result identifier_kind : string) : RL unit :=
  update_metrics (fun m =>
    if negb (_validate_result result) then recording_failure "rate_limit_decision" m
    else Metrics.mk ((policy_name, result, identifier_kind) :: Metrics.rate_limit_requests_total m)
           (Metrics.rate_limit_check_duration m) (Metrics.rate_limit_backend_errors_total m)
           (Metrics.recording_failures_total m)).

Definition record_rate_limit_check_duration (policy_name result identifier_kind : string)
    : RL unit :=
  update_metrics (fun m =>
    if negb (_validate_result result) then recording_failure "rate_limit_check_duration" m
    else Metrics.mk (Metrics.rate_limit_requests_total m)
           ((policy_name, result, identifier_kind) :: Metrics.rate_limit_check_duration m)
           (Metrics.rate_limit_backend_errors_total m) (Metrics.recording_failures_total m)).

Definition record_rate_limit_backend_error (policy_name identifier_kind error_type : string)
    : RL unit :=
  update_metrics (fun m =>
    Metrics.mk (Metrics.rate_limit_requests_total m) (Metrics.rate_limit_check_duration m)
      ((policy_name, identifier_kind, error_type) :: Metrics.rate_limit_backend_errors_total m)
      (Metrics.recording_failures_total m)).

End Limiting.
#[global] Arguments Turn {_ _ _}.
#[global] Arguments Limits {_ _ _}.

(** ** [core/rate_limit/grouped_atomic.py] *)
Module GroupedAtomic.

Module GroupedBucketSpec.
Record t := mk { key : string; limit : Z; expiry_seconds : Z }.
End GroupedBucketSpec.

Module GroupedConsumeResult.
Record t := mk {
  allowed : bool;
  blocked_index : option nat;
  retry_after_seconds : option Z;
}.
End GroupedConsumeResult.

Definition GROUPED_REDIS_HASH_TAG : string := "{rl-grouped-v1}".

Definition build_grouped_redis_key (namespace bucket_key : string) : string :=
  (GROUPED_REDIS_HASH_TAG ++ ":" ++ namespace ++ ":" ++ bucket_key)%string.

(** [s.replace(c, "")] *)
Fixpoint without (c : ascii) (s : string) : string :=
  match s with
  | EmptyString => EmptyString
  | String d r => if Ascii.eqb d c then without c r else String d (without c r)
  end.

(** [s.lstrip("-")] *)
Fixpoint strip_dashes (s : string) : string :=
  match s with
  | String d r => if Ascii.eqb d "-" then strip_dashes r else s
  | EmptyString => s
  end.

Definition _CLUSTER_FALLBACK_PREFIXES : list string :=
  ["moved"; "ask"; "tryagain"; "clusterdown"]%string.

Definition is_redis_cluster_fallback_error (exc : raised) : bool :=
  let error_name := without "-" (without "_" (Text.lower (error_type exc))) in
  let error_text := Text.lower (Text.strip (error_text exc)) in
  let compact_text := without "-" (without "_" error_text) in
  let first_token := strip_dashes (hd ""%string (Text.split_words error_text)) in
  Text.contains "crossslot" error_name
  || Text.contains "crossslot" compact_text
  || Text.contains "cross slot" error_text
  || Text.contains "same slot" error_text
  || Text.contains "same key slot" error_text
  || bool_decide (first_token ∈ _CLUSTER_FALLBACK_PREFIXES)
  || existsb (fun marker => Text.contains marker error_name)
       ["moved"; "askerror"; "tryagain"; "clusterdown"]%string.

Section Grouped.
Context {Items : RateLimitItems} {RedisServer : Redis} {Strategy : Limiter}.

(** *** The script

    [KEYS] and [ARGV] are Lua arrays, indexed from one. [ARGV[1]] is the number of keys,
    the limits follow, then the expiries in milliseconds. *)
Definition KEY (KEYS : list string) (i : nat) : string := nth (i - 1) KEYS ""%string.
Definition ARG (ARGV : list Z) (i : nat) : Z := nth (i - 1) ARGV 0.

(** The first loop: the reply at the first key that is at its limit. *)
Fixpoint find_blocked (KEYS : list string) (ARGV : list Z) (n : nat) (range : list nat)
    (r : redis_t) : option (Z * Z * Z) * redis_t :=
  match range with
  | [] => (None, r)
  | i :: rest =>
      let limit_value := ARG ARGV (1 + i) in
      let current := default 0 (GET (KEY KEYS i) r) in
      if limit_value <=? current then
        let ttl_ms := PTTL (KEY KEYS i) r in
        if ttl_ms <? 0 then
          let ttl_ms := ARG ARGV (1 + n + i) in
          (Some (0, Z.of_nat i, ttl_ms), PEXPIRE (KEY KEYS i) ttl_ms r)
        else (Some (0, Z.of_nat i, ttl_ms), r)
      else find_blocked KEYS ARGV n rest r
  end.

(** The second loop: every key is incremented, and gets an expiry unless it has one. *)
Fixpoint increment_all (KEYS : list string) (ARGV : list Z) (n : nat) (range : list nat)
    (r : redis_t) : redis_t :=
  match range with
  | [] => r
  | i :: rest =>
      let '(next_value, r) := INCR (KEY KEYS i) r in
      let ttl_ms := PTTL (KEY KEYS i) r in
      let r := if (next_value =? 1) || (ttl_ms <? 0)
               then PEXPIRE (KEY KEYS i) (ARG ARGV (1 + n + i)) r else r in
      increment_all KEYS ARGV n rest r
  end.

Definition GROUPED_FIXED_WINDOW_CONSUME_LUA (KEYS : list string) (ARGV : list Z) (r : redis_t)
    : (Z * Z * Z) * redis_t :=
  let n := Z.to_nat (ARG ARGV 1) in
  match find_blocked KEYS ARGV n (seq 1 n) r with
  | (Some reply, r) => (reply, r)
  | (None, r) => ((1, 0, 0), increment_all KEYS ARGV n (seq 1 n) r)
  end.

(** [[len(buckets)] + limits + expiries] *)
Definition script_argv (buckets : list GroupedBucketSpec.t) : list Z :=
  Z.of_nat (length buckets)
  :: (GroupedBucketSpec.limit <$> buckets)
  ++ ((fun b => GroupedBucketSpec.expiry_seconds b * 1000) <$> buckets).

(** [max(1, (ttl_ms + 999) // 1000)] *)
Definition retry_after (ttl_ms : Z) : Z := Z.max 1 ((ttl_ms + 999) / 1000).

Definition consumed : GroupedConsumeResult.t := GroupedConsumeResult.mk true None None.

(** The reply of the script, read back. *)
Definition read_reply (buckets : list GroupedBucketSpec.t) (raw_result : Z * Z * Z)
    : outcome GroupedConsumeResult.t :=
  let '(allowed, blocked_position, ttl_ms) := raw_result in
  if allowed =? 1 then Returned consumed else
  let blocked := GroupedConsumeResult.mk false (Some (Z.to_nat (blocked_position - 1))) in
  if ttl_ms <? 1 then
    match buckets !! Z.to_nat (blocked_position - 1) with
    | None => Raised index_error
    | Some bucket =>
        Returned (blocked (Some (retry_after (GroupedBucketSpec.expiry_seconds bucket * 1000))))
    end
  else Returned (blocked (Some (retry_after ttl_ms))).

Definition atomic_consume_grouped_buckets (buckets : list GroupedBucketSpec.t)
    : RL GroupedConsumeResult.t :=
  raw_result ← redis_command (GROUPED_FIXED_WINDOW_CONSUME_LUA
                 (GroupedBucketSpec.key <$> buckets) (script_argv buckets));
  of_outcome (read_reply buckets raw_result).

(** *** The fallback: the same keys, one command at a time *)

Definition get (k : string) : RL (option Z) := redis_command (fun r => (GET k r, r)).
Definition pttl (k : string) : RL Z := redis_command (fun r => (PTTL k r, r)).
Definition incr (k : string) : RL Z := redis_command (INCR k).
Definition pexpire (k : string) (ms : Z) : RL unit :=
  redis_command (fun r => (tt, PEXPIRE k ms r)).

Fixpoint first_blocked (index : nat) (buckets : list GroupedBucketSpec.t)
    : RL (option GroupedConsumeResult.t) :=
  match buckets with
  | [] => mret None
  | bucket :: rest =>
      let key := GroupedBucketSpec.key bucket in
      value ← get key;
      let current := default 0 value in
      if GroupedBucketSpec.limit bucket <=? current then
        ttl_ms ← pttl key;
        ttl_ms ← (if ttl_ms <? 1 then
                    let ttl_ms := GroupedBucketSpec.expiry_seconds bucket * 1000 in
                    pexpire key ttl_ms ;; mret ttl_ms
                  else mret ttl_ms);
        mret (Some (GroupedConsumeResult.mk false (Some index) (Some (retry_after ttl_ms))))
      else first_blocked (S index) rest
  end.

Definition increment_bucket (bucket : GroupedBucketSpec.t) : RL unit :=
  let key := GroupedBucketSpec.key bucket in
  next_value ← incr key;
  ttl_ms ← pttl key;
  if (next_value =? 1) || (ttl_ms <? 1)
  then pexpire key (GroupedBucketSpec.expiry_seconds bucket * 1000)
  else mret tt.

Definition compatibility_consume_grouped_buckets_with_same_keys
    (buckets : list GroupedBucketSpec.t) : RL GroupedConsumeResult.t :=
  blocked ← first_blocked 0 buckets;
  match blocked with
  | Some result => mret result
  | None => rl_each buckets increment_bucket ;; mret consumed
  end.

End Grouped.
End GroupedAtomic.

(** The settings the checks read. *)
Module RateLimitingSettings.
Record t := mk {
  enabled : bool;
  enforced_by_edge : bool;
  pre_auth_enabled : bool;
  redis_prefix : string;
  trust_proxy_headers : bool;
  trusted_proxy_cidrs : list string;
  identifier_secret : option string;
  edge_assertion_header_name : option string;
  edge_assertion_secret : option string;
}.
End RateLimitingSettings.

(** [core/rate_limit/lifecycle.py], [RateLimiterRuntime]: which of the limiter and the
    client of the grouped checks the application has. *)
Module RateLimiterRuntime.
Record t := mk {
  enabled : bool;
  limiter : bool;
  grouped_redis_client : bool;
}.
End RateLimiterRuntime.

(** [request.app.state] *)
Module AppState.
Record t `{RateLimitItems} := mk {
  settings : RateLimitingSettings.t;
  rate_limiter_runtime : option RateLimiterRuntime.t;
  rate_limit_policy_registry : option (gmap string RateLimitPolicy.t);
}.
#[global] Arguments mk {_} settings rate_limiter_runtime rate_limit_policy_registry.
#[global] Arguments settings {_} _.
#[global] Arguments rate_limiter_runtime {_} _.
#[global] Arguments rate_limit_policy_registry {_} _.
End AppState.

(** ** [core/rate_limit/dependencies.py] *)
Module Checks.
Import GroupedAtomic Identifiers.
Section Checks.
Context {Items : RateLimitItems} {RedisServer : Redis} {Strategy : Limiter}.
Context `{Env} `{Network} `{IpNetworks}.

(** A request and the application it came to. *)
Record Req := mkReq {
  app : AppState.t;
  request : Request.t;
}.

Definition settings_of (req : Req) : RateLimitingSettings.t := AppState.settings (app req).

(** A policy argument: the effective policy itself, or a declared one to look up. *)
Definition policy_arg : Type := RateLimitPolicy.t + RateLimitPolicySpec.t.

Definition _RATE_LIMIT_BACKEND_ERRORS : list ExceptionClass :=
  [RedisConnectionError; RedisTimeoutError; RedisError; TimeoutError; RuntimeError].
Definition _RATE_LIMIT_STATS_FALLBACK_ERRORS : list ExceptionClass :=
  _RATE_LIMIT_BACKEND_ERRORS ++ [AttributeError].

Record _PreparedRateLimitCheck := mkPrepared {
  policy : RateLimitPolicy.t;
  identifier : RateLimitIdentifier.t;
  namespace : string;
}.

(** [max(1, math.ceil(reset_time - time.time()))] *)
Definition _build_retry_after (reset_time : datetime) : RL string :=
  now ← time_now;
  mret (pretty (Z.max 1 (- ((now - reset_time) / seconds 1)))).

Definition _record_rate_limit_outcome (policy_name result identifier_kind : string) : RL unit :=
  record_rate_limit_decision policy_name result identifier_kind ;;
  record_rate_limit_check_duration policy_name result identifier_kind.

Definition _rate_limit_namespace (redis_prefix : string) (policy : RateLimitPolicy.t)
    (identifier : RateLimitIdentifier.t) : string :=
  (redis_prefix ++ ":" ++ RateLimitPolicy.name policy ++ ":"
   ++ RateLimitIdentifier.kind identifier)%string.

Definition _record_runtime_unavailable (policy_name : string) : RL unit :=
  record_rate_limit_backend_error policy_name "unknown" "RuntimeUnavailable" ;;
  _record_rate_limit_outcome policy_name "runtime_unavailable" "unknown".

Definition _raise_runtime_unavailable {A} (policy_name : string) : RL A :=
  _record_runtime_unavailable policy_name ;;
  rl_raise (RateLimiterUnavailableError "Rate limiter is unavailable.").

Definition _retry_after_for_identifier (req : Req) (policy : RateLimitPolicy.t)
    (namespace : string) (identifier : RateLimitIdentifier.t) : RL string :=
  rl_except _RATE_LIMIT_STATS_FALLBACK_ERRORS
    (match AppState.rate_limiter_runtime (app req) with
     | None => rl_raise (OtherException (LibraryError.mk "AttributeError"
                 "'NoneType' object has no attribute 'limiter'" [AttributeError]))
     | Some _ =>
         reset_time ← limiter_call (fun l =>
           (get_window_stats (RateLimitPolicy.item policy) namespace
              (RateLimitIdentifier.bucket_key identifier) l, l));
         _build_retry_after reset_time
     end)
    (fun _ => mret (pretty (get_expiry (RateLimitPolicy.item policy)))).

(** [TooManyRequestsError(detail="Too many requests.", headers=...)] *)
Definition TooManyRequestsError (retry_after : string) : raised :=
  HttpError TooManyRequests "Too many requests."
    [("Retry-After", retry_after); ("Access-Control-Expose-Headers", "Retry-After")]%string.

Definition _raise_too_many_requests (req : Req) (policy : RateLimitPolicy.t)
    (namespace : string) (identifier : RateLimitIdentifier.t) : RL unit :=
  retry_after ← _retry_after_for_identifier req policy namespace identifier;
  rl_raise (TooManyRequestsError retry_after).

(** It returns only when the policy fails open. *)
Definition _handle_rate_limit_backend_error (policy : RateLimitPolicy.t)
    (identifier : RateLimitIdentifier.t) (exc : raised) : RL unit :=
  let name := RateLimitPolicy.name policy in
  let kind := RateLimitIdentifier.kind identifier in
  record_rate_limit_backend_error name kind (error_type exc) ;;
  if RateLimitPolicy.fail_open policy
  then _record_rate_limit_outcome name "fail_open" kind
  else _record_rate_limit_outcome name "backend_error" kind ;;
       rl_raise (RateLimiterUnavailableError "Rate limiter is temporarily unavailable.").

(** [runtime is None or runtime.limiter is None] *)
Definition no_limiter (req : Req) : bool :=
  match AppState.rate_limiter_runtime (app req) with
  | None => true
  | Some runtime => negb (RateLimiterRuntime.limiter runtime)
  end.

(** A call of the limiter that answers whether the request is allowed: what the caller does
    with the answer, or with a failure of the backend. *)
Definition _check_rate_limit_for_identifier (req : Req) (policy : RateLimitPolicy.t)
    (identifier : RateLimitIdentifier.t) : RL unit :=
  let name := RateLimitPolicy.name policy in
  let kind := RateLimitIdentifier.kind identifier in
  if no_limiter req then _raise_runtime_unavailable name else
  let namespace := _rate_limit_namespace (RateLimitingSettings.redis_prefix (settings_of req))
                     policy identifier in
  rl_try_else
    (limiter_call (hit (RateLimitPolicy.item policy) namespace
                     (RateLimitIdentifier.bucket_key identifier)))
    (fun exc =>
       if isinstance exc _RATE_LIMIT_BACKEND_ERRORS
       then _handle_rate_limit_backend_error policy identifier exc
       else rl_raise exc)
    (fun allowed =>
       if (allowed : bool) then _record_rate_limit_outcome name "allowed" kind
       else _record_rate_limit_outcome name "blocked" kind ;;
            _raise_too_many_requests req policy namespace identifier).

Definition _test_rate_limit_for_identifier (req : Req) (prepared : _PreparedRateLimitCheck)
    : RL unit :=
  let '(mkPrepared policy identifier namespace) := prepared in
  let name := RateLimitPolicy.name policy in
  let kind := RateLimitIdentifier.kind identifier in
  if no_limiter req then _raise_runtime_unavailable name else
  match test with
  | None => mret tt
  | Some test_method =>
      rl_try_else
        (limiter_call (fun l =>
           (test_method (RateLimitPolicy.item policy) namespace
              (RateLimitIdentifier.bucket_key identifier) l, l)))
        (fun exc =>
           if isinstance exc _RATE_LIMIT_BACKEND_ERRORS
           then _handle_rate_limit_backend_error policy identifier exc
           else rl_raise exc)
        (fun allowed =>
           if (allowed : bool) then _record_rate_limit_outcome name "preflight_allowed" kind
           else _record_rate_limit_outcome name "preflight_blocked" kind ;;
                _raise_too_many_requests req policy namespace identifier)
  end.

(** [core/rate_limit/registry.py] *)
Definition get_effective_rate_limit_policy (req : Req) (policy_name : string)
    : RL RateLimitPolicy.t :=
  match AppState.rate_limit_policy_registry (app req) with
  | None => rl_raise (runtime_error "Rate limit policy registry has not been initialised")
  | Some registry =>
      match registry !! policy_name with
      | Some policy => mret policy
      | None => rl_raise (value_error ("Unknown rate limit policy: " ++ policy_name)%string)
      end
  end.

Definition _effective_policy (req : Req) (policy : policy_arg) : RL RateLimitPolicy.t :=
  match policy with
  | inr spec => get_effective_rate_limit_policy req (RateLimitPolicySpec.name spec)
  | inl policy => mret policy
  end.

Definition _identifier_secret_or_error (req : Req) (policy_name : string) : RL string :=
  match RateLimitingSettings.identifier_secret (settings_of req) with
  | Some secret => mret secret
  | None =>
      record_rate_limit_backend_error policy_name "unknown" "IdentifierSecretUnavailable" ;;
      _record_rate_limit_outcome policy_name "runtime_unavailable" "unknown" ;;
      rl_raise (RateLimiterUnavailableError "Rate limiter is unavailable.")
  end.

Definition _prepare_bucket_rate_limit_check (req : Req) (bucket : RateLimitBucket.t)
    (policy : policy_arg) : RL _PreparedRateLimitCheck :=
  effective_policy ← _effective_policy req policy;
  identifier_secret ← _identifier_secret_or_error req (RateLimitPolicy.name effective_policy);
  let identifier := build_bucket_identifier bucket identifier_secret in
  mret (mkPrepared effective_policy identifier
    (_rate_limit_namespace (RateLimitingSettings.redis_prefix (settings_of req))
       effective_policy identifier)).

Definition check_rate_limit_for_bucket (req : Req) (bucket : RateLimitBucket.t)
    (policy_ : policy_arg) : RL unit :=
  if negb (RateLimitingSettings.enabled (settings_of req)) then mret tt else
  prepared ← _prepare_bucket_rate_limit_check req bucket policy_;
  _check_rate_limit_for_identifier req (policy prepared) (identifier prepared).

Definition _grouped_redis_client_from_runtime (runtime : option RateLimiterRuntime.t) : bool :=
  match runtime with
  | None => false
  | Some runtime => RateLimiterRuntime.grouped_redis_client runtime
  end.

(** [min(prepared_checks, key=lambda prepared: prepared.policy.fail_open)]: the first check
    that fails closed, or the first of all. *)
Fixpoint first_fail_closed (checks : list _PreparedRateLimitCheck)
    : option _PreparedRateLimitCheck :=
  match checks with
  | [] => None
  | c :: rest => if RateLimitPolicy.fail_open (policy c) then first_fail_closed rest else Some c
  end.

Definition _strictest_prepared_check (first : _PreparedRateLimitCheck)
    (rest : list _PreparedRateLimitCheck) : _PreparedRateLimitCheck :=
  default first (first_fail_closed (first :: rest)).

Definition _check_grouped_rate_limits_with_compatibility_fallback (req : Req)
    (prepared_checks : list _PreparedRateLimitCheck) : RL unit :=
  rl_each prepared_checks (_test_rate_limit_for_identifier req) ;;
  rl_each prepared_checks (fun prepared =>
    _check_rate_limit_for_identifier req (policy prepared) (identifier prepared)).

Definition _handle_grouped_redis_result (prepared_checks : list _PreparedRateLimitCheck)
    (grouped_result : GroupedConsumeResult.t) : RL unit :=
  if GroupedConsumeResult.allowed grouped_result then
    rl_each prepared_checks (fun prepared =>
      _record_rate_limit_outcome (RateLimitPolicy.name (policy prepared)) "allowed"
        (RateLimitIdentifier.kind (identifier prepared)))
  else
    match prepared_checks !! default 0%nat (GroupedConsumeResult.blocked_index grouped_result) with
    | None => rl_raise index_error
    | Some blocked =>
        _record_rate_limit_outcome (RateLimitPolicy.name (policy blocked)) "blocked"
          (RateLimitIdentifier.kind (identifier blocked)) ;;
        let seconds := default 0 (GroupedConsumeResult.retry_after_seconds grouped_result) in
        rl_raise (TooManyRequestsError (pretty (if seconds =? 0 then 1 else seconds)))
    end.

(** The bucket a prepared check consumes. *)
Definition bucket_spec (prepared : _PreparedRateLimitCheck) : GroupedBucketSpec.t :=
  GroupedBucketSpec.mk
    (build_grouped_redis_key (namespace prepared)
       (RateLimitIdentifier.bucket_key (identifier prepared)))
    (amount (RateLimitPolicy.item (policy prepared)))
    (get_expiry (RateLimitPolicy.item (policy prepared))).

(** [except Exception as exc] around the script. *)
Definition handle_script_error (strictest : _PreparedRateLimitCheck)
    (prepared_checks : list _PreparedRateLimitCheck) (exc : raised) : RL unit :=
  if is_redis_cluster_fallback_error exc then
    record_rate_limit_backend_error (RateLimitPolicy.name (policy strictest))
      (RateLimitIdentifier.kind (identifier strictest)) (error_type exc) ;;
    rl_try_else
      (compatibility_consume_grouped_buckets_with_same_keys (bucket_spec <$> prepared_checks))
      (fun fallback_exc =>
         if isinstance fallback_exc _RATE_LIMIT_BACKEND_ERRORS
         then _handle_rate_limit_backend_error (policy strictest) (identifier strictest)
                fallback_exc
         else rl_raise fallback_exc)
      (_handle_grouped_redis_result prepared_checks)
  else if isinstance exc _RATE_LIMIT_BACKEND_ERRORS
  then _handle_rate_limit_backend_error (policy strictest) (identifier strictest) exc
  else rl_raise exc.

(** [for policy, bucket in checks: _prepare_bucket_rate_limit_check(..)] *)
Fixpoint prepare_all (req : Req) (checks : list (policy_arg * RateLimitBucket.t))
    : RL (list _PreparedRateLimitCheck) :=
  match checks with
  | [] => mret []
  | (policy, bucket) :: rest =>
      prepared ← _prepare_bucket_rate_limit_check req bucket policy;
      others ← prepare_all req rest;
      mret (prepared :: others)
  end.

Definition check_rate_limits_for_buckets (req : Req)
    (checks : list (policy_arg * RateLimitBucket.t)) : RL unit :=
  if negb (RateLimitingSettings.enabled (settings_of req)) then mret tt else
  prepared_checks ← prepare_all req checks;
  match prepared_checks with
  | [] => mret tt
  | first :: rest =>
      if _grouped_redis_client_from_runtime (AppState.rate_limiter_runtime (app req)) then
        rl_try_else (atomic_consume_grouped_buckets (bucket_spec <$> prepared_checks))
          (handle_script_error (_strictest_prepared_check first rest) prepared_checks)
          (_handle_grouped_redis_result prepared_checks)
      else _check_grouped_rate_limits_with_compatibility_fallback req prepared_checks
  end.

(** The identifier of the caller, or of the client's address. *)
Definition identifier_of (req : Req) (principal : option identity_t) (secret : string)
    : RateLimitIdentifier.t :=
  build_identifier principal (request req)
    (RateLimitingSettings.trust_proxy_headers (settings_of req)) secret
    (RateLimitingSettings.trusted_proxy_cidrs (settings_of req)).

Definition check_pre_auth_rate_limit (req : Req) : RL unit :=
  if negb (RateLimitingSettings.enabled (settings_of req))
     || negb (RateLimitingSettings.pre_auth_enabled (settings_of req)) then mret tt else
  effective_policy ← _effective_policy req (inr Policies.PRE_AUTH_POLICY);
  identifier_secret ← _identifier_secret_or_error req (RateLimitPolicy.name effective_policy);
  _check_rate_limit_for_identifier req effective_policy
    (identifier_of req None identifier_secret).

Definition check_rate_limit (req : Req) (principal : option identity_t) (policy : policy_arg)
    : RL unit :=
  if negb (RateLimitingSettings.enabled (settings_of req)) then mret tt else
  effective_policy ← _effective_policy req policy;
  identifier_secret ← _identifier_secret_or_error req (RateLimitPolicy.name effective_policy);
  _check_rate_limit_for_identifier req effective_policy
    (identifier_of req principal identifier_secret).

(** The dependency of an endpoint: it runs once the caller is authenticated. *)
Definition rate_limit_dependency (policy : policy_arg) (req : Req) (principal : identity_t)
    : RL unit :=
  check_rate_limit req (Some principal) policy.

End Checks.
End Checks.

(** ** [core/rate_limit/business.py] and [privacy/rate_limits.py] *)
Module BusinessLimits.
Import Identifiers Checks Policies.
Section Business.
Context {Items : RateLimitItems} {RedisServer : Redis} {Strategy : Limiter}.
Context `{Env} `{Network} `{IpNetworks} `{Crypto}.

Definition _normalised_email (value : string) : string := Text.lower (Text.strip value).

(** [s.rsplit("@", maxsplit=1)[1]]: what follows the last at sign, if there is one. *)
Fixpoint after_last_at (s : string) : option string :=
  match s with
  | EmptyString => None
  | String c r =>
      match after_last_at r with
      | Some domain => Some domain
      | None => if Ascii.eqb c "@" then Some r else None
      end
  end.

Definition _domain_from_email (normalised_email : string) : option string :=
  option_map Text.lower (after_last_at normalised_email).

Definition _token_fingerprint (token : string) : string := sha256_hexdigest (Text.strip token).

Definition check_invite_accept_token_rate_limit (req : Req) (token : string) : RL unit :=
  check_rate_limit_for_bucket req
    (RateLimitBucket.mk "invite_accept_token" ("token_sha256:" ++ _token_fingerprint token)%string)
    (inr INVITE_ACCEPT_TOKEN_POLICY).

Definition organisation_raw (organisation_id : UUID) : string :=
  ("organisation:" ++ Uuid.str organisation_id)%string.

Definition check_authorized_tenant_write_business_rate_limit (req : Req) (organisation_id : UUID)
    : RL unit :=
  check_rate_limit_for_bucket req
    (RateLimitBucket.mk "organisation" (organisation_raw organisation_id))
    (inr TENANT_WRITE_ORGANISATION_POLICY).

(** The four buckets of an invite: two of the organisation, the address, its domain. *)
Definition invite_create_checks (organisation_id : UUID) (email domain : string)
    : list (policy_arg * RateLimitBucket.t) :=
  [(inr INVITE_CREATE_ORGANISATION_POLICY,
    RateLimitBucket.mk "organisation" (organisation_raw organisation_id));
   (inr INVITE_CREATE_ORGANISATION_DAILY_POLICY,
    RateLimitBucket.mk "organisation" (organisation_raw organisation_id));
   (inr INVITE_CREATE_TARGET_EMAIL_POLICY,
    RateLimitBucket.mk "organisation_target_email"
      (organisation_raw organisation_id ++ ":email:" ++ email)%string);
   (inr INVITE_CREATE_TARGET_DOMAIN_POLICY,
    RateLimitBucket.mk "organisation_target_domain"
      (organisation_raw organisation_id ++ ":domain:" ++ domain)%string)].

Definition check_authorized_invite_create_business_rate_limits (req : Req)
    (organisation_id : UUID) (email : string) : RL unit :=
  let normalised_email := _normalised_email email in
  match _domain_from_email normalised_email with
  | None => rl_raise index_error
  | Some normalised_domain =>
      check_rate_limits_for_buckets req
        (invite_create_checks organisation_id normalised_email normalised_domain)
  end.

Definition invite_resend_checks (organisation_id invite_id : UUID)
    : list (policy_arg * RateLimitBucket.t) :=
  [(inr INVITE_RESEND_INVITE_POLICY,
    RateLimitBucket.mk "invite"
      (organisation_raw organisation_id ++ ":invite:" ++ Uuid.str invite_id)%string);
   (inr INVITE_RESEND_ORGANISATION_DAILY_POLICY,
    RateLimitBucket.mk "organisation" (organisation_raw organisation_id))].

Definition check_authorized_invite_resend_business_rate_limits (req : Req)
    (organisation_id invite_id : UUID) : RL unit :=
  check_rate_limits_for_buckets req (invite_resend_checks organisation_id invite_id).

(** [privacy/rate_limits.py] *)
Definition check_export_artifact_download_url_rate_limit (req : Req) (artifact_id : UUID)
    : RL unit :=
  check_rate_limit_for_bucket req
    (RateLimitBucket.mk "privacy_export_download_artifact"
       ("artifact:" ++ Uuid.str artifact_id)%string)
    (inr PRIVACY_EXPORT_DOWNLOAD_URL_POLICY).

End Business.
End BusinessLimits.

(** ** [invites/api/rate_limits.py]: the dependencies of the invite endpoints *)
Module InviteRateLimits.
Import Checks BusinessLimits Policies.
Section Dependencies.
Context {Items : RateLimitItems} {RedisServer : Redis} {Strategy : Limiter}.
Context `{Env} `{Network} `{IpNetworks} `{Crypto}.

Definition require_rate_limited_invite_create_context (req : Req) (principal : identity_t)
    : RL unit :=
  check_rate_limit req (Some principal) (inr INVITE_CREATE_POLICY).

(** The caller's quota first, then the token's. *)
Definition require_rate_limited_invite_accept_context (req : Req) (principal : identity_t)
    (token : string) : RL unit :=
  check_rate_limit req (Some principal) (inr INVITE_ACCEPT_POLICY) ;;
  check_invite_accept_token_rate_limit req token.

Definition require_rate_limited_invite_resend_context (req : Req) (principal : identity_t)
    : RL unit :=
  check_rate_limit req (Some principal) (inr INVITE_MUTATION_POLICY).

End Dependencies.
End InviteRateLimits.

(** ** The limiter behind a handler

    A handler is given a check as a callback that returns or raises; it cannot see the
    limiter's state, which the check of one request starts from. *)
Section Consult.
Context {Items : RateLimitItems} {RedisServer : Redis} {Strategy : Limiter}.

Definition to_exn (e : raised) : exn :=
  match e with
  | HttpError c detail _ => AppError c detail []
  | OtherException e => OtherError (LibraryError.class_name e)
  end.

Definition consult (check : RL unit) (s : Limits) : nat -> result unit := fun _ =>
  match check s with
  | (Returned _, _) => Ok tt
  | (Raised e, _) => Err (to_exn e)
  end.

End Consult.
