(* ===== verification/RateLimitIngress.v ===== *)
(** The edges of rate limiting: the ingress middleware that runs before authentication
    ([core/rate_limit/middleware.py]) and the limiter's start and stop with the application
    ([core/rate_limit/lifecycle.py]). *)
From S2P Require Import Prelude Errors Session Tables AuditLog Users Requests RateLimitPolicies.
From S2P Require Import RateLimits.

(** [s.removeprefix(p)] *)
Definition remove_prefix (p s : string) : string :=
  if Text.starts_with p s
  then String.substring (String.length p) (String.length s - String.length p) s else s.

(** [s.rstrip("/")] *)
Fixpoint strip_slashes (s : string) : string :=
  match s with
  | EmptyString => EmptyString
  | String c r =>
      let r' := strip_slashes r in
      if Ascii.eqb c "/" && Text.is_empty r' then EmptyString else String c r'
  end.

(** [s.upper()] *)
Fixpoint upper (s : string) : string :=
  match s with
  | EmptyString => EmptyString
  | String c r =>
      let n := nat_of_ascii c in
      String (if ((97 <=? n) && (n <=? 122))%nat then ascii_of_nat (n - 32) else c) (upper r)
  end.

(** [s.split(",")] *)
Fixpoint split_commas (s : string) : list string :=
  match s with
  | EmptyString => [""%string]
  | String c r =>
      if Ascii.eqb c "," then ""%string :: split_commas r
      else match split_commas r with
           | part :: parts => String c part :: parts
           | [] => [String c ""]
           end
  end.

(** [key, separator, value = s.partition("=")], the separator there. *)
Fixpoint partition_equals (s : string) : option (string * string) :=
  match s with
  | EmptyString => None
  | String c r =>
      if Ascii.eqb c "=" then Some (""%string, r)
      else '(k, v) ← partition_equals r; Some (String c k, v)
  end.

Definition is_digit (c : ascii) : bool :=
  let n := nat_of_ascii c in ((48 <=? n) && (n <=? 57))%nat.

(** [int(s)] of a string of digits; Python refuses more than 4300 of them. *)
Fixpoint digits_value (s : string) (acc : Z) : Z :=
  match s with
  | EmptyString => acc
  | String c r => digits_value r (10 * acc + (Z.of_nat (nat_of_ascii c) - 48))
  end.

Definition int_of_digits (s : string) : option Z :=
  if (4300 <? String.length s)%nat then None else Some (digits_value s 0).

(** ** [core/rate_limit/middleware.py] *)
Module Ingress.
Import Identifiers Checks.

Definition _DEFAULT_EXCLUDED_PATH_SUFFIXES : list string := ["/health/live"; "/health/ready"]%string.
Definition _EDGE_ASSERTION_MAX_AGE_SECONDS : Z := 300.
Definition _EDGE_ASSERTION_MAX_FUTURE_SKEW_SECONDS : Z := 60.
Definition _EDGE_ASSERTION_SIGNATURE_VERSION : string := "v1".

Definition _HEX_DIGITS (c : ascii) : bool :=
  let n := nat_of_ascii c in
  (is_digit c || ((97 <=? n) && (n <=? 102)) || ((65 <=? n) && (n <=? 70)))%nat.

Record _EdgeAssertion := mkEdgeAssertion { timestamp : Z; signature : string }.

(** The ASGI scope of a connection: its type, and of a request the method, the path, the
    path and query as they were received, and the header the edge signs with. *)
Module Scope.
Record t := mk {
  type : string;
  method : string;
  path : string;
  raw_path : option string;
  query_string : string;
  header : string -> option string;
}.
End Scope.

(** [settings.rate_limiting.api_prefix] and the header's name are given to the middleware;
    [self.api_prefix = api_prefix.rstrip("/") or "/api/v1"]. *)
Definition init_api_prefix (api_prefix : string) : string :=
  let stripped := strip_slashes api_prefix in
  if Text.is_empty stripped then "/api/v1" else stripped.

Definition _is_excluded_api_path (scope : Scope.t) (api_prefix : string) : bool :=
  let path := Scope.path scope in
  if negb (Text.starts_with (api_prefix ++ "/") path) then false
  else bool_decide (strip_slashes (remove_prefix api_prefix path)
                    ∈ _DEFAULT_EXCLUDED_PATH_SUFFIXES).

Definition _should_apply_edge_assertion (scope : Scope.t) (api_prefix : string) : bool :=
  if String.eqb (upper (Scope.method scope)) "OPTIONS" then false else
  if negb (Text.starts_with (api_prefix ++ "/") (Scope.path scope)) then false else
  negb (_is_excluded_api_path scope api_prefix).

Definition _should_apply_pre_auth_rate_limit (scope : Scope.t) (api_prefix : string)
    (settings : RateLimitingSettings.t) : bool :=
  if negb (RateLimitingSettings.enabled settings)
     || negb (RateLimitingSettings.pre_auth_enabled settings) then false else
  if String.eqb (upper (Scope.method scope)) "OPTIONS" then false else
  if negb (Text.starts_with (api_prefix ++ "/") (Scope.path scope)) then false else
  negb (_is_excluded_api_path scope api_prefix).

(** [values[key] = value] for every part; a part that is not [key=value] refuses the
    header. *)
Fixpoint assertion_values (values : gmap string string) (parts : list string)
    : option (gmap string string) :=
  match parts with
  | [] => Some values
  | raw_part :: rest =>
      '(key, raw_value) ← partition_equals (Text.strip raw_part);
      if Text.is_empty key || Text.is_empty raw_value then None
      else assertion_values (<[key := raw_value]> values) rest
  end.

(** [Ok None] where the function returns [None]; it raises where [int] does. *)
Definition _parse_edge_assertion_header (value : string) : result (option _EdgeAssertion) :=
  match assertion_values ∅ (split_commas value) with
  | None => Ok None
  | Some values =>
      match values !! "t"%string, values !! _EDGE_ASSERTION_SIGNATURE_VERSION with
      | Some raw_timestamp, Some signature =>
          if Text.is_empty raw_timestamp || negb (Text.forallb_chars is_digit raw_timestamp)
          then Ok None else
          if negb (String.length signature =? 64)%nat
             || negb (Text.forallb_chars _HEX_DIGITS signature)
          then Ok None else
          match int_of_digits raw_timestamp with
          | None => Err (ValueError "Exceeds the limit (4300 digits) for integer string conversion")
          | Some timestamp => Ok (Some (mkEdgeAssertion timestamp (Text.lower signature)))
          end
      | _, _ => Ok None
      end
  end.

(** [now] is [int(time.time())]. *)
Definition _is_edge_assertion_timestamp_fresh (now timestamp : Z) : bool :=
  if timestamp <? now - _EDGE_ASSERTION_MAX_AGE_SECONDS then false
  else timestamp <=? now + _EDGE_ASSERTION_MAX_FUTURE_SKEW_SECONDS.

Definition _canonical_request_target (scope : Scope.t) : string :=
  let path := default (Scope.path scope) (Scope.raw_path scope) in
  if Text.is_empty (Scope.query_string scope) then path
  else (path ++ "?" ++ Scope.query_string scope)%string.

(** [f"{timestamp}.{method.upper()}.{target}"] *)
Definition edge_assertion_message (timestamp : Z) (method target : string) : string :=
  (pretty timestamp ++ "." ++ upper method ++ "." ++ target)%string.

Section Ingress.
Context {Items : RateLimitItems} {RedisServer : Redis} {Strategy : Limiter}.
Context `{Env} `{Network} `{IpNetworks}.

Definition _build_edge_assertion_signature (timestamp : Z) (method target secret : string)
    : string :=
  hmac_sha256_hexdigest secret (edge_assertion_message timestamp method target).

Definition _has_valid_edge_assertion (req : Req) (scope : Scope.t) : RL bool :=
  let settings := settings_of req in
  if negb (is_request_from_trusted_proxy (request req)
             (RateLimitingSettings.trusted_proxy_cidrs settings)) then mret false else
  match RateLimitingSettings.edge_assertion_header_name settings,
        RateLimitingSettings.edge_assertion_secret settings with
  | Some header_name, Some secret =>
      match Scope.header scope header_name with
      | None => mret false
      | Some provided_value =>
          parsed ← from_result (_parse_edge_assertion_header provided_value);
          match parsed with
          | None => mret false
          | Some assertion =>
              now ← time_now;
              if negb (_is_edge_assertion_timestamp_fresh (now / seconds 1) (timestamp assertion))
              then mret false else
              mret (String.eqb (signature assertion)
                      (_build_edge_assertion_signature (timestamp assertion)
                         (Scope.method scope) (_canonical_request_target scope) secret))
          end
      end
  | _, _ => mret false
  end.

(** What the middleware does with a connection: it hands it on, or answers with a problem. *)
Inductive Verdict :=
  | Forwarded
  | Refused (status : Z) (code : ErrorCode) (detail : string) (headers : list (string * string)).

(** [_send_app_error_response] *)
Definition app_error_response (c : AppErrorClass) (detail : string)
    (headers : list (string * string)) : Verdict :=
  Refused (status_code c) (error_code c) detail headers.

(** [except (TooManyRequestsError, RateLimiterUnavailableError)] *)
Definition pre_auth_verdict (req : Req) : RL Verdict :=
  rl_try_else (check_pre_auth_rate_limit req)
    (fun exc =>
       match exc with
       | HttpError (TooManyRequests as c) detail headers
       | HttpError (RateLimiterUnavailable as c) detail headers =>
           mret (app_error_response c detail headers)
       | _ => rl_raise exc
       end)
    (fun _ => mret Forwarded).

Definition call (req : Req) (scope : Scope.t) (api_prefix : string) : RL Verdict :=
  if negb (String.eqb (Scope.type scope) "http") then mret Forwarded else
  let settings := settings_of req in
  valid ← (if RateLimitingSettings.enforced_by_edge settings
              && _should_apply_edge_assertion scope api_prefix
           then _has_valid_edge_assertion req scope else mret true);
  if negb valid
  then mret (Refused 403 FORBIDDEN "Direct origin access is not allowed." []) else
  if _should_apply_pre_auth_rate_limit scope api_prefix settings
  then pre_auth_verdict req else mret Forwarded.

End Ingress.
End Ingress.

(** ** [core/rate_limit/lifecycle.py] *)
Module Lifecycle.
Import Checks.

Definition _build_async_redis_uri (redis_url : string) : string :=
  if Text.starts_with "async+" redis_url then redis_url else ("async+" ++ redis_url)%string.

Definition _strip_limits_async_prefix (redis_url : string) : string :=
  remove_prefix "async+" redis_url.

Definition _is_grouped_redis_cluster_url (redis_url : string) : bool :=
  let normalised := _strip_limits_async_prefix redis_url in
  Text.starts_with "redis+cluster://" normalised || Text.starts_with "rediss+cluster://" normalised.

Definition _is_grouped_redis_direct_url (redis_url : string) : bool :=
  let normalised := _strip_limits_async_prefix redis_url in
  Text.starts_with "redis://" normalised || Text.starts_with "rediss://" normalised
  || Text.starts_with "unix://" normalised.

Definition _build_grouped_redis_url (redis_url : string) : string :=
  let normalised := _strip_limits_async_prefix redis_url in
  if Text.starts_with "redis+cluster://" normalised
  then ("redis://" ++ remove_prefix "redis+cluster://" normalised)%string else
  if Text.starts_with "rediss+cluster://" normalised
  then ("rediss://" ++ remove_prefix "rediss+cluster://" normalised)%string else normalised.

(** [redis.asyncio]: whether a client can be built from a URL; [None] when the cluster
    client is missing from the package. *)
Class RedisClients := {
  redis_from_url : string -> bool;
  redis_cluster_from_url : option (string -> bool);
}.

(** [limits.storage.storage_from_string], which raises on a URL it does not know. *)
Class RateLimitStorages := {
  storage_from_string : string -> result unit;
}.

Section Lifecycle.
Context {Items : RateLimitItems} `{RedisClients} `{RateLimitStorages}.

(** Whether there is a client for the grouped checks. *)
Definition _build_grouped_redis_client (redis_url : string) : bool :=
  let grouped_url := _build_grouped_redis_url redis_url in
  if _is_grouped_redis_cluster_url redis_url then
    match redis_cluster_from_url with
    | None => false
    | Some from_url => from_url grouped_url
    end
  else if negb (_is_grouped_redis_direct_url redis_url) then false
  else redis_from_url grouped_url.

(** The application's state once the limiter is started: [app.state]'s two attributes. *)
Definition init_rate_limiter (settings : RateLimitingSettings.t) (policy_settings : PolicySettings)
    (redis_url : string) : result AppState.t :=
  policy_registry ← PolicyRegistry.build_effective_policy_registry policy_settings;
  if negb (RateLimitingSettings.enabled settings) then
    Ok (AppState.mk settings (Some (RateLimiterRuntime.mk false false false)) (Some policy_registry))
  else if Text.is_empty redis_url then
    Err (OtherError "RuntimeError")
  else
    storage_from_string (_build_async_redis_uri redis_url) ;;
    Ok (AppState.mk settings
          (Some (RateLimiterRuntime.mk true true (_build_grouped_redis_client redis_url)))
          (Some policy_registry)).

End Lifecycle.
End Lifecycle.
