(* ===== verification/Settings.v ===== *)
(** Configuration: the groups of [core/config/settings.py], the validators of their fields,
    and the checks of a whole configuration for its environment
    ([Settings.validate_environment_security]).

    A value of a group is built by its [validate], from the values pydantic was given; the
    first error stands for the list pydantic reports. The types themselves are pydantic's. *)
From S2P Require Import Prelude Errors Session Schema Tables Requests RateLimitPolicies.
From S2P Require Import RateLimits RateLimitIngress.

(** What the validators call: [json.loads] ([None] where it raises), [str] of a JSON value
    that is not text, [str] of an IP network, and the constructor of [Fernet], which accepts
    the text of a key or raises. *)
Class SettingsLibraries `{IpNetworks} := {
  json_loads : string -> option json;
  py_str : json -> string;
  network_text : ip_network_t -> string;
  fernet_key_valid : string -> bool;
}.

(** ** Text, paths and addresses *)

(** [s.strip("/")] *)
Fixpoint lstrip_slashes (s : string) : string :=
  match s with
  | String c r => if Ascii.eqb c "/" then lstrip_slashes r else s
  | EmptyString => EmptyString
  end.

Definition strip_both_slashes (s : string) : string := strip_slashes (lstrip_slashes s).

(** [s.split(sep)] for a character *)
Fixpoint split_on (sep : ascii) (s : string) : list string :=
  match s with
  | EmptyString => [""%string]
  | String c r =>
      if Ascii.eqb c sep then ""%string :: split_on sep r
      else match split_on sep r with
           | part :: parts => String c part :: parts
           | [] => [String c ""]
           end
  end.

(** [PurePosixPath]: the parts of a path drop empty and [.] segments; an absolute path has a
    root before them. *)
Module PurePosixPath.
Definition is_absolute (s : string) : bool := Text.starts_with "/" s.

Definition segments (s : string) : list string :=
  List.filter (fun p => negb (Text.is_empty p || String.eqb p ".")) (split_on "/" s).

Definition parts (s : string) : list string :=
  if is_absolute s then "/"%string :: segments s else segments s.
End PurePosixPath.

(** [urllib.parse.urlsplit]: control characters and spaces before the address and tabs and
    line breaks in it are dropped; the scheme is what stands before the first colon when it
    begins with a letter and holds only letters, digits, [+], [-] and [.]. The refusal of
    malformed IPv6 hosts is left out. *)
Module Url.
Fixpoint drop_control (s : string) : string :=
  match s with
  | String c r => if (nat_of_ascii c <=? 32)%nat then drop_control r else s
  | EmptyString => EmptyString
  end.

Definition is_line_break (c : ascii) : bool :=
  let n := nat_of_ascii c in ((n =? 9) || (n =? 10) || (n =? 13))%nat.

Fixpoint without_breaks (s : string) : string :=
  match s with
  | String c r => if is_line_break c then without_breaks r else String c (without_breaks r)
  | EmptyString => EmptyString
  end.

Definition is_alpha (c : ascii) : bool :=
  let n := nat_of_ascii (Text.lower_char c) in ((97 <=? n) && (n <=? 122))%nat.

Definition is_scheme_char (c : ascii) : bool :=
  is_alpha c || is_digit c || Ascii.eqb c "+" || Ascii.eqb c "-" || Ascii.eqb c ".".

(** The text before the first [sep] and the text after it, if there is one. *)
Fixpoint cut (sep : ascii) (s : string) : option (string * string) :=
  match s with
  | EmptyString => None
  | String c r =>
      if Ascii.eqb c sep then Some (""%string, r)
      else '(before, after) ← cut sep r; Some (String c before, after)
  end.

Definition cleaned (s : string) : string := without_breaks (drop_control s).

(** The scheme and what is left. *)
Definition split_scheme (s : string) : string * string :=
  match cut ":" (cleaned s) with
  | Some (String c before as scheme, after) =>
      if is_alpha c && Text.forallb_chars is_scheme_char scheme
      then (Text.lower scheme, after) else (""%string, cleaned s)
  | _ => (""%string, cleaned s)
  end.

Definition scheme (s : string) : string := (split_scheme s).1.

(** The query: between the first [?] of what comes before a fragment, and the fragment. *)
Definition query (s : string) : string :=
  let rest := (split_scheme s).2 in
  let before_fragment := match cut "#" rest with Some (b, _) => b | None => rest end in
  match cut "?" before_fragment with Some (_, q) => q | None => "" end.

(** The text before the first of the characters [p] holds of. *)
Fixpoint until (p : ascii -> bool) (s : string) : string :=
  match s with
  | EmptyString => EmptyString
  | String c r => if p c then EmptyString else String c (until p r)
  end.

(** The network location: after [//], up to the path, the query or the fragment. *)
Definition netloc (s : string) : string :=
  match (split_scheme s).2 with
  | String "/" (String "/" rest) =>
      until (fun c => Ascii.eqb c "/" || Ascii.eqb c "?" || Ascii.eqb c "#") rest
  | _ => ""
  end.

(** [unquote_plus]: [+] is a space, [%XY] the character of that code. *)
Definition hex_value (c : ascii) : option nat :=
  let n := nat_of_ascii c in
  if is_digit c then Some (n - 48)%nat
  else if ((97 <=? n) && (n <=? 102))%nat then Some (n - 87)%nat
  else if ((65 <=? n) && (n <=? 70))%nat then Some (n - 55)%nat else None.

Fixpoint unquote_plus (s : string) : string :=
  match s with
  | EmptyString => EmptyString
  | String c r =>
      if Ascii.eqb c "+" then String " " (unquote_plus r)
      else if Ascii.eqb c "%" then
        match r with
        | String a (String b r') =>
            match hex_value a, hex_value b with
            | Some x, Some y => String (ascii_of_nat (16 * x + y)) (unquote_plus r')
            | _, _ => String c (unquote_plus r)
            end
        | _ => String c (unquote_plus r)
        end
      else String c (unquote_plus r)
  end.

(** [parse_qs]: the fields with a value, in order. *)
Definition query_fields (q : string) : list (string * string) :=
  omap (fun field =>
    '(name, value) ← cut "=" field;
    if Text.is_empty value then None else Some (unquote_plus name, unquote_plus value))
  (split_on "&" q).

(** The values of the dictionary's first key that satisfies [p]. *)
Definition first_values (p : string -> bool) (fields : list (string * string)) : list string :=
  match List.find (fun kv => p kv.1) fields with
  | None => []
  | Some (key, _) => omap (fun kv => if String.eqb kv.1 key then Some kv.2 else None) fields
  end.
End Url.

(** ** The functions of the module *)
Definition _SECURE_DATABASE_SSL_MODES : list string := ["require"; "verify-ca"; "verify-full"]%string.
Definition _HTTP_HEADER_NAME_CHARS : list ascii :=
  String.list_ascii_of_string
    "!#$%&'*+-.^_`|~0123456789ABCDEFGHIJKLMNOPQRSTUVWXYZabcdefghijklmnopqrstuvwxyz".
Definition _RESTRICTED_TRANSFER_MECHANISMS : list string :=
  ["adequacy"; "uk_idta"; "uk_addendum"; "bcr"; "derogation"]%string.
Definition _DEFAULT_LOCAL_EXPORT_SIGNING_SECRET : string := "dev-only-signing-secret".

(** What a list of texts is given as. *)
Inductive StringListInput :=
  | Absent
  | AsText (s : string)
  | AsItems (l : list string).

Definition _normalise_optional_string (value : option string) : option string :=
  match value with
  | None => None
  | Some s => let normalised := Text.strip s in if Text.is_empty normalised then None else Some normalised
  end.

Definition _normalise_optional_secret : option string -> option string :=
  _normalise_optional_string.

Definition _normalise_required_secret (value : option string) (env_name : string) : result string :=
  match _normalise_optional_secret value with
  | None => Err (ValueError (env_name ++ " must not be empty")%string)
  | Some s => Ok s
  end.

(** [value] as an optional text that is not empty, as [if not value] tests it. *)
Definition truthy (value : option string) : option string :=
  match value with Some s => if Text.is_empty s then None else Some s | None => None end.

Definition _url_scheme (value : option string) : string :=
  match truthy value with None => "" | Some s => Text.lower (Url.scheme s) end.

Definition _url_query_value (value : option string) (key : string) : option string :=
  match truthy value with
  | None => None
  | Some s =>
      match last (Url.first_values (fun k => String.eqb (Text.lower k) (Text.lower key))
                    (Url.query_fields (Url.query s))) with
      | None => None
      | Some v => let normalised := Text.lower (Text.strip v) in
                  if Text.is_empty normalised then None else Some normalised
      end
  end.

Definition _is_sqlite_database_url (value : option string) : bool :=
  Text.starts_with "sqlite" (_url_scheme value).

Section Lists.
Context `{SettingsLibraries}.

Definition item_text (j : json) : string := match j with JStr s => s | _ => py_str j end.

Definition _normalise_string_list (value : StringListInput) : list string :=
  let raw_items :=
    match value with
    | Absent => []
    | AsItems l => l
    | AsText s =>
        if Text.starts_with "[" (Text.strip s) then
          match json_loads (Text.strip s) with
          | None => split_on "," s
          | Some (JArr l) => item_text <$> l
          | Some _ => [s]
          end
        else split_on "," s
    end in
  List.filter (fun s => negb (Text.is_empty s)) (Text.strip <$> raw_items).

(** The loop of [_normalise_cidr_list] *)
Fixpoint cidr_list (items : list string) : result (list string) :=
  match items with
  | [] => Ok []
  | raw_item :: rest =>
      match ip_network raw_item with
      | None => Err (ValueError ("Invalid trusted proxy CIDR: " ++ raw_item)%string)
      | Some network => l ← cidr_list rest; Ok (network_text network :: l)
      end
  end.

Definition _normalise_cidr_list (value : StringListInput) : result (list string) :=
  cidr_list (_normalise_string_list value).
End Lists.

(** [Field(gt=..)], [Field(ge=..)], [Field(le=..)] *)
Definition bounded (ok : bool) (msg : string) : result unit :=
  if ok then Ok tt else Err (ValueError msg).

(** ** The groups *)
Module AppSettings.
Record t := mk { name : string; version : string; environment : string; debug : bool }.
Definition environments : list string := ["local"; "dev"; "test"; "staging"; "prod"]%string.
(** [environment: Literal[..]] *)
Definition validate (s : t) : result t :=
  bounded (bool_decide (environment s ∈ environments)) "environment";; Ok s.
End AppSettings.

Module ApiSettings.
Record t := mk {
  v1_prefix : string;
  docs_enabled : bool;
  openapi_url : string;
  docs_url : option string;
  redoc_url : option string;
  scalar_path : string;
}.
End ApiSettings.

Module RequestContextSettings.
Record t := mk { header_name : string; trust_incoming_request_id : bool }.
End RequestContextSettings.

Module VaultSettings.
Record t := mk {
  enabled : bool;
  addr : string;
  namespace : option string;
  token : option string;
  mount : string;
  path : string;
  auth_method : string;
  role_id : option string;
  secret_id : option string;
  fail_fast : bool;
  tls_required : bool;
  allow_plaintext_private_network : bool;
}.

Definition validate (s : t) : result t :=
  bounded (bool_decide (auth_method s ∈ ["token"; "approle"]%string)) "auth_method";;
  Ok (mk (enabled s) (addr s) (namespace s) (_normalise_optional_secret (token s)) (mount s)
        (path s) (auth_method s) (_normalise_optional_secret (role_id s))
        (_normalise_optional_secret (secret_id s)) (fail_fast s) (tls_required s)
        (allow_plaintext_private_network s)).
End VaultSettings.

Module DatabaseSettings.
Record t := mk {
  url : option string;
  echo : bool;
  pool_size : Z;
  max_overflow : Z;
  pool_timeout : Z;
  pool_recycle : Z;
  healthcheck_timeout : Z;
  ssl_mode : option string;
  allow_plaintext_private_network : bool;
  allow_sqlite_in_prod : bool;
}.

Definition ssl_modes : list string :=
  ["disable"; "allow"; "prefer"; "require"; "verify-ca"; "verify-full"]%string.

Definition normalise_ssl_mode (value : option string) : option string :=
  Text.lower <$> _normalise_optional_string value.

Definition validate (s : t) : result t :=
  let mode := normalise_ssl_mode (ssl_mode s) in
  bounded (match mode with Some m => bool_decide (m ∈ ssl_modes) | None => true end) "ssl_mode";;
  Ok (mk (url s) (echo s) (pool_size s) (max_overflow s) (pool_timeout s) (pool_recycle s)
        (healthcheck_timeout s) mode (allow_plaintext_private_network s) (allow_sqlite_in_prod s)).
End DatabaseSettings.

Module RedisSettings.
Record t := mk {
  url : option string;
  healthcheck_timeout : Z;
  tls_required : bool;
  allow_plaintext_private_network : bool;
}.
End RedisSettings.

Module SecuritySettings.
Record t := mk {
  outbox_token_encryption_key : option string;
  keycloak_client_secret : option string;
}.

Section Validators.
Context `{SettingsLibraries}.

Definition validate_outbox_token_encryption_key (value : option string)
    : result (option string) :=
  match _normalise_optional_secret value with
  | None => Ok None
  | Some normalised =>
      if fernet_key_valid normalised then Ok (Some normalised)
      else Err (ValueError "SECURITY__OUTBOX_TOKEN_ENCRYPTION_KEY must be a valid Fernet key")
  end.

Definition validate (s : t) : result t :=
  key ← validate_outbox_token_encryption_key (outbox_token_encryption_key s);
  Ok (mk key (_normalise_optional_secret (keycloak_client_secret s))).
End Validators.
End SecuritySettings.

Module AuthSettings.
(** [L] is how the list of authorized parties is given: any of its forms, or the list. *)
Record fields (L : Type) := mk {
  enabled : bool;
  issuer_url : option string;
  audience : option string;
  client_id : option string;
  allowed_authorized_parties : L;
  jwks_url : option string;
  algorithms : string;
  leeway_seconds : Z;
  discovery_cache_ttl_seconds : Z;
  jwks_cache_ttl_seconds : Z;
  require_kid : bool;
  require_iat : bool;
  max_token_lifetime_seconds : Z;
  metadata_validation : string;
  jwks_refresh_cooldown_seconds : Z;
  jwks_refresh_lock_timeout_seconds : Z;
}.
#[global] Arguments mk {L} enabled issuer_url audience client_id allowed_authorized_parties jwks_url
  algorithms leeway_seconds discovery_cache_ttl_seconds jwks_cache_ttl_seconds require_kid
  require_iat max_token_lifetime_seconds metadata_validation jwks_refresh_cooldown_seconds
  jwks_refresh_lock_timeout_seconds.
#[global] Arguments enabled {L} _.
#[global] Arguments issuer_url {L} _.
#[global] Arguments audience {L} _.
#[global] Arguments client_id {L} _.
#[global] Arguments allowed_authorized_parties {L} _.
#[global] Arguments jwks_url {L} _.
#[global] Arguments algorithms {L} _.
#[global] Arguments leeway_seconds {L} _.
#[global] Arguments discovery_cache_ttl_seconds {L} _.
#[global] Arguments jwks_cache_ttl_seconds {L} _.
#[global] Arguments require_kid {L} _.
#[global] Arguments require_iat {L} _.
#[global] Arguments max_token_lifetime_seconds {L} _.
#[global] Arguments metadata_validation {L} _.
#[global] Arguments jwks_refresh_cooldown_seconds {L} _.
#[global] Arguments jwks_refresh_lock_timeout_seconds {L} _.

(** The numbers of seconds that may have a fraction are kept in microseconds. *)
Definition t : Type := fields (list string).
Definition input : Type := fields StringListInput.

Definition metadata_validations : list string := ["disabled"; "warn"; "fail"]%string.

Definition validate_algorithms (value : string) : result string :=
  if String.eqb (upper (Text.strip value)) "RS256" then Ok "RS256"%string
  else Err (ValueError "AUTH__ALGORITHMS supports only RS256").

Definition normalise_url (value : option string) : option string :=
  match value with
  | None => None
  | Some s => let normalised := strip_slashes (Text.strip s) in
              if Text.is_empty normalised then None else Some normalised
  end.

Section Validators.
Context `{SettingsLibraries}.

Definition validate (s : input) : result t :=
  algorithms ← validate_algorithms (algorithms s);
  bounded ((0 <=? leeway_seconds s) && (leeway_seconds s <=? 120)) "leeway_seconds";;
  bounded (0 <? discovery_cache_ttl_seconds s) "discovery_cache_ttl_seconds";;
  bounded (0 <? jwks_cache_ttl_seconds s) "jwks_cache_ttl_seconds";;
  bounded (0 <? max_token_lifetime_seconds s) "max_token_lifetime_seconds";;
  bounded (bool_decide (metadata_validation s ∈ metadata_validations)) "metadata_validation";;
  bounded (0 <? jwks_refresh_cooldown_seconds s) "jwks_refresh_cooldown_seconds";;
  bounded (0 <? jwks_refresh_lock_timeout_seconds s) "jwks_refresh_lock_timeout_seconds";;
  Ok (mk (enabled s) (normalise_url (issuer_url s)) (_normalise_optional_string (audience s))
        (_normalise_optional_string (client_id s))
        (_normalise_string_list (allowed_authorized_parties s)) (normalise_url (jwks_url s))
        algorithms (leeway_seconds s) (discovery_cache_ttl_seconds s) (jwks_cache_ttl_seconds s)
        (require_kid s) (require_iat s) (max_token_lifetime_seconds s) (metadata_validation s)
        (jwks_refresh_cooldown_seconds s) (jwks_refresh_lock_timeout_seconds s)).
End Validators.
End AuthSettings.

Module RateLimitingSettings.
Record fields (L : Type) := mk {
  enabled : bool;
  enforced_by_edge : bool;
  redis_prefix : string;
  trust_proxy_headers : bool;
  trusted_proxy_cidrs : L;
  pre_auth_enabled : bool;
  edge_assertion_header_name : option string;
  edge_assertion_secret : option string;
  identifier_secret : option string;
  mode : RateLimitMode.t;
  policies : gmap string RateLimitPolicyOverride.t;
  storage_timeout_seconds : Z;
}.
#[global] Arguments mk {L} enabled enforced_by_edge redis_prefix trust_proxy_headers
  trusted_proxy_cidrs pre_auth_enabled edge_assertion_header_name edge_assertion_secret
  identifier_secret mode policies storage_timeout_seconds.
#[global] Arguments enabled {L} _.
#[global] Arguments enforced_by_edge {L} _.
#[global] Arguments redis_prefix {L} _.
#[global] Arguments trust_proxy_headers {L} _.
#[global] Arguments trusted_proxy_cidrs {L} _.
#[global] Arguments pre_auth_enabled {L} _.
#[global] Arguments edge_assertion_header_name {L} _.
#[global] Arguments edge_assertion_secret {L} _.
#[global] Arguments identifier_secret {L} _.
#[global] Arguments mode {L} _.
#[global] Arguments policies {L} _.
#[global] Arguments storage_timeout_seconds {L} _.

Definition t : Type := fields (list string).
Definition input : Type := fields StringListInput.

Definition normalise_edge_assertion_header_name (value : option string)
    : result (option string) :=
  match _normalise_optional_string value with
  | None => Ok None
  | Some normalised =>
      if (128 <? String.length normalised)%nat
      then Err (ValueError "RATE_LIMITING__EDGE_ASSERTION_HEADER_NAME must be at most 128 characters")
      else if negb (Text.forallb_chars (fun c => bool_decide (c ∈ _HTTP_HEADER_NAME_CHARS)) normalised)
      then Err (ValueError "RATE_LIMITING__EDGE_ASSERTION_HEADER_NAME must be a valid HTTP header name")
      else Ok (Some normalised)
  end.

(** A secret of the length the validators ask for: absent, or at least 32 characters. *)
Definition secret_of_minimum_length (msg : string) (value : option string)
    : result (option string) :=
  match value with
  | None => Ok None
  | Some v =>
      let secret := Text.strip v in
      if Text.is_empty secret then Ok None else
      if (String.length secret <? 32)%nat then Err (ValueError msg) else Ok (Some secret)
  end.

Definition validate_secret_minimum_length : option string -> result (option string) :=
  secret_of_minimum_length "Rate limit secrets must be at least 32 characters".

Definition validate_policy_override_names (value : gmap string RateLimitPolicyOverride.t)
    : result (gmap string RateLimitPolicyOverride.t) :=
  known_names ← PolicyRegistry._POLICY_SPEC_REGISTRY;
  match PolicyRegistry.unknown_names known_names value with
  | [] => Ok value
  | names => Err (ValueError
      ("Unknown rate limit policy override name(s): " ++ Text.join ", " names)%string)
  end.

Definition validate_identifier_secret_required (s : t) : result t :=
  if enabled s && is_None (identifier_secret s)
  then Err (ValueError
    "RATE_LIMITING__IDENTIFIER_SECRET is required when RATE_LIMITING__ENABLED=true")
  else Ok s.

(** The overrides, each validated. *)
Definition validate_overrides (policies : gmap string RateLimitPolicyOverride.t) : result unit :=
  bounded (forallb (fun o => match RateLimitPolicyOverride.validate o with Ok _ => true | Err _ => false end)
             (snd <$> map_to_list policies)) "policies".

Section Validators.
Context `{SettingsLibraries}.

Definition validate (s : input) : result t :=
  cidrs ← _normalise_cidr_list (trusted_proxy_cidrs s);
  header_name ← normalise_edge_assertion_header_name (edge_assertion_header_name s);
  edge_secret ← validate_secret_minimum_length (edge_assertion_secret s);
  secret ← validate_secret_minimum_length (identifier_secret s);
  validate_overrides (policies s);;
  policies ← validate_policy_override_names (policies s);
  bounded (0 <? storage_timeout_seconds s) "storage_timeout_seconds";;
  validate_identifier_secret_required
    (mk (enabled s) (enforced_by_edge s) (redis_prefix s) (trust_proxy_headers s) cidrs
       (pre_auth_enabled s) header_name edge_secret secret (mode s) policies
       (storage_timeout_seconds s)).
End Validators.
End RateLimitingSettings.

Module OutboxSettings.
Record t := mk {
  invite_delivery_enabled : bool;
  stale_processing_timeout_seconds : Z;
  recovery_batch_size : Z;
}.
Definition validate (s : t) : result t :=
  bounded (0 <? stale_processing_timeout_seconds s) "stale_processing_timeout_seconds";;
  bounded (0 <? recovery_batch_size s) "recovery_batch_size";; Ok s.
End OutboxSettings.

Module InviteRetentionSettings.
Record t := mk { accepted_days : Z; expired_days : Z; revoked_days : Z; batch_size : Z }.
Definition validate (s : t) : result t :=
  bounded (1 <=? accepted_days s) "accepted_days";;
  bounded (1 <=? expired_days s) "expired_days";;
  bounded (1 <=? revoked_days s) "revoked_days";;
  bounded ((0 <? batch_size s) && (batch_size s <=? 5000)) "batch_size";; Ok s.
End InviteRetentionSettings.

Module AuditSettings.
Record t := mk {
  network_identifier_secret : option string;
  retention_days : Z;
  security_retention_days : Z;
  compliance_retention_days : Z;
  anonymisation_batch_size : Z;
}.

Definition validate_network_identifier_secret : option string -> result (option string) :=
  RateLimitingSettings.secret_of_minimum_length
    "AUDIT__NETWORK_IDENTIFIER_SECRET must be at least 32 characters".

Definition validate (s : t) : result t :=
  secret ← validate_network_identifier_secret (network_identifier_secret s);
  bounded (1 <=? retention_days s) "retention_days";;
  bounded (1 <=? security_retention_days s) "security_retention_days";;
  bounded (1 <=? compliance_retention_days s) "compliance_retention_days";;
  bounded ((0 <? anonymisation_batch_size s) && (anonymisation_batch_size s <=? 5000))
    "anonymisation_batch_size";;
  Ok (mk secret (retention_days s) (security_retention_days s) (compliance_retention_days s)
        (anonymisation_batch_size s)).
End AuditSettings.

Module CorsSettings.
Record fields (L : Type) := mk {
  enabled : bool;
  allow_origins : L;
  allow_methods : L;
  allow_headers : L;
  expose_headers : L;
  allow_credentials : bool;
  max_age : option Z;
}.
#[global] Arguments mk {L} enabled allow_origins allow_methods allow_headers expose_headers
  allow_credentials max_age.
#[global] Arguments enabled {L} _.
#[global] Arguments allow_origins {L} _.
#[global] Arguments allow_methods {L} _.
#[global] Arguments allow_headers {L} _.
#[global] Arguments expose_headers {L} _.
#[global] Arguments allow_credentials {L} _.
#[global] Arguments max_age {L} _.

Definition t : Type := fields (list string).
Definition input : Type := fields StringListInput.

Definition validate_cors_policy (s : t) : result t :=
  if enabled s && bool_decide (allow_origins s = [])
  then Err (ValueError "CORS__ALLOW_ORIGINS is required when CORS__ENABLED=true") else
  if allow_credentials s && bool_decide ("*"%string ∈ allow_origins s)
  then Err (ValueError "CORS__ALLOW_CREDENTIALS=true cannot be used with wildcard origins")
  else Ok s.

Section Validators.
Context `{SettingsLibraries}.
Definition validate (s : input) : result t :=
  validate_cors_policy
    (mk (enabled s) (_normalise_string_list (allow_origins s))
       (_normalise_string_list (allow_methods s)) (_normalise_string_list (allow_headers s))
       (_normalise_string_list (expose_headers s)) (allow_credentials s) (max_age s)).
End Validators.
End CorsSettings.

Module ObservabilitySettings.
Record t := mk {
  metrics_enabled : bool;
  exporter : string;
  otlp_endpoint : option string;
  service_name : option string;
  otlp_timeout_seconds : Z;
  export_interval_millis : Z;
  export_timeout_millis : Z;
}.

Definition validate_otlp_requirements (s : t) : result t :=
  if metrics_enabled s && String.eqb (exporter s) "otlp" && is_None (truthy (otlp_endpoint s))
  then Err (ValueError "OBSERVABILITY__OTLP_ENDPOINT is required when OBSERVABILITY__METRICS_ENABLED=true and OBSERVABILITY__EXPORTER=otlp")
  else Ok s.

Definition validate (s : t) : result t :=
  bounded (bool_decide (exporter s ∈ ["none"; "otlp"]%string)) "exporter";;
  bounded (0 <? otlp_timeout_seconds s) "otlp_timeout_seconds";;
  bounded (0 <? export_interval_millis s) "export_interval_millis";;
  bounded (0 <? export_timeout_millis s) "export_timeout_millis";;
  validate_otlp_requirements
    (mk (metrics_enabled s) (exporter s) (_normalise_optional_string (otlp_endpoint s))
       (_normalise_optional_string (service_name s)) (otlp_timeout_seconds s)
       (export_interval_millis s) (export_timeout_millis s)).
End ObservabilitySettings.

Module ProcessorSettings.
Record fields (P L : Type) := mk {
  purpose : P;
  data_categories : L;
  region : option string;
  country : option string;
  dpa_signed : bool;
  restricted_transfer : bool;
  transfer_mechanism : string;
  subprocessors : L;
}.
#[global] Arguments mk {P L} purpose data_categories region country dpa_signed restricted_transfer
  transfer_mechanism subprocessors.
#[global] Arguments purpose {P L} _.
#[global] Arguments data_categories {P L} _.
#[global] Arguments region {P L} _.
#[global] Arguments country {P L} _.
#[global] Arguments dpa_signed {P L} _.
#[global] Arguments restricted_transfer {P L} _.
#[global] Arguments transfer_mechanism {P L} _.
#[global] Arguments subprocessors {P L} _.

Definition t : Type := fields string (list string).
Definition input : Type := fields (option string) StringListInput.

Definition transfer_mechanisms : list string := "not_restricted"%string :: _RESTRICTED_TRANSFER_MECHANISMS.

Section Validators.
Context `{SettingsLibraries}.

(** A purpose of white space becomes [None], which is no text. *)
Definition validate (s : input) : result t :=
  match _normalise_optional_string (purpose s) with
  | None => Err (ValueError "purpose")
  | Some p =>
      bounded (bool_decide (transfer_mechanism s ∈ transfer_mechanisms)) "transfer_mechanism";;
      Ok (mk p (_normalise_string_list (data_categories s)) (_normalise_optional_string (region s))
            (_normalise_optional_string (country s)) (dpa_signed s) (restricted_transfer s)
            (transfer_mechanism s) (_normalise_string_list (subprocessors s)))
  end.
End Validators.
End ProcessorSettings.

Module PrivacyExportsSettings.
(** [S] is how the signing secret is given: perhaps not, or a secret. *)
Record fields (S : Type) := mk {
  enabled : bool;
  storage_backend : string;
  local_storage_path : string;
  download_url_ttl_seconds : Z;
  artifact_retention_days : Z;
  max_artifact_size_bytes : Z;
  schema_version : string;
  local_signing_secret : S;
  s3_endpoint_url : option string;
  s3_region_name : option string;
  s3_bucket_name : option string;
  s3_allow_plaintext_private_network : bool;
  s3_key_prefix : string;
  s3_access_key_id : option string;
  s3_secret_access_key : option string;
  s3_server_side_encryption : option string;
  s3_sse_kms_key_id : option string;
  s3_addressing_style : string;
  s3_connect_timeout_seconds : Z;
  s3_read_timeout_seconds : Z;
  s3_max_attempts : Z;
}.
#[global] Arguments mk {S} enabled storage_backend local_storage_path download_url_ttl_seconds
  artifact_retention_days max_artifact_size_bytes schema_version local_signing_secret
  s3_endpoint_url s3_region_name s3_bucket_name s3_allow_plaintext_private_network s3_key_prefix
  s3_access_key_id s3_secret_access_key s3_server_side_encryption s3_sse_kms_key_id
  s3_addressing_style s3_connect_timeout_seconds s3_read_timeout_seconds s3_max_attempts.
#[global] Arguments enabled {S} _.
#[global] Arguments storage_backend {S} _.
#[global] Arguments local_storage_path {S} _.
#[global] Arguments download_url_ttl_seconds {S} _.
#[global] Arguments artifact_retention_days {S} _.
#[global] Arguments max_artifact_size_bytes {S} _.
#[global] Arguments schema_version {S} _.
#[global] Arguments local_signing_secret {S} _.
#[global] Arguments s3_endpoint_url {S} _.
#[global] Arguments s3_region_name {S} _.
#[global] Arguments s3_bucket_name {S} _.
#[global] Arguments s3_allow_plaintext_private_network {S} _.
#[global] Arguments s3_key_prefix {S} _.
#[global] Arguments s3_access_key_id {S} _.
#[global] Arguments s3_secret_access_key {S} _.
#[global] Arguments s3_server_side_encryption {S} _.
#[global] Arguments s3_sse_kms_key_id {S} _.
#[global] Arguments s3_addressing_style {S} _.
#[global] Arguments s3_connect_timeout_seconds {S} _.
#[global] Arguments s3_read_timeout_seconds {S} _.
#[global] Arguments s3_max_attempts {S} _.

Definition t : Type := fields string.
Definition input : Type := fields (option string).

Definition normalise_local_signing_secret (value : option string) : result string :=
  _normalise_required_secret value "PRIVACY_EXPORTS__LOCAL_SIGNING_SECRET".

Definition normalise_optional_s3_secret : option string -> option string :=
  _normalise_optional_string.

Definition validate_s3_endpoint_url (value : option string) : result (option string) :=
  match _normalise_optional_string value with
  | None => Ok None
  | Some normalised =>
      if bool_decide (_url_scheme (Some normalised) ∈ ["http"; "https"]%string)
      then Ok (Some (strip_slashes normalised))
      else Err (ValueError "PRIVACY_EXPORTS__S3_ENDPOINT_URL must use http(s)")
  end.

(** [part in {"", ".", ".."}] *)
Definition unsafe_part (part : string) : bool := bool_decide (part ∈ [""; "."; ".."]%string).

Definition validate_s3_key_prefix (value : string) : result string :=
  match _normalise_optional_string (Some value) with
  | None => Ok ""%string
  | Some normalised =>
      let candidate := strip_both_slashes normalised in
      if Text.contains "\" candidate || Text.contains ":" candidate || Text.contains "//" candidate
      then Err (ValueError "PRIVACY_EXPORTS__S3_KEY_PREFIX is not a safe path")
      else
      if PurePosixPath.is_absolute candidate
         || existsb unsafe_part (PurePosixPath.parts candidate)
      then Err (ValueError "PRIVACY_EXPORTS__S3_KEY_PREFIX is not a safe path")
      else Ok (Text.join "/" (PurePosixPath.parts candidate))
  end.

Definition encryptions : list (option string) := [Some "AES256"; Some "aws:kms"; None]%string.

Definition validate (s : input) : result t :=
  bounded (bool_decide (storage_backend s ∈ ["local"; "s3_compatible"]%string)) "storage_backend";;
  bounded (0 <? download_url_ttl_seconds s) "download_url_ttl_seconds";;
  bounded (1 <=? artifact_retention_days s) "artifact_retention_days";;
  bounded (0 <? max_artifact_size_bytes s) "max_artifact_size_bytes";;
  secret ← normalise_local_signing_secret (local_signing_secret s);
  endpoint ← validate_s3_endpoint_url (s3_endpoint_url s);
  prefix ← validate_s3_key_prefix (s3_key_prefix s);
  let encryption := _normalise_optional_string (s3_server_side_encryption s) in
  bounded (bool_decide (encryption ∈ encryptions)) "s3_server_side_encryption";;
  bounded (bool_decide (s3_addressing_style s ∈ ["virtual"; "path"]%string)) "s3_addressing_style";;
  bounded (0 <? s3_connect_timeout_seconds s) "s3_connect_timeout_seconds";;
  bounded (0 <? s3_read_timeout_seconds s) "s3_read_timeout_seconds";;
  bounded ((0 <? s3_max_attempts s) && (s3_max_attempts s <=? 10)) "s3_max_attempts";;
  Ok (mk (enabled s) (storage_backend s) (local_storage_path s) (download_url_ttl_seconds s)
        (artifact_retention_days s) (max_artifact_size_bytes s) (schema_version s) secret endpoint
        (_normalise_optional_string (s3_region_name s))
        (_normalise_optional_string (s3_bucket_name s)) (s3_allow_plaintext_private_network s)
        prefix (normalise_optional_s3_secret (s3_access_key_id s))
        (normalise_optional_s3_secret (s3_secret_access_key s)) encryption
        (_normalise_optional_string (s3_sse_kms_key_id s)) (s3_addressing_style s)
        (s3_connect_timeout_seconds s) (s3_read_timeout_seconds s) (s3_max_attempts s)).
End PrivacyExportsSettings.

Module ProcessorGovernanceSettings.
Record t := mk {
  enabled : bool;
  required : bool;
  data_residency_region : option string;
  processors : gmap string ProcessorSettings.t;
}.

(** The dictionary as it is given, in its order. *)
Record input := mkInput {
  input_enabled : bool;
  input_required : bool;
  input_data_residency_region : option string;
  input_processors : list (string * ProcessorSettings.input);
}.

Definition normalise_processor_keys (value : list (string * ProcessorSettings.input))
    : gmap string ProcessorSettings.input :=
  foldl (fun m kv => <[Text.lower (Text.strip kv.1) := kv.2]> m) ∅ value.

Section Validators.
Context `{SettingsLibraries}.

(** Each processor of the dictionary. *)
Fixpoint validate_processors (l : list (string * ProcessorSettings.input))
    : result (gmap string ProcessorSettings.t) :=
  match l with
  | [] => Ok ∅
  | (name, item) :: rest =>
      processor ← ProcessorSettings.validate item;
      processors ← validate_processors rest;
      Ok (<[name := processor]> processors)
  end.

Definition validate (s : input) : result t :=
  processors ← validate_processors (map_to_list (normalise_processor_keys (input_processors s)));
  Ok (mk (input_enabled s) (input_required s)
        (_normalise_optional_string (input_data_residency_region s)) processors).
End Validators.
End ProcessorGovernanceSettings.

(** ** The configuration *)
Module Settings.
Record fields (Auth RateLimiting Cors Exports Governance : Type) := mk {
  app : AppSettings.t;
  api : ApiSettings.t;
  request_context : RequestContextSettings.t;
  vault : VaultSettings.t;
  database : DatabaseSettings.t;
  redis : RedisSettings.t;
  security : SecuritySettings.t;
  auth : Auth;
  rate_limiting : RateLimiting;
  outbox : OutboxSettings.t;
  invite_retention : InviteRetentionSettings.t;
  audit : AuditSettings.t;
  observability : ObservabilitySettings.t;
  processor_governance : Governance;
  cors : Cors;
  privacy_exports : Exports;
}.
#[global] Arguments mk {Auth RateLimiting Cors Exports Governance} app api request_context vault
  database redis security auth rate_limiting outbox invite_retention audit observability
  processor_governance cors privacy_exports.
#[global] Arguments app {Auth RateLimiting Cors Exports Governance} _.
#[global] Arguments api {Auth RateLimiting Cors Exports Governance} _.
#[global] Arguments request_context {Auth RateLimiting Cors Exports Governance} _.
#[global] Arguments vault {Auth RateLimiting Cors Exports Governance} _.
#[global] Arguments database {Auth RateLimiting Cors Exports Governance} _.
#[global] Arguments redis {Auth RateLimiting Cors Exports Governance} _.
#[global] Arguments security {Auth RateLimiting Cors Exports Governance} _.
#[global] Arguments auth {Auth RateLimiting Cors Exports Governance} _.
#[global] Arguments rate_limiting {Auth RateLimiting Cors Exports Governance} _.
#[global] Arguments outbox {Auth RateLimiting Cors Exports Governance} _.
#[global] Arguments invite_retention {Auth RateLimiting Cors Exports Governance} _.
#[global] Arguments audit {Auth RateLimiting Cors Exports Governance} _.
#[global] Arguments observability {Auth RateLimiting Cors Exports Governance} _.
#[global] Arguments processor_governance {Auth RateLimiting Cors Exports Governance} _.
#[global] Arguments cors {Auth RateLimiting Cors Exports Governance} _.
#[global] Arguments privacy_exports {Auth RateLimiting Cors Exports Governance} _.

Definition t : Type := fields AuthSettings.t RateLimitingSettings.t CorsSettings.t
  PrivacyExportsSettings.t ProcessorGovernanceSettings.t.
Definition input : Type := fields AuthSettings.input RateLimitingSettings.input CorsSettings.input
  PrivacyExportsSettings.input ProcessorGovernanceSettings.input.

Definition _is_secure_database_transport (d : DatabaseSettings.t) : bool :=
  match truthy (DatabaseSettings.url d) with
  | None => true
  | Some _ =>
      let scheme := _url_scheme (DatabaseSettings.url d) in
      if Text.starts_with "sqlite" scheme then true
      else if negb (Text.starts_with "postgresql" scheme) then false
      else
        let ssl_mode := match truthy (DatabaseSettings.ssl_mode d) with
                        | Some m => Some m
                        | None => _url_query_value (DatabaseSettings.url d) "sslmode"
                        end in
        match ssl_mode with
        | Some m => bool_decide (m ∈ _SECURE_DATABASE_SSL_MODES)
        | None => false
        end
  end.

Definition _is_secure_redis_transport (r : RedisSettings.t) : bool :=
  match truthy (RedisSettings.url r) with
  | None => true
  | Some _ => String.eqb (_url_scheme (RedisSettings.url r)) "rediss"
  end.

Definition _is_secure_vault_transport (v : VaultSettings.t) : bool :=
  if Text.is_empty (VaultSettings.addr v) then true
  else String.eqb (_url_scheme (Some (VaultSettings.addr v))) "https".

(** [if condition: raise ValueError(msg)] *)
Definition refuse_if (condition : bool) (msg : string) : result unit :=
  if condition then Err (ValueError msg) else Ok tt.

Section Checks.
Variable self : t.
Variable env : string.

Abbreviation limiting := (rate_limiting self).
Abbreviation exports := (privacy_exports self).

Definition _validate_rate_limit_protection_required : result unit :=
  refuse_if (negb (RateLimitingSettings.enabled limiting)
             && negb (RateLimitingSettings.enforced_by_edge limiting))
    ("Rate limiting must be enabled in app or enforced by edge in " ++ env).

(** [unsafe_overrides]: the loop over the overrides, in which an unknown name raises. *)
Fixpoint unsafe_overrides (overrides : list (string * RateLimitPolicyOverride.t))
    : result (list string) :=
  match overrides with
  | [] => Ok []
  | (policy_name, override) :: rest =>
      if negb (bool_decide (RateLimitPolicyOverride.fail_open override = Some true))
      then unsafe_overrides rest
      else
        policy_spec ← PolicyRegistry.get_rate_limit_policy policy_name;
        names ← unsafe_overrides rest;
        Ok (if bool_decide (RateLimitPolicySpec.sensitivity policy_spec = RateLimitSensitivity.normal)
            then names else policy_name :: names)
  end.

Definition _validate_rate_limit_fail_open_overrides : result unit :=
  names ← unsafe_overrides (map_to_list (RateLimitingSettings.policies limiting));
  match names with
  | [] => Ok tt
  | _ => Err (ValueError ("RATE_LIMITING__POLICIES fail_open=true is not allowed for sensitive or critical policies in "
           ++ env ++ ": " ++ Text.join ", " (merge_sort string_le names))%string)
  end.

Definition _validate_trusted_proxy_header_policy : result unit :=
  refuse_if (RateLimitingSettings.trust_proxy_headers limiting
             && bool_decide (RateLimitingSettings.trusted_proxy_cidrs limiting = []))
    ("RATE_LIMITING__TRUSTED_PROXY_CIDRS is required in " ++ env
     ++ " when RATE_LIMITING__TRUST_PROXY_HEADERS=true").

Definition _validate_pre_auth_policy : result unit :=
  if negb (RateLimitingSettings.enabled limiting) || RateLimitingSettings.enforced_by_edge limiting
  then Ok tt else
  refuse_if (negb (RateLimitingSettings.pre_auth_enabled limiting))
    ("RATE_LIMITING__PRE_AUTH_ENABLED must be true in " ++ env
     ++ " unless RATE_LIMITING__ENFORCED_BY_EDGE=true");;
  refuse_if (negb (RateLimitingSettings.trust_proxy_headers limiting)
             || bool_decide (RateLimitingSettings.trusted_proxy_cidrs limiting = []))
    ("RATE_LIMITING__TRUST_PROXY_HEADERS=true and RATE_LIMITING__TRUSTED_PROXY_CIDRS are required in "
     ++ env ++ " when app pre-auth rate limiting is enabled without RATE_LIMITING__ENFORCED_BY_EDGE=true").

(** [if condition: missing.append(name)] *)
Definition missing_if (condition : bool) (name : string) : list string :=
  if condition then [name] else [].

Definition _validate_edge_enforced_mode : result unit :=
  if negb (RateLimitingSettings.enforced_by_edge limiting) then Ok tt else
  let missing :=
    missing_if (bool_decide (RateLimitingSettings.trusted_proxy_cidrs limiting = []))
      "RATE_LIMITING__TRUSTED_PROXY_CIDRS"
    ++ missing_if (is_None (truthy (RateLimitingSettings.edge_assertion_header_name limiting)))
      "RATE_LIMITING__EDGE_ASSERTION_HEADER_NAME"
    ++ missing_if (is_None (RateLimitingSettings.edge_assertion_secret limiting))
      "RATE_LIMITING__EDGE_ASSERTION_SECRET" in
  refuse_if (negb (bool_decide (missing = [])))
    ("RATE_LIMITING__ENFORCED_BY_EDGE=true requires trusted edge controls in " ++ env ++ ": "
     ++ Text.join ", " missing).

(** The names in the order of [sorted]. *)
Definition _required_processor_names : list string :=
  missing_if (AuthSettings.enabled (auth self)) "keycloak"
  ++ missing_if (ObservabilitySettings.metrics_enabled (observability self)
                 && String.eqb (ObservabilitySettings.exporter (observability self)) "otlp") "otlp"
  ++ missing_if (PrivacyExportsSettings.enabled exports
                 && String.eqb (PrivacyExportsSettings.storage_backend exports) "s3_compatible")
       "privacy_export_storage"
  ++ missing_if (negb (is_None (truthy (RedisSettings.url (redis self))))) "redis"
  ++ missing_if (VaultSettings.enabled (vault self)) "vault".

Definition processor_missing_fields (p : ProcessorSettings.t) : list string :=
  missing_if (Text.is_empty (ProcessorSettings.purpose p)) "PURPOSE"
  ++ missing_if (bool_decide (ProcessorSettings.data_categories p = [])) "DATA_CATEGORIES"
  ++ missing_if (is_None (truthy (ProcessorSettings.region p))
                 && is_None (truthy (ProcessorSettings.country p))) "REGION or COUNTRY"
  ++ missing_if (negb (ProcessorSettings.dpa_signed p)) "DPA_SIGNED".

Definition transfer_unapproved (p : ProcessorSettings.t) : bool :=
  ProcessorSettings.restricted_transfer p
  && negb (bool_decide (ProcessorSettings.transfer_mechanism p ∈ _RESTRICTED_TRANSFER_MECHANISMS)).

Definition _validate_processor_governance : result unit :=
  let governance := processor_governance self in
  if negb (ProcessorGovernanceSettings.enabled governance) then Ok tt else
  let required_processors := _required_processor_names in
  if bool_decide (required_processors = []) then Ok tt else
  refuse_if (negb (ProcessorGovernanceSettings.required governance))
    ("PROCESSOR_GOVERNANCE__REQUIRED=false is not allowed in " ++ env
     ++ " when processor governance is enabled and external processors are enabled");;
  refuse_if (is_None (truthy (ProcessorGovernanceSettings.data_residency_region governance)))
    ("PROCESSOR_GOVERNANCE__DATA_RESIDENCY_REGION is required in " ++ env
     ++ " when external processors are enabled");;
  let processors := ProcessorGovernanceSettings.processors governance in
  let missing_processors :=
    List.filter (fun name => is_None (processors !! name)) required_processors in
  refuse_if (negb (bool_decide (missing_processors = [])))
    ("Missing processor governance metadata in " ++ env ++ ": "
     ++ Text.join ", " ((fun name => "PROCESSOR_GOVERNANCE__PROCESSORS__" ++ upper name)%string
                        <$> missing_processors));;
  let entries := omap (fun name => (name,.) <$> processors !! name) required_processors in
  let invalid_processors :=
    omap (fun '(name, p) =>
      match processor_missing_fields p with
      | [] => None
      | fields => Some (name ++ " (" ++ Text.join ", " fields ++ ")")%string
      end) entries in
  let invalid_transfers :=
    omap (fun '(name, p) => if transfer_unapproved p then Some name else None) entries in
  refuse_if (negb (bool_decide (invalid_processors = [])))
    ("Incomplete processor governance metadata in " ++ env ++ ": "
     ++ Text.join "; " invalid_processors);;
  refuse_if (negb (bool_decide (invalid_transfers = [])))
    ("Restricted processor transfers require an approved transfer mechanism in " ++ env ++ ": "
     ++ Text.join ", " invalid_transfers).

Definition _validate_privacy_exports_storage_settings : result unit :=
  if negb (String.eqb (PrivacyExportsSettings.storage_backend exports) "s3_compatible")
     || negb (PrivacyExportsSettings.enabled exports) then Ok tt else
  let missing :=
    missing_if (is_None (truthy (PrivacyExportsSettings.s3_bucket_name exports)))
      "PRIVACY_EXPORTS__S3_BUCKET_NAME"
    ++ missing_if (is_None (truthy (PrivacyExportsSettings.s3_region_name exports)))
      "PRIVACY_EXPORTS__S3_REGION_NAME" in
  refuse_if (negb (bool_decide (missing = [])))
    ("S3-compatible privacy export storage requires: " ++ Text.join ", " missing);;
  refuse_if (xorb (is_None (PrivacyExportsSettings.s3_access_key_id exports))
                  (is_None (PrivacyExportsSettings.s3_secret_access_key exports)))
    "PRIVACY_EXPORTS__S3_ACCESS_KEY_ID and PRIVACY_EXPORTS__S3_SECRET_ACCESS_KEY must be set together";;
  refuse_if (negb (is_None (PrivacyExportsSettings.s3_sse_kms_key_id exports))
             && negb (bool_decide (PrivacyExportsSettings.s3_server_side_encryption exports
                                   = Some "aws:kms"%string)))
    "PRIVACY_EXPORTS__S3_SSE_KMS_KEY_ID requires PRIVACY_EXPORTS__S3_SERVER_SIDE_ENCRYPTION=aws:kms".

Definition _validate_privacy_exports_security : result unit :=
  if negb (PrivacyExportsSettings.enabled exports) then Ok tt else
  refuse_if (String.eqb (PrivacyExportsSettings.storage_backend exports) "local")
    ("PRIVACY_EXPORTS__STORAGE_BACKEND=s3_compatible is required in " ++ env
     ++ " when privacy exports are enabled");;
  if negb (String.eqb (PrivacyExportsSettings.storage_backend exports) "s3_compatible")
  then Ok tt else
  refuse_if (negb (is_None (PrivacyExportsSettings.s3_endpoint_url exports))
             && negb (String.eqb (_url_scheme (PrivacyExportsSettings.s3_endpoint_url exports)) "https")
             && negb (PrivacyExportsSettings.s3_allow_plaintext_private_network exports))
    ("PRIVACY_EXPORTS__S3_ENDPOINT_URL must use https:// in " ++ env
     ++ " unless PRIVACY_EXPORTS__S3_ALLOW_PLAINTEXT_PRIVATE_NETWORK=true").

Definition _validate_production_transport_security : result unit :=
  refuse_if (_is_sqlite_database_url (DatabaseSettings.url (database self))
             && negb (DatabaseSettings.allow_sqlite_in_prod (database self)))
    "SQLite DATABASE__URL is not allowed in prod unless DATABASE__ALLOW_SQLITE_IN_PROD=true";;
  refuse_if (negb (DatabaseSettings.allow_plaintext_private_network (database self))
             && negb (_is_secure_database_transport (database self)))
    "DATABASE__SSL_MODE must be one of require, verify-ca, or verify-full in prod unless DATABASE__ALLOW_PLAINTEXT_PRIVATE_NETWORK=true";;
  refuse_if (negb (is_None (truthy (RedisSettings.url (redis self))))
             && RedisSettings.tls_required (redis self)
             && negb (RedisSettings.allow_plaintext_private_network (redis self))
             && negb (_is_secure_redis_transport (redis self)))
    "REDIS__URL must use rediss:// in prod unless REDIS__ALLOW_PLAINTEXT_PRIVATE_NETWORK=true";;
  refuse_if (VaultSettings.enabled (vault self)
             && VaultSettings.tls_required (vault self)
             && negb (VaultSettings.allow_plaintext_private_network (vault self))
             && negb (_is_secure_vault_transport (vault self)))
    "VAULT__ADDR must use https:// in prod unless VAULT__ALLOW_PLAINTEXT_PRIVATE_NETWORK=true".

(** The checks of staging and production. *)
Definition validate_deployed : result unit :=
  refuse_if (negb (AuthSettings.enabled (auth self))) "AUTH__ENABLED must be true in staging/prod";;
  refuse_if (is_None (truthy (AuthSettings.issuer_url (auth self))))
    "AUTH__ISSUER_URL is required in staging/prod";;
  refuse_if (is_None (truthy (AuthSettings.audience (auth self))))
    "AUTH__AUDIENCE is required in staging/prod";;
  refuse_if (bool_decide (AuthSettings.allowed_authorized_parties (auth self) = []))
    "AUTH__ALLOWED_AUTHORIZED_PARTIES is required in staging/prod";;
  refuse_if (negb (String.eqb (AuthSettings.metadata_validation (auth self)) "fail"))
    "AUTH__METADATA_VALIDATION=fail is required in staging/prod";;
  _validate_rate_limit_protection_required;;
  _validate_rate_limit_fail_open_overrides;;
  _validate_trusted_proxy_header_policy;;
  _validate_pre_auth_policy;;
  _validate_edge_enforced_mode;;
  _validate_processor_governance;;
  _validate_privacy_exports_security.

(** [url.startswith("https://")] of an address that was given *)
Definition starts_with_https (url : option string) : bool :=
  match url with Some s => Text.starts_with "https://" s | None => false end.

(** The checks of production. *)
Definition validate_production : result unit :=
  refuse_if (negb (starts_with_https (AuthSettings.issuer_url (auth self))))
    "AUTH__ISSUER_URL must use HTTPS in prod";;
  refuse_if (negb (is_None (truthy (AuthSettings.jwks_url (auth self))))
             && negb (starts_with_https (AuthSettings.jwks_url (auth self))))
    "AUTH__JWKS_URL must use HTTPS in prod";;
  refuse_if (ApiSettings.docs_enabled (api self)) "API__DOCS_ENABLED must be false in prod";;
  refuse_if (RequestContextSettings.trust_incoming_request_id (request_context self))
    "REQUEST_CONTEXT__TRUST_INCOMING_REQUEST_ID must be false in prod";;
  refuse_if (bool_decide (RateLimitingSettings.mode limiting = RateLimitMode.relaxed))
    "RATE_LIMITING__MODE=relaxed is not allowed in prod";;
  _validate_production_transport_security.

End Checks.

Definition validate_environment_security (self : t) : result t :=
  let env := AppSettings.environment (app self) in
  _validate_privacy_exports_storage_settings self;;
  (if bool_decide (env ∈ ["staging"; "prod"]%string) then validate_deployed self env else Ok tt);;
  (if String.eqb env "prod" then validate_production self else Ok tt);;
  refuse_if (String.eqb env "prod"
             && bool_decide ("*"%string ∈ CorsSettings.allow_origins (cors self)))
    "CORS wildcard origins are not allowed in prod";;
  refuse_if (OutboxSettings.invite_delivery_enabled (outbox self)
             && bool_decide (env ∈ ["dev"; "staging"; "prod"]%string)
             && is_None (SecuritySettings.outbox_token_encryption_key (security self)))
    "SECURITY__OUTBOX_TOKEN_ENCRYPTION_KEY is required for invite outbox";;
  Ok self.

Section Validators.
Context `{SettingsLibraries}.

(** [Settings()]: each group, then the whole. *)
Definition validate (i : input) : result t :=
  app ← AppSettings.validate (app i);
  vault ← VaultSettings.validate (vault i);
  database ← DatabaseSettings.validate (database i);
  security ← SecuritySettings.validate (security i);
  auth ← AuthSettings.validate (auth i);
  rate_limiting ← RateLimitingSettings.validate (rate_limiting i);
  outbox ← OutboxSettings.validate (outbox i);
  invite_retention ← InviteRetentionSettings.validate (invite_retention i);
  audit ← AuditSettings.validate (audit i);
  observability ← ObservabilitySettings.validate (observability i);
  processor_governance ← ProcessorGovernanceSettings.validate (processor_governance i);
  cors ← CorsSettings.validate (cors i);
  privacy_exports ← PrivacyExportsSettings.validate (privacy_exports i);
  validate_environment_security
    (mk app (api i) (request_context i) vault database (redis i) security auth rate_limiting outbox
       invite_retention audit observability processor_governance cors privacy_exports).
End Validators.

(** ** What the components read of it *)

Definition policy_settings (s : t) : PolicySettings :=
  mkPolicySettings (AppSettings.environment (app s)) (RateLimitingSettings.mode (rate_limiting s))
    (RateLimitingSettings.policies (rate_limiting s)).

Definition request_settings (s : t) : RequestSettings :=
  mkRequestSettings (RateLimitingSettings.trust_proxy_headers (rate_limiting s))
    (RateLimitingSettings.trusted_proxy_cidrs (rate_limiting s))
    (AuditSettings.network_identifier_secret (audit s)).

Definition limiter_settings (s : t) : RateLimits.RateLimitingSettings.t :=
  let r := rate_limiting s in
  RateLimits.RateLimitingSettings.mk (RateLimitingSettings.enabled r)
    (RateLimitingSettings.enforced_by_edge r) (RateLimitingSettings.pre_auth_enabled r)
    (RateLimitingSettings.redis_prefix r) (RateLimitingSettings.trust_proxy_headers r)
    (RateLimitingSettings.trusted_proxy_cidrs r) (RateLimitingSettings.identifier_secret r)
    (RateLimitingSettings.edge_assertion_header_name r) (RateLimitingSettings.edge_assertion_secret r).

End Settings.
