(* ===== verification/Responses.v ===== *)
(** What a client is told of a request: the identifier it runs under
    ([core/middleware/request_context.py]) and the problem documents errors become
    ([core/errors/problem.py], [core/errors/handlers.py]). *)
From S2P Require Import Prelude Errors Session Schema Tables Regex RateLimitPolicies.
From S2P Require Import Requests RateLimitIngress Settings.

(** ** [http.HTTPStatus]: the members and their phrases *)
Module HTTPStatus.
Definition phrases : list (Z * string) :=
  [(100, "Continue"); (101, "Switching Protocols"); (102, "Processing");
   (103, "Early Hints"); (200, "OK"); (201, "Created"); (202, "Accepted");
   (203, "Non-Authoritative Information"); (204, "No Content"); (205, "Reset Content");
   (206, "Partial Content"); (207, "Multi-Status"); (208, "Already Reported");
   (226, "IM Used"); (300, "Multiple Choices"); (301, "Moved Permanently"); (302, "Found");
   (303, "See Other"); (304, "Not Modified"); (305, "Use Proxy");
   (307, "Temporary Redirect"); (308, "Permanent Redirect"); (400, "Bad Request");
   (401, "Unauthorized"); (402, "Payment Required"); (403, "Forbidden"); (404, "Not Found");
   (405, "Method Not Allowed"); (406, "Not Acceptable");
   (407, "Proxy Authentication Required"); (408, "Request Timeout"); (409, "Conflict");
   (410, "Gone"); (411, "Length Required"); (412, "Precondition Failed");
   (413, "Request Entity Too Large"); (414, "Request-URI Too Long");
   (415, "Unsupported Media Type"); (416, "Requested Range Not Satisfiable");
   (417, "Expectation Failed"); (418, "I'm a Teapot"); (421, "Misdirected Request");
   (422, "Unprocessable Entity"); (423, "Locked"); (424, "Failed Dependency");
   (425, "Too Early"); (426, "Upgrade Required"); (428, "Precondition Required");
   (429, "Too Many Requests"); (431, "Request Header Fields Too Large");
   (451, "Unavailable For Legal Reasons"); (500, "Internal Server Error");
   (501, "Not Implemented"); (502, "Bad Gateway"); (503, "Service Unavailable");
   (504, "Gateway Timeout"); (505, "HTTP Version Not Supported");
   (506, "Variant Also Negotiates"); (507, "Insufficient Storage"); (508, "Loop Detected");
   (510, "Not Extended"); (511, "Network Authentication Required")]%string.

(** [HTTPStatus(code).phrase], where there is such a member *)
Definition phrase (code : Z) : option string := snd <$> List.find (fun p => p.1 =? code) phrases.
End HTTPStatus.

(** ** [core/middleware/request_context.py] *)
Module RequestContext.
Import Regex.

Definition is_alnum (c : ascii) : bool := Url.is_alpha c || is_digit c.

(** [^[A-Za-z0-9][A-Za-z0-9._\-:/]{0,127}$], for [fullmatch] *)
Definition _REQUEST_ID_RE (s : string) : bool :=
  match s with
  | EmptyString => false
  | String c r =>
      is_alnum c && Text.forallb_chars (fun c => is_alnum c || one_of "._-:/" c) r
      && (String.length r <=? 127)%nat
  end.

Definition _extract_request_id (header : option string) (trust_incoming_request_id : bool)
    : option string :=
  if negb trust_incoming_request_id then None else
  match truthy header with
  | None => None
  | Some value =>
      let value := Text.strip value in
      if Text.is_empty value || (128 <? String.length value)%nat then None else
      if negb (_REQUEST_ID_RE value) then None else Some value
  end.

(** The identifier of a request; [fresh] is [str(uuid4())]. *)
Definition request_id (header : option string) (trust_incoming_request_id : bool) (fresh : string) : string :=
  default fresh (_extract_request_id header trust_incoming_request_id).
End RequestContext.

(** ** [core/errors/problem.py] *)
Module InvalidParam.
Record t := mk { name : string; reason : string; pointer : option string; code : option string }.
End InvalidParam.

Module ProblemDetails.
Record t := mk {
  type : string;
  title : string;
  status : Z;
  detail : option string;
  instance : option string;
  error_code : option string;
  request_id : option string;
  errors : option (list InvalidParam.t);
  extra : list (string * string);
}.

Definition fields : list string :=
  ["type"; "title"; "status"; "detail"; "instance"; "error_code"; "request_id"; "errors"]%string.

Definition member (name : string) (value : option json) : list (string * json) :=
  match value with Some j => [(name, j)] | None => [] end.

Definition param_json (p : InvalidParam.t) : json :=
  JObj ([("name"%string, JStr (InvalidParam.name p)); ("reason"%string, JStr (InvalidParam.reason p))]
        ++ member "pointer" (JStr <$> InvalidParam.pointer p)
        ++ member "code" (JStr <$> InvalidParam.code p)).

(** [model_dump(exclude_none=True)] *)
Definition to_dict (p : t) : list (string * json) :=
  [("type"%string, JStr (type p)); ("title"%string, JStr (title p)); ("status"%string, JInt (status p))]
  ++ member "detail" (JStr <$> detail p)
  ++ member "instance" (JStr <$> instance p)
  ++ member "error_code" (JStr <$> error_code p)
  ++ member "request_id" (JStr <$> request_id p)
  ++ member "errors" ((fun l => JArr (param_json <$> l)) <$> errors p)
  ++ ((fun kv => (kv.1, JStr kv.2)) <$> extra p).
End ProblemDetails.

(** ** [core/errors/handlers.py] *)
Module ErrorHandlers.

(** What the handlers read of a request: the path, the identifier of the context, the empty
    text outside of it, and the one the middleware left in the scope. *)
Module Req.
Record t := mk { path : string; context_id : string; scope_id : option string }.
End Req.

(** [starlette.responses.JSONResponse] *)
Module JSONResponse.
Record t := mk {
  status_code : Z;
  content : list (string * json);
  media_type : string;
  headers : list (string * string);
}.
End JSONResponse.

(** [str(ErrorCode.X)] *)
Definition code_text (c : ErrorCode) : string :=
  match c with
  | BAD_REQUEST => "bad_request" | UNAUTHORIZED => "unauthorized" | FORBIDDEN => "forbidden"
  | NOT_FOUND => "not_found" | METHOD_NOT_ALLOWED => "method_not_allowed" | CONFLICT => "conflict"
  | VALIDATION_ERROR => "validation_error" | RATE_LIMITED => "rate_limited"
  | RATE_LIMITER_UNAVAILABLE => "rate_limiter_unavailable" | INTERNAL_ERROR => "internal_error"
  end.

(** The attributes [type] and [title] of the classes of application errors. *)
Definition problem_type (c : AppErrorClass) : string :=
  match c with
  | BadRequest => "problem:bad-request" | Unauthorized => "problem:unauthorized"
  | Forbidden => "problem:forbidden" | NotFound => "problem:not-found"
  | Conflict => "problem:conflict" | TooManyRequests => "problem:rate-limited"
  | RateLimiterUnavailable => "problem:rate-limiter-unavailable"
  end.

Definition title (c : AppErrorClass) : string :=
  match c with
  | BadRequest => "Bad Request" | Unauthorized => "Unauthorized" | Forbidden => "Forbidden"
  | NotFound => "Resource not found" | Conflict => "Conflict"
  | TooManyRequests => "Too Many Requests" | RateLimiterUnavailable => "Service Unavailable"
  end.

(** Status, type, title and code *)
Definition _HTTP_PROBLEM_MAPPING : list (Z * (string * string * ErrorCode)) :=
  [(400, ("problem:bad-request", "Bad Request", BAD_REQUEST));
   (401, ("problem:unauthorized", "Unauthorized", UNAUTHORIZED));
   (403, ("problem:forbidden", "Forbidden", FORBIDDEN));
   (404, ("problem:not-found", "Resource not found", NOT_FOUND));
   (405, ("problem:method-not-allowed", "Method Not Allowed", METHOD_NOT_ALLOWED));
   (409, ("problem:conflict", "Conflict", CONFLICT));
   (422, ("problem:validation-error", "Request validation failed", VALIDATION_ERROR))]%string.

(** [value.replace("'", "")], and each run of other characters becomes a hyphen. *)
Fixpoint without_quotes (s : string) : string :=
  match s with
  | EmptyString => EmptyString
  | String c r => if Ascii.eqb c "'" then without_quotes r else String c (without_quotes r)
  end.

Definition slug_char (c : ascii) : bool := Regex.in_range "a" "z" c || Regex.in_range "0" "9" c.

Fixpoint hyphenated (in_run : bool) (s : string) : string :=
  match s with
  | EmptyString => EmptyString
  | String c r =>
      if slug_char c then String c (hyphenated false r)
      else if in_run then hyphenated true r else String "-" (hyphenated true r)
  end.

(** [s.strip("-")] *)
Fixpoint lstrip_hyphens (s : string) : string :=
  match s with
  | String c r => if Ascii.eqb c "-" then lstrip_hyphens r else s
  | EmptyString => EmptyString
  end.

Fixpoint rstrip_hyphens (s : string) : string :=
  match s with
  | EmptyString => EmptyString
  | String c r => let r' := rstrip_hyphens r in
                  if Ascii.eqb c "-" && Text.is_empty r' then EmptyString else String c r'
  end.

Definition _slugify_http_status_phrase (value : string) : string :=
  rstrip_hyphens (lstrip_hyphens (hyphenated false (without_quotes (Text.lower value)))).

Definition _build_instance (request : Req.t) : string := Req.path request.

Definition _get_request_id (request : Req.t) : option string :=
  if Text.is_empty (Req.context_id request) then truthy (Req.scope_id request)
  else Some (Req.context_id request).

(** [headers.update(extra_headers)] on the one header there may be. *)
Definition update_headers (headers extra_headers : list (string * string)) : list (string * string) :=
  List.filter (fun kv => negb (existsb (fun kv' => String.eqb kv'.1 kv.1) extra_headers)) headers
  ++ extra_headers.

Definition _problem_response (request : Req.t) (problem : ProblemDetails.t)
    (request_id_header_name : string) (extra_headers : list (string * string)) : JSONResponse.t :=
  let request_id :=
    if Text.is_empty (Req.context_id request) then truthy (ProblemDetails.request_id problem)
    else Some (Req.context_id request) in
  let headers := match request_id with
                 | Some id => [(request_id_header_name, id)] | None => [] end in
  JSONResponse.mk (ProblemDetails.status problem) (ProblemDetails.to_dict problem)
    "application/problem+json" (update_headers headers extra_headers).

(** An error of FastAPI's request validation: where, what and which. *)
Module ValidationItem.
Record t := mk { loc : list string; msg : option string; err_type : option string }.
End ValidationItem.

Definition _validation_errors_to_invalid_params (errors : list ValidationItem.t)
    : list InvalidParam.t :=
  (fun err =>
     let loc := ValidationItem.loc err in
     InvalidParam.mk (default "request"%string (last loc))
       (default "Invalid value"%string (ValidationItem.msg err))
       (if bool_decide (loc = []) then None else Some ("/" ++ Text.join "/" loc)%string)
       (ValidationItem.err_type err)) <$> errors.

(** [starlette.exceptions.HTTPException]; its detail may be any value. *)
Module HTTPException.
Record t := mk { status_code : Z; detail : option string }.
End HTTPException.

Definition _build_http_exception_problem (request : Req.t) (exc : HTTPException.t) : ProblemDetails.t :=
  let status :=
    if is_None (HTTPStatus.phrase (HTTPException.status_code exc)) then 500
    else HTTPException.status_code exc in
  let phrase := default ""%string (HTTPStatus.phrase status) in
  let '(problem_type, title, error_code) :=
    match List.find (fun m => m.1 =? status) _HTTP_PROBLEM_MAPPING with
    | Some (_, (problem_type, title, code)) => (problem_type, title, code_text code)
    | None =>
        let slug := _slugify_http_status_phrase phrase in
        (("problem:" ++ slug)%string, phrase, Text.replace_char "-" "_" slug)
    end in
  ProblemDetails.mk problem_type title status
    (Some (default title (HTTPException.detail exc))) (Some (_build_instance request))
    (Some error_code) (_get_request_id request) None [].

Section Handlers.
Context (request_id_header_name : string).

(** [ProblemDetails(.., **exc.extra)] raises for a member that is given twice. *)
Definition app_error_handler (request : Req.t) (c : AppErrorClass) (detail : string)
    (extra headers : list (string * string)) : result JSONResponse.t :=
  if existsb (fun kv => bool_decide (kv.1 ∈ removelast ProblemDetails.fields)) extra
  then Err (OtherError "TypeError") else
  Ok (_problem_response request
        (ProblemDetails.mk (problem_type c) (title c) (status_code c) (Some detail)
           (Some (_build_instance request)) (Some (code_text (error_code c)))
           (_get_request_id request) None extra)
        request_id_header_name headers).

Definition request_validation_handler (request : Req.t) (errors : list ValidationItem.t)
    : JSONResponse.t :=
  _problem_response request
    (ProblemDetails.mk "problem:validation-error" "Request validation failed" 422
       (Some "One or more request fields are invalid."%string) (Some (_build_instance request))
       (Some (code_text VALIDATION_ERROR)) (_get_request_id request)
       (Some (_validation_errors_to_invalid_params errors)) [])
    request_id_header_name [].

Definition http_exception_handler (request : Req.t) (exc : HTTPException.t) : JSONResponse.t :=
  if HTTPException.status_code exc =? 404 then
    _problem_response request
      (ProblemDetails.mk "problem:not-found" "Resource not found" 404
         (Some "The requested resource was not found."%string) (Some (_build_instance request))
         (Some (code_text NOT_FOUND)) (_get_request_id request) None [])
      request_id_header_name []
  else _problem_response request (_build_http_exception_problem request exc) request_id_header_name [].

Definition unhandled_exception_handler (request : Req.t) (exc : exn) : JSONResponse.t :=
  _problem_response request
    (ProblemDetails.mk "problem:internal-error" "Internal Server Error" 500
       (Some "An unexpected error occurred."%string) (Some (_build_instance request))
       (Some (code_text INTERNAL_ERROR)) (_get_request_id request) None [])
    request_id_header_name [].

(** The handler of what a handler of the application raised, the most specific one; a failure
    of it ends in the last one. *)
Definition respond (request : Req.t) (exc : exn) (headers : list (string * string)) : JSONResponse.t :=
  match exc with
  | AppError c detail extra =>
      match app_error_handler request c detail extra headers with
      | Ok response => response
      | Err e => unhandled_exception_handler request e
      end
  | _ => unhandled_exception_handler request exc
  end.
End Handlers.
End ErrorHandlers.
