(* ===== verification/Coroutines.v ===== *)
(** Coroutines that share the state of one process: what [async] code does between the
    points where it reads or changes an attribute of a shared object, reads a clock, takes a
    lock or asks the network, and every interleaving of any number of them. *)
From S2P Require Import Prelude Errors Session Tables.

Definition UnauthorizedError (detail : string) : exn := AppError Unauthorized detail [].
Definition CancelledError : exn := OtherError "CancelledError".

(** [except Exception]: a cancellation is not one. *)
Definition is_exception (e : exn) : bool := negb (bool_decide (e = CancelledError)).

(** What [asyncio.wait_for(lock.acquire(), timeout)] ends in. *)
Inductive lock_outcome := Acquired | TimedOut | Cancelled.

Section Coroutines.
(** The shared object's attributes, and what the network answers. *)
Context {S Reply : Type}.

(** Awaiting the network may also end in an exception, a cancellation among them. *)
Inductive coro (A : Type) :=
  | Ret (a : A)
  | Raise (e : exn)
  | Read (k : S -> coro A)
  | Update (f : S -> S) (k : coro A)
  | Time (k : datetime -> coro A)
  | Monotonic (k : Z -> coro A)
  | Ask (url : string) (k : result Reply -> coro A)
  | Acquire (k : lock_outcome -> coro A)
  | Release (k : coro A).
#[global] Arguments Ret {A} a.
#[global] Arguments Raise {A} e.
#[global] Arguments Read {A} k.
#[global] Arguments Update {A} f k.
#[global] Arguments Time {A} k.
#[global] Arguments Monotonic {A} k.
#[global] Arguments Ask {A} url k.
#[global] Arguments Acquire {A} k.
#[global] Arguments Release {A} k.

#[export] Instance coro_ret : MRet coro := @Ret.

#[export] Instance coro_bind : MBind coro := fun A B f =>
  fix go (m : coro A) : coro B :=
    match m with
    | Ret a => f a
    | Raise e => Raise e
    | Read k => Read (fun s => go (k s))
    | Update g k => Update g (go k)
    | Time k => Time (fun t => go (k t))
    | Monotonic k => Monotonic (fun t => go (k t))
    | Ask url k => Ask url (fun r => go (k r))
    | Acquire k => Acquire (fun b => go (k b))
    | Release k => Release (go k)
    end.

#[export] Instance coro_map : FMap coro := fun A B f m => m ≫= fun a => Ret (f a).

(** [try: m / except classes as exc: h(exc)] *)
Fixpoint coro_except {A} (classes : exn -> bool) (m : coro A) (h : exn -> coro A) : coro A :=
  match m with
  | Ret a => Ret a
  | Raise e => if classes e then h e else Raise e
  | Read k => Read (fun s => coro_except classes (k s) h)
  | Update f k => Update f (coro_except classes k h)
  | Time k => Time (fun t => coro_except classes (k t) h)
  | Monotonic k => Monotonic (fun t => coro_except classes (k t) h)
  | Ask url k => Ask url (fun r => coro_except classes (k r) h)
  | Acquire k => Acquire (fun b => coro_except classes (k b) h)
  | Release k => Release (coro_except classes k h)
  end.

(** [try: m / finally: lock.release()] *)
Fixpoint finally_release {A} (m : coro A) : coro A :=
  match m with
  | Ret a => Release (Ret a)
  | Raise e => Release (Raise e)
  | Read k => Read (fun s => finally_release (k s))
  | Update f k => Update f (finally_release k)
  | Time k => Time (fun t => finally_release (k t))
  | Monotonic k => Monotonic (fun t => finally_release (k t))
  | Ask url k => Ask url (fun r => finally_release (k r))
  | Acquire k => Acquire (fun b => finally_release (k b))
  | Release k => Release (finally_release k)
  end.

Definition lift {A} (r : result A) : coro A :=
  match r with Ok a => Ret a | Err e => Raise e end.

(** ** The event loop

    The tasks of one process. Every operation is a step of its own, so a task may be
    interrupted anywhere, which is more often than [asyncio] does. The wall clock may jump;
    the monotonic clock does not go back. *)
Record Loop (A : Type) := mkLoop {
  shared : S;
  locked : bool;
  wall : datetime;
  monotonic : Z;
  tasks : list (coro A);
}.
#[global] Arguments mkLoop {A} shared locked wall monotonic tasks.
#[global] Arguments shared {A} _.
#[global] Arguments locked {A} _.
#[global] Arguments wall {A} _.
#[global] Arguments monotonic {A} _.
#[global] Arguments tasks {A} _.

(** One operation of a task: [answers] are the replies the network may give. *)
Inductive op_step {A} (answers : string -> Reply -> Prop) (wall mono : Z) :
    S * bool * coro A -> S * bool * coro A -> Prop :=
  | op_read s l k : op_step answers wall mono (s, l, Read k) (s, l, k s)
  | op_update s l f k : op_step answers wall mono (s, l, Update f k) (f s, l, k)
  | op_time s l k : op_step answers wall mono (s, l, Time k) (s, l, k wall)
  | op_monotonic s l k : op_step answers wall mono (s, l, Monotonic k) (s, l, k mono)
  | op_answer s l url k r :
      answers url r -> op_step answers wall mono (s, l, Ask url k) (s, l, k (Ok r))
  | op_failure s l url k e : op_step answers wall mono (s, l, Ask url k) (s, l, k (Err e))
  | op_acquired s k : op_step answers wall mono (s, false, Acquire k) (s, true, k Acquired)
  | op_timed_out s l k : op_step answers wall mono (s, l, Acquire k) (s, l, k TimedOut)
  | op_cancelled s l k : op_step answers wall mono (s, l, Acquire k) (s, l, k Cancelled)
  | op_release s l k : op_step answers wall mono (s, l, Release k) (s, false, k).

(** Time passes, a coroutine of [starts] begins, or a task runs one operation. *)
Inductive loop_step {A} (answers : string -> Reply -> Prop) (starts : coro A -> Prop) :
    Loop A -> Loop A -> Prop :=
  | step_clock s l w m ts w' m' :
      m <= m' -> loop_step answers starts (mkLoop s l w m ts) (mkLoop s l w' m' ts)
  | step_start s l w m ts t :
      starts t -> loop_step answers starts (mkLoop s l w m ts) (mkLoop s l w m (ts ++ [t]))
  | step_task s l w m ts i t s' l' t' :
      ts !! i = Some t -> op_step answers w m (s, l, t) (s', l', t') ->
      loop_step answers starts (mkLoop s l w m ts) (mkLoop s' l' w m (<[i := t']> ts)).

Definition loop_run {A} answers starts : Loop A -> Loop A -> Prop :=
  rtc (loop_step answers starts).

(** ** One coroutine alone

    What it does when nothing interrupts it: the network answers from a function of the
    address and of the number of requests made before, and so do the clocks. *)
Section Alone.
Context (net : nat -> string -> result Reply) (wall_at mono_at : nat -> Z).

Fixpoint run_alone {A} (m : coro A) (n : nat) (s : S) : result A * nat * S :=
  match m with
  | Ret a => (Ok a, n, s)
  | Raise e => (Err e, n, s)
  | Read k => run_alone (k s) n s
  | Update f k => run_alone k n (f s)
  | Time k => run_alone (k (wall_at n)) n s
  | Monotonic k => run_alone (k (mono_at n)) n s
  | Ask url k => run_alone (k (net n url)) (Datatypes.S n) s
  | Acquire k => run_alone (k Acquired) n s
  | Release k => run_alone k n s
  end.

Lemma run_bind {A B} (f : A -> coro B) m : forall n s,
  run_alone (m ≫= f) n s =
  match run_alone m n s with
  | (Ok a, n', s') => run_alone (f a) n' s'
  | (Err e, n', s') => (Err e, n', s')
  end.
Proof.
  change (m ≫= f) with (coro_bind A B f m).
  induction m as [a|e|k IH|g k IH|k IH|k IH|url k IH|k IH|k IH];
    cbn [coro_bind run_alone]; intros n s; auto.
Qed.

Lemma run_map {A B} (g : A -> B) m n s :
  run_alone (g <$> m) n s =
  match run_alone m n s with
  | (Ok a, n', s') => (Ok (g a), n', s')
  | (Err e, n', s') => (Err e, n', s')
  end.
Proof. exact (run_bind (fun a => Ret (g a)) m n s). Qed.

Lemma run_except {A} (classes : exn -> bool) m (h : exn -> coro A) : forall n s,
  run_alone (coro_except classes m h) n s =
  match run_alone m n s with
  | (Err e, n', s') => if classes e then run_alone (h e) n' s' else (Err e, n', s')
  | r => r
  end.
Proof.
  induction m as [a|e|k IH|g k IH|k IH|k IH|url k IH|k IH|k IH];
    cbn [coro_except run_alone]; intros n s; auto. by destruct (classes e).
Qed.

Lemma run_finally {A} m : forall n s,
  run_alone (finally_release m) n s = run_alone (A := A) m n s.
Proof.
  induction m as [a|e|k IH|g k IH|k IH|k IH|url k IH|k IH|k IH];
    cbn [finally_release run_alone]; intros n s; auto.
Qed.

Lemma run_lift {A} (r : result A) n s : run_alone (lift r) n s = (r, n, s).
Proof. by destruct r. Qed.
End Alone.

(** A task step by step, at a fixed time, until it ends: it takes the lock if it is free and
    gives up otherwise. *)
Section Stepping.
Context (net : nat -> string -> result Reply) (w m : Z).

Definition next_op {A} (x : nat * S * bool * coro A) : option (nat * S * bool * coro A) :=
  let '(n, s, l, t) := x in
  match t with
  | Ret _ | Raise _ => None
  | Read k => Some (n, s, l, k s)
  | Update f k => Some (n, f s, l, k)
  | Time k => Some (n, s, l, k w)
  | Monotonic k => Some (n, s, l, k m)
  | Ask url k => Some (Datatypes.S n, s, l, k (net n url))
  | Acquire k => Some (n, s, true, k (if l then TimedOut else Acquired))
  | Release k => Some (n, s, false, k)
  end.

Fixpoint step_through {A} (fuel : nat) (x : nat * S * bool * coro A) : nat * S * bool * coro A :=
  match fuel with
  | O => x
  | Datatypes.S fuel => match next_op x with Some x' => step_through fuel x' | None => x end
  end.

Lemma next_op_sound {A} (answers : string -> Reply -> Prop) (x y : nat * S * bool * coro A) :
  (forall n url r, net n url = Ok r -> answers url r) -> next_op x = Some y ->
  op_step answers w m (x.1.1.2, x.1.2, x.2) (y.1.1.2, y.1.2, y.2).
Proof.
  intros Hnet. destruct x as [[[n s] l] t]. destruct t as [a|e|k|f k|k|k|url k|k|k]; cbn;
    try discriminate; intros [= <-]; cbn; try constructor.
  - destruct (net n url) as [r|e] eqn:Hr; constructor. by eapply Hnet.
  - destruct l; constructor.
Qed.
End Stepping.

(** ** Reasoning about interleavings

    [cwp own seen Q E m]: from a moment where the task holds the lock exactly when [own] is
    [Some (v, n)], [v] being the value of the attribute [guarded], and has seen the monotonic
    clock at [seen], [m] keeps [I] at each of its operations whatever the other tasks do
    between them, changes [guarded] only while it holds the lock and by a change that
    [allowed] permits at a time it has seen, and ends in [Q] or raises in [E]. The wall clock
    shows times of [clock]. Where questions are not [free], the task only asks the network
    while it holds the lock, and at most [n] times, or [quota] times after it changed
    [guarded]. *)
Section Logic.
Context (I : S -> Prop) (answers : string -> Reply -> Prop).
Context (guarded : S -> Z) (allowed : Z -> Z -> Prop).
Context (clock : datetime -> Prop) (free : Prop) (quota : nat).

Definition spends (own own' : option (Z * nat)) : Prop :=
  (free /\ own' = own) \/ exists v n, own = Some (v, Datatypes.S n) /\ own' = Some (v, n).

Fixpoint cwp {A} (own : option (Z * nat)) (seen : Z) (Q : option (Z * nat) -> A -> Prop)
    (E : option (Z * nat) -> exn -> Prop) (m : coro A) : Prop :=
  match m with
  | Ret a => Q own a
  | Raise e => E own e
  | Read k => forall s, I s -> (forall v n, own = Some (v, n) -> guarded s = v) -> cwp own seen Q E (k s)
  | Update f k =>
      (forall s, I s -> I (f s)) /\
      (((forall s, guarded (f s) = guarded s) /\ cwp own seen Q E k) \/
       exists v n v', own = Some (v, n) /\ (forall s, guarded (f s) = v') /\ allowed v v' /\ v' <= seen /\
         cwp (Some (v', quota)) seen Q E k)
  | Time k => forall t, clock t -> cwp own seen Q E (k t)
  | Monotonic k => forall t, seen <= t -> cwp own t Q E (k t)
  | Ask url k =>
      exists own', spends own own' /\
      (forall r, answers url r -> cwp own' seen Q E (k (Ok r))) /\
      (forall e, cwp own' seen Q E (k (Err e)))
  | Acquire k =>
      own = None /\ (forall v, cwp (Some (v, O)) seen Q E (k Acquired)) /\
      cwp None seen Q E (k TimedOut) /\ cwp None seen Q E (k Cancelled)
  | Release k => own <> None /\ cwp None seen Q E k
  end.

(** One case of the inductions on a coroutine: an update, a question, or the lock. *)
Local Ltac coro_case Hw :=
  lazymatch type of Hw with
  | (_ /\ (_ \/ _)) =>
      let Hf := fresh in let Hg := fresh in let Hk := fresh in
      destruct Hw as [Hf [[Hg Hk]|(?v & ?n & ?v' & ? & Hg & ? & ? & Hk)]]; (split; [exact Hf|]);
        [left; split; [exact Hg|]; eauto|right; eexists _, _, _; split_and!; eauto]
  | (exists _, spends _ _ /\ _) =>
      destruct Hw as (?own' & ? & ? & ?); eexists; split_and!; [eassumption|intros; eauto..]
  | (_ = None /\ _) => destruct Hw as (? & ? & ? & ?); split_and!; intros; eauto
  | (_ <> None /\ _) => destruct Hw as [? ?]; split; eauto
  end.

Lemma cwp_mono {A} m : forall own seen (Q Q' : option (Z * nat) -> A -> Prop) E E',
  cwp own seen Q E m -> (forall o a, Q o a -> Q' o a) -> (forall o e, E o e -> E' o e) ->
  cwp own seen Q' E' m.
Proof.
  induction m as [a|e|k IH|f k IH|k IH|k IH|url k IH|k IH|k IH];
    cbn [cwp]; intros own seen Q Q' E E' Hw HQ HE; eauto; coro_case Hw.
Qed.

(** What was seen of the clock earlier is still true. *)
Lemma cwp_seen {A} m : forall own seen seen' (Q : option (Z * nat) -> A -> Prop) E,
  cwp own seen Q E m -> seen <= seen' -> cwp own seen' Q E m.
Proof.
  induction m as [a|e|k IH|f k IH|k IH|k IH|url k IH|k IH|k IH];
    cbn [cwp]; intros own seen seen' Q E Hw Hle; eauto; try solve [coro_case Hw; lia].
  intros t Ht. eapply IH; [apply Hw|]; lia.
Qed.

(** A coroutine that ends with what its continuation starts from. *)
Lemma cwp_bind {A B} (f : A -> coro B) m : forall own seen Q E,
  cwp own seen (fun o a => cwp o seen Q E (f a)) E m -> cwp own seen Q E (m ≫= f).
Proof.
  change (m ≫= f) with (coro_bind A B f m).
  induction m as [a|e|k IH|g k IH|k IH|k IH|url k IH|k IH|k IH];
    cbn [coro_bind cwp]; intros own seen Q E Hw; eauto; try solve [coro_case Hw].
  intros t Ht. apply IH. eapply cwp_mono; [apply Hw; exact Ht| |done].
  intros o a Ha. eapply cwp_seen; [exact Ha|lia].
Qed.

Lemma cwp_except {A} (classes : exn -> bool) m : forall (h : exn -> coro A) own seen Q E,
  cwp own seen Q (fun o e => if classes e then cwp o seen Q E (h e) else E o e) m ->
  cwp own seen Q E (coro_except classes m h).
Proof.
  induction m as [a|e|k IH|g k IH|k IH|k IH|url k IH|k IH|k IH];
    cbn [coro_except cwp]; intros h own seen Q E Hw; eauto; try solve [coro_case Hw].
  - destruct (classes e); exact Hw.
  - intros t Ht. apply IH. eapply cwp_mono; [apply Hw; exact Ht|done|].
    intros o e He. simpl in *. destruct (classes e); [|exact He]. eapply cwp_seen; [exact He|lia].
Qed.

(** A body that holds the lock at its end, however it ends, gives it back. *)
Lemma cwp_finally {A} m : forall own seen (Q : option (Z * nat) -> A -> Prop) E,
  cwp own seen (fun o a => o <> None /\ Q None a) (fun o e => o <> None /\ E None e) m ->
  cwp own seen Q E (finally_release m).
Proof.
  induction m as [a|e|k IH|g k IH|k IH|k IH|url k IH|k IH|k IH];
    cbn [finally_release cwp]; intros own seen Q E Hw; eauto; coro_case Hw.
Qed.

(** *** Every interleaving

    A task outside the lock, or inside it with the attribute as it left it and what it may
    still ask. *)
Definition outside {A} (mono : Z) (Q : A -> Prop) (t : coro A) : Prop :=
  cwp None mono (fun o a => o = None /\ Q a) (fun o _ => o = None) t.

Definition inside {A} (s : S) (n : nat) (mono : Z) (Q : A -> Prop) (t : coro A) : Prop :=
  cwp (Some (guarded s, n)) mono (fun o a => o = None /\ Q a) (fun o _ => o = None) t.

(** A task of the loop, the holder of the lock or another. *)
Definition role {A} (holder : option (nat * nat)) (s : S) (m : Z) (Q : A -> Prop) (i : nat)
    (t : coro A) : Prop :=
  match holder with
  | Some (j, n) => if decide (j = i) then inside s n m Q t else outside m Q t
  | None => outside m Q t
  end.

Definition roles {A} (h : option (nat * nat)) s m (Q : A -> Prop) (ts : list (coro A)) : Prop :=
  (forall i n, h = Some (i, n) -> is_Some (ts !! i)) /\
  forall i t, ts !! i = Some t -> role h s m Q i t.

(** The shared state is sound, and the lock is held by one task when it is held. *)
Record held_by {A} (Q : A -> Prop) (holder : option (nat * nat)) (L : Loop A) : Prop := mkHeldBy {
  ok_shared : I (shared L);
  ok_lock : locked L = true <-> holder <> None;
  ok_roles : roles holder (shared L) (monotonic L) Q (tasks L);
}.

Definition loop_ok {A} (Q : A -> Prop) (L : Loop A) : Prop := exists holder, held_by Q holder L.

(** What the holder of the lock may still ask. *)
Definition allowance (holder : option (nat * nat)) : nat :=
  match holder with Some (_, n) => n | None => O end.

Lemma outside_later {A} m m' (Q : A -> Prop) t : outside m Q t -> m <= m' -> outside m' Q t.
Proof. apply cwp_seen. Qed.

Lemma role_later {A} h s m m' (Q : A -> Prop) i t : role h s m Q i t -> m <= m' -> role h s m' Q i t.
Proof. unfold role. destruct h as [[j n]|]; [destruct (decide (j = i))|]; apply cwp_seen. Qed.

Lemma role_guarded {A} holder s s' m (Q : A -> Prop) i t :
  guarded s' = guarded s -> role holder s m Q i t -> role holder s' m Q i t.
Proof. unfold role, inside. intros ->. done. Qed.

Lemma role_other {A} h s m (Q : A -> Prop) i t :
  (forall n, h <> Some (i, n)) -> role h s m Q i t <-> outside m Q t.
Proof.
  unfold role. intros Hi. destruct h as [[j n]|]; [|done].
  rewrite decide_False; [done|]. intros ->. by apply (Hi n).
Qed.

Lemma role_self {A} s m (Q : A -> Prop) i n t : role (Some (i, n)) s m Q i t <-> inside s n m Q t.
Proof. unfold role. by rewrite decide_True. Qed.

(** Whether a task asks the network next. *)
Definition asks {A} (t : coro A) : nat := match t with Ask _ _ => 1%nat | _ => O end.

(** A change of the guarded attribute between two moments, if there was one. *)
Definition changes (s s' : S) : list Z :=
  if decide (guarded s' = guarded s) then [] else [guarded s'].

(** What one operation of a task does: the lock it held or takes, the change of [guarded] it
    may make, what it asks, and what is left of it. *)
Lemma op_ok {A} (Q : A -> Prop) w m s l t s' l' t' own :
  op_step answers w m (s, l, t) (s', l', t') ->
  I s -> clock w -> (forall v n, own = Some (v, n) -> v = guarded s) ->
  cwp own m (fun o a => o = None /\ Q a) (fun o _ => o = None) t ->
  I s' /\
  ((exists v n n', own = Some (v, n) /\ l' = l /\ inside s' n' m Q t' /\
      (guarded s' = guarded s \/ allowed (guarded s) (guarded s') /\ guarded s' <= m) /\
      (free \/ ((forall v v', allowed v v' -> v' <> v) ->
         (asks t + n' <= n + quota * length (changes s s'))%nat)))
   \/ (own <> None /\ l' = false /\ s' = s /\ outside m Q t' /\ asks t = O)
   \/ (own = None /\ l' = l /\ guarded s' = guarded s /\ outside m Q t' /\ (free \/ asks t = O))
   \/ (own = None /\ l = false /\ l' = true /\ s' = s /\ inside s' 0 m Q t' /\ asks t = O)).
Proof.
  intros Hop HI Hclock Hown Hw. unfold inside, outside in *.
  assert (Hheld : forall v n, own = Some (v, n) -> guarded s = v) by (intros; symmetry; eauto).
  inversion Hop; subst; cbn [cwp] in Hw.
  all: try (match type of Hw with
    | forall s, _ -> (forall v n, _) -> _ => specialize (Hw _ HI Hheld)
    | forall t : datetime, clock t -> _ => specialize (Hw w Hclock)
    | forall t, _ <= t -> _ => specialize (Hw m ltac:(lia))
    end).
  all: try (split; [done|];
    destruct own as [[v n]|]; [left; exists v, n, n; rewrite (Hheld v n eq_refl) in *|right; right; left];
    cbn [asks]; split_and!; auto; try (right; intros; lia); done).
  - destruct Hw as [Hf [[Hg Hk]|(v & n & v' & -> & Hg & Ha & Hs & Hk)]]; (split; [by apply Hf|]).
    + destruct own as [[v n]|].
      * left. exists v, n, n. rewrite Hg, (Hheld v n eq_refl). cbn [asks]. split_and!; auto. right; intros; lia.
      * right; right; left. rewrite Hg. cbn [asks]. split_and!; auto.
    + left. exists v, n, quota. rewrite Hg, (Hheld v n eq_refl). cbn [asks]. split_and!; auto.
      right. intros Hirr. unfold changes. rewrite Hg, (Hheld v n eq_refl).
      rewrite decide_False by by apply Hirr. cbn. lia.
  - destruct Hw as (own' & Hsp & Hw & _). specialize (Hw r ltac:(assumption)). split; [done|].
    destruct Hsp as [[Hfree ->]|(v & n & -> & ->)].
    + destruct own as [[v n]|]; [left; exists v, n, n; rewrite (Hheld v n eq_refl)|right; right; left];
        split_and!; auto.
    + left. exists v, (Datatypes.S n), n. rewrite (Hheld v _ eq_refl). cbn [asks]. split_and!; auto.
      right; intros; lia.
  - destruct Hw as (own' & Hsp & _ & Hw). specialize (Hw e). split; [done|].
    destruct Hsp as [[Hfree ->]|(v & n & -> & ->)].
    + destruct own as [[v n]|]; [left; exists v, n, n; rewrite (Hheld v n eq_refl)|right; right; left];
        split_and!; auto.
    + left. exists v, (Datatypes.S n), n. rewrite (Hheld v _ eq_refl). cbn [asks]. split_and!; auto.
      right; intros; lia.
  - destruct Hw as (-> & Ha & _ & _). split; [done|]. right; right; right. split_and!; auto.
  - destruct Hw as (-> & _ & Ht & _). split; [done|]. right; right; left. split_and!; auto.
  - destruct Hw as (-> & _ & _ & Hc). split; [done|]. right; right; left. split_and!; auto.
  - destruct Hw as [Ho Hk]. split; [done|]. right; left. split_and!; auto.
Qed.

(** *** What one step of the loop keeps *)
Definition guarded_step (s s' : S) (m : Z) : Prop :=
  guarded s' = guarded s \/ (allowed (guarded s) (guarded s') /\ guarded s' <= m).

Lemma others {A} (i : nat) (t t' u : coro A) j (ts : list (coro A)) :
  ts !! i = Some t -> <[i := t']> ts !! j = Some u ->
  (j = i /\ u = t') \/ (j <> i /\ ts !! j = Some u).
Proof.
  intros Hi%lookup_lt_Some Hj. destruct (decide (j = i)) as [->|Hne].
  - rewrite list_lookup_insert_eq in Hj by done. left. split; congruence.
  - rewrite list_lookup_insert_ne in Hj by done. by right.
Qed.

Lemma still_there {A} (i : nat) (t' : coro A) j (ts : list (coro A)) :
  is_Some (ts !! j) -> is_Some (<[i := t']> ts !! j).
Proof. rewrite !lookup_lt_is_Some. by rewrite length_insert. Qed.

(** A task moved: it has its new role, the others keep theirs. *)
Lemma roles_insert {A} h h' s s' m (Q : A -> Prop) ts i t t' :
  roles h s m Q ts -> ts !! i = Some t -> role h' s' m Q i t' ->
  (forall j u, j <> i -> role h s m Q j u -> role h' s' m Q j u) ->
  (forall j n, h' = Some (j, n) -> (exists n, h = Some (j, n)) \/ j = i) ->
  roles h' s' m Q (<[i := t']> ts).
Proof.
  intros [Hh Hts] Hi Ht' Hkeep Hh'. split.
  - intros j n Hj. apply still_there. destruct (Hh' j n Hj) as [[n' Hold]| ->]; [by eapply Hh|eauto].
  - intros j u Hj. destruct (others i t t' u j ts Hi Hj) as [[-> ->]|[Hne Hu]]; [done|].
    apply Hkeep; [done|by apply Hts].
Qed.

(** The operation of a task: who holds the lock after it, and what was asked. *)
Lemma loop_task_ok {A} (Q : A -> Prop) h s l w m ts i t s' l' t' :
  ts !! i = Some t -> op_step answers w m (s, l, t) (s', l', t') -> clock w ->
  held_by Q h (mkLoop s l w m ts) ->
  exists h', held_by Q h' (mkLoop s' l' w m (<[i := t']> ts)) /\ guarded_step s s' m /\
    (free \/ ((forall v v', allowed v v' -> v' <> v) ->
       (asks t + allowance h' <= allowance h + quota * length (changes s s'))%nat)).
Proof.
  intros Hi Hop Hclock [HI Hlock Hts]. simpl in *. pose proof (proj2 Hts i t Hi) as Hrole.
  unfold guarded_step.
  assert (Hcase : (exists n, h = Some (i, n)) \/ forall n, h <> Some (i, n)).
  { destruct h as [[j n]|]; [|by right]. destruct (decide (j = i)) as [->|]; [by left; exists n|].
    right. congruence. }
  destruct Hcase as [[n ->]|Hne].
  - apply role_self in Hrole.
    destruct (op_ok Q w m s l t s' l' t' (Some (guarded s, n)) Hop HI Hclock) as [HI' Hcases];
      [by intros ? ? [= <- _]|exact Hrole|].
    destruct Hcases as [(v & n0 & n' & [= <- <-] & -> & Hins & Hg & Hp)|
      [(_ & -> & -> & Hout & Hq)|[(? & _)|(? & _)]]]; [| |done..].
    + exists (Some (i, n')). split; [|by split]. constructor; [done|cbn; rewrite Hlock; by split|].
      eapply roles_insert; [done..|by apply role_self| |].
      * intros j u Hj Hu. rewrite role_other in Hu |- * by congruence. done.
      * intros j n1 [= <- <-]. by right.
    + exists None. split; [|split; [by left|right; rewrite Hq; cbn; lia]].
      constructor; [done|by split; [|intros []]|].
      eapply roles_insert; [done..| | |]; [done| |done].
      intros j u Hj Hu. rewrite role_other in Hu by congruence. done.
  - rewrite role_other in Hrole by done.
    destruct (op_ok Q w m s l t s' l' t' None Hop HI Hclock) as [HI' Hcases]; [done|exact Hrole|].
    destruct Hcases as [(? & ? & ? & ? & _)|[(? & _)|
      [(_ & -> & Hg & Hout & Hq)|(_ & -> & -> & -> & Hins & Hq)]]]; [done..| |].
    + exists h. split; [|split; [by left|destruct Hq as [?| ->]; [by left|right; cbn; lia]]].
      constructor; [done|done|].
      eapply roles_insert; [done..| | |]; [by apply role_other| |eauto].
      intros j u _. by apply role_guarded.
    + assert (h = None) as ->.
      { destruct h; [|done]. assert (Hf : false = true) by (by apply Hlock). done. }
      exists (Some (i, O)). split; [|split; [by left|right; rewrite Hq; cbn; lia]].
      constructor; [done|done|].
      eapply roles_insert; [done..|by apply role_self| |].
      * intros j u Hj Hu. rewrite role_other by congruence. done.
      * intros j n1 [= <- <-]. by right.
Qed.

Lemma loop_clock_ok {A} (Q : A -> Prop) h s l w m ts w' m' :
  m <= m' -> held_by Q h (mkLoop s l w m ts) -> held_by Q h (mkLoop s l w' m' ts).
Proof.
  intros Hm [HI Hlock [Hh Hts]]. constructor; [done|done|]. simpl in *. split; [done|].
  intros i t Ht. by eapply role_later; [apply Hts|].
Qed.

Lemma loop_start_ok {A} (Q : A -> Prop) h s l w m ts t :
  outside m Q t -> held_by Q h (mkLoop s l w m ts) -> held_by Q h (mkLoop s l w m (ts ++ [t])).
Proof.
  intros Ht [HI Hlock [Hh Hts]]. constructor; [done|done|]. simpl in *. split.
  - intros i n Hi. destruct (Hh i n Hi) as [u Hu]. exists u. by apply lookup_app_l_Some.
  - intros i t' Ht'. apply lookup_app_Some in Ht' as [Hold|[Hge Hnew]]; [by apply Hts|].
    apply list_lookup_singleton_Some in Hnew as [? <-].
    apply role_other; [|done]. intros n Heq. destruct (Hh i n Heq) as [? Hl].
    apply lookup_lt_Some in Hl. lia.
Qed.

Lemma loop_ok_step {A} (Q : A -> Prop) (starts : coro A -> Prop) L L' :
  (forall w, clock w) -> (forall t m, starts t -> outside m Q t) ->
  loop_step answers starts L L' -> loop_ok Q L ->
  loop_ok Q L' /\ monotonic L <= monotonic L' /\
  guarded_step (shared L) (shared L') (monotonic L').
Proof.
  intros Hclock Hstarts Hstep [h Hok]. destruct Hstep as
    [s l w m ts w' m' Hm|s l w m ts t Ht|s l w m ts i t s' l' t' Hi Hop].
  - split; [exists h; by eapply loop_clock_ok|]. split; [done|by left].
  - split; [exists h; apply loop_start_ok; auto|]. split; [simpl; lia|by left].
  - destruct (loop_task_ok Q h s l w m ts i t s' l' t' Hi Hop (Hclock w) Hok) as (h' & Hok' & Hg & _).
    split; [by exists h'|]. split; [simpl; lia|exact Hg].
Qed.

(** *** Runs, with the values the guarded attribute took, the newest first. *)
Inductive history {A} (starts : coro A -> Prop) : Loop A -> list Z -> Loop A -> Prop :=
  | history_start L : history starts L [] L
  | history_step L l L' L'' :
      history starts L l L' -> loop_step answers starts L' L'' ->
      history starts L (changes (shared L') (shared L'') ++ l) L''.

(** Runs where the wall clock shows times of [clock] only, with the number of questions to
    the network too. *)
Inductive counted {A} (starts : coro A -> Prop) (L : Loop A) : nat -> list Z -> Loop A -> Prop :=
  | counted_start : clock (wall L) -> counted starts L 0 [] L
  | counted_clock n l s lk w m ts w' m' :
      counted starts L n l (mkLoop s lk w m ts) -> m <= m' -> clock w' ->
      counted starts L n l (mkLoop s lk w' m' ts)
  | counted_begin n l s lk w m ts t :
      counted starts L n l (mkLoop s lk w m ts) -> starts t ->
      counted starts L n l (mkLoop s lk w m (ts ++ [t]))
  | counted_task n l s lk w m ts i t s' lk' t' :
      counted starts L n l (mkLoop s lk w m ts) -> ts !! i = Some t ->
      op_step answers w m (s, lk, t) (s', lk', t') ->
      counted starts L (asks t + n) (changes s s' ++ l) (mkLoop s' lk' w m (<[i := t']> ts)).

(** A task stepped through alone is a history. *)
Lemma step_through_history {A} net w m (starts : coro A -> Prop) fuel : forall x L0 l,
  (forall n url r, net n url = Ok r -> answers url r) ->
  history starts L0 l (mkLoop x.1.1.2 x.1.2 w m [x.2]) ->
  let y := step_through net w m fuel x in
  exists l', history starts L0 l' (mkLoop y.1.1.2 y.1.2 w m [y.2]).
Proof.
  induction fuel as [|fuel IH]; cbn [step_through]; intros x L0 l Hnet Hh; [by exists l|].
  destruct (next_op net w m x) as [y|] eqn:Hy; [|by exists l].
  eapply IH; [exact Hnet|]. eapply history_step; [exact Hh|].
  eapply (step_task answers starts _ _ w m [x.2] 0 x.2); [done|].
  by eapply next_op_sound.
Qed.

(** So is it with the questions counted, the wall clock at a time of [clock]. *)
Lemma step_through_counted {A} net w m (starts : coro A -> Prop) L fuel : forall x l,
  (forall n url r, net n url = Ok r -> answers url r) ->
  counted starts L x.1.1.1 l (mkLoop x.1.1.2 x.1.2 w m [x.2]) ->
  let y := step_through net w m fuel x in
  exists l', counted starts L y.1.1.1 l' (mkLoop y.1.1.2 y.1.2 w m [y.2]).
Proof.
  induction fuel as [|fuel IH]; cbn [step_through]; intros x l Hnet Hh; [by exists l|].
  destruct (next_op net w m x) as [y|] eqn:Hy; [|by exists l].
  pose proof (next_op_sound net w m answers x y Hnet Hy) as Hop.
  eapply IH; [exact Hnet|].
  replace y.1.1.1 with (asks x.2 + x.1.1.1)%nat.
  - exact (counted_task starts L _ _ _ _ w m [x.2] 0 x.2 _ _ _ Hh eq_refl Hop).
  - clear -Hy. destruct x as [[[n s] lk] t]. destruct t; cbn in Hy; try discriminate;
      by injection Hy as <-.
Qed.

(** Each value is allowed after the one before it. *)
Fixpoint chained (first : Z) (l : list Z) : Prop :=
  match l with
  | [] => True
  | v :: rest => allowed (List.hd first rest) v /\ chained first rest
  end.

(** The changes so far: each was allowed, none is later than the clock, the last one shows. *)
Definition chain (first : Z) (l : list Z) (last mono : Z) : Prop :=
  chained first l /\ Forall (fun v => v <= mono) l /\ last = List.hd first l.

Lemma chain_step first l s s' m m' :
  chain first l (guarded s) m -> m <= m' -> guarded_step s s' m' ->
  chain first (changes s s' ++ l) (guarded s') m'.
Proof.
  intros (Hc & Hle & Hg) Hm Hstep.
  assert (Hle' : Forall (fun v => v <= m') l) by (eapply Forall_impl; [exact Hle|]; simpl; lia).
  unfold changes. destruct (decide (guarded s' = guarded s)) as [Heq|Hne].
  - cbn [app]. split_and!; [done..|congruence].
  - destruct Hstep as [?|[Ha Hb]]; [done|]. cbn [app]. split_and!; [|by constructor|done].
    cbn [chained]. by rewrite <- Hg.
Qed.

Lemma history_ok {A} (Q : A -> Prop) (starts : coro A -> Prop) L l L' :
  (forall w, clock w) -> (forall t m, starts t -> outside m Q t) ->
  history starts L l L' -> loop_ok Q L ->
  loop_ok Q L' /\ monotonic L <= monotonic L' /\
  chained (guarded (shared L)) l /\ Forall (fun v => v <= monotonic L') l /\
  guarded (shared L') = List.hd (guarded (shared L)) l.
Proof.
  intros Hclock Hstarts Hh Hok.
  enough (loop_ok Q L' /\ monotonic L <= monotonic L' /\
    chain (guarded (shared L)) l (guarded (shared L')) (monotonic L')) as (? & ? & ? & ? & ?) by done.
  induction Hh as [L|L l L' L'' Hh IH Hstep]; [split; [done|]; split; [lia|]; by split|].
  destruct (IH Hok) as (Hok' & Hm & Hc). clear IH.
  destruct (loop_ok_step Q starts L' L'' Hclock Hstarts Hstep Hok') as (Hok'' & Hm' & Hstep').
  split; [exact Hok''|]. split; [lia|]. by eapply chain_step.
Qed.

(** Where questions are metered, there are no more than the changes paid for. *)
Lemma counted_ok {A} (Q : A -> Prop) (starts : coro A -> Prop) L n l L' :
  ~ free -> (forall v v', allowed v v' -> v' <> v) ->
  (forall t m, starts t -> outside m Q t) ->
  counted starts L n l L' -> held_by Q None L ->
  (n <= quota * length l)%nat /\ monotonic L <= monotonic L' /\
  chain (guarded (shared L)) l (guarded (shared L')) (monotonic L').
Proof.
  intros Hfree Hirr Hstarts Hc Hok.
  enough (exists h, held_by Q h L' /\ clock (wall L') /\
    (n + allowance h <= quota * length l)%nat /\ monotonic L <= monotonic L' /\
    chain (guarded (shared L)) l (guarded (shared L')) (monotonic L'))
    as (h & _ & _ & ? & ? & ?) by (split_and!; [lia|done|done]).
  induction Hc as [Hw|n l s lk w m ts w' m' Hc IH Hm Hw|n l s lk w m ts t Hc IH Ht|
    n l s lk w m ts i t s' lk' t' Hc IH Hi Hop].
  - exists None. split_and!; [done|done|cbn; lia|lia|by split].
  - destruct IH as (h & Hh & _ & Hn & Hmo & Hch). simpl in *. exists h.
    split_and!; [by eapply loop_clock_ok|done|done|lia|].
    destruct Hch as (? & Hle & ?). split_and!; [done| |done].
    eapply Forall_impl; [exact Hle|]. simpl. lia.
  - destruct IH as (h & Hh & Hw & Hn & Hmo & Hch). simpl in *. exists h.
    split_and!; [apply loop_start_ok; auto|done..].
  - destruct IH as (h & Hh & Hw & Hn & Hmo & Hch). simpl in *.
    destruct (loop_task_ok Q h s lk w m ts i t s' lk' t' Hi Hop Hw Hh) as (h' & Hh' & Hg & [?|Hp]); [done|].
    specialize (Hp Hirr). exists h'. split_and!; [done|done| |done|].
    + rewrite length_app. lia.
    + eapply chain_step; [exact Hch|lia|exact Hg].
Qed.

(** *** The lock never blocks for good: the task that holds it can run, and does not wait
    for the lock. *)
Lemma holder_runs {A} (Q : A -> Prop) (L : Loop A) w :
  loop_ok Q L -> locked L = true ->
  exists i t next, tasks L !! i = Some t /\ (forall k, t <> Acquire k) /\
    op_step answers w (monotonic L) (shared L, true, t) next.
Proof.
  intros [h [HI Hlock [Hh Hts]]] Hl. apply Hlock in Hl. destruct h as [[i n]|]; [|done].
  destruct (Hh i n eq_refl) as [t Ht]. specialize (Hts i t Ht).
  apply role_self in Hts. unfold inside in Hts.
  exists i, t. destruct t as [a|e|k|f k|k|k|url k|k|k]; cbn [cwp] in Hts.
  - by destruct Hts.
  - done.
  - eexists. split; [done|]. split; [done|]. constructor.
  - eexists. split; [done|]. split; [done|]. constructor.
  - eexists. split; [done|]. split; [done|]. constructor.
  - eexists. split; [done|]. split; [done|]. constructor.
  - eexists. split; [done|]. split; [done|]. apply (op_failure _ _ _ _ _ _ _ CancelledError).
  - by destruct Hts.
  - eexists. split; [done|]. split; [done|]. constructor.
Qed.

End Logic.
End Coroutines.
