(* ===== verification/Authentication.v ===== *)
(** Authentication: the bearer token of a request and the validator of tokens
    ([core/auth_jwt.py]) with its caches of the identity provider's metadata, the claims
    ([core/auth_claims.py]), the dependencies of the handlers ([core/auth.py]) and the check
    of the metadata when the application starts ([core/auth_metadata.py]). JSON numbers are
    integers here, and the monotonic clock, the lifetimes and the cooldown whole units, where
    Python has floats. *)
From S2P Require Import Prelude Errors Session Schema Users RateLimitPolicies RateLimitIngress.
From S2P Require Import Settings Coroutines.

(** A JSON object as Python keeps it: its members, each key once. *)
Abbreviation dict := (list (string * json)) (only parsing).

(** [d.get(k)] *)
Definition dict_get (k : string) (d : dict) : option json :=
  snd <$> List.find (fun kv => String.eqb kv.1 k) d.

Definition as_dict (j : json) : option dict :=
  match j with JObj fields => Some fields | _ => None end.

(** [isinstance(x, int)]: booleans are integers too. *)
Definition as_int (j : option json) : option Z :=
  match j with
  | Some (JInt n) => Some n
  | Some (JBool b) => Some (if b then 1 else 0)
  | _ => None
  end.

Definition as_str (j : option json) : option string :=
  match j with Some (JStr s) => Some s | _ => None end.

(** [x == y] of two values from JSON: [True] is 1, and the order of an object's members does
    not matter. *)
Fixpoint py_eq (x y : json) {struct x} : bool :=
  match x, y with
  | JNull, JNull => true
  | JStr s, JStr s' => String.eqb s s'
  | (JInt _ | JBool _), (JInt _ | JBool _) => bool_decide (as_int (Some x) = as_int (Some y))
  | JArr l, JArr l' =>
      (fix eq_list l l' :=
         match l, l' with
         | [], [] => true
         | a :: l, b :: l' => py_eq a b && eq_list l l'
         | _, _ => false
         end) l l'
  | JObj f, JObj f' =>
      (length f =? length f')%nat &&
      (fix eq_members f :=
         match f with
         | [] => true
         | (k, v) :: f => match dict_get k f' with
                          | Some v' => py_eq v v'
                          | None => false
                          end && eq_members f
         end) f
  | _, _ => false
  end.

(** Of two lookups, [None] where there is no such key; [None] is also JSON's null. *)
Definition get_eq (x y : option json) : bool := py_eq (default JNull x) (default JNull y).

(** ** PyJWT

    [get_unverified_header], [decode] and the RS256 loader of [get_default_algorithms]
    ([None] without a cryptography back end). Their errors about a token are instances of
    [InvalidTokenError]. [decode] looks at the clock. *)
Definition InvalidTokenError : exn := OtherError "InvalidTokenError".

Record DecodeOptions := mkDecodeOptions {
  require : list string;
  verify_aud : bool;
  verify_iss : bool;
}.

Class Jwt := {
  signing_key : Type;
  get_unverified_header : string -> result json;
  decode : string -> signing_key -> list string -> option string -> option string -> Z ->
    DecodeOptions -> datetime -> result json;
  rs256_from_jwk : option (json -> result signing_key);
}.

(** ** [core/auth_jwt.py] *)
Module JwtValidator.

Module CacheEntry.
Record t := mk { value : dict; expires_at : datetime }.
End CacheEntry.

(** The attributes that change. *)
Record state := mkState {
  _discovery_cache : option CacheEntry.t;
  _jwks_cache : option CacheEntry.t;
  _last_forced_jwks_refresh_at : Z;
}.

Definition set_discovery_cache (e : option CacheEntry.t) (s : state) : state :=
  mkState e (_jwks_cache s) (_last_forced_jwks_refresh_at s).
Definition set_jwks_cache (e : option CacheEntry.t) (s : state) : state :=
  mkState (_discovery_cache s) e (_last_forced_jwks_refresh_at s).
Definition set_last_forced (t : Z) (s : state) : state :=
  mkState (_discovery_cache s) (_jwks_cache s) t.

(** [JwtValidator.__init__] *)
Definition initial : state := mkState None None 0.

Abbreviation M := (@coro state json).

Definition invalid_bearer_token : exn := UnauthorizedError "Invalid bearer token".
Definition invalid_metadata : exn := UnauthorizedError "Invalid identity metadata".
Definition unable_to_fetch : exn := UnauthorizedError "Unable to fetch identity metadata".

Definition is_unauthorized (e : exn) : bool :=
  match e with AppError Unauthorized _ _ => true | _ => false end.

(** [cache.expires_at > time.time()] *)
Definition unexpired (cache : option CacheEntry.t) (now : datetime) : option dict :=
  match cache with
  | Some e => if now <? CacheEntry.expires_at e then Some (CacheEntry.value e) else None
  | None => None
  end.

(** [cache.value if cache else None] *)
Definition cached (cache : option CacheEntry.t) : option dict := CacheEntry.value <$> cache.

Definition or_raise {A} (o : option A) (e : exn) : M A :=
  match o with Some a => Ret a | None => Raise e end.

(** The response of [urlopen], decoded, is parsed by [json.loads]; errors of the transport
    and of the parser become an [UnauthorizedError]. *)
Definition _fetch_json_url (urlopen_text : string -> result string)
    (loads : string -> result json) (url : string) : result json :=
  match payload ← urlopen_text url; loads payload with
  | Ok j => Ok j
  | Err e =>
      if bool_decide (e ∈ [OtherError "URLError"; OtherError "JSONDecodeError"])
      then Err unable_to_fetch else Err e
  end.

Section Validator.
Context `{Jwt}.
Variable auth_settings : AuthSettings.t.

(** Asks [self._fetch_json] in a thread. *)
Definition _fetch_json_async (url : string) : M dict :=
  result ← coro_except is_exception (Ask url lift)
    (fun exc => Raise (if is_unauthorized exc then exc else unable_to_fetch));
  or_raise (as_dict result) invalid_metadata.

Definition _get_discovery_document : M dict :=
  Read (fun s => Time (fun now =>
    match unexpired (_discovery_cache s) now with
    | Some document => Ret document
    | None =>
        match truthy (AuthSettings.issuer_url auth_settings) with
        | None => Raise (UnauthorizedError "Invalid authentication configuration")
        | Some issuer_url =>
            let issuer := strip_slashes issuer_url in
            let discovery_url := (issuer ++ "/.well-known/openid-configuration")%string in
            document ← _fetch_json_async discovery_url;
            Time (fun now =>
              Update (set_discovery_cache (Some (CacheEntry.mk document
                (now + seconds (AuthSettings.discovery_cache_ttl_seconds auth_settings)))))
              (Ret document))
        end
    end)).

Definition _resolve_jwks_url : M string :=
  match AuthSettings.jwks_url auth_settings with
  | Some jwks_url => Ret jwks_url
  | None =>
      discovery ← _get_discovery_document;
      or_raise (jwks_uri ← as_str (dict_get "jwks_uri" discovery); truthy (Some jwks_uri))
        invalid_metadata
  end.

Definition _validate_jwks_payload (jwks : dict) : M (list json) :=
  match dict_get "keys" jwks with
  | Some (JArr (key :: keys)) => Ret (key :: keys)
  | _ => Raise invalid_metadata
  end.

Definition _fetch_and_cache_jwks : M dict :=
  jwks_url ← _resolve_jwks_url;
  jwks ← _fetch_json_async jwks_url;
  _validate_jwks_payload jwks ≫= fun _ =>
  Time (fun now =>
    Update (set_jwks_cache (Some (CacheEntry.mk jwks
      (now + seconds (AuthSettings.jwks_cache_ttl_seconds auth_settings)))))
    (Ret jwks)).

Definition _get_jwks : M dict :=
  Read (fun s => Time (fun now =>
    match unexpired (_jwks_cache s) now with
    | Some jwks => Ret jwks
    | None => _fetch_and_cache_jwks
    end)).

(** [return self._jwks_cache.value if self._jwks_cache else None] *)
Definition return_cached_jwks : M (option dict) :=
  Read (fun s => Ret (cached (_jwks_cache s))).

(** [now - self._last_forced_jwks_refresh_at < cooldown] *)
Definition cooling_down (now : Z) (s : state) : bool :=
  now - _last_forced_jwks_refresh_at s <? AuthSettings.jwks_refresh_cooldown_seconds auth_settings.

(** What is done with the lock. *)
Definition forced_refresh : M (option dict) :=
  Monotonic (fun now => Read (fun s =>
    if cooling_down now s then return_cached_jwks
    else
      Update (set_last_forced now)
        (coro_except is_unauthorized (Some <$> _fetch_and_cache_jwks)
           (fun _ => return_cached_jwks)))).

Definition _refresh_jwks_after_kid_miss : M (option dict) :=
  Monotonic (fun now => Read (fun s =>
    if cooling_down now s then return_cached_jwks
    else
      Acquire (fun outcome =>
        match outcome with
        | TimedOut => return_cached_jwks
        | Cancelled => Raise CancelledError
        | Acquired => finally_release forced_refresh
        end))).

Definition _public_key_from_jwk (jwk : dict) : M signing_key :=
  match rs256_from_jwk with
  | None => Raise invalid_metadata
  | Some from_jwk =>
      if negb (bool_decide (dict_get "kty" jwk = Some (JStr "RSA"))) then Raise invalid_metadata
      else coro_except is_exception (lift (from_jwk (JObj jwk))) (fun _ => Raise invalid_metadata)
  end.

(** The loop over the keys. *)
Fixpoint first_key (kid : option json) (keys : list json) : option dict :=
  match keys with
  | [] => None
  | jwk :: rest =>
      match as_dict jwk with
      | Some fields => if get_eq (dict_get "kid" fields) kid then Some fields else first_key kid rest
      | None => first_key kid rest
      end
  end.

Definition _resolve_signing_key_from_jwks (jwks header : dict) : M (option signing_key) :=
  keys ← _validate_jwks_payload jwks;
  match first_key (dict_get "kid" header) keys with
  | None => Ret None
  | Some jwk => Some <$> _public_key_from_jwk jwk
  end.

Definition _resolve_signing_key (header : dict) : M signing_key :=
  jwks ← _get_jwks;
  key ← _resolve_signing_key_from_jwks jwks header;
  match key with
  | Some key => Ret key
  | None =>
      refreshed_jwks ← _refresh_jwks_after_kid_miss;
      match refreshed_jwks with
      | None => Raise invalid_bearer_token
      | Some refreshed_jwks =>
          refreshed_key ← _resolve_signing_key_from_jwks refreshed_jwks header;
          or_raise refreshed_key invalid_bearer_token
      end
  end.

Definition _validate_authorized_party (decoded : dict) : M unit :=
  match AuthSettings.allowed_authorized_parties auth_settings with
  | [] => Ret tt
  | allowed_parties =>
      match as_str (dict_get "azp" decoded) with
      | Some azp => if bool_decide (azp ∈ allowed_parties) then Ret tt else Raise invalid_bearer_token
      | None => Raise invalid_bearer_token
      end
  end.

Definition _validate_token_lifetime (decoded : dict) : M unit :=
  let exp := as_int (dict_get "exp" decoded) in
  let iat := as_int (dict_get "iat" decoded) in
  if AuthSettings.require_iat auth_settings && Tables.is_None iat
  then Raise invalid_bearer_token else
  match exp, iat with
  | None, _ => Raise invalid_bearer_token
  | Some _, None => Ret tt
  | Some exp, Some iat =>
      let lifetime := exp - iat in
      if (lifetime <? 0) || (AuthSettings.max_token_lifetime_seconds auth_settings <? lifetime)
      then Raise invalid_bearer_token else Ret tt
  end.

Definition required_claims : list string :=
  ["exp"; "iss"; "sub"]%string
  ++ (match truthy (AuthSettings.audience auth_settings) with Some _ => ["aud"%string] | None => [] end)
  ++ (if AuthSettings.require_iat auth_settings then ["iat"%string] else []).

Definition decode_options : DecodeOptions :=
  mkDecodeOptions required_claims (negb (Tables.is_None (AuthSettings.audience auth_settings)))
    (negb (Tables.is_None (AuthSettings.issuer_url auth_settings))).

(** [jwt.decode(token, key=.., ..)] of the validator, at a time. *)
Definition decode_token (token : string) (key : signing_key) (now : datetime) : result json :=
  decode token key [AuthSettings.algorithms auth_settings] (AuthSettings.audience auth_settings)
    (AuthSettings.issuer_url auth_settings) (AuthSettings.leeway_seconds auth_settings)
    decode_options now.

(** [except InvalidTokenError: raise UnauthorizedError("Invalid bearer token")] *)
Definition or_invalid_token {A} (m : M A) : M A :=
  coro_except (fun e => bool_decide (e = InvalidTokenError)) m (fun _ => Raise invalid_bearer_token).

Definition validate_token (token : string) : M dict :=
  if negb (AuthSettings.enabled auth_settings) then Raise invalid_bearer_token else
  header ← or_invalid_token (lift (get_unverified_header token));
  header ← or_raise (as_dict header) invalid_bearer_token;
  if negb (bool_decide (dict_get "alg" header = Some (JStr (AuthSettings.algorithms auth_settings))))
  then Raise invalid_bearer_token else
  if AuthSettings.require_kid auth_settings && Tables.is_None (as_str (dict_get "kid" header))
  then Raise invalid_bearer_token else
  signing_key ← _resolve_signing_key header;
  Time (fun now =>
    decoded ← or_invalid_token (lift (decode_token token signing_key now));
    decoded ← or_raise (as_dict decoded) invalid_bearer_token;
    _validate_authorized_party decoded ≫= fun _ =>
    _validate_token_lifetime decoded ≫= fun _ =>
    Ret decoded).

End Validator.

(** *** The validator of the process *)

(** [_jwt_validator] and [_jwt_validator_signature]: the settings it was made with, and the
    key of its state; a new one has fresh caches. *)
Record globals := mkGlobals {
  validator_settings : option AuthSettings.t;
  validator_state : state;
}.

(** The settings [_validator_signature] compares: all but the client's identifier and when
    the metadata is checked. *)
Definition _validator_signature (a : AuthSettings.t) :=
  (AuthSettings.enabled a, AuthSettings.issuer_url a, AuthSettings.audience a,
   AuthSettings.allowed_authorized_parties a, AuthSettings.jwks_url a, AuthSettings.algorithms a,
   AuthSettings.leeway_seconds a, AuthSettings.discovery_cache_ttl_seconds a,
   AuthSettings.jwks_cache_ttl_seconds a, AuthSettings.require_kid a, AuthSettings.require_iat a,
   AuthSettings.max_token_lifetime_seconds a, AuthSettings.jwks_refresh_cooldown_seconds a,
   AuthSettings.jwks_refresh_lock_timeout_seconds a).

Definition get_jwt_validator (settings : AuthSettings.t) (g : globals) : AuthSettings.t * globals :=
  match validator_settings g with
  | Some current =>
      if bool_decide (_validator_signature settings = _validator_signature current)
      then (current, g) else (settings, mkGlobals (Some settings) initial)
  | None => (settings, mkGlobals (Some settings) initial)
  end.

End JwtValidator.

(** ** [core/auth_claims.py]

    Pydantic's types: [EmailStr] gives the address in its normal form or refuses it, [bool]
    also reads some texts and numbers. *)
Class ClaimTypes := {
  email_str : string -> option string;
  lax_bool : json -> option bool;
}.

Module JwtClaimsPayload.
Record t := mk {
  external_auth_id : string;
  email : option string;
  email_verified : bool;
  first_name : option string;
  last_name : option string;
}.

(** [AliasChoices(a, b)]: the first alias that is there. *)
Definition alias_choices (a b : string) (claims : dict) : option json :=
  match dict_get a claims with Some v => Some v | None => dict_get b claims end.

(** A field [str | None]. *)
Definition optional_str (v : option json) : option (option string) :=
  match v with
  | None | Some JNull => Some None
  | Some (JStr s) => Some (Some s)
  | Some _ => None
  end.

Section Validation.
Context `{ClaimTypes}.

Definition optional_email (v : option json) : option (option string) :=
  match v with
  | None | Some JNull => Some None
  | Some (JStr s) => Some <$> email_str s
  | Some _ => None
  end.

(** [None] where pydantic raises a [ValidationError]. *)
Definition model_validate (claims : dict) : option t :=
  external_auth_id ← as_str (dict_get "sub" claims);
  external_auth_id ← truthy (Some external_auth_id);
  email ← optional_email (dict_get "email" claims);
  email_verified ← match dict_get "email_verified" claims with
                   | None => Some false
                   | Some v => lax_bool v
                   end;
  first_name ← optional_str (alias_choices "given_name" "first_name" claims);
  last_name ← optional_str (alias_choices "family_name" "last_name" claims);
  Some (mk external_auth_id email email_verified first_name last_name).

(** The fields again, as [AuthenticatedPrincipal] validates them. *)
Definition to_authenticated_principal (p : t) : option AuthenticatedPrincipal.t :=
  external_auth_id ← truthy (Some (external_auth_id p));
  email ← optional_email (JStr <$> email p);
  Some (AuthenticatedPrincipal.mk external_auth_id email (email_verified p) (first_name p)
          (last_name p)).

Definition ValidationError : exn := OtherError "ValidationError".

Definition from_verified_jwt_claims (claims : dict) : result AuthenticatedPrincipal.t :=
  match payload ← model_validate claims; to_authenticated_principal payload with
  | Some principal => Ok principal
  | None => Err ValidationError
  end.

Definition from_unverified_jwt_claims : dict -> result AuthenticatedPrincipal.t :=
  from_verified_jwt_claims.
End Validation.
End JwtClaimsPayload.

(** ** [core/auth.py] *)
Module Auth.
Import JwtValidator JwtClaimsPayload.

(** [Ok None] without the header. *)
Definition _extract_bearer_token (auth_header : option string) : result (option string) :=
  match auth_header with
  | None => Ok None
  | Some h =>
      match Text.split_words (Text.strip h) with
      | [scheme; token] =>
          if String.eqb (Text.lower scheme) "bearer" && negb (Text.is_empty (Text.strip token))
          then Ok (Some (Text.strip token))
          else Err (UnauthorizedError "Malformed Authorization header")
      | _ => Err (UnauthorizedError "Malformed Authorization header")
      end
  end.

Section Dependencies.
Context `{Jwt} `{ClaimTypes}.
Variable auth_settings : AuthSettings.t.

Definition get_authenticated_principal (auth_header : option string)
    : M (option AuthenticatedPrincipal.t) :=
  token ← lift (_extract_bearer_token auth_header);
  match token with
  | None => Ret None
  | Some token =>
      claims ← validate_token auth_settings token;
      Some <$> lift (from_verified_jwt_claims claims)
  end.

Definition require_authenticated_principal (auth_header : option string)
    : M AuthenticatedPrincipal.t :=
  principal ← get_authenticated_principal auth_header;
  match principal with
  | Some principal => Ret principal
  | None => Raise (UnauthorizedError "Authentication required")
  end.
End Dependencies.
End Auth.

(** ** [core/auth_metadata.py] *)
Module AuthMetadata.

Definition member (k : string) (j : json) : option json := as_dict j ≫= dict_get k.

(** [urlparse(url).scheme == "https"] *)
Definition _is_https (url : string) : bool := String.eqb (Url.scheme url) "https".

Definition _is_rsa_signing_key (key : json) : bool :=
  match as_dict key with
  | None => false
  | Some key =>
      if negb (bool_decide (dict_get "kty" key = Some (JStr "RSA"))) then false else
      if negb (bool_decide (default JNull (dict_get "use" key) ∈ [JNull; JStr "sig"])) then false else
      if negb (bool_decide (default JNull (dict_get "alg" key) ∈ [JNull; JStr "RS256"])) then false
      else true
  end.

(** [not isinstance(key.get("kid"), str) or not key["kid"].strip()] *)
Definition kid_missing (key : json) : bool :=
  match as_str (member "kid" key) with
  | Some kid => Text.is_empty (Text.strip kid)
  | None => true
  end.

Definition _validate_jwks (jwks : dict) : result unit :=
  match dict_get "keys" jwks with
  | Some (JArr (key :: keys)) =>
      let rsa_signing_keys := List.filter _is_rsa_signing_key (key :: keys) in
      match rsa_signing_keys with
      | [] => Err (ValueError "JWKS must contain an RSA signing key")
      | _ => if existsb kid_missing rsa_signing_keys
             then Err (ValueError "JWKS RSA signing keys must contain kid") else Ok tt
      end
  | _ => Err (ValueError "JWKS must contain signing keys")
  end.

Section Startup.
(** [fetch_json(url)], in a thread. *)
Variable fetcher : string -> result json.

Definition _fetch_json (url : string) : result dict :=
  match fetcher url with
  | Ok (JObj fields) => Ok fields
  | Ok _ => Err (ValueError "Identity metadata payload must be an object")
  | Err e => Err e
  end.

(** The address of the keys: the configured one, or the discovered one. *)
Definition jwks_uri_of (auth : AuthSettings.t) (discovery : dict) : result string :=
  match AuthSettings.jwks_url auth with
  | Some uri => Ok uri
  | None =>
      match as_str (dict_get "jwks_uri" discovery) with
      | Some discovered =>
          if Text.is_empty (Text.strip discovered)
          then Err (ValueError "OIDC discovery jwks_uri is required")
          else Ok (Text.strip discovered)
      | None => Err (ValueError "OIDC discovery jwks_uri is required")
      end
  end.

Definition _validate_auth_metadata (environment : string) (auth : AuthSettings.t) : result unit :=
  match truthy (AuthSettings.issuer_url auth) with
  | None => Err (ValueError "AUTH__ISSUER_URL is required")
  | Some issuer_url =>
      let discovery_url := (strip_slashes issuer_url ++ "/.well-known/openid-configuration")%string in
      discovery ← _fetch_json discovery_url;
      if negb (bool_decide (dict_get "issuer" discovery = Some (JStr issuer_url)))
      then Err (ValueError "OIDC discovery issuer does not match configured issuer") else
      jwks_uri ← jwks_uri_of auth discovery;
      if bool_decide (environment ∈ ["staging"; "prod"]%string) && negb (_is_https jwks_uri)
      then Err (ValueError "OIDC JWKS URI must use HTTPS in staging/prod") else
      if match dict_get "id_token_signing_alg_values_supported" discovery with
         | Some (JArr supported_algs) => negb (bool_decide (JStr "RS256" ∈ supported_algs))
         | _ => false
         end
      then Err (ValueError "OIDC discovery does not advertise RS256") else
      jwks ← _fetch_json jwks_uri;
      _validate_jwks jwks
  end.

(** Starting the application: whether a warning was logged, or the error that stops it. *)
Definition init_auth_validation (environment : string) (auth : AuthSettings.t) : result bool :=
  if negb (AuthSettings.enabled auth)
     || String.eqb (AuthSettings.metadata_validation auth) "disabled" then Ok false else
  match _validate_auth_metadata environment auth with
  | Ok _ => Ok false
  | Err e =>
      if is_exception e then
        if String.eqb (AuthSettings.metadata_validation auth) "fail"
        then Err (OtherError "RuntimeError") else Ok true
      else Err e
  end.
End Startup.
End AuthMetadata.
