(* ===== verification/Storage.v ===== *)
(** Where export archives are kept: the parts of [privacy/storage/base.py] that the adapters
    share, and what a storage key may be. *)
From S2P Require Import Prelude Errors Session Tables RateLimitPolicies RateLimitIngress Settings.
From S2P Require Import ExportArtifactServices.

Definition StorageObjectConflictError : exn := OtherError "StorageObjectConflictError".

Module StoredObject.
Record t := mk { key : string; content_type : string; size_bytes : Z }.
End StoredObject.

(** [len(data)] *)
Definition size_of (data : string) : Z := Z.of_nat (String.length data).

(** The segments of a path that no check lets through. *)
Abbreviation unsafe_part := PrivacyExportsSettings.unsafe_part (only parsing).

(** ** The publication protocol

    What an adapter promises of one key: nobody has it, somebody reserved it, or an archive is
    published under it. Published bytes are compared by their checksum and size. *)
Inductive slot :=
  | Free
  | Held (owner : string)
  | Published (checksum : string) (size : Z).

Inductive action :=
  | Reserve (owner : string)
  | Publish (owner checksum : string) (size : Z)
  | Cancel (owner : string)
  | Inspect (checksum : string) (size : Z)
  | DeleteUnlessMatching (checksum : string) (size : Z)
  | Delete.

Inductive reply :=
  | Done
  | Refused
  | State (s : StorageObjectState).

(** What an inspection sees. *)
Definition state_of (s : slot) (checksum : string) (size : Z) : StorageObjectState :=
  match s with
  | Free => MISSING
  | Held _ => RESERVED
  | Published c n => if String.eqb c checksum && Z.eqb n size then MATCHING else CONFLICT
  end.

(** The moves of the protocol: a key is reserved once, only its holder publishes, and what is
    published stays until it is deleted. *)
Inductive protocol : action -> slot -> reply -> slot -> Prop :=
  | reserve_free o : protocol (Reserve o) Free Done (Held o)
  | reserve_again o : protocol (Reserve o) (Held o) Done (Held o)
  | reserve_refused o s : s <> Free -> s <> Held o -> protocol (Reserve o) s Refused s
  | publish_held o c n : protocol (Publish o c n) (Held o) Done (Published c n)
  | publish_again o c n : protocol (Publish o c n) (Published c n) Done (Published c n)
  | publish_refused o c n s : s <> Held o -> protocol (Publish o c n) s Refused s
  | cancel_held o : protocol (Cancel o) (Held o) Done Free
  | cancel_other o s : s <> Held o -> protocol (Cancel o) s Done s
  | inspected c n s : protocol (Inspect c n) s (State (state_of s c n)) s
  | spared c n s : state_of s c n = MATCHING ->
      protocol (DeleteUnlessMatching c n) s (State MATCHING) s
  | cleared c n s : state_of s c n <> MATCHING ->
      protocol (DeleteUnlessMatching c n) s (State MISSING) Free
  | deleted s : protocol Delete s Done Free.

(** Over any sequence of moves, by anybody, *)
Inductive moves : slot -> list action -> slot -> Prop :=
  | moves_none s : moves s [] s
  | moves_more s a r s' l s'' : protocol a s r s' -> moves s' l s'' -> moves s (a :: l) s''.

(** what is published leaves only through a deletion, and one for other bytes does not take
    it; *)
Lemma published_stays c n l s :
  moves (Published c n) l s ->
  (forall a, a ∈ l -> a <> Delete /\ forall c' n', a = DeleteUnlessMatching c' n' -> c' = c /\ n' = n) ->
  s = Published c n.
Proof.
  remember (Published c n) as p eqn:Hp. intros Hm. induction Hm as [s|s a r s' l s'' Hpr Hm IH]; intros Hl; [done|].
  subst. assert (s' = Published c n) as ->.
  { destruct (Hl a ltac:(by left)) as [Hd Hu].
    inversion Hpr; subst; try done.
    exfalso. destruct (Hu _ _ eq_refl) as [-> ->].
    match goal with H : state_of _ _ _ <> MATCHING |- _ => apply H end.
    cbn. by rewrite String.eqb_refl, Z.eqb_refl. }
  apply IH; [done|]. intros a' Ha'. apply Hl. by right.
Qed.

(** and a publication that succeeded was made by the holder, or is of the bytes that are
    already there. *)
Lemma publish_done o c n s s' :
  protocol (Publish o c n) s Done s' -> s' = Published c n /\ (s = Held o \/ s = Published c n).
Proof. inversion 1; subst; auto. Qed.
