(* ===== verification/FileTree.v ===== *)
(** A POSIX file system as Python's [pathlib], [os] and [shutil] show it: a tree of files and
    directories without symbolic links, the calls the program makes of it with the errors they
    raise, and the trees it went through, one for every change that a crash could leave. *)
From S2P Require Import Prelude Errors Session Tables.
From stdpp Require Import gmap fin_maps.

(** A path, below a directory that exists. *)
Abbreviation path := (list string) (only parsing).

Inductive node := File (content : string) | Directory.

#[export] Instance node_eq_dec : EqDecision node.
Proof. solve_decision. Defined.

Abbreviation files := (gmap (list string) node) (only parsing).

(** The subclasses of [OSError] the program tells apart. *)
Definition FileNotFoundError : exn := OtherError "FileNotFoundError".
Definition FileExistsError : exn := OtherError "FileExistsError".
Definition NotADirectoryError : exn := OtherError "NotADirectoryError".
Definition IsADirectoryError : exn := OtherError "IsADirectoryError".
Definition OSError : exn := OtherError "OSError".

Definition is_os_error (e : exn) : bool :=
  bool_decide (e ∈ [FileNotFoundError; FileExistsError; NotADirectoryError; IsADirectoryError; OSError]).
Definition is_error (e e' : exn) : bool := bool_decide (e' = e).

(** ** Trees *)

(** What is left of [q] below [p]. *)
Fixpoint strip_prefix (p q : path) : option path :=
  match p, q with
  | [], _ => Some q
  | x :: p, y :: q => if String.eqb x y then strip_prefix p q else None
  | _ :: _, [] => None
  end.

Definition node_at (t : files) (p : path) : option node :=
  match p with [] => Some Directory | _ => t !! p end.

Definition subtree (p : path) (t : files) : files :=
  list_to_map (omap (fun '(q, n) => (., n) <$> strip_prefix p q) (map_to_list t)).

Definition without (p : path) (t : files) : files :=
  filter (fun '(q, _) => strip_prefix p q = None) t.

Definition move (src dst : path) (t : files) : files :=
  kmap (app dst) (subtree src t) ∪ without src (without dst t).

Definition has_children (t : files) (p : path) : bool :=
  existsb (fun qn => match strip_prefix p qn.1 with Some (_ :: _) => true | _ => false end)
    (map_to_list t).

Lemma strip_prefix_Some p q r : strip_prefix p q = Some r <-> q = p ++ r.
Proof.
  revert q. induction p as [|x p IH]; intros [|y q]; cbn; try naive_solver.
  destruct (String.eqb_spec x y) as [->|Hne]; [rewrite IH; naive_solver|naive_solver].
Qed.

Lemma strip_prefix_app p r : strip_prefix p (p ++ r) = Some r.
Proof. by apply strip_prefix_Some. Qed.

Lemma strip_prefix_refl p : strip_prefix p p = Some [].
Proof. apply strip_prefix_Some. by rewrite app_nil_r. Qed.

Lemma lookup_without p t q :
  without p t !! q = match strip_prefix p q with Some _ => None | None => t !! q end.
Proof.
  unfold without. destruct (strip_prefix p q) as [r|] eqn:Hs.
  - apply map_lookup_filter_None. right. intros n _. by rewrite Hs.
  - destruct (t !! q) as [n|] eqn:Hq.
    + by apply map_lookup_filter_Some.
    + apply map_lookup_filter_None. by left.
Qed.

Lemma stripped_NoDup p (l : list (list string * node)) :
  NoDup l.*1 -> NoDup (omap (fun '(q, n) => (., n) <$> strip_prefix p q) l).*1.
Proof.
  induction l as [|[q n] l IH]; [constructor|].
  rewrite fmap_cons. intros [Hq Hl]%NoDup_cons. cbn.
  destruct (strip_prefix p q) as [r|] eqn:Hr; cbn; [|by apply IH].
  constructor; [|by apply IH]. intros ([r2 n2] & -> & H2)%list_elem_of_fmap.
  apply list_elem_of_omap in H2 as ([q2 n3] & Hq2 & (r3 & Hr3 & [= -> ->])%fmap_Some).
  apply strip_prefix_Some in Hr as ->. apply strip_prefix_Some in Hr3 as ->.
  apply Hq, list_elem_of_fmap. by exists (p ++ r3, n3).
Qed.

Lemma lookup_subtree p t r : subtree p t !! r = t !! (p ++ r).
Proof.
  unfold subtree. set (l := omap _ _).
  assert (Hin : forall n, (r, n) ∈ l <-> t !! (p ++ r) = Some n).
  { intros n. unfold l. rewrite list_elem_of_omap. split.
    - intros ([q n'] & Hq & Hs). apply elem_of_map_to_list in Hq. apply fmap_Some in Hs as (r' & Hr & [= -> ->]).
      apply strip_prefix_Some in Hr as ->. done.
    - intros Hq. exists (p ++ r, n). rewrite elem_of_map_to_list. by rewrite strip_prefix_app. }
  assert (Hnd : NoDup l.*1) by (apply stripped_NoDup, NoDup_fst_map_to_list).
  destruct (t !! (p ++ r)) as [n|] eqn:Hn.
  - apply elem_of_list_to_map_1; [done|]. by apply Hin.
  - apply not_elem_of_list_to_map_1. intros ([r' n] & -> & Hr)%list_elem_of_fmap.
    apply Hin in Hr. cbn in *. congruence.
Qed.

Lemma lookup_move src dst t q :
  move src dst t !! q =
  match strip_prefix dst q with
  | Some r => t !! (src ++ r)
  | None => match strip_prefix src q with Some _ => None | None => t !! q end
  end.
Proof.
  unfold move. destruct (strip_prefix dst q) as [r|] eqn:Hd.
  - apply strip_prefix_Some in Hd as ->. destruct (t !! (src ++ r)) as [n|] eqn:Hn.
    + apply lookup_union_Some_l. rewrite (lookup_kmap (app dst)), lookup_subtree. exact Hn.
    + apply lookup_union_None. rewrite (lookup_kmap (app dst)), lookup_subtree, !lookup_without, strip_prefix_app.
      split; [done|]. by destruct (strip_prefix src _).
  - rewrite lookup_union_r.
    + rewrite !lookup_without, Hd. done.
    + apply lookup_kmap_None; [apply _|]. intros r ->. by rewrite strip_prefix_app in Hd.
Qed.

Lemma has_children_true t p : has_children t p = true <-> exists x r n, t !! (p ++ x :: r) = Some n.
Proof.
  unfold has_children. rewrite existsb_exists. split.
  - intros ([q n] & Hin & Hq). apply list_elem_of_In, elem_of_map_to_list in Hin. cbn in Hq.
    destruct (strip_prefix p q) as [[|x r]|] eqn:Hs; [done| |done].
    apply strip_prefix_Some in Hs as ->. eauto.
  - intros (x & r & n & Hn). exists (p ++ x :: r, n).
    split; [by apply list_elem_of_In, elem_of_map_to_list|]. cbn. by rewrite strip_prefix_app.
Qed.

(** ** The disk, and the operations on it *)
Record Disk := mkDisk {
  tree : files;
  (** the trees after each change, the newest first *)
  past : list files;
  drawn : nat;
}.

Definition FS (A : Type) : Type := Disk -> result A * Disk.

#[export] Instance FS_ret : MRet FS := fun A a d => (Ok a, d).
#[export] Instance FS_bind : MBind FS := fun A B f m d =>
  match m d with
  | (Ok a, d') => f a d'
  | (Err e, d') => (Err e, d')
  end.

Definition fs_raise {A} (e : exn) : FS A := fun d => (Err e, d).

(** [try: m / except classes as exc: h(exc) / else: k] *)
Definition fs_try {A B} (classes : exn -> bool) (m : FS A) (h : exn -> FS B) (k : A -> FS B) : FS B :=
  fun d => match m d with
           | (Ok a, d') => k a d'
           | (Err e, d') => if classes e then h e d' else (Err e, d')
           end.

Definition fs_lift {A} (r : result A) : FS A := fun d => (r, d).

Definition get_tree : FS files := fun d => (Ok (tree d), d).
Definition set_tree (t : files) : FS unit := fun d => (Ok tt, mkDisk t (t :: past d) (drawn d)).

(** [uuid4().hex] *)
Definition uuid4_hex `{Env} : FS string := fun d =>
  (Ok (Uuid.hex 32 (uuid4 (drawn d)) ""), mkDisk (tree d) (past d) (S (drawn d))).

(** The error of opening something below what is missing or a file. *)
Fixpoint missing_below (t : files) (above rest : path) : exn :=
  match rest with
  | [] => FileNotFoundError
  | x :: rest =>
      match node_at t (above ++ [x]) with
      | Some (File _) => NotADirectoryError
      | _ => missing_below t (above ++ [x]) rest
      end
  end.

Definition not_there (t : files) (p : path) : exn := missing_below t [] p.

Definition exists_ (p : path) : FS bool := t ← get_tree; mret (negb (is_None (node_at t p))).
Definition is_dir (p : path) : FS bool :=
  t ← get_tree; mret (bool_decide (node_at t p = Some Directory)).
Definition is_file (p : path) : FS bool :=
  t ← get_tree; mret (match node_at t p with Some (File _) => true | _ => false end).

(** [read_text], [read_bytes] *)
Definition read_file (p : path) : FS string :=
  t ← get_tree;
  match node_at t p with
  | Some (File c) => mret c
  | Some Directory => fs_raise IsADirectoryError
  | None => fs_raise (not_there t p)
  end.

Definition parent (p : path) : path := removelast p.

(** The error of creating [p] where its parent is not a directory. *)
Definition check_parent (t : files) (p : path) : FS unit :=
  match node_at t (parent p) with
  | Some Directory => mret tt
  | Some (File _) => fs_raise NotADirectoryError
  | None => fs_raise (not_there t p)
  end.

(** [write_text], [write_bytes]: the file is truncated, then written. *)
Definition write_file (p : path) (data : string) : FS unit :=
  t ← get_tree;
  match node_at t p with
  | Some Directory => fs_raise IsADirectoryError
  | _ => check_parent t p;; set_tree (<[p := File ""]> t);; set_tree (<[p := File data]> t)
  end.

(** [p.mkdir()] *)
Definition mkdir (p : path) : FS unit :=
  t ← get_tree;
  match node_at t p with
  | Some _ => fs_raise FileExistsError
  | None => check_parent t p;; set_tree (<[p := Directory]> t)
  end.

(** [p.mkdir(parents=True, exist_ok=True)]: each directory on the way down. *)
Fixpoint mkdir_down (above rest : path) : FS unit :=
  match rest with
  | [] => mret tt
  | x :: rest =>
      t ← get_tree;
      match node_at t (above ++ [x]) with
      | Some Directory => mkdir_down (above ++ [x]) rest
      | Some (File _) =>
          fs_raise (match rest with [] => FileExistsError | _ => NotADirectoryError end)
      | None => set_tree (<[above ++ [x] := Directory]> t);; mkdir_down (above ++ [x]) rest
      end
  end.

Definition mkdir_parents (p : path) : FS unit := mkdir_down [] p.

(** [src.rename(dst)]: a directory replaces an empty directory, a file a file. *)
Definition rename (src dst : path) : FS unit :=
  t ← get_tree;
  match node_at t src, node_at t dst with
  | None, _ => fs_raise (not_there t src)
  | Some _, None => check_parent t dst;; set_tree (move src dst t)
  | Some Directory, Some Directory =>
      if has_children t dst then fs_raise OSError else set_tree (move src dst t)
  | Some Directory, Some (File _) => fs_raise NotADirectoryError
  | Some (File _), Some Directory => fs_raise IsADirectoryError
  | Some (File _), Some (File _) => set_tree (move src dst t)
  end.

(** [os.link(src, dst)], [src] being outside the tree and holding [content]. *)
Definition link (content : string) (dst : path) : FS unit :=
  t ← get_tree;
  match node_at t dst with
  | Some _ => fs_raise FileExistsError
  | None => check_parent t dst;; set_tree (<[dst := File content]> t)
  end.

(** [p.unlink()] *)
Definition unlink (p : path) : FS unit :=
  t ← get_tree;
  match node_at t p with
  | Some (File _) => set_tree (delete p t)
  | Some Directory => fs_raise IsADirectoryError
  | None => fs_raise (not_there t p)
  end.

(** [shutil.rmtree(p)], as one change. The library removes the entries one after the other; the
    storage calls it on a directory it has just renamed to a name of its own, or on a staged
    one that holds no published archive, so what a crash leaves of it no one looks for. *)
Definition rmtree (p : path) : FS unit :=
  t ← get_tree;
  match node_at t p with
  | Some Directory => set_tree (without p t)
  | Some (File _) => fs_raise NotADirectoryError
  | None => fs_raise (not_there t p)
  end.

(** ** Computing with the disk *)

(** [m] returns [a] from [d], leaving [d']. *)
Abbreviation returns m d a d' := (m d = (Ok a, d')) (only parsing).

Lemma fs_bind_ok {A B} (m : FS A) (f : A -> FS B) d a d' :
  m d = (Ok a, d') -> (m ≫= f) d = f a d'.
Proof. unfold mbind, FS_bind. by intros ->. Qed.

Lemma fs_bind_err {A B} (m : FS A) (f : A -> FS B) d e d' :
  m d = (Err e, d') -> (m ≫= f) d = (Err e, d').
Proof. unfold mbind, FS_bind. by intros ->. Qed.

Lemma fs_try_ok {A B} classes (m : FS A) h (k : A -> FS B) d a d' :
  m d = (Ok a, d') -> fs_try classes m h k d = k a d'.
Proof. unfold fs_try. by intros ->. Qed.

Lemma fs_try_caught {A B} (classes : exn -> bool) (m : FS A) h (k : A -> FS B) d e d' :
  m d = (Err e, d') -> classes e = true -> fs_try classes m h k d = h e d'.
Proof. unfold fs_try. by intros -> ->. Qed.

(** The disk after one change. *)
Definition changed (t : files) (d : Disk) : Disk := mkDisk t (t :: past d) (drawn d).

Lemma exists_run p d : exists_ p d = (Ok (negb (is_None (node_at (tree d) p))), d).
Proof. done. Qed.
Lemma is_dir_run p d : is_dir p d = (Ok (bool_decide (node_at (tree d) p = Some Directory)), d).
Proof. done. Qed.
Lemma is_file_run p d :
  is_file p d = (Ok (match node_at (tree d) p with Some (File _) => true | _ => false end), d).
Proof. done. Qed.

Lemma read_file_run p d :
  read_file p d = match node_at (tree d) p with
                  | Some (File c) => (Ok c, d)
                  | Some Directory => (Err IsADirectoryError, d)
                  | None => (Err (not_there (tree d) p), d)
                  end.
Proof. unfold read_file, get_tree, mbind, FS_bind. by destruct (node_at (tree d) p) as [[]|]. Qed.

Lemma check_parent_ok t p d : node_at t (parent p) = Some Directory -> check_parent t p d = (Ok tt, d).
Proof. unfold check_parent. by intros ->. Qed.

Lemma write_file_run p data d :
  node_at (tree d) p <> Some Directory -> node_at (tree d) (parent p) = Some Directory ->
  write_file p data d =
  (Ok tt, changed (<[p := File data]> (tree d)) (changed (<[p := File ""]> (tree d)) d)).
Proof.
  intros Hn Hp. unfold write_file, get_tree, mbind, FS_bind.
  destruct (node_at (tree d) p) as [[]|]; try done; by rewrite check_parent_ok.
Qed.

Lemma mkdir_run p d :
  node_at (tree d) p = None -> node_at (tree d) (parent p) = Some Directory ->
  mkdir p d = (Ok tt, changed (<[p := Directory]> (tree d)) d).
Proof.
  intros Hn Hp. unfold mkdir, get_tree, mbind, FS_bind. rewrite Hn. by rewrite check_parent_ok.
Qed.

Lemma link_new content p d :
  node_at (tree d) p = None -> node_at (tree d) (parent p) = Some Directory ->
  link content p d = (Ok tt, changed (<[p := File content]> (tree d)) d).
Proof.
  intros Hn Hp. unfold link, get_tree, mbind, FS_bind. rewrite Hn. by rewrite check_parent_ok.
Qed.

Lemma link_taken content p n d :
  node_at (tree d) p = Some n -> link content p d = (Err FileExistsError, d).
Proof. intros Hn. unfold link, get_tree, mbind, FS_bind. by rewrite Hn. Qed.

Lemma unlink_run p c d :
  node_at (tree d) p = Some (File c) -> unlink p d = (Ok tt, changed (delete p (tree d)) d).
Proof. intros Hn. unfold unlink, get_tree, mbind, FS_bind. by rewrite Hn. Qed.

Lemma rmtree_run p d :
  node_at (tree d) p = Some Directory -> rmtree p d = (Ok tt, changed (without p (tree d)) d).
Proof. intros Hn. unfold rmtree, get_tree, mbind, FS_bind. by rewrite Hn. Qed.

Lemma rename_new src dst n d :
  node_at (tree d) src = Some n -> node_at (tree d) dst = None ->
  node_at (tree d) (parent dst) = Some Directory ->
  rename src dst d = (Ok tt, changed (move src dst (tree d)) d).
Proof.
  intros Hs Hd Hp. unfold rename, get_tree, mbind, FS_bind. rewrite Hs, Hd.
  destruct n; by rewrite check_parent_ok.
Qed.

Lemma rename_taken src dst n d :
  node_at (tree d) src = Some Directory -> node_at (tree d) dst = Some n ->
  (n = Directory -> has_children (tree d) dst = true) ->
  exists e, rename src dst d = (Err e, d) /\ is_os_error e = true.
Proof.
  intros Hs Hd Hc. unfold rename, get_tree, mbind, FS_bind. rewrite Hs, Hd. destruct n as [c|].
  - exists NotADirectoryError. by split.
  - rewrite (Hc eq_refl). by exists OSError.
Qed.

Lemma not_there_absent t p : is_error FileNotFoundError (not_there t p) || is_error NotADirectoryError (not_there t p) = true.
Proof.
  unfold not_there. generalize ([] : list string). induction p as [|x p IH]; intros above; cbn; [done|].
  destruct (node_at t (above ++ [x])) as [[]|]; [done|apply IH..].
Qed.

(** Every node has a directory above it. *)
Definition closed (t : files) : Prop :=
  t !! [] = None /\ forall q n, t !! q = Some n -> node_at t (parent q) = Some Directory.

Lemma parent_snoc (p : path) x : parent (p ++ [x]) = p.
Proof. apply removelast_last. Qed.

Lemma node_at_snoc t (p : path) x : node_at t (p ++ [x]) = t !! (p ++ [x]).
Proof. by destruct p. Qed.

Lemma node_at_ne t (p : path) : p <> [] -> node_at t p = t !! p.
Proof. by destruct p. Qed.

(** Nothing is below what is no directory. *)
Lemma closed_below t p r :
  closed t -> p <> [] -> t !! p <> Some Directory -> r <> [] -> t !! (p ++ r) = None.
Proof.
  intros [_ Hc] Hp Hn. induction r as [|x r IH] using rev_ind; [done|]. intros _.
  destruct (t !! (p ++ r ++ [x])) as [n|] eqn:Ht; [|done]. exfalso.
  apply Hc in Ht. rewrite app_assoc, parent_snoc in Ht.
  rewrite node_at_ne in Ht by (destruct p; done).
  destruct r as [|y r]; [by rewrite app_nil_r in Ht|]. by rewrite IH in Ht.
Qed.
