(* ===== verification/LocalStorage.v ===== *)
(** [privacy/storage/local.py]: export archives in a directory of the machine. Each method
    holds the lock of its key's shard while it works, so methods of one key run one after
    another; a crash may stop one after any change of the tree. *)
From S2P Require Import Prelude Errors Session Schema Tables AuditLog Invites RateLimitPolicies.
From S2P Require Import RateLimitIngress Settings SubjectExports ExportArtifactServices Storage FileTree.

(** [base64.urlsafe_b64encode], its inverse, [json.dumps] with its compact separators and
    [json.loads] ([None] where they raise). *)
Class TokenCodec := {
  urlsafe_b64encode : string -> string;
  urlsafe_b64decode : string -> option string;
  token_json_dumps : json -> string;
  token_json_loads : string -> option json;
}.

Module LocalStorageAdapter.

Definition _PUBLISH_RETRY_LIMIT : nat := 3.
Definition _PUBLISHED_OBJECT_NAME : string := "object".
Definition _RESERVATION_NAME : string := "reservation".
Definition _STORAGE_LOCK_DIRECTORY : string := ".locks".

Definition _validate_key (key : string) : result string :=
  if Text.is_empty key || Text.is_empty (Text.strip key)
  then Err (ValueError "Storage key must not be empty") else
  if negb (String.eqb key (Text.strip key))
  then Err (ValueError "Storage key must not have surrounding whitespace") else
  if Text.contains "\" key then Err (ValueError "Storage key must use forward slashes") else
  if Text.contains ":" key
  then Err (ValueError "Storage key must not contain drive or URI separators") else
  if Text.contains "//" key
  then Err (ValueError "Storage key must not contain empty path segments") else
  let parts := PurePosixPath.parts key in
  if PurePosixPath.is_absolute key || bool_decide (parts = []) || existsb unsafe_part parts
  then Err (ValueError "Invalid storage key")
  else Ok (Text.join "/" parts).

(** The path below [base_path]; without symbolic links [resolve] leaves a safe key where it is. *)
Definition _resolve (key : string) : result (list string) :=
  safe_key ← _validate_key key; Ok (PurePosixPath.parts safe_key).

Section Adapter.
Context `{Env} `{Crypto} `{Network} `{TokenCodec}.
Variable signing_secret : string.

Definition _checksum_and_size (content : string) : string * Z :=
  (sha256_hexdigest content, size_of content).

(** The last component of a path. *)
Definition name_of (target : list string) : string := List.last target ""%string.

(** [target.parent / f".{target.name}.{uuid4().hex}.<suffix>"] *)
Definition beside (target : list string) (hex suffix : string) : list string :=
  parent target ++ [("." ++ name_of target ++ "." ++ hex ++ "." ++ suffix)%string].

Definition object_of (target : list string) : list string := target ++ [_PUBLISHED_OBJECT_NAME].
Definition reservation_of (target : list string) : list string := target ++ [_RESERVATION_NAME].

(** The lock file is created, and stays. *)
Definition _lock_for_key (key : string) : FS unit :=
  safe_key ← fs_lift (_validate_key key);
  mkdir_parents [_STORAGE_LOCK_DIRECTORY];;
  write_file [_STORAGE_LOCK_DIRECTORY;
              (Text.truncate 2 (sha256_hexdigest safe_key) ++ ".lock")%string] "".

Definition _remove_target_atomically (target : list string) : FS unit :=
  there ← exists_ target;
  if negb (there : bool) then mret tt else
  hex ← uuid4_hex;
  let quarantine := beside target hex "deleted" in
  fs_try (is_error FileNotFoundError) (rename target quarantine)
    (fun _ => mret tt)
    (fun _ =>
       directory ← is_dir quarantine;
       if (directory : bool) then rmtree quarantine
       else fs_try (is_error FileNotFoundError) (unlink quarantine) (fun _ => mret tt) mret).

Definition put_bytes (key data content_type : string) : FS StoredObject.t :=
  path ← fs_lift (_resolve key);
  _lock_for_key key;;
  mkdir_parents (parent path);;
  write_file path data;;
  mret (StoredObject.mk key content_type (size_of data)).

(** [source] is the content of the file given by its path. *)
Definition put_file (key source content_type : string) : FS StoredObject.t :=
  target ← fs_lift (_resolve key);
  _lock_for_key key;;
  mkdir_parents (parent target);;
  write_file target source;;
  written ← read_file target;
  mret (StoredObject.mk key content_type (size_of written)).

Definition reserved_by (key owner_token : string) : StoragePublicationReservation :=
  mkReservation key owner_token owner_token.

Definition conflict {A} : FS A := fs_raise StorageObjectConflictError.

(** The loop: [attempts] are left. *)
Fixpoint reserve_attempts (key owner_token : string) (target : list string) (attempts : nat)
    : FS StoragePublicationReservation :=
  match attempts with
  | O => conflict
  | S attempts =>
      hex ← uuid4_hex;
      let staged := beside target hex "reservation" in
      mkdir staged;;
      write_file (staged ++ [_RESERVATION_NAME]) owner_token;;
      fs_try is_os_error (rename staged target)
        (fun _ =>
           fs_try is_os_error (rmtree staged) (fun _ => mret tt) mret;;
           published ← is_file (object_of target);
           plain ← is_file target;
           if (published : bool) || plain then conflict else
           fs_try (is_error FileNotFoundError) (read_file (reservation_of target))
             (fun _ => reserve_attempts key owner_token target attempts)
             (fun existing_owner =>
                if String.eqb existing_owner owner_token then mret (reserved_by key owner_token)
                else conflict))
        (fun _ => mret (reserved_by key owner_token))
  end.

Definition reserve_file_publication (key owner_token : string)
    : FS StoragePublicationReservation :=
  target ← fs_lift (_resolve key);
  _lock_for_key key;;
  mkdir_parents (parent target);;
  reserve_attempts key owner_token target _PUBLISH_RETRY_LIMIT.

Definition _inspect_file_unlocked (target : list string) (checksum_sha256 : string) (size_bytes : Z)
    : FS StorageObjectState :=
  there ← exists_ target;
  if negb (there : bool) then mret MISSING else
  directory ← is_dir target;
  let compare (object_path : list string) : FS StorageObjectState :=
    content ← read_file object_path;
    let '(existing_checksum, existing_size) := _checksum_and_size content in
    mret (if String.eqb existing_checksum checksum_sha256 && Z.eqb existing_size size_bytes
          then MATCHING else CONFLICT) in
  if (directory : bool) then
    published ← is_file (object_of target);
    if negb (published : bool) then
      reserved ← is_file (reservation_of target);
      mret (if (reserved : bool) then RESERVED else CONFLICT)
    else compare (object_of target)
  else compare target.

(** [except (FileNotFoundError, NotADirectoryError)] *)
Definition is_absent (e : exn) : bool :=
  is_error FileNotFoundError e || is_error NotADirectoryError e.

(** [source] is the content of the prepared archive. *)
Definition publish_reserved_file (reservation : StoragePublicationReservation)
    (source content_type checksum_sha256 : string) : FS StoredObject.t :=
  let key := reservation_key reservation in
  target ← fs_lift (_resolve key);
  let '(staged_checksum, staged_size) := _checksum_and_size source in
  if negb (String.eqb staged_checksum checksum_sha256)
  then fs_raise (ValueError "Prepared storage file checksum changed") else
  _lock_for_key key;;
  fs_try is_absent (read_file (reservation_of target)) (fun _ => conflict)
    (fun existing_owner =>
       if negb (String.eqb existing_owner (reservation_owner_token reservation))
          || negb (String.eqb (reservation_revision reservation) (reservation_owner_token reservation))
       then conflict else
       fs_try (fun e => is_error FileExistsError e || is_error FileNotFoundError e)
         (link source (object_of target))
         (fun e =>
            if is_error FileExistsError e then
              content ← read_file (object_of target);
              let '(existing_checksum, existing_size) := _checksum_and_size content in
              if negb (String.eqb existing_checksum staged_checksum)
                 || negb (Z.eqb existing_size staged_size)
              then conflict else mret tt
            else conflict)
         mret;;
       fs_try (is_error FileNotFoundError) (unlink (reservation_of target))
         (fun _ =>
            state ← _inspect_file_unlocked target checksum_sha256 staged_size;
            if bool_decide (state = MATCHING) then mret tt else conflict)
         mret);;
  mret (StoredObject.mk key content_type staged_size).

Definition cancel_file_publication (reservation : StoragePublicationReservation) : FS unit :=
  target ← fs_lift (_resolve (reservation_key reservation));
  _lock_for_key (reservation_key reservation);;
  fs_try is_absent (read_file (reservation_of target)) (fun _ => mret tt)
    (fun owner_token =>
       published ← exists_ (object_of target);
       if negb (String.eqb owner_token (reservation_owner_token reservation)) || published
       then mret tt
       else _remove_target_atomically target).

Definition inspect_file (key checksum_sha256 : string) (size_bytes : Z) : FS StorageObjectState :=
  target ← fs_lift (_resolve key);
  _lock_for_key key;;
  _inspect_file_unlocked target checksum_sha256 size_bytes.

Definition delete_file_if_not_matching (key checksum_sha256 : string) (size_bytes : Z)
    : FS StorageObjectState :=
  target ← fs_lift (_resolve key);
  _lock_for_key key;;
  state ← _inspect_file_unlocked target checksum_sha256 size_bytes;
  if bool_decide (state = MATCHING) then mret state
  else _remove_target_atomically target;; mret MISSING.

Definition get_bytes (key : string) : FS string :=
  target ← fs_lift (_resolve key);
  _lock_for_key key;;
  directory ← is_dir target;
  read_file (if (directory : bool) then object_of target else target).

Definition exists_object (key : string) : FS bool :=
  target ← fs_lift (_resolve key);
  _lock_for_key key;;
  directory ← is_dir target;
  if (directory : bool) then is_file (object_of target) else is_file target.

Definition delete (key : string) : FS unit :=
  target ← fs_lift (_resolve key);
  _lock_for_key key;;
  _remove_target_atomically target.

(** ** Download addresses *)

Definition url_prefix : string := "local://privacy-export/".

(** [int(datetime.now(UTC).timestamp())] *)
Definition timestamp (now : datetime) : Z := now / seconds 1.

Definition url_payload (safe_key : string) (exp : Z) : json :=
  JObj [("k", JStr safe_key); ("exp", JInt exp)]%string.

Definition generate_download_url (key : string) (expires_in_seconds : Z) (now : datetime)
    : result string :=
  safe_key ← _validate_key key;
  let payload_bytes := token_json_dumps (url_payload safe_key (timestamp now + expires_in_seconds)) in
  let payload_b64 := urlsafe_b64encode payload_bytes in
  let signature := hmac_sha256_hexdigest signing_secret payload_bytes in
  Ok (url_prefix ++ payload_b64 ++ "." ++ signature)%string.

(** [s.rsplit(".", 1)] where there is a dot. *)
Fixpoint rsplit_dot (s : string) : option (string * string) :=
  match s with
  | EmptyString => None
  | String c r =>
      match rsplit_dot r with
      | Some (before, after) => Some (String c before, after)
      | None => if Ascii.eqb c "." then Some (""%string, r) else None
      end
  end.

Definition is_ascii (s : string) : bool :=
  Text.forallb_chars (fun c => (nat_of_ascii c <? 128)%nat) s.

(** Raises where [hmac.compare_digest] is given a signature that is not ASCII, the signed
    payload is not an object, or [int] refuses its [exp]. *)
Definition verify_download_url (token expected_key : string) (now : datetime) : result bool :=
  if negb (Text.starts_with url_prefix token) then Ok false else
  match rsplit_dot (remove_prefix url_prefix token) with
  | None => Ok false
  | Some (payload_b64, signature) =>
      match (payload_bytes ← urlsafe_b64decode payload_b64;
             payload ← token_json_loads payload_bytes; Some (payload_bytes, payload)) with
      | None => Ok false
      | Some (payload_bytes, payload) =>
          if negb (is_ascii signature) then Err (OtherError "TypeError") else
          if negb (String.eqb (hmac_sha256_hexdigest signing_secret payload_bytes) signature)
          then Ok false else
          match payload with
          | JObj fields =>
              let get k := snd <$> List.find (fun kv => String.eqb kv.1 k) fields in
              if negb (bool_decide (get "k"%string = Some (JStr expected_key))) then Ok false else
              match get "exp"%string with
              | None => Ok (timestamp now <? 0)
              | Some (JInt exp) => Ok (timestamp now <? exp)
              | Some (JBool b) => Ok (timestamp now <? (if b then 1 else 0))
              | Some (JStr s) =>
                  if Text.is_empty s || negb (Text.forallb_chars is_digit s)
                  then Err (ValueError "invalid literal for int()")
                  else match int_of_digits s with
                       | Some exp => Ok (timestamp now <? exp)
                       | None => Err (ValueError "Exceeds the limit for integer string conversion")
                       end
              | Some _ => Err (OtherError "TypeError")
              end
          | _ => Err (OtherError "AttributeError")
          end
      end
  end.

End Adapter.
End LocalStorageAdapter.
