(* ===== verification/S3Storage.v ===== *)
(** [privacy/storage/s3.py]: export archives in a private bucket of an S3-compatible service.
    The service is a parameter: the commands the adapter sends, with the responses and the
    errors of [botocore]. Between two commands, and within one, other clients may write. *)
From S2P Require Import Prelude Errors Session Schema Tables AuditLog RateLimitPolicies.
From S2P Require Import RateLimitIngress Settings SubjectExports ExportArtifactServices Storage.

(** ** [botocore] *)

(** [ClientError] is an answer of the service; the others are failures to get one. *)
Inductive s3_error :=
  | ClientError (code : string) (status : Z)
  | HTTPClientError
  | BotoCoreError.

(** The error, when the adapter lets it through. *)
Definition raised (e : s3_error) : exn :=
  match e with
  | ClientError code _ => OtherError ("ClientError " ++ code)
  | HTTPClientError => OtherError "HTTPClientError"
  | BotoCoreError => OtherError "BotoCoreError"
  end.

Module PutObject.
Record t := mk {
  Bucket : string;
  Key : string;
  Body : string;
  ContentLength : option Z;
  ContentType : string;
  Metadata : list (string * string);
  IfNoneMatch : option string;
  IfMatch : option string;
  ChecksumSHA256 : option string;
  ServerSideEncryption : option string;
  SSEKMSKeyId : option string;
}.
End PutObject.

Module HeadObject.
Record t := mk {
  Metadata : list (string * string);
  ETag : option string;
  ContentLength : Z;
}.
End HeadObject.

(** The commands of the client. [put_object] answers with the [ETag] of its response. *)
Class S3 := {
  service : Type;
  put_object : PutObject.t -> service -> (option string + s3_error) * service;
  upload_fileobj : PutObject.t -> service -> option s3_error * service;
  head_object : string -> string -> service -> (HeadObject.t + s3_error) * service;
  get_object : string -> string -> service -> (string + s3_error) * service;
  delete_s3_object : string -> string -> option string -> service -> option s3_error * service;
  generate_presigned_url : string -> string -> string -> Z -> string;
}.

Module S3CompatibleStorageAdapter.

Definition _RESERVATION_OWNER_METADATA_KEY : string := "publication-reservation-owner".

(** ** Names *)

Definition _normalise_optional (value : option string) : option string :=
  match value with
  | None => None
  | Some value => let normalised := Text.strip value in
                  if Text.is_empty normalised then None else Some normalised
  end.

Definition _normalise_required (field_name : string) (value : option string) : result string :=
  match _normalise_optional value with
  | None => Err (ValueError (field_name ++ " is required"))
  | Some normalised => Ok normalised
  end.

Definition _validate_key (key : string) : result string :=
  value ← _normalise_required "storage key" (Some key);
  if Text.contains "\" value || Text.contains ":" value || Text.contains "//" value
  then Err (ValueError "Invalid storage key") else
  let parts := PurePosixPath.parts value in
  if PurePosixPath.is_absolute value || bool_decide (parts = []) || existsb unsafe_part parts
  then Err (ValueError "Invalid storage key")
  else Ok (Text.join "/" parts).

Definition _normalise_prefix (value : string) : result string :=
  match _normalise_optional (Some value) with
  | None => Ok ""%string
  | Some candidate => _validate_key (strip_both_slashes candidate)
  end.

(** ** Checksums *)

Definition hex_digit (c : ascii) : option Z := Z.of_nat <$> Url.hex_value c.

Definition ascii_space (c : ascii) : bool :=
  let n := nat_of_ascii c in ((n =? 32) || ((9 <=? n) && (n <=? 13)))%nat.

(** [bytes.fromhex]: spaces between two bytes are skipped. *)
Fixpoint fromhex (s : string) : option (list Z) :=
  match s with
  | EmptyString => Some []
  | String c r =>
      if ascii_space c then fromhex r else
      match r with
      | EmptyString => None
      | String c' r' =>
          h ← hex_digit c; l ← hex_digit c'; rest ← fromhex r'; Some (16 * h + l :: rest)
      end
  end.

Definition base64_char (n : Z) : ascii :=
  ascii_of_N (Z.to_N (if n <? 26 then n + 65 else if n <? 52 then n + 71
                      else if n <? 62 then n - 4 else if n =? 62 then 43 else 47)).

(** [base64.b64encode] *)
Fixpoint b64encode (digest : list Z) : string :=
  match digest with
  | a :: b :: c :: rest =>
      String (base64_char (a / 4)) (String (base64_char (a mod 4 * 16 + b / 16))
        (String (base64_char (b mod 16 * 4 + c / 64)) (String (base64_char (c mod 64))
          (b64encode rest))))
  | [a; b] =>
      String (base64_char (a / 4)) (String (base64_char (a mod 4 * 16 + b / 16))
        (String (base64_char (b mod 16 * 4)) "="))
  | [a] => String (base64_char (a / 4)) (String (base64_char (a mod 4 * 16)) "==")
  | [] => ""
  end.

Definition _sha256_base64 (checksum_sha256 : string) : result string :=
  match fromhex checksum_sha256 with
  | None => Err (ValueError "Invalid SHA-256 checksum")
  | Some digest =>
      if (List.length digest =? 32)%nat then Ok (b64encode digest)
      else Err (ValueError "Invalid SHA-256 checksum")
  end.

(** ** Errors of the service *)
Definition _is_precondition_failure (code : string) (status : Z) : bool :=
  Z.eqb status 412 || bool_decide (code ∈ ["412"; "PreconditionFailed"]%string).
Definition _is_conditional_request_conflict (code : string) (status : Z) : bool :=
  Z.eqb status 409 || bool_decide (code ∈ ["409"; "ConditionalRequestConflict"]%string).
Definition _is_missing_object (code : string) (status : Z) : bool :=
  Z.eqb status 404 || bool_decide (code ∈ ["404"; "NoSuchKey"; "NotFound"]%string).

(** ** The adapter *)
Record t := mk {
  bucket_name : string;
  key_prefix : string;
  server_side_encryption : option string;
  sse_kms_key_id : option string;
  max_conditional_write_attempts : nat;
}.

(** [__init__], without what only the client takes. *)
Definition init (bucket_name region_name key_prefix : string)
    (server_side_encryption sse_kms_key_id : option string) (max_attempts : Z) : result t :=
  bucket_name ← _normalise_required "bucket_name" (Some bucket_name);
  key_prefix ← _normalise_prefix key_prefix;
  region_name ← _normalise_required "region_name" (Some region_name);
  Ok (mk bucket_name key_prefix (_normalise_optional server_side_encryption)
        (_normalise_optional sse_kms_key_id) (Z.to_nat (Z.max 1 max_attempts))).

(** [metadata.get(name)] *)
Definition metadata_value (name : string) (metadata : list (string * string)) : option string :=
  snd <$> List.find (fun kv => String.eqb kv.1 name) metadata.

Definition _state_from_head_object (response : option HeadObject.t) (checksum_sha256 : string)
    (size_bytes : Z) : StorageObjectState :=
  match response with
  | None => MISSING
  | Some response =>
      let metadata := HeadObject.Metadata response in
      if match metadata_value _RESERVATION_OWNER_METADATA_KEY metadata with
         | Some owner => negb (Text.is_empty owner) | None => false end
      then RESERVED else
      if bool_decide (metadata_value "checksum-sha256" metadata = Some checksum_sha256)
         && Z.eqb (HeadObject.ContentLength response) size_bytes
      then MATCHING else CONFLICT
  end.

(** The state the adapter runs in is the service's. *)
Definition S3M `{S3} (A : Type) : Type := service -> result A * service.

Section Monad.
Context `{S3}.

#[export] Instance S3M_ret : MRet S3M := fun A a w => (Ok a, w).
#[export] Instance S3M_bind : MBind S3M := fun A B f m w =>
  match m w with
  | (Ok a, w') => f a w'
  | (Err e, w') => (Err e, w')
  end.

Definition s3_raise {A} (e : exn) : S3M A := fun w => (Err e, w).
Definition s3_lift {A} (r : result A) : S3M A := fun w => (r, w).

(** A command of the client, its failure a value. *)
Definition command {A} (m : service -> A * service) : S3M A := fun w =>
  let '(a, w') := m w in (Ok a, w').
End Monad.

Section Adapter.
Context `{S3} (self : t).

Definition _object_key (key : string) : result string :=
  safe_key ← _validate_key key;
  Ok (if Text.is_empty (key_prefix self) then safe_key
      else (key_prefix self ++ "/" ++ safe_key)%string).

(** The parameters of a [PUT], with the server-side encryption. *)
Definition put_params (object_key body : string) (length : option Z) (content_type : string)
    (metadata : list (string * string)) (if_none_match if_match checksum : option string) : PutObject.t :=
  PutObject.mk (bucket_name self) object_key body length content_type metadata if_none_match
    if_match checksum (server_side_encryption self) (sse_kms_key_id self).

Definition put_bytes (key data content_type : string) : S3M StoredObject.t :=
  object_key ← s3_lift (_object_key key);
  r ← command (put_object (put_params object_key data None content_type
                             [("privacy-artifact", "true")]%string None None None));
  match r with
  | inl _ => mret (StoredObject.mk key content_type (size_of data))
  | inr e => s3_raise (raised e)
  end.

Definition put_file (key source content_type : string) : S3M StoredObject.t :=
  object_key ← s3_lift (_object_key key);
  r ← command (upload_fileobj (put_params object_key source None content_type
                                 [("privacy-artifact", "true")]%string None None None));
  match r with
  | None => mret (StoredObject.mk key content_type (size_of source))
  | Some e => s3_raise (raised e)
  end.

Definition _head_object (object_key : string) : S3M (option HeadObject.t) :=
  r ← command (head_object (bucket_name self) object_key);
  match r with
  | inl response => mret (Some response)
  | inr (ClientError code status) =>
      if _is_missing_object code status then mret None
      else s3_raise StorageObjectStateUnknownError
  | inr _ => s3_raise StorageObjectStateUnknownError
  end.

Definition _reconcile_reservation (key object_key owner_token : string)
    : S3M (option StoragePublicationReservation) :=
  existing ← _head_object object_key;
  match existing with
  | None => mret None
  | Some existing =>
      match HeadObject.ETag existing with
      | Some revision =>
          if bool_decide (metadata_value _RESERVATION_OWNER_METADATA_KEY
                            (HeadObject.Metadata existing) = Some owner_token)
          then mret (Some (mkReservation key owner_token revision))
          else s3_raise StorageObjectConflictError
      | None => s3_raise StorageObjectConflictError
      end
  end.

Definition reservation_params (object_key owner_token : string) : PutObject.t :=
  put_params object_key "" (Some 0) "application/octet-stream"
    [(_RESERVATION_OWNER_METADATA_KEY, owner_token)] (Some "*"%string) None None.

(** The loop, [attempts] being left. *)
Fixpoint reserve_attempts (key object_key owner_token : string) (attempts : nat)
    : S3M StoragePublicationReservation :=
  match attempts with
  | O => s3_raise StorageObjectConflictError
  | S attempts =>
      let again := reserve_attempts key object_key owner_token attempts in
      let reconcile :=
        reservation ← _reconcile_reservation key object_key owner_token;
        match reservation with Some reservation => mret reservation | None => again end in
      r ← command (put_object (reservation_params object_key owner_token));
      match r with
      | inr (ClientError code status) =>
          if _is_precondition_failure code status then reconcile else
          if _is_conditional_request_conflict code status then again
          else s3_raise (raised (ClientError code status))
      | inr HTTPClientError => reconcile
      | inr BotoCoreError => s3_raise (raised BotoCoreError)
      | inl (Some revision) => mret (mkReservation key owner_token revision)
      | inl None => s3_raise StorageObjectConflictError
      end
  end.

Definition reserve_file_publication (key owner_token : string) : S3M StoragePublicationReservation :=
  object_key ← s3_lift (_object_key key);
  reserve_attempts key object_key owner_token (max_conditional_write_attempts self).

Definition inspect_file (key checksum_sha256 : string) (size_bytes : Z) : S3M StorageObjectState :=
  object_key ← s3_lift (_object_key key);
  response ← _head_object object_key;
  mret (_state_from_head_object response checksum_sha256 size_bytes).

Definition _published_object_matches (key checksum_sha256 : string) (size_bytes : Z) : S3M bool :=
  state ← inspect_file key checksum_sha256 size_bytes;
  mret (bool_decide (state = MATCHING)).

(** [source] is the content of the prepared archive. *)
Definition publish_reserved_file (reservation : StoragePublicationReservation)
    (source content_type checksum_sha256 : string) : S3M StoredObject.t :=
  let key := reservation_key reservation in
  object_key ← s3_lift (_object_key key);
  let size_bytes := size_of source in
  let stored := StoredObject.mk key content_type size_bytes in
  digest ← s3_lift (_sha256_base64 checksum_sha256);
  r ← command (put_object (put_params object_key source (Some size_bytes) content_type
         [("privacy-artifact", "true"); ("checksum-sha256", checksum_sha256)]%string
         None (Some (reservation_revision reservation)) (Some digest)));
  match r with
  | inl _ => mret stored
  | inr (ClientError code status) =>
      if _is_precondition_failure code status || _is_conditional_request_conflict code status
         || _is_missing_object code status
      then matches ← _published_object_matches key checksum_sha256 size_bytes;
           if (matches : bool) then mret stored else s3_raise StorageObjectConflictError
      else s3_raise (raised (ClientError code status))
  | inr HTTPClientError =>
      matches ← _published_object_matches key checksum_sha256 size_bytes;
      if (matches : bool) then mret stored else s3_raise (raised HTTPClientError)
  | inr BotoCoreError => s3_raise (raised BotoCoreError)
  end.

Definition cancel_file_publication (reservation : StoragePublicationReservation) : S3M unit :=
  object_key ← s3_lift (_object_key (reservation_key reservation));
  r ← command (delete_s3_object (bucket_name self) object_key (Some (reservation_revision reservation)));
  match r with
  | None => mret tt
  | Some (ClientError code status) =>
      if _is_precondition_failure code status || _is_conditional_request_conflict code status
         || _is_missing_object code status
      then mret tt else s3_raise (raised (ClientError code status))
  | Some e => s3_raise (raised e)
  end.

Fixpoint delete_unless_attempts (object_key checksum_sha256 : string) (size_bytes : Z)
    (attempts : nat) : S3M StorageObjectState :=
  match attempts with
  | O => s3_raise StorageObjectStateUnknownError
  | S attempts =>
      let again := delete_unless_attempts object_key checksum_sha256 size_bytes attempts in
      existing ← _head_object object_key;
      let state := _state_from_head_object existing checksum_sha256 size_bytes in
      if bool_decide (state = MISSING) || bool_decide (state = MATCHING) then mret state else
      match existing ≫= HeadObject.ETag with
      | None => s3_raise StorageObjectConflictError
      | Some revision =>
          r ← command (delete_s3_object (bucket_name self) object_key (Some revision));
          match r with
          | None => mret MISSING
          | Some (ClientError code status) =>
              if _is_missing_object code status then mret MISSING else again
          | Some _ => again
          end
      end
  end.

Definition delete_file_if_not_matching (key checksum_sha256 : string) (size_bytes : Z)
    : S3M StorageObjectState :=
  object_key ← s3_lift (_object_key key);
  delete_unless_attempts object_key checksum_sha256 size_bytes (max_conditional_write_attempts self).

Definition get_bytes (key : string) : S3M string :=
  object_key ← s3_lift (_object_key key);
  r ← command (get_object (bucket_name self) object_key);
  match r with
  | inl body => mret body
  | inr e => s3_raise (raised e)
  end.

Definition exists_object (key : string) : S3M bool :=
  object_key ← s3_lift (_object_key key);
  existing ← _head_object object_key;
  mret (negb (is_None existing)).

Fixpoint delete_attempts (object_key : string) (attempts : nat) : S3M unit :=
  match attempts with
  | O => s3_raise StorageObjectConflictError
  | S attempts =>
      existing ← _head_object object_key;
      match existing with
      | None => mret tt
      | Some existing =>
          match HeadObject.ETag existing with
          | None => s3_raise StorageObjectConflictError
          | Some revision =>
              r ← command (delete_s3_object (bucket_name self) object_key (Some revision));
              match r with
              | None => mret tt
              | Some (ClientError code status) =>
                  if _is_missing_object code status then mret tt else
                  if _is_precondition_failure code status
                     || _is_conditional_request_conflict code status
                  then delete_attempts object_key attempts
                  else s3_raise (raised (ClientError code status))
              | Some e => s3_raise (raised e)
              end
          end
      end
  end.

Definition delete (key : string) : S3M unit :=
  object_key ← s3_lift (_object_key key);
  delete_attempts object_key (max_conditional_write_attempts self).

Definition generate_download_url (key : string) (expires_in_seconds : Z) : result string :=
  object_key ← _object_key key;
  Ok (generate_presigned_url "get_object" (bucket_name self) object_key expires_in_seconds).

End Adapter.
End S3CompatibleStorageAdapter.
