(* ===== verification/InviteDelivery.v ===== *)
(** Delivery of invites by mail: [invites/services/delivery.py], the encryption of outbox
    payloads as it is configured ([outbox/services/payload_crypto.py]), and the sink the
    outbox worker gets. *)
From S2P Require Import Prelude Errors Session Schema Tables SubjectExports RateLimitPolicies.
From S2P Require Import Requests RateLimitIngress Settings Invites OutboxWorker.

(** ** Text *)

(** [s.replace(old, new)] for an [old] that is not empty: the occurrences of [old], from the
    left; [skip] characters belong to the one that was found last. *)
Fixpoint replace_from (old new : string) (skip : nat) (s : string) : string :=
  match s with
  | EmptyString => EmptyString
  | String c r =>
      match skip with
      | S k => replace_from old new k r
      | O => if Text.starts_with old s
             then (new ++ replace_from old new (String.length old - 1) r)%string
             else String c (replace_from old new 0 r)
      end
  end.

Definition replace (old new s : string) : string := replace_from old new 0 s.

(** [quote(s, safe="")]: the characters of addresses stay, the others become [%XY]. *)
Definition is_unreserved (c : ascii) : bool :=
  Url.is_alpha c || is_digit c
  || Ascii.eqb c "_" || Ascii.eqb c "." || Ascii.eqb c "-" || Ascii.eqb c "~".

Definition upper_hex (n : nat) : ascii := ascii_of_nat (if (n <? 10)%nat then 48 + n else 55 + n).

Fixpoint quote (s : string) : string :=
  match s with
  | EmptyString => EmptyString
  | String c r =>
      if is_unreserved c then String c (quote r)
      else let n := nat_of_ascii c in
           String "%" (String (upper_hex (n / 16)) (String (upper_hex (n mod 16)) (quote r)))
  end.

(** ** The settings *)

Definition InviteDeliveryConfigurationError : exn := OtherError "InviteDeliveryConfigurationError".

(** What pydantic takes for an address of mail. *)
Class EmailTypes := { email_str : string -> option string }.

Module InviteDeliverySettings.
Record fields (S : Type) := mk {
  provider : S;
  from_email : option string;
  subject : S;
  accept_url_template : option string;
  smtp_host : option string;
  smtp_port : Z;
  smtp_username : option string;
  smtp_password : option string;
  smtp_timeout_seconds : Z;
  smtp_use_tls : bool;
  smtp_start_tls : bool;
}.
#[global] Arguments mk {S} provider from_email subject accept_url_template smtp_host smtp_port
  smtp_username smtp_password smtp_timeout_seconds smtp_use_tls smtp_start_tls.
#[global] Arguments provider {S} _.
#[global] Arguments from_email {S} _.
#[global] Arguments subject {S} _.
#[global] Arguments accept_url_template {S} _.
#[global] Arguments smtp_host {S} _.
#[global] Arguments smtp_port {S} _.
#[global] Arguments smtp_username {S} _.
#[global] Arguments smtp_password {S} _.
#[global] Arguments smtp_timeout_seconds {S} _.
#[global] Arguments smtp_use_tls {S} _.
#[global] Arguments smtp_start_tls {S} _.

Definition t : Type := fields string.
Definition input : Type := fields (option string).

Definition normalise_optional_text : option string -> option string := _normalise_optional_string.
Definition normalise_optional_secret : option string -> option string := _normalise_optional_string.

Definition validate_subject (value : string) : result string :=
  if Text.is_empty (Text.strip value)
  then Err (ValueError "INVITE_DELIVERY__SUBJECT must not be blank")
  else Ok (Text.strip value).

Definition validate_accept_url_template (value : option string) : result (option string) :=
  match value with
  | None => Ok None
  | Some value =>
      if negb (Text.contains "{token}" value)
      then Err (ValueError "INVITE_DELIVERY__ACCEPT_URL_TEMPLATE must contain {token}") else
      let parsed := replace "{token}" "token" value in
      if negb (bool_decide (Url.scheme parsed ∈ ["http"; "https"]%string))
         || Text.is_empty (Url.netloc parsed)
      then Err (ValueError "INVITE_DELIVERY__ACCEPT_URL_TEMPLATE must be an http(s) URL")
      else Ok (Some value)
  end.

Definition validate_smtp_provider (self : t) : result t :=
  if negb (String.eqb (provider self) "smtp") then Ok self else
  let missing :=
    (if is_None (from_email self) then ["INVITE_DELIVERY__FROM_EMAIL"%string] else [])
    ++ (if is_None (accept_url_template self)
        then ["INVITE_DELIVERY__ACCEPT_URL_TEMPLATE"%string] else [])
    ++ (if is_None (smtp_host self) then ["INVITE_DELIVERY__SMTP_HOST"%string] else []) in
  if negb (bool_decide (missing = []))
  then Err (ValueError ("INVITE_DELIVERY__PROVIDER=smtp requires: " ++ Text.join ", " missing)) else
  if smtp_use_tls self && smtp_start_tls self
  then Err (ValueError ("INVITE_DELIVERY__SMTP_USE_TLS and "
                        ++ "INVITE_DELIVERY__SMTP_START_TLS cannot both be true")) else
  if negb (Bool.eqb (is_None (smtp_username self)) (is_None (smtp_password self)))
  then Err (ValueError ("INVITE_DELIVERY__SMTP_USERNAME and "
                        ++ "INVITE_DELIVERY__SMTP_PASSWORD must be set together")) else
  Ok self.

(** A text that must be there. *)
Definition required (value : option string) (name : string) : result string :=
  match value with Some s => Ok s | None => Err (ValueError name) end.

Definition validate `{EmailTypes} (i : input) : result t :=
  provider ← required (normalise_optional_text (provider i)) "provider";
  bounded (bool_decide (provider ∈ ["noop"; "smtp"]%string)) "provider";;
  from_email ← match normalise_optional_text (from_email i) with
               | None => Ok None
               | Some s => email ← required (email_str s) "from_email"; Ok (Some email)
               end;
  subject ← required (normalise_optional_text (subject i)) "subject";
  subject ← validate_subject subject;
  accept_url_template ←
    validate_accept_url_template (normalise_optional_text (accept_url_template i));
  bounded ((0 <? smtp_port i) && (smtp_port i <=? 65535)) "smtp_port";;
  bounded (0 <? smtp_timeout_seconds i) "smtp_timeout_seconds";;
  validate_smtp_provider
    (mk provider from_email subject accept_url_template
       (normalise_optional_text (smtp_host i)) (smtp_port i)
       (normalise_optional_text (smtp_username i)) (normalise_optional_secret (smtp_password i))
       (smtp_timeout_seconds i) (smtp_use_tls i) (smtp_start_tls i)).
End InviteDeliverySettings.

(** ** Messages *)

Module EmailMessage.
Record t := mk { From_ : string; To_ : string; Subject : string; content : string }.

Definition is_line_boundary (c : ascii) : bool :=
  let n := nat_of_ascii c in ((10 <=? n) && (n <=? 13) || (28 <=? n) && (n <=? 30))%nat.

(** [1 < len(s.splitlines())]: something follows the first line. *)
Fixpoint spans_lines (s : string) : bool :=
  match s with
  | EmptyString => false
  | String c r =>
      if negb (is_line_boundary c) then spans_lines r else
      match r with
      | String d r' =>
          if Ascii.eqb c "013" && Ascii.eqb d "010" then negb (Text.is_empty r') else true
      | EmptyString => false
      end
  end.

(** [message[name] = value] *)
Definition header (value : string) : result string :=
  if spans_lines value
  then Err (ValueError "Header values may not contain linefeed or carriage return characters")
  else Ok value.
End EmailMessage.

(** ** The dialogue with a mail server *)

(** [ssl.create_default_context()]: certificates and host names are checked. *)
Inductive SslContext := create_default_context.

Module Smtp.
Inductive command :=
  | SMTP (host : string) (port timeout : Z)
  | SMTP_SSL (host : string) (port timeout : Z) (context : option SslContext)
  | starttls (context : option SslContext)
  | login (user password : string)
  | send_message (message : EmailMessage.t)
  | quit.

(** What was sent, and how it ended: with an exception, or well. *)
Record event := mkEvent { sent : command; failure : option exn }.
End Smtp.

(** How a command ends, after the ones before it. *)
Class MailServer := { answer : list Smtp.event -> Smtp.command -> option exn }.

(** A dialogue appends to its events. *)
Definition Mail (A : Type) : Type := list Smtp.event -> result A * list Smtp.event.

#[export] Instance Mail_ret : MRet Mail := fun A a h => (Ok a, h).
#[export] Instance Mail_bind : MBind Mail := fun A B f m h =>
  match m h with
  | (Ok a, h) => f a h
  | (Err e, h) => (Err e, h)
  end.

Definition lift {A} (r : result A) : Mail A := fun h => (r, h).

Module Delivery.
Import InviteDeliverySettings.

Definition _PROTECTED_INVITE_DELIVERY_ENVIRONMENTS : list string := ["dev"; "staging"; "prod"]%string.
Definition _PROTECTED_SMTP_TRANSPORT_ENVIRONMENTS : list string := ["staging"; "prod"]%string.

Inductive InviteTokenSink :=
  | NoOpInviteTokenSink
  | SmtpInviteTokenSink (settings : InviteDeliverySettings.t).

(** [SmtpInviteTokenSink.__init__] *)
Definition smtp_sink (settings : InviteDeliverySettings.t) : result InviteTokenSink :=
  if negb (String.eqb (provider settings) "smtp") then Err InviteDeliveryConfigurationError
  else Ok (SmtpInviteTokenSink settings).

Definition _invite_email_body (invite : Invite.t) (accept_url : string) : string :=
  Text.join (String "010" "")
    (["You have been invited to join an organisation."; "";
      "Role: " ++ MembershipRole.value (Invite.role invite); "";
      "Open this invitation link to accept:"; accept_url; ""]%string
     ++ match Invite.expires_at invite with
        | None => []
        | Some expires_at =>
            ["This invitation expires at:"; IsoFormat.isoformat expires_at; ""]%string
        end
     ++ ["If you did not expect this invitation, ignore this email."%string]).

Definition accept_url (template raw_token : string) : string :=
  replace "{token}" (quote raw_token) template.

Definition build_invite_email_message (invite : Invite.t) (raw_token : string)
    (settings : InviteDeliverySettings.t) : result EmailMessage.t :=
  match from_email settings, accept_url_template settings with
  | Some from_email, Some template =>
      let accept_url := accept_url template raw_token in
      from ← EmailMessage.header from_email;
      to ← EmailMessage.header (Invite.email invite);
      subject ← EmailMessage.header (subject settings);
      Ok (EmailMessage.mk from to subject (_invite_email_body invite accept_url))
  | _, _ => Err InviteDeliveryConfigurationError
  end.

Definition _ensure_noop_allowed (environment : string) (invite_delivery_enabled : bool)
    : result unit :=
  if negb invite_delivery_enabled then Ok tt else
  if negb (bool_decide (environment ∈ _PROTECTED_INVITE_DELIVERY_ENVIRONMENTS)) then Ok tt else
  Err InviteDeliveryConfigurationError.

Definition _ensure_protected_smtp_url_policy (settings : InviteDeliverySettings.t)
    (environment : string) : result unit :=
  if negb (bool_decide (environment ∈ _PROTECTED_SMTP_TRANSPORT_ENVIRONMENTS)) then Ok tt else
  match accept_url_template settings with
  | None => Err InviteDeliveryConfigurationError
  | Some template =>
      let scheme := Url.scheme (replace "{token}" "token" template) in
      if negb (String.eqb scheme "https") then Err InviteDeliveryConfigurationError else
      if negb (smtp_use_tls settings || smtp_start_tls settings)
      then Err InviteDeliveryConfigurationError else Ok tt
  end.

(** [app_settings] is [get_settings()], [delivery_settings] what
    [get_invite_delivery_settings()] returns or raises. *)
Definition get_invite_token_sink (app_settings : Settings.Settings.t)
    (delivery_settings : result InviteDeliverySettings.t) : result InviteTokenSink :=
  let enabled := OutboxSettings.invite_delivery_enabled (Settings.Settings.outbox app_settings) in
  let environment := AppSettings.environment (Settings.Settings.app app_settings) in
  if negb enabled then Ok NoOpInviteTokenSink else
  delivery_settings ← delivery_settings;
  if String.eqb (provider delivery_settings) "smtp" then
    _ensure_protected_smtp_url_policy delivery_settings environment;;
    smtp_sink delivery_settings
  else
    _ensure_noop_allowed environment enabled;;
    Ok NoOpInviteTokenSink.

Section Dialogue.
Context `{MailServer}.

Definition command (c : Smtp.command) : Mail unit := fun h =>
  let failure := answer h c in
  (match failure with None => Ok tt | Some e => Err e end, h ++ [Smtp.mkEvent c failure]).

(** Leaving a [with] block quits whatever happened, and a failure of that replaces the
    outcome. *)
Definition closing (body : Mail unit) : Mail unit := fun h =>
  let '(outcome, h) := body h in
  match command Smtp.quit h with
  | (Err e, h) => (Err e, h)
  | (Ok _, h) => (outcome, h)
  end.

(** [with connect as smtp: body] *)
Definition with_smtp (connect : Smtp.command) (body : Mail unit) : Mail unit :=
  command connect ;; closing body.

Definition _authenticate_and_send (message : EmailMessage.t) (settings : InviteDeliverySettings.t)
    (password : option string) : Mail unit :=
  match smtp_username settings, password with
  | Some username, Some password => command (Smtp.login username password)
  | _, _ => mret tt
  end ;;
  command (Smtp.send_message message).

Definition _send_smtp_message (message : EmailMessage.t) (settings : InviteDeliverySettings.t)
    : Mail unit :=
  match smtp_host settings with
  | None => lift (Err InviteDeliveryConfigurationError)
  | Some host =>
      let context := Some create_default_context in
      let password := smtp_password settings in
      if smtp_use_tls settings then
        with_smtp (Smtp.SMTP_SSL host (smtp_port settings) (smtp_timeout_seconds settings) context)
          (_authenticate_and_send message settings password)
      else
        with_smtp (Smtp.SMTP host (smtp_port settings) (smtp_timeout_seconds settings))
          ((if smtp_start_tls settings then command (Smtp.starttls context) else mret tt) ;;
           _authenticate_and_send message settings password)
  end.

Definition deliver (sink : InviteTokenSink) (invite : Invite.t) (raw_token : string) : Mail unit :=
  match sink with
  | NoOpInviteTokenSink => mret tt
  | SmtpInviteTokenSink settings =>
      message ← lift (build_invite_email_message invite raw_token settings);
      _send_smtp_message message settings
  end.

(** The attempt of the worker: it gets the sink and delivers. *)
Definition attempt (app_settings : Settings.Settings.t)
    (delivery_settings : result InviteDeliverySettings.t) (invite : Invite.t) (raw_token : string)
    : Mail unit :=
  sink ← lift (get_invite_token_sink app_settings delivery_settings);
  deliver sink invite raw_token.
End Dialogue.

(** The worker as it is configured, with a mail server for each attempt. *)
Section Worker.
Context (validate_fields : json -> option InviteOutboxPayload.t).
Context (app_settings : Settings.Settings.t) (delivery_settings : result InviteDeliverySettings.t).
Context (server : nat -> MailServer).

Definition configured : OutboxWorker.Delivery := {|
  OutboxWorker.validate_fields := validate_fields;
  OutboxWorker.invite_delivery_enabled :=
    OutboxSettings.invite_delivery_enabled (Settings.Settings.outbox app_settings);
  OutboxWorker.deliver := fun n invite raw_token =>
    (attempt (H := server n) app_settings delivery_settings invite raw_token []).1;
|}.
End Worker.
End Delivery.

(** ** [outbox/services/payload_crypto.py] *)
Module OutboxPayloadCrypto.

Definition _LOCAL_TEST_FALLBACK_FERNET_KEY : string := "MDEyMzQ1Njc4OWFiY2RlZjAxMjM0NTY3ODlhYmNkZWY=".

Definition resolve_outbox_encryption_key (settings : Settings.Settings.t) : result string :=
  match SecuritySettings.outbox_token_encryption_key (Settings.Settings.security settings) with
  | Some key => Ok key
  | None =>
      if bool_decide (AppSettings.environment (Settings.Settings.app settings)
                      ∈ ["local"; "test"]%string)
      then Ok _LOCAL_TEST_FALLBACK_FERNET_KEY
      else Err (ValueError "SECURITY__OUTBOX_TOKEN_ENCRYPTION_KEY must be configured")
  end.

(** [Fernet] under a key: [decrypt] is [None] where it raises [InvalidToken]. *)
Class Fernet := {
  fernet_encrypt_with : string -> nat -> string -> string;
  fernet_decrypt_with : string -> string -> option string;
}.

Section Crypto.
Context `{SettingsLibraries} `{Fernet}.

(** [OutboxPayloadCrypto(key)] *)
Definition init (key : string) : result string :=
  if fernet_key_valid key then Ok key
  else Err (ValueError "Invalid SECURITY__OUTBOX_TOKEN_ENCRYPTION_KEY format").

Definition from_settings (settings : Settings.Settings.t) : result string :=
  key ← resolve_outbox_encryption_key settings; init key.

Definition encrypt_token (key raw_token : string) : M Db string :=
  draw (fun n => fernet_encrypt_with key n raw_token).

Definition decrypt_token (key encrypted_raw_token : string) : result string :=
  match fernet_decrypt_with key encrypted_raw_token with
  | Some raw_token => Ok raw_token
  | None => Err (ValueError "outbox_payload_decryption_failed")
  end.

(** What the invite service and the worker use, under the key of the settings. *)
Definition configured (sha256_hexdigest : string -> string) (key : string) : Crypto := {|
  Invites.sha256_hexdigest := sha256_hexdigest;
  Invites.fernet_encrypt := fernet_encrypt_with key;
  Invites.fernet_decrypt := fernet_decrypt_with key;
|}.
End Crypto.
End OutboxPayloadCrypto.
