(* ===== verification/Api.v ===== *)
(** The HTTP handlers of the routers under [*/api], over one session per request:
    the rate-limit dependency, the resolution of the caller and the service call
    with the audit context built from the request. Authentication has produced
    the identity; the response models are not part of the model. *)
From S2P Require Import Prelude Errors Session Schema Tables AuditLog Users Memberships.
From S2P Require Import Organisations MembershipServices Outbox Invites Platform.
From S2P Require Import DataSubjectRequests Requests.

(** A rate-limit dependency: it raises or lets the request pass. *)
Definition RateLimit : Type := nat -> result unit.

(** A handler behind its rate-limit dependency. *)
Definition rate_limited {A} (limit : RateLimit) (handler : M Db A) : M Db A :=
  with_session (await_external limit ;; handler).

(** What every handler gets: the settings, the request and the caller. *)
Record Call := mkCall {
  settings : RequestSettings;
  request : Request.t;
  identity : identity_t;
  rate_limit : RateLimit;
}.

Section Audit.
Context `{Network} `{IpNetworks}.

(** [build_audit_context_from_request(actor_user_id=user.id, request=request)] *)
Definition audit_context (c : Call) (actor_user_id : UUID) : AuditContext.t :=
  AuditRequestContext.build_audit_context_from_request (settings c) (Some actor_user_id) (request c).

End Audit.

(** ** [users/api/users.py] *)
Module UsersApi.
Section Users.
Context `{Env}.

Definition get_me (c : Call) : M Db (User.t * option Membership.t) :=
  rate_limited (rate_limit c) (
    user ← UserService.get_me (identity c);
    membership ← MembershipService.get_membership_for_user (User.id user);
    mret (user, membership)).

End Users.
End UsersApi.

(** ** [organisations/api/organisations.py] *)
Module OrganisationsApi.
Section Organisations.
Context `{Env} `{Network} `{IpNetworks}.

Definition create_organisation (c : Call) (name slug : string) : M Db Organisation.t :=
  rate_limited (rate_limit c) (
    r ← OnboardingService.create_organisation_for_current_user (identity c) name slug;
    mret r.1.2).

Definition get_organisation (c : Call) (organisation_id : UUID) : M Db Organisation.t :=
  rate_limited (rate_limit c) (
    OrganisationAccessService.get_organisation_for_member (identity c) organisation_id).

Definition update_organisation (c : Call) (business : BusinessRateLimiter)
    (organisation_id : UUID) (name slug : option string) : M Db Organisation.t :=
  rate_limited (rate_limit c) (
    user ← UserService.provision_current_user (identity c);
    OrganisationService.update_organisation_details organisation_id (User.id user)
      (audit_context c (User.id user)) name slug (Some business)).

Definition get_organisation_directory (c : Call) (organisation_id : UUID)
    : M Db (list MembershipService.OrganisationDirectoryMember) :=
  rate_limited (rate_limit c) (
    user ← UserService.provision_current_user (identity c);
    MembershipService.list_directory_members_for_user organisation_id (User.id user)).

Definition change_membership_role (c : Call) (business : BusinessRateLimiter)
    (organisation_id membership_id : UUID) (role : MembershipRole.t) : M Db Membership.t :=
  rate_limited (rate_limit c) (
    user ← UserService.provision_current_user (identity c);
    MembershipService.change_membership_role organisation_id (User.id user)
      (audit_context c (User.id user)) membership_id role (Some business)).

Definition remove_membership (c : Call) (business : BusinessRateLimiter)
    (organisation_id membership_id : UUID) (reason : option string) : M Db unit :=
  rate_limited (rate_limit c) (
    user ← UserService.provision_current_user (identity c);
    MembershipService.remove_membership organisation_id (User.id user)
      (audit_context c (User.id user)) membership_id reason (Some business) ;;
    mret tt).

Definition delete_organisation (c : Call) (business : BusinessRateLimiter)
    (organisation_id : UUID) (reason : option string) : M Db unit :=
  rate_limited (rate_limit c) (
    user ← UserService.provision_current_user (identity c);
    OrganisationService.soft_delete organisation_id (User.id user)
      (audit_context c (User.id user)) reason (Some business) ;;
    mret tt).

Definition list_organisation_memberships (c : Call) (organisation_id : UUID)
    : M Db (list Membership.t) :=
  rate_limited (rate_limit c) (
    user ← UserService.provision_current_user (identity c);
    MembershipService.list_memberships_for_management organisation_id (User.id user)).

End Organisations.
End OrganisationsApi.

(** ** [invites/api/invites.py] *)
Module InvitesApi.
Section Invites.
Context `{Env} `{Network} `{IpNetworks} `{Crypto}.

Definition create_invite (c : Call) (business : BusinessRateLimiter) (organisation_id : UUID)
    (role : MembershipRole.t) (email : string) : M Db Invite.t :=
  rate_limited (rate_limit c) (
    user ← UserService.provision_current_user (identity c);
    InviteService.create_invite organisation_id (User.id user) role email
      (audit_context c (User.id user)) (Some business)).

(** Its dependency checks two policies, one after the other. *)
Definition accept_invite (c : Call) (token_rate_limit : RateLimit) (token : string)
    : M Db Membership.t :=
  rate_limited (rate_limit c) (
    await_external token_rate_limit ;;
    InviteService.accept_invite token (identity c)).

Definition revoke_invite (c : Call) (organisation_id invite_id : UUID) (reason : option string)
    : M Db unit :=
  rate_limited (rate_limit c) (
    user ← UserService.provision_current_user (identity c);
    InviteService.revoke_invite organisation_id invite_id (User.id user)
      (audit_context c (User.id user)) reason).

Definition resend_invite (c : Call) (business : BusinessRateLimiter)
    (organisation_id invite_id : UUID) : M Db Invite.t :=
  rate_limited (rate_limit c) (
    user ← UserService.provision_current_user (identity c);
    InviteService.resend_invite organisation_id invite_id (User.id user)
      (audit_context c (User.id user)) (Some business)).

End Invites.
End InvitesApi.

(** A handler that depends on [require_rate_limited_platform_write_context]. *)
Definition platform_write `{Env} {A} (c : Call) (permission : PlatformPermission.t)
    (handler : PlatformActor.t -> M Db A) : M Db A :=
  with_session (WriteContext.with_rate_limited_platform_write_context (rate_limit c) (identity c)
    permission handler).

(** A handler that depends on [require_platform_permission]. *)
Definition platform_read `{Env} {A} (c : Call) (permission : PlatformPermission.t)
    (handler : M Db A) : M Db A :=
  rate_limited (rate_limit c)
    (WriteContext.resolve_platform_actor (identity c) permission ;; handler).

(** ** [platform/api/identity.py] and [platform/api/staff.py] *)
Module PlatformStaffApi.
Section Staff.
Context `{Env} `{Network} `{IpNetworks}.
Import PlatformPermission.

Definition get_platform_identity (c : Call) : M Db PlatformActor.t :=
  rate_limited (rate_limit c) (WriteContext.resolve_active_platform_actor (identity c)).

Definition list_platform_staff (c : Call) (limit offset : nat)
    (status : option PlatformStaffStatus.t) (role : option PlatformStaffRole.t) :=
  platform_read c PLATFORM_STAFF_MANAGE (PlatformStaffService.list_staff limit offset status role).

Definition get_platform_staff (c : Call) (staff_id : UUID) : M Db PlatformStaff.t :=
  platform_read c PLATFORM_STAFF_MANAGE (PlatformStaffService.get_staff staff_id).

Definition create_platform_staff (c : Call) (user_id : UUID) (role : PlatformStaffRole.t)
    (reason : string) : M Db PlatformStaff.t :=
  platform_write c PLATFORM_STAFF_MANAGE (fun actor =>
    PlatformStaffService.create_staff actor user_id role reason
      (audit_context c (User.id (PlatformActor.user actor)))).

Definition update_platform_staff_role (c : Call) (staff_id : UUID) (role : PlatformStaffRole.t)
    (reason : string) : M Db PlatformStaff.t :=
  platform_write c PLATFORM_STAFF_MANAGE (fun actor =>
    PlatformStaffService.change_role staff_id actor role reason
      (audit_context c (User.id (PlatformActor.user actor)))).

Definition suspend_platform_staff (c : Call) (staff_id : UUID) (reason : string)
    : M Db PlatformStaff.t :=
  platform_write c PLATFORM_STAFF_MANAGE (fun actor =>
    PlatformStaffService.suspend_staff staff_id actor reason
      (audit_context c (User.id (PlatformActor.user actor)))).

Definition restore_platform_staff (c : Call) (staff_id : UUID) (reason : string)
    : M Db PlatformStaff.t :=
  platform_write c PLATFORM_STAFF_MANAGE (fun actor =>
    PlatformStaffService.restore_staff staff_id reason
      (audit_context c (User.id (PlatformActor.user actor)))).

End Staff.
End PlatformStaffApi.

(** ** [platform/api/users.py] *)
Module PlatformUsersApi.
Section Users.
Context `{Env} `{Network} `{IpNetworks}.
Import PlatformPermission.

Definition list_limited_platform_users (c : Call) (limit offset : nat)
    (status : option UserStatus.t) (q : option string) :=
  platform_read c USERS_READ_LIMITED
    (PlatformUsersService.list_limited_users limit offset status q).

Definition list_platform_users (c : Call) (limit offset : nat) (status : option UserStatus.t)
    (q : option string) :=
  platform_read c USERS_READ (PlatformUsersService.list_users limit offset status q).

Definition get_platform_user (c : Call) (user_id : UUID) : M Db User.t :=
  platform_read c USERS_READ (PlatformUsersService.get_user user_id).

Definition suspend_platform_user (c : Call) (user_id : UUID) (reason : string) : M Db User.t :=
  platform_write c USERS_SUSPEND (fun actor =>
    PlatformUsersService.suspend_user user_id actor reason
      (audit_context c (User.id (PlatformActor.user actor)))).

Definition restore_platform_user (c : Call) (user_id : UUID) (reason : string) : M Db User.t :=
  platform_write c USERS_RESTORE (fun actor =>
    PlatformUsersService.restore_user user_id actor reason
      (audit_context c (User.id (PlatformActor.user actor)))).

End Users.
End PlatformUsersApi.

(** ** [platform/api/organisations.py] *)
Module PlatformOrganisationsApi.
Section Organisations.
Context `{Env} `{Network} `{IpNetworks}.
Import PlatformPermission.

Definition list_limited_platform_organisations (c : Call) (limit offset : nat)
    (status : option OrganisationStatus.t) (q : option string) :=
  platform_read c ORGANISATIONS_READ_LIMITED
    (PlatformOrganisationsService.list_limited_organisations limit offset status q).

Definition list_platform_organisations (c : Call) (limit offset : nat)
    (status : option OrganisationStatus.t) (q : option string) :=
  platform_read c ORGANISATIONS_READ
    (PlatformOrganisationsService.list_organisations limit offset status q).

Definition get_platform_organisation (c : Call) (organisation_id : UUID) : M Db Organisation.t :=
  platform_read c ORGANISATIONS_READ
    (PlatformOrganisationsService.get_organisation organisation_id).

Definition suspend_platform_organisation (c : Call) (organisation_id : UUID) (reason : string)
    : M Db Organisation.t :=
  platform_write c ORGANISATIONS_SUSPEND (fun actor =>
    PlatformOrganisationsService.suspend_organisation organisation_id actor reason
      (audit_context c (User.id (PlatformActor.user actor)))).

Definition restore_platform_organisation (c : Call) (organisation_id : UUID) (reason : string)
    : M Db Organisation.t :=
  platform_write c ORGANISATIONS_RESTORE (fun actor =>
    PlatformOrganisationsService.restore_organisation organisation_id actor reason
      (audit_context c (User.id (PlatformActor.user actor)))).

Definition patch_platform_organisation (c : Call) (organisation_id : UUID)
    (name slug : option string) (reason : string) : M Db Organisation.t :=
  platform_write c ORGANISATIONS_CORRECT_PROFILE (fun actor =>
    PlatformOrganisationsService.correct_organisation_profile organisation_id actor name slug reason
      (audit_context c (User.id (PlatformActor.user actor)))).

End Organisations.
End PlatformOrganisationsApi.

(** ** [privacy/api/data_subject_requests.py] *)
Module DataSubjectRequestsApi.
Section Requests.
Context `{Env} `{Network} `{IpNetworks} `{Crypto}.

(** [user.id] where [get_current_user_by_external_auth_id] may have returned [None]. *)
Definition current_user_id (identity : identity_t) : M Db UUID :=
  user ← UserService.get_current_user_by_external_auth_id identity;
  user ← or_raise user (OtherError "AttributeError");
  mret (User.id user).

(** The payload of [submit_data_subject_request]. *)
Record Payload := mkPayload {
  request_type : DataSubjectRequestType.t;
  requester_note : option string;
  subject_user_id : option UUID;
  requester_role : DataSubjectRequestRequesterRole.t;
  representative_relationship : option string;
  representative_authority_note : option string;
}.

Definition submit_data_subject_request (c : Call) (p : Payload) (idempotency_key : option string)
    : M Db DataSubjectRequest.t :=
  rate_limited (rate_limit c) (begin (
    user_id ← current_user_id (identity c);
    DataSubjectRequestService.submit_request user_id
      (DataSubjectRequestType.value (request_type p)) (requester_note p) (subject_user_id p)
      (DataSubjectRequestRequesterRole.value (requester_role p)) (representative_relationship p)
      (representative_authority_note p) idempotency_key None (audit_context c user_id))).

Definition list_own_data_subject_requests (c : Call) (limit offset : nat)
    (status : option DataSubjectRequestStatus.t) (request_type : option DataSubjectRequestType.t) :=
  rate_limited (rate_limit c) (
    user_id ← current_user_id (identity c);
    DataSubjectRequestService.list_own_requests user_id limit offset
      (option_map DataSubjectRequestStatus.value status)
      (option_map DataSubjectRequestType.value request_type)).

Definition get_own_data_subject_request (c : Call) (request_id : UUID)
    : M Db DataSubjectRequest.t :=
  rate_limited (rate_limit c) (
    user_id ← current_user_id (identity c);
    DataSubjectRequestService.get_own_request user_id request_id).

Definition cancel_own_data_subject_request (c : Call) (request_id : UUID)
    : M Db DataSubjectRequest.t :=
  rate_limited (rate_limit c) (begin (
    user_id ← current_user_id (identity c);
    DataSubjectRequestService.cancel_own_request user_id request_id (audit_context c user_id))).

End Requests.
End DataSubjectRequestsApi.

(** ** [privacy/api/platform_data_subject_requests.py] *)
Module PlatformDataSubjectRequestsApi.
Section Requests.
Context `{Env} `{Network} `{IpNetworks} `{Crypto}.
Import PlatformPermission DataSubjectRequestService.

(** The review endpoints: the actor, his identifier and the audit context. *)
Definition review (c : Call) (handler : UUID -> AuditContext.t -> M Db DataSubjectRequest.t)
    : M Db DataSubjectRequest.t :=
  platform_write c PRIVACY_REQUESTS_REVIEW (fun actor =>
    let actor_user_id := User.id (PlatformActor.user actor) in
    handler actor_user_id (audit_context c actor_user_id)).

Definition get_platform_data_subject_request (c : Call) (request_id : UUID)
    : M Db DataSubjectRequest.t :=
  platform_read c PRIVACY_REQUESTS_READ (get_platform_request request_id).

Definition list_platform_data_subject_requests (c : Call) (limit offset : nat)
    (f : DataSubjectRequestRepository.PlatformFilter) :=
  platform_read c PRIVACY_REQUESTS_READ (list_platform_requests limit offset f).

Definition verify_platform_dsr_representative_authority (c : Call) (request_id : UUID)
    (reason_code : option string) : M Db DataSubjectRequest.t :=
  review c (fun actor ctx => verify_representative_authority request_id actor reason_code ctx None).

Definition reject_platform_dsr_representative_authority (c : Call) (request_id : UUID)
    (reason_code : string) : M Db DataSubjectRequest.t :=
  review c (fun actor ctx => reject_representative_authority request_id actor reason_code ctx).

Definition review_platform_data_subject_request (c : Call) (request_id : UUID)
    : M Db DataSubjectRequest.t :=
  review c (fun actor ctx => mark_under_review request_id actor ctx).

Definition approve_platform_data_subject_request (c : Call) (request_id : UUID)
    (reason_code : option string) : M Db DataSubjectRequest.t :=
  review c (fun actor ctx => approve_request request_id actor reason_code ctx).

Definition reject_platform_data_subject_request (c : Call) (request_id : UUID)
    (reason_code : string) : M Db DataSubjectRequest.t :=
  review c (fun actor ctx => reject_request request_id actor reason_code ctx).

Definition cancel_platform_data_subject_request (c : Call) (request_id : UUID)
    : M Db DataSubjectRequest.t :=
  review c (fun actor ctx => cancel_platform_request request_id actor ctx).

Definition fulfil_platform_data_subject_request (c : Call) (request_id : UUID)
    : M Db DataSubjectRequest.t :=
  review c (fun actor ctx => fulfil_request request_id actor ctx).

End Requests.
End PlatformDataSubjectRequestsApi.

(** ** Rules *)
Section Rules.
Context {A : Type}.
Implicit Types (d : Db) (E : exn -> Prop).

Lemma commits_with_session (m : M Db A) (Q : A -> Db -> Prop) E d :
  commits m Q E d -> commits (with_session m) Q E d.
Proof.
  intros Hm t. specialize (Hm t). unfold with_session, close_session.
  destruct (m _) as [[a|e] [c x t']]; simpl in *; naive_solver.
Qed.

Lemma commits_rate_limited (limit : RateLimit) (m : M Db A) (Q : A -> Db -> Prop) E d :
  commits m Q E d -> (forall i e, limit i = Err e -> E e) ->
  commits (rate_limited limit m) Q E d.
Proof. intros Hm HE. apply commits_with_session, commits_await_bind; auto. Qed.

Lemma preserves_with_session (I : Db -> Prop) (m : M Db A) :
  preserves I m -> preserves I (with_session m).
Proof.
  intros Hm d t Hd. specialize (Hm d t Hd). unfold with_session, close_session.
  destruct (m _) as [r [c x t']]. simpl in *. naive_solver.
Qed.

End Rules.
