(* ===== verification/RequestBodies.v ===== *)
(** The bodies of requests: the reasons an operator may give ([audit/reasons.py]), the
    schemas the handlers validate bodies with ([invites/schemas/invites.py],
    [organisations/schemas/organisations.py], [memberships/schemas/memberships.py],
    [platform/schemas], [privacy/schemas/data_subject_requests.py]) and the payload of an
    invite's event ([outbox/schemas/payloads.py]).

    A body is JSON; a schema accepts it, with the value the handler gets, or raises. The
    first error stands for the list pydantic reports. *)
From S2P Require Import Prelude Errors Session Schema Tables Regex Memberships Organisations.
From S2P Require Import RateLimitPolicies Requests RateLimitIngress Settings Authentication.
From S2P Require Import OutboxWorker InviteDelivery Api.

(** The other types of fields that are pydantic's: the text of a UUID. *)
Class UuidType := { uuid_str : string -> option UUID }.

(** ** Fields *)

(** What pydantic raises for a value of another type, a missing field or one too many. *)
Definition ValidationError : exn := OtherError "ValidationError".

Definition read_str (j : json) : result string :=
  match j with JStr s => Ok s | _ => Err ValidationError end.

(** A value of an enumeration, by its text. *)
Definition read_enum {A} (value : A -> string) (members : list A) (j : json) : result A :=
  match j with
  | JStr s => match List.find (fun x => String.eqb (value x) s) members with
              | Some x => Ok x | None => Err ValidationError end
  | _ => Err ValidationError
  end.

Definition read_parsed {A} (parse : string -> option A) (j : json) : result A :=
  match j with
  | JStr s => match parse s with Some x => Ok x | None => Err ValidationError end
  | _ => Err ValidationError
  end.

(** [T | None] *)
Definition or_null {A} (read : json -> result A) (j : json) : result (option A) :=
  match j with JNull => Ok None | _ => x ← read j; Ok (Some x) end.

(** A field without a default, and one with. *)
Definition required {A} (name : string) (read : json -> result A) (d : dict) : result A :=
  match dict_get name d with Some j => read j | None => Err ValidationError end.

Definition with_default {A} (name : string) (default : A) (read : json -> result A) (d : dict) : result A :=
  match dict_get name d with Some j => read j | None => Ok default end.

(** [Field(min_length=lo, max_length=hi)] *)
Definition sized (lo hi : nat) (read : json -> result string) (j : json) : result string :=
  s ← read j;
  if (lo <=? String.length s)%nat && (String.length s <=? hi)%nat then Ok s else Err ValidationError.

(** A body is an object; with [extra="forbid"] it has the schema's fields only. *)
Definition model (data : json) : result dict :=
  match as_dict data with Some d => Ok d | None => Err ValidationError end.

Definition forbid_extra (fields : list string) (d : dict) : result unit :=
  if forallb (fun kv => bool_decide (kv.1 ∈ fields)) d then Ok tt else Err ValidationError.

(** ** [audit/reasons.py] *)
Module Reasons.

Module OperationalReasonCode.
Inductive t :=
  | SECURITY_INCIDENT | COMPLIANCE_REVIEW | POLICY_VIOLATION | USER_REQUEST
  | ACCOUNT_COMPROMISE | BILLING_RISK | DATA_CORRECTION | DUPLICATE_OR_ERROR
  | OPERATIONAL_MAINTENANCE | OTHER.

#[global] Instance t_eq_dec : EqDecision t.
Proof. solve_decision. Defined.

Definition value (x : t) : string :=
  match x with
  | SECURITY_INCIDENT => "security_incident"
  | COMPLIANCE_REVIEW => "compliance_review"
  | POLICY_VIOLATION => "policy_violation"
  | USER_REQUEST => "user_request"
  | ACCOUNT_COMPROMISE => "account_compromise"
  | BILLING_RISK => "billing_risk"
  | DATA_CORRECTION => "data_correction"
  | DUPLICATE_OR_ERROR => "duplicate_or_error"
  | OPERATIONAL_MAINTENANCE => "operational_maintenance"
  | OTHER => "other"
  end.

Definition members : list t :=
  [SECURITY_INCIDENT; COMPLIANCE_REVIEW; POLICY_VIOLATION; USER_REQUEST; ACCOUNT_COMPROMISE;
   BILLING_RISK; DATA_CORRECTION; DUPLICATE_OR_ERROR; OPERATIONAL_MAINTENANCE; OTHER].

(** [OperationalReasonCode(s)] *)
Definition of_value (s : string) : option t := List.find (fun x => String.eqb (value x) s) members.
End OperationalReasonCode.

Import Regex.

Definition _REASON_MAX_LENGTH : nat := 500.

(** [\w], [[A-Za-z0-9]] and [\s] *)
Definition is_alnum (c : ascii) : bool := Url.is_alpha c || is_digit c.
Definition is_word (c : ascii) : bool := is_alnum c || Ascii.eqb c "_".

(** What stands on both sides of a place in a text, [None] at its ends. *)
Definition boundary (a b : option ascii) : bool :=
  let word c := match c with Some c => is_word c | None => false end in
  xorb (word a) (word b).

(** A pattern: what must hold before the match and after it, and the text between. *)
Record pattern := mkPattern {
  before : option ascii -> option ascii -> bool;
  body : re;
  after : option ascii -> option ascii -> bool;
  ignore_case : bool;
}.

Definition first_char (s : string) : option ascii :=
  match s with String c _ => Some c | EmptyString => None end.

(** A match begins here, after the character [previous]. *)
Fixpoint match_here (p : pattern) (r : re) (previous : option ascii) (s : string) : bool :=
  nullable r && after p previous (first_char s)
  || match s with
     | EmptyString => false
     | String c s => match_here p (deriv c r) (Some c) s
     end.

Fixpoint search_from (p : pattern) (previous : option ascii) (s : string) : bool :=
  before p previous (first_char s) && match_here p (body p) previous s
  || match s with
     | EmptyString => false
     | String c s => search_from p (Some c) s
     end.

(** [pattern.search(s)] *)
Definition search (p : pattern) (s : string) : bool :=
  search_from p None (if ignore_case p then Text.lower s else s).

Definition alternatives (l : list re) : re := foldr Alt Nothing l.
Definition optional (r : re) : re := Alt r Empty.
Definition cat (l : list re) : re := foldr Cat Empty l.
Definition always (a b : option ascii) : bool := true.
Definition not_space (c : ascii) : bool := negb (Text.is_space c).
Definition is_token_char (c : ascii) : bool := is_alnum c || one_of "_-" c.

(** Names of secrets, bearer tokens, special categories of data, addresses of mail, database
    addresses, and long tokens. *)
Definition _SENSITIVE_REASON_PATTERNS : list pattern :=
  [mkPattern boundary
     (alternatives
        [literal "password"; literal "passwd"; literal "pwd"; literal "secret";
         cat [literal "api"; optional (Chr (one_of "_-")); literal "key"];
         cat [literal "access"; optional (Chr (one_of "_-")); literal "token"];
         cat [literal "refresh"; optional (Chr (one_of "_-")); literal "token"];
         literal "jwt"])
     boundary true;
   mkPattern boundary
     (cat [literal "bearer"; plus (Chr Text.is_space);
           at_least 16 (Chr (fun c => is_alnum c || one_of "._~+/=-" c))])
     boundary true;
   mkPattern boundary
     (alternatives
        [cat [literal "special"; optional (Chr (fun c => Ascii.eqb c "-" || Text.is_space c));
              literal "category"];
         literal "protected characteristic"; literal "biometric"; literal "genetic";
         literal "religion"; literal "religious belief"; literal "political opinion";
         literal "trade union"; literal "sexual orientation"; literal "national identifier"])
     boundary true;
   mkPattern boundary
     (cat [plus (Chr (fun c => is_word c || one_of ".+-" c)); literal "@";
           plus (Chr (fun c => is_word c || one_of ".-" c)); literal ".";
           at_least 2 (Chr Url.is_alpha)])
     boundary false;
   mkPattern boundary
     (cat [alternatives [cat [literal "postgres"; optional (literal "ql")]; literal "mysql";
                         literal "redis"; literal "mongodb"];
           literal "://"; plus (Chr not_space)])
     always true;
   mkPattern (fun a _ => match a with Some c => negb (is_alnum c) | None => true end)
     (at_least 32 (Chr is_token_char))
     (fun _ b => match b with Some c => negb (is_alnum c) | None => true end) false].

Definition _contains_sensitive_reason_detail (value : string) : bool :=
  existsb (fun p => search p value) _SENSITIVE_REASON_PATTERNS.

Definition _ensure_reason_has_no_sensitive_detail (value : string) : result unit :=
  if _contains_sensitive_reason_detail value
  then Err (ValueError ("reason must not contain secrets, tokens, contact details, "
                        ++ "special-category personal data, or sensitive operational details"))
  else Ok tt.

(** A reason of the old field: a member already, or what the body holds. *)
Inductive legacy :=
  | Member (c : OperationalReasonCode.t)
  | Given (j : json).

Definition normalise_legacy_reason (value : legacy) (required : bool)
    : result (option OperationalReasonCode.t) :=
  let missing := if required then Err (ValueError "reason_code is required") else Ok None in
  match value with
  | Member c => Ok (Some c)
  | Given JNull => missing
  | Given (JStr s) =>
      let normalised := Text.strip s in
      if Text.is_empty normalised then missing else
      if (_REASON_MAX_LENGTH <? String.length normalised)%nat
      then Err (ValueError "reason must be at most 500 characters") else
      match OperationalReasonCode.of_value normalised with
      | Some c => Ok (Some c)
      | None =>
          _ensure_reason_has_no_sensitive_detail normalised ;;
          Err (ValueError "legacy reason must use a structured reason code; free text is not accepted")
      end
  | Given _ => Err (ValueError "reason must be a string")
  end.

(** [d[key] = value] and [d.pop(key)]; a member stands for its text. *)
Definition dict_set (key : string) (value : json) (d : dict) : dict :=
  (key, value) :: List.filter (fun kv => negb (String.eqb kv.1 key)) d.
Definition dict_pop (key : string) (d : dict) : dict :=
  List.filter (fun kv => negb (String.eqb kv.1 key)) d.

Definition code_json (c : option OperationalReasonCode.t) : json :=
  match c with Some c => JStr (OperationalReasonCode.value c) | None => JNull end.

Definition normalise_legacy_reason_payload (data : json) (required : bool) : result json :=
  match data with
  | JObj d =>
      match dict_get "reason" d with
      | None => Ok data
      | Some legacy_reason =>
          let updated := dict_pop "reason" d in
          match dict_get "reason_code" updated with
          | Some JNull | None =>
              code ← normalise_legacy_reason (Given legacy_reason) required;
              Ok (JObj (dict_set "reason_code" (code_json code) updated))
          | Some _ => Ok (JObj updated)
          end
      end
  | _ => Ok data
  end.

Definition read_reason_code : json -> result OperationalReasonCode.t :=
  read_enum OperationalReasonCode.value OperationalReasonCode.members.
End Reasons.

(** ** Bodies with a reason code

    [platform_users.ReasonRequest], [RejectDataSubjectRequest] and
    [RejectRepresentativeAuthority] need one, [RevokeInviteRequest],
    [ApproveDataSubjectRequest] and [VerifyRepresentativeAuthority] may do without. *)
Module ReasonBodies.
Import Reasons.

Definition required_code (data : json) : result OperationalReasonCode.t :=
  data ← normalise_legacy_reason_payload data true;
  d ← model data;
  forbid_extra ["reason_code"%string] d ;;
  required "reason_code" read_reason_code d.

Definition optional_code (data : json) : result (option OperationalReasonCode.t) :=
  data ← normalise_legacy_reason_payload data false;
  d ← model data;
  forbid_extra ["reason_code"%string] d ;;
  with_default "reason_code" None (or_null read_reason_code) d.

Definition ReasonRequest := required_code.
Definition RejectDataSubjectRequest := required_code.
Definition RejectRepresentativeAuthority := required_code.
Definition RevokeInviteRequest := optional_code.
Definition ApproveDataSubjectRequest := optional_code.
Definition VerifyRepresentativeAuthority := optional_code.

(** [ReviewDataSubjectRequest], [CancelDataSubjectRequest], [FulfilDataSubjectRequest] and
    [ExecuteErasureDataSubjectRequest] are empty. *)
Definition no_fields (data : json) : result unit := d ← model data; forbid_extra [] d.
Definition ReviewDataSubjectRequest := no_fields.
Definition CancelDataSubjectRequest := no_fields.
Definition FulfilDataSubjectRequest := no_fields.
Definition ExecuteErasureDataSubjectRequest := no_fields.
End ReasonBodies.

(** ** [organisations/schemas/organisations.py] *)
Module OrganisationBodies.

(** [_SLUG_PATTERN]: [^[a-z0-9-]+$] *)
Definition _SLUG_PATTERN : Regex.re :=
  Regex.plus (Regex.Chr (fun c => Regex.in_range "a" "z" c || Regex.in_range "0" "9" c || Ascii.eqb c "-")).

(** [pattern.fullmatch(s)] *)
Fixpoint fullmatch (r : Regex.re) (s : string) : bool :=
  match s with
  | EmptyString => Regex.nullable r
  | String c s => fullmatch (Regex.deriv c r) s
  end.

Definition normalize_and_validate_slug (value : string) : result string :=
  let slug := Text.lower (Text.strip value) in
  if Text.is_empty slug then Err (ValueError "Organisation slug cannot be blank") else
  if negb (fullmatch _SLUG_PATTERN slug)
  then Err (ValueError "Slug must contain only lowercase letters, digits, and hyphens")
  else Ok slug.

(** [CreateOrganisationRequest.validate_name], and of the other schemas with a name *)
Definition validate_name (value : string) : result string :=
  let name := Text.strip value in
  if Text.is_empty name then Err (ValueError "Organisation name cannot be blank") else Ok name.

Definition name_field (j : json) : result string := s ← sized 1 255 read_str j; validate_name s.
Definition slug_field (j : json) : result string :=
  s ← sized 1 255 read_str j; normalize_and_validate_slug s.

(** [CreateOrganisationRequest]: name and slug *)
Definition CreateOrganisationRequest (data : json) : result (string * string) :=
  d ← model data;
  name ← required "name" name_field d;
  slug ← required "slug" slug_field d;
  Ok (name, slug).

Definition validate_patch_payload (name slug : option string) : result (option string * option string) :=
  if is_None name && is_None slug
  then Err (ValueError "At least one of 'name' or 'slug' must be provided") else Ok (name, slug).

Definition UpdateOrganisationRequest (data : json) : result (option string * option string) :=
  d ← model data;
  name ← with_default "name" None (or_null name_field) d;
  slug ← with_default "slug" None (or_null slug_field) d;
  validate_patch_payload name slug.

Definition normalize_reason (value : option string) : option string :=
  match value with
  | None => None
  | Some value => let normalized := Text.strip value in
                  if Text.is_empty normalized then None else Some normalized
  end.

(** [DeleteOrganisationRequest] and [RemoveMembershipRequest] *)
Definition free_reason (data : json) : result (option string) :=
  d ← model data;
  reason ← with_default "reason" None (or_null (sized 0 500 read_str)) d;
  Ok (normalize_reason reason).
Definition DeleteOrganisationRequest := free_reason.
Definition RemoveMembershipRequest := free_reason.

(** [PlatformOrganisationPatchRequest]: name, slug and the reason *)
Definition PlatformOrganisationPatchRequest (data : json)
    : result (option string * option string * Reasons.OperationalReasonCode.t) :=
  data ← Reasons.normalise_legacy_reason_payload data true;
  d ← model data;
  forbid_extra ["name"; "slug"; "reason_code"]%string d ;;
  name ← with_default "name" None (or_null name_field) d;
  slug ← with_default "slug" None (or_null slug_field) d;
  code ← required "reason_code" Reasons.read_reason_code d;
  fields ← validate_patch_payload name slug;
  Ok (fields.1, fields.2, code).
End OrganisationBodies.

(** ** [memberships/schemas/memberships.py] and [invites/schemas/invites.py] *)
Module MemberBodies.

Definition roles : list MembershipRole.t :=
  [MembershipRole.OWNER; MembershipRole.ADMIN; MembershipRole.MEMBER].

Definition read_role : json -> result MembershipRole.t := read_enum MembershipRole.value roles.

Definition UpdateMembershipRoleRequest (data : json) : result MembershipRole.t :=
  d ← model data; required "role" read_role d.

Definition validate_role (value : MembershipRole.t) : result MembershipRole.t :=
  if bool_decide (value = MembershipRole.OWNER)
  then Err (ValueError "Owner role cannot be assigned via invite") else Ok value.

(** The address and the role. *)
Definition CreateInviteRequest `{EmailTypes} (data : json) : result (string * MembershipRole.t) :=
  d ← model data;
  email ← required "email" (read_parsed email_str) d;
  role ← with_default "role" MembershipRole.MEMBER
    (fun j => role ← read_role j; validate_role role) d;
  Ok (email, role).

Definition validate_token (value : string) : result string :=
  let normalized := Text.strip value in
  if Text.is_empty normalized then Err (ValueError "Token must not be empty") else Ok normalized.

Definition AcceptInviteRequest (data : json) : result string :=
  d ← model data;
  token ← required "token" (sized 0 4096 read_str) d;
  validate_token token.
End MemberBodies.

(** ** [platform/schemas/platform_staff.py] and [platform_query.py] *)
Module PlatformBodies.

Definition roles : list PlatformStaffRole.t :=
  [PlatformStaffRole.PLATFORM_ADMIN; PlatformStaffRole.SUPPORT_AGENT;
   PlatformStaffRole.COMPLIANCE_OFFICER].

Definition read_role : json -> result PlatformStaffRole.t := read_enum PlatformStaffRole.value roles.

Definition trim_reason (value : string) : result string :=
  let trimmed := Text.strip value in
  if Text.is_empty trimmed then Err (ValueError "Reason cannot be blank") else Ok trimmed.

Definition reason_field (j : json) : result string := s ← sized 1 500 read_str j; trim_reason s.

Definition CreatePlatformStaffRequest `{UuidType} (data : json)
    : result (UUID * PlatformStaffRole.t * string) :=
  d ← model data;
  user_id ← required "user_id" (read_parsed uuid_str) d;
  role ← required "role" read_role d;
  reason ← required "reason" reason_field d;
  Ok (user_id, role, reason).

Definition UpdatePlatformStaffRoleRequest (data : json) : result (PlatformStaffRole.t * string) :=
  d ← model data;
  role ← required "role" read_role d;
  reason ← required "reason" reason_field d;
  Ok (role, reason).

Definition ReasonRequest (data : json) : result string :=
  d ← model data; required "reason" reason_field d.

(** [PlatformPaginationQuery] *)
Definition PlatformPaginationQuery (limit offset : option Z) : result (Z * Z) :=
  let limit := default 50 limit in
  let offset := default 0 offset in
  if (1 <=? limit) && (limit <=? 100) && (0 <=? offset) then Ok (limit, offset) else Err ValidationError.
End PlatformBodies.

(** ** [CreateDataSubjectRequest] of [privacy/schemas/data_subject_requests.py] *)
Module CreateDataSubjectRequest.
Import DataSubjectRequestsApi.

Definition REQUESTER_NOTE_MAX_LENGTH : nat := 2000.
Definition REPRESENTATIVE_RELATIONSHIP_MAX_LENGTH : nat := 64.
Definition REPRESENTATIVE_AUTHORITY_NOTE_MAX_LENGTH : nat := 2000.

Definition types : list DataSubjectRequestType.t :=
  [DataSubjectRequestType.ACCESS; DataSubjectRequestType.EXPORT; DataSubjectRequestType.ERASE;
   DataSubjectRequestType.RECTIFY; DataSubjectRequestType.RESTRICT; DataSubjectRequestType.OBJECT;
   DataSubjectRequestType.PORTABILITY].

Definition requester_roles : list DataSubjectRequestRequesterRole.t :=
  [DataSubjectRequestRequesterRole.SELF; DataSubjectRequestRequesterRole.AUTHORISED_REPRESENTATIVE].

Definition normalise_optional_text (value : json) : json :=
  match value with
  | JStr s => let normalised := Text.strip s in
              if Text.is_empty normalised then JNull else JStr normalised
  | _ => value
  end.

Definition text_field (max_length : nat) (j : json) : result (option string) :=
  or_null (sized 0 max_length read_str) (normalise_optional_text j).

Definition validate_representative_payload (self : Payload) : result Payload :=
  let given {A} (x : option A) := negb (is_None x) in
  let refuse message := Err (ValueError message) in
  match requester_role self with
  | DataSubjectRequestRequesterRole.SELF =>
      if given (subject_user_id self)
      then refuse "subject_user_id is only allowed for representative requests"%string else
      if given (representative_relationship self)
      then refuse "representative_relationship is only allowed for representative requests"%string else
      if given (representative_authority_note self)
      then refuse "representative_authority_note is only allowed for representative requests"%string else
      Ok self
  | DataSubjectRequestRequesterRole.AUTHORISED_REPRESENTATIVE =>
      if is_None (subject_user_id self)
      then refuse "subject_user_id is required for representative requests"%string else
      if is_None (representative_relationship self)
      then refuse "representative_relationship is required for representative requests"%string else
      if is_None (representative_authority_note self)
      then refuse "representative_authority_note is required for representative requests"%string else
      Ok self
  end.

Definition model_validate `{UuidType} (data : json) : result Payload :=
  d ← model data;
  forbid_extra ["request_type"; "requester_note"; "subject_user_id"; "requester_role";
                "representative_relationship"; "representative_authority_note"]%string d ;;
  request_type ← required "request_type" (read_enum DataSubjectRequestType.value types) d;
  requester_note ← with_default "requester_note" None (text_field REQUESTER_NOTE_MAX_LENGTH) d;
  subject_user_id ← with_default "subject_user_id" None (or_null (read_parsed uuid_str)) d;
  requester_role ← with_default "requester_role" DataSubjectRequestRequesterRole.SELF
    (read_enum DataSubjectRequestRequesterRole.value requester_roles) d;
  relationship ← with_default "representative_relationship" None
    (text_field REPRESENTATIVE_RELATIONSHIP_MAX_LENGTH) d;
  note ← with_default "representative_authority_note" None
    (text_field REPRESENTATIVE_AUTHORITY_NOTE_MAX_LENGTH) d;
  validate_representative_payload
    (mkPayload request_type requester_note subject_user_id requester_role relationship note).
End CreateDataSubjectRequest.

(** ** [outbox/schemas/payloads.py]

    The types of the fields; [OutboxWorker.parse_invite_outbox_payload] adds the validator of
    the token. *)
Definition invite_outbox_fields `{UuidType} `{EmailTypes} (payload : json)
    : result InviteOutboxPayload.t :=
  d ← model payload;
  invite_id ← required "invite_id" (read_parsed uuid_str) d;
  organisation_id ← with_default "organisation_id" None (or_null (read_parsed uuid_str)) d;
  email ← with_default "email" None (or_null (read_parsed email_str)) d;
  encrypted_raw_token ← required "encrypted_raw_token" read_str d;
  purpose ← with_default "purpose" None
    (or_null (read_enum (fun s => s) ["created"; "resent"]%string)) d;
  role ← with_default "role" None (or_null MemberBodies.read_role) d;
  Ok (InviteOutboxPayload.mk invite_id organisation_id email encrypted_raw_token purpose role).
