(* ===== verification/ExportArtifactsApi.v ===== *)
(** The handlers of export artifacts: [privacy/api/export_artifacts.py] for the
    requester and [privacy/api/platform_export_artifacts.py] for platform staff; and
    the execution of an erasure in [privacy/api/platform_data_subject_requests.py]. *)
From S2P Require Import Prelude Errors Session Schema Tables AuditLog Users Invites.
From S2P Require Import Platform Requests Api ExportArtifacts DataSubjectRequests.
From S2P Require Import ExportArtifactServices Erasures.
Import ExportArtifactService.

(** [check_export_artifact_download_url_rate_limit]: a bucket per artifact. *)
Definition ArtifactRateLimit : Type := UUID -> RateLimit.

(** ** [privacy/api/export_artifacts.py] *)
Module ExportArtifactsApi.
Section Handlers.
Context `{Env} `{Network} `{IpNetworks} `{StorageAdapter}.
Variable exports : PrivacyExportsSettings.

Definition _provision_current_user (identity : identity_t) : M Db User.t :=
  UserService.provision_current_user identity.

Definition list_own_export_artifacts (c : Call) (limit offset : nat)
    : M Db (list ExportArtifact.t * nat) :=
  rate_limited (rate_limit c) (
    user ← _provision_current_user (identity c);
    ExportArtifactService.list_own_export_artifacts (User.id user) limit offset).

Definition get_own_export_artifact (c : Call) (artifact_id : UUID) : M Db ExportArtifact.t :=
  rate_limited (rate_limit c) (
    user ← _provision_current_user (identity c);
    ExportArtifactService.get_own_export_artifact artifact_id (User.id user)).

(** The transaction of the two writing handlers: the caller's own artifact, its
    bucket, the service call. *)
Definition on_own_artifact {A} (c : Call) (bucket : ArtifactRateLimit) (artifact_id : UUID)
    (call : ExportArtifact.t -> AuditContext.t -> M Db A) : M Db A :=
  rate_limited (rate_limit c) (begin (
    user ← _provision_current_user (identity c);
    artifact ← ExportArtifactService.get_own_export_artifact artifact_id (User.id user);
    await_external (bucket (ExportArtifact.id artifact)) ;;
    call artifact (audit_context c (User.id user)))).

Definition create_own_export_download_url (c : Call) (bucket : ArtifactRateLimit)
    (artifact_id : UUID) : M Db GeneratedExportDownloadUrl :=
  on_own_artifact c bucket artifact_id (generate_download_url exports).

Definition confirm_own_export_artifact_delivery (c : Call) (bucket : ArtifactRateLimit)
    (artifact_id : UUID) : M Db ExportArtifact.t :=
  on_own_artifact c bucket artifact_id (confirm_export_delivery exports).

End Handlers.
End ExportArtifactsApi.

(** ** [privacy/api/platform_export_artifacts.py] *)
Module PlatformExportArtifactsApi.
Import PlatformPermission.
Section Handlers.
Context `{Env} `{Network} `{IpNetworks} `{StorageAdapter}.
Variable exports : PrivacyExportsSettings.

Definition create_platform_export_artifact (c : Call) (request_id : UUID) : M Db ExportArtifact.t :=
  platform_write c PRIVACY_EXPORT_ARTIFACTS_MANAGE (fun actor =>
    request_export_artifact exports request_id (User.id (PlatformActor.user actor))
      (audit_context c (User.id (PlatformActor.user actor)))).

Definition list_platform_export_artifacts (c : Call) (limit offset : nat)
    : M Db (list ExportArtifact.t * nat) :=
  platform_read c PRIVACY_EXPORT_ARTIFACTS_READ
    (ExportArtifactService.list_platform_export_artifacts limit offset).

Definition get_platform_export_artifact (c : Call) (artifact_id : UUID) : M Db ExportArtifact.t :=
  platform_read c PRIVACY_EXPORT_ARTIFACTS_READ
    (ExportArtifactService.get_platform_export_artifact artifact_id).

Definition on_artifact {A} (c : Call) (bucket : ArtifactRateLimit) (artifact_id : UUID)
    (call : ExportArtifact.t -> AuditContext.t -> M Db A) : M Db A :=
  platform_write c PRIVACY_EXPORT_ARTIFACTS_MANAGE (fun actor =>
    artifact ← ExportArtifactService.get_platform_export_artifact artifact_id;
    await_external (bucket (ExportArtifact.id artifact)) ;;
    call artifact (audit_context c (User.id (PlatformActor.user actor)))).

Definition create_platform_export_download_url (c : Call) (bucket : ArtifactRateLimit)
    (artifact_id : UUID) : M Db GeneratedExportDownloadUrl :=
  on_artifact c bucket artifact_id (generate_download_url exports).

Definition confirm_platform_export_artifact_delivery (c : Call) (bucket : ArtifactRateLimit)
    (artifact_id : UUID) : M Db ExportArtifact.t :=
  on_artifact c bucket artifact_id (confirm_export_delivery exports).

End Handlers.
End PlatformExportArtifactsApi.

(** ** [privacy/api/platform_data_subject_requests.py], the execution of an erasure *)
Module PlatformErasuresApi.
Import PlatformPermission RemainingInventoryErasure ErasureService.
Section Handlers.
Context `{Env} `{Network} `{IpNetworks} `{StorageAdapter}.

(** The stored objects are deleted by the session's listener, after the commit. *)
Definition execute_platform_data_subject_request_erasure (c : Call) (request_id : UUID)
    : M Db DataSubjectRequest.t :=
  r ← platform_write c PRIVACY_REQUESTS_EXECUTE_ERASURE (fun actor =>
    let actor_user_id := User.id (PlatformActor.user actor) in
    execute_approved_erasure_request_by_platform_staff request_id actor_user_id
      (audit_context c actor_user_id) None);
  let '(row, deletions) := r in
  _delete_deferred_export_artifact_objects_after_root_end deletions ;;
  mret row.

End Handlers.
End PlatformErasuresApi.
