(* ===== verification/Application.v ===== *)
(** The application as a transition system: the requests its routers serve and the
    jobs its workers run, each over a session of its own, as steps of the
    committed database. *)
From S2P Require Import Prelude Errors Session Schema Tables AuditLog Users Memberships.
From S2P Require Import Organisations MembershipServices Outbox Invites OutboxWorker Platform.
From S2P Require Import ExportArtifacts DataSubjectRequests ExportArtifactServices ExportWorker.
From S2P Require Import PrivacyMaintenance Requests Api ExportArtifactsApi Commands.

(** [audit/maintenance.py]: the caller of [anonymise_expired_audit_events] manages
    the transaction. *)
Definition anonymise_expired_audit_events `{Env} (settings : AuditEventService.AuditSettings)
    (now_arg : option datetime) : M Db nat :=
  AuditEventService.anonymise_expired_events settings now_arg.

Module Application.
Import ExportArtifactService.

(** What a caller can ask for, with the limiters consulted on the way. *)
Inductive Command :=
  (* users and organisations *)
  | GetMe
  | CreateOrganisation (name slug : string)
  | GetOrganisation (o : UUID)
  | UpdateOrganisation (business : BusinessRateLimiter) (o : UUID) (name slug : option string)
  | GetOrganisationDirectory (o : UUID)
  | ChangeMembershipRole (business : BusinessRateLimiter) (o m : UUID) (role : MembershipRole.t)
  | RemoveMembership (business : BusinessRateLimiter) (o m : UUID) (reason : option string)
  | DeleteOrganisation (business : BusinessRateLimiter) (o : UUID) (reason : option string)
  | ListOrganisationMemberships (o : UUID)
  (* invites *)
  | CreateInvite (business : BusinessRateLimiter) (o : UUID) (role : MembershipRole.t) (email : string)
  | AcceptInvite (token_limit : RateLimit) (token : string)
  | RevokeInvite (o i : UUID) (reason : option string)
  | ResendInvite (business : BusinessRateLimiter) (o i : UUID)
  (* platform administration *)
  | CreatePlatformStaff (user : UUID) (role : PlatformStaffRole.t) (reason : string)
  | UpdatePlatformStaffRole (staff : UUID) (role : PlatformStaffRole.t) (reason : string)
  | SuspendPlatformStaff (staff : UUID) (reason : string)
  | RestorePlatformStaff (staff : UUID) (reason : string)
  | SuspendPlatformUser (user : UUID) (reason : string)
  | RestorePlatformUser (user : UUID) (reason : string)
  | SuspendPlatformOrganisation (o : UUID) (reason : string)
  | RestorePlatformOrganisation (o : UUID) (reason : string)
  | PatchPlatformOrganisation (o : UUID) (name slug : option string) (reason : string)
  (* data-subject requests *)
  | SubmitDataSubjectRequest (p : DataSubjectRequestsApi.Payload) (idempotency_key : option string)
  | CancelOwnDataSubjectRequest (r : UUID)
  | VerifyRepresentative (r : UUID) (reason_code : option string)
  | RejectRepresentative (r : UUID) (reason_code : string)
  | ReviewDataSubjectRequest (r : UUID)
  | ApproveDataSubjectRequest (r : UUID) (reason_code : option string)
  | RejectDataSubjectRequest (r : UUID) (reason_code : string)
  | CancelPlatformDataSubjectRequest (r : UUID)
  | FulfilDataSubjectRequest (r : UUID)
  | ExecuteErasure (r : UUID)
  (* export artifacts *)
  | GetOwnExportArtifact (a : UUID)
  | CreateOwnExportDownloadUrl (exports : PrivacyExportsSettings) (bucket : ArtifactRateLimit) (a : UUID)
  | ConfirmOwnExportDelivery (exports : PrivacyExportsSettings) (bucket : ArtifactRateLimit) (a : UUID)
  | CreatePlatformExportArtifact (exports : PrivacyExportsSettings) (r : UUID)
  | CreatePlatformExportDownloadUrl (exports : PrivacyExportsSettings) (bucket : ArtifactRateLimit)
      (a : UUID)
  | ConfirmPlatformExportDelivery (exports : PrivacyExportsSettings) (bucket : ArtifactRateLimit)
      (a : UUID).

(** What the background processes run. The export worker and the retention pass use
    the storage between their transactions, so each of their transactions is a
    job of its own, with whatever lease, archive or deletions it may be
    called with: any interleaving of workers and requests is a sequence of
    steps. *)
Inductive Job :=
  | ProcessOutboxEvent (event_id : UUID)
  | DispatcherTick (stale_timeout_seconds : Z) (recovery_batch_size batch_size : nat)
  | AnonymiseAuditEvents (settings : AuditEventService.AuditSettings) (now_arg : option datetime)
  | AnonymiseInvites (settings : InviteService.InviteRetentionSettings) (now_arg : option datetime)
  (* an operator's command *)
  | MakePlatformAdmin (email : string) (force : bool)
  (* the export worker *)
  | ClaimExports (exports : PrivacyExportsSettings) (batch_size : nat)
  | RenewExportLease (lease : ProcessingExportLease)
  | PrepareExport (exports : PrivacyExportsSettings) (lease : ProcessingExportLease)
  | ResetExportUpload (lease : ProcessingExportLease) (prepared : Prepared.t)
  | MarkExportReady (lease : ProcessingExportLease) (prepared : Prepared.t)
  | MarkExportFailed (lease : ProcessingExportLease) (exc : exn)
  | ClearFailedExport (cleanup : FailedExportStorageCleanup)
  | ProcessExport (exports : PrivacyExportsSettings) (lease : ProcessingExportLease)
  (* the retention pass *)
  | RetainAndListCancelled (settings : PrivacyMaintenance.Settings) (n : datetime) (limit : Z)
  | ClearAndListFailed (deleted : list ExportArtifactStoragePurge) (limit processed : Z)
  | ClearAndExpire (n : datetime) (deleted : list ExportArtifactStoragePurge) (limit processed : Z)
  | ClearLast (deleted : list ExportArtifactStoragePurge) (processed : Z).

Definition discard {A} (m : M Db A) : M Db unit := m ;; mret tt.

Section Steps.
Context `{Env} `{Network} `{IpNetworks} `{Crypto} `{Delivery} `{StorageAdapter} `{ArchiveFiles}.
Context (send : nat -> UUID -> result unit).

Definition serve (c : Call) (command : Command) : M Db unit :=
  match command with
  | GetMe => discard (UsersApi.get_me c)
  | CreateOrganisation name slug => discard (OrganisationsApi.create_organisation c name slug)
  | GetOrganisation o => discard (OrganisationsApi.get_organisation c o)
  | UpdateOrganisation b o name slug => discard (OrganisationsApi.update_organisation c b o name slug)
  | GetOrganisationDirectory o => discard (OrganisationsApi.get_organisation_directory c o)
  | ChangeMembershipRole b o m role => discard (OrganisationsApi.change_membership_role c b o m role)
  | RemoveMembership b o m reason => discard (OrganisationsApi.remove_membership c b o m reason)
  | DeleteOrganisation b o reason => discard (OrganisationsApi.delete_organisation c b o reason)
  | ListOrganisationMemberships o => discard (OrganisationsApi.list_organisation_memberships c o)
  | CreateInvite b o role email => discard (InvitesApi.create_invite c b o role email)
  | AcceptInvite l token => discard (InvitesApi.accept_invite c l token)
  | RevokeInvite o i reason => discard (InvitesApi.revoke_invite c o i reason)
  | ResendInvite b o i => discard (InvitesApi.resend_invite c b o i)
  | CreatePlatformStaff u role reason =>
      discard (PlatformStaffApi.create_platform_staff c u role reason)
  | UpdatePlatformStaffRole s role reason =>
      discard (PlatformStaffApi.update_platform_staff_role c s role reason)
  | SuspendPlatformStaff s reason => discard (PlatformStaffApi.suspend_platform_staff c s reason)
  | RestorePlatformStaff s reason => discard (PlatformStaffApi.restore_platform_staff c s reason)
  | SuspendPlatformUser u reason => discard (PlatformUsersApi.suspend_platform_user c u reason)
  | RestorePlatformUser u reason => discard (PlatformUsersApi.restore_platform_user c u reason)
  | SuspendPlatformOrganisation o reason =>
      discard (PlatformOrganisationsApi.suspend_platform_organisation c o reason)
  | RestorePlatformOrganisation o reason =>
      discard (PlatformOrganisationsApi.restore_platform_organisation c o reason)
  | PatchPlatformOrganisation o name slug reason =>
      discard (PlatformOrganisationsApi.patch_platform_organisation c o name slug reason)
  | SubmitDataSubjectRequest p k =>
      discard (DataSubjectRequestsApi.submit_data_subject_request c p k)
  | CancelOwnDataSubjectRequest r =>
      discard (DataSubjectRequestsApi.cancel_own_data_subject_request c r)
  | VerifyRepresentative r rc =>
      discard (PlatformDataSubjectRequestsApi.verify_platform_dsr_representative_authority c r rc)
  | RejectRepresentative r rc =>
      discard (PlatformDataSubjectRequestsApi.reject_platform_dsr_representative_authority c r rc)
  | ReviewDataSubjectRequest r =>
      discard (PlatformDataSubjectRequestsApi.review_platform_data_subject_request c r)
  | ApproveDataSubjectRequest r rc =>
      discard (PlatformDataSubjectRequestsApi.approve_platform_data_subject_request c r rc)
  | RejectDataSubjectRequest r rc =>
      discard (PlatformDataSubjectRequestsApi.reject_platform_data_subject_request c r rc)
  | CancelPlatformDataSubjectRequest r =>
      discard (PlatformDataSubjectRequestsApi.cancel_platform_data_subject_request c r)
  | FulfilDataSubjectRequest r =>
      discard (PlatformDataSubjectRequestsApi.fulfil_platform_data_subject_request c r)
  | ExecuteErasure r =>
      discard (PlatformErasuresApi.execute_platform_data_subject_request_erasure c r)
  | GetOwnExportArtifact a => discard (ExportArtifactsApi.get_own_export_artifact c a)
  | CreateOwnExportDownloadUrl x l a =>
      discard (ExportArtifactsApi.create_own_export_download_url x c l a)
  | ConfirmOwnExportDelivery x l a =>
      discard (ExportArtifactsApi.confirm_own_export_artifact_delivery x c l a)
  | CreatePlatformExportArtifact x r =>
      discard (PlatformExportArtifactsApi.create_platform_export_artifact x c r)
  | CreatePlatformExportDownloadUrl x l a =>
      discard (PlatformExportArtifactsApi.create_platform_export_download_url x c l a)
  | ConfirmPlatformExportDelivery x l a =>
      discard (PlatformExportArtifactsApi.confirm_platform_export_artifact_delivery x c l a)
  end.

Definition run_job (job : Job) : M Db unit :=
  match job with
  | ProcessOutboxEvent e => OutboxWorker._process_outbox_event e
  | DispatcherTick timeout recovery batch =>
      discard (Dispatcher.dispatcher_tick send timeout recovery batch)
  | AnonymiseAuditEvents settings n => discard (begin (anonymise_expired_audit_events settings n))
  | AnonymiseInvites settings n => discard (InviteService.anonymise_completed_invites settings n)
  | MakePlatformAdmin email force => discard (MakePlatformAdmin._amain email force)
  | ClaimExports x batch => discard (ExportWorker._claim_queued_artifact_leases x batch)
  | RenewExportLease lease => discard (ExportWorker._renew_processing_lease lease)
  | PrepareExport x lease => discard (ExportWorker._prepare_export_archive x lease)
  | ResetExportUpload lease prepared =>
      discard (ExportWorker._reset_committed_export_upload_intent lease prepared)
  | MarkExportReady lease prepared => ExportWorker._mark_export_ready lease prepared
  | MarkExportFailed lease exc => discard (ExportWorker._mark_export_failed lease exc)
  | ClearFailedExport cleanup => ExportWorker._clear_failed_export_storage_metadata cleanup
  | ProcessExport x lease => ExportWorker._process_artifact x lease
  | RetainAndListCancelled settings n limit =>
      discard (PrivacyMaintenance.retain_and_list_cancelled settings n limit)
  | ClearAndListFailed deleted limit processed =>
      discard (PrivacyMaintenance.clear_and_list_failed deleted limit processed)
  | ClearAndExpire n deleted limit processed =>
      discard (PrivacyMaintenance.clear_and_expire n deleted limit processed)
  | ClearLast deleted processed => discard (PrivacyMaintenance.clear_last deleted processed)
  end.

(** One request or job on the committed database, started with a fresh session; what
    it returned or raised is not observed. *)
Definition commit_of (m : M Db unit) (d : Db) (t : nat) : Db := committed (m (mkWorld d NoTx t)).2.

Inductive step (d : Db) : Db -> Prop :=
  | step_serve c command t : step d (commit_of (serve c command) d t)
  | step_job job t : step d (commit_of (run_job job) d t).

End Steps.


End Application.
