(* ===== verification/Fixtures.v ===== *)
(** A small concrete world for the witnesses: a clock, identifiers, the outside
    functions instantiated by simple ones, and a database with one organisation,
    its owner, admin and member, invites, outbox events, staff and data-subject
    requests. *)
From S2P Require Import Prelude Errors Session Schema Tables AuditLog Users Memberships.
From S2P Require Import Organisations MembershipServices Outbox Invites OutboxWorker Platform.
From S2P Require Import ExportArtifacts DataSubjectRequests ExportArtifactServices Requests Api.

Module Fixtures.

(** The present, and instants relative to it. *)
Definition t0 : datetime := days 20000.

#[export] Instance env : Env := {|
  clock i := t0 + Z.of_nat i;
  uuid4 i := (1000 + N.of_nat i mod 16 ^ 24)%N;
  token_urlsafe i := ("token-" ++ pretty i)%string;
|}.

#[export] Instance network : Network := {|
  ip_address s :=
    if String.eqb s "192.0.2.17" then Some (IPv4Address 3221225985)
    else if String.eqb s "192.0.2.99" then Some (IPv4Address 3221226067)
    else None;
  compressed a := match a with IPv4Address n => pretty n | IPv6Address n => ("::" ++ pretty n)%string end;
  hmac_sha256_hexdigest k s := (k ++ "/" ++ s)%string;
|}.

(** A network is the text of its only address. *)
#[export] Instance networks : IpNetworks := {|
  ip_network_t := IPAddress;
  ip_network s := @ip_address network s;
  in_network a n := bool_decide (compressed a = compressed n);
|}.

#[export] Instance crypto : Crypto := {|
  sha256_hexdigest s := ("sha256:" ++ s)%string;
  fernet_encrypt n s := ("fernet:" ++ s)%string;
  fernet_decrypt s := if String.prefix "fernet:" s then Some (String.substring 7 (String.length s) s)
                      else None;
|}.

(** [d[k]], a string. *)
Fixpoint field (k : string) (fields : list (string * json)) : option string :=
  match fields with
  | [] => None
  | (k', v) :: rest =>
      if String.eqb k k' then match v with JStr s => Some s | _ => None end else field k rest
  end.

#[export] Instance delivery : Delivery := {|
  validate_fields p :=
    match p with
    | JObj fields =>
        invite_id ← field "invite_id" fields;
        token ← field "encrypted_raw_token" fields;
        Some (InviteOutboxPayload.mk (Uuid.of_str invite_id) None (field "email" fields) token None None)
    | _ => None
    end;
  invite_delivery_enabled := true;
  deliver n i t := Ok tt;
|}.

(** A storage that holds nothing yet and accepts everything. *)
#[export] Instance storage : StorageAdapter := {|
  reserve_file_publication b key owner n := Ok (mkReservation key owner "rev-1");
  publish_reserved_file b r path ty sum n := Ok tt;
  cancel_file_publication b r n := Ok tt;
  inspect_file b key sum size n := Ok MISSING;
  delete_file_if_not_matching b key sum size n := Ok MISSING;
  delete_object b key n := Ok tt;
  storage_download_url b key ttl n := Ok ("https://files.example.org/" ++ key)%string;
|}.

#[export] Instance files : ArchiveFiles := {|
  temporary_archive_path n := Ok "/tmp/privacy-export-1.tmp"%string;
  write_archive path text n := Ok ("checksum"%string, 512);
  unlink_file path n := Ok tt;
|}.

Definition exports : PrivacyExportsSettings :=
  mkPrivacyExportsSettings true ExportArtifactStorageBackend.LOCAL 600 7 1048576 "1".

Definition user (id : UUID) (name : string) (status : UserStatus.t) : User.t :=
  User.mk id ("auth|" ++ name) (Some (name ++ "@example.org")%string) true (Some name) None true
    status None None 0 0.

Definition member (id user_id organisation_id : UUID) (role : MembershipRole.t) : Membership.t :=
  Membership.mk id user_id organisation_id role true 0 0.

Definition invite (id : UUID) (name : string) (token : string) (expires_at : datetime) : Invite.t :=
  Invite.mk id (name ++ "@example.org") 10 MembershipRole.MEMBER InviteStatus.PENDING
    ("sha256:" ++ token) (Some expires_at) None None 0 0.

Definition organisation (id : UUID) (slug : string) : Organisation.t :=
  Organisation.mk id slug slug None OrganisationStatus.ACTIVE None None 0 0.

Definition invite_event (id invite_id : UUID) (token : string) (status : OutboxStatus.t)
    (attempts : Z) : OutboxEvent.t :=
  OutboxEvent.mk id "invite.created" (Some "invite"%string) (Some invite_id)
    (JObj [("invite_id", JStr (Uuid.str invite_id)); ("email", JStr "dave@example.org");
           ("encrypted_raw_token", JStr ("fernet:" ++ token))])
    status attempts 10 None (Some 0) None None 0 0.

Definition staff (id user_id : UUID) (role : PlatformStaffRole.t) : PlatformStaff.t :=
  PlatformStaff.mk id user_id (PlatformStaffRole.value role) "active" None None None 0 0.

Definition request (id : UUID) (type : DataSubjectRequestType.t)
    (status : DataSubjectRequestStatus.t) (execution : DataSubjectRequestExecutionStatus.t)
    (role : DataSubjectRequestRequesterRole.t)
    (representative : DataSubjectRequestRepresentativeStatus.t) : DataSubjectRequest.t :=
  DataSubjectRequest.mk id type status execution role representative None None None None None
    (Some 1%N) (Some 3%N) None 0 None None None None None None None None None None None None
    None None (days 30) None None None None None None None 0 0.

Definition old_event : AuditEvent.t :=
  AuditEvent.mk 70 (Some 1%N) "tenant" "membership_removed" "membership" (Some 23%N)
    (Some "left"%string) None (Some "192.0.2.0/24"%string) None None 0.

Definition table {R} (pk : R -> UUID) (l : list R) : gmap UUID R :=
  list_to_map ((fun r => (pk r, r)) <$> l).

Definition db : Db := mkDb
  (table User.id
    [user 1 "alice" UserStatus.ACTIVE; user 2 "bob" UserStatus.ACTIVE;
     user 3 "carol" UserStatus.ACTIVE; user 4 "dave" UserStatus.ACTIVE;
     user 5 "erin" UserStatus.SUSPENDED; user 6 "root" UserStatus.ACTIVE;
     user 7 "toor" UserStatus.ACTIVE])
  (table Organisation.id [organisation 10 "acme"])
  (table Membership.id
    [member 21 1 10 MembershipRole.OWNER; member 22 2 10 MembershipRole.ADMIN;
     member 23 3 10 MembershipRole.MEMBER])
  (table Invite.id
    [invite 31 "dave" "good" (t0 + days 1); invite 32 "erin" "late" (t0 - days 1)])
  (table AuditEvent.id [old_event])
  (table OutboxEvent.id
    [invite_event 41 31 "good" OutboxStatus.PROCESSING 0;
     invite_event 42 32 "late" OutboxStatus.PROCESSING 9;
     invite_event 43 31 "good" OutboxStatus.PENDING 0])
  (table OutboxDeliveryClaim.event_id [OutboxDeliveryClaim.mk 42 "claim-1" 0])
  (table PlatformStaff.id
    [staff 51 6 PlatformStaffRole.PLATFORM_ADMIN; staff 52 7 PlatformStaffRole.PLATFORM_ADMIN])
  (table DataSubjectRequest.id
    [request 61 DataSubjectRequestType.EXPORT DataSubjectRequestStatus.SUBMITTED
       DataSubjectRequestExecutionStatus.NOT_STARTED DataSubjectRequestRequesterRole.SELF
       DataSubjectRequestRepresentativeStatus.NOT_REQUIRED;
     request 62 DataSubjectRequestType.ERASE DataSubjectRequestStatus.APPROVED
       DataSubjectRequestExecutionStatus.READY DataSubjectRequestRequesterRole.SELF
       DataSubjectRequestRepresentativeStatus.NOT_REQUIRED])
  ∅ ∅ ∅ ∅ ∅.

(** An artifact of request 63 in this status, with the lease or the upload it has. *)
Definition artifact (id : UUID) (status : ExportArtifactStatus.t) (upload : bool)
    (token : option string) (lease completed failed : option datetime) (reason : option string)
    : ExportArtifact.t :=
  let some {A} (x : A) := if upload then Some x else None in
  ExportArtifact.mk id 63 (Some 3%N) (Some 1%N) status ExportArtifactFormat.JSON_ZIP
    ExportArtifactStorageBackend.LOCAL (some ("exports/" ++ Uuid.str id ++ "/k.zip"))%string
    (some "export.zip"%string) (some "application/zip"%string) (some 512) (some "checksum"%string)
    "1" (Some 6%N) None reason None 0 lease token (option_map (fun n => n + hours 1) lease)
    completed failed (t0 + days 7) None 0 None 0 0 0.

(** The same world with an approved export request and its artifacts: queued, in
    processing, ready and failed. *)
Definition exports_db : Db :=
  set_export_artifacts
    (table ExportArtifact.id
      [artifact 81 ExportArtifactStatus.QUEUED false None None None None None;
       artifact 82 ExportArtifactStatus.PROCESSING false (Some "tok-82"%string) (Some t0) None None None;
       artifact 83 ExportArtifactStatus.READY true None None (Some t0) None None;
       artifact 84 ExportArtifactStatus.FAILED true None None None (Some t0)
         (Some "generation_failed"%string)])
    (set_data_subject_requests
      (<[63%N := request 63 DataSubjectRequestType.EXPORT DataSubjectRequestStatus.APPROVED
           DataSubjectRequestExecutionStatus.NOT_STARTED DataSubjectRequestRequesterRole.SELF
           DataSubjectRequestRepresentativeStatus.NOT_REQUIRED]> (data_subject_requests db)) db).

Definition context (actor : UUID) : AuditContext.t :=
  AuditContext.mk (Some actor) (Some "192.0.2.17"%string) (Some "curl/8"%string) None.

Definition identity (name : string) : identity_t :=
  AuthenticatedPrincipal.mk ("auth|" ++ name) (Some (name ++ "@example.org")%string) true
    (Some name) None.

Lemma db_wf : wf db.
Proof. apply wf_ok_sound. vm_compute. reflexivity. Qed.

Lemma exports_db_wf : wf exports_db.
Proof. apply wf_ok_sound. vm_compute. reflexivity. Qed.

End Fixtures.
