(* ===== verification/RateLimitFixtures.v ===== *)
(** A small Redis, the items of the limiter and a strategy for the witnesses of the
    rate-limiting theorems, with the laws the model asks of them, and an application whose
    limiter is on. *)
From S2P Require Import Prelude Errors Session Tables AuditLog Users Requests.
From S2P Require Import RateLimitPolicies RateLimits RateLimitIngress Fixtures.

Module RateLimitFixtures.
Export Fixtures.

(** An item is its amount and its window in seconds. *)
#[export] Instance items : RateLimitItems := {|
  RateLimitItem := Z * Z;
  RateLimitItemPerMinute n m := (n, 60 * m);
  RateLimitItemPerHour n m := (n, 3600 * m);
  RateLimitItemPerDay n m := (n, 86400 * m);
  amount := fst;
  get_expiry := snd;
|}.

#[export] Instance item_laws : RateLimitItemLaws.
Proof. by split. Qed.

(** Counters by key, each with the milliseconds it has left. *)
Abbreviation store := (gmap string (Z * option N)).

Definition value_of (k : string) (r : store) : Z := default 0 (fst <$> r !! k).

Definition lives (d : Z) (c : Z * option N) : option (Z * option N) :=
  match c with
  | (n, Some t) => if Z.of_N t <=? d then None else Some (n, Some (Z.to_N (Z.of_N t - d)))
  | c => Some c
  end.

#[export] Instance server : Redis := {|
  redis_t := store;
  GET k r := fst <$> r !! k;
  PTTL k r := match r !! k with
              | None => -2
              | Some (_, None) => -1
              | Some (_, Some t) => Z.of_N t
              end;
  INCR k r := (value_of k r + 1, <[k := (value_of k r + 1, c ← r !! k; snd c)]> r);
  PEXPIRE k ms r := match r !! k with
                    | None => r
                    | Some c => if ms <=? 0 then delete k r else <[k := (c.1, Some (Z.to_N ms))]> r
                    end;
|}.

#[export] Instance server_laws : RedisLaws.
Proof.
  refine {|
    counter_at (k : string) (r : @redis_t server) :=
      (fun c : Z * option N => (c.1, Z.of_N <$> c.2)) <$> ((r : store) !! k);
    elapse (d : Z) (r : @redis_t server) := omap (lives d) (r : store);
  |}.
  - intros k r. cbn in *. by destruct (r !! k).
  - intros k r. cbn in *. by destruct (r !! k) as [[n [t|]]|].
  - intros k r n t. cbn in *. destruct (r !! k) as [[m [u|]]|]; cbn; intros [=]. lia.
  - done.
  - intros k r k' _. cbn in *. unfold value_of. case_decide as Hk.
    + subst. rewrite lookup_insert_eq. cbn in *. by destruct (r !! k) as [[m [u|]]|].
    + by rewrite lookup_insert_ne.
  - intros k ms r k' Hms. cbn in *. destruct (r !! k) as [[n t]|] eqn:Hk; case_decide as Hkk; subst.
    + rewrite (proj2 (Z.leb_gt ms 0)), lookup_insert_eq by done. cbn. do 3 f_equal. lia.
    + by rewrite (proj2 (Z.leb_gt ms 0)), lookup_insert_ne by done.
    + by rewrite Hk.
    + done.
  - intros d r k Hd. cbn in *. rewrite lookup_omap.
    destruct (r !! k) as [[n [t|]]|] eqn:Hk; rewrite ?Hk; cbn; [|done..].
    destruct (Z.leb_spec (Z.of_N t) d); cbn; [done|]. do 3 f_equal. lia.
Defined.

(** A strategy that counts the hits of each identifier and never forgets. *)
#[export] Instance strategy : Limiter := {|
  limiter_t := gmap string Z;
  hit (item : @RateLimitItem items) namespace k l :=
    let used := default 0 (l !! (namespace ++ ":" ++ k)%string) in
    if used <? item.1 then (true, <[(namespace ++ ":" ++ k)%string := used + 1]> l) else (false, l);
  test := Some (fun (item : @RateLimitItem items) namespace k l =>
    default 0 (l !! (namespace ++ ":" ++ k)%string) <? item.1);
  get_window_stats _ _ _ _ := t0 + seconds 30;
|}.

Definition no_metrics : Metrics.t := Metrics.mk [] [] [] [].

(** Nothing counted, nobody else acting, no failure ahead. *)
Definition quiet : Limits := mkLimits (∅ : store) (∅ : gmap string Z) [] 0 no_metrics.

Definition failing (e : LibraryError.t) : Turn (Strategy := strategy) :=
  mkTurn id id (Some (e, false)).

(** [redis.exceptions.TimeoutError], and a redirection of the cluster. *)
Definition timeout : LibraryError.t :=
  LibraryError.mk "TimeoutError" "Timeout reading from socket" [RedisTimeoutError; RedisError].
Definition moved : LibraryError.t :=
  LibraryError.mk "ResponseError" "MOVED 3999 127.0.0.1:6381" [RedisError].

(** Production settings: one override, the limiter on, the edge enforced. *)
Definition policy_settings : PolicySettings :=
  mkPolicySettings "prod" RateLimitMode.normal
    {["invite_create_target_email"%string := RateLimitPolicyOverride.mk (Some 2) None None]}.

Definition rl_settings : RateLimitingSettings.t :=
  RateLimitingSettings.mk true true true "rate-limit" true ["192.0.2.17"]
    (Some "secret") (Some "X-Edge") (Some "edge").

Definition registry : gmap string RateLimitPolicy.t :=
  match PolicyRegistry.build_effective_policy_registry policy_settings with
  | Ok registry => registry
  | Err _ => ∅
  end.

Definition started_app (grouped : bool) : AppState.t :=
  AppState.mk rl_settings (Some (RateLimiterRuntime.mk true true grouped)) (Some registry).

Definition client : Request.t := Request.mk (Some "192.0.2.17") (Some "curl") None None.

Definition req (grouped : bool) : Checks.Req := Checks.mkReq (started_app grouped) client.

End RateLimitFixtures.
