(* ===== verification/RateLimitPolicyProofs.v ===== *)
(** The registry of effective rate-limit policies: which policies the application enforces
    once it has started, under each mode, environment and override. *)
From S2P Require Import Prelude Errors Session Tables RateLimitPolicies RateLimitFixtures.

Import PolicyRegistry.

Abbreviation spec_name := RateLimitPolicySpec.name.
Abbreviation spec_names specs := (RateLimitPolicySpec.name <$> specs).

(** ** The declared policies *)

Lemma build_from_ok specs : forall registry,
  NoDup (spec_names specs) -> (forall s, s ∈ specs -> registry !! spec_name s = None) ->
  exists registry', build_from registry specs = Ok registry' /\
    forall n, registry' !! n = None <-> registry !! n = None /\ n ∉ spec_names specs.
Proof.
  induction specs as [|s specs IH]; intros registry Hnd Hfresh; cbn [build_from].
  { exists registry. split; [done|]. intros n. split; [|by intros []].
    intros Hn. split; [done|]. apply not_elem_of_nil. }
  rewrite fmap_cons in Hnd. apply NoDup_cons in Hnd as [Hs Hnd].
  rewrite Hfresh by (by left).
  destruct (IH (<[spec_name s := s]> registry) Hnd) as (registry' & -> & Hl).
  { intros s' Hs'. rewrite lookup_insert_ne; [apply Hfresh; by right|].
    intros Heq. apply Hs. rewrite Heq. by apply list_elem_of_fmap_2. }
  exists registry'. split; [done|]. intros n. rewrite Hl, fmap_cons, not_elem_of_cons.
  destruct (decide (n = spec_name s)) as [->|Hne].
  - rewrite lookup_insert_eq. naive_solver.
  - rewrite lookup_insert_ne by done. naive_solver.
Qed.

Lemma registered_names_distinct : NoDup (spec_names _REGISTERED_POLICY_SPECS).
Proof. by apply (bool_decide_unpack _); vm_compute. Qed.

Lemma policy_spec_registry_ok :
  exists registry, _POLICY_SPEC_REGISTRY = Ok registry /\
    forall n, registry !! n = None <-> n ∉ spec_names _REGISTERED_POLICY_SPECS.
Proof.
  destruct (build_from_ok _REGISTERED_POLICY_SPECS ∅) as (registry & Hr & Hl).
  - exact registered_names_distinct.
  - intros. apply lookup_empty.
  - exists registry. split; [exact Hr|]. intros n. rewrite Hl, lookup_empty.
    split; [intros [_ Hn]; exact Hn|intros Hn; split; [reflexivity|exact Hn]].
Qed.

(** ** The names of the overrides *)

Lemma unknown_names_nil registry overrides :
  unknown_names registry overrides = [] <->
  forall n, is_Some (overrides !! n) -> is_Some (registry !! n).
Proof.
  unfold unknown_names. set (l := List.filter _ _).
  assert (merge_sort string_le l = [] <-> l = []) as ->.
  { pose proof (merge_sort_Permutation string_le l) as Hp. split; intros He; rewrite He in Hp.
    - symmetry in Hp. by apply Permutation_nil_r in Hp.
    - by rewrite He. }
  split.
  - intros He n [o Ho]. destruct (registry !! n) as [s|] eqn:Hn; [done|].
    assert (n ∈ l) as Hin.
    { apply list_elem_of_In, filter_In. split; [|by rewrite Hn].
      apply list_elem_of_In, list_elem_of_fmap. exists (n, o). by rewrite elem_of_map_to_list. }
    rewrite He in Hin. by apply not_elem_of_nil in Hin.
  - intros Hall. destruct l as [|n l'] eqn:He; [done|]. exfalso.
    assert (n ∈ l) as Hin by (rewrite He; by left). subst l.
    apply list_elem_of_In, filter_In in Hin as [Hin Hn].
    apply list_elem_of_In, list_elem_of_fmap in Hin as ([n' o] & -> & Ho).
    rewrite elem_of_map_to_list in Ho. destruct (Hall n') as [s Hs]; [by eexists|].
    simpl in Hn. by rewrite Hs in Hn.
Qed.

Section Effective.
Context {Items : RateLimitItems} {Laws : RateLimitItemLaws}.
Implicit Types (settings : PolicySettings) (spec : RateLimitPolicySpec.t).

(** The windows the limiter can build. *)
Abbreviation supported := [60; 300; 3600; 86400].

(** What the settings make of a declared policy. *)
Definition override_of settings spec : option RateLimitPolicyOverride.t :=
  policies settings !! spec_name spec.

Definition enforced_limit settings spec : Z :=
  default (_apply_mode_to_limit (RateLimitPolicySpec.default_limit spec) (mode settings)
             (RateLimitPolicySpec.sensitivity spec))
    (o ← override_of settings spec; RateLimitPolicyOverride.limit o).

Definition enforced_window settings spec : Z :=
  default (RateLimitPolicySpec.default_window_seconds spec)
    (o ← override_of settings spec; RateLimitPolicyOverride.window_seconds o).

Definition fails_open settings spec : bool :=
  default (RateLimitPolicySpec.default_fail_open spec)
    (o ← override_of settings spec; RateLimitPolicyOverride.fail_open o)
  && negb (panic_closes (mode settings) spec)
  && negb (_should_force_fail_closed_in_environment settings spec).

(** A policy that enforces it. *)
Definition enforces settings spec (p : RateLimitPolicy.t) : Prop :=
  RateLimitPolicy.name p = spec_name spec /\
  amount (RateLimitPolicy.item p) = enforced_limit settings spec /\
  get_expiry (RateLimitPolicy.item p) = enforced_window settings spec /\
  RateLimitPolicy.fail_open p = fails_open settings spec /\
  RateLimitPolicy.sensitivity p = RateLimitPolicySpec.sensitivity spec.

Lemma item_of_window n w :
  w ∈ supported ->
  exists item, _rate_limit_item_from_window n w = Ok item /\ amount item = n /\ get_expiry item = w.
Proof.
  rewrite !elem_of_cons, elem_of_nil. unfold _rate_limit_item_from_window.
  intros [->|[->|[->|[->|[]]]]]; cbn [Z.eqb Pos.eqb]; eexists; (split; [reflexivity|]).
  - by rewrite amount_per_minute, expiry_per_minute.
  - by rewrite amount_per_minute, expiry_per_minute.
  - by rewrite amount_per_hour, expiry_per_hour.
  - by rewrite amount_per_day, expiry_per_day.
Qed.

Lemma apply_override_ok settings spec :
  enforced_window settings spec ∈ supported ->
  exists p, _apply_override spec (mode settings) (override_of settings spec) = Ok p /\
    RateLimitPolicy.name p = spec_name spec /\
    amount (RateLimitPolicy.item p) = enforced_limit settings spec /\
    get_expiry (RateLimitPolicy.item p) = enforced_window settings spec /\
    RateLimitPolicy.fail_open p =
      default (RateLimitPolicySpec.default_fail_open spec)
        (o ← override_of settings spec; RateLimitPolicyOverride.fail_open o)
      && negb (panic_closes (mode settings) spec) /\
    RateLimitPolicy.sensitivity p = RateLimitPolicySpec.sensitivity spec.
Proof.
  unfold _apply_override, enforced_limit, enforced_window, close_in_panic. intros Hw.
  set (limit0 := _apply_mode_to_limit _ _ _). destruct (override_of settings spec) as [[l w f]|]; cbn in *.
  - destruct (item_of_window (default limit0 l) _ Hw) as (item & -> & Ha & He).
    eexists. split; [reflexivity|]. cbn. split_and!; try done.
    destruct (panic_closes (mode settings) spec); [by rewrite andb_false_r|by rewrite andb_true_r].
  - destruct (item_of_window limit0 _ Hw) as (item & -> & Ha & He).
    eexists. split; [reflexivity|]. cbn. split_and!; try done.
    destruct (panic_closes (mode settings) spec); [by rewrite andb_false_r|by rewrite andb_true_r].
Qed.

Lemma effective_policy_ok settings spec :
  enforced_window settings spec ∈ supported ->
  exists p, effective_policy settings spec = Ok p /\ enforces settings spec p.
Proof.
  intros Hw. destruct (apply_override_ok settings spec Hw) as (p & Hp & Hn & Ha & He & Hf & Hs).
  unfold effective_policy. fold (override_of settings spec). rewrite Hp.
  eexists. split; [reflexivity|]. unfold enforces, fails_open.
  destruct (_should_force_fail_closed_in_environment settings spec).
  - unfold _force_policy_fail_closed. rewrite andb_false_r.
    destruct (RateLimitPolicy.fail_open p) eqn:Hopen; cbn; by split_and!.
  - rewrite andb_true_r. by split_and!.
Qed.

Lemma effective_from_ok settings specs : forall registry,
  NoDup (spec_names specs) ->
  (forall spec, spec ∈ specs -> enforced_window settings spec ∈ supported) ->
  exists registry', effective_from settings registry specs = Ok registry' /\
    (forall spec, spec ∈ specs ->
       exists p, registry' !! spec_name spec = Some p /\ enforces settings spec p) /\
    (forall n, n ∉ spec_names specs -> registry' !! n = registry !! n).
Proof.
  induction specs as [|spec specs IH]; intros registry Hnd Hw; cbn [effective_from].
  { exists registry. split; [done|]. split; [|done]. intros s Hs. by apply not_elem_of_nil in Hs. }
  rewrite fmap_cons in Hnd. apply NoDup_cons in Hnd as [Hs Hnd].
  destruct (effective_policy_ok settings spec) as (p & -> & Hp); [apply Hw; by left|].
  destruct (IH (<[spec_name spec := p]> registry) Hnd) as (registry' & Hr & Hin & Hout).
  { intros s Hin. apply Hw. by right. }
  exists registry'. split; [exact Hr|]. split.
  - intros s Hmem. apply elem_of_cons in Hmem as [->|Hmem]; [|by apply Hin].
    exists p. by rewrite Hout, lookup_insert_eq.
  - intros n Hn. rewrite fmap_cons, not_elem_of_cons in Hn. destruct Hn as [Hne Hn].
    by rewrite Hout, lookup_insert_ne.
Qed.

(** Overrides as the settings' validators leave them. *)
Definition validated settings : Prop :=
  forall n o, policies settings !! n = Some o -> RateLimitPolicyOverride.validate o = Ok o.

Lemma validated_override o :
  RateLimitPolicyOverride.validate o = Ok o ->
  (forall n, RateLimitPolicyOverride.limit o = Some n -> 0 < n) /\
  (forall w, RateLimitPolicyOverride.window_seconds o = Some w -> w ∈ supported).
Proof.
  destruct o as [l w f]. unfold RateLimitPolicyOverride.validate. cbn.
  destruct (RateLimitPolicyOverride.positive l && RateLimitPolicyOverride.positive w) eqn:Hp;
    [|done].
  apply andb_true_iff in Hp as [Hl _]. intros Hv. split.
  - intros n ->. cbn in Hl. lia.
  - intros n ->. cbn in Hv. by case_bool_decide.
Qed.

Lemma declared_windows spec :
  spec ∈ _REGISTERED_POLICY_SPECS -> RateLimitPolicySpec.default_window_seconds spec ∈ supported.
Proof.
  assert (Forall (fun s => RateLimitPolicySpec.default_window_seconds s ∈ supported)
            _REGISTERED_POLICY_SPECS) as Hall.
  { repeat constructor; cbn; apply (bool_decide_unpack _); vm_compute; exact I. }
  rewrite Forall_forall in Hall. exact (Hall spec).
Qed.

Lemma mode_limit_positive settings spec :
  spec ∈ _REGISTERED_POLICY_SPECS ->
  0 < _apply_mode_to_limit (RateLimitPolicySpec.default_limit spec) (mode settings)
        (RateLimitPolicySpec.sensitivity spec).
Proof.
  assert (Forall (fun s => 0 < RateLimitPolicySpec.default_limit s) _REGISTERED_POLICY_SPECS) as Hall.
  { by repeat constructor. }
  intros Hs. rewrite Forall_forall in Hall. specialize (Hall spec Hs). cbn in Hall.
  unfold _apply_mode_to_limit.
  destruct (mode settings), (RateLimitPolicySpec.sensitivity spec); lia.
Qed.

Lemma enforced_window_supported settings spec :
  validated settings -> spec ∈ _REGISTERED_POLICY_SPECS ->
  enforced_window settings spec ∈ supported.
Proof.
  intros Hv Hs. unfold enforced_window. pose proof (declared_windows spec Hs).
  destruct (override_of settings spec) as [o|] eqn:Ho; cbn; [|done].
  destruct (validated_override o (Hv _ _ Ho)) as [_ Hw].
  destruct (RateLimitPolicyOverride.window_seconds o) as [w|]; [by apply Hw|done].
Qed.

Lemma enforced_limit_positive settings spec :
  validated settings -> spec ∈ _REGISTERED_POLICY_SPECS -> 0 < enforced_limit settings spec.
Proof.
  intros Hv Hs. unfold enforced_limit. pose proof (mode_limit_positive settings spec Hs).
  destruct (override_of settings spec) as [o|] eqn:Ho; cbn; [|done].
  destruct (validated_override o (Hv _ _ Ho)) as [Hl _].
  destruct (RateLimitPolicyOverride.limit o) as [n|]; [by apply Hl|done].
Qed.

(** An adjusted limit stays small. *)
Lemma mode_limit_small settings spec :
  spec ∈ _REGISTERED_POLICY_SPECS ->
  _apply_mode_to_limit (RateLimitPolicySpec.default_limit spec) (mode settings)
    (RateLimitPolicySpec.sensitivity spec) <= 400.
Proof.
  assert (Forall (fun s => 0 < RateLimitPolicySpec.default_limit s <= 200)
            _REGISTERED_POLICY_SPECS) as Hall.
  { by repeat constructor. }
  intros Hs. rewrite Forall_forall in Hall. specialize (Hall spec Hs). cbn in Hall.
  unfold _apply_mode_to_limit.
  destruct (mode settings), (RateLimitPolicySpec.sensitivity spec);
    Z.to_euclidean_division_equations; lia.
Qed.

(** Every override names a declared policy. *)
Definition overrides_known settings : Prop :=
  forall n, is_Some (policies settings !! n) -> n ∈ spec_names _REGISTERED_POLICY_SPECS.

(** The registry of known overrides. *)
Lemma effective_registry_built settings :
  validated settings -> overrides_known settings ->
  exists registry,
    build_effective_policy_registry settings = Ok registry /\
    (forall n, is_Some (registry !! n) <-> n ∈ spec_names _REGISTERED_POLICY_SPECS) /\
    (forall spec, spec ∈ _REGISTERED_POLICY_SPECS ->
       exists p, registry !! spec_name spec = Some p /\ enforces settings spec p).
Proof.
  intros Hv Hknown. unfold build_effective_policy_registry.
  destruct policy_spec_registry_ok as (specs & -> & Hspecs).
  change (mbind ?f (Ok specs)) with (f specs). cbv beta.
  rewrite (proj2 (unknown_names_nil specs (policies settings))).
  2:{ intros n Hn. destruct (specs !! n) eqn:Hl; [by eexists|].
      apply Hspecs in Hl. destruct Hl. by apply Hknown. }
  destruct (effective_from_ok settings _REGISTERED_POLICY_SPECS ∅ registered_names_distinct)
    as (registry & Hr & Hin & Hout).
  { intros spec Hs. by apply enforced_window_supported. }
  exists registry. split; [exact Hr|]. split; [|exact Hin].
  intros n. split.
  - intros [p Hp]. destruct (decide (n ∈ spec_names _REGISTERED_POLICY_SPECS)) as [|Hn]; [done|].
    rewrite Hout, lookup_empty in Hp; done.
  - intros Hn. apply list_elem_of_fmap in Hn as (spec & -> & Hs).
    destruct (Hin spec Hs) as (p & Hp & _). by eexists.
Qed.

(** An unknown override is refused. *)
Lemma unknown_override_refused settings n :
  is_Some (policies settings !! n) -> n ∉ spec_names _REGISTERED_POLICY_SPECS ->
  exists msg, build_effective_policy_registry settings = Err (ValueError msg).
Proof.
  intros Hn Hunknown. unfold build_effective_policy_registry.
  destruct policy_spec_registry_ok as (specs & -> & Hspecs).
  change (mbind ?f (Ok specs)) with (f specs). cbv beta.
  destruct (unknown_names specs (policies settings)) eqn:He; [|by eexists].
  destruct (proj1 (unknown_names_nil specs (policies settings)) He n Hn) as [s Hs].
  by rewrite (proj2 (Hspecs n) Hunknown) in Hs.
Qed.

(** Starting the limiter with validated overrides fails exactly when an override names
    no declared policy; otherwise the registry holds the declared policies and no others,
    each with a positive limit per supported window: the override's where there is one, else
    the declared one adjusted to the mode. A policy fails open only if it is declared or
    overridden so, never a sensitive or critical one in panic mode, nor the
    pre-authentication one in staging or production. *)
Theorem effective_registry_spec settings :
  validated settings ->
  match build_effective_policy_registry settings with
  | Err e => ~ overrides_known settings /\ exists msg, e = ValueError msg
  | Ok registry =>
      overrides_known settings /\
      (forall n, is_Some (registry !! n) <-> n ∈ spec_names _REGISTERED_POLICY_SPECS) /\
      (forall spec, spec ∈ _REGISTERED_POLICY_SPECS ->
         exists p, registry !! spec_name spec = Some p /\ enforces settings spec p /\
           0 < amount (RateLimitPolicy.item p) /\ get_expiry (RateLimitPolicy.item p) ∈ supported)
  end.
Proof.
  intros Hv.
  assert (overrides_known settings \/
          exists n, is_Some (policies settings !! n) /\ n ∉ spec_names _REGISTERED_POLICY_SPECS)
    as [Hknown|(n & Hn & Hu)].
  { destruct (decide (map_Forall (fun n _ => n ∈ spec_names _REGISTERED_POLICY_SPECS)
                        (policies settings))) as [Hall|Hall].
    - left. intros n [o Ho]. exact (Hall n o Ho).
    - right. apply map_not_Forall in Hall as (n & o & Ho & Hn); [|apply _]. by eauto. }
  - destruct (effective_registry_built settings Hv Hknown) as (registry & -> & Hdom & Hin).
    split_and!; [done|done|]. intros spec Hs. destruct (Hin spec Hs) as (p & Hp & He).
    exists p. destruct He as (Hn & Ha & Hw & Hf & Hse). rewrite Ha, Hw.
    split_and!; [done|by repeat split|by apply enforced_limit_positive
                |by apply enforced_window_supported].
  - destruct (unknown_override_refused settings n Hn Hu) as [msg ->].
    split; [|by eexists]. intros Hknown. by apply Hu, Hknown.
Qed.
End Effective.

Module Witness.
Import RateLimitFixtures.

Lemma settings_validated : validated policy_settings.
Proof.
  intros n o Ho. unfold policy_settings in Ho. cbn in Ho.
  apply lookup_singleton_Some in Ho as [_ <-]. reflexivity.
Qed.

(** In production the limiter starts with the override for invited addresses, and the policy
    before authentication fails closed. *)
Lemma effective_registry_spec_witness :
  overrides_known policy_settings /\
  (forall spec, spec ∈ _REGISTERED_POLICY_SPECS ->
     exists p, registry !! spec_name spec = Some p /\ enforces policy_settings spec p /\
       0 < amount (RateLimitPolicy.item p) /\
       get_expiry (RateLimitPolicy.item p) ∈ [60; 300; 3600; 86400]) /\
  fails_open policy_settings Policies.PRE_AUTH_POLICY = false /\
  enforced_limit policy_settings Policies.INVITE_CREATE_TARGET_EMAIL_POLICY = 2.
Proof.
  pose proof (effective_registry_spec policy_settings settings_validated) as Hspec.
  unfold registry.
  destruct (build_effective_policy_registry policy_settings) as [r|e] eqn:Hb.
  - destruct Hspec as (Hk & _ & Hin). split; [exact Hk|]. split; [exact Hin|]. split; vm_compute; reflexivity.
  - assert (match build_effective_policy_registry policy_settings with
            | Ok _ => True | Err _ => False end) as Hok by (vm_compute; exact I).
    rewrite Hb in Hok. destruct Hok.
Defined.
End Witness.
