(* ===== verification/RateLimitProofs.v ===== *)
(** Rate limiting: the grouped script against its specification, the bound on what it
    admits, the agreement of its fallback, and the checks of a request. *)
From S2P Require Import Prelude Errors Session Schema Tables AuditLog Users Invites Requests.
From S2P Require Import RateLimitPolicies RateLimits RateLimitFixtures RateLimitPolicyProofs.

Import GroupedAtomic.

Section Grouped.
Context {Items : RateLimitItems} {RedisServer : Redis} {Strategy : Limiter} {Laws : RedisLaws}.
Implicit Types (b : GroupedBucketSpec.t) (buckets : list GroupedBucketSpec.t) (r : redis_t).

Abbreviation key := GroupedBucketSpec.key.
Abbreviation limit := GroupedBucketSpec.limit.
Abbreviation keys_of buckets := (GroupedBucketSpec.key <$> buckets).

(** The window of a bucket, in milliseconds. *)
Definition window b : Z := GroupedBucketSpec.expiry_seconds b * 1000.

(** The hits a key has counted. *)
Definition hits (k : string) r : Z := default 0 (fst <$> counter_at k r).

(** A limit Lua holds exactly, and a window that lasts. *)
Definition fits b : Prop := 0 < limit b <= 2 ^ 53 /\ 0 < GroupedBucketSpec.expiry_seconds b.

(** A group of buckets under keys of their own. *)
Record group buckets : Prop := mkGroup {
  group_fits : Forall fits buckets;
  group_keys : NoDup (keys_of buckets);
}.

(** ** The specification *)

(** A counter after a hit, and after a refusal. *)
Definition after_hit b (c : option (Z * option Z)) : option (Z * option Z) :=
  match c with
  | Some (n, Some t) => Some (n + 1, Some (if n + 1 =? 1 then window b else t))
  | Some (n, None) => Some (n + 1, Some (window b))
  | None => Some (1, Some (window b))
  end.

Definition after_refusal b (c : option (Z * option Z)) : option (Z * option Z) :=
  match c with
  | Some (n, None) => Some (n, Some (window b))
  | c => c
  end.

(** The milliseconds the answer to a refusal is computed from. *)
Definition remaining b r : Z :=
  match counter_at (key b) r with
  | Some (_, Some t) => if t <? 1 then window b else t
  | _ => window b
  end.

(** All or nothing: either every bucket has room and every one counts the hit, or the first
    full bucket refuses and no counter moves. *)
Inductive consumes buckets r : GroupedConsumeResult.t -> redis_t -> Prop :=
  | consumes_all r' :
      Forall (fun b => hits (key b) r < limit b) buckets ->
      (forall b, b ∈ buckets -> counter_at (key b) r' = after_hit b (counter_at (key b) r)) ->
      (forall k, k ∉ keys_of buckets -> counter_at k r' = counter_at k r) ->
      consumes buckets r consumed r'
  | consumes_none i b r' :
      buckets !! i = Some b ->
      limit b <= hits (key b) r ->
      Forall (fun b' => hits (key b') r < limit b') (take i buckets) ->
      counter_at (key b) r' = after_refusal b (counter_at (key b) r) ->
      (forall k, k <> key b -> counter_at k r' = counter_at k r) ->
      consumes buckets r
        (GroupedConsumeResult.mk false (Some i) (Some (retry_after (remaining b r)))) r'.

(** ** The script, bucket by bucket *)

Definition refuse_script b r : Z * redis_t :=
  let ttl_ms := PTTL (key b) r in
  if ttl_ms <? 0 then (window b, PEXPIRE (key b) (window b) r) else (ttl_ms, r).

Definition hit_script b r : redis_t :=
  let '(next_value, r) := INCR (key b) r in
  let ttl_ms := PTTL (key b) r in
  if (next_value =? 1) || (ttl_ms <? 0) then PEXPIRE (key b) (window b) r else r.

Fixpoint blocked_in (i : nat) buckets r : option (Z * Z * Z) * redis_t :=
  match buckets with
  | [] => (None, r)
  | b :: rest =>
      if limit b <=? hits (key b) r
      then let '(ttl_ms, r) := refuse_script b r in (Some (0, Z.of_nat i, ttl_ms), r)
      else blocked_in (S i) rest r
  end.

Definition hit_all buckets r : redis_t := fold_left (fun r b => hit_script b r) buckets r.

Lemma hits_get k r : default 0 (GET k r) = hits k r.
Proof. by rewrite get_reply. Qed.

Section Arrays.
Context (pre rest : list GroupedBucketSpec.t) (b : GroupedBucketSpec.t).
Let buckets := pre ++ b :: rest.

Lemma script_key : KEY (keys_of buckets) (S (length pre)) = key b.
Proof.
  unfold KEY, buckets. rewrite fmap_app, fmap_cons, app_nth2; rewrite length_fmap; [|lia].
  by replace (S (length pre) - 1 - length pre)%nat with 0%nat by lia.
Qed.

Lemma script_limit : ARG (script_argv buckets) (1 + S (length pre)) = limit b.
Proof.
  unfold ARG, script_argv, buckets.
  replace (1 + S (length pre) - 1)%nat with (S (length pre)) by lia. cbn [nth].
  rewrite app_nth1 by (rewrite length_fmap, length_app; simpl; lia).
  rewrite fmap_app, app_nth2; rewrite length_fmap; [|lia]. by rewrite Nat.sub_diag.
Qed.

Lemma script_window :
  ARG (script_argv buckets) (1 + length buckets + S (length pre)) = window b.
Proof.
  unfold ARG, script_argv.
  replace (1 + length buckets + S (length pre) - 1)%nat
    with (S (length buckets + length pre)) by lia. cbn [nth].
  rewrite app_nth2; rewrite length_fmap; [|lia].
  replace (length buckets + length pre - length buckets)%nat with (length pre) by lia.
  unfold buckets. rewrite fmap_app, app_nth2; rewrite length_fmap; [|lia]. by rewrite Nat.sub_diag.
Qed.
End Arrays.

Lemma find_blocked_buckets rest : forall pre r,
  find_blocked (keys_of (pre ++ rest)) (script_argv (pre ++ rest)) (length (pre ++ rest))
    (seq (S (length pre)) (length rest)) r = blocked_in (S (length pre)) rest r.
Proof.
  induction rest as [|b rest IH]; intros pre r; [done|].
  cbn [length seq find_blocked blocked_in].
  rewrite script_key, script_limit, script_window, hits_get. unfold refuse_script.
  destruct (limit b <=? hits (key b) r); [by destruct (PTTL (key b) r <? 0)|].
  specialize (IH (pre ++ [b]) r). rewrite <- !app_assoc in IH. cbn [app] in IH.
  by replace (length (pre ++ [b])) with (S (length pre)) in IH by (rewrite length_app; simpl; lia).
Qed.

Lemma increment_all_buckets rest : forall pre r,
  increment_all (keys_of (pre ++ rest)) (script_argv (pre ++ rest)) (length (pre ++ rest))
    (seq (S (length pre)) (length rest)) r = hit_all rest r.
Proof.
  induction rest as [|b rest IH]; intros pre r; [done|].
  cbn [length seq increment_all]. unfold hit_all. cbn [fold_left].
  rewrite script_key, script_window. unfold hit_script at 2.
  destruct (INCR (key b) r) as [next r1].
  specialize (IH (pre ++ [b])). rewrite <- !app_assoc in IH. cbn [app] in IH.
  replace (length (pre ++ [b])) with (S (length pre)) in IH by (rewrite length_app; simpl; lia).
  apply IH.
Qed.

(** The script is the two loops over the buckets. *)
Lemma script_buckets buckets r :
  GROUPED_FIXED_WINDOW_CONSUME_LUA (keys_of buckets) (script_argv buckets) r =
  match blocked_in 1 buckets r with
  | (Some reply, r') => (reply, r')
  | (None, r') => ((1, 0, 0), hit_all buckets r')
  end.
Proof.
  unfold GROUPED_FIXED_WINDOW_CONSUME_LUA.
  replace (Z.to_nat (ARG (script_argv buckets) 1)) with (length buckets)
    by (unfold ARG, script_argv; cbn [nth Nat.sub]; lia).
  rewrite (find_blocked_buckets buckets []). simpl length.
  destruct (blocked_in 1 buckets r) as [[reply|] r'] eqn:Hb; [done|].
  by rewrite (increment_all_buckets buckets []).
Qed.

(** ** One bucket *)

Lemma window_pos b : fits b -> 0 < window b.
Proof. unfold fits, window. lia. Qed.

Lemma hit_script_counter b r k :
  fits b -> hits (key b) r < limit b ->
  counter_at k (hit_script b r) =
    if decide (k = key b) then after_hit b (counter_at (key b) r) else counter_at k r.
Proof.
  intros [Hl Hw] Hr. assert (0 < window b) as Hwin by (unfold window; lia).
  assert (default 0 (GET (key b) r) < 2 ^ 63 - 1) as Hmax by (rewrite hits_get; lia).
  unfold hit_script. pose proof (incr_reply _ _ Hmax) as Hrep.
  pose proof (incr_counter (key b) r k Hmax) as Hk.
  pose proof (incr_counter (key b) r (key b) Hmax) as Hkb.
  destruct (INCR (key b) r) as [next r1]. cbn [fst snd] in Hrep, Hk, Hkb.
  rewrite decide_True in Hkb by done. rewrite pttl_reply, Hkb.
  rewrite get_reply in Hrep, Hk, Hkb.
  destruct (counter_at (key b) r) as [[n [t|]]|] eqn:Hc; simpl in *; subst next.
  - pose proof (ttl_nonneg _ _ _ _ Hc). rewrite (proj2 (Z.ltb_ge t 0)), orb_false_r by lia.
    destruct (n + 1 =? 1) eqn:Hn.
    + rewrite pexpire_counter by done. case_decide; [|done]. by rewrite Hkb.
    + rewrite Hk. by case_decide.
  - rewrite orb_true_r, pexpire_counter by done. case_decide; [|done]. by rewrite Hkb.
  - rewrite orb_true_r, pexpire_counter by done. case_decide; [|done]. by rewrite Hkb.
Qed.

Lemma refuse_script_spec b r k :
  fits b -> limit b <= hits (key b) r ->
  counter_at k (refuse_script b r).2 =
    (if decide (k = key b) then after_refusal b (counter_at (key b) r) else counter_at k r)
  /\ (if (refuse_script b r).1 <? 1 then window b else (refuse_script b r).1) = remaining b r.
Proof.
  intros Hf Hfull. pose proof (window_pos b Hf). destruct Hf as [Hl _].
  unfold refuse_script, remaining, hits in *. rewrite pttl_reply.
  destruct (counter_at (key b) r) as [[n [t|]]|] eqn:Hc; simpl in Hfull; [| |lia].
  - pose proof (ttl_nonneg _ _ _ _ Hc). rewrite (proj2 (Z.ltb_ge t 0)) by lia. simpl. split; [|done].
    case_decide; [by subst|done].
  - simpl. rewrite pexpire_counter, Hc, (proj2 (Z.ltb_ge (window b) 1)) by lia. done.
Qed.

(** ** The group *)

Lemma blocked_in_spec buckets : forall i r,
  match blocked_in i buckets r with
  | (None, r') => r' = r /\ Forall (fun b => hits (key b) r < limit b) buckets
  | (Some reply, r') =>
      exists j b, buckets !! j = Some b /\ limit b <= hits (key b) r /\
        Forall (fun b' => hits (key b') r < limit b') (take j buckets) /\
        reply = (0, Z.of_nat (i + j), (refuse_script b r).1) /\ r' = (refuse_script b r).2
  end.
Proof.
  induction buckets as [|b rest IH]; intros i r; simpl; [done|].
  destruct (Z.leb_spec (limit b) (hits (key b) r)) as [Hb|Hb].
  - destruct (refuse_script b r) as [ttl r'] eqn:Hr. exists 0%nat, b. rewrite Hr, Nat.add_0_r.
    repeat split; [done|constructor].
  - specialize (IH (S i) r). destruct (blocked_in (S i) rest r) as [[reply|] r'].
    + destruct IH as (j & b' & Hj & Hl & Hp & -> & ->). exists (S j), b'.
      repeat split; [done|done|by constructor|by rewrite Nat.add_succ_r].
    + destruct IH as [-> Hall]. split; [done|by constructor].
Qed.

Lemma hit_all_spec buckets : forall r,
  group buckets -> Forall (fun b => hits (key b) r < limit b) buckets ->
  (forall b, b ∈ buckets -> counter_at (key b) (hit_all buckets r)
                            = after_hit b (counter_at (key b) r)) /\
  (forall k, k ∉ keys_of buckets -> counter_at k (hit_all buckets r) = counter_at k r).
Proof.
  induction buckets as [|b rest IH]; intros r [Hf Hk] Hall.
  { split; [intros ? H; by apply elem_of_nil in H|done]. }
  rewrite fmap_cons in Hk. apply NoDup_cons in Hk as [Hnew Hk].
  apply Forall_cons in Hf as [Hb Hf]. apply Forall_cons in Hall as [Hroom Hall].
  unfold hit_all. cbn [fold_left]. fold (hit_all rest (hit_script b r)).
  assert (forall k, k <> key b -> counter_at k (hit_script b r) = counter_at k r) as Hother.
  { intros k Hne. by rewrite hit_script_counter, decide_False. }
  assert (forall b', b' ∈ rest -> key b' <> key b) as Hne.
  { intros b' Hin Heq. apply Hnew. rewrite <- Heq. by apply list_elem_of_fmap_2. }
  destruct (IH (hit_script b r)) as [Hin Hout]; [done| |].
  { apply Forall_forall. intros b' Hb'. unfold hits. rewrite Hother by eauto.
    rewrite Forall_forall in Hall. by apply Hall. }
  split.
  - intros b' Hb'. apply elem_of_cons in Hb' as [->|Hb'].
    + rewrite Hout by done. by rewrite hit_script_counter, decide_True.
    + rewrite Hin by done. rewrite Hother; eauto.
  - intros k Hkn. rewrite fmap_cons, not_elem_of_cons in Hkn. destruct Hkn as [Hkb Hkr].
    rewrite Hout by done. by apply Hother.
Qed.

(** What a script execution does to the server, and what its reply is read as. *)
Definition serve_group buckets r : outcome GroupedConsumeResult.t * redis_t :=
  let '(reply, r') := GROUPED_FIXED_WINDOW_CONSUME_LUA (keys_of buckets) (script_argv buckets) r in
  (read_reply buckets reply, r').

Lemma serve_group_spec buckets r :
  group buckets ->
  exists res r', serve_group buckets r = (Returned res, r') /\ consumes buckets r res r'.
Proof.
  intros Hg. unfold serve_group. rewrite script_buckets. pose proof (blocked_in_spec buckets 1 r) as Hb.
  destruct (blocked_in 1 buckets r) as [[reply|] r'].
  - destruct Hb as (j & b & Hj & Hfull & Hbefore & -> & ->).
    assert (fits b) as Hf by (by eapply Forall_lookup_1; [apply Hg|]).
    destruct (refuse_script_spec b r (key b) Hf Hfull) as [Hself Hrem].
    exists (GroupedConsumeResult.mk false (Some j) (Some (retry_after (remaining b r)))),
      (refuse_script b r).2.
    split.
    + unfold read_reply. cbn [fst snd Z.eqb]. replace (Z.to_nat (Z.of_nat (1 + j) - 1)) with j by lia.
      rewrite <- Hrem. destruct ((refuse_script b r).1 <? 1); [by rewrite Hj|done].
    + eapply consumes_none; [done..| |].
      * by rewrite Hself, decide_True.
      * intros k Hk. destruct (refuse_script_spec b r k Hf Hfull) as [-> _]. by rewrite decide_False.
  - destruct Hb as [-> Hall]. exists consumed, (hit_all buckets r). split; [done|].
    destruct (hit_all_spec buckets r Hg Hall). by apply consumes_all.
Qed.

(** The call, when the turn of the script is not a failing one. *)
Lemma atomic_consume_run buckets s s1 :
  next_turn s = (None, s1) ->
  atomic_consume_grouped_buckets buckets s =
    let '(o, r') := serve_group buckets (redis s1) in (o, set_redis r' s1).
Proof.
  intros Hs. unfold atomic_consume_grouped_buckets, redis_command, command, serve_group, mbind, RL_bind.
  rewrite Hs.
  by destruct (GROUPED_FIXED_WINDOW_CONSUME_LUA _ _ (redis s1)).
Qed.

(** What the specification says of the hits, the expiries and the answer. *)
Lemma consumes_effect buckets r res r' :
  consumes buckets r res r' ->
  (forall k, hits k r' = hits k r
             + (if GroupedConsumeResult.allowed res
                then if bool_decide (k ∈ keys_of buckets) then 1 else 0 else 0)) /\
  (forall b, b ∈ buckets -> GroupedConsumeResult.allowed res = true ->
     exists n t, counter_at (key b) r' = Some (n, Some t)) /\
  (if GroupedConsumeResult.allowed res then res = consumed
   else exists i b t, buckets !! i = Some b /\ limit b <= hits (key b) r /\ 1 <= t /\
          res = GroupedConsumeResult.mk false (Some i) (Some t)).
Proof.
  intros [r'' Hroom Hin Hout|i b r'' Hi Hfull Hbefore Hself Hother]; cbn.
  - split; [|split; [|done]].
    + intros k. case_bool_decide as Hk.
      * apply list_elem_of_fmap in Hk as (b & -> & Hb). unfold hits. rewrite Hin by done.
        by destruct (counter_at (key b) r) as [[n [t|]]|].
      * unfold hits. rewrite Hout by done. lia.
    + intros b Hb _. rewrite Hin by done.
      destruct (counter_at (key b) r) as [[n [t|]]|]; simpl; eauto.
  - split; [|split; [done|]].
    + intros k. unfold hits. destruct (decide (k = key b)) as [->|Hk].
      * rewrite Hself. destruct (counter_at (key b) r) as [[n [t|]]|]; simpl; lia.
      * rewrite Hother by done. lia.
    + exists i, b, (retry_after (remaining b r)). split_and!; [done|done| |done].
      unfold retry_after. lia.
Qed.

(** C17. One execution of the Lua script on a group of buckets refines the all-or-nothing
    specification: whatever other clients did before, it answers, and either every bucket
    had room, each counter grew by one and has an expiry, or a full bucket refuses
    with a positive Retry-After and no counter grew. *)
Theorem grouped_consume_spec buckets s s1 :
  group buckets -> next_turn s = (None, s1) ->
  exists res r',
    atomic_consume_grouped_buckets buckets s = (Returned res, set_redis r' s1) /\
    consumes buckets (redis s1) res r' /\
    (forall k, hits k r' = hits k (redis s1)
                           + (if GroupedConsumeResult.allowed res
                              then if bool_decide (k ∈ keys_of buckets) then 1 else 0 else 0)) /\
    (forall b, b ∈ buckets -> GroupedConsumeResult.allowed res = true ->
       exists n t, counter_at (key b) r' = Some (n, Some t)) /\
    (GroupedConsumeResult.allowed res = false ->
       exists i b t, buckets !! i = Some b /\ limit b <= hits (key b) (redis s1) /\ 1 <= t /\
         res = GroupedConsumeResult.mk false (Some i) (Some t)).
Proof.
  intros Hg Hs. rewrite (atomic_consume_run _ _ _ Hs).
  destruct (serve_group_spec buckets (redis s1) Hg) as (res & r' & -> & Hc).
  exists res, r'. destruct (consumes_effect _ _ _ _ Hc) as (Hhits & Hexp & Hres).
  split_and!; [done..|]. intros Hb. by rewrite Hb in Hres.
Qed.

(** ** What a window admits *)

(** A history of the server: groups consumed and time going by. *)
Inductive event :=
  | Consume (buckets : list GroupedBucketSpec.t)
  | Elapse (d : Z).

Definition allowed_hit (k : string) buckets (o : outcome GroupedConsumeResult.t) : Z :=
  match o with
  | Returned res =>
      if GroupedConsumeResult.allowed res && bool_decide (k ∈ keys_of buckets) then 1 else 0
  | Raised _ => 0
  end.

(** The requests admitted under a key. *)
Fixpoint admitted (k : string) (history : list event) r : Z :=
  match history with
  | [] => 0
  | Consume buckets :: rest =>
      let '(o, r') := serve_group buckets r in allowed_hit k buckets o + admitted k rest r'
  | Elapse d :: rest => admitted k rest (elapse d r)
  end.

Fixpoint duration (history : list event) : Z :=
  match history with
  | [] => 0
  | Consume _ :: rest => duration rest
  | Elapse d :: rest => d + duration rest
  end.

(** Every bucket under the key has the same limit and window, and time goes forward. *)
Definition steady (k : string) (b : GroupedBucketSpec.t) (e : event) : Prop :=
  match e with
  | Consume buckets =>
      group buckets /\
      (forall b', b' ∈ buckets -> key b' = k -> limit b' = limit b /\ window b' = window b)
  | Elapse d => 0 <= d
  end.

(** What a key may still admit over a time shorter than its window. *)
Definition allowance b (c : option (Z * option Z)) (time : Z) : Z :=
  match c with
  | None => limit b
  | Some (n, Some t) => Z.max 0 (limit b - n) + (if t <=? time then limit b else 0)
  | Some (n, None) => Z.max 0 (limit b - n)
  end.

Lemma duration_nonneg k b history : Forall (steady k b) history -> 0 <= duration history.
Proof.
  induction 1 as [|[buckets|d] rest Hs _ IH]; simpl in *; lia.
Qed.

(** A group takes from the allowance what it admits. *)
Lemma serve_group_allowance k b buckets r time :
  fits b -> steady k b (Consume buckets) -> time < window b ->
  let '(o, r') := serve_group buckets r in
  allowed_hit k buckets o + allowance b (counter_at k r') time
  <= allowance b (counter_at k r) time.
Proof.
  intros [Hb _] [Hg Hsame] Htime.
  destruct (serve_group_spec buckets r Hg) as (res & r' & -> & Hc). simpl.
  destruct Hc as [r' Hroom Hin Hout|i b' r' Hi Hfull _ Hself Hother]; cbn.
  - case_bool_decide as Hk.
    + apply list_elem_of_fmap in Hk as (b' & -> & Hb'). rewrite Hin by done.
      destruct (Hsame b' Hb' eq_refl) as [Hl Hw].
      rewrite Forall_forall in Hroom. specialize (Hroom b' Hb'). unfold hits in Hroom.
      rewrite Hl in Hroom. clear Hin Hout Hsame.
      assert ((window b <=? time) = false) as Hwt by lia.
      destruct (counter_at (key b') r) as [[n [t|]]|]; simpl in *; rewrite ?Hw, ?Hwt; try lia.
      destruct (n + 1 =? 1); rewrite ?Hwt; destruct (t <=? time); lia.
    + rewrite Hout by done. lia.
  - destruct (decide (k = key b')) as [->|Hk]; [|rewrite Hother by done; lia].
    rewrite Hself. destruct (Hsame b') as [_ Hw]; [by eapply list_elem_of_lookup_2|done|].
    assert ((window b <=? time) = false) as Hwt by lia.
    destruct (counter_at (key b') r) as [[n [t|]]|]; simpl; rewrite ?Hw, ?Hwt; lia.
Qed.

Lemma admitted_allowance k b history : forall r,
  fits b -> Forall (steady k b) history -> duration history < window b ->
  admitted k history r <= allowance b (counter_at k r) (duration history).
Proof.
  induction history as [|[buckets|d] rest IH]; intros r Hf Hall Htime.
  - destruct Hf as [Hl _]. simpl. destruct (counter_at k r) as [[n [t|]]|]; simpl; [|lia..].
    destruct (t <=? 0); lia.
  - apply Forall_cons in Hall as [Hs Hall]. simpl in *.
    pose proof (serve_group_allowance k b buckets r (duration rest) Hf Hs Htime) as Hstep.
    destruct (serve_group buckets r) as [o r']. specialize (IH r' Hf Hall Htime). lia.
  - apply Forall_cons in Hall as [Hd Hall]. simpl in *.
    pose proof (duration_nonneg k b rest Hall).
    specialize (IH (elapse d r) Hf Hall ltac:(lia)). etransitivity; [exact IH|].
    rewrite elapse_counter by done. destruct Hf as [Hl _].
    destruct (counter_at k r) as [[n [t|]]|]; simpl; [|lia..].
    destruct (Z.leb_spec t d) as [Htd|Htd]; simpl.
    + rewrite (proj2 (Z.leb_le t (d + duration rest))) by lia. lia.
    + destruct (Z.leb_spec (t - d) (duration rest)), (Z.leb_spec t (d + duration rest)); lia.
Qed.

(** C18. Whatever groups are consumed and however time goes by, a key admits at most its limit
    in a stretch shorter than its window that starts with the key absent, and at most twice
    its limit in any such stretch. *)
Theorem admissions_bounded k b history r :
  fits b -> Forall (steady k b) history -> duration history < window b ->
  (counter_at k r = None -> admitted k history r <= limit b) /\
  (0 <= hits k r -> admitted k history r <= 2 * limit b).
Proof.
  intros Hf Hall Htime. pose proof (admitted_allowance k b history r Hf Hall Htime) as Hle.
  destruct Hf as [Hl _]. unfold hits. split; [intros Hc; by rewrite Hc in Hle|].
  destruct (counter_at k r) as [[n [t|]]|]; simpl in *; [|lia..].
  destruct (t <=? duration history); lia.
Qed.

(** ** The fallback *)

(** No other client acts and no command fails. *)
Definition undisturbed (s : Limits) : Prop := turns s = [].

Lemma set_redis_same s : set_redis (redis s) s = s.
Proof. by destruct s. Qed.

Lemma redis_set_redis r s : redis (set_redis r s) = r.
Proof. done. Qed.

Lemma set_redis_twice r r' s : set_redis r (set_redis r' s) = set_redis r s.
Proof. done. Qed.

Lemma redis_command_undisturbed {A} (run : redis_t -> A * redis_t) s :
  undisturbed s ->
  redis_command run s = (Returned (run (redis s)).1, set_redis (run (redis s)).2 s).
Proof.
  unfold undisturbed, redis_command, command, next_turn. intros ->. by destruct (run (redis s)).
Qed.

(** Reading and writing a bucket as the fallback does. *)
Definition refuse_fallback b r : Z * redis_t :=
  let ttl_ms := PTTL (key b) r in
  if ttl_ms <? 1 then (window b, PEXPIRE (key b) (window b) r) else (ttl_ms, r).

Definition hit_fallback b r : redis_t :=
  let '(next_value, r) := INCR (key b) r in
  let ttl_ms := PTTL (key b) r in
  if (next_value =? 1) || (ttl_ms <? 1) then PEXPIRE (key b) (window b) r else r.

Ltac run_commands :=
  repeat (unfold mbind, RL_bind, mret, RL_ret, get, pttl, incr, pexpire;
          rewrite redis_command_undisturbed by done; cbn [fst snd];
          rewrite ?redis_set_redis, ?set_redis_twice, ?set_redis_same).

Lemma increment_bucket_undisturbed b s :
  undisturbed s -> increment_bucket b s = (Returned tt, set_redis (hit_fallback b (redis s)) s).
Proof.
  intros Hs. unfold increment_bucket, hit_fallback. run_commands.
  destruct (INCR (key b) (redis s)) as [n r]. cbn [fst snd].
  destruct ((n =? 1) || (PTTL (key b) r <? 1)); [|done]. by run_commands.
Qed.

Lemma increment_buckets_undisturbed buckets : forall s,
  undisturbed s ->
  rl_each buckets increment_bucket s
  = (Returned tt, set_redis (fold_left (fun r b => hit_fallback b r) buckets (redis s)) s).
Proof.
  induction buckets as [|b rest IH]; intros s Hs; [by destruct s|].
  cbn [rl_each fold_left]. unfold mbind, RL_bind. rewrite increment_bucket_undisturbed by done.
  by rewrite IH.
Qed.

Lemma first_blocked_undisturbed rest : forall pre s,
  undisturbed s ->
  match first_blocked (length pre) rest s, blocked_in (S (length pre)) rest (redis s) with
  | (Returned None, s'), (None, r') => s' = s /\ r' = redis s
  | (Returned (Some res), s'), (Some reply, r') =>
      read_reply (pre ++ rest) reply = Returned res /\
      ((forall b, b ∈ rest -> PTTL (key b) (redis s) <> 0) -> s' = set_redis r' s)
  | _, _ => False
  end.
Proof.
  induction rest as [|b rest IH]; intros pre s Hs; [by cbn|].
  cbn [first_blocked blocked_in]. run_commands. rewrite hits_get.
  destruct (limit b <=? hits (key b) (redis s)).
  - run_commands. unfold refuse_script.
    set (ttl := PTTL (key b) (redis s)).
    assert ((pre ++ b :: rest) !! Z.to_nat (Z.of_nat (S (length pre)) - 1) = Some b) as Hlook.
    { replace (Z.to_nat (Z.of_nat (S (length pre)) - 1)) with (length pre) by lia.
      by apply list_lookup_middle. }
    assert (Z.to_nat (Z.of_nat (S (length pre)) - 1) = length pre) as Hidx by lia.
    destruct (Z.ltb_spec ttl 1) as [H1|H1].
    + run_commands. destruct (Z.ltb_spec ttl 0) as [H0|H0]; cbn [fst snd].
      * unfold read_reply. rewrite Hlook, Hidx. cbn [Z.eqb]. split; [|done].
        fold (window b). by destruct (window b <? 1).
      * unfold read_reply. rewrite Hlook, Hidx. cbn [Z.eqb].
        rewrite (proj2 (Z.ltb_lt ttl 1)) by lia. split; [done|].
        intros Hz. destruct (Hz b); [by left|]. unfold ttl in *. lia.
    + rewrite (proj2 (Z.ltb_ge ttl 0)) by lia. cbn [fst snd]. unfold read_reply.
      rewrite Hidx, (proj2 (Z.ltb_ge ttl 1)) by lia. cbn [Z.eqb]. by rewrite set_redis_same.
  - specialize (IH (pre ++ [b]) s Hs). rewrite length_app, <- app_assoc in IH. cbn [app length] in IH.
    rewrite Nat.add_comm in IH. cbn [Nat.add] in IH.
    destruct (first_blocked (S (length pre)) rest s) as [[[res|]|e] s'];
      destruct (blocked_in (S (S (length pre))) rest (redis s)) as [[reply|] r']; try done.
    destruct IH as [Hread Hst]. split; [done|]. intros Hz. apply Hst. intros. apply Hz. by right.
Qed.

(** Away from its last millisecond a key is hit alike. *)
Lemma hit_fallback_script b r :
  fits b -> hits (key b) r < limit b -> PTTL (key b) r <> 0 -> hit_fallback b r = hit_script b r.
Proof.
  intros [Hl _] Hr Hz. unfold hit_fallback, hit_script.
  assert (default 0 (GET (key b) r) < 2 ^ 63 - 1) as Hmax by (rewrite hits_get; lia).
  pose proof (incr_counter (key b) r (key b) Hmax) as Hkb.
  destruct (INCR (key b) r) as [n r1]. cbn [fst snd] in Hkb. rewrite decide_True in Hkb by done.
  assert (PTTL (key b) r1 <> 0) as Hz1.
  { rewrite pttl_reply in Hz |- *. rewrite Hkb.
    by destruct (counter_at (key b) r) as [[m [t|]]|]. }
  replace (PTTL (key b) r1 <? 1) with (PTTL (key b) r1 <? 0) by lia. done.
Qed.

Lemma hit_all_fallback buckets : forall r,
  group buckets -> Forall (fun b => hits (key b) r < limit b) buckets ->
  (forall b, b ∈ buckets -> PTTL (key b) r <> 0) ->
  fold_left (fun r b => hit_fallback b r) buckets r = hit_all buckets r.
Proof.
  induction buckets as [|b rest IH]; intros r [Hf Hk] Hall Hz; [done|].
  rewrite fmap_cons in Hk. apply NoDup_cons in Hk as [Hnew Hk].
  apply Forall_cons in Hf as [Hb Hf]. apply Forall_cons in Hall as [Hroom Hall].
  unfold hit_all. cbn [fold_left]. rewrite hit_fallback_script; [|done..|apply Hz; by left].
  assert (forall b', b' ∈ rest ->
    counter_at (key b') (hit_script b r) = counter_at (key b') r) as Hother.
  { intros b' Hin. rewrite hit_script_counter, decide_False; [done| |done..].
    intros Heq. apply Hnew. rewrite <- Heq. by apply list_elem_of_fmap_2. }
  apply IH; [done| |].
  - apply Forall_forall. intros b' Hb'. unfold hits. rewrite Hother by done.
    rewrite Forall_forall in Hall. by apply Hall.
  - intros b' Hb'. rewrite pttl_reply, Hother, <- pttl_reply by done. apply Hz. by right.
Qed.

(** C20. The fallback for Redis Cluster, when nothing disturbs it, gives the answer the script
    gives; and unless a key is in its last millisecond, where the fallback starts a new
    window, it leaves Redis as the script does. *)
Theorem fallback_agrees_with_script buckets s :
  group buckets -> undisturbed s ->
  (compatibility_consume_grouped_buckets_with_same_keys buckets s).1
  = (atomic_consume_grouped_buckets buckets s).1 /\
  ((forall b, b ∈ buckets -> PTTL (key b) (redis s) <> 0) ->
   compatibility_consume_grouped_buckets_with_same_keys buckets s
   = atomic_consume_grouped_buckets buckets s).
Proof.
  intros Hg Hs. rewrite (atomic_consume_run buckets s s) by (unfold next_turn; by rewrite Hs).
  unfold serve_group. rewrite script_buckets.
  unfold compatibility_consume_grouped_buckets_with_same_keys, mbind, RL_bind, mret, RL_ret.
  pose proof (first_blocked_undisturbed buckets [] s Hs) as Hb. cbn [length app] in Hb.
  pose proof (blocked_in_spec buckets 1 (redis s)) as Hroom.
  destruct (first_blocked 0 buckets s) as [[[res|]|e] s'];
    destruct (blocked_in 1 buckets (redis s)) as [[reply|] r']; try done.
  - destruct Hb as [Hread Hst]. rewrite Hread. split; [done|]. intros Hz. by rewrite Hst.
  - destruct Hb as [-> ->]. destruct Hroom as [_ Hroom].
    rewrite increment_buckets_undisturbed by done. split; [done|]. intros Hz.
    by rewrite hit_all_fallback.
Qed.
End Grouped.

(** ** The checks of a request *)

Import Checks Identifiers.

Section Checks.
Context {Items : RateLimitItems} {RedisServer : Redis} {Strategy : Limiter}.
Context `{Env} `{Network} `{IpNetworks}.

Lemma rl_bind_returned {A B} (m : RL A) (f : A -> RL B) s b s' :
  (m ≫= f) s = (Returned b, s') ->
  exists a s1, m s = (Returned a, s1) /\ f a s1 = (Returned b, s').
Proof. unfold mbind, RL_bind. destruct (m s) as [[a|e] s1]; [by eauto|done]. Qed.

(** Recording an outcome touches the metrics alone. *)
Lemma record_outcome_run name result kind s :
  exists m, _record_rate_limit_outcome name result kind s = (Returned tt, set_metrics m s).
Proof. eexists. reflexivity. Qed.

Lemma backend_error_closed policy identifier exc s s' :
  RateLimitPolicy.fail_open policy = false ->
  _handle_rate_limit_backend_error policy identifier exc s <> (Returned tt, s').
Proof.
  intros Hc Hr. unfold _handle_rate_limit_backend_error in Hr. rewrite Hc in Hr.
  apply rl_bind_returned in Hr as (? & ? & _ & Hr). by apply rl_bind_returned in Hr as (? & ? & _ & ?).
Qed.

Lemma raise_too_many_requests_raises req policy namespace identifier s s' :
  _raise_too_many_requests req policy namespace identifier s <> (Returned tt, s').
Proof. intros Hr. by apply rl_bind_returned in Hr as (? & ? & _ & ?). Qed.

(** The hit a check makes. *)
Definition hit_call (req : Req) (p : RateLimitPolicy.t) (i : RateLimitIdentifier.t) : RL bool :=
  limiter_call (hit (RateLimitPolicy.item p)
    (_rate_limit_namespace (RateLimitingSettings.redis_prefix (settings_of req)) p i)
    (RateLimitIdentifier.bucket_key i)).

(** Nothing but the metrics and the clock differs. *)
Definition same_store (s s' : Limits) : Prop :=
  redis s = redis s' /\ limiter s = limiter s' /\ turns s = turns s'.

Lemma set_metrics_store m s : same_store (set_metrics m s) s.
Proof. by repeat split. Qed.

(** A check under a fail-closed policy that lets the request through has counted a hit the
    limiter allowed, and that hit is all it changed. *)
Lemma check_identifier_counted req p i s s' :
  RateLimitPolicy.fail_open p = false ->
  _check_rate_limit_for_identifier req p i s = (Returned tt, s') ->
  exists s1, hit_call req p i s = (Returned true, s1) /\ same_store s' s1.
Proof.
  intros Hc Hr. unfold _check_rate_limit_for_identifier in Hr.
  destruct (no_limiter req); [by apply rl_bind_returned in Hr as (? & ? & _ & ?)|].
  unfold rl_try_else in Hr. fold (hit_call req p i) in Hr.
  destruct (hit_call req p i s) as [[[|]|e] s1].
  - exists s1. split; [done|].
    destruct (record_outcome_run (RateLimitPolicy.name p) "allowed" (RateLimitIdentifier.kind i) s1)
      as [m Hm].
    rewrite Hm in Hr. injection Hr as <-. apply set_metrics_store.
  - apply rl_bind_returned in Hr as (? & ? & _ & Hr). by apply raise_too_many_requests_raises in Hr.
  - destruct (isinstance e _RATE_LIMIT_BACKEND_ERRORS); [|done]. by apply backend_error_closed in Hr.
Qed.

Lemma record_all_run (prepared : list _PreparedRateLimitCheck) : forall s,
  exists m, rl_each prepared (fun c =>
    _record_rate_limit_outcome (RateLimitPolicy.name (policy c)) "allowed"
      (RateLimitIdentifier.kind (identifier c))) s = (Returned tt, set_metrics m s).
Proof.
  induction prepared as [|c prepared IH]; intros s; [exists (metrics s); by destruct s|].
  cbn [rl_each]. unfold mbind, RL_bind.
  destruct (record_outcome_run (RateLimitPolicy.name (policy c)) "allowed"
              (RateLimitIdentifier.kind (identifier c)) s) as [m ->].
  destruct (IH (set_metrics m s)) as [m' ->]. by exists m'.
Qed.

Lemma strictest_closed first rest :
  Exists (fun c => RateLimitPolicy.fail_open (policy c) = false) (first :: rest) ->
  RateLimitPolicy.fail_open (policy (_strictest_prepared_check first rest)) = false.
Proof.
  unfold _strictest_prepared_check. generalize (first :: rest). intros l Hl.
  induction Hl as [c l Hc|c l _ IH]; cbn [first_fail_closed].
  - by rewrite Hc.
  - by destruct (RateLimitPolicy.fail_open (policy c)) eqn:Hc.
Qed.

Lemma grouped_result_returned prepared result s s' :
  _handle_grouped_redis_result prepared result s = (Returned tt, s') ->
  GroupedConsumeResult.allowed result = true /\ same_store s' s.
Proof.
  unfold _handle_grouped_redis_result. destruct (GroupedConsumeResult.allowed result).
  - intros Hr. split; [done|]. destruct (record_all_run prepared s) as [m Hm].
    rewrite Hm in Hr. injection Hr as <-. apply set_metrics_store.
  - destruct (prepared !! _); [|done]. intros Hr. by apply rl_bind_returned in Hr as (? & ? & _ & ?).
Qed.

(** Checks one after the other, every closed one a hit the limiter allowed. *)
Inductive hits_counted (req : Req) : list _PreparedRateLimitCheck -> Limits -> Limits -> Prop :=
  | hits_counted_nil s : hits_counted req [] s s
  | hits_counted_cons c rest s s1 s' :
      (RateLimitPolicy.fail_open (policy c) = false ->
       exists s2, hit_call req (policy c) (identifier c) s = (Returned true, s2) /\
                  same_store s1 s2) ->
      hits_counted req rest s1 s' -> hits_counted req (c :: rest) s s'.

Lemma checks_counted req prepared : forall s s',
  rl_each prepared (fun c => _check_rate_limit_for_identifier req (policy c) (identifier c)) s
  = (Returned tt, s') ->
  hits_counted req prepared s s'.
Proof.
  induction prepared as [|c rest IH]; intros s s' Hr; [injection Hr as <-; constructor|].
  apply rl_bind_returned in Hr as ([] & s1 & Hc & Hr). econstructor; [|by apply IH].
  intros Hclosed. by apply check_identifier_counted.
Qed.

(** The outcome of a test made before a group is counted is not one the metrics know: it is
    dropped, and twice counted as a recording failure. *)
Theorem preflight_outcomes_unrecorded name kind (allowed : bool) s :
  let result := if allowed then "preflight_allowed"%string else "preflight_blocked"%string in
  let m := metrics (_record_rate_limit_outcome name result kind s).2 in
  Metrics.rate_limit_requests_total m = Metrics.rate_limit_requests_total (metrics s) /\
  Metrics.rate_limit_check_duration m = Metrics.rate_limit_check_duration (metrics s) /\
  Metrics.recording_failures_total m
  = ["rate_limit_check_duration"; "rate_limit_decision"]%string
    ++ Metrics.recording_failures_total (metrics s).
Proof. destruct allowed; by split_and!. Qed.

(** From the prepared checks in [s] to [s'] somebody counted the request: the script granted
    the group; or the cluster refused the script and the fallback granted it; or, without a
    client for the script, the limiter allowed the hit of every closed check after all were
    tested. *)
Inductive counted (req : Req) (prepared : list _PreparedRateLimitCheck) (s s' : Limits) : Prop :=
  | counted_by_script result s1 :
      atomic_consume_grouped_buckets (bucket_spec <$> prepared) s = (Returned result, s1) ->
      GroupedConsumeResult.allowed result = true -> same_store s' s1 ->
      counted req prepared s s'
  | counted_by_fallback exc s1 s2 result s3 :
      atomic_consume_grouped_buckets (bucket_spec <$> prepared) s = (Raised exc, s1) ->
      is_redis_cluster_fallback_error exc = true -> same_store s2 s1 ->
      compatibility_consume_grouped_buckets_with_same_keys (bucket_spec <$> prepared) s2
      = (Returned result, s3) ->
      GroupedConsumeResult.allowed result = true -> same_store s' s3 ->
      counted req prepared s s'
  | counted_by_limiter s1 :
      _grouped_redis_client_from_runtime (AppState.rate_limiter_runtime (app req)) = false ->
      rl_each prepared (_test_rate_limit_for_identifier req) s = (Returned tt, s1) ->
      hits_counted req prepared s1 s' ->
      counted req prepared s s'.

(** C19. When a group of checks holds a policy that fails closed, the request passes only if
    it was counted: no failure of Redis - an error, a timeout, a redirection of the cluster,
    at the script or at any command of its fallback - lets it through. *)
Theorem closed_checks_admit_only_counted req checks s s0 s' prepared :
  RateLimitingSettings.enabled (settings_of req) = true ->
  prepare_all req checks s = (Returned prepared, s0) ->
  Exists (fun c => RateLimitPolicy.fail_open (policy c) = false) prepared ->
  check_rate_limits_for_buckets req checks s = (Returned tt, s') ->
  counted req prepared s0 s'.
Proof.
  intros Hen Hp Hex Hr. unfold check_rate_limits_for_buckets in Hr. rewrite Hen in Hr.
  apply rl_bind_returned in Hr as (prepared' & s1 & Hp' & Hr).
  rewrite Hp in Hp'. injection Hp' as <- <-.
  destruct prepared as [|first rest]; [by apply Exists_nil in Hex|].
  destruct (_grouped_redis_client_from_runtime (AppState.rate_limiter_runtime (app req))) eqn:Hclient.
  - unfold rl_try_else in Hr. pose proof (strictest_closed first rest Hex) as Hclosed.
    destruct (atomic_consume_grouped_buckets _ s0) as [[result|exc] s1] eqn:Ha.
    + destruct (grouped_result_returned _ _ _ _ Hr). by eapply counted_by_script.
    + unfold handle_script_error in Hr. destruct (is_redis_cluster_fallback_error exc) eqn:Hcl.
      * apply rl_bind_returned in Hr as ([] & s2 & Hrec & Hr). unfold rl_try_else in Hr.
        destruct (compatibility_consume_grouped_buckets_with_same_keys _ s2)
          as [[result|exc'] s3] eqn:Hf.
        -- destruct (grouped_result_returned _ _ _ _ Hr).
           eapply counted_by_fallback; [done|done| |done|done|done].
           injection Hrec as <-. apply set_metrics_store.
        -- destruct (isinstance exc' _RATE_LIMIT_BACKEND_ERRORS); [|done].
           by apply backend_error_closed in Hr.
      * destruct (isinstance exc _RATE_LIMIT_BACKEND_ERRORS); [|done].
        by apply backend_error_closed in Hr.
  - apply rl_bind_returned in Hr as ([] & s1 & Ht & Hr).
    eapply counted_by_limiter; [done|done|by apply checks_counted].
Qed.
End Checks.

(** ** The quotas of an invite *)

Import BusinessLimits Policies.

Section Quotas.
Context {Items : RateLimitItems} {RedisServer : Redis} {Strategy : Limiter}.
Context {ItemLaws : RateLimitItemLaws} {Laws : RedisLaws}.
Context `{Env} `{Network} `{IpNetworks} `{Crypto}.

(** An application started with these settings, its limiter on and able to run the script. *)
Record started (settings : PolicySettings) (req : Req) (secret : string) : Prop := mkStarted {
  started_validated : validated settings;
  started_limits : forall n o l, policies settings !! n = Some o ->
    RateLimitPolicyOverride.limit o = Some l -> l <= 2 ^ 53;
  started_known : overrides_known settings;
  started_registry : exists registry,
    PolicyRegistry.build_effective_policy_registry settings = Ok registry /\
    AppState.rate_limit_policy_registry (app req) = Some registry;
  started_enabled : RateLimitingSettings.enabled (settings_of req) = true;
  started_secret : RateLimitingSettings.identifier_secret (settings_of req) = Some secret;
}.

(** What a check prepares. *)
Definition prepared_check (req : Req) (p : RateLimitPolicy.t) (bucket : RateLimitBucket.t)
    (secret : string) : _PreparedRateLimitCheck :=
  mkPrepared p (build_bucket_identifier bucket secret)
    (_rate_limit_namespace (RateLimitingSettings.redis_prefix (settings_of req)) p
       (build_bucket_identifier bucket secret)).

Lemma started_policy settings req secret spec :
  started settings req secret -> spec ∈ PolicyRegistry._REGISTERED_POLICY_SPECS ->
  exists p, RateLimitPolicy.name p = RateLimitPolicySpec.name spec /\
    0 < amount (RateLimitPolicy.item p) <= 2 ^ 53 /\
    0 < get_expiry (RateLimitPolicy.item p) /\
    forall bucket s, _prepare_bucket_rate_limit_check req bucket (inr spec) s
                     = (Returned (prepared_check req p bucket secret), s).
Proof.
  intros [Hv Hl Hknown (registry & Hbuild & Happ) _ Hsecret] Hs.
  destruct (effective_registry_built settings Hv Hknown) as (registry' & Hbuild' & _ & Hin).
  rewrite Hbuild in Hbuild'. injection Hbuild' as <-.
  destruct (Hin spec Hs) as (p & Hp & Hn & Ha & Hw & _). exists p.
  pose proof (enforced_limit_positive settings spec Hv Hs).
  pose proof (enforced_window_supported settings spec Hv Hs) as Hsup.
  split_and!; [done|lia| | |].
  - rewrite Ha. unfold enforced_limit in *. pose proof (mode_limit_small settings spec Hs).
    unfold override_of in *.
    destruct (policies settings !! spec_name spec) as [o|] eqn:Ho; cbn in *; [|lia].
    specialize (Hl _ _ (default 0 (RateLimitPolicyOverride.limit o)) Ho).
    destruct (RateLimitPolicyOverride.limit o); cbn in *; [by apply Hl|lia].
  - rewrite Hw. rewrite !elem_of_cons, elem_of_nil in Hsup. lia.
  - intros bucket s. unfold _prepare_bucket_rate_limit_check, _effective_policy,
      get_effective_rate_limit_policy, _identifier_secret_or_error, mbind, RL_bind.
    by rewrite Happ, Hp, Hsecret.
Qed.

(** Buckets under policies of different names have different keys, when neither name and kind
    is a prefix of the other's. *)
Definition spec_of (req : Req) p bucket secret : GroupedBucketSpec.t :=
  bucket_spec (prepared_check req p bucket secret).

Lemma spec_key req p kind raw secret :
  GroupedBucketSpec.key (spec_of req p (RateLimitBucket.mk kind raw) secret)
  = (GROUPED_REDIS_HASH_TAG ++ ":" ++ RateLimitingSettings.redis_prefix (settings_of req) ++ ":"
     ++ RateLimitPolicy.name p ++ ":" ++ kind ++ ":"
     ++ _build_bucket_key (kind ++ ":" ++ raw) secret)%string.
Proof.
  unfold spec_of, bucket_spec, prepared_check, build_grouped_redis_key, _rate_limit_namespace. cbn.
  by rewrite !Text.append_assoc.
Qed.

(** The key a declared policy counts a bucket under. *)
Definition quota_key (req : Req) (secret : string)
    (check : RateLimitPolicySpec.t * RateLimitBucket.t) : string :=
  let '(spec, RateLimitBucket.mk kind raw) := check in
  (GROUPED_REDIS_HASH_TAG ++ ":" ++ RateLimitingSettings.redis_prefix (settings_of req) ++ ":"
   ++ RateLimitPolicySpec.name spec ++ ":" ++ kind ++ ":"
   ++ _build_bucket_key (kind ++ ":" ++ raw) secret)%string.

Definition to_check (check : RateLimitPolicySpec.t * RateLimitBucket.t)
    : policy_arg * RateLimitBucket.t := (inr check.1, check.2).

Lemma prepare_started settings req secret checks s :
  started settings req secret ->
  Forall (fun c => c.1 ∈ PolicyRegistry._REGISTERED_POLICY_SPECS) checks ->
  exists prepared, prepare_all req (to_check <$> checks) s = (Returned prepared, s) /\
    length prepared = length checks /\
    Forall fits (bucket_spec <$> prepared) /\
    GroupedBucketSpec.key <$> (bucket_spec <$> prepared) = quota_key req secret <$> checks.
Proof.
  intros Hst. induction 1 as [|[spec [kind raw]] checks Hs _ IH].
  { exists []. by repeat split. }
  destruct IH as (prepared & Hp & Hlen & Hfits & Hkeys).
  destruct (started_policy settings req secret spec Hst Hs) as (p & Hn & Ha & He & Hprep).
  exists (prepared_check req p (RateLimitBucket.mk kind raw) secret :: prepared).
  rewrite !fmap_cons. cbn [prepare_all to_check fst snd].
  unfold mbind, RL_bind in *. rewrite Hprep, Hp. split_and!; [done|cbn; by f_equal| |].
  - constructor; [by split|done].
  - rewrite Hkeys. f_equal.
    fold (spec_of req p (RateLimitBucket.mk kind raw) secret).
    rewrite spec_key, Hn. reflexivity.
Qed.

(** A group of declared quotas under different keys is counted in full or not at all. *)
Lemma quotas_all_or_nothing settings req secret checks s s1 :
  started settings req secret ->
  _grouped_redis_client_from_runtime (AppState.rate_limiter_runtime (app req)) = true ->
  Forall (fun c => c.1 ∈ PolicyRegistry._REGISTERED_POLICY_SPECS) checks -> checks <> [] ->
  NoDup (quota_key req secret <$> checks) ->
  next_turn s = (None, s1) ->
  exists o s', check_rate_limits_for_buckets req (to_check <$> checks) s = (o, s') /\
    ((o = Returned tt /\
      forall k, hits k (redis s') = hits k (redis s1)
                + (if bool_decide (k ∈ quota_key req secret <$> checks) then 1 else 0)) \/
     (exists t, 1 <= t /\ o = Raised (TooManyRequestsError (pretty t)) /\
      forall k, hits k (redis s') = hits k (redis s1))).
Proof.
  intros Hst Hclient Hreg Hne Hnd Hs.
  destruct (prepare_started settings req secret checks s Hst Hreg) as (prepared & Hp & Hlen & Hfits & Hkeys).
  unfold check_rate_limits_for_buckets. rewrite (started_enabled _ _ _ Hst). cbn [negb].
  unfold mbind at 1, RL_bind at 1. rewrite Hp, Hclient.
  destruct prepared as [|first rest]; [by destruct checks|].
  assert (group (bucket_spec <$> (first :: rest))) as Hg by (split; [done|by rewrite Hkeys]).
  unfold rl_try_else. rewrite (atomic_consume_run _ _ _ Hs).
  destruct (serve_group_spec _ (redis s1) Hg) as (res & r' & -> & Hc).
  destruct (consumes_effect _ _ _ _ Hc) as (Hhits & _ & Hres). rewrite Hkeys in Hhits.
  unfold _handle_grouped_redis_result. destruct (GroupedConsumeResult.allowed res) eqn:Hallowed.
  - destruct (record_all_run (first :: rest) (set_redis r' s1)) as [m ->].
    eexists _, _. split; [done|]. left. split; [done|exact Hhits].
  - destruct Hres as (i & b & t & Hi & _ & Ht & ->). cbn [default GroupedConsumeResult.blocked_index].
    apply list_lookup_fmap_Some in Hi as (c & -> & Hc'). cbn [default option_map] in *.
    destruct (record_outcome_run (RateLimitPolicy.name (policy c)) "blocked"
                (RateLimitIdentifier.kind (identifier c)) (set_redis r' s1)) as [m Hm].
    eexists _, _. split.
    + unfold default, id. cbn. rewrite Hc'. unfold mbind, RL_bind. by rewrite Hm.
    + right. exists t. split_and!; [done| |].
      * by rewrite (proj2 (Z.eqb_neq t 0)) by lia.
      * intros k. rewrite <- (Z.add_0_r (hits k (redis s1))). exact (Hhits k).
Qed.

Ltac distinct_keys :=
  match goal with
  | |- _ <> _ =>
      let E := fresh in
      intros E; do 4 apply (inj (String.append _)) in E; lazy [String.append append] in E; discriminate
  end.

(** The quotas of an invitation: [invite_create_checks], as declared. *)
Definition invite_create_quotas (organisation_id : UUID) (email domain : string)
    : list (RateLimitPolicySpec.t * RateLimitBucket.t) :=
  [(INVITE_CREATE_ORGANISATION_POLICY,
    RateLimitBucket.mk "organisation" (organisation_raw organisation_id));
   (INVITE_CREATE_ORGANISATION_DAILY_POLICY,
    RateLimitBucket.mk "organisation" (organisation_raw organisation_id));
   (INVITE_CREATE_TARGET_EMAIL_POLICY,
    RateLimitBucket.mk "organisation_target_email"
      (organisation_raw organisation_id ++ ":email:" ++ email)%string);
   (INVITE_CREATE_TARGET_DOMAIN_POLICY,
    RateLimitBucket.mk "organisation_target_domain"
      (organisation_raw organisation_id ++ ":domain:" ++ domain)%string)].

Lemma invite_create_keys_distinct req secret organisation_id email domain :
  NoDup (quota_key req secret <$> invite_create_quotas organisation_id email domain).
Proof.
  unfold invite_create_quotas. rewrite !fmap_cons, fmap_nil. cbn [quota_key].
  repeat (apply NoDup_cons; split;
          [rewrite ?not_elem_of_cons; split_and?; try apply not_elem_of_nil; distinct_keys|]).
  apply NoDup_nil_2.
Qed.

(** C21. Once the limiter has started and while Redis answers its scripts - the runtime has a
    client that runs the grouped script, and this call of it does not fail - inviting an
    address that has a domain counts four quotas, the organisation's by the hour and by the
    day, the address's and its domain's, in one step: either all of them had room and each
    counts the invitation once, or the request is refused with 429 and a positive Retry-After
    and none of them counts it. (Without such a client the quotas are counted one after
    another, and when Redis fails the check fails closed; neither is claimed to be all or
    nothing.) *)
Theorem invite_quotas_all_or_nothing settings req secret organisation_id email domain s s1 :
  started settings req secret ->
  _grouped_redis_client_from_runtime (AppState.rate_limiter_runtime (app req)) = true ->
  _domain_from_email (_normalised_email email) = Some domain ->
  next_turn s = (None, s1) ->
  let quotas := invite_create_quotas organisation_id (_normalised_email email) domain in
  let keys := quota_key req secret <$> quotas in
  NoDup keys /\
  exists o s',
    check_authorized_invite_create_business_rate_limits req organisation_id email s = (o, s') /\
    ((o = Returned tt /\
      forall k, hits k (redis s') = hits k (redis s1) + (if bool_decide (k ∈ keys) then 1 else 0)) \/
     (exists t, 1 <= t /\ o = Raised (TooManyRequestsError (pretty t)) /\
      forall k, hits k (redis s') = hits k (redis s1))).
Proof.
  intros Hst Hclient Hdomain Hs quotas keys.
  assert (NoDup keys) as Hnd by apply invite_create_keys_distinct. split; [done|].
  unfold check_authorized_invite_create_business_rate_limits. rewrite Hdomain.
  change (invite_create_checks organisation_id (_normalised_email email) domain)
    with (to_check <$> quotas).
  eapply quotas_all_or_nothing; [done..| |done|done|done].
  repeat constructor; apply (bool_decide_unpack _); vm_compute; exact I.
Qed.
End Quotas.

(** ** Witnesses *)
Module Witness.
Import RateLimitFixtures.

(** Two buckets, the first with room for two hits in a minute. *)
Definition minute : GroupedBucketSpec.t := GroupedBucketSpec.mk "minute" 2 60.
Definition daily : GroupedBucketSpec.t := GroupedBucketSpec.mk "day" 5 86400.

Lemma both_group : group [minute; daily].
Proof.
  split; [repeat constructor; done|]. apply (bool_decide_unpack _). vm_compute. exact I.
Qed.

(** A server where the minute is used up. *)
Definition used_up : Limits :=
  set_redis ({["minute"%string := (2, Some 40000%N)]} : store) quiet.

Lemma grouped_consume_spec_witness :
  next_turn used_up = (None, used_up) /\
  exists res r',
    atomic_consume_grouped_buckets [minute; daily] used_up = (Returned res, set_redis r' used_up) /\
    res = GroupedConsumeResult.mk false (Some 0%nat) (Some 40) /\
    (forall k, hits k r' = hits k (redis used_up)).
Proof.
  split; [reflexivity|].
  destruct (grouped_consume_spec [minute; daily] used_up used_up both_group eq_refl)
    as (res & r' & Hrun & _ & Hhits & _ & _).
  exists res, r'. split; [exact Hrun|].
  assert (res = GroupedConsumeResult.mk false (Some 0%nat) (Some 40)) as ->.
  { assert ((atomic_consume_grouped_buckets [minute; daily] used_up).1
            = Returned (GroupedConsumeResult.mk false (Some 0%nat) (Some 40)))
      as Hc by (vm_compute; reflexivity).
    rewrite Hrun in Hc. cbn [fst] in Hc. injection Hc as ->. reflexivity. }
  split; [reflexivity|]. intros k. rewrite Hhits. cbn. apply Z.add_0_r.
Defined.

(** Three requests, half a minute, two more: two are admitted. *)
Definition busy_minute : list event :=
  [Consume [minute; daily]; Consume [minute; daily]; Consume [minute; daily];
   Elapse 30000; Consume [minute; daily]; Consume [minute; daily]].

Lemma busy_minute_steady : Forall (steady "minute" minute) busy_minute.
Proof.
  assert (steady "minute" minute (Consume [minute; daily])) as Hs.
  { split; [exact both_group|]. intros b Hb Hk.
    apply elem_of_cons in Hb as [->|Hb]; [by split|].
    apply list_elem_of_singleton in Hb as ->. discriminate Hk. }
  repeat (constructor; [done|]). constructor.
Qed.

Lemma admissions_bounded_witness :
  admitted "minute" busy_minute (∅ : store) = 2 /\
  admitted "minute" busy_minute (∅ : store) <= GroupedBucketSpec.limit minute.
Proof.
  split; [vm_compute; reflexivity|].
  refine (proj1 (admissions_bounded "minute" minute busy_minute (∅ : store) _ busy_minute_steady _) _).
  - split; done.
  - vm_compute. reflexivity.
  - vm_compute. reflexivity.
Defined.

Lemma fallback_agrees_with_script_witness :
  compatibility_consume_grouped_buckets_with_same_keys [minute; daily] used_up
  = atomic_consume_grouped_buckets [minute; daily] used_up.
Proof.
  apply (fallback_agrees_with_script [minute; daily] used_up both_group eq_refl).
  intros b Hb. apply elem_of_cons in Hb as [->|Hb]; [vm_compute; discriminate|].
  apply list_elem_of_singleton in Hb as ->. vm_compute. discriminate.
Defined.

(** Two clients whose fallbacks interleave - each reads before the other writes - are both
    admitted by a bucket with room for one, as the source warns; the script admits one. *)
Definition last_one : GroupedBucketSpec.t := GroupedBucketSpec.mk "one" 1 60.

Definition other_client_admitted (r : store) : store :=
  redis (compatibility_consume_grouped_buckets_with_same_keys [last_one] (set_redis r quiet)).2.

Definition interleaved : Limits :=
  mkLimits (∅ : store) (∅ : gmap string Z)
    [mkTurn id id None; mkTurn (Strategy := strategy) other_client_admitted id None] 0 no_metrics.

Example fallback_is_not_atomic :
  let run := compatibility_consume_grouped_buckets_with_same_keys [last_one] interleaved in
  run.1 = Returned consumed /\
  bool_decide (GET "one" (redis run.2) = Some 2) = true.
Proof. split; vm_compute; reflexivity. Qed.

(** *** The checks *)

Definition organisation : UUID := 7%N.

Lemma overrides_declared : overrides_known policy_settings.
Proof.
  intros n [o Ho]. unfold policy_settings in Ho. cbn in Ho.
  apply lookup_singleton_Some in Ho as [<- _]. apply (bool_decide_unpack _). vm_compute. exact I.
Qed.

Lemma app_started grouped : started policy_settings (req grouped) "secret".
Proof.
  split.
  - exact RateLimitPolicyProofs.Witness.settings_validated.
  - intros n o l Ho Hl. unfold policy_settings in Ho. cbn in Ho.
    apply lookup_singleton_Some in Ho as [_ <-]. cbn in Hl. injection Hl as <-. done.
  - exact overrides_declared.
  - destruct (effective_registry_built policy_settings
                RateLimitPolicyProofs.Witness.settings_validated overrides_declared)
      as (r & Hb & _).
    exists r. split; [exact Hb|]. cbn [app req AppState.rate_limit_policy_registry started_app].
    unfold registry. by rewrite Hb.
  - reflexivity.
  - reflexivity.
Qed.

Lemma invite_quotas_all_or_nothing_witness :
  exists o s',
    check_authorized_invite_create_business_rate_limits (req true) organisation " New@Example.org " quiet
    = (o, s') /\
    o = Returned tt /\
    forall k, hits k (redis s') = 0 + (if bool_decide
      (k ∈ quota_key (req true) "secret"
           <$> invite_create_quotas organisation "new@example.org" "example.org") then 1 else 0).
Proof.
  destruct (invite_quotas_all_or_nothing policy_settings (req true) "secret" organisation
              " New@Example.org " "example.org" quiet quiet (app_started true) eq_refl eq_refl eq_refl)
    as (_ & o & s' & Hrun & Hcase).
  exists o, s'. split; [exact Hrun|].
  assert ((check_authorized_invite_create_business_rate_limits (req true) organisation
             " New@Example.org " quiet).1 = Returned tt) as Hc by (vm_compute; reflexivity).
  rewrite Hrun in Hc. cbn [fst] in Hc. subst o.
  destruct Hcase as [[_ Hk]|(t & _ & Hbad & _)]; [|discriminate Hbad].
  split; [reflexivity|exact Hk].
Defined.

(** The cluster redirects the script; the fallback counts the invitation. *)
Definition redirected : Limits :=
  mkLimits (∅ : store) (∅ : gmap string Z) [failing moved] 0 no_metrics.

Definition invite_checks : list (policy_arg * RateLimitBucket.t) :=
  invite_create_checks organisation "new@example.org" "example.org".

Definition is_returned {A} (o : outcome A) : bool :=
  match o with Returned _ => true | Raised _ => false end.

Lemma closed_checks_admit_only_counted_witness :
  exists prepared s0 s',
    check_rate_limits_for_buckets (req true) invite_checks redirected = (Returned tt, s') /\
    counted (req true) prepared s0 s'.
Proof.
  destruct (prepare_all (req true) invite_checks redirected) as [[prepared|e] s0] eqn:Hp;
    [|exfalso; assert (is_returned (prepare_all (req true) invite_checks redirected).1 = true)
        as Hok by (vm_compute; reflexivity); rewrite Hp in Hok; discriminate Hok].
  destruct (check_rate_limits_for_buckets (req true) invite_checks redirected) as [[[]|e] s'] eqn:Hr;
    [|exfalso; assert (is_returned (check_rate_limits_for_buckets (req true) invite_checks redirected).1
        = true) as Hok by (vm_compute; reflexivity); rewrite Hr in Hok; discriminate Hok].
  exists prepared, s0, s'. split; [reflexivity|].
  refine (closed_checks_admit_only_counted (req true) invite_checks redirected s0 s' prepared
            eq_refl Hp _ Hr).
  assert (match (prepare_all (req true) invite_checks redirected).1 with
          | Returned prepared =>
              existsb (fun c => negb (RateLimitPolicy.fail_open (policy c))) prepared
          | Raised _ => false
          end = true) as Hex by (vm_compute; reflexivity).
  rewrite Hp in Hex. cbn [fst] in Hex. apply existsb_exists in Hex as (c & Hin & Hc).
  apply Exists_exists. exists c. split; [by apply list_elem_of_In|by apply negb_true_iff].
Defined.
End Witness.
