(* ===== verification/RateLimitIngressProofs.v ===== *)
(** The ingress middleware: which requests reach the application when the edge must sign
    them and the limiter must have seen them. *)
From S2P Require Import Prelude Errors Session Tables AuditLog Users Requests RateLimitPolicies.
From S2P Require Import RateLimits RateLimitIngress RateLimitFixtures RateLimitPolicyProofs.
From S2P Require Import RateLimitProofs.

Import Ingress Checks Identifiers.

Section Ingress.
Context {Items : RateLimitItems} {RedisServer : Redis} {Strategy : Limiter}.
Context `{Env} `{Network} `{IpNetworks}.
Implicit Types (req : Req) (scope : Scope.t).

(** An assertion the edge made for this request, not more than five minutes ago and not more
    than one minute ahead, under the secret the two share. *)
Definition signed_for req scope (now : Z) : Prop :=
  is_request_from_trusted_proxy (request req)
    (RateLimitingSettings.trusted_proxy_cidrs (settings_of req)) = true /\
  exists header_name secret value assertion,
    RateLimitingSettings.edge_assertion_header_name (settings_of req) = Some header_name /\
    RateLimitingSettings.edge_assertion_secret (settings_of req) = Some secret /\
    Scope.header scope header_name = Some value /\
    _parse_edge_assertion_header value = Ok (Some assertion) /\
    now - 300 <= timestamp assertion <= now + 60 /\
    signature assertion
    = hmac_sha256_hexdigest secret
        (edge_assertion_message (timestamp assertion) (Scope.method scope)
           (_canonical_request_target scope)).

Lemma valid_assertion_signed req scope s s' :
  _has_valid_edge_assertion req scope s = (Returned true, s') ->
  signed_for req scope (clock (drawn s) / seconds 1).
Proof.
  unfold _has_valid_edge_assertion, signed_for. intros Hr.
  destruct (is_request_from_trusted_proxy _ _); [cbn [negb] in Hr|done]. split; [done|].
  destruct (RateLimitingSettings.edge_assertion_header_name _) as [header_name|] eqn:Hh; [|done].
  destruct (RateLimitingSettings.edge_assertion_secret _) as [secret|] eqn:Hs; [|done].
  destruct (Scope.header scope header_name) as [value|] eqn:Hv; [|done].
  apply rl_bind_returned in Hr as (parsed & s1 & Hp & Hr).
  destruct (_parse_edge_assertion_header value) as [[a|]|e] eqn:Ha; cbn in Hp.
  - injection Hp as <- <-. apply rl_bind_returned in Hr as (now & s2 & Hn & Hr).
    injection Hn as <- <-. unfold _is_edge_assertion_timestamp_fresh in Hr.
    destruct (Z.ltb_spec (timestamp a) (clock (drawn s) / seconds 1 - _EDGE_ASSERTION_MAX_AGE_SECONDS));
      [done|].
    destruct (Z.leb_spec (timestamp a)
                (clock (drawn s) / seconds 1 + _EDGE_ASSERTION_MAX_FUTURE_SKEW_SECONDS)); [|done].
    cbn [negb] in Hr. injection Hr as Heq _. apply String.eqb_eq in Heq.
    unfold _EDGE_ASSERTION_MAX_AGE_SECONDS, _EDGE_ASSERTION_MAX_FUTURE_SKEW_SECONDS in *.
    exists header_name, secret, value, a. split_and!; try done; lia.
  - injection Hp as <- <-. done.
  - by destruct e.
Qed.

(** The two guards of the middleware decide on the same requests. *)
Definition guarded scope (api_prefix : string) : bool :=
  _should_apply_edge_assertion scope api_prefix.

(** Between [s] and [s'] the limiter counted the client's address, unless the policy for
    requests before authentication fails open. *)
Definition address_counted req (s s' : Limits) : Prop :=
  exists p secret s1,
    get_effective_rate_limit_policy req "pre_auth" s1 = (Returned p, s1) /\
    RateLimitingSettings.identifier_secret (settings_of req) = Some secret /\
    same_store s1 s /\
    (RateLimitPolicy.fail_open p = false ->
     exists s2, hit_call req p (identifier_of req None secret) s1 = (Returned true, s2) /\
                same_store s' s2).

Lemma effective_policy_keeps req arg s p s1 :
  _effective_policy req arg s = (Returned p, s1) -> s1 = s.
Proof.
  unfold _effective_policy, get_effective_rate_limit_policy.
  destruct arg as [q|spec]; [by intros [= _ <-]|].
  destruct (AppState.rate_limit_policy_registry (app req)) as [reg|]; [|done].
  destruct (reg !! _); [by intros [= _ <-]|done].
Qed.

Lemma secret_keeps req name s secret s1 :
  _identifier_secret_or_error req name s = (Returned secret, s1) ->
  s1 = s /\ RateLimitingSettings.identifier_secret (settings_of req) = Some secret.
Proof.
  unfold _identifier_secret_or_error.
  destruct (RateLimitingSettings.identifier_secret (settings_of req)); [by intros [= -> <-]|].
  intros Hr. apply rl_bind_returned in Hr as (? & ? & _ & Hr).
  by apply rl_bind_returned in Hr as (? & ? & _ & ?).
Qed.

Lemma pre_auth_counted req s s' :
  RateLimitingSettings.enabled (settings_of req) = true ->
  RateLimitingSettings.pre_auth_enabled (settings_of req) = true ->
  check_pre_auth_rate_limit req s = (Returned tt, s') ->
  address_counted req s s'.
Proof.
  intros He Hpre Hr. unfold check_pre_auth_rate_limit in Hr. rewrite He, Hpre in Hr.
  cbn [negb orb] in Hr.
  apply rl_bind_returned in Hr as (p & s1 & Hp & Hr).
  apply rl_bind_returned in Hr as (secret & s2 & Hs & Hr).
  pose proof (effective_policy_keeps _ _ _ _ _ Hp) as ->.
  destruct (secret_keeps _ _ _ _ _ Hs) as [-> Hsecret].
  exists p, secret, s. split_and!; [done|done|by repeat split|]. intros Hclosed.
  by apply check_identifier_counted.
Qed.

(** Looking at the assertion reads the clock and nothing else. *)
Lemma edge_check_keeps req scope s b s1 :
  _has_valid_edge_assertion req scope s = (Returned b, s1) -> same_store s1 s.
Proof.
  unfold _has_valid_edge_assertion. intros Hr.
  destruct (negb _); [injection Hr as _ <-; by repeat split|].
  destruct (RateLimitingSettings.edge_assertion_header_name (settings_of req)) as [name|],
    (RateLimitingSettings.edge_assertion_secret (settings_of req)) as [secret|];
    try (injection Hr as _ <-; by repeat split).
  destruct (Scope.header _ _) as [value|]; [|injection Hr as _ <-; by repeat split].
  apply rl_bind_returned in Hr as (parsed & s3 & Hp & Hr).
  assert (s3 = s) as ->.
  { destruct (_parse_edge_assertion_header _) as [o|[]];
      unfold from_result, mret, RL_ret, rl_raise in Hp; by simplify_eq. }
  destruct parsed; [|injection Hr as _ <-; by repeat split].
  apply rl_bind_returned in Hr as (now & s4 & Hn & Hr). injection Hn as _ <-.
  destruct (negb _); injection Hr as _ <-; by repeat split.
Qed.

(** C23. A request for a guarded path - under the prefix, not OPTIONS, not a health check -
    that the middleware hands to the application carries, where the edge is enforced, a fresh
    assertion from a trusted peer signed for its method and target, and, where
    pre-authentication limits are on, was counted against the client's address unless the
    policy fails open. *)
Theorem ingress_admits_only_signed req scope api_prefix s s' :
  Scope.type scope = "http"%string -> guarded scope api_prefix = true ->
  call req scope api_prefix s = (Returned Forwarded, s') ->
  (RateLimitingSettings.enforced_by_edge (settings_of req) = true ->
   signed_for req scope (clock (drawn s) / seconds 1)) /\
  (RateLimitingSettings.enabled (settings_of req) = true ->
   RateLimitingSettings.pre_auth_enabled (settings_of req) = true -> address_counted req s s').
Proof.
  intros Ht Hg Hr. unfold call in Hr. rewrite Ht in Hr. cbn [negb String.eqb] in Hr.
  change (negb ("http" =? "http")%string) with false in Hr. cbv iota in Hr.
  apply rl_bind_returned in Hr as (valid & s1 & Hvalid & Hr).
  destruct valid; [|done]. cbn [negb] in Hr. split.
  - intros He. unfold guarded in Hg. rewrite He, Hg in Hvalid. cbn [andb] in Hvalid.
    by eapply valid_assertion_signed.
  - intros He Hpre.
    assert (same_store s1 s) as Hsame.
    { destruct (_ && _) in Hvalid; [by eapply edge_check_keeps|].
      injection Hvalid as <-. by repeat split. }
    assert (_should_apply_pre_auth_rate_limit scope api_prefix (settings_of req) = true) as Happly.
    { unfold _should_apply_pre_auth_rate_limit. rewrite He, Hpre. exact Hg. }
    rewrite Happly in Hr. unfold pre_auth_verdict, rl_try_else in Hr.
    destruct (check_pre_auth_rate_limit req s1) as [[[]|e] s2] eqn:Hc.
    + injection Hr as <-.
      destruct (pre_auth_counted req s1 s2 He Hpre Hc) as (p & secret & s3 & Hp & Hs & Hst & Hhit).
      exists p, secret, s3. split_and!; [done|done| |done].
      destruct Hsame as (? & ? & ?), Hst as (? & ? & ?). repeat split; congruence.
    + by destruct e as [[] ? ?|?].
Qed.

(** A timestamp of more than 4300 digits in an otherwise well-formed header is not refused:
    [int] raises, and the exception leaves the middleware. *)
Theorem oversized_timestamp_escapes value values ts sig :
  assertion_values ∅ (split_commas value) = Some values ->
  values !! "t"%string = Some ts -> values !! "v1"%string = Some sig ->
  Text.forallb_chars is_digit ts = true -> (4300 < String.length ts)%nat ->
  String.length sig = 64%nat -> Text.forallb_chars _HEX_DIGITS sig = true ->
  exists msg, _parse_edge_assertion_header value = Err (ValueError msg).
Proof.
  intros Hv Ht Hs Hd Hl Hsl Hh. unfold _parse_edge_assertion_header, int_of_digits.
  unfold _EDGE_ASSERTION_SIGNATURE_VERSION. rewrite Hv, Ht, Hs, Hd, Hsl, Hh.
  destruct ts as [|c ts]; [cbn in Hl; lia|]. cbn [Text.is_empty orb negb Nat.eqb].
  change (64 =? 64)%nat with true. cbn [orb negb].
  rewrite (proj2 (Nat.ltb_lt 4300 _)) by done. by eexists.
Qed.
End Ingress.

(** ** Starting the limiter *)
Section Starting.
Context {Items : RateLimitItems} `{Lifecycle.RedisClients} `{Lifecycle.RateLimitStorages}.
Import Lifecycle.

(** An application that has started has the effective registry in place, and a limiter
    exactly when limiting is on, which takes a Redis URL. *)
Theorem init_rate_limiter_spec settings policy_settings redis_url state :
  init_rate_limiter settings policy_settings redis_url = Ok state ->
  AppState.settings state = settings /\
  (exists registry,
     PolicyRegistry.build_effective_policy_registry policy_settings = Ok registry /\
     AppState.rate_limit_policy_registry state = Some registry) /\
  exists runtime, AppState.rate_limiter_runtime state = Some runtime /\
    RateLimiterRuntime.limiter runtime = RateLimitingSettings.enabled settings /\
    (RateLimitingSettings.enabled settings = true -> redis_url <> ""%string) /\
    (RateLimiterRuntime.grouped_redis_client runtime = true ->
     _is_grouped_redis_cluster_url redis_url = true \/ _is_grouped_redis_direct_url redis_url = true).
Proof.
  unfold init_rate_limiter. intros Hi.
  destruct (PolicyRegistry.build_effective_policy_registry policy_settings) as [registry|e] eqn:Hb;
    [|done].
  change (mbind ?f (Ok registry)) with (f registry) in Hi. cbv beta in Hi.
  destruct (RateLimitingSettings.enabled settings) eqn:He; cbn [negb] in Hi.
  - destruct redis_url as [|c url]; [done|]. cbn [Text.is_empty] in Hi.
    destruct (storage_from_string _); [|done]. injection Hi as <-.
    split; [reflexivity|]. split; [exists registry; split; reflexivity|].
    eexists. split; [reflexivity|]. split; [reflexivity|]. split; [discriminate|].
    cbn [RateLimiterRuntime.grouped_redis_client]. unfold _build_grouped_redis_client.
    destruct (_is_grouped_redis_cluster_url (String c url)); [by left|].
    destruct (_is_grouped_redis_direct_url (String c url)); [by right|done].
  - injection Hi as <-. split; [reflexivity|]. split; [exists registry; split; reflexivity|].
    eexists. split; [reflexivity|]. split; [reflexivity|]. split; discriminate.
Qed.

(** The client of the grouped checks is never built from a URL with the cluster marker. *)
Lemma grouped_url_scheme redis_url :
  _is_grouped_redis_cluster_url redis_url = true ->
  exists rest, _build_grouped_redis_url redis_url = ("redis://" ++ rest)%string \/
               _build_grouped_redis_url redis_url = ("rediss://" ++ rest)%string.
Proof.
  unfold _is_grouped_redis_cluster_url, _build_grouped_redis_url. intros Hc.
  destruct (Text.starts_with "redis+cluster://" _); [by eexists; left|].
  cbn [orb] in Hc. rewrite Hc. by eexists; right.
Qed.
End Starting.

Module Witness.
Import RateLimitFixtures.

(** A digest of 64 hexadecimal digits. *)
Definition edge_network : Network := {|
  ip_address := @ip_address network;
  compressed := @compressed network;
  hmac_sha256_hexdigest k s := Uuid.hex 64 (N.of_nat (String.length k + String.length s)) "";
|}.

Definition signature_of (method target : string) : string :=
  @hmac_sha256_hexdigest edge_network "edge" (edge_assertion_message 1728000000 method target).

(** A request the edge signed at the present second. *)
Definition signed : Scope.t :=
  Scope.mk "http" "GET" "/api/v1/users/me" (Some "/api/v1/users/me"%string) ""
    (fun name => if String.eqb name "X-Edge"
                 then Some ("t=1728000000, v1=" ++ signature_of "GET" "/api/v1/users/me")%string
                 else None).

Definition is_forwarded (o : outcome Verdict) : bool :=
  match o with Returned Forwarded => true | _ => false end.

Lemma ingress_admits_only_signed_witness :
  exists s', call (H0 := edge_network) (req true) signed "/api/v1" quiet = (Returned Forwarded, s') /\
    signed_for (H0 := edge_network) (req true) signed (t0 / seconds 1) /\
    address_counted (H0 := edge_network) (req true) quiet s'.
Proof.
  destruct (call (H0 := edge_network) (req true) signed "/api/v1" quiet) as [o s'] eqn:Hr.
  assert (o = Returned Forwarded) as ->.
  { assert (is_forwarded (call (H0 := edge_network) (req true) signed "/api/v1" quiet).1 = true)
      as Hok by (vm_compute; reflexivity).
    rewrite Hr in Hok. cbn [fst] in Hok. destruct o as [[|]|]; [reflexivity|discriminate Hok..]. }
  exists s'. split; [reflexivity|].
  destruct (ingress_admits_only_signed (H0 := edge_network) (req true) signed "/api/v1" quiet s'
              eq_refl eq_refl Hr) as [Hs Ha].
  split; [exact (Hs eq_refl)|exact (Ha eq_refl eq_refl)].
Defined.

(** The same header on another path is refused with 403. *)
Example replayed_elsewhere :
  let scope := Scope.mk "http" "GET" "/api/v1/organisations" None "" (Scope.header signed) in
  (call (H0 := edge_network) (req true) scope "/api/v1" quiet).1
  = Returned (Refused 403 FORBIDDEN "Direct origin access is not allowed." []).
Proof. vm_compute. reflexivity. Qed.
End Witness.
