(* ===== verification/SettingsProofs.v ===== *)
(** What an accepted configuration guarantees: [Settings.validate_environment_security] as a
    predicate on configurations, and its composition with the registry of rate-limit
    policies. *)
From S2P Require Import Prelude Errors Session Schema Tables AuditLog Requests RateLimitPolicies.
From S2P Require Import RateLimits RateLimitPolicyProofs Settings RateLimitFixtures.
Import Settings.Settings.

Lemma refuse_if_ok b msg : refuse_if b msg = Ok tt <-> b = false.
Proof. destruct b; simpl; split; done. Qed.

Lemma then_ok {A} (m : result unit) (k : result A) x :
  (m ;; k) = Ok x <-> m = Ok tt /\ k = Ok x.
Proof.
  destruct m as [[]|e]; cbn; [|split; [done|by intros [? _]]].
  split; [by intros ->|by intros [_ ->]].
Qed.

Lemma bind_ok {A B} (m : result A) (f : A -> result B) x :
  m ≫= f = Ok x <-> exists a, m = Ok a /\ f a = Ok x.
Proof. destruct m as [a|e]; cbn; naive_solver. Qed.

Lemma if_ok (b : bool) (m : result unit) :
  (if b then m else Ok tt) = Ok tt <-> (b = true -> m = Ok tt).
Proof. destruct b; naive_solver. Qed.

Lemma unless_ok (b : bool) (m : result unit) :
  (if b then Ok tt else m) = Ok tt <-> (b = false -> m = Ok tt).
Proof. destruct b; naive_solver. Qed.

Lemma missing_nil (b : bool) name l : missing_if b name ++ l = [] <-> b = false /\ l = [].
Proof. destruct b; cbn; naive_solver. Qed.

Lemma missing_nil_last (b : bool) name : missing_if b name = [] <-> b = false.
Proof. destruct b; cbn; naive_solver. Qed.

Lemma is_None_false {A} (o : option A) : is_None o = false <-> o <> None.
Proof. destruct o; cbn; naive_solver. Qed.

Lemma bool_decide_nil (l : list string) : bool_decide (l = []) = false <-> l <> [].
Proof. by rewrite bool_decide_eq_false. Qed.

(** ** What is asked of a configuration *)

(** The value is there, and not empty. *)
Definition given (value : option string) : Prop := truthy value <> None.

(** Exports kept in S3 name their bucket and region and are authenticated consistently. *)
Definition s3_usable (s : t) : Prop :=
  let e := privacy_exports s in
  PrivacyExportsSettings.enabled e = true ->
  PrivacyExportsSettings.storage_backend e = "s3_compatible"%string ->
  given (PrivacyExportsSettings.s3_bucket_name e) /\
  given (PrivacyExportsSettings.s3_region_name e) /\
  (PrivacyExportsSettings.s3_access_key_id e = None <->
   PrivacyExportsSettings.s3_secret_access_key e = None) /\
  (PrivacyExportsSettings.s3_sse_kms_key_id e <> None ->
   PrivacyExportsSettings.s3_server_side_encryption e = Some "aws:kms"%string).

(** Tokens are checked, for an audience and for named clients. *)
Definition authenticates (s : t) : Prop :=
  AuthSettings.enabled (auth s) = true /\
  given (AuthSettings.issuer_url (auth s)) /\
  given (AuthSettings.audience (auth s)) /\
  AuthSettings.allowed_authorized_parties (auth s) <> [] /\
  AuthSettings.metadata_validation (auth s) = "fail"%string.

(** No override opens a sensitive or critical policy. *)
Definition overrides_safe (s : t) : Prop :=
  forall name override,
    RateLimitingSettings.policies (rate_limiting s) !! name = Some override ->
    RateLimitPolicyOverride.fail_open override = Some true ->
    exists spec, PolicyRegistry.get_rate_limit_policy name = Ok spec /\
      RateLimitPolicySpec.sensitivity spec = RateLimitSensitivity.normal.

(** Requests are limited, here with addresses that are believed from proxies only, or at an
    edge that proves itself. *)
Definition limits_requests (s : t) : Prop :=
  let r := rate_limiting s in
  (RateLimitingSettings.enabled r = true \/ RateLimitingSettings.enforced_by_edge r = true) /\
  (RateLimitingSettings.trust_proxy_headers r = true ->
   RateLimitingSettings.trusted_proxy_cidrs r <> []) /\
  (RateLimitingSettings.enabled r = true -> RateLimitingSettings.enforced_by_edge r = false ->
   RateLimitingSettings.pre_auth_enabled r = true /\
   RateLimitingSettings.trust_proxy_headers r = true /\
   RateLimitingSettings.trusted_proxy_cidrs r <> []) /\
  (RateLimitingSettings.enforced_by_edge r = true ->
   RateLimitingSettings.trusted_proxy_cidrs r <> [] /\
   given (RateLimitingSettings.edge_assertion_header_name r) /\
   RateLimitingSettings.edge_assertion_secret r <> None).

(** A processor whose use is documented. *)
Definition documented (p : ProcessorSettings.t) : Prop :=
  ProcessorSettings.purpose p <> ""%string /\
  ProcessorSettings.data_categories p <> [] /\
  (given (ProcessorSettings.region p) \/ given (ProcessorSettings.country p)) /\
  ProcessorSettings.dpa_signed p = true /\
  (ProcessorSettings.restricted_transfer p = true ->
   ProcessorSettings.transfer_mechanism p ∈ _RESTRICTED_TRANSFER_MECHANISMS).

(** The processors of personal data a configuration brings in. *)
Inductive processor_used (s : t) : string -> Prop :=
  | uses_keycloak : AuthSettings.enabled (auth s) = true -> processor_used s "keycloak"
  | uses_otlp : ObservabilitySettings.metrics_enabled (observability s) = true ->
      ObservabilitySettings.exporter (observability s) = "otlp"%string -> processor_used s "otlp"
  | uses_s3 : PrivacyExportsSettings.enabled (privacy_exports s) = true ->
      PrivacyExportsSettings.storage_backend (privacy_exports s) = "s3_compatible"%string ->
      processor_used s "privacy_export_storage"
  | uses_redis : given (RedisSettings.url (redis s)) -> processor_used s "redis"
  | uses_vault : VaultSettings.enabled (vault s) = true -> processor_used s "vault".

(** Where the governance of processors is switched on, and one is used. *)
Definition processors_governed (s : t) : Prop :=
  let g := processor_governance s in
  ProcessorGovernanceSettings.enabled g = true -> (exists name, processor_used s name) ->
  ProcessorGovernanceSettings.required g = true /\
  given (ProcessorGovernanceSettings.data_residency_region g) /\
  forall name, processor_used s name ->
    exists p, ProcessorGovernanceSettings.processors g !! name = Some p /\ documented p.

(** The address has the scheme, whatever the case. *)
Definition with_scheme (scheme : string) (url : string) : Prop := Text.lower (Url.scheme url) = scheme.

(** Exports are not kept on a local disk, nor sent in the clear over a public network. *)
Definition exports_protected (s : t) : Prop :=
  let e := privacy_exports s in
  PrivacyExportsSettings.enabled e = true ->
  PrivacyExportsSettings.storage_backend e <> "local"%string /\
  (PrivacyExportsSettings.storage_backend e = "s3_compatible"%string ->
   PrivacyExportsSettings.s3_endpoint_url e = None \/
   (exists url, truthy (PrivacyExportsSettings.s3_endpoint_url e) = Some url /\ with_scheme "https" url) \/
   PrivacyExportsSettings.s3_allow_plaintext_private_network e = true).

(** The mode of encryption of a connection: the one that is set, or the last one of the address. *)
Definition ssl_mode (d : DatabaseSettings.t) (url : string) : option string :=
  match truthy (DatabaseSettings.ssl_mode d) with
  | Some mode => Some mode
  | None => Text.lower ∘ Text.strip <$>
      last (Url.first_values (fun name => String.eqb (Text.lower name) "sslmode")
              (Url.query_fields (Url.query url)))
  end.

(** The database, if there is one, is a file, or PostgreSQL over TLS. *)
Definition database_encrypted (d : DatabaseSettings.t) : Prop :=
  forall url, truthy (DatabaseSettings.url d) = Some url ->
    (exists rest, Text.lower (Url.scheme url) = ("sqlite" ++ rest)%string) \/
    (exists rest, Text.lower (Url.scheme url) = ("postgresql" ++ rest)%string) /\
    exists mode, ssl_mode d url = Some mode /\ mode ∈ ["require"; "verify-ca"; "verify-full"]%string.

(** The address is there and begins so. *)
Definition over_https (url : option string) : Prop :=
  exists rest, url = Some ("https://" ++ rest)%string.

(** The connections of production are encrypted or declared private; those to Redis and the
    vault, unless TLS is declared not to be required. *)
Definition transport_protected (s : t) : Prop :=
  (forall url rest, truthy (DatabaseSettings.url (database s)) = Some url ->
   Text.lower (Url.scheme url) = ("sqlite" ++ rest)%string ->
   DatabaseSettings.allow_sqlite_in_prod (database s) = true) /\
  (DatabaseSettings.allow_plaintext_private_network (database s) = true \/
   database_encrypted (database s)) /\
  (forall url, truthy (RedisSettings.url (redis s)) = Some url -> RedisSettings.tls_required (redis s) = true ->
   RedisSettings.allow_plaintext_private_network (redis s) = true \/ with_scheme "rediss" url) /\
  (VaultSettings.enabled (vault s) = true -> VaultSettings.tls_required (vault s) = true ->
   VaultSettings.allow_plaintext_private_network (vault s) = true \/
   VaultSettings.addr (vault s) = ""%string \/ with_scheme "https" (VaultSettings.addr (vault s))).

Definition production_hardened (s : t) : Prop :=
  over_https (AuthSettings.issuer_url (auth s)) /\
  (given (AuthSettings.jwks_url (auth s)) -> over_https (AuthSettings.jwks_url (auth s))) /\
  ApiSettings.docs_enabled (api s) = false /\
  RequestContextSettings.trust_incoming_request_id (request_context s) = false /\
  RateLimitingSettings.mode (rate_limiting s) <> RateLimitMode.relaxed /\
  transport_protected s.

Definition environment_of (s : t) : string := AppSettings.environment (app s).

Definition deployed (s : t) : Prop := environment_of s ∈ ["staging"; "prod"]%string.

Definition deployed_safely (s : t) : Prop :=
  authenticates s /\ limits_requests s /\ overrides_safe s /\ processors_governed s /\
  exports_protected s.

Record secure (s : t) : Prop := mkSecure {
  secure_s3 : s3_usable s;
  secure_deployed : deployed s -> deployed_safely s;
  secure_production : environment_of s = "prod"%string -> production_hardened s;
  secure_cors : environment_of s = "prod"%string ->
    "*"%string ∉ CorsSettings.allow_origins (cors s);
  secure_outbox :
    OutboxSettings.invite_delivery_enabled (outbox s) = true ->
    environment_of s ∈ ["dev"; "staging"; "prod"]%string ->
    SecuritySettings.outbox_token_encryption_key (security s) <> None;
}.

(** *** The code's own readings of an address *)

Lemma starts_with_iff p s : Text.starts_with p s = true <-> exists rest, s = (p ++ rest)%string.
Proof.
  unfold Text.starts_with. revert s. induction p as [|c p IH]; intros s.
  - split; [intros _; by exists s|]. by destruct s.
  - destruct s as [|c' s]; cbn [String.prefix]; [split; [done|by intros [? ?]]|].
    destruct (ascii_dec c c') as [->|Hne].
    + rewrite IH. split; intros [rest Hr]; exists rest; [by rewrite Hr|by injection Hr].
    + split; [done|]. intros [rest Hr]. by injection Hr.
Qed.

Lemma starts_with_https_iff url : starts_with_https url = true <-> over_https url.
Proof.
  unfold starts_with_https, over_https. destruct url as [s|]; [|naive_solver].
  rewrite starts_with_iff. naive_solver.
Qed.

Lemma url_scheme_some value url : truthy value = Some url -> _url_scheme value = Text.lower (Url.scheme url).
Proof. unfold _url_scheme. by intros ->. Qed.

Lemma sqlite_iff d :
  _is_sqlite_database_url (DatabaseSettings.url d) = true <->
  exists url rest, truthy (DatabaseSettings.url d) = Some url /\
    Text.lower (Url.scheme url) = ("sqlite" ++ rest)%string.
Proof.
  unfold _is_sqlite_database_url. destruct (truthy (DatabaseSettings.url d)) as [url|] eqn:Hu.
  - rewrite (url_scheme_some _ _ Hu), starts_with_iff. naive_solver.
  - unfold _url_scheme. rewrite Hu. cbn. naive_solver.
Qed.

Lemma query_mode d url :
  truthy (DatabaseSettings.url d) = Some url ->
  (exists m, _url_query_value (DatabaseSettings.url d) "sslmode" = Some m /\
     m ∈ _SECURE_DATABASE_SSL_MODES) <->
  (exists m, Text.lower ∘ Text.strip <$>
      last (Url.first_values (fun name => String.eqb (Text.lower name) "sslmode")
              (Url.query_fields (Url.query url))) = Some m /\ m ∈ _SECURE_DATABASE_SSL_MODES).
Proof.
  intros Hu. unfold _url_query_value. rewrite Hu. change (Text.lower "sslmode") with "sslmode"%string.
  destruct (last _) as [v|]; cbn [fmap option_fmap option_map]; [|done].
  unfold compose. destruct (Text.is_empty (Text.lower (Text.strip v))) eqn:He; [|done].
  split; [naive_solver|]. intros (m & [= <-] & Hin).
  destruct (Text.lower (Text.strip v)); [|done]. exfalso. revert Hin. apply (bool_decide_unpack _). by vm_compute.
Qed.

Lemma database_encrypted_iff d : _is_secure_database_transport d = true <-> database_encrypted d.
Proof.
  unfold _is_secure_database_transport, database_encrypted.
  destruct (truthy (DatabaseSettings.url d)) as [url|] eqn:Hu; [|naive_solver].
  rewrite (url_scheme_some _ _ Hu). pose proof (starts_with_iff "sqlite" (Text.lower (Url.scheme url))) as Hs.
  pose proof (starts_with_iff "postgresql" (Text.lower (Url.scheme url))) as Hp.
  pose proof (query_mode d url Hu) as Hq. unfold ssl_mode.
  destruct (Text.starts_with "sqlite" _); [naive_solver|].
  destruct (Text.starts_with "postgresql" _); cbn [negb]; [|naive_solver].
  fold _SECURE_DATABASE_SSL_MODES. destruct (truthy (DatabaseSettings.ssl_mode d)) as [m|].
  - rewrite bool_decide_eq_true. naive_solver.
  - destruct (_url_query_value _ _) as [m|].
    + rewrite bool_decide_eq_true. naive_solver.
    + naive_solver.
Qed.

Lemma redis_iff r :
  _is_secure_redis_transport r = true <->
  forall url, truthy (RedisSettings.url r) = Some url -> with_scheme "rediss" url.
Proof.
  unfold _is_secure_redis_transport, with_scheme. destruct (truthy (RedisSettings.url r)) as [url|] eqn:Hu.
  - rewrite (url_scheme_some _ _ Hu), String.eqb_eq. naive_solver.
  - naive_solver.
Qed.

Lemma vault_iff v :
  _is_secure_vault_transport v = true <->
  VaultSettings.addr v = ""%string \/ with_scheme "https" (VaultSettings.addr v).
Proof.
  unfold _is_secure_vault_transport, with_scheme. destruct (VaultSettings.addr v) as [|c a]; cbn [Text.is_empty]; [naive_solver|].
  change (_url_scheme (Some (String c a))) with (Text.lower (Url.scheme (String c a))).
  rewrite String.eqb_eq. naive_solver.
Qed.

Lemma endpoint_iff url :
  _url_scheme url = "https"%string <-> exists u, truthy url = Some u /\ with_scheme "https" u.
Proof.
  unfold _url_scheme, with_scheme. destruct (truthy url); naive_solver.
Qed.

Lemma elem_of_missing_if (b : bool) name x : x ∈ missing_if b name <-> b = true /\ x = name.
Proof.
  destruct b; cbn; rewrite ?list_elem_of_singleton; [naive_solver|].
  split; [by intros []%not_elem_of_nil|naive_solver].
Qed.

Lemma required_processors s name : name ∈ _required_processor_names s <-> processor_used s name.
Proof.
  unfold _required_processor_names.
  rewrite !elem_of_app, !elem_of_missing_if, !andb_true_iff, !String.eqb_eq, negb_true_iff.
  assert (Hg : is_None (truthy (RedisSettings.url (redis s))) = false <-> given (RedisSettings.url (redis s))).
  { unfold given. by destruct (truthy _). }
  rewrite Hg. split.
  - intros [[? ->]|[[[? ?] ->]|[[[? ?] ->]|[[? ->]|[? ->]]]]]; by constructor.
  - destruct 1; tauto.
Qed.

(** ** Each check *)

Create HintDb settings.
#[export] Hint Rewrite refuse_if_ok @then_ok if_ok unless_ok missing_nil missing_nil_last
  bool_decide_nil negb_false_iff negb_true_iff andb_true_iff orb_true_iff orb_false_iff
  bool_decide_eq_true bool_decide_eq_false String.eqb_eq String.eqb_neq : settings.

Lemma andb_false (a b : bool) : a && b = false <-> (a = true -> b = false).
Proof. destruct a, b; naive_solver. Qed.

Lemma negb_false_prop (a : bool) : negb a = false <-> a = true.
Proof. by destruct a. Qed.

Lemma xorb_false_iff (a b : bool) : xorb a b = false <-> a = b.
Proof. destruct a, b; naive_solver. Qed.

Lemma is_None_same {A B} (a : option A) (b : option B) :
  is_None a = is_None b <-> (a = None <-> b = None).
Proof. destruct a, b; cbn; naive_solver. Qed.

(** Reads a check as a proposition. *)
Ltac read_check :=
  autorewrite with settings; rewrite ?andb_false; autorewrite with settings;
  rewrite ?is_None_false, ?xorb_false_iff, ?is_None_same; unfold given.

Lemma s3_usable_iff s : _validate_privacy_exports_storage_settings s = Ok tt <-> s3_usable s.
Proof. unfold _validate_privacy_exports_storage_settings, s3_usable. read_check. tauto. Qed.

Lemma unsafe_overrides_nil overrides :
  unsafe_overrides overrides = Ok [] <->
  forall name o, (name, o) ∈ overrides -> RateLimitPolicyOverride.fail_open o = Some true ->
    exists spec, PolicyRegistry.get_rate_limit_policy name = Ok spec /\
      RateLimitPolicySpec.sensitivity spec = RateLimitSensitivity.normal.
Proof.
  induction overrides as [|[name o] rest IH]; cbn [unsafe_overrides].
  { split; [intros _ n o Hin; by apply not_elem_of_nil in Hin|done]. }
  setoid_rewrite elem_of_cons. case_bool_decide as Ho; cbn [negb].
  - rewrite bind_ok. split.
    + intros (spec & Hs & (names & Hn & Heq)%bind_ok). case_bool_decide as Hnormal; [|done].
      injection Heq as ->. intros n o' [[= -> ->]|Hin] Hopen; [by eauto|].
      by apply (proj1 IH Hn n o').
    + intros Hall. destruct (Hall name o (or_introl eq_refl) Ho) as (spec & Hs & Hnormal).
      exists spec. split; [exact Hs|]. apply bind_ok. exists []. split; [apply IH; eauto|].
      by rewrite bool_decide_true.
  - rewrite IH. naive_solver.
Qed.

Lemma overrides_safe_iff s env :
  _validate_rate_limit_fail_open_overrides s env = Ok tt <-> overrides_safe s.
Proof.
  unfold _validate_rate_limit_fail_open_overrides, overrides_safe. rewrite bind_ok.
  trans (unsafe_overrides (map_to_list (RateLimitingSettings.policies (rate_limiting s))) = Ok []).
  - split; [intros ([|n l] & Hl & Heq); [exact Hl|done]|]. intros Hl. by exists [].
  - rewrite unsafe_overrides_nil. by setoid_rewrite elem_of_map_to_list.
Qed.

Lemma limits_requests_iff s env :
  (_validate_rate_limit_protection_required s env = Ok tt /\
   _validate_trusted_proxy_header_policy s env = Ok tt /\
   _validate_pre_auth_policy s env = Ok tt /\
   _validate_edge_enforced_mode s env = Ok tt) <-> limits_requests s.
Proof.
  unfold _validate_rate_limit_protection_required, _validate_trusted_proxy_header_policy,
    _validate_pre_auth_policy, _validate_edge_enforced_mode, limits_requests.
  read_check.
  destruct (RateLimitingSettings.enabled (rate_limiting s)),
    (RateLimitingSettings.enforced_by_edge (rate_limiting s)); intuition congruence.
Qed.

Lemma omap_nil {A B} (f : A -> option B) l : omap f l = [] <-> forall x, x ∈ l -> f x = None.
Proof.
  induction l as [|x l IH]; cbn.
  { split; [intros _ x Hx; by apply not_elem_of_nil in Hx|done]. }
  setoid_rewrite elem_of_cons. destruct (f x) eqn:Hf; [|naive_solver].
  split; [done|]. intros Hall. rewrite (Hall x) in Hf by auto. done.
Qed.

Lemma filter_nil {A} (p : A -> bool) l : List.filter p l = [] <-> forall x, x ∈ l -> p x = false.
Proof.
  induction l as [|x l IH]; cbn.
  { split; [intros _ x Hx; by apply not_elem_of_nil in Hx|done]. }
  setoid_rewrite elem_of_cons. destruct (p x) eqn:Hp; [|naive_solver].
  split; [done|]. intros Hall. rewrite (Hall x) in Hp by auto. done.
Qed.

Lemma is_empty_false s : Text.is_empty s = false <-> s <> ""%string.
Proof. by destruct s. Qed.

Lemma documented_iff p :
  processor_missing_fields p = [] /\ transfer_unapproved p = false <-> documented p.
Proof.
  unfold processor_missing_fields, transfer_unapproved, documented.
  read_check. rewrite is_empty_false.
  destruct (truthy (ProcessorSettings.region p)), (truthy (ProcessorSettings.country p));
    cbn [is_None]; intuition congruence.
Qed.

Lemma processors_governed_iff s env :
  _validate_processor_governance s env = Ok tt <-> processors_governed s.
Proof.
  unfold _validate_processor_governance, processors_governed.
  assert (Hused : (exists name, processor_used s name) <-> _required_processor_names s <> []).
  { setoid_rewrite <- required_processors. destruct (_required_processor_names s) as [|name l].
    - split; [by intros [? []%not_elem_of_nil]|done].
    - split; [done|]. intros _. exists name. by left. }
  rewrite Hused. setoid_rewrite <- required_processors.
  set (g := processor_governance s). set (req := _required_processor_names s). read_check.
  rewrite filter_nil, !omap_nil.
  enough (Hbody :
    (forall x, x ∈ req -> is_None (ProcessorGovernanceSettings.processors g !! x) = false) /\
    (forall x, x ∈ omap (fun name => (name,.) <$> ProcessorGovernanceSettings.processors g !! name) req ->
      (let '(name, p) := x in
       match processor_missing_fields p with
       | [] => None
       | fields => Some (name ++ " (" ++ Text.join ", " fields ++ ")")%string
       end) = None) /\
    (forall x, x ∈ omap (fun name => (name,.) <$> ProcessorGovernanceSettings.processors g !! name) req ->
      (let '(name, p) := x in if transfer_unapproved p then Some name else None) = None) <->
    (forall name, name ∈ req ->
      exists p, ProcessorGovernanceSettings.processors g !! name = Some p /\ documented p)).
  { rewrite <- Hbody. tauto. }
  split.
  - intros (Hthere & Hfields & Htransfers) name Hin.
    specialize (Hthere name Hin). destruct (_ !! name) as [p|] eqn:Hp; [|done].
    exists p. split; [done|]. apply documented_iff.
    assert (Hmem : (name, p) ∈ omap (fun name => (name,.) <$> ProcessorGovernanceSettings.processors g !! name) req).
    { apply list_elem_of_omap. exists name. by rewrite Hp. }
    specialize (Hfields _ Hmem). specialize (Htransfers _ Hmem). cbn in *.
    by destruct (processor_missing_fields p), (transfer_unapproved p).
  - intros Hall. split; [|split].
    + intros name Hin. destruct (Hall name Hin) as (p & -> & _). done.
    + intros [name p] (name' & Hin & Hp)%list_elem_of_omap.
      destruct (Hall name' Hin) as (p' & Hp' & [Hf _]%documented_iff).
      rewrite Hp' in Hp. injection Hp as <- <-. by rewrite Hf.
    + intros [name p] (name' & Hin & Hp)%list_elem_of_omap.
      destruct (Hall name' Hin) as (p' & Hp' & [_ Hf]%documented_iff).
      rewrite Hp' in Hp. injection Hp as <- <-. by rewrite Hf.
Qed.

Lemma exports_protected_iff s env :
  _validate_privacy_exports_security s env = Ok tt <-> exports_protected s.
Proof.
  unfold _validate_privacy_exports_security, exports_protected. rewrite <- endpoint_iff. read_check.
  destruct (decide (PrivacyExportsSettings.s3_endpoint_url (privacy_exports s) = None)),
    (decide (_url_scheme (PrivacyExportsSettings.s3_endpoint_url (privacy_exports s)) = "https"%string));
    intuition congruence.
Qed.

Lemma transport_protected_iff s :
  _validate_production_transport_security s = Ok tt <-> transport_protected s.
Proof.
  assert (Hsqlite : (forall url rest, truthy (DatabaseSettings.url (database s)) = Some url ->
      Text.lower (Url.scheme url) = ("sqlite" ++ rest)%string ->
      DatabaseSettings.allow_sqlite_in_prod (database s) = true) <->
    (_is_sqlite_database_url (DatabaseSettings.url (database s)) = true ->
     DatabaseSettings.allow_sqlite_in_prod (database s) = true)) by (rewrite sqlite_iff; naive_solver).
  assert (Hredis : (forall url, truthy (RedisSettings.url (redis s)) = Some url ->
      RedisSettings.tls_required (redis s) = true ->
      RedisSettings.allow_plaintext_private_network (redis s) = true \/ with_scheme "rediss" url) <->
    (given (RedisSettings.url (redis s)) -> RedisSettings.tls_required (redis s) = true ->
     RedisSettings.allow_plaintext_private_network (redis s) = true \/
     _is_secure_redis_transport (redis s) = true)).
  { unfold given. rewrite redis_iff. destruct (truthy (RedisSettings.url (redis s))); naive_solver. }
  unfold _validate_production_transport_security, transport_protected.
  rewrite Hsqlite, Hredis, <- database_encrypted_iff, <- vault_iff. read_check.
  destruct (DatabaseSettings.allow_plaintext_private_network (database s)),
    (_is_secure_database_transport (database s)),
    (RedisSettings.allow_plaintext_private_network (redis s)),
    (_is_secure_redis_transport (redis s)),
    (VaultSettings.allow_plaintext_private_network (vault s)),
    (_is_secure_vault_transport (vault s)); intuition congruence.
Qed.

(** ** The whole *)

Lemma authenticates_iff s :
  AuthSettings.enabled (auth s) = true /\
  truthy (AuthSettings.issuer_url (auth s)) <> None /\
  truthy (AuthSettings.audience (auth s)) <> None /\
  AuthSettings.allowed_authorized_parties (auth s) <> [] /\
  AuthSettings.metadata_validation (auth s) = "fail"%string <-> authenticates s.
Proof. done. Qed.

Lemma deployed_safely_iff s env : validate_deployed s env = Ok tt <-> deployed_safely s.
Proof.
  unfold validate_deployed, deployed_safely. rewrite <- (limits_requests_iff s env),
    <- (overrides_safe_iff s env), <- (processors_governed_iff s env),
    <- (exports_protected_iff s env), <- authenticates_iff, !then_ok, !refuse_if_ok,
    !negb_false_prop, !is_None_false, bool_decide_nil, String.eqb_eq. tauto.
Qed.

Lemma production_hardened_iff s : validate_production s = Ok tt <-> production_hardened s.
Proof.
  unfold validate_production, production_hardened.
  rewrite <- transport_protected_iff, <- !starts_with_https_iff.
  unfold given. rewrite !then_ok, !refuse_if_ok, andb_false, !negb_false_prop, negb_true_iff,
    is_None_false, bool_decide_eq_false. tauto.
Qed.

Lemma secure_iff s : validate_environment_security s = Ok s <-> secure s.
Proof.
  unfold validate_environment_security. rewrite !then_ok, !if_ok, !refuse_if_ok, !andb_false,
    s3_usable_iff, deployed_safely_iff, production_hardened_iff, !bool_decide_eq_true,
    String.eqb_eq, bool_decide_eq_false, is_None_false, andb_true_iff, bool_decide_eq_true.
  fold (environment_of s). split.
  - intros (H3 & Hd & Hp & Hc & Ho & _). by constructor; auto.
  - intros [H3 Hd Hp Hc Ho]. tauto.
Qed.

Lemma validated_same s s' : validate_environment_security s = Ok s' -> s' = s.
Proof.
  unfold validate_environment_security. rewrite !then_ok. intros (_ & _ & _ & _ & _ & Heq).
  congruence.
Qed.

(** ** The errors are pydantic's *)

Definition value_errors {A} (m : result A) : Prop :=
  match m with Ok _ => True | Err e => exists msg, e = ValueError msg end.

Lemma value_errors_refuse b msg : value_errors (refuse_if b msg).
Proof. destruct b; cbn; eauto. Qed.

Lemma value_errors_bind {A B} (m : result A) (f : A -> result B) :
  value_errors m -> (forall a, value_errors (f a)) -> value_errors (m ≫= f).
Proof. destruct m as [a|e]; cbn; auto. Qed.

Lemma value_errors_if {A} (b : bool) (m k : result A) :
  value_errors m -> value_errors k -> value_errors (if b then m else k).
Proof. by destruct b. Qed.

Lemma value_errors_ok {A} (a : A) : value_errors (Ok a).
Proof. done. Qed.

Create HintDb value_errors.
#[export] Hint Resolve value_errors_refuse value_errors_bind value_errors_if value_errors_ok
  : value_errors.

Lemma value_errors_policy name : value_errors (PolicyRegistry.get_rate_limit_policy name).
Proof.
  unfold PolicyRegistry.get_rate_limit_policy. destruct policy_spec_registry_ok as (r & -> & _).
  cbn [mbind result_bind]. destruct (r !! name); cbn; eauto.
Qed.

Lemma value_errors_unsafe l : value_errors (unsafe_overrides l).
Proof.
  induction l as [|[name o] rest IH]; cbn [unsafe_overrides]; [done|].
  apply value_errors_if; [exact IH|]. apply value_errors_bind; [apply value_errors_policy|].
  intros spec. apply value_errors_bind; [exact IH|]. intros names. apply value_errors_ok.
Qed.

Lemma value_errors_overrides s env : value_errors (_validate_rate_limit_fail_open_overrides s env).
Proof.
  apply value_errors_bind; [apply value_errors_unsafe|]. intros [|n l]; cbn; eauto.
Qed.
#[export] Hint Resolve value_errors_overrides : value_errors.

Lemma value_errors_environment s : value_errors (validate_environment_security s).
Proof.
  unfold validate_environment_security, validate_deployed, validate_production,
    _validate_privacy_exports_storage_settings, _validate_rate_limit_protection_required,
    _validate_trusted_proxy_header_policy, _validate_pre_auth_policy, _validate_edge_enforced_mode,
    _validate_processor_governance, _validate_privacy_exports_security,
    _validate_production_transport_security.
  repeat first
    [ apply value_errors_refuse | apply value_errors_overrides | apply value_errors_ok
    | apply value_errors_if | apply value_errors_bind; [|intros []] ].
Qed.

(** ** What the groups' validators leave *)
Section Groups.
Context `{SettingsLibraries}.

Lemma validate_override_same o o' : RateLimitPolicyOverride.validate o = Ok o' -> o' = o.
Proof.
  destruct o as [l w f]. unfold RateLimitPolicyOverride.validate. cbn.
  destruct (_ && _); cbn; [|done]. unfold RateLimitPolicyOverride.validate_supported_window.
  destruct w as [w|]; [case_bool_decide|]; cbn; congruence.
Qed.

Lemma known_overrides value value' :
  RateLimitingSettings.validate_policy_override_names value = Ok value' ->
  value' = value /\
  forall name, is_Some (value !! name) -> name ∈ spec_names PolicyRegistry._REGISTERED_POLICY_SPECS.
Proof.
  unfold RateLimitingSettings.validate_policy_override_names.
  destruct policy_spec_registry_ok as (registry & -> & Hdom).
  change (mbind ?f (Ok registry)) with (f registry). cbv beta.
  destruct (PolicyRegistry.unknown_names registry value) eqn:Hu; [|discriminate].
  intros [= <-]. split; [reflexivity|]. intros name Hin.
  apply (proj1 (unknown_names_nil registry value) Hu) in Hin.
  destruct (registry !! name) eqn:Hn; [|by destruct Hin].
  destruct (decide (name ∈ spec_names PolicyRegistry._REGISTERED_POLICY_SPECS)) as [|Hnot]; [assumption|].
  apply Hdom in Hnot. congruence.
Qed.

Lemma valid_overrides policies name o :
  RateLimitingSettings.validate_overrides policies = Ok tt -> policies !! name = Some o ->
  RateLimitPolicyOverride.validate o = Ok o.
Proof.
  unfold RateLimitingSettings.validate_overrides, bounded. intros Hv Ho.
  match type of Hv with (if ?b then _ else _) = _ => destruct b eqn:Hall; [|discriminate] end.
  rewrite forallb_forall in Hall. specialize (Hall o).
  destruct (RateLimitPolicyOverride.validate o) as [o'|] eqn:Heq.
  - rewrite (validate_override_same o o' Heq). reflexivity.
  - exfalso. enough (false = true) by discriminate. apply Hall.
    apply list_elem_of_In, list_elem_of_fmap. exists (name, o).
    split; [reflexivity|]. apply elem_of_map_to_list. exact Ho.
Qed.

(** Overrides that were accepted are valid and name declared policies. *)
Lemma accepted_overrides i r :
  RateLimitingSettings.validate i = Ok r ->
  (forall name o, RateLimitingSettings.policies r !! name = Some o ->
     RateLimitPolicyOverride.validate o = Ok o) /\
  (forall name, is_Some (RateLimitingSettings.policies r !! name) ->
     name ∈ spec_names PolicyRegistry._REGISTERED_POLICY_SPECS).
Proof.
  unfold RateLimitingSettings.validate.
  intros (cidrs & _ & (header & _ & (s1 & _ & (s2 & _ & (Hv & (ps & Hn & (_ & Hid)%then_ok)%bind_ok)%then_ok)%bind_ok)%bind_ok)%bind_ok)%bind_ok.
  apply known_overrides in Hn as [-> Hk].
  unfold RateLimitingSettings.validate_identifier_secret_required in Hid.
  match type of Hid with (if ?b then _ else _) = _ => destruct b; [discriminate|] end.
  injection Hid as <-. split; [|exact Hk].
  intros name o Ho. exact (valid_overrides _ name o Hv Ho).
Qed.

(** An accepted configuration passed the checks of its environment, and its group of rate
    limits those of its fields. *)
Lemma accepted_settings i s :
  Settings.Settings.validate i = Ok s ->
  secure s /\ exists r, RateLimitingSettings.validate r = Ok (rate_limiting s).
Proof.
  unfold Settings.Settings.validate.
  intros (app & _ & (vault & _ & (database & _ & (security & _ & (auth & _ & (limits & Hl & Hrest)%bind_ok)%bind_ok)%bind_ok)%bind_ok)%bind_ok)%bind_ok.
  repeat match goal with Hm : _ ≫= _ = Ok _ |- _ => apply bind_ok in Hm as (? & _ & Hm) end.
  pose proof (validated_same _ _ Hrest) as ->. split; [by apply secure_iff|].
  by exists (rate_limiting i).
Qed.

Lemma accepted_policies i s :
  Settings.Settings.validate i = Ok s ->
  validated (policy_settings s) /\ overrides_known (policy_settings s).
Proof.
  intros (_ & r & Hr)%accepted_settings. apply accepted_overrides in Hr as [Hv Hk]. by split.
Qed.
End Groups.

Lemma spec_found spec :
  spec ∈ PolicyRegistry._REGISTERED_POLICY_SPECS ->
  PolicyRegistry.get_rate_limit_policy (spec_name spec) = Ok spec.
Proof.
  assert (Forall (fun s => PolicyRegistry.get_rate_limit_policy (spec_name s) = Ok s)
            PolicyRegistry._REGISTERED_POLICY_SPECS) as Hall
    by (repeat constructor; vm_compute; reflexivity).
  rewrite Forall_forall in Hall. exact (Hall spec).
Qed.

(** Of the policies that guard something, only the one before authentication is declared to
    stay open. *)
Lemma declared_open spec :
  spec ∈ PolicyRegistry._REGISTERED_POLICY_SPECS ->
  RateLimitPolicySpec.sensitivity spec <> RateLimitSensitivity.normal ->
  RateLimitPolicySpec.default_fail_open spec = true ->
  spec_name spec = spec_name Policies.PRE_AUTH_POLICY.
Proof.
  assert (Forall (fun s => RateLimitPolicySpec.sensitivity s <> RateLimitSensitivity.normal ->
                    RateLimitPolicySpec.default_fail_open s = true ->
                    spec_name s = spec_name Policies.PRE_AUTH_POLICY)
            PolicyRegistry._REGISTERED_POLICY_SPECS) as Hall
    by (repeat constructor; done).
  rewrite Forall_forall in Hall. exact (Hall spec).
Qed.

Lemma guarded_closed s spec :
  deployed s -> overrides_safe s -> spec ∈ PolicyRegistry._REGISTERED_POLICY_SPECS ->
  RateLimitPolicySpec.sensitivity spec <> RateLimitSensitivity.normal ->
  fails_open (policy_settings s) spec = false.
Proof.
  intros Hd Hsafe Hin Hs. unfold fails_open, PolicyRegistry._should_force_fail_closed_in_environment.
  assert (bool_decide (environment (policy_settings s) ∈ ["staging"; "prod"]%string) = true) as ->
    by (by apply bool_decide_eq_true).
  destruct (String.eqb_spec (spec_name spec) (spec_name Policies.PRE_AUTH_POLICY)) as [|Hne];
    [by rewrite andb_false_r|].
  rewrite andb_true_r.
  assert (Hopen : default (RateLimitPolicySpec.default_fail_open spec)
    (o ← override_of (policy_settings s) spec; RateLimitPolicyOverride.fail_open o) = false);
    [|by rewrite Hopen].
  assert (Hdeclared : RateLimitPolicySpec.default_fail_open spec = false).
  { destruct (RateLimitPolicySpec.default_fail_open spec) eqn:Hf; [|done].
    destruct Hne. by apply declared_open. }
  unfold override_of. cbn [policies policy_settings].
  destruct (RateLimitingSettings.policies (rate_limiting s) !! spec_name spec) as [o|] eqn:Ho;
    cbn; [|done].
  destruct (RateLimitPolicyOverride.fail_open o) as [[]|] eqn:Hf; cbn; [|done..].
  destruct (Hsafe _ _ Ho Hf) as (spec' & Hspec & Hnormal).
  rewrite spec_found in Hspec by done. congruence.
Qed.

(** ** Properties *)

(** C9. The checks of a configuration accept it, unchanged, exactly when it is secure for its
    environment, and raise a [ValueError] otherwise. In staging and production: tokens are
    checked, for an audience and for named clients; requests are limited in the application
    or at the edge, with forwarded addresses believed from named proxies only; no override
    opens a guarded policy; where the governance of processors is enabled (it is off by
    default), every processor the configuration uses is documented; and enabled exports
    leave the local disk, over the default endpoint, HTTPS or a network declared private. In production also: the
    issuer and the keys are over HTTPS, documentation is off, incoming request identifiers are
    not trusted, the limits are not relaxed and no origin is a wildcard; the database is
    PostgreSQL over TLS, an allowed SQLite file or on a network declared private; Redis and
    the vault are over TLS, on such a network, or declared not to need it. Everywhere: enabled
    S3 exports name their bucket, region and consistent keys; and except in the other
    environments, enabled invite delivery has its encryption key. *)
Theorem accepted_settings_secure s :
  match validate_environment_security s with
  | Ok s' => s' = s /\ secure s
  | Err e => ~ secure s /\ exists msg, e = ValueError msg
  end.
Proof.
  pose proof (value_errors_environment s) as He. pose proof (secure_iff s) as Hs.
  destruct (validate_environment_security s) as [s'|e] eqn:Hv.
  - apply validated_same in Hv as ->. split; [reflexivity|by apply Hs].
  - split; [|exact He]. by intros Hsec%Hs.
Qed.

(** C10. A configuration that is accepted always builds the registry of its rate-limit
    policies, with every declared policy in it and a positive limit for each. In staging and
    production every sensitive or critical policy of it fails closed, the one before
    authentication included, whatever the overrides and the mode say. (The registry is what
    the limiter starts from; starting it with limits enabled also needs the address of Redis,
    which the checks of the settings do not ask for.) *)
Theorem deployed_policies_fail_closed `{SettingsLibraries, RateLimitItemLaws} i s :
  Settings.Settings.validate i = Ok s ->
  exists registry,
    PolicyRegistry.build_effective_policy_registry (Settings.Settings.policy_settings s) = Ok registry /\
    forall spec, spec ∈ PolicyRegistry._REGISTERED_POLICY_SPECS ->
      exists p, registry !! spec_name spec = Some p /\ 0 < amount (RateLimitPolicy.item p) /\
        (deployed s -> RateLimitPolicySpec.sensitivity spec <> RateLimitSensitivity.normal ->
         RateLimitPolicy.fail_open p = false).
Proof.
  intros Hv. pose proof (accepted_policies i s Hv) as [Hvalid Hknown].
  destruct (accepted_settings i s Hv) as [Hsec _].
  destruct (effective_registry_built (policy_settings s) Hvalid Hknown) as (registry & Hr & _ & Hin).
  exists registry. split; [exact Hr|]. intros spec Hspec.
  destruct (Hin spec Hspec) as (p & Hp & _ & Ha & _ & Hf & _). exists p. split; [exact Hp|].
  split; [rewrite Ha; by apply enforced_limit_positive|].
  intros Hd Hs. rewrite Hf. apply guarded_closed; try assumption.
  by destruct (secure_deployed s Hsec Hd) as (_ & _ & Ho & _).
Qed.

(** ** A production configuration *)
Module Witness.
Import RateLimitFixtures.

#[export] Instance libraries : SettingsLibraries := {|
  json_loads s := None;
  py_str j := "";
  network_text n := compressed n;
  fernet_key_valid s := true;
|}.

Definition secret : string := "0123456789abcdef0123456789abcdef".

Definition production : Settings.input :=
  Settings.mk (AppSettings.mk "SaaS Template" "0.1.0" "prod" false)
    (ApiSettings.mk "/api/v1" false "/openapi.json" None None "/scalar")
    (RequestContextSettings.mk "X-Request-ID" false)
    (VaultSettings.mk false "http://vault:8200" None None "secret" "app" "token" None None false
       true false)
    (DatabaseSettings.mk (Some "postgresql+asyncpg://db.example.org/app?sslmode=verify-full"%string)
       false 10 20 30 1800 1000000 None false false)
    (RedisSettings.mk (Some "rediss://redis.example.org"%string) 500000 true false)
    (SecuritySettings.mk (Some "fernet-key"%string) None)
    (AuthSettings.mk true (Some "https://id.example.org/"%string) (Some "app"%string) None
       (AsText "web, mobile") None "rs256" 30 300 300 true true 3600 "fail" 30000000 2000000)
    (RateLimitingSettings.mk true false "rate-limit" true (AsItems ["192.0.2.17"%string]) true
       None None (Some secret) RateLimitMode.normal ∅ 1000000)
    (OutboxSettings.mk true 300000000 100)
    (InviteRetentionSettings.mk 30 30 30 500)
    (AuditSettings.mk None 365 730 2555 500)
    (ObservabilitySettings.mk false "none" None None 2000000 60000 2000)
    (ProcessorGovernanceSettings.mkInput false true None [])
    (CorsSettings.mk false Absent Absent Absent Absent false None)
    (PrivacyExportsSettings.mk false "local" ".local" 900 30 1048576 "1.0" (Some "s"%string) None None
       None false "privacy-exports" None None (Some "AES256"%string) None "virtual" 3000000 10000000 3).

Definition is_accepted : bool :=
  match Settings.Settings.validate production with Ok _ => true | Err _ => false end.

Lemma deployed_policies_fail_closed_witness :
  exists s, Settings.Settings.validate production = Ok s /\
    exists registry,
      PolicyRegistry.build_effective_policy_registry (Settings.Settings.policy_settings s) = Ok registry /\
      forall spec, spec ∈ PolicyRegistry._REGISTERED_POLICY_SPECS ->
        exists p, registry !! spec_name spec = Some p /\ 0 < amount (RateLimitPolicy.item p) /\
          (deployed s -> RateLimitPolicySpec.sensitivity spec <> RateLimitSensitivity.normal ->
           RateLimitPolicy.fail_open p = false).
Proof.
  assert (Hb : is_accepted = true) by (vm_compute; reflexivity). unfold is_accepted in Hb.
  destruct (Settings.Settings.validate production) as [s|e] eqn:Hv; [|discriminate].
  exists s. split; [reflexivity|]. exact (deployed_policies_fail_closed production s Hv).
Defined.
End Witness.
