(* ===== verification/ResponsesProofs.v ===== *)
(** What clients are told: identifiers of requests are safe to log and to send back, and an
    error becomes a document with its status, its identifier and nothing of an exception that
    was not meant for them. *)
From S2P Require Import Prelude Errors Session Schema Tables Regex RateLimitPolicies.
From S2P Require Import Requests RateLimitIngress Settings Responses.

Import Regex RequestContext.

(** ** Identifiers *)

(** Characters of an identifier: no space, no quote, no control character. *)
Definition id_char (c : ascii) : bool := is_alnum c || one_of "._-:/" c.

Lemma hex_digit_id n : (n < 16)%N -> is_alnum (Uuid.hex_digit n) = true.
Proof.
  intros Hn. destruct n as [|p]; [done|]. do 4 (destruct p as [p|p|]; try done); lia.
Qed.

Lemma hex_chars w n a :
  Text.forallb_chars id_char a = true -> Text.forallb_chars id_char (Uuid.hex w n a) = true.
Proof.
  revert n a. induction w as [|w IH]; intros n a Ha; [done|]. apply IH. cbn [Text.forallb_chars].
  unfold id_char at 1. by rewrite hex_digit_id by by apply N.mod_lt.
Qed.

Lemma hex_head w n a : exists c r, Uuid.hex (S w) n a = String c r /\ is_alnum c = true.
Proof.
  revert n a. induction w as [|w IH]; intros n a; [|apply (IH (n / 16)%N)].
  do 2 eexists. split; [reflexivity|]. by apply hex_digit_id, N.mod_lt.
Qed.

(** What the pattern says of an identifier. *)
Definition safe_id (s : string) : Prop :=
  (1 <= String.length s <= 128)%nat /\ Text.forallb_chars id_char s = true /\
  exists c r, s = String c r /\ is_alnum c = true.

Lemma pattern_safe s : _REQUEST_ID_RE s = true -> safe_id s.
Proof.
  destruct s as [|c r]; [done|]. cbn [_REQUEST_ID_RE].
  rewrite !andb_true_iff, Nat.leb_le. intros [[Hc Hr] Hl].
  split; [cbn; lia|]. split; [|eauto]. cbn [Text.forallb_chars].
  unfold id_char at 1. rewrite Hc. exact Hr.
Qed.

Lemma uuid_safe u : safe_id (Uuid.str u).
Proof.
  split; [unfold Uuid.str; repeat (rewrite Uuid.length_hex; cbn [String.length]); lia|].
  split; [|apply hex_head]. unfold Uuid.str.
  repeat (apply hex_chars; first [done|cbn [Text.forallb_chars];
    change (id_char "-") with true; cbn [andb]]).
Qed.

(** Whatever a client sends, a request runs under an identifier of at most 128 letters, digits
    and [. _ - : /] that begins with a letter or a digit: it can neither break a line of the
    log nor a header. The client's own is only taken where it is trusted. *)
Theorem request_ids_safe header trust u :
  let id := request_id header trust (Uuid.str u) in
  safe_id id /\
  (id <> Uuid.str u -> trust = true /\ exists value, header = Some value /\ id = Text.strip value).
Proof.
  unfold request_id, _extract_request_id. cbv zeta.
  destruct trust; cbn [negb]; [|by split; [apply uuid_safe|]].
  destruct header as [v|]; [|by split; [apply uuid_safe|]]. cbn [truthy].
  destruct (Text.is_empty v); [by split; [apply uuid_safe|]|].
  destruct (_ || _); [by split; [apply uuid_safe|]|].
  destruct (_REQUEST_ID_RE (Text.strip v)) eqn:Hre; [|by split; [apply uuid_safe|]].
  cbn. split; [by apply pattern_safe|]. intros _. eauto.
Qed.

(** ** Problem documents *)

Import ErrorHandlers.

(** The status a client sees of what was raised. *)
Definition status_of (exc : exn) : Z :=
  match exc with AppError c _ _ => Errors.status_code c | _ => 500 end.

(** Extra members that do not stand for one of the document's. *)
Definition extras_apart (exc : exn) : Prop :=
  match exc with
  | AppError _ _ extra => existsb (fun kv => bool_decide (kv.1 ∈ removelast ProblemDetails.fields)) extra = false
  | _ => True
  end.

(** A response with its document: the status in both, the identifier in both. *)
Record reported (header : string) (request : Req.t) (status : Z) (r : JSONResponse.t) : Prop := {
  reported_type : JSONResponse.media_type r = "application/problem+json"%string;
  reported_status : JSONResponse.status_code r = status;
  reported_in_document : ("status"%string, JInt status) ∈ JSONResponse.content r;
  reported_path : ("instance"%string, JStr (Req.path request)) ∈ JSONResponse.content r;
  reported_id id : _get_request_id request = Some id ->
    (header, id) ∈ JSONResponse.headers r /\ ("request_id"%string, JStr id) ∈ JSONResponse.content r;
}.

Lemma response_reported header request p extra status :
  ProblemDetails.status p = status ->
  ProblemDetails.request_id p = _get_request_id request ->
  ProblemDetails.instance p = Some (Req.path request) ->
  Forall (fun kv => kv.1 <> header) extra ->
  reported header request status (_problem_response request p header extra).
Proof.
  intros <- Hid Hinst Hextra. unfold _problem_response. rewrite Hid. split; cbn [JSONResponse.media_type
    JSONResponse.status_code JSONResponse.content JSONResponse.headers]; [done|done|..].
  - unfold ProblemDetails.to_dict. by right; right; left.
  - unfold ProblemDetails.to_dict. rewrite Hinst.
    apply elem_of_app; right; apply elem_of_app; right; apply elem_of_app; left. by left.
  - intros id Hg. rewrite Hg. split.
    + assert (Hsome : (if Text.is_empty (Req.context_id request) then truthy (Some id)
        else Some (Req.context_id request)) = Some id).
      { unfold _get_request_id in Hg. destruct (Text.is_empty _); [|done].
        destruct (Req.scope_id request) as [s|]; [|done]. cbn in Hg |- *.
        destruct (Text.is_empty s) eqn:Hs; [done|]. injection Hg as ->. by rewrite Hs. }
      rewrite Hsome. unfold update_headers. apply elem_of_app. left.
      apply list_elem_of_In, filter_In. split; [by left|]. apply negb_true_iff, not_true_iff_false.
      rewrite existsb_exists. intros (kv & Hin%list_elem_of_In & Heq%String.eqb_eq).
      rewrite Forall_forall in Hextra. by apply (Hextra kv Hin).
    + unfold ProblemDetails.to_dict. rewrite Hid, Hg.
      do 4 (apply elem_of_app; right). apply elem_of_app; left. by left.
Qed.

(** Every error of a handler is answered with a problem document: its status and code are the
    class's, 500 for anything that is no error of the application, it names the path, and the
    identifier of the request is in the document and in the header, inside the request's
    context and after it. Of an error that was not meant for clients nothing is told: the
    answer is the same whatever it was. *)
Theorem errors_reported header request exc headers :
  extras_apart exc -> Forall (fun kv => kv.1 <> header) headers ->
  let r := respond header request exc headers in
  reported header request (status_of exc) r /\
  match exc with
  | AppError c detail extra =>
      ("detail"%string, JStr detail) ∈ JSONResponse.content r /\
      ("error_code"%string, JStr (code_text (Errors.error_code c))) ∈ JSONResponse.content r
  | _ => forall exc' headers', (forall c detail extra, exc' <> AppError c detail extra) ->
           respond header request exc' headers' = r
  end.
Proof.
  intros Hx Hh. unfold respond. cbv zeta.
  assert (Hsame : forall e, reported header request 500 (unhandled_exception_handler header request e)).
  { intros e. unfold unhandled_exception_handler. by apply response_reported. }
  assert (Hnone : forall e e' headers', (forall c detail extra, e' <> AppError c detail extra) ->
    match e' with
    | AppError c detail extra =>
        match app_error_handler header request c detail extra headers' with
        | Ok response => response | Err e => unhandled_exception_handler header request e end
    | _ => unhandled_exception_handler header request e' end = unhandled_exception_handler header request e).
  { intros e e' headers' Hno. destruct e' as [c detail extra| | | | | | | | |]; try done.
    by destruct (Hno c detail extra). }
  destruct exc as [c detail extra| | | | | | | | |];
    try (split; [exact (Hsame _)|intros e' headers' Hno; by apply Hnone]).
  unfold extras_apart in Hx. unfold app_error_handler. rewrite Hx. split; [by apply response_reported|].
  cbn [_problem_response JSONResponse.content]. unfold ProblemDetails.to_dict. cbn [ProblemDetails.detail ProblemDetails.error_code fmap option_fmap option_map ProblemDetails.member].
  split; [by right; right; right; left|]. do 3 (apply elem_of_app; right). apply elem_of_app; left. by left.
Qed.

(** ** Witnesses *)
Module Witness.
Definition request : Req.t := Req.mk "/api/v1/organisations" "" (Some "req-1"%string).

Lemma errors_reported_witness :
  reported "X-Request-ID" request 409
    (respond "X-Request-ID" request (ConflictError "Organisation slug already exists") []) /\
  reported "X-Request-ID" request 500 (respond "X-Request-ID" request IntegrityError []).
Proof.
  split.
  - exact (proj1 (errors_reported "X-Request-ID" request
      (ConflictError "Organisation slug already exists") [] eq_refl (List.Forall_nil _))).
  - exact (proj1 (errors_reported "X-Request-ID" request IntegrityError [] I (List.Forall_nil _))).
Defined.

Lemma identifiers_examples :
  request_id (Some " trace:42 "%string) true "fresh" = "trace:42"%string /\
  request_id (Some " trace:42 "%string) false "fresh" = "fresh"%string /\
  request_id (Some "a b"%string) true "fresh" = "fresh"%string /\
  HTTPException.detail (HTTPException.mk 405 None) = None /\
  JSONResponse.status_code (http_exception_handler "X-Request-ID" request (HTTPException.mk 599 None)) = 500 /\
  _slugify_http_status_phrase "I'm a Teapot" = "im-a-teapot"%string.
Proof. split_and!; vm_compute; reflexivity. Qed.
End Witness.
