(* ===== verification/LoggingProofs.v ===== *)
(** What a line of the log withholds: the values of sensitive keys however they are spelled,
    credentials and compact tokens inside texts, and the names of mail addresses; and that
    everything else is passed on. *)
From S2P Require Import Prelude Regex Logging.

Import Regex Log Processors LogFactory.
Local Open Scope string_scope.
#[local] Arguments String.append !_ _ / : simpl nomatch.
#[local] Arguments _mask_email : simpl never.

(** ** Keys *)

(** The letters and digits of a key, in lower case. *)
Fixpoint letters (s : string) : string :=
  match s with
  | EmptyString => ""
  | String c s =>
      let c := Text.lower_char c in
      if is_lower c || is_digit c then String c (letters s) else letters s
  end.

Ltac each_char c := destruct c as [[] [] [] [] [] [] [] []].

Lemma letter_not_underscore c : is_lower c || is_digit c = true -> Ascii.eqb c "_" = false.
Proof. by each_char c. Qed.

Lemma separators_letters s : forall w b,
  without_underscores (key_separators w (Text.lower (camel_case_boundaries b s))) = letters s.
Proof.
  induction s as [|c s IH]; intros w b; [done|].
  assert (Hc : forall w, without_underscores (key_separators w (Text.lower
      (String c (camel_case_boundaries (is_lower c || is_digit c) s)))) = letters (String c s)).
  { intros w'. cbn [Text.lower key_separators letters].
    destruct (_ || _) eqn:Hc.
    - cbn [without_underscores]. by rewrite letter_not_underscore, IH.
    - destruct w'; cbn [without_underscores]; apply IH. }
  revert Hc. cbn [camel_case_boundaries]. generalize (String c (camel_case_boundaries (is_lower c || is_digit c) s)).
  intros rest Hc. destruct (b && _); [|apply Hc]. cbn [Text.lower].
  change (key_separators w (String (Text.lower_char "_") (Text.lower rest)))
    with (if w then key_separators true (Text.lower rest) else String "_" (key_separators true (Text.lower rest))).
  destruct w; cbn [without_underscores]; apply Hc.
Qed.

Lemma lstrip_letters s : without_underscores (lstrip_underscores s) = without_underscores s.
Proof.
  induction s as [|c s IH]; [done|]. cbn. destruct (Ascii.eqb c "_") eqn:E; [done|].
  cbn. by rewrite E.
Qed.

Lemma rstrip_letters s : without_underscores (rstrip_underscores s) = without_underscores s.
Proof.
  induction s as [|c s IH]; [done|]. cbn. rewrite <- IH.
  destruct (Ascii.eqb c "_") eqn:E; cbn; [|by rewrite E].
  destruct (rstrip_underscores s); cbn; by rewrite ?E.
Qed.

Lemma normalized_letters s : without_underscores (_normalize_log_key s) = letters s.
Proof. unfold _normalize_log_key. by rewrite rstrip_letters, lstrip_letters, separators_letters. Qed.

Lemma prefix_without a : forall s,
  String.prefix a s = true -> String.prefix (without_underscores a) (without_underscores s) = true.
Proof.
  induction a as [|c a IH]; intros s; [by destruct (without_underscores s)|].
  destruct s as [|d s]; [done|].
  cbn. destruct (ascii_dec c d) as [<-|]; [|done]. intros H%IH.
  destruct (Ascii.eqb c "_"); [done|]. cbn. by destruct (ascii_dec c c).
Qed.

Lemma contains_without a s :
  Text.contains a s = true -> Text.contains (without_underscores a) (without_underscores s) = true.
Proof.
  assert (Hp : forall x y, String.prefix x y = true -> Text.contains x y = true).
  { intros x [|] H; cbn [Text.contains]; by rewrite H. }
  induction s as [|c s IH]; cbn [Text.contains]; intros [H|H]%orb_true_iff; try done.
  - by apply Hp, prefix_without.
  - apply Hp. by apply (prefix_without a (String c s)).
  - cbn. destruct (Ascii.eqb c "_"); [by apply IH|].
    cbn [Text.contains]. rewrite IH by done. apply orb_true_r.
Qed.

(** A key is sensitive exactly when its letters and digits, whatever their case and whatever
    stands between them, contain those of a marker. *)
Theorem sensitive_key_spec k :
  _is_sensitive_key (KText k)
  = existsb (fun marker => Text.contains (letters marker) (letters k)) _SENSITIVE_KEY_MARKERS.
Proof.
  cbn [_is_sensitive_key]. destruct (existsb _ _SENSITIVE_KEYS) eqn:Hk.
  - apply existsb_exists in Hk as (key & Hin & Heq%String.eqb_eq).
    rewrite <- (normalized_letters k), Heq. symmetry.
    assert (Hall : forallb (fun key => existsb (fun marker =>
        Text.contains (letters marker) (without_underscores key)) _SENSITIVE_KEY_MARKERS)
        _SENSITIVE_KEYS = true) by (vm_compute; done).
    rewrite forallb_forall in Hall. by apply Hall.
  - rewrite normalized_letters.
    assert (Hall : Forall (fun marker => without_underscores marker = letters marker)
        _SENSITIVE_KEY_MARKERS) by (repeat constructor).
    induction Hall as [|marker l Hm _ IH]; [done|]. cbn [existsb]. rewrite IH, Hm. f_equal.
    destruct (Text.contains marker _) eqn:E; [|done]. symmetry.
    rewrite <- Hm, <- normalized_letters. by apply contains_without.
Qed.

(** ** Texts: what the masking of addresses does *)

Abbreviation all_chars := Text.forallb_chars (only parsing).

(** A text at whose start no run of address characters goes on. *)
Definition stops (s : string) : Prop :=
  match s with EmptyString => True | String c _ => address_char c = false end.

Lemma span_app a s : all_chars address_char a = true -> stops s -> span (a ++ s) = (a, s).
Proof.
  induction a as [|c a IH]; cbn.
  - intros _. destruct s as [|c s]; [done|]. cbn. by intros ->.
  - intros [-> Ha]%andb_prop Hs. by rewrite IH.
Qed.

Lemma span_spec s : exists a b,
  span s = (a, b) /\ s = a ++ b /\ all_chars address_char a = true /\ stops b.
Proof.
  induction s as [|c s (a & b & E & Es & Ha & Hb)]; [by exists "", ""|]. cbn.
  destruct (address_char c) eqn:Hc.
  - exists (String c a), b. rewrite E. cbn. rewrite Hc. split_and!; try done. by rewrite Es at 1.
  - by exists "", (String c s).
Qed.

Lemma match_email_spec s name domain :
  match_email s = Some (name, domain) -> exists rest,
    s = name ++ String "@" (domain ++ rest) /\ name <> "" /\ stops rest /\
    all_chars address_char name = true /\ all_chars address_char domain = true /\
    is_domain domain = true.
Proof.
  unfold match_email. destruct (span_spec s) as (a & b & -> & -> & Ha & Hb).
  destruct b as [|[[] [] [] [] [] [] [] []] b]; try done.
  destruct (span_spec b) as (d & rest & -> & -> & Hd & Hr).
  destruct (negb _) eqn:Hn; [|done]. cbn [andb]. destruct (is_domain d) eqn:Hdom; [|done].
  intros [= <- <-]. exists rest. split_and!; try done. by intros ->.
Qed.

Lemma match_email_intro name domain rest :
  name <> "" -> stops rest -> all_chars address_char name = true ->
  all_chars address_char domain = true -> is_domain domain = true ->
  match_email (name ++ String "@" (domain ++ rest)) = Some (name, domain).
Proof.
  intros Hn Hr Ha Hd Hdom. unfold match_email. rewrite span_app by done. rewrite span_app by done.
  rewrite Hdom. by destruct name.
Qed.

(** Within a run of address characters no match begins later than at its first. *)
Lemma match_email_tail c s :
  address_char c = true -> match_email (String c s) = None -> match_email s = None.
Proof.
  intros Hc Hn. destruct (match_email s) as [[n d]|] eqn:E; [|done].
  apply match_email_spec in E as (rest & -> & Hne & Hr & Hn' & Hd & Hdom).
  change (match_email (String c n ++ String "@" (d ++ rest)) = None) in Hn.
  rewrite match_email_intro in Hn; try done. cbn. by rewrite Hc.
Qed.

Lemma match_email_stops s : stops s -> match_email s = None.
Proof. destruct s as [|c s]; [done|]. intros Hc. unfold match_email.
  cbn in *. rewrite Hc. each_char c; try done. by destruct (span s).
Qed.

Lemma sub_email_skip x s : sub_email (String.length x) (x ++ s) = sub_email 0 s.
Proof. by induction x. Qed.

Lemma sub_email_match name domain rest :
  match_email (name ++ String "@" (domain ++ rest)) = Some (name, domain) ->
  _mask_email (name ++ String "@" (domain ++ rest))
  = _mask_name name ++ String "@" (domain ++ _mask_email rest).
Proof.
  intros E. pose proof (match_email_spec _ _ _ E) as (_ & _ & Hne & _).
  destruct name as [|c name]; [done|]. unfold _mask_email.
  change (String c name ++ String "@" (domain ++ rest))
    with (String c (name ++ String "@" (domain ++ rest))) in *.
  cbn [sub_email]. rewrite E.
  replace (String.length (String c name) + String.length domain)%nat
    with (String.length (name ++ String "@" domain)) by (rewrite Text.length_append; cbn; lia).
  replace (name ++ String "@" (domain ++ rest)) with ((name ++ String "@" domain) ++ rest)
    by (rewrite Text.append_assoc; done).
  rewrite sub_email_skip. unfold _mask_email_match. by rewrite Text.append_assoc.
Qed.

Lemma mask_email_none c s :
  match_email (String c s) = None -> _mask_email (String c s) = String c (_mask_email s).
Proof. intros E. unfold _mask_email. cbn [sub_email]. by rewrite E. Qed.

Lemma string_ind_length (P : string -> Prop) :
  (forall s, (forall t, (String.length t < String.length s)%nat -> P t) -> P s) -> forall s, P s.
Proof.
  intros Hstep s. remember (String.length s) as n eqn:En. revert s En.
  induction (lt_wf n) as [n _ IH]. intros s ->. apply Hstep. intros t Ht. by apply (IH _ Ht).
Qed.

(** Where a name is masked, it begins after a character that is none of an address's;
    everything else is copied. The first argument says that an address character precedes. *)
Inductive masked : bool -> string -> string -> Prop :=
  | masked_nil b : masked b "" ""
  | masked_char b c s o : masked (address_char c) s o -> masked b (String c s) (String c o)
  | masked_name name s o :
      all_chars address_char name = true -> name <> "" -> masked false s o ->
      masked false (name ++ String "@" s) (_mask_name name ++ String "@" o).

Lemma masked_run d : forall b s o,
  all_chars address_char d = true -> d <> "" -> masked true s o -> masked b (d ++ s) (d ++ o).
Proof.
  induction d as [|c d IH]; intros b s o; [done|]. cbn. intros [Hc Hd]%andb_prop _ Hm.
  constructor. rewrite Hc. destruct d as [|c' d]; [done|]. by apply IH.
Qed.

Lemma mask_email_masked s : forall b, (b = true -> match_email s = None) -> masked b s (_mask_email s).
Proof.
  induction s as [[|c s] IH] using string_ind_length; intros b Hb; [constructor|].
  destruct (match_email (String c s)) as [[n d]|] eqn:E.
  - destruct b; [by specialize (Hb eq_refl)|].
    pose proof (match_email_spec _ _ _ E) as (rest & Es & Hne & Hr & Hn & Hd & Hdom).
    rewrite Es in *. rewrite sub_email_match by done. apply masked_name; try done.
    apply masked_run; try done; [by intros ->|]. apply IH; [|by intros _; apply match_email_stops].
    rewrite Text.length_append. cbn. rewrite Text.length_append. lia.
  - rewrite mask_email_none by done. constructor. apply IH; [cbn; lia|].
    intros Hc. by apply (match_email_tail c).
Qed.

(** *** Credentials: no masking makes one *)

(** Whether a text ends in a word character; [b] stands for what precedes it. *)
Fixpoint ends_word (b : bool) (s : string) : bool :=
  match s with EmptyString => b | String c s => ends_word (is_word c) s end.

Lemma ends_word_app b x y : ends_word b (x ++ y) = ends_word (ends_word b x) y.
Proof. revert b. by induction x; intros b; cbn. Qed.

Lemma search_at_boundary_spec m s : forall b,
  search_at_boundary m b s = true <-> exists p t,
    s = p ++ t /\ boundary (ends_word b p) t = true /\ m (ends_word b p) t = true.
Proof.
  induction s as [|c s IH]; intros b; cbn [search_at_boundary]; rewrite orb_true_iff, andb_true_iff.
  - split; [intros [[? ?]|]; [by exists "", ""|done]|].
    intros ([] & [] & ? & ? & ?); simplify_eq/=; auto.
  - rewrite IH. split.
    + intros [[? ?]|(p & t & -> & ? & ?)]; [by exists "", (String c s)|by exists (String c p), t].
    + intros ([|d p] & t & E & ? & ?); cbn in E; [left; by rewrite E|].
      injection E as -> ->. right. by exists p, t.
Qed.

Lemma match_to_boundary_spec s : forall r b,
  match_to_boundary r b s = true <-> exists u v,
    s = u ++ v /\ lang r u /\ boundary (ends_word b u) v = true.
Proof.
  induction s as [|c s IH]; intros r b; cbn [match_to_boundary];
    rewrite orb_true_iff, andb_true_iff, nullable_spec.
  - split; [intros [[? ?]|]; [by exists "", ""|done]|].
    intros ([] & [] & ? & ? & ?); simplify_eq/=; auto.
  - rewrite IH. split.
    + intros [[? ?]|(u & v & -> & H & ?)]; [by exists "", (String c s)|].
      exists (String c u), v. split_and!; [done|by apply lang_deriv_1|done].
    + intros ([|d u] & v & E & H & ?); cbn in E; [left; by rewrite E|].
      injection E as -> ->. right. exists u, v. split_and!; [done|by apply lang_deriv_2|done].
Qed.

(** A credential is a word of two characters or more, none of which masking writes, and
    white space. *)
Definition word_char (c : ascii) : bool := address_char c && negb (Ascii.eqb c "*").

Definition shaped (w sp : string) : Prop :=
  (2 <= String.length w)%nat /\ all_chars word_char w = true /\ all_chars Text.is_space sp = true.

Lemma all_chars_impl (p q : ascii -> bool) s :
  (forall c, p c = true -> q c = true) -> all_chars p s = true -> all_chars q s = true.
Proof. intros H. induction s as [|c s IH]; [done|]. cbn. intros [? ?]%andb_prop. by rewrite H, IH. Qed.

(** Every class of an expression lies in [q]. *)
Fixpoint within (q : ascii -> bool) (r : re) : Prop :=
  match r with
  | Nothing | Empty => True
  | Chr p => forall c, p c = true -> q c = true
  | Cat a b | Alt a b => within q a /\ within q b
  | Star a => within q a
  end.

Lemma lang_within q r s : lang r s -> within q r -> all_chars q s = true.
Proof.
  induction 1 as [|p c Hp|a b u v Hu IHu Hv IHv|a b u Hu IHu|a b u Hu IHu|a|a u v Hu IHu Hv IHv];
    cbn [within]; try tauto.
  - intros Hq. cbn. by rewrite Hq.
  - intros [? ?]. by rewrite Text.forallb_chars_append, IHu, IHv.
  - intros ?. by rewrite Text.forallb_chars_append, IHu, IHv.
Qed.

Lemma within_at_least q p n : (forall c, p c = true -> q c = true) -> within q (at_least n (Chr p)).
Proof. intros H. by induction n. Qed.

Lemma lang_cat_inv a b s : lang (Cat a b) s -> exists u v, s = u ++ v /\ lang a u /\ lang b v.
Proof. inversion 1; subst. eauto. Qed.

Lemma at_least_length p n s : lang (at_least n (Chr p)) s -> (n <= String.length s)%nat.
Proof.
  revert s. induction n as [|n IH]; intros s H; [lia|].
  apply lang_cat_inv in H as (u & v & -> & Hu & Hv%IH). inversion Hu. cbn. lia.
Qed.

Lemma literal_length l w : lang (literal_ignoring_case l) w -> String.length w = String.length l.
Proof.
  revert w. induction l as [|c l IH]; intros w H; [by inversion H|].
  apply lang_cat_inv in H as (u & v & -> & Hu & Hv%IH). inversion Hu. cbn. lia.
Qed.

Lemma auth_shaped u : lang auth_header u -> exists w sp, u = w ++ sp /\ shaped w sp /\ sp <> "".
Proof.
  intros (w & sp & -> & Hw & Hsp)%lang_cat_inv. exists w, sp. split; [done|]. split; [split|].
  - inversion Hw as [| | |? ? ? H|? ? ? H| |]; subst;
      first [apply (literal_length "bearer") in H|apply (literal_length "basic") in H]; rewrite H; cbn; lia.
  - split; [|apply (lang_within _ _ _ Hsp); split; exact (fun _ H => H)].
    apply (lang_within _ _ _ Hw). split; repeat split; intros c; by each_char c.
  - intros ->. apply lang_cat_inv in Hsp as ([] & v & E & Hu & _); [by inversion Hu|done].
Qed.

Lemma jwt_shaped u : lang jwt_compact u -> shaped u "".
Proof.
  intros Hu. split; [|split; [|done]].
  - apply lang_cat_inv in Hu as (a & b & -> & Ha%at_least_length & _). rewrite Text.length_append. lia.
  - apply (lang_within _ _ _ Hu).
    assert (Hseg : within word_char (at_least 8 (Chr jwt_char)))
      by (apply within_at_least; intros c; by each_char c).
    assert (Hdot : within word_char (Chr (Ascii.eqb "."))) by (intros c; by each_char c).
    unfold jwt_compact. cbn [within]. tauto.
Qed.

(** The two first characters of a masked name are not both a credential's. *)
Lemma mask_name_cases name : name <> "" ->
  (exists m, _mask_name name = String "*" m /\ all_chars (Ascii.eqb "*") m = true
     /\ (String.length m <= 1)%nat) \/
  (exists c r d, name = String c r /\ _mask_name name = String c ("***" ++ String d "")).
Proof.
  destruct name as [|c [|d [|e r]]]; [done| | |]; intros _.
  - left. exists "". split_and!; [done..|cbn; lia].
  - left. exists "*". by split_and!.
  - right. do 3 eexists. split; reflexivity.
Qed.

Lemma masked_word w : forall s v,
  all_chars word_char w = true -> w <> "" -> masked true s (w ++ v) ->
  exists s', s = w ++ s' /\ masked true s' v.
Proof.
  induction w as [|c w IH]; [done|]. cbn. intros s v [Hc Hw]%andb_prop _ Hm.
  inversion Hm as [|b c' s' o' Hm'|]; subst.
  unfold word_char in Hc. apply andb_prop in Hc as [Hc _]. rewrite Hc in Hm'.
  destruct w as [|c' w]; [by exists s'|].
  destruct (IH s' v) as (s'' & -> & ?); [done..|]. by exists s''.
Qed.

Lemma space_not_address c : Text.is_space c = true -> address_char c = false /\ c <> "*"%char.
Proof. by each_char c. Qed.

Lemma masked_spaces sp : forall b s v,
  all_chars Text.is_space sp = true -> sp <> "" -> masked b s (sp ++ v) -> exists s', s = sp ++ s'.
Proof.
  induction sp as [|c sp IH]; [done|]. cbn. intros b s v [Hc Hsp]%andb_prop _ Hm.
  destruct (space_not_address c Hc) as [Ha Hstar].
  inversion Hm as [|b' c' s' o' Hm'|name s' o' Hrun Hne Hm' Eb Es Eo]; subst.
  - destruct sp as [|d sp]; [by exists s'|].
    destruct (IH _ s' v Hsp ltac:(done) Hm') as (s'' & ->). by exists s''.
  - exfalso. destruct (mask_name_cases name Hne) as [(m & E & _)|(d & r & e & -> & E)];
      rewrite E in Eo; cbn in Eo; injection Eo as Eo _; [congruence|].
    cbn in Hrun. apply andb_prop in Hrun as [Hrun _]. congruence.
Qed.

Lemma masked_shaped b s w sp v :
  shaped w sp -> masked b s (w ++ sp ++ v) -> exists v',
  s = w ++ sp ++ v' /\ (sp = "" -> masked true v' v).
Proof.
  intros (Hlen & Hw & Hsp) Hm. destruct w as [|c w]; cbn in Hlen; [lia|].
  cbn in Hw. apply andb_prop in Hw as [Hc Hw].
  inversion Hm as [|b' c' s' o' Hm'|name s' o' Hrun Hne Hm' Eb Es Eo]; subst.
  - pose proof Hc as [Ha _]%andb_prop. rewrite Ha in Hm'.
    apply masked_word in Hm' as (s'' & -> & Hm'); [|done|by destruct w; cbn in Hlen; [lia|]].
    destruct sp as [|d sp]; [by exists s''|].
    destruct (masked_spaces (String d sp) true s'' v) as (v' & ->); [done..|]. by exists v'.
  - exfalso. destruct w as [|d w]; [cbn in Hlen; lia|]. cbn in Hw. apply andb_prop in Hw as [Hd _].
    destruct (mask_name_cases name Hne) as [(m & E & _)|(x & r & e & -> & E)];
      rewrite E in Eo; cbn in Eo; injection Eo; intros; subst; [by cbn in Hc|].
    by cbn in Hd.
Qed.

Lemma past_name name o w sp v p :
  name <> "" -> shaped w sp -> _mask_name name ++ String "@" o = p ++ w ++ sp ++ v ->
  exists p', p = _mask_name name ++ String "@" p' /\ o = p' ++ w ++ sp ++ v.
Proof.
  intros Hne (Hlen & Hw & _). destruct w as [|c [|d w]]; cbn in Hlen; [lia..|].
  cbn in Hw. apply andb_prop in Hw as [Hc [Hd _]%andb_prop].
  assert (Hstep : forall q r, String "*" q = r ++ String c (String d w) ++ sp ++ v ->
    exists r', r = String "*" r' /\ q = r' ++ String c (String d w) ++ sp ++ v).
  { intros q [|e r] E; cbn in E; injection E as <- E; [done|]. by exists r. }
  assert (Hat : forall q r, String "@" q = r ++ String c (String d w) ++ sp ++ v ->
    exists r', r = String "@" r' /\ q = r' ++ String c (String d w) ++ sp ++ v).
  { intros q [|e r] E; cbn in E; injection E as <- E; [done|]. by exists r. }
  destruct (mask_name_cases name Hne) as [(m & -> & Hm & Hl)|(x & r & e & -> & ->)]; cbn; intros E.
  - apply Hstep in E as (p1 & -> & E). destruct m as [|y [|]]; cbn in Hl, E; [| |lia].
    + apply Hat in E as (p2 & -> & E). by exists p2.
    + cbn [Text.forallb_chars] in Hm. apply andb_prop in Hm as [<-%Ascii.eqb_eq _].
      apply Hstep in E as (p2 & -> & E). apply Hat in E as (p3 & -> & E). by exists p3.
  - destruct p as [|y p]; cbn in E; [by injection E as _ <- _|]. injection E as -> E.
    do 3 (apply Hstep in E as (? & -> & E)).
    match type of E with _ = ?x ++ _ => destruct x as [|z p] end; cbn in E.
    + by injection E as _ <- _.
    + injection E as -> E. apply Hat in E as (p' & -> & E). by exists p'.
Qed.

(** Where a masked text has a credential the text has it, between the same neighbours. *)
Lemma masked_find b s o :
  masked b s o -> forall p w sp v, shaped w sp -> o = p ++ w ++ sp ++ v -> exists p' v',
  s = p' ++ w ++ sp ++ v' /\ (forall x, ends_word x p = ends_word x p') /\
  (sp = "" -> masked true v' v).
Proof.
  induction 1 as [b|b c s o Hm IH|name s o Hrun Hne Hm IH]; intros p w sp v Hsh E.
  - destruct Hsh as [Hlen _]. apply (f_equal String.length) in E.
    rewrite !Text.length_append in E. cbn in E. lia.
  - destruct p as [|d p]; cbn in E.
    + assert (Hm' : masked b (String c s) (w ++ sp ++ v)) by (rewrite <- E; by constructor).
      apply masked_shaped in Hm' as (v' & -> & ?); [|done]. by exists "", v'.
    + injection E as <- E. destruct (IH p w sp v Hsh E) as (p' & v' & -> & Hp & ?).
      exists (String c p'), v'. split_and!; try done. intros x. apply Hp.
  - apply past_name in E as (p1 & -> & E); [|done..].
    destruct (IH p1 w sp v Hsh E) as (p' & v' & -> & Hp & ?).
    exists (name ++ String "@" p'), v'. split_and!; [by rewrite Text.append_assoc| |done].
    intros x. rewrite !ends_word_app. apply Hp.
Qed.

Lemma masked_head s o : masked true s o -> head_is_word s = head_is_word o.
Proof. by inversion 1. Qed.

Lemma shaped_boundary b w sp v v' : shaped w sp -> boundary b (w ++ v) = boundary b (w ++ v').
Proof. intros (Hlen & _). destruct w; cbn in Hlen; [lia|done]. Qed.

Lemma masking_makes_no_credential s :
  _is_sensitive_string_value (_mask_email s) = true -> _is_sensitive_string_value s = true.
Proof.
  pose proof (mask_email_masked s false ltac:(done)) as Hm. unfold _is_sensitive_string_value.
  rewrite !orb_true_iff. unfold _AUTH_HEADER_VALUE_RE, _JWT_COMPACT_RE.
  rewrite !search_at_boundary_spec. intros [(p & t & E & Hb & Ht)|(p & t & E & Hb & Ht)].
  - left. apply match_prefix_spec in Ht as (u & v & -> & Hu).
    destruct (auth_shaped u Hu) as (w & sp & -> & Hsh & Hsp). rewrite Text.append_assoc in E, Hb.
    destruct (masked_find _ _ _ Hm p w sp v Hsh E) as (p' & v' & -> & Hp & _).
    exists p', (w ++ sp ++ v'). rewrite <- Hp. split_and!; [done| |].
    + by rewrite (shaped_boundary _ w sp _ (sp ++ v)).
    + apply match_prefix_spec. exists (w ++ sp), v'. by rewrite Text.append_assoc.
  - right. apply match_to_boundary_spec in Ht as (u & v & -> & Hu & Hv).
    pose proof (jwt_shaped u Hu) as Hsh.
    destruct (masked_find _ _ _ Hm p u "" v Hsh E) as (p' & v' & -> & Hp & Hv').
    exists p', (u ++ v'). rewrite <- Hp. split_and!; [done| |].
    + by rewrite (shaped_boundary _ u "" _ v).
    + apply match_to_boundary_spec. exists u, v'. split_and!; [done..|].
      unfold boundary in *. by rewrite (masked_head _ _ (Hv' eq_refl)).
Qed.

(** *** Addresses: no name stays in clear *)

Lemma mask_email_stops s : stops s -> stops (_mask_email s).
Proof.
  destruct s as [|c s]; [done|]. intros Hc. rewrite mask_email_none; [done|]. by apply match_email_stops.
Qed.

(** Without a match at its start a run is copied. *)
Lemma mask_email_run a : forall b,
  all_chars address_char a = true -> stops b -> match_email (a ++ b) = None ->
  _mask_email (a ++ b) = a ++ _mask_email b.
Proof.
  induction a as [|c a IH]; [done|]. cbn. intros b [Hc Ha]%andb_prop Hb Hn.
  rewrite mask_email_none by done. rewrite IH; try done. by apply (match_email_tail c).
Qed.

Lemma run_split d : forall r x y,
  all_chars address_char d = true -> stops y -> d ++ r = x ++ y -> exists z, x = d ++ z /\ r = z ++ y.
Proof.
  induction d as [|c d IH]; intros r x y; [by exists x|].
  cbn. intros [Hc Hd]%andb_prop Hy E. destruct x as [|c' x]; cbn in E.
  - subst y. cbn in Hy. congruence.
  - injection E as <- E. destruct (IH _ _ _ Hd Hy E) as (z & -> & ->). by exists z.
Qed.

Lemma no_run_left z : all_chars address_char z = true -> stops z -> z = "".
Proof. destruct z as [|c z]; [done|]. cbn. intros [Hc _]%andb_prop. congruence. Qed.

Lemma run_exact n r a y :
  all_chars address_char n = true -> all_chars address_char a = true -> stops r -> stops y ->
  n ++ r = a ++ y -> n = a /\ r = y.
Proof.
  intros Hn Ha Hr Hy E. destruct (run_split n r a y Hn Hy E) as (z & -> & ->).
  rewrite Text.forallb_chars_append in Ha. apply andb_prop in Ha as [_ Hz].
  rewrite (no_run_left z); [by rewrite Text.append_nil_r| |].
  - done.
  - by destruct z.
Qed.

Lemma is_domain_app d z : is_domain d = true -> is_domain (d ++ z) = true.
Proof.
  assert (Hdot : forall d, dot_inside d = true -> dot_inside (d ++ z) = true).
  { clear d. induction d as [|c d IH]; [done|]. cbn.
    intros [[-> H]%andb_prop|H]%orb_true_iff; apply orb_true_iff; [left|right; by apply IH].
    by destruct d. }
  destruct d as [|c d]; [done|]. apply Hdot.
Qed.

(** A masked name is a run of its own, and none that a dot divides. *)
Lemma mask_name_run name : all_chars address_char name = true -> all_chars address_char (_mask_name name) = true.
Proof.
  destruct name as [|c [|d [|e r]]]; try done. intros H.
  assert (Hlast : forall r x, all_chars address_char (String x r) = true -> address_char (last_char x r) = true).
  { clear. induction r as [|y r IH]; cbn; intros x [Hx Hr]%andb_prop; [done|by apply IH]. }
  cbn in H. apply andb_prop in H as [Hc [Hd He]%andb_prop].
  assert (Hl : address_char (last_char e r) = true) by by apply Hlast.
  cbn. by rewrite Hc, Hl.
Qed.

Lemma mask_name_no_domain name : is_domain (_mask_name name) = false.
Proof.
  destruct name as [|c [|d [|e r]]]; try done. cbn. by rewrite andb_false_r.
Qed.

Lemma domain_nonempty d : is_domain d = true -> d <> "".
Proof. by intros H ->. Qed.

(** An address at the start of a masked text has a masked name. *)
Lemma mask_email_first s n d r :
  _mask_email s = n ++ String "@" (d ++ r) -> n <> "" -> all_chars address_char n = true ->
  all_chars address_char d = true -> is_domain d = true -> exists name, n = _mask_name name.
Proof.
  intros E Hn0 Hn Hd Hdom. destruct (match_email s) as [[n' d']|] eqn:Em.
  - pose proof (match_email_spec _ _ _ Em) as (rest & -> & _ & _ & Hrun & _).
    rewrite sub_email_match in E by done. exists n'. symmetry.
    by apply run_exact in E as [? _]; [|by apply mask_name_run|..].
  - destruct (span_spec s) as (a & b & _ & -> & Ha & Hb).
    rewrite mask_email_run in E by done.
    apply run_exact in E as [-> E]; [|done..|by apply mask_email_stops|done].
    destruct b as [|c b]; [done|].
    rewrite mask_email_none in E by by apply match_email_stops. injection E as -> E.
    destruct (span_spec b) as (a' & b' & _ & -> & Ha' & Hb').
    assert (Hno : is_domain a' = false).
    { destruct (is_domain a') eqn:Hdom'; [|done]. by rewrite match_email_intro in Em. }
    exfalso. destruct (match_email (a' ++ b')) as [[n' d']|] eqn:Em'.
    + pose proof (match_email_spec _ _ _ Em') as (rest & Es & _ & _ & Hrun & _).
      rewrite Es in Em', E. rewrite sub_email_match in E by done.
      destruct (run_split d r (_mask_name n') (String "@" (d' ++ _mask_email rest))) as (z & Ez & _);
        [done..|]. pose proof (mask_name_no_domain n') as Hm. rewrite Ez, is_domain_app in Hm; done.
    + rewrite mask_email_run in E by done.
      destruct (run_split d r a' (_mask_email b')) as (z & -> & _); [done|by apply mask_email_stops|done|].
      by rewrite is_domain_app in Hno.
Qed.

(** White space separates: what follows it is the masking of a text. *)
Lemma past_run q : forall y p c o,
  all_chars (fun c => negb (Text.is_space c)) q = true -> Text.is_space c = true ->
  q ++ y = p ++ String c o -> exists p', y = p' ++ String c o.
Proof.
  induction q as [|x q IH]; intros y p c o; [by exists p|].
  cbn. intros [Hx Hq]%andb_prop Hc E. destruct p as [|x' p]; cbn in E; injection E as -> E.
  - by rewrite Hc in Hx.
  - by apply (IH y p c o).
Qed.

Lemma mask_email_after s : forall p c o,
  _mask_email s = p ++ String c o -> Text.is_space c = true -> exists s', _mask_email s' = o.
Proof.
  induction s as [[|x s] IH] using string_ind_length; intros p c o E Hc; [by destruct p|].
  destruct (match_email (String x s)) as [[n d]|] eqn:Em.
  - pose proof (match_email_spec _ _ _ Em) as (rest & Es & _ & _ & Hn & Hd & _).
    rewrite Es in Em, E, IH. rewrite sub_email_match in E by done.
    assert (Hrun : forall t, all_chars address_char t = true ->
        all_chars (fun c => negb (Text.is_space c)) t = true).
    { intros t. apply all_chars_impl. intros y. unfold address_char. by intros [_ ?]%andb_prop. }
    apply past_run in E as (p1 & E); [|by apply Hrun, mask_name_run|done].
    change (String "@" d ++ _mask_email rest = p1 ++ String c o) in E.
    apply past_run in E as (p2 & E); [|exact (Hrun d Hd)|done].
    apply (IH rest) in E; [done| |done]. rewrite Text.length_append. cbn. rewrite Text.length_append. lia.
  - rewrite mask_email_none in E by done. destruct p as [|y p]; cbn in E; injection E as -> E.
    + by exists s.
    + apply (IH s) in E; [done|cbn; lia|done].
Qed.

(** ** Entries *)

(** A key whose letters and digits contain those of a marker. *)
Definition secret_key (k : key) : bool :=
  match k with
  | KOther _ => false
  | KText k => existsb (fun marker => Text.contains (letters marker) (letters k)) _SENSITIVE_KEY_MARKERS
  end.

Lemma sensitive_secret k : _is_sensitive_key k = secret_key k.
Proof. destruct k as [k|n]; [|done]. apply sensitive_key_spec. Qed.

(** Somewhere in a text a word begins that is the scheme of an authorization header with white
    space, or three segments of a compact token up to the end of a word. *)
Definition credential (s : string) : Prop :=
  exists before u after, s = before ++ u ++ after /\ boundary (ends_word false before) (u ++ after) = true /\
    (lang auth_header u \/
     lang jwt_compact u /\ boundary (ends_word (ends_word false before) u) after = true).

Lemma credential_spec s : _is_sensitive_string_value s = true <-> credential s.
Proof.
  unfold _is_sensitive_string_value. rewrite orb_true_iff.
  unfold _AUTH_HEADER_VALUE_RE, _JWT_COMPACT_RE. rewrite !search_at_boundary_spec. split.
  - intros [(p & t & -> & Hb & Ht)|(p & t & -> & Hb & Ht)].
    + apply match_prefix_spec in Ht as (u & v & -> & Hu). exists p, u, v. auto.
    + apply match_to_boundary_spec in Ht as (u & v & -> & Hu & Hv). exists p, u, v. auto.
  - intros (p & u & v & -> & Hb & [Hu|[Hu Hv]]); [left|right]; exists p, (u ++ v); split_and!; try done.
    + apply match_prefix_spec. eauto.
    + apply match_to_boundary_spec. eauto.
Qed.

(** A text shows no credential; where it shows an address, at the start of a word, the name
    is masked. *)
Definition discreet_text (s : string) : Prop :=
  ~ credential s /\
  forall before name domain after,
    s = before ++ name ++ String "@" (domain ++ after) ->
    before = "" \/ (exists b c, before = b ++ String c "" /\ Text.is_space c = true) ->
    name <> "" -> all_chars address_char name = true ->
    all_chars address_char domain = true -> is_domain domain = true ->
    exists n, name = _mask_name n.

(** Sensitive keys have the mark for a value, at any depth, and texts are discreet. *)
Fixpoint discreet (v : value) : Prop :=
  match v with
  | VNone | VOther _ => True
  | VText s => discreet_text s
  | VList l | VTuple l => foldr (fun v P => discreet v /\ P) True l
  | VMapping m =>
      foldr (fun kv P => (if secret_key kv.1 then kv.2 = VText _REDACTED else discreet kv.2) /\ P)
        True m
  end.

(** Nothing to withhold: no sensitive key, no credential, no address. *)
Fixpoint plain (v : value) : Prop :=
  match v with
  | VNone | VOther _ => True
  | VText s => _is_sensitive_string_value s = false /\ Text.contains "@" s = false
  | VList l | VTuple l => foldr (fun v P => plain v /\ P) True l
  | VMapping m => foldr (fun kv P => (_is_sensitive_key kv.1 = false /\ plain kv.2) /\ P) True m
  end.

Lemma contains_at s t : Text.contains "@" (s ++ String "@" t) = true.
Proof.
  induction s as [|c s IH]; [by destruct t|]. cbn [String.append Text.contains].
  rewrite IH. apply orb_true_r.
Qed.

Lemma no_address_discreet s :
  _is_sensitive_string_value s = false -> Text.contains "@" s = false -> discreet_text s.
Proof.
  intros Hs Hno. split; [rewrite <- credential_spec; congruence|]. intros p n d r -> _. rewrite <- Text.append_assoc, contains_at in Hno.
  done.
Qed.

Lemma masked_discreet s :
  _is_sensitive_string_value s = false -> discreet_text (_mask_email s).
Proof.
  intros Hs. split.
  - intros E%credential_spec%masking_makes_no_credential. congruence.
  - intros p n d r E Hp Hn Hrun Hd Hdom.
    assert (Hs' : exists s', _mask_email s' = n ++ String "@" (d ++ r)).
    { destruct Hp as [->|(b & c & -> & Hc)]; [by exists s|].
      rewrite Text.append_assoc in E. by apply (mask_email_after s b c). }
    destruct Hs' as (s' & E'). by apply (mask_email_first s' n d r).
Qed.

Lemma mapping_sanitized m : _sanitize_value (VMapping m) = VMapping (_sanitize_mapping m).
Proof. cbn. f_equal. induction m as [|[k v] m IH]; [done|]. cbn. by rewrite IH. Qed.

Lemma sanitized_discreet v : discreet (_sanitize_value v).
Proof.
  induction v as [|s|n|l IH|l IH|m IH] using value_ind'; try done.
  - cbn. destruct (_is_sensitive_string_value s) eqn:Hs; [by apply no_address_discreet|].
    destruct (Text.contains "@" s) eqn:Hat; [by apply masked_discreet|by apply no_address_discreet].
  - cbn. by induction IH.
  - cbn. by induction IH.
  - rewrite mapping_sanitized. cbn. induction IH as [|[k v] m Hv _ IHm]; [done|].
    cbn. split; [|done]. rewrite <- sensitive_secret. by destruct (_is_sensitive_key k).
Qed.

Lemma plain_sanitized v : plain v -> _sanitize_value v = v.
Proof.
  assert (Hmap : forall l, Forall (fun v => plain v -> _sanitize_value v = v) l ->
      foldr (fun v P => plain v /\ P) True l -> _sanitize_value <$> l = l).
  { induction 1 as [|v' l Hv _ IH]; [done|]. cbn. intros [Hp Hl]. by rewrite Hv, IH. }
  induction v as [|s|n|l IH|l IH|m IH] using value_ind'; try done.
  - cbn. by intros [-> ->].
  - intros Hp. cbn. by rewrite (Hmap l IH).
  - intros Hp. cbn. by rewrite (Hmap l IH).
  - intros Hp. rewrite mapping_sanitized. f_equal. revert Hp. unfold _sanitize_mapping.
    induction IH as [|[k v] m Hv _ IHm]; [done|]. cbn in *. intros [[Hk Hp] Hm].
    by rewrite Hk, (Hv Hp), IHm.
Qed.

Lemma dropped_discreet d : discreet (VMapping d) -> discreet (VMapping (drop_none_values d)).
Proof.
  cbn. induction d as [|[k v] d IH]; [done|]. cbn. intros [Hkv Hd%IH]. by destruct v.
Qed.

(** C22. Whatever an event carries and whatever structlog adds to it, the entry that is rendered
    withholds its secrets: under a key that is sensitive in any spelling, at any depth, there
    is the mark and nothing else; no text holds a bearer or basic credential or a compact
    token; the name of an address shows its ends at most; and no field is None. *)
Theorem log_entries_discreet `{StructLog} service_name environment version request_id d :
  let entry := processed service_name environment version request_id d in
  discreet (VMapping entry) /\ Forall (fun kv => kv.2 <> VNone) entry.
Proof.
  unfold processed, shared_processors. cbn [foldl]. split.
  - apply dropped_discreet. unfold redact_sensitive_fields.
    rewrite <- mapping_sanitized. apply sanitized_discreet.
  - generalize (redact_sensitive_fields
      (ensure_category "application" (add_request_id request_id
        (add_service_context service_name environment version
          (timestamper (add_logger_name (add_log_level (merge_contextvars d)))))))) as e.
    induction e as [|[k v] e IH]; [done|]. cbn. destruct v; try done; by constructor.
Qed.

(** Redaction costs nothing else: an entry with nothing to withhold is passed on unchanged. *)
Theorem plain_entries_kept d : plain (VMapping d) -> redact_sensitive_fields d = d.
Proof.
  intros Hp%plain_sanitized. rewrite mapping_sanitized in Hp. by injection Hp.
Qed.

(** Of a name that is masked only the first and the last character are kept, and whether it
    has more than two: names that agree in these look the same wherever they stand. *)
Theorem masked_names_alike first middle middle' last domain after :
  middle <> "" -> middle' <> "" ->
  let address := fun middle => String first (middle ++ String last "") ++ String "@" (domain ++ after) in
  all_chars address_char (String first (middle ++ String last "")) = true ->
  all_chars address_char (String first (middle' ++ String last "")) = true ->
  all_chars address_char domain = true -> is_domain domain = true -> stops after ->
  _mask_email (address middle) = _mask_email (address middle').
Proof.
  cbv beta zeta. intros Hm Hm' Hrun Hrun' Hd Hdom Hafter.
  rewrite !sub_email_match by by apply match_email_intro. f_equal.
  assert (Hlast : forall s x, last_char x (s ++ String last "") = last)
    by (clear; induction s as [|y s IH]; intros x; [done|apply IH]).
  assert (Hname : forall s, s <> "" ->
      _mask_name (String first (s ++ String last "")) = String first ("***" ++ String last "")).
  { intros [|x [|y s]] Hs; [done..|]. cbn. by rewrite Hlast. }
  by rewrite !Hname.
Qed.

Module Witness.

Definition event : event_dict :=
  [(KText "event", VText "user_loaded"); (KText "attempts", VOther 3);
   (KText "roles", VList [VText "owner"; VNone])].

Lemma plain_entries_kept_witness : redact_sensitive_fields event = event.
Proof. apply plain_entries_kept. vm_compute. tauto. Defined.

Lemma masked_names_alike_witness :
  _mask_email "alice@example.com, hello" = _mask_email "abe@example.com, hello".
Proof.
  apply (masked_names_alike "a" "lic" "b" "e" "example.com," " hello"); done.
Defined.

End Witness.
