(* ===== verification/AuthenticationProofs.v ===== *)
(** Authentication: whoever gets through holds a token signed by a key the identity provider
    serves, whatever requests run at the same time; unknown keys make the validator ask for
    new ones only so often. *)
From S2P Require Import Prelude Errors Session Schema Users RateLimitPolicies RateLimitIngress.
From S2P Require Import Settings Coroutines Authentication SettingsProofs.
Import JwtValidator.

Section Provenance.
Context `{Jwt}.
Variable auth_settings : AuthSettings.t.
(** What the identity provider may answer at an address. *)
Variable answers : string -> json -> Prop.

(** A discovery document of the issuer. *)
Definition discovered (document : dict) : Prop :=
  exists issuer, truthy (AuthSettings.issuer_url auth_settings) = Some issuer /\
    answers (strip_slashes issuer ++ "/.well-known/openid-configuration") (JObj document).

(** The address of the keys: the configured one, or one that was discovered. *)
Definition keys_address (url : string) : Prop :=
  AuthSettings.jwks_url auth_settings = Some url \/
  (AuthSettings.jwks_url auth_settings = None /\
   exists document, discovered document /\ dict_get "jwks_uri" document = Some (JStr url) /\
     url <> ""%string).

(** A set of keys served there. *)
Definition served (jwks : dict) : Prop :=
  exists url, keys_address url /\ answers url (JObj jwks) /\
    exists key keys, dict_get "keys" jwks = Some (JArr (key :: keys)).

(** The key a header names: the first of its identifier in a set that was served. *)
Definition published_key (header : dict) (key : signing_key) : Prop :=
  exists jwks keys jwk from_jwk,
    served jwks /\ dict_get "keys" jwks = Some (JArr keys) /\
    first_key (dict_get "kid" header) keys = Some jwk /\
    dict_get "kty" jwk = Some (JStr "RSA") /\
    rs256_from_jwk = Some from_jwk /\ from_jwk (JObj jwk) = Ok key.

(** The claims are those of a token that was issued to an allowed client for a bounded time. *)
Definition claims_acceptable (claims : dict) : Prop :=
  (AuthSettings.allowed_authorized_parties auth_settings <> [] ->
   exists azp, dict_get "azp" claims = Some (JStr azp) /\
     azp ∈ AuthSettings.allowed_authorized_parties auth_settings) /\
  exists exp, as_int (dict_get "exp" claims) = Some exp /\
    (AuthSettings.require_iat auth_settings = true -> as_int (dict_get "iat" claims) <> None) /\
    (forall iat, as_int (dict_get "iat" claims) = Some iat ->
       iat <= exp <= iat + AuthSettings.max_token_lifetime_seconds auth_settings).

(** A token the validator accepts at a time, with its claims. *)
Definition accepted (token : string) (now : datetime) (claims : dict) : Prop :=
  AuthSettings.enabled auth_settings = true /\
  exists header key,
    get_unverified_header token = Ok (JObj header) /\
    dict_get "alg" header = Some (JStr (AuthSettings.algorithms auth_settings)) /\
    (AuthSettings.require_kid auth_settings = true ->
     exists kid, dict_get "kid" header = Some (JStr kid)) /\
    published_key header key /\
    decode_token auth_settings token key now = Ok (JObj claims) /\
    claims_acceptable claims.

(** The caches hold what was served. *)
Definition caches_sound (s : state) : Prop :=
  (forall e, _discovery_cache s = Some e -> discovered (CacheEntry.value e)) /\
  (forall e, _jwks_cache s = Some e -> served (CacheEntry.value e)).

(** A forced refresh is allowed a cooldown after the one before it. *)
Definition cooled (last now : Z) : Prop :=
  last + AuthSettings.jwks_refresh_cooldown_seconds auth_settings <= now.

Abbreviation runs :=
  (cwp caches_sound answers _last_forced_jwks_refresh_at cooled (fun _ => True) True 0).

(** [m] ends with [P], leaving the lock as it found it. *)
Definition yields {A} (own : option (Z * nat)) (seen : Z) (P : A -> Prop) (m : M A) : Prop :=
  runs own seen (fun o a => o = own /\ P a) (fun o _ => o = own) m.

Lemma yields_ret {A} own seen (P : A -> Prop) a : P a -> yields own seen P (Ret a).
Proof. done. Qed.

Lemma yields_raise {A} own seen (P : A -> Prop) e : yields own seen P (Raise e).
Proof. done. Qed.

Lemma yields_bind {A B} own seen (P : A -> Prop) (P' : B -> Prop) m f :
  yields own seen P m -> (forall a, P a -> yields own seen P' (f a)) ->
  yields own seen P' (m ≫= f).
Proof.
  intros Hm Hf. apply cwp_bind. eapply cwp_mono; [exact Hm| |done].
  intros o a [-> Ha]. by apply Hf.
Qed.

Lemma yields_map {A B} own seen (P : B -> Prop) (g : A -> B) m :
  yields own seen (fun a => P (g a)) m -> yields own seen P (g <$> m).
Proof. intros Hm. eapply yields_bind; [exact Hm|]. by intros. Qed.

Lemma yields_mono {A} own seen (P P' : A -> Prop) m :
  yields own seen P m -> (forall a, P a -> P' a) -> yields own seen P' m.
Proof. intros Hm HP. eapply cwp_mono; [exact Hm| |done]. intros o a [-> Ha]. auto. Qed.

Lemma yields_lift {A} own seen (r : result A) : yields own seen (fun a => r = Ok a) (lift r).
Proof. by destruct r. Qed.

Lemma yields_or_raise {A} own seen (o : option A) e :
  yields own seen (fun a => o = Some a) (or_raise o e).
Proof. by destruct o. Qed.

Lemma yields_except {A} own seen (P : A -> Prop) classes m h :
  yields own seen P m -> (forall e, yields own seen P (h e)) ->
  yields own seen P (coro_except classes m h).
Proof.
  intros Hm Hh. apply cwp_except. eapply cwp_mono; [exact Hm|done|].
  intros o e ->. destruct (classes e); [apply Hh|done].
Qed.

Lemma yields_read {A} own seen (P : A -> Prop) k :
  (forall s, caches_sound s -> yields own seen P (k s)) -> yields own seen P (Read k).
Proof. intros Hk s Hs _. by apply Hk. Qed.

Lemma yields_time {A} own seen (P : A -> Prop) k :
  (forall t, yields own seen P (k t)) -> yields own seen P (Time k).
Proof. intros Hk t _. apply Hk. Qed.

Lemma yields_ask {A} own seen (P : A -> Prop) url k :
  (forall r, answers url r -> yields own seen P (k (Ok r))) -> (forall e, yields own seen P (k (Err e))) ->
  yields own seen P (Ask url k).
Proof. intros Hr He. exists own. split; [by left|]. by split. Qed.

(** An update that touches a cache only. *)
Lemma yields_cache {A} own seen (P : A -> Prop) f k :
  (forall s, caches_sound s -> caches_sound (f s)) ->
  (forall s, _last_forced_jwks_refresh_at (f s) = _last_forced_jwks_refresh_at s) ->
  yields own seen P k -> yields own seen P (Update f k).
Proof. intros Hf Hg Hk. split; [exact Hf|]. left. by split. Qed.

(** *** The metadata *)

Lemma as_dict_some j d : as_dict j = Some d -> j = JObj d.
Proof. destruct j; simpl; congruence. Qed.

Lemma as_str_some o s : as_str o = Some s -> o = Some (JStr s).
Proof. destruct o as [[]|]; simpl; congruence. Qed.

Lemma truthy_some o s : truthy o = Some s -> o = Some s /\ s <> ""%string.
Proof. destruct o as [[|c r]|]; simpl; [done|intros [= <-]; done|done]. Qed.

Lemma fetch_json_async own seen url :
  yields own seen (fun d => answers url (JObj d)) (_fetch_json_async url).
Proof.
  apply (yields_bind _ _ (fun j => answers url j)).
  - apply yields_except; [|done]. by apply yields_ask.
  - intros j Hj. eapply yields_mono; [apply yields_or_raise|].
    intros d ->%as_dict_some. exact Hj.
Qed.

Lemma discovery_sound own seen : yields own seen discovered (_get_discovery_document auth_settings).
Proof.
  apply yields_read. intros s [Hd _]. apply yields_time. intros now.
  destruct (unexpired (_discovery_cache s) now) as [d|] eqn:Hu.
  - apply yields_ret. unfold unexpired in Hu. destruct (_discovery_cache s) as [e|] eqn:He; [|done].
    destruct (now <? _); [|done]. injection Hu as <-. by apply Hd.
  - destruct (truthy _) as [issuer|] eqn:Hi; [|apply yields_raise].
    eapply yields_bind; [apply fetch_json_async|]. intros d Ha. apply yields_time. intros now'.
    assert (Hdisc : discovered d) by (exists issuer; by split).
    apply yields_cache; [|done|by apply yields_ret].
    intros s' [_ Hj]. split; [intros e [= <-]; exact Hdisc|exact Hj].
Qed.

Lemma jwks_url_sound own seen : yields own seen keys_address (_resolve_jwks_url auth_settings).
Proof.
  unfold _resolve_jwks_url, keys_address. destruct (AuthSettings.jwks_url auth_settings) as [u|] eqn:Hu.
  - apply yields_ret. by left.
  - eapply yields_bind; [apply discovery_sound|]. intros d Hd.
    eapply yields_mono; [apply yields_or_raise|]. intros url Hurl. right. split; [done|].
    exists d. split; [exact Hd|]. destruct (as_str (dict_get "jwks_uri" d)) as [u|] eqn:Hs; [|done].
    apply as_str_some in Hs. apply truthy_some in Hurl as [[= <-] Hne]. done.
Qed.

Lemma jwks_payload own seen jwks :
  yields own seen (fun keys => dict_get "keys" jwks = Some (JArr keys) /\ exists k ks, keys = k :: ks)
    (_validate_jwks_payload jwks).
Proof.
  unfold _validate_jwks_payload. destruct (dict_get "keys" jwks) as [[| | | |[|k ks]|]|];
    try apply yields_raise. apply yields_ret. split; [done|]. by exists k, ks.
Qed.

Lemma fetch_jwks_sound own seen : yields own seen served (_fetch_and_cache_jwks auth_settings).
Proof.
  eapply yields_bind; [apply jwks_url_sound|]. intros url Hurl.
  eapply yields_bind; [apply fetch_json_async|]. intros jwks Ha.
  eapply yields_bind; [apply jwks_payload|]. intros keys (Hk & k & ks & ->).
  assert (Hs : served jwks) by (exists url; split_and!; [done|done|by exists k, ks]).
  apply yields_time. intros now. apply yields_cache; [|done|by apply yields_ret].
  intros s' [Hd _]. split; [exact Hd|intros e [= <-]; exact Hs].
Qed.

Lemma get_jwks_sound own seen : yields own seen served (_get_jwks auth_settings).
Proof.
  apply yields_read. intros s [_ Hj]. apply yields_time. intros now.
  destruct (unexpired (_jwks_cache s) now) as [d|] eqn:Hu; [|apply fetch_jwks_sound].
  apply yields_ret. unfold unexpired in Hu. destruct (_jwks_cache s) as [e|] eqn:He; [|done].
  destruct (now <? _); [|done]. injection Hu as <-. by apply Hj.
Qed.

Definition served_if_any (jwks : option dict) : Prop :=
  match jwks with Some jwks => served jwks | None => True end.

Lemma cached_jwks_sound own seen : yields own seen served_if_any return_cached_jwks.
Proof.
  apply yields_read. intros s [_ Hj]. apply yields_ret. unfold cached.
  destruct (_jwks_cache s) as [e|] eqn:He; simpl; [by apply Hj|done].
Qed.

(** A refresh that is forced waits for the cooldown, and holds the lock to its end. *)
Lemma forced_refresh_sound v n seen :
  runs (Some (v, n)) seen (fun o a => o <> None /\ served_if_any a)
    (fun o _ => o <> None) (forced_refresh auth_settings).
Proof.
  intros now Hnow s Hs Hlast. specialize (Hlast v n eq_refl).
  destruct (cooling_down auth_settings now s) eqn:Hc.
  - eapply cwp_mono; [apply cached_jwks_sound| |]; intros o; [intros a [-> ?]|intros e ->]; done.
  - unfold cooling_down in Hc. split; [done|]. right. exists v, n, now.
    split_and!; [done|done|unfold cooled; lia|lia|].
    assert (Hbody : yields (Some (now, O)) now served_if_any
      (coro_except is_unauthorized (Some <$> _fetch_and_cache_jwks auth_settings)
         (fun _ => return_cached_jwks))).
    { apply yields_except; [|intros _; apply cached_jwks_sound].
      apply yields_map. apply fetch_jwks_sound. }
    eapply cwp_mono; [exact Hbody| |]; intros o; [intros a [-> ?]|intros e ->]; done.
Qed.

Lemma refresh_sound seen :
  yields None seen served_if_any (_refresh_jwks_after_kid_miss auth_settings).
Proof.
  intros now Hnow s Hs _. destruct (cooling_down auth_settings now s); [apply cached_jwks_sound|].
  split; [done|]. split_and!; [|apply cached_jwks_sound|done].
  intros v. apply cwp_finally. eapply cwp_mono; [apply forced_refresh_sound| |].
  - intros o a [Ho Ha]. done.
  - intros o e Ho. done.
Qed.

(** *** The key *)

Lemma public_key own seen jwk :
  yields own seen (fun key => dict_get "kty" jwk = Some (JStr "RSA") /\
      exists from_jwk, rs256_from_jwk = Some from_jwk /\ from_jwk (JObj jwk) = Ok key)
    (_public_key_from_jwk jwk).
Proof.
  unfold _public_key_from_jwk. destruct rs256_from_jwk as [from_jwk|]; [|apply yields_raise].
  case_bool_decide as Hk; cbn [negb]; [|apply yields_raise].
  apply yields_except; [|intros e; apply yields_raise].
  eapply yields_mono; [apply yields_lift|]. eauto.
Qed.

Lemma key_from_jwks own seen jwks header :
  served jwks ->
  yields own seen (fun key => match key with Some key => published_key header key | None => True end)
    (_resolve_signing_key_from_jwks jwks header).
Proof.
  intros Hs. eapply yields_bind; [apply jwks_payload|]. intros keys (Hk & _).
  destruct (first_key _ keys) as [jwk|] eqn:Hf; [|by apply yields_ret].
  apply yields_map. eapply yields_mono; [apply public_key|].
  intros key (Hkty & from_jwk & Hrs & Hok). by exists jwks, keys, jwk, from_jwk.
Qed.

Lemma signing_key_sound seen header :
  yields None seen (published_key header) (_resolve_signing_key auth_settings header).
Proof.
  eapply yields_bind; [apply get_jwks_sound|]. intros jwks Hs.
  eapply yields_bind; [by apply key_from_jwks|]. intros [key|] Hkey; [by apply yields_ret|].
  eapply yields_bind; [apply refresh_sound|]. intros [jwks'|] Hs'; [|apply yields_raise].
  eapply yields_bind; [by apply key_from_jwks|]. intros key' Hkey'.
  eapply yields_mono; [apply yields_or_raise|]. by intros key ->.
Qed.

(** *** The claims *)

Lemma authorized_party own seen claims :
  yields own seen (fun _ =>
    AuthSettings.allowed_authorized_parties auth_settings <> [] ->
    exists azp, dict_get "azp" claims = Some (JStr azp) /\
      azp ∈ AuthSettings.allowed_authorized_parties auth_settings)
    (_validate_authorized_party auth_settings claims).
Proof.
  unfold _validate_authorized_party.
  destruct (AuthSettings.allowed_authorized_parties auth_settings) as [|p ps]; [by apply yields_ret|].
  destruct (as_str (dict_get "azp" claims)) as [azp|] eqn:Ha; [|apply yields_raise].
  apply as_str_some in Ha. case_bool_decide as Hin; [|apply yields_raise].
  apply yields_ret. eauto.
Qed.

Lemma token_lifetime own seen claims :
  yields own seen (fun _ =>
    exists exp, as_int (dict_get "exp" claims) = Some exp /\
      (AuthSettings.require_iat auth_settings = true -> as_int (dict_get "iat" claims) <> None) /\
      (forall iat, as_int (dict_get "iat" claims) = Some iat ->
         iat <= exp <= iat + AuthSettings.max_token_lifetime_seconds auth_settings))
    (_validate_token_lifetime auth_settings claims).
Proof.
  unfold _validate_token_lifetime.
  destruct (as_int (dict_get "exp" claims)) as [exp|], (as_int (dict_get "iat" claims)) as [iat|],
    (AuthSettings.require_iat auth_settings); cbn [Tables.is_None andb];
    try apply yields_raise; try (apply yields_ret; exists exp; by split_and!).
  all: destruct (_ || _) eqn:Hb; [apply yields_raise|].
  all: apply orb_false_iff in Hb as [Hlo Hhi]; apply yields_ret; exists exp; split_and!; try done.
  all: intros iat' [= <-]; lia.
Qed.

Lemma or_invalid {A} own seen (P : A -> Prop) m :
  yields own seen P m -> yields own seen P (or_invalid_token m).
Proof. intros Hm. apply yields_except; [exact Hm|]. intros e. apply yields_raise. Qed.

Lemma validate_token_sound seen token :
  yields None seen (fun claims => exists now, accepted token now claims)
    (validate_token auth_settings token).
Proof.
  unfold validate_token. destruct (AuthSettings.enabled auth_settings) eqn:Hen; cbn [negb];
    [|apply yields_raise].
  eapply yields_bind; [apply or_invalid, yields_lift|]. intros j Hheader.
  eapply yields_bind; [apply yields_or_raise|]. intros header ->%as_dict_some.
  case_bool_decide as Halg; cbn [negb]; [|apply yields_raise].
  destruct (AuthSettings.require_kid auth_settings && _) eqn:Hkid; [apply yields_raise|].
  eapply yields_bind; [apply signing_key_sound|]. intros key Hkey.
  apply yields_time. intros now.
  eapply yields_bind; [apply or_invalid, yields_lift|]. intros c Hdec.
  eapply yields_bind; [apply yields_or_raise|]. intros claims ->%as_dict_some.
  eapply yields_bind; [apply authorized_party|]. intros [] Hazp.
  eapply yields_bind; [apply token_lifetime|]. intros [] Hlife.
  apply yields_ret. exists now. split; [done|]. exists header, key.
  split_and!; try done. intros Hreq. rewrite Hreq in Hkid.
  destruct (as_str (dict_get "kid" header)) as [kid|] eqn:Hk; [|done].
  apply as_str_some in Hk. eauto.
Qed.

End Provenance.

(** ** Concurrent requests *)

(** A request: its header, with the principal it ends in. *)
Definition authentication `{Jwt} `{ClaimTypes} (auth_settings : AuthSettings.t) (header : option string)
    : M (option string * AuthenticatedPrincipal.t) :=
  (header,.) <$> Auth.require_authenticated_principal auth_settings header.

Definition is_request `{Jwt} `{ClaimTypes} (auth_settings : AuthSettings.t)
    (t : M (option string * AuthenticatedPrincipal.t)) : Prop :=
  exists header, t = authentication auth_settings header.

(** The process when it starts, at some time on each of its clocks. *)
Definition idle (wall : datetime) (mono : Z) : @Loop state json (option string * AuthenticatedPrincipal.t) :=
  mkLoop initial false wall mono [].

(** A spaced list fits its length times the cooldown. *)
Lemma chained_length auth_settings first l :
  chained (cooled auth_settings) first l ->
  first + Z.of_nat (length l) * AuthSettings.jwks_refresh_cooldown_seconds auth_settings
  <= List.hd first l.
Proof.
  induction l as [|v l IH]; cbn [chained List.hd length]; [lia|].
  unfold cooled at 1. intros [Hv Hl]. specialize (IH Hl). lia.
Qed.

(** ** Metered questions

    While the cached keys are good for the time on the clock, only a forced refresh asks the
    network. *)
Section Metering.
Context `{Jwt} `{ClaimTypes}.
Variable auth_settings : AuthSettings.t.
Variable answers : string -> json -> Prop.
Variable until : datetime.

(** The cached keys are good at [until]. *)
Definition keys_fresh (s : state) : Prop :=
  exists e, _jwks_cache s = Some e /\ until < CacheEntry.expires_at e.

(** Times from which a set of keys fetched then would be good at [until]. *)
Definition in_window (now : datetime) : Prop :=
  until - seconds (AuthSettings.jwks_cache_ttl_seconds auth_settings) < now <= until.

Abbreviation meters := (cwp keys_fresh answers _last_forced_jwks_refresh_at (cooled auth_settings)
  in_window False 2).

(** A coroutine that asks nothing. *)
Definition silent {A} (own : option (Z * nat)) (seen : Z) (m : M A) : Prop :=
  meters own seen (fun o _ => o = own) (fun o _ => o = own) m.

Lemma silent_bind {A B} own seen (m : M A) (f : A -> M B) :
  silent own seen m -> (forall a, silent own seen (f a)) -> silent own seen (m ≫= f).
Proof.
  intros Hm Hf. apply cwp_bind. eapply cwp_mono; [exact Hm| |done]. intros o a ->. apply Hf.
Qed.

Lemma silent_map {A B} own seen (g : A -> B) (m : M A) : silent own seen m -> silent own seen (g <$> m).
Proof. intros Hm. by apply silent_bind. Qed.

Lemma silent_except {A} own seen classes (m : M A) h :
  silent own seen m -> (forall e, silent own seen (h e)) -> silent own seen (coro_except classes m h).
Proof.
  intros Hm Hh. apply cwp_except. eapply cwp_mono; [exact Hm|done|].
  intros o e ->. destruct (classes e); [apply Hh|done].
Qed.

Lemma silent_lift {A} own seen (r : result A) : silent own seen (lift r).
Proof. by destruct r. Qed.

Lemma silent_or_raise {A} own seen (o : option A) e : silent own seen (or_raise o e).
Proof. by destruct o. Qed.

Lemma silent_cached own seen : silent own seen return_cached_jwks.
Proof. by intros s _ _. Qed.

Lemma silent_payload own seen jwks : silent own seen (_validate_jwks_payload jwks).
Proof. unfold _validate_jwks_payload. by destruct (dict_get "keys" jwks) as [[| | | |[|k ks]|]|]. Qed.

Lemma silent_from_jwks own seen jwks header : silent own seen (_resolve_signing_key_from_jwks jwks header).
Proof.
  apply silent_bind; [apply silent_payload|]. intros keys. destruct (first_key _ keys) as [jwk|]; [|done].
  apply silent_map. unfold _public_key_from_jwk. destruct rs256_from_jwk; [|done].
  destruct (negb _); [done|]. apply silent_except; [apply silent_lift|done].
Qed.

(** What holds the lock with questions left. *)
Definition holds (o : option (Z * nat)) : Prop := o <> None.

Lemma fetch_spends v n seen url :
  meters (Some (v, S n)) seen (fun o _ => o = Some (v, n)) (fun o _ => o = Some (v, n))
    (_fetch_json_async url).
Proof.
  apply cwp_bind. apply cwp_except. exists (Some (v, n)). split; [right; eauto|]. split.
  - intros r _. by apply silent_or_raise.
  - intros e. cbn. destruct (is_exception e); [by destruct (is_unauthorized e)|done].
Qed.

Lemma fresh_update f :
  (forall s, _jwks_cache (f s) = _jwks_cache s) -> forall s, keys_fresh s -> keys_fresh (f s).
Proof. intros Hf s (e & He & Hu). exists e. by rewrite Hf. Qed.

Lemma discovery_spends v seen :
  meters (Some (v, 2%nat)) seen (fun o _ => exists n, o = Some (v, S n)) (fun o _ => holds o)
    (_get_discovery_document auth_settings).
Proof.
  intros s _ _ now _. destruct (unexpired _ now); [by exists 1%nat|].
  destruct (truthy _) as [issuer|]; [|done]. apply cwp_bind.
  eapply cwp_mono; [apply fetch_spends| |by intros o e ->].
  intros o document -> now' _. split; [by apply fresh_update|]. left. split; [done|]. by exists 0%nat.
Qed.

Lemma url_spends v seen :
  meters (Some (v, 2%nat)) seen (fun o _ => exists n, o = Some (v, S n)) (fun o _ => holds o)
    (_resolve_jwks_url auth_settings).
Proof.
  unfold _resolve_jwks_url. destruct (AuthSettings.jwks_url auth_settings); [by exists 1%nat|].
  apply cwp_bind. eapply cwp_mono; [apply discovery_spends| |done].
  intros o document [n ->].
  eapply cwp_mono; [apply silent_or_raise|by intros o a ->; exists n|by intros o e ->].
Qed.

Lemma refresh_spends v seen :
  meters (Some (v, 2%nat)) seen (fun o _ => holds o) (fun o _ => holds o)
    (_fetch_and_cache_jwks auth_settings).
Proof.
  apply cwp_bind. eapply cwp_mono; [apply url_spends| |done]. intros o url [n ->].
  apply cwp_bind. eapply cwp_mono; [apply fetch_spends| |by intros o e ->]. intros o jwks ->.
  apply cwp_bind. eapply cwp_mono; [apply silent_payload| |by intros o e ->]. intros o keys ->.
  intros now [Hlo Hhi]. split.
  - intros s _. eexists. split; [done|]. cbn. lia.
  - left. by split.
Qed.

Lemma forced_refresh_spends v n seen :
  meters (Some (v, n)) seen (fun o _ => holds o) (fun o _ => holds o) (forced_refresh auth_settings).
Proof.
  intros now Hnow s Hs Hlast. specialize (Hlast v n eq_refl).
  destruct (cooling_down auth_settings now s) eqn:Hc.
  - eapply cwp_mono; [apply silent_cached| |]; by intros o a ->.
  - unfold cooling_down in Hc. split; [by apply fresh_update|]. right. exists v, n, now.
    split_and!; [done|done|unfold cooled; lia|lia|].
    apply cwp_except. apply cwp_bind. eapply cwp_mono; [apply refresh_spends|by intros|].
    intros o e Ho. destruct (is_unauthorized e); [|done].
    eapply cwp_mono; [apply silent_cached| |]; by intros o' a ->.
Qed.

Lemma kid_miss_spends seen : silent None seen (_refresh_jwks_after_kid_miss auth_settings).
Proof.
  intros now Hnow s Hs _. destruct (cooling_down auth_settings now s); [apply silent_cached|].
  split; [done|]. split_and!; [|apply silent_cached|done].
  intros v. apply cwp_finally. by eapply cwp_mono; [apply forced_refresh_spends|..].
Qed.

Lemma signing_key_spends seen header : silent None seen (_resolve_signing_key auth_settings header).
Proof.
  apply silent_bind.
  - intros s (e & He & Hu) _ now [_ Hnow]. unfold unexpired. rewrite He.
    destruct (Z.ltb_spec now (CacheEntry.expires_at e)); [done|lia].
  - intros jwks. apply silent_bind; [apply silent_from_jwks|]. intros [key|]; [done|].
    apply silent_bind; [apply kid_miss_spends|]. intros [jwks'|]; [|done].
    apply silent_bind; [apply silent_from_jwks|]. intros key. apply silent_or_raise.
Qed.

Lemma validate_token_spends seen token : silent None seen (validate_token auth_settings token).
Proof.
  unfold validate_token. destruct (negb (AuthSettings.enabled auth_settings)); [done|].
  apply silent_bind; [by apply silent_except; [apply silent_lift|]|]. intros j.
  apply silent_bind; [apply silent_or_raise|]. intros header.
  destruct (negb _); [done|]. destruct (_ && _); [done|].
  apply silent_bind; [apply signing_key_spends|]. intros key now _.
  apply silent_bind; [by apply silent_except; [apply silent_lift|]|]. intros c.
  apply silent_bind; [apply silent_or_raise|]. intros claims.
  apply silent_bind.
  - unfold _validate_authorized_party. destruct (AuthSettings.allowed_authorized_parties _); [done|].
    destruct (as_str _); [|done]. by destruct (bool_decide _).
  - intros []. apply silent_bind; [|done]. unfold _validate_token_lifetime.
    destruct (_ && _); [done|]. destruct (as_int _); [|done]. destruct (as_int _); [|done].
    by destruct (_ || _).
Qed.

Lemma request_spends t mono : is_request auth_settings t ->
  outside keys_fresh answers _last_forced_jwks_refresh_at (cooled auth_settings) in_window False 2
    mono (fun _ => True) t.
Proof.
  intros [header ->]. eapply cwp_mono with (Q := fun o _ => o = None) (E := fun o _ => o = None);
    [|by intros|done].
  change (silent None mono (authentication auth_settings header)).
  apply silent_map. unfold Auth.require_authenticated_principal.
  apply silent_bind.
  - apply silent_bind; [apply silent_lift|]. intros [token|]; [|done].
    apply silent_bind; [apply validate_token_spends|]. intros claims. apply silent_map, silent_lift.
  - by intros [principal|].
Qed.

(** Questions are paid for by refreshes, and those by the time that passes. *)
Lemma questions_paid s wall mono n l L :
  0 < AuthSettings.jwks_refresh_cooldown_seconds auth_settings -> keys_fresh s ->
  counted answers _last_forced_jwks_refresh_at in_window (is_request auth_settings)
    (mkLoop s false wall mono []) n l L ->
  (n <= 2 * length l)%nat /\
  Z.of_nat n * AuthSettings.jwks_refresh_cooldown_seconds auth_settings
    <= 2 * Z.max 0 (monotonic L - _last_forced_jwks_refresh_at s).
Proof.
  intros Hpos Hs Hn.
  destruct (counted_ok _ _ _ (cooled auth_settings) _ False 2 (fun _ => True) _ _ _ _ _
    (fun H => H) ltac:(unfold cooled; intros; lia) request_spends Hn) as (Hq & _ & Hc & Hle & _).
  { constructor; [done|by split|]. split; [done|]. intros i t Hi. by destruct i. }
  split; [done|]. apply chained_length in Hc. cbn [shared] in *.
  destruct l as [|v l]; cbn [List.hd length] in *; [nia|].
  apply Forall_cons in Hle as [Hv _]. nia.
Qed.

End Metering.

Section Requests.
Context `{Jwt} `{ClaimTypes}.
Variable auth_settings : AuthSettings.t.
Variable answers : string -> json -> Prop.

Abbreviation ok_loop := (loop_ok (caches_sound auth_settings answers) answers
  _last_forced_jwks_refresh_at (cooled auth_settings) (fun _ => True) True 0).

(** Whom a request may end in. *)
Definition authenticated (r : option string * AuthenticatedPrincipal.t) : Prop :=
  let '(header, principal) := r in
  exists token now claims,
    Auth._extract_bearer_token header = Ok (Some token) /\
    accepted auth_settings answers token now claims /\
    JwtClaimsPayload.from_verified_jwt_claims claims = Ok principal.

Lemma request_outside t mono :
  is_request auth_settings t ->
  outside (caches_sound auth_settings answers) answers _last_forced_jwks_refresh_at
    (cooled auth_settings) (fun _ => True) True 0 mono authenticated t.
Proof.
  intros [header ->]. unfold authentication, Auth.require_authenticated_principal. apply yields_map.
  apply (yields_bind _ _ _ _ (fun p => match p with
    | Some principal => authenticated (header, principal) | None => True end)).
  - eapply yields_bind; [apply yields_lift|]. intros [token|] Hx; [|by apply yields_ret].
    eapply yields_bind; [apply validate_token_sound|]. intros claims [now Hacc].
    apply yields_map. eapply yields_mono; [apply yields_lift|].
    intros principal Hp. by exists token, now, claims.
  - intros [principal|] Hp; [by apply yields_ret|apply yields_raise].
Qed.

Lemma idle_ok wall mono : ok_loop authenticated (idle wall mono).
Proof.
  exists None. constructor; [by split|by split|]. split; [done|]. intros i t Hi. by destruct i.
Qed.

Lemma history_authenticated wall mono l L :
  history answers _last_forced_jwks_refresh_at (is_request auth_settings) (idle wall mono) l L ->
  ok_loop authenticated L /\ chained (cooled auth_settings) 0 l /\ Forall (fun v => v <= monotonic L) l.
Proof.
  intros Hh. destruct (history_ok _ _ _ _ _ _ _ authenticated _ _ _ _ (fun _ => Logic.I) request_outside Hh (idle_ok wall mono))
    as (Hok & _ & Hc & Hle & _). done.
Qed.

Lemma finished_ok L i r :
  ok_loop authenticated L -> tasks L !! i = Some (Ret r) -> authenticated r.
Proof.
  intros [h [_ _ [_ Hts]]] Hi. specialize (Hts i _ Hi). unfold role in Hts.
  destruct h as [[j n]|]; [case_decide|]; by destruct Hts.
Qed.

(** C7. Whatever requests the process serves at the same time, however they are interrupted,
    cancelled or answered by the network: one that ends with a principal carried a bearer
    token, and the principal is made of the claims of that token, which was accepted at some
    moment - authentication is on, the token's header names the configured algorithm and,
    where one is asked for, a key; the key is the RSA key of that name in a set that the
    identity provider served at the configured or discovered address; the token decodes with
    it for the configured audience and issuer; its client is one of the allowed ones and its
    lifetime is bounded. *)
Theorem principal_authenticated wall mono l L i header principal :
  history answers _last_forced_jwks_refresh_at (is_request auth_settings) (idle wall mono) l L ->
  tasks L !! i = Some (Ret (header, principal)) ->
  exists token now claims,
    Auth._extract_bearer_token header = Ok (Some token) /\
    accepted auth_settings answers token now claims /\
    JwtClaimsPayload.from_verified_jwt_claims claims = Ok principal.
Proof.
  intros (Hok & _)%history_authenticated Hi. exact (finished_ok L i _ Hok Hi).
Qed.

(** C8. Tokens with unknown keys cannot make the process flood the identity provider: over
    any history of concurrent requests the times of forced refreshes are a cooldown apart,
    so there are at most as many as cooldowns have passed on the monotonic clock; and the
    lock they take never blocks for good, since the task that holds it can go on. While the
    cached keys do not expire, every question to the identity provider belongs to such a
    refresh, two at most to each: where the cooldown is positive, from any state of the
    validator whose cached keys are good until [until], over any concurrent requests, with whatever tokens, whose wall clock stays in
    the lifetime of a key set before [until], the process asks the network at most twice for
    each cooldown that has passed since the last forced refresh. *)
Theorem forced_refreshes_spaced wall mono l L :
  history answers _last_forced_jwks_refresh_at (is_request auth_settings) (idle wall mono) l L ->
  chained (fun last now =>
    last + AuthSettings.jwks_refresh_cooldown_seconds auth_settings <= now) 0 l /\
  Z.of_nat (length l) * AuthSettings.jwks_refresh_cooldown_seconds auth_settings
    <= Z.max 0 (monotonic L) /\
  (locked L = true ->
   exists i t next, tasks L !! i = Some t /\ (forall k, t <> Acquire k) /\
     op_step answers (Coroutines.wall L) (monotonic L) (shared L, true, t) next) /\
  (forall s wall mono until n l' L',
     0 < AuthSettings.jwks_refresh_cooldown_seconds auth_settings ->
     keys_fresh until s ->
     counted answers _last_forced_jwks_refresh_at (in_window auth_settings until)
       (is_request auth_settings) (mkLoop s false wall mono []) n l' L' ->
     (n <= 2 * length l')%nat /\
     Z.of_nat n * AuthSettings.jwks_refresh_cooldown_seconds auth_settings
       <= 2 * Z.max 0 (monotonic L' - _last_forced_jwks_refresh_at s)).
Proof.
  intros (Hok & Hc & Hle)%history_authenticated. split; [exact Hc|]. split; [|split].
  - apply chained_length in Hc. destruct l as [|v l]; cbn [List.hd length] in *; [lia|].
    apply Forall_cons in Hle as [Hv _]. lia.
  - intros Hl. exact (holder_runs _ _ _ _ _ _ _ authenticated L (Coroutines.wall L) Hok Hl).
  - intros s wall' mono' until n l' L' Hpos Hs Hn. by eapply questions_paid.
Qed.
End Requests.

(** ** What PyJWT documents of times

    A token is refused from [leeway] after its expiry on, and until [leeway] before it was
    issued. *)
Class JwtLaws `{Jwt} := {
  decode_unexpired token key algorithms audience issuer leeway options now claims exp :
    decode token key algorithms audience issuer leeway options now = Ok (JObj claims) ->
    as_int (dict_get "exp" claims) = Some exp -> now < seconds (exp + leeway);
  decode_issued token key algorithms audience issuer leeway options now claims iat :
    decode token key algorithms audience issuer leeway options now = Ok (JObj claims) ->
    as_int (dict_get "iat" claims) = Some iat -> seconds iat <= now + seconds leeway;
}.

(** An accepted token that says when it was issued has not expired, and will have within the
    longest lifetime and the leeway. *)
Lemma accepted_token_expires `{JwtLaws} auth_settings answers token now claims :
  AuthSettings.require_iat auth_settings = true ->
  accepted auth_settings answers token now claims ->
  exists exp, as_int (dict_get "exp" claims) = Some exp /\
    now < seconds (exp + AuthSettings.leeway_seconds auth_settings) /\
    seconds exp <= now + seconds (AuthSettings.max_token_lifetime_seconds auth_settings
                                  + AuthSettings.leeway_seconds auth_settings).
Proof.
  intros Hreq (_ & header & key & _ & _ & _ & _ & Hdec & _ & exp & Hexp & Hthere & Hlife).
  exists exp. split; [exact Hexp|]. split; [by eapply decode_unexpired|].
  destruct (as_int (dict_get "iat" claims)) as [iat|] eqn:Hiat; [|by destruct (Hthere Hreq)].
  pose proof (Hlife iat eq_refl) as [_ Hmax].
  pose proof (decode_issued _ _ _ _ _ _ _ _ _ _ Hdec Hiat). unfold seconds in *. lia.
Qed.

(** ** One request: keys that are known, unknown, and rotated *)
Section Rotation.
Context `{Jwt}.
Variable auth_settings : AuthSettings.t.
Context (net : nat -> string -> result json) (wall_at mono_at : nat -> Z).
Abbreviation run := (run_alone net wall_at mono_at).

(** What is decided of a token once its key is known. *)
Definition claims_of (token : string) (key : signing_key) (now : datetime) (claims : dict) : Prop :=
  decode_token auth_settings token key now = Ok (JObj claims) /\ claims_acceptable auth_settings claims.

(** A header the validator reads. *)
Record readable (token : string) (header : dict) (kid : string) : Prop := mkReadable {
  readable_enabled : AuthSettings.enabled auth_settings = true;
  readable_header : get_unverified_header token = Ok (JObj header);
  readable_alg : dict_get "alg" header = Some (JStr (AuthSettings.algorithms auth_settings));
  readable_kid : dict_get "kid" header = Some (JStr kid);
}.

(** The key of an identifier in a set. *)
Definition key_in (kid : string) (jwks : dict) (key : signing_key) : Prop :=
  exists k ks jwk from_jwk, dict_get "keys" jwks = Some (JArr (k :: ks)) /\
    first_key (Some (JStr kid)) (k :: ks) = Some jwk /\ dict_get "kty" jwk = Some (JStr "RSA") /\
    rs256_from_jwk = Some from_jwk /\ from_jwk (JObj jwk) = Ok key.

Definition no_key_in (kid : string) (jwks : dict) : Prop :=
  exists k ks, dict_get "keys" jwks = Some (JArr (k :: ks)) /\ first_key (Some (JStr kid)) (k :: ks) = None.

Lemma party_decides claims n s :
  exists r, run (_validate_authorized_party auth_settings claims) n s = (r, n, s) /\
    (r = Ok tt <-> (AuthSettings.allowed_authorized_parties auth_settings <> [] ->
       exists azp, dict_get "azp" claims = Some (JStr azp) /\
         azp ∈ AuthSettings.allowed_authorized_parties auth_settings)).
Proof.
  unfold _validate_authorized_party.
  destruct (AuthSettings.allowed_authorized_parties auth_settings) as [|p ps]; [by eexists|].
  destruct (as_str (dict_get "azp" claims)) as [azp|] eqn:Ha.
  - apply as_str_some in Ha. rewrite Ha. case_bool_decide as Hin; eexists; (split; [reflexivity|]).
    + split; [|done]. intros _ _. eauto.
    + split; [done|]. intros Hall. destruct (Hall ltac:(done)) as (azp' & [= <-] & Hin'). done.
  - eexists. split; [reflexivity|]. split; [done|]. intros Hall.
    destruct (Hall ltac:(done)) as (azp' & Heq & _). by rewrite Heq in Ha.
Qed.

Lemma lifetime_decides claims n s :
  exists r, run (_validate_token_lifetime auth_settings claims) n s = (r, n, s) /\
    (r = Ok tt <-> exists exp, as_int (dict_get "exp" claims) = Some exp /\
      (AuthSettings.require_iat auth_settings = true -> as_int (dict_get "iat" claims) <> None) /\
      (forall iat, as_int (dict_get "iat" claims) = Some iat ->
         iat <= exp <= iat + AuthSettings.max_token_lifetime_seconds auth_settings)).
Proof.
  unfold _validate_token_lifetime.
  destruct (as_int (dict_get "exp" claims)) as [exp|].
  2:{ destruct (as_int (dict_get "iat" claims)), (AuthSettings.require_iat auth_settings);
        (eexists; split; [reflexivity|]; split; [done|by intros (e & [=] & _)]). }
  destruct (as_int (dict_get "iat" claims)) as [iat|]; cbn [Tables.is_None].
  - rewrite andb_false_r.
    destruct ((exp - iat <? 0) || _) eqn:Hb; eexists; (split; [reflexivity|]); split; try done.
    + intros (e & [= <-] & _ & Hl). specialize (Hl iat eq_refl). lia.
    + intros _. exists exp. split_and!; [done..|]. intros i [= <-]. lia.
  - rewrite andb_true_r. destruct (AuthSettings.require_iat auth_settings); eexists;
      (split; [reflexivity|]); split; try done.
    + intros (e & _ & Hn & _). by destruct Hn.
    + intros _. by exists exp.
Qed.

(** The end of [validate_token]. *)
Definition judge (token : string) (key : signing_key) : M dict :=
  Time (fun now =>
    decoded ← or_invalid_token (lift (decode_token auth_settings token key now));
    decoded ← or_raise (as_dict decoded) invalid_bearer_token;
    _validate_authorized_party auth_settings decoded ≫= fun _ =>
    _validate_token_lifetime auth_settings decoded ≫= fun _ => Ret decoded).

Lemma judge_decides token key n s :
  exists r, run (judge token key) n s = (r, n, s) /\
    forall claims, r = Ok claims <-> claims_of token key (wall_at n) claims.
Proof.
  unfold judge, claims_of, claims_acceptable. cbn [run_alone]. rewrite run_bind. unfold or_invalid_token.
  rewrite run_except, run_lift.
  destruct (decode_token auth_settings token key (wall_at n)) as [j|e] eqn:Hd.
  2:{ case_bool_decide; cbn [run_alone]; eexists; (split; [reflexivity|]); naive_solver. }
  rewrite run_bind. destruct (as_dict j) as [d|] eqn:Hj; cbn [or_raise run_alone].
  2:{ eexists. split; [reflexivity|]. intros claims. split; [done|]. intros [[= ->] _]. done. }
  apply as_dict_some in Hj as ->. rewrite run_bind.
  destruct (party_decides d n s) as (r1 & -> & H1). destruct r1 as [[]|e1].
  2:{ eexists. split; [reflexivity|]. intros claims. split; [done|].
      intros [[= <-] [Hp _]]. by apply H1 in Hp. }
  rewrite run_bind. destruct (lifetime_decides d n s) as (r2 & -> & H2). destruct r2 as [[]|e2].
  2:{ eexists. split; [reflexivity|]. intros claims. split; [done|].
      intros [[= <-] [_ Hl]]. by apply H2 in Hl. }
  cbn [run_alone]. eexists. split; [reflexivity|]. intros claims. split.
  - intros [= <-]. split; [done|]. split; [by apply H1|by apply H2].
  - by intros [[= <-] _].
Qed.

Lemma key_found kid header jwks key n s :
  dict_get "kid" header = Some (JStr kid) -> key_in kid jwks key ->
  run (_resolve_signing_key_from_jwks jwks header) n s = (Ok (Some key), n, s).
Proof.
  intros Hkid (k & ks & jwk & from_jwk & Hk & Hf & Hkty & Hrs & Hok).
  unfold _resolve_signing_key_from_jwks, _validate_jwks_payload. rewrite run_bind, Hk.
  cbn [run_alone]. rewrite Hkid, Hf, run_map. unfold _public_key_from_jwk.
  rewrite Hrs, bool_decide_true by done. cbn [negb]. by rewrite run_except, run_lift, Hok.
Qed.

Lemma key_not_found kid header jwks n s :
  dict_get "kid" header = Some (JStr kid) -> no_key_in kid jwks ->
  run (_resolve_signing_key_from_jwks jwks header) n s = (Ok None, n, s).
Proof.
  intros Hkid (k & ks & Hk & Hf).
  unfold _resolve_signing_key_from_jwks, _validate_jwks_payload. rewrite run_bind, Hk.
  cbn [run_alone]. by rewrite Hkid, Hf.
Qed.

Lemma cached_set jwks n s :
  unexpired (_jwks_cache s) (wall_at n) = Some jwks ->
  run (_get_jwks auth_settings) n s = (Ok jwks, n, s) /\ cached (_jwks_cache s) = Some jwks.
Proof.
  unfold _get_jwks, unexpired, cached. cbn [run_alone]. intros Hu. rewrite Hu. split; [done|].
  destruct (_jwks_cache s) as [e|]; [|done]. cbn. by destruct (wall_at n <? _).
Qed.

(** [validate_token] up to the key. *)
Lemma validate_readable token header kid n s :
  readable token header kid ->
  run (validate_token auth_settings token) n s =
  run (key ← _resolve_signing_key auth_settings header; judge token key) n s.
Proof.
  intros [Hen Hh Ha Hk]. unfold validate_token. rewrite Hen. cbn [negb]. rewrite run_bind.
  unfold or_invalid_token at 1. rewrite run_except, run_lift, Hh, run_bind. cbn [as_dict or_raise run_alone].
  rewrite bool_decide_true by done. rewrite Hk. cbn [negb as_str Tables.is_None].
  by rewrite andb_false_r.
Qed.

Lemma jwks_asked url n s :
  AuthSettings.jwks_url auth_settings = Some url ->
  (forall e, net n url = Err e -> is_exception e = true ->
     exists e', run (_fetch_and_cache_jwks auth_settings) n s = (Err e', S n, s) /\ is_unauthorized e' = true) /\
  (forall jwks k ks, net n url = Ok (JObj jwks) -> dict_get "keys" jwks = Some (JArr (k :: ks)) ->
     run (_fetch_and_cache_jwks auth_settings) n s =
     (Ok jwks, S n, set_jwks_cache (Some (CacheEntry.mk jwks
        (wall_at (S n) + seconds (AuthSettings.jwks_cache_ttl_seconds auth_settings)))) s)).
Proof.
  intros Hurl. unfold _fetch_and_cache_jwks, _resolve_jwks_url, _fetch_json_async. rewrite Hurl.
  split.
  - intros e He Hex. rewrite run_bind. cbn [run_alone]. rewrite run_bind, run_bind, run_except.
    cbn [run_alone]. rewrite He. cbn [lift run_alone]. rewrite Hex. cbn [run_alone].
    eexists. split; [reflexivity|]. by destruct (is_unauthorized e) eqn:Hu.
  - intros jwks k ks Hok Hk. rewrite run_bind. cbn [run_alone]. rewrite run_bind, run_bind, run_except.
    cbn [run_alone]. rewrite Hok. cbn [lift run_alone as_dict or_raise]. rewrite run_bind.
    unfold _validate_jwks_payload. rewrite Hk. reflexivity.
Qed.

Lemma unknown_key token header kid jwks n s :
  readable token header kid -> unexpired (_jwks_cache s) (wall_at n) = Some jwks ->
  no_key_in kid jwks ->
  run (validate_token auth_settings token) n s =
  run (refreshed ← _refresh_jwks_after_kid_miss auth_settings;
       key ← match refreshed with
             | None => Raise invalid_bearer_token
             | Some jwks =>
                 refreshed_key ← _resolve_signing_key_from_jwks jwks header;
                 or_raise refreshed_key invalid_bearer_token
             end;
       judge token key) n s.
Proof.
  intros Hr Hu Hno. rewrite (validate_readable _ _ _ _ _ Hr). unfold _resolve_signing_key.
  destruct (cached_set jwks n s Hu) as [Hget _]. rewrite !run_bind, Hget, run_bind.
  rewrite (key_not_found kid) by (exact (readable_kid _ _ _ Hr) || exact Hno).
  rewrite !run_bind. destruct (run (_refresh_jwks_after_kid_miss auth_settings) n s) as [[[r|e] n'] s'];
    [by rewrite run_bind|done].
Qed.

(** What is left after the refresh, when it gives back a set that still lacks the key. *)
Lemma still_unknown kid token header jwks n s :
  dict_get "kid" header = Some (JStr kid) -> no_key_in kid jwks ->
  run (key ← (refreshed_key ← _resolve_signing_key_from_jwks jwks header;
              or_raise refreshed_key invalid_bearer_token);
       judge token key) n s = (Err invalid_bearer_token, n, s).
Proof. intros Hkid Hno. by rewrite !run_bind, (key_not_found kid _ _ _ _ Hkid Hno). Qed.

Lemma now_known kid token header jwks key n s :
  dict_get "kid" header = Some (JStr kid) -> key_in kid jwks key ->
  run (key ← (refreshed_key ← _resolve_signing_key_from_jwks jwks header;
              or_raise refreshed_key invalid_bearer_token);
       judge token key) n s = run (judge token key) n s.
Proof. intros Hkid Hin. by rewrite !run_bind, (key_found kid _ _ _ _ _ Hkid Hin). Qed.

(** C26. For a validator whose key set has a configured address and a request that runs
    undisturbed, with the lock free: while the cached keys have not expired, a readable token
    whose key is among them is decided without asking anyone, so an outage of the identity provider does not lock its users
    out. A token with another key is refused at once during the cooldown, without a request;
    otherwise the keys are asked for once: if that fails the token is refused and the cached
    keys stay, and if the new set has the key it replaces the cached one and the token is
    decided with it. *)
Theorem key_rotation_followed token header kid url jwks n s :
  readable token header kid -> AuthSettings.jwks_url auth_settings = Some url ->
  unexpired (_jwks_cache s) (wall_at n) = Some jwks ->
  (forall key, key_in kid jwks key ->
     exists r, run (validate_token auth_settings token) n s = (r, n, s) /\
       forall claims, r = Ok claims <-> claims_of token key (wall_at n) claims) /\
  (no_key_in kid jwks ->
   if cooling_down auth_settings (mono_at n) s
   then run (validate_token auth_settings token) n s = (Err invalid_bearer_token, n, s)
   else
     (forall e, net n url = Err e -> is_exception e = true ->
        run (validate_token auth_settings token) n s
        = (Err invalid_bearer_token, S n, set_last_forced (mono_at n) s)) /\
     (forall jwks' key, net n url = Ok (JObj jwks') -> key_in kid jwks' key ->
        exists r, run (validate_token auth_settings token) n s =
          (r, S n, set_jwks_cache (Some (CacheEntry.mk jwks'
             (wall_at (S n) + seconds (AuthSettings.jwks_cache_ttl_seconds auth_settings))))
             (set_last_forced (mono_at n) s)) /\
          forall claims, r = Ok claims <-> claims_of token key (wall_at (S n)) claims)).
Proof.
  intros Hr Hurl Hu. pose proof (readable_kid _ _ _ Hr) as Hkid.
  destruct (cached_set jwks n s Hu) as [Hget Hcached]. split.
  { intros key Hin. rewrite (validate_readable _ _ _ _ _ Hr). unfold _resolve_signing_key.
    rewrite run_bind, run_bind, Hget, run_bind, (key_found kid _ _ _ _ _ Hkid Hin). apply judge_decides. }
  intros Hno. rewrite (unknown_key _ _ _ _ _ _ Hr Hu Hno), run_bind.
  unfold _refresh_jwks_after_kid_miss. cbn [run_alone].
  destruct (cooling_down auth_settings (mono_at n) s) eqn:Hcool.
  { unfold return_cached_jwks. cbn [run_alone]. rewrite Hcached.
    by apply (still_unknown kid). }
  cbn [run_alone]. rewrite run_finally. unfold forced_refresh. cbn [run_alone]. rewrite Hcool.
  cbn [run_alone]. rewrite run_except, run_map.
  destruct (jwks_asked url n (set_last_forced (mono_at n) s) Hurl) as [Hfail Hok]. split.
  - intros e He Hex. destruct (Hfail e He Hex) as (e' & -> & ->).
    unfold return_cached_jwks. cbn [run_alone set_last_forced _jwks_cache]. rewrite Hcached.
    by apply (still_unknown kid).
  - intros jwks' key Hans Hin. pose proof Hin as (k & ks & jwk & from_jwk & Hk & _).
    rewrite (Hok jwks' k ks Hans Hk). rewrite (now_known kid _ _ _ _ _ _ Hkid Hin).
    apply judge_decides.
Qed.
End Rotation.

(** ** Starting the application *)
Section Startup.
Import AuthMetadata.
Context (fetcher : string -> result json) (environment : string) (auth : AuthSettings.t).

(** A key the checks count on: RSA, for signatures, with RS256 if it says. *)
Definition signs (key : json) : Prop :=
  exists fields, key = JObj fields /\ dict_get "kty" fields = Some (JStr "RSA") /\
    default JNull (dict_get "use" fields) ∈ [JNull; JStr "sig"] /\
    default JNull (dict_get "alg" fields) ∈ [JNull; JStr "RS256"].

Definition named (key : json) : Prop :=
  exists fields kid, key = JObj fields /\ dict_get "kid" fields = Some (JStr kid) /\
    Text.strip kid <> ""%string.

(** The metadata the identity provider should serve. *)
Definition metadata_ok : Prop :=
  exists issuer discovery jwks_uri jwks keys,
    truthy (AuthSettings.issuer_url auth) = Some issuer /\
    fetcher (strip_slashes issuer ++ "/.well-known/openid-configuration")%string = Ok (JObj discovery) /\
    dict_get "issuer" discovery = Some (JStr issuer) /\
    jwks_uri_of auth discovery = Ok jwks_uri /\
    (environment ∈ ["staging"; "prod"]%string -> Url.scheme jwks_uri = "https"%string) /\
    (forall algs, dict_get "id_token_signing_alg_values_supported" discovery = Some (JArr algs) ->
       JStr "RS256" ∈ algs) /\
    fetcher jwks_uri = Ok (JObj jwks) /\
    dict_get "keys" jwks = Some (JArr keys) /\
    (exists key, key ∈ keys /\ signs key) /\ (forall key, key ∈ keys -> signs key -> named key).

Lemma signs_iff key : _is_rsa_signing_key key = true <-> signs key.
Proof.
  unfold _is_rsa_signing_key, signs. destruct (as_dict key) as [fields|] eqn:Hd.
  - apply as_dict_some in Hd as ->. do 3 case_bool_decide; cbn [negb]; naive_solver.
  - split; [done|]. by intros (fields & -> & _).
Qed.

Lemma named_iff key : kid_missing key = false <-> named key.
Proof.
  unfold kid_missing, member, named. destruct (as_dict key) as [fields|] eqn:Hd; cbn [mbind option_bind].
  - apply as_dict_some in Hd as ->. destruct (as_str (dict_get "kid" fields)) as [kid|] eqn:Hk.
    + apply as_str_some in Hk. rewrite is_empty_false. naive_solver.
    + split; [done|]. intros (f & kid & [= <-] & Hkid & _). by rewrite Hkid in Hk.
  - split; [done|]. by intros (f & kid & -> & _).
Qed.

Lemma validate_jwks_iff jwks :
  _validate_jwks jwks = Ok tt <->
  exists keys, dict_get "keys" jwks = Some (JArr keys) /\
    (exists key, key ∈ keys /\ signs key) /\ (forall key, key ∈ keys -> signs key -> named key).
Proof.
  unfold _validate_jwks.
  assert (Hmem : forall keys key, key ∈ List.filter _is_rsa_signing_key keys <-> key ∈ keys /\ signs key).
  { intros keys key. rewrite <- signs_iff, list_elem_of_In, filter_In, list_elem_of_In. done. }
  split.
  - destruct (dict_get "keys" jwks) as [[| | | |[|k ks]|]|] eqn:Hk; try done.
    destruct (List.filter _ _) as [|r rs] eqn:Hf; [done|].
    destruct (existsb kid_missing (r :: rs)) eqn:He; [done|]. intros _.
    exists (k :: ks). split; [done|]. split.
    + exists r. apply Hmem. rewrite Hf. by left.
    + intros key Hin Hs. apply named_iff. destruct (kid_missing key) eqn:Hm; [|done].
      assert (Htrue : existsb kid_missing (r :: rs) = true); [|congruence].
      apply existsb_exists. exists key. split; [|done].
      apply list_elem_of_In. rewrite <- Hf. by apply Hmem.
  - intros (keys & -> & (key & Hin & Hs) & Hall).
    assert (Hkey : key ∈ List.filter _is_rsa_signing_key keys) by (by apply Hmem).
    destruct keys as [|k ks]; [by apply not_elem_of_nil in Hin|].
    destruct (List.filter _ _) as [|r rs] eqn:Hf; [by apply not_elem_of_nil in Hkey|].
    destruct (existsb kid_missing (r :: rs)) eqn:He; [|done].
    apply existsb_exists in He as (key' & Hin' & Hm).
    apply list_elem_of_In in Hin'. rewrite <- Hf in Hin'. apply Hmem in Hin' as [Hin' Hs'].
    pose proof (Hall key' Hin' Hs') as Hn. apply named_iff in Hn. congruence.
Qed.

Lemma fetch_json_ok url d : _fetch_json fetcher url = Ok d <-> fetcher url = Ok (JObj d).
Proof. unfold _fetch_json. destruct (fetcher url) as [[]|]; naive_solver. Qed.

Lemma if_err_ok {A} (b : bool) e (m : result A) x :
  (if b then Err e else m) = Ok x <-> b = false /\ m = Ok x.
Proof. destruct b; naive_solver. Qed.

Lemma metadata_checked :
  _validate_auth_metadata fetcher environment auth = Ok tt <-> metadata_ok.
Proof.
  unfold _validate_auth_metadata, metadata_ok.
  destruct (truthy (AuthSettings.issuer_url auth)) as [issuer|]; [|naive_solver].
  rewrite bind_ok. split.
  - intros (discovery & Hd%fetch_json_ok & (Hi & (uri & Huri & (Hs & (Ha & (jwks & Hj & Hk)%bind_ok)%if_err_ok)%if_err_ok)%bind_ok)%if_err_ok).
    apply fetch_json_ok in Hj. apply validate_jwks_iff in Hk as (keys & Hkeys & Hsigns & Hnamed).
    exists issuer, discovery, uri, jwks, keys. split_and!; try done.
    + by apply negb_false_iff, bool_decide_eq_true in Hi.
    + intros Henv. rewrite bool_decide_true in Hs by done. cbn in Hs.
      by apply negb_false_iff, String.eqb_eq in Hs.
    + intros algs Halgs. rewrite Halgs in Ha. by apply negb_false_iff, bool_decide_eq_true in Ha.
  - intros (issuer' & discovery & uri & jwks & keys & [= <-] & Hd & Hi & Huri & Hs & Ha & Hj & Hk).
    exists discovery. split; [by apply fetch_json_ok|]. apply if_err_ok.
    split; [by rewrite bool_decide_true|].
    apply bind_ok. exists uri. split; [exact Huri|]. apply if_err_ok. split.
    { case_bool_decide as Henv; [|done]. cbn. unfold _is_https. by rewrite (Hs Henv). }
    apply if_err_ok. split.
    { destruct (dict_get "id_token_signing_alg_values_supported" discovery) as [[| | | |algs|]|]; try done.
      by rewrite bool_decide_true by (by apply Ha). }
    apply bind_ok. exists jwks. split; [by apply fetch_json_ok|].
    apply validate_jwks_iff. by exists keys.
Qed.

(** Whatever the network raises is an exception, so are the errors of the check. *)
Definition raises_exceptions {A} (m : result A) : Prop :=
  forall e, m = Err e -> is_exception e = true.

Lemma exceptions_bind {A B} (m : result A) (f : A -> result B) :
  raises_exceptions m -> (forall a, raises_exceptions (f a)) -> raises_exceptions (m ≫= f).
Proof. destruct m as [a|e]; cbn; intros Hm Hf; [apply Hf|]. intros e' [= <-]. by apply Hm. Qed.

Lemma exceptions_value {A} msg : raises_exceptions (A := A) (Err (ValueError msg)).
Proof. by intros e [= <-]. Qed.

Lemma exceptions_ok {A} (a : A) : raises_exceptions (Ok a).
Proof. by intros e. Qed.

Lemma metadata_errors :
  (forall url e, fetcher url = Err e -> is_exception e = true) ->
  raises_exceptions (_validate_auth_metadata fetcher environment auth).
Proof.
  intros Hf.
  assert (Hfetch : forall url, raises_exceptions (_fetch_json fetcher url)).
  { intros url e. unfold _fetch_json. destruct (fetcher url) as [[]|e'] eqn:He; intros [= <-];
      [done..|by eapply Hf]. }
  unfold _validate_auth_metadata. destruct (truthy _) as [issuer|]; [|apply exceptions_value].
  apply exceptions_bind; [apply Hfetch|]. intros discovery.
  destruct (negb _); [apply exceptions_value|]. apply exceptions_bind.
  { unfold jwks_uri_of. repeat case_match; first [apply exceptions_value | apply exceptions_ok]. }
  intros uri. destruct (_ && _); [apply exceptions_value|].
  match goal with |- raises_exceptions (if ?b then _ else _) => destruct b end; [apply exceptions_value|].
  apply exceptions_bind; [apply Hfetch|]. intros jwks. unfold _validate_jwks.
  repeat case_match; first [apply exceptions_value | apply exceptions_ok].
Qed.
End Startup.

(** C27. Under a configuration accepted for staging or production the application starts
    exactly when the identity provider serves what it needs: a discovery document of the
    configured issuer that does not rule RS256 out, and over HTTPS a set of keys with an RSA
    signing key, all of whose signing keys are named; otherwise a [RuntimeError] stops it. *)
Theorem deployed_startup_checked `{SettingsLibraries} i s fetcher :
  Settings.Settings.validate i = Ok s -> deployed s ->
  (forall url e, fetcher url = Err e -> is_exception e = true) ->
  match AuthMetadata.init_auth_validation fetcher (environment_of s) (Settings.Settings.auth s) with
  | Ok warned =>
      warned = false /\ metadata_ok fetcher (environment_of s) (Settings.Settings.auth s)
  | Err e =>
      e = OtherError "RuntimeError" /\
      ~ metadata_ok fetcher (environment_of s) (Settings.Settings.auth s)
  end.
Proof.
  intros [Hsec _]%accepted_settings Hd Hf.
  destruct (secure_deployed s Hsec Hd) as ((Hen & _ & _ & _ & Hfail) & _).
  unfold AuthMetadata.init_auth_validation. rewrite Hen, Hfail. cbn [negb orb String.eqb].
  change (String.eqb "fail" "disabled") with false. cbn [orb].
  pose proof (metadata_checked fetcher (environment_of s) (Settings.Settings.auth s)) as Hok.
  destruct (AuthMetadata._validate_auth_metadata _ _ _) as [[]|e] eqn:Hm.
  - split; [done|]. by apply Hok.
  - rewrite (metadata_errors _ _ _ Hf _ Hm). split; [done|]. by intros Hmeta%Hok.
Qed.

(** ** Concrete runs: an identity provider that rotates its keys *)
Module Witness.
Import SettingsProofs.Witness RateLimitFixtures.RateLimitFixtures.

Definition auth : AuthSettings.t :=
  AuthSettings.mk true (Some "https://id.example.org"%string) (Some "app"%string) None
    ["web"; "mobile"]%string None "RS256" 30 300 300 true true 3600 "fail" 30000000 2000000.

Definition claims : dict :=
  [("sub", JStr "auth|carol"); ("email", JStr "carol@example.org"); ("azp", JStr "web");
   ("exp", JInt 4000); ("iat", JInt 400); ("email_verified", JBool true)]%string.

Definition header : dict := [("alg", JStr "RS256"); ("kid", JStr "k2")]%string.

#[export] Instance jwt : Jwt := {|
  signing_key := string;
  get_unverified_header t := if String.eqb t "token-k2" then Ok (JObj header) else Err InvalidTokenError;
  decode t key algs aud iss leeway options now :=
    if String.eqb t "token-k2" && String.eqb key "modulus-2" then Ok (JObj claims)
    else Err InvalidTokenError;
  rs256_from_jwk := Some (fun jwk =>
    match as_dict jwk ≫= fun d => as_str (dict_get "n" d) with
    | Some n => Ok n
    | None => Err InvalidTokenError
    end);
|}.

#[export] Instance claim_types : ClaimTypes := {|
  email_str s := Some s;
  lax_bool j := match j with JBool b => Some b | _ => None end;
|}.

Definition key (kid n : string) : json :=
  JObj [("kty", JStr "RSA"); ("kid", JStr kid); ("n", JStr n)]%string.

Definition discovery : json :=
  JObj [("issuer", JStr "https://id.example.org"); ("jwks_uri", JStr "https://id.example.org/keys")]%string.
Definition old_keys : dict := [("keys", JArr [key "k1" "modulus-1"])]%string.
Definition new_keys : dict := [("keys", JArr [key "k1" "modulus-1"; key "k2" "modulus-2"])]%string.

Definition provider (n : nat) (url : string) : result json :=
  if String.eqb url "https://id.example.org/.well-known/openid-configuration" then Ok discovery
  else if String.eqb url "https://id.example.org/keys"
  then Ok (JObj (if (n <=? 1)%nat then old_keys else new_keys))
  else Err (OtherError "URLError").

Definition serves (url : string) (j : json) : Prop := exists n, provider n url = Ok j.

Definition carol : AuthenticatedPrincipal.t :=
  AuthenticatedPrincipal.mk "auth|carol" (Some "carol@example.org"%string) true None None.

Definition bearer : option string := Some "Bearer token-k2"%string.

(** Carol's request, from the start of the process to its end. *)
Definition after : nat * state * bool * M (option string * AuthenticatedPrincipal.t) :=
  step_through provider 0 1000000000 100 (O, initial, false, authentication auth bearer).

Lemma carol_served :
  exists l, history serves _last_forced_jwks_refresh_at (is_request auth) (idle 0 1000000000) l
    (mkLoop after.1.1.2 after.1.2 0 1000000000 [after.2]).
Proof.
  eapply (step_through_history serves _last_forced_jwks_refresh_at provider 0 1000000000 _ 100
    (O, initial, false, authentication auth bearer)).
  - intros n url r Hr. by exists n.
  - eapply history_step; [apply history_start|].
    apply (step_start serves (is_request auth) initial false 0 1000000000 []).
    by exists bearer.
Defined.

Lemma principal_authenticated_witness :
  exists l L,
    history serves _last_forced_jwks_refresh_at (is_request auth) (idle 0 1000000000) l L /\
    tasks L !! 0%nat = Some (Ret (bearer, carol)) /\
    exists token now claims,
      Auth._extract_bearer_token bearer = Ok (Some token) /\
      accepted auth serves token now claims /\
      JwtClaimsPayload.from_verified_jwt_claims claims = Ok carol.
Proof.
  destruct carol_served as [l Hh]. exists l. eexists. split; [exact Hh|].
  assert (Hend : after.2 = Ret (bearer, carol)) by (vm_compute; reflexivity).
  split; [cbn [tasks]; rewrite Hend; reflexivity|].
  eapply (principal_authenticated auth serves 0 1000000000 l _ 0 bearer carol Hh).
  cbn [tasks]. rewrite Hend. reflexivity.
Defined.

(** The old keys are cached when the token with the new key comes. *)
Definition caching : state := mkState None (Some (CacheEntry.mk old_keys 300000000)) 0.

(** Her request to a process that has the old keys. *)
Definition refreshed : nat * state * bool * M (option string * AuthenticatedPrincipal.t) :=
  step_through provider 0 1000000000 100 (O, caching, false, authentication auth bearer).

Lemma refresh_counted :
  exists l, counted serves _last_forced_jwks_refresh_at (in_window auth 0) (is_request auth)
    (mkLoop caching false 0 1000000000 []) refreshed.1.1.1 l
    (mkLoop refreshed.1.1.2 refreshed.1.2 0 1000000000 [refreshed.2]).
Proof.
  eapply (step_through_counted serves _last_forced_jwks_refresh_at _ provider 0 1000000000 _ _ 100
    (O, caching, false, authentication auth bearer)).
  - intros n url r Hr. by exists n.
  - apply (counted_begin _ _ _ _ _ _ _ _ _ 0 1000000000 []); [|by exists bearer].
    by apply counted_start.
Defined.

Lemma forced_refreshes_spaced_witness :
  (exists l L,
    history serves _last_forced_jwks_refresh_at (is_request auth) (idle 0 1000000000) l L /\
    _last_forced_jwks_refresh_at (shared L) = 1000000000 /\
    Z.of_nat (length l) * 30000000 <= Z.max 0 (monotonic L)) /\
  exists l L,
    counted serves _last_forced_jwks_refresh_at (in_window auth 0) (is_request auth)
      (mkLoop caching false 0 1000000000 []) 2 l L /\
    (2 <= 2 * length l)%nat.
Proof.
  destruct carol_served as [l Hh].
  pose proof (forced_refreshes_spaced auth serves 0 1000000000 l _ Hh) as (_ & Hlen & _ & Hasked).
  split.
  - exists l. eexists. split; [exact Hh|]. split; [vm_compute; reflexivity|exact Hlen].
  - destruct refresh_counted as [l' Hc]. exists l'. eexists.
    assert (Htwo : refreshed.1.1.1 = 2%nat) by (vm_compute; reflexivity). rewrite Htwo in Hc.
    split; [exact Hc|].
    apply (proj1 (Hasked caching 0 1000000000 0 2%nat l' _ eq_refl
      (ex_intro _ (CacheEntry.mk old_keys 300000000) (conj eq_refl eq_refl)) Hc)).
Defined.

Definition configured : AuthSettings.t :=
  AuthSettings.mk true (Some "https://id.example.org"%string) (Some "app"%string) None
    ["web"; "mobile"]%string (Some "https://id.example.org/keys"%string) "RS256" 30 300 300 true true
    3600 "fail" 30000000 2000000.

Lemma key_rotation_followed_witness :
  exists r, run_alone provider (fun _ => 0) (fun _ => 1000000000)
      (validate_token configured "token-k2") 5 caching =
    (r, 6%nat, mkState None (Some (CacheEntry.mk new_keys 300000000)) 1000000000) /\
    (r = Ok claims <-> claims_of configured "token-k2" "modulus-2" 0 claims).
Proof.
  assert (Hr : readable configured "token-k2" header "k2") by (constructor; vm_compute; reflexivity).
  assert (Hu : unexpired (_jwks_cache caching) 0 = Some old_keys) by (vm_compute; reflexivity).
  destruct (key_rotation_followed configured provider (fun _ => 0) (fun _ => 1000000000) "token-k2"
    header "k2" "https://id.example.org/keys" old_keys 5 caching Hr eq_refl Hu) as [_ Hmiss].
  assert (Hno : no_key_in "k2" old_keys) by (eexists _, _; split; vm_compute; reflexivity).
  specialize (Hmiss Hno). destruct (cooling_down configured _ _) eqn:Hc; [vm_compute in Hc; discriminate|].
  destruct Hmiss as [_ Hfound]. destruct (Hfound new_keys "modulus-2"%string) as (r & Hrun & Hclaims).
  - vm_compute. reflexivity.
  - eexists _, _, _, _. split; [reflexivity|]. split; [vm_compute; reflexivity|].
    split; [vm_compute; reflexivity|]. split; [reflexivity|]. vm_compute. reflexivity.
  - exists r. split; [exact Hrun|]. apply Hclaims.
Defined.

Definition startup : result bool :=
  AuthMetadata.init_auth_validation (provider 0) "prod" auth.

Lemma deployed_startup_checked_witness :
  exists s, Settings.Settings.validate production = Ok s /\ deployed s /\
    match AuthMetadata.init_auth_validation (provider 0) (environment_of s) (Settings.Settings.auth s) with
    | Ok warned =>
        warned = false /\ metadata_ok (provider 0) (environment_of s) (Settings.Settings.auth s)
    | Err e =>
        e = OtherError "RuntimeError" /\
        ~ metadata_ok (provider 0) (environment_of s) (Settings.Settings.auth s)
    end.
Proof.
  assert (Hb : (match Settings.Settings.validate production with
                | Ok s => bool_decide (environment_of s ∈ ["staging"; "prod"]%string)
                | Err _ => false end) = true) by (vm_compute; reflexivity).
  destruct (Settings.Settings.validate production) as [s|e] eqn:Hv; [|discriminate].
  apply bool_decide_eq_true in Hb. exists s. split; [reflexivity|]. split; [exact Hb|].
  apply (deployed_startup_checked production s (provider 0) Hv Hb).
  intros url e. unfold provider. destruct (String.eqb _ _); [discriminate|].
  destruct (String.eqb _ _); [discriminate|]. intros [= <-]. reflexivity.
Defined.

End Witness.
