(* ===== verification/LocalStorageProofs.v ===== *)
(** The local adapter keeps the publication protocol, whatever it is stopped by: every
    operation is a move of it for its key, touches no other key, and leaves at each moment
    either the old or the new state. *)
From stdpp Require Import functions.
From S2P Require Import Prelude Errors Session Schema Tables AuditLog Invites RateLimitPolicies.
From S2P Require Import RateLimitIngress Settings SubjectExports ExportArtifactServices.
From S2P Require Import Storage FileTree LocalStorage Fixtures.
Import LocalStorageAdapter.

(** ** Paths *)

Abbreviation locks := [".locks"%string] (only parsing).

(** A tree in which the adapter can work on [p]: it is not in the lock directory, no file is
    above it, and the lock directory is one. *)
Record ready (p : list string) (t : gmap (list string) node) : Prop := mkReady {
  ready_closed : closed t;
  ready_apart : exists x r, p = x :: r /\ x <> ".locks"%string;
  ready_above : forall q r c, p = q ++ r -> q <> [] -> r <> [] -> t !! q <> Some (File c);
  ready_locks : forall c, t !! [".locks"%string] <> Some (File c);
  ready_shards : forall x, t !! [".locks"; x]%string <> Some Directory;
}.

Definition same_below (p : list string) (t t' : gmap (list string) node) : Prop :=
  forall r, t' !! (p ++ r) = t !! (p ++ r).

(** Outside [p] and the locks, at most directories above [p] appeared. *)
Definition elsewhere (p : list string) (t t' : gmap (list string) node) : Prop :=
  forall q, strip_prefix p q = None -> strip_prefix locks q = None ->
    t' !! q = t !! q \/ (t !! q = None /\ t' !! q = Some Directory /\ exists r, r <> [] /\ p = q ++ r).

(** Every tree passed between two disks satisfies [P]. *)
Definition passes (P : gmap (list string) node -> Prop) (d d' : Disk) : Prop :=
  exists l, past d' = l ++ past d /\ Forall P l.

Lemma passes_refl P d : passes P d d.
Proof. by exists []. Qed.

Lemma passes_trans P d1 d2 d3 : passes P d1 d2 -> passes P d2 d3 -> passes P d1 d3.
Proof.
  intros (l & Hl & HP) (l' & Hl' & HP'). exists (l' ++ l). rewrite Hl', Hl, app_assoc.
  split; [done|]. by apply Forall_app.
Qed.

Lemma passes_mono (P P' : gmap (list string) node -> Prop) d d' :
  passes P d d' -> (forall t, P t -> P' t) -> passes P' d d'.
Proof. intros (l & Hl & HP) HPP. exists l. split; [done|]. eapply Forall_impl; [exact HP|exact HPP]. Qed.

Lemma passes_changed (P : gmap (list string) node -> Prop) t d : P t -> passes P d (changed t d).
Proof. intros HP. exists [t]. split; [done|]. by constructor. Qed.

Lemma elsewhere_refl p t : elsewhere p t t.
Proof. by left. Qed.

Lemma elsewhere_trans p t1 t2 t3 : elsewhere p t1 t2 -> elsewhere p t2 t3 -> elsewhere p t1 t3.
Proof.
  intros H12 H23 q Hp Hl. destruct (H23 q Hp Hl) as [->|(Hn & -> & Hr)]; [by apply H12|].
  destruct (H12 q Hp Hl) as [Heq|(Hn' & Hd & _)]; [|congruence].
  right. by rewrite <- Heq.
Qed.

(** A directory or file put where there was none, or a file where there was one. *)
Lemma closed_insert t p n :
  closed t -> p <> [] -> node_at t (parent p) = Some Directory ->
  (t !! p = Some Directory -> n = Directory) -> closed (<[p := n]> t).
Proof.
  intros [Hr Hc] Hp Hpar Hkind. split; [by rewrite lookup_insert_ne|].
  intros q m Hq. assert (Hold : node_at t (parent q) = Some Directory).
  { destruct (decide (q = p)) as [->|Hne]; [done|]. rewrite lookup_insert_ne in Hq by done.
    by apply Hc in Hq. }
  destruct (parent q) as [|x r] eqn:Hpq; [done|]. cbn in *.
  destruct (decide (x :: r = p)) as [<-|Hne]; [|by rewrite lookup_insert_ne].
  rewrite lookup_insert_eq. f_equal. by apply Hkind.
Qed.

(** *** Creating directories *)

(** At most directories on the way to [q] appeared. *)
Definition grows (q : list string) (t t' : gmap (list string) node) : Prop :=
  forall x, t' !! x = t !! x \/
    (t !! x = None /\ t' !! x = Some Directory /\ x <> [] /\ exists r, q = x ++ r).

Lemma grows_refl q t : grows q t t.
Proof. by left. Qed.

Lemma grows_trans q t1 t2 t3 : grows q t1 t2 -> grows q t2 t3 -> grows q t1 t3.
Proof.
  intros H12 H23 x. destruct (H23 x) as [->|(Hn & -> & Hr)]; [by apply H12|].
  destruct (H12 x) as [Heq|(Hn' & Hd & _)]; [|congruence]. right. by rewrite <- Heq.
Qed.

Lemma grows_node q t t' x : grows q t t' -> node_at t x = Some Directory -> node_at t' x = Some Directory.
Proof.
  intros Hg. destruct x as [|y x]; [done|]. cbn. destruct (Hg (y :: x)) as [->|(Hn & _)]; congruence.
Qed.

Lemma mkdir_down_run rest : forall above d,
  closed (tree d) -> node_at (tree d) above = Some Directory ->
  (forall r s c, rest = r ++ s -> r <> [] -> tree d !! (above ++ r) <> Some (File c)) ->
  exists d', mkdir_down above rest d = (Ok tt, d') /\ closed (tree d') /\
    grows (above ++ rest) (tree d) (tree d') /\ node_at (tree d') (above ++ rest) = Some Directory /\
    passes (grows (above ++ rest) (tree d)) d d' /\ drawn d' = drawn d.
Proof.
  induction rest as [|x rest IH]; intros above d Hc Ha Hf; cbn [mkdir_down].
  { exists d. rewrite app_nil_r. split_and!; auto using grows_refl, passes_refl. }
  unfold mbind at 1, FS_bind at 1, get_tree. rewrite node_at_snoc.
  destruct (tree d !! (above ++ [x])) as [[c|]|] eqn:Hx.
  - exfalso. by apply (Hf [x] rest c).
  - destruct (IH (above ++ [x]) d Hc) as (d' & Hrun & Hrest).
    + by rewrite node_at_snoc.
    + intros r s c -> Hr. rewrite <- app_assoc. by apply (Hf (x :: r) s c).
    + exists d'. rewrite <- app_assoc in Hrest. by split.
  - unfold set_tree. unfold mbind, FS_bind. set (d1 := mkDisk _ _ _).
    assert (Hstep : grows (above ++ x :: rest) (tree d) (tree d1)).
    { intros q. cbn. destruct (decide (q = above ++ [x])) as [->|Hne].
      - right. rewrite lookup_insert_eq. split_and!; [done|done|by destruct above|].
        exists rest. by rewrite <- app_assoc.
      - left. by rewrite lookup_insert_ne. }
    destruct (IH (above ++ [x]) d1) as (d' & Hrun & Hc' & Hg & Hn & Hp & Hdr).
    + cbn. apply closed_insert; [done|by destruct above|by rewrite parent_snoc|done].
    + rewrite node_at_snoc. cbn. by rewrite lookup_insert_eq.
    + intros r s c -> Hr. cbn. rewrite lookup_insert_ne.
      * rewrite <- app_assoc. by apply (Hf (x :: r) s c).
      * destruct r; [done|]. intros Heq%(f_equal length). rewrite !length_app in Heq. cbn in Heq. lia.
    + rewrite <- app_assoc in Hg, Hn, Hp. cbn [app] in Hg, Hn, Hp. exists d'. split; [exact Hrun|].
      split; [exact Hc'|]. split; [by eapply grows_trans|]. split; [exact Hn|]. split; [|done].
      eapply passes_trans; [apply (passes_changed _ (tree d1) d); exact Hstep|].
      eapply passes_mono; [exact Hp|]. intros t Ht. by eapply grows_trans.
Qed.

(** *** What an operation does around its key's path *)

(** Nothing happens at [p] between the two disks, and the adapter can still work there. *)
Record quiet (p : list string) (d d' : Disk) : Prop := mkQuiet {
  quiet_ready : ready p (tree d) -> ready p (tree d');
  quiet_below : same_below p (tree d) (tree d');
  quiet_elsewhere : elsewhere p (tree d) (tree d');
  quiet_passes : passes (same_below p (tree d)) d d';
  quiet_drawn : drawn d' = drawn d;
}.

Lemma quiet_trans p d1 d2 d3 : quiet p d1 d2 -> quiet p d2 d3 -> quiet p d1 d3.
Proof.
  intros [Hr1 Hb1 He1 Hp1 Hd1] [Hr2 Hb2 He2 Hp2 Hd2]. constructor; auto.
  - intros r. by rewrite Hb2.
  - by eapply elsewhere_trans.
  - eapply passes_trans; [exact Hp1|]. eapply passes_mono; [exact Hp2|].
    intros t Ht r. by rewrite Ht.
  - congruence.
Qed.

(** A path in the lock directory is apart from [p]. *)
Lemma apart_locks p t r q : ready p t -> p ++ r <> ".locks"%string :: q.
Proof. intros [_ (x & s & -> & Hx) _ _ _]. cbn. congruence. Qed.

Lemma locks_below p t r : ready p t -> strip_prefix locks (p ++ r) = None.
Proof. intros [_ (x & s & -> & Hx) _ _ _]. cbn [strip_prefix app]. by destruct (String.eqb_spec ".locks" x) as [<-|]. Qed.

Lemma grows_locks_same p t t' :
  ready p t -> grows locks t t' -> same_below p t t'.
Proof.
  intros Hr Hg q. destruct (Hg (p ++ q)) as [|(_ & _ & Hne & r & Heq)]; [done|].
  exfalso. destruct Hr as [_ (x & s & -> & Hx) _ _ _]. cbn in Heq. congruence.
Qed.

Section Lock.
Context `{Env} `{Crypto}.

Lemma shard_lookup x t q n :
  (<[[".locks"; x]%string := n]> t : gmap (list string) node) !! q = t !! q \/ q = [".locks"; x]%string.
Proof. destruct (decide (q = [".locks"; x]%string)); [by right|left]. by rewrite lookup_insert_ne. Qed.

(** The lock's shard file, in a lock directory. *)
Lemma shard_quiet p t x c d :
  ready p t -> tree d = t -> t !! locks = Some Directory ->
  quiet p d (changed (<[[".locks"; x]%string := File c]> t) d).
Proof.
  intros Hr <- Hd. pose proof Hr as [Hc (y & s & Hp & Hy) Ha Hl Hs].
  assert (Hbelow : same_below p (tree d) (<[[".locks"; x]%string := File c]> (tree d))).
  { intros r. rewrite lookup_insert_ne; [done|]. intros Heq. by eapply apart_locks. }
  constructor; cbn; [intros _|done| |by apply passes_changed|done].
  - constructor.
    + apply closed_insert; [done|done|done|]. intros Hdir. by destruct (Hs x).
    + by exists y, s.
    + intros q r c' Hq Hne Hner. rewrite lookup_insert_ne; [by eapply Ha|].
      intros <-. rewrite Hp in Hq. cbn in Hq. congruence.
    + intros c'. rewrite lookup_insert_ne by done. apply Hl.
    + intros z. destruct (decide (z = x)) as [->|Hne]; [by rewrite lookup_insert_eq|].
      rewrite lookup_insert_ne; [apply Hs|congruence].
  - intros q _ Hq. left. rewrite lookup_insert_ne; [done|]. intros <-. by cbn in Hq.
Qed.

Lemma shard_written p x c c' d :
  ready p (tree d) -> tree d !! locks = Some Directory ->
  quiet p d (changed (<[[".locks"; x]%string := File c']> (tree d))
               (changed (<[[".locks"; x]%string := File c]> (tree d)) d)).
Proof.
  intros Hr Hd. set (d2 := changed _ d).
  assert (Hq2 : quiet p d d2) by (by apply shard_quiet).
  eapply quiet_trans; [exact Hq2|].
  replace (<[[".locks"; x]%string := File c']> (tree d))
    with (<[[".locks"; x]%string := File c']> (tree d2)) by (unfold d2; cbn; by rewrite insert_insert_eq).
  apply shard_quiet; [by apply (quiet_ready p d d2 Hq2)|reflexivity|].
  unfold d2. cbn. by rewrite lookup_insert_ne.
Qed.

Lemma lock_run p key safe_key d :
  _validate_key key = Ok safe_key -> ready p (tree d) ->
  exists d', _lock_for_key key d = (Ok tt, d') /\ quiet p d d'.
Proof.
  intros Hk Hr. unfold _lock_for_key, fs_lift. rewrite Hk.
  unfold mbind at 1, FS_bind at 1. unfold mkdir_parents.
  pose proof Hr as [Hc (y & s & Hp & Hy) Ha Hl Hs].
  destruct (mkdir_down_run locks [] d Hc eq_refl) as (d1 & Hrun & Hc1 & Hg & Hn & Hpass & Hdr).
  { intros [|x [|z r]] s' c Heq Hne; [done| |done]. injection Heq as <- <-. apply Hl. }
  cbn [app] in *. cbn in Hn.
  assert (Hq1 : quiet p d d1).
  { constructor; [intros _| | | |done].
    - constructor; [done|by exists y, s| | |].
      + intros q r c Hq Hne Hner. destruct (Hg q) as [->|(_ & -> & _)]; [by eapply Ha|done].
      + intros c. by rewrite Hn.
      + intros x. destruct (Hg [".locks"; x]%string) as [->|(_ & _ & _ & r & Heq)]; [apply Hs|done].
    - by apply grows_locks_same.
    - intros q _ Hq. destruct (Hg q) as [|(Hnone & Hdir & Hne & r & Heq)]; [by left|].
      exfalso. destruct q as [|z q]; [done|]. injection Heq as <- Heq.
      destruct q; [|done]. by cbn in Hq.
    - eapply passes_mono; [exact Hpass|]. intros t Ht. by apply grows_locks_same. }
  assert (Hr1 : ready p (tree d1)) by (by apply (quiet_ready p d d1 Hq1)).
  eexists. split.
  - erewrite fs_bind_ok by exact Hrun. apply write_file_run; cbn.
    + apply (ready_shards p _ Hr1).
    + exact Hn.
  - eapply quiet_trans; [exact Hq1|]. by apply shard_written.
Qed.
End Lock.

(** *** The directories above the key *)
Lemma parents_run p d :
  ready p (tree d) ->
  exists d', mkdir_parents (parent p) d = (Ok tt, d') /\ quiet p d d' /\
    node_at (tree d') (parent p) = Some Directory.
Proof.
  intros Hr. pose proof Hr as [Hc (y & s & Hp & Hy) Ha Hl Hs].
  destruct (exists_last (l := p)) as (q & z & Hqz); [by rewrite Hp|].
  assert (parent p = q) as -> by (rewrite Hqz; apply parent_snoc).
  destruct (mkdir_down_run q [] d Hc eq_refl) as (d' & Hrun & Hc' & Hg & Hn & Hpass & Hdr).
  { intros r r' c -> Hne. cbn. apply (Ha r (r' ++ [z]) c); [by rewrite Hqz, <- app_assoc|done|by destruct r']. }
  cbn [app] in *. exists d'. split; [exact Hrun|]. split; [|exact Hn].
  assert (Hsame : forall t t', grows q t t' -> same_below p t t').
  { intros t t' Hgr r. destruct (Hgr (p ++ r)) as [|(_ & _ & _ & r' & Heq)]; [done|]. exfalso.
    apply (f_equal length) in Heq. rewrite Hqz, !length_app in Heq. cbn in Heq. lia. }
  constructor; [intros _|by apply Hsame| |by (eapply passes_mono; [exact Hpass|apply Hsame])|done].
  - constructor; [done|by exists y, s| | |].
    + intros x r c Hx Hne Hner. destruct (Hg x) as [->|(_ & -> & _)]; [by eapply Ha|done].
    + intros c. destruct (Hg locks) as [->|(_ & -> & _)]; [apply Hl|done].
    + intros x. destruct (Hg [".locks"; x]%string) as [->|(_ & _ & _ & r & Heq)]; [apply Hs|].
      exfalso. rewrite Heq in Hqz. rewrite Hp in Hqz. cbn in Hqz. congruence.
  - intros x Hx _. destruct (Hg x) as [|(Hnone & Hdir & Hne & r & Heq)]; [by left|right].
    split_and!; [done|done|]. exists (r ++ [z]). split; [by destruct r|].
    by rewrite Hqz, Heq, <- app_assoc.
Qed.

Section Slots.
Context `{Env} `{Crypto}.

(** What is kept at a path, if it is something the adapter makes. *)
Definition slot_at (p : list string) (t : gmap (list string) node) : option slot :=
  match t !! p with
  | None => Some Free
  | Some (File c) => Some (Published (sha256_hexdigest c) (size_of c))
  | Some Directory =>
      match t !! object_of p, t !! reservation_of p with
      | Some (File c), (None | Some (File _)) => Some (Published (sha256_hexdigest c) (size_of c))
      | None, Some (File o) => Some (Held o)
      | _, _ => None
      end
  end.

Lemma slot_same p t t' : same_below p t t' -> slot_at p t' = slot_at p t.
Proof.
  intros Hs. unfold slot_at, object_of, reservation_of.
  pose proof (Hs []) as Hself. rewrite app_nil_r in Hself. by rewrite Hself, !Hs.
Qed.

(** *** Names beside the key *)
(** A name the adapter draws. *)
Definition drawn_name (p : list string) (n : nat) (suffix : string) : list string :=
  beside p (Uuid.hex 32 (uuid4 n) "") suffix.

Lemma drawn_name_shape p n suffix :
  p <> [] -> exists q x z, p = q ++ [x] /\ drawn_name p n suffix = q ++ [z] /\ z <> x /\
    parent p = q /\ (6 < String.length z)%nat.
Proof.
  intros Hp. destruct (exists_last Hp) as (q & x & ->). unfold drawn_name, beside, name_of.
  rewrite parent_snoc, List.last_last. eexists q, x, _. split_and!; try done.
  - intros Heq. apply (f_equal String.length) in Heq. rewrite !Text.length_append, Uuid.length_hex in Heq.
    cbn in Heq. lia.
  - rewrite !Text.length_append, Uuid.length_hex. cbn. lia.
Qed.

Lemma strip_sibling (q : list string) x z r : z <> x -> strip_prefix (q ++ [x]) (q ++ z :: r) = None.
Proof.
  intros Hne. destruct (strip_prefix _ _) as [r'|] eqn:Hs; [|done].
  apply strip_prefix_Some in Hs. rewrite <- app_assoc in Hs. apply app_inv_head in Hs.
  cbn in Hs. congruence.
Qed.

Lemma name_not_below p n suffix r : p <> [] -> strip_prefix p (drawn_name p n suffix ++ r) = None.
Proof.
  intros Hp. destruct (drawn_name_shape p n suffix Hp) as (q & x & z & -> & -> & Hz & _).
  rewrite <- app_assoc. by apply strip_sibling.
Qed.

Lemma not_below_name p n suffix r : p <> [] -> strip_prefix (drawn_name p n suffix) (p ++ r) = None.
Proof.
  intros Hp. destruct (drawn_name_shape p n suffix Hp) as (q & x & z & -> & -> & Hz & _).
  rewrite <- app_assoc. by apply strip_sibling.
Qed.

Lemma name_apart p n suffix r t :
  ready p t -> strip_prefix locks (drawn_name p n suffix ++ r) = None.
Proof.
  intros [_ (y & s & -> & Hy) _ _ _].
  destruct (drawn_name_shape (y :: s) n suffix) as (q & x & z & Hp & -> & Hz & _ & Hlen); [done|].
  destruct q as [|w q]; cbn [app strip_prefix].
  - destruct (String.eqb_spec ".locks" z) as [<-|]; [cbn in Hlen; lia|done].
  - cbn in Hp. injection Hp as <- _. by destruct (String.eqb_spec ".locks" y) as [<-|].
Qed.

(** A name beside [p] that is free: nothing below it, nothing of [p] below it or above. *)
Record spare (p b : list string) (t : gmap (list string) node) : Prop := mkSpare {
  spare_path : b <> [];
  spare_free : forall r, t !! (b ++ r) = None;
  spare_other : forall r, strip_prefix p (b ++ r) = None;
  spare_key : forall r, strip_prefix b (p ++ r) = None;
  spare_locks : forall r, strip_prefix locks (b ++ r) = None;
  spare_parent : node_at t (parent b) = node_at t (parent p);
}.

Lemma drawn_spare p n suffix t :
  ready p t -> t !! drawn_name p n suffix = None -> spare p (drawn_name p n suffix) t.
Proof.
  intros Hr Hfree. pose proof Hr as [Hc (y & s & Hp & Hy) _ _ _].
  assert (Hpne : p <> []) by (by rewrite Hp).
  destruct (drawn_name_shape p n suffix Hpne) as (q & x & z & Hq & Hb & _ & Hpq & _).
  assert (Hbne : drawn_name p n suffix <> []) by (rewrite Hb; by destruct q).
  constructor; [done| | | | |].
  - intros [|w r]; [by rewrite app_nil_r|]. apply closed_below; [done|done|by rewrite Hfree|done].
  - intros r. by apply name_not_below.
  - intros r. by apply not_below_name.
  - intros r. by eapply name_apart.
  - by rewrite Hb, parent_snoc, Hpq.
Qed.

(** The names drawn from here on are not taken. *)
Definition fresh (p : list string) (d : Disk) : Prop :=
  forall n suffix, (drawn d <= n)%nat -> tree d !! drawn_name p n suffix = None.

Lemma fresh_quiet p d d' : ready p (tree d) -> quiet p d d' -> fresh p d -> fresh p d'.
Proof.
  intros Hr [_ _ He _ Hd] Hf n suffix Hn. rewrite Hd in Hn.
  assert (Hp : p <> []) by (by destruct Hr as [_ (y & s & -> & _) _ _ _]).
  destruct (He (drawn_name p n suffix)) as [->|(_ & _ & r & Hne & Heq)].
  - rewrite <- (app_nil_r (drawn_name _ _ _)). by apply name_not_below.
  - rewrite <- (app_nil_r (drawn_name _ _ _)). by eapply name_apart.
  - by apply Hf.
  - exfalso. pose proof (not_below_name p n suffix [] Hp) as Hnot.
    rewrite app_nil_r in Hnot. rewrite Heq in Hnot at 2. by rewrite strip_prefix_app in Hnot.
Qed.

(** *** What an operation leaves

    Between two disks the key's slot went from [s] to [s'], at once. *)
Record settled (p : list string) (d d' : Disk) (s s' : slot) : Prop := mkSettled {
  settled_ready : ready p (tree d');
  settled_slot : slot_at p (tree d') = Some s';
  settled_elsewhere : elsewhere p (tree d) (tree d');
  settled_passes : passes (fun t => slot_at p t = Some s \/ slot_at p t = Some s') d d';
  settled_drawn : (drawn d <= drawn d')%nat;
}.

Lemma quiet_settled p d d' s :
  ready p (tree d) -> slot_at p (tree d) = Some s -> quiet p d d' -> settled p d d' s s.
Proof.
  intros Hr Hs [Hrd Hb He Hp Hdr]. constructor; auto.
  - by rewrite (slot_same p (tree d)).
  - eapply passes_mono; [exact Hp|]. intros t Ht. left. by rewrite (slot_same p (tree d)).
  - lia.
Qed.

Lemma quiet_then p d1 d2 d3 s s' :
  slot_at p (tree d1) = Some s -> quiet p d1 d2 -> settled p d2 d3 s s' -> settled p d1 d3 s s'.
Proof.
  intros Hs [Hrd Hb He Hp Hdr] [Hr' Hs' He' Hp' Hdr']. constructor; auto.
  - by eapply elsewhere_trans.
  - eapply passes_trans; [|exact Hp']. eapply passes_mono; [exact Hp|].
    intros t Ht. left. by rewrite (slot_same p (tree d1)).
  - lia.
Qed.

(** *** Removing *)
Lemma closed_without p t : closed t -> closed (without p t).
Proof.
  intros [Hroot Hc]. split.
  - rewrite lookup_without. by destruct (strip_prefix p []).
  - intros q n Hq. rewrite lookup_without in Hq. destruct (strip_prefix p q) eqn:Hs; [done|].
    pose proof (Hc q n Hq) as Hpar. destruct (parent q) as [|x r] eqn:Hpq; [done|]. cbn.
    rewrite lookup_without. destruct (strip_prefix p (x :: r)) as [r'|] eqn:Hs'; [|done].
    exfalso. apply strip_prefix_Some in Hs'. destruct (decide (q = [])) as [->|Hne]; [by rewrite Hroot in Hq|].
    destruct (exists_last Hne) as (q' & z & ->). rewrite parent_snoc in Hpq. subst q'.
    rewrite Hs', <- app_assoc, strip_prefix_app in Hs. done.
Qed.

Lemma ready_without p t : ready p t -> ready p (without p t).
Proof.
  intros Hr. pose proof Hr as [Hc Hap Ha Hl Hs]. constructor; [by apply closed_without|done| | |].
  - intros q r c Hq Hne Hner. rewrite lookup_without.
    destruct (strip_prefix p q); [done|by eapply Ha].
  - intros c. rewrite lookup_without. destruct (strip_prefix p locks); [done|apply Hl].
  - intros x. rewrite lookup_without. destruct (strip_prefix p _); [done|apply Hs].
Qed.

Lemma without_free p t : slot_at p (without p t) = Some Free.
Proof. unfold slot_at. by rewrite lookup_without, strip_prefix_refl. Qed.

Lemma elsewhere_without p t : elsewhere p t (without p t).
Proof. intros q Hq _. left. by rewrite lookup_without, Hq. Qed.

(** A tree taken away through a spare name is gone. *)
Lemma quarantined p b t : spare p b t -> without b (move p b t) = without p t.
Proof.
  intros Hb. apply map_eq. intros q. rewrite !lookup_without, lookup_move.
  destruct (strip_prefix b q) as [r|] eqn:Hbq; [|done].
  apply strip_prefix_Some in Hbq as ->. by rewrite (spare_other p b t Hb), (spare_free p b t Hb).
Qed.

(** So is a file. *)
Lemma quarantined_file p b c t :
  closed t -> p <> [] -> t !! p = Some (File c) -> spare p b t -> base.delete b (move p b t) = without p t.
Proof.
  intros Hc Hp Hn Hb. rewrite <- (quarantined p b t Hb). apply map_eq. intros q.
  rewrite lookup_without. destruct (decide (q = b)) as [->|Hqb].
  { by rewrite lookup_delete_eq, strip_prefix_refl. }
  rewrite lookup_delete_ne, lookup_move by done.
  destruct (strip_prefix b q) as [r|] eqn:Hbq; [|done]. apply strip_prefix_Some in Hbq as ->.
  apply closed_below; [done|done|by rewrite Hn|]. intros ->. by rewrite app_nil_r in Hqb.
Qed.

Lemma moved_away p b t : spare p b t -> slot_at p (move p b t) = Some Free.
Proof.
  intros Hb. unfold slot_at. rewrite lookup_move. pose proof (spare_key p b t Hb []) as Hk.
  rewrite app_nil_r in Hk. by rewrite Hk, strip_prefix_refl.
Qed.

Lemma remove_run p d s n :
  ready p (tree d) -> fresh p d -> slot_at p (tree d) = Some s -> tree d !! p = Some n ->
  exists d', _remove_target_atomically p d = (Ok tt, d') /\ settled p d d' s Free.
Proof.
  intros Hr Hf Hs Hn. pose proof Hr as [Hc (y & r & Hp & Hy) _ _ _].
  assert (Hpne : p <> []) by (by rewrite Hp).
  set (b := drawn_name p (drawn d) "deleted").
  assert (Hb : spare p b (tree d)) by (apply drawn_spare; [done|by apply Hf]).
  set (d0 := mkDisk (tree d) (past d) (S (drawn d))).
  set (d1 := changed (move p b (tree d)) d0).
  assert (Hbn : node_at (tree d1) b = Some n).
  { rewrite node_at_ne by apply Hb. unfold d1. cbn. by rewrite lookup_move, strip_prefix_refl, app_nil_r. }
  assert (Hren : rename p b d0 = (Ok tt, d1)).
  { apply (rename_new p b n); [by rewrite node_at_ne| |].
    - rewrite node_at_ne by apply Hb. rewrite <- (app_nil_r b). apply Hb.
    - cbn. rewrite (spare_parent p b _ Hb). by apply (proj2 Hc p n). }
  assert (Hfinal : forall t, t = without p (tree d) -> settled p d (changed t d1) s Free).
  { intros t ->. constructor; cbn; [by apply ready_without|apply without_free|apply elsewhere_without| |lia].
    exists [without p (tree d); move p b (tree d)]. split; [done|].
    constructor; [right; apply without_free|]. constructor; [right; by apply moved_away|constructor]. }
  unfold _remove_target_atomically.
  erewrite fs_bind_ok by apply exists_run. rewrite node_at_ne, Hn by done. cbn [is_None negb].
  erewrite fs_bind_ok by reflexivity. fold d0. change (beside p _ "deleted") with b.
  rewrite (fs_try_ok _ _ _ _ _ _ _ Hren). erewrite fs_bind_ok by apply is_dir_run.
  rewrite Hbn. destruct n as [c|].
  - rewrite bool_decide_false by done.
    rewrite (fs_try_ok _ _ _ _ _ _ _ (unlink_run b c d1 Hbn)). eexists. split; [reflexivity|].
    apply Hfinal. by eapply quarantined_file.
  - rewrite bool_decide_true by done. rewrite (rmtree_run b d1 Hbn). eexists. split; [reflexivity|].
    apply Hfinal. by apply quarantined.
Qed.

(** *** The opening of every operation: the key's path, and the lock *)
Lemma resolved key p :
  _resolve key = Ok p -> exists safe_key, _validate_key key = Ok safe_key.
Proof. unfold _resolve. destruct (_validate_key key) as [k|e]; [by exists k|done]. Qed.

Lemma opened key p d :
  _resolve key = Ok p -> ready p (tree d) ->
  exists d1, quiet p d d1 /\
    forall B (k : list string -> FS B),
      (target ← fs_lift (_resolve key); _lock_for_key key;; k target) d = k p d1.
Proof.
  intros Hp Hr. destruct (resolved key p Hp) as [safe_key Hk].
  destruct (lock_run p key safe_key d Hk Hr) as (d1 & Hrun & Hq). exists d1. split; [exact Hq|].
  intros B k. unfold fs_lift. rewrite Hp. erewrite fs_bind_ok by reflexivity.
  by erewrite fs_bind_ok by exact Hrun.
Qed.

(** *** What a slot says of the tree *)
Inductive holds (p : list string) (t : gmap (list string) node) : slot -> Prop :=
  | holds_free : t !! p = None -> t !! object_of p = None -> t !! reservation_of p = None ->
      holds p t Free
  | holds_plain c : t !! p = Some (File c) -> t !! object_of p = None ->
      t !! reservation_of p = None -> holds p t (Published (sha256_hexdigest c) (size_of c))
  | holds_object c : t !! p = Some Directory -> t !! object_of p = Some (File c) ->
      t !! reservation_of p <> Some Directory ->
      holds p t (Published (sha256_hexdigest c) (size_of c))
  | holds_reservation o : t !! p = Some Directory -> t !! object_of p = None ->
      t !! reservation_of p = Some (File o) -> holds p t (Held o).

Lemma slot_holds p t s : ready p t -> slot_at p t = Some s -> holds p t s.
Proof.
  intros [Hc (y & r & Hp & _) _ _ _]. unfold slot_at.
  assert (Hbelow : t !! p <> Some Directory -> t !! object_of p = None /\ t !! reservation_of p = None).
  { intros Hn. split; apply closed_below; try done; by rewrite Hp. }
  destruct (t !! p) as [[c|]|] eqn:Hn.
  - intros [= <-]. destruct Hbelow; [done|]. by constructor.
  - destruct (t !! object_of p) as [[c|]|] eqn:Ho, (t !! reservation_of p) as [[o|]|] eqn:Hres;
      intros [= <-]; constructor; try done; by rewrite Hres.
  - intros [= <-]. destruct Hbelow; [done|]. by constructor.
Qed.

Lemma node_at_object t p : node_at t (object_of p) = t !! object_of p.
Proof. apply node_at_snoc. Qed.

Lemma node_at_reservation t p : node_at t (reservation_of p) = t !! reservation_of p.
Proof. apply node_at_snoc. Qed.

Lemma ready_path p t : ready p t -> p <> [] /\ node_at t p = t !! p.
Proof. intros [_ (y & r & -> & _) _ _ _]. done. Qed.

Lemma compare_run q c checksum size d :
  node_at (tree d) q = Some (File c) ->
  (content ← read_file q;
   let '(existing_checksum, existing_size) := _checksum_and_size content in
   mret (if String.eqb existing_checksum checksum && Z.eqb existing_size size
         then MATCHING else CONFLICT)) d =
  (Ok (state_of (Published (sha256_hexdigest c) (size_of c)) checksum size), d).
Proof.
  intros Hn. erewrite fs_bind_ok by (rewrite read_file_run, Hn; reflexivity). reflexivity.
Qed.

Lemma inspect_run p s checksum size d :
  ready p (tree d) -> slot_at p (tree d) = Some s ->
  _inspect_file_unlocked p checksum size d = (Ok (state_of s checksum size), d).
Proof.
  intros Hr Hs. destruct (ready_path p _ Hr) as [Hp Hnode]. unfold _inspect_file_unlocked.
  erewrite fs_bind_ok by apply exists_run. rewrite Hnode.
  destruct (slot_holds p _ s Hr Hs) as [Hn Ho Hres|c Hn Ho Hres|c Hn Ho Hres|o Hn Ho Hres];
    rewrite Hn; cbn [is_None negb]; try done;
    erewrite fs_bind_ok by apply is_dir_run; rewrite Hnode, Hn.
  - rewrite bool_decide_false by done. apply compare_run. by rewrite Hnode.
  - rewrite bool_decide_true by done. erewrite fs_bind_ok by apply is_file_run.
    rewrite node_at_object, Ho. cbn [negb]. apply compare_run. by rewrite node_at_object.
  - rewrite bool_decide_true by done. erewrite fs_bind_ok by apply is_file_run.
    rewrite node_at_object, Ho. cbn [negb]. erewrite fs_bind_ok by apply is_file_run.
    by rewrite node_at_reservation, Hres.
Qed.

(** *** Each operation *)

(** What an operation does to a key's slot, and its reply. *)
Definition served {A} (p : list string) (d : Disk) (m : FS A) (a : action) (s : slot)
    (replied : result A -> reply -> Prop) : Prop :=
  exists r d' rep s', m d = (r, d') /\ replied r rep /\ protocol a s rep s' /\ settled p d d' s s'.

Definition ends_in {A} (x : A) (r : result A) (rep : reply) : Prop :=
  match r with
  | Ok y => y = x /\ rep = Done
  | Err e => e = StorageObjectConflictError /\ rep = Refused
  end.

Definition answers_state (r : result StorageObjectState) (rep : reply) : Prop :=
  match r with Ok st => rep = State st | Err _ => False end.

Lemma settled_same p d s :
  ready p (tree d) -> slot_at p (tree d) = Some s -> settled p d d s s.
Proof. intros Hr Hs. constructor; [done|done|apply elsewhere_refl|apply passes_refl|done]. Qed.

Lemma inspect_served key p checksum size s d :
  _resolve key = Ok p -> ready p (tree d) -> slot_at p (tree d) = Some s ->
  served p d (inspect_file key checksum size) (Inspect checksum size) s answers_state.
Proof.
  intros Hp Hr Hs. destruct (opened key p d Hp Hr) as (d1 & Hq & Hrun). unfold inspect_file.
  assert (Hs1 : slot_at p (tree d1) = Some s)
    by (by rewrite (slot_same p (tree d)) by apply Hq).
  exists (Ok (state_of s checksum size)), d1, (State (state_of s checksum size)), s. split_and!.
  - rewrite Hrun. apply inspect_run; [by apply Hq|exact Hs1].
  - done.
  - constructor.
  - by apply quiet_settled.
Qed.

Lemma remove_served p s d :
  ready p (tree d) -> fresh p d -> slot_at p (tree d) = Some s ->
  exists d', _remove_target_atomically p d = (Ok tt, d') /\ settled p d d' s Free.
Proof.
  intros Hr Hf Hs. destruct (tree d !! p) as [n|] eqn:Hn; [by eapply remove_run|].
  assert (s = Free) as -> by (unfold slot_at in Hs; rewrite Hn in Hs; congruence).
  exists d. split; [|by apply settled_same]. unfold _remove_target_atomically.
  erewrite fs_bind_ok by apply exists_run.
  by rewrite (proj2 (ready_path p _ Hr)), Hn.
Qed.

Lemma opened_slot p d d1 s :
  ready p (tree d) -> fresh p d -> slot_at p (tree d) = Some s -> quiet p d d1 ->
  ready p (tree d1) /\ fresh p d1 /\ slot_at p (tree d1) = Some s.
Proof.
  intros Hr Hf Hs Hq. split; [by apply Hq|]. split; [by eapply fresh_quiet|].
  by rewrite (slot_same p (tree d)) by apply Hq.
Qed.

Lemma delete_served key p s d :
  _resolve key = Ok p -> ready p (tree d) -> fresh p d -> slot_at p (tree d) = Some s ->
  served p d (delete key) Delete s (ends_in tt).
Proof.
  intros Hp Hr Hf Hs. destruct (opened key p d Hp Hr) as (d1 & Hq & Hrun). unfold delete.
  destruct (opened_slot p d d1 s Hr Hf Hs Hq) as (Hr1 & Hf1 & Hs1).
  destruct (remove_served p s d1 Hr1 Hf1 Hs1) as (d' & Hrem & Hset).
  exists (Ok tt), d', Done, Free. split_and!; [by rewrite Hrun|done|constructor|].
  by eapply quiet_then.
Qed.

Lemma delete_unless_served key p checksum size s d :
  _resolve key = Ok p -> ready p (tree d) -> fresh p d -> slot_at p (tree d) = Some s ->
  served p d (delete_file_if_not_matching key checksum size) (DeleteUnlessMatching checksum size) s
    answers_state.
Proof.
  intros Hp Hr Hf Hs. destruct (opened key p d Hp Hr) as (d1 & Hq & Hrun).
  destruct (opened_slot p d d1 s Hr Hf Hs Hq) as (Hr1 & Hf1 & Hs1).
  unfold delete_file_if_not_matching. unfold served. setoid_rewrite Hrun.
  destruct (decide (state_of s checksum size = MATCHING)) as [Hm|Hm].
  - exists (Ok MATCHING), d1, (State MATCHING), s. split_and!; [|done|by constructor|by apply quiet_settled].
    erewrite fs_bind_ok by (by apply inspect_run). by rewrite Hm, bool_decide_true.
  - destruct (remove_served p s d1 Hr1 Hf1 Hs1) as (d' & Hrem & Hset).
    exists (Ok MISSING), d', (State MISSING), Free. split_and!; [|done|by constructor|by eapply quiet_then].
    erewrite fs_bind_ok by (by apply inspect_run). rewrite bool_decide_false by done.
    by erewrite fs_bind_ok by exact Hrem.
Qed.

(** Reading the reservation. *)
Lemma reservation_read p s d :
  ready p (tree d) -> slot_at p (tree d) = Some s ->
  (exists o, read_file (reservation_of p) d = (Ok o, d) /\ tree d !! reservation_of p = Some (File o) /\
     tree d !! p = Some Directory) \/
  (exists e, read_file (reservation_of p) d = (Err e, d) /\ is_absent e = true /\
     tree d !! reservation_of p = None /\ forall o, s <> Held o).
Proof.
  intros Hr Hs. rewrite read_file_run, node_at_reservation.
  destruct (slot_holds p _ s Hr Hs) as [Hn Ho Hres|c Hn Ho Hres|c Hn Ho Hres|o Hn Ho Hres].
  1, 2: right; rewrite Hres; eexists; split_and!; [done|apply not_there_absent|done|done].
  - destruct (tree d !! reservation_of p) as [[o|]|]; [left; by exists o|done|right].
    eexists. split_and!; [done|apply not_there_absent|done|done].
  - left. rewrite Hres. by exists o.
Qed.

Lemma cancel_served key p o s d :
  _resolve key = Ok p -> ready p (tree d) -> fresh p d -> slot_at p (tree d) = Some s ->
  served p d (cancel_file_publication (reserved_by key o)) (Cancel o) s (ends_in tt).
Proof.
  intros Hp Hr Hf Hs. destruct (opened key p d Hp Hr) as (d1 & Hq & Hrun).
  destruct (opened_slot p d d1 s Hr Hf Hs Hq) as (Hr1 & Hf1 & Hs1).
  unfold cancel_file_publication, served. cbn [reserved_by reservation_key reservation_owner_token].
  setoid_rewrite Hrun.
  destruct (reservation_read p s d1 Hr1 Hs1) as [(o' & Hread & Hres & Hdir)|(e & Hread & Ha & Hres & Hno)].
  2:{ exists (Ok tt), d1, Done, s. split_and!; [|done|by constructor|by apply quiet_settled].
      by rewrite (fs_try_caught _ _ _ _ _ _ _ Hread Ha). }
  destruct (slot_holds p _ s Hr1 Hs1) as [|c Hn ? ?|c Hn Ho Hres'|o'' Hn Ho Hres']; [congruence..| |].
  - exists (Ok tt), d1, Done, (Published (sha256_hexdigest c) (size_of c)).
    split_and!; [|done|by constructor|by apply quiet_settled].
    rewrite (fs_try_ok _ _ _ _ _ _ _ Hread). erewrite fs_bind_ok by apply exists_run.
    by rewrite node_at_object, Ho, orb_true_r.
  - assert (o'' = o') as -> by congruence. destruct (String.eqb_spec o' o) as [->|Hne].
    + destruct (remove_served p (Held o) d1 Hr1 Hf1 Hs1) as (d' & Hrem & Hset).
      exists (Ok tt), d', Done, Free. split_and!; [|done|by constructor|by eapply quiet_then].
      rewrite (fs_try_ok _ _ _ _ _ _ _ Hread). erewrite fs_bind_ok by apply exists_run.
      by rewrite node_at_object, Ho, String.eqb_refl.
    + exists (Ok tt), d1, Done, (Held o'). split_and!; [|done|constructor; congruence|by apply quiet_settled].
      rewrite (fs_try_ok _ _ _ _ _ _ _ Hread). erewrite fs_bind_ok by apply exists_run.
      by rewrite (proj2 (String.eqb_neq o' o) Hne).
Qed.

(** *** Changes inside the key's directory *)
Lemma closed_delete t q c : closed t -> q <> [] -> t !! q = Some (File c) -> closed (base.delete q t).
Proof.
  intros Hc Hq Hn. pose proof Hc as [Hroot Hcl]. split; [by rewrite lookup_delete_ne|].
  intros x m Hx. destruct (decide (x = q)) as [->|Hne]; [by rewrite lookup_delete_eq in Hx|].
  rewrite lookup_delete_ne in Hx by done. pose proof (Hcl x m Hx) as Hpar.
  destruct (parent x) as [|y r] eqn:Hpx; [done|]. cbn in *.
  destruct (decide (y :: r = q)) as [<-|]; [congruence|by rewrite lookup_delete_ne].
Qed.

(** A tree that differs below [p] only. *)
Lemma ready_inside p t t' :
  ready p t -> closed t' -> (forall q, strip_prefix p q = None -> t' !! q = t !! q) ->
  ready p t' /\ elsewhere p t t'.
Proof.
  intros Hr Hc' Hsame. pose proof Hr as [Hc (y & s & Hp & Hy) Ha Hl Hs]. split.
  - assert (Hlk : forall r, strip_prefix p (".locks"%string :: r) = None).
    { intros r. rewrite Hp. cbn [strip_prefix]. by destruct (String.eqb_spec y ".locks"). }
    constructor; [done|by exists y, s| | |].
    + intros q r c Hq Hne Hner. rewrite Hsame; [by eapply Ha|].
      destruct (strip_prefix p q) as [r'|] eqn:Hpq; [|done]. apply strip_prefix_Some in Hpq as ->.
      apply (f_equal length) in Hq. rewrite !length_app in Hq. destruct r; [done|]. cbn in Hq. lia.
    + intros c. rewrite Hsame; [apply Hl|apply Hlk].
    + intros x. rewrite Hsame; [apply Hs|apply Hlk].
  - intros q Hq _. left. by apply Hsame.
Qed.

Lemma inside_ne p x q : strip_prefix p q = None -> p ++ [x] <> q.
Proof. intros Hq <-. by rewrite strip_prefix_app in Hq. Qed.

(** The archive is put into the reserved directory, then the reservation goes. *)
Lemma published_run p o content d :
  ready p (tree d) -> tree d !! p = Some Directory -> tree d !! object_of p = None ->
  tree d !! reservation_of p = Some (File o) ->
  exists d1 d2, link content (object_of p) d = (Ok tt, d1) /\
    unlink (reservation_of p) d1 = (Ok tt, d2) /\
    settled p d d2 (Held o) (Published (sha256_hexdigest content) (size_of content)).
Proof.
  intros Hr Hn Ho Hres. destruct (ready_path p _ Hr) as [Hp Hnode].
  pose proof (ready_closed p _ Hr) as Hc.
  assert (Hne : object_of p <> reservation_of p).
  { unfold object_of, reservation_of. intros Heq%app_inv_head. done. }
  assert (Hop : object_of p <> p).
  { unfold object_of. intros Heq%(f_equal length). rewrite length_app in Heq. cbn in Heq. lia. }
  assert (Hrp : reservation_of p <> p).
  { unfold reservation_of. intros Heq%(f_equal length). rewrite length_app in Heq. cbn in Heq. lia. }
  set (d1 := changed (<[object_of p := File content]> (tree d)) d).
  set (d2 := changed (base.delete (reservation_of p) (tree d1)) d1).
  assert (Hl : link content (object_of p) d = (Ok tt, d1)).
  { apply link_new; [by rewrite node_at_object|]. unfold object_of. rewrite parent_snoc. by rewrite Hnode. }
  assert (Hres1 : tree d1 !! reservation_of p = Some (File o)) by (cbn; by rewrite lookup_insert_ne).
  assert (Hu : unlink (reservation_of p) d1 = (Ok tt, d2))
    by (apply (unlink_run _ o); by rewrite node_at_reservation).
  exists d1, d2. split_and!; [exact Hl|exact Hu|].
  assert (Hc1 : closed (tree d1)).
  { apply closed_insert; [done|by destruct p| |by rewrite Ho]. unfold object_of. rewrite parent_snoc. by rewrite Hnode. }
  assert (Hs1 : slot_at p (tree d1) = Some (Published (sha256_hexdigest content) (size_of content))).
  { unfold slot_at. rewrite Hres1. cbn. by rewrite lookup_insert_ne, Hn, lookup_insert_eq. }
  assert (Hs2 : slot_at p (tree d2) = Some (Published (sha256_hexdigest content) (size_of content))).
  { unfold slot_at. cbn. rewrite !lookup_delete_ne, lookup_delete_eq by done.
    by rewrite lookup_insert_ne, Hn, lookup_insert_eq. }
  destruct (ready_inside p (tree d) (tree d2) Hr) as [Hr2 He2].
  - cbn. apply (closed_delete _ _ o); [exact Hc1|by destruct p|exact Hres1].
  - intros q Hq. cbn. rewrite lookup_delete_ne, lookup_insert_ne; [done|by apply inside_ne..].
  - constructor; [done|done|done| |cbn; lia]. exists [tree d2; tree d1]. split; [done|].
    constructor; [by right|]. constructor; [by right|constructor].
Qed.

(** What is there already is compared, and a reservation left beside it goes. *)
Lemma leftover_run p o c d :
  ready p (tree d) -> tree d !! p = Some Directory -> tree d !! object_of p = Some (File c) ->
  tree d !! reservation_of p = Some (File o) ->
  exists d', unlink (reservation_of p) d = (Ok tt, d') /\
    settled p d d' (Published (sha256_hexdigest c) (size_of c)) (Published (sha256_hexdigest c) (size_of c)).
Proof.
  intros Hr Hn Ho Hres. destruct (ready_path p _ Hr) as [Hp Hnode].
  assert (Hne : object_of p <> reservation_of p).
  { unfold object_of, reservation_of. intros Heq%app_inv_head. done. }
  assert (Hrp : reservation_of p <> p).
  { unfold reservation_of. intros Heq%(f_equal length). rewrite length_app in Heq. cbn in Heq. lia. }
  set (d' := changed (base.delete (reservation_of p) (tree d)) d).
  exists d'. split; [apply (unlink_run _ o); by rewrite node_at_reservation|].
  assert (Hs : slot_at p (tree d') = Some (Published (sha256_hexdigest c) (size_of c))).
  { unfold slot_at. cbn. rewrite !lookup_delete_ne, lookup_delete_eq by done. by rewrite Hn, Ho. }
  destruct (ready_inside p (tree d) (tree d') Hr) as [Hr2 He2].
  - cbn. apply (closed_delete _ _ o); [by apply Hr|by destruct p|exact Hres].
  - intros q Hq. cbn. rewrite lookup_delete_ne; [done|by apply inside_ne].
  - constructor; [done|done|done| |cbn; lia]. apply passes_changed. by right.
Qed.

Definition publishes (x : StoredObject.t) (r : result StoredObject.t) (rep : reply) : Prop :=
  ends_in x r rep.

Lemma publish_served key p o content content_type s d :
  _resolve key = Ok p -> ready p (tree d) -> fresh p d -> slot_at p (tree d) = Some s ->
  served p d (publish_reserved_file (reserved_by key o) content content_type (sha256_hexdigest content))
    (Publish o (sha256_hexdigest content) (size_of content)) s
    (ends_in (StoredObject.mk key content_type (size_of content))).
Proof.
  intros Hp Hr Hf Hs. destruct (opened key p d Hp Hr) as (d1 & Hq & Hrun).
  destruct (opened_slot p d d1 s Hr Hf Hs Hq) as (Hr1 & Hf1 & Hs1).
  unfold publish_reserved_file, served. cbn [reserved_by reservation_key reservation_owner_token reservation_revision].
  unfold _checksum_and_size at 1.
  assert (Hopen : forall B (k : list string -> FS B),
    (target ← fs_lift (_resolve key);
     if negb (String.eqb (sha256_hexdigest content) (sha256_hexdigest content))
     then fs_raise (ValueError "Prepared storage file checksum changed")
     else _lock_for_key key;; k target) d = k p d1).
  { intros B k. rewrite <- Hrun. unfold fs_lift. rewrite Hp, String.eqb_refl. reflexivity. }
  setoid_rewrite Hopen. rewrite String.eqb_refl.
  destruct (reservation_read p s d1 Hr1 Hs1) as [(o' & Hread & Hres & Hdir)|(e & Hread & Ha & Hres & Hno)].
  2:{ exists (Err StorageObjectConflictError), d1, Refused, s.
      split_and!; [|done|by constructor|by apply quiet_settled].
      apply fs_bind_err. by rewrite (fs_try_caught _ _ _ _ _ _ _ Hread Ha). }
  destruct (String.eqb_spec o' o) as [->|Hne].
  2:{ exists (Err StorageObjectConflictError), d1, Refused, s.
      split_and!; [|done| |by apply quiet_settled].
      - apply fs_bind_err. rewrite (fs_try_ok _ _ _ _ _ _ _ Hread).
        by rewrite (proj2 (String.eqb_neq o' o) Hne).
      - constructor. intros ->. apply Hne. apply slot_holds in Hs1; [|done]. inversion Hs1; congruence. }
  destruct (slot_holds p _ s Hr1 Hs1) as [|c Hn ? ?|c Hn Ho Hres'|o'' Hn Ho Hres']; [congruence..| |].
  - (* the archive is there, the reservation was left *)
    assert (Hlink : link content (object_of p) d1 = (Err FileExistsError, d1))
      by (apply (link_taken _ _ (File c)); by rewrite node_at_object).
    destruct (decide (sha256_hexdigest c = sha256_hexdigest content /\ size_of c = size_of content)) as [[Hsum Hsize]|Hdiff].
    + destruct (leftover_run p o c d1 Hr1 Hn Ho Hres) as (d' & Hun & Hset).
      rewrite Hsum, Hsize in Hset.
      exists (Ok (StoredObject.mk key content_type (size_of content))), d', Done,
        (Published (sha256_hexdigest content) (size_of content)).
      rewrite Hsum, Hsize. split_and!; [|done|constructor|].
      * erewrite fs_bind_ok; [reflexivity|]. rewrite (fs_try_ok _ _ _ _ _ _ _ Hread), String.eqb_refl.
        cbn [negb orb]. erewrite fs_bind_ok.
        { by rewrite (fs_try_ok _ _ _ _ _ _ _ Hun). }
        rewrite (fs_try_caught _ _ _ _ _ _ _ Hlink eq_refl).
        change (is_error FileExistsError FileExistsError) with true. cbv iota.
        erewrite fs_bind_ok by (rewrite read_file_run, node_at_object, Ho; reflexivity).
        cbn [_checksum_and_size]. rewrite Hsum, Hsize, String.eqb_refl, Z.eqb_refl. reflexivity.
      * eapply quiet_then; [|exact Hq|exact Hset]. by rewrite Hs, Hsum, Hsize.
    + exists (Err StorageObjectConflictError), d1, Refused, (Published (sha256_hexdigest c) (size_of c)).
      split_and!; [|done|by constructor|by apply quiet_settled].
      apply fs_bind_err. rewrite (fs_try_ok _ _ _ _ _ _ _ Hread), String.eqb_refl. cbn [negb orb].
      apply fs_bind_err. rewrite (fs_try_caught _ _ _ _ _ _ _ Hlink eq_refl).
      change (is_error FileExistsError FileExistsError) with true. cbv iota.
      erewrite fs_bind_ok by (rewrite read_file_run, node_at_object, Ho; reflexivity).
      cbn [_checksum_and_size].
      destruct (String.eqb_spec (sha256_hexdigest c) (sha256_hexdigest content)),
        (Z.eqb_spec (size_of c) (size_of content)); cbn [negb orb]; try reflexivity.
      by destruct Hdiff.
  - (* the reservation is the caller's *)
    assert (o'' = o) as -> by congruence.
    destruct (published_run p o content d1 Hr1 Hn Ho Hres) as (d2 & d3 & Hlink & Hun & Hset).
    exists (Ok (StoredObject.mk key content_type (size_of content))), d3, Done,
      (Published (sha256_hexdigest content) (size_of content)).
    split_and!; [|done|constructor|by eapply quiet_then].
    erewrite fs_bind_ok; [reflexivity|]. rewrite (fs_try_ok _ _ _ _ _ _ _ Hread), String.eqb_refl.
    cbn [negb orb]. erewrite fs_bind_ok by (rewrite (fs_try_ok _ _ _ _ _ _ _ Hlink); reflexivity).
    by rewrite (fs_try_ok _ _ _ _ _ _ _ Hun).
Qed.

(** *** Reserving *)

(** The directory prepared beside the key, holding the reservation. *)
Definition staged (b : list string) (o : string) (t : gmap (list string) node) : gmap (list string) node :=
  <[b ++ [_RESERVATION_NAME] := File o]> (<[b := Directory]> t).

Lemma below_ne (b : list string) q r : strip_prefix b q = None -> b ++ r <> q.
Proof. intros Hq <-. by rewrite strip_prefix_app in Hq. Qed.

Lemma staged_lookup b o t q : strip_prefix b q = None -> staged b o t !! q = t !! q.
Proof.
  intros Hq. unfold staged. rewrite !lookup_insert_ne; [done| |by apply below_ne].
  rewrite <- (app_nil_r b). by apply below_ne.
Qed.

(** Taken away again, it leaves nothing; *)
Lemma staged_dropped p b o t : spare p b t -> without b (staged b o t) = t.
Proof.
  intros Hb. apply map_eq. intros q. rewrite lookup_without. destruct (strip_prefix b q) as [r|] eqn:Hq.
  - apply strip_prefix_Some in Hq as ->. by rewrite (spare_free p b t Hb).
  - by apply staged_lookup.
Qed.

(** put in the place of the key, it is the reservation. *)
Lemma staged_moved p b o t :
  spare p b t -> (forall r, t !! (p ++ r) = None) -> move b p (staged b o t) = staged p o t.
Proof.
  intros Hb Hfree. apply map_eq. intros q. rewrite lookup_move.
  destruct (strip_prefix p q) as [r|] eqn:Hq.
  - apply strip_prefix_Some in Hq as ->. unfold staged.
    destruct (decide (r = [_RESERVATION_NAME])) as [->|Hr]; [by rewrite !lookup_insert_eq|].
    rewrite !(lookup_insert_ne _ (_ ++ [_RESERVATION_NAME])) by (by intros Heq%app_inv_head).
    destruct (decide (r = [])) as [->|Hne]; [by rewrite !app_nil_r, !lookup_insert_eq|].
    assert (forall x : list string, x <> x ++ r).
    { intros x Heq%(f_equal length). rewrite length_app in Heq. destruct r; [done|]. cbn in Heq. lia. }
    rewrite !lookup_insert_ne by done. by rewrite Hfree, (spare_free p b t Hb).
  - rewrite (staged_lookup p) by done. destruct (strip_prefix b q) as [r|] eqn:Hbq.
    + apply strip_prefix_Some in Hbq as ->. by rewrite (spare_free p b t Hb).
    + by apply staged_lookup.
Qed.

Lemma staged_run p b o d :
  ready p (tree d) -> spare p b (tree d) -> node_at (tree d) (parent p) = Some Directory ->
  exists d', (mkdir b;; write_file (b ++ [_RESERVATION_NAME]) o) d = (Ok tt, d') /\
    tree d' = staged b o (tree d) /\ drawn d' = drawn d /\ passes (same_below p (tree d)) d d'.
Proof.
  intros Hr Hb Hpar. set (t := tree d).
  set (d1 := changed (<[b := Directory]> t) d).
  assert (Hmk : mkdir b d = (Ok tt, d1)).
  { apply mkdir_run; [|by rewrite (spare_parent p b _ Hb)].
    rewrite node_at_ne by apply Hb. rewrite <- (app_nil_r b). apply Hb. }
  assert (Hnone : t !! (b ++ [_RESERVATION_NAME]) = None) by apply Hb.
  assert (Hbne : b <> b ++ [_RESERVATION_NAME]).
  { intros Heq%(f_equal length). rewrite length_app in Heq. cbn in Heq. lia. }
  eexists. split_and!.
  - erewrite fs_bind_ok by exact Hmk. apply write_file_run.
    + rewrite node_at_snoc. cbn. by rewrite lookup_insert_ne, Hnone.
    + rewrite parent_snoc, node_at_ne by apply Hb. cbn. by rewrite lookup_insert_eq.
  - reflexivity.
  - reflexivity.
  - assert (Hin : forall n r, same_below p t (<[b ++ r := n]> t)).
    { intros n r x. rewrite lookup_insert_ne; [done|]. apply below_ne, Hb. }
    assert (Hdir : same_below p t (<[b := Directory]> t)).
    { pose proof (Hin Directory []) as Hd. by rewrite app_nil_r in Hd. }
    assert (Hres : forall n, same_below p t (<[b ++ [_RESERVATION_NAME] := n]> (<[b := Directory]> t))).
    { intros n x. rewrite lookup_insert_ne; [apply Hdir|]. apply below_ne, Hb. }
    eexists [_; _; _]. split; [reflexivity|]. by repeat (constructor; [first [apply Hres|exact Hdir]|]).
Qed.

Lemma slot_staged p o t : t !! object_of p = None -> slot_at p (staged p o t) = Some (Held o).
Proof.
  intros Ho. unfold slot_at, staged.
  assert (Hx : forall x, p ++ [x] <> p).
  { intros x Heq%(f_equal length). rewrite length_app in Heq. cbn in Heq. lia. }
  assert (Hne : p ++ [_RESERVATION_NAME] <> object_of p).
  { unfold object_of. intros Heq%app_inv_head. done. }
  rewrite lookup_insert_ne, lookup_insert_eq by done.
  rewrite (lookup_insert_ne _ (p ++ [_RESERVATION_NAME]) (object_of p)) by done.
  rewrite (lookup_insert_ne _ p (object_of p)), Ho by (apply not_eq_sym, Hx).
  unfold reservation_of. by rewrite lookup_insert_eq.
Qed.

Lemma closed_staged p o t :
  closed t -> p <> [] -> node_at t (parent p) = Some Directory ->
  t !! (p ++ [_RESERVATION_NAME]) <> Some Directory -> closed (staged p o t).
Proof.
  intros Hc Hp Hpar Hn. unfold staged. apply closed_insert.
  - by apply closed_insert.
  - by destruct p.
  - rewrite parent_snoc, node_at_ne by done. by rewrite lookup_insert_eq.
  - rewrite lookup_insert_ne; [intros; by exfalso|].
    intros Heq%(f_equal length). rewrite length_app in Heq. cbn in Heq. lia.
Qed.

(** The name is free: the reservation takes it at once. *)
Lemma reserve_free_run p b o d :
  ready p (tree d) -> spare p b (tree d) -> tree d !! p = None ->
  node_at (tree d) (parent p) = Some Directory ->
  exists d', (mkdir b;; write_file (b ++ [_RESERVATION_NAME]) o) d = (Ok tt, d') /\
    exists d'', rename b p d' = (Ok tt, d'') /\ settled p d d'' Free (Held o).
Proof.
  intros Hr Hb Hn Hpar. destruct (ready_path p _ Hr) as [Hp Hnode].
  destruct (staged_run p b o d Hr Hb Hpar) as (d' & Hrun & Htree & Hdr & Hpass).
  exists d'. split; [exact Hrun|].
  assert (Hbelow : forall r, tree d !! (p ++ r) = None).
  { intros [|x r]; [by rewrite app_nil_r|]. by apply closed_below; [apply Hr| |rewrite Hn|]. }
  assert (Hkey : forall r, staged b o (tree d) !! (p ++ r) = None).
  { intros r. rewrite staged_lookup; [apply Hbelow|apply Hb]. }
  assert (Hslot : slot_at p (tree d) = Some Free) by (unfold slot_at; by rewrite Hn).
  set (t' := staged p o (tree d)).
  assert (Hs' : slot_at p t' = Some (Held o)) by (apply slot_staged, Hbelow).
  exists (changed t' d'). split.
  - rewrite (rename_new b p Directory).
    + unfold t'. rewrite Htree. by rewrite (staged_moved p b).
    + rewrite Htree, node_at_ne by apply Hb. unfold staged.
      rewrite lookup_insert_ne, lookup_insert_eq; [done|].
      intros Heq%(f_equal length). rewrite length_app in Heq. cbn in Heq. lia.
    + rewrite node_at_ne, Htree by done. rewrite <- (app_nil_r p). apply Hkey.
    + rewrite Htree. destruct (parent p) as [|x r] eqn:Hpp; [done|]. cbn.
      rewrite staged_lookup; [exact Hpar|].
      destruct (strip_prefix b (x :: r)) as [r'|] eqn:Hs; [|done]. exfalso.
      apply strip_prefix_Some in Hs. cbn in Hpar. rewrite Hs in Hpar. by rewrite (spare_free p b _ Hb) in Hpar.
  - destruct (ready_inside p (tree d) t' Hr) as [Hr' He'].
    + apply closed_staged; [apply Hr|done|done|]. by rewrite Hbelow.
    + intros q Hq. by apply staged_lookup.
    + constructor; [done|done|done| |cbn; lia]. eapply passes_trans.
      * eapply passes_mono; [exact Hpass|]. intros t Ht. left. by rewrite (slot_same p (tree d)).
      * apply passes_changed. by right.
Qed.

(** It is not: what was prepared goes, and the tree is as it was. *)
Lemma reserve_taken_run p b o s d :
  ready p (tree d) -> spare p b (tree d) -> node_at (tree d) (parent p) = Some Directory ->
  slot_at p (tree d) = Some s -> s <> Free ->
  exists d' e d'', (mkdir b;; write_file (b ++ [_RESERVATION_NAME]) o) d = (Ok tt, d') /\
    rename b p d' = (Err e, d') /\ is_os_error e = true /\ rmtree b d' = (Ok tt, d'') /\
    tree d'' = tree d /\ drawn d'' = drawn d /\ passes (same_below p (tree d)) d d''.
Proof.
  intros Hr Hb Hpar Hs Hfree. destruct (ready_path p _ Hr) as [Hp Hnode].
  destruct (staged_run p b o d Hr Hb Hpar) as (d' & Hrun & Htree & Hdr & Hpass).
  assert (Hkey : forall r, staged b o (tree d) !! (p ++ r) = tree d !! (p ++ r)).
  { intros r. apply staged_lookup, Hb. }
  assert (Hself : node_at (tree d') p = tree d !! p).
  { rewrite Htree, node_at_ne by done. rewrite <- (app_nil_r p). apply Hkey. }
  assert (Hdir : node_at (tree d') b = Some Directory).
  { rewrite Htree, node_at_ne by apply Hb. unfold staged. rewrite lookup_insert_ne, lookup_insert_eq; [done|].
    intros Heq%(f_equal length). rewrite length_app in Heq. cbn in Heq. lia. }
  assert (Htaken : exists n, tree d !! p = Some n /\ (n = Directory -> has_children (tree d') p = true)).
  { destruct (slot_holds p _ s Hr Hs) as [|c Hn ? ?|c Hn Ho ?|o' Hn ? Hres]; [done|..];
      eexists; (split; [exact Hn|]); intros Hd; [done|..]; apply has_children_true.
    - exists _PUBLISHED_OBJECT_NAME, [], (File c). rewrite Htree, Hkey. exact Ho.
    - exists _RESERVATION_NAME, [], (File o'). rewrite Htree, Hkey. exact Hres. }
  destruct Htaken as (n & Hn & Hch). rewrite <- Hself in Hn.
  destruct (rename_taken b p n d' Hdir Hn Hch) as (e & Hren & He).
  exists d', e, (changed (without b (tree d')) d'). split_and!; [done..|by apply rmtree_run| | |].
  - cbn. rewrite Htree. by apply (staged_dropped p).
  - done.
  - eapply passes_trans; [exact Hpass|]. apply passes_changed. rewrite Htree, (staged_dropped p) by done.
    by intros r.
Qed.

Lemma reserve_served key p o s d :
  _resolve key = Ok p -> ready p (tree d) -> fresh p d -> slot_at p (tree d) = Some s ->
  served p d (reserve_file_publication key o) (Reserve o) s (ends_in (reserved_by key o)).
Proof.
  intros Hp Hr Hf Hs. destruct (opened key p d Hp Hr) as (d1 & Hq & Hrun).
  destruct (opened_slot p d d1 s Hr Hf Hs Hq) as (Hr1 & Hf1 & Hs1).
  destruct (parents_run p d1 Hr1) as (d2 & Hmk & Hq2 & Hpar).
  destruct (opened_slot p d1 d2 s Hr1 Hf1 Hs1 Hq2) as (Hr2 & Hf2 & Hs2).
  pose proof (quiet_trans p d d1 d2 Hq Hq2) as Hq02.
  set (b := drawn_name p (drawn d2) "reservation").
  set (d3 := mkDisk (tree d2) (past d2) (S (drawn d2))).
  assert (Hb : spare p b (tree d3)) by (apply drawn_spare; [done|by apply Hf2]).
  assert (Hset3 : forall d' s', settled p d3 d' s s' -> settled p d d' s s').
  { intros d' s' Hset. eapply quiet_then; [exact Hs|exact Hq02|]. destruct Hset. constructor; try done. cbn in *. lia. }
  unfold reserve_file_publication, served. setoid_rewrite Hrun.
  assert (Hstart : forall B (k : unit -> FS B), (mkdir_parents (parent p) ≫= k) d1 = k tt d2).
  { intros B k. by apply fs_bind_ok. }
  setoid_rewrite Hstart. change _PUBLISH_RETRY_LIMIT with 3%nat. cbn [reserve_attempts].
  assert (Hhex : forall B (k : string -> FS B), (uuid4_hex ≫= k) d2 = k (Uuid.hex 32 (uuid4 (drawn d2)) "") d3) by done.
  setoid_rewrite Hhex. fold (drawn_name p (drawn d2) "reservation"). fold b.
  assert (Hcase : s = Free \/ s <> Free) by (destruct s; [by left|by right..]).
  destruct Hcase as [->|Hnf].
  - assert (Hn : tree d3 !! p = None).
    { apply slot_holds in Hs2; [|done]. by inversion Hs2. }
    destruct (reserve_free_run p b o d3 Hr2 Hb Hn Hpar) as (d4 & Hst & d5 & Hren & Hset).
    exists (Ok (reserved_by key o)), d5, Done, (Held o). split_and!; [|done|constructor|by apply Hset3].
    unfold mbind, FS_bind in Hst |- *. destruct (mkdir b d3) as [[[]|] d']; [|done].
    rewrite Hst. by rewrite (fs_try_ok _ _ _ _ _ _ _ Hren).
  - destruct (reserve_taken_run p b o s d3 Hr2 Hb Hpar Hs2 Hnf)
      as (d4 & e & d5 & Hst & Hren & He & Hrm & Htree & Hdr & Hpass).
    assert (Hr5 : ready p (tree d5)) by (by rewrite Htree).
    assert (Hs5 : slot_at p (tree d5) = Some s) by (by rewrite Htree).
    assert (Hset : settled p d d5 s s).
    { apply Hset3. constructor; [done|done|rewrite Htree; apply elsewhere_refl| |lia].
      eapply passes_mono; [exact Hpass|]. intros t Ht. left. by rewrite (slot_same p (tree d3)). }
    assert (Hgo : forall (k k' : unit -> FS StoragePublicationReservation) r,
      k' tt d5 = r ->
      (mkdir b;; write_file (b ++ [_RESERVATION_NAME]) o;;
       fs_try is_os_error (rename b p)
         (fun _ => fs_try is_os_error (rmtree b) (fun _ => mret tt) mret ≫= k') k) d3 = r).
    { intros k k' r Hk. unfold mbind, FS_bind in Hst |- *. destruct (mkdir b d3) as [[[]|] d']; [|done].
      rewrite Hst. rewrite (fs_try_caught _ _ _ _ _ _ _ Hren He).
      by rewrite (fs_try_ok _ _ _ _ _ _ _ Hrm). }
    destruct (slot_holds p _ s Hr5 Hs5) as [|c Hn ? ?|c Hn Ho Hres|o' Hn Ho Hres]; [done|..].
    + exists (Err StorageObjectConflictError), d5, Refused, (Published (sha256_hexdigest c) (size_of c)).
      split_and!; [|done|by constructor|done]. apply Hgo.
      erewrite fs_bind_ok by apply is_file_run. erewrite fs_bind_ok by apply is_file_run.
      by rewrite (proj2 (ready_path p _ Hr5)), Hn, orb_true_r.
    + exists (Err StorageObjectConflictError), d5, Refused, (Published (sha256_hexdigest c) (size_of c)).
      split_and!; [|done|by constructor|done]. apply Hgo.
      erewrite fs_bind_ok by apply is_file_run. erewrite fs_bind_ok by apply is_file_run.
      by rewrite node_at_object, Ho.
    + assert (Hread : read_file (reservation_of p) d5 = (Ok o', d5))
        by (by rewrite read_file_run, node_at_reservation, Hres).
      destruct (String.eqb_spec o' o) as [->|Hne].
      * exists (Ok (reserved_by key o)), d5, Done, (Held o).
        split_and!; [|done|by constructor|done]. apply Hgo.
        erewrite fs_bind_ok by apply is_file_run. erewrite fs_bind_ok by apply is_file_run.
        rewrite node_at_object, Ho, (proj2 (ready_path p _ Hr5)), Hn. cbn [orb].
        by rewrite (fs_try_ok _ _ _ _ _ _ _ Hread), String.eqb_refl.
      * exists (Err StorageObjectConflictError), d5, Refused, (Held o').
        split_and!; [|done|constructor; congruence|done]. apply Hgo.
        erewrite fs_bind_ok by apply is_file_run. erewrite fs_bind_ok by apply is_file_run.
        rewrite node_at_object, Ho, (proj2 (ready_path p _ Hr5)), Hn. cbn [orb].
        by rewrite (fs_try_ok _ _ _ _ _ _ _ Hread), (proj2 (String.eqb_neq o' o) Hne).
Qed.

(** *** Several keys *)

(** A key's path above or at another's. *)
Definition related (p q : list string) : Prop := strip_prefix p q <> None \/ strip_prefix q p <> None.

Lemma unrelated_same p q t t' : ready q t -> ~ related p q -> elsewhere p t t' -> same_below q t t'.
Proof.
  intros Hr Hrel He r.
  destruct (strip_prefix p (q ++ r)) as [r'|] eqn:Hs.
  - exfalso. apply Hrel. apply strip_prefix_Some in Hs.
    destruct (app_eq_app _ _ _ _ Hs) as (l & [[Heq _]|[Heq _]]).
    + left. by rewrite Heq, strip_prefix_app.
    + right. by rewrite Heq, strip_prefix_app.
  - destruct (He (q ++ r) Hs) as [|(_ & _ & r' & _ & Heq)]; [by eapply locks_below|done|].
    exfalso. apply Hrel. right. by rewrite Heq, <- app_assoc, strip_prefix_app.
Qed.

(** A request of one key, and its answer. *)
Inductive store_request :=
  | Reserving (owner : string)
  | Publishing (owner content content_type : string)
  | Cancelling (owner : string)
  | Inspecting (checksum : string) (size : Z)
  | DeletingUnless (checksum : string) (size : Z)
  | Deleting.

Inductive answer :=
  | Reserved (r : StoragePublicationReservation)
  | Stored (o : StoredObject.t)
  | Ended
  | Seen (st : StorageObjectState).

Definition action_of (q : store_request) : action :=
  match q with
  | Reserving o => Reserve o
  | Publishing o content _ => Publish o (sha256_hexdigest content) (size_of content)
  | Cancelling o => Cancel o
  | Inspecting c n => Inspect c n
  | DeletingUnless c n => DeleteUnlessMatching c n
  | Deleting => Delete
  end.

Definition answered {A B} (f : A -> B) (m : FS A) : FS B := x ← m; mret (f x).

Definition perform (key : string) (q : store_request) : FS answer :=
  match q with
  | Reserving o => answered Reserved (reserve_file_publication key o)
  | Publishing o content content_type =>
      answered Stored
        (publish_reserved_file (reserved_by key o) content content_type (sha256_hexdigest content))
  | Cancelling o => answered (fun _ => Ended) (cancel_file_publication (reserved_by key o))
  | Inspecting c n => answered Seen (inspect_file key c n)
  | DeletingUnless c n => answered Seen (delete_file_if_not_matching key c n)
  | Deleting => answered (fun _ => Ended) (delete key)
  end.

(** What the caller gets for a reply of the protocol. *)
Definition answer_of (key : string) (q : store_request) (rep : reply) : result answer :=
  match rep, q with
  | Refused, _ => Err StorageObjectConflictError
  | State st, _ => Ok (Seen st)
  | Done, Reserving o => Ok (Reserved (reserved_by key o))
  | Done, Publishing _ content content_type =>
      Ok (Stored (StoredObject.mk key content_type (size_of content)))
  | Done, _ => Ok Ended
  end.

Lemma answered_run {A B} (f : A -> B) (m : FS A) d r d' :
  m d = (r, d') -> answered f m d = (x ← r; Ok (f x), d').
Proof. unfold answered, mbind, FS_bind. intros ->. by destruct r. Qed.

Lemma perform_served key p q s d :
  _resolve key = Ok p -> ready p (tree d) -> fresh p d -> slot_at p (tree d) = Some s ->
  exists rep s' d', perform key q d = (answer_of key q rep, d') /\
    protocol (action_of q) s rep s' /\ settled p d d' s s'.
Proof.
  intros Hp Hr Hf Hs. destruct q as [o|o content ct|o|c n|c n|]; cbn [perform action_of].
  1: destruct (reserve_served key p o s d Hp Hr Hf Hs) as (r & d' & rep & s' & Hrun & Hrep & Hpr & Hset).
  2: destruct (publish_served key p o content ct s d Hp Hr Hf Hs) as (r & d' & rep & s' & Hrun & Hrep & Hpr & Hset).
  3: destruct (cancel_served key p o s d Hp Hr Hf Hs) as (r & d' & rep & s' & Hrun & Hrep & Hpr & Hset).
  4: destruct (inspect_served key p c n s d Hp Hr Hs) as (r & d' & rep & s' & Hrun & Hrep & Hpr & Hset).
  5: destruct (delete_unless_served key p c n s d Hp Hr Hf Hs) as (r & d' & rep & s' & Hrun & Hrep & Hpr & Hset).
  6: destruct (delete_served key p s d Hp Hr Hf Hs) as (r & d' & rep & s' & Hrun & Hrep & Hpr & Hset).
  all: exists rep, s', d'; split_and!; [|done|done].
  all: rewrite (answered_run _ _ _ _ _ Hrun); destruct r as [x|e]; cbn in Hrep |- *; try done.
  all: first [subst rep|destruct Hrep as [-> ->]]; reflexivity.
Qed.

Fixpoint perform_all (l : list (string * store_request)) (d : Disk) : list (result answer) * Disk :=
  match l with
  | [] => ([], d)
  | (key, q) :: l =>
      let '(r, d1) := perform key q d in
      let '(rs, d2) := perform_all l d1 in (r :: rs, d2)
  end.

(** The protocol, of many keys. *)
Inductive serves : (string -> slot) -> list (string * store_request) -> list reply -> (string -> slot) -> Prop :=
  | serves_none sigma : serves sigma [] [] sigma
  | serves_more sigma key q rep s' l reps sigma' :
      protocol (action_of q) (sigma key) rep s' -> serves (<[key := s']> sigma) l reps sigma' ->
      serves sigma ((key, q) :: l) (rep :: reps) sigma'.

(** The keys of a store that the adapter keeps, none inside another or named like what it
    prepares. *)
Record kept (keys : list string) (sigma : string -> slot) (d : Disk) : Prop := mkKept {
  kept_slot : forall key, key ∈ keys -> exists p, _resolve key = Ok p /\
    ready p (tree d) /\ fresh p d /\ slot_at p (tree d) = Some (sigma key);
  kept_apart : forall key key' p p', key ∈ keys -> key' ∈ keys -> key <> key' ->
    _resolve key = Ok p -> _resolve key' = Ok p' -> ~ related p p';
  kept_undrawn : forall key key' p p' n suffix, key ∈ keys -> key' ∈ keys ->
    _resolve key = Ok p -> _resolve key' = Ok p' -> (drawn d <= n)%nat ->
    strip_prefix (drawn_name p' n suffix) p = None;
}.

Lemma ready_other p q t t' :
  ready p t' -> ready q t -> ~ related p q -> elsewhere p t t' -> ready q t'.
Proof.
  intros Hp' Hq Hrel He. pose proof Hq as [_ Hap Ha _ _]. constructor; [apply Hp'|done| |apply Hp'|apply Hp'].
  intros x r c -> Hx Hr. destruct (He x) as [->|(_ & -> & _)]; [| |by eapply Ha|done].
  - destruct (strip_prefix p x) as [r'|] eqn:Hs; [|done]. exfalso. apply Hrel. left.
    apply strip_prefix_Some in Hs as ->. by rewrite <- app_assoc, strip_prefix_app.
  - destruct Hap as (y & s & Heq & Hy). destruct x as [|z x]; [done|]. cbn in Heq. injection Heq as -> _.
    cbn [strip_prefix]. by destruct (String.eqb_spec ".locks" y) as [<-|].
Qed.

Lemma fresh_other p q d d' s s' :
  ready q (tree d) -> fresh q d -> settled p d d' s s' ->
  (forall n suffix, (drawn d <= n)%nat -> strip_prefix (drawn_name q n suffix) p = None) -> (p = q \/ ~ related p q) ->
  fresh q d'.
Proof.
  intros Hq Hf Hset Hnot Hpq n suffix Hn. pose proof (settled_drawn p d d' s s' Hset) as Hdr.
  assert (Hqne : q <> []) by (by apply (ready_path q (tree d))).
  assert (Hnb : strip_prefix p (drawn_name q n suffix) = None).
  { destruct (strip_prefix p (drawn_name q n suffix)) as [r|] eqn:Hs; [|done]. exfalso.
    destruct Hpq as [->|Hrel].
    { rewrite <- (app_nil_r (drawn_name q n suffix)), (name_not_below q n suffix []) in Hs by done. done. }
    apply strip_prefix_Some in Hs. destruct (exists_last Hqne) as (q' & x & Heq).
    destruct (drawn_name_shape q n suffix Hqne) as (q'' & x' & z & Heq' & Hb & _).
    rewrite Heq in Heq'. apply app_inj_tail in Heq' as [<- <-].
    destruct r as [|y r _] using rev_ind.
    - rewrite app_nil_r in Hs. specialize (Hnot n suffix ltac:(lia)). by rewrite Hs, strip_prefix_refl in Hnot.
    - apply Hrel. left. rewrite Hb, app_assoc in Hs. apply app_inj_tail in Hs as [Hs _].
      by rewrite Heq, Hs, <- app_assoc, strip_prefix_app. }
  destruct (settled_elsewhere p d d' s s' Hset (drawn_name q n suffix) Hnb) as [->|(_ & _ & r & Hne & Heq)].
  - rewrite <- (app_nil_r (drawn_name _ _ _)). by eapply name_apart.
  - apply Hf. lia.
  - exfalso. specialize (Hnot n suffix ltac:(lia)). rewrite Heq in Hnot.
    by rewrite strip_prefix_app in Hnot.
Qed.

(** One request keeps the store, and moves its own key only. *)
Lemma kept_step keys sigma d d' key p s' :
  kept keys sigma d -> key ∈ keys -> _resolve key = Ok p -> settled p d d' (sigma key) s' ->
  kept keys (<[key := s']> sigma) d'.
Proof.
  intros [Hslot Hap Hun] Hkey Hp Hset. pose proof (settled_drawn p d d' _ _ Hset) as Hdr.
  constructor; [|done|].
  - intros key' Hkey'. destruct (Hslot key' Hkey') as (p' & Hp' & Hr & Hf & Hs).
    exists p'. split; [done|].
    assert (Hnot : forall n suffix, (drawn d <= n)%nat -> strip_prefix (drawn_name p' n suffix) p = None).
    { intros n suffix Hn. by apply (Hun key key'). }
    destruct (decide (key' = key)) as [->|Hne].
    + assert (p' = p) as -> by congruence. rewrite fn_lookup_insert.
      split_and!; [apply Hset| |apply Hset]. eapply fresh_other; [exact Hr|exact Hf|exact Hset|exact Hnot|by left].
    + assert (Hrel : ~ related p p') by (by eapply (Hap key key')).
      rewrite fn_lookup_insert_ne by done. split_and!.
      * eapply ready_other; [apply Hset|exact Hr|exact Hrel|apply Hset].
      * eapply fresh_other; [exact Hr|exact Hf|exact Hset|exact Hnot|by right].
      * rewrite (slot_same p' (tree d)); [exact Hs|]. eapply unrelated_same; [exact Hr|exact Hrel|apply Hset].
  - intros key' key'' p' p'' n suffix H1 H2 Hp1 Hp2 Hn. eapply Hun; [exact H1|exact H2|exact Hp1|exact Hp2|lia].
Qed.

(** What a stopped process leaves: some requests were served, and the one it was at was or
    was not. *)
Definition stopped_at (sigma : string -> slot) (l : list (string * store_request)) (t : gmap (list string) node) : Prop :=
  exists l1 key q l2 reps1 sigma1 p rep s', l = l1 ++ (key, q) :: l2 /\ serves sigma l1 reps1 sigma1 /\
    _resolve key = Ok p /\ protocol (action_of q) (sigma1 key) rep s' /\
    (slot_at p t = Some (sigma1 key) \/ slot_at p t = Some s').

Lemma stopped_later sigma key q rep s' l t :
  protocol (action_of q) (sigma key) rep s' -> stopped_at (<[key := s']> sigma) l t ->
  stopped_at sigma ((key, q) :: l) t.
Proof.
  intros Hpr (l1 & key1 & q1 & l2 & reps1 & sigma1 & p & rep1 & s1 & -> & Hs & Hrest).
  exists ((key, q) :: l1), key1, q1, l2, (rep :: reps1), sigma1, p, rep1, s1.
  split; [done|]. split; [by econstructor|done].
Qed.

Lemma all_served keys l : forall sigma d,
  kept keys sigma d -> Forall (fun kq => kq.1 ∈ keys) l ->
  exists reps sigma' d',
    perform_all l d = (zip_with (fun kq rep => answer_of kq.1 kq.2 rep) l reps, d') /\
    serves sigma l reps sigma' /\ kept keys sigma' d' /\ passes (stopped_at sigma l) d d'.
Proof.
  induction l as [|[key q] l IH]; intros sigma d Hk Hl.
  { exists [], sigma, d. split_and!; [done|constructor|done|apply passes_refl]. }
  apply Forall_cons in Hl as [Hkey Hl]. cbn in Hkey.
  destruct (kept_slot keys sigma d Hk key Hkey) as (p & Hp & Hr & Hf & Hs).
  destruct (perform_served key p q (sigma key) d Hp Hr Hf Hs) as (rep & s' & d1 & Hrun & Hpr & Hset).
  assert (Hk1 : kept keys (<[key := s']> sigma) d1) by (by eapply kept_step).
  destruct (IH _ d1 Hk1 Hl) as (reps & sigma' & d' & Hall & Hserves & Hk' & Hpass).
  exists (rep :: reps), sigma', d'. split_and!; [|by econstructor|done|].
  - cbn [perform_all zip_with]. by rewrite Hrun, Hall.
  - eapply passes_trans.
    + eapply passes_mono; [apply Hset|]. intros t Ht. cbn in Ht.
      exists [], key, q, l, [], sigma, p, rep, s'. split_and!; [done|constructor|done|done|done].
    + eapply passes_mono; [exact Hpass|]. intros t Ht. by eapply stopped_later.
Qed.

(** C5. The local adapter keeps the publication protocol. Over a store of several keys, any
    sequence of requests (reserving, publishing a prepared file, cancelling, inspecting, deleting
    and deleting unless it matches) is answered as the protocol says of each key, with its
    conflicts as [StorageObjectConflictError] and no other error; each request moves its own key
    only; and a process stopped at any change of the file system leaves the key it was working
    on as it was before the request or as it is after it. *)
Theorem local_adapter_keeps_protocol keys l : forall sigma d,
  kept keys sigma d -> Forall (fun kq => kq.1 ∈ keys) l ->
  exists reps sigma' d',
    perform_all l d = (zip_with (fun kq rep => answer_of kq.1 kq.2 rep) l reps, d') /\
    serves sigma l reps sigma' /\ kept keys sigma' d' /\ passes (stopped_at sigma l) d d'.
Proof. apply all_served. Qed.

(** What becomes of one key is a run of its own protocol. *)
Lemma serves_moves key sigma l reps sigma' :
  serves sigma l reps sigma' ->
  moves (sigma key) (map (fun kq => action_of kq.2) (List.filter (fun kq => String.eqb kq.1 key) l))
    (sigma' key).
Proof.
  induction 1 as [sigma|sigma key' q rep s' l reps sigma' Hpr _ IH]; [constructor|].
  cbn [List.filter fst]. destruct (String.eqb_spec key' key) as [->|Hne].
  - cbn [map snd]. rewrite fn_lookup_insert in IH. by econstructor.
  - by rewrite fn_lookup_insert_ne in IH.
Qed.

Lemma get_bytes_run key p c n d :
  _resolve key = Ok p -> ready p (tree d) -> slot_at p (tree d) = Some (Published c n) ->
  exists content d', get_bytes key d = (Ok content, d') /\
    sha256_hexdigest content = c /\ size_of content = n /\ same_below p (tree d) (tree d').
Proof.
  intros Hp Hr Hs. destruct (opened key p d Hp Hr) as (d1 & Hq & Hrun).
  assert (Hr1 : ready p (tree d1)) by by apply Hq.
  assert (Hs1 : slot_at p (tree d1) = Some (Published c n)) by (by rewrite (slot_same p (tree d)) by apply Hq).
  apply slot_holds in Hs1; [|done]. unfold get_bytes. setoid_rewrite Hrun.
  destruct (ready_path p _ Hr1) as [_ Hnode].
  inversion Hs1 as [|c' Hn Ho Hres|c' Hn Ho Hres|]; subst; exists c', d1;
    (split_and!; [|done|done|by apply Hq]); erewrite fs_bind_ok by apply is_dir_run; rewrite Hnode, Hn.
  - by rewrite bool_decide_false, read_file_run, Hnode, Hn.
  - by rewrite bool_decide_true, read_file_run, node_at_object, Ho.
Qed.

(** C25. An archive published in the local store is served. Whatever requests follow, of this
    key and of others, by this owner or another, [get_bytes] returns bytes of the published
    checksum and size, unless the key was deleted or deleted for other bytes. *)
Theorem published_archive_served keys sigma d key c n l :
  kept keys sigma d -> Forall (fun kq => kq.1 ∈ keys) l -> key ∈ keys ->
  sigma key = Published c n ->
  (forall q, (key, q) ∈ l -> q <> Deleting /\
     forall c' n', q = DeletingUnless c' n' -> c' = c /\ n' = n) ->
  exists content, (get_bytes key (perform_all l d).2).1 = Ok content /\
    sha256_hexdigest content = c /\ size_of content = n.
Proof.
  intros Hk Hl Hkey Hpub Hnot.
  destruct (all_served keys l sigma d Hk Hl) as (reps & sigma' & d' & Hall & Hserves & Hk' & _).
  assert (Hstays : sigma' key = Published c n).
  { pose proof (serves_moves key _ _ _ _ Hserves) as Hm. rewrite Hpub in Hm.
    apply (published_stays _ _ _ _ Hm). intros a Ha.
    apply list_elem_of_In, in_map_iff in Ha as ([key' q] & <- & Hin).
    apply filter_In in Hin as [Hin Heq]. apply String.eqb_eq in Heq. cbn in Heq. subst key'.
    apply list_elem_of_In, Hnot in Hin as [Hdel Hun]. destruct q as [| | | |c' n'|]; split; try done.
    intros ? ? [= <- <-]. by apply Hun. }
  destruct (kept_slot keys sigma' d' Hk' key Hkey) as (p & Hp & Hr & _ & Hs). rewrite Hstays in Hs.
  destruct (get_bytes_run key p c n d' Hp Hr Hs) as (content & d'' & Hget & Hc & Hn & _).
  exists content. rewrite Hall. cbn. by rewrite Hget.
Qed.
End Slots.

(** ** Keys *)

Definition without_char (c : ascii) (s : string) : bool :=
  Text.forallb_chars (fun d => negb (Ascii.eqb d c)) s.

Lemma contains_char c s : Text.contains (String c "") s = negb (without_char c s).
Proof.
  unfold without_char. induction s as [|d s IH]; [done|]. cbn [Text.contains Text.forallb_chars].
  rewrite IH, negb_andb, negb_involutive. f_equal. cbn [String.prefix].
  destruct (Ascii.ascii_dec c d) as [->|Hne]; [destruct s; symmetry; apply Ascii.eqb_refl|].
  symmetry. apply Ascii.eqb_neq. congruence.
Qed.

Lemma split_on_all sep f s :
  Text.forallb_chars f s = true -> Forall (fun x => Text.forallb_chars f x = true) (split_on sep s).
Proof.
  induction s as [|c s IH]; intros Hf; cbn [split_on]; [by repeat constructor|].
  cbn in Hf. apply andb_true_iff in Hf as [Hc Hs]. specialize (IH Hs).
  destruct (Ascii.eqb c sep); [by constructor|].
  destruct (split_on sep s) as [|x l]; [by repeat constructor; cbn; rewrite Hc|].
  apply Forall_cons in IH as [Hx Hl]. constructor; [|done]. cbn. by rewrite Hc.
Qed.

Lemma split_on_separated sep s : Forall (fun x => without_char sep x = true) (split_on sep s).
Proof.
  induction s as [|c s IH]; cbn [split_on]; [by repeat constructor|].
  destruct (Ascii.eqb c sep) eqn:Hc; [by constructor|].
  destruct (split_on sep s) as [|x l]; [by repeat constructor; cbn; rewrite Hc|].
  apply Forall_cons in IH as [Hx Hl]. constructor; [|done]. unfold without_char in *. cbn. by rewrite Hc.
Qed.

Lemma split_on_plain sep s : without_char sep s = true -> split_on sep s = [s].
Proof.
  unfold without_char. induction s as [|c s IH]; intros Hs; [done|]. cbn in *.
  apply andb_true_iff in Hs as [Hc Hs]. apply negb_true_iff in Hc. by rewrite Hc, IH.
Qed.

Lemma split_on_app sep a b :
  without_char sep a = true -> split_on sep (a ++ String sep b) = a :: split_on sep b.
Proof.
  unfold without_char. induction a as [|c a IH]; intros Ha.
  - change ("" ++ String sep b)%string with (String sep b). cbn [split_on]. by rewrite Ascii.eqb_refl.
  - cbn in Ha. apply andb_true_iff in Ha as [Hc Ha]. apply negb_true_iff in Hc.
    rewrite Uuid.string_app. cbn [split_on]. by rewrite Hc, IH.
Qed.

Lemma split_join l :
  l <> [] -> Forall (fun x => without_char "/" x = true) l -> split_on "/" (Text.join "/" l) = l.
Proof.
  intros Hne Hl. induction Hl as [|x l Hx Hl IH]; [done|]. destruct l as [|y l].
  { by apply split_on_plain. }
  change (Text.join "/" (x :: y :: l)) with (x ++ String "/" (Text.join "/" (y :: l)))%string.
  by rewrite split_on_app, IH.
Qed.

(** A component of a path that stays below. *)
Definition inner (x : string) : Prop :=
  x <> ""%string /\ x <> "."%string /\ x <> ".."%string /\
  Forall (fun c => without_char c x = true) ["/"; "\"; ":"]%char.

Lemma resolve_parts key p :
  _resolve key = Ok p ->
  _validate_key key = Ok (Text.join "/" p) /\ p = PurePosixPath.parts key /\ p <> [] /\ Forall inner p.
Proof.
  unfold _resolve, _validate_key.
  repeat match goal with
    |- context [if ?b then Err _ else _] => destruct b eqn:?; [intros; discriminate|]
  end.
  match goal with H : _ || _ || _ = false |- _ => rename H into Hparts end.
  apply orb_false_iff in Hparts as [[Habs Hne]%orb_false_iff Hsafe].
  apply bool_decide_eq_false_1 in Hne.
  assert (Hbs : without_char "\" key = true) by (apply negb_false_iff; by rewrite <- contains_char).
  assert (Hcol : without_char ":" key = true) by (apply negb_false_iff; by rewrite <- contains_char).
  assert (Hin : Forall inner (PurePosixPath.parts key)).
  { unfold PurePosixPath.parts in *. rewrite Habs in *. unfold PurePosixPath.segments in *.
    apply List.Forall_forall. intros x Hx. pose proof Hx as [Hsplit Hkeep]%filter_In.
    apply negb_true_iff, orb_false_iff in Hkeep as [Hempty Hdot].
    assert (Hu : unsafe_part x = false).
    { destruct (unsafe_part x) eqn:Hu; [|done]. rewrite <- Hsafe. symmetry. apply existsb_exists. by exists x. }
    apply bool_decide_eq_false_1 in Hu. split_and!; [by intros ->; apply Hu; left| | |].
    - intros ->. apply Hu. by right; left.
    - intros ->. apply Hu. by right; right; left.
    - repeat (constructor); [|..].
      + pose proof (split_on_separated "/" key) as Hs. rewrite List.Forall_forall in Hs. by apply Hs.
      + pose proof (split_on_all "/" _ _ Hbs) as Hs. rewrite List.Forall_forall in Hs. by apply Hs.
      + pose proof (split_on_all "/" _ _ Hcol) as Hs. rewrite List.Forall_forall in Hs. by apply Hs. }
  assert (Hback : PurePosixPath.parts (Text.join "/" (PurePosixPath.parts key)) = PurePosixPath.parts key).
  { set (l := PurePosixPath.parts key) in *. unfold PurePosixPath.parts at 1.
    assert (Hrel : PurePosixPath.is_absolute (Text.join "/" l) = false).
    { destruct l as [|x l']; [done|]. apply Forall_cons in Hin as [(Hx0 & _ & _ & Hx) _].
      apply Forall_cons in Hx as [Hx _]. destruct x as [|c x]; [done|]. cbn in Hx.
      apply andb_true_iff in Hx as [Hc _]. unfold PurePosixPath.is_absolute, Text.starts_with.
      assert (exists s, Text.join "/" (String c x :: l') = String c s) as [s ->]
        by (destruct l'; by eexists).
      cbn [String.prefix]. destruct (Ascii.ascii_dec "/" c) as [<-|]; [done|done]. }
    rewrite Hrel. unfold PurePosixPath.segments. rewrite split_join; [|done|].
    - rewrite List.forallb_filter_id; [done|]. apply forallb_forall. intros x Hx.
      rewrite List.Forall_forall in Hin. destruct (Hin x Hx) as (H0 & H1 & _).
      apply negb_true_iff, orb_false_iff. split; [by destruct x|by apply String.eqb_neq].
    - eapply List.Forall_impl; [|exact Hin]. intros x (_ & _ & _ & Hx). by apply Forall_cons in Hx as [Hx _]. }
  cbn. rewrite Hback. intros [= <-]. done.
Qed.

(** A storage key stays inside the store. The path that a key resolves to has at least one
    component, none of them empty, [.] or [..] or holding a separator or a colon, and it alone
    chooses the lock: every key of that path is given the same lock file. *)
Theorem storage_keys_confined key p :
  _resolve key = Ok p ->
  p <> [] /\ Forall inner p /\
  forall key', _resolve key' = Ok p -> _validate_key key' = _validate_key key.
Proof.
  intros Hp. destruct (resolve_parts key p Hp) as (Hv & _ & Hne & Hin). split_and!; [done|done|].
  intros key' Hp'. destruct (resolve_parts key' p Hp') as (Hv' & _). by rewrite Hv, Hv'.
Qed.

(** ** Download addresses *)

Lemma rsplit_last a b :
  without_char "." b = true -> rsplit_dot (a ++ String "." b) = Some (a, b).
Proof.
  intros Hb. assert (Hnone : rsplit_dot b = None).
  { unfold without_char in Hb. induction b as [|c b IH]; [done|]. cbn in Hb |- *.
    apply andb_true_iff in Hb as [Hc Hb]. apply negb_true_iff in Hc. by rewrite IH, Hc. }
  induction a as [|c a IH].
  - change ("" ++ String "." b)%string with (String "." b). cbn [rsplit_dot]. by rewrite Hnone.
  - rewrite Uuid.string_app. cbn [rsplit_dot]. by rewrite IH.
Qed.

Lemma cut_after_prefix p s : Text.starts_with p (p ++ s) = true /\ remove_prefix p (p ++ s) = s.
Proof.
  assert (Hp : Text.starts_with p (p ++ s) = true).
  { unfold Text.starts_with. induction p as [|c p IH]; [by destruct s|].
    rewrite Uuid.string_app. cbn [String.prefix]. by destruct (Ascii.ascii_dec c c). }
  split; [done|]. unfold remove_prefix. rewrite Hp, Text.length_append. clear Hp.
  replace (String.length p + String.length s - String.length p)%nat with (String.length s) by lia.
  induction p as [|c p IH]; [|by rewrite Uuid.string_app].
  change ("" ++ s)%string with s. change (String.length "") with 0%nat.
  induction s as [|c s IH]; [done|]. cbn. by rewrite IH.
Qed.

(** What the encodings promise. *)
Record CodecLaws `{Network} `{TokenCodec} : Prop := mkCodecLaws {
  base64_inverse : forall s, urlsafe_b64decode (urlsafe_b64encode s) = Some s;
  json_inverse : forall key exp,
    token_json_loads (token_json_dumps (url_payload key exp)) = Some (url_payload key exp);
  digest_plain : forall secret s,
    without_char "." (hmac_sha256_hexdigest secret s) = true /\
    is_ascii (hmac_sha256_hexdigest secret s) = true;
}.

(** C28. A download address works for its key until it expires. The address generated for a key
    is verified for that key and for no other, at every moment before the one it was given, and
    at none from then on. *)
Theorem download_address_round_trip `{Network} `{TokenCodec} secret key safe_key ttl now :
  CodecLaws -> _validate_key key = Ok safe_key ->
  exists token, generate_download_url secret key ttl now = Ok token /\
    forall expected now', verify_download_url secret token expected now' =
      Ok (String.eqb safe_key expected && (timestamp now' <? timestamp now + ttl)).
Proof.
  intros [Hb Hj Hd] Hv. unfold generate_download_url. rewrite Hv. cbn [mbind result_bind].
  eexists. split; [reflexivity|]. intros expected now'. unfold verify_download_url.
  set (payload := url_payload safe_key (timestamp now + ttl)).
  destruct (Hd secret (token_json_dumps payload)) as [Hdot Hascii].
  set (signature := hmac_sha256_hexdigest secret (token_json_dumps payload)) in *.
  change ("." ++ signature)%string with (String "." signature).
  destruct (cut_after_prefix url_prefix (urlsafe_b64encode (token_json_dumps payload) ++ String "." signature))
    as [-> ->].
  rewrite rsplit_last by done. cbn [negb]. unfold payload at 1. rewrite Hb.
  cbn [mbind option_bind]. rewrite Hj. cbn [option_bind]. fold payload signature.
  rewrite Hascii. cbn [mbind option_bind negb]. fold signature. rewrite String.eqb_refl.
  cbn [negb payload url_payload]. cbn [List.find fst snd].
  change (String.eqb "k" "k") with true. change (String.eqb "k" "exp") with false.
  change (String.eqb "exp" "exp") with true. cbn [fmap option_fmap option_map snd].
  destruct (String.eqb_spec safe_key expected) as [->|Hne].
  - by rewrite bool_decide_true.
  - rewrite bool_decide_false by congruence. done.
Qed.

(** ** Concrete instances *)
Module Witness.
Import Fixtures.

(** An empty store, and two keys of it. *)
Definition empty : Disk := mkDisk ∅ [] 0.
Definition keys : list string := ["exports/a.zip"; "exports/b.zip"]%string.
Definition slots : string -> slot := fun _ => Free.

Lemma keys_at : forall key, key ∈ keys ->
  key = "exports/a.zip"%string /\ _resolve key = Ok ["exports"; "a.zip"]%string \/
  key = "exports/b.zip"%string /\ _resolve key = Ok ["exports"; "b.zip"]%string.
Proof.
  intros key [->|[->|[]%not_elem_of_nil]%elem_of_cons]%elem_of_cons; [left|right]; by vm_compute.
Qed.

Lemma empty_ready x : ready ["exports"; x]%string ∅.
Proof. constructor; try done. by eexists _, _. Qed.

Lemma empty_kept : kept keys slots empty.
Proof.
  constructor.
  - intros key [[-> ->]|[-> ->]]%keys_at; eexists; (split_and!; [done|apply empty_ready|done|done]).
  - intros key key' p p' [[-> ->]|[-> ->]]%keys_at [[-> ->]|[-> ->]]%keys_at Hne [= <-] [= <-]; try done;
      intros [Hs|Hs]; by apply Hs.
  - intros key key' p p' n suffix [[-> ->]|[-> ->]]%keys_at [[-> ->]|[-> ->]]%keys_at [= <-] [= <-] _;
      destruct (drawn_name_shape ["exports"; "a.zip"]%string n suffix) as (?&?&?&_&_&_); done.
Qed.

(** A reservation and its publication, a second one refused, and the other key. *)
Definition requests : list (string * store_request) :=
  [("exports/a.zip", Reserving "owner"); ("exports/a.zip", Publishing "owner" "archive" "application/zip");
   ("exports/b.zip", Reserving "other"); ("exports/a.zip", Reserving "other");
   ("exports/a.zip", DeletingUnless (sha256_hexdigest "archive") 7); ("exports/b.zip", Cancelling "other")]%string.

Lemma requests_known : Forall (fun kq => kq.1 ∈ keys) requests.
Proof. repeat constructor. Qed.

Lemma local_adapter_keeps_protocol_witness :
  (perform_all requests empty).1 =
    [Ok (Reserved (reserved_by "exports/a.zip" "owner"));
     Ok (Stored (StoredObject.mk "exports/a.zip" "application/zip" 7));
     Ok (Reserved (reserved_by "exports/b.zip" "other")); Err StorageObjectConflictError;
     Ok (Seen MATCHING); Ok Ended] /\
  exists reps sigma' d',
    perform_all requests empty = (zip_with (fun kq rep => answer_of kq.1 kq.2 rep) requests reps, d') /\
    serves slots requests reps sigma' /\ kept keys sigma' d' /\
    passes (stopped_at slots requests) empty d'.
Proof.
  split; [by vm_compute|].
  apply (local_adapter_keeps_protocol keys requests slots empty empty_kept requests_known).
Defined.

Definition later : list (string * store_request) := skipn 2 requests.
Definition published : Disk := (perform_all (take 2 requests) empty).2.
Definition slots' : string -> slot :=
  <["exports/a.zip"%string := Published (sha256_hexdigest "archive") 7]> slots.

Lemma published_kept : kept keys slots' published.
Proof.
  destruct (all_served keys (take 2 requests) slots empty empty_kept) as (reps & sigma' & d' & Hall & _ & Hk & _).
  { repeat constructor. }
  unfold published. rewrite Hall. cbn [snd]. constructor; [|apply Hk|apply Hk].
  assert (d' = published) as -> by (unfold published; by rewrite Hall).
  intros key Hkey. destruct (kept_slot _ _ _ Hk key Hkey) as (p & Hp & Hr & Hf & _).
  exists p. split_and!; [done|done|done|].
  apply keys_at in Hkey as [[-> Hk']|[-> Hk']]; rewrite Hp in Hk'; injection Hk' as ->; by vm_compute.
Qed.

Lemma published_archive_served_witness :
  exists content, (get_bytes "exports/a.zip" (perform_all later published).2).1 = Ok content /\
    sha256_hexdigest content = sha256_hexdigest "archive" /\ size_of content = 7.
Proof.
  apply (published_archive_served keys slots' published "exports/a.zip" _ _ later published_kept).
  - repeat constructor.
  - repeat constructor.
  - by vm_compute.
  - intros q Hq. apply list_elem_of_In in Hq. cbn in Hq.
    destruct Hq as [Hq|[Hq|[Hq|[Hq|[]]]]]; simplify_eq; (split; [done|]); intros c n Heq; by simplify_eq.
Defined.

Lemma storage_keys_confined_witness :
  _resolve "exports/./a.zip" = Ok ["exports"; "a.zip"]%string /\
  _resolve "exports/../a.zip" = Err (ValueError "Invalid storage key") /\
  Forall inner ["exports"; "a.zip"]%string /\
  _validate_key "exports/a.zip" = _validate_key "exports/./a.zip".
Proof.
  split; [by vm_compute|]. split; [by vm_compute|].
  destruct (storage_keys_confined "exports/./a.zip" ["exports"; "a.zip"]%string) as (_ & Hin & Hsame).
  { by vm_compute. }
  split; [exact Hin|]. apply Hsame. by vm_compute.
Defined.

(** Codings of text and of the payload. *)
Fixpoint bits (p : positive) (rest : string) : string :=
  match p with
  | xH => String "h" rest
  | xO p => String "o" (bits p rest)
  | xI p => String "i" (bits p rest)
  end.

Fixpoint unbits (s : string) : option (positive * string) :=
  match s with
  | String "h" rest => Some (xH, rest)
  | String "o" s => '(p, rest) ← unbits s; Some (xO p, rest)
  | String "i" s => '(p, rest) ← unbits s; Some (xI p, rest)
  | _ => None
  end.

Lemma unbits_bits p rest : unbits (bits p rest) = Some (p, rest).
Proof. induction p as [p IH|p IH|]; cbn; [by rewrite IH|by rewrite IH|done]. Qed.

Definition written (j : json) : string :=
  match j with
  | JObj [(_, JStr k); (_, JInt n)] =>
      match n with
      | Z0 => String "z" k
      | Zpos p => String "p" (bits p k)
      | Zneg p => String "n" (bits p k)
      end
  | _ => ""
  end.

Definition read (s : string) : option json :=
  match s with
  | String "z" k => Some (url_payload k 0)
  | String "p" s => '(p, k) ← unbits s; Some (url_payload k (Zpos p))
  | String "n" s => '(p, k) ← unbits s; Some (url_payload k (Zneg p))
  | _ => None
  end.

#[local] Instance codec : TokenCodec := {|
  urlsafe_b64encode s := String "b" s;
  urlsafe_b64decode s := match s with String "b" s => Some s | _ => None end;
  token_json_dumps := written;
  token_json_loads := read;
|}.

#[local] Instance signer : Network := {|
  ip_address _ := None;
  compressed _ := "";
  hmac_sha256_hexdigest k s :=
    if Nat.even (String.length k + String.length s) then "00" else "01";
|}.

Lemma codec_laws : CodecLaws.
Proof.
  constructor.
  - done.
  - intros key [|p|p]; cbn; by rewrite ?unbits_bits.
  - intros k s. cbn. by destruct (Nat.even _).
Qed.

Lemma download_address_round_trip_witness :
  exists token, generate_download_url "secret" "exports/a.zip" 900 t0 = Ok token /\
    verify_download_url "secret" token "exports/a.zip" t0 = Ok true /\
    verify_download_url "secret" token "exports/b.zip" t0 = Ok false /\
    verify_download_url "secret" token "exports/a.zip" (t0 + seconds 900) = Ok false.
Proof.
  destruct (download_address_round_trip "secret" "exports/a.zip" "exports/a.zip" 900 t0 codec_laws)
    as (token & Hgen & Hverify); [by vm_compute|].
  exists token. rewrite !Hverify. split; [exact Hgen|]. by vm_compute.
Defined.
End Witness.
