(* ===== verification/S3StorageProofs.v ===== *)
(** The S3 adapter against the publication protocol. Other clients may write between any two
    of its commands and within one, a response may be lost, and the client may send a command
    again: what the adapter itself changes follows the protocol, and what it answers was true. *)
From S2P Require Import Prelude Errors Session Schema Tables AuditLog Invites RateLimitPolicies.
From S2P Require Import RateLimitIngress Settings SubjectExports ExportArtifactServices.
From S2P Require Import Storage S3Storage.
Import S3CompatibleStorageAdapter.

(** ** The service *)

Record object := mkObject {
  obj_body : string;
  obj_metadata : list (string * string);
  obj_etag : string;
}.

(** What a key held after each change of it, the newest first, and whether the change was made
    by a command of this adapter. *)
Abbreviation changes := (list (bool * option object)) (only parsing).

Definition held (h : list (bool * option object)) : option object :=
  match h with [] => None | (_, o) :: _ => o end.

(** From [h] to [h'] every change by the adapter is allowed where it happens. *)
Definition extends (P : list (bool * option object) -> option object -> Prop)
    (h h' : list (bool * option object)) : Prop :=
  h `suffix_of` h' /\
  forall before o, h `suffix_of` before -> (true, o) :: before `suffix_of` h' -> P before o.

(** At some moment from [h] to [h'] the key held [x]. *)
Definition during (h h' : list (bool * option object)) (x : option object) : Prop :=
  exists m, h `suffix_of` m /\ m `suffix_of` h' /\ held m = x.

Lemma extends_refl P h : extends P h h.
Proof.
  split; [done|]. intros before o Hh Ho. apply suffix_length in Hh, Ho. cbn in Ho. lia.
Qed.

Lemma extends_trans P h1 h2 h3 : extends P h1 h2 -> extends P h2 h3 -> extends P h1 h3.
Proof.
  intros [H12 HP12] [H23 HP23]. split; [by etrans|]. intros before o Hb Ho.
  assert (Hbefore : before `suffix_of` h3) by (etrans; [|exact Ho]; by apply suffix_cons_r).
  destruct (suffix_weak_total h2 before h3 H23 Hbefore) as [Hs|Hs]; [by apply HP23|].
  destruct (suffix_weak_total ((true, o) :: before) h2 h3 Ho H23) as [Hs'|Hs']; [by apply HP12|].
  assert (h2 = before \/ h2 = (true, o) :: before) as [-> | ->].
  { destruct Hs as [l1 Hl1], Hs' as [l2 Hl2]. destruct l2 as [|x l2]; [by right|left].
    destruct l1 as [|y l1]; [done|]. exfalso. apply (f_equal length) in Hl1, Hl2.
    rewrite ?length_app in *. cbn in *. rewrite ?length_app in *. cbn in *. lia. }
  - by apply HP23.
  - by apply HP12.
Qed.

Lemma extends_mono (P P' : list (bool * option object) -> option object -> Prop) h h' :
  extends P h h' ->
  (forall before o, h `suffix_of` before -> (true, o) :: before `suffix_of` h' -> P before o -> P' before o) ->
  extends P' h h'.
Proof. intros [Hs HP] HPP. split; [done|]. intros before o Hb Ho. by apply HPP, HP. Qed.

Lemma during_weaken h1 h2 h3 h4 x :
  h1 `suffix_of` h2 -> h3 `suffix_of` h4 -> during h2 h3 x -> during h1 h4 x.
Proof. intros H12 H34 (m & Hm & Hm' & Hx). exists m. split_and!; [by etrans..|done]. Qed.

(** The slot of the protocol that a key's object is. *)
Definition slot_of (x : option object) : slot :=
  match x with
  | None => Free
  | Some o =>
      match metadata_value _RESERVATION_OWNER_METADATA_KEY (obj_metadata o) with
      | Some (String _ _ as owner) => Held owner
      | _ => Published (default ""%string (metadata_value "checksum-sha256" (obj_metadata o)))
               (size_of (obj_body o))
      end
  end.

(** ** What the service promises *)
Section Laws.
Context `{Crypto} `{S3}.
Variable history : string -> string -> service -> list (bool * option object).

Definition written (p : PutObject.t) (o : object) : Prop :=
  obj_body o = PutObject.Body p /\ obj_metadata o = PutObject.Metadata p /\
  forall c, PutObject.ChecksumSHA256 p = Some c ->
    _sha256_base64 (sha256_hexdigest (PutObject.Body p)) = Ok c.

(** A [PUT] writes its object where its conditions hold. *)
Definition puts (p : PutObject.t) (before : list (bool * option object)) (x : option object) : Prop :=
  (exists o, x = Some o /\ written p o) /\
  (PutObject.IfNoneMatch p = Some "*"%string -> held before = None) /\
  (forall e, PutObject.IfMatch p = Some e -> exists o, held before = Some o /\ obj_etag o = e).

Definition deletes (if_match : option string) (before : list (bool * option object)) (x : option object) : Prop :=
  x = None /\ forall e, if_match = Some e -> exists o, held before = Some o /\ obj_etag o = e.

Definition describes (response : HeadObject.t) (o : object) : Prop :=
  HeadObject.Metadata response = obj_metadata o /\
  HeadObject.ContentLength response = size_of (obj_body o) /\
  forall e, HeadObject.ETag response = Some e -> obj_etag o = e.

Definition own_changes (P : list (bool * option object) -> option object -> Prop) (bucket key : string)
    (w w' : service) : Prop :=
  forall b k, extends (fun before x => b = bucket /\ k = key /\ P before x) (history b k w) (history b k w').

Record S3Laws : Prop := mkS3Laws {
  put_changes p w r w' : put_object p w = (r, w') ->
    own_changes (puts p) (PutObject.Bucket p) (PutObject.Key p) w w';
  put_done p w tag w' : put_object p w = (inl tag, w') ->
    exists o, during (history (PutObject.Bucket p) (PutObject.Key p) w)
                (history (PutObject.Bucket p) (PutObject.Key p) w') (Some o) /\
      written p o /\ forall e, tag = Some e -> obj_etag o = e;
  head_changes b k w r w' : head_object b k w = (r, w') -> own_changes (fun _ _ => False) b k w w';
  head_seen b k w response w' : head_object b k w = (inl response, w') ->
    exists o, during (history b k w) (history b k w') (Some o) /\ describes response o;
  head_missing b k w code status w' : head_object b k w = (inr (ClientError code status), w') ->
    _is_missing_object code status = true -> during (history b k w) (history b k w') None;
  get_changes b k w r w' : get_object b k w = (r, w') -> own_changes (fun _ _ => False) b k w w';
  get_seen b k w body w' : get_object b k w = (inl body, w') ->
    exists o, during (history b k w) (history b k w') (Some o) /\ obj_body o = body;
  delete_changes b k e w r w' : delete_s3_object b k e w = (r, w') -> own_changes (deletes e) b k w w';
  delete_done b k e w w' : delete_s3_object b k e w = (None, w') ->
    during (history b k w) (history b k w') None;
  delete_missing b k e w code status w' :
    delete_s3_object b k e w = (Some (ClientError code status), w') ->
    _is_missing_object code status = true -> during (history b k w) (history b k w') None;
}.

(** An object of the key's past or present. *)
Definition seen (h : list (bool * option object)) (o : object) : Prop := exists by_us, (by_us, Some o) ∈ h.

(** Two objects of a key with one entity tag are in one slot. *)
Definition revisions_identify (h : list (bool * option object)) : Prop :=
  forall o o', seen h o -> seen h o' -> obj_etag o = obj_etag o' -> slot_of (Some o) = slot_of (Some o').

Lemma seen_held h o : held h = Some o -> seen h o.
Proof. destruct h as [|[b x] h]; [done|]. cbn. intros ->. exists b. by left. Qed.

Lemma seen_suffix h h' o : h `suffix_of` h' -> seen h o -> seen h' o.
Proof. intros [l ->] [b Hb]. exists b. apply elem_of_app. by right. Qed.

Lemma seen_during h h' o : during h h' (Some o) -> seen h' o.
Proof. intros (m & _ & Hm & Ho). eapply seen_suffix; [exact Hm|]. by apply seen_held. Qed.

Lemma own_refl P b k w : own_changes P b k w w.
Proof. intros b' k'. apply extends_refl. Qed.

Lemma own_trans P b k w1 w2 w3 : own_changes P b k w1 w2 -> own_changes P b k w2 w3 -> own_changes P b k w1 w3.
Proof. intros H12 H23 b' k'. by eapply extends_trans. Qed.

Lemma own_mono (P P' : list (bool * option object) -> option object -> Prop) b k w w' :
  own_changes P b k w w' ->
  (forall before o, history b k w `suffix_of` before -> (true, o) :: before `suffix_of` history b k w' ->
     P before o -> P' before o) ->
  own_changes P' b k w w'.
Proof.
  intros Hown HP b' k'. eapply extends_mono; [apply Hown|]. intros before o Hb Ho (-> & -> & Hp). by auto.
Qed.

Lemma own_nothing P b k w w' : own_changes (fun _ _ => False) b k w w' -> own_changes P b k w w'.
Proof. intros Hown. by eapply own_mono. Qed.

Lemma own_suffix P b k w w' b' k' : own_changes P b k w w' -> history b' k' w `suffix_of` history b' k' w'.
Proof. intros Hown. apply Hown. Qed.

(** ** Each method *)
Section Methods.
Context (laws : S3Laws) (self : t).

Local Notation own P k := (own_changes P (bucket_name self) k).
Local Notation past k w := (history (bucket_name self) k w).

Lemma head_run k w r w' :
  _head_object self k w = (r, w') ->
  own (fun _ _ => False) k w w' /\
  match r with
  | Ok (Some response) => exists o, during (past k w) (past k w') (Some o) /\ describes response o
  | Ok None => during (past k w) (past k w') None
  | Err _ => True
  end.
Proof.
  unfold _head_object, command, mbind, S3M_bind. destruct (head_object _ k w) as [answer w1] eqn:Hhead.
  pose proof (head_changes laws _ _ _ _ _ Hhead) as Hown.
  destruct answer as [response|[code status| |]].
  - intros [= <- <-]. split; [exact Hown|]. by apply (head_seen laws).
  - destruct (_is_missing_object code status) eqn:Hmiss; intros [= <- <-]; (split; [exact Hown|]).
    + by eapply (head_missing laws).
    + done.
  - intros [= <- <-]. by split.
  - intros [= <- <-]. by split.
Qed.

(** What was seen during a part was seen during the whole. *)
Lemma during_before P k w w1 w2 x :
  own P k w1 w2 -> during (past k w) (past k w1) x -> during (past k w) (past k w2) x.
Proof. intros Hown. apply during_weaken; [done|]. by eapply own_suffix. Qed.

Lemma during_after P k w w1 w2 x :
  own P k w w1 -> during (past k w1) (past k w2) x -> during (past k w) (past k w2) x.
Proof. intros Hown. apply during_weaken; [|done]. by eapply own_suffix. Qed.

(** *** Reserving *)
Definition reserves (owner : string) (before : list (bool * option object)) (x : option object) : Prop :=
  held before = None /\ slot_of x = Held owner.

Definition reserved (k key owner : string) (w w' : service) (r : result StoragePublicationReservation) : Prop :=
  forall res, r = Ok res -> reservation_key res = key /\ reservation_owner_token res = owner /\
    exists o, during (past k w) (past k w') (Some o) /\ slot_of (Some o) = Held owner /\
      obj_etag o = reservation_revision res.

Lemma slot_reserved owner o :
  owner <> ""%string -> metadata_value _RESERVATION_OWNER_METADATA_KEY (obj_metadata o) = Some owner ->
  slot_of (Some o) = Held owner.
Proof. intros Hne Ho. unfold slot_of. rewrite Ho. by destruct owner. Qed.

Lemma reservation_put k owner w r w' :
  owner <> ""%string -> put_object (reservation_params self k owner) w = (r, w') ->
  own (reserves owner) k w w'.
Proof.
  intros Hne Hput. eapply own_mono; [exact (put_changes laws _ _ _ _ Hput)|].
  intros before x _ _ [(o & -> & Hw) [Hnone _]]. split; [by apply Hnone|].
  apply slot_reserved; [done|]. by rewrite (proj1 (proj2 Hw)).
Qed.

Lemma reconcile_run k key owner w r w' :
  owner <> ""%string -> _reconcile_reservation self key k owner w = (r, w') ->
  own (fun _ _ => False) k w w' /\
  reserved k key owner w w' (o ← r; match o with Some res => Ok res | None => Err StorageObjectConflictError end).
Proof.
  intros Hne. unfold _reconcile_reservation, mbind, S3M_bind.
  destruct (_head_object self k w) as [answer w1] eqn:Hhead.
  destruct (head_run k w answer w1 Hhead) as [Hown Hans].
  destruct answer as [[response|]|e]; [|by intros [= <- <-]..].
  destruct (HeadObject.ETag response) as [revision|] eqn:Htag; [|by intros [= <- <-]].
  destruct (bool_decide _) eqn:Hdec; [|by intros [= <- <-]]. apply bool_decide_eq_true_1 in Hdec.
  intros [= <- <-]. split; [exact Hown|]. intros res [= <-]. split_and!; [done..|].
  destruct Hans as (o & Hd & Hm & _ & He). exists o. split_and!; [done| |by apply He].
  apply slot_reserved; [done|]. by rewrite <- Hm.
Qed.

Lemma reserved_after P k key owner w w1 w2 r :
  own P k w w1 -> reserved k key owner w1 w2 r -> reserved k key owner w w2 r.
Proof.
  intros Hown Hr res Hres. destruct (Hr res Hres) as (Hk & Ho & o & Hd & Hs & He).
  split_and!; [done..|]. exists o. split_and!; [by eapply during_after|done|done].
Qed.

Lemma reserved_err k key owner w w' e : reserved k key owner w w' (Err e).
Proof. by intros res. Qed.

Lemma reserve_run key k owner n : forall w r w',
  owner <> ""%string -> reserve_attempts self key k owner n w = (r, w') ->
  own (reserves owner) k w w' /\ reserved k key owner w w' r.
Proof.
  induction n as [|n IH]; intros w r w' Hne; cbn [reserve_attempts].
  { intros [= <- <-]. split; [apply own_refl|apply reserved_err]. }
  unfold command at 1, mbind at 1, S3M_bind at 1.
  destruct (put_object _ w) as [answer w1] eqn:Hput.
  pose proof (reservation_put k owner w answer w1 Hne Hput) as Hown.
  set (again := reserve_attempts self key k owner n) in *.
  set (reconcile := (reservation ← _reconcile_reservation self key k owner; _) : S3M _).
  assert (Hagain : again w1 = (r, w') -> own (reserves owner) k w w' /\ reserved k key owner w w' r).
  { intros Hrun. destruct (IH w1 r w' Hne Hrun) as [Hown' Hres].
    split; [by eapply own_trans|by eapply reserved_after]. }
  assert (Hreconcile : reconcile w1 = (r, w') -> own (reserves owner) k w w' /\ reserved k key owner w w' r).
  { unfold reconcile, mbind, S3M_bind.
    destruct (_reconcile_reservation self key k owner w1) as [res w2] eqn:Hrec.
    destruct (reconcile_run k key owner w1 res w2 Hne Hrec) as [Hown2 Hres].
    pose proof (own_trans _ _ _ _ _ _ Hown (own_nothing (reserves owner) _ _ _ _ Hown2)) as Hown12.
    destruct res as [[res|]|e].
    - intros [= <- <-]. split; [done|]. eapply reserved_after; [exact Hown|exact Hres].
    - intros Hrun. destruct (IH w2 r w' Hne Hrun) as [Hown' Hres'].
      split; [by eapply own_trans|by eapply reserved_after].
    - intros [= <- <-]. split; [done|apply reserved_err]. }
  destruct answer as [[revision|]|[code status| |]].
  - intros [= <- <-]. split; [exact Hown|]. intros res [= <-]. split_and!; [done..|].
    destruct (put_done laws _ _ _ _ Hput) as (o & Hd & Hw & He). exists o. split_and!; [done| |by apply He].
    apply slot_reserved; [done|]. by rewrite (proj1 (proj2 Hw)).
  - intros [= <- <-]. split; [exact Hown|apply reserved_err].
  - destruct (_is_precondition_failure code status); [done|].
    destruct (_is_conditional_request_conflict code status); [done|].
    intros [= <- <-]. split; [exact Hown|apply reserved_err].
  - done.
  - intros [= <- <-]. split; [exact Hown|apply reserved_err].
Qed.

(** *** Inspecting *)
Lemma state_seen response o checksum size :
  checksum <> ""%string -> describes response o ->
  _state_from_head_object (Some response) checksum size = state_of (slot_of (Some o)) checksum size.
Proof.
  intros Hne (Hm & Hl & _). unfold _state_from_head_object, slot_of. rewrite Hm, Hl.
  assert (Hcmp : bool_decide (metadata_value "checksum-sha256" (obj_metadata o) = Some checksum) =
    String.eqb (default ""%string (metadata_value "checksum-sha256" (obj_metadata o))) checksum).
  { destruct (metadata_value _ _) as [c|]; cbn.
    - destruct (String.eqb_spec c checksum) as [->|Hc]; [by rewrite bool_decide_true|].
      rewrite bool_decide_false; [done|congruence].
    - rewrite bool_decide_false by done. by destruct checksum. }
  rewrite Hcmp. destruct (metadata_value _RESERVATION_OWNER_METADATA_KEY _) as [[|c owner]|]; done.
Qed.

(** The state that was answered was the key's at some moment. *)
Definition answered_state (k checksum : string) (size : Z) (w w' : service) (r : result StorageObjectState) : Prop :=
  forall st, r = Ok st -> exists x, during (past k w) (past k w') x /\ st = state_of (slot_of x) checksum size.

Lemma head_state k checksum size w response w' :
  checksum <> ""%string -> _head_object self k w = (Ok response, w') ->
  exists x, during (past k w) (past k w') x /\
    _state_from_head_object response checksum size = state_of (slot_of x) checksum size /\
    forall revision, response ≫= HeadObject.ETag = Some revision -> exists o, x = Some o /\ obj_etag o = revision.
Proof.
  intros Hne Hhead. destruct (head_run k w _ w' Hhead) as [_ Hans].
  destruct response as [response|].
  - destruct Hans as (o & Hd & Hdesc). exists (Some o). split_and!; [done|by apply state_seen|].
    intros revision Htag. exists o. split; [done|]. by apply (proj2 (proj2 Hdesc)).
  - exists None. by split_and!.
Qed.

Lemma s3_inspect_run key k checksum size w r w' :
  _object_key self key = Ok k -> checksum <> ""%string -> inspect_file self key checksum size w = (r, w') ->
  own (fun _ _ => False) k w w' /\ answered_state k checksum size w w' r.
Proof.
  intros Hk Hne. unfold inspect_file, s3_lift, mbind, S3M_bind. rewrite Hk.
  destruct (_head_object self k w) as [answer w1] eqn:Hhead.
  destruct (head_run k w answer w1 Hhead) as [Hown _].
  destruct answer as [response|e]; intros [= <- <-]; (split; [exact Hown|]); [|by intros st].
  intros st [= <-]. destruct (head_state k checksum size w response w1 Hne Hhead) as (x & Hd & Hs & _).
  by exists x.
Qed.

(** *** Publishing *)
Definition publishes (revision checksum : string) (size : Z) (before : list (bool * option object))
    (x : option object) : Prop :=
  (exists o, held before = Some o /\ obj_etag o = revision) /\ slot_of x = Published checksum size.

Lemma slot_written checksum o :
  obj_metadata o = [("privacy-artifact", "true"); ("checksum-sha256", checksum)]%string ->
  slot_of (Some o) = Published checksum (size_of (obj_body o)).
Proof. unfold slot_of. by intros ->. Qed.

(** The archive was in place at some moment; when it is the adapter that put it there, the
    service checked its digest. *)
Definition published (k checksum : string) (size : Z) (w w' : service) (r : result StoredObject.t) : Prop :=
  forall stored, r = Ok stored ->
    exists x, during (past k w) (past k w') x /\ slot_of x = Published checksum size.

Lemma matching_slot s checksum size : state_of s checksum size = MATCHING -> s = Published checksum size.
Proof.
  destruct s as [|o|c n]; cbn; [done|done|].
  destruct (String.eqb_spec c checksum) as [->|]; [|done]. by destruct (Z.eqb_spec n size) as [->|].
Qed.

Lemma publish_run reservation source content_type checksum k w r w' :
  _object_key self (reservation_key reservation) = Ok k -> checksum <> ""%string ->
  publish_reserved_file self reservation source content_type checksum w = (r, w') ->
  own (publishes (reservation_revision reservation) checksum (size_of source)) k w w' /\
  published k checksum (size_of source) w w' r.
Proof.
  intros Hk Hne. unfold publish_reserved_file, s3_lift, mbind, S3M_bind. rewrite Hk.
  destruct (_sha256_base64 checksum) as [digest|e];
    [|intros [= <- <-]; split; [apply own_refl|by intros stored]].
  unfold command. destruct (put_object _ w) as [answer w1] eqn:Hput.
  assert (Hown : own (publishes (reservation_revision reservation) checksum (size_of source)) k w w1).
  { eapply own_mono; [exact (put_changes laws _ _ _ _ Hput)|].
    intros before x _ _ [(o & -> & Hbody & Hmeta & _) [_ Hmatch]]. split; [by apply Hmatch|].
    rewrite (slot_written checksum) by done. by rewrite Hbody. }
  assert (Hreconcile : forall e,
    (let '(m, w2) := _published_object_matches self (reservation_key reservation) checksum (size_of source) w1 in
     match m with
     | Ok matches => (if (matches : bool)
                      then mret (StoredObject.mk (reservation_key reservation) content_type (size_of source))
                      else s3_raise e) w2
     | Err e => (Err e, w2)
     end) = (r, w') ->
    own (publishes (reservation_revision reservation) checksum (size_of source)) k w w' /\
    published k checksum (size_of source) w w' r).
  { intros e. unfold _published_object_matches, mbind, S3M_bind.
    destruct (inspect_file self (reservation_key reservation) checksum (size_of source) w1) as [st w2] eqn:Hins.
    destruct (s3_inspect_run _ k _ _ _ _ _ Hk Hne Hins) as [Hown2 Hst].
    pose proof (own_trans _ _ _ _ _ _ Hown (own_nothing _ _ _ _ _ Hown2)) as Hown12.
    destruct st as [st|]; [|intros [= <- <-]; split; [exact Hown12|by intros stored]].
    cbn [mret S3M_ret]. destruct (bool_decide (st = MATCHING)) eqn:Hm; intros [= <- <-];
      (split; [exact Hown12|]); [|by intros stored].
    apply bool_decide_eq_true_1 in Hm. intros stored _. destruct (Hst st eq_refl) as (x & Hd & Hs).
    exists x. split; [eapply during_after; [exact Hown|exact Hd]|]. apply matching_slot. congruence. }
  destruct answer as [tag|[code status| |]].
  - intros [= <- <-]. split; [exact Hown|]. intros stored _.
    destruct (put_done laws _ _ _ _ Hput) as (o & Hd & (Hbody & Hmeta & _) & _).
    exists (Some o). split; [exact Hd|]. rewrite (slot_written checksum) by done. by rewrite Hbody.
  - destruct (_ || _ || _); [exact (Hreconcile StorageObjectConflictError)|].
    intros [= <- <-]. split; [exact Hown|by intros stored].
  - exact (Hreconcile (raised HTTPClientError)).
  - intros [= <- <-]. split; [exact Hown|by intros stored].
Qed.

(** *** Removing *)
Definition removes (revision : string) (before : list (bool * option object)) (x : option object) : Prop :=
  x = None /\ exists o, held before = Some o /\ obj_etag o = revision.

Lemma removed k revision w r w' :
  delete_s3_object (bucket_name self) k (Some revision) w = (r, w') -> own (removes revision) k w w'.
Proof.
  intros Hdel. eapply own_mono; [exact (delete_changes laws _ _ _ _ _ _ Hdel)|].
  intros before x _ _ [-> He]. split; [done|by apply He].
Qed.

Lemma cancel_run reservation k w r w' :
  _object_key self (reservation_key reservation) = Ok k ->
  cancel_file_publication self reservation w = (r, w') ->
  own (removes (reservation_revision reservation)) k w w'.
Proof.
  intros Hk. unfold cancel_file_publication, s3_lift, command, mbind, S3M_bind. rewrite Hk.
  destruct (delete_s3_object _ k _ w) as [answer w1] eqn:Hdel.
  pose proof (removed _ _ _ _ _ Hdel) as Hown.
  destruct answer as [[code status| |]|]; [destruct (_ || _ || _)|..]; by intros [= <- <-].
Qed.

(** A deletion takes the revision that was seen not to match. *)
Definition clears (checksum : string) (size : Z) (before : list (bool * option object)) (x : option object) : Prop :=
  x = None /\ exists o o', held before = Some o /\ seen before o' /\ obj_etag o = obj_etag o' /\
    state_of (slot_of (Some o')) checksum size <> MATCHING.

(** It answers that the archive is there or that nothing is, and one of the two was so. *)
Definition cleared (k checksum : string) (size : Z) (w w' : service) (r : result StorageObjectState) : Prop :=
  forall st, r = Ok st -> st <> RESERVED /\ st <> CONFLICT /\
    exists x, during (past k w) (past k w') x /\ st = state_of (slot_of x) checksum size.

Lemma cleared_err k checksum size w w' e : cleared k checksum size w w' (Err e).
Proof. by intros st. Qed.

Lemma cleared_missing k checksum size w w' :
  during (past k w) (past k w') None -> cleared k checksum size w w' (Ok MISSING).
Proof. intros Hd st [= <-]. split_and!; [done..|]. by exists None. Qed.

Lemma clear_run k checksum size n : forall w r w',
  checksum <> ""%string -> delete_unless_attempts self k checksum size n w = (r, w') ->
  own (clears checksum size) k w w' /\ cleared k checksum size w w' r.
Proof.
  induction n as [|n IH]; intros w r w' Hne; cbn [delete_unless_attempts].
  { intros [= <- <-]. split; [apply own_refl|apply cleared_err]. }
  unfold mbind at 1, S3M_bind at 1. destruct (_head_object self k w) as [answer w1] eqn:Hhead.
  destruct (head_run k w answer w1 Hhead) as [Hown _].
  pose proof (own_nothing (clears checksum size) _ _ _ _ Hown) as Hown1.
  destruct answer as [existing|e]; [|intros [= <- <-]; split; [exact Hown1|apply cleared_err]].
  destruct (head_state k checksum size w existing w1 Hne Hhead) as (x & Hd & -> & Htag).
  set (st := state_of (slot_of x) checksum size) in *.
  destruct (bool_decide (st = MISSING) || bool_decide (st = MATCHING)) eqn:Hst.
  { intros [= <- <-]. split; [exact Hown1|]. intros st' [= <-].
    apply orb_true_iff in Hst as [Hst|Hst]; apply bool_decide_eq_true_1 in Hst; rewrite Hst;
      (split_and!; [done..|]); by exists x. }
  apply orb_false_iff in Hst as [_ Hst]. apply bool_decide_eq_false_1 in Hst.
  destruct (existing ≫= HeadObject.ETag) as [revision|];
    [|intros [= <- <-]; split; [exact Hown1|apply cleared_err]].
  destruct (Htag revision eq_refl) as (o' & -> & He). clear Htag.
  unfold command, mbind, S3M_bind. destruct (delete_s3_object _ k _ w1) as [answer w2] eqn:Hdel.
  assert (Hown2 : own (clears checksum size) k w1 w2).
  { eapply own_mono; [exact (removed _ _ _ _ _ Hdel)|]. intros before y Hb _ [-> (o & Ho & Heo)].
    split; [done|]. exists o, o'. split_and!; [done| |congruence|exact Hst].
    eapply seen_suffix; [exact Hb|]. by eapply seen_during. }
  pose proof (own_trans _ _ _ _ _ _ Hown1 Hown2) as Hown12.
  assert (Hagain : delete_unless_attempts self k checksum size n w2 = (r, w') ->
    own (clears checksum size) k w w' /\ cleared k checksum size w w' r).
  { intros Hrun. destruct (IH w2 r w' Hne Hrun) as [Hown3 Hres]. split; [by eapply own_trans|].
    intros st' Hst'. destruct (Hres st' Hst') as (H1 & H2 & y & Hy & Hs). split_and!; [done..|].
    exists y. split; [by eapply during_after|done]. }
  destruct answer as [[code status| |]|]; [|exact Hagain..|].
  - destruct (_is_missing_object code status) eqn:Hmiss; [|exact Hagain]. intros [= <- <-].
    split; [exact Hown12|]. apply cleared_missing. eapply during_after; [exact Hown1|].
    by eapply (delete_missing laws).
  - intros [= <- <-]. split; [exact Hown12|]. apply cleared_missing.
    eapply during_after; [exact Hown1|]. by eapply (delete_done laws).
Qed.

Lemma delete_run k n : forall w r w',
  delete_attempts self k n w = (r, w') ->
  own (fun _ x => x = None) k w w' /\ (r = Ok tt -> during (past k w) (past k w') None).
Proof.
  induction n as [|n IH]; intros w r w'; cbn [delete_attempts].
  { intros [= <- <-]. split; [apply own_refl|done]. }
  unfold mbind at 1, S3M_bind at 1. destruct (_head_object self k w) as [answer w1] eqn:Hhead.
  destruct (head_run k w answer w1 Hhead) as [Hown Hans].
  pose proof (own_nothing (fun _ x => x = None) _ _ _ _ Hown) as Hown1.
  destruct answer as [[response|]|e]; [|by intros [= <- <-]..].
  destruct (HeadObject.ETag response) as [revision|]; [|by intros [= <- <-]].
  unfold command, mbind, S3M_bind. destruct (delete_s3_object _ k _ w1) as [answer w2] eqn:Hdel.
  assert (Hown12 : own (fun _ x => x = None) k w w2).
  { eapply own_trans; [exact Hown1|]. eapply own_mono; [exact (removed _ _ _ _ _ Hdel)|].
    by intros before x _ _ [-> _]. }
  destruct answer as [[code status| |]|]; [|by intros [= <- <-]..|].
  - destruct (_is_missing_object code status) eqn:Hmiss.
    { intros [= <- <-]. split; [exact Hown12|]. intros _. eapply during_after; [exact Hown1|].
      by eapply (delete_missing laws). }
    destruct (_ || _); [|by intros [= <- <-]].
    intros Hrun. destruct (IH w2 r w' Hrun) as [Hown3 Hres]. split; [by eapply own_trans|].
    intros Hr. eapply during_after; [exact Hown12|by apply Hres].
  - intros [= <- <-]. split; [exact Hown12|]. intros _. eapply during_after; [exact Hown1|].
    by eapply (delete_done laws).
Qed.
End Methods.

(** ** The protocol *)

(** A request of one key; a publication and a cancellation carry the reservation's revision. *)
Inductive s3_request :=
  | Reserving (owner : string)
  | Publishing (owner revision content content_type checksum : string)
  | Cancelling (owner revision : string)
  | Inspecting (checksum : string) (size : Z)
  | DeletingUnless (checksum : string) (size : Z)
  | Deleting.

Inductive s3_answer :=
  | Reserved (r : StoragePublicationReservation)
  | Stored (o : StoredObject.t)
  | Ended
  | Seen (st : StorageObjectState).

Definition s3_action (q : s3_request) : action :=
  match q with
  | Reserving o => Reserve o
  | Publishing o _ content _ checksum => Publish o checksum (size_of content)
  | Cancelling o _ => Cancel o
  | Inspecting c n => Inspect c n
  | DeletingUnless c n => DeleteUnlessMatching c n
  | Deleting => Delete
  end.

Definition s3_perform (self : t) (key : string) (q : s3_request) : S3M s3_answer :=
  match q with
  | Reserving o => r ← reserve_file_publication self key o; mret (Reserved r)
  | Publishing o revision content content_type checksum =>
      r ← publish_reserved_file self (mkReservation key o revision) content content_type checksum;
      mret (Stored r)
  | Cancelling o revision => cancel_file_publication self (mkReservation key o revision);; mret Ended
  | Inspecting c n => st ← inspect_file self key c n; mret (Seen st)
  | DeletingUnless c n => st ← delete_file_if_not_matching self key c n; mret (Seen st)
  | Deleting => delete self key;; mret Ended
  end.

(** The names that tell reservations and archives apart are not empty, *)
Definition named (q : s3_request) : Prop :=
  match q with
  | Reserving o => o <> ""%string
  | Publishing o _ _ _ checksum => o <> ""%string /\ checksum <> ""%string
  | Cancelling o _ => o <> ""%string
  | Inspecting c _ | DeletingUnless c _ => c <> ""%string
  | Deleting => True
  end.

(** and a reservation is one that was made. *)
Definition granted (q : s3_request) (h : list (bool * option object)) : Prop :=
  match q with
  | Publishing owner revision _ _ _ | Cancelling owner revision =>
      exists o, seen h o /\ slot_of (Some o) = Held owner /\ obj_etag o = revision
  | _ => True
  end.

Lemma performed_bind {A B} (m : S3M A) (f : A -> B) w r w' :
  (x ← m; mret (f x)) w = (r, w') -> exists r0, m w = (r0, w') /\ r = (x ← r0; Ok (f x)).
Proof. unfold mbind at 1, S3M_bind. destruct (m w) as [[a|e] w1]; intros [= <- <-]; by eexists. Qed.

Lemma keyed_run {A} self key k (f : string -> S3M A) w :
  _object_key self key = Ok k -> (object_key ← s3_lift (_object_key self key); f object_key) w = f k w.
Proof. intros Hk. unfold s3_lift, mbind, S3M_bind. by rewrite Hk. Qed.

(** What a request may change, and what its answer says, on the object's key. *)
Definition may_change (q : s3_request) (before : list (bool * option object)) (x : option object) : Prop :=
  match q with
  | Reserving o => reserves o before x
  | Publishing _ revision content _ checksum => publishes revision checksum (size_of content) before x
  | Cancelling _ revision => removes revision before x
  | Inspecting _ _ => False
  | DeletingUnless c n => clears c n before x
  | Deleting => x = None
  end.

Definition answer_true (self : t) (key k : string) (q : s3_request) (w w' : service) (a : s3_answer) : Prop :=
  let at_some_moment := during (history (bucket_name self) k w) (history (bucket_name self) k w') in
  match q, a with
  | Reserving owner, Reserved res =>
      reservation_key res = key /\ reservation_owner_token res = owner /\
      exists o, at_some_moment (Some o) /\ slot_of (Some o) = Held owner /\
        obj_etag o = reservation_revision res
  | Publishing _ _ content _ checksum, Stored _ =>
      exists x, at_some_moment x /\ slot_of x = Published checksum (size_of content)
  | Inspecting c n, Seen st => exists x, at_some_moment x /\ st = state_of (slot_of x) c n
  | DeletingUnless c n, Seen st =>
      (st = MATCHING \/ st = MISSING) /\ exists x, at_some_moment x /\ st = state_of (slot_of x) c n
  | Deleting, Ended => at_some_moment None
  | Cancelling _ _, Ended => True
  | _, _ => False
  end.

Lemma perform_run (laws : S3Laws) self key k q w r w' :
  _object_key self key = Ok k -> named q -> s3_perform self key q w = (r, w') ->
  own_changes (may_change q) (bucket_name self) k w w' /\
  forall a, r = Ok a -> answer_true self key k q w w' a.
Proof.
  intros Hk Hn Hrun. destruct q as [o|o revision content ct c|o revision|c n|c n|]; cbn [s3_perform] in Hrun;
    apply performed_bind in Hrun as (r0 & Hrun & ->).
  - unfold reserve_file_publication in Hrun. rewrite (keyed_run _ _ k) in Hrun by done.
    destruct (reserve_run laws self key k o _ w r0 w' Hn Hrun) as [Hown Hres]. split; [exact Hown|].
    intros a Ha. destruct r0 as [res|]; [|done]. injection Ha as <-. by apply Hres.
  - destruct (publish_run laws self (mkReservation key o revision) content ct c k w r0 w' Hk (proj2 Hn) Hrun) as [Hown Hres].
    split; [exact Hown|]. intros a Ha. destruct r0 as [st|]; [|done]. injection Ha as <-. by apply (Hres st).
  - split; [by apply (cancel_run laws self (mkReservation key o revision) k w r0 w')|].
    intros a Ha. destruct r0; [|done]. by injection Ha as <-.
  - destruct (s3_inspect_run laws self key k c n w r0 w' Hk Hn Hrun) as [Hown Hres]. split; [exact Hown|].
    intros a Ha. destruct r0 as [st|]; [|done]. injection Ha as <-. by apply (Hres st).
  - unfold delete_file_if_not_matching in Hrun. rewrite (keyed_run _ _ k) in Hrun by done.
    destruct (clear_run laws self k c n _ w r0 w' Hn Hrun) as [Hown Hres]. split; [exact Hown|].
    intros a Ha. destruct r0 as [st|]; [|done]. injection Ha as <-.
    destruct (Hres st eq_refl) as (H1 & H2 & Hex). split; [|exact Hex]. destruct st; auto; done.
  - unfold delete in Hrun. rewrite (keyed_run _ _ k) in Hrun by done.
    destruct (delete_run laws self k _ w r0 w' Hrun) as [Hown Hres]. split; [exact Hown|].
    intros a Ha. destruct r0 as [[]|]; [|done]. injection Ha as <-. by apply Hres.
Qed.

(** A key the adapter refuses reaches no command. *)
Lemma refused_run self key e q w r w' :
  _object_key self key = Err e -> s3_perform self key q w = (r, w') -> r = Err e /\ w' = w.
Proof.
  intros Hk. destruct q as [o|o revision content ct c|o revision|c n|c n|];
    cbn [s3_perform]; unfold reserve_file_publication, publish_reserved_file, cancel_file_publication,
      inspect_file, delete_file_if_not_matching, delete, s3_lift, mbind, S3M_bind;
    cbn [reservation_key]; rewrite Hk; by intros [= <- <-].
Qed.

Lemma change_is_move q before x h :
  named q -> revisions_identify h -> before `suffix_of` h -> granted q h -> may_change q before x ->
  exists rep, protocol (s3_action q) (slot_of (held before)) rep (slot_of x).
Proof.
  intros Hn Hid Hb Hg. pose proof (fun o Ho => seen_suffix _ _ o Hb (seen_held _ o Ho)) as Hseen.
  destruct q as [o|o revision content ct c|o revision|c n|c n|]; cbn [may_change s3_action]; [| | |done| |].
  - intros [-> ->]. exists Done. constructor.
  - intros [(o1 & Ho1 & He) ->]. destruct Hg as (o2 & Ho2 & Hs & He2). exists Done.
    rewrite Ho1, (Hid o1 o2), Hs; [constructor|by apply Hseen|done|congruence].
  - intros [-> (o1 & Ho1 & He)]. destruct Hg as (o2 & Ho2 & Hs & He2). exists Done.
    rewrite Ho1, (Hid o1 o2), Hs; [constructor|by apply Hseen|done|congruence].
  - intros [-> (o1 & o2 & Ho1 & Ho2 & He & Hm)]. exists (State MISSING). rewrite Ho1, (Hid o1 o2);
      [by constructor|by apply Hseen|by eapply seen_suffix|done].
  - intros ->. exists Done. constructor.
Qed.

Lemma granted_suffix q h h' : h `suffix_of` h' -> granted q h -> granted q h'.
Proof.
  intros Hs. destruct q; cbn; try done; intros (o' & Ho & Hrest); exists o';
    (split; [by eapply seen_suffix|exact Hrest]).
Qed.

(** C6. Whatever the S3 adapter changes is a move of the publication protocol. Between and
    within its commands other clients may write to the bucket, responses may be lost and
    commands repeated; when the service's entity tags tell a key's revisions apart, every change
    that a request makes is a move of the protocol for its action, from what the key held at the
    moment of the change, and it changes no other key. *)
Theorem s3_changes_follow_protocol self key q w r w' :
  S3Laws -> named q -> s3_perform self key q w = (r, w') ->
  (forall k, _object_key self key = Ok k ->
     revisions_identify (history (bucket_name self) k w') /\ granted q (history (bucket_name self) k w)) ->
  forall b k, extends
    (fun before x => b = bucket_name self /\ _object_key self key = Ok k /\
       exists rep, protocol (s3_action q) (slot_of (held before)) rep (slot_of x))
    (history b k w) (history b k w').
Proof.
  intros laws Hn Hrun Hid b k. destruct (_object_key self key) as [k0|e] eqn:Hk.
  - destruct (perform_run laws self key k0 q w r w' Hk Hn Hrun) as [Hown _].
    destruct (Hid k0 eq_refl) as [Hrev Hg]. eapply extends_mono; [apply Hown|].
    intros before x Hb Hx (-> & -> & Hmay). split_and!; [done..|].
    eapply change_is_move; [done|exact Hrev| |by eapply granted_suffix; [eapply own_suffix|]|exact Hmay].
    etrans; [|exact Hx]. by apply suffix_cons_r.
  - destruct (refused_run self key e q w r w' Hk Hrun) as [_ ->]. apply extends_refl.
Qed.

(** C24. What the S3 adapter answers was true. A reservation that is returned was on the key,
    with that revision, at some moment of the call; so was a published archive of that checksum
    and size when a publication succeeds, though the response of its [PUT] was lost; an
    inspected state was the key's; a conditional deletion ends with the matching archive seen or
    nothing there; and a deletion with nothing there. *)
Theorem s3_answers_were_true self key q w a w' :
  S3Laws -> named q -> s3_perform self key q w = (Ok a, w') ->
  exists k, _object_key self key = Ok k /\ answer_true self key k q w w' a.
Proof.
  intros laws Hn Hrun. destruct (_object_key self key) as [k|e] eqn:Hk.
  - exists k. split; [done|]. by apply (perform_run laws self key k q w _ w' Hk Hn Hrun).
  - by destruct (refused_run self key e q w _ w' Hk Hrun).
Qed.

(** A service that carries out a [PUT] whose conditions hold and whose checksum is right. *)
Definition obliging : Prop := forall p w,
  PutObject.IfNoneMatch p = None ->
  (forall e, PutObject.IfMatch p = Some e ->
     exists o, held (history (PutObject.Bucket p) (PutObject.Key p) w) = Some o /\ obj_etag o = e) ->
  (forall c, PutObject.ChecksumSHA256 p = Some c ->
     _sha256_base64 (sha256_hexdigest (PutObject.Body p)) = Ok c) ->
  exists tag w', put_object p w = (inl tag, w').

(** The markers of a key are what adapters wrote to reserve it. *)
Definition markers_written (k : string) (h : list (bool * option object)) : Prop :=
  forall o x, seen h o -> slot_of (Some o) = Held x -> exists self', written (reservation_params self' k x) o.

(** C29. With entity tags that are digests of the body, as the service documents for its own
    server-side encryption, a revision does not name the reservation. Where every marker of a
    key was written by the reservation of some adapter, an owner that once reserved the key
    holds the revision of whatever reservation is on it now: its conditional [PUT] holds on
    the marker of another owner, a service that answers carries it out, the publication
    succeeds, and the key then holds the first owner's archive - though from the reservation
    of another owner the protocol has no such move. *)
Theorem markers_share_revision self key k digest owner owner' w r w1 w2 content content_type :
  S3Laws -> obliging -> owner <> ""%string -> _object_key self key = Ok k ->
  s3_perform self key (Reserving owner) w = (Ok (Reserved r), w1) ->
  history (bucket_name self) k w1 `suffix_of` history (bucket_name self) k w2 ->
  (forall o, seen (history (bucket_name self) k w2) o -> obj_etag o = digest (obj_body o)) ->
  markers_written k (history (bucket_name self) k w2) ->
  slot_of (held (history (bucket_name self) k w2)) = Held owner' -> owner <> owner' ->
  (exists d, _sha256_base64 (sha256_hexdigest content) = Ok d) ->
  exists w3,
    s3_perform self key (Publishing owner (reservation_revision r) content content_type
                           (sha256_hexdigest content)) w2
    = (Ok (Stored (StoredObject.mk key content_type (size_of content))), w3) /\
    (exists o, during (history (bucket_name self) k w2) (history (bucket_name self) k w3) (Some o) /\
       slot_of (Some o) = Published (sha256_hexdigest content) (size_of content)) /\
    forall rep, ~ protocol (Publish owner (sha256_hexdigest content) (size_of content)) (Held owner')
                  rep (Published (sha256_hexdigest content) (size_of content)).
Proof.
  intros laws Hserves Hn Hk Hrun Hlater Htags Hmarkers Hnow Hne [d Hd].
  destruct (perform_run laws self key k (Reserving owner) w _ w1 Hk Hn Hrun) as [_ Hans].
  destruct (Hans _ eq_refl) as (_ & _ & o & Hsaw & Hs & Hrev).
  pose proof (seen_suffix _ _ _ Hlater (seen_during _ _ _ Hsaw)) as Hseen.
  destruct (held (history (bucket_name self) k w2)) as [o'|] eqn:Ho'; [|done].
  assert (Hsame : obj_etag o' = reservation_revision r).
  { pose proof (seen_held _ _ Ho') as Hseen'. rewrite <- Hrev, (Htags o), (Htags o') by done.
    destruct (Hmarkers o owner Hseen Hs) as (self1 & Hb & _).
    destruct (Hmarkers o' owner' Hseen' Hnow) as (self2 & Hb' & _). by rewrite Hb, Hb'. }
  cbn [s3_perform]. unfold publish_reserved_file. cbn [reservation_key reservation_revision].
  set (p := put_params self k content (Some (size_of content)) content_type
    [("privacy-artifact", "true"); ("checksum-sha256", sha256_hexdigest content)]%string
    None (Some (reservation_revision r)) (Some d)).
  destruct (Hserves p w2) as (tag & w3 & Hput).
  { done. }
  { intros e [= <-]. by exists o'. }
  { intros c [= <-]. exact Hd. }
  exists w3. split_and!.
  - unfold s3_lift, command, mbind, S3M_bind. rewrite Hk, Hd. fold p. by rewrite Hput.
  - destruct (put_done laws _ _ _ _ Hput) as (o3 & Hd3 & (Hb3 & Hm3 & _) & _). exists o3.
    split; [exact Hd3|]. unfold slot_of. by rewrite Hm3, Hb3.
  - intros rep Hp. inversion Hp; congruence.
Qed.
End Laws.

(** ** Concrete instances *)
Module Witness.

#[local] Instance digests : Crypto := {|
  sha256_hexdigest s := Uuid.hex 64 (N.of_nat (String.length s)) "";
  fernet_encrypt _ s := s;
  fernet_decrypt s := Some s;
|}.

(** A service that keeps the changes of each key, the newest first, and gives tags by the
    number of the change and the body. *)
Definition log : Type := list (string * string * option object).

Definition of_key (b k : string) (l : log) : list (string * string * option object) :=
  List.filter (fun x => String.eqb x.1.1 b && String.eqb x.1.2 k) l.

Definition log_history (b k : string) (l : log) : list (bool * option object) :=
  map (fun x => (true, x.2)) (of_key b k l).

Section Service.
Variable tag : nat -> string -> string.

Definition log_put (p : PutObject.t) (l : log) : (option string + s3_error) * log :=
  let now := held (log_history (PutObject.Bucket p) (PutObject.Key p) l) in
  if bool_decide (PutObject.IfNoneMatch p = Some "*"%string) && negb (is_None now)
     || match PutObject.IfMatch p with
        | Some e => negb (bool_decide (obj_etag <$> now = Some e)) | None => false end
  then (inr (ClientError "PreconditionFailed" 412), l) else
  if match PutObject.ChecksumSHA256 p with
     | Some c => match _sha256_base64 (sha256_hexdigest (PutObject.Body p)) with
                 | Ok c' => negb (String.eqb c c') | Err _ => true end
     | None => false end
  then (inr (ClientError "BadDigest" 400), l) else
  let e := tag (List.length l) (PutObject.Body p) in
  (inl (Some e), (PutObject.Bucket p, PutObject.Key p,
                  Some (mkObject (PutObject.Body p) (PutObject.Metadata p) e)) :: l).

Definition log_head (b k : string) (l : log) : (HeadObject.t + s3_error) * log :=
  (match held (log_history b k l) with
   | Some o => inl (HeadObject.mk (obj_metadata o) (Some (obj_etag o)) (size_of (obj_body o)))
   | None => inr (ClientError "404" 404)
   end, l).

Definition log_delete (b k : string) (e : option string) (l : log) : option s3_error * log :=
  match held (log_history b k l) with
  | None => (Some (ClientError "NoSuchKey" 404), l)
  | Some o =>
      if match e with Some e => negb (String.eqb e (obj_etag o)) | None => false end
      then (Some (ClientError "PreconditionFailed" 412), l) else (None, (b, k, None) :: l)
  end.

Instance log_service : S3 := {|
  service := log;
  put_object := log_put;
  upload_fileobj p l := match log_put p l with (inl _, l') => (None, l') | (inr e, l') => (Some e, l') end;
  head_object := log_head;
  get_object b k l := (match held (log_history b k l) with
                       | Some o => inl (obj_body o) | None => inr (ClientError "NoSuchKey" 404) end, l);
  delete_s3_object := log_delete;
  generate_presigned_url _ b k _ := (b ++ "/" ++ k)%string;
|}.

Lemma nothing_changes P b k l : @own_changes log_service log_history P b k l l.
Proof. intros b' k'. apply extends_refl. Qed.

(** One change of one key. *)
Lemma change_extends (P : list (bool * option object) -> option object -> Prop) b k x (l : log) :
  P (log_history b k l) x -> @own_changes log_service log_history P b k l ((b, k, x) :: l).
Proof.
  intros HP b' k'. unfold log_history, of_key. cbn [List.filter fst snd].
  destruct (String.eqb_spec b b') as [<-|]; [|apply extends_refl].
  destruct (String.eqb_spec k k') as [<-|]; [|apply extends_refl]. cbn [andb map snd].
  split; [by apply suffix_cons_r|]. intros before o Hb Ho.
  assert (Hlen := suffix_length _ _ Hb). assert (Hlen' := suffix_length _ _ Ho). cbn in Hlen'.
  destruct (suffix_cons_inv _ _ _ _ Ho) as [[= -> ->]|Hs]; [by split_and!|].
  apply suffix_length in Hs. cbn in Hs. lia.
Qed.

Lemma during_now b k (l l' : log) :
  log_history b k l `suffix_of` log_history b k l' -> during (log_history b k l) (log_history b k l') (held (log_history b k l')).
Proof. intros Hs. by exists (log_history b k l'). Qed.

Lemma log_history_here b k x (l : log) : log_history b k ((b, k, x) :: l) = (true, x) :: log_history b k l.
Proof. unfold log_history, of_key. cbn [List.filter fst snd]. by rewrite !String.eqb_refl. Qed.

Lemma log_put_cases p l r l' :
  log_put p l = (r, l') ->
  (exists e, r = inr e /\ l' = l) \/
  exists o, l' = (PutObject.Bucket p, PutObject.Key p, Some o) :: l /\ r = inl (Some (obj_etag o)) /\ written p o /\
    puts p (log_history (PutObject.Bucket p) (PutObject.Key p) l) (Some o).
Proof.
  unfold log_put. set (now := held _).
  destruct (bool_decide _ && _ || _) eqn:Hcond; [intros [= <- <-]; left; by eexists|].
  destruct (match PutObject.ChecksumSHA256 p with Some c => _ | None => _ end) eqn:Hsum;
    [intros [= <- <-]; left; by eexists|].
  intros [= <- <-]. right. eexists. split; [reflexivity|]. split; [reflexivity|].
  assert (Hw : written p (mkObject (PutObject.Body p) (PutObject.Metadata p) (tag (List.length l) (PutObject.Body p)))).
  { split_and!; [done..|]. intros c Hc. rewrite Hc in Hsum.
    destruct (_sha256_base64 _) as [c'|]; [|done]. apply negb_false_iff, String.eqb_eq in Hsum. by subst. }
  split; [exact Hw|]. apply orb_false_iff in Hcond as [Hnone Hmatch]. split; [by eexists|]. split.
  - intros Hn. fold now. rewrite bool_decide_true in Hnone by done. by destruct now.
  - intros e He. fold now. rewrite He in Hmatch. apply negb_false_iff, bool_decide_eq_true_1 in Hmatch.
    apply fmap_Some in Hmatch as (o & Ho & ->). by exists o.
Qed.

Lemma log_laws : S3Laws log_history.
Proof.
  constructor.
  - intros p l r l' Hput. destruct (log_put_cases p l r l' Hput) as [(e & -> & ->)|(o & -> & -> & _ & Hp)];
      [apply nothing_changes|by apply change_extends].
  - intros p l e l' Hput. destruct (log_put_cases p l _ l' Hput) as [(? & ? & _)|(o & -> & [= ->] & Hw & Hp)]; [done|].
    exists o. split_and!; [|done|by intros e [= <-]].
    rewrite log_history_here. exists ((true, Some o) :: log_history (PutObject.Bucket p) (PutObject.Key p) l).
    by split_and!; [apply suffix_cons_r| |].
  - intros b k l r l' [= <- <-]. apply nothing_changes.
  - intros b k l h l'. cbn. unfold log_head. destruct (held (log_history b k l)) as [o|] eqn:Ho; [|done].
    intros [= <- <-]. exists o. split; [|by split_and!; [| |intros e [= <-]]].
    rewrite <- Ho. by apply during_now.
  - intros b k l code status l'. cbn. unfold log_head. destruct (held (log_history b k l)) as [o|] eqn:Ho; [done|].
    intros [= <- <- <-] _. rewrite <- Ho. by apply during_now.
  - intros b k l r l' [= <- <-]. apply nothing_changes.
  - intros b k l body l'. cbn. destruct (held (log_history b k l)) as [o|] eqn:Ho; [|done].
    intros [= <- <-]. exists o. split; [|done]. rewrite <- Ho. by apply during_now.
  - intros b k e l r l'. cbn. unfold log_delete. destruct (held (log_history b k l)) as [o|] eqn:Ho;
      [|intros [= <- <-]; apply nothing_changes].
    destruct (match e with Some e => _ | None => _ end) eqn:He; intros [= <- <-]; [apply nothing_changes|].
    apply change_extends. split; [done|]. intros e' ->. exists o. split; [done|].
    apply negb_false_iff, String.eqb_eq in He. done.
  - intros b k e l l'. cbn. unfold log_delete. destruct (held (log_history b k l)) as [o|] eqn:Ho; [|done].
    destruct (match e with Some e => _ | None => _ end); intros [= <-].
    rewrite log_history_here. exists ((true, None) :: log_history b k l).
    by split_and!; [apply suffix_cons_r| |].
  - intros b k e l code status l'. cbn. unfold log_delete. destruct (held (log_history b k l)) as [o|] eqn:Ho.
    + destruct (match e with Some e => _ | None => _ end); [|done]. intros [= <- <- <-]. done.
    + intros [= <- <- <-] _. rewrite <- Ho. by apply during_now.
Qed.
End Service.

Definition self : t := mk "exports" "privacy-exports" (Some "AES256"%string) None 3.
Definition key : string := "exports/a.zip".
Definition object_key : string := "privacy-exports/exports/a.zip".

(** Tags that count the changes, and tags that are a digest of the body. *)
Definition numbered : S3 := log_service (fun n _ => Uuid.hex 8 (N.of_nat n) "").
Definition digested : S3 := log_service (fun _ body => sha256_hexdigest body).

Definition archive : s3_request :=
  Publishing "owner" (Uuid.hex 8 0 "") "archive" "application/zip" (sha256_hexdigest "archive").

Definition reserved_log : log := (@s3_perform numbered self key (Reserving "owner") []).2.
Definition published_log : log := (@s3_perform numbered self key archive reserved_log).2.

Lemma s3_published_run :
  @s3_perform numbered self key archive reserved_log =
  (Ok (Stored (StoredObject.mk key "application/zip" 7)), published_log).
Proof. by vm_compute. Qed.

Lemma s3_changes_follow_protocol_witness :
  exists k, _object_key self key = Ok k /\ extends
    (fun before x => exists rep, protocol (s3_action archive) (slot_of (held before)) rep (slot_of x))
    (log_history "exports" k reserved_log) (log_history "exports" k published_log).
Proof.
  assert (Hstep : forall b k, extends
    (fun before x => b = "exports"%string /\ _object_key self key = Ok k /\
       exists rep, protocol (s3_action archive) (slot_of (held before)) rep (slot_of x))
    (log_history b k reserved_log) (log_history b k published_log)).
  { apply (@s3_changes_follow_protocol digests numbered log_history self key archive reserved_log
             (Ok (Stored (StoredObject.mk key "application/zip" 7))) published_log (log_laws _)).
    - split; by vm_compute.
    - apply s3_published_run.
    - intros k [= <-]. split.
      + intros o o' [b Ho] [b' Ho'] He. apply list_elem_of_In in Ho, Ho'. vm_compute in Ho, Ho'.
        destruct Ho as [Ho|[Ho|[]]], Ho' as [Ho'|[Ho'|[]]]; simplify_eq; done.
      + eexists. split; [eexists; by left|]. by vm_compute. }
  eexists. split; [reflexivity|]. eapply extends_mono; [apply Hstep|].
  by intros before x _ _ (_ & _ & ?).
Defined.

Lemma s3_answers_were_true_witness :
  exists k, _object_key self key = Ok k /\
    @answer_true numbered log_history self key k archive reserved_log published_log
      (Stored (StoredObject.mk key "application/zip" 7)).
Proof.
  apply (@s3_answers_were_true digests numbered log_history self key archive reserved_log
           (Stored (StoredObject.mk key "application/zip" 7)) published_log (log_laws _)).
  - split; by vm_compute.
  - apply s3_published_run.
Defined.

(** An owner reserves; its lease is lost, and its marker is cleaned up; another owner reserves
    the key; and the first one publishes over the other's reservation. *)
Definition first : log := (@s3_perform digested self key (Reserving "owner") []).2.
Definition cleaned : log := (@s3_perform digested self key Deleting first).2.
Definition second : log := (@s3_perform digested self key (Reserving "other") cleaned).2.
Definition revision : string := sha256_hexdigest "".

Lemma empty_markers o :
  seen (log_history "exports" object_key second) o -> obj_etag o = sha256_hexdigest (obj_body o).
Proof.
  intros [b Ho]. apply list_elem_of_In in Ho. vm_compute in Ho.
  destruct Ho as [Ho|[Ho|[Ho|[]]]]; by simplify_eq.
Qed.

Lemma adapters_markers : @markers_written digests object_key (log_history "exports" object_key second).
Proof.
  intros o x [b Ho] Hs. exists self. apply list_elem_of_In in Ho. vm_compute in Ho.
  destruct Ho as [Ho|[Ho|[Ho|[]]]]; simplify_eq; vm_compute in Hs; simplify_eq; by split_and!.
Qed.

Lemma log_obliging tag : @obliging digests (log_service tag) log_history.
Proof.
  intros p l Hnone Hmatch Hsum. change (exists t l', log_put tag p l = (inl t, l')).
  unfold log_put. rewrite bool_decide_false by congruence. cbn [andb orb].
  assert (Hheld : match PutObject.IfMatch p with
    | Some e => negb (bool_decide (obj_etag <$> held (log_history (PutObject.Bucket p) (PutObject.Key p) l) = Some e))
    | None => false end = false).
  { destruct (PutObject.IfMatch p) as [e|]; [|done]. destruct (Hmatch e eq_refl) as (o & Ho & He).
    apply negb_false_iff, bool_decide_eq_true_2. rewrite <- He. exact (f_equal (fmap obj_etag) Ho). }
  rewrite Hheld. destruct (PutObject.ChecksumSHA256 p) as [c|]; [|by eexists _, _].
  rewrite (Hsum c eq_refl), String.eqb_refl. by eexists _, _.
Qed.

Lemma markers_share_revision_witness :
  slot_of (held (log_history "exports" object_key second)) = Held "other" /\
  exists w3,
    @s3_perform digested self key (Publishing "owner" revision "archive" "application/zip"
       (sha256_hexdigest "archive")) second
    = (Ok (Stored (StoredObject.mk key "application/zip" 7)), w3) /\
    exists o, during (log_history "exports" object_key second) (log_history "exports" object_key w3) (Some o) /\
      slot_of (Some o) = Published (sha256_hexdigest "archive") 7.
Proof.
  split; [by vm_compute|].
  destruct (@markers_share_revision digests digested log_history self key object_key sha256_hexdigest
    "owner" "other" [] (mkReservation key "owner" revision) first second "archive" "application/zip"
    (log_laws _) (log_obliging _)) as (w3 & Hrun & Hsaw & _).
  - done.
  - by vm_compute.
  - by vm_compute.
  - exists [(true, Some (mkObject "" [(_RESERVATION_OWNER_METADATA_KEY, "other"%string)] revision)); (true, None)].
    by vm_compute.
  - exact empty_markers.
  - exact adapters_markers.
  - by vm_compute.
  - done.
  - eexists. by vm_compute.
  - exists w3. split; [exact Hrun|exact Hsaw].
Defined.
End Witness.
