(* ===== verification/AuditProofs.v ===== *)
(** What audit recording promises its clients: which metadata is accepted, what a
    recorded event holds, what minimisation hides and what the retention run
    changes. *)
From S2P Require Import Prelude Errors Session Schema Tables Rows AuditLog Fixtures.

(** ** The interface for clients

    Every service records events whose metadata is a flat object of short
    texts; such metadata is always accepted. *)
Section Metadata.

Local Open Scope nat_scope.

Definition acceptable (j : json) : bool :=
  negb (Metadata.has_forbidden_key j)
  && (Metadata._calculate_json_depth j <=? 3)
  && (Z.of_nat (String.length (Metadata.dumps j)) <=? 8192)%Z.

Lemma length_uuid u : String.length (Uuid.str u) = 36.
Proof. unfold Uuid.str. repeat (rewrite Uuid.length_hex; cbn [String.length]). lia. Qed.

Lemma length_escape_char c : String.length (Metadata.escape_char c) <= 6.
Proof. destruct c as [[] [] [] [] [] [] [] []]; vm_compute; lia. Qed.

Lemma length_escape s : String.length (Metadata.escape s) <= 6 * String.length s.
Proof.
  induction s as [|c s IH]; [done|]. cbn [Metadata.escape String.length].
  rewrite Text.length_append. pose proof (length_escape_char c). lia.
Qed.

Lemma length_dumps_string s : String.length (Metadata.dumps_string s) <= 6 * String.length s + 2.
Proof.
  unfold Metadata.dumps_string. rewrite !Text.length_append.
  pose proof (length_escape s). unfold Metadata.quote. cbn [String.length]. lia.
Qed.

(** A bound on the text of a flat value, computed from the lengths of its texts. *)
Fixpoint text_bound (j : json) : nat :=
  match j with
  | JStr s => 6 * String.length s + 2
  | JObj fields => 2 + list_sum (map (fun kv => 6 * String.length kv.1 + 6 + text_bound kv.2) fields)
  | JArr l => 2 + list_sum (map (fun j => text_bound j + 2) l)
  | JInt n => String.length (pretty n)
  | JNull | JBool _ => 5
  end.

Lemma length_join l : 
  String.length (Text.join ", " l) <= list_sum (map (fun s => String.length s + 2) l).
Proof.
  induction l as [|s l IH]; [done|].
  destruct l as [|s' l]; [simpl; lia|].
  change (Text.join ", " (s :: s' :: l)) with (s ++ ", " ++ Text.join ", " (s' :: l))%string.
  rewrite !Text.length_append. remember (s' :: l) as l'. simpl. lia.
Qed.

Lemma length_dumps : forall j, String.length (Metadata.dumps j) <= text_bound j.
Proof.
  fix IH 1. intros [|b|n|s|l|fs]; cbn [Metadata.dumps text_bound].
  - simpl; lia.
  - destruct b; simpl; lia.
  - lia.
  - pose proof (length_dumps_string s). lia.
  - rewrite !Text.length_append. cbn [String.length].
    pose proof (length_join (map Metadata.dumps l)) as Hj. rewrite map_map in Hj.
    assert (list_sum (map (fun j => String.length (Metadata.dumps j) + 2) l)
            <= list_sum (map (fun j => text_bound j + 2) l)).
    { clear Hj. induction l as [|j l IHl]; simpl; [done|]. pose proof (IH j). lia. }
    lia.
  - rewrite !Text.length_append. cbn [String.length].
    set (entry := fun kv : string * json => _).
    pose proof (length_join (map entry fs)) as Hj. rewrite map_map in Hj.
    assert (list_sum (map (fun kv => String.length (entry kv) + 2) fs)
            <= list_sum (map (fun kv => 6 * String.length kv.1 + 6 + text_bound kv.2) fs)).
    { clear Hj. induction fs as [|[k j] fs IHf]; [done|].
      rewrite !map_cons. change (list_sum (?a :: ?b)) with (a + list_sum b).
      assert (String.length (entry (k, j)) <= 6 * String.length k + 4 + text_bound j).
      { unfold entry. rewrite !Text.length_append. cbn [String.length fst snd].
        pose proof (IH j). pose proof (length_dumps_string k). lia. }
      cbn [fst snd]. lia. }
    lia.
Qed.

End Metadata.

(** The three tests [_validate_metadata_json] makes, against the recursive
    definition of a forbidden key; no other outcome is possible. *)
Lemma validate_metadata_json_eq (j : json) (w : World Db) :
  Metadata._validate_metadata_json (Some j) w =
    (if Metadata.has_forbidden_key j
     then Err (ValueError "Audit metadata contains forbidden keys")
     else if (3 <? Metadata._calculate_json_depth j)%nat
     then Err (ValueError "Audit metadata exceeds max nesting depth")
     else if 8192 <? Z.of_nat (String.length (Metadata.dumps j))
     then Err (ValueError "Audit metadata exceeds max size")
     else Ok (Some j), w).
Proof.
  unfold Metadata._validate_metadata_json, Metadata._validate_no_forbidden_metadata_keys.
  rewrite Metadata.scan_loop_correct by (simpl; lia).
  cbn [existsb]. rewrite orb_false_r.
  destruct (Metadata.has_forbidden_key j); [reflexivity|].
  change (bool_decide (Some false = Some false)) with true.
  cbn [negb raise_if]. unfold raise_if.
  destruct (3 <? _)%nat; [reflexivity|]. by destruct (8192 <? _).
Qed.

Lemma acceptable_intro (j : json) :
  Metadata.has_forbidden_key j = false -> (Metadata._calculate_json_depth j <= 3)%nat ->
  (Z.of_nat (text_bound j) <= 8192) -> acceptable j = true.
Proof.
  intros Hk Hd Hb. unfold acceptable. rewrite Hk. pose proof (length_dumps j).
  rewrite (proj2 (Nat.leb_le _ _) Hd), (proj2 (Z.leb_le _ _)) by lia. done.
Qed.

(** Discharges [acceptable] for an object of texts of known lengths. *)
Ltac forget_texts :=
  repeat match goal with
  | |- context [JStr ?s] => tryif is_var s then fail else (generalize s; intros ?)
  end.

Ltac solve_acceptable :=
  apply acceptable_intro;
  [ forget_texts; reflexivity
  | forget_texts; apply Nat.leb_le; reflexivity
  | cbn [text_bound map list_sum fold_right fst snd]; rewrite ?length_uuid;
    cbn [String.length]; try lia ].

Section RecordEvent.
Context `{Env} `{Network}.

(** The row [record_event] adds. *)
Definition event_row (ctx : AuditContext.t) (category : AuditCategory.t) (action : AuditAction.t)
    (target_type : AuditTargetType.t) (target_id : option UUID) (reason : option string)
    (metadata : option json) (hold : option datetime) (id : UUID) (created_at : datetime)
    : AuditEvent.t :=
  AuditEvent.mk id (AuditContext.actor_user_id ctx) (AuditCategory.value category)
    (AuditAction.value action) (AuditTargetType.value target_type) target_id reason metadata
    (Minimisation.minimise_ip_address (AuditContext.ip_address ctx)
       (AuditContext.network_identifier_secret ctx))
    (Minimisation.normalise_user_agent (AuditContext.user_agent ctx)) hold created_at.

Definition acceptable_opt (m : option json) : bool :=
  match m with None => true | Some j => acceptable j end.

(** Why the insertion of an event can fail: the drawn identifier is taken, or
    the actor is not a user. *)
Definition audit_blocked (ctx : AuditContext.t) (d : Db) : Prop :=
  (exists i, is_Some (audit_events d !! uuid4 i)) \/
  has_row_opt (users d) (AuditContext.actor_user_id ctx) = false.

Lemma wp_validate_metadata (m : option json) (Q : option json -> Db -> Prop) E d :
  acceptable_opt m = true -> Q m d -> wp (Metadata._validate_metadata_json m) Q E d.
Proof.
  destruct m as [j|]; intros Ha HQ; [|by apply wp_ret].
  simpl in Ha. unfold acceptable in Ha.
  apply andb_prop in Ha as [[Hk%negb_true_iff Hd%Nat.leb_le]%andb_prop Hs%Z.leb_le].
  intros c t. rewrite validate_metadata_json_eq, Hk.
  rewrite (proj2 (Nat.ltb_ge _ _) Hd), (proj2 (Z.ltb_ge _ _) Hs). simpl. eauto.
Qed.

(** Recording an event adds one row and changes nothing else, or fails for one
    of two reasons. *)
Lemma wp_record_event_checked ctx c a tt ti r m h (Q : AuditEvent.t -> Db -> Prop)
    (E : exn -> Prop) d :
  (acceptable_opt m = false -> forall msg, E (ValueError msg)) ->
  (audit_blocked ctx d -> E IntegrityError) ->
  (forall id n, acceptable_opt m = true -> audit_events d !! id = None ->
     let e := event_row ctx c a tt ti r m h id n in
     valid_row d e = true -> Q e (put_row e d)) ->
  wp (AuditEventService.record_event ctx c a tt ti r m h) Q E d.
Proof.
  intros HV HE HQ. apply wp_bind. destruct (acceptable_opt m) eqn:Hm.
  - apply wp_validate_metadata; [done|].
    apply wp_bind, wp_draw; intros i. apply wp_bind, wp_draw; intros j.
    apply wp_insert_row; [|by intros; apply HQ].
    intros [Hc|Hv]; apply HE; [left; by exists i|right].
    destruct (has_row_opt (users d) (AuditContext.actor_user_id ctx)) eqn:Hu; [|done].
    exfalso. apply not_true_iff_false in Hv. apply Hv, valid_row_spec. split; [|done].
    simpl. rewrite Hu. apply bool_decide_eq_true. destruct c; set_solver.
  - destruct m as [j|]; [|done]. intros k t.
    rewrite validate_metadata_json_eq. simpl in Hm. unfold acceptable in Hm.
    destruct (Metadata.has_forbidden_key j); [simpl; eauto|].
    destruct (3 <? _)%nat eqn:Hd; [simpl; eauto|]. destruct (8192 <? _) eqn:Hs; [simpl; eauto|].
    apply Nat.ltb_ge, Nat.leb_le in Hd. apply Z.ltb_ge, Z.leb_le in Hs. by rewrite Hd, Hs in Hm.
Qed.

(** A client whose metadata is acceptable gets its event. *)
Lemma wp_record_event ctx c a tt ti r m h (Q : AuditEvent.t -> Db -> Prop) (E : exn -> Prop) d :
  acceptable_opt m = true ->
  (audit_blocked ctx d -> E IntegrityError) ->
  (forall id n, audit_events d !! id = None ->
     let e := event_row ctx c a tt ti r m h id n in
     valid_row d e = true -> Q e (put_row e d)) ->
  wp (AuditEventService.record_event ctx c a tt ti r m h) Q E d.
Proof.
  intros Hm HE HQ. apply wp_record_event_checked; [by rewrite Hm|done|]. intros id n _. apply HQ.
Qed.

End RecordEvent.

(** ** The trail: what is true of every event and how an event may evolve *)

Record event_typed (e : AuditEvent.t) : Prop := {
  typed_category : exists c, AuditEvent.category e = AuditCategory.value c;
  typed_action : exists a, AuditEvent.action e = AuditAction.value a;
  typed_target : exists t, AuditEvent.target_type e = AuditTargetType.value t;
  (** the execution of an erasure records its own metadata, past the validation *)
  typed_metadata : acceptable_opt (AuditEvent.metadata_json e) = true \/
    AuditEvent.action e = AuditAction.value AuditAction.DATA_SUBJECT_REQUEST_ERASURE_EXECUTED;
  typed_agent : forall f, AuditEvent.user_agent e = Some f -> f ∈ Minimisation.user_agent_families;
}.

(** A personal datum of an event is kept or dropped. *)
Definition kept_or_dropped {A} (x y : option A) : Prop := y = x \/ y = None.

Record event_kept (e e' : AuditEvent.t) : Prop := {
  kept_facts : (AuditEvent.id e', AuditEvent.category e', AuditEvent.action e', AuditEvent.target_type e',
      AuditEvent.legal_hold_until e', AuditEvent.created_at e')
    = (AuditEvent.id e, AuditEvent.category e, AuditEvent.action e, AuditEvent.target_type e,
       AuditEvent.legal_hold_until e, AuditEvent.created_at e);
  kept_target : kept_or_dropped (AuditEvent.target_id e) (AuditEvent.target_id e');
  kept_actor : kept_or_dropped (AuditEvent.actor_user_id e) (AuditEvent.actor_user_id e');
  kept_reason : kept_or_dropped (AuditEvent.reason e) (AuditEvent.reason e');
  kept_metadata : kept_or_dropped (AuditEvent.metadata_json e) (AuditEvent.metadata_json e');
  kept_address : kept_or_dropped (AuditEvent.ip_address e) (AuditEvent.ip_address e');
  kept_agent : kept_or_dropped (AuditEvent.user_agent e) (AuditEvent.user_agent e');
}.

#[export] Instance kept_or_dropped_preorder {A} : PreOrder (@kept_or_dropped A).
Proof. split; [by left|]. intros x y z [->|Hy] [->|Hz]; [by left|right; congruence..]. Qed.

#[export] Instance event_kept_preorder : PreOrder event_kept.
Proof.
  split; [done|]. intros x y z [f1 t1 a1 r1 m1 i1 u1] [f2 t2 a2 r2 m2 i2 u2].
  split; [congruence|by etrans..].
Qed.

(** Every event of [d] is typed, and those of [t0] are still there. *)
Abbreviation trail := (rows_follow event_typed event_kept).

#[export] Instance trail_on t0 : On audit_events (trail t0).
Proof. exact (rows_follow_on event_typed event_kept t0). Qed.

Section Trail.
Context `{Env} `{Network} (t0 : gmap UUID AuditEvent.t).

Lemma event_row_typed ctx c a tt ti r m h id n :
  acceptable_opt m = true -> event_typed (event_row ctx c a tt ti r m h id n).
Proof. intros Hm. split; simpl; eauto using Minimisation.normalise_user_agent_families. Qed.

Lemma keeps_trail_record ctx c a tt ti r m h :
  keeps (under (trail t0)) (AuditEventService.record_event ctx c a tt ti r m h).
Proof.
  intros d [Hwf Hd]. apply wp_record_event_checked; [done..|]. intros id n Hm Hno e Hv.
  split; [by apply wf_put_row|]. apply (rows_follow_put event_typed event_kept); [by apply event_row_typed| |done].
  intros r0. simpl. by rewrite Hno.
Qed.

Lemma anonymised_allowed e : event_typed e -> allowed event_typed event_kept AuditEventRepository.anonymised e.
Proof.
  intros [c a t m u] n. split; [split; try done; by left|].
  split; first [done|by left|by right].
Qed.

Lemma keeps_trail_update_where P :
  keeps (under (trail t0)) (update_where P AuditEventRepository.anonymised).
Proof.
  apply (keeps_follow_update_where event_typed event_kept); [done|]. intros e He _. by apply anonymised_allowed.
Qed.

End Trail.

#[export] Hint Resolve keeps_trail_record keeps_trail_update_where : keeps.

(** ** The retention run *)
Section Retention.
Context `{Env} `{Network}.
Import AuditEventRepository AuditEventService.

(** Some retention window has run out for the event, and no legal hold protects it. *)
Definition due (settings : AuditSettings) (at_time : datetime) (e : AuditEvent.t) : bool :=
  existsb (fun w => eligible w.1 (at_time - days w.2) at_time e) (retention_windows settings).

(** [d'] is [d] with some events satisfying [P] anonymised. *)
Definition anonymises (P : AuditEvent.t -> bool) (d d' : Db) : Prop :=
  d' = set_audit_events (audit_events d') d /\
  forall k, audit_events d' !! k = audit_events d !! k \/
    exists e, audit_events d !! k = Some e /\ P e = true /\
      audit_events d' !! k = Some (anonymised e).

Lemma eligible_anonymised c cutoff n e : eligible c cutoff n (anonymised e) = eligible c cutoff n e.
Proof. unfold eligible, metadata_json_is_not_null. simpl. by rewrite !orb_true_r. Qed.

Lemma due_anonymised settings n e : due settings n (anonymised e) = due settings n e.
Proof.
  unfold due. induction (retention_windows settings) as [|w l IH]; [done|].
  cbn [existsb]. by rewrite eligible_anonymised, IH.
Qed.

(** An event with no personal field left. *)
Definition cleared (e : AuditEvent.t) : Prop := anonymised e = e.

Lemma anonymised_cleared e : cleared (anonymised e).
Proof. done. Qed.

Lemma anonymises_refl P d : anonymises P d d.
Proof. split; [by destruct d|]. by left. Qed.

Lemma anonymises_trans P d1 d2 d3 :
  anonymises P d1 d2 -> anonymises P d2 d3 -> anonymises P d1 d3.
Proof.
  intros [E1 H1] [E2 H2]. split; [rewrite E2, E1; by destruct d1|].
  intros k. destruct (H1 k) as [<-|(e & He & HPe & Hk)]; [apply H2|].
  right. exists e. split; [done|]. split; [done|].
  destruct (H2 k) as [->|(e' & He' & HPe' & Hk')]; [done|].
  assert (e' = anonymised e) as -> by congruence. by rewrite Hk', (anonymised_cleared e).
Qed.

Lemma anonymises_mono (P P' : AuditEvent.t -> bool) d d' :
  (forall e, P e = true -> P' e = true) -> anonymises P d d' -> anonymises P' d d'.
Proof. intros HP [E Hk]. split; [done|]. intros k. destruct (Hk k); naive_solver. Qed.

(** Rows that [Q] selects stay cleared when they were. *)
Lemma anonymises_cleared P Q d d' :
  (forall e, Q (anonymised e) = Q e) -> anonymises P d d' ->
  (forall k e, audit_events d !! k = Some e -> Q e = true -> cleared e) ->
  forall k e, audit_events d' !! k = Some e -> Q e = true -> cleared e.
Proof.
  intros HQ [_ Hk] Hd k e He Hq. destruct (Hk k) as [Hs|(e' & He' & _ & Hs)].
  - apply (Hd k); [congruence|done].
  - assert (e = anonymised e') as -> by congruence. apply anonymised_cleared.
Qed.

Lemma wf_anonymises P d d' : wf d -> anonymises P d d' -> wf d'.
Proof.
  intros Hwf [E Hk]. destruct (wf_table (R := AuditEvent.t) d Hwf) as [Hrows _].
  rewrite E. change (wf (set_rows (audit_events d') d)). apply wf_set; [done|..].
  - intros k. rewrite !elem_of_dom. simpl. intros [e He].
    destruct (Hk k) as [->|(e' & _ & _ & ->)]; eauto.
  - split; [|done]. intros k e He. simpl in He |- *.
    destruct (Hk k) as [Hs|(e' & He' & _ & Hs)].
    + rewrite Hs in He. exact (Hrows k e He).
    + assert (e = anonymised e') as -> by congruence.
      destruct (Hrows k e' He') as [Hid Hc].
      simpl in Hid, Hc |- *. split_checks. done.
Qed.

(** The rows one batch picks. *)
Section Batch.
Context (c : AuditCategory.t) (cutoff n : datetime) (batch : nat) (d : Db) (Hwf : wf d).

Definition batch_of : list AuditEvent.t :=
  take batch (merge_sort oldest_first (rows_where d (eligible c cutoff n))).

Definition picked (e : AuditEvent.t) : bool :=
  bool_decide (AuditEvent.id e ∈ AuditEvent.id <$> batch_of) && eligible c cutoff n e.

Lemma elem_of_candidates e :
  e ∈ rows_where d (eligible c cutoff n) <->
  audit_events d !! AuditEvent.id e = Some e /\ eligible c cutoff n e = true.
Proof. exact (elem_of_rows_where_wf d _ e Hwf). Qed.

Lemma batch_of_picked : rows_where d picked ≡ₚ batch_of.
Proof.
  apply NoDup_Permutation; [by apply NoDup_rows_where|..].
  - by apply batch_NoDup, NoDup_rows_where.
  - intros e. transitivity (audit_events d !! AuditEvent.id e = Some e /\ picked e = true);
      [exact (elem_of_rows_where_wf d _ e Hwf)|].
    unfold picked. rewrite andb_true_iff, bool_decide_eq_true, list_elem_of_fmap. split.
    + intros (He & (e' & Hid & He') & _).
      pose proof (proj1 (elem_of_candidates e') (batch_subset _ _ _ e' He')) as [Hl _].
      rewrite <- Hid in Hl. congruence.
    + intros He. pose proof (proj1 (elem_of_candidates e) (batch_subset _ _ _ e He)) as [? ?].
      eauto.
Qed.

Lemma batch_valid :
  forallb (valid_row (map_rows picked anonymised d)) (anonymised <$> rows_where d picked) = true.
Proof.
  apply forallb_forall. intros e He. apply list_elem_of_In, list_elem_of_fmap in He.
  destruct He as (e0 & -> & He0). apply (elem_of_rows_where_wf d _ e0 Hwf) in He0 as [He0 _].
  apply (wf_checks d _ e0 Hwf) in He0. apply valid_row_spec. split; [|done].
  simpl in He0 |- *. by split_checks.
Qed.

Lemma anonymises_batch : anonymises (eligible c cutoff n) d (map_rows picked anonymised d).
Proof.
  split; [done|]. intros k. simpl. rewrite lookup_fmap.
  destruct (audit_events d !! k) as [e|]; [|by left]. simpl.
  destruct (picked e) eqn:Hp; [right|by left]. exists e.
  apply andb_prop in Hp as [_ ?]. done.
Qed.

(** A batch whose events are anonymised already is rewritten with what it holds. *)
Lemma batch_rewritten :
  (forall e, e ∈ batch_of -> cleared e) -> map_rows picked anonymised d = d.
Proof.
  intros Hc. transitivity (set_rows (R := AuditEvent.t) (rows d) d); [|apply set_rows_id].
  unfold map_rows. f_equal. apply map_eq. intros k. rewrite lookup_fmap.
  destruct (rows (R := AuditEvent.t) d !! k) as [e|] eqn:He; [|done]. simpl. f_equal.
  destruct (picked e) eqn:Hp; [|done]. apply Hc. rewrite <- batch_of_picked.
  apply (elem_of_rows_where d picked). split; [done|]. by exists k.
Qed.

End Batch.

(** One window: at most a batch, all of it when the batch is not full. *)
Lemma wp_anonymise_events_older_than c cutoff n batch d :
  wf d ->
  wp (anonymise_events_older_than c cutoff n batch)
    (fun count d' => anonymises (eligible c cutoff n) d d' /\ (count <= batch)%nat /\
      (count = 0%nat -> d' = d) /\
      ((count < batch)%nat ->
         forall k e, audit_events d' !! k = Some e -> eligible c cutoff n e = true -> cleared e))
    (fun _ => False) d.
Proof.
  intros Hwf. unfold anonymise_events_older_than. apply wp_bind, wp_select.
  fold (batch_of c cutoff n batch d).
  pose proof (fun e => elem_of_candidates c cutoff n d Hwf e) as Hin.
  pose proof (batch_all oldest_first batch (rows_where d (eligible c cutoff n))) as Hall.
  fold (batch_of c cutoff n batch d) in Hall.
  destruct (AuditEvent.id <$> batch_of c cutoff n batch d) as [|k0 ks] eqn:Eids.
  - apply wp_ret. apply fmap_nil_inv in Eids. rewrite Eids in Hall.
    split; [apply anonymises_refl|]. split; [lia|]. split; [done|]. intros Hlt k e He Hel.
    pose proof (wf_pk (R := AuditEvent.t) d k e Hwf He) as <-.
    destruct (proj1 (elem_of_nil e) (Hall e Hlt (proj2 (Hin e) (conj He Hel)))).
  - rewrite <- Eids. fold (picked c cutoff n batch d).
    pose proof (batch_valid c cutoff n batch d Hwf) as Hv.
    apply wp_bind, wp_update_where; intros m g; change g with anonymised; rewrite Hv; [done|].
    intros _. apply wp_ret. rewrite length_fmap, batch_of_picked by done.
    split; [apply anonymises_batch|]. split; [apply batch_length|].
    split; [intros Hz%nil_length_inv; by rewrite Hz in Eids|].
    intros Hlt k e. simpl. rewrite lookup_fmap. intros (e0 & He0 & ->)%fmap_Some Hel.
    destruct (picked _ _ _ _ _ e0) eqn:Hp; [apply anonymised_cleared|]. exfalso.
    apply not_true_iff_false in Hp. apply Hp.
    pose proof (wf_pk (R := AuditEvent.t) d k e0 Hwf He0) as <-.
    apply andb_true_intro. split; [|done].
    apply bool_decide_eq_true, list_elem_of_fmap_2, Hall; [done|]. by apply Hin.
Qed.

(** The windows one after the other. *)
Lemma wp_anonymise_windows settings n windows : forall acc d,
  wf d ->
  let P e := existsb (fun w => eligible w.1 (n - days w.2) n e) windows in
  wp (anonymise_windows settings n windows acc)
    (fun count d' => anonymises P d d' /\
      (acc <= count <= acc + length windows * anonymisation_batch_size settings)%nat /\
      (count = acc -> d' = d) /\
      ((count < acc + anonymisation_batch_size settings)%nat ->
         forall k e, audit_events d' !! k = Some e -> P e = true -> cleared e))
    (fun _ => False) d.
Proof.
  induction windows as [|[c w] windows IH]; intros acc d Hwf P.
  - apply wp_ret. split; [apply anonymises_refl|]. split; [simpl; lia|]. done.
  - apply wp_bind. eapply wp_mono; [by apply wp_anonymise_events_older_than| |done].
    intros k1 d1 (Ha1 & Hk1 & Hz1 & Hx1).
    eapply wp_mono; [apply IH; by eapply wf_anonymises| |done].
    intros count d' (Ha & Hk & Hz & Hx). simpl in Hk.
    set (P' := fun e => existsb _ windows) in *.
    assert (HP : forall e, P e = eligible c (n - days w) n e || P' e) by done.
    assert (HP' : forall e, P' (anonymised e) = P' e).
    { intros e. unfold P'. clear. induction windows as [|v l IHl]; [done|].
      cbn [existsb]. by rewrite eligible_anonymised, IHl. }
    split; [|split; [simpl; lia|split]].
    + apply anonymises_trans with d1; [eapply anonymises_mono, Ha1|eapply anonymises_mono, Ha].
      * intros e He. by rewrite HP, He.
      * intros e He. by rewrite HP, He, orb_true_r.
    + intros Hc. rewrite Hz, Hz1 by lia. done.
    + intros Hlt k e He. rewrite HP. intros [Hel|Hel]%orb_true_iff.
      * refine (anonymises_cleared P' (eligible c (n - days w) n) d1 d' _ Ha _ k e He Hel);
          [intros; apply eligible_anonymised|apply Hx1; lia].
      * by apply (Hx ltac:(lia) k e He).
Qed.

End Retention.

(** ** Properties *)

(** The iterative scan with an explicit stack terminates on every document and
    agrees with the recursive definition of a forbidden key at any depth; the
    validation then accepts exactly the documents without one that are at most
    three levels deep and 8192 characters long, and names the failed test. *)
Theorem metadata_validation_decided (j : json) (w : World Db) :
  Metadata._validate_no_forbidden_metadata_keys j = Some (Metadata.has_forbidden_key j) /\
  Metadata._validate_metadata_json (Some j) w =
    (if Metadata.has_forbidden_key j
     then Err (ValueError "Audit metadata contains forbidden keys")
     else if (3 <? Metadata._calculate_json_depth j)%nat
     then Err (ValueError "Audit metadata exceeds max nesting depth")
     else if 8192 <? Z.of_nat (String.length (Metadata.dumps j))
     then Err (ValueError "Audit metadata exceeds max size")
     else Ok (Some j), w).
Proof.
  split; [|apply validate_metadata_json_eq].
  unfold Metadata._validate_no_forbidden_metadata_keys.
  rewrite Metadata.scan_loop_correct by (simpl; lia). simpl. by rewrite orb_false_r.
Qed.

(** Recording an event either fails for a stated reason and records nothing, or
    adds one event under a fresh key and changes nothing else; the stored address
    is the minimised one, the stored user agent is one of ten families, and the
    stored metadata has no forbidden key at any depth. *)
Theorem record_event_stores_minimised `{Env} `{Network} ctx c a tt ti r m h d :
  wp (AuditEventService.record_event ctx c a tt ti r m h)
    (fun e d' =>
       audit_events d !! AuditEvent.id e = None /\
       d' = set_audit_events (<[AuditEvent.id e := e]> (audit_events d)) d /\
       AuditEvent.actor_user_id e = AuditContext.actor_user_id ctx /\
       AuditEvent.ip_address e = Minimisation.minimise_ip_address
         (AuditContext.ip_address ctx) (AuditContext.network_identifier_secret ctx) /\
       (forall f, AuditEvent.user_agent e = Some f -> f ∈ Minimisation.user_agent_families) /\
       AuditEvent.metadata_json e = m /\ acceptable_opt m = true)
    (fun e => (e = IntegrityError /\ audit_blocked ctx d) \/
              (exists msg, e = ValueError msg) /\ acceptable_opt m = false) d.
Proof.
  apply wp_record_event_checked; [by eauto|by auto|]. intros id n Hm Hid e _.
  split; [done|]. split; [done|]. split; [done|]. split; [done|]. split; [|done].
  intros f. apply Minimisation.normalise_user_agent_families.
Qed.

(** Without a secret, the stored form of an IPv4 address depends only on its
    24-bit network: two addresses that differ in the last byte are stored alike. *)
Theorem minimised_ipv4_depends_on_network `{Network} (v v' : option string) (n n' : N) :
  Minimisation._parse_ip v = Some (IPv4Address n) ->
  Minimisation._parse_ip v' = Some (IPv4Address n') ->
  (n < 2 ^ 32)%N -> (n' < 2 ^ 32)%N -> (n / 256 = n' / 256)%N ->
  Minimisation.minimise_ip_address v None = Minimisation.minimise_ip_address v' None.
Proof.
  intros Hv Hv' Hn Hn' Hd. unfold Minimisation.minimise_ip_address. rewrite Hv, Hv'. simpl.
  assert (Hmask : forall m, (m < 2 ^ 32)%N ->
    N.land m 4294967040 = (N.shiftl (m / 256) 8)).
  { intros m Hm. change 4294967040%N with (N.shiftl (N.ones 24) 8).
    change 256%N with (2 ^ 8)%N. rewrite <- N.shiftr_div_pow2.
    apply N.bits_inj. intros i. rewrite N.land_spec.
    destruct (N.lt_ge_cases i 8).
    - rewrite !N.shiftl_spec_low by done. apply andb_false_r.
    - rewrite !N.shiftl_spec_high', N.shiftr_spec', N.sub_add by done.
      destruct (N.lt_ge_cases i 32).
      + rewrite N.ones_spec_low by lia. apply andb_true_r.
      + rewrite N.ones_spec_high by lia. rewrite andb_false_r. symmetry.
        apply N.bits_above_log2. destruct (N.eq_dec m 0%N) as [->|]; [simpl; lia|].
        apply N.lt_le_trans with 32%N; [|done]. by apply N.log2_lt_pow2; lia. }
  by rewrite !Hmask, Hd.
Qed.

(** A run does not get past a batch it has anonymised before. The oldest events of a window,
    [batch] of them at most, are selected whether or not they still hold personal data, since
    the JSON column of an anonymised event is not SQL's null; when they are all anonymised the
    run counts them again and changes nothing, whatever newer events of the window hold. *)
Theorem anonymised_batch_blocks `{Env} c cutoff n batch (d : Db) :
  wf d -> (forall e, e ∈ batch_of c cutoff n batch d -> cleared e) ->
  wp (AuditEventRepository.anonymise_events_older_than c cutoff n batch)
    (fun count d' => d' = d /\ count = length (batch_of c cutoff n batch d)) (fun _ => False) d.
Proof.
  intros Hwf Hc. unfold AuditEventRepository.anonymise_events_older_than. apply wp_bind, wp_select.
  fold (batch_of c cutoff n batch d).
  destruct (AuditEvent.id <$> batch_of c cutoff n batch d) as [|k0 ks] eqn:Eids.
  - apply wp_ret. apply fmap_nil_inv in Eids. by rewrite Eids.
  - rewrite <- Eids. fold (picked c cutoff n batch d).
    pose proof (batch_valid c cutoff n batch d Hwf) as Hv.
    apply wp_bind, wp_update_where; intros m g; change g with AuditEventRepository.anonymised;
      rewrite Hv; [done|].
    intros _. apply wp_ret. rewrite length_fmap, batch_of_picked by done.
    by rewrite (batch_rewritten c cutoff n batch d Hwf Hc).
Qed.

(** A retention run never fails on a well-formed database and changes nothing
    but audit events: an event is left as it was, or was past its category's
    window, not under legal hold, and has lost exactly its personal fields. At
    most four batches are changed; a count of zero means nothing changed, and a
    count below the batch size means that every due event has lost them. *)
Theorem anonymise_expired_events_effect `{Env} (settings : AuditEventService.AuditSettings)
    (n : datetime) (d : Db) :
  wf d ->
  wp (AuditEventService.anonymise_expired_events settings (Some n))
    (fun count d' => anonymises (due settings n) d d' /\
      (count <= 4 * AuditEventService.anonymisation_batch_size settings)%nat /\
      (count = 0%nat -> d' = d) /\
      ((count < AuditEventService.anonymisation_batch_size settings)%nat ->
         forall k e, audit_events d' !! k = Some e -> due settings n e = true -> cleared e))
    (fun _ => False) d.
Proof.
  intros Hwf. apply wp_bind, wp_ret.
  eapply wp_mono; [by apply wp_anonymise_windows| |done].
  simpl. intros count d' (Ha & Hc & Hz & Hx). repeat split; try apply Ha; [lia|auto|auto].
Qed.

(** ** Witnesses *)
Module Witness.
Import Fixtures.

Lemma minimised_ipv4_depends_on_network_witness :
  Minimisation.minimise_ip_address (Some "192.0.2.17"%string) None
  = Minimisation.minimise_ip_address (Some "192.0.2.99"%string) None.
Proof.
  apply (minimised_ipv4_depends_on_network _ _ 3221225985 3221226067); reflexivity.
Defined.

Lemma anonymise_expired_events_effect_witness :
  let settings := AuditEventService.mkAuditSettings 365 365 365 10 in
  let run := AuditEventService.anonymise_expired_events settings (Some t0) in
  (run (mkWorld db (Active db) 0)).1 = Ok 1%nat /\
  wp run
    (fun count d' => anonymises (due settings t0) db d' /\
      (count <= 40)%nat /\ (count = 0%nat -> d' = db) /\
      ((count < 10)%nat ->
         forall k e, audit_events d' !! k = Some e -> due settings t0 e = true -> cleared e))
    (fun _ => False) db.
Proof.
  intros settings run. split; [vm_compute; reflexivity|].
  exact (anonymise_expired_events_effect settings t0 db db_wf).
Defined.

(** Two events past their window and a batch of one: the second run anonymises the older event
    again, and the newer one keeps its actor. *)
Definition newer_event : AuditEvent.t :=
  AuditEvent.mk 72 (Some 2%N) "tenant" "membership_removed" "membership" (Some 22%N)
    (Some "left"%string) None (Some "192.0.2.0/24"%string) None None 5.

Definition two_events : Db := set_audit_events (<[72%N := newer_event]> (audit_events db)) db.

Definition after_run (d : Db) : option (nat * Db) :=
  match AuditEventService.anonymise_expired_events (AuditEventService.mkAuditSettings 365 365 365 1)
          (Some t0) (mkWorld d (Active d) 0) with
  | (Ok count, w) => match tx w with Active d' => Some (count, d') | _ => None end
  | (Err _, _) => None
  end.

Lemma retention_starves :
  exists d1 d2, after_run two_events = Some (1%nat, d1) /\ after_run d1 = Some (1%nat, d2) /\
    d2 = d1 /\ audit_events d2 !! 72%N = Some newer_event /\ ~ cleared newer_event /\
    due (AuditEventService.mkAuditSettings 365 365 365 1) t0 newer_event = true.
Proof.
  eexists _, _. split; [vm_compute; reflexivity|]. split; [vm_compute; reflexivity|].
  by split_and!.
Qed.

Lemma anonymised_batch_blocks_witness :
  exists count d1, after_run two_events = Some (count, d1) /\
  wp (AuditEventRepository.anonymise_events_older_than AuditCategory.TENANT (t0 - days 365) t0 1)
    (fun count d' => d' = d1 /\ count = 1%nat) (fun _ => False) d1.
Proof.
  eexists _, _. split; [vm_compute; reflexivity|].
  match goal with |- wp _ (fun _ d' => d' = ?x /\ _) _ _ => set (d1 := x) end.
  assert (Hwf : wf d1) by (apply wf_ok_sound; vm_compute; reflexivity).
  assert (Hb : batch_of AuditCategory.TENANT (t0 - days 365) t0 1 d1 = [AuditEventRepository.anonymised old_event])
    by (vm_compute; reflexivity).
  eapply wp_mono; [apply (anonymised_batch_blocks AuditCategory.TENANT (t0 - days 365) t0 1 d1 Hwf)| |done].
  - rewrite Hb. intros e He%list_elem_of_singleton. by subst e.
  - intros count d'. by rewrite Hb.
Defined.

End Witness.
