(* ===== verification/UserProofs.v ===== *)
(** The local projection of an authenticated identity: provisioning creates it
    once and keeps it equal to the identity. *)
From S2P Require Import Prelude Errors Session Schema Tables Users Fixtures.

Section Users.
Context `{Env}.
Implicit Types (d : Db) (E : exn -> Prop).

Lemma wp_get_by_external_auth_id x (Q : option User.t -> Db -> Prop) E d :
  wf d ->
  (forall u, users d !! User.id u = Some u -> User.external_auth_id u = x -> Q (Some u) d) ->
  ((forall k u, users d !! k = Some u -> User.external_auth_id u <> x) -> Q None d) ->
  wp (UserRepository.get_by_external_auth_id x) Q E d.
Proof.
  intros Hwf HS HN. apply wp_select_one_or_none; [done|..].
  - intros u u' Hu Hu' Hx Hx'. apply String.eqb_eq in Hx, Hx'.
    pose proof (wf_unique (R := User.t) d _ _ u u' Hwf Hu Hu') as Hun. simpl in Hun |- *.
    apply Hun, String.eqb_eq. congruence.
  - intros u Hu Hx. apply HS; [done|]. by apply String.eqb_eq.
  - intros Hno. apply HN. intros k u Hu Hx. specialize (Hno k u Hu). by apply String.eqb_neq in Hno.
Qed.

(** The columns a projection copies from the identity. *)
Definition projects (identity : identity_t) (u : User.t) : Prop :=
  User.external_auth_id u = AuthenticatedPrincipal.external_auth_id identity /\
  User.email u = AuthenticatedPrincipal.email identity /\
  User.email_verified u = AuthenticatedPrincipal.email_verified identity /\
  User.first_name u = AuthenticatedPrincipal.first_name identity /\
  User.last_name u = AuthenticatedPrincipal.last_name identity.

(** What provisioning does not change of a user it finds. *)
Definition same_account (u u' : User.t) : Prop :=
  User.id u' = User.id u /\ User.status u' = User.status u /\
  User.onboarding_completed u' = User.onboarding_completed u /\
  User.external_auth_id u' = User.external_auth_id u /\
  User.suspended_at u' = User.suspended_at u /\
  User.suspended_reason u' = User.suspended_reason u /\
  User.created_at u' = User.created_at u.

Definition refreshed (identity : identity_t) (u : User.t) : User.t :=
  User.set_last_name (AuthenticatedPrincipal.last_name identity)
    (User.set_first_name (AuthenticatedPrincipal.first_name identity)
      (User.set_email_verified (AuthenticatedPrincipal.email_verified identity)
        (User.set_email (AuthenticatedPrincipal.email identity) u))).

Lemma refreshed_projects identity u n :
  User.external_auth_id u = AuthenticatedPrincipal.external_auth_id identity ->
  projects identity (User.set_updated_at n (refreshed identity u)).
Proof. done. Qed.

(** Rewriting a user without touching his external identity violates no index. *)
Lemma valid_user_change d u u' :
  wf d -> users d !! User.id u = Some u -> User.id u' = User.id u ->
  User.external_auth_id u' = User.external_auth_id u -> valid_row d u' = true.
Proof.
  intros Hwf Hu Hid Hx. destruct (wf_table (R := User.t) d Hwf) as [_ Hun].
  apply valid_row_spec. simpl. rewrite Hid, Hx. split; [done|]. intros k r Hr Hk.
  by apply (Hun (User.id u) k u r Hu Hr).
Qed.

Lemma wp_refresh identity u (Q : User.t -> Db -> Prop) E d :
  wf d -> users d !! User.id u = Some u ->
  User.external_auth_id u = AuthenticatedPrincipal.external_auth_id identity ->
  (projects identity u -> Q u d) ->
  (forall n, Q (User.set_updated_at n (refreshed identity u))
               (put_row (User.set_updated_at n (refreshed identity u)) d)) ->
  wp (UserService._refresh_current_user_profile u identity) Q E d.
Proof.
  intros Hwf Hu Hx Hsame Hnew. unfold UserService._refresh_current_user_profile.
  destruct (negb (negb _ || _ || _ || _)) eqn:Hn.
  - apply wp_ret, Hsame. apply negb_true_iff in Hn.
    repeat (apply orb_false_iff in Hn as [Hn ?]).
    repeat match goal with
    | Hb : negb (bool_decide _) = false |- _ => apply negb_false_iff, bool_decide_eq_true_1 in Hb
    | Hb : negb (Bool.eqb _ _) = false |- _ => apply negb_false_iff, Bool.eqb_prop in Hb
    end. done.
  - apply wp_except_raise, wp_update_row; simpl; rewrite Hu.
    + done.
    + intros r n [= <-] Hv. simpl. exfalso. apply not_true_iff_false in Hv. apply Hv.
      by apply (valid_user_change d u).
    + intros r [= <-] Heq. apply Hsame. rewrite <- Heq. done.
    + intros r n [= <-] _ _. apply Hnew.
Qed.

(** Every user but [u] is as before, and so is the rest of the database. *)
Definition only_user (u : User.t) d d' : Prop :=
  d' = set_users (users d') d /\ users d' !! User.id u = Some u /\
  forall k, k <> User.id u -> users d' !! k = users d !! k.

Lemma only_user_put u d : only_user u d (put_row u d).
Proof.
  split; [done|]. split; [apply lookup_insert_eq|].
  intros k Hk. simpl. by rewrite lookup_insert_ne.
Qed.

Definition user_id_taken d : Prop := exists i, is_Some (users d !! uuid4 i).

Lemma wp_get_or_create_current_user identity d :
  wf d ->
  wp (UserService.get_or_create_current_user identity)
    (fun u d' => wf d' /\ projects identity u /\ only_user u d d' /\
       ((exists u0, users d !! User.id u0 = Some u0 /\ same_account u0 u) \/
        (users d !! User.id u = None /\ User.status u = UserStatus.ACTIVE)))
    (fun e => e = ConflictError "Unable to provision local user projection" /\ user_id_taken d) d.
Proof.
  intros Hwf. apply wp_bind, wp_get_by_external_auth_id; [done|..].
  - intros u Hu Hx. apply wp_refresh; [done..| |].
    + intros Hp. split; [done|]. split; [done|]. split; [|by left; exists u].
      split; [by destruct d|]. done.
    + intros n. split; [|split; [by apply refreshed_projects|]].
      * apply wf_put_row; [done|]. by apply (valid_user_change d u).
      * split; [apply only_user_put|]. left. by exists u.
  - intros Hno. apply wp_except_nested with
      (fun e => e = IntegrityError /\ user_id_taken d).
    + apply wp_bind, wp_draw; intros i. do 2 (apply wp_bind, wp_draw; intros ?).
      apply wp_insert_row.
      * intros [Ht|Hv]; [split; [done|by exists i]|]. exfalso. apply not_true_iff_false in Hv.
        apply Hv, valid_row_spec. split; [done|]. intros k r Hr _. apply String.eqb_neq. simpl.
        intros He. by apply (Hno k r Hr).
      * intros Hid Hv. split; [by apply wf_put_row|]. split; [done|].
        split; [apply only_user_put|]. by right.
    + by intros e He [-> _].
    + intros [_ Ht]. apply wp_bind, wp_get_by_external_auth_id; [done|..].
      * intros u Hu Hx. by destruct (Hno _ u Hu).
      * intros _. by apply wp_raise.
Qed.

(** A projection that is up to date is returned as it is. *)
Lemma wp_get_or_create_same identity u d :
  wf d -> users d !! User.id u = Some u -> projects identity u ->
  wp (UserService.get_or_create_current_user identity)
    (fun u' d' => u' = u /\ d' = d) (fun _ => False) d.
Proof.
  intros Hwf Hu Hp. apply wp_bind, wp_get_by_external_auth_id; [done|..].
  - intros u' Hu' Hx.
    pose proof (wf_unique (R := User.t) d _ _ u u' Hwf Hu Hu') as Hun. simpl in Hun.
    assert (u' = u) as ->.
    { symmetry. apply Hun, String.eqb_eq. destruct Hp as (-> & _). done. }
    unfold UserService._refresh_current_user_profile. destruct Hp as (_ & -> & -> & -> & ->).
    rewrite !bool_decide_true, Bool.eqb_reflx by done. by apply wp_ret.
  - intros Hno. exfalso. apply (Hno _ u Hu), Hp.
Qed.

End Users.

(** ** Properties *)

(** Provisioning an identity leaves exactly one user with its external identity,
    equal to it in every projected column; a user it finds keeps his identifier,
    status, onboarding and suspension, a new one is active; no other row of the
    database changes, and provisioning the same identity again returns the same
    user and changes nothing. It fails only when the drawn identifier is taken. *)
Theorem get_or_create_current_user_spec `{Env} identity d :
  wf d ->
  wp (UserService.get_or_create_current_user identity)
    (fun u d' => projects identity u /\ only_user u d d' /\
       ((exists u0, users d !! User.id u0 = Some u0 /\ same_account u0 u) \/
        (users d !! User.id u = None /\ User.status u = UserStatus.ACTIVE)) /\
       wp (UserService.get_or_create_current_user identity)
         (fun u' d'' => u' = u /\ d'' = d') (fun _ => False) d')
    (fun e => e = ConflictError "Unable to provision local user projection" /\ user_id_taken d) d.
Proof.
  intros Hwf. eapply wp_mono; [by apply wp_get_or_create_current_user| |done].
  intros u d' (Hwf' & Hp & Ho & Hc). split; [done|]. split; [done|]. split; [done|].
  apply wp_get_or_create_same; [done| |done]. apply Ho.
Qed.

(** ** Witnesses *)
Module Witness.
Import Fixtures.

Lemma get_or_create_current_user_spec_witness :
  wp (UserService.get_or_create_current_user (identity "newcomer"))
    (fun u _ => User.email u = Some "newcomer@example.org"%string) any_exn db.
Proof.
  eapply wp_mono; [apply (get_or_create_current_user_spec (identity "newcomer") db db_wf)| |done].
  intros u d' ((_ & He & _) & _). exact He.
Defined.

End Witness.
