(* ===== verification/MembershipProofs.v ===== *)
(** Memberships: the ownership invariant, who may change a membership, and the
    exact effect of every operation of [MembershipService]. *)
From S2P Require Import Prelude Errors Session Schema Tables AuditLog Users Memberships.
From S2P Require Import Organisations MembershipServices Fixtures AuditProofs.

(** ** Reading the tenant tables *)
Section Reading.
Context `{Env}.
Implicit Types (d : Db) (E : exn -> Prop).

Definition active_user d (a : UUID) : Prop :=
  exists u, users d !! a = Some u /\ User.status u <> UserStatus.SUSPENDED.

Definition open_organisation d (o : UUID) : Prop :=
  exists x, organisations d !! o = Some x /\ Organisation.deleted_at x = None /\
    Organisation.status x <> OrganisationStatus.SUSPENDED.

(** [m] is an active membership of [o]. *)
Definition belongs d (o : UUID) (m : Membership.t) : Prop :=
  memberships d !! Membership.id m = Some m /\ Membership.organisation_id m = o /\
  Membership.is_active m = true.

(** [m] is the active membership of [a] in [o]. *)
Definition membership_of d (a o : UUID) (m : Membership.t) : Prop :=
  belongs d o m /\ Membership.user_id m = a.

Lemma of_organisation_true o m :
  MembershipRepository.of_organisation o m = true <->
  Membership.organisation_id m = o /\ Membership.is_active m = true.
Proof. unfold MembershipRepository.of_organisation. by rewrite andb_true_iff, bool_decide_eq_true. Qed.

Lemma wp_get_user_by_id a (Q : User.t -> Db -> Prop) E d :
  wf d ->
  (forall u, users d !! a = Some u -> User.id u = a -> Q u d) ->
  (users d !! a = None -> E (NotFoundError "User not found")) ->
  wp (UserService.get_user_by_id a) Q E d.
Proof.
  intros Hwf HS HN. apply wp_bind, (wp_select_pk a); [done|done|..].
  - intros u Hu Hid. by apply wp_ret, HS.
  - intros Hn. by apply wp_raise, HN.
Qed.

Lemma wp_get_organisation o (Q : Organisation.t -> Db -> Prop) E d :
  wf d ->
  (forall x, organisations d !! o = Some x -> Organisation.id x = o ->
     Organisation.deleted_at x = None -> Q x d) ->
  ((forall x, organisations d !! o = Some x -> Organisation.deleted_at x <> None) ->
     E (NotFoundError "Organisation not found")) ->
  wp (OrganisationService.get_organisation o) Q E d.
Proof.
  intros Hwf HS HN. apply wp_bind, wp_select_one_or_none; [done|..].
  - intros r r' _ _ Hr Hr'. split_checks. simpl.
    by rewrite (bool_decide_eq_true_1 _ H0), (bool_decide_eq_true_1 _ H2).
  - intros x Hx HP. simpl in HP. split_checks. apply bool_decide_eq_true_1 in H0 as <-.
    apply wp_ret, HS; [done..|]. by destruct (Organisation.deleted_at x).
  - intros Hno. apply wp_raise, HN. intros x Hx Hd. specialize (Hno o x Hx). simpl in Hno.
    rewrite Hd in Hno. pose proof (wf_pk (R := Organisation.t) d o x Hwf Hx) as Hid.
    simpl in Hid. by rewrite bool_decide_true in Hno by done.
Qed.

Lemma wp_get_membership a o (Q : option Membership.t -> Db -> Prop) E d :
  wf d ->
  (forall m, membership_of d a o m -> Q (Some m) d) ->
  ((forall m, ~ membership_of d a o m) -> Q None d) ->
  wp (MembershipRepository.get_membership a o) Q E d.
Proof.
  intros Hwf HS HN. apply wp_select_first; [done|..].
  - intros m Hm [Hu Ho]%andb_prop. apply bool_decide_eq_true_1 in Hu.
    apply of_organisation_true in Ho as [Ho Ha]. by apply HS.
  - intros Hno. apply HN. intros m ((Hm & Ho & Ha) & Hu). specialize (Hno _ m Hm).
    rewrite bool_decide_true in Hno by done.
    by rewrite (proj2 (of_organisation_true o m)) in Hno.
Qed.

Lemma wp_get_membership_for_organisation mid o (Q : Membership.t -> Db -> Prop) E d :
  wf d ->
  (forall m, belongs d o m -> Membership.id m = mid -> Q m d) ->
  ((forall m, memberships d !! mid = Some m -> ~ belongs d o m) ->
     E (NotFoundError "Membership not found")) ->
  wp (MembershipService.get_membership_for_organisation mid o) Q E d.
Proof.
  intros Hwf HS HN. apply wp_bind, wp_select_first; [done|..].
  - intros m Hm [Hi Ho]%andb_prop. apply bool_decide_eq_true_1 in Hi.
    apply of_organisation_true in Ho as [Ho Ha]. by apply wp_ret, HS.
  - intros Hno. apply wp_raise, HN. intros m Hm (_ & Ho & Ha). specialize (Hno mid m Hm).
    pose proof (wf_pk (R := Membership.t) d mid m Hwf Hm) as Hid. simpl in Hid.
    rewrite bool_decide_true in Hno by done.
    by rewrite (proj2 (of_organisation_true o m)) in Hno.
Qed.

Lemma wp_get_membership_for_user a (Q : option Membership.t -> Db -> Prop) E d :
  wf d ->
  (forall m, belongs d (Membership.organisation_id m) m -> Membership.user_id m = a ->
     Q (Some m) d) ->
  ((forall k m, memberships d !! k = Some m -> Membership.user_id m = a ->
      Membership.is_active m = false) -> Q None d) ->
  wp (MembershipRepository.get_membership_for_user a) Q E d.
Proof.
  intros Hwf HS HN. apply wp_select_first; [done|..].
  - intros m Hm [Hu Ha]%andb_prop. apply bool_decide_eq_true_1 in Hu. by apply HS.
  - intros Hno. apply HN. intros k m Hm Hu. specialize (Hno k m Hm).
    by rewrite bool_decide_true in Hno by done.
Qed.

(** A user has one active membership at most. *)
Lemma active_membership_unique d m m' :
  wf d -> memberships d !! Membership.id m = Some m -> memberships d !! Membership.id m' = Some m' ->
  Membership.is_active m = true -> Membership.is_active m' = true ->
  Membership.user_id m = Membership.user_id m' -> m = m'.
Proof.
  intros Hwf Hm Hm' Ha Ha' Hu.
  pose proof (fun k k' => wf_unique (R := Membership.t) d k k' m m' Hwf) as Hun. simpl in Hun.
  destruct (Hun _ _ Hm Hm') as [_ ?]; [by rewrite Ha, Ha', bool_decide_true|done].
Qed.

Lemma membership_of_unique d a o m m' :
  wf d -> membership_of d a o m -> membership_of d a o m' -> m = m'.
Proof.
  intros Hwf ((Hm & _ & Ha) & Hu) ((Hm' & _ & Ha') & Hu').
  apply (active_membership_unique d); congruence.
Qed.

(** What the opening of a tenant operation requires. *)
Definition admitted d (o a : UUID) (m : Membership.t) : Prop :=
  active_user d a /\ open_organisation d o /\ membership_of d a o m.

Definition app_error (e : exn) : Prop := exists c detail extra, e = AppError c detail extra.

Lemma wp_actor_membership_or denied o a (Q : Membership.t -> Db -> Prop) E d :
  wf d -> app_error denied ->
  (forall m, admitted d o a m -> Q m d) ->
  ((forall m, ~ admitted d o a m) -> forall e, app_error e -> E e) ->
  wp (MembershipService.actor_membership_or denied o a) Q E d.
Proof.
  intros Hwf Hd HS HE. apply wp_bind, wp_get_user_by_id; [done| |].
  2:{ intros Hn. apply HE; [|by repeat eexists]. intros m ((u & Hu & _) & _). congruence. }
  intros u Hu _. apply wp_bind, wp_raise_if; intros Hs.
  { apply HE; [|by repeat eexists]. apply bool_decide_eq_true_1 in Hs.
    intros m ((u' & Hu' & Hs') & _). congruence. }
  apply bool_decide_eq_false_1 in Hs.
  apply wp_bind, wp_get_organisation; [done| |].
  2:{ intros Hn. apply HE; [|by repeat eexists]. intros m (_ & (x & Hx & Hdel & _) & _).
      by apply (Hn x). }
  intros x Hx _ Hdel. apply wp_bind, wp_raise_if; intros Hxs.
  { apply HE; [|by repeat eexists]. apply bool_decide_eq_true_1 in Hxs.
    intros m (_ & (x' & Hx' & _ & Hs') & _). congruence. }
  apply bool_decide_eq_false_1 in Hxs.
  apply wp_bind, wp_get_membership; [done|..].
  - intros m Hm. apply wp_ret, HS. split; [by exists u|]. split; [by exists x|done].
  - intros Hn. apply wp_raise, HE; [|done]. intros m (_ & _ & Hm). by apply (Hn m).
Qed.

End Reading.

(** ** The ownership invariant *)

(** An organisation has no active membership, or exactly one active owner. *)
Definition owner_invariant (d : Db) : Prop :=
  forall o, rows_where d (MembershipRepository.of_organisation o) = [] \/
            length (rows_where d (MembershipRepository.active_owner_of o)) = 1%nat.

(** The same, row by row: an active membership's organisation has an active owner. *)
Definition owned (d : Db) : Prop :=
  forall k m, memberships d !! k = Some m -> Membership.is_active m = true ->
    exists k' m', memberships d !! k' = Some m' /\ is_active_owner m' = true /\
      Membership.organisation_id m' = Membership.organisation_id m.

Section Ownership.
Context `{Env}.
Implicit Types (d : Db) (E : exn -> Prop).

Lemma active_owner_of_true o m :
  MembershipRepository.active_owner_of o m = true <->
  Membership.organisation_id m = o /\ is_active_owner m = true.
Proof. unfold MembershipRepository.active_owner_of. by rewrite andb_true_iff, bool_decide_eq_true. Qed.

Lemma is_active_owner_true m :
  is_active_owner m = true <->
  Membership.role m = MembershipRole.OWNER /\ Membership.is_active m = true.
Proof. unfold is_active_owner. by rewrite andb_true_iff, bool_decide_eq_true. Qed.

Lemma active_owner_single d o : wf d -> single_valued d (MembershipRepository.active_owner_of o).
Proof.
  intros Hwf r r' Hr Hr' [Ho Ha]%active_owner_of_true [Ho' Ha']%active_owner_of_true.
  destruct (wf_unique d (pk r) (pk r') r r' Hwf Hr Hr') as [? _]; [|done].
  simpl. rewrite Ha, Ha', (bool_decide_true (Membership.organisation_id r = _)) by congruence.
  apply orb_true_r.
Qed.

Lemma count_owners d o :
  wf d ->
  length (rows_where d (MembershipRepository.active_owner_of o)) = 1%nat <->
  exists k m, memberships d !! k = Some m /\ MembershipRepository.active_owner_of o m = true.
Proof.
  intros Hwf. split.
  - intros Hl. destruct (rows_where _ _) as [|r [|]] eqn:El; try done.
    assert (Hr : r ∈ rows_where d (MembershipRepository.active_owner_of o))
      by (rewrite El; by constructor).
    apply elem_of_rows_where in Hr as [Hr [k Hk]]. by exists k, r.
  - intros (k & m & Hk & Hm).
    destruct (single_valued_rows_where d _ Hwf (active_owner_single d o Hwf)) as [El|[r El]];
      rewrite El; [|done].
    by rewrite (rows_where_nil d _ El k m Hk) in Hm.
Qed.

Lemma owner_invariant_owned d : wf d -> owner_invariant d <-> owned d.
Proof.
  intros Hwf. split.
  - intros Hinv k m Hm Ha. destruct (Hinv (Membership.organisation_id m)) as [El|Hl].
    + pose proof (rows_where_nil d _ El k m Hm) as Hf.
      by rewrite (proj2 (of_organisation_true _ m)) in Hf.
    + apply count_owners in Hl as (k' & m' & Hm' & [? ?]%active_owner_of_true); eauto.
  - intros Hown o. destruct (rows_where d (MembershipRepository.of_organisation o)) as [|m l] eqn:El;
      [by left|right].
    assert (Hm : m ∈ rows_where d (MembershipRepository.of_organisation o))
      by (rewrite El; by constructor).
    apply elem_of_rows_where in Hm as [[Ho Ha]%of_organisation_true [k Hk]].
    destruct (Hown k m Hk Ha) as (k' & m' & Hm' & Hown' & Ho').
    apply count_owners; [done|]. exists k', m'. split; [done|].
    apply active_owner_of_true. split; [congruence|done].
Qed.

Lemma owned_frame d d' : memberships d' = memberships d -> owned d -> owned d'.
Proof. unfold owned. by intros ->. Qed.

(** [_ensure_exactly_one_active_owner] passes exactly when the organisation has an owner. *)
Lemma wp_ensure_exactly_one_active_owner o (Q : unit -> Db -> Prop) E d :
  wf d ->
  (forall k m, memberships d !! k = Some m -> MembershipRepository.active_owner_of o m = true ->
     Q tt d) ->
  ((forall k m, memberships d !! k = Some m -> MembershipRepository.active_owner_of o m = false) ->
     E (ConflictError MembershipService._OWNER_INVARIANT_ERROR)) ->
  wp (MembershipService._ensure_exactly_one_active_owner o) Q E d.
Proof.
  intros Hwf HS HN. apply wp_bind, wp_bind, wp_select, wp_ret.
  destruct (single_valued_rows_where d _ Hwf (active_owner_single d o Hwf)) as [El|[r El]];
    rewrite El; apply wp_raise_if; try done; intros _.
  - apply HN. exact (rows_where_nil d _ El).
  - assert (Hr : r ∈ rows_where d (MembershipRepository.active_owner_of o))
      by (rewrite El; by constructor).
    apply elem_of_rows_where in Hr as [Hr [k Hk]]. by apply (HS k r).
Qed.

(** *** Writing one membership *)

Definition put_membership (m : Membership.t) d : Db := put_row m d.

(** A change of an existing row is accepted when it claims no new uniqueness. *)
Lemma valid_membership_change d m m' :
  wf d -> memberships d !! Membership.id m = Some m ->
  Membership.id m' = Membership.id m -> Membership.user_id m' = Membership.user_id m ->
  Membership.organisation_id m' = Membership.organisation_id m ->
  (Membership.is_active m' = true -> Membership.is_active m = true) ->
  (is_active_owner m' = true -> is_active_owner m = true \/
     forall k r, memberships d !! k = Some r ->
       MembershipRepository.active_owner_of (Membership.organisation_id m) r = false) ->
  valid_row d m' = true.
Proof.
  intros Hwf Hm Hid Hu Ho Ha Hw.
  pose proof (wf_checks d _ m Hwf Hm) as Hc. destruct (wf_table (R := Membership.t) d Hwf) as [_ Hun].
  apply valid_row_spec. simpl in Hc |- *. rewrite Hu, Ho, Hid. split; [done|].
  intros k r Hr Hk. specialize (Hun _ _ m r Hm Hr (not_eq_sym Hk)). simpl in Hun.
  apply orb_false_iff in Hun as [H1 H2]. apply orb_false_iff. split.
  - destruct (Membership.is_active m') eqn:Ha'; [by rewrite Ha in H1|].
    by rewrite andb_false_r.
  - destruct (is_active_owner m') eqn:Hw'; [|by rewrite andb_false_r].
    destruct (Hw eq_refl) as [Hmw|Hno]; [by rewrite Hmw in H2|].
    specialize (Hno k r Hr). unfold MembershipRepository.active_owner_of in Hno.
    by rewrite andb_true_r, (bool_decide_eq_sym (Membership.organisation_id m)).
Qed.

(** Updating a membership that is there, to an acceptable row. *)
Lemma wp_update_membership t (f : Membership.t -> Membership.t) (Q : Membership.t -> Db -> Prop) E d :
  memberships d !! Membership.id t = Some t -> f t <> t ->
  (forall n, valid_row d (Membership.set_updated_at n (f t)) = true) ->
  (forall n, Q (Membership.set_updated_at n (f t)) (put_row (Membership.set_updated_at n (f t)) d)) ->
  wp (update_row (Membership.id t) f) Q E d.
Proof.
  intros Ht Hf Hv HQ. eapply wp_update_present; [exact Ht|done|..].
  - intros n Hn. specialize (Hv n). simpl in Hn. congruence.
  - intros n _. apply HQ.
Qed.

(** Replacing an active membership that is not the owner keeps every owner. *)
Lemma owned_put_existing d m m' :
  owned d -> memberships d !! Membership.id m = Some m ->
  Membership.id m' = Membership.id m ->
  Membership.organisation_id m' = Membership.organisation_id m ->
  (Membership.is_active m' = true -> Membership.is_active m = true) ->
  (is_active_owner m = true -> is_active_owner m' = true) ->
  owned (put_row m' d).
Proof.
  intros Hown Hm Hid Ho Ha Hw k r. simpl. rewrite lookup_insert_Some.
  assert (Hkeep : forall k1 m1, memberships d !! k1 = Some m1 -> is_active_owner m1 = true ->
    exists k2 m2, <[Membership.id m' := m']> (memberships d) !! k2 = Some m2 /\
      is_active_owner m2 = true /\ Membership.organisation_id m2 = Membership.organisation_id m1).
  { intros k1 m1 Hm1 Hw1. destruct (decide (k1 = Membership.id m')) as [->|Hne].
    - exists (Membership.id m'), m'. rewrite lookup_insert_eq.
      rewrite Hid, Hm in Hm1. simplify_eq. by auto.
    - exists k1, m1. by rewrite lookup_insert_ne. }
  intros [[<- <-]|[Hk Hr]] Hact.
  - destruct (Hown _ m Hm (Ha Hact)) as (k1 & m1 & Hm1 & Hw1 & Ho1).
    destruct (Hkeep k1 m1 Hm1 Hw1) as (k2 & m2 & ? & ? & ?). exists k2, m2. naive_solver congruence.
  - destruct (Hown _ r Hr Hact) as (k1 & m1 & Hm1 & Hw1 & Ho1).
    destruct (Hkeep k1 m1 Hm1 Hw1) as (k2 & m2 & ? & ? & ?). exists k2, m2. naive_solver congruence.
Qed.

End Ownership.

(** ** Tenant operations on a membership *)
Section Operations.
Context `{Env} `{Network}.
Implicit Types (d : Db) (E : exn -> Prop).

(** The business rate limiter refused. *)
Definition limited (lim : option BusinessRateLimiter) (e : exn) : Prop :=
  exists run i, lim = Some run /\ run i = Err e.

Lemma wp_run_business_rate_limiter lim (Q : unit -> Db -> Prop) E d :
  Q tt d -> (forall e, limited lim e -> E e) ->
  wp (ServiceGuards._run_business_rate_limiter lim) Q E d.
Proof.
  intros HQ HE. destruct lim as [run|]; [|by apply wp_ret].
  apply wp_await_external; [by intros i []|]. intros i e He. apply HE. by exists run, i.
Qed.

(** A tenant operation whose audit context names its actor. *)
Lemma commits_tenant {A} a ctx (m : M Db A) (Q : A -> Db -> Prop) E d :
  (AuditContext.actor_user_id ctx <> Some a ->
     E (ValueError "Audit actor does not match action actor")) ->
  (AuditContext.actor_user_id ctx = Some a -> wp m Q E d) ->
  commits (ServiceGuards._ensure_audit_actor_matches a ctx ;; join_or_begin m) Q E d.
Proof.
  intros HE Hm. apply commits_guard; intros Hb.
  - apply HE. by apply negb_true_iff, bool_decide_eq_false_1 in Hb.
  - apply commits_join_or_begin, Hm. by apply negb_false_iff, bool_decide_eq_true_1 in Hb.
Qed.

(** The audit insertion after a membership write is blocked as before it. *)
Lemma audit_blocked_frame ctx d d' :
  audit_events d' = audit_events d -> users d' = users d ->
  audit_blocked ctx d' -> audit_blocked ctx d.
Proof. unfold audit_blocked. by intros -> ->. Qed.

(** *** Changing a role *)

Definition may_change_role d (o a : UUID) (t : Membership.t) (role : MembershipRole.t) : Prop :=
  (exists m, admitted d o a m /\ Membership.role m = MembershipRole.OWNER) /\
  belongs d o t /\ Membership.role t <> MembershipRole.OWNER /\
  role <> MembershipRole.OWNER /\ Membership.role t <> role.

Definition with_role (role : MembershipRole.t) (n : datetime) (t : Membership.t) : Membership.t :=
  Membership.set_updated_at n (Membership.set_role role t).

Definition role_changed_metadata (o : UUID) (old new : MembershipRole.t) : json :=
  JObj [("organisation_id", JStr (Uuid.str o)); ("old_role", JStr (MembershipRole.value old));
        ("new_role", JStr (MembershipRole.value new))]%string.

Lemma set_role_same t role : Membership.set_role role t = t -> Membership.role t = role.
Proof. intros <-. by destruct t. Qed.

Lemma role_changed_acceptable o old new : acceptable (role_changed_metadata o old new) = true.
Proof. unfold role_changed_metadata. solve_acceptable. destruct old, new; simpl; lia. Qed.

(** A member's new role other than owner violates no index. *)
Lemma valid_with_role d t role n :
  wf d -> memberships d !! Membership.id t = Some t -> role <> MembershipRole.OWNER ->
  valid_row d (with_role role n t) = true.
Proof.
  intros Hwf Ht Hr. apply (valid_membership_change d t); try done.
  intros [Ho _]%is_active_owner_true. done.
Qed.

Lemma wp_change_membership_role o a ctx mid role lim d :
  wf d ->
  wp (MembershipService._change_membership_role o a ctx mid role lim)
    (fun m d' => exists t n id n', Membership.id t = mid /\ may_change_role d o a t role /\
       m = with_role role n t /\ audit_events d !! id = None /\
       d' = put_row (event_row ctx AuditCategory.TENANT AuditAction.MEMBERSHIP_ROLE_CHANGED
              AuditTargetType.MEMBERSHIP (Some mid) None
              (Some (role_changed_metadata o (Membership.role t) role)) None id n')
              (put_row m d))
    (fun e => (forall t, Membership.id t = mid -> ~ may_change_role d o a t role) \/
       limited lim e \/ (e = IntegrityError /\ audit_blocked ctx d)) d.
Proof.
  intros Hwf. apply wp_bind, wp_actor_membership_or; [done|by repeat eexists| |].
  2:{ intros Hn e _. left. intros t _ ((m & Hm & _) & _). by apply (Hn m). }
  intros am Ham. apply wp_bind, wp_get_membership_for_organisation; [done| |].
  2:{ intros Hn. left. intros t Hid (_ & Hb & _). apply (Hn t); [|done].
      rewrite <- Hid. apply Hb. }
  intros t Hb Hid.
  assert (Hsame : forall t', Membership.id t' = mid -> belongs d o t' -> t' = t).
  { intros t' Hid' [Ht' _]. destruct Hb as [Ht _]. congruence. }
  apply wp_bind, wp_raise_if; intros H1.
  { left. apply bool_decide_eq_true_1 in H1. intros t' _ (_ & _ & _ & Hr & _). done. }
  apply wp_bind, wp_raise_if; intros H2.
  { left. apply bool_decide_eq_true_1 in H2. intros t' Ht' (_ & Hb' & Hr & _).
    by rewrite (Hsame t') in Hr. }
  apply wp_bind, wp_raise_if; intros H3.
  { left. apply negb_true_iff, bool_decide_eq_false_1 in H3.
    intros t' _ ((m & (_ & _ & Hm) & Hr) & _). apply H3. rewrite <- Hr. f_equal.
    destruct Ham as (_ & _ & Ham). by apply (membership_of_unique d a o). }
  apply wp_bind, wp_raise_if; intros H4.
  { left. apply bool_decide_eq_true_1 in H4. intros t' Ht' (_ & Hb' & _ & _ & Hr).
    by rewrite (Hsame t') in Hr. }
  apply bool_decide_eq_false_1 in H1, H2, H4. apply negb_false_iff, bool_decide_eq_true_1 in H3.
  assert (Hmay : may_change_role d o a t role) by (split; [by exists am|done]).
  apply wp_bind, wp_run_business_rate_limiter; [|by auto].
  apply wp_bind, wp_update_membership; [by apply Hb|by intros ?%set_role_same|..].
  { intros n. by apply valid_with_role; [|apply Hb|]. }
  intros n. apply wp_bind, wp_record_event; [apply role_changed_acceptable|..].
  - intros Hblk. right. right. split; [done|]. by eapply audit_blocked_frame, Hblk.
  - intros id n' Hfresh e _. apply wp_ret. exists t, n, id, n'.
    split; [done|]. split; [done|]. split; [done|]. split; [done|].
    unfold e. by rewrite <- Hid.
Qed.

(** *** Removing a member *)

Definition may_remove d (o a : UUID) (t : Membership.t) : Prop :=
  belongs d o t /\ Membership.role t <> MembershipRole.OWNER /\
  exists m, admitted d o a m /\
    (Membership.role m = MembershipRole.OWNER \/
     (Membership.role m = MembershipRole.ADMIN /\ Membership.role t = MembershipRole.MEMBER)).

Definition inactive (n : datetime) (t : Membership.t) : Membership.t :=
  Membership.set_updated_at n (Membership.set_is_active false t).

Definition removed_metadata (o : UUID) (t : Membership.t) : json :=
  JObj [("organisation_id", JStr (Uuid.str o));
        ("removed_user_id", JStr (Uuid.str (Membership.user_id t)));
        ("previous_role", JStr (MembershipRole.value (Membership.role t)))]%string.

Lemma removed_acceptable o t : acceptable (removed_metadata o t) = true.
Proof. unfold removed_metadata. solve_acceptable. destruct (Membership.role t); simpl; lia. Qed.

Lemma valid_inactive d t n :
  wf d -> memberships d !! Membership.id t = Some t -> valid_row d (inactive n t) = true.
Proof.
  intros Hwf Ht. apply (valid_membership_change d t); try done.
  intros [_ Ha]%is_active_owner_true. done.
Qed.

(** Deactivating an active membership always succeeds. *)
Lemma wp_deactivate_membership t (Q : Membership.t -> Db -> Prop) E d :
  wf d -> memberships d !! Membership.id t = Some t -> Membership.is_active t = true ->
  (forall n, Q (inactive n t) (put_row (inactive n t) d)) ->
  wp (MembershipRepository.deactivate_membership t) Q E d.
Proof.
  intros Hwf Ht Ha HQ. apply wp_update_membership; [done|..].
  - intros Hf%(f_equal Membership.is_active). simpl in Hf. congruence.
  - intros n. by apply valid_inactive.
  - done.
Qed.

Lemma wp_remove_membership o a ctx mid reason lim d :
  wf d ->
  wp (MembershipService._remove_membership o a ctx mid reason lim)
    (fun m d' => exists t n id n', Membership.id t = mid /\ may_remove d o a t /\
       m = inactive n t /\ audit_events d !! id = None /\
       d' = put_row (event_row ctx AuditCategory.TENANT AuditAction.MEMBERSHIP_REMOVED
              AuditTargetType.MEMBERSHIP (Some mid) reason (Some (removed_metadata o t)) None id n')
              (put_row m d))
    (fun e => (forall t, Membership.id t = mid -> ~ may_remove d o a t) \/
       limited lim e \/ (e = IntegrityError /\ audit_blocked ctx d)) d.
Proof.
  intros Hwf. apply wp_bind, wp_actor_membership_or; [done|by repeat eexists| |].
  2:{ intros Hn e _. left. intros t _ (_ & _ & m & Hm & _). by apply (Hn m). }
  intros am Ham. apply wp_bind, wp_get_membership_for_organisation; [done| |].
  2:{ intros Hn. left. intros t Hid (Hb & _). apply (Hn t); [|done]. rewrite <- Hid. apply Hb. }
  intros t Hb Hid.
  assert (Hsame : forall t', Membership.id t' = mid -> may_remove d o a t' -> t' = t).
  { intros t' Hid' [[Ht' _] _]. destruct Hb as [Ht _]. congruence. }
  assert (Hactor : forall m, admitted d o a m -> m = am).
  { intros m (_ & _ & Hm). destruct Ham as (_ & _ & Ham). by apply (membership_of_unique d a o). }
  apply wp_bind, wp_raise_if; intros H1.
  { left. apply bool_decide_eq_true_1 in H1. intros t' Ht' Hr. pose proof (Hsame t' Ht' Hr) as ->.
    by destruct Hr as (_ & Hr & _). }
  apply bool_decide_eq_false_1 in H1.
  assert (Hrule : wp (match Membership.role am with
      | MembershipRole.OWNER => mret tt
      | MembershipRole.ADMIN =>
          raise_if (negb (bool_decide (Membership.role t = MembershipRole.MEMBER)))
            (ForbiddenError "Admin can remove only members")
      | MembershipRole.MEMBER => raise (ForbiddenError "You are not allowed to remove memberships")
      end) (fun _ d' => d' = d /\ may_remove d o a t)
      (fun _ => forall t, Membership.id t = mid -> ~ may_remove d o a t) d).
  { destruct (Membership.role am) eqn:Har; [apply wp_ret|apply wp_raise_if; intros H2|apply wp_raise].
    - split; [done|]. split; [done|]. split; [done|]. exists am. auto.
    - apply negb_true_iff, bool_decide_eq_false_1 in H2.
      intros t' Ht' Hr. pose proof (Hsame t' Ht' Hr) as ->.
      destruct Hr as (_ & _ & m & ->%Hactor & Hr). naive_solver congruence.
    - apply negb_false_iff, bool_decide_eq_true_1 in H2.
      split; [done|]. split; [done|]. split; [done|]. exists am. auto.
    - intros t' _ (_ & _ & m & ->%Hactor & Hr). naive_solver congruence. }
  apply wp_bind. eapply wp_mono; [apply Hrule| |by auto]. intros _ d' [-> Hmay].
  apply wp_bind, wp_run_business_rate_limiter; [|by auto].
  apply wp_bind, wp_deactivate_membership; [done|apply Hb|apply Hb|].
  intros n. apply wp_bind, wp_record_event; [apply (removed_acceptable o t)|..].
  - intros Hblk. right. right. split; [done|]. by eapply audit_blocked_frame, Hblk.
  - intros id n' Hfresh e _. apply wp_ret. exists t, n, id, n'.
    split; [done|]. split; [done|]. split; [done|]. split; [done|].
    unfold e. by rewrite <- Hid.
Qed.

End Operations.

(** *** Joining, moving and replacing *)
Section Joining.
Context `{Env}.
Implicit Types (d : Db) (E : exn -> Prop).

Definition no_active_membership d (u : UUID) : Prop :=
  forall k m, memberships d !! k = Some m -> Membership.user_id m = u ->
    Membership.is_active m = false.

Definition has_owner d (o : UUID) : Prop :=
  exists k m, memberships d !! k = Some m /\ MembershipRepository.active_owner_of o m = true.

(** The organisation takes a first owner, or another member next to its owner. *)
Definition may_join d (u o : UUID) (role : MembershipRole.t) : Prop :=
  is_Some (users d !! u) /\ is_Some (organisations d !! o) /\ no_active_membership d u /\
  (role = MembershipRole.OWNER <-> ~ has_owner d o).

(** A drawn identifier is the key of a membership. *)
Definition id_taken d : Prop := exists i, is_Some (memberships d !! uuid4 i).

Definition new_membership (id u o : UUID) (role : MembershipRole.t) (n n' : datetime) :=
  Membership.mk id u o role true n n'.

Lemma has_owner_dec d o :
  wf d -> has_owner d o \/
    forall k m, memberships d !! k = Some m -> MembershipRepository.active_owner_of o m = false.
Proof.
  intros Hwf.
  destruct (single_valued_rows_where d _ Hwf (active_owner_single d o Hwf)) as [El|[r El]].
  - right. exact (rows_where_nil d _ El).
  - left. apply count_owners; [done|]. by rewrite El.
Qed.

Lemma no_owner d o k m :
  ~ has_owner d o -> memberships d !! k = Some m ->
  MembershipRepository.active_owner_of o m = false.
Proof.
  intros Hno Hm. destruct (MembershipRepository.active_owner_of o m) eqn:Ho; [|done].
  destruct Hno. by exists k, m.
Qed.

(** The indexes accept a new member exactly when he may join as he asks. *)
Lemma valid_new_membership d id u o role n n' :
  wf d -> memberships d !! id = None ->
  valid_row d (new_membership id u o role n n') = true <->
  is_Some (users d !! u) /\ is_Some (organisations d !! o) /\ no_active_membership d u /\
  (role = MembershipRole.OWNER -> ~ has_owner d o).
Proof.
  intros Hwf Hid. rewrite valid_row_spec. simpl. rewrite andb_true_iff, !has_row_true. split.
  - intros [[Hu Ho] Hf]. split; [done|]. split; [done|]. split.
    + intros k m Hm Hmu. destruct (Membership.is_active m) eqn:Ha; [|done].
      specialize (Hf k m Hm ltac:(congruence)).
      apply orb_false_iff in Hf as [Hf _].
      rewrite bool_decide_true in Hf by done. simpl in Hf. congruence.
    + intros -> (k & m & Hm & [Hmo Hw]%active_owner_of_true).
      specialize (Hf k m Hm ltac:(congruence)). apply orb_false_iff in Hf as [_ Hf].
      rewrite bool_decide_true in Hf by done. simpl in Hf. congruence.
  - intros (Hu & Ho & Hno & Hw). split; [done|]. intros k m Hm Hk. apply orb_false_iff. split.
    + destruct (decide (u = Membership.user_id m)) as [He|]; [|by rewrite bool_decide_false].
      rewrite (Hno k m Hm (eq_sym He)). apply andb_false_r.
    + destruct (decide (o = Membership.organisation_id m)) as [He|]; [|by rewrite bool_decide_false].
      destruct (is_active_owner m) eqn:Hwm; [|apply andb_false_r].
      destruct (decide (role = MembershipRole.OWNER)) as [Hr|];
        [|unfold is_active_owner; simpl; rewrite (bool_decide_false (role = _)) by done;
          by rewrite andb_false_r].
      destruct (Hw Hr). exists k, m. split; [done|]. by apply active_owner_of_true.
Qed.

Lemma owned_new_membership d id u o role n n' :
  owned d -> memberships d !! id = None -> (role <> MembershipRole.OWNER -> has_owner d o) ->
  owned (put_row (new_membership id u o role n n') d).
Proof.
  intros Hown Hid Hw k r. simpl. rewrite lookup_insert_Some.
  intros [[<- <-]|[Hk Hr]] Ha.
  - destruct (decide (role = MembershipRole.OWNER)) as [->|Hne].
    + eexists id, _. by rewrite lookup_insert_eq.
    + destruct (Hw Hne) as (k & m & Hm & [Ho Hmw]%active_owner_of_true).
      exists k, m. by rewrite lookup_insert_ne by congruence.
  - destruct (Hown k r Hr Ha) as (k' & m' & Hm' & ? & ?).
    exists k', m'. by rewrite lookup_insert_ne by congruence.
Qed.

(** The insertion the services guard with [except IntegrityError]. *)
Lemma wp_join u o role e0 (Q : Membership.t -> Db -> Prop) E d :
  wf d ->
  (forall id n n', memberships d !! id = None -> may_join d u o role ->
     let m := new_membership id u o role n n' in
     valid_row d m = true -> Q m (put_row m d)) ->
  (~ may_join d u o role \/ id_taken d -> E e0) ->
  (role <> MembershipRole.OWNER -> ~ has_owner d o ->
     E (ConflictError MembershipService._OWNER_INVARIANT_ERROR)) ->
  wp (except_integrity
        (membership ← MembershipRepository.create_membership u o role;
         MembershipService._ensure_exactly_one_active_owner o ;;
         mret membership) (raise e0)) Q E d.
Proof.
  intros Hwf HQ HE Hinv. apply wp_except_raise, wp_bind.
  apply wp_bind, wp_draw; intros i. apply wp_bind, wp_draw; intros j.
  apply wp_bind, wp_draw; intros j'. apply wp_insert_row.
  { intros Hc. apply HE. destruct (memberships d !! uuid4 i) eqn:Hi; [right; by exists i|left].
    destruct Hc as [Hc|Hv]; [simpl in Hc; rewrite Hi in Hc; by destruct Hc|].
    intros (Hu & Ho & Hno & Hw). apply not_true_iff_false in Hv.
    apply Hv, valid_new_membership; [done..|]. naive_solver. }
  intros Hid Hv. apply wp_bind.
  pose proof (proj1 (valid_new_membership d _ u o role _ _ Hwf Hid) Hv) as (Hu & Ho & Hno & Hw).
  assert (Hwf' := wf_put_row d _ Hwf Hv).
  apply wp_ensure_exactly_one_active_owner; [done|..].
  - intros k m Hm Hmo. apply wp_ret, HQ; [done| |done].
    split; [done|]. split; [done|]. split; [done|]. split; [done|]. intros Hno'.
    simpl in Hm. apply lookup_insert_Some in Hm as [[<- <-]|[Hk Hm]].
    + by apply active_owner_of_true in Hmo as [_ [? _]%is_active_owner_true].
    + by rewrite (no_owner d o k m Hno' Hm) in Hmo.
  - intros Hno'. simpl. apply Hinv.
    + intros ->. specialize (Hno' _ _ (lookup_insert_eq _ _ _)).
      unfold MembershipRepository.active_owner_of in Hno'. simpl in Hno'.
      by rewrite bool_decide_true in Hno'.
    + intros (k & m & Hm & Hmo). rewrite (Hno' k m) in Hmo; [done|].
      simpl. rewrite lookup_insert_ne; [done|]. simpl in Hid. congruence.
Qed.

Lemma wp_create_membership u o role d :
  wf d ->
  wp (MembershipService._create_membership u o role)
    (fun m d' => exists id n n', memberships d !! id = None /\ may_join d u o role /\
       m = new_membership id u o role n n' /\ valid_row d m = true /\ d' = put_row m d)
    (fun e => (exists msg, e = ConflictError msg) /\ (~ may_join d u o role \/ id_taken d)) d.
Proof.
  intros Hwf. apply wp_bind, wp_get_membership_for_user; [done|..].
  - intros m (Hm & _ & Ha) Hu. apply wp_bind, wp_raise_if; [|done]. intros _.
    split; [by eexists|]. left. intros (_ & _ & Hno & _). specialize (Hno _ m Hm Hu). congruence.
  - intros Hno. apply wp_bind, wp_raise_if; [done|]. intros _. apply wp_join; [done|..].
    + intros id n n' Hid Hmay m Hv. exists id, n, n'. auto.
    + intros Hc. split; [|done]. destruct (decide _); by eexists.
    + intros Hr Ho. split; [by eexists|]. left. intros (_ & _ & _ & Hw). naive_solver.
Qed.

Definition app_error_or_integrity (e : exn) : Prop := app_error e \/ e = IntegrityError.

(** The working copy after the old membership is given up. *)
Definition after_leaving d (t : option Membership.t) (n : datetime) : Db :=
  match t with None => d | Some t => put_row (inactive n t) d end.

Lemma owned_inactive d t n :
  owned d -> memberships d !! Membership.id t = Some t -> is_active_owner t = false ->
  owned (put_row (inactive n t) d).
Proof. intros Hown Ht Hw. apply (owned_put_existing d t); try done. by rewrite Hw. Qed.

(** An owner who leaves leaves the organisation without an owner. *)
Lemma owner_leaving d t n k m :
  wf d -> memberships d !! Membership.id t = Some t -> Membership.is_active t = true ->
  Membership.role t = MembershipRole.OWNER ->
  memberships (put_row (inactive n t) d) !! k = Some m ->
  MembershipRepository.active_owner_of (Membership.organisation_id t) m = false.
Proof.
  intros Hwf Ht Ha Hr. simpl. rewrite lookup_insert_Some. intros [[<- <-]|[Hk Hm]].
  - unfold MembershipRepository.active_owner_of, is_active_owner. simpl.
    by rewrite !andb_false_r.
  - destruct (MembershipRepository.active_owner_of _ m) eqn:Hmo; [|done]. destruct Hk.
    pose proof (wf_pk (R := Membership.t) d k m Hwf Hm) as Hid. simpl in Hid. subst k.
    pose proof (active_owner_single d (Membership.organisation_id t) Hwf t m Ht Hm) as Hs.
    apply Hs; [|done]. apply active_owner_of_true. by rewrite is_active_owner_true.
Qed.

Lemma wp_transfer_membership u o role d :
  wf d ->
  wp (MembershipService._transfer_membership u o role)
    (fun m d' => exists t n id n1 n2,
       match t with
       | None => no_active_membership d u
       | Some t => belongs d (Membership.organisation_id t) t /\ Membership.user_id t = u /\
                   Membership.role t <> MembershipRole.OWNER
       end /\
       may_join (after_leaving d t n) u o role /\ memberships d !! id = None /\
       m = new_membership id u o role n1 n2 /\ valid_row (after_leaving d t n) m = true /\
       d' = put_row m (after_leaving d t n))
    app_error_or_integrity d.
Proof.
  intros Hwf.
  assert (Hjoin : forall t n, wf (after_leaving d t n) ->
    (forall id, memberships (after_leaving d t n) !! id = None -> memberships d !! id = None) ->
    wp (except_integrity
          (membership ← MembershipRepository.create_membership u o role;
           MembershipService._ensure_exactly_one_active_owner o ;; mret membership)
          (raise (if decide (role = MembershipRole.OWNER)
                  then ConflictError "Organisation already has an active owner"
                  else IntegrityError)))
       (fun m d' => exists id n1 n2, may_join (after_leaving d t n) u o role /\
          memberships d !! id = None /\ m = new_membership id u o role n1 n2 /\
          valid_row (after_leaving d t n) m = true /\ d' = put_row m (after_leaving d t n))
       app_error_or_integrity (after_leaving d t n)).
  { intros t n Hwf' Hfresh. apply wp_join; [done|..].
    - intros id n1 n2 Hid Hmay m Hv. exists id, n1, n2. auto.
    - intros _. destruct (decide _); [left; by repeat eexists|by right].
    - intros _ _. left. by repeat eexists. }
  apply wp_bind, wp_get_membership_for_user; [done|..].
  - intros t (Ht & Ho & Ha) Hu. apply wp_bind, wp_bind, wp_raise_if; intros _;
      [left; by repeat eexists|].
    apply wp_bind, wp_deactivate_membership; [done..|]. intros n.
    pose proof (wf_put_row d _ Hwf (valid_inactive d t n Hwf Ht)) as Hwf'.
    apply wp_ensure_exactly_one_active_owner; [done|..]; [|intros _; left; by repeat eexists].
    intros k m Hm Hmo.
    assert (Hr : Membership.role t <> MembershipRole.OWNER).
    { intros Hr. by rewrite (owner_leaving d t n k m) in Hmo. }
    eapply wp_mono; [apply (Hjoin (Some t) n Hwf')| |done].
    + simpl. intros id [Hid _]%lookup_insert_None. done.
    + intros m' d' (id & n1 & n2 & Hpost). exists (Some t), n, id, n1, n2. done.
  - intros Hno. apply wp_bind, wp_ret. eapply wp_mono; [by apply (Hjoin None 0)| |done].
    intros m d' (id & n1 & n2 & Hpost). exists None, 0, id, n1, n2. done.
Qed.

(** *** Replacing the owner *)

Lemma by_id_spec d o mid :
  wf d ->
  MembershipService.by_id (rows_where d (MembershipRepository.of_organisation o)) mid =
    match memberships d !! mid with
    | Some m => if MembershipRepository.of_organisation o m then Some m else None
    | None => None
    end.
Proof.
  intros Hwf. unfold MembershipService.by_id.
  set (l := List.filter _ _).
  assert (Hl : forall m, m ∈ l <-> memberships d !! mid = Some m /\
                MembershipRepository.of_organisation o m = true).
  { intros m. unfold l. rewrite list_elem_of_In, filter_In, <- list_elem_of_In.
    pose proof (elem_of_rows_where_wf d (MembershipRepository.of_organisation o) m Hwf) as Hm.
    simpl in Hm. rewrite Hm, bool_decide_eq_true. split; [naive_solver|].
    intros [Hmid Ho]. pose proof (wf_pk (R := Membership.t) d mid m Hwf Hmid) as Hid.
    simpl in Hid. naive_solver. }
  destruct (last l) as [m|] eqn:Hlast.
  - apply last_Some_elem_of, Hl in Hlast as [-> ->]. done.
  - apply last_None in Hlast. rewrite Hlast in Hl.
    destruct (memberships d !! mid) as [m|]; [|done].
    destruct (MembershipRepository.of_organisation o m) eqn:Ho; [|done].
    by destruct (proj1 (elem_of_nil m) (proj2 (Hl m) (conj eq_refl Ho))).
Qed.

Definition may_replace d (o : UUID) (s r : Membership.t) : Prop :=
  belongs d o s /\ Membership.role s = MembershipRole.OWNER /\
  belongs d o r /\ Membership.role r <> MembershipRole.OWNER.

Definition after_replacement d (s r : Membership.t) (n n' : datetime) : Db :=
  put_row (with_role MembershipRole.OWNER n' r) (put_row (with_role MembershipRole.ADMIN n s) d).

Lemma set_role_other t role : Membership.role t <> role -> Membership.set_role role t <> t.
Proof. intros Hr Hs. by apply Hr, set_role_same. Qed.

Lemma belongs_by_id d o m mid :
  MembershipService.by_id (rows_where d (MembershipRepository.of_organisation o)) mid = Some m ->
  wf d -> belongs d o m /\ Membership.id m = mid.
Proof.
  intros Hm Hwf. rewrite by_id_spec in Hm by done.
  destruct (memberships d !! mid) as [r|] eqn:Hr; [|done].
  destruct (MembershipRepository.of_organisation o r) eqn:Ho; [|done]. simplify_eq.
  apply of_organisation_true in Ho as [Ho Ha].
  pose proof (wf_pk (R := Membership.t) d mid m Hwf Hr) as Hid. simpl in Hid. by subst mid.
Qed.

Lemma by_id_none d o mid m :
  MembershipService.by_id (rows_where d (MembershipRepository.of_organisation o)) mid = None ->
  wf d -> Membership.id m = mid -> ~ belongs d o m.
Proof.
  intros Hn Hwf <- (Hm & Ho & Ha). rewrite by_id_spec, Hm in Hn by done.
  by rewrite (proj2 (of_organisation_true o m)) in Hn.
Qed.

(** Once the source is demoted, the replacement may become the owner. *)
Lemma valid_replacement d o s r n n' :
  wf d -> may_replace d o s r ->
  valid_row d (with_role MembershipRole.ADMIN n s) = true /\
  wf (put_row (with_role MembershipRole.ADMIN n s) d) /\
  valid_row (put_row (with_role MembershipRole.ADMIN n s) d)
    (with_role MembershipRole.OWNER n' r) = true.
Proof.
  intros Hwf ((Hs & Hso & Hsa) & Hsr & (Hr & Hro & Hra) & Hrr).
  assert (Hv : valid_row d (with_role MembershipRole.ADMIN n s) = true)
    by (apply valid_with_role; done).
  assert (Hwf' := wf_put_row d _ Hwf Hv). split; [done|]. split; [done|].
  apply (valid_membership_change _ r); try done.
  - simpl. rewrite lookup_insert_ne; [done|]. intros Heq. simpl in Heq.
    assert (s = r) by congruence. congruence.
  - intros _. right. intros k m. simpl. rewrite lookup_insert_Some. intros [[_ <-]|[Hk Hm]].
    + apply andb_false_intro2. done.
    + destruct (MembershipRepository.active_owner_of _ m) eqn:Hmo; [|done]. destruct Hk.
      pose proof (wf_pk (R := Membership.t) d k m Hwf Hm) as Hid. simpl in Hid. subst k.
      pose proof (active_owner_single d o Hwf s m Hs Hm) as Hu. apply Hu; [|congruence].
      apply active_owner_of_true. by rewrite is_active_owner_true.
Qed.

Lemma wp_replace_owner_membership o sid rid d :
  wf d -> sid <> rid ->
  wp (MembershipService._replace_owner_membership o sid rid)
    (fun m d' => exists s r n n', Membership.id s = sid /\ Membership.id r = rid /\
       may_replace d o s r /\ m = with_role MembershipRole.OWNER n' r /\
       d' = after_replacement d s r n n')
    (fun e => app_error e /\ forall s r, Membership.id s = sid -> Membership.id r = rid ->
       ~ may_replace d o s r) d.
Proof.
  intros Hwf Hne. apply wp_bind, wp_select.
  destruct (MembershipService.by_id _ sid) as [s|] eqn:Es.
  2:{ apply wp_raise. split; [by repeat eexists|]. intros s r Hs _ (Hb & _).
      by eapply (by_id_none d o sid s). }
  destruct (MembershipService.by_id _ rid) as [r|] eqn:Er.
  2:{ apply wp_raise. split; [by repeat eexists|]. intros s' r _ Hr (_ & _ & Hb & _).
      by eapply (by_id_none d o rid r). }
  apply belongs_by_id in Es as [Hbs Hsid], Er as [Hbr Hrid]; [|done..].
  assert (Hs : forall s', Membership.id s' = sid -> belongs d o s' -> s' = s)
    by (intros s' Hid [Hs' _]; destruct Hbs as [Hs _]; congruence).
  assert (Hr : forall r', Membership.id r' = rid -> belongs d o r' -> r' = r)
    by (intros r' Hid [Hr' _]; destruct Hbr as [Hr _]; congruence).
  apply wp_bind, wp_raise_if; intros H1.
  { split; [by repeat eexists|]. apply negb_true_iff, bool_decide_eq_false_1 in H1.
    intros s' r' Hs' _ (Hb & Ho & _). by rewrite (Hs s') in Ho. }
  apply wp_bind, wp_raise_if; intros H2.
  { split; [by repeat eexists|]. apply bool_decide_eq_true_1 in H2.
    intros s' r' _ Hr' (_ & _ & Hb & Ho). by rewrite (Hr r') in Ho. }
  apply negb_false_iff, bool_decide_eq_true_1 in H1. apply bool_decide_eq_false_1 in H2.
  assert (Hmay : may_replace d o s r) by done.
  apply wp_bind, wp_update_membership; [apply Hbs|apply set_role_other; congruence|..].
  { intros n. by apply (valid_replacement d o s r n 0). }
  intros n. pose proof (valid_replacement d o s r n 0 Hwf Hmay) as (_ & Hwf' & _).
  assert (Hr' : memberships (put_row (with_role MembershipRole.ADMIN n s) d)
                !! Membership.id r = Some r).
  { simpl. rewrite lookup_insert_ne; [apply Hbr|]. simpl. congruence. }
  apply wp_bind, wp_update_membership; [exact Hr'|by apply set_role_other|..].
  { intros n'. by apply (valid_replacement d o s r n n'). }
  intros n'. pose proof (valid_replacement d o s r n n' Hwf Hmay) as (_ & _ & Hv).
  apply wp_bind, wp_ensure_exactly_one_active_owner; [by apply wf_put_row|..].
  - intros k m _ _. apply wp_ret. exists s, r, n, n'. done.
  - intros Hno. specialize (Hno _ _ (lookup_insert_eq _ _ _)). exfalso.
    apply not_true_iff_false in Hno. apply Hno, active_owner_of_true.
    destruct Hbr as (_ & ? & ?). by rewrite is_active_owner_true.
Qed.

(** *** Deactivating a membership on its own *)

Lemma wp_ensure_owner_invariant_before_deactivation t (Q : unit -> Db -> Prop) E d :
  wf d ->
  (Membership.role t <> MembershipRole.OWNER -> Q tt d) ->
  (Membership.role t = MembershipRole.OWNER ->
     E (ConflictError "Organisation must always have at least one owner")) ->
  wp (MembershipService.ensure_owner_invariant_before_deactivation t) Q E d.
Proof.
  intros Hwf HQ HE. unfold MembershipService.ensure_owner_invariant_before_deactivation.
  destruct (decide (Membership.role t = MembershipRole.OWNER)) as [Hr|Hr].
  - rewrite bool_decide_true by done. apply wp_bind, wp_bind, wp_select, wp_ret.
    destruct (single_valued_rows_where d _ Hwf (active_owner_single d (Membership.organisation_id t) Hwf))
      as [El|[x El]]; rewrite El; by apply wp_raise, HE.
  - rewrite bool_decide_false by done. by apply wp_ret, HQ.
Qed.

End Joining.

(** ** Properties *)
Section Properties.
Context `{Env} `{Network}.

(** Changing a role refines its specification. It succeeds only for an active
    user who is the owner of a live, active organisation, on another role than
    owner of a member who is not the owner; it then commits the new role and
    one audit event and nothing else. It fails only when that is not so, when
    the rate limiter refuses or when the audit row cannot be inserted, and then
    commits nothing. *)
Theorem change_membership_role_spec o a ctx mid role lim d :
  wf d ->
  commits (MembershipService.change_membership_role o a ctx mid role lim)
    (fun m d' => exists t n id n', Membership.id t = mid /\
       AuditContext.actor_user_id ctx = Some a /\ may_change_role d o a t role /\
       m = with_role role n t /\ audit_events d !! id = None /\
       d' = put_row (event_row ctx AuditCategory.TENANT AuditAction.MEMBERSHIP_ROLE_CHANGED
              AuditTargetType.MEMBERSHIP (Some mid) None
              (Some (role_changed_metadata o (Membership.role t) role)) None id n')
              (put_row m d))
    (fun e => AuditContext.actor_user_id ctx <> Some a \/
       (forall t, Membership.id t = mid -> ~ may_change_role d o a t role) \/
       limited lim e \/ (e = IntegrityError /\ audit_blocked ctx d)) d.
Proof.
  intros Hwf. apply commits_tenant; [by auto|]. intros Hctx.
  eapply wp_mono; [by apply wp_change_membership_role|naive_solver|by auto].
Qed.

(** Removing a member refines its specification: the owner may remove anybody
    but the owner, an admin only plain members, a member nobody. Success
    deactivates the row and records one audit event; failure commits nothing
    and has one of the stated reasons. *)
Theorem remove_membership_spec o a ctx mid reason lim d :
  wf d ->
  commits (MembershipService.remove_membership o a ctx mid reason lim)
    (fun m d' => exists t n id n', Membership.id t = mid /\
       AuditContext.actor_user_id ctx = Some a /\ may_remove d o a t /\
       m = inactive n t /\ audit_events d !! id = None /\
       d' = put_row (event_row ctx AuditCategory.TENANT AuditAction.MEMBERSHIP_REMOVED
              AuditTargetType.MEMBERSHIP (Some mid) reason (Some (removed_metadata o t)) None id n')
              (put_row m d))
    (fun e => AuditContext.actor_user_id ctx <> Some a \/
       (forall t, Membership.id t = mid -> ~ may_remove d o a t) \/
       limited lim e \/ (e = IntegrityError /\ audit_blocked ctx d)) d.
Proof.
  intros Hwf. apply commits_tenant; [by auto|]. intros Hctx.
  eapply wp_mono; [by apply wp_remove_membership|naive_solver|by auto].
Qed.

(** A membership is created exactly for a known user without an active one, in
    a known organisation, as owner when it has none and as another role when it
    has one; the organisation then has exactly one active owner. Every failure
    is a conflict, whatever constraint the database reported. *)
Theorem create_membership_spec u o role d :
  wf d ->
  commits (MembershipService.create_membership u o role)
    (fun m d' => exists id n n', memberships d !! id = None /\ may_join d u o role /\
       m = new_membership id u o role n n' /\ d' = put_row m d /\
       length (rows_where d' (MembershipRepository.active_owner_of o)) = 1%nat)
    (fun e => (exists msg, e = ConflictError msg) /\ (~ may_join d u o role \/ id_taken d)) d.
Proof.
  intros Hwf. apply commits_join_or_begin.
  eapply wp_mono; [by apply wp_create_membership| |done].
  intros m d' (id & n & n' & Hid & Hmay & -> & Hv & ->). exists id, n, n'.
  split; [done|]. split; [done|]. split; [done|]. split; [done|].
  apply count_owners; [by apply wf_put_row|].
  destruct (decide (role = MembershipRole.OWNER)) as [->|Hr].
  - eexists id, _. split; [apply lookup_insert_eq|]. by apply active_owner_of_true.
  - destruct (has_owner_dec d o Hwf) as [(k & m & Hm & Hmo)|Hno].
    + exists k, m. split; [|done]. simpl. rewrite lookup_insert_ne; congruence.
    + destruct Hr. apply Hmay. intros (k & m & Hm & Hmo). by rewrite (Hno k m Hm) in Hmo.
Qed.

(** Moving a user to an organisation never takes an owner away: when it
    succeeds, the membership given up, if any, was not an owner's, it is the
    only other row changed, and the user joins as he could after leaving. *)
Theorem transfer_membership_spec u o role d :
  wf d ->
  commits (MembershipService.transfer_membership u o role)
    (fun m d' => exists t n id n1 n2,
       match t with
       | None => no_active_membership d u
       | Some t => belongs d (Membership.organisation_id t) t /\ Membership.user_id t = u /\
                   Membership.role t <> MembershipRole.OWNER
       end /\
       may_join (after_leaving d t n) u o role /\ memberships d !! id = None /\
       m = new_membership id u o role n1 n2 /\ d' = put_row m (after_leaving d t n))
    app_error_or_integrity d.
Proof.
  intros Hwf. apply commits_join_or_begin.
  eapply wp_mono; [by apply wp_transfer_membership| |done].
  intros m d' (t & n & id & n1 & n2 & ? & ? & ? & ? & _ & ?). by exists t, n, id, n1, n2.
Qed.

(** Replacing the owner succeeds exactly when the source is the active owner and
    the replacement another active member of the organisation; it then commits
    the two role changes, source to admin and replacement to owner, and nothing
    else. Otherwise it raises an application error and commits nothing. *)
Theorem replace_owner_membership_spec o sid rid d :
  wf d ->
  commits (MembershipService.replace_owner_membership o sid rid)
    (fun m d' => exists s r n n', Membership.id s = sid /\ Membership.id r = rid /\
       may_replace d o s r /\ m = with_role MembershipRole.OWNER n' r /\
       d' = after_replacement d s r n n')
    (fun e => app_error e /\ forall s r, Membership.id s = sid -> Membership.id r = rid ->
       ~ may_replace d o s r) d.
Proof.
  intros Hwf. apply commits_guard; intros Hb.
  - apply bool_decide_eq_true_1 in Hb as ->. split; [by repeat eexists|].
    intros s r Hs Hr ((Hs' & _) & Ho & (Hr' & _) & Hr''). congruence.
  - apply bool_decide_eq_false_1 in Hb. apply commits_join_or_begin.
    by apply wp_replace_owner_membership.
Qed.

(** Deactivating an active membership on its own is refused with a conflict
    exactly when it is an owner's; any other becomes inactive and nothing else
    changes. *)
Theorem deactivate_membership_spec t d :
  wf d -> memberships d !! Membership.id t = Some t -> Membership.is_active t = true ->
  commits (MembershipService.deactivate_membership t)
    (fun m d' => Membership.role t <> MembershipRole.OWNER /\
       exists n, m = inactive n t /\ d' = put_row m d)
    (fun e => Membership.role t = MembershipRole.OWNER /\
       e = ConflictError "Organisation must always have at least one owner") d.
Proof.
  intros Hwf Ht Ha. apply commits_join_or_begin, wp_bind.
  apply wp_ensure_owner_invariant_before_deactivation; [done| |by auto].
  intros Hr. apply wp_deactivate_membership; [done..|]. intros n. split; [done|]. by exists n.
Qed.

End Properties.

(** ** Witnesses *)
Module Witness.
Import Fixtures.

Definition returns {A} (m : M Db A) : bool :=
  match (m (mkWorld db NoTx 0)).1 with Ok _ => true | Err _ => false end.

Lemma change_membership_role_spec_witness :
  let run := MembershipService.change_membership_role 10 1 (context 1) 23 MembershipRole.ADMIN None in
  returns run = true /\
  commits run (fun m _ => Membership.role m = MembershipRole.ADMIN) any_exn db.
Proof.
  cbv zeta. split; [vm_compute; reflexivity|].
  eapply commits_mono; [apply (change_membership_role_spec 10 1 (context 1) 23 MembershipRole.ADMIN None db db_wf)| |done].
  intros m d' (t & n & id & n' & _ & _ & _ & -> & _). done.
Defined.

Lemma remove_membership_spec_witness :
  let run := MembershipService.remove_membership 10 2 (context 2) 23 None None in
  returns run = true /\
  commits run (fun m _ => Membership.is_active m = false) any_exn db.
Proof.
  cbv zeta. split; [vm_compute; reflexivity|].
  eapply commits_mono; [apply (remove_membership_spec 10 2 (context 2) 23 None None db db_wf)| |done].
  intros m d' (t & n & id & n' & _ & _ & _ & -> & _). done.
Defined.

Lemma create_membership_spec_witness :
  let run := MembershipService.create_membership 4 10 MembershipRole.MEMBER in
  returns run = true /\
  commits run (fun _ d' => length (rows_where d' (MembershipRepository.active_owner_of 10)) = 1%nat)
    any_exn db.
Proof.
  cbv zeta. split; [vm_compute; reflexivity|].
  eapply commits_mono; [apply (create_membership_spec 4 10 MembershipRole.MEMBER db db_wf)| |done].
  intros m d' (id & n & n' & _ & _ & _ & _ & Hl). done.
Defined.

Lemma transfer_membership_spec_witness :
  let run := MembershipService.transfer_membership 3 10 MembershipRole.ADMIN in
  returns run = true /\
  commits run (fun m _ => Membership.role m = MembershipRole.ADMIN) any_exn db.
Proof.
  cbv zeta. split; [vm_compute; reflexivity|].
  eapply commits_mono; [apply (transfer_membership_spec 3 10 MembershipRole.ADMIN db db_wf)| |done].
  intros m d' (t & n & id & n1 & n2 & _ & _ & _ & -> & _). done.
Defined.

Lemma replace_owner_membership_spec_witness :
  let run := MembershipService.replace_owner_membership 10 21 23 in
  returns run = true /\
  commits run (fun m _ => Membership.role m = MembershipRole.OWNER) any_exn db.
Proof.
  cbv zeta. split; [vm_compute; reflexivity|].
  eapply commits_mono; [apply (replace_owner_membership_spec 10 21 23 db db_wf)| |done].
  intros m d' (s & r & n & n' & _ & _ & _ & -> & _). done.
Defined.

Lemma deactivate_membership_spec_witness :
  let owner := member 21 1 10 MembershipRole.OWNER in
  commits (MembershipService.deactivate_membership owner) (fun _ _ => False) app_error db.
Proof.
  intros owner.
  eapply commits_mono; [apply (deactivate_membership_spec owner db db_wf); vm_compute; reflexivity|..].
  - intros m d' [Hr _]. by apply Hr.
  - intros e [_ ->]. by repeat eexists.
Defined.

End Witness.
