(* ===== verification/OrganisationProofs.v ===== *)
(** Organisations: names and slugs, creation, deletion and the onboarding of a
    first owner. *)
From S2P Require Import Prelude Errors Session Schema Tables AuditLog Users Memberships.
From S2P Require Import Organisations MembershipServices Fixtures AuditProofs UserProofs.
From S2P Require Import MembershipProofs.

(** ** Normalisation *)
Section Normalisation.

Lemma is_empty_true s : Text.is_empty s = true <-> s = ""%string.
Proof. by destruct s. Qed.

(** A slug the normalisation can return. *)
Definition valid_slug (s : string) : Prop :=
  OrganisationService._SLUG_PATTERN s = true /\ Text.lower (Text.strip s) = s.

Lemma wp_normalize_slug raw (Q : string -> Db -> Prop) (E : exn -> Prop) d :
  (valid_slug (Text.lower (Text.strip raw)) -> Q (Text.lower (Text.strip raw)) d) ->
  (OrganisationService._SLUG_PATTERN (Text.lower (Text.strip raw)) = false ->
     forall msg, E (BadRequestError msg)) ->
  wp (OrganisationService.normalize_slug raw) Q E d.
Proof.
  intros HQ HE. unfold OrganisationService.normalize_slug.
  set (s := Text.lower (Text.strip raw)) in *.
  assert (Hs : Text.lower (Text.strip s) = s).
  { unfold s. by rewrite Text.strip_lower, Text.strip_idem, Text.lower_idem. }
  apply wp_bind, wp_raise_if; intros Hb.
  - apply HE. apply is_empty_true in Hb. by rewrite Hb.
  - apply wp_bind, wp_raise_if; intros Hp.
    + apply HE. by apply negb_true_iff.
    + apply wp_ret, HQ. split; [by apply negb_false_iff|done].
Qed.

Lemma wp_normalize_name raw (Q : string -> Db -> Prop) (E : exn -> Prop) d :
  (Text.strip raw <> ""%string -> Q (Text.strip raw) d) ->
  (Text.strip raw = ""%string -> E (BadRequestError "Organisation name cannot be blank")) ->
  wp (OrganisationService.normalize_name raw) Q E d.
Proof.
  intros HQ HE. apply wp_bind, wp_raise_if; intros Hb.
  - by apply HE, is_empty_true.
  - apply wp_ret, HQ. intros He. by rewrite He in Hb.
Qed.

End Normalisation.

Section Organisations.
Context `{Env} `{Network}.
Implicit Types (d : Db) (E : exn -> Prop).

(** A live organisation holds the slug. *)
Definition slug_taken d (slug : string) : Prop :=
  exists k o, organisations d !! k = Some o /\ Organisation.slug o = slug /\
    Organisation.deleted_at o = None.

Definition organisation_id_taken d : Prop := exists i, is_Some (organisations d !! uuid4 i).

Definition new_organisation (id : UUID) (name slug : string) (n n' : datetime) : Organisation.t :=
  Organisation.mk id name slug None OrganisationStatus.ACTIVE None None n n'.

Lemma live_slug_true slug o :
  String.eqb (Organisation.slug o) slug && is_None (Organisation.deleted_at o) = true <->
  Organisation.slug o = slug /\ Organisation.deleted_at o = None.
Proof.
  rewrite andb_true_iff, String.eqb_eq. destruct (Organisation.deleted_at o); simpl; naive_solver.
Qed.

Lemma wp_get_by_slug slug (Q : option Organisation.t -> Db -> Prop) E d :
  wf d ->
  (slug_taken d slug -> forall o, Q (Some o) d) ->
  (~ slug_taken d slug -> Q None d) ->
  wp (OrganisationRepository.get_by_slug slug) Q E d.
Proof.
  intros Hwf HS HN. apply wp_select_one_or_none; [done|..].
  - intros o o' Ho Ho' [Hs Hd]%live_slug_true [Hs' Hd']%live_slug_true.
    pose proof (wf_unique (R := Organisation.t) d _ _ o o' Hwf Ho Ho') as Hun. simpl in Hun |- *.
    apply Hun. rewrite Hd, Hd', andb_true_r, andb_true_r. apply String.eqb_eq. congruence.
  - intros o Ho [Hs Hd]%live_slug_true. apply HS. by exists (Organisation.id o), o.
  - intros Hno. apply HN. intros (k & o & Ho & Hs & Hd). specialize (Hno k o Ho).
    by rewrite (proj2 (live_slug_true slug o)) in Hno.
Qed.

Lemma wp_create_organisation name slug d :
  wf d ->
  wp (OrganisationService._create_organisation name slug)
    (fun o d' => wf d' /\ exists id n n', organisations d !! id = None /\
       o = new_organisation id (Text.strip name) (Text.lower (Text.strip slug)) n n' /\
       valid_slug (Organisation.slug o) /\ Organisation.name o <> ""%string /\
       ~ slug_taken d (Organisation.slug o) /\ d' = put_row o d)
    (fun e => (exists msg, e = BadRequestError msg) /\
                (Text.strip name = ""%string \/
                 OrganisationService._SLUG_PATTERN (Text.lower (Text.strip slug)) = false) \/
              e = ConflictError "Organisation slug already exists" /\
                (slug_taken d (Text.lower (Text.strip slug)) \/ organisation_id_taken d)) d.
Proof.
  intros Hwf. apply wp_bind, wp_normalize_name; [|left; split; [by eexists|by left]].
  intros Hname. apply wp_bind, wp_normalize_slug; [|left; split; [by eexists|by right]].
  intros Hslug. apply wp_bind, wp_get_by_slug; [done|..].
  - intros Ht o. apply wp_bind, wp_raise_if; [|done]. auto.
  - intros Ht. apply wp_bind, wp_raise_if; [done|]. intros _.
    apply wp_except_raise, wp_bind, wp_draw. intros i. do 2 (apply wp_bind, wp_draw; intros ?).
    apply wp_insert_row.
    + intros [Hi|Hv]; simpl; right; (split; [done|]); [right; by exists i|left].
      exfalso. apply not_true_iff_false in Hv. apply Hv.
      apply valid_row_spec. split; [done|]. intros k o Ho _. apply andb_false_iff.
      destruct (Organisation.deleted_at o) eqn:Hd; [by right|left]. rewrite andb_true_r.
      apply String.eqb_neq. simpl. intros He. apply Ht. by exists k, o.
    + intros Hid Hv. split; [by apply wf_put_row|]. eexists _, _, _. split; [exact Hid|].
      split; [done|]. by auto.
Qed.

(** *** Deletion *)

Definition deactivated d (o : UUID) (n : datetime) : gmap UUID Membership.t :=
  (fun m => if MembershipRepository.of_organisation o m then inactive n m else m) <$> memberships d.

(** Ending every membership of an organisation always succeeds. *)
Lemma wp_deactivate_organisation_memberships o (Q : unit -> Db -> Prop) E d :
  wf d ->
  (forall n, wf (set_memberships (deactivated d o n) d) ->
     Q tt (set_memberships (deactivated d o n) d)) ->
  wp (MembershipRepository.deactivate_organisation_memberships o) Q E d.
Proof.
  intros Hwf HQ.
  assert (Hv : forall n, let g := inactive n in
    forallb (valid_row (map_rows (MembershipRepository.of_organisation o) g d))
      (g <$> rows_where d (MembershipRepository.of_organisation o)) = true).
  { intros n g. apply forallb_forall. intros m Hm.
    apply list_elem_of_In, list_elem_of_fmap in Hm as (m0 & -> & Hm0).
    apply elem_of_rows_where in Hm0 as [_ [k Hk]].
    pose proof (wf_checks d k m0 Hwf Hk) as Hc.
    apply valid_row_spec. split; [exact Hc|]. intros k' r _ _. simpl.
    unfold is_active_owner. simpl. by rewrite !andb_false_r. }
  apply wp_bind, wp_update_where; intros n g; change g with (inactive n); rewrite (Hv n); [done|].
  intros _. apply wp_ret, HQ.
  change (wf (map_rows (MembershipRepository.of_organisation o) (inactive n) d)).
  apply wf_map_rows; [done|done|apply Hv].
Qed.

Lemma lookup_deactivated d o n k m :
  deactivated d o n !! k = Some m ->
  exists m0, memberships d !! k = Some m0 /\ Membership.organisation_id m = Membership.organisation_id m0 /\
    ((Membership.organisation_id m0 = o /\ Membership.is_active m = false) \/
     (Membership.organisation_id m0 <> o /\ m = m0) \/
     (Membership.is_active m0 = false /\ m = m0)).
Proof.
  unfold deactivated. rewrite lookup_fmap. intros (m0 & Hm0 & ->)%fmap_Some. exists m0.
  destruct (MembershipRepository.of_organisation o m0) eqn:Ho.
  - apply of_organisation_true in Ho as [Ho _]. auto.
  - split; [done|]. split; [done|]. right.
    unfold MembershipRepository.of_organisation in Ho. apply andb_false_iff in Ho as [Ho|Ho]; [left|by right].
    by apply bool_decide_eq_false_1 in Ho.
Qed.

(** The organisation has no active member left; the others are as before. *)
Lemma owned_deactivated d o n : owned d -> owned (set_memberships (deactivated d o n) d).
Proof.
  intros Hown k m (m0 & Hm0 & Ho & Hc)%lookup_deactivated Ha.
  destruct Hc as [[_ Hc]|[[Hne ->]|[Hc ->]]]; [congruence| |congruence].
  destruct (Hown k m0 Hm0 Ha) as (k' & m' & Hm' & Hw & Ho'). exists k', m'.
  split; [|done]. simpl. unfold deactivated. rewrite lookup_fmap, Hm'. simpl.
  unfold MembershipRepository.of_organisation. by rewrite bool_decide_false by congruence.
Qed.

Definition may_delete d (o a : UUID) : Prop :=
  exists m, admitted d o a m /\ Membership.role m = MembershipRole.OWNER.

Definition deleted (n n' : datetime) (x : Organisation.t) : Organisation.t :=
  Organisation.set_updated_at n' (Organisation.set_deleted_at (Some n) x).

Definition deleted_metadata (x : Organisation.t) : json :=
  JObj [("slug", JStr (Organisation.slug x)); ("soft_delete", JBool true)]%string.

Lemma valid_deleted d x n n' :
  wf d -> organisations d !! Organisation.id x = Some x -> valid_row d (deleted n n' x) = true.
Proof.
  intros Hwf Hx. apply valid_row_spec. split; [done|]. intros k r _ _. simpl.
  by rewrite andb_false_r.
Qed.

Definition after_deletion d (o : UUID) (x : Organisation.t) (n1 n2 n3 : datetime) : Db :=
  put_row (deleted n2 n3 x) (set_memberships (deactivated d o n1) d).

Lemma wp_soft_delete o a ctx reason lim d :
  wf d ->
  wp (OrganisationService._soft_delete o a ctx reason lim)
    (fun x' d' => exists x n1 n2 n3 id n, organisations d !! o = Some x /\
       may_delete d o a /\ x' = deleted n2 n3 x /\ audit_events d !! id = None /\
       wf (after_deletion d o x n1 n2 n3) /\
       d' = put_row (event_row ctx AuditCategory.TENANT AuditAction.ORGANISATION_DELETED
              AuditTargetType.ORGANISATION (Some o) reason (Some (deleted_metadata x)) None id n)
              (after_deletion d o x n1 n2 n3))
    (fun e => (app_error e /\ ~ may_delete d o a) \/ limited lim e \/
       (e = IntegrityError /\ audit_blocked ctx d) \/
       ((exists msg, e = ValueError msg) /\
        exists x, organisations d !! o = Some x /\ acceptable (deleted_metadata x) = false)) d.
Proof.
  intros Hwf. apply wp_bind, wp_get_organisation; [done| |].
  2:{ intros Hn. left. split; [by repeat eexists|].
      intros (m & (_ & (x & Hx & Hdel & _) & _) & _). by apply (Hn x). }
  intros x Hx Hid Hdel. apply wp_bind, wp_get_user_by_id; [done| |].
  2:{ intros Hn. left. split; [by repeat eexists|]. intros (m & ((u & Hu & _) & _) & _). congruence. }
  intros u Hu _. apply wp_bind, wp_raise_if; intros H1.
  { left. split; [by repeat eexists|]. apply bool_decide_eq_true_1 in H1.
    intros (m & ((u' & Hu' & Hs) & _) & _). congruence. }
  apply wp_bind, wp_raise_if; intros H2.
  { left. split; [by repeat eexists|]. apply bool_decide_eq_true_1 in H2.
    intros (m & (_ & (x' & Hx' & _ & Hs) & _) & _). congruence. }
  apply bool_decide_eq_false_1 in H1, H2.
  apply wp_bind, wp_get_membership; [done| |].
  2:{ intros Hn. apply wp_bind, wp_raise_if; [|done]. intros _. left. split; [by repeat eexists|].
      intros (m & (_ & _ & Hm) & _). by apply (Hn m). }
  intros m Hm.
  assert (Hadm : admitted d o a m) by (split; [by exists u|split; [by exists x|done]]).
  apply wp_bind, wp_raise_if; intros H3.
  { left. split; [by repeat eexists|]. apply negb_true_iff, bool_decide_eq_false_1 in H3.
    intros (m' & (_ & _ & Hm') & Hr). apply H3.
    by rewrite (membership_of_unique d a o m m'). }
  apply negb_false_iff, bool_decide_eq_true_1 in H3.
  assert (Hmay : may_delete d o a) by (by exists m).
  apply wp_bind, wp_bind, wp_select, wp_ret.
  assert (Hc : length (rows_where d (MembershipRepository.active_owner_of o)) = 1%nat).
  { apply count_owners; [done|]. destruct Hm as ((Hm & Ho & Ha) & _).
    exists (Membership.id m), m. split; [done|]. apply active_owner_of_true.
    by rewrite is_active_owner_true. }
  rewrite Hc. apply wp_bind, wp_raise_if; [done|]. intros _.
  apply wp_bind, wp_run_business_rate_limiter; [|by auto].
  apply wp_bind, wp_deactivate_organisation_memberships; [done|]. intros n1 Hwf1.
  assert (Hx1 : organisations (set_memberships (deactivated d o n1) d) !! Organisation.id x = Some x)
    by (simpl; congruence).
  apply wp_bind, wp_bind, wp_draw. intros i.
  apply (wp_update_present (R := Organisation.t) _ _ x); [exact Hx1|..].
  { intros Hf%(f_equal Organisation.deleted_at). simpl in Hf. congruence. }
  { intros n3 Hv. exfalso. apply not_true_iff_false in Hv. apply Hv. by apply valid_deleted. }
  intros n3 Hv. apply wp_bind, wp_record_event_checked.
  - intros Ha msg. right. right. right. split; [by eexists|]. by exists x.
  - intros Hb. right. right. left. split; [done|]. by eapply audit_blocked_frame, Hb.
  - intros id n _ Hfresh e _. apply wp_ret. exists x, n1, (clock i), n3, id, n.
    split; [done|]. split; [done|]. split; [done|]. split; [done|].
    split; [by apply wf_put_row|]. unfold e. by rewrite <- Hid.
Qed.

End Organisations.

(** *** Onboarding *)
Section Onboarding.
Context `{Env}.

Lemma wp_mark_onboarding_completed u (Q : User.t -> Db -> Prop) (E : exn -> Prop) (d : Db) :
  wf d -> users d !! User.id u = Some u ->
  (forall u' d', wf d' -> only_user u' d d' -> User.id u' = User.id u ->
     User.onboarding_completed u' = true -> User.external_auth_id u' = User.external_auth_id u ->
     Q u' d') ->
  wp (UserService.mark_onboarding_completed u) Q E d.
Proof.
  intros Hwf Hu HQ. unfold UserService.mark_onboarding_completed.
  destruct (User.onboarding_completed u) eqn:Ho.
  - apply wp_ret, HQ; [done| |done..]. split; [by destruct d|]. by split.
  - assert (Hv : forall n, valid_row d (User.set_updated_at n (User.set_onboarding_completed true u)) = true)
      by (intros n; by apply (valid_user_change d u)).
    apply (wp_update_present (R := User.t) _ _ u); [exact Hu|..].
    + intros Hf%(f_equal User.onboarding_completed). simpl in Hf. congruence.
    + intros n Hn. specialize (Hv n). simpl in Hn. congruence.
    + intros n _. apply HQ; [by apply wf_put_row|apply only_user_put|done..].
Qed.

(** The organisation has one active member: its owner [u]. *)
Definition founded (d' : Db) (u : User.t) (o : Organisation.t) (m : Membership.t) : Prop :=
  organisations d' !! Organisation.id o = Some o /\ memberships d' !! Membership.id m = Some m /\
  users d' !! User.id u = Some u /\
  Membership.user_id m = User.id u /\ Membership.organisation_id m = Organisation.id o /\
  Membership.role m = MembershipRole.OWNER /\ Membership.is_active m = true /\
  length (rows_where d' (MembershipRepository.active_owner_of (Organisation.id o))) = 1%nat.

Lemma wp_create_organisation_for_current_user identity name slug d :
  wf d ->
  commits (OnboardingService.create_organisation_for_current_user identity name slug)
    (fun r d' => let '(u, o, m) := r in
       AuthenticatedPrincipal.email_verified identity = true /\
       User.external_auth_id u = AuthenticatedPrincipal.external_auth_id identity /\
       User.onboarding_completed u = true /\ no_active_membership d (User.id u) /\
       valid_slug (Organisation.slug o) /\ ~ slug_taken d (Organisation.slug o) /\
       organisations d !! Organisation.id o = None /\ founded d' u o m)
    app_error d.
Proof.
  intros Hwf. apply commits_begin, wp_bind.
  eapply wp_mono; [by apply wp_get_or_create_current_user| |by intros e [-> _]; repeat eexists].
  intros u1 d1 (Hwf1 & Hp & (E1 & Hu1 & _) & _).
  apply wp_bind, wp_raise_if; [by repeat eexists|]. intros _.
  apply wp_bind, wp_raise_if; [by repeat eexists|]. intros Hver%negb_false_iff.
  apply wp_bind, wp_bind, wp_get_membership_for_user; [done| |].
  { intros m _ _. apply wp_raise_if; [by repeat eexists|done]. }
  intros Hno. apply wp_raise_if; [done|]. intros _.
  apply wp_bind, wp_join_or_begin.
  eapply wp_mono; [by apply wp_create_organisation| |].
  2:{ intros e [[[msg ->] _]|[-> _]]; by repeat eexists. }
  intros o d2 (Hwf2 & oid & n1 & n2 & Hoid & -> & Hslug & _ & Hfree & ->).
  set (o := new_organisation oid _ _ n1 n2) in *.
  apply wp_bind, wp_join_or_begin.
  eapply wp_mono; [by apply wp_create_membership| |by intros e [[msg ->] _]; repeat eexists].
  intros m d3 (mid & n3 & n4 & Hmid & Hmay & -> & Hv & ->).
  assert (Hwf3 := wf_put_row _ _ Hwf2 Hv).
  apply wp_bind, wp_mark_onboarding_completed; [done|exact Hu1|].
  intros u d4 Hwf4 (E4 & Hu & _) Hid Honb Hx. apply wp_ret.
  assert (Ed : forall k, memberships d1 !! k = memberships d !! k) by (intros k; by rewrite E1).
  assert (Eo : forall k, organisations d1 !! k = organisations d !! k) by (intros k; by rewrite E1).
  split; [done|]. split; [rewrite Hx; apply Hp|]. split; [done|].
  split; [intros k m Hm Hmu; apply (Hno k); [by rewrite Ed|congruence]|]. split; [done|].
  split; [intros (k & o' & Ho' & Hs); apply Hfree; exists k, o'; by rewrite Eo|].
  split; [by rewrite <- Eo|].
  assert (Hm4 : memberships d4 !! mid
    = Some (new_membership mid (User.id u1) oid MembershipRole.OWNER n3 n4))
    by (rewrite E4; apply lookup_insert_eq).
  split; [rewrite E4; apply lookup_insert_eq|]. split; [exact Hm4|]. split; [done|].
  split; [by rewrite Hid|]. split; [done|]. split; [done|]. split; [done|].
  apply count_owners; [done|]. eexists _, _. split; [exact Hm4|]. by apply active_owner_of_true.
Qed.

End Onboarding.

(** ** Properties *)
Section Properties.
Context `{Env} `{Network}.

(** Slug normalisation is a total function of the text: it returns the
    lower-cased trimmed text, made of [a-z], [0-9] and hyphens only, which it
    maps to itself, or raises a bad-request error when there is no such text. *)
Theorem normalize_slug_spec raw (w : World Db) :
  let s := Text.lower (Text.strip raw) in
  if OrganisationService._SLUG_PATTERN s
  then OrganisationService.normalize_slug raw w = (Ok s, w) /\
       Text.forallb_chars OrganisationService.slug_char s = true /\ s <> ""%string /\
       forall w', OrganisationService.normalize_slug s w' = (Ok s, w')
  else exists msg, OrganisationService.normalize_slug raw w = (Err (BadRequestError msg), w).
Proof.
  intros s. unfold OrganisationService.normalize_slug. fold s.
  assert (Hs : Text.lower (Text.strip s) = s).
  { unfold s. by rewrite Text.strip_lower, Text.strip_idem, Text.lower_idem. }
  rewrite Hs. destruct (OrganisationService._SLUG_PATTERN s) eqn:Hp.
  - pose proof Hp as Hp'. apply andb_prop in Hp' as [He%negb_true_iff Hc]. rewrite He.
    split; [done|]. split; [done|]. split; [|done]. intros Hs'. by rewrite Hs' in He.
  - destruct (Text.is_empty s); by eexists.
Qed.

(** An organisation is created with a trimmed non-blank name and a valid slug
    that no live organisation holds, under a fresh key; nothing else changes.
    Invalid text is a bad request, a slug in use a conflict, and both leave the
    database as it was. *)
Theorem create_organisation_spec name slug d :
  wf d ->
  commits (OrganisationService.create_organisation name slug)
    (fun o d' => exists id n n', organisations d !! id = None /\
       o = new_organisation id (Text.strip name) (Text.lower (Text.strip slug)) n n' /\
       valid_slug (Organisation.slug o) /\ Organisation.name o <> ""%string /\
       ~ slug_taken d (Organisation.slug o) /\ d' = put_row o d)
    (fun e => (exists msg, e = BadRequestError msg) /\
                (Text.strip name = ""%string \/
                 OrganisationService._SLUG_PATTERN (Text.lower (Text.strip slug)) = false) \/
              e = ConflictError "Organisation slug already exists" /\
                (slug_taken d (Text.lower (Text.strip slug)) \/ organisation_id_taken d)) d.
Proof.
  intros Hwf. apply commits_join_or_begin.
  eapply wp_mono; [by apply wp_create_organisation|by intros o d' [_ Hq]|done].
Qed.

(** Deleting an organisation needs its owner. It marks the organisation deleted,
    ends every membership of it, records one audit event and changes nothing
    else; afterwards the organisation has no active member and its slug is free.
    It fails, committing nothing, only for the stated reasons. *)
Theorem soft_delete_spec o a ctx reason lim d :
  wf d ->
  commits (OrganisationService.soft_delete o a ctx reason lim)
    (fun x' d' => exists x n1 n2 n3 id n, organisations d !! o = Some x /\
       AuditContext.actor_user_id ctx = Some a /\ may_delete d o a /\ x' = deleted n2 n3 x /\
       d' = put_row (event_row ctx AuditCategory.TENANT AuditAction.ORGANISATION_DELETED
              AuditTargetType.ORGANISATION (Some o) reason (Some (deleted_metadata x)) None id n)
              (after_deletion d o x n1 n2 n3) /\
       rows_where d' (MembershipRepository.of_organisation o) = [] /\
       ~ slug_taken d' (Organisation.slug x))
    (fun e => AuditContext.actor_user_id ctx <> Some a \/
       (app_error e /\ ~ may_delete d o a) \/ limited lim e \/
       (e = IntegrityError /\ audit_blocked ctx d) \/
       ((exists msg, e = ValueError msg) /\
        exists x, organisations d !! o = Some x /\ acceptable (deleted_metadata x) = false)) d.
Proof.
  intros Hwf. apply commits_tenant; [by auto|]. intros Hctx.
  eapply wp_mono; [by apply wp_soft_delete| |by auto].
  intros x' d' (x & n1 & n2 & n3 & id & n & Hx & Hmay & -> & Hfresh & Hwf' & ->).
  exists x, n1, n2, n3, id, n. split; [done|]. split; [done|]. split; [done|]. split; [done|].
  split; [done|]. split.
  - destruct (rows_where _ _) as [|m l] eqn:El; [done|]. exfalso.
    assert (Hm : m ∈ m :: l) by (by constructor).
    rewrite <- El in Hm. apply elem_of_rows_where in Hm as [[Ho Ha]%of_organisation_true [k Hk]].
    apply (lookup_deactivated d o n1) in Hk as (m0 & _ & Ho' & [[_ Hc]|[[Hne ->]|[Hc ->]]]); congruence.
  - intros (k & x' & Hx' & Hs & Hdel). simpl in Hx'. rewrite lookup_insert_Some in Hx'.
    destruct Hx' as [[_ <-]|[Hk Hx']]; [done|].
    destruct Hmay as (_ & (_ & (x0 & Hx0 & Hdel0 & _) & _) & _).
    assert (x0 = x) as -> by congruence.
    pose proof (wf_unique (R := Organisation.t) d _ _ x x' Hwf Hx Hx') as Hun. simpl in Hun.
    pose proof (wf_pk (R := Organisation.t) d o x Hwf Hx) as Hid. simpl in Hid.
    destruct Hk. rewrite Hid. apply Hun. by rewrite Hs, String.eqb_refl, Hdel, Hdel0.
Qed.

(** Onboarding is all or nothing: it commits the user, marked onboarded, a new
    organisation with a free valid slug and the user as its only active owner,
    for a verified identity without an active membership; or it raises an
    application error and commits nothing. *)
Theorem create_organisation_for_current_user_spec identity name slug d :
  wf d ->
  commits (OnboardingService.create_organisation_for_current_user identity name slug)
    (fun r d' => let '(u, o, m) := r in
       AuthenticatedPrincipal.email_verified identity = true /\
       User.external_auth_id u = AuthenticatedPrincipal.external_auth_id identity /\
       User.onboarding_completed u = true /\ no_active_membership d (User.id u) /\
       valid_slug (Organisation.slug o) /\ ~ slug_taken d (Organisation.slug o) /\
       organisations d !! Organisation.id o = None /\ founded d' u o m)
    app_error d.
Proof. apply wp_create_organisation_for_current_user. Qed.

End Properties.

(** ** Witnesses *)
Module Witness.
Import Fixtures.

Lemma create_organisation_spec_witness :
  commits (OrganisationService.create_organisation " New " " New-Org ")
    (fun o _ => Organisation.slug o = "new-org"%string) any_exn db.
Proof.
  eapply commits_mono; [apply (create_organisation_spec " New " " New-Org " db db_wf)| |done].
  intros o d' (id & n & n' & _ & -> & _). vm_compute. reflexivity.
Defined.

Lemma soft_delete_spec_witness :
  commits (OrganisationService.soft_delete 10 1 (context 1) None None)
    (fun _ d' => rows_where d' (MembershipRepository.of_organisation 10) = []) any_exn db.
Proof.
  eapply commits_mono; [apply (soft_delete_spec 10 1 (context 1) None None db db_wf)| |done].
  intros o d' (x & n1 & n2 & n3 & id & n & _ & _ & _ & _ & _ & Hr & _). exact Hr.
Defined.

Lemma create_organisation_for_current_user_spec_witness :
  commits (OnboardingService.create_organisation_for_current_user (identity "dave") "D" "d")
    (fun r _ => Membership.role r.2 = MembershipRole.OWNER) any_exn db.
Proof.
  eapply commits_mono;
    [apply (create_organisation_for_current_user_spec (identity "dave") "D" "d" db db_wf)| |done].
  intros [[u o] m] d' (_ & _ & _ & _ & _ & _ & _ & Hf). apply Hf.
Defined.

End Witness.
