(* ===== verification/InviteProofs.v ===== *)
(** Invites: who may invite, what an invite commits, that a token is accepted once
    and replaced when it is resent, what happens to expired invites, and the
    anonymisation of completed ones. *)
From S2P Require Import Prelude Errors Session Schema Tables AuditLog Users Memberships.
From S2P Require Import Organisations MembershipServices Outbox Invites Fixtures AuditProofs.
From S2P Require Import UserProofs MembershipProofs OrganisationProofs.

Section Invites.
Context `{Env}.
Implicit Types (d : Db) (E : exn -> Prop).

Lemma is_pending_true i : is_pending i = true <-> Invite.status i = InviteStatus.PENDING.
Proof. apply bool_decide_eq_true. Qed.

(** Token hashes identify invites. *)
Lemma token_hash_unique d i i' :
  wf d -> invites d !! Invite.id i = Some i -> invites d !! Invite.id i' = Some i' ->
  Invite.token_hash i = Invite.token_hash i' -> Invite.id i = Invite.id i'.
Proof.
  intros Hwf Hi Hi' Ht. pose proof (wf_unique (R := Invite.t) d _ _ i i' Hwf Hi Hi') as Hun.
  simpl in Hun. apply Hun. by rewrite Ht, String.eqb_refl.
Qed.

(** A rewritten invite violates no index when it takes no new token hash and claims
    no new pending place, and names a known revoker. *)
Lemma valid_invite_change d i i' :
  wf d -> invites d !! Invite.id i = Some i -> Invite.id i' = Invite.id i ->
  Invite.organisation_id i' = Invite.organisation_id i ->
  has_row_opt (users d) (Invite.revoked_by_user_id i') = true ->
  (Invite.token_hash i' = Invite.token_hash i \/
   forall k r, invites d !! k = Some r -> k <> Invite.id i ->
     Invite.token_hash r <> Invite.token_hash i') ->
  (is_pending i' = true -> is_pending i = true /\ Invite.email i' = Invite.email i) ->
  valid_row d i' = true.
Proof.
  intros Hwf Hi Hid Ho Hr Ht Hp. destruct (wf_table (R := Invite.t) d Hwf) as [Hc Hun].
  destruct (Hc _ i Hi) as [_ Hchk]. simpl in Hchk. split_checks.
  apply valid_row_spec. simpl. rewrite Hid, Ho. split; [by split_checks|].
  intros k r Hr' Hk. specialize (Hun _ _ i r Hi Hr' (not_eq_sym Hk)). simpl in Hun.
  apply orb_false_iff in Hun as [Hh Hpl]. apply orb_false_iff. split.
  - destruct Ht as [->|Ht]; [done|]. apply String.eqb_neq, not_eq_sym. by apply (Ht k).
  - destruct (is_pending i') eqn:Hp'; [|by rewrite andb_false_r].
    destruct Hp as [Hpi ->]; [done|]. by rewrite Hpi in Hpl.
Qed.

Lemma revoker_known d i :
  wf d -> invites d !! Invite.id i = Some i ->
  has_row_opt (users d) (Invite.revoked_by_user_id i) = true.
Proof.
  intros Hwf Hi. pose proof (wf_checks (R := Invite.t) d _ i Hwf Hi) as Hc. simpl in Hc.
  by split_checks.
Qed.

Definition expired_by (i : Invite.t) (t : datetime) : Prop :=
  match Invite.expires_at i with None => False | Some e => e <= t end.

(** *** The conditional updates *)

Definition with_status (s : InviteStatus.t) (n : datetime) (i : Invite.t) : Invite.t :=
  Invite.set_updated_at n (Invite.set_status s i).

Lemma valid_with_status d i s n :
  wf d -> invites d !! Invite.id i = Some i -> s <> InviteStatus.PENDING ->
  valid_row d (with_status s n i) = true.
Proof.
  intros Hwf Hi Hs. apply (valid_invite_change d i); try done; [by apply (revoker_known d i)|by left|].
  intros Hp%is_pending_true. destruct (Hs Hp).
Qed.

(** Ending pending invites that one token hash or identifier singles out. *)
Lemma wp_end_pending P s (Q : option Invite.t -> Db -> Prop) E d :
  wf d -> single_valued d P -> s <> InviteStatus.PENDING ->
  (forall i n, invites d !! Invite.id i = Some i -> P i = true ->
     valid_row d (with_status s n i) = true ->
     Q (Some (with_status s n i)) (put_row (with_status s n i) d)) ->
  ((forall k i, invites d !! k = Some i -> P i = false) -> Q None d) ->
  wp (InviteRepository.update_one P (Invite.set_status s)) Q E d.
Proof.
  intros Hwf Hsv Hs HS HN. apply wp_update_one; [done..| | |done].
  - intros i n Hi HP Hv. exfalso. apply not_true_iff_false in Hv. apply Hv.
    by apply valid_with_status.
  - intros i n Hi HP Hv. by apply HS.
Qed.

Lemma by_token_hash_single d P h :
  wf d -> (forall i, P i = true -> Invite.token_hash i = h) -> single_valued d P.
Proof.
  intros Hwf HP i i' Hi Hi' Hp Hp'. apply (token_hash_unique d i i' Hwf Hi Hi').
  rewrite (HP i Hp). symmetry. auto.
Qed.

Lemma by_id_single d P k : (forall i, P i = true -> Invite.id i = k) -> single_valued d P.
Proof. intros HP i i' _ _ Hp Hp'. simpl. rewrite (HP i Hp). symmetry. auto. Qed.

(** The invite a token hash opens at an instant. *)
Definition opens (h : string) (n : datetime) (i : Invite.t) : Prop :=
  Invite.token_hash i = h /\ Invite.status i = InviteStatus.PENDING /\
  match Invite.expires_at i with None => True | Some e => n < e end.

Lemma acceptable_true h n i : InviteRepository.acceptable h n i = true <-> opens h n i.
Proof.
  unfold InviteRepository.acceptable, opens, InviteRepository.unexpired_at.
  rewrite !andb_true_iff, String.eqb_eq, is_pending_true.
  destruct (Invite.expires_at i); rewrite ?Z.ltb_lt; tauto.
Qed.

Lemma wp_accept_pending h n (Q : option Invite.t -> Db -> Prop) E d :
  wf d ->
  (forall i n', invites d !! Invite.id i = Some i -> opens h n i ->
     valid_row d (with_status InviteStatus.ACCEPTED n' i) = true ->
     Q (Some (with_status InviteStatus.ACCEPTED n' i))
       (put_row (with_status InviteStatus.ACCEPTED n' i) d)) ->
  ((forall k i, invites d !! k = Some i -> ~ opens h n i) -> Q None d) ->
  wp (InviteRepository.accept_pending_invite_by_token_hash h n) Q E d.
Proof.
  intros Hwf HS HN. apply wp_end_pending; [done| |done|..].
  - apply (by_token_hash_single d _ h Hwf). intros i Hi. by apply acceptable_true in Hi as [? _].
  - intros i n' Hi Hp Hv. apply HS; [done| |done]. by apply acceptable_true.
  - intros Hno. apply HN. intros k i Hi Hop. apply acceptable_true in Hop.
    by rewrite (Hno k i Hi) in Hop.
Qed.

Lemma wp_expire_by_token_hash h n (Q : option Invite.t -> Db -> Prop) E d :
  wf d -> (forall r d', Q r d') ->
  wp (InviteRepository.mark_pending_invite_expired_by_token_hash h n) Q E d.
Proof.
  intros Hwf HQ. apply wp_end_pending; [done| |done|by auto..].
  apply (by_token_hash_single d _ h Hwf). intros i Hi. split_checks. by apply String.eqb_eq.
Qed.

Lemma wp_expire_by_id k o n (Q : option Invite.t -> Db -> Prop) E d :
  wf d -> (forall r d', Q r d') ->
  wp (InviteRepository.mark_pending_invite_expired_by_id k o n) Q E d.
Proof.
  intros Hwf HQ. apply wp_end_pending; [done| |done|by auto..].
  apply (by_id_single d _ k). intros i Hi. unfold InviteRepository.by_id_and_organisation in Hi.
  split_checks. by eapply bool_decide_eq_true_1.
Qed.

End Invites.

(** ** Accepting *)
Section Accepting.
Context `{Env} `{Crypto}.
Implicit Types (d : Db) (E : exn -> Prop).

Definition invalid_invite : exn := BadRequestError InviteService._INVALID_INVITE_DETAIL.

(** No invite of the database opens with the token hash, at any instant. *)
Definition shut d (h : string) : Prop :=
  forall n k i, invites d !! k = Some i -> ~ opens h n i.

Definition email_matches (identity : identity_t) (i : Invite.t) : Prop :=
  exists e, AuthenticatedPrincipal.email identity = Some e /\
    Text.lower (Invite.email i) = Text.lower e.

(** What a successful acceptance commits. *)
Definition accepted d d' (h : string) (identity : identity_t) (m : Membership.t) : Prop :=
  exists n i n' u,
    invites d !! Invite.id i = Some i /\ opens h n i /\ email_matches identity i /\
    AuthenticatedPrincipal.email_verified identity = true /\
    invites d' = <[Invite.id i := with_status InviteStatus.ACCEPTED n' i]> (invites d) /\
    users d' !! User.id u = Some u /\ projects identity u /\
    User.status u <> UserStatus.SUSPENDED /\
    open_organisation d (Invite.organisation_id i) /\ no_active_membership d (User.id u) /\
    Membership.user_id m = User.id u /\ Membership.organisation_id m = Invite.organisation_id i /\
    Membership.role m = Invite.role i /\ Membership.is_active m = true /\
    memberships d !! Membership.id m = None /\
    memberships d' = <[Membership.id m := m]> (memberships d).

Lemma wp_accept_shut h identity d :
  wf d -> (forall i, forall k r, invites d !! k = Some r -> ~ opens h (clock i) r) ->
  wp (InviteService._accept_invite h identity) (fun _ _ => False) (fun e => e = invalid_invite) d.
Proof.
  intros Hwf Hs. apply wp_bind, wp_draw. intros i. apply wp_bind, wp_accept_pending; [done|..].
  - intros r n Hr Hop _. by destruct (Hs i _ r Hr).
  - intros _. apply wp_bind, wp_expire_by_token_hash; [done|]. intros r d'. by apply wp_raise.
Qed.

Lemma accepted_shut d d' h identity m :
  wf d -> accepted d d' h identity m -> shut d' h.
Proof.
  intros Hwf (n & i & n' & u & Hi & Hop & _ & _ & Hinv & _) n1 k r Hr Hop'.
  rewrite Hinv in Hr. apply lookup_insert_Some in Hr as [[<- <-]|[Hk Hr]].
  - by destruct Hop' as (_ & Hst & _).
  - pose proof (wf_pk (R := Invite.t) d k r Hwf Hr) as Hid. simpl in Hid. subst k.
    destruct Hk. apply (token_hash_unique d); [done..|].
    destruct Hop as [-> _], Hop' as [-> _]. done.
Qed.

Lemma wp_accept_invite h identity d :
  wf d ->
  wp (InviteService._accept_invite h identity)
    (fun m d' => wf d' /\ accepted d d' h identity m)
    (fun e => app_error e /\ (e = invalid_invite \/
       exists n k i, invites d !! k = Some i /\ opens h n i)) d.
Proof.
  intros Hwf. apply wp_bind, wp_draw. intros c. apply wp_bind, wp_accept_pending; [done| |].
  2:{ intros _. apply wp_bind, wp_expire_by_token_hash; [done|]. intros r d'. apply wp_raise.
      split; [by repeat eexists|by left]. }
  intros i n' Hi Hop Hv. set (d1 := put_row _ d). assert (Hwf1 : wf d1) by (by apply wf_put_row).
  assert (HE : forall e, app_error e -> app_error e /\ (e = invalid_invite \/
    exists n k i, invites d !! k = Some i /\ opens h n i)).
  { intros e He. split; [done|]. right. by exists (clock c), (Invite.id i), i. }
  apply wp_bind, wp_raise_if; intros Hm; [apply HE; by repeat eexists|].
  assert (Hem : email_matches identity i).
  { unfold email_matches. destruct (AuthenticatedPrincipal.email identity) as [e|]; [|done].
    exists e. split; [done|]. by apply String.eqb_eq, negb_false_iff. }
  apply wp_bind, wp_raise_if; intros Hver; [apply HE; by repeat eexists|].
  apply wp_bind. eapply wp_mono; [by apply wp_get_or_create_current_user| |].
  2:{ intros e [-> _]. apply HE. by repeat eexists. }
  intros u d2 (Hwf2 & Hp & (E2 & Hu & _) & _).
  apply wp_bind, wp_raise_if; intros Hsus; [apply HE; by repeat eexists|].
  apply bool_decide_eq_false_1 in Hsus.
  assert (Eo : organisations d2 = organisations d) by (rewrite E2; done).
  assert (Em : memberships d2 = memberships d) by (rewrite E2; done).
  assert (Ei : invites d2 = invites d1) by (rewrite E2; done).
  apply wp_bind, wp_get_organisation; [done| |intros _; apply HE; by repeat eexists].
  intros x Hx _ Hdel. apply wp_bind, wp_raise_if; intros Hxs; [apply HE; by repeat eexists|].
  apply bool_decide_eq_false_1 in Hxs.
  apply wp_join_or_begin. eapply wp_mono; [by apply wp_create_membership| |].
  2:{ intros e [[msg ->] _]. apply HE. by repeat eexists. }
  intros m d3 (id & n1 & n2 & Hid & (_ & _ & Hno & _) & -> & Hv3 & ->).
  split; [by apply wf_put_row|]. exists (clock c), i, n', u.
  split; [done|]. split; [done|]. split; [done|]. split; [by apply negb_false_iff|].
  split; [simpl; by rewrite Ei|]. split; [done|]. split; [done|]. split; [done|].
  split; [exists x; by rewrite <- Eo|]. split; [intros k m Hm'; apply (Hno k); by rewrite Em|].
  do 4 (split; [done|]). split; simpl; by rewrite <- Em.
Qed.

End Accepting.

(** ** Creating *)
Section Creating.
Context `{Env} `{Network} `{Crypto}.
Implicit Types (d : Db) (E : exn -> Prop).

(** An owner invites admins and members, an admin members only. *)
Definition may_invite d (o a : UUID) (role : MembershipRole.t) : Prop :=
  role <> MembershipRole.OWNER /\
  exists m, admitted d o a m /\
    (Membership.role m = MembershipRole.OWNER \/
     (Membership.role m = MembershipRole.ADMIN /\ role <> MembershipRole.ADMIN)).

Definition pending_for d (o : UUID) (email : string) : Prop :=
  exists k i, invites d !! k = Some i /\ Invite.organisation_id i = o /\
    Text.lower (Invite.email i) = Text.lower email /\ Invite.status i = InviteStatus.PENDING.

(** A drawn identifier or token is in use. *)
Definition invite_taken d : Prop :=
  (exists i, is_Some (invites d !! uuid4 i)) \/
  (exists i k r, invites d !! k = Some r /\
     Invite.token_hash r = sha256_hexdigest (token_urlsafe i)).

Definition outbox_id_taken d : Prop := exists i, is_Some (outbox_events d !! uuid4 i).

Definition new_invite (id : UUID) (email : string) (o : UUID) (role : MembershipRole.t)
    (h : string) (expires_at n n' : datetime) : Invite.t :=
  Invite.mk id email o role InviteStatus.PENDING h (Some expires_at) None None n n'.

Definition new_event (id : UUID) (type : string) (invite_id : UUID) (payload : json)
    (n n' : datetime) : OutboxEvent.t :=
  OutboxEvent.mk id type (Some "invite"%string) (Some invite_id) payload OutboxStatus.PENDING
    0 10 None None None None n n'.

Lemma pending_match_true o email i :
  bool_decide (Invite.organisation_id i = o)
  && String.eqb (Text.lower (Invite.email i)) (Text.lower email) && is_pending i = true <->
  Invite.organisation_id i = o /\ Text.lower (Invite.email i) = Text.lower email /\
  Invite.status i = InviteStatus.PENDING.
Proof. rewrite !andb_true_iff, bool_decide_eq_true, String.eqb_eq, is_pending_true. tauto. Qed.

Lemma wp_get_pending_invite_by_email o email (Q : option Invite.t -> Db -> Prop) E d :
  wf d -> (pending_for d o email -> forall i, Q (Some i) d) -> (~ pending_for d o email -> Q None d) ->
  wp (InviteRepository.get_pending_invite_by_email o email) Q E d.
Proof.
  intros Hwf HS HN. apply wp_select_first; [done|..].
  - intros i Hi Hp. apply HS. apply pending_match_true in Hp. by exists (Invite.id i), i.
  - intros Hno. apply HN. intros (k & i & Hi & Hp). specialize (Hno k i Hi).
    by rewrite (proj2 (pending_match_true o email i)) in Hno.
Qed.

Lemma wp_publish_event type id payload (Q : OutboxEvent.t -> Db -> Prop) E d :
  (outbox_id_taken d -> E IntegrityError) ->
  (forall eid n n', outbox_events d !! eid = None -> 
     Q (new_event eid type id payload n n') (put_row (new_event eid type id payload n n') d)) ->
  wp (OutboxService.publish_event type "invite" id payload) Q E d.
Proof.
  intros HE HQ. apply wp_bind, wp_draw. intros i. do 2 (apply wp_bind, wp_draw; intros ?).
  apply wp_insert_row.
  - intros [Ht|Hv]; [by apply HE; exists i|]. exfalso. apply not_true_iff_false in Hv.
    by apply Hv, valid_row_spec.
  - intros Hid _. by apply HQ.
Qed.

(** The insertion of a pending invite for an existing organisation. *)
Lemma wp_insert_invite email o role i exp (Q : Invite.t -> Db -> Prop) E d :
  is_Some (organisations d !! o) -> ~ pending_for d o email ->
  (invite_taken d -> E IntegrityError) ->
  (forall id n n', invites d !! id = None ->
     let r := new_invite id email o role (sha256_hexdigest (token_urlsafe i)) exp n n' in
     valid_row d r = true -> Q r (put_row r d)) ->
  wp (InviteRepository.create_invite email o role (sha256_hexdigest (token_urlsafe i)) (Some exp)) Q E d.
Proof.
  intros Ho Hp HE HQ. apply wp_bind, wp_draw. intros j. do 2 (apply wp_bind, wp_draw; intros ?).
  apply wp_insert_row; [|by intros; apply HQ].
  intros [Ht|Hv]; [apply HE; left; by exists j|].
  destruct (decide (Exists (fun kr => Invite.token_hash kr.2 = sha256_hexdigest (token_urlsafe i))
                     (map_to_list (invites d)))) as [Hc|Hc].
  { apply HE. right. apply Exists_exists in Hc as ([k r] & Hr%elem_of_map_to_list & Hh).
    by exists i, k, r. }
  exfalso. apply not_true_iff_false in Hv. apply Hv, valid_row_spec. simpl.
  rewrite (proj2 (has_row_true _ _) Ho). split; [done|]. intros k r Hr _.
  apply orb_false_iff. split.
  - apply String.eqb_neq. intros Heq. apply Hc, Exists_exists.
    exists (k, r). split; [by apply elem_of_map_to_list|done].
  - destruct (is_pending r) eqn:Hpr; [|by rewrite andb_false_r].
    rewrite !andb_true_r. apply andb_false_iff.
    destruct (decide (o = Invite.organisation_id r)) as [Hor|]; [right|left; by apply bool_decide_false].
    apply String.eqb_neq. intros Heq. apply Hp. exists k, r.
    apply is_pending_true in Hpr. done.
Qed.

Definition invite_metadata (o : UUID) (role : MembershipRole.t) : json :=
  JObj [("organisation_id", JStr (Uuid.str o));
        ("invite_role", JStr (MembershipRole.value role))]%string.

Lemma invite_metadata_acceptable o role : acceptable (invite_metadata o role) = true.
Proof. unfold invite_metadata. solve_acceptable. destruct role; simpl; lia. Qed.

(** The rows a published invite adds besides its own: one audit event and one
    outbox event. *)
Definition with_events ctx (action : AuditAction.t) (type purpose : string) (o : UUID)
    (i : Invite.t) (token : string) (k : nat) (aid : UUID) (n : datetime) (eid : UUID)
    (n1 n2 : datetime) d : Db :=
  put_row (new_event eid type (Invite.id i)
             (InviteService.delivery_payload i o (fernet_encrypt k token) purpose) n1 n2)
    (put_row (event_row ctx AuditCategory.TENANT action AuditTargetType.INVITE
                (Some (Invite.id i)) None (Some (invite_metadata o (Invite.role i))) None aid n)
       (put_row i d)).

(** Recording and publishing after the invite's own write. *)
Lemma wp_announce ctx action type purpose o i token {A} (r : A) (Q : A -> Db -> Prop) E d :
  (audit_blocked ctx d \/ outbox_id_taken d -> E IntegrityError) ->
  (forall k aid n eid n1 n2, audit_events d !! aid = None -> outbox_events d !! eid = None ->
     Q r (with_events ctx action type purpose o i token k aid n eid n1 n2 d)) ->
  wp (AuditEventService.record_event ctx AuditCategory.TENANT action AuditTargetType.INVITE
        (Some (Invite.id i)) None (Some (invite_metadata o (Invite.role i))) None ;;
      encrypted ← InviteService.encrypt_token token;
      OutboxService.publish_event type "invite" (Invite.id i)
        (InviteService.delivery_payload i o encrypted purpose) ;;
      mret r) Q E (put_row i d).
Proof.
  intros HE HQ. apply wp_bind, wp_record_event; [apply invite_metadata_acceptable|..].
  - intros Hb. apply HE. left. by eapply audit_blocked_frame, Hb.
  - intros aid n Ha e _. apply wp_bind, wp_draw. intros k. apply wp_bind, wp_publish_event.
    + intros Ht. apply HE. by right.
    + intros eid n1 n2 Hout. apply wp_ret. by apply HQ.
Qed.

Definition normalised_email (email : string) : string := Text.lower (Text.strip email).

Lemma wp_create_invite o a role email ctx lim d :
  wf d ->
  wp (InviteService._create_invite o a role email ctx lim)
    (fun r d' => let '(i, token) := r in
       may_invite d o a role /\ ~ pending_for d o (normalised_email email) /\
       exists j c id n n' k aid na eid n1 n2, token = token_urlsafe j /\
         i = new_invite id (normalised_email email) o role (sha256_hexdigest token)
               (clock c + InviteService.DEFAULT_INVITE_TTL) n n' /\
         invites d !! id = None /\ valid_row d i = true /\
         audit_events d !! aid = None /\ outbox_events d !! eid = None /\
         d' = with_events ctx AuditAction.INVITE_CREATED "invite.created" "created" o i token
                k aid na eid n1 n2 d)
    (fun e => (app_error e /\ (~ may_invite d o a role \/
                pending_for d o (normalised_email email) \/ invite_taken d)) \/
       limited lim e \/ (e = IntegrityError /\ (audit_blocked ctx d \/ outbox_id_taken d))) d.
Proof.
  intros Hwf. apply wp_bind, wp_raise_if; intros H2.
  { left. split; [by repeat eexists|]. left. intros [Hr _]. by apply bool_decide_eq_true_1 in H2. }
  apply bool_decide_eq_false_1 in H2.
  apply wp_bind, (wp_actor_membership_or (ForbiddenError "You are not allowed to invite users") o a);
    [done|by repeat eexists| |].
  2:{ intros Hn e He. left. split; [done|]. left. intros (_ & m & Hm & _). by apply (Hn m). }
  intros m Hm. assert (Hone : forall m', admitted d o a m' -> m' = m).
  { intros m' (_ & _ & Hm'). destruct Hm as (_ & _ & Hm). by apply (membership_of_unique d a o). }
  apply wp_bind, wp_raise_if; intros H3.
  { left. split; [by repeat eexists|]. left. apply negb_true_iff, bool_decide_eq_false_1 in H3.
    intros (_ & m' & ->%Hone & Hr). apply H3. destruct Hr as [->|[-> _]]; set_solver. }
  apply wp_bind, wp_raise_if; intros H4.
  { left. split; [by repeat eexists|]. left. split_checks.
    intros (_ & m' & ->%Hone & Hr).
    repeat match goal with Hb : bool_decide _ = true |- _ => apply bool_decide_eq_true_1 in Hb end.
    destruct Hr as [Hr|[_ Hr]]; congruence. }
  assert (Hmay : may_invite d o a role).
  { split; [done|]. exists m. split; [done|]. apply negb_false_iff, bool_decide_eq_true_1 in H3.
    apply andb_false_iff in H4. destruct (Membership.role m); [by left|right|set_solver].
    split; [done|]. destruct H4 as [H4|H4]; by apply bool_decide_eq_false_1 in H4. }
  apply wp_bind, wp_get_pending_invite_by_email; [done|..]; fold (normalised_email email).
  { intros Hp i. apply wp_bind, wp_raise_if; [|done]. intros _. left.
    split; [by repeat eexists|]. auto. }
  intros Hp. apply wp_bind, wp_raise_if; [done|]. intros _.
  apply wp_bind, wp_run_business_rate_limiter; [|by auto].
  apply wp_bind, wp_draw. intros j. apply wp_bind, wp_draw. intros c.
  apply wp_bind, wp_except_raise, wp_insert_invite; [by destruct Hm as (_ & (x & Hx & _) & _); exists x|done|..].
  { intros Ht. simpl. left. split; [by repeat eexists|]. auto. }
  intros id n n' Hid i Hv. apply (wp_announce ctx); [by auto|].
  intros k aid na eid n1 n2 Ha Ho. split; [done|]. split; [done|].
  by exists j, c, id, n, n', k, aid, na, eid, n1, n2.
Qed.

End Creating.

(** ** Revoking and resending *)
Section Managing.
Context `{Env} `{Network} `{Crypto}.
Implicit Types (d : Db) (E : exn -> Prop).

(** The pending invite [k] of the organisation, and an actor who may manage it. *)
Definition may_manage d (o a k : UUID) (i : Invite.t) : Prop :=
  invites d !! Invite.id i = Some i /\ Invite.id i = k /\ Invite.organisation_id i = o /\
  Invite.status i = InviteStatus.PENDING /\
  exists m, admitted d o a m /\ Membership.role m <> MembershipRole.MEMBER /\
    ~ (Membership.role m = MembershipRole.ADMIN /\ Invite.role i = MembershipRole.ADMIN).

Definition in_organisation d (o k : UUID) (i : Invite.t) : Prop :=
  invites d !! Invite.id i = Some i /\ Invite.id i = k /\ Invite.organisation_id i = o.

Lemma by_id_and_organisation_true k o i :
  InviteRepository.by_id_and_organisation k o i = true <->
  Invite.id i = k /\ Invite.organisation_id i = o.
Proof.
  unfold InviteRepository.by_id_and_organisation. by rewrite andb_true_iff, !bool_decide_eq_true.
Qed.

Lemma wp_get_invite_for_organisation k o (Q : option Invite.t -> Db -> Prop) E d :
  wf d -> (forall i, in_organisation d o k i -> Q (Some i) d) -> Q None d ->
  wp (InviteRepository.get_invite_for_organisation k o) Q E d.
Proof.
  intros Hwf HS HN. apply wp_select_first; [done| |done].
  intros i Hi Hp. apply by_id_and_organisation_true in Hp. by apply HS.
Qed.

(** The opening of [revoke_invite] and [resend_invite]. *)
Lemma wp_managed {A} o k a gone refused admins (rest : Membership.t -> Invite.t -> M Db A)
    (Q : A -> Db -> Prop) E d :
  wf d -> (forall e, app_error e -> E e) ->
  app_error gone -> app_error refused -> app_error admins ->
  (forall m i, may_manage d o a k i -> admitted d o a m -> wp (rest m i) Q E d) ->
  wp (actor ← InviteService._get_actor_membership o a;
      found ← InviteRepository.get_invite_for_organisation k o;
      invite ← or_raise found (NotFoundError "Invite not found");
      raise_if (negb (bool_decide (Invite.status invite = InviteStatus.PENDING))) gone ;;
      raise_if (bool_decide (Membership.role actor = MembershipRole.MEMBER)) refused ;;
      raise_if (bool_decide (Membership.role actor = MembershipRole.ADMIN)
                && bool_decide (Invite.role invite = MembershipRole.ADMIN)) admins ;;
      rest actor invite) Q E d.
Proof.
  intros Hwf HE H1' H2' H3' HQ.
  apply wp_bind, (wp_actor_membership_or (ForbiddenError "You are not allowed to invite users") o a);
    [done|by repeat eexists| |by auto].
  intros m Hm. apply wp_bind, wp_get_invite_for_organisation; [done| |].
  2:{ apply wp_bind, wp_raise, HE. by repeat eexists. }
  intros i (Hi & Hk & Ho). apply wp_bind, wp_ret.
  apply wp_bind, wp_raise_if; intros H4; [by auto|].
  apply wp_bind, wp_raise_if; intros H5; [by auto|].
  apply wp_bind, wp_raise_if; intros H6; [by auto|].
  apply HQ; [|done]. apply negb_false_iff, bool_decide_eq_true_1 in H4.
  apply bool_decide_eq_false_1 in H5. apply andb_false_iff in H6.
  split; [done|]. split; [done|]. split; [done|]. split; [done|]. exists m.
  split; [done|]. split; [done|]. intros [Ha Hb].
  destruct H6 as [H6|H6]; by apply bool_decide_eq_false_1 in H6.
Qed.

Definition revoked (a : UUID) (t n : datetime) (i : Invite.t) : Invite.t :=
  Invite.set_updated_at n (Invite.set_revoked_by_user_id (Some a)
    (Invite.set_revoked_at (Some t) (Invite.set_status InviteStatus.REVOKED i))).

Definition revoked_metadata (o : UUID) (role : MembershipRole.t) : json :=
  JObj [("organisation_id", JStr (Uuid.str o));
        ("invite_role", JStr (MembershipRole.value role));
        ("invite_status_before", JStr (InviteStatus.value InviteStatus.PENDING))]%string.

Lemma revoked_metadata_acceptable o role : acceptable (revoked_metadata o role) = true.
Proof. unfold revoked_metadata. solve_acceptable. destruct role; simpl; lia. Qed.

Lemma wp_revoke_pending o k a t i (Q : option Invite.t -> Db -> Prop) E d :
  wf d -> may_manage d o a k i ->
  (forall n, valid_row d (revoked a t n i) = true ->
     Q (Some (revoked a t n i)) (put_row (revoked a t n i) d)) ->
  wp (InviteRepository.revoke_pending_invite k o a t) Q E d.
Proof.
  intros Hwf (Hi & Hk & Ho & Hp & m & ((u & Hu & _) & _) & _) HQ.
  assert (Hsv : single_valued d (fun i => InviteRepository.by_id_and_organisation k o i && is_pending i)).
  { apply (by_id_single d _ k). intros r Hr. apply andb_prop in Hr as [Hr _].
    by apply by_id_and_organisation_true in Hr as [? _]. }
  assert (Hsame : forall r, invites d !! Invite.id r = Some r ->
    InviteRepository.by_id_and_organisation k o r && is_pending r = true -> r = i).
  { intros r Hr Hb. apply andb_prop in Hb as [Hb _].
    apply by_id_and_organisation_true in Hb as [Hb _]. congruence. }
  apply wp_update_one; [done..| | |].
  - intros r n Hr HP Hv. exfalso. rewrite (Hsame r Hr HP) in Hv.
    apply not_true_iff_false in Hv. apply Hv, (valid_invite_change d i); try done; [|by left].
    apply has_row_true. by exists u.
  - intros r n Hr HP Hv. rewrite (Hsame r Hr HP) in Hv |- *. by apply HQ.
  - intros Hno. specialize (Hno _ i Hi). exfalso. apply not_true_iff_false in Hno. apply Hno.
    apply andb_true_intro. by rewrite by_id_and_organisation_true, is_pending_true.
Qed.

Lemma wp_revoke_invite o k a ctx reason d :
  wf d ->
  wp (InviteService._revoke_invite o k a ctx reason)
    (fun _ d' => exists i t n id n', may_manage d o a k i /\ valid_row d (revoked a t n i) = true /\
       audit_events d !! id = None /\
       d' = put_row (event_row ctx AuditCategory.TENANT AuditAction.INVITE_REVOKED
              AuditTargetType.INVITE (Some k) reason (Some (revoked_metadata o (Invite.role i)))
              None id n') (put_row (revoked a t n i) d))
    (fun e => app_error e \/ (e = IntegrityError /\ audit_blocked ctx d)) d.
Proof.
  intros Hwf. apply wp_managed; [done|by auto|by repeat eexists..|].
  intros m i Hmay _. apply wp_bind, wp_draw. intros c. pose proof Hmay as (Hi & Hk & Ho & Hp & _).
  apply wp_bind. rewrite Hk. apply (wp_revoke_pending o k a (clock c) i); [done..|].
  intros n Hv. apply wp_bind, wp_ret. rewrite Hp.
  apply wp_bind, wp_record_event; [apply (revoked_metadata_acceptable o (Invite.role i))|..].
  - intros Hb. right. split; [done|]. by eapply audit_blocked_frame, Hb.
  - intros id n' Ha e _. apply wp_ret. by exists i, (clock c), n, id, n'.
Qed.

Definition rotated (token : string) (expires_at n : datetime) (i : Invite.t) : Invite.t :=
  Invite.set_updated_at n (Invite.set_expires_at (Some expires_at)
    (Invite.set_token_hash (sha256_hexdigest token) i)).

Lemma wp_refuse_expired {A} i o t (Q : A -> Db -> Prop) E d :
  wf d -> (forall e, app_error e -> E e) -> wp (InviteService.refuse_expired i o t) Q E d.
Proof.
  intros Hwf HE. apply wp_bind, wp_expire_by_id; [done|]. intros r d'. apply wp_raise, HE.
  destruct (is_None r); by repeat eexists.
Qed.

Lemma is_expired_false i t :
  InviteService._is_expired_at (Invite.expires_at i) t = false ->
  InviteRepository.unexpired_at t i = true.
Proof.
  unfold InviteService._is_expired_at, InviteRepository.unexpired_at.
  destruct (Invite.expires_at i); [|done]. rewrite Z.leb_gt, Z.ltb_lt. done.
Qed.

Lemma wp_rotate o k a i token exp t (Q : option Invite.t -> Db -> Prop) E d :
  wf d -> may_manage d o a k i -> InviteRepository.unexpired_at t i = true ->
  ((exists k' r, invites d !! k' = Some r /\ Invite.token_hash r = sha256_hexdigest token) ->
     E IntegrityError) ->
  (forall n, valid_row d (rotated token exp n i) = true ->
     Q (Some (rotated token exp n i)) (put_row (rotated token exp n i) d)) ->
  wp (InviteRepository.rotate_pending_invite_token k o (sha256_hexdigest token) exp t) Q E d.
Proof.
  intros Hwf (Hi & Hk & Ho & Hp & _) Hexp HE HQ.
  set (P := fun i => InviteRepository.by_id_and_organisation k o i && is_pending i
                     && InviteRepository.unexpired_at t i).
  assert (Hid : forall r, P r = true -> Invite.id r = k).
  { intros r Hr. unfold P in Hr. split_checks. by apply (by_id_and_organisation_true k o r). }
  assert (Hsame : forall r, invites d !! Invite.id r = Some r -> P r = true -> r = i).
  { intros r Hr HP. pose proof (Hid r HP). congruence. }
  apply wp_update_one; [done|by apply (by_id_single d _ k)|done|..].
  - intros r n Hr HP Hv. rewrite (Hsame r Hr HP) in Hv.
    destruct (decide (Exists (fun kr => Invite.token_hash kr.2 = sha256_hexdigest token)
                       (map_to_list (invites d)))) as [Hc|Hc].
    { apply HE. apply Exists_exists in Hc as ([k' r'] & Hr'%elem_of_map_to_list & Hh). eauto. }
    exfalso. apply not_true_iff_false in Hv. apply Hv, (valid_invite_change d i); try done.
    + by apply (revoker_known d i).
    + right. intros k' r' Hr' _ Hh. apply Hc, Exists_exists. exists (k', r').
      split; [by apply elem_of_map_to_list|done].
  - intros r n Hr HP Hv. rewrite (Hsame r Hr HP) in Hv |- *. by apply HQ.
  - intros Hno. specialize (Hno _ i Hi). exfalso. apply not_true_iff_false in Hno. apply Hno.
    unfold P. rewrite Hexp, andb_true_r. apply andb_true_intro.
    by rewrite by_id_and_organisation_true, is_pending_true.
Qed.

Lemma wp_resend_invite o k a ctx lim d :
  wf d ->
  wp (InviteService._resend_invite o k a ctx lim)
    (fun r d' => let '(i', token) := r in
       exists i j c n key aid na eid n1 n2, may_manage d o a k i /\
         InviteRepository.unexpired_at (clock c) i = true /\ token = token_urlsafe j /\
         i' = rotated token (clock c + InviteService.DEFAULT_INVITE_TTL) n i /\
         valid_row d i' = true /\ audit_events d !! aid = None /\ outbox_events d !! eid = None /\
         d' = with_events ctx AuditAction.INVITE_RESENT "invite.resent" "resent" o i' token
                key aid na eid n1 n2 d)
    (fun e => app_error e \/ limited lim e \/
       (e = IntegrityError /\ (audit_blocked ctx d \/ outbox_id_taken d \/ invite_taken d))) d.
Proof.
  intros Hwf. apply wp_managed; [done|by auto|by repeat eexists..|].
  intros m i Hmay _. pose proof Hmay as (Hi & Hk & Ho & Hp & _). apply wp_bind, wp_draw. intros c0.
  apply wp_bind. destruct (InviteService._is_expired_at (Invite.expires_at i) (clock c0)).
  { apply wp_refuse_expired; [done|by auto]. }
  apply wp_ret, wp_bind, wp_run_business_rate_limiter; [|by auto].
  apply wp_bind, wp_draw. intros c.
  apply wp_bind. destruct (InviteService._is_expired_at (Invite.expires_at i) (clock c)) eqn:Hexp.
  { apply wp_refuse_expired; [done|by auto]. }
  apply is_expired_false in Hexp. apply wp_ret, wp_bind, wp_draw. intros j.
  apply wp_bind. rewrite Hk. apply (wp_rotate o k a i (token_urlsafe j)); [done..| |].
  { intros (k' & r & Hr & Hh). right. right. split; [done|]. right. right. right.
    by exists j, k', r. }
  intros n Hv. apply (wp_announce ctx).
  - intros Hb. right. right. split; [done|]. tauto.
  - intros key aid na eid n1 n2 Ha Hout.
    by exists i, j, c, n, key, aid, na, eid, n1, n2.
Qed.

(** The token an invite had before it was rotated or ended opens nothing any more. *)
Lemma shut_after_change d i i' :
  wf d -> invites d !! Invite.id i = Some i -> Invite.id i' = Invite.id i ->
  (Invite.token_hash i' = Invite.token_hash i -> Invite.status i' <> InviteStatus.PENDING) ->
  shut (put_row i' d) (Invite.token_hash i).
Proof.
  intros Hwf Hi Hid Hst n k r Hr (Hh & Hp & _). simpl in Hr.
  apply lookup_insert_Some in Hr as [[_ <-]|[Hk Hr]]; [by apply Hst|].
  pose proof (wf_pk (R := Invite.t) d k r Hwf Hr) as Hkr. simpl in Hkr. subst k.
  apply Hk. rewrite Hid. by apply (token_hash_unique d).
Qed.

End Managing.

(** ** Anonymising completed invites *)
Section Scrubbing.
Context `{Env}.
Import InviteAnonymisation InviteRepository.
Implicit Types (d : Db) (E : exn -> Prop) (P : Invite.t -> bool).

Definition scrubbed_at (n : datetime) (i : Invite.t) : Invite.t :=
  Invite.set_updated_at n (scrub_invite i).

(** Identifiers are 128 bits wide, and only a scrubbed invite's token hash has the
    scrubbed form, with its own identifier. *)
Definition scrub_sound d : Prop :=
  forall k i, invites d !! k = Some i ->
    (k < 16 ^ 32)%N /\
    (Text.starts_with (SCRUBBED_INVITE_TOKEN_PREFIX ++ ":") (Invite.token_hash i) = true ->
     Invite.token_hash i = scrubbed_invite_token_hash k).

(** [d'] is [d] with some invites satisfying [P] scrubbed. *)
Definition scrubs P d d' : Prop :=
  d' = set_invites (invites d') d /\
  forall k, invites d' !! k = invites d !! k \/
    exists i n, invites d !! k = Some i /\ P i = true /\ invites d' !! k = Some (scrubbed_at n i).

Lemma app_string_inj s t t' : (s ++ t)%string = (s ++ t')%string -> t = t'.
Proof. induction s as [|c s IH]; simpl; [done|]. intros H'. injection H'. auto. Qed.

Lemma scrubbed_token_inj k k' :
  (k < 16 ^ 32)%N -> (k' < 16 ^ 32)%N ->
  scrubbed_invite_token_hash k = scrubbed_invite_token_hash k' -> k = k'.
Proof.
  intros Hk Hk' H'. apply Uuid.str_inj; [done..|].
  unfold scrubbed_invite_token_hash in H'. apply app_string_inj in H'. by apply (app_string_inj ":") in H'.
Qed.

Lemma starts_with_scrubbed k :
  Text.starts_with (SCRUBBED_INVITE_TOKEN_PREFIX ++ ":") (scrubbed_invite_token_hash k) = true.
Proof. apply (Text.prefix_append (SCRUBBED_INVITE_TOKEN_PREFIX ++ ":")%string (Uuid.str k)). Qed.

(** A scrubbed row is recognised as such, so it is never picked again. *)
Lemma ends_with_app p s : Text.ends_with p (s ++ p) = true.
Proof.
  induction s as [|c s IH]; simpl.
  - destruct p; simpl; [done|]. by rewrite Ascii.eqb_refl, String.eqb_refl.
  - rewrite IH. apply orb_true_r.
Qed.

Lemma app_string_assoc s t u : (s ++ t ++ u)%string = ((s ++ t) ++ u)%string.
Proof. induction s as [|c s IH]; [done|]. exact (f_equal (String c) IH). Qed.

Lemma is_scrubbed_scrubbed n i : is_scrubbed_invite (scrubbed_at n i) = true.
Proof.
  apply andb_true_intro. split; [|apply (starts_with_scrubbed (Invite.id i))].
  pose proof (ends_with_app ("@" ++ SCRUBBED_INVITE_EMAIL_DOMAIN)
                ("deleted-invite-" ++ Uuid.str (Invite.id i))) as He.
  rewrite <- app_string_assoc in He. exact He.
Qed.

Lemma valid_scrubbed d n i :
  wf d -> scrub_sound d -> invites d !! Invite.id i = Some i -> Invite.status i <> InviteStatus.PENDING ->
  valid_row d (scrubbed_at n i) = true.
Proof.
  intros Hwf Hs Hi Hp. apply (valid_invite_change d i); try done.
  - by apply (revoker_known d i).
  - right. intros k r Hr Hk Hh. destruct (Hs k r Hr) as [Hlt Hform], (Hs _ i Hi) as [Hlt' _].
    destruct Hk. apply scrubbed_token_inj; [done..|].
    rewrite <- Hform; [done|]. rewrite Hh. apply starts_with_scrubbed.
  - intros Hp'%is_pending_true. destruct (Hp Hp').
Qed.

Lemma scrub_sound_put d n i :
  scrub_sound d -> invites d !! Invite.id i = Some i -> scrub_sound (put_row (scrubbed_at n i) d).
Proof.
  intros Hs Hi k r. simpl. rewrite lookup_insert_Some. intros [[<- <-]|[_ Hr]]; [|by apply Hs].
  split; [by apply (Hs _ i)|done].
Qed.

Lemma scrubs_refl P d : scrubs P d d.
Proof. split; [by destruct d|]. by left. Qed.

Lemma completed_before_spec a e r i :
  completed_before a e r i = true -> Invite.status i <> InviteStatus.PENDING /\ is_scrubbed_invite i = false.
Proof.
  unfold completed_before. destruct (Invite.status i); simpl; try done;
    by intros [_ ?%negb_true_iff]%andb_prop.
Qed.

(** The loop over a snapshot of rows that are still there. *)
Lemma wp_scrub_rows a e r rows : forall acc d,
  wf d -> scrub_sound d -> NoDup (Invite.id <$> rows) ->
  (forall i, i ∈ rows -> invites d !! Invite.id i = Some i /\ completed_before a e r i = true) ->
  wp (scrub_rows rows acc)
    (fun count d' => count = (acc + length rows)%nat /\ wf d' /\ scrub_sound d' /\
       d' = set_invites (invites d') d /\
       (forall i, i ∈ rows -> exists n, invites d' !! Invite.id i = Some (scrubbed_at n i)) /\
       (forall k, k ∉ Invite.id <$> rows -> invites d' !! k = invites d !! k))
    (fun _ => False) d.
Proof.
  induction rows as [|i rows IH]; intros acc d Hwf Hs HN Hrows.
  - apply wp_ret. split; [simpl; lia|]. split; [done|]. split; [done|].
    split; [by destruct d|]. split; [by intros i Hi%elem_of_nil|done].
  - rewrite fmap_cons in HN. apply NoDup_cons in HN as [Hni HN].
    destruct (Hrows i) as [Hi Hc]; [by constructor|].
    apply completed_before_spec in Hc as [Hp Hsc]. simpl. rewrite Hsc. apply wp_bind.
    assert (Hv : forall n, valid_row d (scrubbed_at n i) = true) by (intros n; by apply valid_scrubbed).
    apply (wp_update_present (R := Invite.t) _ _ i); [exact Hi|..].
    { intros Heq. pose proof (is_scrubbed_scrubbed (Invite.updated_at i) i) as Hsc'.
      change (is_scrubbed_invite (scrub_invite i) = true) in Hsc'. congruence. }
    { intros n Hn. change (valid_row d (scrubbed_at n i) = false) in Hn. by rewrite Hv in Hn. }
    intros n _. eapply wp_mono; [apply (IH (S acc))| |done].
    + by apply wf_put_row, Hv.
    + by apply scrub_sound_put.
    + done.
    + intros i' Hi'. destruct (Hrows i') as [Hl ?]; [by constructor|]. split; [|done].
      simpl. rewrite lookup_insert_ne; [done|]. intros Heq. apply Hni. simpl in Heq. rewrite Heq.
      by apply list_elem_of_fmap_2.
    + intros count d' (Hcnt & Hwf' & Hs' & E & Hin & Hout). split; [simpl; lia|].
      split; [done|]. split; [done|]. split; [by rewrite E|]. split.
      * intros i' [->|Hi']%elem_of_cons; [|by apply Hin]. exists n.
        rewrite Hout by done. apply lookup_insert_eq.
      * intros k [Hk Hk']%not_elem_of_cons. rewrite Hout by done.
        simpl. by rewrite lookup_insert_ne.
Qed.

End Scrubbing.

(** ** Properties *)
Section Properties.
Context `{Env} `{Network} `{Crypto}.
Import InviteAnonymisation.

(** Creating an invite refines its specification: owners invite admins and
    members, admins members only, nobody an owner, and no second invite may be
    pending for the address. Success commits together the pending invite with
    the hash of a fresh token and a seven-day expiry, one audit event and the
    outbox event that carries the encrypted token; failure commits nothing and
    has one of the stated reasons. *)
Theorem create_invite_spec o a role email ctx lim d :
  wf d ->
  commits (InviteService.create_invite o a role email ctx lim)
    (fun i d' => AuditContext.actor_user_id ctx = Some a /\ may_invite d o a role /\
       ~ pending_for d o (normalised_email email) /\
       exists j c id n n' k aid na eid n1 n2, let token := token_urlsafe j in
         i = new_invite id (normalised_email email) o role (sha256_hexdigest token)
               (clock c + InviteService.DEFAULT_INVITE_TTL) n n' /\
         invites d !! id = None /\ audit_events d !! aid = None /\ outbox_events d !! eid = None /\
         d' = with_events ctx AuditAction.INVITE_CREATED "invite.created" "created" o i token
                k aid na eid n1 n2 d)
    (fun e => AuditContext.actor_user_id ctx <> Some a \/
       (app_error e /\ (~ may_invite d o a role \/
          pending_for d o (normalised_email email) \/ invite_taken d)) \/
       limited lim e \/ (e = IntegrityError /\ (audit_blocked ctx d \/ outbox_id_taken d))) d.
Proof.
  intros Hwf. apply commits_guard; intros Hb.
  { left. by apply negb_true_iff, bool_decide_eq_false_1 in Hb. }
  apply negb_false_iff, bool_decide_eq_true_1 in Hb.
  apply commits_bind_ret, commits_begin. eapply wp_mono; [by apply wp_create_invite| |by auto].
  intros [i token] d' (Hmay & Hp & j & c & id & n & n' & k & aid & na & eid & n1 & n2 & Ht & Hi & Hid & _ & Hpost).
  simpl. split; [done|]. split; [done|]. split; [done|]. subst token.
  exists j, c, id, n, n', k, aid, na, eid, n1, n2. naive_solver.
Qed.

(** C33. A token is accepted once. Acceptance needs a pending, unexpired invite with
    the token's hash, whose address is the caller's verified one; it commits that
    invite as accepted, the caller's user and his new membership with the
    invited role, and leaves every other invite and membership alone. Afterwards
    every further attempt with the token, by anybody, is refused and changes
    nothing. Failures are application errors. *)
Theorem accept_invite_once token identity d :
  wf d ->
  commits (InviteService.accept_invite token identity)
    (fun m d' => accepted d d' (sha256_hexdigest token) identity m /\
       forall identity', commits (InviteService.accept_invite token identity')
         (fun _ _ => False) (fun e => e = invalid_invite) d')
    app_error d.
Proof.
  intros Hwf. apply commits_join_or_begin.
  eapply wp_mono; [by apply wp_accept_invite| |by intros e [? _]].
  intros m d' [Hwf' Hacc]. split; [done|]. intros identity'.
  apply commits_join_or_begin, wp_accept_shut; [done|]. intros i.
  by apply (accepted_shut d d' _ identity m Hwf Hacc).
Qed.

(** The EXPIRED status that acceptance and resending write for an expired invite
    is never committed: the exception they raise next rolls it back. So a
    pending invite past its expiry stays pending, can be neither accepted nor
    resent, and blocks every new invite of the organisation to its address. *)
Theorem expired_invite_stays_pending i d token identity a role email ctx lim :
  wf d -> invites d !! Invite.id i = Some i -> Invite.status i = InviteStatus.PENDING ->
  (forall n, expired_by i (clock n)) ->
  Invite.token_hash i = sha256_hexdigest token ->
  Text.lower (Invite.email i) = Text.lower (normalised_email email) ->
  commits (InviteService.accept_invite token identity) (fun _ _ => False) any_exn d /\
  commits (InviteService.resend_invite (Invite.organisation_id i) (Invite.id i) a ctx lim)
    (fun _ _ => False) any_exn d /\
  commits (InviteService.create_invite (Invite.organisation_id i) a role email ctx lim)
    (fun _ _ => False) any_exn d.
Proof.
  intros Hwf Hi Hp Hexp Hh Hem. split; [|split].
  - apply commits_join_or_begin. eapply wp_mono; [apply wp_accept_shut; [done|]|done..].
    intros n k r Hr (Hh' & _ & He). specialize (Hexp n). unfold expired_by in Hexp.
    assert (r = i) as ->.
    { pose proof (wf_pk (R := Invite.t) d k r Hwf Hr) as Hk. simpl in Hk. subst k.
      assert (Invite.id r = Invite.id i) as Heq by (apply (token_hash_unique d); [done..|exact (eq_trans Hh' (eq_sym Hh))]).
      congruence. }
    destruct (Invite.expires_at i); [lia|done].
  - apply commits_guard; [done|]. intros _. apply commits_bind_ret, commits_begin.
    eapply wp_mono; [by apply wp_resend_invite| |done].
    intros [i' t] d' (r & j & c & n & key & aid & na & eid & n1 & n2 & (Hr & Hk & _) & Hun & _).
    assert (r = i) as -> by congruence. specialize (Hexp c). unfold expired_by in Hexp.
    unfold InviteRepository.unexpired_at in Hun.
    destruct (Invite.expires_at i); [apply Z.ltb_lt in Hun; lia|done].
  - apply commits_guard; [done|]. intros _. apply commits_bind_ret, commits_begin.
    eapply wp_mono; [by apply wp_create_invite| |done].
    intros [i' t] d' (_ & Hno & _). apply Hno. by exists (Invite.id i), i.
Qed.

(** Resending replaces the token: the pending, unexpired invite gets the hash of a
    fresh token and a new expiry, together with its audit and outbox events, and
    nothing else changes; unless the fresh token has the old hash, the old token
    opens no invite any more. *)
Theorem resend_invite_rotates o k a ctx lim d :
  wf d ->
  commits (InviteService.resend_invite o k a ctx lim)
    (fun i' d' => exists i j c n key aid na eid n1 n2, let token := token_urlsafe j in
       may_manage d o a k i /\ InviteRepository.unexpired_at (clock c) i = true /\
       i' = rotated token (clock c + InviteService.DEFAULT_INVITE_TTL) n i /\
       d' = with_events ctx AuditAction.INVITE_RESENT "invite.resent" "resent" o i' token
              key aid na eid n1 n2 d /\
       (sha256_hexdigest token <> Invite.token_hash i -> shut d' (Invite.token_hash i)))
    (fun e => AuditContext.actor_user_id ctx <> Some a \/ app_error e \/ limited lim e \/
       (e = IntegrityError /\ (audit_blocked ctx d \/ outbox_id_taken d \/ invite_taken d))) d.
Proof.
  intros Hwf. apply commits_guard; intros Hb.
  { left. by apply negb_true_iff, bool_decide_eq_false_1 in Hb. }
  apply commits_bind_ret, commits_begin. eapply wp_mono; [by apply wp_resend_invite| |by auto].
  intros [i' t] d' (i & j & c & n & key & aid & na & eid & n1 & n2 & Hmay & Hun & -> & -> & _ & _ & _ & ->).
  exists i, j, c, n, key, aid, na, eid, n1, n2. split; [done|]. split; [done|].
  split; [done|]. split; [done|]. intros Hne.
  pose proof Hmay as (Hi & _).
  apply (shut_after_change d i (rotated (token_urlsafe j) _ n i) Hwf Hi eq_refl).
  intros Heq. by destruct Hne.
Qed.

(** Revoking ends a pending invite of the organisation, names the revoker,
    records one audit event and changes nothing else; the token opens nothing
    afterwards. Failure commits nothing. *)
Theorem revoke_invite_spec o k a ctx reason d :
  wf d ->
  commits (InviteService.revoke_invite o k a ctx reason)
    (fun _ d' => exists i t n id n', AuditContext.actor_user_id ctx = Some a /\
       may_manage d o a k i /\ audit_events d !! id = None /\
       d' = put_row (event_row ctx AuditCategory.TENANT AuditAction.INVITE_REVOKED
              AuditTargetType.INVITE (Some k) reason (Some (revoked_metadata o (Invite.role i)))
              None id n') (put_row (revoked a t n i) d) /\
       shut d' (Invite.token_hash i))
    (fun e => AuditContext.actor_user_id ctx <> Some a \/ app_error e \/
       (e = IntegrityError /\ audit_blocked ctx d)) d.
Proof.
  intros Hwf. apply commits_tenant; [by auto|]. intros Hctx.
  eapply wp_mono; [by apply wp_revoke_invite| |by auto].
  intros [] d' (i & t & n & id & n' & Hmay & _ & Ha & ->). exists i, t, n, id, n'.
  split; [done|]. split; [done|]. split; [done|]. split; [done|]. pose proof Hmay as (Hi & _).
  by apply (shut_after_change d i (revoked a t n i) Hwf Hi eq_refl).
Qed.

(** Anonymising completed invites never fails when identifiers are 128 bits wide
    and no live token hash has the scrubbed form, because two scrubbed token
    hashes never collide. It changes only the invites it counts, at most a
    batch: completed, past their retention and not scrubbed before. Each keeps
    everything but its address and token hash, and a count below the batch size
    means none is left. *)
Theorem anonymise_completed_invites_spec a e r batch d :
  wf d -> scrub_sound d ->
  wp (InviteRepository.anonymise_completed_invites_older_than a e r batch)
    (fun count d' => scrubs (InviteRepository.completed_before a e r) d d' /\ scrub_sound d' /\
       (count <= batch)%nat /\ (count = 0%nat -> d' = d) /\
       ((count < batch)%nat -> forall k i, invites d' !! k = Some i ->
          InviteRepository.completed_before a e r i = false))
    (fun _ => False) d.
Proof.
  intros Hwf Hs. apply wp_bind, wp_select.
  set (P := InviteRepository.completed_before a e r).
  set (chosen := take batch _).
  assert (Hin : forall i, i ∈ rows_where d P <-> invites d !! Invite.id i = Some i /\ P i = true)
    by (intros i; exact (elem_of_rows_where_wf d P i Hwf)).
  assert (Hsub : forall i, i ∈ chosen -> invites d !! Invite.id i = Some i /\ P i = true)
    by (intros i Hi; by eapply Hin, batch_subset).
  assert (HN : NoDup (Invite.id <$> chosen)).
  { apply NoDup_fmap_2_strong; [|by apply batch_NoDup, NoDup_rows_where].
    intros i i' Hi Hi' Hid. apply Hsub in Hi as [Hi _], Hi' as [Hi' _]. congruence. }
  eapply wp_mono; [by apply (wp_scrub_rows a e r chosen 0)| |done].
  intros count d' (-> & Hwf' & Hs' & E & Hch & Hout).
  assert (Hkey : forall k, k ∈ Invite.id <$> chosen -> exists i n, invites d !! k = Some i /\
    P i = true /\ invites d' !! k = Some (scrubbed_at n i)).
  { intros k (i & -> & Hi)%list_elem_of_fmap. destruct (Hsub i Hi) as [Hl HP], (Hch i Hi) as [n Hn].
    by exists i, n. }
  split; [split; [done|]|split; [done|split; [apply batch_length|split]]].
  - intros k. destruct (decide (k ∈ Invite.id <$> chosen)) as [Hk|Hk]; [right; by apply Hkey|left; auto].
  - intros Hz%nil_length_inv. rewrite E. rewrite Hz in Hout.
    transitivity (set_invites (invites d) d); [f_equal|by destruct d].
    apply map_eq. intros k. apply Hout. by intros ?%elem_of_nil.
  - intros Hlt k i Hi. destruct (decide (k ∈ Invite.id <$> chosen)) as [Hk|Hk].
    + apply Hkey in Hk as (i0 & n & _ & _ & Hi0). assert (i = scrubbed_at n i0) as -> by congruence.
      apply not_true_iff_false. intros [_ Hc]%completed_before_spec.
      by rewrite is_scrubbed_scrubbed in Hc.
    + rewrite Hout in Hi by done. fold (P i). destruct (P i) eqn:HP; [|done]. destruct Hk.
      pose proof (wf_pk (R := Invite.t) d k i Hwf Hi) as Hid. simpl in Hid. subst k.
      apply list_elem_of_fmap_2, batch_all; [done|]. by apply Hin.
Qed.

End Properties.

(** ** Witnesses *)
Module Witness.
Import Fixtures.

Definition returns {A} (m : M Db A) : bool :=
  match (m (mkWorld db NoTx 0)).1 with Ok _ => true | Err _ => false end.

Lemma create_invite_spec_witness :
  returns (InviteService.create_invite 10 2 MembershipRole.MEMBER " Zoe@example.org" (context 2) None) = true /\
  commits (InviteService.create_invite 10 2 MembershipRole.MEMBER " Zoe@example.org" (context 2) None)
    (fun i _ => Invite.email i = "zoe@example.org"%string) any_exn db.
Proof.
  split; [vm_compute; reflexivity|].
  eapply commits_mono;
    [apply (create_invite_spec 10 2 MembershipRole.MEMBER " Zoe@example.org" (context 2) None db db_wf)| |done].
  intros i d' (_ & _ & _ & j & c & id & n & n' & k & aid & na & eid & n1 & n2 & -> & _).
  vm_compute. reflexivity.
Defined.

Lemma accept_invite_once_witness :
  returns (InviteService.accept_invite "good" (identity "dave")) = true /\
  commits (InviteService.accept_invite "good" (identity "dave"))
    (fun _ d' => commits (InviteService.accept_invite "good" (identity "dave"))
       (fun _ _ => False) any_exn d') any_exn db.
Proof.
  split; [vm_compute; reflexivity|].
  eapply commits_mono; [apply (accept_invite_once "good" (identity "dave") db db_wf)| |done].
  intros m d' [_ Honce]. by eapply commits_mono; [apply (Honce (identity "dave"))|..].
Defined.

Lemma expired_invite_stays_pending_witness :
  commits (InviteService.accept_invite "late" (identity "erin")) (fun _ _ => False) any_exn db.
Proof.
  refine (proj1 (expired_invite_stays_pending (invite 32 "erin" "late" (t0 - days 1)) db "late"
    (identity "erin") 1 MembershipRole.MEMBER "erin@example.org" (context 1) None db_wf _ _ _ _ _)).
  1,2,4,5: vm_compute; reflexivity.
  intros n. unfold expired_by. cbn [invite Invite.expires_at clock env]. unfold days, hours, seconds. lia.
Defined.

Lemma resend_invite_rotates_witness :
  returns (InviteService.resend_invite 10 31 1 (context 1) None) = true /\
  commits (InviteService.resend_invite 10 31 1 (context 1) None)
    (fun i' _ => exists j, Invite.token_hash i' = sha256_hexdigest (token_urlsafe j)) any_exn db.
Proof.
  split; [vm_compute; reflexivity|].
  eapply commits_mono; [apply (resend_invite_rotates 10 31 1 (context 1) None db db_wf)| |done].
  intros i' d' (i & j & c & n & key & aid & na & eid & n1 & n2 & _ & _ & -> & _). by exists j.
Defined.

Lemma revoke_invite_spec_witness :
  returns (InviteService.revoke_invite 10 31 2 (context 2) None) = true /\
  commits (InviteService.revoke_invite 10 31 2 (context 2) None)
    (fun _ d' => exists h, shut d' h) any_exn db.
Proof.
  split; [vm_compute; reflexivity|].
  eapply commits_mono; [apply (revoke_invite_spec 10 31 2 (context 2) None db db_wf)| |done].
  intros _ d' (i & t & n & id & n' & _ & _ & _ & _ & Hs). by eexists.
Defined.

Lemma anonymise_completed_invites_spec_witness :
  scrub_sound db /\
  wp (InviteRepository.anonymise_completed_invites_older_than t0 t0 t0 5)
    (fun count _ => (count <= 5)%nat) (fun _ => False) db.
Proof.
  assert (Hs : scrub_sound db).
  { intros k i Hi. apply elem_of_map_to_list in Hi. vm_compute in Hi.
    repeat (apply list_elem_of_In in Hi as [[= <- <-]|Hi%list_elem_of_In]; [vm_compute; split; [reflexivity|discriminate]|]).
    by apply elem_of_nil in Hi. }
  split; [exact Hs|].
  eapply wp_mono; [apply (anonymise_completed_invites_spec t0 t0 t0 5 db db_wf Hs)| |done].
  by intros count d' (_ & _ & Hc & _).
Defined.

End Witness.
