(* ===== verification/QuotaProofs.v ===== *)
(** Quotas and the operations they protect: the business quotas of a tenant are consulted
    only for its own managers, and a handler behind a closed policy runs only for a request
    the limiter counted. *)
From S2P Require Import Prelude Errors Session Schema Tables AuditLog Users Memberships.
From S2P Require Import Organisations MembershipServices Outbox Invites Requests Api.
From S2P Require Import RateLimitPolicies RateLimits Fixtures RateLimitFixtures AuditProofs.
From S2P Require Import UserProofs MembershipProofs OrganisationProofs InviteProofs.
From S2P Require Import RateLimitPolicyProofs RateLimitProofs.

(** ** Callbacks that are not consulted *)

(** Inside a transaction on [d] the two computations are one. *)
Definition same {A} (m m' : M Db A) (d : Db) : Prop :=
  forall c t, m (mkWorld c (Active d) t) = m' (mkWorld c (Active d) t).

Lemma same_bind {A B} (m : M Db A) (f g : A -> M Db B) d :
  wp m (fun a d' => same (f a) (g a) d') any_exn d -> same (m ≫= f) (m ≫= g) d.
Proof.
  intros Hm c t. specialize (Hm c t). unfold mbind, M_bind.
  destruct (m (mkWorld c (Active d) t)) as [[a|e] [c' x t']]; [|done].
  destruct Hm as (Hc & d' & Hx & Hs). cbn in Hc, Hx. subst. apply Hs.
Qed.

Lemma same_begin {A} (m m' : M Db A) d t :
  same m m' d -> begin m (mkWorld d NoTx t) = begin m' (mkWorld d NoTx t).
Proof. intros Hs. unfold begin. cbn. by rewrite Hs. Qed.

Section Quotas.
Context `{Env} `{Network} `{Crypto}.
Implicit Types (d : Db) (f g : option BusinessRateLimiter).

Lemma create_same o a role email ctx f g d :
  wf d -> ~ may_invite d o a role ->
  same (InviteService._create_invite o a role email ctx f)
       (InviteService._create_invite o a role email ctx g) d.
Proof.
  intros Hwf Hno. apply same_bind, wp_raise_if; intros H2; [done|].
  apply bool_decide_eq_false_1 in H2.
  apply same_bind, (wp_actor_membership_or (ForbiddenError "You are not allowed to invite users") o a);
    [done|by repeat eexists| |done].
  intros m Hm.
  apply same_bind, wp_raise_if; intros H3; [done|].
  apply same_bind, wp_raise_if; intros H4; [done|].
  destruct Hno. split; [done|]. exists m. split; [done|].
  apply negb_false_iff, bool_decide_eq_true_1 in H3. apply andb_false_iff in H4.
  destruct (Membership.role m); [by left|right|set_solver].
  split; [done|]. destruct H4 as [H4|H4]; by apply bool_decide_eq_false_1 in H4.
Qed.

Lemma resend_same o k a ctx f g d :
  wf d -> ~ (exists i, may_manage d o a k i) ->
  same (InviteService._resend_invite o k a ctx f) (InviteService._resend_invite o k a ctx g) d.
Proof.
  intros Hwf Hno.
  apply same_bind, (wp_actor_membership_or (ForbiddenError "You are not allowed to invite users") o a);
    [done|by repeat eexists| |done].
  intros m Hm. apply same_bind, wp_get_invite_for_organisation; [done| |].
  2:{ by apply same_bind, wp_raise. }
  intros i (Hi & Hk & Ho). apply same_bind, wp_ret.
  apply same_bind, wp_raise_if; intros H4; [done|].
  apply same_bind, wp_raise_if; intros H5; [done|].
  apply same_bind, wp_raise_if; intros H6; [done|].
  destruct Hno. exists i. split; [done|]. split; [done|]. split; [done|].
  apply negb_false_iff, bool_decide_eq_true_1 in H4. split; [done|].
  exists m. split; [done|]. apply bool_decide_eq_false_1 in H5. split; [done|].
  intros [Ha Hb]. apply andb_false_iff in H6.
  destruct H6 as [H6|H6]; apply bool_decide_eq_false_1 in H6; done.
Qed.

(** Outsiders cannot use up a tenant's quotas: a caller who may not invite into the
    organisation, or not manage the invite, gets an answer in which the business quotas play
    no part - whatever they would have answered, the outcome and the database are the same. *)
Theorem outsiders_spend_no_quota o a d t ctx f g :
  wf d ->
  (forall role email, ~ may_invite d o a role ->
     InviteService.create_invite o a role email ctx f (mkWorld d NoTx t)
     = InviteService.create_invite o a role email ctx g (mkWorld d NoTx t)) /\
  (forall k, ~ (exists i, may_manage d o a k i) ->
     InviteService.resend_invite o k a ctx f (mkWorld d NoTx t)
     = InviteService.resend_invite o k a ctx g (mkWorld d NoTx t)).
Proof.
  intros Hwf. split.
  - intros role email Hno. unfold InviteService.create_invite, mbind, M_bind.
    unfold ServiceGuards._ensure_audit_actor_matches, raise_if.
    destruct (negb _); [done|]. cbn [mret M_ret].
    by rewrite (same_begin _ _ d t (create_same o a role email ctx f g d Hwf Hno)).
  - intros k Hno. unfold InviteService.resend_invite, mbind, M_bind.
    unfold ServiceGuards._ensure_audit_actor_matches, raise_if.
    destruct (negb _); [done|]. cbn [mret M_ret].
    by rewrite (same_begin _ _ d t (resend_same o k a ctx f g d Hwf Hno)).
Qed.
End Quotas.

(** ** Handlers behind a check *)
Section Handlers.
Context {Items : RateLimitItems} {RedisServer : Redis} {Strategy : Limiter}.
Context `{Env} `{Network} `{IpNetworks}.
Import Checks.

(** Behind an endpoint's check under a policy that fails closed, either the limiter counted
    the caller, or the handler does not run: the answer is an error and the database is as
    it was. *)
Theorem closed_policy_guards_handler {A} req principal arg p secret s (handler : M Db A) d t :
  RateLimitingSettings.enabled (settings_of req) = true ->
  _effective_policy req arg s = (Returned p, s) ->
  RateLimitingSettings.identifier_secret (settings_of req) = Some secret ->
  RateLimitPolicy.fail_open p = false ->
  (exists s1, hit_call req p (identifier_of req (Some principal) secret) s = (Returned true, s1)) \/
  (exists e, rate_limited (consult (rate_limit_dependency arg req principal) s) handler
               (mkWorld d NoTx t) = (Err e, mkWorld d NoTx (S t))).
Proof.
  intros Hen Hp Hsecret Hclosed.
  destruct (rate_limit_dependency arg req principal s) as [o s'] eqn:Hr.
  destruct o as [[]|e].
  - left. unfold rate_limit_dependency, check_rate_limit in Hr. rewrite Hen in Hr. cbn [negb] in Hr.
    unfold mbind, RL_bind in Hr. rewrite Hp in Hr.
    unfold _identifier_secret_or_error in Hr. rewrite Hsecret in Hr. cbn [mret RL_ret] in Hr.
    destruct (check_identifier_counted _ _ _ _ _ Hclosed Hr) as (s1 & Hhit & _). by exists s1.
  - right. exists (to_exn e). unfold rate_limited, with_session, await_external, consult, mbind, M_bind.
    by rewrite Hr.
Qed.
End Handlers.

Module Witness.
Import Fixtures.

(** Dave, a stranger to the organisation, is refused whatever the quotas say. *)
Definition refuses : BusinessRateLimiter := fun _ => Err (OtherError "quota").
Definition lets_pass : BusinessRateLimiter := fun _ => Ok tt.

Lemma dave_is_no_member m : ~ membership_of db 4 10 m.
Proof.
  intros ((Hm & _) & Hu).
  assert (map_Forall (fun _ r => Membership.user_id r <> 4%N) (memberships db)) as Hall.
  { apply (bool_decide_unpack _). vm_compute. exact I. }
  exact (Hall _ m Hm Hu).
Qed.

Lemma outsiders_spend_no_quota_witness :
  InviteService.create_invite 10 4 MembershipRole.MEMBER "zoe@example.org" (context 4)
    (Some refuses) (mkWorld db NoTx 0)
  = InviteService.create_invite 10 4 MembershipRole.MEMBER "zoe@example.org" (context 4)
      (Some lets_pass) (mkWorld db NoTx 0).
Proof.
  apply (proj1 (outsiders_spend_no_quota 10 4 db 0 (context 4) (Some refuses) (Some lets_pass) db_wf)).
  intros (_ & m & (_ & _ & Hm) & _). exact (dave_is_no_member m Hm).
Defined.
End Witness.
