(* ===== verification/OutboxProofs.v ===== *)
(** The outbox: exclusive claims, fenced results, bounded retries, scrubbing of
    sensitive payloads, and that processing an event always resolves it. *)
From S2P Require Import Prelude Errors Session Schema Tables AuditLog Outbox Invites OutboxWorker Fixtures.
From S2P Require Import InviteProofs.

Section Outbox.
Context `{Env}.
Import OutboxEventRepository.
Implicit Types (d : Db) (E : exn -> Prop).

Lemma events_put (r : OutboxEvent.t) d :
  outbox_events (put_row r d) = <[OutboxEvent.id r := r]> (outbox_events d).
Proof. done. Qed.

Lemma valid_outbox_event d (e : OutboxEvent.t) : valid_row d e = true.
Proof. by apply valid_row_spec. Qed.

(** The database without the delivery claim of an event. *)
Definition unclaimed (id : UUID) d : Db :=
  set_outbox_delivery_claims (delete id (outbox_delivery_claims d)) d.

Lemma wf_unclaimed id d : wf d -> wf (unclaimed id d).
Proof. intros Hwf. apply wf_fewer_claims; [done|]. apply delete_subseteq. Qed.

Lemma wp_clear_delivery_claim id (Q : unit -> Db -> Prop) E d :
  wf d -> Q tt (unclaimed id d) -> wp (_clear_delivery_claim id) Q E d.
Proof.
  intros Hwf HQ. apply wp_delete_where.
  replace (set_rows _ d) with (unclaimed id d); [done|]. unfold unclaimed. simpl. f_equal.
  apply map_eq. intros k. rewrite map_lookup_filter.
  destruct (outbox_delivery_claims d !! k) as [c|] eqn:Hc; simpl.
  - pose proof (wf_pk (R := OutboxDeliveryClaim.t) d k c Hwf Hc) as Hid. simpl in Hid.
    destruct (decide (k = id)) as [->|Hk].
    + rewrite lookup_delete_eq. rewrite option_guard_False; [done|].
      by rewrite bool_decide_true.
    + rewrite lookup_delete_ne, Hc by done. rewrite option_guard_True; [done|].
      by rewrite bool_decide_false by congruence.
  - destruct (decide (k = id)) as [->|]; [by rewrite lookup_delete_eq|].
    by rewrite lookup_delete_ne.
Qed.

(** Writing an event's row never fails. *)
Lemma wp_write_event id (f : OutboxEvent.t -> OutboxEvent.t) e (Q : OutboxEvent.t -> Db -> Prop) E d :
  outbox_events d !! id = Some e -> Q (f e) (put_row (f e) d) ->
  wp (update_row_explicit id f) Q E d.
Proof.
  intros He HQ. apply wp_update_row_explicit.
  - intros Hn. simpl in Hn. congruence.
  - intros r _ Hv. by rewrite valid_outbox_event in Hv.
  - intros r Hr _. simpl in Hr. assert (r = e) as -> by congruence. done.
Qed.

Lemma wp_mark_processed e (Q : unit -> Db -> Prop) E d :
  wf d -> outbox_events d !! OutboxEvent.id e = Some e ->
  (forall n, Q tt (put_row (processed n e) (unclaimed (OutboxEvent.id e) d))) ->
  wp (mark_processed e) Q E d.
Proof.
  intros Hwf He HQ. apply wp_bind, wp_draw. intros i.
  apply wp_bind, wp_clear_delivery_claim; [done|].
  apply wp_bind, (wp_write_event _ _ e); [exact He|]. by apply wp_ret.
Qed.

Lemma wp_mark_failed_attempt e error (Q : unit -> Db -> Prop) E d :
  wf d -> outbox_events d !! OutboxEvent.id e = Some e ->
  (forall n, Q tt (put_row (failed_attempt n error e) (unclaimed (OutboxEvent.id e) d))) ->
  wp (mark_failed_attempt e error) Q E d.
Proof.
  intros Hwf He HQ. apply wp_bind, wp_draw. intros i.
  apply wp_bind, wp_clear_delivery_claim; [done|].
  apply wp_bind, (wp_write_event _ _ e); [exact He|]. by apply wp_ret.
Qed.

Lemma wp_select_event id (Q : option OutboxEvent.t -> Db -> Prop) E d :
  wf d -> Q (outbox_events d !! id) d ->
  wp (select_first (fun e => bool_decide (OutboxEvent.id e = id))) Q E d.
Proof.
  intros Hwf HQ. apply wp_select_first; [done|..].
  - intros e He Hid. apply bool_decide_eq_true_1 in Hid as <-. simpl in He. by rewrite He in HQ.
  - intros Hno. destruct (outbox_events d !! id) as [e|] eqn:He; [|done].
    specialize (Hno id e He). pose proof (wf_pk (R := OutboxEvent.t) d id e Hwf He) as Hid.
    simpl in Hid. by rewrite bool_decide_true in Hno.
Qed.

Lemma wp_select_claim id (Q : option OutboxDeliveryClaim.t -> Db -> Prop) E d :
  wf d -> Q (outbox_delivery_claims d !! id) d ->
  wp (select_first (fun c => bool_decide (OutboxDeliveryClaim.event_id c = id))) Q E d.
Proof.
  intros Hwf HQ. apply wp_select_first; [done|..].
  - intros c Hc Hid. apply bool_decide_eq_true_1 in Hid as <-. simpl in Hc. by rewrite Hc in HQ.
  - intros Hno. destruct (outbox_delivery_claims d !! id) as [c|] eqn:Hc; [|done].
    specialize (Hno id c Hc). pose proof (wf_pk (R := OutboxDeliveryClaim.t) d id c Hwf Hc) as Hid.
    simpl in Hid. by rewrite bool_decide_true in Hno.
Qed.

(** *** Claims *)

(** The event can be claimed for delivery. *)
Definition claimable d (id : UUID) (e : OutboxEvent.t) : Prop :=
  outbox_events d !! id = Some e /\ OutboxEvent.status e = OutboxStatus.PROCESSING /\
  outbox_delivery_claims d !! id = None.

Definition locked (n : datetime) (e : OutboxEvent.t) : OutboxEvent.t :=
  OutboxEvent.set_updated_at n (OutboxEvent.set_locked_at (Some n) e).

Definition after_claim d (id : UUID) (token : string) (n : datetime) (e : OutboxEvent.t) : Db :=
  put_row (locked n e) (put_row (OutboxDeliveryClaim.mk id token n) d).

Lemma wf_after_claim d id token n e :
  wf d -> outbox_events d !! id = Some e -> wf (after_claim d id token n e).
Proof.
  intros Hwf He. apply wf_put_row; [|apply valid_outbox_event].
  apply wf_put_row; [done|]. apply valid_row_spec. split; [|done]. simpl. apply has_row_true. by exists e.
Qed.

Lemma wp_claim_for_delivery id token (Q : option OutboxEvent.t -> Db -> Prop) E d :
  wf d ->
  (forall e n, claimable d id e -> Q (Some (locked n e)) (after_claim d id token n e)) ->
  ((forall e, ~ claimable d id e) -> Q None d) ->
  wp (claim_processing_event_for_delivery id token) Q E d.
Proof.
  intros Hwf HS HN. apply wp_bind, wp_draw. intros i. apply wp_bind, wp_select_event; [done|].
  destruct (outbox_events d !! id) as [e|] eqn:He.
  2:{ apply wp_ret, HN. intros e (He' & _). congruence. }
  destruct (decide (OutboxEvent.status e = OutboxStatus.PROCESSING)) as [Hs|Hs].
  2:{ rewrite bool_decide_false by done. apply wp_ret, HN. intros e' (He' & Hs' & _). congruence. }
  rewrite bool_decide_true by done. apply wp_bind, wp_select_claim; [done|].
  destruct (outbox_delivery_claims d !! id) as [c|] eqn:Hc.
  { apply wp_ret, HN. intros e' (_ & _ & Hc'). congruence. }
  apply wp_bind, wp_insert_row.
  - intros [Ht|Hv]; [simpl in Ht; rewrite Hc in Ht; by destruct Ht|].
    exfalso. apply not_true_iff_false in Hv. apply Hv, valid_row_spec. split; [|done].
    simpl. apply has_row_true. by exists e.
  - intros _ _. apply wp_bind, (wp_write_event _ _ e); [exact He|]. apply wp_ret.
    by apply HS.
Qed.

Lemma wp_get_delivery_claimed_event id token (Q : option OutboxEvent.t -> Db -> Prop) E d :
  wf d ->
  (forall e c, outbox_events d !! id = Some e -> OutboxEvent.id e = id ->
     OutboxEvent.status e = OutboxStatus.PROCESSING -> outbox_delivery_claims d !! id = Some c ->
     OutboxDeliveryClaim.claim_token c = token -> Q (Some e) d) ->
  ((forall c, outbox_delivery_claims d !! id = Some c -> OutboxDeliveryClaim.claim_token c = token ->
      forall e, outbox_events d !! id = Some e -> OutboxEvent.status e <> OutboxStatus.PROCESSING) ->
   Q None d) ->
  wp (get_delivery_claimed_event id token) Q E d.
Proof.
  intros Hwf HS HN. apply wp_bind, wp_get_db, wp_select_first; [done|..].
  - intros e He HP. simpl in He. split_checks.
    repeat match goal with Hb : bool_decide _ = true |- _ => apply bool_decide_eq_true_1 in Hb end.
    destruct (outbox_delivery_claims d !! OutboxEvent.id e) as [c|] eqn:Hc; [|done].
    apply (HS e c); [congruence|done|done|congruence|]. by apply String.eqb_eq.
  - intros Hno. apply HN. intros c Hc Ht e He Hs. specialize (Hno id e He). simpl in Hno.
    pose proof (wf_pk (R := OutboxEvent.t) d id e Hwf He) as Hid. simpl in Hid.
    rewrite Hid, Hc, !bool_decide_true in Hno by done. by rewrite Ht, String.eqb_refl in Hno.
Qed.

(** *** Payloads *)

Definition has_sensitive_key (payload : json) : bool :=
  match payload with
  | JObj fields => existsb (fun kv => is_sensitive_key kv.1) fields
  | _ => false
  end.

Lemma dict_set_keys k v fields :
  existsb (fun kv => is_sensitive_key kv.1) (dict_set k v fields)
  = is_sensitive_key k || existsb (fun kv => is_sensitive_key kv.1) fields.
Proof.
  induction fields as [|[k' v'] rest IH]; simpl; [done|].
  destruct (String.eqb k k') eqn:Hk; simpl.
  - apply String.eqb_eq in Hk as ->. by destruct (is_sensitive_key k').
  - rewrite IH. destruct (is_sensitive_key k), (is_sensitive_key k'); done.
Qed.

Lemma scrubbed_payload_safe payload : has_sensitive_key (scrubbed_payload payload) = false.
Proof.
  destruct payload as [| | | | |fields]; try done. simpl. rewrite dict_set_keys.
  change (is_sensitive_key "sensitive_payload_scrubbed") with false. simpl.
  induction fields as [|[k v] rest IH]; [done|]. simpl.
  destruct (is_sensitive_key k) eqn:Hk; simpl; [done|]. by rewrite Hk.
Qed.

Lemma scrub_safe e :
  is_invite_event e = true ->
  has_sensitive_key (OutboxEvent.payload_json (_scrub_sensitive_delivery_payload e)) = false.
Proof.
  intros Hi. unfold _scrub_sensitive_delivery_payload. rewrite Hi. apply scrubbed_payload_safe.
Qed.

Lemma scrub_fields e :
  let e' := _scrub_sensitive_delivery_payload e in
  OutboxEvent.id e' = OutboxEvent.id e /\ OutboxEvent.event_type e' = OutboxEvent.event_type e /\
  OutboxEvent.status e' = OutboxEvent.status e /\ OutboxEvent.attempts e' = OutboxEvent.attempts e /\
  OutboxEvent.max_attempts e' = OutboxEvent.max_attempts e /\
  OutboxEvent.next_attempt_at e' = OutboxEvent.next_attempt_at e /\
  OutboxEvent.locked_at e' = OutboxEvent.locked_at e /\
  OutboxEvent.last_error e' = OutboxEvent.last_error e.
Proof. unfold _scrub_sensitive_delivery_payload. by destruct (is_invite_event e). Qed.

End Outbox.

(** ** The worker *)
Section Worker.
Context `{Env} `{Crypto} `{Delivery}.
Import OutboxEventRepository OutboxWorker.
Implicit Types (d : Db) (E : exn -> Prop).

(** A pending invite that has expired is ended, one that has not is left alone. *)
Lemma wp_expire_own i n (Q : option Invite.t -> Db -> Prop) E d :
  wf d -> invites d !! Invite.id i = Some i -> Invite.status i = InviteStatus.PENDING ->
  (forall n', expired_by i n -> valid_row d (with_status InviteStatus.EXPIRED n' i) = true ->
     Q (Some (with_status InviteStatus.EXPIRED n' i))
       (put_row (with_status InviteStatus.EXPIRED n' i) d)) ->
  (~ expired_by i n -> Q None d) ->
  wp (InviteRepository.mark_pending_invite_expired_by_id (Invite.id i) (Invite.organisation_id i) n)
    Q E d.
Proof.
  intros Hwf Hi Hp HS HN. apply wp_end_pending; [done| |done|..].
  - apply (by_id_single d _ (Invite.id i)). intros j Hj.
    unfold InviteRepository.by_id_and_organisation in Hj. split_checks.
    by eapply bool_decide_eq_true_1.
  - intros j n' Hj HP Hv. unfold InviteRepository.by_id_and_organisation in HP. split_checks.
    repeat match goal with Hb : bool_decide _ = true |- _ => apply bool_decide_eq_true_1 in Hb end.
    assert (j = i) as -> by congruence. apply HS; [|done].
    match goal with He : InviteRepository.expired_at n i = true |- _ =>
      revert He; unfold InviteRepository.expired_at, expired_by end.
    destruct (Invite.expires_at i); [by intros ?%Z.leb_le|done].
  - intros Hno. apply HN. intros Hex. specialize (Hno _ i Hi).
    unfold InviteRepository.by_id_and_organisation in Hno.
    rewrite !bool_decide_true, (proj2 (is_pending_true i) Hp) in Hno by done.
    simpl in Hno. revert Hno Hex. unfold InviteRepository.expired_at, expired_by.
    destruct (Invite.expires_at i); [|done]. rewrite Z.leb_gt. lia.
Qed.

(** The event carries a well-formed payload for an invite. *)
Definition addressed d (e : OutboxEvent.t) (p : InviteOutboxPayload.t) (i : Invite.t) : Prop :=
  is_invite_event e = true /\
  parse_invite_outbox_payload (OutboxEvent.payload_json e) = Some p /\
  invites d !! InviteOutboxPayload.invite_id p = Some i.

(** Its payload does not lead to a token of its invite. *)
Definition undeliverable d (e : OutboxEvent.t) : Prop :=
  forall p i raw, addressed d e p i ->
    fernet_decrypt (InviteOutboxPayload.encrypted_raw_token p) = Some raw ->
    sha256_hexdigest raw <> Invite.token_hash i.

(** What the claiming transaction decides about a claimable event [e], and the
    database it leaves when the event was locked at [n]. *)
Definition decides_on d (e : OutboxEvent.t) (action : Action) (claimed d' : Db) : Prop :=
  match action with
  | Skip => False
  | MarkProcessed _ =>
      (d' = claimed /\
       (is_invite_event e = false \/
        exists p i, addressed d e p i /\ (is_pending i = false \/ invite_delivery_enabled = false))) \/
      (exists p i n n', addressed d e p i /\ is_pending i = true /\ expired_by i (clock n) /\
         d' = put_row (with_status InviteStatus.EXPIRED n' i) claimed)
  | Retry _ _ => d' = claimed /\ is_invite_event e = true /\ undeliverable d e
  | Deliver _ raw i =>
      d' = claimed /\ is_pending i = true /\ (exists n, ~ expired_by i (clock n)) /\
      invite_delivery_enabled = true /\ sha256_hexdigest raw = Invite.token_hash i /\
      exists p, addressed d e p i /\
        fernet_decrypt (InviteOutboxPayload.encrypted_raw_token p) = Some raw
  end.

Definition claim_token_of (action : Action) : option string :=
  match action with
  | Skip => None
  | MarkProcessed t | Retry t _ | Deliver t _ _ => Some t
  end.

Definition decides d (id : UUID) (token : string) (action : Action) d' : Prop :=
  (action = Skip /\ d' = d /\ forall e, ~ claimable d id e) \/
  (exists e n, claimable d id e /\ claim_token_of action = Some token /\
     decides_on d e action (after_claim d id token n e) d').

Lemma wp_select_invite id (Q : option Invite.t -> Db -> Prop) E d :
  wf d -> Q (invites d !! id) d ->
  wp (select_one_or_none (fun i => bool_decide (Invite.id i = id))) Q E d.
Proof.
  intros Hwf HQ. apply (wp_select_pk id); [done|done|..]; simpl.
  - intros i Hi _. by rewrite Hi in HQ.
  - intros Hi. by rewrite Hi in HQ.
Qed.

Lemma wp_claimed_context id token d :
  wf d ->
  wp (_claimed_event_context id token) (decides d id token) (fun _ => False) d.
Proof.
  intros Hwf. apply wp_bind, wp_claim_for_delivery;
    [done| |by intros; apply wp_ret; left].
  intros e n Hcl. pose proof Hcl as (He & Hs & _). simpl.
  rewrite bool_decide_false
    by (rewrite Hs; by intros [|[|?%elem_of_nil]%elem_of_cons]%elem_of_cons).
  change (is_invite_event (locked n e)) with (is_invite_event e).
  assert (Hret : forall a d', claim_token_of a = Some token ->
    decides_on d e a (after_claim d id token n e) d' -> wp (mret a) (decides d id token) (fun _ => False) d')
    by (intros a d' Ht Ha; apply wp_ret; right; by exists e, n).
  destruct (is_invite_event e) eqn:Hi; simpl; [|apply Hret; [done|]; left; by auto].
  assert (Hwf' : wf (after_claim d id token n e)) by by apply wf_after_claim.
  assert (Hretry : forall r, undeliverable d e ->
    wp (mret (Retry token r)) (decides d id token) (fun _ => False) (after_claim d id token n e))
    by (intros r Hu; by apply Hret).
  change (OutboxEvent.payload_json (locked n e)) with (OutboxEvent.payload_json e).
  destruct (parse_invite_outbox_payload _) as [p|] eqn:Hp;
    [|apply Hretry; intros p i raw (_ & Hp' & _); congruence].
  apply wp_bind, wp_select_invite; [done|]. simpl invites.
  destruct (invites d !! _) as [i|] eqn:Hinv;
    [|apply Hretry; intros p' i raw (_ & Hp' & Hi'); congruence].
  pose proof (wf_pk (R := Invite.t) d _ i Hwf Hinv) as Hid. simpl in Hid.
  destruct (decide (Invite.status i = InviteStatus.PENDING)) as [Hpend|Hpend];
    pose proof Hpend as Hpend'; rewrite <- is_pending_true in Hpend'.
  2:{ rewrite bool_decide_false by done. apply Hret; [done|]. left. split; [done|]. right.
      exists p, i. split; [done|]. left. by apply not_true_iff_false. }
  rewrite bool_decide_true by done.
  apply wp_bind, wp_draw. intros j. apply wp_bind, wp_expire_own; [done|simpl; by rewrite Hid|done|..].
  - intros n' Hex _. apply Hret; [done|]. right. by exists p, i, j, n'.
  - intros Hex. simpl. destruct invite_delivery_enabled eqn:Hen; simpl;
      [|apply Hret; [done|]; left; split; [done|]; right; exists p, i; split; [done|]; by right].
    destruct (fernet_decrypt _) as [raw|] eqn:Hd;
      [|apply Hretry; intros p' i' raw (_ & Hp' & _) Hd'; congruence].
    destruct (String.eqb _ _) eqn:Hh; simpl.
    2:{ apply Hretry. intros p' i' raw' (_ & Hp' & Hi') Hd'. apply String.eqb_neq in Hh. congruence. }
    apply Hret; [done|]. apply String.eqb_eq in Hh. split; [done|]. split; [done|]. split; [by exists j|].
    split; [done|]. split; [done|]. by exists p.
Qed.

(** *** Lemmas on what is decided *)

Lemma decides_on_wf d e n id token action d' :
  wf d -> claimable d id e -> decides_on d e action (after_claim d id token n e) d' -> wf d'.
Proof.
  intros Hwf (He & _) Hdec. assert (Hc : wf (after_claim d id token n e)) by by apply wf_after_claim.
  destruct action as [|t|t r|t raw i]; [done|..|by destruct Hdec as [-> _]|by destruct Hdec as [-> _]].
  destruct Hdec as [[-> _]|(p & i & m & m' & (_ & _ & Hi) & _ & _ & ->)]; [done|].
  pose proof (wf_pk (R := Invite.t) d _ i Hwf Hi) as Hid. simpl in Hid.
  apply wf_put_row; [done|]. apply valid_with_status; [done|simpl; by rewrite Hid|done].
Qed.

(** The outbox tables after the claiming transaction. *)
Lemma decides_on_outbox d e n id token action d' :
  decides_on d e action (after_claim d id token n e) d' ->
  outbox_events d' = <[OutboxEvent.id e := locked n e]> (outbox_events d) /\
  outbox_delivery_claims d' = <[id := OutboxDeliveryClaim.mk id token n]> (outbox_delivery_claims d).
Proof.
  destruct action as [|t|t r|t raw i]; [done|..|by intros [-> _]|by intros [-> _]].
  by intros [[-> _]|(p & i & m & m' & _ & _ & _ & ->)].
Qed.

(** After the claiming transaction nobody can claim the event. *)
Lemma decides_shut d id token action d' :
  decides d id token action d' -> forall e, ~ claimable d' id e.
Proof.
  intros [(_ & -> & Hno)|(e & n & _ & _ & Hdec)]; [done|]. intros e' (_ & _ & Hc).
  apply decides_on_outbox in Hdec as [_ Hcl]. by rewrite Hcl, lookup_insert_eq in Hc.
Qed.

Lemma decides_wf d id token action d' : wf d -> decides d id token action d' -> wf d'.
Proof.
  intros Hwf [(_ & -> & _)|(e & n & Hcl & _ & Hdec)]; [done|]. by eapply decides_on_wf.
Qed.

Lemma commits_claimed_context id d :
  wf d ->
  commits (_get_claimed_event_context id)
    (fun action d' => exists i, decides d id (token_urlsafe i) action d') (fun _ => False) d.
Proof.
  intros Hwf. eapply commits_bind; [apply (commits_draw _ (fun t d' => (exists i, t = token_urlsafe i) /\ d' = d)); by eauto|].
  intros t d' [[i ->] ->]. apply commits_begin. eapply wp_mono; [by apply wp_claimed_context| |done].
  intros a d' Hdec. by exists i.
Qed.

(** *** Results *)

(** The event is being processed under this claim token. *)
Definition claimed_by d (id : UUID) (token : string) : Prop :=
  (exists e, outbox_events d !! id = Some e /\ OutboxEvent.status e = OutboxStatus.PROCESSING) /\
  exists c, outbox_delivery_claims d !! id = Some c /\ OutboxDeliveryClaim.claim_token c = token.

(** The event once its result is known: [None] for success, [Some error] otherwise. *)
Definition settle (error : option string) (n : datetime) (e : OutboxEvent.t) : OutboxEvent.t :=
  match error with None => processed n e | Some r => failed_attempt n r e end.

Lemma wp_apply_result id token error (Q : unit -> Db -> Prop) d :
  wf d ->
  (forall e n, claimed_by d id token -> outbox_events d !! id = Some e ->
     Q tt (put_row (settle error n e) (unclaimed id d))) ->
  (~ claimed_by d id token -> Q tt d) ->
  commits (_apply_result id token error) Q (fun _ => False) d.
Proof.
  intros Hwf HS HN. apply commits_begin, wp_bind, wp_get_delivery_claimed_event; [done|..].
  - intros e c He Hid Hs Hc Ht.
    assert (Hcl : claimed_by d id token) by (split; [by exists e|by exists c]).
    assert (HQ : forall n, Q tt (put_row (settle error n e) (unclaimed (OutboxEvent.id e) d)))
      by (intros n; rewrite Hid; by apply HS).
    rewrite <- Hid in He.
    destruct error as [r|]; [apply wp_mark_failed_attempt|apply wp_mark_processed]; done.
  - intros Hno. apply wp_ret, HN. intros ((e & He & Hs) & c & Hc & Ht).
    by apply (Hno c Hc Ht e He).
Qed.

Lemma failed_attempt_fields n error e :
  let e' := failed_attempt n error e in
  OutboxEvent.attempts e' = OutboxEvent.attempts e + 1 /\ OutboxEvent.locked_at e' = None /\
  OutboxEvent.last_error e' = Some (Text.truncate 500 error) /\
  ((OutboxEvent.attempts e + 1 < OutboxEvent.max_attempts e /\
    OutboxEvent.status e' = OutboxStatus.PENDING /\
    OutboxEvent.payload_json e' = OutboxEvent.payload_json e /\
    OutboxEvent.next_attempt_at e' = Some (n + seconds (2 ^ (OutboxEvent.attempts e + 1)))) \/
   (OutboxEvent.max_attempts e <= OutboxEvent.attempts e + 1 /\
    OutboxEvent.status e' = OutboxStatus.FAILED /\
    (is_invite_event e = true -> has_sensitive_key (OutboxEvent.payload_json e') = false))).
Proof.
  unfold failed_attempt. cbv zeta.
  change (OutboxEvent.max_attempts (OutboxEvent.set_last_error _ _)) with (OutboxEvent.max_attempts e).
  destruct (Z.leb_spec (OutboxEvent.max_attempts e) (OutboxEvent.attempts e + 1));
    [|do 3 (split; [done|]); by left].
  assert (Hsafe := scrubbed_payload_safe (OutboxEvent.payload_json e)). revert Hsafe.
  unfold _scrub_sensitive_delivery_payload.
  change (is_invite_event (OutboxEvent.set_next_attempt_at _ _)) with (is_invite_event e).
  destruct (is_invite_event e); intros Hsafe; do 3 (split; [done|]); by right.
Qed.

Lemma settle_status error n e : OutboxEvent.status (settle error n e) <> OutboxStatus.PROCESSING.
Proof.
  destruct error as [r|]; cbn [settle].
  - destruct (failed_attempt_fields n r e) as (_ & _ & _ & [(_ & -> & _)|(_ & -> & _)]); done.
  - unfold processed, _scrub_sensitive_delivery_payload. by destruct (is_invite_event _).
Qed.

Lemma settle_id error n e : OutboxEvent.id (settle error n e) = OutboxEvent.id e.
Proof.
  destruct error as [r|]; simpl; [unfold failed_attempt|unfold processed];
    cbv zeta; [destruct (Z.leb _ _)|]; unfold _scrub_sensitive_delivery_payload; try done;
    by destruct (is_invite_event _).
Qed.

(** Why an event may be marked processed: it is no invite event, or the invite
    it addresses no longer waits for its token, or delivery is switched off, or
    the token that matches the invite's hash was delivered. *)
Definition done_because d (e : OutboxEvent.t) : Prop :=
  is_invite_event e = false \/
  exists p i, addressed d e p i /\
    (is_pending i = false \/ (exists n, expired_by i (clock n)) \/ invite_delivery_enabled = false \/
     exists k raw, deliver k i raw = Ok tt /\ sha256_hexdigest raw = Invite.token_hash i).

(** The outbox after the event [id] was settled. *)
Definition settled d (id : UUID) (e : OutboxEvent.t) (error : option string) d' : Prop :=
  exists n m, outbox_events d' = <[id := settle error m (locked n e)]> (outbox_events d) /\
    outbox_delivery_claims d' = outbox_delivery_claims d.

Definition resolves d (id : UUID) d' : Prop :=
  (d' = d /\ forall e, ~ claimable d id e) \/
  exists e error, claimable d id e /\ settled d id e error d' /\ (error = None -> done_because d e).

Lemma commits_settle d id e n token action error d' :
  wf d -> claimable d id e -> decides_on d e action (after_claim d id token n e) d' ->
  (error = None -> done_because d e) ->
  commits (_apply_result id token error) (fun _ => resolves d id) (fun _ => False) d'.
Proof.
  intros Hwf Hcl Hdec Hwhy. pose proof (decides_on_outbox _ _ _ _ _ _ _ Hdec) as [He Hc].
  pose proof Hcl as (Hd & Hs & Hno).
  pose proof (wf_pk (R := OutboxEvent.t) d id e Hwf Hd) as Hid. simpl in Hid. rewrite Hid in He.
  apply wp_apply_result; [by eapply decides_on_wf|..].
  - intros e' m _ He'. rewrite He, lookup_insert_eq in He'. injection He' as <-.
    right. exists e, error. split; [done|]. split; [|done]. exists n, m. split.
    + rewrite events_put, settle_id. simpl. rewrite He, Hid. apply insert_insert_eq.
    + simpl. rewrite Hc. by apply delete_insert_id.
  - intros Hnot. destruct Hnot. split; [|by exists (OutboxDeliveryClaim.mk id token n); rewrite Hc, lookup_insert_eq].
    exists (locked n e). by rewrite He, lookup_insert_eq.
Qed.

Lemma commits_try_except {A} (m : M Db A) h (Q : A -> Db -> Prop) E E' d :
  commits m Q E' d -> (forall e, E' e -> commits (h e) Q E d) ->
  commits (try_except m h) Q E d.
Proof.
  intros Hm Hh t. specialize (Hm t). unfold try_except.
  destruct (m _) as [[a|e] [c x t']]; [done|]. simpl in Hm. destruct Hm as (-> & -> & He).
  by apply Hh.
Qed.

Lemma commits_process id d :
  wf d -> commits (_process_outbox_event id) (fun _ => resolves d id) (fun _ => False) d.
Proof.
  intros Hwf. eapply commits_bind; [by apply commits_claimed_context|].
  intros action d' [i [(-> & -> & Hno)|(e & n & Hcl & Ht & Hdec)]]; [by apply commits_ret; left|].
  pose proof Hdec as Hdec'. destruct action as [|t|t r|t raw inv]; [done|..]; injection Ht as ->.
  - eapply commits_settle; [done..|]. intros _.
    destruct Hdec' as [[_ [Hi|(p & j & Ha & Hj)]]|(p & j & m & m' & Ha & _ & Hx & _)]; [by left|..];
      right; exists p, j; (split; [done|]); [by destruct Hj; auto|]. right. left. by exists m.
  - by eapply commits_settle.
  - destruct Hdec' as (_ & _ & _ & _ & Hh & p & Ha & _).
    eapply commits_bind; [apply (commits_try_except _ _ (fun r d'' => d'' = d' /\
      (r = None -> exists k, deliver k inv raw = Ok tt)) _ (fun _ => True))|].
    + apply commits_bind_ret, commits_await_external; [|done]. intros k [] Hk. split; [done|].
      by exists k.
    + intros x _. by apply commits_ret.
    + intros r d'' [-> Hr]. eapply commits_settle; [done..|]. intros ->.
      destruct (Hr eq_refl) as [k Hk]. right. exists p, inv. split; [done|]. do 3 right. by exists k, raw.
Qed.

End Worker.

(** ** The dispatcher *)
Section Dispatcher.
Context `{Env} (send : nat -> UUID -> result unit).
Import OutboxEventRepository Dispatcher.
Implicit Types (d : Db) (E : exn -> Prop) (l : list OutboxEvent.t).

(** The outbox after each event of [l] was rewritten by [g] and lost its claim. *)
Definition rewrites (g : datetime -> OutboxEvent.t -> OutboxEvent.t) l d d' : Prop :=
  (forall e, e ∈ l -> exists n, outbox_events d' !! OutboxEvent.id e = Some (g n e)) /\
  (forall e, e ∈ l -> outbox_delivery_claims d' !! OutboxEvent.id e = None) /\
  (forall k, k ∉ OutboxEvent.id <$> l ->
     outbox_events d' !! k = outbox_events d !! k /\
     outbox_delivery_claims d' !! k = outbox_delivery_claims d !! k).

Definition present l d : Prop := forall e, e ∈ l -> outbox_events d !! OutboxEvent.id e = Some e.

Lemma wf_rewritten d e e' :
  wf d -> outbox_events d !! OutboxEvent.id e = Some e -> OutboxEvent.id e' = OutboxEvent.id e ->
  wf (put_row e' (unclaimed (OutboxEvent.id e) d)).
Proof. intros Hwf He Hid. apply wf_put_row; [by apply wf_unclaimed|apply valid_outbox_event]. Qed.

Lemma wp_rewrite_each {B} g (ret : datetime -> OutboxEvent.t -> B) (body : OutboxEvent.t -> M Db B) l :
  (forall n e, OutboxEvent.id (g n e) = OutboxEvent.id e) ->
  (forall e (Q : B -> Db -> Prop) E d, wf d -> outbox_events d !! OutboxEvent.id e = Some e ->
     (forall n, Q (ret n e) (put_row (g n e) (unclaimed (OutboxEvent.id e) d))) -> wp (body e) Q E d) ->
  NoDup (OutboxEvent.id <$> l) ->
  forall d, wf d -> present l d ->
  wp (for_each l body)
    (fun rs d' => wf d' /\ rewrites g l d d' /\
       Forall2 (fun e r => exists n, r = ret n e /\ outbox_events d' !! OutboxEvent.id e = Some (g n e)) l rs)
    (fun _ => False) d.
Proof.
  intros Hg Hbody. induction l as [|e l IH]; intros HN d Hwf Hp; simpl.
  { apply wp_ret. split; [done|]. split; [|done]. split; [|split]; [by intros ? ?%elem_of_nil..|done]. }
  inversion HN as [|? ? Hnin HN']; subst.
  assert (He : outbox_events d !! OutboxEvent.id e = Some e) by (apply Hp; by left).
  apply wp_bind, Hbody; [done..|]. intros n. set (d1 := put_row _ _).
  assert (Hwf1 : wf d1) by (apply wf_rewritten; [done..|apply Hg]).
  assert (Hd1 : outbox_events d1 = <[OutboxEvent.id e := g n e]> (outbox_events d))
    by (unfold d1; by rewrite events_put, Hg).
  apply wp_bind. eapply wp_mono; [apply IH; [done..|]| |done].
  { intros x Hx. rewrite Hd1, lookup_insert_ne by (intros Heq; apply Hnin; rewrite Heq; by apply list_elem_of_fmap_2).
    apply Hp. by right. }
  intros rs d' (Hwf' & (Hin & Hcl & Hout) & HF). apply wp_ret.
  destruct (Hout _ Hnin) as [He' Hc']. rewrite Hd1, lookup_insert_eq in He'.
  split; [done|]. split; [|constructor; [by exists n|done]]. split; [|split].
  - intros x [->|Hx]%elem_of_cons; [by exists n|by apply Hin].
  - intros x [->|Hx]%elem_of_cons; [|by apply Hcl]. rewrite Hc'. simpl. apply lookup_delete_eq.
  - intros k Hk. rewrite fmap_cons, not_elem_of_cons in Hk. destruct Hk as [Hk Hkl].
    destruct (Hout k Hkl) as [-> ->]. rewrite Hd1, lookup_insert_ne by done. split; [done|].
    simpl. by rewrite lookup_delete_ne.
Qed.

(** A batch of the rows of a query. *)
Lemma batch_present P R `{forall x y, Decision (R x y)} n d :
  wf d ->
  let l := take n (merge_sort R (rows_where d P)) in
  present l d /\ NoDup (OutboxEvent.id <$> l) /\ (forall e, e ∈ l -> P e = true) /\ (length l <= n)%nat.
Proof.
  intros Hwf l. assert (Hl : forall e, e ∈ l -> outbox_events d !! OutboxEvent.id e = Some e /\ P e = true).
  { intros e He. pose proof (elem_of_rows_where_wf d P e Hwf) as Hw. simpl in Hw. apply Hw. by eapply batch_subset. }
  split; [intros e He; by apply Hl|]. split; [|split; [intros e He; by apply Hl|apply batch_length]].
  apply NoDup_fmap_2_strong; [|by apply batch_NoDup, NoDup_rows_where].
  intros e e' He He' Hid. apply Hl in He as [He _], He' as [He' _]. congruence.
Qed.

Definition claimed (n : datetime) (e : OutboxEvent.t) : OutboxEvent.t :=
  OutboxEvent.set_updated_at n (OutboxEvent.set_locked_at (Some n)
    (OutboxEvent.set_status OutboxStatus.PROCESSING e)).

Lemma wp_claim_due limit (Q : list OutboxEvent.t -> Db -> Prop) E d :
  wf d ->
  (forall l i d', present l d -> NoDup (OutboxEvent.id <$> l) -> (length l <= limit)%nat ->
     (forall e, e ∈ l -> is_due (clock i) e = true) -> wf d' ->
     rewrites (fun _ => claimed (clock i)) l d d' -> Q (claimed (clock i) <$> l) d') ->
  wp (claim_due_events limit) Q E d.
Proof.
  intros Hwf HQ. apply wp_bind, wp_draw. intros i. apply wp_bind, wp_select.
  destruct (batch_present (is_due (clock i)) oldest_first limit d Hwf) as (Hp & HN & Hdue & Hlen).
  eapply wp_mono; [eapply (wp_rewrite_each (fun _ => claimed (clock i)) (fun _ => claimed (clock i)))| |];
    [done| |exact HN|done|exact Hp| |done].
  - intros e Q' E' d1 Hwf1 He HQ'. apply wp_bind, wp_clear_delivery_claim; [done|].
    apply (wp_write_event _ _ e); [exact He|]. by apply (HQ' 0).
  - intros rs d' (Hwf' & Hr & HF).
    assert (rs = claimed (clock i) <$> take limit (merge_sort oldest_first (rows_where d (is_due (clock i))))) as ->.
    { clear -HF. induction HF as [|e r l rs (n & -> & _) HF IH]; [done|]. simpl. by rewrite IH. }
    by apply (HQ _ i).
Qed.

(** A claimed event was handed to the broker as it was, or went back for a retry. *)
Definition handed_over d (e : OutboxEvent.t) : Prop :=
  (outbox_events d !! OutboxEvent.id e = Some e /\ exists k, send k (OutboxEvent.id e) = Ok tt) \/
  (exists n r, outbox_events d !! OutboxEvent.id e
     = Some (failed_attempt n ("enqueue_failed:" ++ r) e)).

Lemma failed_attempt_id n r e : OutboxEvent.id (failed_attempt n r e) = OutboxEvent.id e.
Proof.
  unfold failed_attempt. cbv zeta. destruct (Z.leb _ _); [|done].
  unfold _scrub_sensitive_delivery_payload. by destruct (is_invite_event _).
Qed.

(** What handling one event may change. *)
Definition touches_only (e : OutboxEvent.t) d d' : Prop :=
  (forall k, k <> OutboxEvent.id e -> outbox_events d' !! k = outbox_events d !! k) /\
  (forall k, outbox_delivery_claims d !! k = None -> outbox_delivery_claims d' !! k = None).

Lemma commits_enqueue_or_release e d :
  wf d -> outbox_events d !! OutboxEvent.id e = Some e ->
  OutboxEvent.status e = OutboxStatus.PROCESSING ->
  commits (enqueue_or_release send e)
    (fun _ d' => wf d' /\ handed_over d' e /\ touches_only e d d') (fun _ => False) d.
Proof.
  intros Hwf He Hs. eapply commits_try_except with (E' := fun _ => True).
  { apply commits_bind_ret, commits_await_external; [|done]. intros k [] Hk.
    split; [done|]. split; [left; by eauto|]. split; by auto. }
  intros x _. apply commits_bind_ret, commits_begin, wp_bind, wp_select_event; [done|].
  rewrite He. unfold release_processing_event_for_retry. rewrite bool_decide_true by done. simpl.
  apply wp_mark_failed_attempt; [done..|]. intros n.
  split; [apply wf_rewritten; [done..|apply failed_attempt_id]|]. split.
  - right. exists n, (type_name x). rewrite events_put, failed_attempt_id. apply lookup_insert_eq.
  - split; intros k Hk; [by rewrite events_put, failed_attempt_id, lookup_insert_ne|].
    apply lookup_delete_None. by right.
Qed.

Lemma commits_enqueue_each l :
  NoDup (OutboxEvent.id <$> l) ->
  forall d, wf d -> present l d -> (forall e, e ∈ l -> OutboxEvent.status e = OutboxStatus.PROCESSING) ->
  commits (for_each l (enqueue_or_release send))
    (fun bs d' => length bs = length l /\ (forall e, e ∈ l -> handed_over d' e) /\
       (forall k, k ∉ OutboxEvent.id <$> l -> outbox_events d' !! k = outbox_events d !! k) /\
       (forall k, outbox_delivery_claims d !! k = None -> outbox_delivery_claims d' !! k = None))
    (fun _ => False) d.
Proof.
  induction l as [|e l IH]; intros HN d Hwf Hp Hs; simpl.
  { apply commits_ret. split; [done|]. split; [by intros ? ?%elem_of_nil|]. by split. }
  inversion HN as [|? ? Hnin HN']; subst.
  eapply commits_bind; [apply commits_enqueue_or_release; [done|apply Hp; by left|apply Hs; by left]|].
  intros b d1 (Hwf1 & He & Hev & Hcl). apply commits_bind_ret.
  eapply commits_mono; [apply IH; [done..| |]| |done].
  - intros x Hx. rewrite Hev; [apply Hp; by right|]. intros Heq. apply Hnin. rewrite <- Heq.
    by apply list_elem_of_fmap_2.
  - intros x Hx. apply Hs. by right.
  - intros bs d' (Hlen & Hin & Hout & Hc). split; [simpl; by rewrite Hlen|]. split; [|split; [|by auto]].
    + intros x [->|Hx]%elem_of_cons; [|by apply Hin]. unfold handed_over. by rewrite (Hout _ Hnin).
    + intros k Hk. rewrite not_elem_of_cons in Hk. destruct Hk as [Hk Hkl].
      rewrite (Hout k Hkl). by apply Hev.
Qed.

Lemma filter_true_length (bs : list bool) : (length (List.filter (fun b => b) bs) <= length bs)%nat.
Proof. induction bs as [|[] bs IH]; simpl; lia. Qed.

Lemma wp_recover_stale timeout limit d :
  wf d ->
  wp (OutboxEventRepository.recover_stale_processing_events timeout limit)
    (fun l d' => exists i, let P := is_stale (clock i - seconds timeout) in
       present l d /\ (length l <= limit)%nat /\ (forall e, e ∈ l -> P e = true) /\
       rewrites (fun n => failed_attempt n "stale_processing_recovered") l d d' /\
       ((length l < limit)%nat -> forall e, outbox_events d !! OutboxEvent.id e = Some e ->
          P e = true -> e ∈ l))
    (fun _ => False) d.
Proof.
  intros Hwf. apply wp_bind, wp_draw. intros i. apply wp_bind, wp_select.
  set (P := is_stale _). destruct (batch_present P locked_first limit d Hwf) as (Hp & HN & HP & Hlen).
  set (l := take _ _) in *. apply wp_bind.
  eapply wp_mono; [eapply (wp_rewrite_each (fun n => failed_attempt n "stale_processing_recovered")
    (fun _ _ => tt)); [| |exact HN|done|exact Hp]| |done].
  - intros. apply failed_attempt_id.
  - intros e Q' E' d1 Hwf1 He HQ'. by apply wp_mark_failed_attempt.
  - intros rs d' (_ & Hr & _). apply wp_ret. exists i. split; [done|]. split; [done|]. split; [done|].
    split; [done|]. intros Hlt e He HPe. apply batch_all; [done|].
    pose proof (elem_of_rows_where_wf d P e Hwf) as Hw. simpl in Hw. by apply Hw.
Qed.

End Dispatcher.

(** ** Properties *)
Section Properties.
Context `{Env} `{Crypto} `{Delivery} (send : nat -> UUID -> result unit).
Import OutboxEventRepository OutboxWorker.
Implicit Types (d : Db).

Lemma truncate_length n s : (String.length (Text.truncate n s) <= n)%nat.
Proof. revert s. induction n as [|n IH]; intros [|c s]; simpl; try lia. specialize (IH s). lia. Qed.

(** A failed attempt counts once, unlocks the event, drops its delivery claim
    and stores at most 500 characters of the error. The event goes back to
    PENDING with its payload and a delay of 2^attempts seconds, until the
    attempts are used up: then it is FAILED, never due again, and an invite
    event has lost its address and token. Other events are not touched, and the
    update cannot fail. *)
Theorem mark_failed_attempt_spec e error d :
  wf d -> outbox_events d !! OutboxEvent.id e = Some e ->
  wp (mark_failed_attempt e error)
    (fun _ d' => exists n e', outbox_events d' = <[OutboxEvent.id e := e']> (outbox_events d) /\
       outbox_delivery_claims d' = delete (OutboxEvent.id e) (outbox_delivery_claims d) /\
       OutboxEvent.attempts e' = OutboxEvent.attempts e + 1 /\
       OutboxEvent.locked_at e' = None /\
       (exists r, OutboxEvent.last_error e' = Some r /\ (String.length r <= 500)%nat) /\
       if decide (OutboxEvent.attempts e + 1 < OutboxEvent.max_attempts e)
       then OutboxEvent.status e' = OutboxStatus.PENDING /\
            OutboxEvent.payload_json e' = OutboxEvent.payload_json e /\
            forall t, is_due t e' = (n + seconds (2 ^ (OutboxEvent.attempts e + 1)) <=? t)
       else OutboxEvent.status e' = OutboxStatus.FAILED /\ (forall t, is_due t e' = false) /\
            (is_invite_event e = true -> has_sensitive_key (OutboxEvent.payload_json e') = false))
    (fun _ => False) d.
Proof.
  intros Hwf He. apply wp_mark_failed_attempt; [done..|]. intros n.
  exists n, (failed_attempt n error e). rewrite events_put, failed_attempt_id. split; [done|].
  split; [done|]. destruct (failed_attempt_fields n error e) as (Ha & Hl & Hr & Hs).
  rewrite Ha, Hl, Hr. do 2 (split; [done|]).
  split; [eexists; split; [done|apply truncate_length]|].
  destruct (decide _) as [Hlt|Hge]; [destruct Hs as [(_ & Hs & Hp & Hn)|(Hx & _)]; [|lia]|
    destruct Hs as [(Hx & _)|(_ & Hs & Hsafe)]; [lia|]].
  - do 2 (split; [done|]). intros t. unfold is_due. by rewrite Hs, Hn.
  - split; [done|]. split; [|done]. intros t. unfold is_due. by rewrite Hs.
Qed.

(** C35. Claiming an event for delivery never fails and is exclusive: whatever the
    first claim decides, a second one finds nothing to do and changes nothing,
    until the claim is dropped. A token is only handed out for delivery when
    the event is the sole claim of a PROCESSING invite event, its invite is
    pending and not expired, delivery is enabled and the decrypted token
    hashes to the invite's current token hash. *)
Theorem claim_is_exclusive id d :
  wf d ->
  commits (_get_claimed_event_context id)
    (fun action d' =>
       (exists i, decides d id (token_urlsafe i) action d') /\
       (forall t raw i, action = Deliver t raw i ->
          invite_delivery_enabled = true /\ is_pending i = true /\
          invites d !! Invite.id i = Some i /\ (exists n, ~ expired_by i (clock n)) /\
          sha256_hexdigest raw = Invite.token_hash i /\ claimed_by d' id t) /\
       commits (_get_claimed_event_context id) (fun again d'' => again = Skip /\ d'' = d')
         (fun _ => False) d')
    (fun _ => False) d.
Proof.
  intros Hwf. eapply commits_mono; [by apply commits_claimed_context| |done].
  intros action d' [i Hdec]. split; [by exists i|]. split.
  - intros t raw j ->. destruct Hdec as [(? & _)|(e & n & Hcl & Ht & Hdec)]; [done|].
    pose proof (decides_on_outbox _ _ _ _ _ _ _ Hdec) as [Hev Hc]. injection Ht as ->.
    destruct Hdec as (_ & Hp & Hx & Hen & Hh & p & (_ & _ & Hi) & _).
    pose proof (wf_pk (R := Invite.t) d _ j Hwf Hi) as Hid. simpl in Hid.
    destruct Hcl as (He & Hs & _). pose proof (wf_pk (R := OutboxEvent.t) d id e Hwf He) as Heid.
    simpl in Heid. do 2 (split; [done|]). split; [by rewrite Hid|]. do 2 (split; [done|]). split.
    + exists (locked n e). by rewrite Hev, Heid, lookup_insert_eq.
    + exists (OutboxDeliveryClaim.mk id (token_urlsafe i) n). by rewrite Hc, lookup_insert_eq.
  - eapply commits_mono; [apply commits_claimed_context; by eapply decides_wf| |done].
    intros again d'' [j [(-> & -> & _)|(e & n & Hcl & _)]]; [done|].
    by destruct (decides_shut _ _ _ _ _ Hdec e).
Qed.

(** Results are fenced by the claim token: a worker whose claim was dropped or
    taken over (a stale recovery, a retry) changes nothing; the holder of the
    claim settles the event once, after which its token is void. *)
Theorem apply_result_fenced id token error d :
  wf d ->
  commits (_apply_result id token error)
    (fun _ d' =>
       (~ claimed_by d id token /\ d' = d) \/
       (claimed_by d id token /\ exists e n, outbox_events d !! id = Some e /\
          d' = put_row (settle error n e) (unclaimed id d) /\
          OutboxEvent.status (settle error n e) <> OutboxStatus.PROCESSING /\
          forall token, ~ claimed_by d' id token))
    (fun _ => False) d.
Proof.
  intros Hwf. apply wp_apply_result; [done| |by left].
  intros e n Hcl He. right. split; [done|]. exists e, n. split; [done|]. split; [done|].
  split; [apply settle_status|]. intros t [_ (c & Hc & _)]. simpl in Hc.
  by rewrite lookup_delete_eq in Hc.
Qed.

(** Processing an event that can be claimed always settles it, whatever the
    payload, the decryption and the delivery do: the job does not fail, the event
    leaves PROCESSING with no claim left, either processed or with one more
    failed attempt, and no other event is touched. It is marked processed only
    when it is no invite event, its invite no longer waits, delivery is off, or
    the right token was delivered. An event that cannot be claimed is left alone. *)
Theorem process_outbox_event_settles id d :
  wf d ->
  commits (_process_outbox_event id)
    (fun _ d' => (d' = d /\ forall e, ~ claimable d id e) \/
       exists e e' error n m, claimable d id e /\
         outbox_events d' = <[id := e']> (outbox_events d) /\
         outbox_delivery_claims d' = outbox_delivery_claims d /\
         e' = settle error m (locked n e) /\ OutboxEvent.status e' <> OutboxStatus.PROCESSING /\
         (error = None -> done_because d e))
    (fun _ => False) d.
Proof.
  intros Hwf. eapply commits_mono; [by apply commits_process| |done].
  intros _ d' [?|(e & error & Hcl & (n & m & Hev & Hc) & Hwhy)]; [by left|]. right.
  exists e, (settle error m (locked n e)), error, n, m. do 4 (split; [done|]).
  split; [apply settle_status|done].
Qed.

(** A dispatcher round claims at most [limit] due events and strands none:
    every event it takes out of PENDING was accepted by the broker or went back
    for a retry with one more attempt, and none of them carries a delivery
    claim; all other events are as before. It never fails, whatever the broker
    raises. *)
Theorem dispatcher_round_strands_nothing limit d :
  wf d ->
  commits (Dispatcher.claim_and_enqueue_due_outbox_events send limit)
    (fun count d' => (count <= limit)%nat /\
       forall k, outbox_events d' !! k = outbox_events d !! k \/
         exists e i, outbox_events d !! k = Some e /\ is_due (clock i) e = true /\
           outbox_delivery_claims d' !! k = None /\
           handed_over send d' (claimed (clock i) e))
    (fun _ => False) d.
Proof.
  intros Hwf. eapply commits_bind.
  { apply commits_begin, (wp_claim_due limit (fun l d' => exists l' i, l = claimed (clock i) <$> l' /\
      present l' d /\ NoDup (OutboxEvent.id <$> l') /\ (length l' <= limit)%nat /\
      (forall e, e ∈ l' -> is_due (clock i) e = true) /\ wf d' /\
      rewrites (fun _ => claimed (clock i)) l' d d')); [done|]. intros l i d' *. by exists l, i. }
  intros l d1 (l' & i & -> & Hp & HN & Hlen & Hdue & Hwf1 & Hin & Hcl & Hout).
  assert (Hids : OutboxEvent.id <$> (claimed (clock i) <$> l') = OutboxEvent.id <$> l')
    by (rewrite <- list_fmap_compose; by apply list_fmap_ext).
  apply commits_bind_ret. eapply commits_mono; [apply commits_enqueue_each; [by rewrite Hids|done|..]| |done].
  - intros x (e & -> & He)%list_elem_of_fmap. destruct (Hin e He) as [_ Hx]. exact Hx.
  - by intros x (e & -> & He)%list_elem_of_fmap.
  - intros bs d' (Hbs & Hh & Hkeep & Hc). rewrite length_fmap in Hbs.
    split; [pose proof (filter_true_length bs); lia|]. intros k.
    destruct (decide (k ∈ OutboxEvent.id <$> l')) as [Hk|Hk].
    + right. apply list_elem_of_fmap in Hk as (e & -> & He). exists e, i.
      split; [by apply Hp|]. split; [by apply Hdue|]. split; [by apply Hc, Hcl|].
      apply Hh. by apply list_elem_of_fmap_2.
    + left. rewrite Hkeep by by rewrite Hids. by apply Hout.
Qed.

(** Recovery of stale events takes at most a batch of PROCESSING events whose
    lock is older than the timeout, gives each one failed attempt and drops its
    delivery claim, so that its worker's late result is fenced off; other events
    keep their state. A batch that is not full left no stale event behind. *)
Theorem recover_stale_processing_events_spec timeout limit d :
  wf d ->
  commits (Dispatcher.recover_stale_processing_events timeout limit)
    (fun count d' => (count <= limit)%nat /\ exists i,
       let stale := is_stale (clock i - seconds timeout) in
       (forall k, outbox_events d' !! k = outbox_events d !! k \/
          exists e n, outbox_events d !! k = Some e /\ stale e = true /\
            outbox_events d' !! k = Some (failed_attempt n "stale_processing_recovered" e) /\
            forall token, ~ claimed_by d' k token) /\
       ((count < limit)%nat -> forall k e, outbox_events d' !! k = Some e -> stale e = false))
    (fun _ => False) d.
Proof.
  intros Hwf. apply commits_bind_ret, commits_begin. eapply wp_mono; [by apply wp_recover_stale| |done].
  intros l d' (i & Hp & Hlen & HP & (Hin & Hcl & Hout) & Hall). split; [done|]. exists i.
  set (stale := is_stale _) in *. split.
  - intros k. destruct (decide (k ∈ OutboxEvent.id <$> l)) as [Hk|Hk]; [|left; by apply Hout].
    right. apply list_elem_of_fmap in Hk as (e & -> & He). destruct (Hin e He) as [n Hn].
    exists e, n. split; [by apply Hp|]. split; [by apply HP|]. split; [done|].
    intros t [_ (c & Hc & _)]. by rewrite (Hcl e He) in Hc.
  - intros Hlt k e He. destruct (decide (k ∈ OutboxEvent.id <$> l)) as [Hk|Hk].
    + apply list_elem_of_fmap in Hk as (x & -> & Hx). destruct (Hin x Hx) as [n Hn].
      assert (e = failed_attempt n "stale_processing_recovered" x) as -> by congruence.
      unfold stale, is_stale. rewrite bool_decide_false; [done|].
      apply (settle_status (Some _)).
    + rewrite (proj1 (Hout k Hk)) in He. apply not_true_iff_false. intros Hst. apply Hk.
      pose proof (wf_pk (R := OutboxEvent.t) d k e Hwf He) as Hid. simpl in Hid. subst k.
      by apply list_elem_of_fmap_2, Hall.
Qed.

(** What the invite service writes payloads for. *)
Definition writes (mailable : string -> Prop) (i : Invite.t) (o : UUID) (purpose : string) : Prop :=
  (Invite.id i < 16 ^ 32)%N /\ (o < 16 ^ 32)%N /\ mailable (Invite.email i) /\
  purpose ∈ ["created"; "resent"]%string.

(** What is asked of Fernet and of pydantic: a token decrypts to what was encrypted, a
    payload written by this program for an address of mail is accepted and read back. *)
Record token_laws (mailable : string -> Prop) : Prop := {
  law_fernet n s : fernet_decrypt (fernet_encrypt n s) = Some s;
  law_ciphertext n s : Text.is_empty (Text.strip (fernet_encrypt n s)) = false;
  law_payload i o encrypted purpose : writes mailable i o purpose ->
    exists p, validate_fields (InviteService.delivery_payload i o encrypted purpose) = Some p /\
      InviteOutboxPayload.invite_id p = Invite.id i /\
      InviteOutboxPayload.encrypted_raw_token p = encrypted;
}.

Lemma parse_own_payload mailable i o n token purpose :
  token_laws mailable -> writes mailable i o purpose ->
  exists p, parse_invite_outbox_payload (InviteService.delivery_payload i o (fernet_encrypt n token) purpose) = Some p
    /\ InviteOutboxPayload.invite_id p = Invite.id i
    /\ fernet_decrypt (InviteOutboxPayload.encrypted_raw_token p) = Some token.
Proof.
  intros L Hi. destruct (law_payload _ L i o (fernet_encrypt n token) purpose Hi) as (p & Hp & Hid & He).
  exists p. unfold parse_invite_outbox_payload. rewrite Hp. simpl.
  by rewrite He, (law_ciphertext _ L), (law_fernet _ L).
Qed.

(** The event waits for the worker, with the payload it was published with, and its
    invite is as it was created. *)
Definition ready_for_delivery (published : OutboxEvent.t) (i : Invite.t) d : Prop :=
  (exists e, claimable d (OutboxEvent.id published) e /\
     OutboxEvent.event_type e = OutboxEvent.event_type published /\
     OutboxEvent.payload_json e = OutboxEvent.payload_json published) /\
  invites d !! Invite.id i = Some i.

Lemma delivers_own_token mailable i o n token purpose eid type n1 n2 d :
  token_laws mailable -> invite_delivery_enabled = true -> writes mailable i o purpose ->
  Invite.status i = InviteStatus.PENDING -> Invite.token_hash i = sha256_hexdigest token ->
  let e := new_event eid type (Invite.id i)
             (InviteService.delivery_payload i o (fernet_encrypt n token) purpose) n1 n2 in
  is_invite_event e = true -> wf d -> ready_for_delivery e i d ->
  commits (_get_claimed_event_context eid) (fun action _ =>
    (exists t, action = Deliver t token i) \/
    (exists t j, action = MarkProcessed t /\ expired_by i (clock j))) (fun _ => False) d.
Proof.
  intros L Hen Hid Hpend Hh e Hinv Hwf [(e' & Hcl & Ht & Hp) Hi].
  eapply commits_mono; [by apply commits_claimed_context| |done].
  intros action d' [k [(_ & _ & Hno)|(e1 & m & Hcl1 & _ & Hdec)]]; [by destruct (Hno e')|].
  assert (e1 = e') as -> by (destruct Hcl as [? _], Hcl1 as [? _]; simpl in *; congruence).
  destruct (parse_own_payload mailable i o n token purpose L Hid) as (p & Hparse & Hpid & Hd).
  assert (Ha : addressed d e' p i).
  { split; [unfold is_invite_event; by rewrite Ht|]. rewrite Hp, Hpid. by split. }
  assert (Huniq : forall p' i', addressed d e' p' i' -> p' = p /\ i' = i).
  { intros p' i' (_ & Hp' & Hi'). destruct Ha as (_ & Hpp & Hii). assert (p' = p) as -> by congruence.
    split; [done|congruence]. }
  destruct action as [|t|t r|t raw i']; [done|..].
  - right. destruct Hdec as [[_ [Hx|(p' & i' & [-> ->]%Huniq & [Hx|Hx])]]|(p' & i' & j & _ & [-> ->]%Huniq & _ & Hx & _)].
    + destruct Ha as (Ha & _). congruence.
    + by rewrite (proj2 (is_pending_true i) Hpend) in Hx.
    + congruence.
    + by exists t, j.
  - destruct Hdec as (_ & _ & Hu). by destruct (Hu p i token Ha Hd).
  - left. exists t. destruct Hdec as (_ & _ & _ & _ & _ & p' & [-> ->]%Huniq & Hx). congruence.
Qed.

(** C34. Where invite delivery is enabled, the token of a new invite survives the outbox.
    Whatever happens in between, when the event that [create_invite] published comes to be
    delivered with its payload intact and its invite untouched, the worker reads the payload
    back, decrypts it and decides to deliver exactly the token that was generated, the one
    whose hash the invite is accepted with; or the invite has expired and the event is marked
    processed. With delivery enabled no other decision, retry or failure is possible (with
    delivery disabled the worker marks the event processed without reading the payload).
    Fernet and pydantic are asked to read back what they accepted. *)
Theorem invite_token_round_trip `{Network} mailable o a role email ctx lim d :
  token_laws mailable -> invite_delivery_enabled = true -> (o < 16 ^ 32)%N -> wf d ->
  commits (InviteService.create_invite o a role email ctx lim)
    (fun i d' => exists e token,
       outbox_events d' !! OutboxEvent.id e = Some e /\ invites d' !! Invite.id i = Some i /\
       Invite.token_hash i = sha256_hexdigest token /\
       forall later, (Invite.id i < 16 ^ 32)%N -> mailable (Invite.email i) -> wf later -> ready_for_delivery e i later ->
         commits (_get_claimed_event_context (OutboxEvent.id e)) (fun action _ =>
           (exists t, action = Deliver t token i) \/
           (exists t j, action = MarkProcessed t /\ expired_by i (clock j))) (fun _ => False) later)
    any_exn d.
Proof.
  intros L Hen Ho Hwf. apply commits_guard; [done|intros _]. apply commits_bind_ret, commits_begin.
  eapply wp_mono; [by apply wp_create_invite| |done].
  intros [i token] d' (_ & _ & j & c & id & n & n' & k & aid & na & eid & n1 & n2 & _ & Hi & Hpost).
  simpl. destruct Hpost as (_ & _ & _ & _ & ->).
  exists (new_event eid "invite.created" (Invite.id i)
    (InviteService.delivery_payload i o (fernet_encrypt k token) "created") n1 n2), token.
  split; [apply lookup_insert_eq|]. split; [simpl; apply lookup_insert_eq|].
  split; [by subst i|]. intros later Hid Hmail Hwf' Hready.
  assert (writes mailable i o "created") by (split_and!; [done..|by left]).
  apply (delivers_own_token mailable i o k token "created" eid "invite.created" n1 n2 later); try done; by subst i.
Qed.

End Properties.

(** ** Witnesses *)
Module Witness.
Import Fixtures.
Import OutboxWorker.

Definition last_try : OutboxEvent.t := invite_event 42 32 "late" OutboxStatus.PROCESSING 9.

Definition accept_all (n : nat) (id : UUID) : result unit := Ok tt.

Definition runs {A} (m : M Db A) : option A :=
  match (m (mkWorld db NoTx 0)).1 with Ok a => Some a | Err _ => None end.

Lemma substring_whole n s : (String.length s <= n)%nat -> String.substring 0 n s = s.
Proof.
  revert n. induction s as [|c s IH]; intros n Hn; [by destruct n|].
  destruct n as [|n]; simpl in Hn |- *; [lia|]. f_equal. apply IH. lia.
Qed.

Lemma fixture_laws : token_laws (fun _ => True).
Proof.
  split.
  - intros n s. transitivity (Some (String.substring 0 (7 + String.length s) s)); [by destruct s|].
    f_equal. apply substring_whole. lia.
  - done.
  - intros i o encrypted purpose (Hi & _). eexists. split; [reflexivity|]. split; [|done].
    by apply Uuid.of_str_str.
Qed.

Definition create : M Db Invite.t :=
  InviteService.create_invite 10 2 MembershipRole.MEMBER "zoe@example.org" (context 2) None.

Lemma invite_token_round_trip_witness :
  match runs create with Some i => Invite.token_hash i = "sha256:token-0"%string | None => False end /\
  commits create (fun i _ => exists token, Invite.token_hash i = sha256_hexdigest token) any_exn db.
Proof.
  split; [vm_compute; reflexivity|].
  eapply commits_mono; [apply (invite_token_round_trip (fun _ => True) 10 2 MembershipRole.MEMBER "zoe@example.org"
    (context 2) None db fixture_laws eq_refl eq_refl db_wf)| |done].
  intros i d1 (e & token & _ & _ & Ht & _). by exists token.
Defined.

Lemma mark_failed_attempt_spec_witness :
  wp (OutboxEventRepository.mark_failed_attempt last_try "delivery_failed:OSError")
    (fun _ d' => exists e', outbox_events d' !! 42%N = Some e' /\
       OutboxEvent.status e' = OutboxStatus.FAILED /\
       has_sensitive_key (OutboxEvent.payload_json e') = false)
    (fun _ => False) db.
Proof.
  eapply wp_mono; [apply (mark_failed_attempt_spec last_try "delivery_failed:OSError" db db_wf);
    vm_compute; reflexivity| |done].
  intros _ d' (n & e' & Hev & _ & _ & _ & _ & Hs & _ & Hk). exists e'.
  split; [rewrite Hev; apply lookup_insert_eq|]. split; [exact Hs|]. by apply Hk.
Defined.

Lemma claim_is_exclusive_witness :
  match runs (_get_claimed_event_context 41) with Some (Deliver _ raw _) => raw = "good"%string | _ => False end /\
  commits (_get_claimed_event_context 41)
    (fun _ d' => commits (_get_claimed_event_context 41) (fun again d'' => again = Skip /\ d'' = d')
       (fun _ => False) d') (fun _ => False) db.
Proof.
  split; [vm_compute; reflexivity|].
  eapply commits_mono; [apply (claim_is_exclusive 41 db db_wf)| |done].
  by intros a d' (_ & _ & Ha).
Defined.

Lemma apply_result_fenced_witness :
  commits (_apply_result 42 "claim-0" None) (fun _ d' => d' = db) (fun _ => False) db /\
  commits (_apply_result 42 "claim-1" None) (fun _ d' => outbox_delivery_claims d' !! 42%N = None)
    (fun _ => False) db.
Proof.
  split; (eapply commits_mono; [by apply apply_result_fenced, db_wf| |done]).
  - intros _ d' [[_ ->]|[[_ (c & Hc & Ht)] _]]; [done|]. vm_compute in Hc. injection Hc as <-. discriminate Ht.
  - intros _ d' [[Hno _]|[_ (e & n & _ & -> & _)]]; [|simpl; apply lookup_delete_eq].
    destruct Hno. split; eexists; (split; [vm_compute; reflexivity|]); vm_compute; reflexivity.
Defined.

Lemma process_outbox_event_settles_witness :
  commits (_process_outbox_event 41)
    (fun _ d' => exists e', outbox_events d' !! 41%N = Some e' /\
       OutboxEvent.status e' <> OutboxStatus.PROCESSING) (fun _ => False) db.
Proof.
  eapply commits_mono; [apply (process_outbox_event_settles 41 db db_wf)| |done].
  intros _ d' [[_ Hno]|(e & e' & r & n & m & _ & Hev & _ & _ & Hs & _)].
  - exfalso. apply (Hno (invite_event 41 31 "good" OutboxStatus.PROCESSING 0)).
    split; [|split]; vm_compute; reflexivity.
  - exists e'. split; [rewrite Hev; apply lookup_insert_eq|done].
Defined.

Lemma dispatcher_round_strands_nothing_witness :
  runs (Dispatcher.claim_and_enqueue_due_outbox_events accept_all 5) = Some 1%nat /\
  commits (Dispatcher.claim_and_enqueue_due_outbox_events accept_all 5)
    (fun count _ => (count <= 5)%nat) (fun _ => False) db.
Proof.
  split; [vm_compute; reflexivity|].
  eapply commits_mono; [apply (dispatcher_round_strands_nothing accept_all 5 db db_wf)| |done].
  by intros count d' [Hc _].
Defined.

Lemma recover_stale_processing_events_spec_witness :
  runs (Dispatcher.recover_stale_processing_events 300 5) = Some 2%nat /\
  commits (Dispatcher.recover_stale_processing_events 300 5) (fun count _ => (count <= 5)%nat)
    (fun _ => False) db.
Proof.
  split; [vm_compute; reflexivity|].
  eapply commits_mono; [apply (recover_stale_processing_events_spec 300 5 db db_wf)| |done].
  by intros count d' [Hc _].
Defined.

End Witness.
