(* ===== verification/InviteDeliveryProofs.v ===== *)
(** Delivery of invites: the link carries the token back, a deployed service sends it over
    verified TLS and nowhere else, and an event is only marked delivered when the server took
    the mail. *)
From S2P Require Import Prelude Errors Session Schema Tables SubjectExports RateLimitPolicies.
From S2P Require Import Requests RateLimitIngress Settings Invites Outbox OutboxWorker InviteDelivery.
From S2P Require Import AuditProofs InviteProofs OutboxProofs Fixtures RateLimitFixtures SettingsProofs.

Import InviteDeliverySettings Delivery.

(** ** Text *)

Lemma replace_skip old new s : forall r,
  replace_from old new (String.length s) (s ++ r) = replace_from old new 0 r.
Proof. induction s as [|c s IH]; intros r; [done|]. rewrite Uuid.string_app. apply IH. Qed.

(** An occurrence of what is replaced. *)
Lemma replace_here c old new r :
  replace_from (String c old) new 0 (String c old ++ r) = (new ++ replace_from (String c old) new 0 r)%string.
Proof.
  rewrite Uuid.string_app. cbn [replace_from]. unfold Text.starts_with. rewrite <- Uuid.string_app, Text.prefix_append.
  cbn [String.length]. rewrite Nat.sub_succ, Nat.sub_0_r. by rewrite replace_skip.
Qed.

(** A character that does not begin it stays. *)
Lemma replace_keep c old new d r :
  d <> c -> replace_from (String c old) new 0 (String d r) = String d (replace_from (String c old) new 0 r).
Proof.
  intros Hd. cbn [replace_from]. unfold Text.starts_with. cbn [String.prefix].
  by destruct (ascii_dec c d).
Qed.

Lemma replace_prefix c old new a r :
  Text.forallb_chars (fun d => negb (Ascii.eqb d c)) a = true ->
  replace_from (String c old) new 0 (a ++ r) = (a ++ replace_from (String c old) new 0 r)%string.
Proof.
  induction a as [|d a IH]; [done|]. cbn [Text.forallb_chars]. rewrite andb_true_iff. intros [Hd Ha].
  apply negb_true_iff, Ascii.eqb_neq in Hd. rewrite !Uuid.string_app, replace_keep by done. by rewrite IH.
Qed.

(** What is left is empty, begins with the first character of what is replaced, or with what
    replaces it. *)
Lemma replace_head c old new r :
  replace_from (String c old) new 0 (String c r) = String c (replace_from (String c old) new 0 r) \/
  exists r', replace_from (String c old) new 0 (String c r) = (new ++ r')%string.
Proof. cbn [replace_from]. destruct (Text.starts_with _ _); [right; by eexists|by left]. Qed.

Lemma split_at_char c s :
  exists a r, s = (a ++ r)%string /\ Text.forallb_chars (fun d => negb (Ascii.eqb d c)) a = true /\
    (r = "" \/ exists r', r = String c r')%string.
Proof.
  induction s as [|d s (a & r & -> & Ha & Hr)]; [exists "", ""; by auto|].
  destruct (Ascii.eqb_spec d c) as [->|Hd].
  - exists "", (String c (a ++ r)). split; [done|]. split; [done|]. right. by eexists.
  - exists (String d a), r. split; [by rewrite Uuid.string_app|]. split; [|done].
    cbn. rewrite Ha, andb_true_r. by destruct (Ascii.eqb_spec d c).
Qed.

(** ** The scheme of a link *)

Lemma drop_control_app a r :
  Url.drop_control (a ++ r) =
  if Text.is_empty (Url.drop_control a) then Url.drop_control r else (Url.drop_control a ++ r)%string.
Proof.
  induction a as [|c a IH]; [done|]. rewrite Uuid.string_app. cbn [Url.drop_control].
  by destruct (_ <=? _)%nat.
Qed.

Lemma without_breaks_app a r :
  Url.without_breaks (a ++ r) = (Url.without_breaks a ++ Url.without_breaks r)%string.
Proof.
  induction a as [|c a IH]; [done|]. rewrite Uuid.string_app. cbn [Url.without_breaks].
  destruct (Url.is_line_break c); [done|]. by rewrite Uuid.string_app, IH.
Qed.

Lemma dropped_head a : Text.is_empty (Url.without_breaks (Url.drop_control a)) = Text.is_empty (Url.drop_control a).
Proof.
  induction a as [|c a IH]; [done|]. cbn [Url.drop_control].
  destruct (Nat.leb_spec (nat_of_ascii c) 32) as [|Hc]; [done|]. cbn [Url.without_breaks].
  assert (Url.is_line_break c = false) as ->; [|done]. unfold Url.is_line_break. cbv zeta.
  rewrite !orb_false_iff, !Nat.eqb_neq. lia.
Qed.

(** The clean text of what begins with [a]. *)
Lemma cleaned_app a r :
  Url.cleaned (a ++ r) =
  if Text.is_empty (Url.cleaned a) then Url.cleaned r else (Url.cleaned a ++ Url.without_breaks r)%string.
Proof.
  unfold Url.cleaned. rewrite dropped_head, drop_control_app.
  destruct (Text.is_empty (Url.drop_control a)); [done|apply without_breaks_app].
Qed.

Lemma cut_app c p s :
  Url.cut c (p ++ s) =
  match Url.cut c p with
  | Some (before, after) => Some (before, (after ++ s)%string)
  | None => '(before, after) ← Url.cut c s; Some ((p ++ before)%string, after)
  end.
Proof.
  induction p as [|d p IH]; [change ("" ++ s)%string with s; by destruct (Url.cut c s) as [[]|]|].
  rewrite Uuid.string_app. cbn [Url.cut]. destruct (Ascii.eqb d c); [done|]. rewrite IH.
  destruct (Url.cut c p) as [[]|]; [done|]. by destruct (Url.cut c s) as [[]|].
Qed.

(** The scheme that stands before the colon. *)
Definition scheme_of (before : string) : string :=
  match before with
  | String c _ => if Url.is_alpha c && Text.forallb_chars Url.is_scheme_char before
                  then Text.lower before else ""
  | EmptyString => ""
  end.

Lemma scheme_cut s :
  Url.scheme s = match Url.cut ":" (Url.cleaned s) with Some (before, _) => scheme_of before | None => "" end.
Proof.
  unfold Url.scheme, Url.split_scheme, scheme_of.
  destruct (Url.cut ":" (Url.cleaned s)) as [[[|c b] a]|]; try done. by destruct (_ && _).
Qed.

Lemma length_lower s : String.length (Text.lower s) = String.length s.
Proof. induction s as [|c s IH]; [done|]. cbn. by rewrite IH. Qed.

Lemma scheme_of_https b : scheme_of b = "https"%string ->
  String.length b = 5%nat /\ Text.forallb_chars Url.is_scheme_char b = true /\
  exists r, b = String "h" r \/ b = String "H" r.
Proof.
  unfold scheme_of. destruct b as [|c b]; [done|]. destruct (_ && _) eqn:Hb; [|done].
  apply andb_true_iff in Hb as [_ Hb]. intros Hl. split; [by rewrite <- length_lower, Hl|]. split; [done|].
  exists b. cbn [Text.lower] in Hl. injection Hl as Hc _. revert Hc. clear. unfold Text.lower_char, Text.is_upper.
  intros Hc. destruct c as [[] [] [] [] [] [] [] []]; vm_compute in Hc; try discriminate; auto.
Qed.

(** What may follow the text before the token: a brace, or the word that stands for it. *)
Lemma cut_after h r :
  h = "{"%string \/ h = "token"%string ->
  Url.cleaned (h ++ r) = Url.without_breaks (h ++ r) /\
  forall p, Url.cut ":" p = None ->
    Url.cut ":" (p ++ Url.without_breaks (h ++ r)) =
    ('(before, after) ← Url.cut ":" (Url.without_breaks r); Some ((p ++ h ++ before)%string, after)).
Proof.
  intros Hh. split.
  - rewrite cleaned_app, without_breaks_app. by destruct Hh as [-> | ->].
  - intros p Hp. rewrite cut_app, Hp, without_breaks_app, cut_app.
    destruct Hh as [-> | ->];
      [change (Url.cut ":" (Url.without_breaks "{")) with (@None (string * string))
      |change (Url.cut ":" (Url.without_breaks "token")) with (@None (string * string))];
      by destruct (Url.cut ":" (Url.without_breaks r)) as [[]|].
Qed.

(** No scheme goes on with them. *)
Lemma not_https p h b :
  (h = "{"%string \/ h = "token"%string /\ p <> ""%string) \/ h = "token"%string /\ p = ""%string ->
  scheme_of (p ++ h ++ b) <> "https"%string.
Proof.
  intros Hh (Hl & Hf & q & Hq)%scheme_of_https. rewrite !Text.length_append in Hl.
  destruct Hh as [[-> | [-> Hp]]|[-> ->]].
  - rewrite !Text.forallb_chars_append in Hf. apply andb_true_iff in Hf as [_ Hf]. discriminate Hf.
  - destruct p; [done|]. cbn in Hl. lia.
  - by destruct Hq.
Qed.

(** Whatever replaces the token, the link keeps the scheme that was checked. *)
Lemma link_scheme template x :
  Url.scheme (replace "{token}" "token" template) = "https"%string ->
  Url.scheme (replace "{token}" x template) = "https"%string.
Proof.
  unfold replace. destruct (split_at_char "{" template) as (a & r & -> & Ha & Hr).
  rewrite !replace_prefix by done. rewrite !scheme_cut, !cleaned_app.
  set (R := replace_from _ "token" 0 r). set (R' := replace_from _ x 0 r).
  assert (HR : R = ""%string \/ exists h r', (h = "{" \/ h = "token")%string /\ R = (h ++ r')%string).
  { destruct Hr as [-> | [r' ->]]; [by left|]. right. unfold R.
    destruct (replace_head "{" "token}" "token" r') as [->|[r'' ->]]; do 2 eexists; split;
      [by left|reflexivity|by right|reflexivity]. }
  clearbody R R'. destruct HR as [->|(h & r' & Hh & ->)].
  - destruct (Text.is_empty (Url.cleaned a)); [discriminate|]. rewrite !cut_app.
    by destruct (Url.cut ":" (Url.cleaned a)) as [[]|].
  - destruct (cut_after h r' Hh) as [Hclean Hcut].
    destruct (Text.is_empty (Url.cleaned a)) eqn:Hemp.
    + rewrite Hclean. change (Url.without_breaks (h ++ r')) with ("" ++ Url.without_breaks (h ++ r'))%string.
      rewrite (Hcut "" eq_refl)%string.
      destruct (Url.cut ":" (Url.without_breaks r')) as [[b after]|]; [|done].
      intros Hs. exfalso. revert Hs. apply not_https. destruct Hh; auto.
    + rewrite (cut_app ":" _ (Url.without_breaks R')).
      destruct (Url.cut ":" (Url.cleaned a)) as [[b after]|] eqn:Hc; [by rewrite cut_app, Hc|].
      rewrite Hcut by done. destruct (Url.cut ":" (Url.without_breaks r')) as [[b after]|]; [|done].
      intros Hs. exfalso. revert Hs. apply not_https. left.
      destruct Hh as [->|Hh]; [by left|right]. split; [done|]. by destruct (Url.cleaned a).
Qed.

(** ** Quoting *)

Lemma hex_value_upper n : (n < 16)%nat -> Url.hex_value (upper_hex n) = Some n.
Proof. intros Hn. do 16 (destruct n as [|n]; [done|]). lia. Qed.

Lemma unreserved_plain c : is_unreserved c = true -> Ascii.eqb c "+" = false /\ Ascii.eqb c "%" = false.
Proof. intros Hc. split; apply Ascii.eqb_neq; intros ->; discriminate Hc. Qed.

Lemma unquote_quote s : Url.unquote_plus (quote s) = s.
Proof.
  induction s as [|c s IH]; [done|]. cbn [quote]. destruct (is_unreserved c) eqn:Hc.
  - apply unreserved_plain in Hc as [Hp Hq]. cbn [Url.unquote_plus]. by rewrite Hp, Hq, IH.
  - pose proof (nat_ascii_bounded c) as Hb. cbv zeta. cbn [Url.unquote_plus].
    change (Ascii.eqb "%" "+") with false. change (Ascii.eqb "%" "%") with true. cbv iota.
    rewrite !hex_value_upper; [|apply Nat.mod_upper_bound; lia|apply Nat.Div0.div_lt_upper_bound; lia].
    rewrite IH, <- Nat.div_mod_eq. f_equal. apply ascii_nat_embedding.
Qed.

(** A quoted text has only the characters of a value in an address. *)
Lemma upper_hex_unreserved n : (n < 16)%nat -> is_unreserved (upper_hex n) = true.
Proof. intros Hn. do 16 (destruct n as [|n]; [done|]). lia. Qed.

Lemma quoted_chars s : Text.forallb_chars (fun c => is_unreserved c || Ascii.eqb c "%") (quote s) = true.
Proof.
  induction s as [|c s IH]; [done|]. cbn [quote]. destruct (is_unreserved c) eqn:Hc.
  - cbn [Text.forallb_chars]. by rewrite Hc, IH.
  - pose proof (nat_ascii_bounded c) as Hb. cbv zeta. cbn [Text.forallb_chars].
    rewrite !upper_hex_unreserved, IH; [done|apply Nat.mod_upper_bound; lia|apply Nat.Div0.div_lt_upper_bound; lia].
Qed.

(** ** The dialogue *)

(** The server's certificate was checked and the connection encrypted. *)
Definition opens_tls (e : Smtp.event) : bool :=
  is_None (Smtp.failure e) &&
  match Smtp.sent e with
  | Smtp.SMTP_SSL _ _ _ (Some create_default_context) | Smtp.starttls (Some create_default_context) => true
  | _ => false
  end.

Definition discloses (e : Smtp.event) : bool :=
  match Smtp.sent e with Smtp.login _ _ | Smtp.send_message _ => true | _ => false end.

(** Passwords and messages only follow that. *)
Definition confidential (h : list Smtp.event) : Prop :=
  forall before e after, h = before ++ e :: after -> discloses e = true ->
    exists opening, opening ∈ before /\ opens_tls opening = true.

(** The messages that were sent, with what the server said to each. *)
Definition mails (h : list Smtp.event) : list (EmailMessage.t * option exn) :=
  omap (fun e => match Smtp.sent e with
                 | Smtp.send_message m => Some (m, Smtp.failure e) | _ => None end) h.

Fixpoint confidential_after (open : bool) (h : list Smtp.event) : bool :=
  match h with
  | [] => true
  | e :: h => implb (discloses e) open && confidential_after (open || opens_tls e) h
  end.

Lemma confidential_spec h open :
  confidential_after open h = true ->
  forall before e after, h = before ++ e :: after -> discloses e = true ->
    open = true \/ exists opening, opening ∈ before /\ opens_tls opening = true.
Proof.
  revert open. induction h as [|e' h IH]; intros open Hh [|b before] e after Heq Hd; try done.
  - injection Heq as -> ->. cbn in Hh. rewrite Hd in Hh. apply andb_true_iff in Hh as [Hh _]. by left.
  - injection Heq as -> ->. cbn in Hh. apply andb_true_iff in Hh as [_ Hh].
    destruct (IH _ Hh before e after eq_refl Hd) as [[Ho|Ho]%orb_true_iff|(o & Ho & Hopen)]; [by left|..]; right.
    + exists b. by split; [left|].
    + exists o. by split; [right|].
Qed.

Lemma confidential_true h : confidential_after false h = true -> confidential h.
Proof. intros Hh b e a Heq Hd. destruct (confidential_spec h false Hh b e a Heq Hd) as [|?]; [done|done]. Qed.

(** What a server may say, command after command. *)
Ltac each_answer :=
  repeat match goal with
  | |- context [answer ?h ?c] => destruct (answer h c)
  end.

(** The message is sent once at most, and a delivery that succeeds means the server took it;
    on a protected connection nothing is said before it is encrypted. *)
Lemma smtp_dialogue `{MailServer} m s host :
  smtp_host s = Some host ->
  let '(outcome, h) := _send_smtp_message m s [] in
  (mails h = [] \/ exists failure, mails h = [(m, failure)]) /\
  (outcome = Ok tt -> mails h = [(m, None)]) /\
  (smtp_use_tls s || smtp_start_tls s = true -> confidential_after false h = true).
Proof.
  intros Hhost. unfold _send_smtp_message. rewrite Hhost.
  unfold with_smtp, closing, _authenticate_and_send, command, mbind, Mail_bind, mret, Mail_ret.
  destruct (smtp_use_tls s), (smtp_start_tls s), (smtp_username s), (smtp_password s); cbn -[answer];
    each_answer; cbn -[answer]; each_answer; cbn -[answer]; each_answer; cbn -[answer]; each_answer;
    cbn -[answer]; each_answer; cbn -[answer];
    (split; [by eauto|split; [done|done]]).
Qed.

(** ** An attempt *)

(** The mail of an invite. *)
Definition mail_for (s : InviteDeliverySettings.t) (invite : Invite.t) (raw_token template : string)
    (m : EmailMessage.t) : Prop :=
  accept_url_template s = Some template /\
  EmailMessage.To_ m = Invite.email invite /\ from_email s = Some (EmailMessage.From_ m) /\
  EmailMessage.content m = _invite_email_body invite (accept_url template raw_token).

Lemma header_same v v' : EmailMessage.header v = Ok v' -> v' = v.
Proof. unfold EmailMessage.header. destruct (EmailMessage.spans_lines v); congruence. Qed.

Lemma built_mail invite raw s m :
  build_invite_email_message invite raw s = Ok m -> exists template, mail_for s invite raw template m.
Proof.
  unfold build_invite_email_message, mail_for.
  destruct (from_email s) as [from|], (accept_url_template s) as [template|]; [|done..].
  destruct (EmailMessage.header from) as [f|] eqn:Hf; [|done]. cbn [mbind result_bind].
  destruct (EmailMessage.header (Invite.email invite)) as [t|] eqn:Ht; [|done]. cbn [mbind result_bind].
  destruct (EmailMessage.header (subject s)) as [u|]; [|done]. cbn [mbind result_bind].
  intros [= <-]. apply header_same in Hf as ->, Ht as ->. by exists template.
Qed.

Definition enabled (app_settings : Settings.Settings.t) : bool :=
  OutboxSettings.invite_delivery_enabled (Settings.Settings.outbox app_settings).

(** The sink that is chosen. *)
Lemma sink_spec app_settings delivery_settings sink :
  enabled app_settings = true -> get_invite_token_sink app_settings delivery_settings = Ok sink ->
  exists s, delivery_settings = Ok s /\
    ((sink = SmtpInviteTokenSink s /\
      (environment_of app_settings ∈ _PROTECTED_SMTP_TRANSPORT_ENVIRONMENTS ->
       smtp_use_tls s || smtp_start_tls s = true /\
       exists template, accept_url_template s = Some template /\
         Url.scheme (replace "{token}" "token" template) = "https"%string)) \/
     (sink = NoOpInviteTokenSink /\
      environment_of app_settings ∉ _PROTECTED_INVITE_DELIVERY_ENVIRONMENTS)).
Proof.
  intros He. unfold get_invite_token_sink. fold (enabled app_settings). rewrite He. cbv zeta. cbn [negb].
  destruct delivery_settings as [s|]; [|done]. cbn [mbind result_bind]. intros Hs. exists s. split; [done|].
  fold (environment_of app_settings) in Hs. destruct (String.eqb (provider s) "smtp") eqn:Hp.
  - left. destruct (_ensure_protected_smtp_url_policy _ _) as [[]|] eqn:Hpol; [|done].
    cbn [mbind result_bind] in Hs. unfold smtp_sink in Hs. rewrite Hp in Hs. injection Hs as <-.
    split; [done|]. intros Henv. unfold _ensure_protected_smtp_url_policy in Hpol.
    rewrite (proj2 (bool_decide_eq_true _) Henv) in Hpol. cbn [negb] in Hpol.
    destruct (accept_url_template s) as [template|]; [|done]. cbv zeta in Hpol.
    destruct (String.eqb_spec (Url.scheme (replace "{token}" "token" template)) "https"); [|done].
    cbn [negb] in Hpol. destruct (_ || _); [|done]. eauto.
  - right. unfold _ensure_noop_allowed in Hs. cbn [negb] in Hs.
    destruct (bool_decide_reflect (environment_of app_settings ∈ _PROTECTED_INVITE_DELIVERY_ENVIRONMENTS));
      [done|]. cbn in Hs. injection Hs as <-. done.
Qed.

(** What an attempt of the worker comes to. *)
Lemma attempt_spec `{MailServer} app_settings delivery_settings invite raw :
  enabled app_settings = true ->
  let '(outcome, h) := attempt app_settings delivery_settings invite raw [] in
  (h = [] /\ (outcome = Ok tt ->
              environment_of app_settings ∉ _PROTECTED_INVITE_DELIVERY_ENVIRONMENTS)) \/
  exists s template m, delivery_settings = Ok s /\ mail_for s invite raw template m /\
    (mails h = [] \/ exists failure, mails h = [(m, failure)]) /\
    (outcome = Ok tt -> mails h = [(m, None)]) /\
    (environment_of app_settings ∈ _PROTECTED_SMTP_TRANSPORT_ENVIRONMENTS ->
     confidential h /\ Url.scheme (accept_url template raw) = "https"%string).
Proof.
  intros He. unfold attempt, lift, mbind, Mail_bind.
  destruct (get_invite_token_sink app_settings delivery_settings) as [sink|] eqn:Hs; [|by left].
  apply sink_spec in Hs as (s & -> & [[-> Hprot]|[-> Henv]]); [|by left|done]. unfold deliver, lift, mbind, Mail_bind.
  destruct (build_invite_email_message invite raw s) as [m|] eqn:Hm; [|cbn; by left].
  destruct (built_mail _ _ _ _ Hm) as [template Hmail].
  destruct (smtp_host s) as [host|] eqn:Hhost; [|unfold _send_smtp_message; rewrite Hhost; cbn; by left].
  pose proof (smtp_dialogue m s host Hhost) as Hd. destruct (_send_smtp_message m s []) as [outcome h].
  destruct Hd as (Hone & Hok & Htls). right. exists s, template, m. do 4 (split; [done|]).
  intros Henv. destruct (Hprot Henv) as (Ht & template' & Htemp & Hhttps).
  split; [by apply confidential_true, Htls|]. destruct Hmail as [Htemp' _].
  apply link_scheme. congruence.
Qed.

(** Why an event of an invite may be marked delivered. *)
Definition mailed_because `{Env} `{Crypto} (fields : json -> option InviteOutboxPayload.t)
    (app_settings : Settings.Settings.t) (delivery_settings : result InviteDeliverySettings.t)
    (server : nat -> MailServer) (d : Db) (e : OutboxEvent.t) : Prop :=
  OutboxEventRepository.is_invite_event e = false \/
  exists p i, @addressed (configured fields app_settings delivery_settings server) d e p i /\
    (is_pending i = false \/ (exists n, expired_by i (clock n)) \/
     enabled app_settings = false \/
     exists raw, sha256_hexdigest raw = Invite.token_hash i /\
       (environment_of app_settings ∉ _PROTECTED_INVITE_DELIVERY_ENVIRONMENTS \/
        exists s template m k, delivery_settings = Ok s /\ mail_for s i raw template m /\
          mails (attempt (H := server k) app_settings delivery_settings i raw []).2 = [(m, None)])).

(** ** Quoted tokens in links *)

Lemma forallb_mono (f g : ascii -> bool) s :
  (forall c, f c = true -> g c = true) ->
  Text.forallb_chars f s = true -> Text.forallb_chars g s = true.
Proof.
  intros Hfg. induction s as [|c s IH]; [done|]. cbn [Text.forallb_chars]. rewrite !andb_true_iff.
  intros [Hc Hs]. by auto.
Qed.

Lemma cut_absent sep s :
  Text.forallb_chars (fun c => negb (Ascii.eqb c sep)) s = true -> Url.cut sep s = None.
Proof.
  induction s as [|c s IH]; [done|]. cbn [Text.forallb_chars Url.cut]. rewrite andb_true_iff.
  intros [Hc%negb_true_iff Hs]. by rewrite Hc, IH.
Qed.

Lemma split_absent sep s :
  Text.forallb_chars (fun c => negb (Ascii.eqb c sep)) s = true -> split_on sep s = [s].
Proof.
  induction s as [|c s IH]; [done|]. cbn [Text.forallb_chars split_on]. rewrite andb_true_iff.
  intros [Hc%negb_true_iff Hs]. by rewrite Hc, IH.
Qed.

(** Characters of addresses: printable, and none of [p]. *)
Definition is_address_char (c : ascii) : bool :=
  (32 <? nat_of_ascii c)%nat
  && negb (Ascii.eqb c "?") && negb (Ascii.eqb c "#") && negb (Ascii.eqb c "{").

Lemma quoted_char c : is_unreserved c || Ascii.eqb c "%" = true ->
  is_address_char c = true /\ Ascii.eqb c ":" = false /\ Ascii.eqb c "&" = false /\ Ascii.eqb c "=" = false.
Proof. destruct c as [[] [] [] [] [] [] [] []]; vm_compute; intros Hc; try discriminate; done. Qed.

Lemma quoted_without sep s :
  (forall c, is_unreserved c || Ascii.eqb c "%" = true -> Ascii.eqb c sep = false) ->
  Text.forallb_chars (fun c => negb (Ascii.eqb c sep)) (quote s) = true.
Proof.
  intros Hsep. eapply forallb_mono; [|apply quoted_chars]. cbn. intros c Hc. by rewrite Hsep.
Qed.

Lemma clean_address s :
  Text.forallb_chars (fun c => (32 <? nat_of_ascii c)%nat) s = true -> Url.cleaned s = s.
Proof.
  intros Hs. unfold Url.cleaned. assert (Url.drop_control s = s) as ->.
  { destruct s as [|c s]; [done|]. cbn [Text.forallb_chars] in Hs. apply andb_true_iff in Hs as [Hc _].
    cbn [Url.drop_control]. apply Nat.ltb_lt in Hc. by rewrite (proj2 (Nat.leb_gt _ _)). }
  induction s as [|c s IH]; [done|]. cbn [Text.forallb_chars] in Hs. apply andb_true_iff in Hs as [Hc Hs].
  apply Nat.ltb_lt in Hc. cbn [Url.without_breaks].
  assert (Url.is_line_break c = false) as ->; [|by rewrite IH].
  unfold Url.is_line_break. cbv zeta. rewrite !orb_false_iff, !Nat.eqb_neq. lia.
Qed.

(** Reading the link of a mail gives the token back, whatever its characters are, as its only
    field. *)
Theorem accept_link_round_trip address raw :
  Text.forallb_chars is_address_char address = true -> raw <> ""%string ->
  Url.query_fields (Url.query (accept_url ("https:" ++ address ++ "?token={token}") raw))
  = [("token", raw)]%string.
Proof.
  intros Haddr Hraw. set (link := accept_url _ raw).
  assert (Hlink : link = ("https:" ++ address ++ "?token=" ++ quote raw)%string).
  { unfold link, accept_url, replace.
    rewrite (replace_prefix "{" "token}" _ "https:") by done. f_equal.
    rewrite replace_prefix by (eapply forallb_mono; [|exact Haddr]; unfold is_address_char;
      intros c; rewrite !andb_true_iff; tauto). f_equal.
    change "?token={token}"%string with ("?token=" ++ "{token}" ++ "")%string.
    rewrite (replace_prefix "{" "token}" _ "?token=") by done. f_equal. rewrite replace_here.
    apply Text.append_nil_r. }
  rewrite Hlink. clear link Hlink.
  assert (Hclean : forall c, is_address_char c = true -> (32 <? nat_of_ascii c)%nat = true).
  { intros c. unfold is_address_char. rewrite !andb_true_iff. tauto. }
  assert (Hq : Text.forallb_chars is_address_char (quote raw) = true).
  { eapply forallb_mono; [|apply quoted_chars]. intros c Hc. by apply quoted_char. }
  unfold Url.query, Url.split_scheme. rewrite clean_address.
  2:{ rewrite !Text.forallb_chars_append. apply andb_true_iff. split; [done|]. apply andb_true_iff.
      split; [by eapply forallb_mono; [exact Hclean|]|]. apply andb_true_iff.
      split; [done|by eapply forallb_mono; [exact Hclean|]]. }
  rewrite cut_app. change (Url.cut ":" "https:") with (Some ("https", "")%string). cbv iota beta.
  change (Url.is_alpha "h" && Text.forallb_chars Url.is_scheme_char "https") with true. cbv iota.
  change ("" ++ ?s)%string with s. cbn [snd].
  assert (Habs : forall sep, sep = "#"%char \/ sep = "?"%char ->
    forall s, Text.forallb_chars is_address_char s = true ->
    Text.forallb_chars (fun c => negb (Ascii.eqb c sep)) s = true).
  { intros sep Hsep s Hs. eapply forallb_mono; [|exact Hs]. unfold is_address_char. intros c.
    rewrite !andb_true_iff. destruct Hsep as [-> | ->]; tauto. }
  rewrite (cut_absent "#"); 
    [|by rewrite !Text.forallb_chars_append, (Habs "#"%char (or_introl eq_refl) address Haddr),
        (Habs "#"%char (or_introl eq_refl) (quote raw) Hq)].
  rewrite cut_app, (cut_absent "?") by (apply Habs; auto).
  change (Url.cut "?" ("?token=" ++ quote raw)) with (Some (""%string, "token=" ++ quote raw)%string).
  cbn [mbind option_bind]. unfold Url.query_fields.
  rewrite split_absent; [|rewrite Text.forallb_chars_append, (quoted_without "&"); [done|];
    intros c Hc; by apply quoted_char in Hc as (_ & _ & -> & _)].
  cbn [omap list_omap]. rewrite cut_app.
  change (Url.cut "=" "token=") with (Some ("token"%string, ""%string)). cbn [mbind option_bind].
  change ("" ++ ?s)%string with s.
  assert (Text.is_empty (quote raw) = false) as ->.
  { destruct raw as [|c r]; [done|]. cbn [quote]. by destruct (is_unreserved c). }
  by rewrite unquote_quote.
Qed.

(** ** The key of the outbox *)

Lemma accepted_security `{SettingsLibraries} i s :
  Settings.Settings.validate i = Ok s ->
  exists x, SecuritySettings.validate x = Ok (Settings.Settings.security s).
Proof.
  unfold Settings.Settings.validate.
  intros (app & _ & (vault & _ & (database & _ & (security & Hs & Hrest)%bind_ok)%bind_ok)%bind_ok)%bind_ok.
  repeat match goal with Hm : _ ≫= _ = Ok _ |- _ => apply bind_ok in Hm as (? & _ & Hm) end.
  pose proof (validated_same _ _ Hrest) as ->. by exists (Settings.Settings.security i).
Qed.

(** With settings that were accepted and deliver invites, the invite service and the worker of
    a shared environment have a key, and it is the configured one, never the one of the
    source. *)
Theorem outbox_key_configured `{SettingsLibraries} i s :
  Settings.Settings.validate i = Ok s -> enabled s = true ->
  environment_of s ∈ _PROTECTED_INVITE_DELIVERY_ENVIRONMENTS ->
  exists key, SecuritySettings.outbox_token_encryption_key (Settings.Settings.security s) = Some key /\
    OutboxPayloadCrypto.from_settings s = Ok key.
Proof.
  intros Hv He Henv. destruct (accepted_settings i s Hv) as [Hsec _].
  pose proof (secure_outbox s Hsec He Henv) as Hkey.
  destruct (accepted_security i s Hv) as [x Hx].
  unfold OutboxPayloadCrypto.from_settings, OutboxPayloadCrypto.resolve_outbox_encryption_key.
  destruct (SecuritySettings.outbox_token_encryption_key _) as [key|] eqn:Hk; [|done].
  exists key. split; [done|]. cbn [mbind result_bind]. unfold OutboxPayloadCrypto.init.
  unfold SecuritySettings.validate in Hx. apply bind_ok in Hx as (k & Hk' & [= Hx]).
  rewrite <- Hx in Hk. cbn in Hk. subst k. unfold SecuritySettings.validate_outbox_token_encryption_key in Hk'.
  destruct (_normalise_optional_secret (SecuritySettings.outbox_token_encryption_key x)) as [n|]; [|done].
  destruct (fernet_key_valid n) eqn:Hn; [|done]. injection Hk' as ->. by rewrite Hn.
Qed.

(** ** Properties *)

(** C39. In staging and production an invite only travels protected: whatever the delivery
    settings and the mail server say, an attempt sends one mail at most, to the invited
    address, with a link over https that carries the token; passwords and mail go out only
    after TLS with a checked certificate is up; and it succeeds only if the server took the
    mail. *)
Theorem invites_travel_protected `{MailServer} app_settings delivery_settings invite raw :
  enabled app_settings = true -> deployed app_settings ->
  let '(outcome, h) := attempt app_settings delivery_settings invite raw [] in
  confidential h /\
  ((mails h = [] /\ outcome <> Ok tt) \/
   exists s template m failure, delivery_settings = Ok s /\ mails h = [(m, failure)] /\
     (outcome = Ok tt -> failure = None) /\ mail_for s invite raw template m /\
     Url.scheme (accept_url template raw) = "https"%string).
Proof.
  intros He Hd. pose proof (attempt_spec app_settings delivery_settings invite raw He) as Hspec.
  destruct (attempt app_settings delivery_settings invite raw []) as [outcome h].
  destruct Hspec as [[-> Hno]|(s & template & m & -> & Hmail & Hone & Hok & Hconf)].
  - split; [by intros [|? ?] ? ? ?|]. left. split; [done|]. intros Ho. apply (Hno Ho). right. exact Hd.
  - destruct (Hconf Hd) as [Hc Hs]. split; [done|]. destruct Hone as [Hone|[failure Hone]].
    + left. split; [done|]. intros Ho. by rewrite (Hok Ho) in Hone.
    + right. exists s, template, m, failure. do 2 (split; [done|]). split; [|done].
      intros Ho. rewrite (Hok Ho) in Hone. by injection Hone.
Qed.

Section Worker.
Context `{Env} `{Crypto} (fields : json -> option InviteOutboxPayload.t).
Context (app_settings : Settings.Settings.t) (delivery_settings : result InviteDeliverySettings.t).
Context (server : nat -> MailServer).

(** C31. The worker with its real sink settles every event it can claim, whatever the payload,
    the settings and the mail server do, and touches no other. An event of a waiting invite is
    marked processed only when the server took the invite's mail, one mail with a token that
    hashes to the invite's, except where delivery is switched off or a development sink is
    allowed. *)
Theorem processed_invites_were_mailed id d :
  wf d ->
  commits (@OutboxWorker._process_outbox_event _ _ (configured fields app_settings delivery_settings server) id)
    (fun _ d' => (d' = d /\ forall e, ~ claimable d id e) \/
       exists e e' error n m, claimable d id e /\
         outbox_events d' = <[id := e']> (outbox_events d) /\
         outbox_delivery_claims d' = outbox_delivery_claims d /\
         e' = settle error m (locked n e) /\
         OutboxEvent.status e' <> OutboxStatus.PROCESSING /\
         (error = None -> mailed_because fields app_settings delivery_settings server d e))
    (fun _ => False) d.
Proof.
  intros Hwf. eapply commits_mono; [by apply commits_process| |done].
  intros _ d' [?|(e & error & Hcl & (n & m & Hev & Hc) & Hwhy)]; [by left|]. right.
  exists e, (settle error m (locked n e)), error, n, m. do 4 (split; [done|]).
  split; [apply settle_status|]. intros Herr. destruct (Hwhy Herr) as [?|(p & i & Ha & Hi)]; [by left|].
  right. exists p, i. split; [done|]. destruct Hi as [?|[?|[?|(k & raw & Hok & Hh)]]]; [by auto..|].
  destruct (enabled app_settings) eqn:He; [|by auto]. right. right. right. exists raw. split; [done|].
  pose proof (attempt_spec (H := server k) app_settings delivery_settings i raw He) as Hspec.
  cbn [OutboxWorker.deliver configured] in Hok.
  destruct (attempt app_settings delivery_settings i raw []) as [outcome h] eqn:Hat.
  cbn in Hok. subst outcome. destruct Hspec as [[_ Hno]|(s & template & mail & Hs & Hmail & _ & Hm & _)];
    [left; by apply Hno|].
  right. exists s, template, mail, k. split; [done|]. split; [done|]. rewrite Hat. by apply Hm.
Qed.
End Worker.

(** ** Witnesses *)
Module Witness.
Import RateLimitFixtures SettingsProofs.Witness.

(** Every address of mail is one. *)
#[local] Instance email_types : EmailTypes := {| email_str := Some |}.

Definition mail_input : InviteDeliverySettings.input :=
  mk (Some " smtp "%string) (Some "invites@example.org"%string) (Some "You are invited"%string)
    (Some "https://app.example.org/accept?token={token}"%string) (Some "smtp.example.org"%string)
    587 (Some "app"%string) (Some "secret"%string) 10000000 false true.

Definition mail_settings : result InviteDeliverySettings.t := InviteDeliverySettings.validate mail_input.

Definition invite : Invite.t :=
  Invite.mk 31 "new@example.org" 1 MembershipRole.MEMBER InviteStatus.PENDING "sha256:a b/c" None None
    None 0 0.

(** A server that takes everything, and one that drops the mail. *)
Definition willing : MailServer := {| answer := fun _ _ => None |}.
Definition refusing : MailServer := {|
  answer := fun _ c => match c with
                       | Smtp.send_message _ => Some (OtherError "SMTPDataError") | _ => None end |}.

(** The settings of production, and that the two servers decide the attempt. *)
Definition ready (s : Settings.Settings.t) : bool :=
  enabled s && bool_decide (deployed s)
  && match (attempt (H := willing) s mail_settings invite "a b/c" []).1 with Ok _ => true | Err _ => false end
  && match (attempt (H := refusing) s mail_settings invite "a b/c" []).1 with Ok _ => false | Err _ => true end.

Definition production_ready : bool :=
  match Settings.Settings.validate production with Ok s => ready s | Err _ => false end.

Lemma invites_travel_protected_witness :
  exists s, Settings.Settings.validate production = Ok s /\
    (attempt (H := willing) s mail_settings invite "a b/c" []).1 = Ok tt /\
    confidential (attempt (H := willing) s mail_settings invite "a b/c" []).2 /\
    mails (attempt (H := willing) s mail_settings invite "a b/c" []).2 <> [].
Proof.
  assert (Hb : production_ready = true) by (vm_compute; reflexivity). unfold production_ready in Hb.
  destruct (Settings.Settings.validate production) as [s|e] eqn:Hv; [|discriminate].
  unfold ready in Hb. rewrite !andb_true_iff, bool_decide_eq_true in Hb. destruct Hb as [[[He Hd] Hok] _].
  exists s. split; [reflexivity|].
  pose proof (invites_travel_protected (H := willing) s mail_settings invite "a b/c" He Hd) as Ht.
  destruct (attempt (H := willing) s mail_settings invite "a b/c" []) as [[[]|] h]; [|discriminate].
  cbn [fst snd]. destruct Ht as [Hc [[_ Hno]|(? & ? & m & f & _ & Hm & _)]]; [by destruct Hno|].
  split; [reflexivity|]. split; [exact Hc|]. by rewrite Hm.
Defined.

Lemma accept_link_round_trip_witness :
  accept_url "https://app.example.org/accept?token={token}" "a b/c"
    = "https://app.example.org/accept?token=a%20b%2Fc"%string /\
  Url.query_fields (Url.query (accept_url ("https:" ++ "//app.example.org/accept" ++ "?token={token}") "a b/c"))
    = [("token", "a b/c")]%string.
Proof. split; [vm_compute; reflexivity|]. by apply accept_link_round_trip. Defined.

Definition invites_on (s : Settings.Settings.t) : bool :=
  enabled s && bool_decide (environment_of s ∈ _PROTECTED_INVITE_DELIVERY_ENVIRONMENTS).

Lemma outbox_key_configured_witness :
  exists s, Settings.Settings.validate production = Ok s /\
    exists key, OutboxPayloadCrypto.from_settings s = Ok key.
Proof.
  assert (Hb : match Settings.Settings.validate production with Ok s => invites_on s | Err _ => false end = true)
    by (vm_compute; reflexivity).
  destruct (Settings.Settings.validate production) as [s|e] eqn:Hv; [|discriminate].
  unfold invites_on in Hb. apply andb_true_iff in Hb as [He Hd%bool_decide_eq_true].
  exists s. split; [reflexivity|].
  destruct (outbox_key_configured production s Hv He Hd) as (key & _ & Hk). by exists key.
Defined.

Lemma processed_invites_were_mailed_witness :
  exists s, Settings.Settings.validate production = Ok s /\
    commits (@OutboxWorker._process_outbox_event _ _
        (configured (@OutboxWorker.validate_fields delivery) s mail_settings (fun _ => willing)) 41)
      (fun _ d' => exists e', outbox_events d' !! 41%N = Some e' /\
         OutboxEvent.status e' <> OutboxStatus.PROCESSING) (fun _ => False) db.
Proof.
  assert (Hb : production_ready = true) by (vm_compute; reflexivity). unfold production_ready in Hb.
  destruct (Settings.Settings.validate production) as [s|e] eqn:Hv; [|discriminate].
  exists s. split; [reflexivity|]. eapply commits_mono;
    [apply (processed_invites_were_mailed (@OutboxWorker.validate_fields delivery) s mail_settings
              (fun _ => willing) 41 db db_wf)| |done].
  intros _ d' [[_ Hno]|(e & e' & r & n & m & _ & Hev & _ & _ & Hs & _)].
  - exfalso. apply (Hno (invite_event 41 31 "good" OutboxStatus.PROCESSING 0)).
    split; [|split]; vm_compute; reflexivity.
  - exists e'. split; [rewrite Hev; apply lookup_insert_eq|exact Hs].
Defined.
End Witness.
