(* ===== verification/RequestBodiesProofs.v ===== *)
(** Request bodies: only structured reasons are accepted where the schema asks for one, what
    the schemas accept is what the services accept, and the worker's schema reads what the
    invite service writes. *)
From S2P Require Import Prelude Errors Session Schema Tables Regex Memberships Organisations.
From S2P Require Import RateLimitPolicies Requests RateLimitIngress Settings Authentication.
From S2P Require Import Outbox Invites OutboxWorker DataSubjectRequests InviteDelivery Api RequestBodies.
From S2P Require Import SettingsProofs OutboxProofs Fixtures.

Import Reasons Regex.

(** ** Reason codes *)

Lemma of_value_spec s c :
  OperationalReasonCode.of_value s = Some c <-> s = OperationalReasonCode.value c.
Proof.
  split.
  - intros Hf. apply List.find_some in Hf as [_ Hf]. by apply String.eqb_eq in Hf.
  - intros ->. by destruct c.
Qed.

Lemma read_reason_code_spec j c :
  read_reason_code j = Ok c <-> j = JStr (OperationalReasonCode.value c).
Proof.
  unfold read_reason_code, read_enum. split.
  - destruct j as [| | |s| |]; try done.
    pose proof (of_value_spec s) as Hs. unfold OperationalReasonCode.of_value in Hs.
    destruct (List.find _ _) as [c'|]; [|done]. intros [= ->]. f_equal. by apply Hs.
  - intros ->. by destruct c.
Qed.

(** The code a text of the old field stands for. *)
Definition legacy_code (j : json) (c : OperationalReasonCode.t) : Prop :=
  exists s, j = JStr s /\ Text.strip s = OperationalReasonCode.value c.

Definition is_blank (j : json) : Prop := j = JNull \/ exists s, j = JStr s /\ Text.strip s = ""%string.

Lemma normalise_spec j required r :
  normalise_legacy_reason (Given j) required = Ok r <->
  match r with Some c => legacy_code j c | None => is_blank j /\ required = false end.
Proof.
  unfold normalise_legacy_reason, legacy_code, is_blank.
  destruct j as [| | |s| |]; try (split; [done|destruct r; naive_solver]).
  { destruct r as [c|].
    - split; [by destruct required|]. by intros (s & ? & _).
    - destruct required; split; try done; [by intros [_ ?]|]. intros _. split; [by left|done]. }
  destruct (Text.strip s) as [|a n] eqn:Hs; cbn [Text.is_empty].
  { destruct r as [c|].
    - split; [by destruct required|]. intros (s' & [= <-] & Hc). rewrite Hs in Hc. by destruct c.
    - destruct required; split; try done; [by intros [_ ?]|]. intros _. split; [right; by exists s|done]. }
  destruct (Nat.ltb_spec _REASON_MAX_LENGTH (String.length (String a n))) as [Hlong|_].
  { split; [done|]. destruct r as [c|]; [|by intros [[?|(s' & [= <-] & ?)] _]; [|congruence]]. intros (s' & [= <-] & Hc).
    exfalso. rewrite Hs in Hc. rewrite Hc in Hlong. destruct c; vm_compute in Hlong; lia. }
  pose proof (of_value_spec (String a n)) as Hv.
  destruct (OperationalReasonCode.of_value (String a n)) as [c|].
  - pose proof (proj1 (Hv c) eq_refl) as Hc. split.
    + intros [= <-]. exists s. split; [done|congruence].
    + destruct r as [c'|]; [|by intros [[?|(s' & [= <-] & ?)] _]; [|congruence]].
      intros (s' & [= <-] & Hc'). f_equal. apply Hv. congruence.
  - split; [by destruct (_ensure_reason_has_no_sensitive_detail (String a n))|].
    destruct r as [c'|]; [|by intros [[?|(s' & [= <-] & ?)] _]; [|congruence]]. intros (s' & [= <-] & Hc'). exfalso.
    assert (None = Some c') as ? by (apply Hv; congruence). done.
Qed.

(** ** Bodies with a reason *)

Lemma get_pop k k' d : k <> k' -> dict_get k (dict_pop k' d) = dict_get k d.
Proof.
  intros Hk. unfold dict_get, dict_pop. f_equal. induction d as [|[a v] d IH]; [done|]. cbn.
  destruct (String.eqb_spec a k') as [->|Ha]; cbn.
  - rewrite IH. by destruct (String.eqb_spec k' k); [congruence|].
  - by rewrite IH.
Qed.

Lemma get_set k v d : dict_get k (dict_set k v d) = Some v.
Proof. unfold dict_get, dict_set. cbn. by rewrite String.eqb_refl. Qed.

(** Only these members. *)
Definition only (names : list string) (d : dict) : Prop := forall kv, kv ∈ d -> kv.1 ∈ names.

Lemma forbid_extra_ok names d : forbid_extra names d = Ok tt <-> only names d.
Proof.
  unfold forbid_extra, only. destruct (forallb _ d) eqn:Hf.
  - split; [|done]. intros _ kv Hin. rewrite forallb_forall in Hf.
    by apply (bool_decide_eq_true_1 (kv.1 ∈ names)), Hf, list_elem_of_In.
  - split; [done|]. intros Hall. rewrite <- not_true_iff_false, forallb_forall in Hf. destruct Hf.
    intros kv Hin. apply bool_decide_eq_true. by apply Hall, list_elem_of_In.
Qed.

Lemma only_pop name names d : only names (dict_pop name d) <-> only (name :: names) d.
Proof.
  unfold only, dict_pop. split; intros Hd kv Hin.
  - destruct (String.eqb_spec kv.1 name) as [->|Hne]; [by left|]. right. apply Hd.
    apply list_elem_of_In, filter_In. split; [by apply list_elem_of_In|].
    by destruct (String.eqb_spec kv.1 name).
  - apply list_elem_of_In, filter_In in Hin as [Hin Hne]. apply list_elem_of_In, Hd in Hin.
    apply elem_of_cons in Hin as [Heq|]; [|done]. rewrite Heq, String.eqb_refl in Hne. done.
Qed.

Lemma only_set name v names d : name ∈ names -> only names (dict_set name v d) <-> only names d.
Proof.
  intros Hn. unfold only, dict_set. split; intros Hd kv Hin.
  - destruct (String.eqb_spec kv.1 name) as [->|Hne]; [done|]. apply Hd. right.
    apply list_elem_of_In, filter_In. split; [by apply list_elem_of_In|].
    by destruct (String.eqb_spec kv.1 name).
  - apply elem_of_cons in Hin as [->|Hin]; [done|]. apply Hd.
    by apply list_elem_of_In, filter_In in Hin as [Hin%list_elem_of_In _].
Qed.

(** The new field is not given, or null. *)
Definition code_absent (d : dict) : Prop :=
  dict_get "reason_code" d = None \/ dict_get "reason_code" d = Some JNull.

(** The code a body gives: in the new field, or as the whole text of the old one. *)
Definition gives (d : dict) (c : OperationalReasonCode.t) : Prop :=
  dict_get "reason_code" d = Some (JStr (OperationalReasonCode.value c)) \/
  (code_absent d /\ exists j, dict_get "reason" d = Some j /\ legacy_code j c).

Definition gives_nothing (d : dict) : Prop :=
  code_absent d /\ forall j, dict_get "reason" d = Some j -> is_blank j.

Definition body_with (names : list string) (data : json) (P : dict -> Prop) : Prop :=
  exists d, data = JObj d /\ only ("reason"%string :: names) d /\ P d.

(** What a schema sees of the reason after the old field was translated. *)
Inductive translated (d : dict) (required : bool) : option json -> Prop :=
  | no_reason : dict_get "reason" d = None -> translated d required (dict_get "reason_code" d)
  | code_wins j : dict_get "reason" d = Some j -> ~ code_absent d ->
      translated d required (dict_get "reason_code" d)
  | reason_read j r : dict_get "reason" d = Some j -> code_absent d ->
      normalise_legacy_reason (Given j) required = Ok r ->
      translated d required (Some (code_json r)).

Lemma get_none_not_key k d : dict_get k d = None -> forall kv, kv ∈ d -> kv.1 <> k.
Proof.
  unfold dict_get. intros Hn kv Hin Hk.
  destruct (List.find _ d) eqn:Hf; [done|]. apply list_elem_of_In in Hin.
  by pose proof (List.find_none _ _ Hf kv Hin) as Hne%String.eqb_neq.
Qed.

Lemma translation d required names data :
  "reason_code"%string ∈ names -> normalise_legacy_reason_payload (JObj d) required = Ok data ->
  exists d', data = JObj d' /\ (only names d' <-> only ("reason"%string :: names) d) /\
    translated d required (dict_get "reason_code" d').
Proof.
  intros Hn. unfold normalise_legacy_reason_payload.
  destruct (dict_get "reason" d) as [j|] eqn:Hr.
  2:{ intros [= <-]. exists d. split; [done|]. split; [|by constructor].
      unfold only. split; intros Hd kv Hin; [right; by apply Hd|].
      apply Hd in Hin as Hk. apply elem_of_cons in Hk as [Hk|]; [|done].
      by destruct (get_none_not_key _ _ Hr kv Hin). }
  cbv zeta. rewrite get_pop by done. destruct (dict_get "reason_code" d) as [c|] eqn:Hc.
  - assert (Hsome : c <> JNull -> Ok (JObj (dict_pop "reason" d)) = Ok data -> exists d',
      data = JObj d' /\ (only names d' <-> only ("reason"%string :: names) d) /\
      translated d required (dict_get "reason_code" d')).
    { intros Hcn [= <-]. eexists. split; [done|]. split; [apply only_pop|].
      rewrite get_pop by done. eapply code_wins; [exact Hr|]. intros [?|?]; congruence. }
    destruct c; try by apply Hsome.
    destruct (normalise_legacy_reason _ _) as [r|] eqn:Hl; [|done]. intros [= <-].
    eexists. split; [done|]. rewrite only_set by done. split; [apply only_pop|].
    rewrite get_set. by eapply reason_read; [|right|].
  - destruct (normalise_legacy_reason _ _) as [r|] eqn:Hl; [|done]. intros [= <-].
    eexists. split; [done|]. rewrite only_set by done. split; [apply only_pop|].
    rewrite get_set. by eapply reason_read; [|left|].
Qed.

(** It only fails on the old field. *)
Lemma translation_fails d required e :
  normalise_legacy_reason_payload (JObj d) required = Err e ->
  code_absent d /\ exists j, dict_get "reason" d = Some j /\ normalise_legacy_reason (Given j) required = Err e.
Proof.
  unfold normalise_legacy_reason_payload. destruct (dict_get "reason" d) as [j|] eqn:Hr; [|done].
  cbv zeta. rewrite get_pop by done. unfold code_absent.
  destruct (dict_get "reason_code" d) as [[]|]; try done;
    (destruct (normalise_legacy_reason _ _) as [r|e'] eqn:Hl; [done|]); intros [= <-]; eauto.
Qed.

Lemma code_json_value r c : code_json r = JStr (OperationalReasonCode.value c) <-> r = Some c.
Proof.
  split; [|by intros ->]. destruct r as [c'|]; [|done]. intros [= Hv]. f_equal.
  enough (Some c' = Some c) as [= ->] by done.
  rewrite <- (proj2 (of_value_spec _ c') eq_refl), Hv. by apply of_value_spec.
Qed.

(** What the schema finds is what the body gives. *)
Lemma translated_gives d required j c :
  translated d required j ->
  (j = Some (JStr (OperationalReasonCode.value c)) <-> gives d c).
Proof.
  unfold gives. intros [Hr|j' Hr Hc|j' r Hr Hc Hn].
  - split; [by left|]. intros [?|(_ & j' & Hj & _)]; [done|congruence].
  - split; [by left|]. intros [?|[? _]]; [done|by destruct Hc].
  - pose proof (proj1 (normalise_spec j' required r) Hn) as Hs. split.
    + intros [= Hv]. apply code_json_value in Hv as ->. right. eauto.
    + intros [Hg|(_ & j'' & Hj & Hl)]; [destruct Hc; congruence|].
      assert (j'' = j') as -> by congruence. f_equal. apply code_json_value.
      assert (normalise_legacy_reason (Given j') required = Ok (Some c)) by by apply normalise_spec.
      congruence.
Qed.

Lemma translated_nothing d j :
  translated d false j -> (j = None \/ j = Some JNull <-> gives_nothing d).
Proof.
  unfold gives_nothing. intros [Hr|j' Hr Hc|j' r Hr Hc Hn].
  - split; [|by intros [Hc _]]. intros Hc. split; [done|congruence].
  - split; [done|by intros [? _]].
  - apply normalise_spec in Hn. split.
    + intros [?|[= Hj]]; [done|]. destruct r; [done|]. destruct Hn as [Hb _].
      split; [done|congruence].
    + intros [_ Hb]. destruct r as [c|]; [|by right]. specialize (Hb _ Hr).
      destruct Hn as (s & -> & Hs). destruct Hb as [?|(s' & [= <-] & Hb)]; [done|].
      rewrite Hs in Hb. by destruct c.
Qed.

(** ** Properties *)

Import ReasonBodies.

Lemma model_ok data d : model data = Ok d <-> data = JObj d.
Proof. unfold model. destruct data; cbn; naive_solver. Qed.

(** Where a reason is needed, a body is accepted exactly when it has the one field and gives
    one of the ten codes: in [reason_code], or, when that is missing or null, as the whole text
    of the old field [reason]. Free text is never accepted. *)
Theorem required_reason_is_code data c :
  required_code data = Ok c <-> body_with ["reason_code"%string] data (fun d => gives d c).
Proof.
  unfold required_code, body_with. rewrite bind_ok. split.
  - intros (data' & Hp & Hrest). rewrite bind_ok in Hrest. destruct Hrest as (d' & Hm & Hrest).
    apply model_ok in Hm as ->. rewrite bind_ok in Hrest. destruct Hrest as ([] & Hf & Hr).
    destruct data as [| | | | |d]; try done. exists d. split; [done|].
    destruct (translation d true ["reason_code"%string] _ ltac:(by left) Hp) as (d'' & [= <-] & Hon & Ht).
    apply forbid_extra_ok in Hf. split; [by apply Hon|]. apply (translated_gives _ _ _ c Ht).
    unfold required in Hr. destruct (dict_get "reason_code" d') as [j|]; [|done].
    by apply read_reason_code_spec in Hr as ->.
  - intros (d & -> & Hon & Hg).
    destruct (normalise_legacy_reason_payload (JObj d) true) as [data'|e] eqn:Hp.
    + exists data'. split; [done|].
      destruct (translation d true ["reason_code"%string] _ ltac:(by left) Hp) as (d' & -> & Hon' & Ht).
      rewrite bind_ok. exists d'. split; [done|]. rewrite bind_ok. exists tt.
      split; [by apply forbid_extra_ok, Hon'|]. apply (translated_gives _ _ _ c Ht) in Hg.
      unfold required. rewrite Hg. by apply read_reason_code_spec.
    + exfalso. apply translation_fails in Hp as (Ha & j & Hj & He).
      destruct Hg as [Hg|(_ & j' & Hj' & Hl)]; [destruct Ha; congruence|].
      assert (j' = j) as -> by congruence.
      assert (normalise_legacy_reason (Given j) true = Ok (Some c)) by by apply normalise_spec. congruence.
Qed.

(** Where a reason may be left out, the same holds, and no reason is accepted exactly when
    neither field gives one. *)
Theorem optional_reason_is_code data r :
  optional_code data = Ok r <->
  body_with ["reason_code"%string] data
    (fun d => match r with Some c => gives d c | None => gives_nothing d end).
Proof.
  unfold optional_code, body_with. rewrite bind_ok.
  assert (Hread : forall d' (d : dict), translated d false (dict_get "reason_code" d') ->
    with_default "reason_code" None (or_null read_reason_code) d' = Ok r <->
    match r with Some c => gives d c | None => gives_nothing d end).
  { intros d' d Ht. unfold with_default.
    transitivity (match r with
      | Some c => dict_get "reason_code" d' = Some (JStr (OperationalReasonCode.value c))
      | None => dict_get "reason_code" d' = None \/ dict_get "reason_code" d' = Some JNull end).
    2:{ destruct r as [c|]; [by apply translated_gives with (1 := Ht)|by apply translated_nothing]. }
    destruct (dict_get "reason_code" d') as [j|]; [|destruct r; naive_solver].
    unfold or_null. destruct j; try (split; [by destruct r|destruct r; naive_solver]).
    - by destruct r; split; auto.
    - rewrite bind_ok. split.
      + intros (c & Hc & [= <-]). by apply read_reason_code_spec in Hc as ->.
      + destruct r as [c|]; [|by intros [?|?]]. intros [= ->]. exists c.
        by split; [apply read_reason_code_spec|]. }
  split.
  - intros (data' & Hp & Hrest). rewrite bind_ok in Hrest. destruct Hrest as (d' & Hm & Hrest).
    apply model_ok in Hm as ->. rewrite bind_ok in Hrest. destruct Hrest as ([] & Hf & Hr).
    destruct data as [| | | | |d]; try done. exists d. split; [done|].
    destruct (translation d false ["reason_code"%string] _ ltac:(by left) Hp) as (d'' & [= <-] & Hon & Ht).
    apply forbid_extra_ok in Hf. split; [by apply Hon|]. by apply (Hread d' d Ht).
  - intros (d & -> & Hon & Hg).
    destruct (normalise_legacy_reason_payload (JObj d) false) as [data'|e] eqn:Hp.
    + exists data'. split; [done|].
      destruct (translation d false ["reason_code"%string] _ ltac:(by left) Hp) as (d' & -> & Hon' & Ht).
      rewrite bind_ok. exists d'. split; [done|]. rewrite bind_ok. exists tt.
      split; [by apply forbid_extra_ok, Hon'|]. by apply (Hread d' d Ht).
    + exfalso. apply translation_fails in Hp as (Ha & j & Hj & He). destruct r as [c|].
      * destruct Hg as [Hg|(_ & j' & Hj' & Hl)]; [destruct Ha; congruence|].
        assert (j' = j) as -> by congruence.
        assert (normalise_legacy_reason (Given j) false = Ok (Some c)) by by apply normalise_spec. congruence.
      * destruct Hg as [_ Hb]. specialize (Hb j Hj).
        assert (normalise_legacy_reason (Given j) false = Ok None) by by apply normalise_spec. congruence.
Qed.

(** *** Names and slugs *)

Lemma fullmatch_spec s : forall r, OrganisationBodies.fullmatch r s = true <-> lang r s.
Proof.
  induction s as [|c s IH]; intros r; cbn [OrganisationBodies.fullmatch]; [apply nullable_spec|].
  rewrite IH. split; [apply lang_deriv_1|apply lang_deriv_2].
Qed.

(** The two patterns of slugs are one. *)
Lemma slug_patterns s : OrganisationBodies.fullmatch OrganisationBodies._SLUG_PATTERN s =
  OrganisationService._SLUG_PATTERN s.
Proof.
  apply eq_bool_prop_intro. rewrite !Is_true_true, fullmatch_spec.
  unfold OrganisationService._SLUG_PATTERN, OrganisationBodies._SLUG_PATTERN.
  rewrite andb_true_iff, negb_true_iff. set (p := fun c => _).
  assert (Hp : forall s, Text.forallb_chars p s = Text.forallb_chars OrganisationService.slug_char s).
  { intros t. induction t as [|c t IH]; [done|]. cbn [Text.forallb_chars]. by rewrite IH. }
  rewrite <- Hp. split.
  - intros Hl. inversion Hl as [| |a b u v Hu Hv| | | |]; subst. inversion Hu as [|q c Hc| | | | |]; subst.
    split; [done|]. change (String c "" ++ v)%string with (String c v). cbn [Text.forallb_chars].
    rewrite Hc. cbn [andb]. clear Hl Hu Hc. remember (Star (Chr p)) as r eqn:Er.
    induction Hv as [| | | | |a|a x y Hx IHx Hy IHy]; try done. injection Er as ->.
    inversion Hx as [|q c' Hc| | | | |]; subst. change (String c' "" ++ y)%string with (String c' y).
    cbn [Text.forallb_chars]. rewrite Hc. by apply IHy.
  - intros [Hne Hall]. apply lang_plus_chr; [done|]. by intros ->.
Qed.

(** A name or a slug passes the schema exactly when it passes the service, which then takes it
    as it is. *)
Theorem schema_agrees_with_service raw w :
  match OrganisationBodies.normalize_and_validate_slug raw with
  | Ok s => OrganisationService.normalize_slug raw w = (Ok s, w) /\
            OrganisationService.normalize_slug s w = (Ok s, w)
  | Err _ => exists detail, OrganisationService.normalize_slug raw w = (Err (BadRequestError detail), w)
  end /\
  match OrganisationBodies.validate_name raw with
  | Ok s => OrganisationService.normalize_name raw w = (Ok s, w) /\
            OrganisationService.normalize_name s w = (Ok s, w)
  | Err _ => exists detail, OrganisationService.normalize_name raw w = (Err (BadRequestError detail), w)
  end.
Proof.
  split.
  - unfold OrganisationBodies.normalize_and_validate_slug, OrganisationService.normalize_slug.
    rewrite slug_patterns. destruct (Text.is_empty (Text.lower (Text.strip raw))) eqn:He; [by eexists|].
    destruct (OrganisationService._SLUG_PATTERN (Text.lower (Text.strip raw))) eqn:Hs; cbn [negb]; [|by eexists].
    split; [done|]. by rewrite Text.strip_lower, Text.lower_idem, Text.strip_idem, He, Hs.
  - unfold OrganisationBodies.validate_name, OrganisationService.normalize_name.
    destruct (Text.is_empty (Text.strip raw)) eqn:He; [by eexists|]. split; [done|].
    by rewrite Text.strip_idem, He.
Qed.

(** *** Requests of data subjects *)

Import CreateDataSubjectRequest DataSubjectRequestsApi.

Lemma validated_payload p p' : validate_representative_payload p = Ok p' ->
  p' = p /\
  match requester_role p with
  | DataSubjectRequestRequesterRole.SELF =>
      subject_user_id p = None /\ representative_relationship p = None /\
      representative_authority_note p = None
  | DataSubjectRequestRequesterRole.AUTHORISED_REPRESENTATIVE =>
      is_Some (subject_user_id p) /\ is_Some (representative_relationship p) /\
      is_Some (representative_authority_note p)
  end.
Proof.
  unfold validate_representative_payload.
  destruct (requester_role p), (subject_user_id p), (representative_relationship p),
    (representative_authority_note p); cbn; intros [= <-]; eauto 6.
Qed.

Lemma text_field_size n j o : text_field n j = Ok o ->
  match o with Some s => (String.length s <= n)%nat | None => True end.
Proof.
  unfold text_field, or_null. set (j' := normalise_optional_text j).
  destruct j'; try done; try by intros [= <-].
  intros Hb. apply bind_ok in Hb as (x & Hx & [= <-]). unfold sized in Hx.
  apply bind_ok in Hx as (y & [= <-] & Hx). cbn [Nat.leb andb] in Hx.
  by destruct (Nat.leb_spec (String.length s) n); [injection Hx as <-|].
Qed.

Lemma default_field_size n name d o :
  with_default name None (text_field n) d = Ok o ->
  match o with Some s => (String.length s <= n)%nat | None => True end.
Proof. unfold with_default. destruct (dict_get name d); [apply text_field_size|by intros [= <-]]. Qed.

(** Runs guards, [mret] and sequencing. *)
Ltac run_m := unfold or_raise, raise_if, raise, mbind, M_bind, mret, M_ret; cbv iota beta.

(** A body that is accepted is coherent: the service takes its representative or has none to
    check, whoever sends it; all it may still refuse is a representative of oneself. *)
Theorem accepted_requests_coherent `{UuidType} data p user w :
  model_validate data = Ok p ->
  let intake := DataSubjectRequestService._build_representative_intake_values user
    (subject_user_id p) (requester_role p) (representative_relationship p)
    (representative_authority_note p) w in
  (exists v, intake = (Ok v, w) /\ DataSubjectRequestService.requester_role v = requester_role p /\
     DataSubjectRequestService.subject_user_id v = default user (subject_user_id p)) \/
  (subject_user_id p = Some user /\
   intake = (Err (BadRequestError "Representative requests must target a different subject user"), w)).
Proof.
  intros Hv. unfold model_validate in Hv. rewrite bind_ok in Hv. destruct Hv as (d & _ & Hv).
  repeat (rewrite bind_ok in Hv; destruct Hv as (? & ? & Hv)).
  apply validated_payload in Hv as [-> Hrole]. cbn in Hrole |- *.
  match goal with Hr : with_default "representative_relationship" _ _ _ = Ok _ |- _ =>
    apply default_field_size in Hr as Hrel end.
  match goal with Hr : with_default "representative_authority_note" _ _ _ = Ok _ |- _ =>
    apply default_field_size in Hr as Hnote end.
  match goal with |- context [DataSubjectRequestService._build_representative_intake_values _ _ ?r _ _] => destruct r end.
  - destruct Hrole as (-> & -> & ->). left. eexists. split; [reflexivity|done].
  - destruct Hrole as ([s ->] & [rel ->] & [note ->]).
    unfold DataSubjectRequestService._build_representative_intake_values.
    destruct (decide (s = user)) as [->|Hne].
    + right. split; [done|]. run_m. by rewrite bool_decide_true.
    + left. run_m. rewrite bool_decide_false by done. cbv iota beta.
      assert (forall n t, (String.length t <= n)%nat ->
        DataSubjectRequestService.too_long (Z.of_nat n) t = false) as Hle
        by (intros; apply Z.ltb_ge; lia).
      change DataSubjectRequestService.REPRESENTATIVE_RELATIONSHIP_MAX_LENGTH
        with (Z.of_nat REPRESENTATIVE_RELATIONSHIP_MAX_LENGTH).
      change DataSubjectRequestService.REPRESENTATIVE_AUTHORITY_NOTE_MAX_LENGTH
        with (Z.of_nat REPRESENTATIVE_AUTHORITY_NOTE_MAX_LENGTH).
      rewrite (Hle _ rel Hrel). cbv iota beta. rewrite (Hle _ note Hnote).
      eexists. split; [reflexivity|done].
Qed.

(** *** Payloads of invite events *)

(** The text of a UUID reads back. *)
Definition uuid_law `{UuidType} : Prop := forall u, (u < 16 ^ 32)%N -> uuid_str (Uuid.str u) = Some u.

(** With this schema the worker reads every payload the invite service writes for an address
    of mail: what is asked of pydantic where tokens travel through the outbox holds. *)
Theorem schema_reads_own_payloads `{UuidType, EmailTypes} i o encrypted purpose :
  uuid_law -> writes (fun e => email_str e = Some e) i o purpose ->
  invite_outbox_fields (InviteService.delivery_payload i o encrypted purpose)
  = Ok (InviteOutboxPayload.mk (Invite.id i) (Some o) (Some (Invite.email i)) encrypted
          (Some purpose) (Some (Invite.role i))).
Proof.
  intros Hu (Hi & Ho & He & Hp). unfold invite_outbox_fields, InviteService.delivery_payload.
  cbn [model as_dict mbind result_bind].
  unfold required, with_default, dict_get, read_parsed, or_null, read_str.
  cbn [List.find fst snd fmap option_fmap option_map String.eqb Ascii.eqb Bool.eqb mbind result_bind].
  rewrite !Hu, He by done. cbn [mbind result_bind].
  apply elem_of_cons in Hp as [->|[->|?%elem_of_nil]%elem_of_cons]; [..|done];
    by destruct (Invite.role i).
Qed.

(** ** Witnesses *)
Module Witness.

#[local] Instance uuids : UuidType := {| uuid_str s := Some (Uuid.of_str s) |}.
#[local] Instance emails : EmailTypes := {| email_str := Some |}.

Definition body : json :=
  JObj [("request_type", JStr "erase"); ("requester_role", JStr "authorised_representative");
        ("subject_user_id", JStr (Uuid.str 3)); ("representative_relationship", JStr " parent ");
        ("representative_authority_note", JStr "court order")]%string.

Lemma accepted_requests_coherent_witness :
  exists p, model_validate body = Ok p /\ representative_relationship p = Some "parent"%string /\
    forall w, exists v, DataSubjectRequestService._build_representative_intake_values 1%N
      (subject_user_id p) (requester_role p) (representative_relationship p)
      (representative_authority_note p) w = (Ok v, w).
Proof.
  eexists. split; [vm_compute; reflexivity|]. split; [reflexivity|]. intros w.
  match goal with |- context [subject_user_id ?p] =>
    destruct (@accepted_requests_coherent uuids body p 1%N w ltac:(vm_compute; reflexivity))
      as [(v & Hv & _)|[Hs _]]; [by exists v|discriminate Hs] end.
Defined.

Lemma schema_reads_own_payloads_witness :
  (31 < 16 ^ 32)%N /\
  exists p, invite_outbox_fields (InviteService.delivery_payload (Fixtures.Fixtures.invite 31 "dave" "good" 0) 10
    "fernet:good" "created") = Ok p.
Proof.
  split; [reflexivity|]. eexists. apply schema_reads_own_payloads.
  - intros u Hu. change (Some (Uuid.of_str (Uuid.str u)) = Some u). f_equal. by apply Uuid.of_str_str.
  - split_and!; [reflexivity..|by left].
Defined.

Lemma codes_examples :
  required_code (JObj [("reason", JStr " user_request ")]%string) = Ok OperationalReasonCode.USER_REQUEST /\
  required_code (JObj [("reason", JStr "left the company")]%string)
    = Err (ValueError "legacy reason must use a structured reason code; free text is not accepted") /\
  _contains_sensitive_reason_detail "mail bob@example.org" = true /\
  _contains_sensitive_reason_detail "Bearer abcdefghijklmnop" = true /\
  _contains_sensitive_reason_detail "a billing question" = false.
Proof. split_and!; vm_compute; reflexivity. Qed.
End Witness.
