(* ===== verification/PlatformProofs.v ===== *)
(** The platform side: who gets a platform actor, what the staff and account
    administration changes, and that it never removes the last administrator. *)
From S2P Require Import Prelude Errors Session Schema Tables AuditLog Users Memberships.
From S2P Require Import Organisations MembershipServices Platform Requests Api Fixtures AuditProofs.
From S2P Require Import UserProofs MembershipProofs.

Section Platform.
Context `{Env} `{Network}.
Implicit Types (d : Db) (E : exn -> Prop) (s : PlatformStaff.t).

(** ** Actors *)

(** The actor [identity] resolves to: an active user with an active staff record of a
    known role. *)
Definition acts d (identity : identity_t) (actor : PlatformActor.t) : Prop :=
  let u := PlatformActor.user actor in
  let s := PlatformActor.staff actor in
  users d !! User.id u = Some u /\
  User.external_auth_id u = AuthenticatedPrincipal.external_auth_id identity /\
  User.status u = UserStatus.ACTIVE /\
  platform_staff d !! PlatformStaff.id s = Some s /\ PlatformStaff.user_id s = User.id u /\
  PlatformStaff.status s = PlatformStaffStatus.value PlatformStaffStatus.ACTIVE /\
  exists role, PlatformStaffRole.of_value (PlatformStaff.role s) = Some role /\
    PlatformActor.permissions actor = PlatformPermission.ROLE_PERMISSIONS role.

Lemma user_by_identity d x u u' :
  wf d -> users d !! User.id u = Some u -> users d !! User.id u' = Some u' ->
  User.external_auth_id u = x -> User.external_auth_id u' = x -> u = u'.
Proof.
  intros Hwf Hu Hu' Hx Hx'. pose proof (wf_unique (R := User.t) d _ _ u u' Hwf Hu Hu') as Hun.
  simpl in Hun. assert (User.id u = User.id u') as He; [|congruence].
  apply Hun. apply String.eqb_eq. congruence.
Qed.

Lemma staff_by_user d s s' :
  wf d -> platform_staff d !! PlatformStaff.id s = Some s ->
  platform_staff d !! PlatformStaff.id s' = Some s' ->
  PlatformStaff.user_id s = PlatformStaff.user_id s' -> s = s'.
Proof.
  intros Hwf Hs Hs' Hu. pose proof (wf_unique (R := PlatformStaff.t) d _ _ s s' Hwf Hs Hs') as Hun.
  simpl in Hun. assert (PlatformStaff.id s = PlatformStaff.id s') as He; [|congruence].
  apply Hun. by apply bool_decide_eq_true.
Qed.

Lemma acts_unique d identity a a' : wf d -> acts d identity a -> acts d identity a' -> a = a'.
Proof.
  intros Hwf (Hu & Hx & _ & Hs & Hsu & _ & r & Hr & Hp) (Hu' & Hx' & _ & Hs' & Hsu' & _ & r' & Hr' & Hp').
  assert (PlatformActor.user a = PlatformActor.user a') as Eu by by eapply user_by_identity.
  assert (PlatformActor.staff a = PlatformActor.staff a') as Es
    by (apply (staff_by_user d); [done..|]; congruence).
  destruct a, a'; simpl in *; subst. rewrite Hr in Hr'. by injection Hr' as ->.
Qed.

Lemma wp_get_staff_by_user u (Q : option PlatformStaff.t -> Db -> Prop) E d :
  wf d ->
  (forall s, platform_staff d !! PlatformStaff.id s = Some s -> PlatformStaff.user_id s = u -> Q (Some s) d) ->
  ((forall k s, platform_staff d !! k = Some s -> PlatformStaff.user_id s <> u) -> Q None d) ->
  wp (PlatformStaffRepository.get_by_user_id u) Q E d.
Proof.
  intros Hwf HS HN. apply wp_select_one_or_none; [done|..].
  - intros s s' Hs Hs' Hu%bool_decide_eq_true_1 Hu'%bool_decide_eq_true_1.
    by rewrite (staff_by_user d s s' Hwf Hs Hs' ltac:(congruence)).
  - intros s Hs Hu%bool_decide_eq_true_1. by apply HS.
  - intros Hno. apply HN. intros k s Hs. by eapply bool_decide_eq_false_1, Hno.
Qed.

Lemma wp_resolve_active identity (Q : PlatformActor.t -> Db -> Prop) E d :
  wf d ->
  (forall a, acts d identity a -> Q a d) ->
  ((forall a, ~ acts d identity a) -> E WriteContext.denied) ->
  wp (WriteContext.resolve_active_platform_actor identity) Q E d.
Proof.
  intros Hwf HS HE. apply wp_bind, wp_get_by_external_auth_id; [done|..].
  2:{ intros Hno. apply wp_bind, wp_raise, HE. intros a (Hu & Hx & _). by eapply Hno. }
  intros u Hu Hx. apply wp_bind, wp_ret, wp_bind, wp_raise_if; intros Ha.
  { apply HE. intros a (Hu' & Hx' & Hs & _). apply negb_true_iff, bool_decide_eq_false_1 in Ha.
    apply Ha. by rewrite (user_by_identity d _ u (PlatformActor.user a) Hwf Hu Hu' Hx Hx'). }
  apply negb_false_iff, bool_decide_eq_true_1 in Ha.
  assert (Hmine : forall a, acts d identity a -> PlatformActor.user a = u)
    by (intros a (Hu' & Hx' & _); by eapply user_by_identity).
  apply wp_bind, wp_get_staff_by_user; [done|..].
  2:{ intros Hno. apply wp_bind, wp_raise, HE. intros a Hact. pose proof (Hmine a Hact) as <-.
      destruct Hact as (_ & _ & _ & Hs & Hsu & _). by eapply Hno. }
  intros s Hs Hsu. apply wp_bind, wp_ret.
  assert (Hstaff : forall a, acts d identity a -> PlatformActor.staff a = s).
  { intros a Hact. pose proof (Hmine a Hact) as <-. destruct Hact as (_ & _ & _ & Hs' & Hsu' & _).
    apply (staff_by_user d); [done..|congruence]. }
  apply wp_bind, wp_raise_if; intros Hst.
  { apply HE. intros a Hact. pose proof (Hstaff a Hact) as <-.
    destruct Hact as (_ & _ & _ & _ & _ & Hok & _). by rewrite Hok in Hst. }
  apply negb_false_iff, String.eqb_eq in Hst.
  apply wp_bind, wp_or_raise.
  { intros Hr. apply HE. intros a Hact. pose proof (Hstaff a Hact) as <-.
    destruct Hact as (_ & _ & _ & _ & _ & _ & r & Hr' & _). congruence. }
  intros r Hr. apply wp_ret, HS. simpl. do 6 (split; [done|]). by exists r.
Qed.

(** The identity resolves to an actor holding the permission. *)
Definition may_act d (identity : identity_t) (p : PlatformPermission.t) (a : PlatformActor.t) : Prop :=
  acts d identity a /\ p ∈ PlatformActor.permissions a.

Lemma wp_resolve identity p (Q : PlatformActor.t -> Db -> Prop) E d :
  wf d ->
  (forall a, may_act d identity p a -> Q a d) ->
  ((forall a, ~ may_act d identity p a) -> E WriteContext.denied) ->
  wp (WriteContext.resolve_platform_actor identity p) Q E d.
Proof.
  intros Hwf HS HE. apply wp_bind, wp_resolve_active; [done|..].
  - intros a Ha. apply wp_bind, wp_raise_if; intros Hp.
    + apply HE. intros a' [Ha' Hp']. rewrite (acts_unique d identity a' a Hwf Ha' Ha) in Hp'.
      apply negb_true_iff, bool_decide_eq_false_1 in Hp. done.
    + apply wp_ret, HS. split; [done|]. by apply negb_false_iff, bool_decide_eq_true_1 in Hp.
  - intros Hno. apply HE. intros a [Ha _]. by apply (Hno a).
Qed.

(** ** Staff administration *)

Lemma wp_get_staff k (Q : PlatformStaff.t -> Db -> Prop) E d :
  wf d ->
  (forall s, platform_staff d !! k = Some s -> PlatformStaff.id s = k -> Q s d) ->
  (platform_staff d !! k = None -> forall e, app_error e -> E e) ->
  wp (PlatformStaffService.get_staff k) Q E d.
Proof.
  intros Hwf HS HE. apply wp_bind, (wp_select_pk k); [done|done|..].
  - intros s Hs Hid. by apply wp_ret, HS.
  - intros Hn. apply wp_raise, HE; [done|]. by repeat eexists.
Qed.

Definition active_admin d (k : UUID) s : Prop :=
  platform_staff d !! k = Some s /\ PlatformStaffRepository.is_active_platform_admin s = true.

(** An administrator other than the holder of the record [k]. *)
Definition another_admin d (k : UUID) : Prop := exists k' s, active_admin d k' s /\ k' <> k.

Lemma wp_ensure_another s refusal (Q : unit -> Db -> Prop) E d :
  wf d -> (another_admin d (PlatformStaff.id s) -> Q tt d) ->
  (forall e, app_error e -> E e) ->
  wp (PlatformStaffService.ensure_another_active_admin s refusal) Q E d.
Proof.
  intros Hwf HQ HE. apply wp_bind, wp_bind, wp_select, wp_ret, wp_raise_if; intros Hb.
  { apply HE. by repeat eexists. }
  apply HQ. apply negb_false_iff, existsb_exists in Hb as (a & Ha & Hne).
  apply list_elem_of_In in Ha. rewrite merge_sort_Permutation in Ha.
  apply (elem_of_rows_where_wf d _ a Hwf) in Ha as [Ha Hadm].
  apply negb_true_iff, bool_decide_eq_false_1 in Hne.
  by exists (PlatformStaff.id a), a.
Qed.

Lemma valid_staff_change d s s' :
  wf d -> platform_staff d !! PlatformStaff.id s = Some s -> PlatformStaff.id s' = PlatformStaff.id s ->
  PlatformStaff.user_id s' = PlatformStaff.user_id s ->
  PlatformStaff.created_by_user_id s' = PlatformStaff.created_by_user_id s ->
  (PlatformStaff.role s' = PlatformStaff.role s \/
   exists r, PlatformStaff.role s' = PlatformStaffRole.value r) ->
  (exists t, PlatformStaff.status s' = PlatformStaffStatus.value t) ->
  valid_row d s' = true.
Proof.
  intros Hwf Hs Hid Hu Hc Hr Ht. pose proof (wf_checks (R := PlatformStaff.t) d _ s Hwf Hs) as Hck.
  destruct (wf_table (R := PlatformStaff.t) d Hwf) as [_ Hun].
  apply valid_row_spec. simpl in Hck |- *. rewrite Hid, Hu, Hc. split.
  - split_checks; try done.
    + destruct Hr as [->|[r ->]]; [done|]. by destruct r.
    + destruct Ht as [t ->]. by destruct t.
  - intros k r Hk Hne. by apply (Hun (PlatformStaff.id s) k s r Hs Hk).
Qed.

(** What [update_row] commits of a staff record, in both cases. *)
Lemma wp_update_staff s f (Q : PlatformStaff.t -> Db -> Prop) E d :
  platform_staff d !! PlatformStaff.id s = Some s -> f s <> s ->
  (forall n, valid_row d (PlatformStaff.set_updated_at n (f s)) = true) ->
  (forall n, let s' := PlatformStaff.set_updated_at n (f s) in
     valid_row d s' = true -> Q s' (put_row s' d)) ->
  wp (update_row (PlatformStaff.id s) f) Q E d.
Proof.
  intros Hs Hf Hv HQ. apply (wp_update_present (R := PlatformStaff.t) _ _ s); [exact Hs|done|..].
  - intros n Hn. simpl in Hn. rewrite Hv in Hn. done.
  - intros n Hn. by apply HQ.
Qed.

(** The audit event of a staff change. *)
Definition staff_event ctx (action : AuditAction.t) (k : UUID) (reason : string)
    (metadata : list (string * json)) (id : UUID) (n : datetime) : AuditEvent.t :=
  event_row ctx AuditCategory.PLATFORM action AuditTargetType.PLATFORM_STAFF (Some k) (Some reason)
    (Some (JObj metadata)) None id n.

Lemma wp_record_staff ctx action s reason m (Q : AuditEvent.t -> Db -> Prop) E d :
  acceptable (JObj m) = true -> (audit_blocked ctx d -> E IntegrityError) ->
  (forall id n, audit_events d !! id = None ->
     let e := staff_event ctx action (PlatformStaff.id s) reason m id n in
     Q e (put_row e d)) ->
  wp (PlatformStaffService.record_staff_event ctx action s reason m) Q E d.
Proof. intros Hm HE HQ. apply wp_record_event; [done|done|]. intros id n Hid e _. by apply HQ. Qed.

Lemma role_value_length s : forall r, PlatformStaff.role s = PlatformStaffRole.value r ->
  (String.length (PlatformStaff.role s) <= 18)%nat.
Proof. intros [] ->; simpl; lia. Qed.

Lemma stored_role d s :
  wf d -> platform_staff d !! PlatformStaff.id s = Some s ->
  exists r, PlatformStaff.role s = PlatformStaffRole.value r.
Proof.
  intros Hwf Hs. pose proof (wf_checks (R := PlatformStaff.t) d _ s Hwf Hs) as Hck.
  simpl in Hck. split_checks.
  repeat match goal with Hb : bool_decide _ = true |- _ => apply bool_decide_eq_true_1 in Hb end.
  match goal with Hr : PlatformStaff.role s ∈ _ |- _ =>
    apply elem_of_cons in Hr as [->|[->|[->|?%elem_of_nil]%elem_of_cons]%elem_of_cons] end; [..|done].
  - by exists PlatformStaffRole.PLATFORM_ADMIN.
  - by exists PlatformStaffRole.SUPPORT_AGENT.
  - by exists PlatformStaffRole.COMPLIANCE_OFFICER.
Qed.

Definition actor_id (a : PlatformActor.t) : UUID := User.id (PlatformActor.user a).

(** When an administrator's record may lose its standing: it is not the actor's
    own and another active administrator remains. *)
Definition may_lose d (a : PlatformActor.t) (k : UUID) s : Prop :=
  PlatformStaff.user_id s <> actor_id a /\ another_admin d k.

Definition recast (role : PlatformStaffRole.t) (n : datetime) s : PlatformStaff.t :=
  PlatformStaff.set_updated_at n (PlatformStaff.set_role (PlatformStaffRole.value role) s).

Definition role_metadata s (role : PlatformStaffRole.t) : list (string * json) :=
  [("old_role", JStr (PlatformStaff.role s)); ("new_role", JStr (PlatformStaffRole.value role));
   ("target_user_id", JStr (Uuid.str (PlatformStaff.user_id s)))]%string.

Lemma role_metadata_acceptable s r role :
  PlatformStaff.role s = PlatformStaffRole.value r -> acceptable (JObj (role_metadata s role)) = true.
Proof. unfold role_metadata. intros ->. solve_acceptable. destruct r, role; simpl; lia. Qed.

Lemma target_metadata_acceptable s r :
  PlatformStaff.role s = PlatformStaffRole.value r ->
  acceptable (JObj (PlatformStaffService.target_metadata s)) = true.
Proof. unfold PlatformStaffService.target_metadata. intros ->. solve_acceptable. destruct r; simpl; lia. Qed.

(** The update and its audit event, the metadata computed by [m] on the new row. *)
Lemma wp_staff_update s f action reason m ctx
    (Q : PlatformStaff.t -> Db -> Prop) (E : exn -> Prop) d :
  wf d -> platform_staff d !! PlatformStaff.id s = Some s -> f s <> s ->
  (forall n, valid_row d (PlatformStaff.set_updated_at n (f s)) = true) ->
  PlatformStaff.id (f s) = PlatformStaff.id s ->
  (forall n, acceptable (JObj (m (PlatformStaff.set_updated_at n (f s)))) = true) ->
  (audit_blocked ctx d -> E IntegrityError) ->
  (forall n id n', audit_events d !! id = None ->
     let s' := PlatformStaff.set_updated_at n (f s) in
     Q s' (put_row (staff_event ctx action (PlatformStaff.id s) reason (m s') id n') (put_row s' d))) ->
  wp (update_row (PlatformStaff.id s) f) (fun staff d' =>
      wp (PlatformStaffService.record_staff_event ctx action staff reason (m staff) ;;
          mret staff) Q E d') E d.
Proof.
  intros Hwf Hs Hf Hv Hid Hm HE HQ. apply wp_update_staff; [done..|].
  intros n s' _. apply wp_bind, wp_record_staff; [apply Hm|..].
  - intros Hb. apply HE. by eapply audit_blocked_frame, Hb.
  - intros id n' Hfresh e. apply wp_ret. unfold e.
    change (PlatformStaff.id s') with (PlatformStaff.id (f s)). rewrite Hid. by apply HQ.
Qed.

Definition refused ctx d (e : exn) : Prop :=
  app_error e \/ (e = IntegrityError /\ audit_blocked ctx d).

Lemma refused_app ctx d c detail extra : refused ctx d (AppError c detail extra).
Proof. left. by repeat eexists. Qed.

Lemma refused_conflict ctx d detail : refused ctx d (ConflictError detail).
Proof. apply refused_app. Qed.

Definition role_changed d (k : UUID) (a : PlatformActor.t) (role : PlatformStaffRole.t)
    (reason : string) ctx (s' : PlatformStaff.t) d' : Prop :=
  exists s n id n', platform_staff d !! k = Some s /\
    PlatformStaff.status s = PlatformStaffStatus.value PlatformStaffStatus.ACTIVE /\
    PlatformStaff.role s <> PlatformStaffRole.value role /\
    (PlatformStaff.role s = PlatformStaffRole.value PlatformStaffRole.PLATFORM_ADMIN ->
       may_lose d a k s) /\
    s' = recast role n s /\ audit_events d !! id = None /\
    d' = put_row (staff_event ctx AuditAction.PLATFORM_STAFF_ROLE_CHANGED k reason
           (role_metadata s role) id n') (put_row s' d).

Lemma wp_change_role k a role reason ctx d :
  wf d ->
  wp (PlatformStaffService.change_role k a role reason ctx)
    (role_changed d k a role reason ctx) (refused ctx d) d.
Proof.
  intros Hwf. apply wp_bind, wp_get_staff; [done| |by left].
  intros s Hs <-. apply wp_bind, wp_raise_if; intros H1; [apply refused_conflict|].
  apply wp_bind, wp_raise_if; intros H2; [apply refused_conflict|].
  apply negb_false_iff, String.eqb_eq in H1. apply String.eqb_neq in H2.
  apply wp_bind, wp_raise_if; intros H3; [apply refused_conflict|].
  destruct (stored_role d s Hwf Hs) as [r Hr].
  assert (Hrest : (PlatformStaff.role s = PlatformStaffRole.value PlatformStaffRole.PLATFORM_ADMIN ->
       may_lose d a (PlatformStaff.id s) s) ->
    wp (staff ← update_row (PlatformStaff.id s) (PlatformStaff.set_role (PlatformStaffRole.value role));
        PlatformStaffService.record_staff_event ctx AuditAction.PLATFORM_STAFF_ROLE_CHANGED staff
          reason [("old_role", JStr (PlatformStaff.role s)); ("new_role", JStr (PlatformStaffRole.value role));
                  ("target_user_id", JStr (Uuid.str (PlatformStaff.user_id staff)))]%string ;;
        mret staff)
      (role_changed d (PlatformStaff.id s) a role reason ctx) (refused ctx d) d).
  { intros Hlose. apply wp_bind. eapply (wp_staff_update s _ _ _ (fun s => [("old_role", _);
      ("new_role", _); ("target_user_id", JStr (Uuid.str (PlatformStaff.user_id s)))]%string));
      [done..| | |done| |by right|].
    - by intros [=]%(f_equal PlatformStaff.role).
    - intros n. apply (valid_staff_change d s); try done; [right; by eexists|by exists PlatformStaffStatus.ACTIVE].
    - intros n. by apply (role_metadata_acceptable s r).
    - intros n id n' Hid s'. exists s, n, id, n'. repeat (split; [done|]). done. }
  apply wp_bind. unfold PlatformStaffService.has_role in *.
  destruct (String.eqb (PlatformStaff.role s) _) eqn:Had.
  - apply String.eqb_eq in Had.
    assert (Hrole : role <> PlatformStaffRole.PLATFORM_ADMIN) by (intros ->; by apply H2).
    rewrite (bool_decide_false (role = _)) in H3 |- * by done. simpl in H3 |- *. rewrite andb_true_r in H3.
    apply bool_decide_eq_false_1 in H3.
    apply wp_ensure_another; [done| |by left]. intros Ho. by apply Hrest.
  - apply wp_ret, Hrest. by intros ?%String.eqb_neq.
Qed.

(** *** Suspension and restoration *)

Definition with_standing (status : PlatformStaffStatus.t) (at_time : option datetime)
    (reason : option string) (n : datetime) s : PlatformStaff.t :=
  PlatformStaff.set_updated_at n (PlatformStaff.set_suspended_reason reason
    (PlatformStaff.set_suspended_at at_time
      (PlatformStaff.set_status (PlatformStaffStatus.value status) s))).

Definition staff_suspended d (k : UUID) (a : PlatformActor.t) (reason : string) ctx
    (s' : PlatformStaff.t) d' : Prop :=
  exists s, platform_staff d !! k = Some s /\ PlatformStaff.user_id s <> actor_id a /\
    ((PlatformStaff.status s = PlatformStaffStatus.value PlatformStaffStatus.SUSPENDED /\
      s' = s /\ d' = d) \/
     exists t n id n',
       PlatformStaff.status s = PlatformStaffStatus.value PlatformStaffStatus.ACTIVE /\
       (PlatformStaff.role s = PlatformStaffRole.value PlatformStaffRole.PLATFORM_ADMIN ->
          another_admin d k) /\
       s' = with_standing PlatformStaffStatus.SUSPENDED (Some t) (Some reason) n s /\
       audit_events d !! id = None /\
       d' = put_row (staff_event ctx AuditAction.PLATFORM_STAFF_SUSPENDED k reason
              (PlatformStaffService.target_metadata s) id n') (put_row s' d)).

Lemma wp_suspend_staff k a reason ctx d :
  wf d ->
  wp (PlatformStaffService.suspend_staff k a reason ctx)
    (staff_suspended d k a reason ctx) (refused ctx d) d.
Proof.
  intros Hwf. apply wp_bind, wp_get_staff; [done| |by left].
  intros s Hs <-. apply wp_bind, wp_raise_if; intros H1; [apply refused_conflict|].
  apply bool_decide_eq_false_1 in H1.
  destruct (PlatformStaffService.has_status s _) eqn:H2.
  { apply wp_ret. exists s. split; [done|]. split; [done|]. left. by apply String.eqb_eq in H2. }
  apply wp_bind, wp_raise_if; intros H3; [apply refused_conflict|].
  apply negb_false_iff, String.eqb_eq in H3.
  destruct (stored_role d s Hwf Hs) as [r Hr].
  assert (Hrest : (PlatformStaff.role s = PlatformStaffRole.value PlatformStaffRole.PLATFORM_ADMIN ->
      another_admin d (PlatformStaff.id s)) ->
    wp (staff ← PlatformStaffRepository.suspend s reason;
        PlatformStaffService.record_staff_event ctx AuditAction.PLATFORM_STAFF_SUSPENDED staff reason
          (PlatformStaffService.target_metadata staff) ;; mret staff)
      (staff_suspended d (PlatformStaff.id s) a reason ctx) (refused ctx d) d).
  { intros Ho. apply wp_bind, wp_bind, wp_draw. intros i.
    apply wp_staff_update; [done..| | |done| |by right|].
    - intros Hf%(f_equal PlatformStaff.status). by rewrite H3 in Hf.
    - intros n. apply (valid_staff_change d s); try done; [by left|by exists PlatformStaffStatus.SUSPENDED].
    - intros n. by apply (target_metadata_acceptable _ r).
    - intros n id n' Hid s'. exists s. split; [done|]. split; [done|]. right.
      exists (clock i), n, id, n'. repeat (split; [done|]). done. }
  apply wp_bind. unfold PlatformStaffService.has_role.
  destruct (String.eqb (PlatformStaff.role s) _) eqn:Had.
  - apply wp_ensure_another; [done| |by left]. intros Ho. by apply Hrest.
  - apply wp_ret, Hrest. by intros ?%String.eqb_neq.
Qed.

Definition staff_restored d (k : UUID) (reason : string) ctx (s' : PlatformStaff.t) d' : Prop :=
  exists s, platform_staff d !! k = Some s /\
    ((PlatformStaff.status s = PlatformStaffStatus.value PlatformStaffStatus.ACTIVE /\
      s' = s /\ d' = d) \/
     exists n id n',
       PlatformStaff.status s = PlatformStaffStatus.value PlatformStaffStatus.SUSPENDED /\
       s' = with_standing PlatformStaffStatus.ACTIVE None None n s /\
       audit_events d !! id = None /\
       d' = put_row (staff_event ctx AuditAction.PLATFORM_STAFF_RESTORED k reason
              (PlatformStaffService.target_metadata s) id n') (put_row s' d)).

Lemma wp_restore_staff k reason ctx d :
  wf d ->
  wp (PlatformStaffService.restore_staff k reason ctx)
    (staff_restored d k reason ctx) (refused ctx d) d.
Proof.
  intros Hwf. apply wp_bind, wp_get_staff; [done| |by left].
  intros s Hs <-. destruct (PlatformStaffService.has_status s _) eqn:H2.
  { apply wp_ret. exists s. split; [done|]. left. by apply String.eqb_eq in H2. }
  apply wp_bind, wp_raise_if; intros H3; [apply refused_conflict|].
  apply negb_false_iff, String.eqb_eq in H3. destruct (stored_role d s Hwf Hs) as [r Hr].
  apply wp_bind, wp_staff_update; [done..| | |done| |by right|].
  - intros Hf%(f_equal PlatformStaff.status). by rewrite H3 in Hf.
  - intros n. apply (valid_staff_change d s); try done; [by left|by exists PlatformStaffStatus.ACTIVE].
  - intros n. by apply (target_metadata_acceptable _ r).
  - intros n id n' Hid s'. exists s. split; [done|]. right. exists n, id, n'.
    repeat (split; [done|]). done.
Qed.

(** *** Accounts *)

Definition user_standing (status : UserStatus.t) (at_time : option datetime)
    (reason : option string) (n : datetime) (u : User.t) : User.t :=
  User.set_updated_at n (User.set_suspended_reason reason
    (User.set_suspended_at at_time (User.set_status status u))).

Definition user_event ctx (action : AuditAction.t) (k : UUID) (reason : string) (id : UUID)
    (n : datetime) : AuditEvent.t :=
  event_row ctx AuditCategory.PLATFORM action AuditTargetType.USER (Some k) (Some reason)
    None None id n.

Definition user_suspended d (k : UUID) (a : PlatformActor.t) (reason : string) ctx
    (u' : User.t) d' : Prop :=
  exists u, users d !! k = Some u /\ actor_id a <> k /\
    ((User.status u = UserStatus.SUSPENDED /\ u' = u /\ d' = d) \/
     exists t n id n', User.status u <> UserStatus.SUSPENDED /\
       u' = user_standing UserStatus.SUSPENDED (Some t) (Some reason) n u /\
       audit_events d !! id = None /\
       d' = put_row (user_event ctx AuditAction.USER_SUSPENDED k reason id n') (put_row u' d)).

Lemma audit_blocked_user ctx (u' : User.t) d :
  audit_blocked ctx (put_row u' d) -> audit_blocked ctx d.
Proof.
  intros [Hb|Hb]; [by left|right]. destruct (AuditContext.actor_user_id ctx) as [k|]; [|done].
  simpl in Hb |- *. apply has_row_false in Hb. apply has_row_false.
  simpl in Hb. by apply lookup_insert_None in Hb as [? _].
Qed.

Lemma wp_suspend_user k a reason ctx d :
  wf d ->
  wp (PlatformUsersService.suspend_user k a reason ctx)
    (user_suspended d k a reason ctx) (refused ctx d) d.
Proof.
  intros Hwf. apply wp_bind, wp_raise_if; intros H1; [apply refused_conflict|].
  apply bool_decide_eq_false_1 in H1.
  apply wp_bind, wp_bind, (wp_select_pk k); [done|done|..]; [|intros _; apply wp_raise; apply refused_app].
  intros u Hu Hid. simpl in Hu, Hid. apply wp_ret. subst k.
  destruct (decide (User.status u = UserStatus.SUSPENDED)) as [Hs|Hs].
  { rewrite bool_decide_true by done. apply wp_ret. exists u. split; [done|]. split; [done|]. by left. }
  rewrite bool_decide_false by done. apply wp_bind, wp_draw. intros i.
  apply wp_bind, (wp_update_present (R := User.t) _ _ u); [exact Hu|..].
  - by intros Hf%(f_equal User.status).
  - intros n Hv. exfalso. apply not_true_iff_false in Hv. apply Hv. by apply (valid_user_change d u).
  - intros n Hv. apply wp_bind, wp_record_event; [done|..].
    + intros Hb. right. split; [done|]. by eapply audit_blocked_user.
    + intros id n' Hfresh e _. apply wp_ret. exists u. split; [done|]. split; [done|]. right.
      exists (clock i), n, id, n'. repeat (split; [done|]). done.
Qed.

Definition user_restored d (k : UUID) (reason : string) ctx (u' : User.t) d' : Prop :=
  exists u, users d !! k = Some u /\
    ((User.status u = UserStatus.ACTIVE /\ u' = u /\ d' = d) \/
     exists n id n', User.status u <> UserStatus.ACTIVE /\
       u' = user_standing UserStatus.ACTIVE None None n u /\ audit_events d !! id = None /\
       d' = put_row (user_event ctx AuditAction.USER_RESTORED k reason id n') (put_row u' d)).

Lemma wp_restore_user k a reason ctx d :
  wf d ->
  wp (PlatformUsersService.restore_user k a reason ctx)
    (user_restored d k reason ctx) (refused ctx d) d.
Proof.
  intros Hwf.
  apply wp_bind, wp_bind, (wp_select_pk k); [done|done|..]; [|intros _; apply wp_raise; apply refused_app].
  intros u Hu Hid. simpl in Hu, Hid. apply wp_ret. subst k.
  destruct (decide (User.status u = UserStatus.ACTIVE)) as [Hs|Hs].
  { rewrite bool_decide_true by done. apply wp_ret. exists u. split; [done|]. by left. }
  rewrite bool_decide_false by done.
  apply wp_bind, (wp_update_present (R := User.t) _ _ u); [exact Hu|..].
  - by intros Hf%(f_equal User.status).
  - intros n Hv. exfalso. apply not_true_iff_false in Hv. apply Hv. by apply (valid_user_change d u).
  - intros n Hv. apply wp_bind, wp_record_event; [done|..].
    + intros Hb. right. split; [done|]. by eapply audit_blocked_user.
    + intros id n' Hfresh e _. apply wp_ret. exists u. split; [done|]. right.
      exists n, id, n'. repeat (split; [done|]). done.
Qed.

(** ** Administrators *)
Section Administrators.
Context (P : string -> Prop).

(** The user is active, holds an active administrator's record, and his account is bound to a
    login [P] - one the identity provider knows, say - so that he can come and administer. *)
Definition administrator d (u : UUID) : Prop :=
  (exists x, users d !! u = Some x /\ User.status x = UserStatus.ACTIVE /\ P (User.external_auth_id x)) /\
  exists k s, active_admin d k s /\ PlatformStaff.user_id s = u.

(** The permissions only an administrator has. *)
Definition admin_only (p : PlatformPermission.t) : Prop :=
  forall r, p ∈ PlatformPermission.ROLE_PERMISSIONS r -> r = PlatformStaffRole.PLATFORM_ADMIN.

Lemma admin_only_dec p :
  bool_decide (p ∈ PlatformPermission.ROLE_PERMISSIONS PlatformStaffRole.SUPPORT_AGENT) = false ->
  bool_decide (p ∈ PlatformPermission.ROLE_PERMISSIONS PlatformStaffRole.COMPLIANCE_OFFICER) = false ->
  admin_only p.
Proof. intros H1%bool_decide_eq_false_1 H2%bool_decide_eq_false_1 [] Hp; done. Qed.

Lemma may_act_administrator d identity p a :
  P (AuthenticatedPrincipal.external_auth_id identity) -> admin_only p -> may_act d identity p a -> administrator d (actor_id a).
Proof.
  intros HP Hp [(Hu & Hx & Ha & Hs & Hsu & Hst & r & Hr & Hperm) Hin]. rewrite Hperm in Hin.
  apply Hp in Hin as ->. split; [exists (PlatformActor.user a); by rewrite Hx|].
  exists (PlatformStaff.id (PlatformActor.staff a)), (PlatformActor.staff a). split; [|done].
  split; [done|]. unfold PlatformStaffRepository.is_active_platform_admin. rewrite Hst, andb_true_r.
  apply String.eqb_eq. revert Hr. unfold PlatformStaffRole.of_value.
  destruct (PlatformStaff.role (PlatformActor.staff a) =? "platform_admin")%string eqn:He;
    [by intros _; apply String.eqb_eq|].
  by repeat (destruct (String.eqb _ _); [done|]).
Qed.

Lemma administrator_frame d d' u :
  users d' = users d -> platform_staff d' = platform_staff d -> administrator d u -> administrator d' u.
Proof. unfold administrator, active_admin. by intros -> ->. Qed.

(** Rewriting somebody else's staff record or account leaves an administrator one. *)
Lemma administrator_put_staff d s s' u :
  wf d -> platform_staff d !! PlatformStaff.id s = Some s -> PlatformStaff.id s' = PlatformStaff.id s ->
  PlatformStaff.user_id s <> u -> administrator d u -> administrator (put_row s' d) u.
Proof.
  intros Hwf Hs Hid Hne [Hu (k & t & [Ht Ha] & Htu)]. split; [done|]. exists k, t.
  split; [split; [|done]|done]. simpl. rewrite Hid, lookup_insert_ne; [done|].
  intros <-. congruence.
Qed.

Lemma administrator_put_user d (x' : User.t) u :
  User.id x' <> u -> administrator d u -> administrator (put_row x' d) u.
Proof. intros Hne [(x & Hx & Ha & HP) Hs]. split; [|done]. exists x. simpl. by rewrite lookup_insert_ne. Qed.

Lemma administrator_put_event d (e : AuditEvent.t) u : administrator d u -> administrator (put_row e d) u.
Proof. by apply administrator_frame. Qed.

(** A record of somebody else, or of nobody: the administrator's own record is an
    active administrator's. *)
Lemma not_own d k s u :
  wf d -> platform_staff d !! k = Some s -> administrator d u ->
  PlatformStaffRepository.is_active_platform_admin s = false -> PlatformStaff.user_id s <> u.
Proof.
  intros Hwf Hs [_ (k' & t & [Ht Ha] & Hu)] Hno <-.
  pose proof (wf_pk (R := PlatformStaff.t) d k s Hwf Hs) as Hid.
  pose proof (wf_pk (R := PlatformStaff.t) d k' t Hwf Ht) as Hid'. simpl in Hid, Hid'. subst.
  rewrite (staff_by_user d s t Hwf Hs Ht (eq_sym Hu)) in Hno. congruence.
Qed.

Lemma active_admin_false s :
  (PlatformStaff.role s = PlatformStaffRole.value PlatformStaffRole.PLATFORM_ADMIN ->
   PlatformStaff.status s = PlatformStaffStatus.value PlatformStaffStatus.ACTIVE -> False) ->
  PlatformStaffRepository.is_active_platform_admin s = false.
Proof. intros Hn. apply andb_false_iff. destruct (String.eqb _ _) eqn:Hr; [right|by left].
  apply String.eqb_eq in Hr. apply String.eqb_neq. by intros Hs; apply Hn.
Qed.

Lemma role_changed_administrator d k a role reason ctx s' d' :
  wf d -> administrator d (actor_id a) -> role_changed d k a role reason ctx s' d' ->
  administrator d' (actor_id a).
Proof.
  intros Hwf Hadm (s & n & id & n' & Hs & Hst & Hr & Hlose & -> & _ & ->).
  apply administrator_put_event. pose proof (wf_pk (R := PlatformStaff.t) d k s Hwf Hs) as Hid.
  simpl in Hid. subst k. apply (administrator_put_staff d s); try done.
  destruct (decide (PlatformStaff.role s = PlatformStaffRole.value PlatformStaffRole.PLATFORM_ADMIN))
    as [He|He]; [by destruct (Hlose He)|].
  eapply not_own; [done..|]. by apply active_admin_false.
Qed.

Lemma staff_suspended_administrator d k a reason ctx s' d' :
  wf d -> administrator d (actor_id a) -> staff_suspended d k a reason ctx s' d' ->
  administrator d' (actor_id a).
Proof.
  intros Hwf Hadm (s & Hs & Hne & [(_ & _ & ->)|(t & n & id & n' & _ & _ & -> & _ & ->)]); [done|].
  apply administrator_put_event. pose proof (wf_pk (R := PlatformStaff.t) d k s Hwf Hs) as Hid.
  simpl in Hid. subst k. by apply (administrator_put_staff d s).
Qed.

Lemma staff_restored_administrator d k reason ctx s' d' u :
  wf d -> administrator d u -> staff_restored d k reason ctx s' d' -> administrator d' u.
Proof.
  intros Hwf Hadm (s & Hs & [(_ & _ & ->)|(n & id & n' & Hst & -> & _ & ->)]); [done|].
  apply administrator_put_event. pose proof (wf_pk (R := PlatformStaff.t) d k s Hwf Hs) as Hid.
  simpl in Hid. subst k. apply (administrator_put_staff d s); try done.
  eapply not_own; [done..|]. apply active_admin_false. by rewrite Hst.
Qed.

Lemma user_suspended_administrator d k a reason ctx u' d' :
  wf d -> administrator d (actor_id a) -> user_suspended d k a reason ctx u' d' ->
  administrator d' (actor_id a).
Proof.
  intros Hwf Hadm (u & Hu & Hne & [(_ & _ & ->)|(t & n & id & n' & _ & -> & _ & ->)]); [done|].
  apply administrator_put_event, administrator_put_user; [|done].
  pose proof (wf_pk (R := User.t) d k u Hwf Hu) as Hid. simpl in Hid |- *. by rewrite Hid.
Qed.

Lemma user_restored_administrator d k reason ctx u' d' v :
  wf d -> administrator d v -> user_restored d k reason ctx u' d' -> administrator d' v.
Proof.
  intros Hwf Hadm (u & Hu & [(_ & _ & ->)|(n & id & n' & Hs & -> & _ & ->)]); [done|].
  apply administrator_put_event, administrator_put_user; [|done].
  pose proof (wf_pk (R := User.t) d k u Hwf Hu) as Hid. simpl in Hid |- *. rewrite Hid.
  intros ->. destruct Hadm as [(x & Hx & Ha & _) _]. congruence.
Qed.

(** A write of his account that keeps it active and its login. *)
Lemma administrator_kept_user d (x' : User.t) u :
  (forall x, users d !! User.id x' = Some x -> User.status x = UserStatus.ACTIVE ->
     User.status x' = UserStatus.ACTIVE /\ User.external_auth_id x' = User.external_auth_id x) ->
  administrator d u -> administrator (put_row x' d) u.
Proof.
  intros Hx Hadm. destruct (decide (User.id x' = u)) as [<-|Hne]; [|by apply administrator_put_user].
  destruct Hadm as [(x & Hu & Ha & HP) Hs]. split; [|exact Hs]. exists x'. simpl.
  rewrite lookup_insert_eq. destruct (Hx x Hu Ha) as [? ->]. by split_and!.
Qed.

(** A record that was no administrator's before is written, or a new one is added. *)
Lemma administrator_granted d s u :
  wf d -> (forall t, platform_staff d !! PlatformStaff.id s = Some t ->
     PlatformStaffRepository.is_active_platform_admin t = false) ->
  administrator d u -> administrator (put_row s d) u.
Proof.
  intros Hwf Ht [Hu (k & t & [Hk Ha] & Htu)]. split; [done|]. exists k, t.
  split; [split; [|done]|done]. simpl. rewrite lookup_insert_ne; [done|]. intros <-.
  by rewrite (Ht t Hk) in Ha.
Qed.

End Administrators.

(** *** New staff *)

Definition new_staff (id user_id : UUID) (role : PlatformStaffRole.t) (by_user : UUID)
    (n n' : datetime) : PlatformStaff.t :=
  PlatformStaff.mk id user_id (PlatformStaffRole.value role)
    (PlatformStaffStatus.value PlatformStaffStatus.ACTIVE) (Some by_user) None None n n'.

Definition staff_created d (u : UUID) (a : PlatformActor.t) (role : PlatformStaffRole.t)
    (reason : string) ctx (s : PlatformStaff.t) d' : Prop :=
  exists id n n' eid m, platform_staff d !! id = None /\
    (exists x, users d !! u = Some x /\ User.status x = UserStatus.ACTIVE) /\
    (forall k t, platform_staff d !! k = Some t -> PlatformStaff.user_id t <> u) /\
    s = new_staff id u role (actor_id a) n n' /\ audit_events d !! eid = None /\
    d' = put_row (staff_event ctx AuditAction.PLATFORM_STAFF_CREATED id reason
           [("user_id", JStr (Uuid.str u)); ("role", JStr (PlatformStaffRole.value role))]%string
           eid m) (put_row s d).

Lemma wp_create_staff a u role reason ctx d :
  wf d -> is_Some (users d !! actor_id a) ->
  wp (PlatformStaffService.create_staff a u role reason ctx)
    (staff_created d u a role reason ctx)
    (fun e => refused ctx d e \/ (e = IntegrityError /\ exists i, is_Some (platform_staff d !! uuid4 i))) d.
Proof.
  intros Hwf Hactor. apply wp_bind, (wp_select_pk u); [done|done|..];
    [|intros _; apply wp_bind, wp_raise; left; apply refused_app].
  intros x Hx Hid. simpl in Hx. apply wp_bind, wp_ret, wp_bind, wp_raise_if; intros H1;
    [left; apply refused_conflict|]. apply negb_false_iff, bool_decide_eq_true_1 in H1.
  apply wp_bind, wp_get_staff_by_user; [done|..].
  { intros s _ _. apply wp_bind, wp_raise_if; [left; apply refused_conflict|done]. }
  intros Hno. apply wp_bind, wp_raise_if; [done|]. intros _.
  apply wp_bind, wp_bind, wp_draw. intros i. do 2 (apply wp_bind, wp_draw; intros ?).
  apply wp_insert_row.
  - intros [Ht|Hv]; right; (split; [done|]); [by exists i|].
    exfalso. apply not_true_iff_false in Hv. apply Hv, valid_row_spec. split.
    + simpl. rewrite (proj2 (has_row_true _ _) (ex_intro _ x Hx)). simpl.
      rewrite (proj2 (has_row_true _ (User.id (PlatformActor.user a))) Hactor). by destruct role.
    + intros k t Ht _. simpl. apply bool_decide_eq_false. intros He. by apply (Hno k t).
  - intros Hfresh Hv. apply wp_bind, wp_record_staff.
    + solve_acceptable. destruct role; simpl; lia.
    + intros Hb. left. right. split; [done|]. by eapply audit_blocked_frame, Hb.
    + intros id n' Hid' e. apply wp_ret. eexists _, _, _, id, n'. split; [exact Hfresh|].
      split; [by exists x|]. split; [done|]. split; [done|]. done.
Qed.

Lemma staff_created_administrator P d u a role reason ctx s d' v :
  administrator P d v -> staff_created d u a role reason ctx s d' -> administrator P d' v.
Proof.
  intros [Hu (k & t & [Ht Ha] & Htu)] (id & n & n' & eid & m & Hfresh & _ & _ & -> & _ & ->).
  split; [done|]. exists k, t. split; [split; [|done]|done]. simpl.
  rewrite lookup_insert_ne; [done|]. intros ->. congruence.
Qed.

End Platform.

(** ** The handlers *)
Section Handlers.
Context `{Env} `{Network} `{IpNetworks}.
Implicit Types (d : Db) (E : exn -> Prop) (c : Call).

(** Why a platform request is turned away before its handler runs. *)
Definition turned_away c d (p : PlatformPermission.t) (e : exn) : Prop :=
  (exists i, rate_limit c i = Err e) \/
  (e = WriteContext.denied /\ forall a, ~ may_act d (identity c) p a).

Lemma commits_platform_write {A} c p (handler : PlatformActor.t -> M Db A) Q E d :
  wf d -> (forall a, may_act d (identity c) p a -> wp (handler a) Q E d) ->
  commits (platform_write c p handler) Q (fun e => turned_away c d p e \/ E e) d.
Proof.
  intros Hwf Hh. apply commits_with_session, commits_await_bind; [|intros; left; left; by eexists].
  intros _ _ _. apply commits_begin, wp_bind, wp_resolve; [done|..].
  - intros a Ha. eapply wp_mono; [by apply Hh|done|by right].
  - intros Hno. left. by right.
Qed.

Lemma manage_admin_only : admin_only PlatformPermission.PLATFORM_STAFF_MANAGE.
Proof. by apply admin_only_dec. Qed.

Lemma suspend_admin_only : admin_only PlatformPermission.USERS_SUSPEND.
Proof. by apply admin_only_dec. Qed.

(** The login of a call. *)
Definition login c : string := AuthenticatedPrincipal.external_auth_id (identity c).

(** The context of a call's audit events. *)
Definition context_of c (a : PlatformActor.t) : AuditContext.t := audit_context c (actor_id a).

(** Resolving a platform actor is decided exactly: it returns the one actor the
    identity stands for when that actor is an active user with an active staff
    record whose role grants the permission, refuses with the same error in
    every other case, and writes nothing. *)
Theorem resolve_platform_actor_decided identity p d :
  wf d ->
  wp (WriteContext.resolve_platform_actor identity p)
    (fun a d' => d' = d /\ may_act d identity p a /\ forall a', may_act d identity p a' -> a' = a)
    (fun e => e = WriteContext.denied /\ forall a, ~ may_act d identity p a) d.
Proof.
  intros Hwf. apply wp_resolve; [done|..].
  - intros a Ha. split; [done|]. split; [done|]. intros a' [Ha' _]. destruct Ha.
    by eapply acts_unique.
  - intros Hno. done.
Qed.

(** Changing a staff role: only an administrator gets through; the record was
    active and its role really changes; an administrator's role is taken away
    only from somebody else and while another active administrator remains; one
    audit event is recorded and nothing else changes. The acting administrator
    is still one afterwards, with his login. A refusal commits nothing. *)
Theorem update_platform_staff_role_spec c k role reason d :
  wf d ->
  commits (PlatformStaffApi.update_platform_staff_role c k role reason)
    (fun s' d' => exists a, may_act d (identity c) PlatformPermission.PLATFORM_STAFF_MANAGE a /\
       role_changed d k a role reason (context_of c a) s' d' /\
       administrator (eq (login c)) d' (actor_id a))
    (fun e => turned_away c d PlatformPermission.PLATFORM_STAFF_MANAGE e \/
       exists a, refused (context_of c a) d e) d.
Proof.
  intros Hwf. apply commits_platform_write; [done|]. intros a Ha.
  eapply wp_mono; [by apply wp_change_role| |by eauto].
  intros s' d' Hs. exists a. split; [done|]. split; [done|].
  eapply role_changed_administrator; [done| |done].
  eapply may_act_administrator; [done|apply manage_admin_only|done].
Qed.

(** Suspending a staff record: only an administrator gets through and never on
    his own record; an active administrator's record is suspended only while
    another active one remains, a suspended record is left alone without an
    event, and the acting administrator is still one afterwards. *)
Theorem suspend_platform_staff_spec c k reason d :
  wf d ->
  commits (PlatformStaffApi.suspend_platform_staff c k reason)
    (fun s' d' => exists a, may_act d (identity c) PlatformPermission.PLATFORM_STAFF_MANAGE a /\
       staff_suspended d k a reason (context_of c a) s' d' /\
       administrator (eq (login c)) d' (actor_id a))
    (fun e => turned_away c d PlatformPermission.PLATFORM_STAFF_MANAGE e \/
       exists a, refused (context_of c a) d e) d.
Proof.
  intros Hwf. apply commits_platform_write; [done|]. intros a Ha.
  eapply wp_mono; [by apply wp_suspend_staff| |by eauto].
  intros s' d' Hs. exists a. split; [done|]. split; [done|].
  eapply staff_suspended_administrator; [done| |done].
  eapply may_act_administrator; [done|apply manage_admin_only|done].
Qed.

(** Suspending an account: only an administrator gets through, nobody suspends
    himself, an account is suspended once and with one audit event, nothing else
    changes, and a suspended user resolves to no platform actor any more, while
    the acting administrator is still one. *)
Theorem suspend_platform_user_spec c k reason d :
  wf d ->
  commits (PlatformUsersApi.suspend_platform_user c k reason)
    (fun u' d' => exists a, may_act d (identity c) PlatformPermission.USERS_SUSPEND a /\
       user_suspended d k a reason (context_of c a) u' d' /\
       administrator (eq (login c)) d' (actor_id a) /\
       (forall i a', acts d' i a' -> actor_id a' <> k))
    (fun e => turned_away c d PlatformPermission.USERS_SUSPEND e \/
       exists a, refused (context_of c a) d e) d.
Proof.
  intros Hwf. apply commits_platform_write; [done|]. intros a Ha.
  eapply wp_mono; [by apply wp_suspend_user| |by eauto].
  intros u' d' Hs. exists a. split; [done|]. split; [done|]. split.
  { eapply user_suspended_administrator; [done| |done].
    eapply may_act_administrator; [done|apply suspend_admin_only|done]. }
  intros i a' (Hu & _ & Hst & _) Heq. unfold actor_id in Heq.
  destruct Hs as (u & Hk & _ & [(Hsus & _ & ->)|(t & n & id & n' & _ & -> & _ & ->)]).
  - rewrite Heq in Hu. congruence.
  - pose proof (wf_pk (R := User.t) d k u Hwf Hk) as Hid. simpl in Hid, Hu.
    rewrite Heq, Hid, lookup_insert_eq in Hu. injection Hu as Hu. by rewrite <- Hu in Hst.
Qed.

End Handlers.

(** ** Witnesses *)
Module Witness.
Import Fixtures.

Definition ok_limit (n : nat) : result unit := Ok tt.

Definition call (name : string) : Call :=
  mkCall (mkRequestSettings false [] None) (Request.mk (Some "192.0.2.17"%string) None None None)
    (identity name) ok_limit.

Definition returns {A} (m : M Db A) : bool :=
  match (m (mkWorld db NoTx 0)).1 with Ok _ => true | Err _ => false end.

Lemma resolve_platform_actor_decided_witness :
  wp (WriteContext.resolve_platform_actor (identity "alice") PlatformPermission.USERS_READ)
    (fun _ _ => False) any_exn db.
Proof.
  eapply wp_mono; [apply (resolve_platform_actor_decided (identity "alice") PlatformPermission.USERS_READ db db_wf)| |done].
  intros a d' (_ & [(Hu & Hx & _ & Hs & Hsu & _) _] & _).
  apply elem_of_map_to_list in Hu, Hs. vm_compute in Hu, Hs. apply list_elem_of_In in Hu, Hs.
  destruct a as [u s p]. simpl in *.
  repeat (destruct Hu as [Hu|Hu]; [injection Hu as _ <-; vm_compute in Hx; try discriminate Hx|]); [|done].
  repeat (destruct Hs as [Hs|Hs]; [injection Hs as _ <-; vm_compute in Hsu; discriminate Hsu|]). done.
Defined.

Lemma update_platform_staff_role_spec_witness :
  returns (PlatformStaffApi.update_platform_staff_role (call "root") 52
             PlatformStaffRole.SUPPORT_AGENT "left") = true /\
  commits (PlatformStaffApi.update_platform_staff_role (call "root") 52
             PlatformStaffRole.SUPPORT_AGENT "left")
    (fun _ d' => exists u, administrator (eq "auth|root"%string) d' u) any_exn db.
Proof.
  split; [vm_compute; reflexivity|].
  eapply commits_mono; [apply (update_platform_staff_role_spec (call "root") 52
    PlatformStaffRole.SUPPORT_AGENT "left" db db_wf)| |done].
  intros s' d' (a & _ & _ & Ha). by exists (actor_id a).
Defined.

Lemma suspend_platform_staff_spec_witness :
  returns (PlatformStaffApi.suspend_platform_staff (call "root") 52 "left") = true /\
  commits (PlatformStaffApi.suspend_platform_staff (call "root") 52 "left")
    (fun _ d' => exists u, administrator (eq "auth|root"%string) d' u) any_exn db.
Proof.
  split; [vm_compute; reflexivity|].
  eapply commits_mono; [apply (suspend_platform_staff_spec (call "root") 52 "left" db db_wf)| |done].
  intros s' d' (a & _ & _ & Ha). by exists (actor_id a).
Defined.

Lemma suspend_platform_user_spec_witness :
  returns (PlatformUsersApi.suspend_platform_user (call "root") 7 "abuse") = true /\
  commits (PlatformUsersApi.suspend_platform_user (call "root") 7 "abuse")
    (fun _ d' => forall i a, acts d' i a -> actor_id a <> 7%N) any_exn db.
Proof.
  split; [vm_compute; reflexivity|].
  eapply commits_mono; [apply (suspend_platform_user_spec (call "root") 7 "abuse" db db_wf)| |done].
  intros u' d' (a & _ & _ & _ & Hno). exact Hno.
Defined.

End Witness.
