(* ===== verification/CommandsProofs.v ===== *)
(** The operators' commands: who becomes a platform administrator, and that nothing else
    changes. *)
From S2P Require Import Prelude Errors Session Schema Tables AuditLog Users Platform Commands.
From S2P Require Import Requests Api Fixtures AuditProofs UserProofs MembershipProofs PlatformProofs.
From S2P Require Import OutboxProofs.

Import MakePlatformAdmin.

Section Commands.
Context `{Env} `{Network}.
Implicit Types (d : Db).

(** The only user with an address. *)
Definition sole_user d (email : string) (u : User.t) : Prop :=
  users d !! User.id u = Some u /\ User.email u = Some email /\
  forall k u', users d !! k = Some u' -> User.email u' = Some email -> u' = u.

Definition shared_email d (email : string) : Prop :=
  exists u u', users d !! User.id u = Some u /\ users d !! User.id u' = Some u' /\ u <> u' /\
    User.email u = Some email /\ User.email u' = Some email.

Lemma wp_get_by_email email (Q : option User.t -> Db -> Prop) (E : exn -> Prop) d :
  wf d ->
  (forall u, sole_user d email u -> Q (Some u) d) ->
  ((forall k u, users d !! k = Some u -> User.email u <> Some email) -> Q None d) ->
  (shared_email d email -> E MultipleResultsFound) ->
  wp (UserRepository.get_by_email email) Q E d.
Proof.
  intros Hwf HS HN HE. unfold UserRepository.get_by_email, select_one_or_none.
  apply wp_bind, wp_select. set (P := fun u => _).
  assert (Hin : forall u, u ∈ rows_where d P <-> users d !! User.id u = Some u /\ User.email u = Some email).
  { intros u. pose proof (elem_of_rows_where_wf d P u Hwf) as Hw. cbn [rows pk users_table] in Hw. rewrite Hw.
    unfold P. by rewrite bool_decide_eq_true. }
  pose proof (NoDup_rows_where d P Hwf) as Hnd.
  destruct (rows_where d P) as [|u [|u' l]] eqn:El.
  - apply wp_ret, HN. intros k u Hu He. pose proof (wf_pk (R := User.t) d k u Hwf Hu) as Hk.
    cbn in Hk. subst k. destruct (not_elem_of_nil u). by apply Hin.
  - apply wp_ret, HS. destruct (proj1 (Hin u)) as [Hu He]; [by left|]. do 2 (split; [done|]).
    intros k u' Hu' He'. pose proof (wf_pk (R := User.t) d k u' Hwf Hu') as Hk. cbn in Hk. subst k.
    by apply list_elem_of_singleton, Hin.
  - apply wp_raise, HE. apply NoDup_cons in Hnd as [Hn _].
    destruct (proj1 (Hin u)) as [Hu He]; [by left|].
    destruct (proj1 (Hin u')) as [Hu' He']; [by right; left|].
    exists u, u'. do 2 (split; [done|]). split; [|done]. intros ->. apply Hn. by left.
Qed.

(** Whatever login the account is bound to. *)
Definition any_login (_ : string) : Prop := True.

(** The record of a user who was promoted. *)
Definition promoted (n : datetime) (s : PlatformStaff.t) : PlatformStaff.t :=
  PlatformStaff.set_updated_at n
    (PlatformStaff.set_suspended_reason None (PlatformStaff.set_suspended_at None
      (PlatformStaff.set_status (PlatformStaffStatus.value PlatformStaffStatus.ACTIVE)
        (PlatformStaff.set_role (PlatformStaffRole.value PlatformStaffRole.PLATFORM_ADMIN) s)))).

Definition grant_event (action : AuditAction.t) (s : PlatformStaff.t) (metadata : option json)
    (id : UUID) (n : datetime) : AuditEvent.t :=
  event_row no_actor AuditCategory.PLATFORM action AuditTargetType.PLATFORM_STAFF
    (Some (PlatformStaff.id s)) (Some "bootstrap platform admin"%string) metadata None id n.

(** What the record of the user was before: there was none, or it is promoted by force. *)
Definition granted_from d (force : bool) (u : User.t) (action : AuditAction.t) (s : PlatformStaff.t) : Prop :=
  (action = AuditAction.PLATFORM_STAFF_CREATED /\ platform_staff d !! PlatformStaff.id s = None /\
   PlatformStaff.created_by_user_id s = None /\
   forall k t, platform_staff d !! k = Some t -> PlatformStaff.user_id t <> User.id u) \/
  (action = AuditAction.PLATFORM_STAFF_ROLE_CHANGED /\ force = true /\
   exists t n, platform_staff d !! PlatformStaff.id s = Some t /\ s = promoted n t /\
     PlatformStaffRepository.is_active_platform_admin t = false).

(** A grant: the only user with the address is active, and is an administrator already or gets
    a record of one, with its event. *)
Definition granted d (email : string) (force : bool) (r : MakePlatformAdminResult.t) d' : Prop :=
  MakePlatformAdminResult.email r = email /\
  exists u, sole_user d email u /\ User.status u = UserStatus.ACTIVE /\
    ((MakePlatformAdminResult.status r = MakePlatformAdminStatus.ALREADY_ACTIVE /\ d' = d /\
      administrator any_login d (User.id u)) \/
     (MakePlatformAdminResult.status r = MakePlatformAdminStatus.GRANTED /\
      exists action s metadata id n, granted_from d force u action s /\
        PlatformStaff.user_id s = User.id u /\
        PlatformStaffRepository.is_active_platform_admin s = true /\
        audit_events d !! id = None /\
        d' = put_row (grant_event action s metadata id n) (put_row s d))).

(** Why nothing is granted. *)
Definition grant_refused d (email : string) (force : bool) (e : exn) : Prop :=
  (exists detail, e = NotFoundError detail /\ forall k u, users d !! k = Some u -> User.email u <> Some email) \/
  (exists detail u, e = ConflictError detail /\ sole_user d email u /\
     (User.status u <> UserStatus.ACTIVE \/
      (force = false /\ exists s, platform_staff d !! PlatformStaff.id s = Some s /\
         PlatformStaff.user_id s = User.id u /\
         PlatformStaffRepository.is_active_platform_admin s = false))) \/
  (e = MultipleResultsFound /\ shared_email d email) \/
  (e = IntegrityError /\ (audit_blocked no_actor d \/ exists i, is_Some (platform_staff d !! uuid4 i))).

Lemma is_active_admin_same s : is_active_admin s = PlatformStaffRepository.is_active_platform_admin s.
Proof. done. Qed.

Lemma wp_record_grant email action metadata s (Q : MakePlatformAdminResult.t -> Db -> Prop) (E : exn -> Prop) d :
  acceptable_opt metadata = true -> (audit_blocked no_actor d -> E IntegrityError) ->
  (forall id n, audit_events d !! id = None ->
     Q (MakePlatformAdminResult.mk email MakePlatformAdminStatus.GRANTED)
       (put_row (grant_event action s metadata id n) d)) ->
  wp (record_grant email action metadata s) Q E d.
Proof.
  intros Hm HE HQ. apply wp_bind, wp_record_event; [done..|]. intros id n Hid e _. by apply wp_ret, HQ.
Qed.

Lemma wp_grant email force d :
  wf d -> wp (grant email force) (granted d email force) (grant_refused d email force) d.
Proof.
  intros Hwf. apply wp_bind, wp_get_by_email; [done|..].
  2:{ intros Hno. apply wp_bind, wp_raise. left. by eexists. }
  2:{ intros Hs. right. right. by left. }
  intros u Hu. apply wp_bind, wp_ret, wp_bind, wp_raise_if; intros Hst.
  { right. left. eexists _, u. split; [done|]. split; [done|]. left.
    by apply negb_true_iff, bool_decide_eq_false_1 in Hst. }
  apply negb_false_iff, bool_decide_eq_true_1 in Hst. pose proof Hu as (Huser & _).
  apply wp_bind, wp_get_staff_by_user; [done|..].
  - intros s Hs Hsu. destruct (is_active_admin s) eqn:Ha.
    { apply wp_ret. split; [done|]. exists u. do 2 (split; [done|]). left. do 2 (split; [done|]).
      split; [by exists u|]. exists (PlatformStaff.id s), s. by repeat split. }
    apply wp_bind, wp_raise_if; intros Hf.
    { right. left. eexists _, u. split; [done|]. split; [done|]. right.
      split; [by apply negb_true_iff in Hf|]. by exists s. }
    apply negb_false_iff in Hf. destruct (stored_role d s Hwf Hs) as [r Hr].
    apply wp_bind, wp_update_staff; [done|..].
    + intros Heq. pose proof (f_equal PlatformStaff.role Heq) as H1.
      pose proof (f_equal PlatformStaff.status Heq) as H2. cbn in H1, H2.
      unfold is_active_admin in Ha. rewrite <- H1, <- H2 in Ha. done.
    + intros n. apply (valid_staff_change d s); try done; [by right; eexists|by eexists].
    + intros n s' _. apply wp_record_grant.
      * rewrite Hr. destruct r; reflexivity.
      * intros Hb. right. right. right. split; [done|]. left. by eapply audit_blocked_frame, Hb.
      * intros id n' Hid. split; [done|]. exists u. do 2 (split; [done|]). right. split; [done|].
        eexists _, s', _, id, n'. split; [|by repeat split].
        right. do 2 (split; [done|]). exists s, n. by repeat split.
  - intros Hno. apply wp_bind, wp_bind, wp_draw. intros i. do 2 (apply wp_bind, wp_draw; intros ?).
    apply wp_insert_row.
    + intros [Ht|Hv]; right; right; right; (split; [done|]); [right; by exists i|].
      exfalso. apply not_true_iff_false in Hv. apply Hv, valid_row_spec. split.
      * simpl. by rewrite (proj2 (has_row_true _ _) (ex_intro _ u Huser)).
      * intros k t Ht _. simpl. apply bool_decide_eq_false. intros He. by apply (Hno k t).
    + intros Hfresh _. apply wp_record_grant; [done| |].
      * intros Hb. right. right. right. split; [done|]. left. by eapply audit_blocked_frame, Hb.
      * intros id n' Hid. split; [done|]. exists u. do 2 (split; [done|]). right. split; [done|].
        eexists _, _, _, id, n'. split; [|by repeat split]. left. by repeat split.
Qed.

(** A grant takes nobody's standing away. *)
Lemma granted_keeps_administrator P d email force r d' v :
  wf d -> granted d email force r d' -> administrator P d v -> administrator P d' v.
Proof.
  intros Hwf (_ & u & _ & _ & [(_ & -> & _)|(_ & action & s & m & id & n & Hfrom & _ & _ & _ & ->)]); [done|].
  intros Hv. apply administrator_put_event, administrator_granted; [done| |done].
  intros t Ht. destruct Hfrom as [(_ & Hno & _)|(_ & _ & t' & n' & Ht' & _ & Hna)]; congruence.
Qed.

Definition is_app_error (e : exn) : bool := match e with AppError _ _ _ => true | _ => false end.

Lemma granted_administrator d email force r d' :
  wf d -> granted d email force r d' -> exists u, sole_user d email u /\ administrator any_login d' (User.id u).
Proof.
  intros Hwf (_ & u & Hu & Hst & [(_ & -> & Ha)|(_ & action & s & m & id & n & _ & Hsu & Had & _ & ->)]);
    exists u; (split; [done|]); [done|].
  apply administrator_put_event. split; [by exists u; destruct Hu|].
  exists (PlatformStaff.id s), s. split; [split; [|done]|done]. simpl. apply lookup_insert_eq.
Qed.

(** The bootstrap command ends with code 0 exactly when the address names one user, who is then
    an active administrator, and has written nothing but that user's record and its event; a
    record that is not an administrator's is only promoted with [--force]. Otherwise it changes
    nothing, and reports an application error with code 1 and a database error, such as an
    address that two users share, with code 2. *)
Theorem admin_command_grants email force d :
  wf d ->
  commits (_amain email force)
    (fun x d' =>
       (x.1 = 0 /\ exists r, granted d email force r d' /\
          exists u, sole_user d email u /\ administrator any_login d' (User.id u)) \/
       (d' = d /\ exists e, grant_refused d email force e /\
          x.1 = if is_app_error e then 1 else 2))
    (fun _ => False) d.
Proof.
  intros Hwf. eapply commits_try_except.
  - apply commits_bind_ret. eapply commits_mono; [apply commits_begin, wp_grant, Hwf| |by intros e He].
    intros r d' Hr. left. split; [done|]. exists r. split; [done|]. by eapply granted_administrator.
  - intros e He. assert (Hcase : exists code line, (match e with
        | AppError _ detail _ => mret (1, Some detail)
        | _ => if is_reported e then mret (2, None) else raise e end : M Db (Z * option string))
          = mret (code, line) /\ code = if is_app_error e then 1 else 2).
    { destruct He as [(? & -> & _)|[(? & ? & -> & _)|[[-> _]|[-> _]]]]; by do 2 eexists. }
    destruct Hcase as (code & line & -> & Hcode). apply commits_ret. right. split; [done|]. by exists e.
Qed.
End Commands.

(** ** Witnesses *)
Module Witness.
Import Fixtures.

(** The exit code of the command on the sample database. *)
Definition code (email : string) (force : bool) : option Z :=
  match (_amain email force (mkWorld db NoTx 0)).1 with Ok (c, _) => Some c | Err _ => None end.

Lemma admin_command_grants_witness :
  code "alice@example.org" false = Some 0 /\ code "root@example.org" false = Some 0 /\
  code "erin@example.org" true = Some 1 /\ code "nobody@example.org" true = Some 1 /\
  commits (_amain "alice@example.org" false)
    (fun x d' => x.1 = 0 -> exists u, sole_user db "alice@example.org" u /\ administrator any_login d' (User.id u))
    (fun _ => False) db.
Proof.
  do 4 (split; [vm_compute; reflexivity|]).
  eapply commits_mono; [apply (admin_command_grants "alice@example.org" false db db_wf)| |by intros].
  intros x d' [(_ & r & _ & Hu)|(_ & e & _ & Hc)] Hx; [exact Hu|].
  rewrite Hc in Hx. by destruct (is_app_error e).
Defined.
End Witness.
