(* ===== verification/RequestProofs.v ===== *)
(** Client addresses: forwarding headers count only behind a trusted proxy, and
    addresses of one IPv6 /64 share a rate-limit bucket. *)
From S2P Require Import Prelude AuditLog Users Requests Fixtures.

Section Requests.
Context `{Network} `{IpNetworks}.
Import Identifiers AuditRequestContext.

(** The address of the peer, where it has one. *)
Definition peer_address (r : Request.t) : option IPAddress :=
  ip_address (Text.strip (default ""%string (Request.client_host r))).

(** The peer may set forwarding headers and have them believed: the deployment trusts them and
    the peer is in a network of its proxies. *)
Definition proxied (s : RequestSettings) (r : Request.t) : Prop :=
  trust_proxy_headers s = true /\
  exists peer cidr network, peer_address r = Some peer /\ cidr ∈ trusted_proxy_cidrs s /\
    ip_network cidr = Some network /\ in_network peer network = true.

(** What the rate limiter knows an address by: an IPv6 address by its first 64 bits. *)
Definition limited_as (a : option IPAddress) : string :=
  match a with
  | None => "0.0.0.0"
  | Some (IPv4Address n) => compressed (IPv4Address n)
  | Some (IPv6Address n) => compressed (IPv6Address (n - n mod 2 ^ 64)%N)
  end.

Lemma proxied_iff s r :
  proxied s r <->
  trust_proxy_headers s && is_request_from_trusted_proxy r (trusted_proxy_cidrs s) = true.
Proof.
  unfold proxied, is_request_from_trusted_proxy, _parse_ip. fold (peer_address r).
  rewrite andb_true_iff. destruct (peer_address r) as [peer|]; [|naive_solver].
  rewrite existsb_exists. split.
  - intros (Ht & p & cidr & net & [= <-] & Hin & Hn & Hp). split; [done|]. exists cidr.
    rewrite Hn. by rewrite <- list_elem_of_In.
  - intros (Ht & cidr & Hin & Hc). split; [done|].
    destruct (ip_network cidr) as [net|] eqn:Hn; [|done]. exists peer, cidr, net.
    by rewrite list_elem_of_In.
Qed.

Lemma network_address_64_mod n : network_address_64 n = (n - n mod 2 ^ 64)%N.
Proof.
  unfold network_address_64. rewrite N.shiftl_mul_pow2, N.shiftr_div_pow2.
  change (2 ^ 64)%N with 18446744073709551616%N.
  pose proof (N.Div0.div_mod n 18446744073709551616) as Hn.
  revert Hn. generalize (n / 18446744073709551616)%N, (n mod 18446744073709551616)%N. lia.
Qed.

Lemma normalise_ip_peer r : _normalise_ip (Request.client_host r) = limited_as (peer_address r).
Proof.
  unfold _normalise_ip, _parse_ip, limited_as. fold (peer_address r).
  destruct (peer_address r) as [[n|n]|]; [done| |done]. by rewrite network_address_64_mod.
Qed.

Lemma unbelieved s r :
  ~ proxied s r ->
  negb (trust_proxy_headers s) = true \/
  negb (is_request_from_trusted_proxy r (trusted_proxy_cidrs s)) = true.
Proof. rewrite proxied_iff, not_true_iff_false, !negb_true_iff. apply andb_false_iff. Qed.

Lemma network_address_64_eq n m :
  N.shiftr n 64 = N.shiftr m 64 <-> network_address_64 n = network_address_64 m.
Proof.
  unfold network_address_64. split; [by intros ->|].
  intros E%(f_equal (fun x => N.shiftr x 64)). by rewrite !N.shiftr_shiftl_l, !N.shiftl_0_r in E by done.
Qed.

(** C40. A client that is not a trusted proxy cannot choose the address it is known by. Unless
    the deployment trusts forwarding headers and the peer is in one of the configured proxy
    networks, whatever headers are sent, the audited address is that of the peer, the rate
    limiter's is that of the peer (an IPv6 one cut to its first 64 bits), and the bucket of a
    caller without a principal is the keyed digest of it. An authenticated caller's bucket is
    the keyed digest of the principal's identifier, whatever the request and the settings. *)
Theorem client_address_not_spoofable (s : RequestSettings) (r : Request.t) (secret : string) :
  ~ proxied s r ->
  resolve_client_ip r (trust_proxy_headers s) (trusted_proxy_cidrs s) = limited_as (peer_address r) /\
  _audit_client_ip_from_request s r = compressed <$> peer_address r /\
  build_identifier None r (trust_proxy_headers s) secret (trusted_proxy_cidrs s)
  = RateLimitIdentifier.mk "ip" ("rlid:v1:hmac-sha256:"
      ++ hmac_sha256_hexdigest secret ("ip:" ++ limited_as (peer_address r)))%string /\
  forall p q trust cidrs, build_identifier (Some p) q trust secret cidrs
  = RateLimitIdentifier.mk "user" ("rlid:v1:hmac-sha256:"
      ++ hmac_sha256_hexdigest secret ("user:" ++ AuthenticatedPrincipal.external_auth_id p))%string.
Proof.
  intros Hb%unbelieved.
  assert (Hr : resolve_client_ip r (trust_proxy_headers s) (trusted_proxy_cidrs s)
      = limited_as (peer_address r)).
  { unfold resolve_client_ip. rewrite normalise_ip_peer. destruct Hb as [->| ->]; [done|].
    by destruct (negb _). }
  split; [exact Hr|]. split.
  - unfold _audit_client_ip_from_request, _normalise_audit_ip. fold (peer_address r).
    destruct (peer_address r); [|done]. cbn. by destruct Hb as [->| ->]; rewrite ?orb_true_r.
  - split; [|done]. unfold build_identifier. by rewrite Hr.
Qed.

(** IPv6 clients are bucketed by their /64: two addresses give the rate limiter
    the same value when their first 64 bits agree, and only then when distinct
    addresses have distinct texts; IPv4 addresses are kept whole. *)
Theorem ipv6_bucketed_by_network a b n m :
  ip_address (Text.strip a) = Some (IPv6Address n) ->
  ip_address (Text.strip b) = Some (IPv6Address m) ->
  (forall x y, compressed x = compressed y -> x = y) ->
  _normalise_ip (Some a) = _normalise_ip (Some b) <-> N.shiftr n 64 = N.shiftr m 64.
Proof.
  intros Ha Hb Hinj. unfold _normalise_ip, _parse_ip. simpl. rewrite Ha, Hb, network_address_64_eq.
  split; [by intros [=]%Hinj|by intros ->].
Qed.

End Requests.

(** ** Witnesses *)
Module Witness.
Import Fixtures.

Definition forged : Request.t :=
  Request.mk (Some "192.0.2.17"%string) None (Some "192.0.2.99"%string) (Some "192.0.2.99"%string).

Definition behind_proxy : RequestSettings := mkRequestSettings true ["192.0.2.99"%string] None.

Lemma client_address_not_spoofable_witness :
  AuditRequestContext._audit_client_ip_from_request behind_proxy forged
  = compressed <$> peer_address forged /\ peer_address forged <> None /\
  ~ proxied behind_proxy forged.
Proof.
  assert (Hno : ~ proxied behind_proxy forged) by (rewrite proxied_iff; by vm_compute).
  split; [|split; [by vm_compute|exact Hno]].
  apply (client_address_not_spoofable behind_proxy forged "key" Hno).
Defined.

(** A network where every text is an IPv6 address, its length. *)
Definition lengths : Network := {|
  ip_address s := Some (IPv6Address (N.of_nat (String.length s)));
  compressed a := match a with IPv4Address n => ("4" ++ pretty n)%string
                          | IPv6Address n => ("6" ++ pretty n)%string end;
  hmac_sha256_hexdigest k s := s;
|}.

Lemma ipv6_bucketed_by_network_witness :
  @Identifiers._normalise_ip lengths (Some "fe80::1"%string)
  = @Identifiers._normalise_ip lengths (Some "fe80::1f"%string).
Proof.
  apply (@ipv6_bucketed_by_network lengths "fe80::1" "fe80::1f" 7 8); try (vm_compute; reflexivity).
  intros [x|x] [y|y] [=]; f_equal; by apply (inj pretty).
Defined.

End Witness.
