(* ===== verification/DataSubjectRequestProofs.v ===== *)
(** Data-subject requests: the request's state machine, the review of a
    representative's authority, fulfilment, idempotent submission and the
    safety of idempotency keys. *)
From S2P Require Import Prelude Errors Session Schema Tables Regex AuditLog Users Invites Platform.
From S2P Require Import DataSubjectRequests Requests Api Fixtures AuditProofs UserProofs.
From S2P Require Import MembershipProofs PlatformProofs.

(** ** The state machine *)
Section StateMachine.
Context `{Env} `{Network} `{Crypto}.
Import DataSubjectRequestService.
Implicit Types (d : Db) (E : exn -> Prop) (r : DataSubjectRequest.t).

Lemma requests_put r d :
  data_subject_requests (put_row r d) = <[DataSubjectRequest.id r := r]> (data_subject_requests d).
Proof. done. Qed.

(** A request can be rewritten when the users it names exist. *)
Lemma valid_request d r :
  has_row_opt (users d) (DataSubjectRequest.representative_verified_by_user_id r) = true ->
  has_row_opt (users d) (DataSubjectRequest.requester_user_id r) = true ->
  has_row_opt (users d) (DataSubjectRequest.subject_user_id r) = true ->
  has_row_opt (users d) (DataSubjectRequest.reviewer_user_id r) = true ->
  valid_row d r = true.
Proof. intros. apply valid_row_spec. split; [|done]. simpl. by split_checks. Qed.

Lemma stored_request_users d r :
  wf d -> data_subject_requests d !! DataSubjectRequest.id r = Some r ->
  has_row_opt (users d) (DataSubjectRequest.representative_verified_by_user_id r) = true /\
  has_row_opt (users d) (DataSubjectRequest.requester_user_id r) = true /\
  has_row_opt (users d) (DataSubjectRequest.subject_user_id r) = true /\
  has_row_opt (users d) (DataSubjectRequest.reviewer_user_id r) = true.
Proof.
  intros Hwf Hr. pose proof (wf_checks (R := DataSubjectRequest.t) d _ r Hwf Hr) as Hc.
  simpl in Hc. by split_checks.
Qed.

Lemma wp_get_request k (Q : DataSubjectRequest.t -> Db -> Prop) E d :
  wf d ->
  (forall r, data_subject_requests d !! k = Some r -> DataSubjectRequest.id r = k -> Q r d) ->
  (forall e, app_error e -> E e) ->
  wp (get_request k) Q E d.
Proof.
  intros Hwf HS HE. apply wp_bind, (wp_select_pk k); [done|done|..].
  - intros r Hr Hid. by apply wp_ret, HS.
  - intros _. apply wp_raise, HE. by repeat eexists.
Qed.

(** The event a request's change records. *)
Definition request_event ctx (action : AuditAction.t) (k : UUID) (m : list (string * json))
    (id : UUID) (n : datetime) : AuditEvent.t :=
  event_row ctx AuditCategory.COMPLIANCE action AuditTargetType.DATA_SUBJECT_REQUEST (Some k) None
    (Some (JObj m)) None id n.

Lemma status_metadata_acceptable r : acceptable (JObj (status_metadata r)) = true.
Proof.
  unfold status_metadata. destruct (DataSubjectRequest.request_type r), (DataSubjectRequest.status r);
    vm_compute; reflexivity.
Qed.

Lemma wp_record_valid_request ctx action r m (Q : unit -> Db -> Prop) E d :
  acceptable (JObj m) = true -> (audit_blocked ctx d -> E IntegrityError) ->
  (forall id n, audit_events d !! id = None ->
     let e := request_event ctx action (DataSubjectRequest.id r) m id n in
     valid_row d e = true -> Q tt (put_row e d)) ->
  wp (record_compliance_event r action ctx m) Q E d.
Proof.
  intros Hm HE HQ. apply wp_bind, wp_record_event; [done|done|]. intros id n Hid e Hv.
  by apply wp_ret, HQ.
Qed.

Lemma wp_record_request ctx action r m (Q : unit -> Db -> Prop) E d :
  acceptable (JObj m) = true -> (audit_blocked ctx d -> E IntegrityError) ->
  (forall id n, audit_events d !! id = None ->
     Q tt (put_row (request_event ctx action (DataSubjectRequest.id r) m id n) d)) ->
  wp (record_compliance_event r action ctx m) Q E d.
Proof. intros Hm HE HQ. apply wp_record_valid_request; [done..|]. intros id n Hid e _. by apply HQ. Qed.

(** *** Transitions *)

Definition approvable r : Prop :=
  DataSubjectRequest.request_type r ∈ _APPROVABLE_REQUEST_TYPES /\
  DataSubjectRequest.representative_status r ∈ _REPRESENTATIVE_APPROVAL_STATUSES.

Definition may_move (target : DataSubjectRequestStatus.t) r : Prop :=
  target ∈ _ALLOWED_TRANSITIONS (DataSubjectRequest.status r) /\
  (target = DataSubjectRequestStatus.APPROVED -> approvable r).

Definition moved_to (target : DataSubjectRequestStatus.t) (reviewer : option UUID)
    (rc : option string) (t n : datetime) r : DataSubjectRequest.t :=
  DataSubjectRequest.set_updated_at n (_build_transition_values target reviewer rc t r).

Lemma moved_to_fields target reviewer rc t n r :
  let r' := moved_to target reviewer rc t n r in
  DataSubjectRequest.id r' = DataSubjectRequest.id r /\
  DataSubjectRequest.status r' = target /\
  DataSubjectRequest.reviewer_user_id r' = reviewer /\
  DataSubjectRequest.request_type r' = DataSubjectRequest.request_type r /\
  DataSubjectRequest.execution_status r' = DataSubjectRequest.execution_status r /\
  DataSubjectRequest.requester_role r' = DataSubjectRequest.requester_role r /\
  DataSubjectRequest.representative_status r' = DataSubjectRequest.representative_status r /\
  DataSubjectRequest.representative_verified_by_user_id r'
    = DataSubjectRequest.representative_verified_by_user_id r /\
  DataSubjectRequest.requester_user_id r' = DataSubjectRequest.requester_user_id r /\
  DataSubjectRequest.subject_user_id r' = DataSubjectRequest.subject_user_id r.
Proof. by destruct target. Qed.

Definition action_of (target : DataSubjectRequestStatus.t) : option AuditAction.t :=
  match target with
  | DataSubjectRequestStatus.SUBMITTED => None
  | DataSubjectRequestStatus.UNDER_REVIEW => Some AuditAction.DATA_SUBJECT_REQUEST_UNDER_REVIEW
  | DataSubjectRequestStatus.APPROVED => Some AuditAction.DATA_SUBJECT_REQUEST_APPROVED
  | DataSubjectRequestStatus.REJECTED => Some AuditAction.DATA_SUBJECT_REQUEST_REJECTED
  | DataSubjectRequestStatus.CANCELLED => Some AuditAction.DATA_SUBJECT_REQUEST_CANCELLED
  | DataSubjectRequestStatus.FULFILLED => Some AuditAction.DATA_SUBJECT_REQUEST_FULFILLED
  end.

Lemma wp_action_for_status target cur (Q : AuditAction.t -> Db -> Prop) E d :
  target ∈ _ALLOWED_TRANSITIONS cur ->
  (forall a, action_of target = Some a -> Q a d) -> wp (_action_for_status target) Q E d.
Proof.
  intros Ht HQ. destruct target; try (by apply wp_ret, HQ).
  exfalso. destruct cur; simpl in Ht;
    repeat (apply elem_of_cons in Ht as [?|Ht]; [done|]); by apply elem_of_nil in Ht.
Qed.

(** What a transition commits. *)
Definition moved d (k : UUID) (target : DataSubjectRequestStatus.t) (reviewer : option UUID)
    (rc : option string) ctx r' d' : Prop :=
  exists r t n id n' a, data_subject_requests d !! k = Some r /\ may_move target r /\
    r' = moved_to target reviewer rc t n r /\ action_of target = Some a /\
    audit_events d !! id = None /\
    d' = put_row (request_event ctx a k (status_metadata r') id n') (put_row r' d).

(** A refusal, or a reviewer the database does not know. *)
Definition not_moved ctx d (reviewer : option UUID) (e : exn) : Prop :=
  refused ctx d e \/ (e = IntegrityError /\ has_row_opt (users d) reviewer = false).

Lemma wp_now_or now_arg (Q : datetime -> Db -> Prop) E d :
  (forall t, Q t d) -> wp (now_or now_arg) Q E d.
Proof. intros HQ. destruct now_arg; [by apply wp_ret|]. apply wp_draw. auto. Qed.

(** The conditional update: the row is as it was read, so it always applies. *)
Lemma wp_move_current r target f (Q : option DataSubjectRequest.t -> Db -> Prop) E d :
  wf d -> data_subject_requests d !! DataSubjectRequest.id r = Some r ->
  (target = DataSubjectRequestStatus.APPROVED -> approvable r) ->
  (forall x, DataSubjectRequest.id (f x) = DataSubjectRequest.id x) ->
  (forall n, valid_row d (DataSubjectRequest.set_updated_at n (f r)) = false -> E IntegrityError) ->
  (forall n, let r' := DataSubjectRequest.set_updated_at n (f r) in
     valid_row d r' = true -> Q (Some r') (put_row r' d)) ->
  wp (DataSubjectRequestRepository.transition_status_if_current (DataSubjectRequest.id r)
        (DataSubjectRequest.status r) target f) Q E d.
Proof.
  intros Hwf Hr Hap Hf HE HQ.
  assert (Hown : forall x, bool_decide (DataSubjectRequest.id x = DataSubjectRequest.id r) = true ->
    data_subject_requests d !! DataSubjectRequest.id x = Some x -> x = r)
    by (intros x He%bool_decide_eq_true_1 Hx; congruence).
  apply wp_update_one; [done| |done|..].
  - intros x y Hx Hy HPx HPy. split_checks. by rewrite (Hown x), (Hown y).
  - intros x n Hx HP. split_checks. rewrite (Hown x) by done. apply HE.
  - intros x n Hx HP. split_checks. rewrite (Hown x) by done. apply HQ.
  - intros Hno. exfalso. specialize (Hno _ r Hr). rewrite !bool_decide_true in Hno by done.
    simpl in Hno. apply orb_false_iff in Hno as [Ha%negb_false_iff%bool_decide_eq_true_1 Hb].
    apply bool_decide_eq_false_1 in Hb. destruct (Hap Ha) as [_ Hrep]. by apply Hb.
Qed.

Lemma wp_transition k target reviewer rc now_arg ctx verified d :
  wf d -> (verified = true \/ target <> DataSubjectRequestStatus.FULFILLED) ->
  wp (_transition_status k target reviewer ctx rc now_arg verified)
    (moved d k target reviewer rc ctx) (not_moved ctx d reviewer) d.
Proof.
  intros Hwf Hv. apply wp_bind, wp_now_or. intros t.
  apply wp_bind, wp_get_request; [done| |by left; left].
  intros r Hr <-. apply wp_bind, wp_raise_if; intros Hb1; [left; apply refused_conflict|].
  apply wp_bind, wp_raise_if; intros Hb2; [left; apply refused_conflict|].
  apply negb_false_iff, bool_decide_eq_true_1 in Hb2.
  assert (Hgo : (target = DataSubjectRequestStatus.APPROVED -> approvable r) ->
    wp (updated ← DataSubjectRequestRepository.transition_status_if_current (DataSubjectRequest.id r)
          (DataSubjectRequest.status r) target (_build_transition_values target reviewer rc t);
        match updated with
        | None => latest ← DataSubjectRequestRepository.get_by_id (DataSubjectRequest.id r);
            latest ← or_raise latest not_found;
            raise (ConflictError ("Data subject request status changed during transition; current status is '"
              ++ DataSubjectRequestStatus.value (DataSubjectRequest.status latest) ++ "'")%string)
        | Some updated => action ← _action_for_status target;
            _record_status_event updated action ctx ;; mret updated
        end) (moved d (DataSubjectRequest.id r) target reviewer rc ctx) (not_moved ctx d reviewer) d).
  { intros Hap. apply wp_bind, wp_move_current; [done|done|done|by intros x; destruct target|..].
    - intros n Hn. right. split; [done|]. apply not_true_iff_false. intros Hrev.
      apply not_true_iff_false in Hn. apply Hn.
      destruct (stored_request_users d r Hwf Hr) as (? & ? & ? & _).
      by apply valid_request; destruct target.
    - intros n r' Hvr. eapply wp_bind, wp_action_for_status; [exact Hb2|]. intros a Ha.
      apply wp_bind, wp_record_request; [apply status_metadata_acceptable|..].
      + intros Hb. left. right. split; [done|]. by eapply audit_blocked_frame, Hb.
      + intros id n' Hid. apply wp_ret. exists r, t, n, id, n', a.
        destruct (moved_to_fields target reviewer rc t n r) as (Hid' & _).
        unfold r'. change (DataSubjectRequest.set_updated_at n _) with (moved_to target reviewer rc t n r).
        rewrite Hid'. repeat (split; [done|]). done. }
  apply wp_bind. destruct (decide (target = DataSubjectRequestStatus.APPROVED)) as [->|Hne].
  - rewrite bool_decide_true by done.
    apply wp_bind, wp_raise_if; intros Hb3; [left; apply refused_conflict|].
    apply wp_raise_if; intros Hb4; [left; apply refused_conflict|]. apply Hgo. intros _.
    by apply negb_false_iff, bool_decide_eq_true_1 in Hb3, Hb4.
  - rewrite bool_decide_false by done. by apply wp_ret, Hgo.
Qed.

Lemma wp_transition_status k target reviewer rc now_arg ctx d :
  wf d ->
  wp (transition_status k target reviewer ctx rc now_arg)
    (fun r' d' => target <> DataSubjectRequestStatus.FULFILLED /\
       moved d k target reviewer rc ctx r' d')
    (not_moved ctx d reviewer) d.
Proof.
  intros Hwf. apply wp_bind, wp_raise_if; intros Hb; [left; apply refused_conflict|].
  apply bool_decide_eq_false_1 in Hb.
  eapply wp_mono; [apply wp_transition; [done|by right]|by auto|done].
Qed.

(** *** Fulfilment *)

(** The pipeline of the request's type has done its work at [n]. *)
Definition executed d (n : datetime) r : Prop :=
  match DataSubjectRequest.request_type r with
  | DataSubjectRequestType.ERASE =>
      DataSubjectRequest.execution_status r = DataSubjectRequestExecutionStatus.READY
  | DataSubjectRequestType.EXPORT =>
      exists k a, export_artifacts d !! k = Some a /\
        ExportArtifact.data_subject_request_id a = DataSubjectRequest.id r /\
        ExportArtifact.status a = ExportArtifactStatus.READY /\ n < ExportArtifact.expires_at a
  | _ => False
  end.

Lemma wp_ensure_execution_ready r (Q : unit -> Db -> Prop) E d :
  wf d -> (forall i, executed d (clock i) r -> Q tt d) -> (forall detail, E (ConflictError detail)) ->
  wp (_ensure_execution_ready_for_fulfilment r) Q E d.
Proof.
  intros Hwf HQ HE. apply wp_bind, wp_raise_if; intros Hb; [apply HE|].
  apply negb_false_iff, bool_decide_eq_true_1 in Hb.
  destruct (decide (DataSubjectRequest.request_type r = DataSubjectRequestType.ERASE)) as [He|He].
  - rewrite bool_decide_true by done. apply wp_raise_if; intros Hx; [apply HE|].
    apply negb_false_iff, bool_decide_eq_true_1 in Hx. apply (HQ 0%nat). unfold executed. by rewrite He.
  - rewrite bool_decide_false by done.
    apply wp_bind, wp_bind, wp_select, wp_ret, wp_bind, wp_draw. intros i.
    apply wp_raise_if; intros Hx; [apply HE|]. apply (HQ i).
    apply negb_false_iff, existsb_exists in Hx as (a & Ha & Hus). apply list_elem_of_In in Ha.
    rewrite merge_sort_Permutation in Ha. apply (elem_of_rows_where_wf d _ a Hwf) in Ha as [Ha Hreq].
    apply andb_prop in Hus as [Hst%bool_decide_eq_true_1 Hexp%Z.ltb_lt].
    apply bool_decide_eq_true_1 in Hreq.
    assert (DataSubjectRequest.request_type r = DataSubjectRequestType.EXPORT) as Ht.
    { apply elem_of_cons in Hb as [?|[?|?%elem_of_nil]%elem_of_cons]; done. }
    unfold executed. rewrite Ht. by exists (ExportArtifact.id a), a.
Qed.

Definition fulfilled d (k reviewer : UUID) ctx r' d' : Prop :=
  exists r i, data_subject_requests d !! k = Some r /\
    DataSubjectRequest.status r = DataSubjectRequestStatus.APPROVED /\ executed d (clock i) r /\
    let reviewer := if bool_decide (DataSubjectRequest.request_type r = DataSubjectRequestType.ERASE)
                    then None else Some reviewer in
    moved d k DataSubjectRequestStatus.FULFILLED reviewer None ctx r' d'.

Lemma wp_fulfil k reviewer ctx d :
  wf d -> is_Some (users d !! reviewer) ->
  wp (fulfil_request k reviewer ctx) (fulfilled d k reviewer ctx) (refused ctx d) d.
Proof.
  intros Hwf Hrev. apply wp_bind, wp_get_request; [done| |by left].
  intros r Hr <-. apply wp_bind, wp_raise_if; intros Hb; [apply refused_conflict|].
  apply negb_false_iff, bool_decide_eq_true_1 in Hb.
  apply wp_bind, wp_ensure_execution_ready; [done| |intros; apply refused_conflict].
  intros i Hex. eapply wp_mono; [apply wp_transition; [done|by left]|..].
  - intros r' d' Hm. by exists r, i.
  - intros e [He|[_ Hno]]; [done|]. unfold _fulfilment_reviewer_user_id in Hno.
    destruct (bool_decide _) in Hno; [done|]. simpl in Hno.
    by rewrite (proj2 (has_row_true _ _) Hrev) in Hno.
Qed.

(** *** The review of a representative's authority *)

Definition reviewable r : Prop :=
  DataSubjectRequest.requester_role r = DataSubjectRequestRequesterRole.AUTHORISED_REPRESENTATIVE /\
  DataSubjectRequest.status r ∈ _REPRESENTATIVE_REVIEWABLE_REQUEST_STATUSES.

Lemma wp_ensure_reviewable r (Q : unit -> Db -> Prop) E d :
  (reviewable r -> Q tt d) -> (forall detail, E (ConflictError detail)) ->
  wp (_ensure_representative_authority_reviewable r) Q E d.
Proof.
  intros HQ HE. apply wp_bind, wp_raise_if; intros Hb; [apply HE|].
  apply wp_raise_if; intros Hc; [apply HE|]. apply HQ.
  by apply negb_false_iff, bool_decide_eq_true_1 in Hb, Hc.
Qed.

Lemma wp_review_current r f (Q : DataSubjectRequest.t -> Db -> Prop) E d :
  wf d -> data_subject_requests d !! DataSubjectRequest.id r = Some r ->
  (forall x, DataSubjectRequest.id (f x) = DataSubjectRequest.id x) ->
  (forall n, valid_row d (DataSubjectRequest.set_updated_at n (f r)) = false -> E IntegrityError) ->
  (forall n, let r' := DataSubjectRequest.set_updated_at n (f r) in
     valid_row d r' = true -> Q r' (put_row r' d)) ->
  wp (_update_representative_authority_if_current r f) Q E d.
Proof.
  intros Hwf Hr Hf HE HQ.
  assert (Hown : forall x, bool_decide (DataSubjectRequest.id x = DataSubjectRequest.id r) = true ->
    data_subject_requests d !! DataSubjectRequest.id x = Some x -> x = r)
    by (intros x He%bool_decide_eq_true_1 Hx; congruence).
  apply wp_bind, wp_update_one; [done| |done|..].
  - intros x y Hx Hy HPx HPy. split_checks. by rewrite (Hown x), (Hown y).
  - intros x n Hx HP. split_checks. rewrite (Hown x) by done. apply HE.
  - intros x n Hx HP Hv. split_checks. rewrite (Hown x) in * by done. by apply wp_ret, HQ.
  - intros Hno. exfalso. specialize (Hno _ r Hr). by rewrite !bool_decide_true in Hno.
Qed.

Definition authority_event ctx (action : AuditAction.t) r (rc : option string) : UUID -> datetime -> AuditEvent.t :=
  request_event ctx action (DataSubjectRequest.id r)
    (status_metadata r ++
     [("representative_status", JStr (DataSubjectRequestRepresentativeStatus.value
         (DataSubjectRequest.representative_status r)));
      ("reason_code", match rc with None => JNull | Some c => JStr c end)]%string).

(** Which review it is: the status it sets and the action it records. *)
Definition reviewed d (k : UUID) (to : DataSubjectRequestRepresentativeStatus.t)
    (by_user : option UUID) (rejection rc : option string) (action : AuditAction.t) ctx r' d' : Prop :=
  exists r t n id n', data_subject_requests d !! k = Some r /\ reviewable r /\
    r' = DataSubjectRequest.set_updated_at n (authority_values to t by_user rejection r) /\
    audit_events d !! id = None /\
    d' = put_row (authority_event ctx action r' rc id n') (put_row r' d).

Lemma wp_record_authority r action ctx rc (Q : unit -> Db -> Prop) E d :
  (forall msg, E (ValueError msg)) -> (audit_blocked ctx d -> E IntegrityError) ->
  (forall id n, audit_events d !! id = None -> Q tt (put_row (authority_event ctx action r rc id n) d)) ->
  wp (_record_representative_authority_event r action ctx rc) Q E d.
Proof.
  intros HV HE HQ. apply wp_bind, wp_record_event_checked; [by intros _|done|].
  intros id n _ Hid e _. by apply wp_ret, HQ.
Qed.

(** The reason codes of the API are short names; a text too long for the metadata
    is the only other way to fail. *)
Definition not_reviewed ctx d (reviewer : option UUID) (e : exn) : Prop :=
  not_moved ctx d reviewer e \/ exists msg, e = ValueError msg.

Lemma wp_verify k reviewer rc now_arg ctx d :
  wf d ->
  wp (verify_representative_authority k reviewer rc ctx now_arg)
    (reviewed d k DataSubjectRequestRepresentativeStatus.VERIFIED (Some reviewer) None rc
       AuditAction.DATA_SUBJECT_REQUEST_REPRESENTATIVE_VERIFIED ctx)
    (not_reviewed ctx d (Some reviewer)) d.
Proof.
  intros Hwf. apply wp_bind, wp_now_or. intros t.
  apply wp_bind, wp_get_request; [done| |by left; left; left].
  intros r Hr <-. apply wp_bind, wp_ensure_reviewable; [|left; left; apply refused_conflict].
  intros Hrev. destruct (stored_request_users d r Hwf Hr) as (? & ? & ? & ?).
  apply wp_bind, wp_review_current; [done|done|done|..].
  - intros n Hn. left. right. split; [done|]. apply not_true_iff_false. intros Hx.
    apply not_true_iff_false in Hn. apply Hn. by apply valid_request.
  - intros n r' _. apply wp_bind, wp_record_authority; [by right; eexists|..].
    + intros Hb. left. left. right. split; [done|]. by eapply audit_blocked_frame, Hb.
    + intros id n' Hid. apply wp_ret. by exists r, (Some t), n, id, n'.
Qed.

Lemma wp_reject_authority k reviewer rc ctx d :
  wf d ->
  wp (reject_representative_authority k reviewer rc ctx)
    (reviewed d k DataSubjectRequestRepresentativeStatus.REJECTED None (Some rc) (Some rc)
       AuditAction.DATA_SUBJECT_REQUEST_REPRESENTATIVE_REJECTED ctx)
    (not_reviewed ctx d None) d.
Proof.
  intros Hwf. apply wp_bind, wp_get_request; [done| |by left; left; left].
  intros r Hr <-. apply wp_bind, wp_ensure_reviewable; [|left; left; apply refused_conflict].
  intros Hrev. destruct (stored_request_users d r Hwf Hr) as (? & ? & ? & ?).
  apply wp_bind, wp_review_current; [done|done|done|..].
  - intros n Hn. exfalso. apply not_true_iff_false in Hn. apply Hn. by apply valid_request.
  - intros n r' _. apply wp_bind, wp_record_authority; [by right; eexists|..].
    + intros Hb. left. left. right. split; [done|]. by eapply audit_blocked_frame, Hb.
    + intros id n' Hid. apply wp_ret. by exists r, None, n, id, n'.
Qed.

End StateMachine.

(** ** Submission *)
Import Regex.

Section Submission.
Context `{Env} `{Network} `{Crypto}.
Import IdempotencyKey DataSubjectRequestService.
Implicit Types (d : Db) (E : exn -> Prop) (r : DataSubjectRequest.t).

(** *** What is accepted *)

Definition key_safe (key : option string) : bool :=
  match key with
  | None => true
  | Some key =>
      let candidate := Text.strip key in
      negb (Text.is_empty candidate) && negb (512 <? Z.of_nat (String.length candidate))
      && negb (search _EMAIL_LIKE_PATTERN (Text.lower candidate))
      && negb (_UNSAFE_IDEMPOTENCY_PATTERNS candidate)
      && negb (Text.contains ":" candidate && Text.contains "=" candidate)
  end.

Lemma wp_validate_key key (Q : unit -> Db -> Prop) E d :
  (key_safe key = true -> Q tt d) -> (key_safe key = false -> forall e, app_error e -> E e) ->
  wp (_validate_idempotency_key_safety key) Q E d.
Proof.
  destruct key as [key|]; intros HQ HE; [|by apply wp_ret, HQ]. unfold key_safe in *. cbv zeta in *.
  apply wp_bind, wp_raise_if; intros H1'; [apply HE; [by rewrite H1'|by repeat eexists]|].
  apply wp_bind, wp_raise_if; intros H2'; [apply HE; [by rewrite H1', H2'|by repeat eexists]|].
  apply wp_bind, wp_raise_if; intros H3'; [apply HE; [by rewrite H1', H2', H3'|by repeat eexists]|].
  apply wp_bind, wp_raise_if; intros H4'; [apply HE; [by rewrite H1', H2', H3', H4'|by repeat eexists]|].
  apply wp_raise_if; intros H5'; [apply HE; [by rewrite H1', H2', H3', H4', H5'|by repeat eexists]|].
  apply HQ. by rewrite H1', H2', H3', H4', H5'.
Qed.

(** The intake values of acceptable arguments. *)
Definition intake (u : UUID) (subject : option UUID) (role : DataSubjectRequestRequesterRole.t)
    (relationship note : option string) : option IntakeValues :=
  match role, subject, relationship, note with
  | DataSubjectRequestRequesterRole.SELF, s, None, None =>
      if bool_decide (s = None \/ s = Some u)
      then Some (mkIntakeValues u DataSubjectRequestRequesterRole.SELF
                   DataSubjectRequestRepresentativeStatus.NOT_REQUIRED None None)
      else None
  | DataSubjectRequestRequesterRole.AUTHORISED_REPRESENTATIVE, Some s, Some rel, Some n =>
      if bool_decide (s <> u)
         && negb (too_long REPRESENTATIVE_RELATIONSHIP_MAX_LENGTH rel)
         && negb (too_long REPRESENTATIVE_AUTHORITY_NOTE_MAX_LENGTH n)
      then Some (mkIntakeValues s DataSubjectRequestRequesterRole.AUTHORISED_REPRESENTATIVE
                   DataSubjectRequestRepresentativeStatus.PENDING_VERIFICATION (Some rel) (Some n))
      else None
  | _, _, _, _ => None
  end.

Lemma wp_build_intake u s role rel n (Q : IntakeValues -> Db -> Prop) E d :
  (forall v, intake u s role rel n = Some v -> Q v d) ->
  (intake u s role rel n = None -> forall e, app_error e -> E e) ->
  wp (_build_representative_intake_values u s role rel n) Q E d.
Proof.
  intros HQ HE. destruct role; simpl in *.
  - apply wp_bind, wp_raise_if; intros Hs.
    { apply HE; [|by repeat eexists]. destruct rel, n; try done.
      destruct s as [s|]; [|done]. apply negb_true_iff, bool_decide_eq_false_1 in Hs.
      rewrite bool_decide_false; [done|]. intros [?|[=]]; done. }
    apply wp_bind, wp_raise_if; intros Hr; [apply HE; [by destruct rel|by repeat eexists]|].
    apply wp_bind, wp_raise_if; intros Hn; [apply HE; [by destruct rel, n|by repeat eexists]|].
    destruct rel, n; try done. apply wp_ret, HQ. rewrite bool_decide_true; [done|].
    destruct s as [s|]; [right|by left]. by apply negb_false_iff, bool_decide_eq_true_1 in Hs as ->.
  - destruct s as [s|]; [|apply wp_bind, wp_raise, HE; [done|by repeat eexists]].
    apply wp_bind, wp_ret, wp_bind, wp_raise_if; intros Hs.
    { apply HE; [|by repeat eexists]. destruct rel, n; try done.
      apply bool_decide_eq_true_1 in Hs. by rewrite bool_decide_false by (intros Hne; by apply Hne). }
    apply bool_decide_eq_false_1 in Hs.
    destruct rel as [rel|]; [|apply wp_bind, wp_raise, HE; [done|by repeat eexists]]. apply wp_bind, wp_ret.
    destruct n as [n|]; [|apply wp_bind, wp_raise, HE; [done|by repeat eexists]]. apply wp_bind, wp_ret.
    rewrite bool_decide_true in HQ, HE by done. simpl in HQ, HE.
    apply wp_bind, wp_raise_if; intros Hl; rewrite Hl in HQ, HE; [apply HE; [done|by repeat eexists]|].
    apply wp_bind, wp_raise_if; intros Hl'; rewrite Hl' in HQ, HE; [apply HE; [done|by repeat eexists]|].
    by apply wp_ret, HQ.
Qed.

(** The arguments of a submission. *)
Record Submission := mkSubmission {
  by_user : UUID;
  type_text : string;
  note : option string;
  subject : option UUID;
  role_text : string;
  relationship : option string;
  authority_note : option string;
  key : option string;
}.

Definition submit (s : Submission) (now_arg : option datetime) (ctx : AuditContext.t)
    : M Db DataSubjectRequest.t :=
  submit_request (by_user s) (type_text s) (note s) (subject s) (role_text s) (relationship s)
    (authority_note s) (key s) now_arg ctx.

(** The submission passes every check, as a request of type [t] with the intake
    values [v]. *)
Definition accepted d (s : Submission) (t : DataSubjectRequestType.t) (v : IntakeValues) : Prop :=
  DataSubjectRequestType.of_value (type_text s) = Some t /\
  match note s with None => True | Some n => too_long REQUESTER_NOTE_MAX_LENGTH n = false end /\
  key_safe (_normalise_idempotency_key (key s)) = true /\
  exists role, DataSubjectRequestRequesterRole.of_value (role_text s) = Some role /\
    intake (by_user s) (subject s) role (_normalise_optional_text (relationship s))
      (_normalise_optional_text (authority_note s)) = Some v /\
    (role = DataSubjectRequestRequesterRole.AUTHORISED_REPRESENTATIVE ->
     is_Some (users d !! subject_user_id v)).

Lemma accepted_functional d d' s t t' v v' : accepted d s t v -> accepted d' s t' v' -> t = t' /\ v = v'.
Proof.
  intros (Ht & _ & _ & r & Hr & Hv & _) (Ht' & _ & _ & r' & Hr' & Hv' & _). split; [congruence|].
  assert (r = r') as -> by congruence. congruence.
Qed.

Lemma wp_subject_exists role u (Q : unit -> Db -> Prop) E d :
  wf d ->
  ((role = DataSubjectRequestRequesterRole.AUTHORISED_REPRESENTATIVE -> is_Some (users d !! u)) -> Q tt d) ->
  (~ (role = DataSubjectRequestRequesterRole.AUTHORISED_REPRESENTATIVE -> is_Some (users d !! u)) ->
     forall e, app_error e -> E e) ->
  wp (_ensure_representative_subject_exists role u) Q E d.
Proof.
  intros Hwf HQ HE. unfold _ensure_representative_subject_exists.
  destruct (decide (role = DataSubjectRequestRequesterRole.AUTHORISED_REPRESENTATIVE)) as [Hr|Hr].
  2:{ rewrite bool_decide_false by done. by apply wp_ret, HQ. }
  rewrite bool_decide_true by done. simpl.
  apply wp_bind, wp_bind, (wp_select_pk u); [done|done|..]; simpl.
  - intros x Hx _. apply wp_ret, wp_raise_if; [done|]. intros _. apply HQ. by eexists.
  - intros Hno. apply wp_ret, wp_raise_if; [|done]. intros _. apply HE; [|by repeat eexists].
    intros Hx. destruct (Hx Hr) as [x Hk]. congruence.
Qed.

(** *** Replays *)

(** A key that names a request with another payload is refused. *)
Definition key_taken : exn :=
  AppError Conflict "Idempotency key is already used for another request payload" [].

(** A request of [u] that the key hash [h] still names at [t]. *)
Definition names d (u : UUID) (h : string) (t : datetime) r : Prop :=
  data_subject_requests d !! DataSubjectRequest.id r = Some r /\
  DataSubjectRequest.requester_user_id r = Some u /\
  DataSubjectRequest.idempotency_key_hash r = Some h /\
  exists e, DataSubjectRequest.idempotency_key_expires_at r = Some e /\ t < e.

Lemma same_live_key_true u h t r :
  DataSubjectRequestRepository.same_live_key u h t r = true <->
  DataSubjectRequest.requester_user_id r = Some u /\
  DataSubjectRequest.idempotency_key_hash r = Some h /\
  exists e, DataSubjectRequest.idempotency_key_expires_at r = Some e /\ t < e.
Proof.
  unfold DataSubjectRequestRepository.same_live_key. rewrite !andb_true_iff, !bool_decide_eq_true.
  destruct (DataSubjectRequest.idempotency_key_expires_at r) as [e|]; [rewrite Z.ltb_lt|]; naive_solver.
Qed.

Lemma wp_find_replay u h fp legacy t (Q : option DataSubjectRequest.t -> Db -> Prop) E d :
  wf d ->
  (forall r, names d u h t r -> _idempotency_fingerprint_matches r fp legacy = true -> Q (Some r) d) ->
  (forall r, names d u h t r -> _idempotency_fingerprint_matches r fp legacy = false ->
     E key_taken) ->
  ((forall r, ~ names d u h t r) -> Q None d) ->
  wp (find_replay u h fp legacy t) Q E d.
Proof.
  intros Hwf HS HE HN. apply wp_bind, wp_bind, wp_select, wp_ret, wp_bind, wp_bind, wp_select.
  set (P := DataSubjectRequestRepository.same_live_key u h t).
  assert (Hin : forall r, r ∈ merge_sort DataSubjectRequestRepository.created_last (rows_where d P) ->
    names d u h t r).
  { intros r Hr. rewrite merge_sort_Permutation in Hr.
    apply (elem_of_rows_where_wf d P r Hwf) in Hr as [Hr HP]. apply same_live_key_true in HP as (? & ? & ?).
    by split. }
  destruct (merge_sort _ _) as [|r l] eqn:El; simpl.
  - apply wp_ret, wp_ret, HN. intros r (Hr & Hrest).
    assert (r ∈ rows_where d P) as Hr'.
    { pose proof (elem_of_rows_where_wf d P r Hwf) as Hw. apply Hw. split; [done|].
      by apply same_live_key_true. }
    rewrite <- (merge_sort_Permutation DataSubjectRequestRepository.created_last), El in Hr'.
    by apply elem_of_nil in Hr'.
  - assert (Hr : names d u h t r) by (apply Hin; by left). apply wp_ret.
    destruct (_idempotency_fingerprint_matches r fp legacy) eqn:Hm; [apply wp_ret; by apply HS|].
    apply wp_raise. by apply (HE r).
Qed.

(** *** Submitting *)

Definition key_hash (s : Submission) : option string :=
  option_map _hash_idempotency_key (_normalise_idempotency_key (key s)).

Definition fingerprint (s : Submission) (t : DataSubjectRequestType.t) (v : IntakeValues)
    : option string :=
  option_map (fun _ => _build_fingerprint t (note s) v) (key_hash s).

Definition legacy_fingerprint (s : Submission) (t : DataSubjectRequestType.t) (v : IntakeValues)
    : option string :=
  match key_hash s, requester_role v with
  | Some _, DataSubjectRequestRequesterRole.SELF =>
      Some (_build_pre_representative_fingerprint t (note s))
  | _, _ => None
  end.

(** A reference time the call can use. *)
Definition reference (now_arg : option datetime) (t : datetime) : Prop :=
  match now_arg with Some n => t = n | None => exists i, t = clock i end.

(** The row is fingerprinted with the digest of the submission's payload; or it is one from
    before there were representatives, fingerprinted with the type and the note alone, and the
    submission is of the user's own. *)
Definition same_payload r (s : Submission) ty v : Prop :=
  DataSubjectRequest.idempotency_fingerprint r
    = Some (sha256_hexdigest (fingerprint_source ty (note s) v)) \/
  (requester_role v = DataSubjectRequestRequesterRole.SELF /\
   DataSubjectRequest.idempotency_fingerprint r = Some (sha256_hexdigest
     ("request_type=" ++ DataSubjectRequestType.value ty
        ++ "|requester_note=" ++ or_empty (note s))%string) /\
   DataSubjectRequest.requester_role r = DataSubjectRequestRequesterRole.SELF /\
   DataSubjectRequest.subject_user_id r = DataSubjectRequest.requester_user_id r /\
   DataSubjectRequest.representative_relationship r = None /\
   DataSubjectRequest.representative_authority_note r = None).

Lemma fingerprints_match r s ty v h :
  key_hash s = Some h ->
  _idempotency_fingerprint_matches r (fingerprint s ty v) (legacy_fingerprint s ty v) = true
  <-> same_payload r s ty v.
Proof.
  intros Hh. unfold _idempotency_fingerprint_matches, fingerprint, legacy_fingerprint, same_payload.
  rewrite Hh. cbn [option_map].
  unfold _build_fingerprint, _build_pre_representative_fingerprint, _is_legacy_self_service_idempotency_row.
  case_bool_decide as Hfp; [by split; [left|]|].
  destruct (requester_role v); [|naive_solver].
  rewrite !andb_true_iff, !bool_decide_eq_true.
  destruct (DataSubjectRequest.representative_relationship r), (DataSubjectRequest.representative_authority_note r);
    naive_solver.
Qed.

Definition replayed d (s : Submission) ty v (t : datetime) r d' : Prop :=
  d' = d /\ exists h, key_hash s = Some h /\ names d (by_user s) h t r /\ same_payload r s ty v.

Definition created d (s : Submission) ty v (t : datetime) ctx r d' : Prop :=
  (forall h, key_hash s = Some h -> forall x, ~ names d (by_user s) h t x) /\
  exists id c c' eid n, data_subject_requests d !! id = None /\
    r = submitted_row id (by_user s) ty (note s) v t (key_hash s) (fingerprint s ty v) c c' /\
    audit_events d !! eid = None /\ wf d' /\
    d' = put_row (request_event ctx AuditAction.DATA_SUBJECT_REQUEST_SUBMITTED id
           (status_metadata r) eid n) (put_row r d).

Definition request_id_taken d : Prop := exists i, is_Some (data_subject_requests d !! uuid4 i).

Lemma wp_now_ref now_arg (Q : datetime -> Db -> Prop) E d :
  (forall t, reference now_arg t -> Q t d) -> wp (now_or now_arg) Q E d.
Proof. intros HQ. destruct now_arg; [by apply wp_ret, HQ|]. apply wp_draw. intros i. apply HQ. by exists i. Qed.

Lemma wp_create_request d s ty v t ctx E (Q : DataSubjectRequest.t -> Db -> Prop) :
  wf d -> is_Some (users d !! by_user s) -> is_Some (users d !! subject_user_id v) ->
  (request_id_taken d \/ audit_blocked ctx d -> E IntegrityError) ->
  (forall id c c' eid n, data_subject_requests d !! id = None -> audit_events d !! eid = None ->
     let r := submitted_row id (by_user s) ty (note s) v t (key_hash s) (fingerprint s ty v) c c' in
     let d' := put_row (request_event ctx AuditAction.DATA_SUBJECT_REQUEST_SUBMITTED id
           (status_metadata r) eid n) (put_row r d) in
     wf d' -> Q r d') ->
  wp (id ← new_uuid; created_at ← now; updated_at ← now;
      request ← DataSubjectRequestRepository.create
        (submitted_row id (by_user s) ty (note s) v t (key_hash s) (fingerprint s ty v) created_at updated_at);
      _record_status_event request AuditAction.DATA_SUBJECT_REQUEST_SUBMITTED ctx ;;
      mret request) Q E d.
Proof.
  intros Hwf Hu Hs HE HQ. apply wp_bind, wp_draw. intros i. do 2 (apply wp_bind, wp_draw; intros ?).
  apply wp_bind, wp_insert_row.
  - intros [Ht|Hv]; apply HE; [left; by exists i|]. exfalso. apply not_true_iff_false in Hv.
    apply Hv, valid_request; [done|by apply has_row_true..|done].
  - intros Hfresh Hv. apply wp_bind, wp_record_valid_request; [apply status_metadata_acceptable|..].
    + intros Hb. apply HE. right. by eapply audit_blocked_frame, Hb.
    + intros eid n Hid e He. apply wp_ret, HQ; [done..|]. apply wf_put_row; [by apply wf_put_row|exact He].
Qed.

(** The users an accepted submission names exist once its author does. *)
Lemma accepted_subject d s t v :
  accepted d s t v -> is_Some (users d !! by_user s) -> is_Some (users d !! subject_user_id v).
Proof.
  intros (_ & _ & _ & role & _ & Hv & Hrep) Hu.
  destruct role; [|by apply Hrep]. simpl in Hv.
  destruct (_normalise_optional_text (relationship s)), (_normalise_optional_text (authority_note s)); try done.
  case_bool_decide; [|done]. by injection Hv as <-.
Qed.

Lemma wp_submit s now_arg ctx (Q : DataSubjectRequest.t -> Db -> Prop) E d :
  wf d -> is_Some (users d !! by_user s) ->
  (forall e, app_error e -> (forall t v, ~ accepted d s t v) -> E e) ->
  (forall h ty v t r, key_hash s = Some h -> accepted d s ty v -> reference now_arg t ->
     names d (by_user s) h t r -> ~ same_payload r s ty v -> E key_taken) ->
  (request_id_taken d \/ audit_blocked ctx d ->
     (exists t, reference now_arg t /\
       forall h, key_hash s = Some h -> forall r, ~ names d (by_user s) h t r) -> E IntegrityError) ->
  (forall ty v t r d', accepted d s ty v -> reference now_arg t ->
     replayed d s ty v t r d' \/ created d s ty v t ctx r d' -> Q r d') ->
  wp (submit s now_arg ctx) Q E d.
Proof.
  intros Hwf Hu HE HC HI HQ. apply wp_bind, wp_now_ref. intros t Ht.
  apply wp_bind, wp_or_raise.
  { intros Hn. apply HE; [by repeat eexists|]. intros t' v (Hty & _). congruence. }
  intros ty Hty. apply wp_bind, wp_or_raise.
  { intros Hn. apply HE; [by repeat eexists|]. intros t' v (_ & _ & _ & r & Hr & _). congruence. }
  intros role Hrole. apply wp_bind, wp_raise_if; intros Hnote.
  { apply HE; [by repeat eexists|]. intros t' v (_ & Hn & _). destruct (note s); congruence. }
  apply wp_bind, wp_validate_key.
  2:{ intros Hk e He. apply HE; [done|]. intros t' v (_ & _ & Hk' & _). congruence. }
  intros Hkey. apply wp_bind, wp_build_intake.
  2:{ intros Hv e He. apply HE; [done|]. intros t' v (_ & _ & _ & r & Hr & Hv' & _).
      assert (r = role) as -> by congruence. congruence. }
  intros v Hv. apply wp_bind, wp_subject_exists; [done| |].
  2:{ intros Hno e He. apply HE; [done|]. intros t' v' (_ & _ & _ & r & Hr & Hv' & Hs).
      assert (r = role) as -> by congruence. assert (v' = v) as -> by congruence. by apply Hno. }
  intros Hsub. assert (Hacc : accepted d s ty v).
  { split; [done|]. split; [by destruct (note s)|]. split; [done|]. by exists role. }
  assert (Hnew : (forall h, key_hash s = Some h -> forall x, ~ names d (by_user s) h t x) ->
    wp (id ← new_uuid; created_at ← now; updated_at ← now;
      request ← DataSubjectRequestRepository.create
        (submitted_row id (by_user s) ty (note s) v t (key_hash s) (fingerprint s ty v) created_at updated_at);
      _record_status_event request AuditAction.DATA_SUBJECT_REQUEST_SUBMITTED ctx ;;
      mret request) Q E d).
  { intros Hno. apply wp_create_request; [done|done|by eapply accepted_subject|..].
    - intros Hc. apply HI; [done|]. by exists t.
    - intros id c c' eid n Hid Heid r d' Hwf'. apply (HQ ty v t); [done..|]. right. split; [done|].
      by exists id, c, c', eid, n. }
  apply wp_bind. fold (key_hash s). unfold fingerprint in Hnew.
  destruct (key_hash s) as [h|] eqn:Hh; [|by apply wp_ret, Hnew].
  apply wp_find_replay; [done|..].
  - intros r Hr Hm. apply wp_ret, (HQ ty v t); [done..|]. left. split; [done|]. exists h.
    split; [done|]. split; [done|]. apply (fingerprints_match r s ty v h Hh).
    unfold fingerprint, legacy_fingerprint. by rewrite Hh.
  - intros r Hr Hm. apply (HC h ty v t r); [done..|]. intros Hs%(fingerprints_match r s ty v h Hh).
    revert Hs. unfold fingerprint, legacy_fingerprint. rewrite Hh. congruence.
  - intros Hno. apply Hnew. intros h' [= <-]. exact Hno.
Qed.

End Submission.

(** *** A key that has just been used *)
Section Replay.
Context `{Env} `{Network} `{Crypto}.
Import DataSubjectRequestService.

(** A submission of the same user under the same key, while the key lives, is told by its
    payload from the one that created the request: it gets the request, or is refused. *)
Lemma wp_submit_again d s s' ty ty' v v' t t' ctx ctx' r d' :
  is_Some (users d !! by_user s) -> by_user s' = by_user s -> key s' = key s -> is_Some (key s) ->
  created d s ty v t ctx r d' -> accepted d s' ty' v' ->
  t <= t' < t + hours IDEMPOTENCY_KEY_TTL_HOURS ->
  wp (submit s' (Some t') ctx') (fun r' d'' => same_payload r s' ty' v' /\ r' = r /\ d'' = d')
    (fun e => ~ same_payload r s' ty' v' /\ e = key_taken) d'.
Proof.
  intros Hu Hby Hks [k0 Hk0] (Hno & id & c & c' & eid & n & Hid & -> & Heid & Hwf & ->) Hacc Ht.
  assert (key_hash s' = key_hash s) as Hkh by (unfold key_hash; by rewrite Hks).
  assert (exists h, key_hash s = Some h) as [h Hh] by (unfold key_hash; rewrite Hk0; by eexists).
  specialize (Hno h Hh). set (r := submitted_row _ _ _ _ _ _ _ _ _ _) in *.
  set (d1 := put_row _ (put_row r d)) in *.
  assert (Hr : names d1 (by_user s) h t' r).
  { split; [unfold d1; simpl; apply lookup_insert_eq|]. split; [done|]. split; [exact Hh|].
    exists (t + hours IDEMPOTENCY_KEY_TTL_HOURS). simpl. rewrite Hh. split; [done|lia]. }
  assert (Honly : forall x, names d1 (by_user s) h t' x -> x = r).
  { intros x (Hx & Hxu & Hxh & e & Hxe & Hlt). unfold d1 in Hx. simpl in Hx.
    apply lookup_insert_Some in Hx as [[_ <-]|[_ Hx]]; [done|]. destruct (Hno x).
    split; [done|]. split; [done|]. split; [done|]. exists e. split; [done|lia]. }
  apply wp_submit; [done|by rewrite Hby|..].
  - intros e He Hn. by destruct (Hn ty' v').
  - intros h' ty2 v2 t0 x Hh' Ha -> Hx Hs. rewrite Hby in Hx. assert (h' = h) as -> by congruence.
    destruct (accepted_functional _ _ _ _ _ _ _ Ha Hacc) as [-> ->].
    rewrite (Honly x Hx) in Hs. by split.
  - intros _ (t0 & -> & Hn). rewrite Hkh, Hby in Hn. by destruct (Hn h Hh r).
  - intros ty2 v2 t0 x d'' Ha -> [(-> & h' & Hh' & Hx & Hs)|[Hn _]].
    + rewrite Hby in Hx. assert (h' = h) as -> by congruence.
      destruct (accepted_functional _ _ _ _ _ _ _ Ha Hacc) as [-> ->].
      rewrite (Honly x Hx) in Hs |- *. done.
    + rewrite Hkh, Hby in Hn. by destruct (Hn h Hh r).
Qed.

(** What was created has the payload of its submission. *)
Lemma created_payload d s ty v t ctx r d' :
  is_Some (key s) -> created d s ty v t ctx r d' ->
  DataSubjectRequest.idempotency_fingerprint r
    = Some (sha256_hexdigest (fingerprint_source ty (note s) v)).
Proof.
  intros [k Hk] (_ & id & c & c' & eid & n & _ & -> & _). simpl. unfold fingerprint, key_hash.
  by rewrite Hk.
Qed.

End Replay.

(** ** The invariant of stored requests *)
Section Invariant.
Context `{Env} `{Network} `{Crypto}.
Import DataSubjectRequestService.
Implicit Types (d : Db) (r : DataSubjectRequest.t).

Definition decided_yes r : Prop :=
  DataSubjectRequest.status r = DataSubjectRequestStatus.APPROVED \/
  DataSubjectRequest.status r = DataSubjectRequestStatus.FULFILLED.

(** Approved and fulfilled requests have an execution pipeline and a verified or
    unneeded representative. *)
Definition requests_sound d : Prop :=
  forall k r, data_subject_requests d !! k = Some r -> decided_yes r -> approvable r.

Lemma requests_sound_put d r :
  requests_sound d -> (decided_yes r -> approvable r) -> requests_sound (put_row r d).
Proof.
  intros Hd Hr k x Hx. rewrite requests_put in Hx.
  apply lookup_insert_Some in Hx as [[_ <-]|[_ Hx]]; [done|]. by apply (Hd k).
Qed.

Lemma requests_sound_event d (e : AuditEvent.t) : requests_sound d -> requests_sound (put_row e d).
Proof. done. Qed.

Lemma fulfilled_from cur :
  DataSubjectRequestStatus.FULFILLED ∈ _ALLOWED_TRANSITIONS cur -> cur = DataSubjectRequestStatus.APPROVED.
Proof.
  destruct cur; simpl; intros Ht; try done;
    repeat (apply elem_of_cons in Ht as [?|Ht]; [done|]); by apply elem_of_nil in Ht.
Qed.

Lemma moved_sound d k target reviewer rc ctx r' d' :
  requests_sound d -> moved d k target reviewer rc ctx r' d' -> requests_sound d'.
Proof.
  intros Hd (r & t & n & id & n' & a & Hr & [Ht Hap] & -> & _ & _ & ->).
  apply requests_sound_event, requests_sound_put; [done|].
  destruct (moved_to_fields target reviewer rc t n r) as (_ & Hs & _ & Hty & _ & _ & Hrep & _).
  unfold decided_yes, approvable. rewrite Hs, Hty, Hrep. intros [->| ->]; [by apply Hap|].
  apply (Hd k); [done|]. left. by apply fulfilled_from.
Qed.

Lemma reviewed_sound d k to by_user rj rc a ctx r' d' :
  requests_sound d -> reviewed d k to by_user rj rc a ctx r' d' -> requests_sound d'.
Proof.
  intros Hd (r & t & n & id & n' & Hr & [_ Hs] & -> & _ & ->).
  apply requests_sound_event, requests_sound_put; [done|]. intros Hyes. exfalso.
  change (DataSubjectRequest.status r = DataSubjectRequestStatus.APPROVED \/
    DataSubjectRequest.status r = DataSubjectRequestStatus.FULFILLED) in Hyes.
  apply elem_of_cons in Hs as [Hs|[Hs|?%elem_of_nil]%elem_of_cons]; [..|done];
    destruct Hyes; congruence.
Qed.

Lemma submitted_sound d s ty v t ctx r d' :
  requests_sound d -> replayed d s ty v t r d' \/ created d s ty v t ctx r d' -> requests_sound d'.
Proof.
  intros Hd [[-> _]|(_ & id & c & c' & eid & n & _ & -> & _ & _ & ->)]; [done|].
  apply requests_sound_event, requests_sound_put; [done|]. by intros [|].
Qed.

End Invariant.

(** ** Properties *)
Section Properties.
Context `{Env} `{Network} `{IpNetworks} `{Crypto}.
Import IdempotencyKey DataSubjectRequestService.
Implicit Types (d : Db) (r : DataSubjectRequest.t) (c : Call).

(** The status of a request only moves along the declared transitions, to the
    status asked for, and never to FULFILLED by this route. An approval needs a
    type with an execution pipeline and a representative who is not required or
    verified. A move writes that request and one audit event of the status; it
    fails only with a refusal, or when the reviewer is not a user. *)
Theorem transition_status_spec k target reviewer rc now_arg ctx d :
  wf d ->
  wp (transition_status k target reviewer ctx rc now_arg)
    (fun r' d' => target <> DataSubjectRequestStatus.FULFILLED /\
       DataSubjectRequest.status r' = target /\
       (target = DataSubjectRequestStatus.APPROVED -> approvable r') /\
       moved d k target reviewer rc ctx r' d')
    (not_moved ctx d reviewer) d.
Proof.
  intros Hwf. eapply wp_mono; [by apply wp_transition_status| |done].
  intros r' d' [Hne Hm]. split; [done|].
  destruct Hm as (r & t & n & id & n' & a & Hr & [Ht Hap] & -> & Hrest).
  destruct (moved_to_fields target reviewer rc t n r) as (_ & Hs & _ & Hty & _ & _ & Hrep & _).
  split; [done|]. split; [|by exists r, t, n, id, n', a].
  unfold approvable. by rewrite Hty, Hrep.
Qed.

(** Fulfilling a request: only staff who may review gets through; the request is
    approved and its pipeline has done its work, an export has a ready artifact
    that is not expired, an erasure was executed; the reviewer of an erasure is
    not recorded. It fails only with a refusal. *)
Theorem fulfil_platform_data_subject_request_spec c k d :
  wf d ->
  commits (PlatformDataSubjectRequestsApi.fulfil_platform_data_subject_request c k)
    (fun r' d' => exists a, may_act d (identity c) PlatformPermission.PRIVACY_REQUESTS_REVIEW a /\
       fulfilled d k (actor_id a) (context_of c a) r' d')
    (fun e => turned_away c d PlatformPermission.PRIVACY_REQUESTS_REVIEW e \/
       exists a, refused (context_of c a) d e) d.
Proof.
  intros Hwf. apply commits_platform_write; [done|]. intros a Ha.
  eapply wp_mono; [apply wp_fulfil; [done|]|by eauto|by eauto].
  destruct Ha as [(Hu & _) _]. by eexists.
Qed.

(** A representative's authority is only verified on an authorised-representative
    request that is submitted or under review: the verification records who and
    when, leaves the request's status alone and is audited. *)
Theorem verify_representative_authority_spec k reviewer rc now_arg ctx d :
  wf d ->
  wp (verify_representative_authority k reviewer rc ctx now_arg)
    (fun r' d' =>
       DataSubjectRequest.representative_status r' = DataSubjectRequestRepresentativeStatus.VERIFIED /\
       DataSubjectRequest.representative_verified_by_user_id r' = Some reviewer /\
       (exists r, data_subject_requests d !! k = Some r /\ reviewable r /\
          DataSubjectRequest.status r' = DataSubjectRequest.status r) /\
       reviewed d k DataSubjectRequestRepresentativeStatus.VERIFIED (Some reviewer) None rc
         AuditAction.DATA_SUBJECT_REQUEST_REPRESENTATIVE_VERIFIED ctx r' d')
    (not_reviewed ctx d (Some reviewer)) d.
Proof.
  intros Hwf. eapply wp_mono; [by apply wp_verify| |done].
  intros r' d' Hrev. pose proof Hrev as (r & t & n & id & n' & Hr & Hok & -> & _).
  split; [done|]. split; [done|]. split; [by exists r|done].
Qed.

(** C38. Submission is idempotent. A submission under a key ends in one of three ways: the
    key still names a request of the user with the same payload, and that request is returned
    and nothing written; the key names none, and one request and one event are created; or it
    is refused, and when an acceptable one is, that is since the key names a request of
    another payload (or the database refuses the new rows). Once a request was created at
    [t], whatever the same user then submits under the key within its 24 hours, in any audit
    context, is decided by the payload: with the same text the request is returned, with a
    text of another digest (also than that of a request from before there were
    representatives) it is refused with a conflict, and nothing is changed either way. *)
Theorem submit_request_idempotent s now_arg ctx d :
  wf d -> is_Some (users d !! by_user s) -> is_Some (key s) ->
  wp (submit s now_arg ctx)
    (fun r d' => exists ty v t, accepted d s ty v /\ reference now_arg t /\
       (replayed d s ty v t r d' \/
        (created d s ty v t ctx r d' /\
         forall s' ty' v' t' ctx', by_user s' = by_user s -> key s' = key s -> accepted d s' ty' v' ->
           t <= t' < t + hours IDEMPOTENCY_KEY_TTL_HOURS ->
           (fingerprint_source ty' (note s') v' = fingerprint_source ty (note s) v ->
            wp (submit s' (Some t') ctx') (fun r' d'' => r' = r /\ d'' = d') (fun _ => False) d') /\
           (~ same_payload r s' ty' v' ->
            wp (submit s' (Some t') ctx') (fun _ _ => False) (fun e => e = key_taken) d'))))
    (fun e => (app_error e /\ forall ty v, ~ accepted d s ty v) \/
       (e = key_taken /\ exists h ty v t r, key_hash s = Some h /\ accepted d s ty v /\
          reference now_arg t /\ names d (by_user s) h t r /\ ~ same_payload r s ty v) \/
       (e = IntegrityError /\ (request_id_taken d \/ audit_blocked ctx d))) d.
Proof.
  intros Hwf Hu Hkey. apply wp_submit; [done|done|auto| |auto|].
  { intros h ty v t r *. right; left. split; [done|]. by exists h, ty, v, t, r. }
  intros ty v t r d' Hacc Ht Hq. exists ty, v, t. split; [done|]. split; [done|].
  destruct Hq as [Hq|Hq]; [by left|]. right. split; [done|].
  intros s' ty' v' t' ctx' Hby Hks Hacc' Ht'.
  pose proof (wp_submit_again d s s' ty ty' v v' t t' ctx ctx' r d' Hu Hby Hks Hkey Hq Hacc' Ht') as Hw.
  pose proof (created_payload _ _ _ _ _ _ _ _ Hkey Hq) as Hfp. split.
  - intros Hsame. eapply wp_mono; [exact Hw|by intros r' d'' [_ ?]|].
    intros e [Hn _]. apply Hn. left. by rewrite Hsame.
  - intros Hn. eapply wp_mono; [exact Hw|by intros r' d'' [? _]|by intros e [_ ?]].
Qed.

(** A submission with another statement of the representative's authority. *)
Definition restated (rel auth : string) (s : Submission) : Submission :=
  mkSubmission (by_user s) (type_text s) (note s) (subject s) (role_text s) (Some rel) (Some auth) (key s).

Definition representing (u : UUID) (rel auth : string) : IntakeValues :=
  mkIntakeValues u DataSubjectRequestRequesterRole.AUTHORISED_REPRESENTATIVE
    DataSubjectRequestRepresentativeStatus.PENDING_VERIFICATION (Some rel) (Some auth).

Lemma fingerprint_ambiguous ty n u :
  fingerprint_source ty n (representing u "a|representative_authority_note=b" "c")
  = fingerprint_source ty n (representing u "a" "b|representative_authority_note=c").
Proof.
  unfold fingerprint_source, Text.join. cbn [String.concat representing subject_user_id requester_role
    representative_relationship representative_authority_note or_empty default].
  generalize (DataSubjectRequestType.value ty), (or_empty n), (Uuid.str u). intros x y z.
  reflexivity.
Qed.

(** What accepting a restated representative submission comes down to. *)
Lemma accepted_restated d s rel auth ty v :
  role_text s = "authorised_representative"%string ->
  _normalise_optional_text (Some rel) = Some rel -> _normalise_optional_text (Some auth) = Some auth ->
  accepted d (restated rel auth s) ty v <->
  DataSubjectRequestType.of_value (type_text s) = Some ty /\
  match note s with None => True | Some n => too_long REQUESTER_NOTE_MAX_LENGTH n = false end /\
  key_safe (_normalise_idempotency_key (key s)) = true /\
  exists u, subject s = Some u /\ u <> by_user s /\
    too_long REPRESENTATIVE_RELATIONSHIP_MAX_LENGTH rel = false /\
    too_long REPRESENTATIVE_AUTHORITY_NOTE_MAX_LENGTH auth = false /\
    is_Some (users d !! u) /\ v = representing u rel auth.
Proof.
  intros Hrole Hrel Hauth. unfold accepted, restated.
  cbn [by_user type_text note subject role_text relationship authority_note key].
  rewrite Hrel, Hauth, Hrole. split.
  - intros (? & ? & ? & role & [= <-] & Hv & Hs). do 3 (split; [done|]).
    cbn [intake] in Hv. destruct (subject s) as [u|]; [|done]. exists u.
    destruct (decide (u = by_user s)) as [|Hne]; [by rewrite bool_decide_false in Hv by auto|].
    rewrite bool_decide_true in Hv by done.
    destruct (too_long _ rel); [done|]. destruct (too_long _ auth); [done|].
    injection Hv as <-. do 4 (split; [done|]). split; [by apply Hs|done].
  - intros (? & ? & ? & u & -> & Hne & Hl & Hl' & Hu & ->). do 3 (split; [done|]).
    exists DataSubjectRequestRequesterRole.AUTHORISED_REPRESENTATIVE. split; [done|].
    cbn [intake]. rewrite bool_decide_true, Hl, Hl' by done. by split.
Qed.

(** The fingerprint of a submission does not separate its fields: the two
    representative submissions below differ in the relationship and in the
    authority they state, and still the second one, sent under the key of the
    first, is answered with the first one's request instead of a conflict. *)
Theorem ambiguous_payload_replayed s now_arg ctx d :
  let first := restated "a|representative_authority_note=b" "c" s in
  let second := restated "a" "b|representative_authority_note=c" s in
  wf d -> is_Some (users d !! by_user s) -> is_Some (key s) ->
  role_text s = "authorised_representative"%string ->
  wp (submit first now_arg ctx)
    (fun r d' => forall ty v t, created d first ty v t ctx r d' -> accepted d first ty v ->
       forall t' ctx', t <= t' < t + hours IDEMPOTENCY_KEY_TTL_HOURS ->
         wp (submit second (Some t') ctx')
           (fun r' d'' => r' = r /\ d'' = d' /\
              DataSubjectRequest.representative_relationship r' <> relationship second)
           (fun _ => False) d')
    any_exn d.
Proof.
  intros first second Hwf Hu Hkey Hrole. apply wp_submit; [done|done|done|done|done|].
  intros _ _ _ r d' _ _ _ ty v t Hc Hacc t' ctx' Ht'.
  pose proof Hacc as Hacc1. apply accepted_restated in Hacc1; [|done|reflexivity..].
  destruct Hacc1 as (Hty & Hnote & Hk & u & Hsub & Hne & _ & _ & Hs & ->).
  assert (Hacc' : accepted d second ty (representing u "a" "b|representative_authority_note=c")).
  { apply accepted_restated; [done|reflexivity..|]. do 3 (split; [done|]). by exists u. }
  eapply wp_mono; [eapply (wp_submit_again d first second ty ty _ _ t t' ctx);
    [done|done|done|done|exact Hc|exact Hacc'|done]|..].
  - intros r' d'' (_ & -> & ->). split; [done|]. split; [done|].
    destruct Hc as (_ & id & c1 & c2 & eid & n & _ & -> & _). simpl. by intros [=].
  - intros e [Hn _]. apply Hn. left. change (note second) with (note first).
    rewrite (created_payload _ _ _ _ _ _ _ _ Hkey Hc). by rewrite fingerprint_ambiguous.
Qed.

(** An accepted idempotency key holds no email address, in either case: no part
    of its lower-case text reads as a local part, an at sign, a host, a dot and
    a top-level domain of two letters or more. *)
Theorem accepted_key_holds_no_email s d ty v k before l h tld after :
  accepted d s ty v -> key s = Some k ->
  Text.lower (Text.strip k) = (before ++ (l ++ "@" ++ h ++ "." ++ tld) ++ after)%string ->
  Text.forallb_chars (fun x => word x || one_of "._%+-" x) l = true -> l <> ""%string ->
  Text.forallb_chars (fun x => word x || one_of ".-" x) h = true -> h <> ""%string ->
  Text.forallb_chars (in_range "a" "z") tld = true -> (2 <= String.length tld)%nat -> False.
Proof.
  intros (_ & _ & Hk & _) Hkey E Hl Hl0 Hh Hh0 Ht Ht2. rewrite Hkey in Hk. simpl in Hk.
  rewrite Text.strip_idem in Hk.
  assert (search _EMAIL_LIKE_PATTERN (Text.lower (Text.strip k)) = true) as Hs.
  { apply search_spec. exists before, (l ++ "@" ++ h ++ "." ++ tld)%string, after. split; [done|].
    apply lang_cat; [by apply lang_plus_chr|]. apply (lang_cat _ _ "@"); [apply lang_literal|].
    apply lang_cat; [by apply lang_plus_chr|]. apply (lang_cat _ _ "."); [apply lang_literal|].
    by apply lang_at_least. }
  rewrite Hs in Hk. by rewrite !andb_false_r in Hk.
Qed.

(** A caller whose identity was never provisioned as a user cannot submit a
    data-subject request: the handler reads [user.id] of [None], so the request
    ends in an internal error instead of a refusal, and commits nothing. *)
Theorem unprovisioned_submission_fails c p k d :
  wf d ->
  (forall i u, users d !! i = Some u ->
     User.external_auth_id u <> AuthenticatedPrincipal.external_auth_id (identity c)) ->
  commits (DataSubjectRequestsApi.submit_data_subject_request c p k) (fun _ _ => False)
    (fun e => (exists i, rate_limit c i = Err e) \/ e = OtherError "AttributeError") d.
Proof.
  intros Hwf Hno. apply commits_rate_limited; [|by eauto].
  apply commits_begin, wp_bind, wp_bind, wp_get_by_external_auth_id; [done|..].
  - intros u Hu Hx. by destruct (Hno _ u Hu).
  - intros _. apply wp_bind, wp_raise. by right.
Qed.

End Properties.

(** ** Witnesses *)
Module Witness.
Import Fixtures PlatformProofs.Witness.
Import DataSubjectRequestService.

Definition runs {A} (m : M Db A) : bool :=
  match (m (mkWorld db NoTx 0)).1 with Ok _ => true | Err _ => false end.

Lemma transition_status_spec_witness :
  runs (begin (transition_status 61 DataSubjectRequestStatus.APPROVED (Some 6%N) (context 6) None None)) = true /\
  wp (transition_status 61 DataSubjectRequestStatus.APPROVED (Some 6%N) (context 6) None None)
    (fun r' _ => approvable r') any_exn db.
Proof.
  split; [vm_compute; reflexivity|].
  eapply wp_mono; [apply (transition_status_spec 61 DataSubjectRequestStatus.APPROVED (Some 6%N) None None
    (context 6) db db_wf)| |done].
  intros r' d' (_ & _ & Ha & _). by apply Ha.
Defined.

Lemma fulfil_platform_data_subject_request_spec_witness :
  runs (PlatformDataSubjectRequestsApi.fulfil_platform_data_subject_request (call "root") 62) = true /\
  commits (PlatformDataSubjectRequestsApi.fulfil_platform_data_subject_request (call "root") 62)
    (fun r' _ => DataSubjectRequest.reviewer_user_id r' = None) any_exn db.
Proof.
  split; [vm_compute; reflexivity|].
  eapply commits_mono; [apply (fulfil_platform_data_subject_request_spec (call "root") 62 db db_wf)| |done].
  intros r' d' (a & _ & r & i & Hr & _ & _ & r0 & t & n & id & n' & act & _ & _ & -> & _).
  vm_compute in Hr. injection Hr as <-. reflexivity.
Defined.

Lemma verify_representative_authority_spec_witness :
  wp (verify_representative_authority 61 6 None (context 6) None) (fun _ _ => False) any_exn db.
Proof.
  eapply wp_mono; [apply (verify_representative_authority_spec 61 6 None None (context 6) db db_wf)| |done].
  intros r' d' (_ & _ & (r & Hr & [Hrole _] & _) & _).
  vm_compute in Hr. injection Hr as <-. discriminate Hrole.
Defined.

(** Carol asks for an export, or on behalf of Dave. *)
Definition export_request (key : option string) : Submission :=
  mkSubmission 3 "export" None None "self" None None key.

Definition for_dave : Submission :=
  mkSubmission 3 "export" None (Some 4%N) "authorised_representative" None None (Some "req-1"%string).

Lemma submit_request_idempotent_witness :
  runs (begin (submit (export_request (Some "req-1"%string)) None (context 3))) = true /\
  wp (submit (export_request (Some "req-1"%string)) None (context 3))
    (fun r _ => DataSubjectRequest.requester_user_id r = Some 3%N) any_exn db.
Proof.
  split; [vm_compute; reflexivity|].
  eapply wp_mono; [apply (submit_request_idempotent (export_request (Some "req-1"%string)) None (context 3) db db_wf)| |done].
  - vm_compute. by eexists.
  - by eexists.
  - intros r d' (ty & v & t & _ & _ & [[_ (h & _ & Hr & _)]|[(_ & id & c & c' & eid & n & _ & -> & _) _]]); [|done].
    by destruct Hr as (_ & -> & _).
Defined.

Lemma ambiguous_payload_replayed_witness :
  runs (begin (submit (restated "a|representative_authority_note=b" "c" for_dave) (Some t0) (context 3) ;;
               submit (restated "a" "b|representative_authority_note=c" for_dave) (Some t0) (context 3)))
  = true /\
  wp (submit (restated "a|representative_authority_note=b" "c" for_dave) (Some t0) (context 3))
    (fun _ _ => True) any_exn db.
Proof.
  split; [vm_compute; reflexivity|].
  eapply wp_mono; [apply (ambiguous_payload_replayed for_dave (Some t0) (context 3) db db_wf)|done..].
  - vm_compute. by eexists.
  - by eexists.
  - reflexivity.
Defined.

Lemma accepted_key_holds_no_email_witness :
  accepted db (export_request (Some "req-1"%string)) DataSubjectRequestType.EXPORT
    (mkIntakeValues 3 DataSubjectRequestRequesterRole.SELF
       DataSubjectRequestRepresentativeStatus.NOT_REQUIRED None None) /\
  ~ accepted db (export_request (Some "to:Eve@example.org"%string)) DataSubjectRequestType.EXPORT
      (mkIntakeValues 3 DataSubjectRequestRequesterRole.SELF
         DataSubjectRequestRepresentativeStatus.NOT_REQUIRED None None).
Proof.
  split.
  - split; [reflexivity|]. split; [done|]. split; [vm_compute; reflexivity|].
    exists DataSubjectRequestRequesterRole.SELF. split; [reflexivity|]. split; [reflexivity|done].
  - intros Hacc. eapply (accepted_key_holds_no_email _ _ _ _ "to:Eve@example.org" "to:" "eve" "example" "org" ""
      Hacc eq_refl); try (vm_compute; reflexivity); try discriminate. simpl. lia.
Defined.

Lemma unprovisioned_submission_fails_witness :
  commits (DataSubjectRequestsApi.submit_data_subject_request (call "zoe")
      (DataSubjectRequestsApi.mkPayload DataSubjectRequestType.EXPORT None None
         DataSubjectRequestRequesterRole.SELF None None) None)
    (fun _ _ => False)
    (fun e => (exists i, ok_limit i = Err e) \/ e = OtherError "AttributeError") db.
Proof.
  apply unprovisioned_submission_fails; [exact db_wf|].
  intros i u Hu Hx. apply elem_of_map_to_list in Hu. vm_compute in Hu. apply list_elem_of_In in Hu.
  repeat (destruct Hu as [Hu|Hu]; [injection Hu as _ <-; vm_compute in Hx; discriminate Hx|]). done.
Defined.

End Witness.
