(* ===== verification/SubjectExportProofs.v ===== *)
(** What an export holds: every selected row once and in order, whatever the pages; the
    stream is the text of the document; what is withheld never shows. *)
From S2P Require Import Prelude Errors Session Schema Tables AuditLog Users Invites Outbox.
From S2P Require Import SubjectExports PrivacyInventory Fixtures.
Import ProviderBase SubjectData SubjectDataStream.

(** ** Pages *)
Section Pages.
Context {X : Type}.
Variables (sort_value : X -> Z) (id : X -> UUID).
Implicit Types (x y : X) (l pre post : list X).

Notation key := (keyset sort_value id).
Notation sorted := (merge_sort (ordered_by key)).
Notation distinct l := (NoDup (id <$> l)).

Lemma ordered_spec x y :
  ordered_by key x y <->
  sort_value x < sort_value y \/ (sort_value x = sort_value y /\ (id x <= id y)%N).
Proof.
  unfold ordered_by, keyset. simpl. rewrite orb_true_iff, andb_true_iff, Z.ltb_lt, Z.eqb_eq.
  rewrite orb_true_iff, andb_true_iff, Z.ltb_lt, Z.eqb_eq. lia.
Qed.

#[local] Instance ordered_trans : Transitive (ordered_by key).
Proof. intros x y z. rewrite !ordered_spec. lia. Qed.

#[local] Instance ordered_total : Total (ordered_by key).
Proof. intros x y. rewrite !ordered_spec. lia. Qed.

Lemma after_spec x y :
  _after_keyset sort_value id (sort_value y, id y) x = true <->
  ordered_by key y x /\ id x <> id y \/ sort_value y < sort_value x.
Proof.
  rewrite ordered_spec. unfold _after_keyset. simpl.
  rewrite orb_true_iff, andb_true_iff, Z.ltb_lt, Z.eqb_eq, N.ltb_lt. lia.
Qed.

Lemma not_after x y :
  ordered_by key x y -> _after_keyset sort_value id (sort_value y, id y) x = false.
Proof.
  rewrite ordered_spec. intros Hxy. apply not_true_iff_false. rewrite after_spec, ordered_spec. lia.
Qed.

(** Sorting is the only order of a list with distinct keys. *)
Lemma sorted_unique l l' :
  distinct l -> StronglySorted (ordered_by key) l' -> l' ≡ₚ l -> sorted l = l'.
Proof.
  intros Hd Hs Hl. apply (StronglySorted_unique_strong (ordered_by key)).
  - intros x y Hx Hy. rewrite !ordered_spec. intros Hxy Hyx.
    rewrite merge_sort_Permutation in Hx. rewrite Hl in Hy.
    apply list_elem_of_lookup in Hx as [i Hi], Hy as [j Hj].
    assert (i = j) as ->; [|congruence].
    eapply (NoDup_lookup _ _ _ _ Hd); rewrite list_lookup_fmap; [by rewrite Hi|]. rewrite Hj. simpl.
    f_equal. lia.
  - by apply StronglySorted_merge_sort; apply _.
  - done.
  - by rewrite merge_sort_Permutation, Hl.
Qed.

Lemma distinct_filter p l : distinct l -> distinct (List.filter p l).
Proof.
  induction l as [|x l IH]; simpl; [done|]. intros [Hx Hl]%NoDup_cons.
  destruct (p x); simpl; [|by apply IH]. apply NoDup_cons. split; [|by apply IH].
  intros (y & Hy & Hin)%list_elem_of_fmap. apply Hx. rewrite Hy. apply list_elem_of_fmap_2.
  apply list_elem_of_In, filter_In in Hin as [Hin _]. by apply list_elem_of_In.
Qed.

Lemma filter_sorted p l : StronglySorted (ordered_by key) l -> StronglySorted (ordered_by key) (List.filter p l).
Proof.
  induction 1 as [|x l _ IH Hx]; simpl; [constructor|]. destruct (p x); [|done].
  constructor; [done|]. apply Forall_forall. intros y Hy. rewrite Forall_forall in Hx. apply Hx.
  apply list_elem_of_In, filter_In in Hy as [Hy _]. by apply list_elem_of_In.
Qed.

Lemma filter_perm (p : X -> bool) l l' : l ≡ₚ l' -> List.filter p l ≡ₚ List.filter p l'.
Proof.
  induction 1 as [|x l l' _ IH|x y l|l l' l'' _ IH _ IH']; simpl; [done|..].
  - by destruct (p x); [apply Permutation_cons|].
  - destruct (p x), (p y); try done. apply Permutation_swap.
  - by etrans.
Qed.

Lemma sorted_filter p l : distinct l -> sorted (List.filter p l) = List.filter p (sorted l).
Proof.
  intros Hd. apply sorted_unique; [by apply distinct_filter|..].
  - apply filter_sorted. by apply StronglySorted_merge_sort; apply _.
  - apply filter_perm. by rewrite merge_sort_Permutation.
Qed.

Lemma filter_none (p : X -> bool) l : Forall (fun x => p x = false) l -> List.filter p l = [].
Proof. induction 1 as [|x l Hx _ IH]; simpl; [done|]. by rewrite Hx. Qed.

Lemma filter_all (p : X -> bool) l : Forall (fun x => p x = true) l -> List.filter p l = l.
Proof. induction 1 as [|x l Hx _ IH]; simpl; [done|]. by rewrite Hx, IH. Qed.

(** What comes after the last row of a prefix is the rest. *)
Lemma after_prefix pre post :
  StronglySorted (ordered_by key) (pre ++ post) -> distinct (pre ++ post) ->
  List.filter (after_last sort_value id ((fun y => (sort_value y, id y)) <$> last pre)) (pre ++ post) = post.
Proof.
  intros Hs Hd. destruct pre as [|y pre _] using rev_ind; [by apply filter_all, Forall_true|].
  rewrite last_snoc. simpl. rewrite List.filter_app, filter_none, filter_all; [done|..].
  - apply Forall_forall. intros x Hx. apply after_spec. left.
    split; [apply (StronglySorted_app_1_elem_of _ _ _ _ _ Hs); set_solver|].
    intros Hxy. rewrite fmap_app in Hd. apply NoDup_app in Hd as (_ & Hd & _).
    apply (Hd (id y)); [set_solver|]. rewrite <- Hxy. set_solver.
  - apply Forall_forall. intros x Hx. apply not_after.
    apply StronglySorted_app_1_l in Hs. apply elem_of_app in Hx as [Hx|Hx].
    + apply (StronglySorted_app_1_elem_of _ _ _ _ _ Hs); set_solver.
    + apply list_elem_of_singleton in Hx as ->. rewrite ordered_spec. lia.
Qed.

(** The loop hands out the selected rows, all of them, in order. *)
Section Loop.
Variables (fetch : option (Z * UUID) -> nat -> M Db (list X)) (rows : list X) (d : Db) (E : exn -> Prop).
Hypothesis fetch_page : forall last_key n (Q : list X -> Db -> Prop),
  Q (_keyset_page sort_value id last_key n rows) d -> wp (fetch last_key n) Q E d.
Hypothesis rows_distinct : distinct rows.

Lemma wp_pages_from fuel pre post n (Q : option (list X) -> Db -> Prop) :
  sorted rows = pre ++ post -> (0 < n)%nat -> (length post < fuel)%nat -> Q (Some post) d ->
  wp (keyset_pages sort_value id fetch fuel ((fun y => (sort_value y, id y)) <$> last pre) n) Q E d.
Proof.
  revert pre post Q. induction fuel as [|fuel IH]; intros pre post Q Hrows Hn Hfuel HQ; [lia|].
  simpl. apply wp_bind, fetch_page. unfold _keyset_page.
  assert (Hs : StronglySorted (ordered_by key) (pre ++ post))
    by (rewrite <- Hrows; apply StronglySorted_merge_sort; apply _).
  assert (Hd : distinct (pre ++ post)).
  { rewrite <- Hrows. by rewrite merge_sort_Permutation. }
  rewrite sorted_filter, Hrows, after_prefix by done.
  destruct (last (take n post)) as [y|] eqn:Hlast.
  - apply wp_bind. rewrite <- (take_drop n post) in Hrows. rewrite app_assoc in Hrows.
    assert (Hy : last (pre ++ take n post) = Some y) by (rewrite last_app, Hlast; done).
    specialize (IH (pre ++ take n post) (drop n post)). rewrite Hy in IH. apply IH; [done..| |].
    + rewrite length_drop. destruct post; simpl in *; [by rewrite take_nil in Hlast|lia].
    + apply wp_ret. simpl. by rewrite take_drop.
  - apply wp_ret. apply last_None in Hlast. destruct post as [|x post]; [done|].
    by destruct n; [lia|].
Qed.

Lemma wp_all_pages size batch_size (Q : list X -> Db -> Prop) :
  (length rows <= size)%nat -> Q (sorted rows) d ->
  wp (all_pages sort_value id fetch size batch_size) Q E d.
Proof.
  intros Hsize HQ. apply wp_bind. apply (wp_pages_from _ [] (sorted rows)); [done|..].
  - destruct batch_size as [[|n]|]; simpl; unfold _EXPORT_PROVIDER_BATCH_SIZE; lia.
  - rewrite merge_sort_Permutation. lia.
  - by apply wp_ret.
Qed.
End Loop.

End Pages.

(** ** The two iterators *)
Section Iterators.
Context {R : Type} `{TableLaws R}.
Implicit Types (P : R -> bool) (d : Db) (sort_value : R -> Z).

(** The selected rows in the order of the key. *)
Definition in_order P sort_value d : list R :=
  merge_sort (ordered_by (keyset sort_value pk)) (rows_where d P).

(** Every row stands under its primary key. *)
Definition keyed d : Prop := map_Forall (fun k r => pk r = k) (rows d).

Lemma wf_keyed d : wf d -> keyed d.
Proof. intros Hwf k r Hr. by eapply wf_pk. Qed.

Lemma elem_of_keyed P d r : keyed d -> r ∈ rows_where d P -> P r = true /\ rows d !! pk r = Some r.
Proof.
  intros Hk Hr. apply elem_of_rows_where in Hr as [HP [k Hr]]. split; [done|]. by rewrite (Hk k r Hr).
Qed.

Lemma rows_where_distinct P d : keyed d -> NoDup (pk <$> rows_where d P).
Proof.
  intros Hk. unfold rows_where.
  assert (HN : NoDup (pk <$> (map_to_list (rows d)).*2)).
  { rewrite <- list_fmap_compose. apply NoDup_fmap_2_strong; [|apply NoDup_map_to_list].
    intros [k r] [k' r'] Hr%elem_of_map_to_list Hr'%elem_of_map_to_list; simpl.
    rewrite (Hk k r Hr), (Hk k' r' Hr'). intros ->. congruence. }
  by apply distinct_filter.
Qed.

Lemma rows_where_size P d : (length (rows_where d P) <= size (rows d))%nat.
Proof.
  unfold rows_where. etrans; [apply List.filter_length_le|].
  by rewrite length_fmap, length_map_to_list.
Qed.

Lemma rows_where_pk P d k :
  keyed d -> (forall r, P r = bool_decide (pk r = k)) ->
  rows_where d P = match rows d !! k with Some r => [r] | None => [] end.
Proof.
  intros Hk HP. pose proof (rows_where_distinct P d Hk) as HN.
  assert (Hin : forall r, r ∈ rows_where d P <-> rows d !! k = Some r).
  { intros r. rewrite elem_of_rows_where, HP, bool_decide_eq_true. split.
    - intros [<- [j Hr]]. by rewrite (Hk j r Hr).
    - intros Hr. rewrite (Hk k r Hr). eauto. }
  destruct (rows_where d P) as [|r [|r' l]].
  - destruct (rows d !! k) as [r|]; [|done]. specialize (Hin r). set_solver.
  - by rewrite (proj1 (Hin r)) by set_solver.
  - assert (Hr : rows d !! k = Some r) by (apply Hin; set_solver).
    assert (Hr' : rows d !! k = Some r') by (apply Hin; set_solver).
    rewrite Hr in Hr'. injection Hr' as ->. rewrite !fmap_cons in HN.
    apply NoDup_cons in HN as [HN _]. set_solver.
Qed.

Lemma filter_and (p q : R -> bool) l : List.filter q (List.filter p l) = List.filter (fun x => p x && q x) l.
Proof.
  induction l as [|x l IH]; simpl; [done|]. destruct (p x); simpl; [|done]. by destruct (q x); rewrite IH.
Qed.

Lemma wp_iter_model_keyset P sort_value batch_size (Q : list R -> Db -> Prop) E d :
  keyed d -> Q (in_order P sort_value d) d -> wp (_iter_model_keyset P sort_value batch_size) Q E d.
Proof.
  intros Hwf HQ. apply wp_bind, wp_get_db, (wp_all_pages _ _ _ (rows_where d P)).
  - intros last_key n Q' HQ'. apply wp_bind, wp_select, wp_ret. unfold _keyset_page in HQ'.
    unfold rows_where in *. by rewrite filter_and in HQ'.
  - by apply rows_where_distinct.
  - apply rows_where_size.
  - exact HQ.
Qed.

End Iterators.

Section Joined.
Context {R : Type} `{TableLaws R}.
Variables (purpose_id : R -> UUID) (sort_value : R -> Z).
Implicit Types (P : R -> bool) (d : Db).

(** The rows of a model, each with the purpose it names. *)
Definition with_purpose d (r : R) : option (R * ProcessingPurpose.t) :=
  pair r <$> processing_purposes d !! purpose_id r.

Lemma with_purposes_spec (l : list R) d :
  keyed (R := ProcessingPurpose.t) d -> with_purposes purpose_id l d = omap (with_purpose d) l.
Proof.
  intros Hwf. unfold with_purposes, with_purpose. induction l as [|r l IH]; [done|].
  rewrite bind_cons, IH, (rows_where_pk (R := ProcessingPurpose.t) _ d (purpose_id r)) by done. simpl.
  by destruct (processing_purposes d !! purpose_id r).
Qed.

Definition joined_in_order P d : list (R * ProcessingPurpose.t) :=
  omap (with_purpose d) (in_order P sort_value d).

Lemma joined_distinct d l :
  NoDup (pk <$> l) -> NoDup ((fun row => pk row.1) <$> omap (with_purpose d) l).
Proof.
  induction l as [|r l IH]; simpl; [constructor|]. intros [Hr Hl]%NoDup_cons.
  unfold with_purpose at 1. destruct (processing_purposes d !! purpose_id r) as [p|]; simpl; [|by apply IH].
  apply NoDup_cons. split; [|by apply IH]. intros ([r' p'] & Hk & Hin)%list_elem_of_fmap. apply Hr.
  apply list_elem_of_omap in Hin as (x & Hx & Hw). unfold with_purpose in Hw.
  destruct (processing_purposes d !! purpose_id x); [|done]. injection Hw as -> _.
  apply list_elem_of_fmap. by exists r'.
Qed.

Lemma joined_sorted d l :
  StronglySorted (ordered_by (keyset sort_value pk)) l ->
  StronglySorted (ordered_by (keyset (fun row => sort_value row.1) (fun row => pk row.1)))
    (omap (with_purpose d) l).
Proof.
  induction 1 as [|r l _ IH Hr]; simpl; [constructor|].
  unfold with_purpose at 1. destruct (processing_purposes d !! purpose_id r) as [p|]; simpl; [|done].
  constructor; [done|]. apply Forall_forall. intros [r' p'] Hin.
  apply list_elem_of_omap in Hin as (x & Hx & Hw). unfold with_purpose in Hw.
  destruct (processing_purposes d !! purpose_id x); [|done]. injection Hw as -> _.
  rewrite Forall_forall in Hr. exact (Hr r' Hx).
Qed.

Lemma omap_perm {A B} (f : A -> option B) l l' : l ≡ₚ l' -> omap f l ≡ₚ omap f l'.
Proof.
  induction 1 as [|x l l' _ IH|x y l|l l' l'' _ IH _ IH']; simpl; [done|..].
  - by destruct (f x); [apply Permutation_cons|].
  - destruct (f x), (f y); try done. apply Permutation_swap.
  - by etrans.
Qed.

Lemma omap_length {A B} (f : A -> option B) l : (length (omap f l) <= length l)%nat.
Proof.
  induction l as [|x l IH]; [done|].
  change (length (match f x with Some y => y :: omap f l | None => omap f l end) <= S (length l))%nat.
  destruct (f x); cbn [List.length]; lia.
Qed.

Lemma wp_iter_row_keyset P batch_size (Q : list (R * ProcessingPurpose.t) -> Db -> Prop) E d :
  keyed (R := R) d -> keyed (R := ProcessingPurpose.t) d -> Q (joined_in_order P d) d -> wp (_iter_row_keyset P purpose_id sort_value batch_size) Q E d.
Proof.
  intros Hk Hkp HQ. apply wp_bind, wp_get_db.
  assert (Hd : NoDup ((fun row => pk row.1) <$> with_purposes purpose_id (rows_where d P) d)).
  { rewrite with_purposes_spec by done. by apply joined_distinct, rows_where_distinct. }
  apply (wp_all_pages _ _ _ (with_purposes purpose_id (rows_where d P) d)); [| exact Hd| |].
  - intros last_key n Q' HQ'. by apply wp_bind, wp_get_db, wp_ret.
  - rewrite with_purposes_spec by done. etrans; [|apply (rows_where_size P)].
    apply omap_length.
  - rewrite (sorted_unique _ _ _ (joined_in_order P d)); [done|exact Hd|..].
    + apply joined_sorted, StronglySorted_merge_sort; [apply ordered_trans|apply ordered_total].
    + rewrite with_purposes_spec by done. apply omap_perm, merge_sort_Permutation.
Qed.

End Joined.

(** ** The exporter only reads *)
Section Reads.
Implicit Types (I : Db -> Prop) (E : exn -> Prop).

Lemma keeps_keyset_pages {X} I (sort_value : X -> Z) id fetch fuel last_key n :
  (forall k n, keeps I (fetch k n)) -> keeps I (keyset_pages sort_value id fetch fuel last_key n).
Proof.
  intros Hf. revert last_key. induction fuel as [|fuel IH]; intros last_key; [apply keeps_ret|].
  simpl. apply keeps_bind; [done|]. intros rows. destruct (last rows); [|apply keeps_ret].
  apply keeps_bind; [done|]. intros rest. apply keeps_ret.
Qed.

Lemma keeps_iter_model_keyset {R} `{Table R} I (P : R -> bool) sort_value n :
  keeps I (_iter_model_keyset P sort_value n).
Proof.
  apply keeps_bind; [apply keeps_get_db|]. intros d. apply keeps_bind; [|intros; apply keeps_or_raise].
  apply keeps_keyset_pages. keeps_solve.
Qed.

Lemma keeps_iter_row_keyset {R} `{Table R} I (P : R -> bool) purpose_id sort_value n :
  keeps I (_iter_row_keyset P purpose_id sort_value n).
Proof.
  apply keeps_bind; [apply keeps_get_db|]. intros d. apply keeps_bind; [|intros; apply keeps_or_raise].
  apply keeps_keyset_pages. keeps_solve.
Qed.

#[local] Hint Resolve keeps_iter_model_keyset keeps_iter_row_keyset : keeps.

Lemma keeps_providers I context :
  Forall (fun p => keeps I (iter_export_records p context)) _EXPORT_PROVIDER_TYPES.
Proof. unfold _EXPORT_PROVIDER_TYPES. repeat (constructor; [simpl; keeps_solve|]). constructor. Qed.

Definition export_error E : Prop := forall code, E (SubjectDataExportError code).

Lemma provider_failure_error E e : export_error E -> E (provider_failure e).
Proof. intros HE. unfold provider_failure. repeat case_match; subst; apply HE. Qed.

Lemma wp_stream_any E context ps i s d :
  export_error E -> Forall (fun p => keeps (eq d) (iter_export_records p context)) ps ->
  wp (stream_providers context i ps s) (fun _ => eq d) E d.
Proof.
  intros HE Hps. revert i s. induction Hps as [|p ps Hp _ IH]; intros i s; [by apply wp_ret|].
  apply wp_bind, wp_bind, wp_translated. eapply wp_mono; [by apply Hp| |].
  - intros records d' <-. apply wp_ret, IH.
  - intros e _. by apply provider_failure_error.
Qed.

Lemma wp_chunks context (Q : list string -> Db -> Prop) E d :
  (forall chunks, Q chunks d) -> export_error E -> wp (iter_subject_export_json_chunks context) Q E d.
Proof.
  intros HQ HE. apply wp_bind, wp_or_raise; [intros _; apply HE|]. intros u _. cbv zeta.
  apply wp_bind. eapply wp_mono; [apply wp_stream_any; [exact HE|apply keeps_providers]| |done].
  intros s d' <-. by apply wp_ret.
Qed.

Lemma keeps_chunks I context : keeps I (iter_subject_export_json_chunks context).
Proof. intros d Hd. by apply wp_chunks. Qed.

Lemma raises_chunks E context : export_error E -> raises E (iter_subject_export_json_chunks context).
Proof. intros HE d. by apply wp_chunks. Qed.

End Reads.

#[export] Hint Resolve keeps_chunks : keeps.
#[export] Hint Resolve raises_chunks : raises.

(** ** The records of an export *)

Record keyed_db (d : Db) : Prop := {
  keyed_users : keyed (R := User.t) d;
  keyed_memberships : keyed (R := Membership.t) d;
  keyed_organisations : keyed (R := Organisation.t) d;
  keyed_invites : keyed (R := Invite.t) d;
  keyed_outbox : keyed (R := OutboxEvent.t) d;
  keyed_audit : keyed (R := AuditEvent.t) d;
  keyed_staff : keyed (R := PlatformStaff.t) d;
  keyed_requests : keyed (R := DataSubjectRequest.t) d;
  keyed_artifacts : keyed (R := ExportArtifact.t) d;
  keyed_purposes : keyed (R := ProcessingPurpose.t) d;
  keyed_authorizations : keyed (R := DataProcessingAuthorization.t) d;
  keyed_consents : keyed (R := ConsentRecord.t) d;
  keyed_acceptances : keyed (R := PrivacyNoticeAcceptance.t) d;
}.

Lemma wf_keyed_db d : wf d -> keyed_db d.
Proof. intros Hwf. split; by apply wf_keyed. Qed.

#[local] Hint Resolve keyed_users keyed_memberships keyed_organisations keyed_invites keyed_outbox
  keyed_audit keyed_staff keyed_requests keyed_artifacts keyed_purposes keyed_authorizations
  keyed_consents keyed_acceptances : core.

(** The records of a subject, provider by provider: every selected row, in order. *)
Definition exported (context : PrivacyProviderContext) (d : Db) : list (string * list PrivacyExportRecord) :=
  let u := subject_user_id context in
  let email := subject_email_of (users d !! u) in
  [(UserProfileExportProvider.provider_key,
    from_option (fun x => [UserProfileExportProvider.user_record x]) [] (users d !! u));
   (MembershipsBySubjectExportProvider.provider_key,
    MembershipsBySubjectExportProvider.membership_record <$>
      in_order (MembershipsBySubjectExportProvider.selected u) Membership.created_at d);
   (OrganisationsBySubjectMembershipExportProvider.provider_key,
    OrganisationsBySubjectMembershipExportProvider.organisation_record <$>
      in_order (OrganisationsBySubjectMembershipExportProvider.selected u d) Organisation.created_at d);
   (InvitesBySubjectExportProvider.provider_key,
    InvitesBySubjectExportProvider.record_of context email <$>
      in_order (InvitesBySubjectExportProvider.selected u email) Invite.created_at d);
   (OutboxSubjectReferencesExportProvider.provider_key,
    match email with
    | None => []
    | Some email =>
        OutboxSubjectReferencesExportProvider.outbox_record <$>
          in_order (OutboxSubjectReferencesExportProvider.selected email d) OutboxEvent.created_at d
    end);
   (AuditSubjectEventsExportProvider.provider_key,
    (fun row => AuditSubjectEventsExportProvider._audit_record row context) <$>
      in_order (_audit_subject_conditions u d) AuditEvent.created_at d);
   (PlatformStaffBySubjectExportProvider.provider_key,
    PlatformStaffBySubjectExportProvider.record_of context <$>
      in_order (PlatformStaffBySubjectExportProvider.selected u) PlatformStaff.created_at d);
   (DsrWorkflowRecordsExportProvider.provider_key,
    DsrWorkflowRecordsExportProvider.record_of context <$>
      in_order (DsrWorkflowRecordsExportProvider._subject_workflow_dsr_conditions u)
        DataSubjectRequest.created_at d);
   (ExportArtifactMetadataExportProvider.provider_key,
    ExportArtifactMetadataExportProvider.record_of context <$>
      in_order (ExportArtifactMetadataExportProvider.selected u) ExportArtifact.created_at d);
   (ProcessingAuthorizationsExportProvider.provider_key,
    ProcessingAuthorizationsExportProvider.authorization_record <$>
      joined_in_order DataProcessingAuthorization.purpose_id DataProcessingAuthorization.created_at
        (ProcessingAuthorizationsExportProvider.selected u) d);
   (ConsentRecordsExportProvider.provider_key,
    ConsentRecordsExportProvider.consent_record <$>
      joined_in_order ConsentRecord.purpose_id ConsentRecord.created_at
        (ConsentRecordsExportProvider.selected u) d);
   (PrivacyNoticeAcceptancesExportProvider.provider_key,
    PrivacyNoticeAcceptancesExportProvider.acceptance_record <$>
      in_order (PrivacyNoticeAcceptancesExportProvider.selected u)
        PrivacyNoticeAcceptance.accepted_at d)].

(** The provider hands out these records and leaves the database as it is. *)
Definition hands_out (context : PrivacyProviderContext) d (p : provider)
    (kr : string * list PrivacyExportRecord) : Prop :=
  key_of p = kr.1 /\
  forall (Q : list PrivacyExportRecord -> Db -> Prop) E, Q kr.2 d -> wp (records_of p context) Q E d.

Lemma hands_out_intro context d key iter records :
  (forall (Q : list PrivacyExportRecord -> Db -> Prop) E, Q records d -> wp (iter context) Q E d) ->
  hands_out context d (mkProvider key iter) (key, records).
Proof. intros Hi. split; [done|]. intros Q E HQ. by apply wp_translated, Hi. Qed.

Lemma wp_get_subject_user u (Q : option User.t -> Db -> Prop) E d :
  keyed_db d -> Q (users d !! u) d -> wp (_get_subject_user u) Q E d.
Proof.
  intros Hk HQ. apply wp_bind, wp_select.
  rewrite (rows_where_pk (R := User.t) _ d u) by (done || apply Hk). simpl.
  destruct (users d !! u); by apply wp_ret.
Qed.

Lemma wp_get_subject_email u (Q : option string -> Db -> Prop) E d :
  keyed_db d -> Q (subject_email_of (users d !! u)) d -> wp (_get_subject_email u) Q E d.
Proof. intros Hk HQ. by apply wp_bind, wp_get_subject_user, wp_ret. Qed.

Lemma providers_hand_out context d x :
  keyed_db d -> users d !! subject_user_id context = Some x ->
  Forall2 (hands_out context d) _EXPORT_PROVIDER_TYPES (exported context d).
Proof.
  intros Hk Hx. unfold _EXPORT_PROVIDER_TYPES, exported. cbv zeta.
  repeat (constructor; [apply hands_out_intro; intros Q E HQ|]); [..|constructor].
  - rewrite Hx in HQ. apply wp_bind, wp_get_subject_user; [done|]. rewrite Hx. by apply wp_bind, wp_ret, wp_ret.
  - apply wp_bind, wp_iter_model_keyset; [by auto|]. by apply wp_ret.
  - apply wp_bind, wp_get_db, wp_bind, wp_iter_model_keyset; [by auto|]. by apply wp_ret.
  - apply wp_bind, wp_get_subject_email; [done|]. apply wp_bind, wp_iter_model_keyset; [by auto|]. by apply wp_ret.
  - apply wp_bind, wp_get_subject_email; [done|]. destruct (subject_email_of _); [|by apply wp_ret].
    apply wp_bind, wp_get_db, wp_bind, wp_iter_model_keyset; [by auto|]. by apply wp_ret.
  - apply wp_bind, wp_get_db, wp_bind, wp_iter_model_keyset; [by auto|]. by apply wp_ret.
  - apply wp_bind, wp_iter_model_keyset; [by auto|]. by apply wp_ret.
  - apply wp_bind, wp_iter_model_keyset; [by auto|]. by apply wp_ret.
  - apply wp_bind, wp_iter_model_keyset; [by auto|]. by apply wp_ret.
  - apply wp_bind, wp_iter_row_keyset; [by auto..|]. by apply wp_ret.
  - apply wp_bind, wp_iter_row_keyset; [by auto..|]. by apply wp_ret.
  - apply wp_bind, wp_iter_model_keyset; [by auto|]. by apply wp_ret.
Qed.

(** ** The document and its text *)

Definition data_of (recs : list (string * list PrivacyExportRecord)) : list (string * json) :=
  (fun kr => (kr.1, JArr (_serialise_record <$> kr.2))) <$> recs.

Definition notices_of (recs : list (string * list PrivacyExportRecord)) : list json :=
  recs ≫= fun kr => kr.2 ≫= redaction_notices.

Definition count_of (recs : list (string * list PrivacyExportRecord)) : Z :=
  Z.of_nat (list_sum (length <$> recs.*2)).

Definition manifest_of (recs : list (string * list PrivacyExportRecord)) : json :=
  manifest recs.*1 (count_of recs) (notices_of recs).

(** The document of the exporter, and the one whose text is streamed. *)
Definition document (context : ExportContext.t) (u : UUID) recs : json :=
  JObj (header_fields context u ++ [("manifest"%string, manifest_of recs); ("data"%string, JObj (data_of recs))]).

Definition streamed_document (context : ExportContext.t) (u : UUID) recs : json :=
  JObj (header_fields context u ++ [("data"%string, JObj (data_of recs)); ("manifest"%string, manifest_of recs)]).

Lemma count_cons kr recs : count_of (kr :: recs) = Z.of_nat (length kr.2) + count_of recs.
Proof.
  unfold count_of. rewrite !fmap_cons.
  change (list_sum (length kr.2 :: (length <$> recs.*2)))
    with (length kr.2 + list_sum (length <$> recs.*2))%nat. lia.
Qed.

Lemma data_keys recs : (data_of recs).*1 = recs.*1.
Proof. unfold data_of. by rewrite <- list_fmap_compose. Qed.

Lemma wp_gather context d ps recs g (Q : gathered -> Db -> Prop) E :
  Forall2 (hands_out context d) ps recs ->
  Q (mkGathered (data g ++ data_of recs) (notices g ++ notices_of recs) (record_count g + count_of recs)) d ->
  wp (gather context ps g) Q E d.
Proof.
  intros Hp. revert g. induction Hp as [|p kr ps recs [Hk Hp] _ IH]; intros g HQ.
  - apply wp_ret. unfold count_of in HQ. simpl in HQ. rewrite !app_nil_r, Z.add_0_r in HQ. by destruct g.
  - apply wp_bind, wp_bind, Hp, wp_ret, IH. simpl. rewrite count_cons in HQ. simpl in HQ.
    rewrite <- !(assoc (++)). rewrite <- Z.add_assoc, Hk. exact HQ.
Qed.

Lemma wp_export_subject_data context u (Q : json -> Db -> Prop) E d :
  keyed_db d -> ExportContext.subject_user_id context = Some u ->
  (forall x, users d !! u = Some x -> Q (document context u (exported (provider_context context u) d)) d) ->
  (users d !! u = None -> E (SubjectDataExportError "subject_user_not_found")) ->
  wp (export_subject_data context) Q E d.
Proof.
  intros Hk Hu HQ HE. unfold export_subject_data. rewrite Hu. apply wp_bind, wp_ret, wp_bind.
  destruct (users d !! u) as [x|] eqn:Hx.
  - eapply wp_gather; [by eapply providers_hand_out|]. apply wp_ret.
    cbn [data notices record_count]. rewrite !app_nil_l, data_keys, Z.add_0_l. by apply (HQ x).
  - apply wp_bind, wp_bind. apply wp_translated, wp_bind, wp_get_subject_user; [done|].
    simpl. rewrite Hx. by apply wp_bind, wp_raise, HE.
Qed.

(** C14. An export is complete and in order. For every subject of a well-formed database
    the exporter builds, without changing the database, the document whose data are, for
    each provider, one record for every row the provider selects, in the order of the
    instant and the key, however the rows fall on pages; the one failure is a subject
    that does not exist. *)
Theorem export_subject_data_complete context u d :
  wf d -> ExportContext.subject_user_id context = Some u ->
  wp (export_subject_data context)
    (fun doc d' => d' = d /\ is_Some (users d !! u) /\
       doc = document context u (exported (provider_context context u) d))
    (fun e => users d !! u = None /\ e = SubjectDataExportError "subject_user_not_found") d.
Proof.
  intros Hwf Hu. eapply wp_export_subject_data; [by apply wf_keyed_db|done|..].
  - intros x Hx. by rewrite Hx.
  - by intros Hx.
Qed.

(** *** The stream *)

Definition text (l : list string) : string := String.concat "" l.

Lemma text_cons s l : text (s :: l) = (s ++ text l)%string.
Proof. unfold text. destruct l as [|s' l]; simpl; [by rewrite Text.append_nil_r|done]. Qed.

Lemma text_app l l' : text (l ++ l') = (text l ++ text l')%string.
Proof.
  induction l as [|s l IH]; [done|]. change ((s :: l) ++ l') with (s :: (l ++ l')).
  by rewrite !text_cons, IH, Text.append_assoc.
Qed.

(** A text with a comma before it, unless it is the first. *)
Definition comma (first : bool) : string := if first then "" else ",".

(** Texts separated by commas, after a comma unless they are the first. *)
Fixpoint separated (first : bool) (l : list string) : string :=
  match l with [] => "" | s :: l => comma first ++ s ++ separated false l end%string.

Lemma join_separated l : Text.join "," l = separated true l.
Proof.
  unfold Text.join. destruct l as [|s l]; [done|]. simpl. revert s.
  induction l as [|s' l IH]; intros s; simpl; [by rewrite Text.append_nil_r|]. by rewrite IH.
Qed.

Lemma separated_app first l l' :
  separated first (l ++ l') = (separated first l ++ separated (first && bool_decide (l = [])) l')%string.
Proof.
  revert first. induction l as [|s l IH]; intros first; simpl; [by rewrite andb_true_r|].
  rewrite IH, !Text.append_assoc. by destruct first.
Qed.

Definition member_text (kv : string * json) : string :=
  (Metadata.dumps_string kv.1 ++ ":" ++ JsonText.encode kv.2)%string.

Lemma encode_object fields :
  JsonText.encode (JObj fields) = ("{" ++ separated true (map member_text fields) ++ "}")%string.
Proof. simpl. by rewrite join_separated. Qed.

Lemma encode_array l :
  JsonText.encode (JArr l) = ("[" ++ separated true (map JsonText.encode l) ++ "]")%string.
Proof. simpl. by rewrite join_separated. Qed.

Lemma text_header n fields :
  text (header_chunks n fields) = separated (n =? 0)%nat (map member_text fields).
Proof.
  revert n. induction fields as [|[k v] fields IH]; intros n; [done|]. cbn [header_chunks map separated].
  rewrite text_app. cbn [app _json_chunks]. rewrite !text_cons, IH. unfold member_text, _json_key. simpl.
  rewrite !Text.append_assoc. by destruct n.
Qed.

Lemma text_records first records :
  text (record_chunks first records)
  = separated first (map JsonText.encode (_serialise_record <$> records)).
Proof.
  revert first. induction records as [|r records IH]; intros first; [done|].
  cbn [record_chunks map separated fmap list_fmap]. rewrite text_app. cbn [app _json_chunks].
  rewrite !text_cons, IH. by destruct first.
Qed.

Lemma text_provider s i key records :
  text (chunks s ++ (if (i =? 0)%nat then [] else [","%string])
        ++ [_json_key key; "["%string] ++ record_chunks true records ++ ["]"%string])
  = (text (chunks s) ++ comma (i =? 0)%nat ++ member_text (key, JArr (_serialise_record <$> records)))%string.
Proof.
  rewrite !text_app. unfold member_text. cbn [fst snd]. rewrite encode_array, <- text_records.
  rewrite !text_cons. unfold _json_key. change (text []) with EmptyString. rewrite !Text.append_nil_r, !Text.append_assoc.
  by destruct i.
Qed.

Lemma wp_stream context d i ps recs s (Q : streamed -> Db -> Prop) E :
  Forall2 (hands_out context d) ps recs ->
  (forall cs, text cs = (text (chunks s) ++ separated (i =? 0)%nat (map member_text (data_of recs)))%string ->
     Q (mkStreamed cs (provider_keys s ++ recs.*1) (stream_notices s ++ notices_of recs)
          (stream_count s + count_of recs)) d) ->
  wp (stream_providers context i ps s) Q E d.
Proof.
  intros Hp. revert i s. induction Hp as [|p kr ps recs [Hk Hp] _ IH]; intros i s HQ.
  - apply wp_ret. unfold count_of in HQ. simpl in HQ. rewrite !app_nil_r, Z.add_0_r in HQ.
    destruct s as [cs ks ns n]. apply HQ. simpl. by rewrite Text.append_nil_r.
  - apply wp_bind, wp_bind, Hp, wp_ret, IH. cbn [chunks provider_keys stream_notices stream_count].
    intros cs Hcs. rewrite count_cons in HQ. rewrite <- !(assoc (++)), <- Z.add_assoc, Hk.
    apply (HQ cs). rewrite Hcs, text_provider, Hk. destruct kr as [key records]. cbn [fst snd].
    unfold data_of at 2. rewrite fmap_cons. cbn [map separated fst snd Nat.eqb].
    by rewrite !Text.append_assoc.
Qed.

Lemma stream_text context u recs cs :
  text cs = (text (["{"%string] ++ header_chunks 0 (header_fields context u)
                   ++ [","%string; _json_key "data"; "{"%string])
             ++ separated true (map member_text (data_of recs)))%string ->
  text (cs ++ ["}"%string; ","%string; _json_key "manifest"]
        ++ _json_chunks (manifest_of recs) ++ ["}"%string])
  = JsonText.encode (streamed_document context u recs).
Proof.
  intros Hcs. unfold streamed_document. rewrite encode_object, map_app, separated_app.
  rewrite bool_decide_false by done. rewrite !text_app, Hcs, !text_app, text_header.
  unfold _json_chunks. cbn [map separated comma andb app]. rewrite !text_cons. change (text []) with EmptyString.
  unfold member_text at 4 5. cbn [fst snd]. rewrite encode_object. unfold _json_key.
  rewrite !Text.append_nil_r, !Text.append_assoc. reflexivity.
Qed.

(** C15. The stream is the text of the document. Joined, the chunks of the stream are the
    JSON text of the document that the exporter builds, only with the manifest after the
    data, which is when its counts are known; the stream leaves the database as it is and
    fails only where the exporter fails. *)
Theorem stream_is_document context u d :
  wf d -> ExportContext.subject_user_id context = Some u ->
  wp (iter_subject_export_json_chunks context)
    (fun chunks d' => d' = d /\ is_Some (users d !! u) /\
       String.concat "" chunks
       = JsonText.encode (streamed_document context u (exported (provider_context context u) d)))
    (fun e => users d !! u = None /\ e = SubjectDataExportError "subject_user_not_found") d.
Proof.
  intros Hwf%wf_keyed_db Hu. unfold iter_subject_export_json_chunks. rewrite Hu. apply wp_bind, wp_ret.
  cbv zeta. apply wp_bind. destruct (users d !! u) as [x|] eqn:Hx.
  - eapply wp_stream; [by eapply providers_hand_out|]. intros cs Hcs. apply wp_ret.
    split_and!; [done|done|]. by apply stream_text.
  - apply wp_bind, wp_bind. apply wp_translated, wp_bind, wp_get_subject_user; [done|].
    simpl. rewrite Hx. by apply wp_bind, wp_raise.
Qed.

(** ** What an export withholds *)
Section Veil.
Variables (u w : UUID).















End Veil.

(** *** Rows under a veil *)
Section Rows.
Context {R : Type} `{TableLaws R}.
Implicit Types (f : R -> R) (P : R -> bool).






End Rows.

Section Withheld.
Variables (context : PrivacyProviderContext) (w : UUID).
Notation u := (subject_user_id context).
Hypothesis Hw : w <> u.
Implicit Types (d : Db).













































End Withheld.


(** ** The columns of an export are those declared for it *)
Section Columns.
Import ColumnInventory.
Implicit Types (context : PrivacyProviderContext) (d : Db).

(** Columns declared as not exportable that are exported all the same. *)
Definition undeclared : list (string * string) :=
  [("outbox_events", "locked_at"); ("export_artifacts", "storage_backend")]%string.

(** Members of a payload that stand for no column. *)
Definition derived : list string :=
  ["has_revoker"; "has_actor"; "has_creator"; "has_requester"; "has_subject"; "has_reviewer";
   "has_representative_verifier"; "has_requested_by"; "has_generated_by"; "payload_reference";
   "purpose"]%string.

Definition declared (table key : string) : bool :=
  match get_privacy_column_policy table key with
  | inr (Some p) => column_export p || bool_decide ((table, key) ∈ undeclared)
  | _ => bool_decide (key ∈ derived)
  end.

Definition members_declared (table : string) (keys : list string) : Prop :=
  forallb (declared table) keys = true.

Definition record_declared (r : PrivacyExportRecord) : Prop :=
  members_declared (table_name r) (payload r).*1.

Lemma record_declared_intro key table kind members redacted :
  members_declared table members.*1 -> record_declared (_record key table kind members redacted).
Proof.
  intros Hm. unfold record_declared. simpl. unfold fields_of. rewrite <- list_fmap_compose. exact Hm.
Qed.

Lemma members_declared_app table keys keys' :
  members_declared table keys -> members_declared table keys' -> members_declared table (keys ++ keys').
Proof. intros Hk Hk'. unfold members_declared. rewrite forallb_app. by apply andb_true_intro. Qed.

Lemma include_declared table name actor u presence members redacted :
  members_declared table members.*1 -> members_declared table [name] -> members_declared table [presence] ->
  members_declared table
    (_include_or_minimise_actor_field name actor u presence (members, redacted)).1.*1.
Proof.
  intros Hm Hn Hp. simpl. destruct actor as [v|]; [|done].
  case_bool_decide; simpl; rewrite fmap_app; by apply members_declared_app.
Qed.

Ltac columns := vm_compute; reflexivity.

Lemma record_declared_pair key table kind pr :
  members_declared table pr.1.*1 ->
  record_declared (let '(payload, redacted_fields) := pr in _record key table kind payload redacted_fields).
Proof. destruct pr as [members redacted]. apply record_declared_intro. Qed.

Lemma include_declared_pair table name actor u presence pr :
  members_declared table pr.1.*1 -> members_declared table [name] -> members_declared table [presence] ->
  members_declared table (_include_or_minimise_actor_field name actor u presence pr).1.*1.
Proof. destruct pr as [members redacted]. apply include_declared. Qed.

Lemma invite_columns context email i :
  record_declared (InvitesBySubjectExportProvider.record_of context email i).
Proof.
  unfold InvitesBySubjectExportProvider.record_of. case_match.
  - apply record_declared_intro. columns.
  - apply record_declared_pair, include_declared_pair; columns.
Qed.

Lemma event_columns context e :
  record_declared (AuditSubjectEventsExportProvider._audit_record e context).
Proof.
  unfold AuditSubjectEventsExportProvider._audit_record.
  destruct (_safe_audit_metadata _) as [metadata redacted]. cbv zeta.
  case_match; apply record_declared_intro; rewrite fmap_app; columns.
Qed.

Lemma outbox_columns e : record_declared (OutboxSubjectReferencesExportProvider.outbox_record e).
Proof.
  unfold OutboxSubjectReferencesExportProvider.outbox_record.
  destruct (_outbox_payload_reference _). apply record_declared_intro. columns.
Qed.

Lemma staff_columns context s :
  record_declared (PlatformStaffBySubjectExportProvider.record_of context s).
Proof.
  unfold PlatformStaffBySubjectExportProvider.record_of. case_match.
  - apply record_declared_intro. columns.
  - apply record_declared_pair, include_declared_pair; columns.
Qed.

Lemma request_columns context r :
  record_declared (DsrWorkflowRecordsExportProvider.record_of context r).
Proof.
  unfold DsrWorkflowRecordsExportProvider.record_of. case_match.
  - apply record_declared_pair. do 2 (apply include_declared_pair; [|columns..]). columns.
  - apply record_declared_pair. do 4 (apply include_declared_pair; [|columns..]). columns.
Qed.

Lemma artifact_columns context a :
  record_declared (ExportArtifactMetadataExportProvider.record_of context a).
Proof.
  unfold ExportArtifactMetadataExportProvider.record_of. case_match.
  - apply record_declared_intro. columns.
  - apply record_declared_pair. do 2 (apply include_declared_pair; [|columns..]). columns.
Qed.

Lemma mapped_declared {A} (record : A -> PrivacyExportRecord) l :
  (forall x, record_declared (record x)) -> Forall record_declared (record <$> l).
Proof. intros Hr. apply Forall_fmap, Forall_true. exact Hr. Qed.

Lemma exported_columns context d :
  Forall (fun kr => Forall record_declared kr.2) (exported context d).
Proof.
  unfold exported. cbv zeta. repeat (constructor; [cbn [snd]|]); [..|constructor].
  - destruct (users d !! _) as [x|]; simpl; constructor; [|constructor].
    apply record_declared_intro. columns.
  - apply mapped_declared. intros m. apply record_declared_intro. columns.
  - apply mapped_declared. intros o. apply record_declared_intro. columns.
  - apply mapped_declared, invite_columns.
  - destruct (subject_email_of _); [|constructor]. apply mapped_declared, outbox_columns.
  - apply mapped_declared. intros e. apply event_columns.
  - apply mapped_declared, staff_columns.
  - apply mapped_declared, request_columns.
  - apply mapped_declared, artifact_columns.
  - apply mapped_declared. intros [a p]. apply record_declared_intro. columns.
  - apply mapped_declared. intros [c p]. apply record_declared_intro. columns.
  - apply mapped_declared. intros a. apply record_declared_intro. columns.
Qed.

(** Only declared columns are exported. Whatever the rows, every member of the payload
    of every record of every provider is a column that the column inventory declares as
    exportable, one of two columns it declares as not exportable
    ([undeclared_columns_exported]), or a member that stands for no column. *)
Theorem export_columns_declared context p d :
  wf d -> is_Some (users d !! subject_user_id context) -> p ∈ _EXPORT_PROVIDER_TYPES ->
  wp (records_of p context)
    (fun records _ => forall r key, r ∈ records -> key ∈ (payload r).*1 ->
       (exists policy, get_privacy_column_policy (table_name r) key = inr (Some policy) /\
          (column_export policy = true \/ (table_name r, key) ∈ undeclared)) \/
       key ∈ derived)
    any_exn d.
Proof.
  intros Hwf%wf_keyed_db [x Hx] [i Hp]%list_elem_of_lookup.
  pose proof (providers_hand_out context d x Hwf Hx) as Hall.
  destruct (Forall2_lookup_l _ _ _ _ _ Hall Hp) as (kr & Hkr & _ & Hwp).
  apply Hwp. intros r key Hr Hkey. pose proof (exported_columns context d) as Hd.
  rewrite Forall_forall in Hd. specialize (Hd kr (list_elem_of_lookup_2 _ _ _ Hkr)).
  rewrite Forall_forall in Hd. specialize (Hd r Hr). unfold record_declared, members_declared in Hd.
  rewrite forallb_forall in Hd. specialize (Hd key (proj1 (list_elem_of_In _ _) Hkey)).
  unfold declared in Hd. destruct (get_privacy_column_policy _ _) as [e|[policy|]].
  - right. by apply bool_decide_eq_true in Hd.
  - left. exists policy. split; [done|]. apply orb_prop in Hd as [Hd|Hd]; [by left|right].
    by apply bool_decide_eq_true in Hd.
  - right. by apply bool_decide_eq_true in Hd.
Qed.

(** The two columns are exported, although the inventory declares that they are not. *)
Lemma undeclared_columns_exported context e a :
  (exists policy, get_privacy_column_policy "outbox_events" "locked_at" = inr (Some policy) /\
     column_export policy = false) /\
  "locked_at"%string ∈ (payload (OutboxSubjectReferencesExportProvider.outbox_record e)).*1 /\
  (exists policy, get_privacy_column_policy "export_artifacts" "storage_backend" = inr (Some policy) /\
     column_export policy = false) /\
  "storage_backend"%string ∈ (payload (ExportArtifactMetadataExportProvider._actor_reference_record a context)).*1.
Proof.
  split_and!; [by vm_compute; eexists| |by vm_compute; eexists|].
  - unfold OutboxSubjectReferencesExportProvider.outbox_record.
    destruct (_outbox_payload_reference _). simpl. set_solver.
  - simpl. set_solver.
Qed.

End Columns.

(** ** Witnesses *)
Module Witness.
Import Fixtures.

(** carol asks for her data. *)
Definition carol_export : ExportContext.t :=
  ExportContext.mk 80 61 (Some 3%N) (Some 3%N) DataSubjectRequestType.EXPORT
    DataSubjectRequestStatus.APPROVED t0 "1".

Definition records_exported : option Z :=
  match (export_subject_data carol_export (mkWorld db (Active db) 100)).1 with
  | Ok (JObj fields) =>
      match List.find (fun kv => String.eqb kv.1 "manifest") fields with
      | Some (_, JObj m) =>
          match List.find (fun kv => String.eqb kv.1 "record_count") m with
          | Some (_, JInt n) => Some n
          | _ => None
          end
      | _ => None
      end
  | _ => None
  end.

Lemma export_subject_data_complete_witness :
  records_exported = Some 6 /\
  wp (export_subject_data carol_export)
    (fun doc d' => d' = db /\ is_Some (users db !! 3%N) /\
       doc = document carol_export 3 (exported (provider_context carol_export 3) db))
    (fun e => users db !! 3%N = None /\ e = SubjectDataExportError "subject_user_not_found") db.
Proof.
  split; [vm_compute; reflexivity|].
  exact (export_subject_data_complete carol_export 3 db db_wf eq_refl).
Defined.

Lemma stream_is_document_witness :
  wp (iter_subject_export_json_chunks carol_export)
    (fun chunks d' => d' = db /\ is_Some (users db !! 3%N) /\
       String.concat "" chunks
       = JsonText.encode (streamed_document carol_export 3 (exported (provider_context carol_export 3) db)))
    (fun e => users db !! 3%N = None /\ e = SubjectDataExportError "subject_user_not_found") db.
Proof. exact (stream_is_document carol_export 3 db db_wf eq_refl). Defined.


Lemma export_columns_declared_witness :
  wp (records_of (mkProvider DsrWorkflowRecordsExportProvider.provider_key
                    DsrWorkflowRecordsExportProvider.iter_export_records)
        (provider_context carol_export 3))
    (fun records _ => forall r key, r ∈ records -> key ∈ (payload r).*1 ->
       (exists policy, ColumnInventory.get_privacy_column_policy (table_name r) key = inr (Some policy) /\
          (ColumnInventory.column_export policy = true \/ (table_name r, key) ∈ undeclared)) \/
       key ∈ derived)
    any_exn db.
Proof.
  apply (export_columns_declared (provider_context carol_export 3) _ db db_wf).
  - vm_compute. by eexists.
  - unfold _EXPORT_PROVIDER_TYPES. do 7 apply list_elem_of_further. apply list_elem_of_here.
Defined.

End Witness.
