(* ===== verification/ExportArtifactProofs.v ===== *)
(** Export artifacts: what is true of every row and how a row may evolve, kept by
    every operation. *)
From S2P Require Import Prelude Errors Session Schema Tables Rows AuditLog Users Invites.
From S2P Require Import ExportArtifacts DataSubjectRequests ExportArtifactServices ExportWorker.
From S2P Require Import PrivacyMaintenance SubjectExports SubjectExportProofs.
Import ExportArtifactLifecycle ExportArtifactRepository ExportArtifactService.

(** ** The transitions of [export_artifact_lifecycle.py] as plain writes *)
Section Lifecycle.
Implicit Types (a : ExportArtifact.t).

Lemma set_if_changed_fst {A} `{EqDecision A} name (get : ExportArtifact.t -> A) set value c :
  (forall a, set (get a) a = a) -> (_set_if_changed name get set value c).1 = set value c.1.
Proof.
  intros Hlens. unfold _set_if_changed. case_bool_decide as Hv; [|done]. by rewrite <- Hv, Hlens.
Qed.

Ltac plain := unfold clear_lease, clear_content_metadata, set_status_to;
  rewrite ?set_if_changed_fst by (by intros []); reflexivity.

Definition released a : ExportArtifact.t :=
  ExportArtifact.set_processing_lease_expires_at None (ExportArtifact.set_processing_token None a).

Definition without_content a : ExportArtifact.t :=
  ExportArtifact.set_checksum_sha256 None (ExportArtifact.set_size_bytes None
    (ExportArtifact.set_content_type None (ExportArtifact.set_filename None a))).

Lemma mark_ready_eq n a :
  (mark_export_artifact_ready n a).1 =
  released (ExportArtifact.set_completed_at (Some n)
    (ExportArtifact.set_status ExportArtifactStatus.READY a)).
Proof. unfold mark_export_artifact_ready. plain. Qed.

Lemma mark_failed_eq code detail n a :
  (ExportArtifactLifecycle.mark_export_artifact_failed code detail n a).1 =
  released (ExportArtifact.set_failed_at (Some n)
    (ExportArtifact.set_failure_detail (Some (Text.truncate 255 detail))
      (ExportArtifact.set_failure_reason_code (Some code)
        (ExportArtifact.set_status ExportArtifactStatus.FAILED a)))).
Proof. unfold ExportArtifactLifecycle.mark_export_artifact_failed. plain. Qed.

Lemma mark_expired_eq a :
  (mark_export_artifact_expired a).1 =
  released (ExportArtifact.set_status ExportArtifactStatus.EXPIRED a).
Proof. unfold mark_export_artifact_expired. plain. Qed.

Lemma clear_storage_eq a :
  (clear_export_artifact_storage_metadata a).1 =
  without_content (ExportArtifact.set_storage_key None a).
Proof. unfold clear_export_artifact_storage_metadata. plain. Qed.

Lemma cancel_eq code a :
  (cancel_export_artifact_for_subject_erasure code a).1 =
  released (ExportArtifact.set_failure_detail None (without_content
    (ExportArtifact.set_failure_reason_code (Some code)
      (ExportArtifact.set_status ExportArtifactStatus.CANCELLED a)))).
Proof.
  unfold cancel_export_artifact_for_subject_erasure, clear_export_artifact_subject_file_metadata.
  cbv zeta. plain.
Qed.

End Lifecycle.

(** ** A row's soundness and its evolution *)

(** The keys of an artifact's objects name the artifact. *)
Definition owned_key (id : UUID) (key : string) : Prop :=
  exists rest, key = ("exports/" ++ Uuid.str id ++ "/" ++ rest)%string.

Lemma owned_key_inj u v key :
  (u < 16 ^ 32)%N -> (v < 16 ^ 32)%N -> owned_key u key -> owned_key v key -> u = v.
Proof. intros Hu Hv [r ->] [r' Hr]. do 8 apply Uuid.string_tail_inj in Hr.
  by apply (Uuid.str_app_inj u v _ _ Hu Hv Hr). Qed.

Definition live_upload (s : ExportArtifactStatus.t) : bool :=
  match s with
  | ExportArtifactStatus.QUEUED | ExportArtifactStatus.PROCESSING | ExportArtifactStatus.READY => true
  | _ => false
  end.

Definition after_delivery (s : ExportArtifactStatus.t) : bool :=
  match s with
  | ExportArtifactStatus.READY | ExportArtifactStatus.EXPIRED | ExportArtifactStatus.CANCELLED => true
  | _ => false
  end.

Record artifact_sound (a : ExportArtifact.t) : Prop := {
  (** a lease is held exactly in processing *)
  sound_token : ExportArtifact.status a = ExportArtifactStatus.PROCESSING <->
    is_Some (ExportArtifact.processing_token a);
  sound_lease : is_Some (ExportArtifact.processing_token a) <->
    is_Some (ExportArtifact.processing_lease_expires_at a);
  (** an upload intent is complete, and its key is the artifact's own *)
  sound_key : forall key, ExportArtifact.storage_key a = Some key ->
    owned_key (ExportArtifact.id a) key;
  sound_upload : live_upload (ExportArtifact.status a) = true ->
    is_Some (ExportArtifact.storage_key a) ->
    is_Some (ExportArtifact.filename a) /\ is_Some (ExportArtifact.content_type a)
    /\ is_Some (ExportArtifact.size_bytes a) /\ is_Some (ExportArtifact.checksum_sha256 a);
  sound_ready : ExportArtifact.status a = ExportArtifactStatus.READY ->
    is_Some (ExportArtifact.storage_key a) /\ is_Some (ExportArtifact.completed_at a);
  sound_failed : ExportArtifact.status a = ExportArtifactStatus.FAILED ->
    is_Some (ExportArtifact.failed_at a) /\ is_Some (ExportArtifact.failure_reason_code a);
  (** it was delivered once or never, and only after it was ready *)
  sound_delivery :
    (ExportArtifact.downloaded_at a = None /\ ExportArtifact.download_count a = 0)
    \/ (is_Some (ExportArtifact.downloaded_at a) /\ ExportArtifact.download_count a = 1
        /\ after_delivery (ExportArtifact.status a) = true);
}.

(** The transitions of the status, over any number of steps. *)
Definition status_moves (s s' : ExportArtifactStatus.t) : bool :=
  match s, s' with
  | ExportArtifactStatus.QUEUED, _ | ExportArtifactStatus.PROCESSING, _ => true
  | ExportArtifactStatus.READY, (ExportArtifactStatus.READY | ExportArtifactStatus.EXPIRED
                                | ExportArtifactStatus.CANCELLED) => true
  | ExportArtifactStatus.FAILED, (ExportArtifactStatus.FAILED | ExportArtifactStatus.CANCELLED) => true
  | ExportArtifactStatus.EXPIRED, (ExportArtifactStatus.EXPIRED | ExportArtifactStatus.CANCELLED) => true
  | ExportArtifactStatus.CANCELLED, ExportArtifactStatus.CANCELLED => true
  | _, _ => false
  end.

Definition content (a : ExportArtifact.t) :=
  (ExportArtifact.storage_key a, ExportArtifact.filename a, ExportArtifact.content_type a,
   ExportArtifact.size_bytes a, ExportArtifact.checksum_sha256 a).

Record artifact_moves (a a' : ExportArtifact.t) : Prop := {
  moves_id : ExportArtifact.id a' = ExportArtifact.id a;
  moves_request : ExportArtifact.data_subject_request_id a' = ExportArtifact.data_subject_request_id a;
  moves_expiry : ExportArtifact.expires_at a' = ExportArtifact.expires_at a;
  moves_status : status_moves (ExportArtifact.status a) (ExportArtifact.status a') = true;
  (** what is ready does not change under its reader *)
  moves_content : ExportArtifact.status a = ExportArtifactStatus.READY ->
    ExportArtifact.status a' = ExportArtifactStatus.READY -> content a' = content a;
  moves_delivery : is_Some (ExportArtifact.downloaded_at a) ->
    ExportArtifact.downloaded_at a' = ExportArtifact.downloaded_at a;
  moves_issued : ExportArtifact.download_url_issue_count a
                 <= ExportArtifact.download_url_issue_count a';
}.

#[export] Instance artifact_moves_preorder : PreOrder artifact_moves.
Proof.
  split.
  - intros a. split; try done. by destruct (ExportArtifact.status a).
  - intros a b c [i1 r1 e1 s1 c1 d1 n1] [i2 r2 e2 s2 c2 d2 n2]. split; try congruence.
    + by destruct (ExportArtifact.status a), (ExportArtifact.status b), (ExportArtifact.status c).
    + intros Ha Hc. rewrite Ha in s1. rewrite Hc in s2.
      destruct (ExportArtifact.status b) eqn:Hb; try done. rewrite c2, c1; done.
    + intros Ha. rewrite d2, d1; [done|done|]. by rewrite d1.
    + lia.
Qed.

Definition artifacts_sound (d : Db) : Prop :=
  forall k a, export_artifacts d !! k = Some a -> artifact_sound a.

(** The artifacts of [d] are sound, and those of [t0] have evolved into them. *)
Abbreviation artifacts_follow := (rows_follow artifact_sound artifact_moves).

#[export] Instance artifacts_follow_on t0 : On export_artifacts (artifacts_follow t0).
Proof. exact (rows_follow_on artifact_sound artifact_moves t0). Qed.

Lemma artifacts_follow_start d : artifacts_sound d -> artifacts_follow (export_artifacts d) d.
Proof. intros Hd. by refine (rows_follow_refl (R := ExportArtifact.t) _ artifact_moves d _). Qed.

Lemma terminal_stays a a' :
  artifact_moves a a' -> live_upload (ExportArtifact.status a) = false ->
  live_upload (ExportArtifact.status a') = false.
Proof.
  intros Hm. pose proof (moves_status a a' Hm) as Hs. revert Hs.
  by destruct (ExportArtifact.status a), (ExportArtifact.status a').
Qed.

(** ** The writes a sound row may undergo *)
Section Allowed.
Context `{Env}.
Implicit Types (a : ExportArtifact.t).

Abbreviation may_write := (allowed artifact_sound artifact_moves).

Ltac allowed_solve :=
  let tk := fresh "tk" in let ls := fresh "ls" in let ky := fresh "ky" in
  let up := fresh "up" in let rd := fresh "rd" in let fl := fresh "fl" in let dl := fresh "dl" in
  intros [tk ls ky up rd fl dl]; intros; try (unfold allowed; intros ?);
  unfold released, without_content;
  repeat match goal with Hs : ExportArtifact.status _ = _ |- _ => rewrite Hs in * end;
  split; split; simpl in *;
  repeat match goal with Hs : ExportArtifact.status _ = _ |- _ => rewrite Hs in * end;
  simpl in *; try done; try naive_solver; try naive_solver lia.

Lemma allowed_claimed t token lease a :
  artifact_sound a -> ExportArtifact.status a = ExportArtifactStatus.QUEUED ->
  may_write (claimed t token lease) a.
Proof. unfold claimed. allowed_solve. Qed.

Lemma allowed_requeued a :
  artifact_sound a -> ExportArtifact.status a = ExportArtifactStatus.PROCESSING ->
  may_write requeued a.
Proof. unfold requeued. allowed_solve. Qed.

Lemma allowed_renewed t a :
  artifact_sound a -> ExportArtifact.status a = ExportArtifactStatus.PROCESSING ->
  may_write (ExportArtifact.set_processing_lease_expires_at (Some t)) a.
Proof. allowed_solve. Qed.

Lemma allowed_upload_intent key filename content_type size checksum a :
  artifact_sound a -> ExportArtifact.status a = ExportArtifactStatus.PROCESSING ->
  owned_key (ExportArtifact.id a) key ->
  may_write (with_upload_intent (Some key) (Some filename) (Some content_type) (Some size)
               (Some checksum)) a.
Proof. unfold with_upload_intent. allowed_solve. Qed.

Lemma allowed_no_intent a :
  artifact_sound a -> ExportArtifact.status a = ExportArtifactStatus.PROCESSING ->
  may_write (with_upload_intent None None None None None) a.
Proof. unfold with_upload_intent. allowed_solve. Qed.

Lemma allowed_ready n prepared user a :
  artifact_sound a -> ExportArtifact.status a = ExportArtifactStatus.PROCESSING ->
  is_Some (ExportArtifact.storage_key a) ->
  may_write (fun a => (mark_export_artifact_ready n (with_generated prepared user a)).1) a.
Proof.
  intros Ha Hs Hk m. rewrite mark_ready_eq. revert Ha Hs Hk. unfold with_generated. allowed_solve.
Qed.

Lemma allowed_failed code detail n a :
  artifact_sound a -> ExportArtifact.status a = ExportArtifactStatus.PROCESSING ->
  may_write (fun a => (ExportArtifactLifecycle.mark_export_artifact_failed code detail n a).1) a.
Proof. intros Ha Hs m. rewrite mark_failed_eq. revert Ha Hs. allowed_solve. Qed.

Lemma allowed_expired a :
  artifact_sound a -> ExportArtifact.status a = ExportArtifactStatus.READY ->
  may_write (fun a => (mark_export_artifact_expired a).1) a.
Proof. intros Ha Hs m. rewrite mark_expired_eq. revert Ha Hs. allowed_solve. Qed.

Lemma allowed_cleared a :
  artifact_sound a -> live_upload (ExportArtifact.status a) = false ->
  may_write (fun a => (clear_export_artifact_storage_metadata a).1) a.
Proof.
  intros Ha Hs m. rewrite clear_storage_eq. revert Ha.
  destruct (ExportArtifact.status a) eqn:Hst; try discriminate Hs; allowed_solve.
Qed.

Lemma allowed_issued n a :
  artifact_sound a ->
  may_write (fun a => ExportArtifact.set_download_url_issued_at (Some n)
    (ExportArtifact.set_download_url_issue_count (ExportArtifact.download_url_issue_count a + 1) a)) a.
Proof.
  intros [tk ls ky up rd fl dl] m. split; split; simpl; try done; [|lia].
  by destruct (ExportArtifact.status a).
Qed.

Lemma allowed_delivered n a :
  artifact_sound a -> ExportArtifact.status a = ExportArtifactStatus.READY ->
  ExportArtifact.downloaded_at a = None -> may_write (delivered n) a.
Proof.
  intros [tk ls ky up rd fl dl] Hs Hd m. unfold delivered. rewrite Hs in *.
  split; split; simpl; rewrite ?Hs, ?Hd; try done. by right.
Qed.

End Allowed.

(** ** Every operation keeps the artifacts sound *)
Section Keeps.
Context `{Env} `{Network} `{StorageAdapter} `{ArchiveFiles}.
Variable (t0 : gmap UUID ExportArtifact.t).
Implicit Types (a : ExportArtifact.t) (d : Db).

Abbreviation kept := (keeps (under (artifacts_follow t0))).

Lemma keeps_artifact_queued settings id dsr user n n' n'' :
  kept (ExportArtifactRepository.create (queued_row settings id dsr user n n' n'')).
Proof.
  apply keeps_follow_insert; [apply _|]. split; simpl; try done; first [by split; [|intros []]|by left|by intros _ []].
Qed.

Lemma status_of_bool (s : ExportArtifactStatus.t) a :
  has_status s a = true -> ExportArtifact.status a = s.
Proof. unfold has_status. by rewrite bool_decide_eq_true. Qed.

Lemma token_true id token a :
  processing_by_token id token a = true ->
  ExportArtifact.id a = id /\ ExportArtifact.status a = ExportArtifactStatus.PROCESSING
  /\ ExportArtifact.processing_token a = Some token.
Proof.
  unfold processing_by_token. rewrite !andb_true_iff, !bool_decide_eq_true.
  by intros [[? ?%status_of_bool] ?].
Qed.

Lemma keeps_artifact_claim limit lease : kept (claim_queued_batch limit lease).
Proof.
  intros d Hd. apply wp_bind, wp_select, wp_bind, wp_draw. intros i.
  apply (keeps_follow_each artifact_sound artifact_moves); [|done].
  intros r d1 Q Hd1 Hr Hq%status_of_bool HQ. apply wp_bind, wp_draw. intros j.
  apply (wp_follow_update artifact_sound artifact_moves t0); [done..| |].
  - intros r1 Hr1 Ha. simpl in Hr, Hr1. rewrite Hr in Hr1. injection Hr1 as <-.
    by apply allowed_claimed.
  - intros r1 r2 d2 _ _ _ Hother Hd2. by apply HQ.
Qed.

Lemma stale_processing n a :
  is_stale n a = true -> ExportArtifact.status a = ExportArtifactStatus.PROCESSING.
Proof. unfold is_stale. by intros [?%status_of_bool _]%andb_true_iff. Qed.

Lemma keeps_artifact_recover n limit : kept (recover_stale_processing n limit).
Proof.
  intros d Hd. apply wp_bind, wp_select.
  apply (keeps_follow_each artifact_sound artifact_moves); [|done].
  intros r d1 Q Hd1 Hr Hq%stale_processing HQ.
  apply (wp_follow_update artifact_sound artifact_moves t0); [done..| |].
  - intros r1 Hr1 Ha. simpl in Hr, Hr1. rewrite Hr in Hr1. injection Hr1 as <-.
    by apply allowed_requeued.
  - intros r1 r2 d2 _ _ _ Hother Hd2. by apply HQ.
Qed.

Lemma keeps_artifact_renew id token lease :
  kept (ExportArtifactRepository.renew_processing_lease id token lease).
Proof.
  apply (keeps_find artifact_sound artifact_moves); [|apply keeps_ret].
  intros a d Hd Ha (_ & Hs & _)%token_true. apply wp_bind, wp_draw. intros i.
  apply wp_bind, (wp_rewritten artifact_sound artifact_moves t0 _ a); [done..| |].
  - intros Hok. by apply allowed_renewed.
  - intros. apply keeps_ret.
Qed.

Lemma active_true id token n a :
  active_processing id token n a = true ->
  ExportArtifact.id a = id /\ ExportArtifact.status a = ExportArtifactStatus.PROCESSING.
Proof. unfold active_processing. by intros [(? & ? & _)%token_true _]%andb_true_iff. Qed.

Lemma keeps_artifact_intent id token key filename content_type size checksum n :
  owned_key id key ->
  kept (ensure_processing_upload_intent id token key filename content_type size checksum n).
Proof.
  intros Hk. apply keeps_bind; [|intros; keeps_solve].
  apply (keeps_follow_update_where artifact_sound artifact_moves); [done|].
  intros a Ha [[<- Hs]%active_true _]%andb_true_iff. by apply allowed_upload_intent.
Qed.

Lemma keeps_artifact_reset id token backend key n :
  kept (reset_processing_upload_intent id token backend key n).
Proof.
  apply keeps_bind; [|intros; apply keeps_ret].
  apply (keeps_follow_update_where artifact_sound artifact_moves); [done|].
  intros a Ha [[[[_ Hs]%active_true _]%andb_true_iff _]%andb_true_iff _]%andb_true_iff.
  by apply allowed_no_intent.
Qed.

(** What follows a write of an artifact: the request's state and the audit event. *)
Ltac rest_kept := intros; keeps_solve.

Lemma keeps_artifact_ready id prepared user token :
  kept (mark_generated_export_artifact_ready id prepared user (Some token)).
Proof.
  apply (keeps_find artifact_sound artifact_moves);
    [|by intros d Hd; apply wp_bind, wp_raise].
  intros a d Hd Ha (_ & Hs & _)%token_true. apply wp_bind, wp_ret, wp_bind, wp_raise_if; [done|].
  intros Hm%negb_false_iff.
  assert (Hk : is_Some (ExportArtifact.storage_key a)).
  { unfold _prepared_metadata_matches_artifact in Hm. rewrite !andb_true_iff, !bool_decide_eq_true in Hm.
    eexists. apply Hm. }
  apply wp_bind, wp_bind, wp_draw. intros i.
  apply (wp_rewritten artifact_sound artifact_moves t0 _ a); [|done|done| |rest_kept].
  - intros r. by rewrite mark_ready_eq.
  - intros Hok. by apply allowed_ready.
Qed.

Lemma keeps_artifact_failed id exc user token :
  kept (ExportArtifactService.mark_export_artifact_failed id exc user (Some token)).
Proof.
  apply (keeps_find artifact_sound artifact_moves); [|keeps_solve].
  intros a d Hd Ha (_ & Hs & _)%token_true. apply wp_bind, wp_bind, wp_draw. intros i.
  apply (wp_rewritten artifact_sound artifact_moves t0 _ a); [|done|done| |rest_kept].
  - intros r. by rewrite mark_failed_eq.
  - intros Hok. by apply allowed_failed.
Qed.

Lemma keeps_artifact_cleared P (guard : ExportArtifact.t -> bool) :
  (forall a, P a = true -> guard a = true -> live_upload (ExportArtifact.status a) = false) ->
  kept (artifact ← select_one_or_none P;
        match artifact with
        | None => mret false
        | Some artifact =>
            if negb (guard artifact) then mret false else
            ExportArtifactRepository.save artifact
              (fun a => (clear_export_artifact_storage_metadata a).1) ;;
            mret true
        end).
Proof.
  intros Hl. apply (keeps_find artifact_sound artifact_moves); [|keeps_solve].
  intros a d Hd Ha HP. destruct (guard a) eqn:Hg; simpl; [|by apply wp_ret].
  apply wp_bind, (wp_rewritten artifact_sound artifact_moves t0 _ a); [|done|done| |rest_kept].
  - intros r. by rewrite clear_storage_eq.
  - intros Hok. apply allowed_cleared; auto.
Qed.

Lemma keeps_artifact_clear_failed cleanup : kept (clear_failed_export_storage_metadata cleanup).
Proof.
  apply (keeps_artifact_cleared _ (fun _ => true)).
  intros a [[_ Hs%status_of_bool]%andb_true_iff _]%andb_true_iff _. by rewrite Hs.
Qed.

Lemma non_downloadable a :
  _is_non_downloadable_storage_purge_retry a = true -> live_upload (ExportArtifact.status a) = false.
Proof.
  unfold _is_non_downloadable_storage_purge_retry.
  by destruct (ExportArtifact.status a).
Qed.

Lemma keeps_artifact_clear_purge purge : kept (clear_export_storage_purge_metadata purge).
Proof. apply keeps_artifact_cleared. intros a _. apply non_downloadable. Qed.

Lemma keeps_artifact_issued a : kept (record_download_url_issued a).
Proof.
  apply keeps_bind; [apply keeps_draw|]. intros n. apply keeps_bind; [|rest_kept].
  apply (keeps_follow_update_where artifact_sound artifact_moves); [done|].
  intros r Hr _. by apply allowed_issued.
Qed.

Lemma deliverable_true d id n a :
  deliverable d id n a = true ->
  ExportArtifact.id a = id /\ ExportArtifact.status a = ExportArtifactStatus.READY
  /\ ExportArtifact.downloaded_at a = None /\ n < ExportArtifact.expires_at a
  /\ eligible_dsr d a = true.
Proof.
  unfold deliverable. rewrite !andb_true_iff, bool_decide_eq_true, Z.ltb_lt.
  intros [[[[[[? Hd] _] ?%status_of_bool] ?] _] ?].
  split; [done|]. split; [done|]. split; [|done]. by destruct (ExportArtifact.downloaded_at a).
Qed.

Lemma keeps_artifact_confirm a n : kept (ExportArtifactRepository.confirm_delivery a n).
Proof.
  apply keeps_bind; [keeps_solve|]. intros t. apply keeps_bind; [apply keeps_get_db|]. intros d.
  apply keeps_bind; [|rest_kept].
  apply (keeps_follow_update_where artifact_sound artifact_moves); [done|].
  intros r Hr (_ & Hs & Hd & _)%deliverable_true. by apply allowed_delivered.
Qed.

(** The request's row and the audit log are elsewhere. *)
Lemma frame_sync a state x :
  keeps (fun d => export_artifacts d = x) (_sync_export_dsr_execution_state a state).
Proof. keeps_solve. Qed.

Lemma frame_record ctx action a x :
  keeps (fun d => export_artifacts d = x) (ExportArtifactService._record_event ctx action a).
Proof. keeps_solve. Qed.

Lemma keeps_artifact_expire now_arg limit : kept (expire_ready_artifacts now_arg limit).
Proof.
  apply keeps_bind; [keeps_solve|]. intros _. apply keeps_bind; [keeps_solve|]. intros n d Hd.
  apply wp_bind, wp_bind, wp_select, wp_ret.
  apply (keeps_follow_each artifact_sound artifact_moves); [|done].
  intros r d1 Q Hd1 Hr [Hs%status_of_bool _]%andb_true_iff HQ. apply wp_bind.
  apply (wp_follow_update artifact_sound artifact_moves t0); [..|done| |].
  - intros a. by rewrite mark_expired_eq.
  - intros r1 Hr1 Ha. simpl in Hr, Hr1. rewrite Hr in Hr1. injection Hr1 as <-.
    by apply allowed_expired.
  - intros r1 r2 d2 _ _ _ Hother Hd2.
    assert (Hrest : keeps (fun d => under (artifacts_follow t0) d /\ export_artifacts d = export_artifacts d2)
      (state ← _execution_state_for_dsr r2 n;
       _sync_export_dsr_execution_state r2 state ;;
       ExportArtifactService._record_event (system_context None) AuditAction.EXPORT_ARTIFACT_EXPIRED r2 ;;
       mret (ExportArtifact.id r2))).
    { apply keeps_and; keeps_solve. }
    eapply wp_mono; [by apply Hrest| |done]. intros u d3 [Hd3 Hsame]. apply HQ; [done|].
    intros k' Hk'. simpl in Hother |- *. rewrite Hsame. by apply Hother.
Qed.

Lemma keeps_artifact_write a dsr token path filename key n :
  forall settings, owned_key (ExportArtifact.id a) key ->
  kept (write_and_commit_intent settings a dsr token path filename key n).
Proof.
  intros settings Hk. unfold write_and_commit_intent.
  repeat first [ by apply keeps_artifact_intent | keeps_step ].
Qed.

Lemma keeps_artifact_prepare settings id token : kept (prepare_export_archive settings id token).
Proof.
  unfold prepare_export_archive, unlinking.
  repeat lazymatch goal with
  | |- kept (write_and_commit_intent _ _ _ _ _ _ _ _) =>
      apply keeps_artifact_write; eexists; reflexivity
  | |- _ => keeps_step
  end.
Qed.

End Keeps.

#[export] Hint Resolve keeps_artifact_queued keeps_artifact_claim keeps_artifact_recover
  keeps_artifact_renew keeps_artifact_reset keeps_artifact_ready keeps_artifact_failed
  keeps_artifact_clear_failed keeps_artifact_clear_purge keeps_artifact_issued
  keeps_artifact_confirm keeps_artifact_expire keeps_artifact_prepare : keeps.
