(* ===== verification/ExportWorkerProofs.v ===== *)
(** The export worker: leases are exclusive and fence their holders, every leased
    artifact is settled, and the worker's loop ends. *)
From S2P Require Import Prelude Errors Session Schema Tables Rows AuditLog Users Invites.
From S2P Require Import ExportArtifacts DataSubjectRequests ExportArtifactServices ExportWorker.
From S2P Require Import SubjectExports SubjectExportProofs Fixtures AuditProofs ExportArtifactProofs.
Import ExportArtifactLifecycle ExportArtifactRepository ExportArtifactService ExportWorker.

(** ** Leases *)

(** The artifact's row carries the lease. *)
Definition held (d : Db) (lease : ProcessingExportLease) : bool :=
  match export_artifacts d !! lease_artifact_id lease with
  | None => false
  | Some a => processing_by_token (lease_artifact_id lease) (lease_processing_token lease) a
  end.

(** A claim may take the artifact: it waits, or its lease has run out. *)
Definition claimable (n : datetime) (a : ExportArtifact.t) : Prop :=
  ExportArtifact.status a = ExportArtifactStatus.QUEUED \/
  (ExportArtifact.status a = ExportArtifactStatus.PROCESSING /\
   exists e, ExportArtifact.processing_lease_expires_at a = Some e /\ e < n).

Lemma claimable_iff n a :
  claimable n a <-> has_status ExportArtifactStatus.QUEUED a = true \/ is_stale n a = true.
Proof.
  unfold claimable, is_stale, has_status. rewrite andb_true_iff, !bool_decide_eq_true.
  destruct (ExportArtifact.processing_lease_expires_at a) as [e|]; [rewrite Z.ltb_lt|]; naive_solver.
Qed.

Section Leases.
Context `{Env} `{Network} `{StorageAdapter} `{ArchiveFiles}.
Implicit Types (d : Db) (a : ExportArtifact.t) (lease : ProcessingExportLease).

(** The query every step of the worker starts with. *)
Lemma wp_by_token lease P (Q : option ExportArtifact.t -> Db -> Prop) E d :
  wf d ->
  (forall a, P a = true ->
     processing_by_token (lease_artifact_id lease) (lease_processing_token lease) a = true) ->
  (forall a, export_artifacts d !! lease_artifact_id lease = Some a -> held d lease = true ->
     P a = true -> Q (Some a) d) ->
  ((forall a, export_artifacts d !! lease_artifact_id lease = Some a -> P a = false) -> Q None d) ->
  wp (select_one_or_none P) Q E d.
Proof.
  intros Hwf HP HS HN. apply wp_select_one_or_none; [done|..].
  - intros r r' _ _ Hr%HP%token_true Hr'%HP%token_true. destruct Hr as [Hr _], Hr' as [Hr' _].
    simpl. congruence.
  - intros a Ha Hs. pose proof (proj1 (token_true _ _ _ (HP a Hs))) as Hid.
    simpl in Ha. rewrite Hid in Ha. apply HS; [done| |done]. unfold held. rewrite Ha. by apply HP.
  - intros Hno. apply HN. intros a. apply Hno.
Qed.

Lemma not_held lease P d :
  (forall a, P a = true ->
     processing_by_token (lease_artifact_id lease) (lease_processing_token lease) a = true) ->
  held d lease = false -> forall k a, wf d -> export_artifacts d !! k = Some a -> P a = false.
Proof.
  intros HP Hh k a Hwf Ha. destruct (P a) eqn:Hs; [|done]. apply HP in Hs.
  pose proof (wf_pk (R := ExportArtifact.t) d k a Hwf Ha) as Hk. simpl in Hk.
  pose proof (proj1 (token_true _ _ _ Hs)) as Hid. rewrite Hid in Hk. subst k.
  unfold held in Hh. rewrite Ha in Hh. congruence.
Qed.

End Leases.

(** ** Fencing *)
Section Fencing.
Context `{Env} `{Network} `{StorageAdapter} `{ArchiveFiles}.
Implicit Types (d : Db) (a : ExportArtifact.t) (lease : ProcessingExportLease).

(** A lease the row no longer carries finds no artifact. *)
Lemma wp_without_lease lease (Q : option ExportArtifact.t -> Db -> Prop) P E d :
  wf d -> held d lease = false ->
  (forall a, P a = true ->
     processing_by_token (lease_artifact_id lease) (lease_processing_token lease) a = true) ->
  Q None d -> wp (select_one_or_none P) Q E d.
Proof.
  intros Hwf Hh HP HQ. apply (wp_by_token lease); [done..| |by intros _].
  intros a _ Hh'. congruence.
Qed.

Lemma active_by_token id token n a :
  active_processing id token n a = true -> processing_by_token id token a = true.
Proof. unfold active_processing. by intros [? _]%andb_true_iff. Qed.

Lemma intent_by_token id token n backend key a :
  active_upload_intent id token n backend key a = true -> processing_by_token id token a = true.
Proof.
  unfold active_upload_intent. by intros [[[?%active_by_token _]%andb_true_iff _]%andb_true_iff _]%andb_true_iff.
Qed.

(** A worker whose lease was taken back cannot do anything with it: whatever
    archive it prepared and whatever error it met, renewing, preparing, validating,
    resetting and marking the artifact ready or failed all leave the database
    exactly as it is. The writes that would publish report a conflict, the
    renewal and the failure report that there is nothing to do. *)
Theorem stale_lease_fenced settings lease prepared exc d :
  wf d -> held d lease = false -> Prepared.artifact_id prepared = lease_artifact_id lease ->
  commits (_renew_processing_lease lease) (fun renewed d' => renewed = false /\ d' = d)
    (fun _ => False) d /\
  commits (_prepare_export_archive settings lease) (fun _ _ => False) (fun e =>
    e = if enabled settings then artifact_not_found
        else ConflictError "Privacy export artifacts are disabled") d /\
  commits (begin (validate_prepared_export_upload prepared (lease_processing_token lease)))
    (fun _ _ => False)
    (fun e => e = ConflictError "Export artifact upload intent is no longer active") d /\
  commits (begin (reset_prepared_export_upload_intent prepared (lease_processing_token lease)))
    (fun reset d' => reset = false /\ d' = d) (fun _ => False) d /\
  commits (_mark_export_ready lease prepared) (fun _ _ => False)
    (fun e => e = ConflictError "Export artifact processing lease is no longer active") d /\
  commits (_mark_export_failed lease exc) (fun cleanup d' => cleanup = None /\ d' = d)
    (fun _ => False) d.
Proof.
  intros Hwf Hh Hid. repeat split.
  - apply commits_begin, wp_bind, (wp_without_lease lease); [done..|]. by apply wp_ret.
  - apply commits_begin. unfold prepare_export_archive.
    apply wp_bind, wp_raise_if; intros Hen; [by destruct (enabled settings)|].
    apply negb_false_iff in Hen. rewrite Hen.
    apply wp_bind, (wp_without_lease lease); [done..|]. by apply wp_bind, wp_raise.
  - apply commits_begin, wp_bind, wp_draw. intros i.
    apply wp_bind, (wp_without_lease lease); [done..| |by apply wp_bind, wp_raise].
    intros a. rewrite Hid. apply intent_by_token.
  - apply commits_begin, wp_bind, wp_draw. intros i. apply wp_bind, wp_update_where_none; [|by apply wp_ret].
    intros k a Ha. apply (not_held lease _ d) with k; [|done..].
    intros a'. rewrite Hid. apply intent_by_token.
  - apply commits_bind_ret, commits_begin, wp_bind, (wp_without_lease lease); [done..| |by apply wp_bind, wp_raise].
    intros a. by rewrite Hid.
  - apply commits_begin, wp_bind, wp_bind, (wp_without_lease lease); [done..|]. by apply wp_ret, wp_ret.
Qed.

End Fencing.

(** ** Claims *)
Section Claims.
Context `{Env} `{Network} `{StorageAdapter} `{ArchiveFiles}.
Implicit Types (d : Db) (a : ExportArtifact.t) (lease : ProcessingExportLease).

(** A row and what a claim, or the recovery of a stale lease, made of it. *)
Definition was_claimed a a' : Prop :=
  exists n token until, written (claimed n token until) a a'.

Lemma was_claimed_fields a a' :
  was_claimed a a' -> ExportArtifact.id a' = ExportArtifact.id a
  /\ ExportArtifact.status a' = ExportArtifactStatus.PROCESSING
  /\ is_Some (ExportArtifact.processing_token a').
Proof. by intros (n & token & until & [->|[m ->]]). Qed.

Lemma was_requeued_fields a a' :
  written requeued a a' -> ExportArtifact.id a' = ExportArtifact.id a
  /\ ExportArtifact.status a' = ExportArtifactStatus.QUEUED.
Proof. by intros [->|[m ->]]. Qed.

Lemma wp_recover n limit d (Q : list ExportArtifact.t -> Db -> Prop) :
  wf d -> (forall l d', batch_written limit (is_stale n) (written requeued) d l d' -> Q l d') ->
  wp (recover_stale_processing n limit) Q any_exn d.
Proof.
  intros Hwf HQ. apply wp_bind, wp_select.
  apply (wp_write_batch (written requeued)); [|done..]. intros a d1 Q1 Hwf1 Ha HQ1.
  by refine (wp_update_read a requeued d1 Q1 _ Hwf1 Ha HQ1).
Qed.

Lemma wp_claim_batch limit lease_seconds d (Q : list ExportArtifact.t -> Db -> Prop) :
  wf d ->
  (forall l d', batch_written limit (has_status ExportArtifactStatus.QUEUED) was_claimed d l d' -> Q l d') ->
  wp (claim_queued_batch limit lease_seconds) Q any_exn d.
Proof.
  intros Hwf HQ. apply wp_bind, wp_select, wp_bind, wp_draw. intros i.
  apply (wp_write_batch was_claimed); [|done..]. intros a d1 Q1 Hwf1 Ha HQ1.
  apply wp_bind, wp_draw. intros j. refine (wp_update_read a _ d1 Q1 _ Hwf1 Ha _); [done|].
  intros a' d2 Hk Hw. apply HQ1; [done|]. by repeat eexists.
Qed.

(** What follows the writes of a batch leaves the artifacts alone. *)
Lemma wp_artifacts_same {A} (m : M Db A) (Q : A -> Db -> Prop) d :
  keeps wf m -> (forall x, keeps (fun d => export_artifacts d = x) m) -> wf d ->
  (forall x d', wf d' -> export_artifacts d' = export_artifacts d -> Q x d') -> wp m Q any_exn d.
Proof.
  intros Hw Hx Hwf HQ. eapply wp_mono; [apply (keeps_and wf (fun d' => export_artifacts d' = export_artifacts d) m)|..];
    [done|done|done| |done]. intros x d' [? ?]. by apply HQ.
Qed.

Lemma leases_of_ids l :
  (forall a, a ∈ l -> is_Some (ExportArtifact.processing_token a)) ->
  lease_artifact_id <$> leases_of l = ExportArtifact.id <$> l.
Proof.
  induction l as [|a l IH]; intros Hl; [done|]. unfold leases_of. simpl.
  destruct (Hl a) as [token Ht]; [by constructor|]. rewrite Ht. simpl. f_equal.
  apply IH. intros a' Ha'. apply Hl. by constructor.
Qed.

Lemma elem_of_leases l lease :
  lease ∈ leases_of l -> exists a, a ∈ l /\ lease_artifact_id lease = ExportArtifact.id a
    /\ ExportArtifact.processing_token a = Some (lease_processing_token lease).
Proof.
  intros Hl. apply list_elem_of_omap in Hl as (a & Ha & Hx). exists a. split; [done|].
  by destruct (ExportArtifact.processing_token a); inversion Hx.
Qed.

(** The worker's claim, with the moment [n] at which leases were found stale. *)
Record claim_made (settings : PrivacyExportsSettings) (batch : nat) (n : datetime) d
    (leases : list ProcessingExportLease) d' : Prop := {
  made_wf : wf d';
  made_size : (length leases <= batch)%nat;
  made_distinct : NoDup (lease_artifact_id <$> leases);
  made_held : forall lease, lease ∈ leases -> held d' lease = true;
  made_from : forall k a', export_artifacts d' !! k = Some a' ->
    exists a, export_artifacts d !! k = Some a /\ (a' = a \/ claimable n a);
  made_other : forall k a, export_artifacts d !! k = Some a -> ~ claimable n a ->
    export_artifacts d' !! k = Some a;
  made_all : enabled settings = true -> (length leases < batch)%nat ->
    forall k a', export_artifacts d' !! k = Some a' -> has_status ExportArtifactStatus.QUEUED a' = false;
}.

Lemma claim_composed settings limit n d l1 d1 d2 l2 d3 d4 :
  batch_written limit (is_stale n) (written requeued) d l1 d1 ->
  export_artifacts d2 = export_artifacts d1 ->
  batch_written limit (has_status ExportArtifactStatus.QUEUED) was_claimed d2 l2 d3 ->
  wf d4 -> export_artifacts d4 = export_artifacts d3 ->
  claim_made settings limit n d (leases_of l2) d4.
Proof.
  intros [_ [Hnd1 _] _ Hr1 Ho1 _] E2 [Hwf3 [Hnd3 Hl3] Hn3 Hr3 Ho3 Hall3] Hwf4 E4.
  simpl in *. rewrite E2 in *.
  assert (Htok : forall a, a ∈ l2 -> is_Some (ExportArtifact.processing_token a)).
  { intros a (a0 & _ & _ & Hc)%Hr3. by destruct (was_claimed_fields _ _ Hc) as (_ & _ & ?). }
  pose proof (leases_of_ids l2 Htok) as Hids.
  assert (Hrec : forall k a1, export_artifacts d1 !! k = Some a1 ->
    exists a, export_artifacts d !! k = Some a /\ (a1 = a \/ is_stale n a = true)).
  { intros k a1 Ha1. destruct (decide (k ∈ ExportArtifact.id <$> l1)) as [Hk|Hk].
    - apply list_elem_of_fmap in Hk as (x & -> & Hx). destruct (Hr1 x Hx) as (a & Ha & Hs & _). eauto.
    - rewrite Ho1 in Ha1 by done. eauto. }
  assert (Hkeep : forall k a, export_artifacts d !! k = Some a -> is_stale n a = false ->
    export_artifacts d1 !! k = Some a).
  { intros k a Ha Hs. rewrite Ho1; [done|]. intros (x & -> & Hx)%list_elem_of_fmap.
    destruct (Hr1 x Hx) as (a0 & Ha0 & Hs0 & _). congruence. }
  split; [done|..].
  - rewrite <- (length_fmap lease_artifact_id), Hids, length_fmap. done.
  - by rewrite Hids.
  - intros lease (a & Ha & Hid & Ht)%elem_of_leases. unfold held.
    rewrite Forall_forall in Hl3. specialize (Hl3 a Ha). simpl in Hl3.
    rewrite Hid, E4, Hl3. unfold processing_by_token, has_status.
    destruct (Hr3 a Ha) as (a0 & _ & _ & (_ & Hs & _)%was_claimed_fields).
    rewrite !andb_true_iff, !bool_decide_eq_true. done.
  - intros k a'. rewrite E4. intros Ha'. destruct (decide (k ∈ ExportArtifact.id <$> l2)) as [Hk|Hk].
    + apply list_elem_of_fmap in Hk as (x & -> & Hx). destruct (Hr3 x Hx) as (a1 & Ha1 & Hq & _).
      destruct (Hrec _ a1 Ha1) as (a & Ha & [->|Hs]); exists a; (split; [done|right]);
        apply claimable_iff; auto.
    + rewrite Ho3 in Ha' by done. destruct (Hrec k a' Ha') as (a & Ha & [->|Hs]); exists a; [by eauto|].
      split; [done|right]. apply claimable_iff. by right.
  - intros k a Ha Hno. assert (has_status ExportArtifactStatus.QUEUED a = false /\ is_stale n a = false) as [Hq Hs].
    { split; apply not_true_iff_false; intros Hc; destruct Hno; apply claimable_iff; auto. }
    rewrite E4, Ho3; [by apply Hkeep|].
    intros (x & -> & Hx)%list_elem_of_fmap. destruct (Hr3 x Hx) as (a1 & Ha1 & Hq1 & _).
    rewrite (Hkeep _ a Ha Hs) in Ha1. congruence.
  - intros _ Hlt k a'. rewrite E4. intros Ha'. apply not_true_iff_false. intros Hq.
    rewrite <- (length_fmap lease_artifact_id), Hids, length_fmap in Hlt.
    destruct (decide (k ∈ ExportArtifact.id <$> l2)) as [Hk|Hk].
    + apply list_elem_of_fmap in Hk as (x & -> & Hx). rewrite Forall_forall in Hl3.
      specialize (Hl3 x Hx). simpl in Hl3. rewrite Hl3 in Ha'. injection Ha' as <-.
      destruct (Hr3 x Hx) as (a1 & _ & _ & (_ & Hs & _)%was_claimed_fields).
      apply status_of_bool in Hq. congruence.
    + rewrite Ho3 in Ha' by done. destruct Hk. by apply (Hall3 Hlt k a').
Qed.

(** The claim after its first reading of the clock. *)
Definition claim_at (settings : PrivacyExportsSettings) (batch : nat) (n : datetime)
    : M Db (list ProcessingExportLease) :=
  (recovered ← recover_stale_processing n batch;
   for_each recovered (fun artifact =>
     state ← _execution_state_for_dsr artifact n;
     _sync_export_dsr_execution_state artifact state) ;;
   mret (length recovered)) ;;
  rows ← claim_queued_batch batch DEFAULT_PROCESSING_LEASE_SECONDS;
  for_each rows (fun row => _sync_export_dsr_execution_state row
    (DataSubjectRequestExecutionStatus.PROCESSING, ExportArtifact.started_at row, None, None)) ;;
  mret (leases_of rows).

Lemma wp_claim_at settings batch n d (Q : list ProcessingExportLease -> Db -> Prop) :
  wf d -> (forall leases d', claim_made settings batch n d leases d' -> Q leases d') ->
  wp (claim_at settings batch n) Q any_exn d.
Proof.
  intros Hwf HQ. apply wp_bind, wp_bind, wp_recover; [done|]. intros l1 d1 Hb1.
  apply wp_bind, wp_artifacts_same; [keeps_solve|keeps_solve|by apply Hb1|].
  intros us d2 Hwf2 E2. apply wp_ret, wp_bind, wp_claim_batch; [done|]. intros l2 d3 Hb3.
  apply wp_bind, wp_artifacts_same; [keeps_solve|keeps_solve|by apply Hb3|].
  intros us' d4 Hwf4 E4. apply wp_ret, HQ. by eapply claim_composed.
Qed.

(** Nothing is claimed where exports are off. *)
Lemma claim_made_off settings batch n d :
  wf d -> enabled settings = false -> claim_made settings batch n d [] d.
Proof. intros Hwf Hen. split; try done; [simpl; lia|constructor|set_solver|eauto|congruence]. Qed.

Lemma wp_claim_leases settings batch d (Q : list ProcessingExportLease -> Db -> Prop) :
  wf d -> (forall n leases d', claim_made settings batch n d leases d' -> Q leases d') ->
  wp (claim_queued_artifact_leases settings batch) Q any_exn d.
Proof.
  intros Hwf HQ. unfold claim_queued_artifact_leases.
  destruct (enabled settings) eqn:Hen; simpl.
  - change (wp (n ← now; claim_at settings batch n) Q any_exn d).
    apply wp_bind, wp_draw. intros i. apply wp_claim_at; [done|]. apply HQ.
  - apply wp_ret, (HQ 0). by apply claim_made_off.
Qed.


End Claims.

(** ** A leased artifact is settled *)

(** Its generation has an outcome. *)
Definition settled (a : ExportArtifact.t) : bool :=
  match ExportArtifact.status a with
  | ExportArtifactStatus.READY | ExportArtifactStatus.FAILED => true
  | _ => false
  end.

Definition leased (lease : ProcessingExportLease) (a : ExportArtifact.t) : bool :=
  processing_by_token (lease_artifact_id lease) (lease_processing_token lease) a.

(** What the holder of a lease does to an artifact: nothing to the others, and to its
    own everything until it has an outcome. *)
Record worked (lease : ProcessingExportLease) (a a' : ExportArtifact.t) : Prop := {
  worked_id : ExportArtifact.id a' = ExportArtifact.id a;
  worked_other : ExportArtifact.id a <> lease_artifact_id lease -> a' = a;
  worked_lease : leased lease a' = true -> leased lease a = true;
  worked_outcome : leased lease a = true -> leased lease a' = true \/ settled a' = true;
  worked_settled : settled a = true -> settled a' = true;
}.

#[export] Instance worked_preorder lease : PreOrder (worked lease).
Proof.
  split; [split; auto|].
  intros a b c [i1 o1 l1 u1 s1] [i2 o2 l2 u2 s2]. split; auto.
  - congruence.
  - intros Ha. rewrite o2, o1; [done|done|]. by rewrite o1.
  - intros [?|?]%u1; auto.
Qed.

(** The artifacts of [d] are those of [t0], as the holder of [lease] left them. *)
Definition worked_on (lease : ProcessingExportLease) (t0 : gmap UUID ExportArtifact.t) : Db -> Prop :=
  rows_follow (fun a => is_Some (t0 !! pk a)) (worked lease) t0.

#[export] Instance worked_on_on lease t0 : On export_artifacts (worked_on lease t0).
Proof. exact (rows_follow_on _ _ t0). Qed.

Section Work.
Context `{Env} `{Network} `{StorageAdapter} `{ArchiveFiles}.
Variable (settings : PrivacyExportsSettings) (lease : ProcessingExportLease).
Variable (t0 : gmap UUID ExportArtifact.t).
Implicit Types (d : Db) (a : ExportArtifact.t).

Abbreviation may_work := (allowed (fun a => is_Some (t0 !! pk a)) (worked lease)).
Abbreviation kept := (keeps (under (worked_on lease t0))).

Lemma leased_true a :
  leased lease a = true -> ExportArtifact.id a = lease_artifact_id lease
  /\ ExportArtifact.status a = ExportArtifactStatus.PROCESSING
  /\ ExportArtifact.processing_token a = Some (lease_processing_token lease).
Proof. apply token_true. Qed.

(** The holder writes a row of its lease: it stays leased, or it has an outcome. *)
Lemma work_allowed f a :
  (forall r, pk (f r) = pk r) -> is_Some (t0 !! pk a) -> leased lease a = true ->
  (forall n, leased lease (touch n (f a)) = true \/ settled (f a) = true) -> may_work f a.
Proof.
  intros Hf Ha Hl Hout n. pose proof (leased_true a Hl) as (Hid & Hs & _).
  assert (Hpk : ExportArtifact.id (ExportArtifact.set_updated_at n (f a)) = ExportArtifact.id a)
    by exact (Hf a).
  split; [by rewrite pk_touch, Hf|]. split; [exact Hpk|done|done|intros _; apply Hout|].
  unfold settled. by rewrite Hs.
Qed.

Lemma leased_intent a key filename content_type size checksum n :
  leased lease a = true ->
  leased lease (touch n (with_upload_intent key filename content_type size checksum a)) = true.
Proof. done. Qed.

Lemma keeps_work_intent P key filename content_type size checksum :
  (forall a, P a = true -> leased lease a = true) ->
  kept (update_where P (with_upload_intent key filename content_type size checksum)).
Proof.
  intros HP. apply (keeps_follow_update_where _ (worked lease)); [done|].
  intros a Ha Hs%HP. apply work_allowed; [done..|]. intros n. left. by apply leased_intent.
Qed.

Lemma keeps_work_ensure key filename content_type size checksum n :
  kept (ensure_processing_upload_intent (lease_artifact_id lease) (lease_processing_token lease)
          key filename content_type size checksum n).
Proof.
  apply keeps_bind; [|intros; keeps_solve]. apply keeps_work_intent.
  intros a [?%active_by_token _]%andb_true_iff. done.
Qed.

Lemma keeps_work_reset backend key n :
  kept (reset_processing_upload_intent (lease_artifact_id lease) (lease_processing_token lease)
          backend key n).
Proof.
  apply keeps_bind; [|intros; apply keeps_ret]. apply keeps_work_intent. intros a. apply intent_by_token.
Qed.

Lemma keeps_work_ready prepared user :
  kept (mark_generated_export_artifact_ready (lease_artifact_id lease) prepared user
          (Some (lease_processing_token lease))).
Proof.
  apply (keeps_find _ (worked lease)); [|by intros d Hd; apply wp_bind, wp_raise].
  intros a d Hd Ha Hl. apply wp_bind, wp_ret, wp_bind, wp_raise_if; [done|]. intros _.
  apply wp_bind, wp_bind, wp_draw. intros i.
  apply (wp_rewritten _ (worked lease) t0 _ a); [|done|done| |intros; keeps_solve].
  - intros r. by rewrite mark_ready_eq.
  - intros Hok. apply work_allowed; [|done..|].
    + intros r. by rewrite mark_ready_eq.
    + intros n. right. unfold settled. by rewrite mark_ready_eq.
Qed.

Lemma keeps_work_failed exc user :
  kept (ExportArtifactService.mark_export_artifact_failed (lease_artifact_id lease) exc user
          (Some (lease_processing_token lease))).
Proof.
  apply (keeps_find _ (worked lease)); [|keeps_solve].
  intros a d Hd Ha Hl. apply wp_bind, wp_bind, wp_draw. intros i.
  apply (wp_rewritten _ (worked lease) t0 _ a); [|done|done| |intros; keeps_solve].
  - intros r. by rewrite mark_failed_eq.
  - intros Hok. apply work_allowed; [|done..|].
    + intros r. by rewrite mark_failed_eq.
    + intros n. right. unfold settled. by rewrite mark_failed_eq.
Qed.

Lemma keeps_work_clear_failed cleanup :
  cleanup_artifact_id cleanup = lease_artifact_id lease ->
  kept (clear_failed_export_storage_metadata cleanup).
Proof.
  intros Hid. apply (keeps_find _ (worked lease)); [|keeps_solve].
  intros a d Hd Ha [[Hi%bool_decide_eq_true Hs%status_of_bool]%andb_true_iff _]%andb_true_iff.
  apply wp_bind, (wp_rewritten _ (worked lease) t0 _ a); [|done|done| |intros; keeps_solve].
  - intros r. by rewrite clear_storage_eq.
  - intros [t Ht] n. rewrite clear_storage_eq. split; [by exists t|].
    assert (Hf : forall a', ExportArtifact.status a' = ExportArtifactStatus.FAILED ->
      leased lease a' = true -> False).
    { intros a' Hs' (_ & Hp & _)%leased_true. by rewrite Hs' in Hp. }
    split; [done|intros Hne; by rewrite Hi in Hne|by intros ?%Hf|by intros ?%Hf|]. unfold settled. simpl. by rewrite Hs.
Qed.

Lemma keeps_work_write a dsr path filename key n :
  ExportArtifact.id a = lease_artifact_id lease ->
  kept (write_and_commit_intent settings a dsr (lease_processing_token lease) path filename key n).
Proof.
  intros Hid. unfold write_and_commit_intent. rewrite Hid.
  repeat lazymatch goal with
  | |- kept (ensure_processing_upload_intent _ _ _ _ _ _ _ _) => apply keeps_work_ensure
  | |- _ => keeps_step
  end.
Qed.

Lemma keeps_work_prepare :
  kept (prepare_export_archive settings (lease_artifact_id lease) (lease_processing_token lease)).
Proof.
  unfold prepare_export_archive. apply keeps_bind; [keeps_solve|]. intros _.
  apply (keeps_find _ (worked lease)); [|by intros d Hd; apply wp_bind, wp_raise].
  intros a d Hd _ Hl. pose proof (leased_true a Hl) as [Hid _].
  apply wp_bind, wp_ret. revert d Hd.
  match goal with |- forall d, _ -> wp ?m _ _ _ => change (kept m) end. unfold unlinking.
  repeat lazymatch goal with
  | |- kept (write_and_commit_intent _ _ _ _ _ _ _ _) => by apply keeps_work_write
  | |- _ => keeps_step
  end.
Qed.

End Work.

#[export] Hint Resolve keeps_work_reset keeps_work_prepare keeps_work_ready keeps_work_failed
  keeps_work_clear_failed : keeps.

(** *** The exceptions of the worker's transactions *)
Section Exceptions.
Context `{Env} `{Network} `{StorageAdapter} `{ArchiveFiles}.
Variables (settings : PrivacyExportsSettings) (E : exn -> Prop).
Hypothesis HE : forall e, database_error e -> E e.

Lemma raises_record_artifact ctx action a :
  raises E (ExportArtifactService._record_event ctx action a).
Proof.
  intros d. apply wp_bind, wp_record_event; [|intros _; apply HE; by left|intros; by apply wp_ret].
  by destruct (ExportArtifact.status a), (ExportArtifact.format a).
Qed.

Lemma raises_sync a state : raises E (_sync_export_dsr_execution_state a state).
Proof. raises_solve. Qed.

Hint Resolve raises_record_artifact raises_sync : raises.

Lemma raises_mark_failed id exc user token :
  raises E (ExportArtifactService.mark_export_artifact_failed id exc user token).
Proof. raises_solve. Qed.

Lemma raises_claim_leases batch : raises E (claim_queued_artifact_leases settings batch).
Proof. raises_solve. Qed.

End Exceptions.

#[export] Hint Resolve raises_record_artifact raises_sync raises_mark_failed raises_claim_leases : raises.

(** The storage and the file system always say what became of an object. *)
Record decided `{StorageAdapter} `{ArchiveFiles} : Prop := {
  decided_reserve b key owner n : reserve_file_publication b key owner n <> Err StorageObjectStateUnknownError;
  decided_publish b r path ty sum n :
    publish_reserved_file b r path ty sum n <> Err StorageObjectStateUnknownError;
  decided_cancel b r n : cancel_file_publication b r n <> Err StorageObjectStateUnknownError;
  decided_inspect b key sum size n : inspect_file b key sum size n <> Err StorageObjectStateUnknownError;
  decided_delete b key sum size n :
    delete_file_if_not_matching b key sum size n <> Err StorageObjectStateUnknownError;
  decided_path n : temporary_archive_path n <> Err StorageObjectStateUnknownError;
  decided_write path text n : write_archive path text n <> Err StorageObjectStateUnknownError;
  decided_unlink path n : unlink_file path n <> Err StorageObjectStateUnknownError;
}.

Section Settles.
Context `{Env} `{Network} `{StorageAdapter} `{ArchiveFiles}.
Variables (settings : PrivacyExportsSettings) (lease : ProcessingExportLease).
Hypothesis Hdec : decided.
Implicit Types (d : Db) (a : ExportArtifact.t).

Definition known (e : exn) : Prop := e <> StorageObjectStateUnknownError.

Lemma known_database e : database_error e -> known e.
Proof. by intros [->|[->|[->| ->]]]. Qed.

Lemma known_export : export_error known.
Proof. by intros code. Qed.

#[local] Hint Resolve known_export : raises.

Ltac known_solve := intros; first
  [ done | by apply known_database | intros ->;
    match goal with Hi : _ = Err _ |- _ => revert Hi end;
    first [ apply decided_reserve | apply decided_publish | apply decided_cancel | apply decided_inspect
          | apply decided_delete | apply decided_path | apply decided_write | apply decided_unlink ]; done ].

Lemma known_prepare id token : raises known (prepare_export_archive settings id token).
Proof. pose proof known_database. unfold prepare_export_archive, unlinking. raises_solve; known_solve. Qed.

Lemma known_validate prepared token : raises known (validate_prepared_export_upload prepared token).
Proof. pose proof known_database. raises_solve; known_solve. Qed.

Lemma known_reset prepared token : raises known (reset_prepared_export_upload_intent prepared token).
Proof. pose proof known_database. raises_solve; known_solve. Qed.

Lemma known_ready id prepared user token :
  raises known (mark_generated_export_artifact_ready id prepared user token).
Proof. pose proof known_database. raises_solve; known_solve. Qed.

Lemma known_cancelling prepared reservation m :
  throws known m -> throws known (cancelling prepared reservation m).
Proof.
  intros Hm. apply throws_try_reraise with known; [done|]. intros e He.
  repeat throws_step; known_solve.
Qed.

Hint Resolve known_prepare known_validate known_reset known_ready : raises.

Ltac known_throws := repeat lazymatch goal with
  | |- throws _ (cancelling _ _ _) => apply known_cancelling
  | |- throws _ _ => throws_step
  | |- raises _ _ => solve [eauto 2 with raises | repeat raises_step; known_solve]
  end; known_solve.

Lemma known_obtain : throws known (obtain_archive settings lease).
Proof. known_throws. Qed.

Lemma known_generate : throws known (generate settings lease).
Proof. known_throws. Qed.

(** *** The outcome *)

Lemma held_same d d' : export_artifacts d' = export_artifacts d -> held d' lease = held d lease.
Proof. unfold held. by intros ->. Qed.

(** The write that ends a lease. *)
Lemma wp_outcome f a (Q : ExportArtifact.t -> Db -> Prop) d :
  wf d -> export_artifacts d !! lease_artifact_id lease = Some a -> leased lease a = true ->
  (forall r, ExportArtifact.id (f r) = ExportArtifact.id r) ->
  ExportArtifact.processing_token (f a) = None ->
  (forall a' d', wf d' -> ExportArtifact.id a' = lease_artifact_id lease -> held d' lease = false ->
     Q a' d') ->
  wp (update_row (ExportArtifact.id a) f) Q any_exn d.
Proof.
  intros Hwf Ha Hl Hf Ht HQ. pose proof (leased_true lease a Hl) as [Hid _].
  refine (wp_update_read a f d _ Hf Hwf _ _); [by rewrite <- Hid in Ha|].
  intros a' d1 Hk Hwr Hwf1 Hrows. simpl in Hk, Hrows. rewrite Hid in Hk, Hrows.
  apply HQ; [done..|]. unfold held. rewrite Hrows, lookup_insert_eq. apply not_true_iff_false.
  intros (_ & _ & Hx)%leased_true. destruct Hwr as [->|[n ->]]; simpl in Hx; congruence.
Qed.

Lemma wp_ready_outcome prepared user d :
  wf d ->
  wp (mark_generated_export_artifact_ready (lease_artifact_id lease) prepared user
        (Some (lease_processing_token lease)))
    (fun _ d' => held d' lease = false) any_exn d.
Proof.
  intros Hwf. apply wp_bind, (wp_by_token lease); [done..| |by intros _; apply wp_bind, wp_raise].
  intros a Ha _ Hl. apply wp_bind, wp_ret, wp_bind, wp_raise_if; [done|]. intros _.
  apply wp_bind, wp_bind, wp_draw. intros i. apply wp_outcome; [done..| | |].
  - intros r. by rewrite mark_ready_eq.
  - by rewrite mark_ready_eq.
  - intros a' d1 Hwf1 _ Hh. apply wp_artifacts_same; [keeps_solve|keeps_solve|done|].
    intros x d2 _ E2. by rewrite (held_same d1).
Qed.

Lemma wp_failed_outcome exc user d :
  wf d ->
  wp (ExportArtifactService.mark_export_artifact_failed (lease_artifact_id lease) exc user
        (Some (lease_processing_token lease)))
    (fun r d' => held d' lease = false /\
       forall a, r = Some a -> ExportArtifact.id a = lease_artifact_id lease) any_exn d.
Proof.
  intros Hwf. apply wp_bind, (wp_by_token lease); [done..| |].
  - intros a Ha _ Hl. apply wp_bind, wp_bind, wp_draw. intros i. apply wp_outcome; [done..| | |].
    + intros r. by rewrite mark_failed_eq.
    + by rewrite mark_failed_eq.
    + intros a' d1 Hwf1 Hid Hh. apply wp_bind, wp_artifacts_same; [keeps_solve|keeps_solve|done|].
      intros x d2 Hwf2 E2. apply wp_bind, wp_artifacts_same; [keeps_solve|keeps_solve|done|].
      intros y d3 Hwf3 E3. apply wp_ret. rewrite (held_same d2), (held_same d1) by done.
      split; [done|]. by intros a'' [= <-].
  - intros Hno. apply wp_ret. split; [|done]. unfold held.
    destruct (export_artifacts d !! _) as [a|] eqn:Ha; [by apply Hno|done].
Qed.

(** *** The archive is the artifact's *)

Lemma wp_committed_id a (Q : Prepared.t -> Db -> Prop) d :
  (forall p, Prepared.artifact_id p = ExportArtifact.id a -> Q p d) ->
  wp (_prepared_from_committed_upload_intent a) Q any_exn d.
Proof.
  intros HQ. unfold _prepared_from_committed_upload_intent.
  destruct (ExportArtifact.storage_key a), (ExportArtifact.filename a), (ExportArtifact.content_type a),
    (ExportArtifact.size_bytes a), (ExportArtifact.checksum_sha256 a);
    first [by apply wp_raise|apply wp_ret; by apply HQ].
Qed.

Lemma wp_write_id a dsr path filename key n d :
  ExportArtifact.id a = lease_artifact_id lease -> wf d ->
  wp (write_and_commit_intent settings a dsr (lease_processing_token lease) path filename key n)
    (fun p _ => Prepared.artifact_id p = lease_artifact_id lease) any_exn d.
Proof.
  intros Hid Hwf. unfold write_and_commit_intent. rewrite Hid.
  apply wp_bind, wp_bind, wp_chunks; [intros chunks|done]. apply wp_await_external; [|done].
  intros i [sum size] _.
  apply wp_bind, wp_raise_if; [done|]. intros _. apply wp_bind, wp_draw. intros j.
  apply wp_bind, wp_bind. eapply wp_mono; [by apply (keeps_wf_update_where _ _)| |done]. intros l d1 Hwf1.
  apply (wp_by_token lease); [done|intros a'; apply intent_by_token| |].
  - intros a' _ _ Hs. apply intent_by_token in Hs as [Hid' _]%leased_true.
    apply wp_bind, wp_or_raise; [done|]. intros x [= <-].
    apply wp_bind, wp_or_raise; [done|]. intros k _. apply wp_bind, wp_committed_id. intros p Hp.
    destruct (negb _); [|by apply wp_ret].
    apply wp_bind, wp_await_external; [|done]. intros _ _ _. apply wp_ret. congruence.
  - intros _. apply wp_bind, wp_or_raise; [done|by intros x].
Qed.

Lemma wp_prepare_id d :
  wf d ->
  wp (prepare_export_archive settings (lease_artifact_id lease) (lease_processing_token lease))
    (fun p _ => Prepared.artifact_id p = lease_artifact_id lease) any_exn d.
Proof.
  intros Hwf. unfold prepare_export_archive. apply wp_bind, wp_raise_if; [done|]. intros _.
  apply wp_bind, (wp_by_token lease); [done..| |by intros _; apply wp_bind, wp_raise].
  intros a _ _ [Hid _]%leased_true. apply wp_bind, wp_ret, wp_bind.
  apply (wp_artifacts_same (DataSubjectRequestRepository.get_by_id _)); [keeps_solve|keeps_solve|done|].
  intros dsr d1 Hwf1 _. apply wp_bind, wp_or_raise; [done|]. intros r _.
  apply wp_bind, wp_raise_if; [done|]. intros _.
  destruct (negb _); [apply wp_committed_id; intros p Hp; congruence|].
  apply wp_bind, wp_draw. intros i. apply wp_bind, wp_await_external; [|done]. intros _ path _.
  apply wp_bind, wp_draw. intros j. cbv zeta. apply wp_except_external; [|done]. by apply wp_write_id.
Qed.

(** *** Processing *)
Section Processing.
Variable (before : gmap UUID ExportArtifact.t).

Abbreviation intact := (under (worked_on lease before)).

(** One transaction of the worker: what it keeps, what it raises and what it tells. *)
Lemma runs_transaction {A} (m : M Db A) (E : exn -> Prop) (Q : A -> Db -> Prop) d :
  keeps intact m -> raises E m -> (forall d, wf d -> wp m Q any_exn d) -> intact d ->
  runs (begin m) (fun r d' => intact d' /\ match r with Ok a => Q a d' | Err e => E e end) d.
Proof.
  intros Hk Hr Hm Hd. apply runs_begin.
  eapply wp_mono; [apply wp_and; [apply wp_and; [by apply Hk|by apply Hr]|by apply Hm, Hd]|..].
  - by intros a d' [[? _] ?].
  - by intros e [[_ ?] _].
Qed.

Definition for_lease (r : result Prepared.t) : Prop :=
  match r with Ok p => Prepared.artifact_id p = lease_artifact_id lease | Err e => known e end.

Lemma runs_prepare d :
  intact d -> runs (_prepare_export_archive settings lease) (fun r d' => intact d' /\ for_lease r) d.
Proof.
  intros Hd. eapply runs_mono; [apply (runs_transaction _ known (fun p _ => Prepared.artifact_id p = lease_artifact_id lease));
    [by apply keeps_work_prepare|
    by apply known_prepare|by apply wp_prepare_id|done]|]. by intros [p|e] d' [? ?].
Qed.

Lemma preserves_reset prepared :
  Prepared.artifact_id prepared = lease_artifact_id lease ->
  preserves intact (_reset_committed_export_upload_intent lease prepared).
Proof.
  intros Hid. unfold _reset_committed_export_upload_intent, reset_prepared_export_upload_intent.
  rewrite Hid. repeat preserves_step; keeps_solve.
Qed.

Lemma runs_obtain d :
  intact d -> runs (obtain_archive settings lease) (fun r d' => intact d' /\ for_lease r) d.
Proof.
  intros Hd. apply runs_bind. eapply runs_mono; [by apply runs_prepare|].
  intros [p|e] d1 [Hd1 Hp]; [|done]. destruct (negb _); [by apply runs_ret|].
  apply (runs_seq known intact); [|by known_throws|done|done|].
  { repeat preserves_step. }
  intros recovered d2 Hd2. destruct recovered; [by apply runs_ret|].
  apply (runs_seq known intact); [by apply preserves_reset|by known_throws|done|done|].
  intros reset d3 Hd3. destruct reset; [by apply runs_prepare|by apply runs_ret].
Qed.

Lemma runs_generate d :
  intact d ->
  runs (generate settings lease) (fun r d' => intact d' /\
    match r with Ok _ => held d' lease = false | Err e => known e end) d.
Proof.
  intros Hd. apply runs_bind. eapply runs_mono; [by apply runs_obtain|].
  intros [p|e] d1 [Hd1 Hp]; [|done].
  apply (runs_seq known intact); [|by known_throws|done|done|].
  { destruct (negb _); repeat preserves_step; keeps_solve. }
  intros [] d2 Hd2. apply runs_bind. unfold for_lease in Hp. rewrite Hp.
  eapply runs_mono; [apply (runs_transaction _ known (fun _ d' => held d' lease = false));
    [by apply keeps_work_ready|by apply known_ready|intros; by apply wp_ready_outcome|done]|].
  intros [a|e] d3 [Hd3 Ha]; [by apply runs_ret|done].
Qed.

Lemma wp_mark_failed_cleanup exc d :
  wf d ->
  wp (failed ← ExportArtifactService.mark_export_artifact_failed (lease_artifact_id lease) exc None
        (Some (lease_processing_token lease));
      mret (match failed with None => None | Some failed => failed_storage_cleanup failed end))
    (fun r d' => held d' lease = false /\
       forall c, r = Some c -> cleanup_artifact_id c = lease_artifact_id lease) any_exn d.
Proof.
  intros Hwf. apply wp_bind. eapply wp_mono; [by apply wp_failed_outcome| |done].
  intros [a|] d1 [Hh Ha]; apply wp_ret; (split; [done|]); [|done]. intros c Hc.
  unfold failed_storage_cleanup in Hc. destruct (negb _); [done|].
  destruct (ExportArtifact.storage_key a); [|done]. injection Hc as <-. by apply Ha.
Qed.

Lemma throws_cleanup E c : throws E (_cleanup_failed_export_storage c).
Proof.
  apply throws_bind; [apply throws_try_except; [intros; apply throws_ret|]; by repeat throws_step|].
  intros deleted. destruct (negb deleted); [apply throws_ret|].
  apply throws_try_except; [intros; apply throws_ret|].
  apply throws_bind; [|intros; apply throws_ret]. apply throws_begin.
  assert (forall e, database_error e -> any_exn e) by done. raises_solve.
Qed.

End Processing.

Lemma preserves_cleanup before c :
  cleanup_artifact_id c = lease_artifact_id lease ->
  preserves (under (worked_on lease before)) (_cleanup_failed_export_storage c).
Proof.
  intros Hc. apply preserves_bind; [repeat preserves_step|]. intros deleted.
  destruct (negb deleted); [apply preserves_ret|]. apply preserves_try_except; [|intros; apply preserves_ret].
  apply preserves_bind; [|intros; apply preserves_ret]. apply preserves_begin. by apply keeps_work_clear_failed.
Qed.

Lemma worked_on_start d : wf d -> under (worked_on lease (export_artifacts d)) d.
Proof.
  intros Hwf. split; [done|].
  refine (rows_follow_refl (R := ExportArtifact.t) _ (worked lease) d _).
  intros k a Ha. pose proof (wf_pk (R := ExportArtifact.t) d k a Hwf Ha) as ->. by exists a.
Qed.

(** A lease that is over stays over. *)
Lemma held_stays d d' :
  wf d' -> worked_on lease (export_artifacts d) d' -> held d lease = false -> held d' lease = false.
Proof.
  intros Hwf [Hold Hnew] Hh. apply not_true_iff_false. unfold held.
  destruct (export_artifacts d' !! _) as [a'|] eqn:Ha'; [|done]. intros Hl.
  destruct (Hold _ _ Ha') as [a Ha]. pose proof (wf_pk (R := ExportArtifact.t) d' _ a' Hwf Ha') as Hk.
  rewrite Hk in Ha. destruct (Hnew _ a Ha) as (a2 & Ha2 & HT). simpl in Ha2. rewrite Ha' in Ha2.
  injection Ha2 as <-. apply (worked_lease lease a a' HT) in Hl. unfold held in Hh. rewrite Ha in Hh.
  unfold leased in Hl. congruence.
Qed.

Lemma runs_process before d :
  under (worked_on lease before) d ->
  runs (_process_artifact settings lease) (fun r d' => under (worked_on lease before) d' /\
    match r with Ok _ => held d' lease = false | Err e => database_error e end) d.
Proof.
  intros Hd. apply runs_try_except. eapply runs_mono; [by apply runs_generate|].
  intros [u|e] d1 [Hd1 He]; [done|]. rewrite bool_decide_false by done. apply runs_bind.
  eapply runs_mono; [apply (runs_transaction before _ database_error (fun r d' => held d' lease = false /\
      forall c, r = Some c -> cleanup_artifact_id c = lease_artifact_id lease) d1)|].
  - keeps_solve.
  - apply raises_bind; [|intros; apply raises_ret]. by apply raises_mark_failed.
  - apply wp_mark_failed_cleanup.
  - done.
  - intros [c|e'] d2 [Hd2 Hc]; [|done]. destruct Hc as [Hh Hc].
    destruct c as [c|]; [|by apply runs_ret]. specialize (Hc c eq_refl).
    eapply runs_mono; [apply runs_and; [apply runs_and|]|].
    + apply (runs_preserves _ _ _ (preserves_cleanup before c Hc) Hd2).
    + apply (runs_preserves _ _ _ (preserves_cleanup (export_artifacts d2) c Hc)).
      by apply worked_on_start, Hd2.
    + apply (throws_cleanup database_error).
    + intros [[]|e'] d3 [[Hd3 [Hwf3 Hw3]] He']; (split; [done|]); [by eapply held_stays|done].
Qed.


End Settles.

(** ** The worker's loop ends *)

Definition unfinished (a : ExportArtifact.t) : bool :=
  has_status ExportArtifactStatus.QUEUED a || has_status ExportArtifactStatus.PROCESSING a.

(** The artifacts that wait for a worker or are with one. *)
Definition backlog (d : Db) : nat :=
  size (filter (fun ka => unfinished ka.2 = true) (export_artifacts d)).

Lemma backlog_le d d' :
  (forall k a', export_artifacts d' !! k = Some a' -> unfinished a' = true ->
     exists a, export_artifacts d !! k = Some a /\ unfinished a = true) ->
  (backlog d' <= backlog d)%nat.
Proof.
  intros Hd. unfold backlog. rewrite <- !(size_dom (D := gset UUID)). apply subseteq_size.
  intros k. rewrite !elem_of_dom. intros [a' [Ha' Hu]%map_lookup_filter_Some].
  destruct (Hd k a' Ha' Hu) as (a & Ha & Hu'). exists a. by apply map_lookup_filter_Some.
Qed.

Lemma backlog_drop d d' k a :
  export_artifacts d !! k = Some a -> unfinished a = true ->
  (forall a', export_artifacts d' !! k = Some a' -> unfinished a' = false) ->
  (forall k', k' <> k -> export_artifacts d' !! k' = export_artifacts d !! k') ->
  backlog d = S (backlog d').
Proof.
  intros Ha Hu Ha' Hother. unfold backlog.
  assert (Hn : filter (fun ka => unfinished ka.2 = true) (export_artifacts d') !! k = None).
  { apply map_lookup_filter_None. right. intros a' Hk. simpl. by rewrite Ha'. }
  erewrite <- (map_size_insert_None k a) by exact Hn. f_equal. apply map_eq. intros k'.
  destruct (decide (k' = k)) as [->|Hk].
  - rewrite lookup_insert_eq. by apply map_lookup_filter_Some.
  - rewrite lookup_insert_ne, !map_lookup_filter, Hother by done. done.
Qed.

Section Loop.
Context `{Env} `{Network} `{StorageAdapter} `{ArchiveFiles}.
Variable (settings : PrivacyExportsSettings).
Hypothesis Hdec : decided.
Implicit Types (d : Db) (a : ExportArtifact.t) (lease : ProcessingExportLease).

Lemma worked_elsewhere lease d d' k :
  wf d -> under (worked_on lease (export_artifacts d)) d' -> k <> lease_artifact_id lease ->
  export_artifacts d' !! k = export_artifacts d !! k.
Proof.
  intros Hwf [Hwf' [Hold Hnew]] Hk. destruct (export_artifacts d !! k) as [a|] eqn:Ha.
  - destruct (Hnew k a Ha) as (a' & Ha' & HT). rewrite (worked_other lease a a' HT) in Ha'; [done|].
    pose proof (wf_pk (R := ExportArtifact.t) d k a Hwf Ha) as Hid. simpl in Hid. congruence.
  - destruct (export_artifacts d' !! k) as [a'|] eqn:Ha'; [|done]. exfalso.
    destruct (Hold k a' Ha') as [a Hx].
    pose proof (wf_pk (R := ExportArtifact.t) d' k a' Hwf' Ha') as Hid. rewrite Hid in Hx. congruence.
Qed.

Lemma held_row lease d :
  held d lease = true -> exists a, export_artifacts d !! lease_artifact_id lease = Some a /\ leased lease a = true.
Proof. unfold held. destruct (export_artifacts d !! _) as [a|] eqn:Ha; [|done]. by exists a. Qed.

Lemma settled_after lease d d' :
  held d lease = true -> under (worked_on lease (export_artifacts d)) d' -> held d' lease = false ->
  exists a', export_artifacts d' !! lease_artifact_id lease = Some a' /\ settled a' = true.
Proof.
  intros (a & Ha & Hl)%held_row [_ [_ Hnew]] Hh. destruct (Hnew _ a Ha) as (a' & Ha' & HT).
  exists a'. split; [done|]. destruct (worked_outcome lease a a' HT Hl) as [Hl'|]; [|done].
  simpl in Ha'. unfold held in Hh. rewrite Ha' in Hh. unfold leased in Hl'. congruence.
Qed.

Lemma runs_settles lease d :
  wf d -> held d lease = true ->
  runs (_process_artifact settings lease) (fun r d' => wf d' /\
    (forall k, k <> lease_artifact_id lease -> export_artifacts d' !! k = export_artifacts d !! k) /\
    match r with
    | Ok _ => exists a, export_artifacts d' !! lease_artifact_id lease = Some a /\ settled a = true
    | Err e => database_error e
    end) d.
Proof.
  intros Hwf Hh. eapply runs_mono; [apply (runs_process settings lease Hdec (export_artifacts d))|].
  { by apply worked_on_start. }
  intros r d' [Hd' Hr]. split; [by apply Hd'|]. split; [intros k; by apply worked_elsewhere|].
  destruct r as [u|e]; [by apply settled_after with d|done].
Qed.

(** A batch of leases, one after the other. *)
Lemma runs_batch leases d :
  wf d -> NoDup (lease_artifact_id <$> leases) -> (forall lease, lease ∈ leases -> held d lease = true) ->
  runs (for_each leases (_process_artifact settings)) (fun r d' =>
    match r with Ok _ => wf d' /\ (length leases + backlog d' <= backlog d)%nat | Err e => database_error e end) d.
Proof.
  intros Hwf Hnd Hl.
  apply (runs_for_each (fun l _ d' => wf d' /\ NoDup (lease_artifact_id <$> l) /\
    (forall lease, lease ∈ l -> held d' lease = true) /\
    (length leases + backlog d' <= backlog d + length l)%nat) database_error);
    [|by split_and!; try done; lia|by intros us d' (? & _ & _ & Hn); simpl in Hn; split; [|lia]|done].
  intros x l us d1 (Hwf1 & Hnd1 & Hl1 & Hn). clear Hwf Hnd Hl.
  rewrite fmap_cons in Hnd1. apply NoDup_cons in Hnd1 as [Hx Hnd1].
  assert (Hh : held d1 x = true) by (apply Hl1; by constructor).
  eapply runs_mono; [by apply runs_settles|]. intros [[]|e] d2 (Hwf2 & Hother & Hr); [|done].
  split; [done|]. split; [done|]. split.
  - intros lease Hlease. rewrite <- (Hl1 lease) by by constructor. unfold held. rewrite Hother; [done|].
    intros Hid. apply Hx. rewrite <- Hid. by apply list_elem_of_fmap_2.
  - destruct Hr as (a' & Ha' & Hs). apply held_row in Hh as (a & Ha & Hla).
    pose proof (leased_true x a Hla) as (_ & Hp & _).
    rewrite (backlog_drop d1 d2 (lease_artifact_id x) a) in Hn; [|done| | |done].
    + simpl in Hn. lia.
    + unfold unfinished, has_status. by rewrite Hp.
    + intros a''. rewrite Ha'. intros [= <-]. revert Hs. unfold settled, unfinished, has_status.
      by destruct (ExportArtifact.status a').
Qed.

Lemma unfinished_claimed n a : claimable n a -> unfinished a = true.
Proof.
  unfold claimable, unfinished, has_status. rewrite orb_true_iff, !bool_decide_eq_true. tauto.
Qed.

(** A turn takes artifacts off the backlog, or finds nothing that waits. *)
Lemma runs_turn batch d :
  wf d -> (0 < batch)%nat ->
  runs (worker_turn settings batch false) (fun r d' =>
    match r with
    | Ok n => wf d' /\ (n + backlog d' <= backlog d)%nat /\
        (n = 0%nat -> enabled settings = true -> forall k a, export_artifacts d' !! k = Some a ->
           has_status ExportArtifactStatus.QUEUED a = false)
    | Err e => database_error e
    end) d.
Proof.
  intros Hwf Hb. unfold worker_turn. apply runs_bind. apply runs_begin.
  eapply wp_mono; [apply wp_and; [apply (wp_claim_leases settings batch d
    (fun leases d' => exists n, claim_made settings batch n d leases d')); eauto|
    by apply (raises_claim_leases settings database_error)]|..]; [|by intros e [_ ?]].
  intros leases d1 [[n Hc] _]. apply runs_bind.
  assert (Hle : (backlog d1 <= backlog d)%nat).
  { apply backlog_le. intros k a' Ha' Hu. destruct (made_from _ _ _ _ _ _ Hc k a' Ha') as (a & Ha & [->|Hn]);
      exists a; [done|]. split; [done|]. by eapply unfinished_claimed. }
  destruct leases as [|lease leases].
  { apply runs_ret, runs_ret. split; [by apply Hc|]. split; [done|]. intros _ Hen.
    by apply (made_all _ _ _ _ _ _ Hc). }
  eapply runs_mono; [apply runs_batch; apply Hc|]. intros [us|e] d2 Hr; [|done]. destruct Hr as [Hwf2 Hn].
  apply runs_ret. split; [done|]. split; [lia|]. done.
Qed.

(** With as many turns as the backlog, and one more that finds nothing, the loop ends. *)
Lemma runs_loop batch fuel total d :
  wf d -> (0 < batch)%nat -> (backlog d < fuel)%nat ->
  runs (worker_loop settings fuel batch false false total) (fun r d' =>
    match r with
    | Ok (Some n) => wf d' /\ (n + backlog d' <= total + backlog d)%nat /\
        (enabled settings = true -> forall k a, export_artifacts d' !! k = Some a ->
           has_status ExportArtifactStatus.QUEUED a = false)
    | Ok None => False
    | Err e => database_error e
    end) d.
Proof.
  revert total d. induction fuel as [|fuel IH]; intros total d Hwf Hb Hf; [lia|]. simpl.
  apply runs_bind. eapply runs_mono; [by apply runs_turn|]. intros [n|e] d1 Hr; [|done].
  destruct Hr as (Hwf1 & Hn & Hnone). simpl. destruct (n =? 0)%nat eqn:Hz.
  - apply Nat.eqb_eq in Hz as ->. apply runs_ret. split; [done|]. split; [lia|]. by apply Hnone.
  - apply Nat.eqb_neq in Hz. eapply runs_mono; [apply IH; [done|done|lia]|].
    intros [[n'|]|e] d2; [|done..]. intros (Hwf2 & Hn' & Hq). split; [done|]. split; [lia|done].
Qed.

(** C32. The holder of a lease always brings its artifact to an outcome. When the
    storage and the file system always say what became of an object, then
    whatever else they refuse, the artifact is ready or failed when the worker
    is done with it; the worker fails itself only if the database refuses to
    record a failure. No other artifact is touched. *)
Theorem process_artifact_settles lease d :
  wf d -> held d lease = true ->
  runs (_process_artifact settings lease) (fun r d' => wf d' /\
    (forall k, k <> lease_artifact_id lease -> export_artifacts d' !! k = export_artifacts d !! k) /\
    match r with
    | Ok _ => exists a, export_artifacts d' !! lease_artifact_id lease = Some a /\ settled a = true
    | Err e => database_error e
    end) d.
Proof.
  apply runs_settles.
Qed.

(** C30. The worker that runs for real ([dry_run] off) until there is nothing to do ([once]
    off) and without a poll interval ends. When the storage always says what became of an
    object, as many turns as there are unfinished artifacts, and one more, are enough,
    whatever generation, publication and clean-up do; it has then processed at most that
    many artifacts, and where exports are enabled left none waiting. It fails only on a
    batch size below one or when the database refuses a write. *)
Theorem run_worker_ends fuel batch_size d :
  wf d -> (backlog d < fuel)%nat ->
  runs (run_worker settings fuel batch_size false false) (fun r d' =>
    match r with
    | Ok (Some n) => 1 <= batch_size /\ wf d' /\ (n + backlog d' <= backlog d)%nat /\
        (enabled settings = true -> forall k a, export_artifacts d' !! k = Some a ->
           has_status ExportArtifactStatus.QUEUED a = false)
    | Ok None => False
    | Err e => database_error e \/
        (batch_size < 1 /\ e = ValueError "batch_size must be at least 1" /\ d' = d)
    end) d.
Proof.
  intros Hwf Hf. apply runs_bind, runs_raise_if; [intros Hb%Z.ltb_lt; by right|]. intros Hb%Z.ltb_ge.
  eapply runs_mono; [apply runs_loop; [done|lia|done]|].
  intros [[n|]|e] d'; [|done|by left]. simpl. by intros (? & ? & ?).
Qed.

End Loop.

(** ** Witnesses *)
Module Witness.
Import Fixtures.

Definition mine : ProcessingExportLease := mkLease 82 "tok-82".
Definition stolen : ProcessingExportLease := mkLease 82 "tok-81".

Definition archive : Prepared.t :=
  Prepared.mk 82 ExportArtifactStorageBackend.LOCAL "exports/82/1.zip" "privacy-export-82.zip"
    "application/zip" None 512 "checksum".

(** What a run commits. *)
Definition after {A} (m : M Db A) : Db := committed (m (mkWorld exports_db NoTx 0)).2.

Definition statuses (d : Db) : list ExportArtifactStatus.t :=
  omap (fun k => ExportArtifact.status <$> (export_artifacts d !! k)) [81; 82; 83; 84]%N.

Lemma storage_decided : decided.
Proof. by split. Qed.

Lemma stale_lease_fenced_witness :
  held exports_db stolen = false /\
  commits (_mark_export_failed stolen IntegrityError) (fun c d' => c = None /\ d' = exports_db)
    (fun _ => False) exports_db.
Proof.
  split; [reflexivity|].
  apply (stale_lease_fenced exports stolen archive IntegrityError exports_db exports_db_wf);
    vm_compute; reflexivity.
Defined.


Lemma process_artifact_settles_witness :
  statuses (after (_process_artifact exports mine)) =
    [ExportArtifactStatus.QUEUED; ExportArtifactStatus.READY; ExportArtifactStatus.READY;
     ExportArtifactStatus.FAILED] /\
  runs (_process_artifact exports mine) (fun r _ => forall e, r = Err e -> database_error e) exports_db.
Proof.
  split; [vm_compute; reflexivity|].
  eapply runs_mono; [apply (process_artifact_settles exports storage_decided mine exports_db
    exports_db_wf); vm_compute; reflexivity|].
  intros [u|e] d' (_ & _ & Hr); [done|]. by intros e' [= <-].
Defined.

Lemma run_worker_ends_witness :
  statuses (after (run_worker exports 3 1 false false)) =
    [ExportArtifactStatus.READY; ExportArtifactStatus.PROCESSING; ExportArtifactStatus.READY;
     ExportArtifactStatus.FAILED] /\
  runs (run_worker exports 3 1 false false) (fun r _ => r <> Ok None) exports_db.
Proof.
  split; [vm_compute; reflexivity|].
  eapply runs_mono; [apply (run_worker_ends exports storage_decided 3 1 exports_db exports_db_wf);
    vm_compute; lia|].
  by intros [[n|]|e] d'.
Defined.

End Witness.
