(* ===== verification/ExecutionHealthProofs.v ===== *)
(** The health snapshot says what the database holds: its counts are the numbers of rows, it is
    degraded exactly when work is failed or stuck, and the metrics carry its counts. *)
From S2P Require Import Prelude Errors Session Schema Tables Rows SubjectExports ExportArtifacts.
From S2P Require Import ExecutionHealth.
Import DsrExecutionHealthRepository PrivacyDsrMetrics DsrExecutionHealth DsrExecutionHealthSnapshot.

(** ** Grouped counts *)

(** The rows of a key. *)
Definition count_of {R K} `{EqDecision K} (key : R -> K) (rows : list R) (k : K) : Z :=
  Z.of_nat (List.length (List.filter (fun r => bool_decide (key r = k)) rows)).

Lemma count_of_nonneg {R K} `{EqDecision K} (key : R -> K) rows k : 0 <= count_of key rows k.
Proof. unfold count_of. lia. Qed.

Lemma count_of_pos {R K} `{EqDecision K} (key : R -> K) rows k :
  0 < count_of key rows k <-> exists r, r ∈ rows /\ key r = k.
Proof.
  unfold count_of. split.
  - destruct (List.filter _ rows) as [|r l] eqn:Hf; [cbn; lia|]. intros _.
    assert (Hr : r ∈ List.filter (fun r => bool_decide (key r = k)) rows) by (rewrite Hf; by left).
    apply list_elem_of_In, filter_In in Hr as [Hr Hk]. apply bool_decide_eq_true_1 in Hk.
    exists r. by rewrite list_elem_of_In.
  - intros (r & Hr & Hk). assert (Hf : In r (List.filter (fun r => bool_decide (key r = k)) rows)).
    { apply filter_In. rewrite <- list_elem_of_In. split; [done|by apply bool_decide_eq_true_2]. }
    destruct (List.filter _ rows); [done|]. cbn. lia.
Qed.

Lemma group_by_keys {R K} `{EqDecision K} (key : R -> K) rows : (group_by key rows).*1 = remove_dups (key <$> rows).
Proof. unfold group_by. rewrite <- list_fmap_compose. apply list_fmap_id. Qed.

Lemma elem_of_group_by {R K} `{EqDecision K} (key : R -> K) rows k n :
  (k, n) ∈ group_by key rows <-> n = count_of key rows k /\ 0 < n.
Proof.
  unfold group_by. rewrite list_elem_of_fmap. split.
  - intros (k' & [= -> ->] & Hk). split; [done|]. apply elem_of_remove_dups, list_elem_of_fmap in Hk as (r & -> & Hr).
    apply (count_of_pos key). by exists r.
  - intros [-> Hpos]. exists k. split; [done|]. apply count_of_pos in Hpos as (r & Hr & <-).
    apply elem_of_remove_dups, list_elem_of_fmap. by exists r.
Qed.

(** Rows with different keys, written one after another. *)
Lemma foldl_insert_lookup {V} (l : list (string * V)) (base : gmap string V) k :
  NoDup l.*1 ->
  foldl (fun m row => <[row.1 := row.2]> m) base l !! k =
  match list_to_map (M := gmap string V) l !! k with Some v => Some v | None => base !! k end.
Proof.
  revert base. induction l as [|[k' v] l IH]; intros base Hnd; [done|].
  apply NoDup_cons in Hnd as [Hk' Hnd]. cbn [foldl fst snd]. rewrite IH by done. cbn.
  destruct (decide (k' = k)) as [->|Hne].
  - rewrite lookup_insert_eq. rewrite (not_elem_of_list_to_map_1 l k) by done. by rewrite lookup_insert_eq.
  - by rewrite !lookup_insert_ne.
Qed.

Lemma group_by_lookup {R K} `{Countable K} (key : R -> K) rows k :
  list_to_map (M := gmap K Z) (group_by key rows) !! k =
  if 0 <? count_of key rows k then Some (count_of key rows k) else None.
Proof.
  assert (Hnd : NoDup (group_by key rows).*1) by (rewrite group_by_keys; apply NoDup_remove_dups).
  destruct (Z.ltb_spec 0 (count_of key rows k)) as [Hpos|Hz].
  - apply elem_of_list_to_map_1; [done|]. by apply elem_of_group_by.
  - apply not_elem_of_list_to_map_1. intros ([k' n] & -> & Hk)%list_elem_of_fmap.
    apply elem_of_group_by in Hk as [-> Hpos]. cbn in Hz. lia.
Qed.

Lemma zeros_lookup l k : zeros l !! k = if bool_decide (k ∈ l) then Some 0 else None.
Proof.
  unfold zeros. induction l as [|x l IH]; [done|]. cbn. destruct (decide (x = k)) as [->|Hne].
  - rewrite lookup_insert_eq, bool_decide_true; [done|by left].
  - rewrite lookup_insert_ne by done. rewrite IH.
    destruct (decide (k ∈ l)) as [Hk|Hk].
    + rewrite !bool_decide_true; [done|by right|done].
    + rewrite !bool_decide_false; [done|by intros [->|Hk']%elem_of_cons|done].
Qed.

Lemma artifact_counts_lookup {R} (key : R -> string) rows statuses k :
  k ∈ statuses ->
  with_artifact_counts (zeros statuses) (group_by key rows) !! k = Some (count_of key rows k).
Proof.
  intros Hk. unfold with_artifact_counts. rewrite foldl_insert_lookup.
  - rewrite group_by_lookup, zeros_lookup, bool_decide_true by done.
    destruct (Z.ltb_spec 0 (count_of key rows k)) as [|Hz]; [done|].
    pose proof (count_of_nonneg key rows k). f_equal. lia.
  - rewrite group_by_keys. apply NoDup_remove_dups.
Qed.

Lemma foldl_alter_lookup (l : list (string * string * Z)) (base : gmap string (gmap string Z)) t s :
  NoDup l.*1 ->
  with_request_counts base l !! t ≫= (.!! s) =
  inner ← base !! t;
  match list_to_map (M := gmap (string * string) Z) l !! (t, s) with Some v => Some v | None => inner !! s end.
Proof.
  unfold with_request_counts. revert base. induction l as [|[[t' s'] v] l IH]; intros base Hnd.
  { cbn [foldl list_to_map foldr]. destruct (base !! t) as [inner|]; [|done]. cbn. by rewrite lookup_empty. }
  apply NoDup_cons in Hnd as [Hk' Hnd]. cbn [foldl]. rewrite IH by done. cbn [list_to_map foldr].
  destruct (decide (t' = t)) as [->|Hne].
  - rewrite lookup_alter_eq. destruct (base !! t) as [inner|]; [|done]. cbn.
    destruct (decide (s' = s)) as [->|Hne].
    + rewrite lookup_insert_eq, (not_elem_of_list_to_map_1 l (t, s)) by done. by rewrite lookup_insert_eq.
    + rewrite (lookup_insert_ne _ (t, s')) by congruence. by rewrite lookup_insert_ne.
  - rewrite lookup_alter_ne by done. destruct (base !! t) as [inner|]; [|done]. cbn.
    by rewrite lookup_insert_ne by congruence.
Qed.

Lemma empty_request_counts_lookup types statuses t :
  _empty_request_counts types statuses !! t = if bool_decide (t ∈ types) then Some (zeros statuses) else None.
Proof.
  unfold _empty_request_counts. induction types as [|x l IH]; [done|]. cbn.
  destruct (decide (x = t)) as [->|Hne].
  - rewrite lookup_insert_eq, bool_decide_true; [done|by left].
  - rewrite lookup_insert_ne by done. rewrite IH. destruct (decide (t ∈ l)) as [Hk|Hk].
    + rewrite !bool_decide_true; [done|by right|done].
    + rewrite !bool_decide_false; [done|by intros [->|Hk']%elem_of_cons|done].
Qed.

(** The count of a type and a status; zeros are kept. *)
Lemma request_counts_lookup types statuses rows t s :
  with_request_counts (_empty_request_counts types statuses) (group_by type_and_status rows) !! t ≫= (.!! s) =
  if bool_decide (t ∈ types)
  then if bool_decide (s ∈ statuses) || (0 <? count_of type_and_status rows (t, s))
       then Some (count_of type_and_status rows (t, s)) else None
  else None.
Proof.
  rewrite foldl_alter_lookup; [|rewrite group_by_keys; apply NoDup_remove_dups].
  rewrite empty_request_counts_lookup. destruct (bool_decide (t ∈ types)); [|done]. cbn.
  rewrite group_by_lookup, zeros_lookup.
  pose proof (count_of_nonneg type_and_status rows (t, s)).
  destruct (Z.ltb_spec 0 (count_of type_and_status rows (t, s))); [by rewrite orb_true_r|].
  rewrite orb_false_r. destruct (bool_decide _); [|done]. f_equal. lia.
Qed.

(** ** Sums *)
Lemma sum_nonneg_pos (l : list Z) :
  Forall (Z.le 0) l -> 0 <= foldr Z.add 0 l /\ (0 < foldr Z.add 0 l <-> exists x, x ∈ l /\ 0 < x).
Proof.
  induction 1 as [|x l Hx Hl [IH0 IH]]; cbn.
  { split; [done|]. split; [lia|]. by intros (x & []%not_elem_of_nil & _). }
  split; [lia|]. split.
  - intros Hpos. destruct (Z.ltb_spec 0 x); [exists x; by split; [left|]|].
    destruct (proj1 IH) as (y & Hy & Hy0); [lia|]. exists y. by split; [right|].
  - intros (y & [->|Hy]%elem_of_cons & Hy0); [lia|].
    assert (0 < foldr Z.add 0 l) by (apply IH; by exists y). lia.
Qed.

Definition nonneg (m : gmap string Z) : Prop := forall k v, m !! k = Some v -> 0 <= v.

Lemma sum_values_pos m :
  nonneg m -> 0 <= sum_values m /\ (0 < sum_values m <-> exists k v, m !! k = Some v /\ 0 < v).
Proof.
  intros Hm. unfold sum_values. destruct (sum_nonneg_pos (snd <$> map_to_list m)) as [H0 Hpos].
  - apply Forall_forall. intros x ([k v] & -> & Hk%elem_of_map_to_list)%list_elem_of_fmap. by eapply Hm.
  - split; [done|]. rewrite Hpos. split.
    + intros (x & ([k v] & -> & Hk%elem_of_map_to_list)%list_elem_of_fmap & Hx). by exists k, v.
    + intros (k & v & Hk%elem_of_map_to_list & Hv). exists v. split; [|done].
      apply list_elem_of_fmap. by exists (k, v).
Qed.

Lemma total_pos counts :
  (forall t inner, counts !! t = Some inner -> nonneg inner) ->
  (0 < total counts <-> exists t s v, counts !! t ≫= (.!! s) = Some v /\ 0 < v).
Proof.
  intros Hc. unfold total. destruct (sum_nonneg_pos (sum_values <$> (snd <$> map_to_list counts))) as [_ Hpos].
  - apply Forall_forall. intros x (inner & -> & ([t i] & -> & Ht%elem_of_map_to_list)%list_elem_of_fmap)%list_elem_of_fmap.
    by apply sum_values_pos, (Hc t).
  - rewrite Hpos. split.
    + intros (x & (inner & -> & ([t i] & -> & Ht%elem_of_map_to_list)%list_elem_of_fmap)%list_elem_of_fmap & Hx).
      cbn in Hx. apply sum_values_pos in Hx as (s & v & Hs & Hv); [|by apply (Hc t)].
      exists t, s, v. by rewrite Ht.
    + intros (t & s & v & Hts & Hv). destruct (counts !! t) as [inner|] eqn:Ht; [|done]. cbn in Hts.
      exists (sum_values inner). split.
      * apply list_elem_of_fmap. exists inner. split; [done|]. apply list_elem_of_fmap. exists (t, inner).
        by rewrite elem_of_map_to_list.
      * apply sum_values_pos; [by apply (Hc t)|]. by exists s, v.
Qed.

(** ** What needs attention *)

Lemma some_row {R} `{Table R} d (P : R -> bool) :
  negb (bool_decide (rows_where d P = [])) = true <-> exists k r, rows d !! k = Some r /\ P r = true.
Proof.
  rewrite negb_true_iff, bool_decide_eq_false. split.
  - intros Hne. destruct (rows_where d P) as [|r l] eqn:Hl; [done|].
    assert (Hr : r ∈ rows_where d P) by (rewrite Hl; by left).
    apply elem_of_rows_where in Hr as [HP [k Hk]]. by exists k, r.
  - intros (k & r & Hk & HP) Hnil. assert (Hr : r ∈ rows_where d P) by (apply elem_of_rows_where; eauto).
    rewrite Hnil in Hr. by apply not_elem_of_nil in Hr.
Qed.

Section Attention.
Variables (d : Db) (n cutoff : datetime).

(** A job that was not called off. *)
Definition is_job (r : DataSubjectRequest.t) : Prop :=
  (DataSubjectRequest.request_type r = DataSubjectRequestType.EXPORT \/
   DataSubjectRequest.request_type r = DataSubjectRequestType.ERASE) /\
  DataSubjectRequest.status r <> DataSubjectRequestStatus.CANCELLED.

Definition failed_job (r : DataSubjectRequest.t) : Prop :=
  is_job r /\
  (DataSubjectRequest.execution_status r = DataSubjectRequestExecutionStatus.FAILED \/
   DataSubjectRequest.execution_status r = DataSubjectRequestExecutionStatus.PARTIALLY_FULFILLED).

(** Its artifact is being generated under a lease that runs. *)
Definition leased (r : DataSubjectRequest.t) : Prop :=
  exists k a lease, rows (R := ExportArtifact.t) d !! k = Some a /\
    ExportArtifact.data_subject_request_id a = DataSubjectRequest.id r /\
    ExportArtifact.status a = ExportArtifactStatus.PROCESSING /\
    ExportArtifact.processing_lease_expires_at a = Some lease /\ n < lease.

Definition stuck_job (r : DataSubjectRequest.t) : Prop :=
  is_job r /\ default (DataSubjectRequest.updated_at r) (DataSubjectRequest.execution_started_at r) <= cutoff /\
  (DataSubjectRequest.execution_status r = DataSubjectRequestExecutionStatus.QUEUED \/
   DataSubjectRequest.execution_status r = DataSubjectRequestExecutionStatus.PROCESSING /\
   ~ (DataSubjectRequest.request_type r = DataSubjectRequestType.EXPORT /\ leased r)).

(** An artifact of an export that was not called off, *)
Definition wanted (a : ExportArtifact.t) : Prop :=
  exists k r, rows (R := DataSubjectRequest.t) d !! k = Some r /\
    DataSubjectRequest.id r = ExportArtifact.data_subject_request_id a /\
    DataSubjectRequest.request_type r = DataSubjectRequestType.EXPORT /\
    DataSubjectRequest.status r <> DataSubjectRequestStatus.CANCELLED.

(** and one that another replaced. *)
Definition replaced (a : ExportArtifact.t) : Prop :=
  exists k newer, rows (R := ExportArtifact.t) d !! k = Some newer /\
    ExportArtifact.data_subject_request_id newer = ExportArtifact.data_subject_request_id a /\
    (ExportArtifact.queued_at a < ExportArtifact.queued_at newer \/
     ExportArtifact.queued_at newer = ExportArtifact.queued_at a /\
     ExportArtifact.created_at a < ExportArtifact.created_at newer).

Definition failed_artifact (a : ExportArtifact.t) : Prop :=
  wanted a /\ ExportArtifact.status a = ExportArtifactStatus.FAILED /\ ~ replaced a.

Definition stuck_artifact (a : ExportArtifact.t) : Prop :=
  wanted a /\
  match ExportArtifact.status a with
  | ExportArtifactStatus.QUEUED => ExportArtifact.queued_at a <= cutoff
  | ExportArtifactStatus.PROCESSING =>
      match ExportArtifact.processing_lease_expires_at a with
      | Some lease => lease <= n
      | None => exists started_at, ExportArtifact.started_at a = Some started_at /\ started_at <= cutoff
      end
  | ExportArtifactStatus.READY =>
      ExportArtifact.expires_at a <= n /\ ExportArtifact.downloaded_at a = None /\
      ExportArtifact.download_count a = 0 /\ ~ replaced a
  | _ => False
  end.

Definition needs_attention : Prop :=
  (exists k r, rows (R := DataSubjectRequest.t) d !! k = Some r /\ (failed_job r \/ stuck_job r)) \/
  (exists k a, rows (R := ExportArtifact.t) d !! k = Some a /\ (failed_artifact a \/ stuck_artifact a)).

(** *** The queries say the same *)
Lemma of_types_job r :
  of_types _DSR_JOB_REQUEST_TYPES r && _non_cancelled_dsr_predicate r = true <-> is_job r.
Proof.
  unfold of_types, _non_cancelled_dsr_predicate, is_job, type_and_status. cbn [fst].
  assert (Ht : bool_decide (DataSubjectRequestType.value (DataSubjectRequest.request_type r) ∈ _DSR_JOB_REQUEST_TYPES)
    = match DataSubjectRequest.request_type r with
      | DataSubjectRequestType.EXPORT | DataSubjectRequestType.ERASE => true | _ => false end)
    by (by destruct (DataSubjectRequest.request_type r)).
  rewrite Ht, andb_true_iff, negb_true_iff, bool_decide_eq_false.
  destruct (DataSubjectRequest.request_type r); intuition congruence.
Qed.

Lemma leased_query r : active_export_processing_lease d n r = true <-> leased r.
Proof.
  unfold active_export_processing_lease. rewrite some_row. unfold leased. split.
  - intros (k & a & Hk & HP). apply andb_true_iff in HP as [[H1 H2]%andb_true_iff H3].
    apply bool_decide_eq_true_1 in H1, H2. destruct (ExportArtifact.processing_lease_expires_at a) as [e|] eqn:He; [|done].
    exists k, a, e. split_and!; try done. lia.
  - intros (k & a & e & Hk & H1 & H2 & He & Hn). exists k, a. split; [done|].
    rewrite He, !bool_decide_true by done. cbn. lia.
Qed.

Lemma stuck_query r :
  stale_request d _DSR_JOB_REQUEST_TYPES _STALE_DSR_STATUSES n cutoff r = true <-> stuck_job r.
Proof.
  unfold stale_request, stuck_job, stale_since. pose proof (of_types_job r) as Hjob. pose proof (leased_query r) as Hl.
  rewrite !andb_true_iff, !orb_true_iff, !negb_true_iff, !bool_decide_eq_false, Z.leb_le.
  rewrite andb_true_iff in Hjob.
  assert (Hstatus : bool_decide ((type_and_status r).2 ∈ _STALE_DSR_STATUSES) = true <->
    DataSubjectRequest.execution_status r = DataSubjectRequestExecutionStatus.QUEUED \/
    DataSubjectRequest.execution_status r = DataSubjectRequestExecutionStatus.PROCESSING).
  { transitivity ((match DataSubjectRequest.execution_status r with
      | DataSubjectRequestExecutionStatus.QUEUED | DataSubjectRequestExecutionStatus.PROCESSING => true
      | _ => false end) = true).
    - apply eq_iff_eq_true. unfold type_and_status. cbn [snd].
      by destruct (DataSubjectRequest.execution_status r).
    - destruct (DataSubjectRequest.execution_status r); intuition congruence. }
  rewrite <- not_true_iff_false, Hl, Hstatus, <- Hjob. split.
  - intros [[[[Ht Hs] Hc] Hle] Hor]. split; [done|]. split; [done|]. destruct Hs as [Hs|Hs]; [by left|right].
    split; [done|]. intros [He Hlease]. destruct Hor as [[Hor|Hor]|Hor]; [by apply Hor..|done].
  - intros ([Ht Hc] & Hle & [Hs|[Hs Hn]]); split_and!; auto.
    + left. right. by rewrite Hs.
    + destruct (decide (DataSubjectRequest.request_type r = DataSubjectRequestType.EXPORT)); [right|by left; left].
      intros Hlease. by apply Hn.
Qed.

Lemma wanted_query a : _non_cancelled_export_dsr_exists d a = true <-> wanted a.
Proof.
  unfold _non_cancelled_export_dsr_exists. rewrite some_row. unfold wanted, _non_cancelled_dsr_predicate.
  split; intros (k & r & Hk & Hr); exists k, r; (split; [done|]).
  - apply andb_true_iff in Hr as [[H1 H2]%andb_true_iff H3]. apply bool_decide_eq_true_1 in H1, H2.
    apply negb_true_iff, bool_decide_eq_false_1 in H3. done.
  - destruct Hr as (H1 & H2 & H3). rewrite !bool_decide_true, bool_decide_false by done. done.
Qed.

Lemma replaced_query a : _newer_artifact_for_same_dsr_exists d a = true <-> replaced a.
Proof.
  unfold _newer_artifact_for_same_dsr_exists. rewrite some_row. unfold replaced.
  split; intros (k & r & Hk & Hr); exists k, r; (split; [done|]).
  - apply andb_true_iff in Hr as [H1 H2]. apply bool_decide_eq_true_1 in H1. split; [done|]. lia.
  - destruct Hr as (H1 & H2). rewrite bool_decide_true by done. cbn. lia.
Qed.

Lemma failed_artifact_query a : current_failed d a = true <-> failed_artifact a.
Proof.
  unfold current_failed, failed_artifact.
  rewrite !andb_true_iff, bool_decide_eq_true, negb_true_iff, <- not_true_iff_false, wanted_query, replaced_query.
  tauto.
Qed.

Lemma stuck_artifact_query a : stale_artifact d n cutoff a = true <-> stuck_artifact a.
Proof.
  unfold stale_artifact, stuck_artifact. rewrite andb_true_iff, wanted_query.
  apply and_iff_compat_l. destruct (ExportArtifact.status a); try done.
  - lia.
  - destruct (ExportArtifact.processing_lease_expires_at a); [lia|].
    destruct (ExportArtifact.started_at a) as [x|]; [|naive_solver]. split; [intros; exists x; split; [done|lia]|].
    intros (y & [= <-] & Hy). lia.
  - rewrite !andb_true_iff, negb_true_iff, <- not_true_iff_false, replaced_query.
    unfold is_None. destruct (ExportArtifact.downloaded_at a); split; intros; naive_solver lia.
Qed.
End Attention.

(** ** The snapshot's counts *)

Lemma filter_twice {A} (P Q : A -> bool) l : List.filter Q (List.filter P l) = List.filter (fun x => P x && Q x) l.
Proof. induction l as [|x l IH]; [done|]. cbn. destruct (P x); cbn; [|done]. by rewrite IH. Qed.

(** The number of rows. *)
Definition number {R} `{Table R} (d : Db) (P : R -> bool) : Z := Z.of_nat (List.length (rows_where d P)).

Lemma count_of_rows {R K} `{Table R} `{EqDecision K} (key : R -> K) (d : Db) P k :
  count_of key (rows_where d P) k = number d (fun r => P r && bool_decide (key r = k)).
Proof. unfold count_of, number, rows_where. by rewrite filter_twice. Qed.

Lemma number_ext {R} `{Table R} (d : Db) (P Q : R -> bool) : (forall r, P r = Q r) -> number d P = number d Q.
Proof. intros HPQ. unfold number, rows_where. by rewrite (List.filter_ext P Q). Qed.

Lemma number_pos {R} `{Table R} (d : Db) (P : R -> bool) :
  0 < number d P <-> exists k r, rows d !! k = Some r /\ P r = true.
Proof.
  rewrite <- some_row, negb_true_iff, bool_decide_eq_false. unfold number.
  destruct (rows_where d P); cbn; [|split; [done|lia]]. split; [lia|done].
Qed.

(** [n] rows of the database are such that [P]. *)
Definition rows_number {R} `{Table R} (d : Db) (P : R -> Prop) (n : Z) : Prop :=
  exists ks : gset UUID, (forall k, k ∈ ks <-> exists r, rows d !! k = Some r /\ P r) /\
    n = Z.of_nat (size ks).

Lemma number_rows {R} `{Table R} (d : Db) (P : R -> bool) (P' : R -> Prop) :
  (forall r, P r = true <-> P' r) -> rows_number d P' (number d P).
Proof.
  intros HP. set (l := List.filter (fun kv => P kv.2) (map_to_list (rows d))).
  assert (Hin : forall k r, (k, r) ∈ l <-> rows d !! k = Some r /\ P r = true).
  { intros k r. unfold l. rewrite list_elem_of_In, filter_In, <- list_elem_of_In, elem_of_map_to_list. done. }
  exists (list_to_set l.*1). split.
  - intros k. rewrite elem_of_list_to_set, list_elem_of_fmap. split.
    + intros ([k' r] & -> & Hr%Hin). exists r. by rewrite <- HP.
    + intros (r & Hr & Hp%HP). exists (k, r). by rewrite Hin.
  - assert (Hnd : NoDup l.*1).
    { unfold l. pose proof (NoDup_fst_map_to_list (rows d)) as Hall. revert Hall.
      generalize (map_to_list (rows d)). intros l0. induction l0 as [|x l0 IH]; [done|]. cbn.
      intros [Hx Hl]%NoDup_cons. destruct (P x.2); [|by apply IH]. cbn. constructor; [|by apply IH].
      intros (y & Hy & [Hin0 _]%list_elem_of_In%filter_In)%list_elem_of_fmap. apply Hx. rewrite Hy.
      apply list_elem_of_fmap_2. by apply list_elem_of_In. }
    rewrite size_list_to_set by done. unfold number, rows_where. rewrite length_fmap. unfold l. f_equal.
    generalize (map_to_list (rows d)). intros l0. induction l0 as [|x l0 IH]; [done|]. cbn.
    destruct (P x.2); cbn; by rewrite IH.
Qed.

(** Rows of one kind and the rest. *)
Lemma number_split {R} `{Table R} (d : Db) (P Q : R -> bool) :
  number d P = number d (fun r => P r && Q r) + number d (fun r => P r && negb (Q r)).
Proof.
  unfold number, rows_where. induction (map_to_list (rows d)).*2 as [|r l IH]; [done|]. cbn.
  destruct (P r), (Q r); cbn; lia.
Qed.

Definition job_types : list DataSubjectRequestType.t := [DataSubjectRequestType.EXPORT; DataSubjectRequestType.ERASE].

(** The jobs of a type in a status. *)
Definition jobs_in (d : Db) (ty : DataSubjectRequestType.t) (st : DataSubjectRequestExecutionStatus.t) : Z :=
  number (R := DataSubjectRequest.t) d (fun r =>
    bool_decide (DataSubjectRequest.request_type r = ty)
    && bool_decide (DataSubjectRequest.execution_status r = st)
    && negb (bool_decide (DataSubjectRequest.status r = DataSubjectRequestStatus.CANCELLED))).

Definition request_counts_of (d : Db) : gmap string (gmap string Z) :=
  with_request_counts (_empty_request_counts _DSR_JOB_REQUEST_TYPES _DSR_EXECUTION_STATUSES)
    (group_by type_and_status (rows_where d (fun r =>
       of_types _DSR_JOB_REQUEST_TYPES r && _non_cancelled_dsr_predicate r))).

Definition stale_counts_of (d : Db) (n cutoff : datetime) : gmap string (gmap string Z) :=
  with_request_counts (_empty_request_counts _DSR_JOB_REQUEST_TYPES _STALE_DSR_STATUSES)
    (group_by type_and_status (rows_where d
       (stale_request d _DSR_JOB_REQUEST_TYPES _STALE_DSR_STATUSES n cutoff))).

Definition stale_artifacts_of (d : Db) (n cutoff : datetime) : gmap string Z :=
  with_artifact_counts (zeros _STALE_EXPORT_ARTIFACT_STATUSES)
    (group_by artifact_status (rows_where d (stale_artifact d n cutoff))).

Definition artifacts_of (d : Db) : gmap string Z :=
  with_artifact_counts (zeros (ExportArtifactStatus.value <$> export_artifact_statuses))
    (group_by artifact_status (rows_where (R := ExportArtifact.t) d (fun _ => true))).

(** What a dictionary of counts holds, it counted. *)
Lemma request_counts_value types statuses rows t inner s v :
  with_request_counts (_empty_request_counts types statuses) (group_by type_and_status rows) !! t = Some inner ->
  inner !! s = Some v -> v = count_of type_and_status rows (t, s).
Proof.
  intros Ht Hs. pose proof (request_counts_lookup types statuses rows t s) as Hl. rewrite Ht in Hl. cbn in Hl.
  rewrite Hs in Hl. by repeat case_match; simplify_eq.
Qed.

Lemma request_counts_nonneg types statuses rows t inner :
  with_request_counts (_empty_request_counts types statuses) (group_by type_and_status rows) !! t = Some inner ->
  nonneg inner.
Proof.
  intros Ht s v Hs. rewrite (request_counts_value _ _ _ _ _ _ _ Ht Hs). apply count_of_nonneg.
Qed.

Lemma request_counts_pos types statuses rows :
  0 < total (with_request_counts (_empty_request_counts types statuses) (group_by type_and_status rows)) <->
  exists r, r ∈ rows /\ (type_and_status r).1 ∈ types.
Proof.
  rewrite total_pos by (intros; by eapply request_counts_nonneg). split.
  - intros (t & s & v & Hl & Hv). rewrite request_counts_lookup in Hl.
    destruct (bool_decide (t ∈ types)) eqn:Ht; [|done]. apply bool_decide_eq_true_1 in Ht.
    assert (Hc : 0 < count_of type_and_status rows (t, s)) by (by case_match; simplify_eq).
    apply count_of_pos in Hc as (r & Hr & Heq). exists r. by rewrite Heq.
  - intros (r & Hr & Ht). destruct (type_and_status r) as [t s] eqn:Hts. cbn in Ht.
    assert (Hc : 0 < count_of type_and_status rows (t, s)) by (apply count_of_pos; by exists r).
    exists t, s, (count_of type_and_status rows (t, s)). rewrite request_counts_lookup, bool_decide_true by done.
    by rewrite (proj2 (Z.ltb_lt _ _) Hc), orb_true_r.
Qed.

Lemma artifact_counts_some {R} (key : R -> string) rows statuses k v :
  with_artifact_counts (zeros statuses) (group_by key rows) !! k = Some v -> v = count_of key rows k.
Proof.
  unfold with_artifact_counts. rewrite foldl_insert_lookup by (rewrite group_by_keys; apply NoDup_remove_dups).
  rewrite group_by_lookup, zeros_lookup. pose proof (count_of_nonneg key rows k).
  destruct (Z.ltb_spec 0 (count_of key rows k)); [congruence|].
  destruct (bool_decide _); [|done]. intros [= <-]. lia.
Qed.

Lemma artifact_counts_pos {R} (key : R -> string) rows statuses :
  (forall r, r ∈ rows -> key r ∈ statuses) ->
  0 < sum_values (with_artifact_counts (zeros statuses) (group_by key rows)) <-> exists r, r ∈ rows.
Proof.
  intros Hin. destruct (sum_values_pos (with_artifact_counts (zeros statuses) (group_by key rows))) as [_ ->].
  { intros k v Hk. rewrite (artifact_counts_some _ _ _ _ _ Hk). apply count_of_nonneg. }
  split.
  - intros (k & v & Hk & Hv). rewrite (artifact_counts_some _ _ _ _ _ Hk) in Hv.
    apply count_of_pos in Hv as (r & Hr & _). by exists r.
  - intros (r & Hr). exists (key r), (count_of key rows (key r)).
    rewrite artifact_counts_lookup by by apply Hin. split; [done|]. apply count_of_pos. by exists r.
Qed.

#[local] Instance type_value_inj : Inj (=) (=) DataSubjectRequestType.value.
Proof. by intros [] []. Qed.
#[local] Instance execution_value_inj : Inj (=) (=) DataSubjectRequestExecutionStatus.value.
Proof. by intros [] []. Qed.

Lemma all_statuses st : DataSubjectRequestExecutionStatus.value st ∈ _DSR_EXECUTION_STATUSES.
Proof. apply list_elem_of_fmap. exists st. split; [done|]. destruct st; by repeat first [left|right]. Qed.

Lemma jobs_counted d ty st :
  ty ∈ job_types ->
  request_counts_of d !! DataSubjectRequestType.value ty ≫= (.!! DataSubjectRequestExecutionStatus.value st) =
  Some (jobs_in d ty st).
Proof.
  intros Hty. unfold request_counts_of. rewrite request_counts_lookup.
  assert (Ht : DataSubjectRequestType.value ty ∈ _DSR_JOB_REQUEST_TYPES).
  { unfold job_types in Hty. by repeat (apply elem_of_cons in Hty as [->|Hty]; [by repeat first [left|right]|]);
      apply not_elem_of_nil in Hty. }
  rewrite !bool_decide_true by first [done|apply all_statuses]. cbn [orb]. f_equal. rewrite count_of_rows.
  apply number_ext. intros r. unfold of_types, _non_cancelled_dsr_predicate, type_and_status. cbn [fst].
  destruct (decide (DataSubjectRequest.request_type r = ty)) as [<-|Hne].
  - rewrite !(bool_decide_true (_ ∈ _)), (bool_decide_true (_ = DataSubjectRequest.request_type r)) by done. cbn [andb].
    rewrite andb_comm. f_equal. apply bool_decide_ext. split; [intros [= ->%(inj _)]; done|by intros ->].
  - rewrite (bool_decide_false (_ = ty)) by done. cbn [andb].
    rewrite (bool_decide_false (_ = (_, _))); [by rewrite andb_false_r|]. by intros [= ?%(inj _) _].
Qed.

Lemma request_counts_type types statuses l t inner :
  with_request_counts (_empty_request_counts types statuses) l !! t = Some inner -> t ∈ types.
Proof.
  intros Hs. destruct (decide (t ∈ types)) as [|Hn]; [done|]. exfalso.
  assert (Hnone : _empty_request_counts types statuses !! t = None)
    by (by rewrite empty_request_counts_lookup, bool_decide_false).
  revert Hs. unfold with_request_counts. generalize (_empty_request_counts types statuses) Hnone.
  induction l as [|[[t' s'] v] l IH]; intros base Hb; cbn [foldl]; [congruence|].
  apply IH. destruct (decide (t' = t)) as [->|Hne]; [by rewrite lookup_alter_eq, Hb|by rewrite lookup_alter_ne].
Qed.

Lemma inner_count types statuses rows t inner s :
  with_request_counts (_empty_request_counts types statuses) (group_by type_and_status rows) !! t = Some inner ->
  s ∈ statuses -> get_count s inner = count_of type_and_status rows (t, s).
Proof.
  intros Ht Hs. pose proof (request_counts_type _ _ _ _ _ Ht) as Hin.
  pose proof (request_counts_lookup types statuses rows t s) as Hl. rewrite Ht in Hl. cbn in Hl.
  rewrite !bool_decide_true in Hl by done. cbn [orb] in Hl. unfold get_count. by rewrite Hl.
Qed.

Lemma failed_pos d :
  0 < sum_values (_failed_counts_from_request_counts (request_counts_of d)) <->
  exists k r, rows (R := DataSubjectRequest.t) d !! k = Some r /\ failed_job r.
Proof.
  set (jobs := rows_where d (fun r => of_types _DSR_JOB_REQUEST_TYPES r && _non_cancelled_dsr_predicate r)).
  assert (Hfailed : forall t v, _failed_counts_from_request_counts (request_counts_of d) !! t = Some v ->
    v = count_of type_and_status jobs (t, "failed"%string)
        + count_of type_and_status jobs (t, "partially_fulfilled"%string)).
  { intros t v Ht. unfold _failed_counts_from_request_counts in Ht. rewrite lookup_fmap in Ht.
    destruct (request_counts_of d !! t) as [inner|] eqn:Hi; [|done]. cbn in Ht. injection Ht as <-.
    rewrite !(inner_count _ _ _ _ _ _ Hi) by (by repeat first [left|right]). fold jobs. lia. }
  assert (Hnn : forall k, 0 <= count_of type_and_status jobs k) by (intros; apply count_of_nonneg).
  destruct (sum_values_pos (_failed_counts_from_request_counts (request_counts_of d))) as [_ ->].
  { intros t v Ht. rewrite (Hfailed t v Ht). pose proof (Hnn (t, "failed"%string)).
    pose proof (Hnn (t, "partially_fulfilled"%string)). lia. }
  split.
  - intros (t & v & Ht & Hv). rewrite (Hfailed t v Ht) in Hv.
    assert (exists st, 0 < count_of type_and_status jobs (t, DataSubjectRequestExecutionStatus.value st) /\
      (st = DataSubjectRequestExecutionStatus.FAILED \/ st = DataSubjectRequestExecutionStatus.PARTIALLY_FULFILLED))
      as (st & Hc & Hst).
    { destruct (Z.ltb_spec 0 (count_of type_and_status jobs (t, "failed"%string))).
      - exists DataSubjectRequestExecutionStatus.FAILED. by split; [|left].
      - exists DataSubjectRequestExecutionStatus.PARTIALLY_FULFILLED. split; [cbn; lia|by right]. }
    apply count_of_pos in Hc as (r & Hr & Heq). injection Heq as _ Heq%(inj _).
    apply elem_of_rows_where in Hr as [HP [k Hk]]. exists k, r. split; [done|].
    split; [by apply of_types_job|]. naive_solver.
  - intros (k & r & Hk & Hjob & Hst). pose proof Hjob as HP. apply of_types_job in HP.
    assert (Hr : r ∈ jobs) by (apply elem_of_rows_where; eauto).
    assert (Hc : 0 < count_of type_and_status jobs (type_and_status r)) by (apply count_of_pos; by exists r).
    set (t := (type_and_status r).1). assert (Hin : t ∈ _DSR_JOB_REQUEST_TYPES).
    { apply andb_true_iff in HP as [HP _]. by apply bool_decide_eq_true_1 in HP. }
    destruct (request_counts_of d !! t) as [inner|] eqn:Hi.
    + exists t, (foldr Z.add 0 ((fun status => get_count status inner) <$> _FAILED_DSR_STATUSES)).
      assert (Hl : _failed_counts_from_request_counts (request_counts_of d) !! t =
        Some (foldr Z.add 0 ((fun status => get_count status inner) <$> _FAILED_DSR_STATUSES)))
        by (unfold _failed_counts_from_request_counts; by rewrite lookup_fmap, Hi).
      split; [exact Hl|]. rewrite (Hfailed t _ Hl).
      pose proof (Hnn (t, "failed"%string)). pose proof (Hnn (t, "partially_fulfilled"%string)).
      replace (type_and_status r) with (t, DataSubjectRequestExecutionStatus.value (DataSubjectRequest.execution_status r)) in Hc by done.
      destruct Hst as [Hst|Hst]; rewrite Hst in Hc; cbn [DataSubjectRequestExecutionStatus.value] in Hc; lia.
    + exfalso. pose proof (request_counts_lookup _DSR_JOB_REQUEST_TYPES _DSR_EXECUTION_STATUSES jobs t
        (type_and_status r).2) as Hl. unfold request_counts_of in Hi. fold jobs in Hi. rewrite Hi in Hl. cbn [mbind option_bind] in Hl.
      rewrite !bool_decide_true in Hl by first [done|apply all_statuses]. done.
Qed.

Lemma stale_pos d n cutoff :
  0 < total (stale_counts_of d n cutoff) <->
  exists k r, rows (R := DataSubjectRequest.t) d !! k = Some r /\ stuck_job d n cutoff r.
Proof.
  unfold stale_counts_of. rewrite request_counts_pos. split.
  - intros (r & [HP [k Hk]]%elem_of_rows_where & _). exists k, r. by rewrite <- stuck_query.
  - intros (k & r & Hk & Hs). exists r. rewrite elem_of_rows_where, stuck_query. split; [eauto|].
    destruct Hs as [Hjob _]. apply of_types_job, andb_true_iff in Hjob as [Ht _].
    by apply bool_decide_eq_true_1 in Ht.
Qed.

Lemma stale_artifacts_pos d n cutoff :
  0 < sum_values (stale_artifacts_of d n cutoff) <->
  exists k a, rows (R := ExportArtifact.t) d !! k = Some a /\ stuck_artifact d n cutoff a.
Proof.
  unfold stale_artifacts_of. rewrite artifact_counts_pos.
  - split.
    + intros (a & [HP [k Hk]]%elem_of_rows_where). exists k, a. by rewrite <- stuck_artifact_query.
    + intros (k & a & Hk & Hs). exists a. rewrite elem_of_rows_where, stuck_artifact_query. eauto.
  - intros a [HP _]%elem_of_rows_where. apply stuck_artifact_query in HP as [_ Hs]. unfold artifact_status.
    destruct (ExportArtifact.status a); try done; by repeat first [left|right].
Qed.

(** ** The metrics *)

(** Points of one key carry one count. *)
Definition consistent (points : list PrivacyDsrMetricPoint) : Prop :=
  forall p q, p ∈ points -> q ∈ points -> key_of p = key_of q -> count p = count q.

Lemma recorded_lookup (points : list PrivacyDsrMetricPoint) (base : gmap (string * string * string * string) Z) p :
  consistent points -> p ∈ points ->
  foldl (fun (m : gmap (string * string * string * string) Z) p => <[key_of p := count p]> m) base points
    !! key_of p = Some (count p).
Proof.
  revert base. induction points as [|q points IH] using rev_ind; intros base Hc Hp; [by apply not_elem_of_nil in Hp|].
  rewrite foldl_snoc. destruct (decide (key_of q = key_of p)) as [Heq|Hne].
  - rewrite Heq, lookup_insert_eq. f_equal. apply Hc; [|done|done]. apply elem_of_app. right. by left.
  - rewrite lookup_insert_ne by done. apply IH.
    + intros x y Hx Hy. apply Hc; apply elem_of_app; by left.
    + apply elem_of_app in Hp as [Hp|[->|[]%not_elem_of_nil]%elem_of_cons]; [done|by destruct Hne].
Qed.

Lemma elem_of_sorted_items {A} (m : gmap string A) k v : (k, v) ∈ sorted_items m <-> m !! k = Some v.
Proof. unfold sorted_items. by rewrite merge_sort_Permutation, elem_of_map_to_list. Qed.

Lemma elem_of_request_points signal counts p :
  p ∈ request_points signal counts <->
  exists t inner s v, counts !! t = Some inner /\ inner !! s = Some v /\ p = mkPoint "dsr_request" t s signal v.
Proof.
  unfold request_points. rewrite list_elem_of_In, in_concat. setoid_rewrite <- list_elem_of_In. split.
  - intros (l & ([t inner] & -> & Ht%elem_of_sorted_items)%list_elem_of_fmap & ([s v] & -> & Hs%elem_of_sorted_items)%list_elem_of_fmap).
    by exists t, inner, s, v.
  - intros (t & inner & s & v & Ht & Hs & ->). eexists. split.
    + apply list_elem_of_fmap. exists (t, inner). split; [reflexivity|]. by apply elem_of_sorted_items.
    + apply list_elem_of_fmap. exists (s, v). split; [done|]. by apply elem_of_sorted_items.
Qed.

Lemma elem_of_failed_points counts p :
  p ∈ failed_points counts <->
  exists t inner s, counts !! t = Some inner /\ s ∈ _FAILED_DSR_STATUSES /\
    p = mkPoint "dsr_request" t s "failed" (get_count s inner).
Proof.
  unfold failed_points. rewrite list_elem_of_In, in_concat. setoid_rewrite <- list_elem_of_In. split.
  - intros (l & ([t inner] & -> & Ht%elem_of_sorted_items)%list_elem_of_fmap & (s & -> & Hs)%list_elem_of_fmap).
    by exists t, inner, s.
  - intros (t & inner & s & Ht & Hs & ->). eexists. split.
    + apply list_elem_of_fmap. exists (t, inner). split; [reflexivity|]. by apply elem_of_sorted_items.
    + apply list_elem_of_fmap. by exists s.
Qed.

(** The sections of a snapshot's points. *)
Inductive point_of (s : t) : PrivacyDsrMetricPoint -> Prop :=
  | point_current ty inner st v : request_counts s !! ty = Some inner -> inner !! st = Some v ->
      point_of s (mkPoint "dsr_request" ty st "current" v)
  | point_stale ty inner st v : stale_request_counts s !! ty = Some inner -> inner !! st = Some v ->
      point_of s (mkPoint "dsr_request" ty st "stale" v)
  | point_failed ty inner st : request_counts s !! ty = Some inner -> st ∈ _FAILED_DSR_STATUSES ->
      point_of s (mkPoint "dsr_request" ty st "failed" (get_count st inner))
  | point_artifact st v : export_artifact_counts s !! st = Some v ->
      point_of s (mkPoint "export_artifact" "export" st "current" v)
  | point_stale_artifact st : st ∈ _STALE_EXPORT_ARTIFACT_STATUSES ->
      point_of s (mkPoint "export_artifact" "export" st "stale" (get_count st (stale_export_artifact_counts s)))
  | point_failed_artifacts :
      point_of s (mkPoint "export_artifact" "export" "failed" "failed" (failed_export_artifacts s)).

Lemma elem_of_points s p : p ∈ to_metric_points s <-> point_of s p.
Proof.
  unfold to_metric_points. rewrite !elem_of_app, !elem_of_request_points, elem_of_failed_points. split.
  - intros [(ty & i & st & v & H1 & H2 & ->)|[(ty & i & st & v & H1 & H2 & ->)|[(ty & i & st & H1 & H2 & ->)|[Hp|[Hp|Hp]]]]];
      [by econstructor..| | |].
    + apply list_elem_of_fmap in Hp as ([st v] & -> & Hp%elem_of_sorted_items). by constructor.
    + apply list_elem_of_fmap in Hp as (st & -> & Hp). by constructor.
    + apply elem_of_cons in Hp as [->|[]%not_elem_of_nil]. constructor.
  - destruct 1 as [ty i st v H1 H2|ty i st v H1 H2|ty i st H1 H2|st v H1|st H1|].
    + left. eauto 10.
    + right; left. eauto 10.
    + right; right; left. eauto 10.
    + do 3 right. left. apply list_elem_of_fmap. exists (st, v). by rewrite elem_of_sorted_items.
    + do 4 right. left. apply list_elem_of_fmap. by exists st.
    + do 5 right. by left.
Qed.

Lemma points_consistent s : consistent (to_metric_points s).
Proof.
  intros p q Hp%elem_of_points Hq%elem_of_points. unfold key_of.
  destruct Hp; destruct Hq; cbn; intros Hk; simplify_eq; done.
Qed.

(** ** The check *)

(** What a snapshot of a database, taken at [n], says. *)
Record snapshot_true (d : Db) (n cutoff : datetime) (s : t) : Prop := mkTrue {
  true_time : checked_at s = n;
  true_status : status s = "degraded"%string /\ needs_attention d n cutoff \/
    status s = "ok"%string /\ ~ needs_attention d n cutoff;
  true_requests : forall ty st, ty ∈ job_types -> exists v,
    request_counts s !! DataSubjectRequestType.value ty
      ≫= (.!! DataSubjectRequestExecutionStatus.value st) = Some v /\
    rows_number d (fun r => DataSubjectRequest.request_type r = ty /\
      DataSubjectRequest.execution_status r = st /\
      DataSubjectRequest.status r <> DataSubjectRequestStatus.CANCELLED) v;
  true_failed_requests : forall ty, ty ∈ job_types -> exists v,
    failed_request_counts s !! DataSubjectRequestType.value ty = Some v /\
    rows_number d (fun r => failed_job r /\ DataSubjectRequest.request_type r = ty) v;
  true_stale_requests : forall ty st, ty ∈ job_types ->
    st ∈ [DataSubjectRequestExecutionStatus.QUEUED; DataSubjectRequestExecutionStatus.PROCESSING] ->
    exists v, stale_request_counts s !! DataSubjectRequestType.value ty
      ≫= (.!! DataSubjectRequestExecutionStatus.value st) = Some v /\
    rows_number d (fun r => stuck_job d n cutoff r /\ DataSubjectRequest.request_type r = ty /\
      DataSubjectRequest.execution_status r = st) v;
  true_artifacts : forall st, exists v,
    export_artifact_counts s !! ExportArtifactStatus.value st = Some v /\
    rows_number d (fun a => ExportArtifact.status a = st) v;
  true_stale_artifacts : forall st,
    st ∈ [ExportArtifactStatus.QUEUED; ExportArtifactStatus.PROCESSING; ExportArtifactStatus.READY] ->
    exists v, stale_export_artifact_counts s !! ExportArtifactStatus.value st = Some v /\
    rows_number d (fun a => stuck_artifact d n cutoff a /\ ExportArtifact.status a = st) v;
  true_all_stale_artifacts :
    rows_number d (stuck_artifact d n cutoff) (stale_export_artifacts s);
  true_failed_artifacts : rows_number d (failed_artifact d) (failed_export_artifacts s);
}.

Record recorded (m m' : metrics) (s : t) : Prop := mkRecorded {
  recorded_points : forall p, p ∈ to_metric_points s -> _last_privacy_dsr_job_points m' !! key_of p = Some (count p);
  recorded_checks : privacy_dsr_health_checks_total m' =
    <[status s := get_count (status s) (privacy_dsr_health_checks_total m) + 1]> (privacy_dsr_health_checks_total m);
}.

(** The snapshot of a database. *)
Definition snapshot_of (d : Db) (n cutoff seconds : Z) : t :=
  let s := mk n "degraded" seconds (request_counts_of d) (stale_counts_of d n cutoff)
    (_failed_counts_from_request_counts (request_counts_of d)) (artifacts_of d)
    (stale_artifacts_of d n cutoff) (sum_values (stale_artifacts_of d n cutoff))
    (number d (current_failed d)) in
  if is_degraded s then s else with_status "ok" s.

Lemma snapshot_degraded d n cutoff secs :
  is_degraded (mk n "degraded" secs (request_counts_of d) (stale_counts_of d n cutoff)
    (_failed_counts_from_request_counts (request_counts_of d)) (artifacts_of d)
    (stale_artifacts_of d n cutoff) (sum_values (stale_artifacts_of d n cutoff))
    (number d (current_failed d))) = true <-> needs_attention d n cutoff.
Proof.
  unfold is_degraded, total_failed_dsr_jobs, total_stale_dsr_jobs. cbn [failed_request_counts
    stale_request_counts failed_export_artifacts stale_export_artifacts].
  rewrite !orb_true_iff, !Z.ltb_lt, failed_pos, stale_pos, stale_artifacts_pos, number_pos.
  setoid_rewrite failed_artifact_query. unfold needs_attention. naive_solver.
Qed.

Lemma artifact_value_inj : Inj (=) (=) ExportArtifactStatus.value.
Proof. by intros [] []. Qed.

Lemma failed_counted d ty :
  ty ∈ job_types -> exists v,
    _failed_counts_from_request_counts (request_counts_of d) !! DataSubjectRequestType.value ty = Some v /\
    rows_number d (fun r => failed_job r /\ DataSubjectRequest.request_type r = ty) v.
Proof.
  intros Hty. unfold _failed_counts_from_request_counts. rewrite lookup_fmap.
  pose proof (jobs_counted d ty DataSubjectRequestExecutionStatus.FAILED Hty) as Hf.
  pose proof (jobs_counted d ty DataSubjectRequestExecutionStatus.PARTIALLY_FULFILLED Hty) as Hp.
  destruct (request_counts_of d !! _) as [inner|]; [|done]. eexists. split; [reflexivity|].
  cbn [mbind option_bind] in Hf, Hp. unfold get_count. cbn [_FAILED_DSR_STATUSES fmap list_fmap foldr].
  rewrite Hf, Hp. cbn [default]. rewrite Z.add_0_r.
  set (P r := bool_decide (DataSubjectRequest.request_type r = ty)
    && match DataSubjectRequest.execution_status r with
       | DataSubjectRequestExecutionStatus.FAILED
       | DataSubjectRequestExecutionStatus.PARTIALLY_FULFILLED => true | _ => false end
    && negb (bool_decide (DataSubjectRequest.status r = DataSubjectRequestStatus.CANCELLED))).
  replace (_ + _) with (number d P).
  - apply number_rows. intros r. unfold P, failed_job, is_job. rewrite !andb_true_iff, negb_true_iff.
    rewrite bool_decide_eq_true, bool_decide_eq_false.
    unfold job_types in Hty. rewrite !elem_of_cons in Hty. pose proof (not_elem_of_nil ty).
    destruct (DataSubjectRequest.execution_status r); naive_solver.
  - rewrite (number_split d P (fun r => bool_decide
      (DataSubjectRequest.execution_status r = DataSubjectRequestExecutionStatus.FAILED))).
    unfold jobs_in. f_equal; apply number_ext; intros r; unfold P;
      destruct (DataSubjectRequest.execution_status r), (bool_decide (DataSubjectRequest.request_type r = ty)),
        (bool_decide (DataSubjectRequest.status r = _)); done.
Qed.

Lemma stale_counted d n cutoff ty st :
  ty ∈ job_types ->
  st ∈ [DataSubjectRequestExecutionStatus.QUEUED; DataSubjectRequestExecutionStatus.PROCESSING] ->
  exists v, stale_counts_of d n cutoff !! DataSubjectRequestType.value ty
      ≫= (.!! DataSubjectRequestExecutionStatus.value st) = Some v /\
    rows_number d (fun r => stuck_job d n cutoff r /\ DataSubjectRequest.request_type r = ty /\
      DataSubjectRequest.execution_status r = st) v.
Proof.
  intros Hty Hst. unfold stale_counts_of. rewrite request_counts_lookup.
  rewrite !bool_decide_true.
  - eexists. split; [reflexivity|]. rewrite count_of_rows. apply number_rows. intros r.
    rewrite andb_true_iff, bool_decide_eq_true, stuck_query. apply and_iff_compat_l.
    unfold type_and_status. split; [by intros [= ?%(inj _) ?%(inj _)]|by intros [-> ->]].
  - by apply (list_elem_of_fmap_2 DataSubjectRequestExecutionStatus.value) in Hst.
  - by apply (list_elem_of_fmap_2 DataSubjectRequestType.value) in Hty.
Qed.

Lemma stale_artifacts_counted d n cutoff st :
  st ∈ [ExportArtifactStatus.QUEUED; ExportArtifactStatus.PROCESSING; ExportArtifactStatus.READY] ->
  stale_artifacts_of d n cutoff !! ExportArtifactStatus.value st =
    Some (number d (fun a => stale_artifact d n cutoff a && bool_decide (ExportArtifact.status a = st))).
Proof.
  intros Hst. unfold stale_artifacts_of. rewrite artifact_counts_lookup.
  - rewrite count_of_rows. f_equal. apply number_ext. intros a. f_equal. unfold artifact_status.
    apply bool_decide_ext. split; [by intros ?%artifact_value_inj|by intros ->].
  - by apply (list_elem_of_fmap_2 ExportArtifactStatus.value) in Hst.
Qed.

Lemma sum_values_insert m k v : m !! k = None -> sum_values (<[k := v]> m) = v + sum_values m.
Proof.
  intros Hk. unfold sum_values. pose proof (map_to_list_insert m k v Hk) as Hp.
  assert (Hsum : forall l l' : list Z, l ≡ₚ l' -> foldr Z.add 0 l = foldr Z.add 0 l').
  { induction 1; cbn; lia. }
  by rewrite (Hsum _ _ (fmap_Permutation snd _ _ Hp)).
Qed.

(** No other status is counted. *)
Lemma stale_artifacts_all d n cutoff :
  sum_values (stale_artifacts_of d n cutoff) = number d (stale_artifact d n cutoff).
Proof.
  set (q := number d (fun a => stale_artifact d n cutoff a
    && bool_decide (ExportArtifact.status a = ExportArtifactStatus.QUEUED))).
  set (p := number d (fun a => stale_artifact d n cutoff a
    && bool_decide (ExportArtifact.status a = ExportArtifactStatus.PROCESSING))).
  set (y := number d (fun a => stale_artifact d n cutoff a
    && bool_decide (ExportArtifact.status a = ExportArtifactStatus.READY))).
  assert (Hmap : stale_artifacts_of d n cutoff =
    <["queued"%string := q]> (<["processing"%string := p]> (<["ready"%string := y]> ∅))).
  { apply map_eq. intros k. destruct (decide (k = "queued"%string)) as [->|H1].
    { rewrite lookup_insert_eq. apply (stale_artifacts_counted d n cutoff ExportArtifactStatus.QUEUED). by left. }
    rewrite lookup_insert_ne by done. destruct (decide (k = "processing"%string)) as [->|H2].
    { rewrite lookup_insert_eq. apply (stale_artifacts_counted d n cutoff ExportArtifactStatus.PROCESSING).
      right; by left. }
    rewrite lookup_insert_ne by done. destruct (decide (k = "ready"%string)) as [->|H3].
    { rewrite lookup_insert_eq. apply (stale_artifacts_counted d n cutoff ExportArtifactStatus.READY).
      right; right; by left. }
    rewrite lookup_insert_ne, lookup_empty by done. unfold stale_artifacts_of, with_artifact_counts.
    rewrite foldl_insert_lookup by (rewrite group_by_keys; apply NoDup_remove_dups).
    rewrite group_by_lookup, zeros_lookup, bool_decide_false.
    2:{ by intros [->|[->|[->|[]%not_elem_of_nil]%elem_of_cons]%elem_of_cons]%elem_of_cons. }
    destruct (Z.ltb_spec 0 (count_of artifact_status (rows_where d (stale_artifact d n cutoff)) k)) as [Hpos|]; [|done].
    exfalso. apply count_of_pos in Hpos as (a & [HP _]%elem_of_rows_where & <-).
    apply stuck_artifact_query in HP as [_ Hs]. unfold artifact_status in *.
    by destruct (ExportArtifact.status a). }
  rewrite Hmap, !sum_values_insert by done. change (sum_values ∅) with 0.
  rewrite (number_split d (stale_artifact d n cutoff)
    (fun a => bool_decide (ExportArtifact.status a = ExportArtifactStatus.QUEUED))). fold q. f_equal.
  rewrite (number_split d _
    (fun a => bool_decide (ExportArtifact.status a = ExportArtifactStatus.PROCESSING))).
  f_equal; [|rewrite Z.add_0_r]; apply number_ext; intros a; pose proof (stuck_artifact_query d n cutoff a) as Hq;
    destruct (stale_artifact d n cutoff a); try done; destruct (proj1 Hq eq_refl) as [_ Hs];
    by destruct (ExportArtifact.status a).
Qed.

Lemma snapshot_says d n cutoff secs : snapshot_true d n cutoff (snapshot_of d n cutoff secs).
Proof.
  pose proof (snapshot_degraded d n cutoff secs) as Hdeg. unfold snapshot_of.
  set (s := mk n _ _ _ _ _ _ _ _ _) in *.
  assert (Hcounts : forall status, status = "degraded"%string /\ needs_attention d n cutoff \/
      status = "ok"%string /\ ~ needs_attention d n cutoff ->
    snapshot_true d n cutoff (with_status status s)).
  { intros status Hstatus. constructor; [done|exact Hstatus|..].
    - intros ty st Hty. exists (jobs_in d ty st). split; [by apply jobs_counted|]. apply number_rows.
      intros r. rewrite !andb_true_iff, negb_true_iff, !bool_decide_eq_true, bool_decide_eq_false. tauto.
    - intros ty. apply failed_counted.
    - intros ty st. apply stale_counted.
    - intros st. exists (number (R := ExportArtifact.t) d (fun a => bool_decide (ExportArtifact.status a = st))).
      split; [|apply number_rows; intros a; apply bool_decide_eq_true].
      cbn. unfold artifacts_of. rewrite artifact_counts_lookup.
      + rewrite count_of_rows. f_equal. apply number_ext. intros a. cbn [andb]. unfold artifact_status.
        apply bool_decide_ext. split; [by intros ?%artifact_value_inj|by intros ->].
      + apply list_elem_of_fmap. exists st. split; [done|]. destruct st; by repeat first [left|right].
    - intros st Hst. eexists. split; [by apply stale_artifacts_counted|]. apply number_rows. intros a.
      by rewrite andb_true_iff, bool_decide_eq_true, stuck_artifact_query.
    - cbn. rewrite stale_artifacts_all. apply number_rows. intros a. apply stuck_artifact_query.
    - apply number_rows. intros a. apply failed_artifact_query. }
  destruct (is_degraded s) eqn:Hs.
  - apply (Hcounts "degraded"%string). left. split; [done|by apply Hdeg].
  - apply (Hcounts "ok"%string). right. split; [done|]. intros Ha. by apply Hdeg in Ha.
Qed.

Lemma snapshot_recorded d n cutoff secs m :
  let s := snapshot_of d n cutoff secs in
  recorded m (record_privacy_dsr_health_snapshot (status s) (to_metric_points s) m) s.
Proof.
  intros s. pose proof (true_status _ _ _ _ (snapshot_says d n cutoff secs)) as Hstatus. fold s in Hstatus.
  assert (Hvalid : _validate_health_status (status s) && forallb _validate_metric_point (to_metric_points s) = true).
  { apply andb_true_iff. split; [destruct Hstatus as [[-> _]|[-> _]]; done|].
    apply forallb_forall. intros p Hp%list_elem_of_In%elem_of_points. unfold _validate_metric_point.
    assert (Hfields : request_counts s = request_counts_of d /\ stale_request_counts s = stale_counts_of d n cutoff /\
      export_artifact_counts s = artifacts_of d /\ stale_export_artifact_counts s = stale_artifacts_of d n cutoff /\
      failed_export_artifacts s = number d (current_failed d)).
    { unfold s, snapshot_of. by destruct (is_degraded _). }
    destruct Hfields as (H1 & H2 & H3 & H4 & H5).
    assert (Htypes : forall types statuses rows ty inner, types = _DSR_JOB_REQUEST_TYPES ->
      with_request_counts (_empty_request_counts types statuses) (group_by type_and_status rows) !! ty = Some inner ->
      ty ∈ ALLOWED_PRIVACY_DSR_REQUEST_TYPES /\ forall st, 0 <= get_count st inner).
    { intros types statuses rows ty inner -> Hi. split; [by eapply request_counts_type|].
      intros st. unfold get_count. destruct (inner !! st) as [v|] eqn:Hv; [|done]. cbn.
      by eapply (request_counts_nonneg _ _ _ _ _ Hi). }
    assert (Hartifacts : forall k v, artifacts_of d !! k = Some v -> 0 <= v).
    { intros k v Hk. rewrite (artifact_counts_some _ _ _ _ _ Hk). apply count_of_nonneg. }
    assert (Hstale : forall k, 0 <= get_count k (stale_artifacts_of d n cutoff)).
    { intros k. unfold get_count. destruct (stale_artifacts_of d n cutoff !! k) as [v|] eqn:Hk; [|done]. cbn.
      rewrite (artifact_counts_some _ _ _ _ _ Hk). apply count_of_nonneg. }
    destruct Hp as [ty i st v Ht Hv|ty i st v Ht Hv|ty i st Ht Hst|st v Hv|st Hst|]; rewrite ?H1, ?H2, ?H3, ?H4, ?H5 in *;
      cbn [job_kind request_type signal count].
    - destruct (Htypes _ _ _ _ _ eq_refl Ht) as [Hin Hpos]. specialize (Hpos st). unfold get_count in Hpos.
      rewrite Hv in Hpos. rewrite !bool_decide_true by first [exact Hin|by repeat first [left|right]]. cbn. by apply Z.leb_le.
    - destruct (Htypes _ _ _ _ _ eq_refl Ht) as [Hin Hpos]. specialize (Hpos st). unfold get_count in Hpos.
      rewrite Hv in Hpos. rewrite !bool_decide_true by first [exact Hin|by repeat first [left|right]]. cbn. by apply Z.leb_le.
    - destruct (Htypes _ _ _ _ _ eq_refl Ht) as [Hin Hpos].
      rewrite !bool_decide_true by first [exact Hin|by repeat first [left|right]]. cbn [andb]. by apply Z.leb_le.
    - rewrite !bool_decide_true by (by repeat first [left|right]). cbn [andb]. apply Z.leb_le. by eapply Hartifacts.
    - rewrite !bool_decide_true by (by repeat first [left|right]). cbn [andb]. by apply Z.leb_le.
    - rewrite !bool_decide_true by (by repeat first [left|right]). cbn [andb]. apply Z.leb_le. unfold number. lia. }
  unfold record_privacy_dsr_health_snapshot. rewrite Hvalid. cbn [negb].
  constructor; cbn; [|done]. intros p Hp. apply recorded_lookup; [apply points_consistent|done].
Qed.

(** C37. The health check tells the truth and changes nothing. Each count of the snapshot is the
    number of rows of its kind: the jobs by type and status, the failed jobs and the stuck
    ones, the artifacts by status, the stuck ones by status and in all, and the failed ones.
    It is degraded exactly when there is one of the failed or stuck: a job (an export or an
    erasure that was not called off) that failed, was fulfilled in part, or waits or runs
    since before the cut-off, unless it is an export whose artifact has a running lease; a
    failed artifact that no newer one of its request replaced; an artifact queued since before
    the cut-off; one in processing whose lease ran out, or that has none and was started before
    the cut-off; or one that is ready, that nobody fetched before it expired and that no newer
    one replaced - each of an export that was not called off. The metrics carry every point of
    the snapshot, and the check is counted under its status. *)
Theorem health_check_true `{Env} reference stale_after m d :
  wp (get_privacy_dsr_execution_health reference stale_after true m)
    (fun x d' => d' = d /\ 0 < stale_after /\
       (forall n, reference = Some n -> checked_at x.1 = n) /\
       snapshot_true d (checked_at x.1) (checked_at x.1 - stale_after) x.1 /\ recorded m x.2 x.1)
    (fun e => stale_after <= 0 /\ e = ValueError "DSR execution stale_after must be positive") d.
Proof.
  unfold get_privacy_dsr_execution_health. apply wp_bind, wp_raise_if; intros Hs; [split; [lia|done]|].
  apply wp_bind. unfold _normalise_utc, now_or.
  assert (Hmain : forall n, (forall n', reference = Some n' -> n = n') ->
    wp (request_counts ← count_dsr_requests_by_status _DSR_JOB_REQUEST_TYPES _DSR_EXECUTION_STATUSES;
        stale_request_counts ← count_stale_dsr_requests_by_status _DSR_JOB_REQUEST_TYPES
          _STALE_DSR_STATUSES n (n - stale_after);
        export_artifact_counts ← count_export_artifacts_by_status;
        failed_export_artifacts ← count_current_failed_export_artifacts;
        stale_export_artifact_counts ← count_stale_export_artifacts_by_status n (n - stale_after);
        let snapshot := mk n "degraded" (stale_after / seconds 1) request_counts stale_request_counts
          (_failed_counts_from_request_counts request_counts) export_artifact_counts
          stale_export_artifact_counts (sum_values stale_export_artifact_counts) failed_export_artifacts in
        let snapshot := if is_degraded snapshot then snapshot else with_status "ok" snapshot in
        mret (snapshot, record_privacy_dsr_health_snapshot (status snapshot) (to_metric_points snapshot) m))
    (fun x d' => d' = d /\ 0 < stale_after /\
       (forall n, reference = Some n -> checked_at x.1 = n) /\
       snapshot_true d (checked_at x.1) (checked_at x.1 - stale_after) x.1 /\ recorded m x.2 x.1)
    (fun e => stale_after <= 0 /\ e = ValueError "DSR execution stale_after must be positive") d).
  { intros n Hn. do 5 (apply wp_bind; first [apply wp_bind, wp_bind, wp_get_db, wp_ret, wp_ret|apply wp_bind, wp_get_db, wp_ret]).
    apply wp_ret. set (s := if is_degraded _ then _ else _).
    change s with (snapshot_of d n (n - stale_after) (stale_after / seconds 1)).
    pose proof (snapshot_says d n (n - stale_after) (stale_after / seconds 1)) as Htrue.
    pose proof (snapshot_recorded d n (n - stale_after) (stale_after / seconds 1) m) as Hrec.
    cbn [fst snd]. rewrite (true_time _ _ _ _ Htrue). split_and!; [done|lia|by apply Hn|exact Htrue|exact Hrec]. }
  destruct reference as [n|].
  - apply wp_ret, Hmain. congruence.
  - apply wp_draw. intros i. by apply Hmain.
Qed.
