(* ===== verification/ErasureProofs.v ===== *)
(** The execution of an erasure: what each provider makes of its table, that nothing
    of the subject is left, that a failed execution leaves everything else alone,
    and what blocks one. *)
From S2P Require Import Prelude Errors Session Schema Tables Rows AuditLog Users Invites.
From S2P Require Import Outbox ExportArtifacts DataSubjectRequests ExportArtifactServices Erasures.
From S2P Require Import Fixtures AuditProofs InviteProofs.
Import InviteAnonymisation ErasureRows.

(** ** Changing a row field by field *)
Section Changes.
Context {R : Type}.
Implicit Types (s : R * list string) (f : R * list string -> R * list string).

(** A step collects names exactly when it changes the row. *)
Definition tracks f : Prop := forall s,
  (length s.2 <= length (f s).2)%nat /\ (length (f s).2 = length s.2 -> f s = s).

Lemma tracks_set_if_changed {A} `{EqDecision A} name (get : R -> A) set v :
  tracks (_set_if_changed name get set v).
Proof.
  intros s. unfold _set_if_changed. destruct (decide _); [done|]. simpl.
  rewrite length_app. simpl. split; lia.
Qed.

Lemma tracks_when b f : tracks f -> tracks (when b f).
Proof. by destruct b. Qed.

Lemma tracks_in_turn fs : Forall tracks fs -> tracks (in_turn fs).
Proof.
  induction 1 as [|f fs Hf _ IH]; intros s; simpl; [done|].
  destruct (Hf s) as [H1 H2], (IH (f s)) as [H3 H4]. split; [lia|]. intros Hl.
  rewrite H4 by lia. apply H2. lia.
Qed.

(** A change of a row that reports nothing leaves it as it was. *)
Definition honest (change : R -> R * list string) : Prop :=
  forall r, (change r).2 = [] -> (change r).1 = r.

Lemma tracks_silent f r : tracks f -> (f (r, [])).2 = [] -> (f (r, [])).1 = r.
Proof. intros Hf Hn. destruct (Hf (r, [])) as [_ H2]. rewrite H2; [done|]. by rewrite Hn. Qed.

(** What the steps do to the row. *)
Lemma set_if_changed_row {A} `{EqDecision A} name (get : R -> A) set v s :
  (forall r, set (get r) r = r) -> (_set_if_changed name get set v s).1 = set v s.1.
Proof. intros Hl. unfold _set_if_changed. destruct (decide _) as [<-|]; [by rewrite Hl|done]. Qed.

Lemma when_row b f s : (when b f s).1 = if b then (f s).1 else s.1.
Proof. by destruct b. Qed.

End Changes.

Ltac tracks_solve :=
  repeat first [ apply tracks_set_if_changed | apply tracks_when | apply tracks_in_turn
               | apply Forall_nil_2 | apply Forall_cons_2 ].

Ltac honest_solve :=
  intros ?; lazymatch goal with |- (?c _).2 = [] -> _ => let h := head_of c in unfold h end;
  cbv zeta; apply tracks_silent; tracks_solve.

(** ** Rewriting the selected rows of a table *)
Section Rewriting.
Context {R : Type} `{TableLaws R} `{EqDecision R} `{Env}.
Implicit Types (d : Db) (r : R) (t : gmap UUID R).

(** In [t] the rows of [d] with a key that [hit] picks were rewritten by [f], at most
    touched besides; the others are as they were. *)
Definition rewritten (f : R -> R) (hit : UUID -> R -> bool) d t : Prop :=
  forall k, option_Forall2 (fun r r' => if hit k r then written f r r' else r' = r)
              (rows d !! k) (t !! k).

Lemma rewritten_lookup f hit d t k r' :
  rewritten f hit d t -> t !! k = Some r' ->
  exists r, rows d !! k = Some r /\ if hit k r then written f r r' else r' = r.
Proof. intros Ht Hr'. specialize (Ht k). rewrite Hr' in Ht. inversion Ht; subst. eauto. Qed.

Lemma rewritten_lookup_old f hit d t k r :
  rewritten f hit d t -> rows d !! k = Some r ->
  exists r', t !! k = Some r' /\ if hit k r then written f r r' else r' = r.
Proof. intros Ht Hr. specialize (Ht k). rewrite Hr in Ht. inversion Ht; subst. eauto. Qed.

Lemma rewritten_hit f hit hit' d t :
  rewritten f hit d t -> (forall k r, rows d !! k = Some r -> hit k r = hit' k r) ->
  rewritten f hit' d t.
Proof.
  intros Ht Hh k. specialize (Ht k). inversion Ht as [r r' Hr Hk Hk'|]; subst; constructor.
  by rewrite <- (Hh k r).
Qed.

Lemma rewritten_refl f d : rewritten f (fun _ _ => false) d (rows d).
Proof. intros k. destruct (rows d !! k); by constructor. Qed.

Definition in_keys (ks : list UUID) (k : UUID) : bool := bool_decide (k ∈ ks).

Lemma wp_rewrite_listed (change : R -> R * list string) l :
  honest change -> (forall r, pk (change r).1 = pk r) ->
  forall d (Q : list (list string) -> Db -> Prop), wf d -> as_read l d ->
  (forall t, wf (set_rows t d) -> rewritten (fun r => (change r).1) (fun k _ => in_keys (pk <$> l) k) d t ->
     Q ((fun r => (change r).2) <$> l) (set_rows t d)) ->
  wp (rewrite_each change l) Q any_exn d.
Proof.
  intros Hh Hpk. induction l as [|r l IH]; intros d Q Hwf Hl HQ.
  { apply wp_ret. rewrite <- (set_rows_id d). apply HQ; [by rewrite set_rows_id|].
    eapply rewritten_hit; [apply rewritten_refl|done]. }
  pose proof Hl as [Hnd Hall]. rewrite fmap_cons in Hnd. apply NoDup_cons in Hnd as [Hnew _].
  apply Forall_cons in Hall as [Hr _].
  assert (Hstep : forall d1 r', wf d1 -> d1 = set_rows (<[pk r := r']> (rows d)) d ->
    written (fun r => (change r).1) r r' ->
    wp (rewrite_each change l) (fun ys d' => Q ((change r).2 :: ys) d') any_exn d1).
  { intros d1 r' Hwf1 Hd1 Hw. apply IH; [done| |].
    { eapply as_read_write; [done|]. intros k' Hk'. rewrite Hd1, rows_set. by apply lookup_insert_ne. }
    intros t Hwft Ht. rewrite Hd1, set_rows_twice in Hwft |- *. apply HQ; [done|].
    intros k. specialize (Ht k). unfold in_keys in *. rewrite Hd1, rows_set in Ht. rewrite fmap_cons.
    destruct (decide (k = pk r)) as [->|Hk].
    - rewrite lookup_insert_eq in Ht. inversion Ht as [x y Hxy Hx Hy|]; subst.
      rewrite bool_decide_false in Hxy by done. subst y. rewrite Hr. constructor.
      by rewrite bool_decide_true by by constructor.
    - rewrite lookup_insert_ne in Ht by done. inversion Ht as [x y Hxy Hx Hy|]; subst; constructor.
      rewrite (bool_decide_ext (k ∈ pk r :: (pk <$> l)) (k ∈ pk <$> l)); [done|].
      rewrite elem_of_cons. naive_solver. }
  apply wp_bind, wp_bind.
  assert (Hcont : forall d1 r', wf d1 -> d1 = set_rows (<[pk r := r']> (rows d)) d ->
    written (fun r => (change r).1) r r' ->
    wp (mret (change r).2) (fun y d' => wp (for_each l (fun row =>
      (if bool_decide ((change row).2 = []) then mret tt
       else update_row (pk row) (fun r => (change r).1) ;; mret tt) ;; mret (change row).2) ≫= fun ys => mret (y :: ys))
      Q any_exn d') any_exn d1).
  { intros d1 r' ???. apply wp_ret, wp_bind. eapply wp_mono; [by apply (Hstep d1 r')| |done].
    intros ys d' HQ'. by apply wp_ret. }
  case_bool_decide as Hc.
  - apply wp_ret. apply (Hcont d r); [done| |left; by rewrite (Hh r Hc)].
    rewrite insert_id by done. by rewrite set_rows_id.
  - apply wp_bind, wp_update_row; [done..| |].
    + intros r1 Hr1 Hid. rewrite Hr in Hr1. injection Hr1 as <-. apply wp_ret.
      apply (Hcont d r); [done| |by left]. rewrite insert_id by done. by rewrite set_rows_id.
    + intros r1 n Hr1 _ Hv. rewrite Hr in Hr1. injection Hr1 as <-. apply wp_ret.
      apply (Hcont _ (touch n (change r).1)); [by apply wf_put_row| |by right; exists n].
      unfold put_row. by rewrite pk_touch, Hpk.
Qed.

(** The rows a query selects, in any order. *)
Lemma wp_rewrite_selected (change : R -> R * list string) sel (R' : R -> R -> Prop)
    `{!forall x y, Decision (R' x y)} d (Q : list (list string) -> Db -> Prop) :
  honest change -> (forall r, pk (change r).1 = pk r) -> wf d ->
  (forall t cs, wf (set_rows t d) -> rewritten (fun r => (change r).1) (fun _ => sel) d t ->
     length cs = length (rows_where d sel) -> Q cs (set_rows t d)) ->
  wp (rewrite_each change (merge_sort R' (rows_where d sel))) Q any_exn d.
Proof.
  intros Hh Hpk Hwf HQ.
  destruct (as_read_batch (length (merge_sort R' (rows_where d sel))) R' sel d Hwf) as [Hl Hsel].
  rewrite firstn_all in Hl, Hsel. apply wp_rewrite_listed; [done..|]. intros t Hwft Ht.
  apply HQ; [done| |by rewrite length_fmap, merge_sort_Permutation].
  eapply rewritten_hit; [exact Ht|]. intros k r Hr. unfold in_keys.
  pose proof (wf_pk d k r Hwf Hr) as Hk. destruct (sel r) eqn:Hs.
  - apply bool_decide_true. rewrite <- Hk. apply list_elem_of_fmap_2.
    rewrite merge_sort_Permutation. apply elem_of_rows_where. eauto.
  - apply bool_decide_false. intros (r' & Hk' & Hr')%list_elem_of_fmap.
    destruct Hl as [_ Hl]. rewrite Forall_forall in Hl, Hsel. specialize (Hl r' Hr').
    rewrite <- Hk' in Hl. rewrite Hr in Hl. injection Hl as ->. by rewrite (Hsel r' Hr') in Hs.
Qed.

End Rewriting.

(** ** What the providers make of a row *)

Ltac plain_row :=
  cbv zeta; cbn [in_turn]; repeat first
    [ rewrite when_row | rewrite set_if_changed_row by (by intros []) | progress cbn [in_turn fst] ].

Section RowsOfProviders.

Lemma audit_row sn e :
  (AuditErasure._minimise_audit_event sn e).1 =
  AuditEvent.mk (AuditEvent.id e)
    (if is_user (AuditErasure.subject_user_id sn) (AuditEvent.actor_user_id e) then None
     else AuditEvent.actor_user_id e)
    (AuditEvent.category e) (AuditEvent.action e) (AuditEvent.target_type e)
    (if AuditErasure._is_subject_target sn e then None else AuditEvent.target_id e)
    None None None None (AuditEvent.legal_hold_until e) (AuditEvent.created_at e).
Proof.
  unfold AuditErasure._minimise_audit_event. plain_row.
  destruct e; simpl. by destruct (is_user _ _), (AuditErasure._is_subject_target _ _).
Qed.

Lemma audit_honest sn : honest (AuditErasure._minimise_audit_event sn).
Proof. honest_solve. Qed.

(** *** The outbox *)

(** Nothing but the safe keys and the markers. *)
Definition erased_payload (payload : json) : Prop :=
  exists fields, payload = JObj fields /\
    Forall (fun kv => OutboxErasure.is_safe_key kv.1 = true \/ kv.1 = "sensitive_payload_scrubbed"%string
                      \/ kv.1 = "privacy_erasure_scrubbed"%string) fields.

Lemma scrubbed_fields payload :
  Forall (fun kv => OutboxErasure.is_safe_key kv.1 = true \/ kv.1 = "sensitive_payload_scrubbed"%string
                    \/ kv.1 = "privacy_erasure_scrubbed"%string) (OutboxErasure._scrubbed_payload payload).
Proof.
  unfold OutboxErasure._scrubbed_payload. apply Forall_app. split.
  - apply List.Forall_forall. intros kv [_ Hk]%filter_In. by left.
  - by do 2 (apply Forall_cons; split; [simpl; auto|]).
Qed.

Lemma scrub_payload_erased s :
  erased_payload (OutboxEvent.payload_json (OutboxErasure.scrub_payload s).1).
Proof.
  unfold OutboxErasure.scrub_payload. cbv zeta.
  destruct (OutboxErasure.same_payload _ _) eqn:Hs; [|eexists; split; [done|apply scrubbed_fields]].
  destruct (OutboxEvent.payload_json s.1) as [| | | | |fields] eqn:Hp; try done.
  exists fields. split; [done|]. simpl in Hs. apply andb_prop in Hs as [Hs _].
  rewrite forallb_forall in Hs. apply List.Forall_forall. intros kv Hkv.
  specialize (Hs kv Hkv). apply bool_decide_eq_true in Hs.
  pose proof (scrubbed_fields (JObj fields)) as Hf. rewrite Forall_forall in Hf. by apply Hf.
Qed.

Lemma erased_no_email payload : erased_payload payload -> payload_email payload = None.
Proof.
  intros (fields & -> & Hf). simpl.
  destruct (List.find _ fields) as [[k v]|] eqn:Hfind; [|done].
  apply find_some in Hfind as [Hin Hk]. apply String.eqb_eq in Hk. simpl in Hk. subst k.
  rewrite List.Forall_forall in Hf. destruct (Hf _ Hin) as [|[|]]; discriminate.
Qed.

Lemma tracks_scrub_payload : tracks OutboxErasure.scrub_payload.
Proof.
  intros s. unfold OutboxErasure.scrub_payload. cbv zeta. destruct (OutboxErasure.same_payload _ _); [done|].
  simpl. rewrite length_app. simpl. split; lia.
Qed.

Lemma outbox_honest : honest OutboxErasure._scrub_outbox_event.
Proof.
  intros e. unfold OutboxErasure._scrub_outbox_event. cbv zeta. apply tracks_silent.
  repeat first [apply tracks_scrub_payload | progress tracks_solve].
Qed.

Lemma scrub_payload_row s :
  exists p, (OutboxErasure.scrub_payload s).1 = OutboxEvent.set_payload_json p s.1 /\ erased_payload p.
Proof.
  exists (OutboxEvent.payload_json (OutboxErasure.scrub_payload s).1).
  split; [|apply scrub_payload_erased]. unfold OutboxErasure.scrub_payload. cbv zeta.
  destruct (OutboxErasure.same_payload _ _); [by destruct s as [[] ?]|done].
Qed.

Lemma outbox_row e :
  let e' := (OutboxErasure._scrub_outbox_event e).1 in
  OutboxEvent.id e' = OutboxEvent.id e /\ OutboxEvent.event_type e' = OutboxEvent.event_type e /\
  OutboxEvent.aggregate_id e' = OutboxEvent.aggregate_id e /\
  erased_payload (OutboxEvent.payload_json e') /\
  OutboxEvent.status e' = (if bool_decide (OutboxEvent.status e = OutboxStatus.PENDING)
                           then OutboxStatus.FAILED else OutboxEvent.status e).
Proof.
  unfold OutboxErasure._scrub_outbox_event. plain_row.
  destruct (scrub_payload_row (e, [])) as (p & -> & Hp). destruct e as [? ? ? ? ? st ? ? ? ? ? le ? ?]. simpl.
  destruct st, le as [le|]; simpl; try destruct (String.eqb le _); done.
Qed.

(** *** The other tables *)

Lemma invite_row u email n i :
  let i' := (InviteErasure._anonymise_invite u email n i).1 in
  let anonymise := InviteErasure._invite_email_matches_subject i email && negb (is_scrubbed_invite i) in
  Invite.id i' = Invite.id i /\ Invite.organisation_id i' = Invite.organisation_id i /\
  Invite.email i' = (if anonymise then scrubbed_invite_email (Invite.id i) else Invite.email i) /\
  Invite.token_hash i' = (if anonymise then scrubbed_invite_token_hash (Invite.id i)
                          else Invite.token_hash i) /\
  Invite.status i' = (if anonymise && bool_decide (Invite.status i = InviteStatus.PENDING)
                      then InviteStatus.REVOKED else Invite.status i) /\
  Invite.revoked_by_user_id i' = (if is_user u (Invite.revoked_by_user_id i) then None
                                  else Invite.revoked_by_user_id i).
Proof.
  unfold InviteErasure._anonymise_invite. plain_row.
  destruct i; simpl. destruct (_ && _), (is_user _ _), (bool_decide _); simpl; done.
Qed.

Lemma invite_honest u email n : honest (InviteErasure._anonymise_invite u email n).
Proof. honest_solve. Qed.

Lemma user_row x :
  (UserProfileErasure._anonymise_subject_profile x).1 =
  User.mk (User.id x) (UserProfileErasure._erased_external_auth_id (User.id x)) None false None None
    false (User.status x) (User.suspended_at x) None (User.created_at x) (User.updated_at x).
Proof. unfold UserProfileErasure._anonymise_subject_profile. plain_row. by destruct x. Qed.

Lemma user_honest : honest UserProfileErasure._anonymise_subject_profile.
Proof. honest_solve. Qed.

Import RemainingInventoryErasure.

Lemma staff_row u s :
  let s' := (_minimise_platform_staff u s).1 in
  PlatformStaff.id s' = PlatformStaff.id s /\ PlatformStaff.user_id s' = PlatformStaff.user_id s /\
  PlatformStaff.role s' = PlatformStaff.role s /\ PlatformStaff.status s' = PlatformStaff.status s /\
  PlatformStaff.created_by_user_id s' = (if is_user u (PlatformStaff.created_by_user_id s) then None
                                         else PlatformStaff.created_by_user_id s).
Proof.
  unfold _minimise_platform_staff. plain_row. destruct s; simpl.
  destruct (is_user _ _), (bool_decide _); done.
Qed.

Lemma staff_honest u : honest (_minimise_platform_staff u).
Proof. honest_solve. Qed.

Lemma artifact_honest u : honest (_minimise_export_artifact u).
Proof. honest_solve. Qed.

Lemma authorization_honest : honest clear_authorization_source.
Proof. intros a. apply tracks_silent. tracks_solve. Qed.

Lemma notice_honest : honest clear_notice_source.
Proof. intros a. apply tracks_silent. tracks_solve. Qed.

Definition cleared (u : UUID) (x : option UUID) : option UUID := if is_user u x then None else x.

Lemma request_row u r :
  let r' := (_minimise_dsr u r).1 in
  DataSubjectRequest.id r' = DataSubjectRequest.id r /\
  DataSubjectRequest.request_type r' = DataSubjectRequest.request_type r /\
  DataSubjectRequest.status r' = DataSubjectRequest.status r /\
  DataSubjectRequest.execution_status r' = DataSubjectRequest.execution_status r /\
  DataSubjectRequest.representative_status r' = DataSubjectRequest.representative_status r /\
  DataSubjectRequest.requester_user_id r' = cleared u (DataSubjectRequest.requester_user_id r) /\
  DataSubjectRequest.subject_user_id r' = cleared u (DataSubjectRequest.subject_user_id r) /\
  DataSubjectRequest.reviewer_user_id r' = cleared u (DataSubjectRequest.reviewer_user_id r) /\
  DataSubjectRequest.representative_verified_by_user_id r' =
    cleared u (DataSubjectRequest.representative_verified_by_user_id r).
Proof.
  unfold _minimise_dsr, cleared. plain_row. destruct r; simpl.
  repeat case_match; simpl; by split_and!.
Qed.

Lemma request_honest u : honest (_minimise_dsr u).
Proof. honest_solve. Qed.

End RowsOfProviders.

(** ** The providers one after the other *)

Import ErasureOrchestrator RemainingInventoryErasure.

(** The request is an approved erasure of [u]. *)
Definition erasing (r : DataSubjectRequest.t) (u : UUID) : Prop :=
  DataSubjectRequest.request_type r = DataSubjectRequestType.ERASE /\
  DataSubjectRequest.status r = DataSubjectRequestStatus.APPROVED /\
  DataSubjectRequest.subject_user_id r = Some u.

(** [ids] are the keys of the rows that [P] selects. *)
Definition keys_of {R} `{Table R} (P : R -> bool) (d : Db) (ids : list UUID) : Prop :=
  forall k, k ∈ ids <-> exists r, rows d !! k = Some r /\ P r = true.

Record snapshot_of (u : UUID) (email : option string) (d : Db)
    (sn : AuditErasure._AuditTargetSnapshot) : Prop := {
  snapshot_user : AuditErasure.subject_user_id sn = u;
  snapshot_invites : keys_of (AuditErasure._subject_invite u email) d (AuditErasure.invite_ids sn);
  snapshot_memberships :
    keys_of (fun m => bool_decide (Membership.user_id m = u)) d (AuditErasure.membership_ids sn);
  snapshot_requests :
    keys_of (AuditErasure._subject_dsr_conditions u) d (AuditErasure.data_subject_request_ids sn);
  snapshot_artifacts :
    keys_of (AuditErasure.subject_artifact u) d (AuditErasure.export_artifact_ids sn);
  snapshot_staff : keys_of (AuditErasure.subject_staff u) d (AuditErasure.platform_staff_ids sn);
}.

(** What an execution that goes through makes of the database. *)
Record erased (u : UUID) (email : option string) (n : datetime) (d d' : Db) : Prop := {
  erased_events : exists sn, snapshot_of u email d sn /\
    (forall k e, audit_events d !! k = Some e -> AuditErasure._subject_audit_conditions sn e = true ->
       AuditErasure.legally_held n e = false) /\
    rewritten (fun e => (AuditErasure._minimise_audit_event sn e).1)
      (fun _ => AuditErasure._subject_audit_conditions sn) d (audit_events d');
  erased_outbox : exists ids, keys_of (AuditErasure._subject_invite u email) d ids /\
    (forall k e, outbox_events d !! k = Some e -> OutboxErasure.subject_event email ids e = true ->
       OutboxEvent.status e <> OutboxStatus.PROCESSING) /\
    rewritten (fun e => (OutboxErasure._scrub_outbox_event e).1)
      (fun _ => OutboxErasure.subject_event email ids) d (outbox_events d');
  erased_invites :
    rewritten (fun i => (InviteErasure._anonymise_invite u email n i).1)
      (fun _ => AuditErasure._subject_invite u email) d (invites d');
  erased_staff : rewritten (fun s => (_minimise_platform_staff u s).1)
    (fun _ => AuditErasure.subject_staff u) d (platform_staff d');
  erased_artifacts :
    (forall k a, export_artifacts d !! k = Some a -> AuditErasure.subject_artifact u a = true ->
       ExportArtifact.status a <> ExportArtifactStatus.PROCESSING) /\
    rewritten (fun a => (_minimise_export_artifact u a).1)
      (fun _ => AuditErasure.subject_artifact u) d (export_artifacts d');
  erased_authorizations : rewritten (fun a => (clear_authorization_source a).1)
    (fun _ a => bool_decide (DataProcessingAuthorization.subject_user_id a = u)) d
    (data_processing_authorizations d');
  erased_notices : rewritten (fun a => (clear_notice_source a).1)
    (fun _ a => bool_decide (PrivacyNoticeAcceptance.subject_user_id a = u)) d
    (privacy_notice_acceptances d');
  erased_profile : rewritten (fun x => (UserProfileErasure._anonymise_subject_profile x).1)
    (fun k _ => bool_decide (k = u)) d (users d');
  erased_requests : rewritten (fun r => (_minimise_dsr u r).1)
    (fun _ => AuditErasure._subject_dsr_conditions u) d (data_subject_requests d');
  erased_rest : organisations d' = organisations d /\ memberships d' = memberships d /\
    outbox_delivery_claims d' = outbox_delivery_claims d /\
    processing_purposes d' = processing_purposes d /\ consent_records d' = consent_records d;
}.

(** The subject's address as the snapshots keep it. *)
Definition subject_email (d : Db) (u : UUID) : option string :=
  users d !! u ≫= fun x => _normalise_optional_email (User.email x).

Lemma normalise_idem email :
  match _normalise_optional_email (_normalise_optional_email email) with
  | Some e => Some e
  | None => _normalise_optional_email email
  end = _normalise_optional_email email.
Proof.
  destruct email as [s|]; [|done]. simpl. destruct (Text.is_empty (Text.lower (Text.strip s))) eqn:He; [done|].
  simpl. by rewrite Text.strip_lower, Text.lower_idem, Text.strip_idem, He.
Qed.

(** How many rows a condition selects. *)
Definition count {R} `{Table R} (P : R -> bool) (d : Db) : nat := length (rows_where d P).

(** A provider reports under its key, and no more rows than its condition selects. *)
Definition reports (key : string) (bound : nat) (r : ProviderResult) : Prop :=
  provider_key r = key /\ (affected r <= bound)%nat.

Lemma affected_le changes : (affected_rows changes <= length changes)%nat.
Proof. unfold affected_rows. apply List.filter_length_le. Qed.

Lemma reports_changes key table u st fields n changes bound :
  length changes = bound ->
  reports key bound (mkProviderResult key table u st (affected_rows changes) fields n).
Proof. intros <-. split; [done|]. apply affected_le. Qed.

Section Providers.
Context `{Env}.
Implicit Types (d : Db) (E : exn -> Prop).

Lemma wp_now_or_some n (Q : datetime -> Db -> Prop) E d : Q n d -> wp (now_or (Some n)) Q E d.
Proof. apply wp_ret. Qed.

Lemma wp_validate c p r u (Q : UUID -> Db -> Prop) E d :
  erasing r u -> Q u d -> wp (validate c p r (Some u)) Q E d.
Proof.
  intros (Ht & Hs & Hu) HQ. unfold validate. rewrite Ht, Hs.
  do 2 (apply wp_bind, wp_ret). by apply wp_ret.
Qed.

Lemma wp_validate_subject c p r u x (Q : User.t -> Db -> Prop) E d :
  wf d -> erasing r u -> users d !! u = Some x -> Q x d ->
  wp (validate_and_get_subject c p r) Q E d.
Proof.
  intros Hwf Hr Hx HQ. unfold validate_and_get_subject. rewrite (proj2 (proj2 Hr)).
  apply wp_bind, (wp_validate c p r u); [done|].
  apply wp_bind, (wp_select_pk u); [done..| |].
  - intros x' Hx' _. simpl in Hx'. rewrite Hx in Hx'. injection Hx' as <-. by apply wp_ret.
  - simpl. congruence.
Qed.

Lemma wp_remaining r u (Q : UUID -> Db -> Prop) E d :
  erasing r u -> Q u d -> wp (_validate_request r (Some u)) Q E d.
Proof. apply wp_validate. Qed.

Lemma keys_of_select {R} `{TableLaws R} (P : R -> bool) d : wf d -> keys_of P d (pk <$> rows_where d P).
Proof.
  intros Hwf k. rewrite list_elem_of_fmap. split.
  - intros (r & -> & Hr). apply elem_of_rows_where_wf in Hr as [Hr HP]; eauto.
  - intros (r & Hr & HP). exists r. split; [symmetry; by apply wf_pk with d|].
    apply elem_of_rows_where. eauto.
Qed.

Lemma keys_of_perm {R} `{TableLaws R} (P : R -> bool) (R' : R -> R -> Prop)
    `{!forall x y, Decision (R' x y)} d :
  wf d -> keys_of P d (pk <$> merge_sort R' (rows_where d P)).
Proof. intros Hwf k. rewrite merge_sort_Permutation. by apply keys_of_select. Qed.

Lemma wp_snapshot u x (Q : AuditErasure._AuditTargetSnapshot -> Db -> Prop) E d :
  wf d -> users d !! u = Some x ->
  (forall sn, snapshot_of u (_normalise_optional_email (User.email x)) d sn -> Q sn d) ->
  wp (AuditErasure._build_target_snapshot x) Q E d.
Proof.
  intros Hwf Hx HQ. pose proof (wf_pk (R := User.t) d u x Hwf Hx) as Hu. simpl in Hu.
  unfold AuditErasure._build_target_snapshot. cbv zeta. rewrite Hu.
  do 5 (apply wp_bind, wp_bind, wp_select, wp_ret). apply wp_ret, HQ. split; simpl; [done|..].
  - exact (keys_of_perm (R := Invite.t) _ _ d Hwf).
  - exact (keys_of_select (R := Membership.t) _ d Hwf).
  - exact (keys_of_select (R := DataSubjectRequest.t) _ d Hwf).
  - exact (keys_of_select (R := ExportArtifact.t) _ d Hwf).
  - exact (keys_of_select (R := PlatformStaff.t) _ d Hwf).
Qed.

Lemma existsb_rows {R} (p : R -> bool) (R' : R -> R -> Prop) `{!forall x y, Decision (R' x y)} l :
  existsb p (merge_sort R' l) = false -> forall r, r ∈ l -> p r = false.
Proof.
  intros Hn r Hr. apply not_true_iff_false. intros Hp. apply not_true_iff_false in Hn. apply Hn.
  apply existsb_exists. exists r. split; [|done]. apply list_elem_of_In.
  by rewrite merge_sort_Permutation.
Qed.

Lemma wp_audit_provider r u x n (Q : ProviderResult -> Db -> Prop) d :
  wf d -> erasing r u -> users d !! u = Some x ->
  (forall p sn t, snapshot_of u (_normalise_optional_email (User.email x)) d sn ->
     reports AuditErasure._PROVIDER_KEY (count (AuditErasure._subject_audit_conditions sn) d) p ->
     wf (set_audit_events t d) ->
     (forall k e, audit_events d !! k = Some e -> AuditErasure._subject_audit_conditions sn e = true ->
        AuditErasure.legally_held n e = false) ->
     rewritten (fun e => (AuditErasure._minimise_audit_event sn e).1)
       (fun _ => AuditErasure._subject_audit_conditions sn) d t ->
     Q p (set_audit_events t d)) ->
  wp (AuditErasure.minimise_audit_events_for_approved_erase_request r (Some n)) Q any_exn d.
Proof.
  intros Hwf Hr Hx HQ. apply wp_bind, (wp_validate_subject _ _ r u x); [done..|].
  apply wp_bind, wp_now_or_some, wp_bind, (wp_snapshot u x); [done..|]. intros sn Hsn.
  apply wp_bind, wp_bind, wp_select, wp_ret, wp_bind, wp_raise_if; [done|]. intros Hno.
  apply wp_bind, wp_rewrite_selected; [apply audit_honest|by intros e; rewrite audit_row|done|].
  intros t cs Hwft Ht Hn. apply wp_ret, (HQ _ sn); [done|by apply reports_changes|done| |done]. intros k e He Hs.
  apply (existsb_rows _ _ _ Hno), elem_of_rows_where. eauto.
Qed.

Lemma wp_outbox_provider r u x ids n (Q : ProviderResult -> Db -> Prop) d :
  let email := _normalise_optional_email (User.email x) in
  wf d -> erasing r u -> users d !! u = Some x ->
  (forall p t, reports OutboxErasure._PROVIDER_KEY (count (OutboxErasure.subject_event email ids) d) p ->
     wf (set_outbox_events t d) ->
     (forall k e, outbox_events d !! k = Some e -> OutboxErasure.subject_event email ids e = true ->
        OutboxEvent.status e <> OutboxStatus.PROCESSING) ->
     rewritten (fun e => (OutboxErasure._scrub_outbox_event e).1)
       (fun _ => OutboxErasure.subject_event email ids) d t ->
     Q p (set_outbox_events t d)) ->
  wp (OutboxErasure.scrub_outbox_for_approved_erase_request r email ids (Some n)) Q any_exn d.
Proof.
  intros email Hwf Hr Hx HQ. apply wp_bind, (wp_validate_subject _ _ r u x); [done..|].
  cbv zeta. unfold email. rewrite normalise_idem. fold email.
  apply wp_bind, wp_now_or_some, wp_bind, wp_bind, wp_select, wp_ret, wp_bind, wp_raise_if; [done|].
  intros Hno. apply wp_bind, wp_rewrite_selected; [apply outbox_honest|by intros e; apply outbox_row|done|].
  intros t cs Hwft Ht Hn. apply wp_ret, HQ; [by apply reports_changes|done| |done]. intros k e He Hs.
  assert (Hin : e ∈ rows_where d (OutboxErasure.subject_event email ids))
    by (apply elem_of_rows_where; eauto).
  pose proof (existsb_rows _ _ _ Hno e Hin) as Hp. by apply bool_decide_eq_false in Hp.
Qed.

Lemma wp_invite_provider r u x n (Q : ProviderResult -> Db -> Prop) d :
  let email := _normalise_optional_email (User.email x) in
  wf d -> erasing r u -> users d !! u = Some x ->
  (forall p t, reports InviteErasure._PROVIDER_KEY (count (AuditErasure._subject_invite u email) d) p ->
     wf (set_invites t d) ->
     rewritten (fun i => (InviteErasure._anonymise_invite u email n i).1)
       (fun _ => AuditErasure._subject_invite u email) d t -> Q p (set_invites t d)) ->
  wp (InviteErasure.anonymise_invites_for_approved_erase_request r email (Some n)) Q any_exn d.
Proof.
  intros email Hwf Hr Hx HQ. apply wp_bind, (wp_validate_subject _ _ r u x); [done..|].
  pose proof (wf_pk (R := User.t) d u x Hwf Hx) as Hu. simpl in Hu.
  cbv zeta. unfold email. rewrite normalise_idem, Hu. fold email.
  apply wp_bind, wp_now_or_some, wp_bind, wp_bind, wp_select, wp_ret.
  apply wp_bind, wp_rewrite_selected; [apply invite_honest|by intros i; apply invite_row|done|].
  intros t cs Hwft Ht Hn. apply wp_ret, HQ; [by apply reports_changes|done..].
Qed.

Lemma wp_staff_provider r u n (Q : ProviderResult -> Db -> Prop) d :
  wf d -> erasing r u ->
  (forall p t, reports "platform_staff.minimise_subject_or_creator_links"
       (count (AuditErasure.subject_staff u) d) p ->
     wf (set_platform_staff t d) ->
     rewritten (fun s => (_minimise_platform_staff u s).1) (fun _ => AuditErasure.subject_staff u) d t ->
     Q p (set_platform_staff t d)) ->
  wp (minimise_platform_staff_for_approved_erase_request r (Some u) (Some n)) Q any_exn d.
Proof.
  intros Hwf Hr HQ. apply wp_bind, (wp_remaining r u); [done|]. apply wp_bind, wp_now_or_some.
  apply wp_bind, wp_bind, wp_select, wp_ret.
  apply wp_bind, wp_rewrite_selected; [apply staff_honest|by intros s; apply staff_row|done|].
  intros t cs Hwft Ht Hn. apply wp_ret, HQ; [by apply reports_changes|done..].
Qed.

Lemma artifact_row_id u a : ExportArtifact.id (_minimise_export_artifact u a).1 = ExportArtifact.id a.
Proof. unfold _minimise_export_artifact. plain_row. by repeat case_match. Qed.

Lemma wp_artifact_provider r u n (Q : ProviderResult * list _DeferredExportObjectDeletion -> Db -> Prop) d :
  wf d -> erasing r u ->
  (forall p t, reports "export_artifacts.delete_object_minimise_subject_or_actor_metadata"
       (count (AuditErasure.subject_artifact u) d) p.1 ->
     wf (set_export_artifacts t d) ->
     (forall k a, export_artifacts d !! k = Some a -> AuditErasure.subject_artifact u a = true ->
        ExportArtifact.status a <> ExportArtifactStatus.PROCESSING) ->
     rewritten (fun a => (_minimise_export_artifact u a).1) (fun _ => AuditErasure.subject_artifact u) d t ->
     Q p (set_export_artifacts t d)) ->
  wp (minimise_export_artifacts_for_approved_erase_request r (Some u) (Some n)) Q any_exn d.
Proof.
  intros Hwf Hr HQ. apply wp_bind, (wp_remaining r u); [done|]. apply wp_bind, wp_now_or_some.
  apply wp_bind, wp_bind, wp_select, wp_ret, wp_bind, wp_raise_if; [done|]. intros Hno.
  apply wp_bind, wp_rewrite_selected; [apply artifact_honest|apply artifact_row_id|done|].
  intros t cs Hwft Ht Hn. apply wp_ret, HQ; [by apply reports_changes|done| |done]. intros k a Ha Hs.
  assert (Hin : a ∈ rows_where d (AuditErasure.subject_artifact u)) by (apply elem_of_rows_where; eauto).
  pose proof (existsb_rows _ _ _ Hno a Hin) as Hp. by apply bool_decide_eq_false in Hp.
Qed.

Lemma authorization_row_id a :
  DataProcessingAuthorization.id (clear_authorization_source a).1 = DataProcessingAuthorization.id a.
Proof. unfold clear_authorization_source. by rewrite set_if_changed_row by (by intros []). Qed.

Lemma notice_row_id a :
  PrivacyNoticeAcceptance.id (clear_notice_source a).1 = PrivacyNoticeAcceptance.id a.
Proof. unfold clear_notice_source. by rewrite set_if_changed_row by (by intros []). Qed.

(** The three results of the governance provider. *)
Definition governance_reports u d (l : list ProviderResult) : Prop :=
  Forall2 (fun kb => reports kb.1 kb.2)
    [("privacy_governance.minimise_authorizations",
      count (fun a => bool_decide (DataProcessingAuthorization.subject_user_id a = u)) d);
     ("privacy_governance.minimise_consent_records", 0%nat);
     ("privacy_governance.minimise_notice_acceptances",
      count (fun a => bool_decide (PrivacyNoticeAcceptance.subject_user_id a = u)) d)]%string l.

Lemma wp_governance_provider r u n (Q : list ProviderResult -> Db -> Prop) d :
  wf d -> erasing r u ->
  (forall p t t', governance_reports u d p ->
     wf (set_privacy_notice_acceptances t' (set_data_processing_authorizations t d)) ->
     rewritten (fun a => (clear_authorization_source a).1)
       (fun _ a => bool_decide (DataProcessingAuthorization.subject_user_id a = u)) d t ->
     rewritten (fun a => (clear_notice_source a).1)
       (fun _ a => bool_decide (PrivacyNoticeAcceptance.subject_user_id a = u)) d t' ->
     Q p (set_privacy_notice_acceptances t' (set_data_processing_authorizations t d))) ->
  wp (minimise_privacy_governance_for_approved_erase_request r (Some u) (Some n)) Q any_exn d.
Proof.
  intros Hwf Hr HQ. apply wp_bind, (wp_remaining r u); [done|]. apply wp_bind, wp_now_or_some.
  do 3 (apply wp_bind, wp_bind, wp_select, wp_ret).
  apply wp_bind, wp_rewrite_selected; [apply authorization_honest|apply authorization_row_id|done|].
  intros t cs Hwft Ht Hn.
  apply wp_bind. change (rows_where d ?P) with (rows_where (set_data_processing_authorizations t d) P).
  apply wp_rewrite_selected; [apply notice_honest|apply notice_row_id|done|].
  intros t' cs' Hwft' Ht' Hn'. apply wp_ret, HQ; [|done..].
  constructor; [by apply reports_changes|]. constructor; [by split|].
  constructor; [exact (reports_changes _ _ _ _ _ _ _ _ Hn')|constructor].
Qed.

Lemma wp_profile_provider r u x n (Q : ProviderResult -> Db -> Prop) d :
  wf d -> erasing r u -> users d !! u = Some x ->
  (forall p t, reports UserProfileErasure._PROVIDER_KEY 1 p -> wf (set_users t d) ->
     rewritten (fun x => (UserProfileErasure._anonymise_subject_profile x).1)
       (fun k _ => bool_decide (k = u)) d t -> Q p (set_users t d)) ->
  wp (UserProfileErasure.anonymise_user_profile_for_approved_erase_request r (Some n)) Q any_exn d.
Proof.
  intros Hwf Hr Hx HQ. apply wp_bind, (wp_validate_subject _ _ r u x); [done..|].
  pose proof (wf_pk (R := User.t) d u x Hwf Hx) as Hu. simpl in Hu.
  apply wp_bind, wp_now_or_some, wp_bind, wp_rewrite_listed;
    [apply user_honest|by intros y; rewrite user_row|done| |].
  - split; [apply NoDup_singleton|]. apply Forall_singleton. simpl. by rewrite Hu.
  - intros t Hwft Ht. apply wp_ret, HQ; [by apply (reports_changes _ _ _ _ _ _ [_])|done|]. eapply rewritten_hit; [exact Ht|].
    intros k y _. unfold in_keys. apply bool_decide_ext. simpl. rewrite Hu. apply list_elem_of_singleton.
Qed.

Lemma wp_request_provider r u n (Q : ProviderResult -> Db -> Prop) d :
  wf d -> erasing r u ->
  (forall p t, reports "dsr.minimise_workflow_identifiers" (count (AuditErasure._subject_dsr_conditions u) d) p ->
     wf (set_data_subject_requests t d) ->
     rewritten (fun r => (_minimise_dsr u r).1) (fun _ => AuditErasure._subject_dsr_conditions u) d t ->
     Q p (set_data_subject_requests t d)) ->
  wp (minimise_dsr_workflow_for_approved_erase_request r (Some u) (Some n)) Q any_exn d.
Proof.
  intros Hwf Hr HQ. apply wp_bind, (wp_remaining r u); [done|]. apply wp_bind, wp_now_or_some.
  apply wp_bind, wp_bind, wp_select, wp_ret.
  apply wp_bind, wp_rewrite_selected; [apply request_honest|by intros s; apply request_row|done|].
  intros t cs Hwft Ht Hn. apply wp_ret, HQ; [by apply reports_changes|done..].
Qed.

End Providers.

(** ** The orchestrator *)

(** The providers in their order, each with a bound on the rows it may report. *)
Definition expected_reports (u : UUID) (email : option string)
    (sn : AuditErasure._AuditTargetSnapshot) (ids : list UUID) (d : Db) : list (string * nat) :=
  [(AuditErasure._PROVIDER_KEY, count (AuditErasure._subject_audit_conditions sn) d);
   (OutboxErasure._PROVIDER_KEY, count (OutboxErasure.subject_event email ids) d);
   (InviteErasure._PROVIDER_KEY, count (AuditErasure._subject_invite u email) d);
   ("memberships.minimise_subject_link", 0%nat);
   ("organisations.review_subject_references", 0%nat);
   ("platform_staff.minimise_subject_or_creator_links", count (AuditErasure.subject_staff u) d);
   ("export_artifacts.delete_object_minimise_subject_or_actor_metadata",
    count (AuditErasure.subject_artifact u) d);
   ("privacy_governance.minimise_authorizations",
    count (fun a => bool_decide (DataProcessingAuthorization.subject_user_id a = u)) d);
   ("privacy_governance.minimise_consent_records", 0%nat);
   ("privacy_governance.minimise_notice_acceptances",
    count (fun a => bool_decide (PrivacyNoticeAcceptance.subject_user_id a = u)) d);
   (UserProfileErasure._PROVIDER_KEY, 1%nat);
   ("dsr.minimise_workflow_identifiers", count (AuditErasure._subject_dsr_conditions u) d)]%string.

Definition run_reports (u : UUID) (email : option string) (d : Db)
    (runs : list ErasureProviderRunResult) : Prop :=
  exists sn ids, snapshot_of u email d sn /\ keys_of (AuditErasure._subject_invite u email) d ids /\
    Forall2 (fun kb run => run_provider_key run = kb.1 /\ (run_affected_rows run <= kb.2)%nat)
      (expected_reports u email sn ids d) runs.

Ltac forall2_inv :=
  match goal with
  | H : Forall2 _ (_ :: _) _ |- _ => inversion H; subst; clear H
  | H : Forall2 _ [] _ |- _ => inversion H; subst; clear H
  end.

Section Orchestrator.
Context `{Env}.
Implicit Types (d : Db) (E : exn -> Prop).

Lemma wp_erasure_snapshot r u x (Q : _ErasureSnapshot -> Db -> Prop) E d :
  wf d -> erasing r u -> users d !! u = Some x ->
  (forall ids, keys_of (AuditErasure._subject_invite u (_normalise_optional_email (User.email x))) d ids ->
     Q (mkErasureSnapshot u (_normalise_optional_email (User.email x)) ids) d) ->
  wp (_build_snapshot r) Q E d.
Proof.
  intros Hwf Hr Hx HQ. pose proof (wf_pk (R := User.t) d u x Hwf Hx) as Hu. simpl in Hu.
  unfold _build_snapshot, _subject_user_id, _lock_subject. rewrite (proj2 (proj2 Hr)).
  apply wp_bind, wp_ret, wp_bind, wp_bind, (wp_select_pk u); [done..| |].
  - intros x' Hx' _. simpl in Hx'. rewrite Hx in Hx'. injection Hx' as <-. apply wp_ret.
    cbv zeta. rewrite Hu. apply wp_bind, wp_bind, wp_select, wp_ret, wp_ret, HQ.
    exact (keys_of_perm (R := Invite.t) _ _ d Hwf).
  - simpl. congruence.
Qed.

(** When nothing stands in the way, the providers erase the subject. *)
Lemma wp_run_core r u x ids n
    (Q : list ErasureProviderRunResult * list _DeferredExportObjectDeletion -> Db -> Prop) d :
  let email := _normalise_optional_email (User.email x) in
  wf d -> erasing r u -> users d !! u = Some x ->
  keys_of (AuditErasure._subject_invite u email) d ids ->
  (forall out d', wf d' -> erased u email n d d' -> run_reports u email d out.1 -> Q out d') ->
  wp (_run_core_providers r (mkErasureSnapshot u email ids) u n) Q any_exn d.
Proof.
  intros email Hwf Hr Hx Hids HQ. unfold _run_core_providers. cbv zeta.
  apply wp_bind, (wp_audit_provider r u x); [done..|]. intros p1 sn t1 Hsn R1 Hwf1 Hheld H1.
  apply wp_bind, (wp_outbox_provider r u x); [done..|]. intros p2 t2 R2 Hwf2 Hproc H2.
  apply wp_bind, (wp_invite_provider r u x); [done..|]. intros p3 t3 R3 Hwf3 H3.
  do 2 (apply wp_bind, wp_bind, (wp_remaining r u); [done|];
        apply wp_bind, wp_now_or_some, wp_bind, wp_bind, wp_select, wp_ret, wp_ret).
  apply wp_bind, (wp_staff_provider r u); [done..|]. intros p6 t6 R6 Hwf6 H6.
  apply wp_bind, (wp_artifact_provider r u); [done..|]. intros p7 t7 R7 Hwf7 Hbusy H7.
  apply wp_bind, (wp_governance_provider r u); [done..|]. intros p8 t8 t8' R8 Hwf8 H8 H8'.
  apply wp_bind, (wp_profile_provider r u x); [done..|]. intros p9 t9 R9 Hwf9 H9.
  apply wp_bind, (wp_request_provider r u); [done..|]. intros p10 t10 R10 Hwf10 H10.
  apply wp_ret, HQ; [done|..].
  - split; try done; [by exists sn|by exists ids].
  - exists sn, ids. split; [exact Hsn|]. split; [exact Hids|].
    unfold governance_reports in R8. repeat forall2_inv. simpl.
    repeat (constructor; [first [assumption|by split]|]). constructor.
Qed.

Lemma wp_run_in_savepoint r u n (Q : _ -> Db -> Prop) E d :
  wf d -> erasing r u ->
  (forall out d', wf d' -> is_Some (users d !! u) -> erased u (subject_email d u) n d d' ->
     run_reports u (subject_email d u) d out.1 -> Q (inl out) d') ->
  (forall e, Q (inr e) d) ->
  wp (run_in_savepoint r u n) Q E d.
Proof.
  intros Hwf Hr HQ HF. unfold run_in_savepoint.
  apply (wp_try_nested _ (fun out => inl out) (fun e => inr e) Q E any_exn); [|auto].
  destruct (users d !! u) as [x|] eqn:Hx.
  - apply wp_bind, (wp_erasure_snapshot r u x); [done..|]. intros ids Hids.
    apply (wp_run_core r u x); [done..|]. intros out d' Hwf' He Hruns.
    apply HQ; [done|by eexists|..]; unfold subject_email; by rewrite Hx.
  - apply wp_bind. unfold _build_snapshot, _subject_user_id, _lock_subject. rewrite (proj2 (proj2 Hr)).
    apply wp_bind, wp_ret, wp_bind, wp_bind, (wp_select_pk u); [done..| |].
    + simpl. congruence.
    + intros _. by apply wp_raise.
Qed.

(** Writing the columns of the execution never violates a constraint. *)
Definition execution_write (f : DataSubjectRequest.t -> DataSubjectRequest.t) : Prop :=
  forall r, DataSubjectRequest.id (f r) = DataSubjectRequest.id r /\
    forall d, checks d (f r) = checks d r.

Lemma wp_execution_write k f r (Q : DataSubjectRequest.t -> Db -> Prop) E d :
  wf d -> execution_write f -> data_subject_requests d !! k = Some r -> f r <> r ->
  (forall n, wf (put_row (DataSubjectRequest.set_updated_at n (f r)) d) ->
     Q (DataSubjectRequest.set_updated_at n (f r)) (put_row (DataSubjectRequest.set_updated_at n (f r)) d)) ->
  wp (update_row k f) Q E d.
Proof.
  intros Hwf Hf Hr Hne HQ. apply (wp_update_present k f r); [done..| |].
  - intros n Hv. exfalso. assert (valid_row d (touch n (f r)) = true); [|congruence].
    apply valid_row_spec. split; [|done]. destruct (Hf r) as [_ Hc].
    transitivity (checks d r); [apply (Hc d)|by apply (wf_checks d k)].
  - intros n Hv. apply HQ. by apply wf_put_row.
Qed.

(** An execution may start. *)
Definition startable (r : DataSubjectRequest.t) : Prop :=
  DataSubjectRequest.request_type r = DataSubjectRequestType.ERASE /\
  DataSubjectRequest.status r = DataSubjectRequestStatus.APPROVED /\
  DataSubjectRequest.execution_status r <> DataSubjectRequestExecutionStatus.PROCESSING /\
  DataSubjectRequest.execution_status r <> DataSubjectRequestExecutionStatus.READY.

(** Which request, at which instant, with which result. *)
Definition executed_core (k : UUID) (n : datetime) d (res : ErasureOrchestrationResult) d' : Prop :=
  exists r, data_subject_requests d !! k = Some r /\ request_id res = k /\
  match orchestration_status res with
  | ErasureOrchestrationStatus.ALREADY_COMPLETED =>
      DataSubjectRequest.execution_status r = DataSubjectRequestExecutionStatus.READY /\ d' = d
  | ErasureOrchestrationStatus.FAILED =>
      (startable r /\ provider_results res = []) /\
      exists n1 n2 code, failure_reason_code res = Some (Text.truncate 64 code) /\
        d' = put_row (DataSubjectRequest.set_updated_at n2 (_mark_failed code n
               (DataSubjectRequest.set_updated_at n1 (_mark_processing n r)))) d
  | ErasureOrchestrationStatus.COMPLETED =>
      startable r /\
      exists u n1 n2 d1 r1, (wf d1 /\ result_subject_user_id res = Some u) /\
        DataSubjectRequest.subject_user_id r = Some u /\ is_Some (users d !! u) /\
        erased u (subject_email d u) n
          (put_row (DataSubjectRequest.set_updated_at n1 (_mark_processing n r)) d) d1 /\
        run_reports u (subject_email d u)
          (put_row (DataSubjectRequest.set_updated_at n1 (_mark_processing n r)) d) (provider_results res) /\
        data_subject_requests d1 !! k = Some r1 /\
        d' = put_row (DataSubjectRequest.set_updated_at n2 (_mark_ready n r1)) d1
  end.

(** Why an execution is refused before it starts. *)
Definition refused_core (k : UUID) d (e : exn) : Prop :=
  (data_subject_requests d !! k = None /\
     e = orchestration_error "erasure_orchestration_request_not_found") \/
  exists r, data_subject_requests d !! k = Some r /\
    ((DataSubjectRequest.request_type r <> DataSubjectRequestType.ERASE /\
        e = orchestration_error "erasure_orchestration_requires_erase_request") \/
     (DataSubjectRequest.status r <> DataSubjectRequestStatus.APPROVED /\
        e = orchestration_error "erasure_orchestration_requires_approved_request") \/
     (DataSubjectRequest.execution_status r = DataSubjectRequestExecutionStatus.PROCESSING /\
        e = orchestration_error "erasure_orchestration_already_processing") \/
     (DataSubjectRequest.subject_user_id r = None /\
        e = orchestration_error "erasure_orchestration_requires_subject_user")).

Lemma execute_core_spec request n d (Q : ErasureOrchestrationResult * list _DeferredExportObjectDeletion -> Db -> Prop) E :
  wf d ->
  (forall out d', wf d' -> executed_core (DataSubjectRequest.id request) n d out.1 d' -> Q out d') ->
  (forall e, refused_core (DataSubjectRequest.id request) d e -> E e) ->
  wp (execute_core_erasure_for_approved_request request (Some n)) Q E d.
Proof.
  intros Hwf HQ HE. set (k := DataSubjectRequest.id request) in *.
  apply wp_bind, wp_now_or_some, wp_bind. unfold _lock_and_validate_request.
  apply wp_bind, (wp_select_pk k); [done..| |].
  2: { intros Hno. apply wp_bind, wp_raise, HE. by left. }
  intros r Hr Hk. simpl in Hr, Hk. apply wp_bind, wp_ret, wp_bind, wp_raise_if.
  { intros Ht. apply HE. right. exists r. split; [done|]. left. split; [|done].
    by apply negb_true_iff, bool_decide_eq_false in Ht. }
  intros Ht. apply negb_false_iff, bool_decide_eq_true in Ht. cbv zeta.
  destruct (bool_decide (DataSubjectRequest.execution_status r = _)) eqn:Hready.
  { apply wp_ret. rewrite Hready. apply wp_ret, HQ; [done|]. exists r. apply bool_decide_eq_true in Hready.
    by rewrite Hk. }
  pose proof (proj1 (bool_decide_eq_false _) Hready) as Hnready.
  apply wp_bind, wp_raise_if.
  { intros Hs. apply HE. right. exists r. split; [done|]. right. left. split; [|done].
    by apply negb_true_iff, bool_decide_eq_false in Hs. }
  intros Hs. apply negb_false_iff, bool_decide_eq_true in Hs. apply wp_bind, wp_raise_if.
  { intros Hp. apply HE. right. exists r. split; [done|]. do 2 right. left. split; [|done].
    by apply bool_decide_eq_true in Hp. }
  intros Hp. apply bool_decide_eq_false in Hp. apply wp_bind, wp_raise_if.
  { intros Hu. apply HE. right. exists r. split; [done|]. do 3 right. split; [|done].
    by destruct (DataSubjectRequest.subject_user_id r). }
  intros Hu. destruct (DataSubjectRequest.subject_user_id r) as [u|] eqn:Hsu; [|done].
  apply wp_ret. rewrite Hready. unfold _subject_user_id. rewrite Hsu. apply wp_bind, wp_ret.
  assert (Hstart : startable r) by done.
  rewrite Hk. apply wp_bind, (wp_execution_write k _ r); [done|by split|done| |].
  { intros Heq. apply Hp. by rewrite <- Heq. }
  intros n1 Hwf1. apply wp_bind.
  set (r1 := DataSubjectRequest.set_updated_at n1 _) in *. set (d1 := put_row r1 d) in *.
  assert (Hr1 : data_subject_requests d1 !! k = Some r1).
  { unfold d1, put_row. simpl. rewrite Hk. apply lookup_insert_eq. }
  apply (wp_run_in_savepoint r1 u n); [done|by split_and!|..].
  - intros [runs dels] d2 Hwf2 Hx Her Hruns.
    assert (Hr2 : exists r2, data_subject_requests d2 !! k = Some r2 /\
      DataSubjectRequest.execution_status r2 = DataSubjectRequestExecutionStatus.PROCESSING).
    { destruct (rewritten_lookup_old _ _ _ _ k r1 (erased_requests _ _ _ _ _ Her) Hr1) as (r2 & Hr2 & Hw).
      exists r2. split; [done|]. simpl in Hw. destruct (AuditErasure._subject_dsr_conditions u r1); [|by subst].
      destruct (request_row u r1) as (_ & _ & _ & He & _). destruct Hw as [->|[n2 ->]]; by simpl; rewrite He. }
    destruct Hr2 as (r2 & Hr2 & He2).
    apply wp_bind, (wp_execution_write k _ r2); [done|by split|done|by intros Heq; rewrite <- Heq in He2|].
    intros n2 Hwf3. apply wp_ret, HQ; [done|]. exists r. split; [done|]. split; [done|]. simpl.
    split; [done|]. exists u, n1, n2, d2, r2. by split_and!.
  - intros e. cbv zeta. apply wp_bind, (wp_execution_write k _ r1); [done|by split|done|done|].
    intros n2 Hwf2. apply wp_ret, HQ; [done|]. exists r. split; [done|]. split; [done|]. simpl.
    split; [done|]. exists n1, n2, (failure_code e). split; [done|].
    unfold d1, put_row. cbn. by rewrite insert_insert_eq.
Qed.

End Orchestrator.

(** ** Nothing of the subject is left *)

(** What an erasure takes of [u], whose address was [email]. The memberships, the subject's
    own staff record and the rows of the privacy governance stay and keep naming the account,
    which is emptied. *)
Record forgotten (u : UUID) (email : option string) (d : Db) : Prop := {
  forgotten_profile : forall x, users d !! u = Some x ->
    User.external_auth_id x = UserProfileErasure._erased_external_auth_id u /\
    User.email x = None /\ User.first_name x = None /\ User.last_name x = None /\
    User.suspended_reason x = None;
  forgotten_events : forall k e, audit_events d !! k = Some e ->
    AuditEvent.actor_user_id e <> Some u /\
    (AuditEvent.target_type e ∈ AuditErasure._DIRECT_SUBJECT_TARGET_TYPES ->
       AuditEvent.target_id e <> Some u) /\
    (forall m, AuditEvent.target_type e = AuditTargetType.value AuditTargetType.MEMBERSHIP ->
       memberships d !! m ≫= (fun x => Some (Membership.user_id x)) = Some u ->
       AuditEvent.target_id e <> Some m);
  forgotten_payloads : forall k e m s, outbox_events d !! k = Some e -> email = Some m ->
    payload_email (OutboxEvent.payload_json e) = Some s -> sql_email_is m s = false;
  forgotten_invites : forall k i, invites d !! k = Some i ->
    Invite.revoked_by_user_id i <> Some u /\
    (forall m, email = Some m -> sql_email_is m (Invite.email i) = true -> is_scrubbed_invite i = true);
  forgotten_staff : forall k s, platform_staff d !! k = Some s ->
    PlatformStaff.created_by_user_id s <> Some u;
  forgotten_artifacts : forall k a, export_artifacts d !! k = Some a ->
    ExportArtifact.subject_user_id a <> Some u /\ ExportArtifact.requester_user_id a <> Some u /\
    ExportArtifact.requested_by_user_id a <> Some u /\ ExportArtifact.generated_by_user_id a <> Some u;
  forgotten_requests : forall k r, data_subject_requests d !! k = Some r ->
    DataSubjectRequest.subject_user_id r <> Some u /\ DataSubjectRequest.requester_user_id r <> Some u /\
    DataSubjectRequest.reviewer_user_id r <> Some u /\
    DataSubjectRequest.representative_verified_by_user_id r <> Some u;
  forgotten_sources :
    (forall k a, data_processing_authorizations d !! k = Some a ->
       DataProcessingAuthorization.subject_user_id a = u -> DataProcessingAuthorization.source a = None) /\
    (forall k a, privacy_notice_acceptances d !! k = Some a ->
       PrivacyNoticeAcceptance.subject_user_id a = u -> PrivacyNoticeAcceptance.source a = None);
}.

Section Forgotten.
Implicit Types (d : Db).

Lemma is_user_true u x : is_user u x = true <-> x = Some u.
Proof. apply bool_decide_eq_true. Qed.

Lemma is_user_false u x : is_user u x = false <-> x <> Some u.
Proof. unfold is_user. by rewrite bool_decide_eq_false. Qed.

Lemma is_user_cleared u x : is_user u (cleared u x) = false.
Proof. unfold cleared. by destruct (is_user u x) eqn:Hx. Qed.

(** *** The database and the program agree on the subject's address *)

Lemma normalised_stripped o m : _normalise_optional_email o = Some m -> Text.strip m = m.
Proof.
  destruct o as [s|]; [|done]. simpl. destruct (Text.is_empty _); [done|]. intros [= <-].
  by rewrite Text.strip_lower, Text.strip_idem.
Qed.

Lemma sql_email_matches i m :
  Text.strip m = m -> sql_email_is m (Invite.email i) = true ->
  InviteErasure._invite_email_matches_subject i (Some m) = true.
Proof.
  intros Hm Hs%String.eqb_eq. simpl. apply String.eqb_eq.
  by rewrite <- (strip_sql (Invite.email i)), <- Text.strip_lower, Hs.
Qed.

Lemma is_scrubbed_tombstone i :
  Invite.email i = scrubbed_invite_email (Invite.id i) ->
  Invite.token_hash i = scrubbed_invite_token_hash (Invite.id i) -> is_scrubbed_invite i = true.
Proof. intros He Ht. by rewrite <- (is_scrubbed_scrubbed 0 i); unfold is_scrubbed_invite; rewrite He, Ht. Qed.

(** *** The rows after their provider *)

Lemma audit_forgotten u email d sn t :
  snapshot_of u email d sn ->
  rewritten (fun e => (AuditErasure._minimise_audit_event sn e).1)
    (fun _ => AuditErasure._subject_audit_conditions sn) d t ->
  forall k e, t !! k = Some e ->
    AuditEvent.actor_user_id e <> Some u /\
    (AuditEvent.target_type e ∈ AuditErasure._DIRECT_SUBJECT_TARGET_TYPES ->
       AuditEvent.target_id e <> Some u) /\
    (forall m, AuditEvent.target_type e = AuditTargetType.value AuditTargetType.MEMBERSHIP ->
       memberships d !! m ≫= (fun x => Some (Membership.user_id x)) = Some u ->
       AuditEvent.target_id e <> Some m).
Proof.
  intros Hsn Ht k e' (e & He & Hw)%(rewritten_lookup _ _ _ _ _ _ Ht).
  assert (Hm : forall m, memberships d !! m ≫= (fun x => Some (Membership.user_id x)) = Some u ->
    m ∈ AuditErasure.membership_ids sn).
  { intros m Hm. apply (snapshot_memberships _ _ _ _ Hsn). apply bind_Some in Hm as (x & Hx & [= <-]).
    exists x. split; [exact Hx|]. by apply bool_decide_eq_true. }
  destruct (AuditErasure._subject_audit_conditions sn e) eqn:Hc.
  - assert (He' : e' = (AuditErasure._minimise_audit_event sn e).1) by (by destruct Hw as [|[n ->]]).
    rewrite audit_row in He'. subst e'. simpl. rewrite (snapshot_user _ _ _ _ Hsn).
    unfold AuditErasure._is_subject_target. rewrite (snapshot_user _ _ _ _ Hsn). split_and!.
    + by destruct (is_user u _) eqn:Ha; [|rewrite <- is_user_true, Ha].
    + intros Hd. destruct (AuditEvent.target_id e) as [k'|]; [|done].
      rewrite bool_decide_true by done. by case_bool_decide; [|congruence].
    + intros m Htt Hmu. destruct (AuditEvent.target_id e) as [k'|] eqn:Hk'; [|done].
      rewrite bool_decide_false by (rewrite Htt; set_solver).
      destruct (decide (k' = m)) as [->|?]; [|by repeat case_match; congruence].
      unfold AuditErasure.targets at 2. rewrite Htt, Hk', String.eqb_refl, (bool_decide_true (m ∈ _)) by auto.
      by rewrite orb_true_r.
  - subst e'. unfold AuditErasure._subject_audit_conditions in Hc. rewrite !orb_false_iff in Hc.
    destruct Hc as ((((((Ha & Hd) & _) & Hmem) & _) & _) & _). rewrite (snapshot_user _ _ _ _ Hsn) in Ha, Hd.
    split_and!.
    + intros Hx%is_user_true. congruence.
    + intros Hdir Hx%is_user_true. by rewrite bool_decide_true, Hx in Hd.
    + intros m Htt Hmu Hx. unfold AuditErasure.targets in Hmem.
      by rewrite Htt, Hx, String.eqb_refl, (bool_decide_true (m ∈ _)) in Hmem by auto.
Qed.

Lemma outbox_forgotten email ids d t :
  rewritten (fun e => (OutboxErasure._scrub_outbox_event e).1)
    (fun _ => OutboxErasure.subject_event email ids) d t ->
  forall k e m s, t !! k = Some e -> email = Some m ->
    payload_email (OutboxEvent.payload_json e) = Some s -> sql_email_is m s = false.
Proof.
  intros Ht k e' m s (e & He & Hw)%(rewritten_lookup _ _ _ _ _ _ Ht) -> Hs.
  destruct (OutboxErasure.subject_event _ _ _) eqn:Hc.
  - exfalso. destruct (outbox_row e) as (_ & _ & _ & Hp & _). apply erased_no_email in Hp.
    destruct Hw as [->|[n ->]]; simpl in Hs; congruence.
  - subst e'. unfold OutboxErasure.subject_event in Hc. apply orb_false_iff in Hc as [_ Hc].
    by rewrite Hs in Hc.
Qed.

Lemma invite_forgotten u email n d t :
  (forall m, email = Some m -> Text.strip m = m) ->
  rewritten (fun i => (InviteErasure._anonymise_invite u email n i).1)
    (fun _ => AuditErasure._subject_invite u email) d t ->
  forall k i, t !! k = Some i -> Invite.revoked_by_user_id i <> Some u /\
    (forall m, email = Some m -> sql_email_is m (Invite.email i) = true -> is_scrubbed_invite i = true).
Proof.
  intros Hem Ht k i' (i & Hi & Hw)%(rewritten_lookup _ _ _ _ _ _ Ht).
  destruct (AuditErasure._subject_invite u email i) eqn:Hc.
  - destruct (invite_row u email n i) as (Hid & _ & He & Hh & _ & Hr).
    set (i1 := (InviteErasure._anonymise_invite u email n i).1) in *.
    assert (Hi' : Invite.revoked_by_user_id i' = Invite.revoked_by_user_id i1 /\
                  Invite.email i' = Invite.email i1 /\ Invite.token_hash i' = Invite.token_hash i1).
    { by destruct Hw as [->|[n' ->]]. }
    destruct Hi' as (-> & Hie & Hit). rewrite Hr. split.
    + destruct (is_user u _) eqn:Hx; [done|]. intros Hx'%is_user_true. congruence.
    + intros m Hm Hs. unfold is_scrubbed_invite. rewrite Hie, Hit. rewrite Hie in Hs. revert He Hh.
      destruct (_ && _) eqn:Ha; intros He Hh.
      * change (is_scrubbed_invite i1 = true). apply is_scrubbed_tombstone; by rewrite Hid.
      * rewrite He, Hh. rewrite He in Hs. change (is_scrubbed_invite i = true). subst email.
        rewrite (sql_email_matches i m) in Ha; [|by apply Hem|done].
        by apply negb_false_iff in Ha.
  - subst i'. unfold AuditErasure._subject_invite in Hc. apply orb_false_iff in Hc as [Hr Hc]. split.
    + intros Hx%is_user_true. congruence.
    + intros m -> Hs. congruence.
Qed.

Lemma staff_forgotten u d t :
  rewritten (fun s => (_minimise_platform_staff u s).1) (fun _ => AuditErasure.subject_staff u) d t ->
  forall k s, t !! k = Some s -> PlatformStaff.created_by_user_id s <> Some u.
Proof.
  intros Ht k s' (s & Hs & Hw)%(rewritten_lookup _ _ _ _ _ _ Ht).
  destruct (AuditErasure.subject_staff u s) eqn:Hc.
  - destruct (staff_row u s) as (_ & _ & _ & _ & Hr).
    assert (Hs' : PlatformStaff.created_by_user_id s' = cleared u (PlatformStaff.created_by_user_id s))
      by (by destruct Hw as [->|[n ->]]).
    intros Hx%is_user_true. rewrite Hs', is_user_cleared in Hx. done.
  - subst s'. apply orb_false_iff in Hc as [_ Hc]. intros Hx%is_user_true. congruence.
Qed.

Lemma artifact_users u a :
  let a' := (_minimise_export_artifact u a).1 in
  ExportArtifact.subject_user_id a' = cleared u (ExportArtifact.subject_user_id a) /\
  ExportArtifact.requester_user_id a' = cleared u (ExportArtifact.requester_user_id a) /\
  ExportArtifact.requested_by_user_id a' = cleared u (ExportArtifact.requested_by_user_id a) /\
  ExportArtifact.generated_by_user_id a' = cleared u (ExportArtifact.generated_by_user_id a).
Proof.
  unfold _minimise_export_artifact, cleared. plain_row. destruct a; simpl.
  repeat case_match; simpl; by split_and!.
Qed.

Lemma artifact_refs u a : AuditErasure.subject_artifact u (_minimise_export_artifact u a).1 = false.
Proof.
  destruct (artifact_users u a) as (H1 & H2 & H3 & H4). unfold AuditErasure.subject_artifact.
  by rewrite H1, H2, H3, H4, !is_user_cleared.
Qed.

Lemma artifact_forgotten u d t :
  rewritten (fun a => (_minimise_export_artifact u a).1) (fun _ => AuditErasure.subject_artifact u) d t ->
  forall k a, t !! k = Some a ->
    ExportArtifact.subject_user_id a <> Some u /\ ExportArtifact.requester_user_id a <> Some u /\
    ExportArtifact.requested_by_user_id a <> Some u /\ ExportArtifact.generated_by_user_id a <> Some u.
Proof.
  intros Ht k a' (a & Ha & Hw)%(rewritten_lookup _ _ _ _ _ _ Ht).
  enough (Hf : AuditErasure.subject_artifact u a' = false).
  { unfold AuditErasure.subject_artifact in Hf. rewrite !orb_false_iff, !is_user_false in Hf. tauto. }
  destruct (AuditErasure.subject_artifact u a) eqn:Hc; [|by subst].
  pose proof (artifact_refs u a) as Hr. by destruct Hw as [->|[n ->]].
Qed.

Lemma request_forgotten u d t :
  rewritten (fun r => (_minimise_dsr u r).1) (fun _ => AuditErasure._subject_dsr_conditions u) d t ->
  forall k r, t !! k = Some r ->
    DataSubjectRequest.subject_user_id r <> Some u /\ DataSubjectRequest.requester_user_id r <> Some u /\
    DataSubjectRequest.reviewer_user_id r <> Some u /\
    DataSubjectRequest.representative_verified_by_user_id r <> Some u.
Proof.
  intros Ht k r' (r & Hr & Hw)%(rewritten_lookup _ _ _ _ _ _ Ht).
  enough (Hf : AuditErasure._subject_dsr_conditions u r' = false).
  { unfold AuditErasure._subject_dsr_conditions in Hf. rewrite !orb_false_iff, !is_user_false in Hf. tauto. }
  destruct (AuditErasure._subject_dsr_conditions u r) eqn:Hc; [|by subst].
  destruct (request_row u r) as (_ & _ & _ & _ & _ & H1 & H2 & H3 & H4).
  assert (Hn : AuditErasure._subject_dsr_conditions u (_minimise_dsr u r).1 = false).
  { unfold AuditErasure._subject_dsr_conditions. by rewrite H1, H2, H3, H4, !is_user_cleared. }
  by destruct Hw as [->|[n ->]].
Qed.

Lemma erased_forgotten u n d d' :
  wf d -> erased u (subject_email d u) n d d' -> forgotten u (subject_email d u) d'.
Proof.
  intros Hwf [(sn & Hsn & _ & He) (ids & _ & _ & Ho) Hi Hs [_ Ha] Hau Hn Hu Hr (_ & Hm & _)].
  split; [|rewrite Hm|..].
  - intros x' (x & Hx & Hw)%(rewritten_lookup _ _ _ _ _ _ Hu). rewrite bool_decide_true in Hw by done.
    pose proof (wf_pk (R := User.t) d u x Hwf Hx) as Hk. simpl in Hk.
    pose proof (user_row x) as Hrow. rewrite Hk in Hrow. destruct Hw as [->|[n' ->]]; by rewrite Hrow.
  - by eapply audit_forgotten.
  - by eapply outbox_forgotten.
  - eapply invite_forgotten; [|exact Hi]. intros m Hem. unfold subject_email in Hem.
    apply bind_Some in Hem as (x & _ & Hx). by eapply normalised_stripped.
  - by eapply staff_forgotten.
  - by eapply artifact_forgotten.
  - by eapply request_forgotten.
  - split; intros k a'.
    + intros (a & Hka & Hw)%(rewritten_lookup _ _ _ _ _ _ Hau) Hsub. assert (Hsrc : bool_decide (DataProcessingAuthorization.subject_user_id a = u) = true ->
        DataProcessingAuthorization.source a' = None).
      { intros Hb. rewrite Hb in Hw. destruct Hw as [->|[n' ->]]; simpl;
          unfold clear_authorization_source; by rewrite set_if_changed_row by (by intros []). }
      case_bool_decide as Hb; [by apply Hsrc|]. by subst a'.
    + intros (a & Hka & Hw)%(rewritten_lookup _ _ _ _ _ _ Hn) Hsub. assert (Hsrc : bool_decide (PrivacyNoticeAcceptance.subject_user_id a = u) = true ->
        PrivacyNoticeAcceptance.source a' = None).
      { intros Hb. rewrite Hb in Hw. destruct Hw as [->|[n' ->]]; simpl;
          unfold clear_notice_source; by rewrite set_if_changed_row by (by intros []). }
      case_bool_decide as Hb; [by apply Hsrc|]. by subst a'.
Qed.

End Forgotten.

(** ** The command of a member of staff *)
Section Execution.
Context `{Env}.
Implicit Types (d : Db) (E : exn -> Prop).
Import ErasureExecution.

(** [s] is the active, privileged record of [a], who may log in. *)
Definition authorised (a : UUID) d (s : PlatformStaff.t) : Prop :=
  (exists k, platform_staff d !! k = Some s) /\ PlatformStaff.user_id s = a /\
  (exists x, users d !! a = Some x /\ User.status x = UserStatus.ACTIVE) /\
  PlatformStaff.status s = PlatformStaffStatus.value PlatformStaffStatus.ACTIVE /\
  PlatformStaff.role s ∈ _ALLOWED_EXECUTOR_ROLES.

(** What an execution by [a] of request [k] leaves. *)
Definition executed_by (a k : UUID) n d (out : ErasureExecutionResult) d' : Prop :=
  exists s res id d1, authorised a d s /\
    (forall r, data_subject_requests d !! k = Some r -> DataSubjectRequest.subject_user_id r <> Some a) /\
    executed_core k n d res d1 /\ audit_events d1 !! id = None /\
    out = _execution_result res s n id /\ d' = put_row (_audit_execution id res s n) d1.

(** Why it is refused. *)
Definition not_executed (a k : UUID) d (e : exn) : Prop :=
  e = IntegrityError \/ refused_core k d e \/ exists code, e = execution_error code.

Lemma wp_authorised a (Q : PlatformStaff.t -> Db -> Prop) E d :
  wf d -> (forall s, authorised a d s -> Q s d) -> (forall code, E (execution_error code)) ->
  wp (_lock_authorised_executor a) Q E d.
Proof.
  intros Hwf HQ HE.
  assert (Hnone : wp (raise (execution_error "erasure_execution_requires_platform_staff")) Q E d)
    by apply wp_raise, HE.
  apply wp_bind, wp_select_one_or_none; [done| |..].
  - intros s s' Hs Hs' H1%bool_decide_eq_true H2%bool_decide_eq_true. simpl in Hs, Hs'.
    apply (wf_unique d _ _ s s' Hwf); [done..|]. simpl. apply bool_decide_eq_true. congruence.
  - intros s Hs Hu%bool_decide_eq_true. apply wp_bind, (wp_select_pk a); [done..| |by intros].
    intros x Hx _. apply wp_bind, wp_raise_if; [intros _; apply HE|]. intros Hb1.
    apply wp_bind, wp_raise_if; [intros _; apply HE|]. intros Hb2.
    apply wp_bind, wp_raise_if; [intros _; apply HE|]. intros Hb3. apply wp_ret, HQ.
    apply negb_false_iff in Hb1, Hb2, Hb3. apply bool_decide_eq_true in Hb1, Hb3.
    apply String.eqb_eq in Hb2. split_and!; eauto.
  - intros _. apply wp_bind, (wp_select_pk a); [done..|by intros|by intros].
Qed.

Lemma executed_core_users k n d res d' x :
  executed_core k n d res d' -> is_Some (users d !! x) -> is_Some (users d' !! x).
Proof.
  intros (r & Hr & _ & Hres). destruct (orchestration_status res); [|by destruct Hres as [_ ->]|].
  - destruct Hres as (_ & u & n1 & n2 & d1 & r1 & _ & _ & _ & Her & _ & _ & ->). intros [y Hy].
    destruct (rewritten_lookup_old _ _ _ _ x y (erased_profile _ _ _ _ _ Her) Hy) as (y' & Hy' & _). by eexists.
  - by destruct Hres as (_ & n1 & n2 & code & _ & ->).
Qed.

Lemma execute_by_staff_spec k a n (Q : ErasureExecutionResult * list _DeferredExportObjectDeletion -> Db -> Prop) E d :
  wf d ->
  (forall out d', wf d' -> executed_by a k n d out.1 d' -> Q out d') ->
  (forall e, not_executed a k d e -> E e) ->
  wp (execute_approved_erasure_request_by_staff k a (Some n)) Q E d.
Proof.
  intros Hwf HQ HE. apply wp_bind, wp_now_or_some.
  apply wp_bind, wp_authorised; [done| |intros code; apply HE; do 2 right; by eexists].
  intros s Hs. apply wp_bind. unfold _lock_request.
  apply wp_bind, (wp_select_pk k); [done..| |].
  2: { intros _. apply wp_raise, HE. do 2 right. by eexists. }
  intros r Hr Hk. simpl in Hr, Hk. apply wp_ret, wp_bind, wp_raise_if.
  { intros _. apply HE. do 2 right. by eexists. }
  intros Hself. apply wp_bind. apply (execute_core_spec r n d); [done| |].
  2: { intros e He. apply HE. right. left. by rewrite Hk in He. }
  intros [res dels] d1 Hwf1 Hcore. rewrite Hk in Hcore. simpl in Hcore.
  apply wp_bind, wp_draw. intros i. apply wp_bind, wp_insert_row; [intros _; apply HE; by left|].
  intros Hid Hv. apply wp_ret, HQ; [by apply wf_put_row|]. exists s, res, (uuid4 i), d1. split; [done|].
  split; [|done]. intros r' Hr' Hsub. rewrite Hr in Hr'. injection Hr' as <-.
  destruct Hs as (_ & Hs & _). rewrite Hs, Hsub in Hself. unfold is_user in Hself.
  by rewrite bool_decide_true in Hself.
Qed.

(** Marking the request and recording the execution mention nobody but the executor. *)
Lemma forgotten_marked u email d r1 n n' :
  forgotten u email d -> (exists k, data_subject_requests d !! k = Some r1) ->
  forgotten u email (put_row (DataSubjectRequest.set_updated_at n' (_mark_ready n r1)) d).
Proof.
  intros [Hp He Ho Hi Hs Ha Hr Hg] [k1 Hr1]. split; try done.
  intros k r. simpl. rewrite lookup_insert_Some. intros [[_ <-]|[_ Hk]]; [|by eapply Hr].
  exact (Hr k1 r1 Hr1).
Qed.

Lemma forgotten_recorded u a email d id res s n :
  PlatformStaff.user_id s = a -> u <> a -> forgotten u email d ->
  forgotten u email (put_row (_audit_execution id res s n) d).
Proof.
  intros Hs Hne [Hp He Ho Hi Hst Ha Hr Hg]. split; try done.
  intros k e. simpl. rewrite lookup_insert_Some. intros [[_ <-]|[_ Hk]]; [|by eapply He].
  simpl. rewrite Hs. split; [congruence|]. split.
  - intros Hd. exfalso. set_solver.
  - intros m Hm. discriminate Hm.
Qed.

(** C11. What a completed erasure takes. When a member of staff executes an approved erasure
    request and the result is [COMPLETED], he is active, privileged and not the subject; and in
    the database the transaction commits the subject's account has no login of the identity
    provider, address, name or reason of a suspension; no event of the audit log names the
    subject as its actor or, where its target is a user, a consent or a notice, as its target,
    nor one of the subject's memberships; no outbox payload holds the address; no invite names
    the subject as its revoker, and every invite sent to the address is a tombstone; no staff
    record names the subject as its creator; no export artifact and no data-subject request
    names the subject in any of its columns; and the subject's authorizations and accepted
    notices no longer tell where they came from. Memberships, the subject's own staff record
    and the governance rows are kept, with the identifier of the emptied account. *)
Theorem erasure_leaves_no_trace k a n d :
  wf d ->
  wp (execute_approved_erasure_request_by_staff k a (Some n))
    (fun out d' =>
       execution_orchestration_status out.1 = ErasureOrchestrationStatus.COMPLETED ->
       exists s r u, authorised a d s /\ data_subject_requests d !! k = Some r /\
         DataSubjectRequest.subject_user_id r = Some u /\ u <> a /\
         is_Some (users d !! u) /\ forgotten u (subject_email d u) d')
    any_exn d.
Proof.
  intros Hwf. apply execute_by_staff_spec; [done| |done].
  intros out d' _ (s & res & id & d1 & Hs & Hself & (r & Hr & _ & Hres) & Hid & -> & ->) Hdone.
  simpl in Hdone. rewrite Hdone in Hres.
  destruct Hres as (_ & u & n1 & n2 & d2 & r1 & _ & Hu & Hx & Her & _ & Hr1 & ->).
  assert (Hne : u <> a) by (intros ->; by eapply Hself).
  exists s, r, u. split_and!; [done..|]. pose proof Hs as (_ & Hsa & _).
  apply (forgotten_recorded u a); [done..|]. apply forgotten_marked; [|by eexists].
  refine (erased_forgotten u n
    (put_row (DataSubjectRequest.set_updated_at n1 (_mark_processing n r)) d) d2 _ Her).
  apply wf_put_row; [done|]. apply valid_row_spec. split; [|done].
  exact (wf_checks (R := DataSubjectRequest.t) d k r Hwf Hr).
Qed.

(** What still holds the subject's data blocks the erasure. While an audit event of
    the subject is under a legal hold, an event with the subject's address is being
    delivered, or an export that mentions the subject is being generated, no
    execution completes. *)
Theorem erasure_blocked k a n d r u :
  wf d -> data_subject_requests d !! k = Some r -> DataSubjectRequest.subject_user_id r = Some u ->
  (exists i e, audit_events d !! i = Some e /\ AuditEvent.actor_user_id e = Some u /\
     AuditErasure.legally_held n e = true) \/
  (exists i e m x, outbox_events d !! i = Some e /\ OutboxEvent.status e = OutboxStatus.PROCESSING /\
     subject_email d u = Some m /\
     payload_email (OutboxEvent.payload_json e) = Some x /\ sql_email_is m x = true) \/
  (exists i f, export_artifacts d !! i = Some f /\ AuditErasure.subject_artifact u f = true /\
     ExportArtifact.status f = ExportArtifactStatus.PROCESSING) ->
  wp (execute_approved_erasure_request_by_staff k a (Some n))
    (fun out _ => execution_orchestration_status out.1 <> ErasureOrchestrationStatus.COMPLETED) any_exn d.
Proof.
  intros Hwf Hr Hu Hblock. apply execute_by_staff_spec; [done| |done].
  intros out d' _ (s & res & id & d1 & Hs & Hself & (r' & Hr' & _ & Hres) & Hid & -> & _). simpl.
  rewrite Hr in Hr'. injection Hr' as <-. intros Hdone. rewrite Hdone in Hres.
  destruct Hres as (_ & u' & n1 & n2 & d2 & r1 & _ & Hu' & _ & Her & _). rewrite Hu in Hu'. injection Hu' as <-.
  destruct Her as [(sn & Hsn & Hheld & _) (ids & _ & Hbusy & _) _ _ [Hlive _] _ _ _ _ _].
  destruct Hblock as [(i & e & He & Ha & Hh)|[(i & e & m & x & He & Hst & Hm & Hx & Hmx)|(i & f & Hf & Hsub & Hst)]].
  - assert (Hc : AuditErasure._subject_audit_conditions sn e = true).
    { unfold AuditErasure._subject_audit_conditions. rewrite (snapshot_user _ _ _ _ Hsn), Ha.
      unfold is_user. by rewrite bool_decide_true. }
    by rewrite (Hheld i e He Hc) in Hh.
  - apply (Hbusy i e He); [|done]. unfold OutboxErasure.subject_event. rewrite Hx.
    change (subject_email (put_row _ d) u) with (subject_email d u). rewrite Hm, Hmx.
    by rewrite orb_true_r.
  - by apply (Hlive i f Hf Hsub).
Qed.



End Execution.

(** ** Witnesses *)
Module Witness.
Import Fixtures ErasureExecution.

(** An approved erasure of carol, of whom an event tells and who revoked an invite. *)
Definition erase_request : DataSubjectRequest.t :=
  request 63 DataSubjectRequestType.ERASE DataSubjectRequestStatus.APPROVED
    DataSubjectRequestExecutionStatus.NOT_STARTED DataSubjectRequestRequesterRole.SELF
    DataSubjectRequestRepresentativeStatus.NOT_REQUIRED.

Definition erase_db : Db :=
  set_data_subject_requests (<[63%N := erase_request]> (data_subject_requests db)) db.

(** The same with a legal hold on an event in which carol acts. *)
Definition held_db : Db :=
  set_audit_events
    (<[71%N := AuditEvent.mk 71 (Some 3%N) "tenant" "membership_removed" "membership" (Some 22%N)
       (Some "left"%string) None None None (Some (t0 + days 1)) 0]> (audit_events erase_db)) erase_db.

Definition execute (d : Db) :=
  (execute_approved_erasure_request_by_staff 63 6 (Some t0) (mkWorld d (Active d) 100)).1.

Definition outcome (d : Db) : option (ErasureOrchestrationStatus.t * nat) :=
  match execute d with
  | Ok (r, _) => Some (execution_orchestration_status r, execution_affected_rows r)
  | Err _ => None
  end.

Lemma erase_db_wf : wf erase_db.
Proof. apply wf_ok_sound. vm_compute. reflexivity. Qed.

Lemma held_db_wf : wf held_db.
Proof. apply wf_ok_sound. vm_compute. reflexivity. Qed.

Lemma erasure_leaves_no_trace_witness :
  outcome erase_db = Some (ErasureOrchestrationStatus.COMPLETED, 5%nat) /\
  wp (execute_approved_erasure_request_by_staff 63 6 (Some t0))
    (fun out d' =>
       execution_orchestration_status out.1 = ErasureOrchestrationStatus.COMPLETED ->
       exists s r u, authorised 6 erase_db s /\ data_subject_requests erase_db !! 63%N = Some r /\
         DataSubjectRequest.subject_user_id r = Some u /\ u <> 6%N /\
         is_Some (users erase_db !! u) /\ forgotten u (subject_email erase_db u) d')
    any_exn erase_db.
Proof.
  split; [vm_compute; reflexivity|].
  exact (erasure_leaves_no_trace 63 6 t0 erase_db erase_db_wf).
Defined.

Lemma erasure_blocked_witness :
  outcome held_db = Some (ErasureOrchestrationStatus.FAILED, 0%nat) /\
  wp (execute_approved_erasure_request_by_staff 63 6 (Some t0))
    (fun out _ => execution_orchestration_status out.1 <> ErasureOrchestrationStatus.COMPLETED)
    any_exn held_db.
Proof.
  split; [vm_compute; reflexivity|].
  apply (erasure_blocked 63 6 t0 held_db erase_request 3 held_db_wf); [reflexivity|reflexivity|].
  left. eexists 71%N, _. split; [vm_compute; reflexivity|]. split; reflexivity.
Defined.


End Witness.
