(* ===== verification/ErasurePreviewProofs.v ===== *)
(** What a preview promises about an erasure: the plan names exactly the providers that
    run, and the impact bounds the rows that each of them changes. *)
From S2P Require Import Prelude Errors Session Schema Tables Rows AuditLog Users Invites.
From S2P Require Import Outbox ExportArtifacts DataSubjectRequests ExportArtifactServices Erasures.
From S2P Require Import PrivacyInventory ErasurePreviews Fixtures ErasureProofs.
Import ProviderKeys DataInventory ErasurePlan ErasurePreviews ErasureCoverage ErasureImpact.
Import ErasureRows ErasureOrchestrator RemainingInventoryErasure.

(** ** Counting *)
Section Counting.
Context {R : Type} `{TableLaws R}.
Implicit Types (d : Db) (P : R -> bool).

Lemma count_ext P P' d :
  (forall k r, rows d !! k = Some r -> P r = P' r) -> count P d = count P' d.
Proof.
  intros HP. unfold count, rows_where.
  assert (Hl : Forall (fun r => P r = P' r) (map_to_list (rows d)).*2).
  { apply Forall_forall. intros r ([k r'] & -> & Hr%elem_of_map_to_list)%list_elem_of_fmap.
    by eapply HP. }
  f_equal. induction Hl as [|r l Hr _ IH]; simpl; [done|]. by rewrite Hr, IH.
Qed.

Definition hits P : list R -> nat :=
  foldr (fun r n => if P r then S n else n) 0%nat.

Lemma count_hits P d : count P d = hits P (map_to_list (rows d)).*2.
Proof.
  unfold count, hits, rows_where. induction (map_to_list (rows d)).*2 as [|r l IH]; simpl; [done|].
  by destruct (P r); simpl; rewrite IH.
Qed.

Lemma hits_perm P l l' : l ≡ₚ l' -> hits P l = hits P l'.
Proof. induction 1; simpl; repeat case_match; congruence. Qed.

(** Replacing a row by one the condition treats alike. *)
Lemma count_put P d r r' :
  rows d !! pk r' = Some r -> P r' = P r -> count P (put_row r' d) = count P d.
Proof.
  intros Hr HP. rewrite !count_hits. unfold put_row. rewrite rows_set.
  assert (Hd : (map_to_list (rows d)).*2 ≡ₚ r :: (map_to_list (delete (pk r') (rows d))).*2).
  { by rewrite <- (map_to_list_delete (rows d) (pk r') r Hr). }
  assert (Hd' : (map_to_list (<[pk r' := r']> (rows d))).*2
                ≡ₚ r' :: (map_to_list (delete (pk r') (rows d))).*2).
  { rewrite <- (map_to_list_delete (<[pk r' := r']> (rows d)) (pk r') r') by apply lookup_insert_eq.
    by rewrite delete_insert_eq. }
  rewrite (hits_perm P _ _ Hd), (hits_perm P _ _ Hd'). simpl. by rewrite HP.
Qed.

End Counting.

(** ** The preview *)

(** The entries of every preview. *)
Definition base_entries : list ErasurePreviewEntry :=
  match build_erasure_provider_plan with inr plan => _preview_entry <$> plan | inl _ => [] end.

Lemma preview_entries k u :
  build_erasure_preview k u (DataSubjectRequestType.value DataSubjectRequestType.ERASE) None
  = inr (mkPreview k u DataSubjectRequestType.ERASE base_entries).
Proof. reflexivity. Qed.

(** The counts under the keys of their providers. *)
Definition counts_of (iv ob au me og st ds ex az co no : nat) : list (string * nat) :=
  [(_USERS_PROVIDER_KEY, 1%nat); (_INVITES_PROVIDER_KEY, iv); (_OUTBOX_PROVIDER_KEY, ob);
   (_AUDIT_PROVIDER_KEY, au); (_MEMBERSHIPS_PROVIDER_KEY, me); (_ORGANISATIONS_PROVIDER_KEY, og);
   (_PLATFORM_STAFF_PROVIDER_KEY, st); (_DSR_PROVIDER_KEY, ds); (_EXPORT_ARTIFACTS_PROVIDER_KEY, ex);
   (_PRIVACY_AUTHORIZATIONS_PROVIDER_KEY, az); (_PRIVACY_CONSENTS_PROVIDER_KEY, co);
   (_PRIVACY_NOTICES_PROVIDER_KEY, no)].

(** The entries of the impact, for these counts. *)
Definition entries_of (counts : list (string * nat)) : list ErasureImpactEntry :=
  _impact_entry (list_to_map counts) <$> base_entries.

Definition estimate (e : ErasureImpactEntry) : string * option nat :=
  (impact_provider_key e, estimated_rows e).

Lemma estimates iv ob au me og st ds ex az co no :
  estimate <$> entries_of (counts_of iv ob au me og st ds ex az co no)
  = [(_USERS_PROVIDER_KEY, Some 1%nat); (_MEMBERSHIPS_PROVIDER_KEY, Some me);
     (_ORGANISATIONS_PROVIDER_KEY, Some og); (_INVITES_PROVIDER_KEY, Some iv);
     (_OUTBOX_PROVIDER_KEY, Some ob); (_AUDIT_PROVIDER_KEY, Some au);
     (_PLATFORM_STAFF_PROVIDER_KEY, Some st); (_DSR_PROVIDER_KEY, Some ds);
     (_EXPORT_ARTIFACTS_PROVIDER_KEY, Some ex);
     (_PRIVACY_AUTHORIZATIONS_PROVIDER_KEY, Some az); (_PRIVACY_CONSENTS_PROVIDER_KEY, Some co);
     (_PRIVACY_NOTICES_PROVIDER_KEY, Some no)].
Proof. vm_compute. reflexivity. Qed.

(** The counts of a subject's rows. *)
Definition subject_counts (u : UUID) (email : option string) (ids : list UUID)
    (audit : AuditEvent.t -> bool) (d : Db) : list (string * nat) :=
  counts_of (length ids) (count (OutboxErasure.subject_event email ids) d) (count audit d)
    (count (fun m => bool_decide (Membership.user_id m = u)) d)
    (count (fun o => existsb (fun m => bool_decide (Membership.user_id m = u)
      && bool_decide (Membership.organisation_id m = Organisation.id o)) (rows_where d (fun _ => true))) d)
    (count (AuditErasure.subject_staff u) d) (count (AuditErasure._subject_dsr_conditions u) d)
    (count (AuditErasure.subject_artifact u) d)
    (count (fun a => bool_decide (DataProcessingAuthorization.subject_user_id a = u)) d)
    (count (fun c => bool_decide (ConsentRecord.subject_user_id c = u)) d)
    (count (fun a => bool_decide (PrivacyNoticeAcceptance.subject_user_id a = u)) d).

Section Impact.
Context `{Env}.
Implicit Types (d : Db).

Lemma count_no_events d : count (OutboxErasure.subject_event None []) d = 0%nat.
Proof.
  unfold count, rows_where. rewrite (List.filter_ext _ (fun _ => false)).
  - by rewrite List.filter_false.
  - intros e. unfold OutboxErasure.subject_event. by destruct (OutboxEvent.aggregate_id e).
Qed.

Lemma wp_scoped_rows u x (Q : gmap string nat -> Db -> Prop) E d :
  wf d -> users d !! u = Some x ->
  (forall ids sn, keys_of (AuditErasure._subject_invite u (subject_email d u)) d ids ->
     length ids = count (AuditErasure._subject_invite u (subject_email d u)) d ->
     snapshot_of u (subject_email d u) d sn ->
     Q (list_to_map (subject_counts u (subject_email d u) ids
          (AuditErasure._subject_audit_conditions sn) d)) d) ->
  wp (_count_scoped_rows x) Q E d.
Proof.
  intros Hwf Hx HQ. pose proof (wf_pk (R := User.t) d u x Hwf Hx) as Hu. simpl in Hu. subst u.
  assert (Hem : _normalised_subject_email x = subject_email d (User.id x)).
  { unfold subject_email. by rewrite Hx. }
  unfold _count_scoped_rows. cbv zeta. rewrite Hem. clear Hem. set (email := subject_email d (User.id x)) in *.
  apply wp_bind, wp_bind, wp_select, wp_ret.
  set (ids := Invite.id <$> _).
  assert (Hids : keys_of (AuditErasure._subject_invite (User.id x) email) d ids)
    by exact (keys_of_perm (R := Invite.t) _ _ d Hwf).
  assert (Hlen : length ids = count (AuditErasure._subject_invite (User.id x) email) d).
  { unfold ids. by rewrite length_fmap, merge_sort_Permutation. }
  clearbody ids.
  apply wp_bind.
  assert (Hout : forall Q' : nat -> Db -> Prop, Q' (count (OutboxErasure.subject_event email ids) d) d ->
    wp (_count_subject_outbox_events ids email) Q' E d).
  { intros Q' HQ'. unfold _count_subject_outbox_events. destruct (bool_decide _ && _) eqn:Hno.
    - apply andb_prop in Hno as [->%bool_decide_eq_true He].
      apply wp_ret. destruct email; [done|]. by rewrite count_no_events in HQ'.
    - by apply wp_bind, wp_select, wp_ret. }
  apply Hout. clear Hout. unfold _count_subject_audit_events.
  apply wp_bind. do 4 (apply wp_bind, wp_bind, wp_select, wp_ret).
  set (sn := AuditErasure.mkSnapshot (User.id x) email ids
    (Membership.id <$> rows_where d (fun m => bool_decide (Membership.user_id m = User.id x)))
    (DataSubjectRequest.id <$> rows_where d (AuditErasure._subject_dsr_conditions (User.id x)))
    (ExportArtifact.id <$> rows_where d (AuditErasure.subject_artifact (User.id x)))
    (PlatformStaff.id <$> rows_where d (AuditErasure.subject_staff (User.id x)))).
  assert (Hsn : snapshot_of (User.id x) email d sn).
  { split; simpl; [done|exact Hids|..].
    - exact (keys_of_select (R := Membership.t) _ d Hwf).
    - exact (keys_of_select (R := DataSubjectRequest.t) _ d Hwf).
    - exact (keys_of_select (R := ExportArtifact.t) _ d Hwf).
    - exact (keys_of_select (R := PlatformStaff.t) _ d Hwf). }
  apply wp_bind, wp_select, wp_ret.
  apply wp_bind, wp_bind, wp_select, wp_ret.
  apply wp_bind, wp_bind, wp_get_db, wp_bind, wp_select, wp_ret.
  do 6 (apply wp_bind, wp_bind, wp_select, wp_ret). apply wp_ret.
  unfold _count_subject_memberships.
  exact (HQ ids sn Hids Hlen Hsn).
Qed.

Lemma wp_impact_preview r (Q : ErasureImpactPreview -> Db -> Prop) d :
  wf d ->
  (forall u ids sn, DataSubjectRequest.subject_user_id r = Some u ->
     length ids = count (AuditErasure._subject_invite u (subject_email d u)) d ->
     keys_of (AuditErasure._subject_invite u (subject_email d u)) d ids ->
     snapshot_of u (subject_email d u) d sn ->
     Q (mkImpactPreview (DataSubjectRequest.id r) u
          (entries_of (subject_counts u (subject_email d u) ids
             (AuditErasure._subject_audit_conditions sn) d))) d) ->
  wp (build_erasure_impact_preview r) Q any_exn d.
Proof.
  intros Hwf HQ. apply wp_bind. unfold _validate_request_and_get_subject.
  do 2 (apply wp_bind, wp_raise_if; [done|intros _]). apply wp_bind.
  destruct (DataSubjectRequest.subject_user_id r) as [u|]; [|by apply wp_raise].
  apply wp_ret, wp_bind, (wp_select_pk u); [done..| |by intros _; apply wp_raise].
  intros x Hx Hk. simpl in Hx, Hk. apply wp_ret.
  rewrite preview_entries. apply wp_bind, wp_ret, wp_bind, (wp_scoped_rows u x); [done..|].
  intros ids sn Hids Hlen Hsn. rewrite Hk. by apply wp_ret, HQ.
Qed.

(** Lists of the same keys make the same conditions. *)
Lemma targets_ext t ids ids' e :
  (forall k, k ∈ ids <-> k ∈ ids') -> AuditErasure.targets t ids e = AuditErasure.targets t ids' e.
Proof.
  intros Hids. unfold AuditErasure.targets. f_equal. destruct (AuditEvent.target_id e) as [k|]; [|done].
  by apply bool_decide_ext.
Qed.

Lemma keys_of_ext {R} `{Table R} (P : R -> bool) d d' ids ids' :
  keys_of P d ids -> keys_of P d' ids' ->
  (forall k, (exists r, rows d !! k = Some r /\ P r = true) <-> exists r, rows d' !! k = Some r /\ P r = true) ->
  forall k, k ∈ ids <-> k ∈ ids'.
Proof. intros Hids Hids' Hd k. by rewrite (Hids k), (Hids' k). Qed.

(** Marking the request changes none of the conditions. *)
Lemma marked_matches u n n1 k r d :
  wf d -> data_subject_requests d !! k = Some r ->
  let r' := DataSubjectRequest.set_updated_at n1 (_mark_processing n r) in
  pk r' = k /\ forall j,
    (exists q, data_subject_requests d !! j = Some q /\ AuditErasure._subject_dsr_conditions u q = true) <->
    exists q, data_subject_requests (put_row r' d) !! j = Some q /\
      AuditErasure._subject_dsr_conditions u q = true.
Proof.
  intros Hwf Hr r'. pose proof (wf_pk (R := DataSubjectRequest.t) d k r Hwf Hr) as Hk.
  assert (Hpk : pk r' = k) by (rewrite <- Hk; by destruct r). split; [exact Hpk|]. intros j.
  change (data_subject_requests (put_row r' d)) with (<[pk r' := r']> (data_subject_requests d)).
  rewrite Hpk.
  assert (Hc : AuditErasure._subject_dsr_conditions u r' = AuditErasure._subject_dsr_conditions u r)
    by (by destruct r).
  destruct (decide (j = k)) as [->|Hj].
  - rewrite lookup_insert_eq, Hr. split; intros (q & [= <-] & Hq); eexists; (split; [done|]); congruence.
  - by rewrite lookup_insert_ne by done.
Qed.

Lemma audit_conditions_ext u email d d' sn sn' e :
  snapshot_of u email d sn -> snapshot_of u email d' sn' ->
  invites d' = invites d -> memberships d' = memberships d -> export_artifacts d' = export_artifacts d ->
  platform_staff d' = platform_staff d ->
  (forall k, (exists r, data_subject_requests d !! k = Some r /\ AuditErasure._subject_dsr_conditions u r = true)
     <-> exists r, data_subject_requests d' !! k = Some r /\ AuditErasure._subject_dsr_conditions u r = true) ->
  AuditErasure._subject_audit_conditions sn' e = AuditErasure._subject_audit_conditions sn e.
Proof.
  intros S S' Hi Hm Ha Hs Hr. unfold AuditErasure._subject_audit_conditions.
  rewrite (snapshot_user _ _ _ _ S), (snapshot_user _ _ _ _ S').
  repeat apply (f_equal2 orb); [done|done|..]; apply targets_ext; intros k; symmetry.
  - apply (keys_of_ext _ _ _ _ _ (snapshot_invites _ _ _ _ S) (snapshot_invites _ _ _ _ S')).
    intros j. simpl. by rewrite Hi.
  - apply (keys_of_ext _ _ _ _ _ (snapshot_memberships _ _ _ _ S) (snapshot_memberships _ _ _ _ S')).
    intros j. simpl. by rewrite Hm.
  - by apply (keys_of_ext _ _ _ _ _ (snapshot_requests _ _ _ _ S) (snapshot_requests _ _ _ _ S')).
  - apply (keys_of_ext _ _ _ _ _ (snapshot_artifacts _ _ _ _ S) (snapshot_artifacts _ _ _ _ S')).
    intros j. simpl. by rewrite Ha.
  - apply (keys_of_ext _ _ _ _ _ (snapshot_staff _ _ _ _ S) (snapshot_staff _ _ _ _ S')).
    intros j. simpl. by rewrite Hs.
Qed.

Lemma run_reports_marked u email n n1 k r d runs ids sn :
  let r' := DataSubjectRequest.set_updated_at n1 (_mark_processing n r) in
  wf d -> data_subject_requests d !! k = Some r ->
  keys_of (AuditErasure._subject_invite u email) d ids -> snapshot_of u email d sn ->
  run_reports u email (put_row r' d) runs ->
  Forall2 (fun kb run => run_provider_key run = kb.1 /\ (run_affected_rows run <= kb.2)%nat)
    (expected_reports u email sn ids d) runs.
Proof.
  intros r' Hwf Hr Hids Hsn (sn' & ids' & Hsn' & Hids' & Hruns).
  destruct (marked_matches u n n1 k r d Hwf Hr) as [Hpk Hm]. fold r' in Hpk, Hm.
  replace (expected_reports u email sn ids d) with (expected_reports u email sn' ids' (put_row r' d)); [done|].
  assert (Ha : count (AuditErasure._subject_audit_conditions sn') (put_row r' d)
               = count (AuditErasure._subject_audit_conditions sn) d).
  { change (count (AuditErasure._subject_audit_conditions sn') d = count (AuditErasure._subject_audit_conditions sn) d).
    apply count_ext. intros j e _. by eapply audit_conditions_ext. }
  assert (Ho : count (OutboxErasure.subject_event email ids') (put_row r' d)
               = count (OutboxErasure.subject_event email ids) d).
  { change (count (OutboxErasure.subject_event email ids') d = count (OutboxErasure.subject_event email ids) d).
    apply count_ext. intros j e _. unfold OutboxErasure.subject_event. f_equal.
    destruct (OutboxEvent.aggregate_id e) as [i|]; [|done]. apply bool_decide_ext. symmetry.
    by apply (keys_of_ext (R := Invite.t) _ _ _ _ _ Hids Hids'). }
  assert (Hd : count (AuditErasure._subject_dsr_conditions u) (put_row r' d)
               = count (AuditErasure._subject_dsr_conditions u) d).
  { apply (count_put (R := DataSubjectRequest.t) _ _ r); [by rewrite Hpk|by destruct r]. }
  unfold expected_reports. rewrite Ha, Ho, Hd. reflexivity.
Qed.

(** What the theorem below says of a preview and the result of an execution. *)
Definition bounded_by (p : ErasureImpactPreview) (o : ErasureOrchestrationResult) : Prop :=
  provider_keys o = erasure_orchestration_provider_order /\
  impact_provider_key <$> impact_entries p ≡ₚ provider_keys o /\
  (forall run, run ∈ provider_results o ->
     exists e rows, e ∈ impact_entries p /\ impact_provider_key e = run_provider_key run /\
       estimated_rows e = Some rows /\ (run_affected_rows run <= rows)%nat) /\
  (total_affected_rows o <= total_scoped_rows p)%nat.

Lemma elem_of_estimates (l : list ErasureImpactEntry) key rows :
  (key, Some rows) ∈ (estimate <$> l) ->
  exists e, e ∈ l /\ impact_provider_key e = key /\ estimated_rows e = Some rows.
Proof. intros (e & [= -> ->] & He)%list_elem_of_fmap. by exists e. Qed.

Lemma keys_of_estimates (l : list ErasureImpactEntry) : impact_provider_key <$> l = (estimate <$> l).*1.
Proof. by rewrite <- list_fmap_compose. Qed.

Lemma total_of_estimates p :
  total_scoped_rows p = list_sum (default 0%nat <$> (estimate <$> impact_entries p).*2).
Proof. unfold total_scoped_rows. by rewrite <- !list_fmap_compose. Qed.

Lemma expected_bounded p o u email sn ids d :
  length ids = count (AuditErasure._subject_invite u email) d ->
  impact_entries p = entries_of (subject_counts u email ids (AuditErasure._subject_audit_conditions sn) d) ->
  Forall2 (fun kb run => run_provider_key run = kb.1 /\ (run_affected_rows run <= kb.2)%nat)
    (expected_reports u email sn ids d) (provider_results o) ->
  bounded_by p o.
Proof.
  intros Hlen Hp Hruns. unfold subject_counts in Hp. rewrite Hlen in Hp. unfold bounded_by.
  rewrite keys_of_estimates, total_of_estimates. unfold provider_keys, total_affected_rows.
  unfold expected_reports in Hruns.
  assert (Hin : forall key rows, (key, Some rows) ∈ (estimate <$> impact_entries p) ->
    exists e, e ∈ impact_entries p /\ impact_provider_key e = key /\ estimated_rows e = Some rows)
    by (intros; by apply elem_of_estimates).
  rewrite Hp, estimates in *. clear Hp Hlen. set (l := entries_of _) in *. clearbody l.
  repeat match goal with |- context [count ?P d] => generalize dependent (count P d); intros ? end.
  generalize dependent (provider_results o). intros runs Hruns. repeat forall2_inv.
  intros Hin. repeat match goal with Hr : run_provider_key _ = _ /\ _ |- _ => destruct Hr as [? ?] end.
  simpl in *. split_and!.
  - repeat match goal with Hr : run_provider_key _ = _ |- _ => rewrite Hr; clear Hr end. reflexivity.
  - repeat match goal with Hr : run_provider_key _ = _ |- _ => rewrite Hr; clear Hr end.
    solve_Permutation.
  - intros run Hrun. assert (Hlisted : exists rows, (run_affected_rows run <= rows)%nat /\
      exists e, e ∈ l /\
        impact_provider_key e = run_provider_key run /\ estimated_rows e = Some rows).
    { apply list_elem_of_In in Hrun. simpl in Hrun.
      repeat destruct Hrun as [<-|Hrun]; [..|done].
      all: match goal with Hr : run_provider_key ?y = _ |- context [run_provider_key ?y] =>
             rewrite Hr; eexists; (split; [|apply Hin; repeat first [apply list_elem_of_here|apply list_elem_of_further]]) end; lia. }
    destruct Hlisted as (rows & Hle & e & He & Hk & Hest). by exists e, rows.
  - lia.
Qed.
(** C16. A preview bounds the erasure it precedes: when the execution that follows it
    completes, the providers that ran are those of the preview, in the declared order, each
    changed at most as many rows as the preview had estimated for it, and all of them
    together at most the total. *)
Theorem impact_preview_bounds_erasure r k n d :
  wf d -> data_subject_requests d !! k = Some r ->
  wp (p ← build_erasure_impact_preview r;
      out ← execute_core_erasure_for_approved_request r (Some n);
      mret (p, out.1))
    (fun po _ => orchestration_status po.2 = ErasureOrchestrationStatus.COMPLETED -> bounded_by po.1 po.2)
    any_exn d.
Proof.
  intros Hwf Hr. pose proof (wf_pk (R := DataSubjectRequest.t) d k r Hwf Hr) as Hk. simpl in Hk.
  apply wp_bind, wp_impact_preview; [done|]. intros u ids sn Hu Hlen Hids Hsn.
  apply wp_bind, execute_core_spec; [done| |done]. rewrite Hk.
  intros out d' _ (r' & Hr' & _ & Hres). apply wp_ret. simpl. intros Hdone. rewrite Hdone in Hres.
  rewrite Hr in Hr'. injection Hr' as <-.
  destruct Hres as (_ & u' & n1 & n2 & d1 & r1 & _ & Hu' & _ & _ & Hruns & _ & _).
  rewrite Hu in Hu'. injection Hu' as <-.
  eapply expected_bounded; [exact Hlen|reflexivity|]. by eapply run_reports_marked.
Qed.

End Impact.

(** ** The inventories *)
Section Inventories.
Import ColumnInventory ProviderRegistry.

(** The decision procedures of the agreement below. *)
Definition registry_complete (registry : gmap string PrivacyProviderRegistryEntry) : bool :=
  bool_decide (dom registry = export_provider_keys ∪ erasure_provider_keys).

Definition plan_complete (plan : list ErasureProviderPlanEntry) : bool :=
  bool_decide (NoDup (plan_provider_key <$> plan))
  && bool_decide (list_to_set (plan_provider_key <$> plan) =@{gset string} erasure_provider_keys)
  && bool_decide (dom ERASURE_COVERAGE_MAP = erasure_provider_keys)
  && forallb (fun e => match ERASURE_COVERAGE_MAP !! plan_provider_key e with
       | None => false
       | Some c => String.eqb (coverage_table c) (plan_table_name e)
       end) plan.

Definition same_policy (f : PrivacyFieldInventory) (p : PrivacyColumnPolicy) : bool :=
  bool_decide (column_classification p = classification f)
  && Bool.eqb (column_export p) (export f)
  && bool_decide (column_erasure_action p = erasure_action f).

Definition field_agrees (e : PrivacyTableInventoryEntry) (f : PrivacyFieldInventory) : bool :=
  match get_privacy_column_policy (DataInventory.table_name e) (name f) with
  | inr (Some p) => same_policy f p
  | _ => false
  end.

Definition fields_agree : bool :=
  forallb (fun e => forallb (field_agrees e) (fields e)) PRIVACY_DATA_INVENTORY.

Lemma fields_agree_ok : fields_agree = true.
Proof. vm_compute. reflexivity. Qed.

Lemma field_agrees_spec e f :
  e ∈ PRIVACY_DATA_INVENTORY -> f ∈ fields e ->
  exists p, get_privacy_column_policy (DataInventory.table_name e) (name f) = inr (Some p) /\
    column_classification p = classification f /\ column_export p = export f /\
    column_erasure_action p = erasure_action f.
Proof.
  intros He Hf. pose proof fields_agree_ok as Hok. unfold fields_agree in Hok.
  rewrite forallb_forall in Hok. specialize (Hok e (proj1 (list_elem_of_In _ _) He)).
  rewrite forallb_forall in Hok. specialize (Hok f (proj1 (list_elem_of_In _ _) Hf)).
  unfold field_agrees in Hok. destruct (get_privacy_column_policy _ _) as [|[p|]]; [done| |done].
  exists p. split; [done|]. unfold same_policy in Hok.
  apply andb_prop in Hok as [[Hc He']%andb_prop Ha].
  by apply bool_decide_eq_true in Hc, Ha; apply Bool.eqb_prop in He'.
Qed.

Definition on_success {A} (test : A -> bool) (r : exn + A) : bool :=
  match r with inr a => test a | inl _ => false end.

Lemma registry_ok : on_success registry_complete build_privacy_provider_registry = true.
Proof. vm_compute. reflexivity. Qed.

Lemma plan_ok : on_success plan_complete build_erasure_provider_plan = true.
Proof. vm_compute. reflexivity. Qed.

Lemma on_success_spec {A} (test : A -> bool) r :
  on_success test r = true -> exists a, r = inr a /\ test a = true.
Proof. destruct r as [|a]; [done|]. by exists a. Qed.

Lemma plan_complete_spec plan :
  plan_complete plan = true ->
  NoDup (plan_provider_key <$> plan) /\
  list_to_set (plan_provider_key <$> plan) = erasure_provider_keys /\
  dom ERASURE_COVERAGE_MAP = erasure_provider_keys /\
  forall e, e ∈ plan -> exists c, ERASURE_COVERAGE_MAP !! plan_provider_key e = Some c /\
    coverage_table c = plan_table_name e.
Proof.
  intros [[[Hn Hs]%andb_prop Hd]%andb_prop Hf]%andb_prop.
  apply bool_decide_eq_true in Hn, Hs, Hd. split_and!; [done..|]. intros e He.
  rewrite forallb_forall in Hf. specialize (Hf e (proj1 (list_elem_of_In _ _) He)). simpl in Hf.
  destruct (ERASURE_COVERAGE_MAP !! plan_provider_key e) as [c|]; [|done].
  exists c. split; [done|]. by apply String.eqb_eq.
Qed.

(** The inventories agree. The registry builds and holds every provider of the two
    enumerations; the plan builds, names each erasure provider once, and with the table
    that the coverage map names for it; and every field of the data inventory is a column
    of the column inventory, with the same classification, the same export flag and the
    same action. *)
Theorem inventories_agree :
  (exists registry, build_privacy_provider_registry = inr registry /\
     dom registry = export_provider_keys ∪ erasure_provider_keys) /\
  (exists plan, build_erasure_provider_plan = inr plan /\ NoDup (plan_provider_key <$> plan) /\
     list_to_set (plan_provider_key <$> plan) = erasure_provider_keys /\
     dom ERASURE_COVERAGE_MAP = erasure_provider_keys /\
     forall e, e ∈ plan -> exists c, ERASURE_COVERAGE_MAP !! plan_provider_key e = Some c /\
       coverage_table c = plan_table_name e) /\
  (forall e f, e ∈ PRIVACY_DATA_INVENTORY -> f ∈ fields e ->
     exists p, get_privacy_column_policy (DataInventory.table_name e) (name f) = inr (Some p) /\
       column_classification p = classification f /\ column_export p = export f /\
       column_erasure_action p = erasure_action f).
Proof.
  destruct (on_success_spec _ _ registry_ok) as (registry & Hr & Hc).
  destruct (on_success_spec _ _ plan_ok) as (plan & Hp & Hc').
  split; [exists registry; split; [exact Hr|exact (bool_decide_eq_true_1 _ Hc)]|].
  split; [exists plan; split; [exact Hp|exact (plan_complete_spec plan Hc')]|exact field_agrees_spec].
Qed.

End Inventories.

Module Witness.
Import Fixtures.
Import ErasureProofs.Witness.

Definition previewed :=
  (p ← build_erasure_impact_preview erase_request;
   out ← execute_core_erasure_for_approved_request erase_request (Some t0);
   mret (p, out.1)).

(** The estimates and the rows changed, for carol. *)
Definition estimated_and_changed : option (nat * nat * ErasureOrchestrationStatus.t) :=
  match (previewed (mkWorld erase_db (Active erase_db) 100)).1 with
  | Ok (p, o) => Some (total_scoped_rows p, total_affected_rows o, orchestration_status o)
  | Err _ => None
  end.

Lemma impact_preview_bounds_erasure_witness :
  estimated_and_changed = Some (7%nat, 5%nat, ErasureOrchestrationStatus.COMPLETED) /\
  wp previewed
    (fun po _ => orchestration_status po.2 = ErasureOrchestrationStatus.COMPLETED -> bounded_by po.1 po.2)
    any_exn erase_db.
Proof.
  split; [vm_compute; reflexivity|].
  exact (impact_preview_bounds_erasure erase_request 63 t0 erase_db erase_db_wf eq_refl).
Defined.

End Witness.
