(* ===== verification/InvariantProofs.v ===== *)
(** What the operations keep: ownership, the soundness of data-subject requests and of
    the outbox, and an administrator; and the rules for handlers that end in a read. *)
From S2P Require Import Prelude Errors Session Schema Tables Rows AuditLog Users Memberships.
From S2P Require Import Organisations MembershipServices Outbox Invites OutboxWorker Platform Commands.
From S2P Require Import ExportArtifacts DataSubjectRequests ExportArtifactServices ExportWorker.
From S2P Require Import PrivacyMaintenance Requests Api ExportArtifactsApi Application Fixtures AuditProofs.
From S2P Require Import UserProofs MembershipProofs OrganisationProofs InviteProofs OutboxProofs.
From S2P Require Import PlatformProofs CommandsProofs DataSubjectRequestProofs ExportArtifactProofs.

(** ** Handlers that end in a read

    Outside [begin] nothing commits, so whatever a handler reads after its
    transaction is dropped when its session is closed. *)

(** The statement commits nothing. *)
Definition reads {A} (m : M Db A) : Prop := forall w, committed (m w).2 = committed w.

(** Called with no transaction open, it leaves [I] true of what is committed; it may
    leave a transaction open. *)
Definition ends {A} (I : Db -> Prop) (m : M Db A) : Prop :=
  forall d t, I d -> I (committed (m (mkWorld d NoTx t)).2).

Section Reads.
Context {A B : Type}.

Lemma reads_ret (a : A) : reads (mret a).
Proof. done. Qed.

Lemma reads_raise e : reads (raise (A := A) e).
Proof. done. Qed.

Lemma reads_get_db : reads get_db.
Proof. by intros [c []]. Qed.

Lemma reads_bind (m : M Db A) (f : A -> M Db B) : reads m -> (forall a, reads (f a)) -> reads (m ≫= f).
Proof.
  intros Hm Hf w. specialize (Hm w).
  change (m ≫= f) with (fun w => match m w with (Ok a, w') => f a w' | (Err e, w') => (Err e, w') end).
  cbv beta. destruct (m w) as [[a|e] w']; simpl in *; [|done]. by rewrite Hf.
Qed.

Lemma reads_raise_if b e : reads (raise_if b e).
Proof. by destruct b. Qed.

Lemma reads_or_raise (x : option A) e : reads (or_raise x e).
Proof. by destruct x. Qed.

Lemma ends_reads (I : Db -> Prop) (m : M Db A) : reads m -> ends I m.
Proof. intros Hm d t Hd. by rewrite Hm. Qed.

Lemma ends_preserves (I : Db -> Prop) (m : M Db A) : preserves I m -> ends I m.
Proof. intros Hm d t Hd. by apply Hm. Qed.

Lemma ends_bind (I : Db -> Prop) (m : M Db A) (f : A -> M Db B) :
  preserves I m -> (forall a, ends I (f a)) -> ends I (m ≫= f).
Proof.
  intros Hm Hf d t Hd. specialize (Hm d t Hd).
  change (m ≫= f) with (fun w => match m w with (Ok a, w') => f a w' | (Err e, w') => (Err e, w') end).
  cbv beta. destruct (m _) as [[a|e] [c x t']]; simpl in *; [|by destruct Hm].
  destruct Hm as [-> Hc]. by apply Hf.
Qed.

Lemma preserves_closed (I : Db -> Prop) (m : M Db A) : ends I m -> preserves I (with_session m).
Proof.
  intros Hm d t Hd. specialize (Hm d t Hd). unfold with_session, close_session.
  by destruct (m _) as [r [c x t']].
Qed.

Lemma preserves_and (I J : Db -> Prop) (m : M Db A) :
  preserves I m -> preserves J m -> preserves (fun d => I d /\ J d) m.
Proof.
  intros Hm Hm' d t [Hd Hd']. destruct (Hm d t Hd) as [Htx ?], (Hm' d t Hd') as [_ ?]. by split.
Qed.

Lemma preserves_commits (I : Db -> Prop) (m : M Db A) :
  (forall d, I d -> commits m (fun _ => I) any_exn d) -> preserves I m.
Proof.
  intros Hm d t Hd. specialize (Hm d Hd t). destruct (m _) as [[a|e] w']; simpl.
  - done.
  - by destruct Hm as (? & -> & _).
Qed.

End Reads.

Ltac reads_solve :=
  repeat lazymatch goal with
  | |- reads (mret _) => apply reads_ret
  | |- reads (_ ≫= _) => apply reads_bind; [|intros ?]
  | |- reads (raise _) => apply reads_raise
  | |- reads get_db => apply reads_get_db
  | |- reads (raise_if _ _) => apply reads_raise_if
  | |- reads (or_raise _ _) => apply reads_or_raise
  | |- reads (match ?x with _ => _ end) => destruct x
  | |- reads (let _ := _ in _) => cbv zeta
  | |- reads ?m => let h := head_of m in unfold h
  end.

(** Follows the structure of a handler down to its transactions. *)
Ltac handler_step :=
  lazymatch goal with
  | |- preserves _ (with_session _) => apply preserves_closed
  | |- ends _ (begin _) => apply ends_preserves, preserves_begin
  | |- ends _ (join_or_begin _) => apply ends_preserves, preserves_join_or_begin
  | |- ends _ (await_external _) => apply ends_preserves, preserves_await_external
  | |- ends _ (let _ := _ in _) => cbv zeta
  | |- ends _ ?m =>
      first [ apply ends_reads; solve [reads_solve]
            | lazymatch m with
              | _ ≫= _ => apply ends_bind; [|intros ?]
              | match ?x with _ => _ end => destruct x
              | _ => let h := head_of m in unfold h
              end ]
  | |- preserves _ _ => preserves_step
  end.

(** ** What the operations keep *)

(** *** Owners *)
Section Owned.
Context `{Env} `{Network}.
Implicit Types (d : Db).

#[export] Instance owned_on : On memberships owned.
Proof. exact owned_frame. Qed.

Lemma keeps_owned_create_membership u o role :
  keeps (under owned) (MembershipService._create_membership u o role).
Proof.
  eapply keeps_spec; [keeps_solve|by intros d [Hwf _]; apply wp_create_membership|].
  intros d a d' [Hwf Hown] (id & n & n' & Hid & Hmay & -> & _ & ->).
  apply owned_new_membership; [done..|]. intros Hr.
  destruct (has_owner_dec d o Hwf) as [?|Hno]; [done|]. destruct Hr. apply Hmay.
  intros (k & m & Hm & Hmo). by rewrite (Hno k m Hm) in Hmo.
Qed.

Lemma keeps_owned_change_role o a ctx mid role lim :
  keeps (under owned) (MembershipService._change_membership_role o a ctx mid role lim).
Proof.
  eapply keeps_spec; [keeps_solve|by intros d [Hwf _]; apply wp_change_membership_role|].
  intros d m d' [Hwf Hown] (t & n & id & n' & _ & (_ & [Ht _] & Hr & _) & -> & _ & ->).
  eapply owned_frame; [done|]. apply (owned_put_existing d t); try done.
  intros [? _]%is_active_owner_true. done.
Qed.

Lemma keeps_owned_remove o a ctx mid reason lim :
  keeps (under owned) (MembershipService._remove_membership o a ctx mid reason lim).
Proof.
  eapply keeps_spec; [keeps_solve|by intros d [Hwf _]; apply wp_remove_membership|].
  intros d m d' [Hwf Hown] (t & n & id & n' & _ & ([Ht _] & Hr & _) & -> & _ & ->).
  eapply owned_frame; [done|]. apply owned_inactive; [done..|].
  apply not_true_iff_false. by intros [? _]%is_active_owner_true.
Qed.

Lemma keeps_owned_deactivate_organisation o :
  keeps (under owned) (MembershipRepository.deactivate_organisation_memberships o).
Proof.
  intros d [Hwf Hown]. apply wp_deactivate_organisation_memberships; [done|].
  intros n Hwf'. split; [done|]. by apply owned_deactivated.
Qed.

End Owned.

#[export] Hint Resolve keeps_owned_create_membership keeps_owned_change_role keeps_owned_remove
  keeps_owned_deactivate_organisation : keeps.

(** *** Data-subject requests *)
Section Requests.
Context `{Env} `{Network} `{IpNetworks} `{Crypto}.
Import DataSubjectRequestService.
Implicit Types (d : Db).

#[export] Instance requests_sound_on : On data_subject_requests requests_sound.
Proof. unfold On, requests_sound. by intros d d' ->. Qed.

Lemma keeps_wf_transition k s target reviewer rc t :
  keeps wf (DataSubjectRequestRepository.transition_status_if_current k s target
    (_build_transition_values target reviewer rc t)).
Proof.
  apply keeps_bind; [|intros; apply keeps_scalar]. apply keeps_wf_update_where. by destruct target.
Qed.

#[local] Hint Resolve keeps_wf_transition : keeps.

Lemma keeps_requests_submitted id u ty note v t key f n n' :
  keeps (under requests_sound)
    (DataSubjectRequestRepository.create (submitted_row id u ty note v t key f n n')).
Proof.
  intros d [Hwf Hd]. apply wp_insert_row; [done|]. intros _ Hv.
  split; [by apply wf_put_row|]. apply requests_sound_put; [done|]. by intros [|].
Qed.

Lemma keeps_requests_transition k target reviewer ctx rc now_arg :
  keeps (under requests_sound) (transition_status k target reviewer ctx rc now_arg).
Proof.
  eapply keeps_spec; [keeps_solve|by intros d [Hwf _]; apply wp_transition_status|].
  intros d r' d' [_ Hd] [_ Hm]. by eapply moved_sound.
Qed.

Lemma keeps_requests_fulfil k reviewer ctx rc now_arg :
  keeps (under requests_sound)
    (_transition_status k DataSubjectRequestStatus.FULFILLED reviewer ctx rc now_arg true).
Proof.
  eapply keeps_spec; [keeps_solve|by intros d [Hwf _]; apply wp_transition; [|left]|].
  intros d r' d' [_ Hd] Hm. by eapply moved_sound.
Qed.

Lemma keeps_requests_verify k reviewer rc ctx now_arg :
  keeps (under requests_sound) (verify_representative_authority k reviewer rc ctx now_arg).
Proof.
  eapply keeps_spec; [keeps_solve|by intros d [Hwf _]; apply wp_verify|].
  intros d r' d' [_ Hd] Hm. by eapply reviewed_sound.
Qed.

Lemma keeps_requests_reject k reviewer rc ctx :
  keeps (under requests_sound) (reject_representative_authority k reviewer rc ctx).
Proof.
  eapply keeps_spec; [keeps_solve|by intros d [Hwf _]; apply wp_reject_authority|].
  intros d r' d' [_ Hd] Hm. by eapply reviewed_sound.
Qed.

(** Writes that leave the status, the type and the representative alone. *)
Definition decides_alike (f : DataSubjectRequest.t -> DataSubjectRequest.t) : Prop :=
  forall r, DataSubjectRequest.id (f r) = DataSubjectRequest.id r
    /\ DataSubjectRequest.status (f r) = DataSubjectRequest.status r
    /\ DataSubjectRequest.request_type (f r) = DataSubjectRequest.request_type r
    /\ DataSubjectRequest.representative_status (f r) = DataSubjectRequest.representative_status r.

Lemma decides_alike_sound f r :
  decides_alike f -> (decided_yes r -> approvable r) -> decided_yes (f r) -> approvable (f r).
Proof. intros Hf. destruct (Hf r) as (_ & Hs & Ht & Hr). unfold decided_yes, approvable. by rewrite Hs, Ht, Hr. Qed.

Lemma keeps_requests_update_row k f :
  decides_alike f -> keeps (under requests_sound) (update_row k f).
Proof.
  intros Hf d [Hwf Hd]. apply wp_update_row; [done..|]. intros r n Hr _ Hv.
  split; [by apply wf_put_row|]. apply requests_sound_put; [done|].
  apply (decides_alike_sound f r Hf). by eapply Hd.
Qed.

Lemma keeps_requests_update_where sel f :
  decides_alike f -> keeps (under requests_sound) (update_where sel f).
Proof.
  intros Hf d Hd. eapply wp_mono; [apply wp_and; [apply keeps_wf_update_where; [by intros r; apply Hf|by apply Hd]|]| |].
  - apply (wp_update_where _ _ (fun _ => requests_sound) any_exn); [done|]. intros n g _ k r. simpl.
    rewrite lookup_fmap. intros (r0 & Hr0 & ->)%fmap_Some. pose proof (proj2 Hd k r0 Hr0) as Hr.
    destruct (sel r0); [|done]. by apply (decides_alike_sound f r0 Hf).
  - done.
  - done.
Qed.

Lemma keeps_requests_execution dsr s t code detail :
  keeps (under requests_sound) (DataSubjectRequestRepository.save dsr
    (ExportArtifactService.with_execution s t code detail)).
Proof. apply keeps_requests_update_row. intros r. by destruct s. Qed.

Lemma keeps_requests_keys sel :
  keeps (under requests_sound) (update_where sel PrivacyMaintenance.without_idempotency).
Proof. by apply keeps_requests_update_where. Qed.

End Requests.

#[export] Hint Resolve keeps_requests_submitted keeps_requests_transition keeps_requests_fulfil
  keeps_requests_verify keeps_requests_reject keeps_requests_execution keeps_requests_keys : keeps.

(** *** The outbox *)

Definition terminal (e : OutboxEvent.t) : bool :=
  bool_decide (OutboxEvent.status e ∈ [OutboxStatus.PROCESSED; OutboxStatus.FAILED]).

(** A settled invite event carries no sensitive key any more. *)
Definition event_scrubbed (e : OutboxEvent.t) : Prop :=
  OutboxEventRepository.is_invite_event e = true -> terminal e = true ->
  has_sensitive_key (OutboxEvent.payload_json e) = false.

(** Settled events are scrubbed, and a delivery claim is on an event in processing. *)
Definition outbox_sound (d : Db) : Prop :=
  (forall k e, outbox_events d !! k = Some e -> event_scrubbed e) /\
  (forall k c, outbox_delivery_claims d !! k = Some c ->
     exists e, outbox_events d !! k = Some e /\ OutboxEvent.status e = OutboxStatus.PROCESSING).

Section OutboxSound.
Context `{Env}.
Import OutboxEventRepository.
Implicit Types (d : Db).

#[export] Instance outbox_sound_on :
  On (fun d => (outbox_events d, outbox_delivery_claims d)) outbox_sound.
Proof. unfold On, outbox_sound. by intros d d' [= -> ->]. Qed.

(** An event without a claim may be written; a claimed one stays in processing. *)
Lemma outbox_sound_put d e :
  outbox_sound d -> event_scrubbed e ->
  (is_Some (outbox_delivery_claims d !! OutboxEvent.id e) ->
     OutboxEvent.status e = OutboxStatus.PROCESSING) ->
  outbox_sound (put_row e d).
Proof.
  intros [Hs Hc] He Hst. split.
  - intros k x. rewrite events_put, lookup_insert_Some. intros [[_ <-]|[_ Hx]]; [done|by eapply Hs].
  - intros k c Hk. simpl in Hk. rewrite events_put.
    destruct (decide (k = OutboxEvent.id e)) as [->|Hne].
    + exists e. rewrite lookup_insert_eq. split; [done|]. apply Hst. by eexists.
    + rewrite lookup_insert_ne by done. by eapply Hc.
Qed.

Lemma outbox_sound_unclaimed id d : outbox_sound d -> outbox_sound (unclaimed id d).
Proof.
  intros [Hs Hc]. split; [done|]. intros k c Hk. simpl in Hk.
  apply lookup_delete_Some in Hk as [_ Hk]. by eapply Hc.
Qed.

Lemma keeps_outbox_publish type aggregate id payload :
  keeps (under outbox_sound) (OutboxService.publish_event type aggregate id payload).
Proof.
  intros d [Hwf Hd]. do 3 (apply wp_bind, wp_draw; intros ?). apply wp_insert_row; [done|].
  intros Hid Hv. split; [by apply wf_put_row|]. apply outbox_sound_put; [done|done|].
  intros [c Hc]. destruct Hd as [_ Hd]. destruct (Hd _ c Hc) as (e & He & _).
  simpl in He, Hid. congruence.
Qed.

Lemma keeps_outbox_clear id : keeps (under outbox_sound) (_clear_delivery_claim id).
Proof.
  intros d [Hwf Hd]. apply wp_clear_delivery_claim; [done|].
  split; [by apply wf_unclaimed|by apply outbox_sound_unclaimed].
Qed.

(** The writes of the repository clear the claim first. *)
Lemma wp_outbox_rewrite id (f : OutboxEvent.t -> OutboxEvent.t) Q d :
  (forall e, OutboxEvent.id (f e) = OutboxEvent.id e) -> (forall e, event_scrubbed (f e)) ->
  under outbox_sound d -> (forall e d', under outbox_sound d' -> Q e d') ->
  wp (_clear_delivery_claim id) (fun _ => wp (update_row_explicit id f) Q any_exn) any_exn d.
Proof.
  intros Hid Hf [Hwf Hd] HQ. apply wp_clear_delivery_claim; [done|].
  apply wp_update_row_explicit; [done..|]. intros e He _. simpl in He. apply HQ.
  split; [apply wf_put_row; [by apply wf_unclaimed|apply valid_outbox_event]|].
  apply outbox_sound_put; [by apply outbox_sound_unclaimed|done|].
  pose proof (wf_pk (R := OutboxEvent.t) d id e Hwf He) as Hpk. simpl in Hpk |- *.
  rewrite Hid, Hpk, lookup_delete_eq. by intros [].
Qed.

Lemma keeps_outbox_rewrite id (f : OutboxEvent.t -> OutboxEvent.t) :
  (forall e, OutboxEvent.id (f e) = OutboxEvent.id e) -> (forall e, event_scrubbed (f e)) ->
  keeps (under outbox_sound) (_clear_delivery_claim id ;; update_row_explicit id f).
Proof. intros Hid Hf d Hd. by apply wp_bind, wp_outbox_rewrite. Qed.

Lemma keeps_outbox_rewrite_unit id (f : OutboxEvent.t -> OutboxEvent.t) :
  (forall e, OutboxEvent.id (f e) = OutboxEvent.id e) -> (forall e, event_scrubbed (f e)) ->
  keeps (under outbox_sound) (_clear_delivery_claim id ;; update_row_explicit id f ;; mret tt).
Proof.
  intros Hid Hf d Hd. apply wp_bind.
  eapply wp_mono; [by apply (wp_outbox_rewrite id f (fun _ => under outbox_sound))| |done].
  simpl. intros [] d' Hw. apply wp_bind. eapply wp_mono; [exact Hw| |done].
  intros e d'' Hd''. by apply wp_ret.
Qed.

Lemma scrubbed_processed n e : event_scrubbed (processed n e).
Proof.
  intros Hi _. apply scrub_safe. revert Hi. unfold processed, is_invite_event.
  by rewrite (proj1 (proj2 (scrub_fields _))).
Qed.

Lemma keeps_outbox_mark_processed e : keeps (under outbox_sound) (mark_processed e).
Proof.
  apply keeps_bind; [apply keeps_draw|]. intros n. apply keeps_outbox_rewrite_unit.
  - intros x. unfold processed. exact (proj1 (scrub_fields _)).
  - intros x. apply scrubbed_processed.
Qed.

Lemma scrubbed_failed_attempt n r e : event_scrubbed (failed_attempt n r e).
Proof.
  unfold failed_attempt. cbv zeta. destruct (_ <=? _); intros Hi Ht; [|by vm_compute in Ht].
  cbn [OutboxEvent.payload_json OutboxEvent.set_updated_at].
  apply scrub_safe. revert Hi. unfold is_invite_event.
  cbn [OutboxEvent.event_type OutboxEvent.set_updated_at].
  by rewrite (proj1 (proj2 (scrub_fields _))).
Qed.

Lemma keeps_outbox_mark_failed e r : keeps (under outbox_sound) (mark_failed_attempt e r).
Proof.
  apply keeps_bind; [apply keeps_draw|]. intros n. apply keeps_outbox_rewrite_unit.
  - intros x. apply failed_attempt_id.
  - intros x. apply scrubbed_failed_attempt.
Qed.

Lemma keeps_outbox_claim_due limit : keeps (under outbox_sound) (claim_due_events limit).
Proof.
  apply keeps_bind; [apply keeps_draw|]. intros n.
  apply keeps_bind; [apply keeps_select|]. intros l. apply keeps_for_each. intros e.
  apply keeps_outbox_rewrite; [done|]. intros x _ Ht. by vm_compute in Ht.
Qed.

Lemma keeps_outbox_claim_delivery id token :
  keeps (under outbox_sound) (claim_processing_event_for_delivery id token).
Proof.
  intros d [Hwf Hd]. apply wp_claim_for_delivery; [done| |done].
  intros e n (He & Hs & _). split; [by apply wf_after_claim|]. destruct Hd as [Hsc Hc].
  pose proof (wf_pk (R := OutboxEvent.t) d id e Hwf He) as Hid. simpl in Hid. subst id.
  split.
  - intros k x. unfold after_claim. rewrite events_put. simpl. rewrite lookup_insert_Some.
    intros [[_ <-]|[_ Hx]]; [|by eapply Hsc]. intros _ Ht. exfalso. revert Ht.
    unfold terminal. simpl. by rewrite Hs.
  - intros k c. unfold after_claim. rewrite events_put. simpl. rewrite lookup_insert_Some.
    intros Hk. destruct (decide (k = OutboxEvent.id e)) as [->|Hne].
    + exists (locked n e). by rewrite lookup_insert_eq.
    + destruct Hk as [[<- _]|[_ Hk]]; [done|]. rewrite lookup_insert_ne by done. by eapply Hc.
Qed.

Lemma find_filter_keys (keep : string -> bool) (fields : list (string * json)) kv :
  In kv (List.filter (fun kv => keep kv.1) fields) -> keep kv.1 = true.
Proof. by intros [_ ?]%filter_In. Qed.

(** The keys retention leaves in a payload. *)
Lemma retained_payload_safe payload :
  has_sensitive_key (PrivacyMaintenance._scrubbed_outbox_payload payload) = false.
Proof.
  unfold PrivacyMaintenance._scrubbed_outbox_payload, has_sensitive_key. cbv zeta.
  rewrite !dict_set_keys. simpl. apply not_true_iff_false. intros Hx.
  apply existsb_exists in Hx as ([k v] & Hin%find_filter_keys & Hk). revert Hin Hk.
  unfold PrivacyMaintenance.is_safe_key, is_sensitive_key. simpl.
  rewrite !orb_true_iff, !String.eqb_eq.
  intros Hin [->|[->|?]]; [..|done]; by destruct Hin as [|[|[|[|]]]].
Qed.

Lemma keeps_outbox_retention id :
  keeps (under outbox_sound) (update_row id PrivacyMaintenance._apply_outbox_retention).
Proof.
  intros d [Hwf Hd]. apply wp_update_row; [done..|]. intros e n He _ Hv.
  split; [by apply wf_put_row|].
  pose proof (wf_pk (R := OutboxEvent.t) d id e Hwf He) as Hid. simpl in Hid. subst id.
  apply outbox_sound_put; [done| |].
  - intros _ _. unfold PrivacyMaintenance._apply_outbox_retention. cbv zeta.
    destruct (bool_decide _); apply retained_payload_safe.
  - unfold PrivacyMaintenance._apply_outbox_retention. cbv zeta. intros [c Hc].
    assert (Hc' : outbox_delivery_claims d !! OutboxEvent.id e = Some c)
      by (revert Hc; by destruct (bool_decide _)).
    destruct (proj2 Hd _ c Hc') as (e' & He' & Hs). simpl in He.
    replace e with e' by congruence. simpl. rewrite Hs. done.
Qed.

End OutboxSound.

#[export] Hint Resolve keeps_outbox_publish keeps_outbox_clear keeps_outbox_mark_processed
  keeps_outbox_mark_failed keeps_outbox_claim_due keeps_outbox_claim_delivery
  keeps_outbox_retention : keeps.

(** *** Administrators *)

(** Somebody whose account is bound to a login [P] can administer the platform. *)
Definition administered (P : string -> Prop) (d : Db) : Prop := exists u, administrator P d u.

Section Administered.
Context `{Env} `{Network} `{IpNetworks} (P : string -> Prop).
Implicit Types (d : Db).

#[export] Instance administered_on : On (fun d => (users d, platform_staff d)) (administered P).
Proof.
  intros d d' Hf [u Hu]. exists u. by apply (administrator_frame P d); [exact (f_equal fst Hf)|exact (f_equal snd Hf)|].
Qed.

(** A user's row may change in everything but its key, its status and its login. *)
Lemma keeps_administered_update_user k (f : User.t -> User.t) :
  (forall u, User.id (f u) = User.id u) -> (forall u, User.status (f u) = User.status u) ->
  (forall u, User.external_auth_id (f u) = User.external_auth_id u) ->
  keeps (under (administered P)) (update_row k f).
Proof.
  intros Hid Hst Hx d [Hwf Hd]. apply wp_update_row; [done..|]. intros u n Hu _ Hv.
  split; [by apply wf_put_row|]. destruct Hd as [v Hd]. exists v. apply administrator_kept_user; [|done].
  intros y Hy Ha. simpl in Hy, Hu |- *. rewrite Hid in Hy.
  pose proof (wf_pk (R := User.t) d k u Hwf Hu) as Hpk. simpl in Hpk. rewrite Hpk in Hy.
  rewrite Hst, Hx. by replace y with u in * by congruence.
Qed.

Lemma keeps_administered_create_user auth email verified first last :
  keeps (under (administered P)) (UserRepository.create auth email verified first last).
Proof.
  intros d [Hwf [v Hd]]. do 3 (apply wp_bind, wp_draw; intros ?). apply wp_insert_row; [done|].
  intros Hno Hv. split; [by apply wf_put_row|]. exists v. apply administrator_kept_user; [|done].
  intros x Hx. simpl in Hno, Hx. congruence.
Qed.

Lemma keeps_administered_profile u email verified first last :
  keeps (under (administered P)) (UserRepository.update_profile_fields u email verified first last).
Proof. by apply keeps_administered_update_user. Qed.

Lemma keeps_administered_onboarding u b :
  keeps (under (administered P)) (UserRepository.update_onboarding_completed u b).
Proof. by apply keeps_administered_update_user. Qed.

(** A platform handler leaves an administrator when its specification says so of the
    actor who got through. *)
Lemma preserves_platform_write {A} c p (handler : PlatformActor.t -> M Db A) (Q : Db -> PlatformActor.t -> A -> Db -> Prop)
    (E : Db -> PlatformActor.t -> exn -> Prop) :
  (forall a, keeps wf (handler a)) ->
  (forall d a, wf d -> may_act d (identity c) p a -> wp (handler a) (Q d a) (E d a) d) ->
  (forall d a x d', wf d -> may_act d (identity c) p a -> Q d a x d' -> administered P d') ->
  preserves (under (administered P)) (platform_write c p handler).
Proof.
  intros Hk Hm HQ. apply preserves_commits. intros d [Hwf Hd].
  apply (commits_mono _ (fun _ => under (administered P)) _
    (fun e => turned_away c d p e \/ any_exn e)); [|done|by intros].
  apply commits_platform_write; [done|]. intros a Ha.
  eapply wp_mono; [apply wp_and; [exact (Hk a d Hwf)|exact (Hm d a Hwf Ha)]| |by intros].
  intros x d' [Hwf' Hx]. split; [exact Hwf'|]. exact (HQ d a x d' Hwf Ha Hx).
Qed.

Lemma preserves_create_staff c u role reason :
  P (login c) -> preserves (under (administered P)) (PlatformStaffApi.create_platform_staff c u role reason).
Proof.
  intros HP. eapply preserves_platform_write; [intros a; keeps_solve| |].
  - intros d a Hwf Ha. apply wp_create_staff; [done|]. destruct Ha as [(Hu & _) _]. by eexists.
  - intros d a s d' Hwf Ha Hs. exists (actor_id a). eapply staff_created_administrator; [|exact Hs].
    eapply may_act_administrator; [exact HP|apply manage_admin_only|done].
Qed.

Lemma preserves_change_role c k role reason :
  P (login c) -> preserves (under (administered P)) (PlatformStaffApi.update_platform_staff_role c k role reason).
Proof.
  intros HP. eapply preserves_platform_write; [intros a; keeps_solve|by intros; apply wp_change_role|].
  intros d a s d' Hwf Ha Hs. exists (actor_id a). eapply role_changed_administrator; [done| |exact Hs].
  eapply may_act_administrator; [exact HP|apply manage_admin_only|done].
Qed.

Lemma preserves_suspend_staff c k reason :
  P (login c) -> preserves (under (administered P)) (PlatformStaffApi.suspend_platform_staff c k reason).
Proof.
  intros HP. eapply preserves_platform_write; [intros a; keeps_solve|by intros; apply wp_suspend_staff|].
  intros d a s d' Hwf Ha Hs. exists (actor_id a). eapply staff_suspended_administrator; [done| |exact Hs].
  eapply may_act_administrator; [exact HP|apply manage_admin_only|done].
Qed.

Lemma preserves_restore_staff c k reason :
  P (login c) -> preserves (under (administered P)) (PlatformStaffApi.restore_platform_staff c k reason).
Proof.
  intros HP. eapply preserves_platform_write; [intros a; keeps_solve|by intros; apply wp_restore_staff|].
  intros d a s d' Hwf Ha Hs. exists (actor_id a). eapply staff_restored_administrator; [done| |exact Hs].
  eapply may_act_administrator; [exact HP|apply manage_admin_only|done].
Qed.

Lemma preserves_suspend_user c k reason :
  P (login c) -> preserves (under (administered P)) (PlatformUsersApi.suspend_platform_user c k reason).
Proof.
  intros HP. eapply preserves_platform_write; [intros a; keeps_solve|by intros; apply wp_suspend_user|].
  intros d a s d' Hwf Ha Hs. exists (actor_id a). eapply user_suspended_administrator; [done| |exact Hs].
  eapply may_act_administrator; [exact HP|apply suspend_admin_only|done].
Qed.

Lemma preserves_restore_user c k reason :
  P (login c) -> preserves (under (administered P)) (PlatformUsersApi.restore_platform_user c k reason).
Proof.
  intros HP. eapply preserves_platform_write; [intros a; keeps_solve|by intros; apply wp_restore_user|].
  intros d a s d' Hwf Ha Hs. exists (actor_id a). eapply user_restored_administrator; [done| |exact Hs].
  eapply may_act_administrator; [exact HP| |exact Ha]. by apply admin_only_dec.
Qed.

(** A grant of the bootstrap command takes nobody's standing away. *)
Lemma keeps_grant email force : keeps (under (administered P)) (MakePlatformAdmin.grant email force).
Proof.
  intros d [Hwf [v Hd]]. assert (Hk : keeps wf (MakePlatformAdmin.grant email force)) by keeps_solve.
  eapply wp_mono; [apply wp_and; [exact (Hk d Hwf)|exact (wp_grant email force d Hwf)]| |by intros].
  intros r d' [Hwf' Hr]. split; [exact Hwf'|]. exists v.
  exact (granted_keeps_administrator P d email force r d' v Hwf Hr Hd).
Qed.

End Administered.

#[export] Hint Resolve keeps_grant keeps_administered_create_user keeps_administered_profile
  keeps_administered_onboarding : keeps.
