(* ===== verification/ErasureInvariantProofs.v ===== *)
(** What the execution of an erasure keeps: it may not break any invariant of the
    application, whether it completes or fails. *)
From S2P Require Import Prelude Errors Session Schema Tables Rows AuditLog Users Memberships.
From S2P Require Import Organisations MembershipServices Outbox Invites OutboxWorker Platform.
From S2P Require Import ExportArtifacts DataSubjectRequests ExportArtifactServices ExportWorker.
From S2P Require Import PrivacyMaintenance Requests Api ExportArtifactsApi Application Fixtures AuditProofs.
From S2P Require Import UserProofs MembershipProofs OrganisationProofs InviteProofs OutboxProofs.
From S2P Require Import PlatformProofs CommandsProofs DataSubjectRequestProofs ExportArtifactProofs.
From S2P Require Import Erasures ErasureProofs InvariantProofs.
Import ErasureRows ErasureOrchestrator RemainingInventoryErasure ErasureExecution.

(** A write of the columns of an execution leaves what decides about a request alone. *)
Definition marked (r r' : DataSubjectRequest.t) : Prop :=
  DataSubjectRequest.id r' = DataSubjectRequest.id r /\
  DataSubjectRequest.request_type r' = DataSubjectRequest.request_type r /\
  DataSubjectRequest.status r' = DataSubjectRequest.status r /\
  DataSubjectRequest.representative_status r' = DataSubjectRequest.representative_status r.

(** An invariant that an execution keeps. *)
Record erasable (I : Db -> Prop) : Prop := {
  erasable_marked : forall d r r', under I d ->
    data_subject_requests d !! DataSubjectRequest.id r = Some r -> marked r r' -> I (put_row r' d);
  erasable_erased : forall u email n d d', under I d -> wf d' -> erased u email n d d' -> I d';
}.

Section Keeps.
Context `{Env} (I : Db -> Prop).

Lemma executed_core_keeps k n d res d' :
  erasable I -> under I d -> executed_core k n d res d' -> I d'.
Proof.
  intros [Hm He] [Hwf Hd] (r & Hr & _ & Hres).
  pose proof (wf_pk (R := DataSubjectRequest.t) d k r Hwf Hr) as Hk. simpl in Hk.
  destruct (orchestration_status res); [|by destruct Hres as [_ ->]|].
  - destruct Hres as (_ & u & n1 & n2 & d1 & r1 & [Hwf1 _] & _ & _ & Her & _ & Hr1 & ->).
    pose proof (wf_pk (R := DataSubjectRequest.t) d1 k r1 Hwf1 Hr1) as Hk1. simpl in Hk1.
    apply (Hm d1 r1); [split; [done|]|by rewrite Hk1|done].
    eapply He; [|done|exact Her]. split; [|by apply (Hm d r); [|rewrite Hk|]].
    apply wf_put_row; [done|]. apply valid_row_spec. split; [|done].
    exact (wf_checks (R := DataSubjectRequest.t) d k r Hwf Hr).
  - destruct Hres as (_ & n1 & n2 & code & _ & ->). by apply (Hm d r); [|rewrite Hk|].
Qed.

Lemma keeps_execute_core request n :
  erasable I -> keeps (under I) (execute_core_erasure_for_approved_request request (Some n)).
Proof.
  intros HI d Hd. apply execute_core_spec; [by destruct Hd| |done].
  intros out d' Hwf' Hc. split; [done|]. by eapply executed_core_keeps.
Qed.

End Keeps.

(** ** The invariants of the application *)
Section Erasable.
Implicit Types (d : Db).

(** An invariant of tables that neither the requests nor the providers change. *)
Lemma erasable_frame {X} (f : Db -> X) (I : Db -> Prop) `{!On f I} `{!Frame DataSubjectRequest.t f} :
  (forall u email n d d', erased u email n d d' -> f d' = f d) -> erasable I.
Proof.
  intros Hf. split.
  - intros d r r' [_ Hd] _ _. apply (on d); [|done]. unfold put_row. apply frame.
  - intros u email n d d' [_ Hd] _ Her. apply (on d); [|done]. by eapply Hf.
Qed.

Lemma erasable_owned : erasable owned.
Proof. refine (erasable_frame memberships owned _). by intros u email n d d' [? ? ? ? ? ? ? ? ? (_ & -> & _)]. Qed.

Lemma erasable_requests : erasable requests_sound.
Proof.
  split.
  - intros d r r' [_ Hd] Hr (Hid & Ht & Hs & Hrep). apply requests_sound_put; [done|].
    pose proof (Hd _ r Hr) as Hy. unfold decided_yes, approvable in *. by rewrite Hs, Ht, Hrep.
  - intros u email n d d' [_ Hd] _ Her k r' (r & Hr & Hw)%(rewritten_lookup _ _ _ _ _ _ (erased_requests _ _ _ _ _ Her)).
    pose proof (Hd k r Hr) as Hy. destruct (AuditErasure._subject_dsr_conditions u r); [|by subst].
    destruct (request_row u r) as (_ & Ht & Hs & _ & Hrep & _). unfold decided_yes, approvable in *.
    destruct Hw as [->|[n' ->]]; simpl; by rewrite Hs, Ht, Hrep.
Qed.

Lemma erased_payload_safe payload : erased_payload payload -> has_sensitive_key payload = false.
Proof.
  intros (fields & -> & Hf). unfold has_sensitive_key. apply not_true_iff_false. intros Hx.
  apply existsb_exists in Hx as ([k v] & Hin & Hk). rewrite List.Forall_forall in Hf.
  specialize (Hf _ Hin). revert Hf Hk. unfold OutboxErasure.is_safe_key, OutboxEventRepository.is_sensitive_key. simpl.
  rewrite !orb_true_iff, !String.eqb_eq. intros Hin' [->|[->|?]]; [..|done]; naive_solver.
Qed.

Lemma erasable_outbox : erasable outbox_sound.
Proof.
  split; [by intros d r r' [_ Hd] _ _|].
  intros u email n d d' [_ [Hs Hc]] _ Her. pose proof (erased_outbox _ _ _ _ _ Her) as (ids & _ & Hbusy & Ht).
  pose proof (erased_rest _ _ _ _ _ Her) as (_ & _ & Hcl & _). split.
  - intros k e' (e & He & Hw)%(rewritten_lookup _ _ _ _ _ _ Ht).
    destruct (OutboxErasure.subject_event email ids e); [|by subst; eapply Hs].
    destruct (outbox_row e) as (_ & _ & _ & Hp & _). intros _ _.
    destruct Hw as [->|[n' ->]]; by apply erased_payload_safe.
  - intros k c. rewrite Hcl. intros (e & He & Hst)%Hc.
    destruct (rewritten_lookup_old _ _ _ _ k e Ht He) as (e' & He' & Hw). exists e'. split; [done|].
    destruct (OutboxErasure.subject_event email ids e) eqn:Hsub; [|by subst].
    by destruct (Hbusy k e He Hsub).
Qed.

(** *** Rows that follow *)

Lemma rows_follow_rewritten {R} `{TableLaws R} `{EqDecision R} (P : R -> Prop) (T : R -> R -> Prop)
    `{!PreOrder T} t0 f hit d d' :
  (forall r n, P r -> P (touch n r) /\ T r (touch n r)) ->
  (forall k r, rows d !! k = Some r -> P r -> hit k r = true -> P (f r) /\ T r (f r)) ->
  rows_follow P T t0 d -> rewritten f hit d (rows d') -> rows_follow P T t0 d'.
Proof.
  intros Htouch Hf [Hd Ht] Hw.
  assert (Hrow : forall k r r', rows d !! k = Some r ->
    (if hit k r then written f r r' else r' = r) -> P r' /\ T r r').
  { intros k r r' Hr Hwr. pose proof (Hd k r Hr) as HP. destruct (hit k r) eqn:Hh; [|by subst].
    destruct (Hf k r Hr HP Hh) as [HPf HTf]. destruct Hwr as [->|[n ->]]; [done|].
    destruct (Htouch (f r) n HPf) as [HPt HTt]. split; [done|]. by etrans. }
  split.
  - intros k r' (r & Hr & Hw')%(rewritten_lookup _ _ _ _ _ _ Hw). by eapply Hrow.
  - intros k r0 (r & Hr & HT)%Ht. destruct (rewritten_lookup_old _ _ _ _ k r Hw Hr) as (r' & Hr' & Hw').
    exists r'. split; [done|]. etrans; [exact HT|]. by eapply Hrow.
Qed.

Lemma artifact_touched n a :
  artifact_sound a -> let a' := ExportArtifact.set_updated_at n a in artifact_sound a' /\ artifact_moves a a'.
Proof. intros [tk ls ky up rd fl dl]. split; split; simpl; try done. by destruct (ExportArtifact.status a). Qed.

(** A waiting or finished export is cancelled exactly when it is the subject's and may
    still be delivered or has an object. *)
Definition cancels (u : UUID) a : bool :=
  _is_subject_owned_export_artifact u a
  && (negb (is_None (ExportArtifact.storage_key a))
      || bool_decide (ExportArtifact.status a ∈ _CANCELLED_EXPORT_ERASURE_STATUSES)).

Lemma artifact_row u a :
  let a' := (_minimise_export_artifact u a).1 in
  let owned := _is_subject_owned_export_artifact u a in
  (ExportArtifact.id a', ExportArtifact.data_subject_request_id a', ExportArtifact.expires_at a')
    = (ExportArtifact.id a, ExportArtifact.data_subject_request_id a, ExportArtifact.expires_at a) /\
  ExportArtifact.status a' = (if cancels u a then ExportArtifactStatus.CANCELLED else ExportArtifact.status a) /\
  ExportArtifact.failure_reason_code a' =
    (if cancels u a then Some _SUBJECT_ERASURE_CANCELLED_EXPORT_REASON else ExportArtifact.failure_reason_code a) /\
  content a' = (if owned then (ExportArtifact.storage_key a, None, None, None, None) else content a) /\
  (ExportArtifact.processing_token a', ExportArtifact.processing_lease_expires_at a') =
    (if owned then (None, None)
     else (ExportArtifact.processing_token a, ExportArtifact.processing_lease_expires_at a)) /\
  (ExportArtifact.completed_at a', ExportArtifact.failed_at a', ExportArtifact.downloaded_at a',
   ExportArtifact.download_count a', ExportArtifact.download_url_issue_count a')
    = (ExportArtifact.completed_at a, ExportArtifact.failed_at a, ExportArtifact.downloaded_at a,
       ExportArtifact.download_count a, ExportArtifact.download_url_issue_count a).
Proof.
  unfold _minimise_export_artifact, content. plain_row. fold (cancels u a). destruct a; simpl.
  destruct (cancels _ _), (_is_subject_owned_export_artifact _ _); simpl;
    repeat (destruct (is_user _ _); simpl); by split_and!.
Qed.

Lemma artifact_erased u a :
  artifact_sound a -> ExportArtifact.status a <> ExportArtifactStatus.PROCESSING ->
  let a' := (_minimise_export_artifact u a).1 in artifact_sound a' /\ artifact_moves a a'.
Proof.
  intros [tk ls ky up rd fl dl] Hs. cbv zeta.
  destruct (artifact_row u a) as ([= Hid Hreq Hexp] & Hst & Hcode & Hco & Hle & [= Hc Hf Hd Hn Hi]).
  set (a' := (_minimise_export_artifact u a).1) in *. clearbody a'.
  assert (Hlive : cancels u a = false -> live_upload (ExportArtifact.status a) = true ->
    _is_subject_owned_export_artifact u a = false).
  { unfold cancels. destruct (_is_subject_owned_export_artifact u a); [|done]. simpl.
    rewrite orb_false_iff. intros [_ Hn']. by destruct (ExportArtifact.status a). }
  assert (Hno : ExportArtifact.processing_token a = None).
  { destruct (ExportArtifact.processing_token a) eqn:Ht; [|done]. exfalso. by apply Hs, tk. }
  assert (Hno' : ExportArtifact.processing_lease_expires_at a = None).
  { destruct (ExportArtifact.processing_lease_expires_at a) eqn:Ht; [|done].
    destruct (proj2 ls) as [? Hx]; [done|]. congruence. }
  assert (Hle' : ExportArtifact.processing_token a' = None /\ ExportArtifact.processing_lease_expires_at a' = None).
  { destruct (_is_subject_owned_export_artifact u a); injection Hle as Hx Hy; rewrite Hx, Hy; done. }
  destruct Hle' as [Ht' Hl'].
  assert (Hkey : ExportArtifact.storage_key a' = ExportArtifact.storage_key a).
  { unfold content in Hco. destruct (_is_subject_owned_export_artifact u a); congruence. }
  split; split.
  - rewrite Ht', Hst. split; [|by intros []]. destruct (cancels u a); naive_solver.
  - by rewrite Ht', Hl'.
  - by rewrite Hkey, Hid.
  - rewrite Hst, Hkey. destruct (cancels u a) eqn:Hca; [done|]. intros Hl Hk.
    rewrite (Hlive eq_refl Hl) in Hco. unfold content in Hco. injection Hco as Hk1 -> -> -> ->. auto.
  - rewrite Hst, Hkey, Hc. by destruct (cancels u a).
  - rewrite Hst, Hf, Hcode. destruct (cancels u a); [done|auto].
  - rewrite Hst, Hd, Hn. destruct dl as [?|(? & ? & ?)]; [by left|right].
    by destruct (cancels u a).
  - done.
  - done.
  - done.
  - rewrite Hst. destruct (cancels u a); by destruct (ExportArtifact.status a).
  - intros Ha Ha'. rewrite Ha' in Hst. destruct (cancels u a); [done|].
    rewrite Hlive in Hco; [done|done|by rewrite Ha].
  - done.
  - lia.
Qed.

Lemma erasable_artifacts t0 : erasable (artifacts_follow t0).
Proof.
  split; [by intros d r r' [_ Hd] _ _|].
  intros u email n d d' [_ Hd] _ Her. destruct (erased_artifacts _ _ _ _ _ Her) as [Hbusy Ht].
  refine (rows_follow_rewritten artifact_sound artifact_moves t0 _ _ d d' _ _ Hd Ht).
  - intros r m Hr. by apply artifact_touched.
  - intros k a Hk Ha Hsub. apply artifact_erased; [done|]. by eapply Hbusy.
Qed.

(** *** The audit trail *)

Lemma event_erased sn e :
  event_typed e -> let e' := (AuditErasure._minimise_audit_event sn e).1 in event_typed e' /\ event_kept e e'.
Proof.
  intros [c a t m ua]. cbv zeta. rewrite audit_row. split; [split; simpl; try done; by left|].
  split; simpl; [done|repeat case_match; first [by left|by right]..].
Qed.

Lemma event_touched n e : event_typed e -> event_typed (touch n e) /\ event_kept e (touch n e).
Proof. by intros He. Qed.

Lemma erasable_trail t0 : erasable (trail t0).
Proof.
  split; [by intros d r r' [_ Hd] _ _|].
  intros u email n d d' [_ Hd] _ Her. destruct (erased_events _ _ _ _ _ Her) as (sn & _ & _ & Ht).
  refine (rows_follow_rewritten event_typed event_kept t0 _ _ d d' _ _ Hd Ht).
  - intros e m He. by apply event_touched.
  - intros k e _ He _. by apply event_erased.
Qed.

(** *** Administrators *)

(** Every account keeps its status, and every one but the subject's its login. *)
Lemma erased_user u email n d d' v x :
  erased u email n d d' -> users d !! v = Some x ->
  exists x', users d' !! v = Some x' /\ User.status x' = User.status x /\
    (u <> v -> User.external_auth_id x' = User.external_auth_id x).
Proof.
  intros Her Hx. destruct (rewritten_lookup_old _ _ _ _ v x (erased_profile _ _ _ _ _ Her) Hx) as (x' & Hx' & Hw).
  exists x'. split; [exact Hx'|]. assert (Hrow : User.status (UserProfileErasure._anonymise_subject_profile x).1 = User.status x)
    by (by rewrite user_row). revert Hw. case_bool_decide as Hv; [|by intros ->]. split; [|by intros []].
  rewrite <- Hrow. by destruct Hw as [->|[m ->]].
Qed.

Lemma erased_active_admin u email n d d' k s :
  erased u email n d d' -> active_admin d k s ->
  exists s', active_admin d' k s' /\ PlatformStaff.user_id s' = PlatformStaff.user_id s.
Proof.
  intros Her [Hk Hadm].
  destruct (rewritten_lookup_old _ _ _ _ k s (erased_staff _ _ _ _ _ Her) Hk) as (s' & Hs' & Hw).
  exists s'. destruct (AuditErasure.subject_staff u s); [|subst s'; by split].
  destruct (staff_row u s) as (_ & Hu & Hr & Hss & _).
  assert (Hsame : PlatformStaff.user_id s' = PlatformStaff.user_id s /\
    PlatformStaff.role s' = PlatformStaff.role s /\ PlatformStaff.status s' = PlatformStaff.status s)
    by (destruct Hw as [->|[m ->]]; by split_and!).
  destruct Hsame as (Hu' & Hr' & Hst'). split; [split; [exact Hs'|]|exact Hu'].
  revert Hadm. unfold PlatformStaffRepository.is_active_platform_admin. by rewrite Hr', Hst'.
Qed.

(** An erasure leaves everybody else an administrator, and the subject one whose login is gone. *)
Lemma erased_administrator P u email n d d' v :
  erased u email n d d' -> u <> v \/ (forall x, P x) -> administrator P d v -> administrator P d' v.
Proof.
  intros Her HP [(x & Hx & Hst & Hl) (k & s & Hs & Hu)].
  destruct (erased_user _ _ _ _ _ v x Her Hx) as (x' & Hx' & Hst' & Hl').
  destruct (erased_active_admin _ _ _ _ _ k s Her Hs) as (s' & Hs' & Hu'). split.
  - exists x'. split; [exact Hx'|]. rewrite Hst'. split; [exact Hst|]. destruct HP as [Hne|HP]; [|apply HP].
    by rewrite Hl'.
  - exists k, s'. split; [exact Hs'|]. by rewrite Hu'.
Qed.

Lemma erasable_administered : erasable (administered any_login).
Proof.
  split; [by intros d r r' [_ Hd] _ _|].
  intros u email n d d' [_ [v Hv]] _ Her. exists v.
  refine (erased_administrator any_login _ _ _ _ _ v Her _ Hv). right. intros x. exact I.
Qed.

End Erasable.

#[export] Hint Resolve erasable_owned erasable_requests erasable_outbox erasable_artifacts erasable_trail
  erasable_administered keeps_execute_core : keeps.

Section Recorded.
Context `{Env}.

Lemma keeps_wf_execute_core request n :
  keeps wf (execute_core_erasure_for_approved_request request (Some n)).
Proof. intros d Hd. by apply execute_core_spec. Qed.

(** The event of an execution. *)
Lemma keeps_trail_execution t0 id res s n :
  keeps (under (trail t0)) (insert_row (_audit_execution id res s n)).
Proof.
  apply keeps_follow_insert; [apply _|].
  split; [by exists AuditCategory.COMPLIANCE|by exists AuditAction.DATA_SUBJECT_REQUEST_ERASURE_EXECUTED
    |by exists AuditTargetType.DATA_SUBJECT_REQUEST|by right|done].
Qed.

(** The subject of the request is somebody else. *)
Definition spared (k v : UUID) d : Prop :=
  forall r, data_subject_requests d !! k = Some r -> DataSubjectRequest.subject_user_id r <> Some v.

Lemma executed_administrator P a k n d out d' v :
  executed_by a k n d out d' -> spared k v d -> administrator P d v -> administrator P d' v.
Proof.
  intros (s & res & id & d1 & _ & _ & (r & Hr & _ & Hres) & _ & _ & ->) Hsp Hv.
  apply (administrator_frame P d1); [done..|].
  destruct (orchestration_status res); [|by destruct Hres as [_ ->]|].
  - destruct Hres as (_ & u & n1 & n2 & d2 & r1 & _ & Hu & _ & Her & _ & _ & ->).
    apply (administrator_frame P d2); [done..|].
    refine (erased_administrator P _ _ _ _ _ v Her _ _); [|exact Hv].
    left. intros ->. by apply (Hsp r Hr).
  - by destruct Hres as (_ & n1 & n2 & code & _ & ->).
Qed.

Lemma wp_execute_sparing P k a d v :
  wf d -> spared k v d -> administrator P d v ->
  wp (execute_approved_erasure_request_by_staff k a None) (fun _ => under (administered P)) any_exn d.
Proof.
  intros Hwf Hsp Hv.
  assert (Hn : forall n, wp (execute_approved_erasure_request_by_staff k a (Some n))
    (fun _ => under (administered P)) any_exn d).
  { intros n. apply execute_by_staff_spec; [done| |done]. intros out d' Hwf' Hout. split; [done|].
    exists v. by eapply executed_administrator. }
  apply wp_bind, wp_draw. intros i. specialize (Hn (clock i)).
  unfold execute_approved_erasure_request_by_staff in Hn.
  intros d0 t. specialize (Hn d0 t). exact Hn.
Qed.

End Recorded.

#[export] Hint Resolve keeps_wf_execute_core keeps_trail_execution : keeps.
