(* ===== verification/StepProofs.v ===== *)
(** What every request and every background job preserves, one invariant after the
    other. *)
From S2P Require Import SubjectExportProofs.
From S2P Require Import Prelude Errors Session Schema Tables Rows AuditLog Users Memberships.
From S2P Require Import Organisations MembershipServices Outbox Invites OutboxWorker Platform Commands.
From S2P Require Import ExportArtifacts DataSubjectRequests ExportArtifactServices ExportWorker.
From S2P Require Import PrivacyMaintenance Requests Api ExportArtifactsApi Application Fixtures AuditProofs.
From S2P Require Import UserProofs MembershipProofs OrganisationProofs InviteProofs OutboxProofs.
From S2P Require Import PlatformProofs CommandsProofs DataSubjectRequestProofs ExportArtifactProofs.
From S2P Require Import Erasures ErasureProofs InvariantProofs ErasureInvariantProofs.

(** *** Loops of the jobs *)
Section Loops.
Context `{Env} (I : Db -> Prop).

Lemma keeps_anonymise_windows settings t :
  (forall category before n, keeps I (AuditEventRepository.anonymise_events_older_than category before t n)) ->
  forall windows count, keeps I (AuditEventService.anonymise_windows settings t windows count).
Proof.
  intros Hk windows. induction windows as [|[category n] windows IH]; intros count; simpl;
    [apply keeps_ret|]. by apply keeps_bind.
Qed.

Lemma keeps_scrub_rows :
  (forall k, keeps I (update_row k InviteRepository.scrub_invite)) ->
  forall rows count, keeps I (InviteRepository.scrub_rows rows count).
Proof.
  intros Hk rows. induction rows as [|i rows IH]; intros count; simpl; [apply keeps_ret|].
  destruct (InviteAnonymisation.is_scrubbed_invite i); [done|]. by apply keeps_bind.
Qed.

End Loops.

Ltac job_step :=
  lazymatch goal with
  | |- keeps _ (AuditEventService.anonymise_windows _ _ _ _) => apply keeps_anonymise_windows; intros ???
  | |- keeps _ (InviteRepository.scrub_rows _ _) => apply keeps_scrub_rows; intros ?
  | |- keeps _ _ => keeps_step
  end.

(** ** Every request and every job *)
Section Steps.
Context `{Env} `{Network} `{IpNetworks} `{Crypto} `{Delivery} `{StorageAdapter} `{ArchiveFiles}.
Context (send : nat -> UUID -> result unit).

Ltac serve_solve :=
  unfold Application.discard; repeat handler_step; repeat job_step.

Lemma serve_owned c command : preserves (under owned) (Application.serve c command).
Proof. destruct command; simpl; serve_solve. Qed.

Lemma serve_requests_sound c command : preserves (under requests_sound) (Application.serve c command).
Proof. destruct command; simpl; serve_solve. Qed.

Lemma serve_outbox_sound c command : preserves (under outbox_sound) (Application.serve c command).
Proof. destruct command; simpl; serve_solve. Qed.

Lemma serve_trail t0 c command : preserves (under (trail t0)) (Application.serve c command).
Proof. destruct command; simpl; serve_solve. Qed.

Lemma job_trail t0 job : preserves (under (trail t0)) (Application.run_job send job).
Proof. destruct job; simpl; serve_solve. Qed.

Lemma serve_artifacts t0 c command :
  preserves (under (artifacts_follow t0)) (Application.serve c command).
Proof. destruct command; simpl; serve_solve. Qed.

Lemma job_artifacts t0 job : preserves (under (artifacts_follow t0)) (Application.run_job send job).
Proof. destruct job; simpl; serve_solve. Qed.

Lemma job_owned job : preserves (under owned) (Application.run_job send job).
Proof. destruct job; simpl; serve_solve. Qed.

Lemma job_requests_sound job : preserves (under requests_sound) (Application.run_job send job).
Proof. destruct job; simpl; serve_solve. Qed.

Lemma job_outbox_sound job : preserves (under outbox_sound) (Application.run_job send job).
Proof. destruct job; simpl; serve_solve. Qed.

(** *** Administrators *)

Lemma job_administered P job : preserves (under (administered P)) (Application.run_job send job).
Proof. destruct job; simpl; serve_solve. Qed.

(** The request executes an erasure. *)
Definition erases (command : Application.Command) : Prop :=
  match command with Application.ExecuteErasure _ => True | _ => False end.

Lemma serve_administered P c command :
  P (login c) -> ~ erases command -> preserves (under (administered P)) (Application.serve c command).
Proof.
  intros HP Her. destruct command; simpl; unfold Application.discard;
    (apply preserves_bind; [|intros; apply preserves_ret]);
    first [ by apply preserves_create_staff | by apply preserves_change_role | by apply preserves_suspend_staff
          | by apply preserves_restore_staff | by apply preserves_suspend_user | by apply preserves_restore_user
          | by destruct Her; exact I | serve_solve ].
Qed.

Lemma serve_any_administered c command :
  preserves (under (administered any_login)) (Application.serve c command).
Proof.
  destruct command; try (apply serve_administered; [exact I|by intros []]).
  simpl. serve_solve.
Qed.

(** The execution of an erasure whose subject is not the administrator [v]. *)
Lemma wp_erasure_sparing P k a ctx d v :
  wf d -> spared k v d -> administrator P d v ->
  wp (ErasureService.execute_approved_erasure_request_by_platform_staff k a ctx None)
    (fun _ => under (administered P)) any_exn d.
Proof.
  intros Hwf Hsp Hv. apply wp_bind, wp_translated.
  eapply wp_mono; [by apply (wp_execute_sparing P k a d v)| |done].
  intros r d' Hd'. revert d' Hd'.
  match goal with |- forall d', _ -> wp ?m _ _ d' => change (keeps (under (administered P)) m) end.
  repeat job_step.
Qed.

Lemma serve_sparing P c k d t v :
  wf d -> spared k v d -> administrator P d v ->
  under (administered P) (Application.commit_of (Application.serve c (Application.ExecuteErasure k)) d t).
Proof.
  intros Hwf Hsp Hv.
  enough (Hr : runs (Application.serve c (Application.ExecuteErasure k)) (fun _ => under (administered P)) d)
    by apply (Hr t).
  apply runs_bind, runs_bind. eapply runs_mono.
  - apply runs_commits, commits_platform_write; [done|]. intros a _. by apply (wp_erasure_sparing P _ _ _ _ v).
  - intros [[row deletions]|e] d' Hd'; [|by destruct Hd' as [-> _]; split; [done|exists v]].
    eapply runs_mono; [apply (runs_preserves (under (administered P))); [|exact Hd']; serve_solve|].
    intros [u|e] d'' Hd''; [by apply runs_ret|done].
Qed.

End Steps.
