(* ===== verification/ApplicationProofs.v ===== *)
(** Invariants of every reachable database, over all requests and jobs. *)
From S2P Require Import Prelude Errors Session Schema Tables Rows AuditLog Users Memberships.
From S2P Require Import Organisations MembershipServices Outbox Invites OutboxWorker Platform.
From S2P Require Import ExportArtifacts DataSubjectRequests ExportArtifactServices ExportWorker.
From S2P Require Import PrivacyMaintenance Requests Api ExportArtifactsApi Application Fixtures AuditProofs.
From S2P Require Import UserProofs MembershipProofs OrganisationProofs InviteProofs OutboxProofs.
From S2P Require Import PlatformProofs CommandsProofs DataSubjectRequestProofs ExportArtifactProofs InvariantProofs.
From S2P Require Import ErasureInvariantProofs StepProofs.

(** ** Reachability *)

(** What the services promise about every committed database. *)
Definition consistent (d : Db) : Prop :=
  wf d /\ owner_invariant d /\ requests_sound d /\ outbox_sound d /\ artifacts_sound d.

Section Reachability.
Context `{Env} `{Network} `{IpNetworks} `{Crypto} `{Delivery} `{StorageAdapter} `{ArchiveFiles}.
Context (send : nat -> UUID -> result unit).

Lemma preserves_commit (I : Db -> Prop) (m : M Db unit) d t :
  preserves I m -> I d -> I (Application.commit_of m d t).
Proof. intros Hm Hd. by apply Hm. Qed.

(** What every request and every job preserves holds of all later databases. *)
Lemma steps_preserve (I : Db -> Prop) d d' :
  (forall c command, preserves I (Application.serve c command)) ->
  (forall job, preserves I (Application.run_job send job)) ->
  rtc (Application.step send) d d' -> I d -> I d'.
Proof.
  intros Hs Hj Hsteps. induction Hsteps as [|d d1 d2 Hstep _ IH]; [done|]. intros Hd. apply IH.
  destruct Hstep as [c command t|job t]; [by apply Hs|by apply Hj].
Qed.

Lemma consistent_under d :
  consistent d <-> (under owned d /\ under requests_sound d) /\ under outbox_sound d /\ artifacts_sound d.
Proof.
  unfold consistent, under. split.
  - intros (Hwf & Ho & ? & ? & ?). apply owner_invariant_owned in Ho; auto 10.
  - intros [[[Hwf Ho] [_ ?]] [[_ ?] ?]]. apply owner_invariant_owned in Ho; auto 10.
Qed.

(** Artifacts stay sound and evolve as [artifact_moves] says. *)
Lemma steps_artifacts d d' :
  rtc (Application.step send) d d' -> wf d -> artifacts_sound d ->
  under (artifacts_follow (export_artifacts d)) d'.
Proof.
  intros Hsteps Hwf Hd.
  apply (steps_preserve (under (artifacts_follow (export_artifacts d))) d d'); [| |done|].
  - intros c command. apply serve_artifacts.
  - intros job. apply job_artifacts.
  - split; [done|by apply artifacts_follow_start].
Qed.

(** C1. Whatever sequence of the modelled requests, by any callers, and of background
    jobs is run, each over its own session and whether it returns or fails, every committed
    database stays consistent: rows respect the keys, the references and the
    unique indexes; an organisation with an active member has exactly one
    active owner; an approved or fulfilled data-subject request has a pipeline
    and a cleared representative; a settled invite event holds no address and
    no token, and only an event in processing carries a delivery claim; an
    export artifact holds a lease exactly while it is in processing, is ready
    only with a complete archive under a key of its own, and was delivered once
    or never. The empty database is consistent. *)
Theorem steps_keep_consistent d d' :
  rtc (Application.step send) d d' -> consistent d ->
  consistent d' /\ consistent empty_db.
Proof.
  intros Hsteps Hd. split.
  - apply consistent_under. apply consistent_under in Hd as (Hd & Hout & Hart).
    destruct (steps_artifacts d d' Hsteps (proj1 Hout) Hart) as [_ [Hart' _]].
    enough ((under owned d' /\ under requests_sound d') /\ under outbox_sound d') as [? ?] by done.
    cut ((under owned d /\ under requests_sound d) /\ under outbox_sound d); [|done].
    apply (steps_preserve (fun d => (under owned d /\ under requests_sound d) /\ under outbox_sound d));
      [intros c command|intros job|done]; (apply preserves_and; [apply preserves_and|]).
    + apply serve_owned.
    + apply serve_requests_sound.
    + apply serve_outbox_sound.
    + apply job_owned.
    + apply job_requests_sound.
    + apply job_outbox_sound.
  - split; [apply wf_ok_sound; reflexivity|]. split; [by left|]. by split_and!.
Qed.

(** An erasure that takes the login of nobody the platform needs: a user other than its subject
    is an administrator too. *)
Definition spares (P : string -> Prop) (d : Db) (command : Application.Command) : Prop :=
  match command with
  | Application.ExecuteErasure r => exists v, administrator P d v /\ spared r v d
  | _ => True
  end.

(** A step while the identity provider knows the logins [P]: its callers have one. *)
Inductive sparing_step (P : string -> Prop) (d : Db) : Db -> Prop :=
  | sparing_serve c command t :
      P (login c) -> spares P d command ->
      sparing_step P d (Application.commit_of (Application.serve c command) d t)
  | sparing_job job t : sparing_step P d (Application.commit_of (Application.run_job send job) d t).

(** C2. Administrators can lock themselves out only by an erasure. Let [P] be the logins
    the identity provider knows, one of which every caller has. If an active user with such a
    login holds an active administrator's record, this is so after any sequence of requests -
    demotions, suspensions of records and of accounts, by any administrators against each other -
    and of jobs, as long as no erasure is executed whose subject is then the only such user. The
    erasure of the only one is not refused: it takes his login, and what it leaves, as any
    sequence of requests and jobs does, is an active account with an administrator's record
    that nobody can log into any more. *)
Theorem never_without_administrator P d d' :
  wf d ->
  (rtc (sparing_step P) d d' -> administered P d -> administered P d') /\
  (rtc (Application.step send) d d' -> administered any_login d -> administered any_login d').
Proof.
  intros Hwf. split; intros Hsteps Hd.
  - enough (Hu' : under (administered P) d') by apply Hu'.
    assert (Hu : under (administered P) d) by done. clear Hwf Hd.
    induction Hsteps as [|d d1 d2 Hstep _ IH]; [done|]. apply IH. clear IH.
    destruct Hstep as [c command t Hc Hsp|job t]; [|by apply job_administered].
    destruct command; try (by apply serve_administered; [exact Hc|intros []|]).
    destruct Hsp as (v & Hv & Hsp). apply (serve_sparing P c _ d t v); [by destruct Hu|done..].
  - apply (steps_preserve (under (administered any_login)) d d' (serve_any_administered)
      (job_administered send any_login) Hsteps). by split.
Qed.

(** *** The lists of the retention pass *)

(** The purge names the object of an artifact with the status [s]. *)
Definition due (s : ExportArtifactStatus.t) (d : Db)
    (p : ExportArtifactService.ExportArtifactStoragePurge) : Prop :=
  exists a, export_artifacts d !! ExportArtifactService.purge_artifact_id p = Some a /\
    ExportArtifact.status a = s /\ ExportArtifactService.purge_expected_status p = s /\
    ExportArtifact.storage_key a = Some (ExportArtifactService.purge_storage_key p) /\
    ExportArtifact.storage_backend a = ExportArtifactService.purge_storage_backend p.

(** A transaction of the pass, run on the committed database [d], returns these purges - whose
    objects the pass then deletes - and commits [d']. *)
Inductive lists (d : Db) : ExportArtifactStatus.t -> list ExportArtifactService.ExportArtifactStoragePurge ->
    Db -> Prop :=
  | lists_cancelled settings n limit t summary purges w :
      PrivacyMaintenance.retain_and_list_cancelled settings n limit (mkWorld d NoTx t)
        = (Ok (summary, purges), w) -> lists d ExportArtifactStatus.CANCELLED purges (committed w)
  | lists_failed deleted limit processed t count purges w :
      PrivacyMaintenance.clear_and_list_failed deleted limit processed (mkWorld d NoTx t)
        = (Ok (count, purges), w) -> lists d ExportArtifactStatus.FAILED purges (committed w)
  | lists_expired n deleted limit processed t count purges w :
      PrivacyMaintenance.clear_and_expire n deleted limit processed (mkWorld d NoTx t)
        = (Ok (count, purges), w) -> lists d ExportArtifactStatus.EXPIRED purges (committed w).

Lemma storage_purges_due s d (P : ExportArtifact.t -> bool) l :
  wf d -> (forall a, P a = true -> ExportArtifact.status a = s) ->
  (forall a, a ∈ l -> a ∈ rows_where d P) ->
  Forall (due s d) (ExportArtifactService._storage_purges_for l).
Proof.
  intros Hwf HP Hl. apply Forall_forall. intros p (a & Ha%Hl & Hp)%list_elem_of_omap.
  apply elem_of_rows_where_wf in Ha as [Ha Hs%HP]; [|done]. simpl in Ha.
  destruct (ExportArtifact.storage_key a) as [key|] eqn:Hk; [|done].
  destruct (negb _); [done|]. injection Hp as <-. exists a. by split_and!.
Qed.

Lemma elem_of_first {A} (R : relation A) `{!RelDecision R} n (l : list A) x :
  x ∈ take n (merge_sort R l) -> x ∈ l.
Proof. intros Hx%(subseteq_take n). by rewrite merge_sort_Permutation in Hx. Qed.

Lemma wp_list_purges s limit (P : ExportArtifact.t -> bool) (R : relation ExportArtifact.t)
    `{!RelDecision R} n d :
  wf d -> (forall a, P a = true -> ExportArtifact.status a = s) ->
  wp (ExportArtifactService._validate_positive_limit limit ;;
      artifacts ← (rows ← select P; mret (take n (merge_sort R rows)));
      mret (ExportArtifactService._storage_purges_for artifacts))
    (fun purges d' => Forall (due s d') purges) any_exn d.
Proof.
  intros Hwf HP. apply wp_bind, wp_raise_if; [done|]. intros _.
  apply wp_bind, wp_bind, wp_select, wp_ret, wp_ret, (storage_purges_due s d P); [done..|].
  intros a. apply elem_of_first.
Qed.

(** What a transaction that ends in a list returns. *)
Lemma runs_listing {A} s (m : M Db (A * list ExportArtifactService.ExportArtifactStoragePurge)) d t a purges w :
  wp m (fun r d' => Forall (due s d') r.2) any_exn d ->
  begin m (mkWorld d NoTx t) = (Ok (a, purges), w) -> Forall (due s (committed w)) purges.
Proof.
  intros Hm Hr. pose proof (runs_begin m (fun r d' => match r with Ok r => Forall (due s d') r.2 | Err _ => True end) d) as Hb.
  destruct (Hb Hm t) as [_ Hq]. by rewrite Hr in Hq.
Qed.

Lemma wp_if_any_left s n (f : Z -> M Db (list ExportArtifactService.ExportArtifactStoragePurge)) d :
  (forall n, wp (f n) (fun purges d' => Forall (due s d') purges) any_exn d) ->
  wp (PrivacyMaintenance.if_any_left n f) (fun purges d' => Forall (due s d') purges) any_exn d.
Proof. intros Hf. unfold PrivacyMaintenance.if_any_left. destruct (0 <? n); [apply Hf|by apply wp_ret]. Qed.

Lemma has_status_true x a : ExportArtifactRepository.has_status x a = true -> ExportArtifact.status a = x.
Proof. apply bool_decide_eq_true. Qed.

(** The database on which a statement that keeps it well formed leaves the next one. *)
Lemma wp_after {A B} (m : M Db A) (f : A -> M Db B) Q d :
  wf d -> keeps wf m -> (forall a d', wf d' -> wp (f a) Q any_exn d') -> wp (m ≫= f) Q any_exn d.
Proof. intros Hwf Hm Hf. apply wp_bind. eapply wp_mono; [by apply Hm|by intros a d' Hd'; apply Hf|done]. Qed.

Lemma lists_due s d purges d' : wf d -> lists d s purges d' -> Forall (due s d') purges.
Proof.
  intros Hwf [settings n limit t summary l w Hr|deleted limit processed t count l w Hr
    |n deleted limit processed t count l w Hr]; (eapply runs_listing; [|exact Hr]).
  - apply wp_after; [done|repeat job_step|]. intros x d1 Hwf1. apply wp_bind.
    eapply wp_mono; [apply (wp_list_purges ExportArtifactStatus.CANCELLED)| |done]; [done| |].
    + intros a [[Ha _]%andb_true_iff _]%andb_true_iff. by apply has_status_true.
    + intros l' d2 Hl. by apply wp_ret.
  - apply wp_after; [done|repeat job_step|]. intros x d1 Hwf1. apply wp_bind.
    eapply wp_mono; [apply (wp_if_any_left ExportArtifactStatus.FAILED)| |done].
    + intros n. apply wp_list_purges; [done|]. intros a [Ha _]%andb_true_iff. by apply has_status_true.
    + intros l' d2 Hl. by apply wp_ret.
  - apply wp_after; [done|repeat job_step|]. intros x d1 Hwf1.
    apply wp_after; [done|repeat job_step|]. intros ids d2 Hwf2. apply wp_bind.
    eapply wp_mono; [apply (wp_if_any_left ExportArtifactStatus.EXPIRED)| |done].
    + intros n'. apply wp_list_purges; [done|]. intros a [[Ha _]%andb_true_iff _]%andb_true_iff.
      by apply has_status_true.
    + intros l' d3 Hl. by apply wp_ret.
Qed.

Lemma commit_discard {A} (m : M Db A) d t a w :
  m (mkWorld d NoTx t) = (Ok a, w) -> Application.commit_of (Application.discard m) d t = committed w.
Proof.
  intros Hm. unfold Application.commit_of, Application.discard.
  change ((m ≫= fun _ => mret tt) (mkWorld d NoTx t)) with
    (match m (mkWorld d NoTx t) with (Ok a, w') => (Ok tt, w') | (Err e, w') => (Err e, w') end).
  by rewrite Hm.
Qed.

Lemma lists_step s d purges d' : lists d s purges d' -> Application.step send d d'.
Proof.
  intros [settings n limit t summary l w Hr|deleted limit processed t count l w Hr
    |n deleted limit processed t count l w Hr]; rewrite <- (commit_discard _ _ _ _ _ Hr).
  - exact (Application.step_job send d (Application.RetainAndListCancelled settings n limit) t).
  - exact (Application.step_job send d (Application.ClearAndListFailed deleted limit processed) t).
  - exact (Application.step_job send d (Application.ClearAndExpire n deleted limit processed) t).
Qed.

(** The key of an artifact that can no longer be delivered is nobody's who waits or is ready. *)
Lemma key_stays_dead d d' k a key :
  rtc (Application.step send) d d' -> wf d -> artifacts_sound d ->
  export_artifacts d !! k = Some a -> live_upload (ExportArtifact.status a) = false ->
  ExportArtifact.storage_key a = Some key ->
  (forall k, is_Some (export_artifacts d' !! k) -> (k < 16 ^ 32)%N) ->
  forall k' a', export_artifacts d' !! k' = Some a' -> ExportArtifact.storage_key a' = Some key ->
    k' = k /\ live_upload (ExportArtifact.status a') = false.
Proof.
  intros Hsteps Hwf Hd Ha Hs Hkey Hbits k' a' Ha' Hkey'.
  destruct (steps_artifacts d d' Hsteps Hwf Hd) as [Hwf' [Hsound Hnow]].
  destruct (Hnow k a Ha) as (a1 & Ha1 & Hm).
  pose proof (wf_pk (R := ExportArtifact.t) d k a Hwf Ha) as Hk.
  pose proof (wf_pk (R := ExportArtifact.t) d' k' a' Hwf' Ha') as Hk'. simpl in Hk, Hk', Ha1.
  assert (Heq : k = k').
  { rewrite <- Hk, <- Hk'. apply (owned_key_inj _ _ key).
    - rewrite Hk. by apply Hbits.
    - rewrite Hk'. by apply Hbits.
    - by apply (sound_key a (Hd k a Ha)).
    - by apply (sound_key a' (Hsound k' a' Ha')). }
  subst k'. split; [done|]. replace a' with a1 by congruence. by apply (terminal_stays a).
Qed.

(** C3. The retention pass never deletes an archive that can be delivered, now or later. Take the
    list of objects that one of the three listing transactions of the pass returns, at any moment
    of any history. Every object on it is, in the database that transaction commits, the one of
    an artifact with the status the transaction asks for - cancelled, failed, expired - and the
    backend and key of that row. And however late the pass comes to delete the object, whatever
    requests and jobs run before (another worker's publication, a recovery, a retry), no
    artifact that is queued, in processing or ready uses its key then, and no other artifact
    does at all. *)
Theorem purge_spares_live_archives d d1 d2 s purges p :
  wf d -> artifacts_sound d ->
  lists d s purges d1 -> p ∈ purges -> rtc (Application.step send) d1 d2 ->
  (forall k, is_Some (export_artifacts d2 !! k) -> (k < 16 ^ 32)%N) ->
  due s d1 p /\
  s ∈ [ExportArtifactStatus.CANCELLED; ExportArtifactStatus.FAILED; ExportArtifactStatus.EXPIRED] /\
  forall k a, export_artifacts d2 !! k = Some a ->
    ExportArtifact.storage_key a = Some (ExportArtifactService.purge_storage_key p) ->
    k = ExportArtifactService.purge_artifact_id p /\ live_upload (ExportArtifact.status a) = false.
Proof.
  intros Hwf Hd Hl Hp Hsteps Hbits.
  assert (Hs : s ∈ [ExportArtifactStatus.CANCELLED; ExportArtifactStatus.FAILED; ExportArtifactStatus.EXPIRED])
    by (destruct Hl; set_solver).
  pose proof (proj1 (Forall_forall _ _) (lists_due s d purges d1 Hwf Hl) p Hp) as Hdue.
  destruct (steps_artifacts d d1 (rtc_once _ _ (lists_step s d purges d1 Hl)) Hwf Hd) as [Hwf1 [Hd1 _]].
  split; [exact Hdue|]. split; [exact Hs|]. intros k a Ha Hk.
  destruct Hdue as (a1 & Ha1 & Hst & _ & Hk1 & _).
  apply (key_stays_dead d1 d2 _ a1 (ExportArtifactService.purge_storage_key p)); try done.
  rewrite Hst. by destruct Hl.
Qed.

(** C4. The audit log is append-only and well typed. Along any sequence of requests
    and jobs, erasures included, no event disappears and none changes in what
    happened, to what kind of thing and when; the only changes drop personal data
    (actor, target, reason, metadata, address, user agent). If every event was well
    typed, every later event is: its category, action and target type are values
    of the declared enumerations, its metadata is one the validation accepts (no
    forbidden key, three levels, 8192 bytes) unless it records the execution of an
    erasure, and its user agent is one of the declared families. *)
Theorem audit_trail_append_only d d' :
  rtc (Application.step send) d d' -> wf d ->
  (forall k e, audit_events d !! k = Some e -> event_typed e) ->
  (forall k e', audit_events d' !! k = Some e' -> event_typed e') /\
  (forall k e, audit_events d !! k = Some e ->
     exists e', audit_events d' !! k = Some e' /\ event_kept e e').
Proof.
  intros Hsteps Hwf Hd.
  destruct (steps_preserve (under (trail (audit_events d))) d d') as [_ Ht]; [..|exact Ht].
  - intros c command. apply serve_trail.
  - intros job. apply job_trail.
  - done.
  - split; [done|]. by refine (rows_follow_refl (R := AuditEvent.t) _ event_kept d _).
Qed.

End Reachability.

(** ** Witnesses *)
Module Witness.
Import Fixtures.

Definition send (n : nat) (id : UUID) : result unit := Ok tt.
Definition ok_limit (n : nat) : result unit := Ok tt.

Definition call (name : string) : Call :=
  mkCall (mkRequestSettings false [] None) (Request.mk (Some "192.0.2.17"%string) None None None)
    (identity name) ok_limit.

(** An administrator suspends the other one, then the worker delivers an invite. *)
Definition db1 : Db :=
  Application.commit_of (Application.serve (call "root")
    (Application.SuspendPlatformStaff 52 "left")) db 0.
Definition db2 : Db :=
  Application.commit_of (Application.run_job send (Application.ProcessOutboxEvent 41)) db1 9.

Lemma two_steps : rtc (Application.step send) db db2.
Proof.
  eapply rtc_l; [apply (Application.step_serve send db)|].
  eapply rtc_l; [apply (Application.step_job send db1)|]. apply rtc_refl.
Qed.

Lemma db_rows {R} (t : gmap UUID R) k r : t !! k = Some r -> In (k, r) (map_to_list t).
Proof. intros Hr. by apply list_elem_of_In, elem_of_map_to_list. Qed.

(** The soundness of a concrete artifact. *)
Ltac sound_row :=
  split; simpl; try done; first
    [ intros ? [= <-]; exists "k.zip"%string; vm_compute; reflexivity | by left | by intros _ _; eauto 6
    | by intros _; eauto | by split; eauto ].

Lemma db_consistent : consistent db.
Proof.
  apply consistent_under. split; [split; (split; [exact db_wf|])|split; [split; [exact db_wf|]|]].
  - intros k m Hm%db_rows Ha. exists 21%N, (member 21 1 10 MembershipRole.OWNER).
    split; [reflexivity|]. split; [reflexivity|]. vm_compute in Hm.
    repeat (destruct Hm as [Hm|Hm]; [by injection Hm as <- <-|]). done.
  - intros k r Hr%db_rows [Hs|Hs]; vm_compute in Hr;
      repeat (destruct Hr as [Hr|Hr]; [injection Hr as <- <-|]); try done;
      split; eapply bool_decide_eq_true_1; reflexivity.
  - split.
    + intros k e He%db_rows _ Ht. vm_compute in He.
      repeat (destruct He as [He|He]; [injection He as <- <-; discriminate Ht|]). done.
    + intros k c Hc%db_rows. vm_compute in Hc. destruct Hc as [Hc|[]]. injection Hc as <- <-.
      eexists. by split.
  - intros k a Ha%db_rows. vm_compute in Ha. repeat (destruct Ha as [Ha|Ha]; [injection Ha as <- <-|]); try done;
      sound_row.
Qed.

Lemma steps_keep_consistent_witness :
  (exists e, outbox_events db2 !! 41%N = Some e /\ OutboxEvent.status e = OutboxStatus.PROCESSED) /\
  consistent db2.
Proof.
  split; [eexists; split; vm_compute; reflexivity|].
  exact (proj1 (steps_keep_consistent send db db2 two_steps db_consistent)).
Defined.

Lemma keys_bounded {R} (t : gmap UUID R) :
  forallb (fun kr => (kr.1 <? 16 ^ 32)%N) (map_to_list t) = true ->
  forall k, is_Some (t !! k) -> (k < 16 ^ 32)%N.
Proof.
  rewrite forallb_forall. intros Ht k [r Hr%db_rows%Ht]. by apply N.ltb_lt.
Qed.

Lemma exports_sound : artifacts_sound exports_db.
Proof.
  intros k a Ha%db_rows. vm_compute in Ha.
  repeat (destruct Ha as [Ha|Ha]; [injection Ha as <- <-|]); try done; sound_row.
Qed.

(** The transaction that lists failed artifacts, on the sample; then the worker claims what waits. *)
Definition listed : list ExportArtifactService.ExportArtifactStoragePurge * Db :=
  match PrivacyMaintenance.clear_and_list_failed [] 10 0 (mkWorld exports_db NoTx 0) with
  | (Ok (_, purges), w) => (purges, committed w)
  | (Err _, w) => ([], committed w)
  end.
Definition exports1 : Db :=
  Application.commit_of (Application.run_job send (Application.ClaimExports exports 5)) listed.2 0.
Definition purge84 : ExportArtifactService.ExportArtifactStoragePurge :=
  ExportArtifactService.mkPurge 84 ExportArtifactStatus.FAILED ExportArtifactStorageBackend.LOCAL
    ("exports/" ++ Uuid.str 84 ++ "/k.zip").

Lemma listed_failed : lists exports_db ExportArtifactStatus.FAILED listed.1 listed.2.
Proof.
  unfold listed. destruct (PrivacyMaintenance.clear_and_list_failed _ _ _ _) as [[[count purges]|e] w] eqn:Hr.
  - by eapply lists_failed.
  - exfalso. vm_compute in Hr. discriminate Hr.
Qed.

Lemma purge_spares_live_archives_witness :
  listed.1 = [purge84] /\
  (ExportArtifact.status <$> export_artifacts exports1 !! 81%N) = Some ExportArtifactStatus.PROCESSING /\
  (forall k a, export_artifacts exports1 !! k = Some a ->
     ExportArtifact.storage_key a = Some ("exports/" ++ Uuid.str 84 ++ "/k.zip")%string ->
     k = 84%N /\ live_upload (ExportArtifact.status a) = false).
Proof.
  assert (Hl : listed.1 = [purge84]) by (vm_compute; reflexivity).
  split; [exact Hl|]. split; [vm_compute; reflexivity|].
  refine (proj2 (proj2 (purge_spares_live_archives send exports_db listed.2 exports1 ExportArtifactStatus.FAILED
    listed.1 purge84 exports_db_wf exports_sound listed_failed _ _ _))).
  - rewrite Hl. by left.
  - eapply rtc_l; [apply (Application.step_job send listed.2)|]. apply rtc_refl.
  - apply keys_bounded. vm_compute. reflexivity.
Defined.

Lemma audit_trail_append_only_witness :
  (forall k e, audit_events db !! k = Some e -> event_typed e) /\
  (forall k e, audit_events db2 !! k = Some e -> event_typed e).
Proof.
  assert (Hdb : forall k e, audit_events db !! k = Some e -> event_typed e).
  { intros k e He%db_rows. vm_compute in He. repeat (destruct He as [He|He]; [injection He as <- <-|]); [|done].
    split; [by exists AuditCategory.TENANT|by exists AuditAction.MEMBERSHIP_REMOVED|
            by exists AuditTargetType.MEMBERSHIP|by left|done]. }
  split; [exact Hdb|]. exact (proj1 (audit_trail_append_only send db db2 two_steps db_wf Hdb)).
Defined.

(** *** Administrators *)

(** The logins of the sample's accounts. *)
Definition known (x : string) : Prop :=
  x ∈ ["auth|alice"; "auth|bob"; "auth|carol"; "auth|dave"; "auth|erin"; "auth|root"; "auth|toor"]%string.

Lemma root_administers d :
  users d !! 6%N = Some (user 6 "root" UserStatus.ACTIVE) ->
  platform_staff d !! 51%N = Some (staff 51 6 PlatformStaffRole.PLATFORM_ADMIN) ->
  administrator known d 6.
Proof.
  intros Hu Hs. split; [|by exists 51%N, (staff 51 6 PlatformStaffRole.PLATFORM_ADMIN)].
  exists (user 6 "root" UserStatus.ACTIVE). split_and!; [exact Hu|done|].
  eapply bool_decide_eq_true_1. vm_compute. reflexivity.
Qed.

(** An administrator suspends the other one, the worker delivers an invite, and the erasure of
    the one who is suspended is executed. *)
Definition erasure_of (subject : UUID) : DataSubjectRequest.t :=
  DataSubjectRequest.set_subject_user_id (Some subject)
    (request 63 DataSubjectRequestType.ERASE DataSubjectRequestStatus.APPROVED
      DataSubjectRequestExecutionStatus.NOT_STARTED DataSubjectRequestRequesterRole.SELF
      DataSubjectRequestRepresentativeStatus.NOT_REQUIRED).

Definition pending (subject : UUID) (d : Db) : Db :=
  set_data_subject_requests (<[63%N := erasure_of subject]> (data_subject_requests d)) d.

Definition admins1 : Db :=
  Application.commit_of (Application.serve (call "root")
    (Application.SuspendPlatformStaff 52 "left")) (pending 7 db) 0.
Definition admins2 : Db :=
  Application.commit_of (Application.run_job send (Application.ProcessOutboxEvent 41)) admins1 9.
Definition admins3 : Db :=
  Application.commit_of (Application.serve (call "root") (Application.ExecuteErasure 63)) admins2 20.

Lemma never_without_administrator_witness :
  (User.external_auth_id <$> users admins3 !! 7%N) = Some ("erased-user:" ++ Uuid.str 7)%string /\
  administered known admins3 /\ administered any_login admins3.
Proof.
  split; [vm_compute; reflexivity|].
  assert (Hwf : wf (pending 7 db)) by (apply wf_ok_sound; vm_compute; reflexivity).
  assert (Hroot : administrator known (pending 7 db) 6) by (apply root_administers; vm_compute; reflexivity).
  assert (Hlogin : known (login (call "root"))) by (eapply bool_decide_eq_true_1; vm_compute; reflexivity).
  destruct (never_without_administrator send known (pending 7 db) admins3 Hwf) as [Hknown Hany].
  split; [apply Hknown|apply Hany].
  - eapply rtc_l.
    { by apply (sparing_serve send known (pending 7 db) (call "root")
        (Application.SuspendPlatformStaff 52 "left") 0). }
    eapply rtc_l; [apply (sparing_job send known admins1)|].
    eapply rtc_l; [|apply rtc_refl].
    apply (sparing_serve send known admins2 (call "root") (Application.ExecuteErasure 63) 20); [done|].
    exists 6%N. split; [apply root_administers; vm_compute; reflexivity|].
    intros r Hr. vm_compute in Hr. by injection Hr as <-.
  - by exists 6%N.
  - eapply rtc_l; [apply (Application.step_serve send (pending 7 db))|].
    eapply rtc_l; [apply (Application.step_job send admins1)|].
    eapply rtc_l; [apply (Application.step_serve send admins2)|]. apply rtc_refl.
  - exists 6%N. destruct Hroot as [(x & Hx & Ha & _) Hs]. split; [by exists x|exact Hs].
Defined.

(** With one administrator and one compliance officer, the officer executes the approved erasure
    of the administrator. *)
Definition office_db : Db :=
  set_platform_staff (<[52%N := staff 52 7 PlatformStaffRole.COMPLIANCE_OFFICER]> (platform_staff db))
    (pending 6 db).
Definition locked_db : Db :=
  Application.commit_of (Application.serve (call "toor") (Application.ExecuteErasure 63)) office_db 0.

Lemma locked_staff k s :
  platform_staff locked_db !! k = Some s -> PlatformStaffRepository.is_active_platform_admin s = true ->
  PlatformStaff.user_id s = 6%N.
Proof.
  intros Hs%db_rows. vm_compute in Hs. intros Hadm.
  destruct Hs as [Hs|[Hs|[]]]; injection Hs as <- <-; first [reflexivity|discriminate Hadm].
Qed.

Lemma erasure_locks_out :
  administered known office_db /\ administered any_login locked_db /\ ~ administered known locked_db.
Proof.
  assert (Hroot : administrator known office_db 6) by (apply root_administers; vm_compute; reflexivity).
  split; [by exists 6%N|]. split.
  - assert (Hwf : wf office_db) by (apply wf_ok_sound; vm_compute; reflexivity).
    cut (under (administered any_login) locked_db); [by intros [_ ?]|]. unfold locked_db.
    apply preserves_commit; [apply serve_any_administered|split; [exact Hwf|]]. exists 6%N.
    destruct Hroot as [(x & Hx & Ha & _) Hs]. split; [by exists x|exact Hs].
  - intros (v & (x & Hx & _ & Hl) & k & s & [Hs Hadm] & Hv).
    rewrite (locked_staff k s Hs Hadm) in Hv. subst v. vm_compute in Hx. injection Hx as <-.
    revert Hl. eapply bool_decide_eq_false_1. vm_compute. reflexivity.
Qed.

End Witness.
